(* ===== verification/_CoqProject ===== *)
-Q . S2P
Prelude.v
Base64.v
Scan.v
Strings.v
Utf8.v
Nvram.v
Ring.v
Rstats.v
RstatsHistory.v
RstatsCalc.v
RstatsRun.v
RstatsStore.v
Timerange.v
TimerangeSpec.v
Cgi.v
AspParser.v
Sched.v
Avl.v
Cstats.v
CstatsSpec.v
CstatsStore.v
LinuxTimer.v
TimerQueue.v
TimerSpec.v
ShList.v
ShListSpec.v
IfNames.v
Inet.v
Wan.v
Mwan.v
MwanSpec.v
HttpMatch.v
HttpAuth.v
HttpAuthSpec.v
HttpRequest.v
HttpRequestSpec.v
BuildConfig.v
DefaultsTable.v
NvsetTable.v
Defaults.v
DefaultsSpec.v
SaveVars.v
SaveVarsSpec.v
Restrict.v
RestrictSpec.v
Rules.v
RulesSpec.v
Ndpi.v
NdpiSpec.v
FwEnv.v
Forward.v
RestrictRules.v
KillSwitch.v
Bwlimit.v
Pbr.v
Firewall.v
Filter.v
FilterShape.v
FilterSpec.v
QuotaWindow.v
Quotas.v
QuotaRun.v
Marks.v
QuotaDemo.v
QuotasSpec.v
QuotaRunSpec.v
QuotaLanSpec.v
QuotaWindowSpec.v
Qos.v
QosRun.v
QosSpec.v
QosRunSpec.v
Bandwidth.v
BandwidthSpec.v
BwCtl.v
BwCtlSpec.v
QuotaBackup.v
QuotaBackupSpec.v
