(* ===== verification/Prelude.v ===== *)
(** * Tomato64: a verification development

    Tomato64 is a router firmware: a Buildroot tree (src/tomato64) whose own
    programs are C packages under src/tomato64/package. A shared library
    (libshared) holds what they have in common; [rc] starts and configures the
    services and writes the rules of the packet filter; [httpd] serves the pages of
    www and stores the settings; the daemons [rstats] and [cstats] record traffic,
    [mwanroute] balances it over several WANs; netfilter extensions of the gargoyle
    packages match packets by time and count them for quotas. All of them read their
    configuration from NVRAM, a store of strings behind an external library.

    This development models the parts of that code whose behaviour is computed
    rather than delegated to other programs, as executable functions translated
    from the C sources, and proves what makes them correct. File names below are
    relative to src/tomato64/package; a file with the suffix Spec holds the theorems
    of the file without it.

    ** Files

    Shared:
    - Prelude.v: machine integers as [Z] with their wrap-arounds, C strings as
      lists of character codes without the terminator, printing of numbers, the
      shared tactics ([zify_all], [propify], [case_if]) and hints.
    - Scan.v, Inet.v: the conversions of [sscanf] and the functions for IPv4
      addresses of the C library that the programs use.
    - Ring.v: arrays used as rings, as lists from the oldest entry to the newest.

    The shared library (libshared/shared):
    - Base64.v: base64.c. Strings.v: strings.c. Avl.v: tree.h.
    - ShList.v, IfNames.v: shutils.c, lists of words edited in place, interface names
      and hardware addresses.
    - Nvram.v: bcmnvram.h and the name spaces of keys in misc.c. Wan.v: the state of
      a WAN in misc.c.
    - LinuxTimer.v, TimerQueue.v, TimerSpec.v: linux_timer.c, many timers over one
      kernel timer.
    - BuildConfig.v, DefaultsTable.v, Defaults.v: defaults.c, the default settings for
      every build, and their restoration in rc/rc/init.c and services.c.
    - Ndpi.v: ndpi.c, the protocols of the nDPI match.

    The web server (httpd/httpd):
    - Utf8.v: utf8.c. Cgi.v: cgi.c. AspParser.v: parser.c.
    - HttpMatch.v, HttpAuth.v, HttpRequest.v: httpd.c, webio.c and ttyd.c, the
      matching of paths, authentication and login sessions, and whole requests.
    - NvsetTable.v, SaveVars.v: tomato.c, the fields of the settings form, their checks
      and how an accepted form is stored.

    The daemons:
    - Rstats.v, RstatsHistory.v, RstatsCalc.v, RstatsStore.v: rstats/rstats/rstats.c;
      RstatsRun.v: what the passes of its [calc] credit to a WAN, one after the other.
    - Cstats.v, CstatsSpec.v, CstatsStore.v: cstats/cstats/cstats.c.
    - Mwan.v: rc/rc/mwan.c. Sched.v: rc/rc/sched.c.

    The packet filter (rc/rc):
    - Rules.v: the lines of rule files; RulesSpec.v: what iptables makes of them and
      what becomes of a packet; Marks.v: packets whose mark is tested and set.
    - FwEnv.v, Firewall.v, Filter.v: firewall.c, what the generators share, the four
      tables, and the filter table; FilterShape.v, FilterSpec.v: what it lets through.
    - Forward.v: forward.c. Restrict.v, RestrictRules.v: restrict.c. KillSwitch.v:
      rc.c. Bwlimit.v: bwlimit.c. Pbr.v: pbr.c.
    - Qos.v, QosRun.v, QosSpec.v, QosRunSpec.v: qos.c, the classes of connections and
      the script with the traffic classes.
    - QuotaWindow.v, Quotas.v, QuotaRun.v: quotas.c, when a quota is in force, its rules
      and files, its start and stop; QuotaDemo.v is the router of the examples.

    Netfilter extensions and their tools:
    - Timerange.v: gargoyle-timerange/extension/libxt_timerange.c and the walk of the
      kernel module over the list it builds.
    - Bandwidth.v: gargoyle-bandwidth/extension/libxt_bandwidth.c, the options of the
      match that counts.
    - BwCtl.v: gargoyle-quotas/tools/ipt_bwctl.c, reading and setting the counters.
    - QuotaBackup.v: gargoyle-quotas/tools/quota_backup.c and httpd/httpd/quotas.c.

    ** How the code is modelled

    Each operation of the sources is a function on an explicit state record;
    definitions keep the names of the C functions, and loops are structural or carry
    fuel. Functions that edit a buffer in place return its new contents. Undefined
    behaviour, a null pointer that is followed and an endless loop are values
    ([None], or constructors such as [Loops], [Fault], [Exit] and [Crashed]), so that
    their absence is a theorem. Pointers between timer events are indices into the
    array the code allocates, so that the intrusive lists and their sharing are those
    of the code. Conditional compilation is a parameter ([Build], [Config]): what is
    proved holds for every build, or names the builds it holds for. Functions that print rule files or scripts return
    the lines; functions that run programs return the commands in order.

    A table of rules is read back from the printed lines as iptables-restore reads them
    ([load_table], [chain_policy]), the policies of the chains included; whether the
    options of a match are accepted is asked of [Extensions]. A write to a file ends as
    [written] says: whole, not at all or in part; and every attempt to copy or rename may
    fail ([attempt]). The callbacks of timers are functions on the state of the module and
    may call it again. What the code reads twice, such as the state of the links in a round
    of mwan.c, is read from two arguments.

    What the programs ask of the system is a class, with the laws a theorem needs as
    named hypotheses: [Nvram] and [Store] (settings), [System], [Clock], [Calendar] and
    [TzCalls] (time), [Archive] and [NodeArchive] (compressed images), [Links] (files of
    the kernel and the state of links), [Machine], [Web] and [Shell] (processes,
    clients, commands), [Resolver] and [Domains] (names), [Radio], [Arch] (the width
    of a long), [Xtables] and [Addr6] (addresses as text), [Counters] (the kernel's
    side of the bandwidth match), [Stack] (memory that was never written), and
    [Packet] with [PacketLaws] (a packet, for what rules mean). Every theorem with such
    a hypothesis has a witness that instantiates it.

    ** What is proved

    - Packet filter: once the rules that are written are loaded, a packet of a new
      connection from outside reaches the router only by a rule for a service that is open
      ([input_default_deny]) and a LAN only by a rule that forwards
      ([wan_default_deny]); new connections between bridges are dropped unless the
      settings connect them ([bridges_isolated]); traffic to an address that the kill switch
      names does not leave by a WAN ([kill_switch_holds]); restrictions follow their
      schedules ([rcheck_follows_schedule], [in_sched_weekly]).
    - Quotas: the rules count and block exactly the packets of the quotas
      ([quotas_enforced]); counters are unique and those in the files
      ([counters_unique], [usage_follows_quotas]); limits of speed have their traffic
      classes ([limits_have_classes]); windows pass the parser of the match and mean
      what was written ([windows_survive], [arrange_covers]); the network of the hosts
      covers all bridges ([lan_subnet_covers]); the extension accepts what is written
      and sets the limit that was asked for ([quota_options_accepted]); usage survives
      a restart ([usage_survives_restart]).
    - Quality of service: a connection gets the class of the first record that fits
      ([connections_classified]), and which packets meet the class of their connection
      ([first_wan_shaped]).
    - Several WANs: connections are only marked for WANs with a routing table
      ([marks_have_tables]), and there is a default route while a WAN is up
      ([default_route_alive]).
    - Web: protected pages need the password ([protected_pages_need_password],
      [authenticated_iff_password]); the parsing of small requests ends
      ([small_requests_decided]); the matcher decides what
      patterns describe; forms are stored as posted or not at all
      ([accepted_form_saved], [refused_form], [request_confined]); UTF-8, templates and
      form decoding.
    - Settings: what a boot makes of every variable ([boot_restores_table]), and the
      migration of the names of protocols in stored rules ([migration_exact]).
    - Timers: every sequence of legal calls keeps the queue well formed and every call
      returns ([timer_module_safe]); deadlines ([timer_settime_schedules]).
    - Balanced trees refine a sorted table ([tree_implements_table]).
    - rstats and cstats: the passes credit the traffic of a WAN that stays in the table
      exactly ([traffic_conserved]), the history holds the last totals
      ([history_holds_recent_totals]), saving replaces the file in one step
      ([save_atomic]), hosts are kept, marked and read back ([pass_keeps_hosts],
      [hosts_saved_and_loaded]).
    - Word lists, Base64, addresses and names, the next scheduled run.

    Some theorems state behaviour the authors did not intend, where the code has it
    (cancelling and re-arming timers, the clean-up loop of rstats, a truncated archive that
    is copied over the saved history, ranges over midnight, quotas that
    start on the 29th of a month, the traffic classes of a second WAN, a signal while
    the counters are locked).

    ** Fuel

    [march] and the other walks over events: the size of the event array plus one,
    since a walk visits an event once. [balance]: the sizes of both subtrees plus
    eight; one more than the difference of heights is enough ([balance_any]).
    [sort_ranges], [find_word_loop], [replace_loop], [parse_loop], [sort_loop],
    [foreach_loop], [single_loop], [pton6_loop], [rename_loop], [web_pieces],
    [read_bands]: the length of their input, which each round shortens, plus one where
    the end is a round of its own; [header_loop]: the bytes of the request. [cleanup]:
    the number of entries. [next_allowed]: the minutes of a week. [widen] and
    [mask_bits]: 33, one more than the bits of an address. [lock_loop]: the
    milliseconds to wait. [send_loop] and [get_loop]: one more than the number of
    entries, since every message carries one. The chains of the filter table are at
    most five deep, those of the quotas three and those of the classes two ([run],
    [walk], [conn_walk]). Loops that wait for the system ([load_loop], the main loop)
    are bounded by the rounds of their environment or are step relations.

    ** Not modelled

    Start-up and the services of rc that only run other programs or write their
    configuration (init.c, services.c, network.c, wanlink, VPN, disks, wireless), and
    the pages of httpd that print the output of programs; the drivers and tables of
    boards; the kernel and board patches, except where a class states what the code
    relies on; the pages, the build files and vendored code. Failures of malloc, the
    text of log messages, the main loop of cstats, which repeats that of rstats, and
    [load_new] of both daemons are left out. *)

From Stdlib Require Import ZArith Lia.
From stdpp Require Import base list strings.

Local Open Scope Z_scope.

(** * Machine integers

    A C integer is a [Z]; the functions below are the wrap-arounds of the
    conversions the sources perform. *)

Definition u8 (x : Z) : Z := x mod 2 ^ 8.
Definition u16 (x : Z) : Z := x mod 2 ^ 16.
Definition u32 (x : Z) : Z := x mod 2 ^ 32.
Definition u64 (x : Z) : Z := x mod 2 ^ 64.
Definition s8 (x : Z) : Z := (x + 2 ^ 7) mod 2 ^ 8 - 2 ^ 7.
Definition s16 (x : Z) : Z := (x + 2 ^ 15) mod 2 ^ 16 - 2 ^ 15.
Definition s32 (x : Z) : Z := (x + 2 ^ 31) mod 2 ^ 32 - 2 ^ 31.
Definition s64 (x : Z) : Z := (x + 2 ^ 63) mod 2 ^ 64 - 2 ^ 63.

(** A byte of memory and a byte of a NUL terminated string. *)
Definition is_byte (c : Z) : Prop := 0 <= c < 256.
Definition is_char (c : Z) : Prop := 0 < c < 256.

Lemma u8_id x : 0 <= x < 256 -> u8 x = x.
Proof. intros. unfold u8. change (2 ^ 8) with 256. apply Z.mod_small. lia. Qed.
Lemma u16_id x : 0 <= x < 65536 -> u16 x = x.
Proof. intros. unfold u16. change (2 ^ 16) with 65536. apply Z.mod_small. lia. Qed.
Lemma u32_id x : 0 <= x < 4294967296 -> u32 x = x.
Proof. intros. unfold u32. change (2 ^ 32) with 4294967296. apply Z.mod_small. lia. Qed.
Lemma u64_id x : 0 <= x < 2 ^ 64 -> u64 x = x.
Proof. intros. unfold u64. apply Z.mod_small. lia. Qed.
Lemma u64_range x : 0 <= u64 x < 2 ^ 64.
Proof. apply Z.mod_pos_bound. lia. Qed.
Lemma s32_id x : - 2 ^ 31 <= x < 2 ^ 31 -> s32 x = x.
Proof. intros. unfold s32. rewrite Z.mod_small; lia. Qed.
Lemma s64_id x : - 2 ^ 63 <= x < 2 ^ 63 -> s64 x = x.
Proof. intros. unfold s64. rewrite Z.mod_small; lia. Qed.
Lemma s32_range x : - 2 ^ 31 <= s32 x < 2 ^ 31.
Proof. unfold s32. pose proof (Z.mod_pos_bound (x + 2 ^ 31) (2 ^ 32)). lia. Qed.

(** ** Shifts and masks as arithmetic *)

Lemma lor_shiftl_add x v n :
  0 <= n -> 0 <= v < 2 ^ n -> Z.lor (Z.shiftl x n) v = x * 2 ^ n + v.
Proof.
  intros Hn Hv. rewrite <- Z.shiftl_mul_pow2 by lia.
  symmetry. apply Z.add_nocarry_lor. apply Z.bits_inj'. intros i Hi.
  rewrite Z.land_spec, Z.bits_0, Z.shiftl_spec by lia.
  destruct (Z_lt_le_dec i n).
  - rewrite Z.testbit_neg_r by lia. done.
  - rewrite <- (Z.mod_small v (2 ^ n)) by lia.
    rewrite Z.mod_pow2_bits_high by lia. apply andb_false_r.
Qed.

Lemma lor_mul_add x v n :
  0 <= n -> 0 <= v < 2 ^ n -> Z.lor (x * 2 ^ n) v = x * 2 ^ n + v.
Proof. intros. rewrite <- (Z.shiftl_mul_pow2 x) at 1 by lia. by apply lor_shiftl_add. Qed.

Lemma shiftr_div x n : 0 <= n -> Z.shiftr x n = x / 2 ^ n.
Proof. intros. apply Z.shiftr_div_pow2. lia. Qed.

Lemma land_mask x n : 0 <= n -> Z.land x (2 ^ n - 1) = x mod 2 ^ n.
Proof. intros. rewrite <- Z.land_ones by lia. rewrite Z.ones_equiv. f_equal. Qed.

(** Finite checks over an initial segment of the integers. *)
Lemma forall_below (n : nat) (P : Z -> bool) :
  forallb (fun i => P (Z.of_nat i)) (seq 0 n) = true ->
  forall i, 0 <= i < Z.of_nat n -> P i = true.
Proof.
  intros HP i Hi. rewrite forallb_forall in HP.
  specialize (HP (Z.to_nat i)). rewrite Z2Nat.id in HP by lia. apply HP.
  apply in_seq. lia.
Qed.

(** * Characters and strings

    A C string is the list of the bytes before its NUL, each byte as an
    unsigned [Z]; reading the NUL, or past the list, gives 0. *)

Abbreviation cstr := (list Z).

Definition code (a : Ascii.ascii) : Z := Z.of_N (Ascii.N_of_ascii a).
(** A C character constant: [chr "x"] is ['x']. *)
Definition chr (s : string) : Z :=
  match s with EmptyString => 0 | String a _ => code a end.

Fixpoint bytes (s : string) : cstr :=
  match s with
  | EmptyString => []
  | String a s' => code a :: bytes s'
  end.

Definition char_at (s : cstr) (i : nat) : Z := nth i s 0.

(** The C string that starts at the head of a buffer: what precedes its first
    NUL. *)
Fixpoint until_nul (s : list Z) : cstr :=
  match s with
  | [] => []
  | c :: s' => if c =? 0 then [] else c :: until_nul s'
  end.

Definition strcmp_eq (a b : cstr) : bool := bool_decide (a = b).

Fixpoint prefix_of_str (p s : cstr) : bool :=
  match p, s with
  | [], _ => true
  | a :: p', b :: s' => (a =? b) && prefix_of_str p' s'
  | _ :: _, [] => false
  end.

Lemma until_nul_all s : Forall (fun c => c <> 0) s -> until_nul s = s.
Proof. induction 1 as [|c s Hc _ IH]; [done|]. cbn [until_nul]. by rewrite (proj2 (Z.eqb_neq _ _) Hc), IH. Qed.

(** [strstr]: the offset of the first occurrence. *)
Fixpoint strstr (s p : cstr) : option nat :=
  if prefix_of_str p s then Some 0%nat
  else match s with
       | [] => None
       | _ :: s' => S <$> strstr s' p
       end.

Lemma prefix_of_str_spec p s : prefix_of_str p s = true <-> exists k, s = p ++ k.
Proof.
  revert s. induction p as [|a p IH]; intros s; simpl.
  - split; [by exists s|done].
  - destruct s as [|b s].
    + split; [done|]. by intros [k Hk].
    + rewrite andb_true_iff, Z.eqb_eq, IH. split.
      * intros [-> [k ->]]. by exists k.
      * intros [k [= -> ->]]. eauto.
Qed.

Lemma strstr_Some s p i :
  strstr s p = Some i ->
  prefix_of_str p (drop i s) = true /\
  (i <= length s)%nat /\
  forall j, (j < i)%nat -> prefix_of_str p (drop j s) = false.
Proof.
  revert i. induction s as [|c s IH]; intros i; cbn [strstr];
    destruct (prefix_of_str p _) eqn:E.
  - intros [= <-]. repeat split; [done|simpl; lia|lia].
  - done.
  - intros [= <-]. repeat split; [done|simpl; lia|lia].
  - intros (j & Hj & ->)%fmap_Some. apply IH in Hj as (H1 & H2 & H3).
    repeat split; [done|simpl; lia|]. intros [|k] Hk; [done|]. apply H3. lia.
Qed.

Lemma strstr_None s p j : strstr s p = None -> prefix_of_str p (drop j s) = false.
Proof.
  revert j. induction s as [|c s IH]; intros j; cbn [strstr];
    destruct (prefix_of_str p _) eqn:E; try done.
  - intros _. by rewrite drop_nil.
  - intros H%fmap_None. destruct j; [done|]. by apply IH.
Qed.

(** [strchr] for a nonzero character: the offset of the first occurrence. *)
Fixpoint strchr (s : cstr) (c : Z) : option nat :=
  match s with
  | [] => None
  | a :: s' => if a =? c then Some 0%nat else S <$> strchr s' c
  end.

(** [strlcpy] into a buffer of [n] bytes. *)
Definition strlcpy (n : nat) (s : cstr) : cstr := take (n - 1) s.

(** <ctype.h> in the C locale. *)
Definition isdigit (c : Z) : bool := (48 <=? c) && (c <=? 57).
Definition isupper (c : Z) : bool := (65 <=? c) && (c <=? 90).
Definition islower (c : Z) : bool := (97 <=? c) && (c <=? 122).
Definition isprint (c : Z) : bool := (32 <=? c) && (c <=? 126).
Definition isspace (c : Z) : bool := ((9 <=? c) && (c <=? 13)) || (c =? 32).
Definition isxdigit (c : Z) : bool :=
  isdigit c || ((65 <=? c) && (c <=? 70)) || ((97 <=? c) && (c <=? 102)).
Definition tolower (c : Z) : Z := if isupper c then c + 32 else c.

(** * Decimal and hexadecimal numerals, as printf writes them *)

Definition digit_char (d : Z) : Z := if d <? 10 then 48 + d else 87 + d.

Fixpoint digits_fuel (fuel : nat) (base n : Z) (acc : cstr) : cstr :=
  match fuel with
  | O => acc
  | S f =>
      let acc' := digit_char (n mod base) :: acc in
      if n <? base then acc' else digits_fuel f base (n / base) acc'
  end.

(** 64 digits are enough for every 64-bit value in every base. *)
Definition print_u (base n : Z) : cstr := digits_fuel 64 base n [].
Definition print_d (n : Z) : cstr :=
  if n <? 0 then 45 :: print_u 10 (- n) else print_u 10 n.
(** [%0wx]: zero padded to [w] digits. *)
Definition pad_to (w : nat) (s : cstr) : cstr :=
  repeat 48 (w - length s) ++ s.

Lemma digits_fuel_length f base n acc k :
  2 <= base -> (0 < k)%nat -> 0 <= n < base ^ Z.of_nat k ->
  (length (digits_fuel f base n acc) <= length acc + k)%nat.
Proof.
  intros Hb. revert n acc k. induction f as [|f IH]; intros n acc k Hk Hn; simpl; [lia|].
  destruct (n <? base) eqn:E; simpl; [lia|]. apply Z.ltb_ge in E.
  destruct k as [|[|k]]; [lia|simpl in Hn; lia|].
  etransitivity; [apply (IH _ _ (S k))|simpl; lia]; [lia|].
  rewrite Nat2Z.inj_succ, Z.pow_succ_r in Hn by lia. split.
  - apply Z.div_pos; lia.
  - apply Z.div_lt_upper_bound; lia.
Qed.

Lemma digits_fuel_Forall (P : Z -> Prop) f base n acc :
  0 < base -> (forall d, 0 <= d < base -> P (digit_char d)) ->
  Forall P acc -> Forall P (digits_fuel f base n acc).
Proof.
  intros Hb HP. revert n acc. induction f as [|f IH]; intros n acc Ha; simpl; [done|].
  assert (Forall P (digit_char (n mod base) :: acc)).
  { constructor; [|done]. apply HP, Z.mod_pos_bound. lia. }
  destruct (n <? base); auto.
Qed.

Lemma print_u_length base n k :
  2 <= base -> (0 < k)%nat -> 0 <= n < base ^ Z.of_nat k ->
  (length (print_u base n) <= k)%nat.
Proof. intros. by apply (digits_fuel_length 64 base n [] k). Qed.

Lemma pad_to_length w s : (length s <= w)%nat -> length (pad_to w s) = w.
Proof. intros. unfold pad_to. rewrite length_app, repeat_length. lia. Qed.

(** Numerals consist of alphanumeric digits. *)
Definition is_numeral_char (c : Z) : Prop := 48 <= c <= 57 \/ 97 <= c <= 102.

Lemma print_u_chars base n :
  2 <= base <= 16 -> Forall is_numeral_char (print_u base n).
Proof.
  intros. apply digits_fuel_Forall; [lia| |constructor]. intros d Hd.
  unfold digit_char, is_numeral_char. destruct (d <? 10) eqn:E.
  - apply Z.ltb_lt in E. lia.
  - apply Z.ltb_ge in E. lia.
Qed.

Lemma pad_to_chars w s : Forall is_numeral_char s -> Forall is_numeral_char (pad_to w s).
Proof.
  intros. apply Forall_app. split; [|done].
  apply Forall_forall. intros x Hx%list_elem_of_In%repeat_spec.
  unfold is_numeral_char. lia.
Qed.

(** The value of a run of decimal digits, most significant first. *)
Fixpoint dec_value (acc : Z) (s : cstr) : Z :=
  match s with
  | [] => acc
  | c :: s' => if isdigit c then dec_value (acc * 10 + (c - 48)) s' else acc
  end.
Definition hex_val (c : Z) : Z :=
  if isdigit c then c - 48 else if c <=? 70 then c - 55 else c - 87.

(** * Automation *)

Create HintDb tomato discriminated.

(** Turns the boolean tests of the translated conditions into propositions. *)
Ltac propify :=
  repeat match goal with
  | H : (_ =? _) = true |- _ => apply Z.eqb_eq in H
  | H : (_ =? _) = false |- _ => apply Z.eqb_neq in H
  | H : (_ <? _) = true |- _ => apply Z.ltb_lt in H
  | H : (_ <? _) = false |- _ => apply Z.ltb_ge in H
  | H : (_ <=? _) = true |- _ => apply Z.leb_le in H
  | H : (_ <=? _) = false |- _ => apply Z.leb_gt in H
  | H : (_ =? _)%nat = true |- _ => apply Nat.eqb_eq in H
  | H : (_ =? _)%nat = false |- _ => apply Nat.eqb_neq in H
  | H : (_ <? _)%nat = true |- _ => apply Nat.ltb_lt in H
  | H : (_ <? _)%nat = false |- _ => apply Nat.ltb_ge in H
  | H : (_ <=? _)%nat = true |- _ => apply Nat.leb_le in H
  | H : (_ <=? _)%nat = false |- _ => apply Nat.leb_gt in H
  | H : negb _ = true |- _ => apply negb_true_iff in H
  | H : negb _ = false |- _ => apply negb_false_iff in H
  | H : (_ && _) = true |- _ => apply andb_true_iff in H; destruct H
  | H : (_ || _) = false |- _ => apply orb_false_iff in H; destruct H
  | H : (_ || _) = true |- _ => apply orb_true_iff in H
  | H : (_ && _) = false |- _ => apply andb_false_iff in H
  | H : bool_decide _ = true |- _ => apply bool_decide_eq_true in H
  | H : bool_decide _ = false |- _ => apply bool_decide_eq_false in H
  end.

(** Splits the innermost boolean conditional of the goal. *)
Ltac case_if :=
  match goal with
  | |- context [if ?b then _ else _] =>
      lazymatch b with
      | context [if _ then _ else _] => fail
      | _ => let E := fresh "E" in destruct b eqn:E
      end
  end.

Ltac zify_all := unfold is_byte, is_char in *; propify; try lia.

(** [Forall is_byte] of a concrete list. *)
Ltac solve_bytes := repeat constructor; unfold is_byte, is_char; lia.
