(* ===== verification/Base64.v ===== *)
(** Base64 coding (src/tomato64/package/libshared/shared/base64.c).

    [rstats] can keep its compressed history in NVRAM as Base64 text; the round trip and the buffer bounds below are what that relies
    on. *)

From Stdlib Require Import ZArith Lia Btauto.
From stdpp Require Import base list strings.
From S2P Require Import Prelude.

Local Open Scope Z_scope.

Module Base64.

Definition INT_MAX : Z := 2147483647.

Definition base64_xlat : cstr :=
  bytes "ABCDEFGHIJKLMNOPQRSTUVWXYZabcdefghijklmnopqrstuvwxyz0123456789+/".

(** [base64_xlat[i]], with the array's terminating NUL. *)
Definition xlat (i : Z) : Z := nth (Z.to_nat i) base64_xlat 0.

(** The bytes written to [out]; the C function returns their number. *)
Fixpoint base64_encode (inp : list Z) : cstr :=
  match inp with
  | a :: b :: c :: rest =>
      xlat (Z.shiftr a 2)
      :: xlat (Z.lor (Z.land (Z.shiftl a 4) 63) (Z.shiftr b 4))
      :: xlat (Z.lor (Z.land (Z.shiftl b 2) 63) (Z.shiftr c 6))
      :: xlat (Z.land c 63)
      :: base64_encode rest
  | [a; b] =>
      [ xlat (Z.shiftr a 2);
        xlat (Z.lor (Z.land (Z.shiftl a 4) 63) (Z.shiftr b 4));
        xlat (Z.land (Z.shiftl b 2) 63);
        chr "=" ]
  | [a] =>
      [ xlat (Z.shiftr a 2);
        xlat (Z.land (Z.shiftl a 4) 63);
        chr "="; chr "=" ]
  | [] => []
  end.

(** [strchr(base64_xlat, c) - base64_xlat]: [strchr] also finds the terminating
    NUL, at offset 64. *)
Definition xlat_index (c : Z) : option Z :=
  Z.of_nat <$> strchr (base64_xlat ++ [0]) c.

(** The decoder's loop: [n] sextets are gathered in [x]. *)
Fixpoint decode_loop (inp : cstr) (n x : Z) : list Z * Z * Z :=
  match inp with
  | [] => ([], n, x)
  | c :: rest =>
      if c =? chr "=" then ([], n, x)
      else match xlat_index c with
           | None => decode_loop rest n x
           | Some v =>
               let x' := Z.lor (u64 (Z.shiftl x 6)) v in
               if n + 1 =? 4 then
                 let '(out, n', x'') := decode_loop rest 0 0 in
                 (u8 (Z.shiftr x' 16)
                  :: u8 (Z.land (Z.shiftr x' 8) 255)
                  :: u8 (Z.land x' 255) :: out, n', x'')
               else decode_loop rest (n + 1) x'
           end
  end.

Definition base64_decode (inp : cstr) : list Z :=
  let '(out, n, x) := decode_loop inp 0 0 in
  if n =? 3 then out ++ [u8 (Z.shiftr x 10); u8 (Z.land (Z.shiftr x 2) 255)]
  else if n =? 2 then out ++ [u8 (Z.shiftr x 4)]
  else out.

Definition base64_encoded_len (len : Z) : Z :=
  if (len <? 0) || (len >? INT_MAX - 2) then 0
  else u32 (u32 (len + 2) / 3 * 4).

Definition base64_decoded_len (len : Z) : Z :=
  if (len <? 0) || (len >? INT_MAX - 3) then 0
  else u32 (u32 (len + 3) / 4 * 3).

Example encode_a : base64_encode (bytes "a") = bytes "YQ==".
Proof. reflexivity. Qed.
Example encode_aa : base64_encode (bytes "aa") = bytes "YWE=".
Proof. reflexivity. Qed.
Example decode_aaa : base64_decode (bytes "YW Fh") = bytes "aaa".
Proof. reflexivity. Qed.

(** ** The alphabet *)

Lemma forall_sextets (P : Z -> bool) :
  forallb (fun i => P (Z.of_nat i)) (seq 0 64) = true ->
  forall i, 0 <= i < 64 -> P i = true.
Proof. apply (forall_below 64). Qed.

Lemma xlat_index_xlat i : 0 <= i < 64 -> xlat_index (xlat i) = Some i.
Proof.
  intros Hi. apply (bool_decide_unpack (xlat_index (xlat i) = Some i)).
  apply Is_true_true_2. revert i Hi. apply forall_sextets. vm_compute. reflexivity.
Qed.

Lemma xlat_not_pad i : 0 <= i < 64 -> (xlat i =? chr "=") = false.
Proof.
  intros Hi. apply negb_true_iff. revert i Hi. apply forall_sextets. vm_compute.
  reflexivity.
Qed.

Lemma xlat_index_range c v : xlat_index c = Some v -> 0 <= v <= 64.
Proof.
  unfold xlat_index. intros H. apply fmap_Some in H as (n & Hn & ->).
  assert (n < length (base64_xlat ++ [0%Z]))%nat; [|rewrite length_app in *; simpl in *; lia].
  revert n Hn. generalize (base64_xlat ++ [0]). induction l as [|a l IH]; simpl; [done|].
  intros n. case_if; [intros [= <-]; lia|].
  intros (m & Hm & ->)%fmap_Some. specialize (IH m Hm). lia.
Qed.

(** ** Sextets as arithmetic *)

Local Ltac Zify.zify_post_hook ::= Z.div_mod_to_equations.

Lemma sextet_hi a : is_byte a -> Z.shiftr a 2 = a / 4.
Proof. intros. rewrite shiftr_div by lia. done. Qed.

Lemma sextet_mid a : is_byte a -> Z.land (Z.shiftl a 4) 63 = a mod 4 * 16.
Proof.
  unfold is_byte. intros. rewrite (land_mask _ 6) by lia.
  rewrite Z.shiftl_mul_pow2 by lia. simpl. lia.
Qed.

Lemma sextet_low b : is_byte b -> Z.land (Z.shiftl b 2) 63 = b mod 16 * 4.
Proof.
  unfold is_byte. intros. rewrite (land_mask _ 6) by lia.
  rewrite Z.shiftl_mul_pow2 by lia. simpl. lia.
Qed.

Lemma sextet_ab a b : is_byte a -> is_byte b ->
  Z.lor (Z.land (Z.shiftl a 4) 63) (Z.shiftr b 4) = a mod 4 * 16 + b / 16.
Proof.
  unfold is_byte. intros. rewrite sextet_mid by done.
  rewrite shiftr_div by lia. simpl. apply (lor_mul_add _ _ 4); lia.
Qed.

Lemma sextet_bc b c : is_byte b -> is_byte c ->
  Z.lor (Z.land (Z.shiftl b 2) 63) (Z.shiftr c 6) = b mod 16 * 4 + c / 64.
Proof.
  unfold is_byte. intros. rewrite sextet_low by done.
  rewrite shiftr_div by lia. simpl. apply (lor_mul_add _ _ 2); lia.
Qed.

Lemma sextet_last c : is_byte c -> Z.land c 63 = c mod 64.
Proof. intros. apply (land_mask _ 6). lia. Qed.

Create Rewrite HintDb sextet.
Hint Rewrite sextet_ab sextet_bc sextet_hi sextet_last
  using assumption : sextet.

(** One sextet of the decoder. *)
Lemma gather x v : 0 <= x < 2 ^ 18 -> 0 <= v < 64 ->
  Z.lor (u64 (Z.shiftl x 6)) v = x * 64 + v.
Proof.
  intros. rewrite u64_id; [apply (lor_shiftl_add x v 6); lia|].
  rewrite Z.shiftl_mul_pow2 by lia. lia.
Qed.

Lemma decode_xlat v rest n x : 0 <= v < 64 -> 0 <= x < 2 ^ 18 ->
  decode_loop (xlat v :: rest) n x =
  let x' := x * 64 + v in
  if n + 1 =? 4 then
    let '(out, n', x'') := decode_loop rest 0 0 in
    (u8 (x' / 65536) :: u8 (x' / 256) :: u8 x' :: out, n', x'')
  else decode_loop rest (n + 1) x'.
Proof.
  intros Hv Hx. cbn [decode_loop]. rewrite xlat_not_pad, xlat_index_xlat, gather by lia.
  cbv zeta. case_if; [|done]. destruct (decode_loop rest 0 0) as [[out n'] x''].
  rewrite !(land_mask _ 8), !shiftr_div by lia.
  unfold u8. rewrite !Z.mod_mod by lia. done.
Qed.

Lemma decode_xlat_more v rest n x : 0 <= v < 64 -> 0 <= x < 2 ^ 18 -> n < 3 ->
  decode_loop (xlat v :: rest) n x = decode_loop rest (n + 1) (x * 64 + v).
Proof. intros. rewrite decode_xlat by done. cbv zeta. case_if; [propify; lia|done]. Qed.

Lemma decode_pad c rest n x :
  c = chr "=" -> decode_loop (c :: rest) n x = ([], n, x).
Proof. by intros ->. Qed.

(** A full quantum: four sextets give back the three octets. *)
Lemma decode_quantum a b c rest : is_byte a -> is_byte b -> is_byte c ->
  decode_loop (xlat (a / 4) :: xlat (a mod 4 * 16 + b / 16)
               :: xlat (b mod 16 * 4 + c / 64) :: xlat (c mod 64) :: rest) 0 0 =
  let '(out, n, x) := decode_loop rest 0 0 in (a :: b :: c :: out, n, x).
Proof.
  unfold is_byte. intros. do 3 rewrite decode_xlat_more by lia.
  rewrite decode_xlat by lia. cbv zeta.
  change (0 + 1 + 1 + 1 + 1 =? 4) with true. cbv iota.
  destruct (decode_loop rest 0 0) as [[out n] x]. unfold u8. change (2 ^ 8) with 256.
  repeat f_equal; lia.
Qed.

(** [decode_loop] started at a quantum boundary, then the tail of
    [base64_decode]. *)
Lemma decode_app_quantum a b c s rest :
  is_byte a -> is_byte b -> is_byte c ->
  base64_decode rest = s ->
  base64_decode (xlat (a / 4) :: xlat (a mod 4 * 16 + b / 16)
                 :: xlat (b mod 16 * 4 + c / 64) :: xlat (c mod 64) :: rest)
  = a :: b :: c :: s.
Proof.
  intros Ha Hb Hc <-. unfold base64_decode. rewrite decode_quantum by done.
  destruct (decode_loop rest 0 0) as [[out n] x].
  case_if; [done|]. by case_if.
Qed.

Lemma list_ind3 {A} (P : list A -> Prop) :
  P [] -> (forall a, P [a]) -> (forall a b, P [a; b]) ->
  (forall a b c l, P l -> P (a :: b :: c :: l)) -> forall l, P l.
Proof.
  intros H0 H1 H2 H3. fix IH 1. intros [|a [|b [|c l]]]; [apply H0|apply H1|apply H2|apply H3, IH].
Qed.

Lemma base64_inverse (s : list Z) :
  Forall is_byte s -> base64_decode (base64_encode s) = s.
Proof.
  induction s as [|a|a b|a b c s IH] using list_ind3; intros Hs; [done|..];
    decompose_Forall_hyps; cbn [base64_encode]; autorewrite with sextet;
    rewrite ?sextet_mid, ?sextet_low by assumption.
  - unfold base64_decode. unfold is_byte in *. rewrite !decode_xlat_more by lia.
    rewrite decode_pad by done. change (0 + 1 + 1 =? 3) with false. cbn -[Z.shiftr u8].
    rewrite shiftr_div by lia. unfold u8. f_equal. lia.
  - unfold base64_decode. unfold is_byte in *. rewrite !decode_xlat_more by lia.
    rewrite decode_pad by done. change (0 + 1 + 1 + 1 =? 3) with true. cbn -[Z.shiftr u8 Z.land].
    rewrite (land_mask _ 8), !shiftr_div by lia. unfold u8.
    f_equal; [lia|]. f_equal. lia.
  - apply decode_app_quantum; auto.
Qed.

(** Decoding an encoded buffer gives the buffer back. *)
Theorem base64_roundtrip (s : list Z) :
  Forall is_byte s -> base64_decode (base64_encode s) = s.
Proof. apply base64_inverse. Qed.

(** Witness for [base64_roundtrip]. *)
Lemma base64_roundtrip_witness :
  base64_decode (base64_encode [0; 255; 16; 7]) = [0; 255; 16; 7].
Proof. apply base64_roundtrip. solve_bytes. Defined.

(** The encoder writes exactly [base64_encoded_len] bytes, which is the
    size the callers allocate, for every length an [int] can carry. *)
Theorem base64_encode_length (s : list Z) :
  Z.of_nat (length s) <= INT_MAX - 2 ->
  Z.of_nat (length (base64_encode s)) = base64_encoded_len (Z.of_nat (length s)).
Proof.
  unfold base64_encoded_len, INT_MAX. intros Hl.
  destruct (_ || _) eqn:E; [propify; lia|]. clear E.
  rewrite (u32_id (_ + 2)) by lia. rewrite u32_id by lia. clear Hl.
  induction s as [|a|a b|a b c s IH] using list_ind3; [done..|].
  cbn [base64_encode length]. lia.
Qed.

Lemma base64_encode_length_witness :
  Z.of_nat (length (base64_encode [1; 2; 3; 4])) = base64_encoded_len 4.
Proof. apply (base64_encode_length [1; 2; 3; 4]). vm_compute. discriminate. Defined.

Lemma decode_loop_length inp n x out n' x' :
  0 <= n <= 3 -> decode_loop inp n x = (out, n', x') ->
  0 <= n' <= 3 /\
  4 * Z.of_nat (length out) <= 3 * (Z.of_nat (length inp) + n - n').
Proof.
  revert n x out n' x'. induction inp as [|c inp IH]; intros n x out n' x' Hn; simpl.
  { intros [= <- <- <-]. simpl. lia. }
  case_if; [intros [= <- <- <-]; simpl; lia|].
  destruct (xlat_index c); [|intros H; apply IH in H; lia].
  case_if; [|intros H; propify; apply IH in H; lia].
  destruct (decode_loop inp 0 0) as [[o m] y] eqn:D. intros [= <- <- <-].
  apply IH in D; [|lia]. propify. simpl. lia.
Qed.

(** For any text, valid or not, the decoder writes at most
    [base64_decoded_len] bytes: the buffer its callers allocate is never
    overrun. *)
Theorem base64_decode_bounded (s : cstr) :
  Z.of_nat (length s) <= INT_MAX - 3 ->
  Z.of_nat (length (base64_decode s)) <= base64_decoded_len (Z.of_nat (length s)).
Proof.
  unfold base64_decoded_len, INT_MAX. intros Hl.
  destruct (_ || _) eqn:E; [propify; lia|]. clear E.
  rewrite (u32_id (_ + 3)) by lia. rewrite u32_id by lia.
  unfold base64_decode. destruct (decode_loop s 0 0) as [[out n] x] eqn:E.
  apply decode_loop_length in E; [|lia].
  case_if; [|case_if]; rewrite ?length_app; simpl; propify; lia.
Qed.

Lemma base64_decode_bounded_witness :
  Z.of_nat (length (base64_decode (bytes "YQ=="))) <= base64_decoded_len 4.
Proof. apply (base64_decode_bounded (bytes "YQ==")). vm_compute. discriminate. Defined.

End Base64.
