(* ===== verification/Scan.v ===== *)
(** The parts of the C library's number scanning that the daemons use: [sscanf]
    conversions for unsigned and signed decimals, [strtol]-like values,
    [strrchr], and the lemmas that a printed number is scanned back. *)

From Stdlib Require Import ZArith Lia.
From stdpp Require Import base list strings.
From S2P Require Import Prelude.

Local Open Scope Z_scope.

Module Scan.

(** Skips the characters that satisfy [P]. *)
Fixpoint skip_while (P : Z -> bool) (s : cstr) : cstr :=
  match s with
  | [] => []
  | c :: s' => if P c then skip_while P s' else s
  end.

Fixpoint take_until (P : Z -> bool) (s : cstr) : cstr :=
  match s with
  | [] => []
  | c :: s' => if P c then [] else c :: take_until P s'
  end.

(** The offset of the last occurrence, as [strrchr]. *)
Fixpoint strrchr (s : cstr) (c : Z) : option nat :=
  match s with
  | [] => None
  | x :: s' =>
      match strrchr s' c with
      | Some i => Some (S i)
      | None => if x =? c then Some 0%nat else None
      end
  end.

(** A numeral with its optional sign after leading white space: whether it is
    negative, its digits and the rest of the input. *)
Definition scan_numeral (s : cstr) : option (bool * cstr * cstr) :=
  let s := skip_while isspace s in
  let '(neg, s) :=
    match s with
    | 45 :: s' => (true, s')
    | 43 :: s' => (false, s')
    | _ => (false, s)
    end in
  let digits := take_until (fun c => negb (isdigit c)) s in
  match digits with
  | [] => None
  | _ => Some (neg, digits, drop (length digits) s)
  end.

(** The [%llu] conversion: [strtoull], which negates modulo 2^64 and saturates
    on overflow. *)
Definition scan_u64 (s : cstr) : option (Z * cstr) :=
  match scan_numeral s with
  | None => None
  | Some (neg, d, rest) =>
      let v := dec_value 0 d in
      Some ((if 2 ^ 64 <=? v then 2 ^ 64 - 1 else if neg then u64 (- v) else v), rest)
  end.

(** The [%*u] conversion: matched and thrown away. *)
Definition skip_u (s : cstr) : option cstr :=
  match scan_numeral s with None => None | Some (_, _, rest) => Some rest end.

Fixpoint skip_us (n : nat) (s : cstr) : option cstr :=
  match n with
  | O => Some s
  | S n' => match skip_u s with None => None | Some s' => skip_us n' s' end
  end.

(** The [%d] conversion for values an [int] can hold. *)
Definition scan_d (s : cstr) : option (Z * cstr) :=
  match scan_numeral s with
  | None => None
  | Some (neg, d, rest) =>
      Some (s32 (if neg then - dec_value 0 d else dec_value 0 d), rest)
  end.

(** * Scanning what was printed *)

Lemma dec_value_app acc s t :
  Forall (fun c => isdigit c = true) s -> dec_value acc (s ++ t) = dec_value (dec_value acc s) t.
Proof.
  intros Hs. revert acc. induction Hs as [|c s Hc Hs IH]; intros acc; [done|].
  simpl. rewrite Hc. apply IH.
Qed.

Lemma isdigit_digit d : 0 <= d < 10 -> isdigit (digit_char d) = true.
Proof. intros. unfold digit_char, isdigit. case_if; zify_all. Qed.

Lemma digit_char_val d : 0 <= d < 10 -> digit_char d - 48 = d.
Proof. intros. unfold digit_char. case_if; zify_all. Qed.

Lemma digits_fuel_value f n acc :
  0 <= n < 10 ^ Z.of_nat f ->
  Forall (fun c => isdigit c = true) acc ->
  dec_value 0 (digits_fuel f 10 n acc) = dec_value n acc.
Proof.
  revert n acc. induction f as [|f IH]; intros n acc Hn Ha.
  { simpl in *. by replace n with 0 by lia. }
  rewrite Nat2Z.inj_succ, Z.pow_succ_r in Hn by lia. cbn [digits_fuel].
  pose proof (Z.mod_pos_bound n 10 ltac:(lia)) as Hm.
  pose proof (Z.div_mod n 10 ltac:(lia)) as Hdm.
  assert (Hacc : forall a, dec_value a (digit_char (n mod 10) :: acc)
                           = dec_value (a * 10 + n mod 10) acc).
  { intros a. cbn [dec_value]. by rewrite isdigit_digit, digit_char_val. }
  case_if.
  - rewrite Hacc. propify. f_equal. rewrite Z.mod_small; lia.
  - rewrite IH.
    + rewrite Hacc. f_equal. lia.
    + split; [apply Z.div_pos; lia|apply Z.div_lt_upper_bound; lia].
    + constructor; [by apply isdigit_digit|done].
Qed.

Lemma print_u_value n : 0 <= n < 2 ^ 64 -> dec_value 0 (print_u 10 n) = n.
Proof. intros. unfold print_u. rewrite digits_fuel_value; [done|lia|constructor]. Qed.

Lemma print_u_digits n : Forall (fun c => isdigit c = true) (print_u 10 n).
Proof. apply digits_fuel_Forall; [lia|apply isdigit_digit|constructor]. Qed.

Lemma digits_fuel_nonempty f b m acc : acc <> [] \/ f <> O -> digits_fuel f b m acc <> [].
Proof.
  revert m acc. induction f as [|f IH]; intros m acc Ha; simpl; [naive_solver|].
  case_if; [done|]. apply IH. by left.
Qed.

Lemma print_u_nonempty b n : print_u b n <> [].
Proof. apply digits_fuel_nonempty. by right. Qed.

Lemma take_until_app P s t :
  Forall (fun c => P c = false) s -> match t with [] => True | c :: _ => P c = true end ->
  take_until P (s ++ t) = s.
Proof.
  intros Hs Ht. induction Hs as [|c s Hc Hs IH]; simpl.
  - destruct t as [|c t]; [done|]. simpl. by rewrite Ht.
  - by rewrite Hc, IH.
Qed.

Lemma skip_while_all P s t :
  Forall (fun c => P c = true) s -> match t with [] => True | c :: _ => P c = false end ->
  skip_while P (s ++ t) = t.
Proof.
  intros Hs Ht. induction Hs as [|c s Hc Hs IH]; simpl.
  - destruct t as [|c t]; [done|]. simpl. by rewrite Ht.
  - by rewrite Hc.
Qed.

(** What follows a numeral does not extend it. *)
Definition ends_numeral (rest : cstr) : Prop :=
  match rest with [] => True | c :: _ => isdigit c = false end.

Lemma scan_numeral_print sp n rest :
  Forall (fun c => isspace c = true) sp -> ends_numeral rest ->
  scan_numeral (sp ++ print_u 10 n ++ rest) = Some (false, print_u 10 n, rest).
Proof.
  intros Hsp Hr. pose proof (print_u_nonempty 10 n) as Hne.
  pose proof (print_u_digits n) as Hd. unfold scan_numeral.
  rewrite skip_while_all; [|done|].
  - assert (Hsgn : match print_u 10 n ++ rest with
                   | 45 :: s' => (true, s') | 43 :: s' => (false, s')
                   | _ => (false, print_u 10 n ++ rest) end = (false, print_u 10 n ++ rest)).
    { destruct (print_u 10 n) as [|c s]; [done|]. apply Forall_cons in Hd as [Hc _].
      unfold isdigit in Hc. propify. simpl.
      destruct c as [|c|c]; try lia.
      assert (c <> 45 /\ c <> 43)%positive by lia.
      repeat (destruct c as [c|c|]; try done; try lia). }
    rewrite Hsgn. rewrite take_until_app; [|by eapply Forall_impl; [exact Hd|intros x ->]|].
    + destruct (print_u 10 n) eqn:E; [done|]. rewrite <- E. by rewrite drop_app_length.
    + destruct rest as [|c r]; [done|]. simpl in Hr. by rewrite Hr.
  - destruct (print_u 10 n) as [|c s]; [done|]. apply Forall_cons in Hd as [Hc _].
    unfold isdigit, isspace in *. simpl. zify_all.
Qed.

Lemma scan_u64_print sp n rest :
  Forall (fun c => isspace c = true) sp -> 0 <= n < 2 ^ 64 -> ends_numeral rest ->
  scan_u64 (sp ++ print_u 10 n ++ rest) = Some (n, rest).
Proof.
  intros Hsp Hn Hr. unfold scan_u64. rewrite scan_numeral_print by done.
  rewrite print_u_value by done. rewrite (proj2 (Z.leb_gt _ _)) by lia. done.
Qed.

Lemma skip_u_print sp n rest :
  Forall (fun c => isspace c = true) sp -> ends_numeral rest ->
  skip_u (sp ++ print_u 10 n ++ rest) = Some rest.
Proof. intros. unfold skip_u. by rewrite scan_numeral_print. Qed.

End Scan.
