(* ===== verification/Strings.v ===== *)
(** String helpers of the shared library
    (src/tomato64/package/libshared/shared/strings.c).

    [find_word] is the membership test every daemon uses on its NVRAM word
    lists ([rstats_exclude], [log_events], ...); the others normalise user
    supplied text. Functions that edit their argument in place are modelled
    as functions from the old string to the new one. *)

From Stdlib Require Import ZArith Lia.
From stdpp Require Import base list strings.
From S2P Require Import Prelude.

Local Open Scope Z_scope.

Module Strings.

(** The characters [find_word] accepts before a word, and (with the NUL) after
    one. *)
Definition is_sep (c : Z) : bool := (c =? chr " ") || (c =? chr ",").
Definition is_end (c : Z) : bool := is_sep c || (c =? 0).

(** The loop of [find_word]: [p] is the scan position. At most
    [length buffer + 1] positions are tried. *)
Fixpoint find_word_loop (fuel : nat) (buffer word : cstr) (p : nat) : option nat :=
  match fuel with
  | O => None
  | S f =>
      match strstr (drop p buffer) word with
      | None => None
      | Some d =>
          let p := (p + d)%nat in
          if ((p =? 0)%nat || is_sep (char_at buffer (p - 1)))
             && is_end (char_at buffer (p + length word))
          then Some p
          else find_word_loop f buffer word (S p)
      end
  end.

(** The offset of the word, [None] for the null pointer. An empty [word] that
    is not found would make the C code scan past the terminating NUL; the loop
    stops there. *)
Definition find_word (buffer word : cstr) : option nat :=
  find_word_loop (S (length buffer)) buffer word 0.

Fixpoint drop_blanks (is_blank : Z -> bool) (s : cstr) : cstr :=
  match s with
  | [] => []
  | c :: s' => if is_blank c then drop_blanks is_blank s' else s
  end.

Definition rdrop_blanks (is_blank : Z -> bool) (s : cstr) : cstr :=
  rev (drop_blanks is_blank (rev s)).

Definition is_space (c : Z) : bool := c =? chr " ".

(** The new contents of [buffer] and the result. [q] is the kept prefix, [p] the
    offset where the kept suffix starts. *)
Definition remove_word (buffer word : cstr) : cstr * Z :=
  match strstr buffer word with
  | None => (buffer, 0)
  | Some i =>
      let p := (length buffer
                - length (drop_blanks is_space (drop (i + length word) buffer)))%nat in
      let q := rdrop_blanks is_space (take i buffer) in
      if char_at buffer (length q) =? 0 then (q ++ drop p buffer, 1)
      else (* the store through [q] may hit [*p] when the word is empty *)
        (q ++ chr " " :: drop p (<[length q := chr " "]> buffer), 1)
  end.

Definition is_blank (c : Z) : bool := (c =? chr " ") || (c =? 9).

Definition trimstr (str : cstr) : cstr :=
  match str with
  | [] => []
  | _ =>
      match drop_blanks is_blank str with
      | [] => []
      | c :: start => c :: rdrop_blanks is_blank start
      end
  end.

Fixpoint is_port (str : cstr) : bool :=
  match str with
  | [] => true
  | c :: str' =>
      if negb (isdigit c) && negb (c =? chr ":") && negb (c =? chr "-")
         && negb (c =? chr " ")
      then false else is_port str'
  end.

Fixpoint filter_space (str : cstr) : cstr :=
  match str with
  | [] => []
  | c :: str' => if c =? chr " " then filter_space str' else c :: filter_space str'
  end.

Definition format_port (str : cstr) : cstr :=
  map (fun c => if c =? chr "-" then chr ":" else c) (filter_space str).

Definition is_number (a : cstr) : Z :=
  let len := length a in
  if (len =? 0)%nat then 0
  else
    let j := length (List.filter (fun c => (c <=? 57) && (48 <=? c)) a) in
    if (j =? len)%nat then 1 else 0.

(** 0 for a white space character, 1 for any other. *)
Definition isspacex (ch : Z) : Z :=
  if ch =? 9 then 0 else if ch =? 13 then 0 else if ch =? 10 then 0
  else if ch =? 32 then 0 else 1.

(** [prev] is [*(src - 1)]; for the first character the C code reads the byte
    before the argument. *)
Fixpoint shrink_space (prev : Z) (src : cstr) (n : nat) : cstr :=
  match n, src with
  | S n', c :: src' =>
      if isspacex c =? 0 then
        if isspacex prev =? 0 then shrink_space c src' n'
        else chr " " :: shrink_space c src' n'
      else c :: shrink_space c src' n'
  | _, _ => []
  end.

Fixpoint del_str_line (str : cstr) : cstr :=
  match str with
  | [] => []
  | c :: str' => if c =? 10 then [] else c :: del_str_line str'
  end.

Example find_word_ex : find_word (bytes "br0,eth10 eth1") (bytes "eth1") = Some 10%nat.
Proof. reflexivity. Qed.
Example remove_word_ex :
  remove_word (bytes "aa  bb cc") (bytes "bb") = (bytes "aa cc", 1).
Proof. reflexivity. Qed.

(** ** [find_word] decides membership in the word list *)

(** Specification: the words of a list separated by spaces and commas. *)
Fixpoint words (s : cstr) : list cstr :=
  match s with
  | [] => [[]]
  | c :: s' =>
      if is_sep c then [] :: words s'
      else match words s' with
           | w :: ws => (c :: w) :: ws
           | [] => [[c]]
           end
  end.

(** A stand-alone occurrence of [word] at offset [i], as the code tests it. *)
Definition word_at (buffer word : cstr) (i : nat) : bool :=
  prefix_of_str word (drop i buffer)
  && ((i =? 0)%nat || is_sep (char_at buffer (i - 1)))
  && is_end (char_at buffer (i + length word)).

Lemma word_at_bound buffer word i :
  word <> [] -> word_at buffer word i = true -> (i < length buffer)%nat.
Proof.
  intros Hw H. unfold word_at in H. propify.
  apply prefix_of_str_spec in H as [k Hk].
  destruct (decide (i < length buffer)%nat); [done|].
  rewrite drop_ge in Hk by lia. destruct word; done.
Qed.

Lemma find_word_loop_spec fuel buffer word p :
  word <> [] -> (length buffer < p + fuel)%nat ->
  match find_word_loop fuel buffer word p with
  | Some i => word_at buffer word i = true /\ (p <= i)%nat /\
              forall j, (p <= j < i)%nat -> word_at buffer word j = false
  | None => forall j, (p <= j)%nat -> word_at buffer word j = false
  end.
Proof.
  intros Hw. revert p. induction fuel as [|f IH]; intros p Hf; simpl.
  { intros j Hj. destruct (word_at buffer word j) eqn:E; [|done].
    apply word_at_bound in E; [lia|done]. }
  destruct (strstr (drop p buffer) word) as [d|] eqn:E.
  2: { intros j Hj. unfold word_at. apply (strstr_None _ _ (j - p)) in E.
       rewrite drop_drop in E. replace (p + (j - p))%nat with j in E by lia.
       by rewrite E. }
  apply strstr_Some in E as (H1 & H2 & H3).
  rewrite drop_drop in H1.
  assert (Hlow : forall j, (p <= j < p + d)%nat -> word_at buffer word j = false).
  { intros j Hj. specialize (H3 (j - p)%nat). rewrite drop_drop in H3.
    replace (p + (j - p))%nat with j in H3 by lia. unfold word_at. by rewrite H3 by lia. }
  assert (Hat : word_at buffer word (p + d) =
    ((p + d =? 0)%nat || is_sep (char_at buffer (p + d - 1)))
      && is_end (char_at buffer (p + d + length word))) by (unfold word_at; by rewrite H1).
  rewrite <- Hat. destruct (word_at buffer word (p + d)) eqn:E.
  { split; [done|]. split; [lia|]. intros; apply Hlow; lia. }
  specialize (IH (S (p + d))).
  destruct (find_word_loop f buffer word (S (p + d))) as [i|].
  - destruct IH as (I1 & I2 & I3); [lia|]. repeat split; [done|lia|].
    intros j Hj. destruct (decide (j < p + d)%nat); [apply Hlow; lia|].
    destruct (decide (j = p + d)%nat) as [->|]; [done|]. apply I3; lia.
  - intros j Hj. destruct (decide (j < p + d)%nat); [apply Hlow; lia|].
    destruct (decide (j = p + d)%nat) as [->|]; [done|]. apply IH; lia.
Qed.

Lemma find_word_spec buffer word :
  word <> [] ->
  match find_word buffer word with
  | Some i => word_at buffer word i = true /\
              forall j, (j < i)%nat -> word_at buffer word j = false
  | None => forall j, word_at buffer word j = false
  end.
Proof.
  intros Hw. pose proof (find_word_loop_spec (S (length buffer)) buffer word 0 Hw) as H.
  unfold find_word. destruct (find_word_loop _ _ _ _).
  - destruct H as (H1 & _ & H2); [lia|]. split; [done|]. intros; apply H2; lia.
  - intros j. apply H; lia.
Qed.

(** *** The word list *)

Fixpoint take_word (s : cstr) : cstr :=
  match s with
  | [] => []
  | c :: s' => if is_sep c then [] else c :: take_word s'
  end.

Lemma words_head s : exists ws, words s = take_word s :: ws.
Proof.
  induction s as [|c s [ws IH]]; simpl; [eauto|].
  case_if; [eauto|]. rewrite IH. eauto.
Qed.

(** The words are the maximal separator-free runs that start the list or
    follow a separator. *)
Lemma elem_of_words_tail w s :
  w ∈ tail (words s) <->
  exists a c b, s = a ++ c :: b /\ is_sep c = true /\ w = take_word b.
Proof.
  induction s as [|c s IH]; simpl.
  - split; [by intros ?%elem_of_nil|]. intros (a & c & b & Hs & _). by destruct a.
  - destruct (words_head s) as [ws Hws]. rewrite Hws in *. simpl in IH.
    assert (Hc : (exists a d b, c :: s = a ++ d :: b /\ is_sep d = true /\ w = take_word b)
      <-> (is_sep c = true /\ w = take_word s) \/ w ∈ ws).
    { rewrite IH. split.
      - intros ([|x a] & d & b & [= -> ->] & ? & ->); [by left|]. right. by exists a, d, b.
      - intros [[? ->]|(a & d & b & -> & ? & ->)]; [by exists [], c, s|].
        by exists (c :: a), d, b. }
    rewrite Hc. clear Hc IH. destruct (is_sep c); simpl.
    + rewrite elem_of_cons. tauto.
    + intuition done.
Qed.

Lemma elem_of_words w s :
  w ∈ words s <->
  w = take_word s \/ exists a c b, s = a ++ c :: b /\ is_sep c = true /\ w = take_word b.
Proof.
  rewrite <- elem_of_words_tail. destruct (words_head s) as [ws ->]. apply elem_of_cons.
Qed.

Lemma take_word_prefix s :
  exists b, s = take_word s ++ b /\ is_end (char_at b 0) = true.
Proof.
  induction s as [|c s (b & Hb & He)]; simpl; [by exists []|].
  case_if; [exists (c :: s); unfold is_end, char_at; cbn [nth]; by rewrite E|].
  exists b. split; [|done]. simpl. by f_equal.
Qed.

Lemma take_word_app w b :
  Forall (fun c => is_end c = false) w -> is_end (char_at b 0) = true ->
  (forall c, c ∈ b -> c <> 0) -> take_word (w ++ b) = w.
Proof.
  intros Hw Hb Hz. induction Hw as [|c w Hc Hw IH]; simpl.
  - destruct b as [|c b]; [done|]. cbn [take_word].
    unfold is_end, char_at in Hb. cbn [nth] in Hb.
    destruct (is_sep c); [done|]. rewrite orb_false_l in Hb.
    propify. exfalso. apply (Hz c); [left|done].
  - unfold is_end in Hc. propify. rewrite H. by rewrite IH.
Qed.

(** [word_at] finds exactly the words that are separator-free. *)
Lemma word_at_words buffer word :
  Forall is_char buffer -> Forall (fun c => is_end c = false) word ->
  (exists i, word_at buffer word i = true) <-> word ∈ words buffer.
Proof.
  intros Hb Hw. rewrite elem_of_words.
  assert (Hz : forall k, (forall c, c ∈ drop k buffer -> c <> 0)).
  { intros k c Hc. eapply Forall_forall in Hb; [|eapply subseteq_drop; exact Hc].
    unfold is_char in Hb. lia. }
  assert (Hpre : forall k, prefix_of_str word (drop k buffer) = true ->
    is_end (char_at buffer (k + length word)) = true -> word = take_word (drop k buffer)).
  { intros k [b Hk]%prefix_of_str_spec He. rewrite Hk. symmetry. apply take_word_app; [done|..].
    - unfold char_at in *. rewrite nth_lookup in *.
      rewrite <- lookup_drop, Hk, lookup_app_r, Nat.sub_diag in He by lia. done.
    - intros c Hc. apply (Hz k). rewrite Hk. apply elem_of_app. by right. }
  split.
  - intros [i Hi]. unfold word_at in Hi. apply andb_true_iff in Hi as [Hi He].
    apply andb_true_iff in Hi as [Hp Hi]. apply orb_true_iff in Hi as [Hi|Hi].
    + propify. subst i. left. by apply (Hpre 0%nat).
    + destruct i as [|i]; [left; by apply (Hpre 0%nat)|]. right.
      simpl in Hi. rewrite Nat.sub_0_r in Hi. unfold char_at in Hi. rewrite nth_lookup in Hi.
      destruct (buffer !! i) as [c|] eqn:Ec; [|done]. simpl in Hi.
      exists (take i buffer), c, (drop (S i) buffer). split; [|split; [done|]].
      * symmetry. by apply take_drop_middle.
      * by apply Hpre.
  - intros Hor.
    assert (exists i, (i = 0%nat \/ is_sep (char_at buffer (i - 1)) = true) /\
      word = take_word (drop i buffer)) as (i & Hi & Ht).
    { destruct Hor as [->|(a & c & b & -> & Hc & ->)]; [exists 0%nat; auto|].
      exists (S (length a)). split.
      - right. unfold char_at. rewrite nth_lookup. simpl.
        rewrite Nat.sub_0_r, list_lookup_middle by done. done.
      - f_equal. change (c :: b) with ([c] ++ b). rewrite app_assoc.
        symmetry. apply drop_app_length'. rewrite length_app. simpl. lia. }
    exists i. destruct (take_word_prefix (drop i buffer)) as (b & Hd & He).
    rewrite <- Ht in Hd. unfold word_at. rewrite andb_true_iff, andb_true_iff. repeat split.
    + apply prefix_of_str_spec. eauto.
    + apply orb_true_iff. destruct Hi as [->|]; auto.
    + unfold char_at in *. rewrite nth_lookup in *.
      rewrite <- lookup_drop, Hd, lookup_app_r, Nat.sub_diag by lia. done.
Qed.

(** [find_word] finds a word exactly when it is one of the items of the
    space- or comma-separated list, and then returns the first stand-alone
    occurrence. *)
Theorem find_word_member (buffer word : cstr) :
  Forall is_char buffer -> word <> [] -> Forall (fun c => is_end c = false) word ->
  (is_Some (find_word buffer word) <-> word ∈ words buffer) /\
  (forall i, find_word buffer word = Some i ->
     word_at buffer word i = true /\
     forall j, (j < i)%nat -> word_at buffer word j = false).
Proof.
  intros Hb Hne Hw. pose proof (find_word_spec buffer word Hne) as H.
  rewrite <- word_at_words by done. split.
  - destruct (find_word buffer word) as [i|].
    + split; [|by eauto]. intros _. exists i. by destruct H.
    + split; [by intros [??]|]. intros [i Hi]. congruence.
  - intros i Hi. by rewrite Hi in H.
Qed.

Lemma find_word_member_witness :
  bytes "eth1" ∈ words (bytes "br0,eth10 eth1").
Proof.
  apply (find_word_member (bytes "br0,eth10 eth1") (bytes "eth1")).
  - solve_bytes.
  - done.
  - repeat constructor.
  - vm_compute. eauto.
Defined.

(** ** [trimstr] *)

Lemma drop_blanks_spec f s :
  exists a, s = a ++ drop_blanks f s /\ Forall (fun c => f c = true) a /\
    (drop_blanks f s = [] \/ f (char_at (drop_blanks f s) 0) = false).
Proof.
  induction s as [|c s (a & Hs & Ha & Hh)]; simpl; [exists []; auto|].
  case_if.
  - exists (c :: a). rewrite <- app_comm_cons, <- Hs. auto.
  - exists []. auto.
Qed.

Lemma rdrop_blanks_spec f s :
  exists b, s = rdrop_blanks f s ++ b /\ Forall (fun c => f c = true) b /\
    forall c, last (rdrop_blanks f s) = Some c -> f c = false.
Proof.
  destruct (drop_blanks_spec f (rev s)) as (a & Hs & Ha & Hh).
  exists (rev a). unfold rdrop_blanks. split; [|split].
  - rewrite <- rev_app_distr, <- Hs. by rewrite rev_involutive.
  - apply Forall_rev in Ha. done.
  - intros c. destruct (drop_blanks f (rev s)) as [|d l]; [done|].
    destruct Hh as [|Hh]; [done|]. simpl. rewrite last_snoc. intros [= <-]. done.
Qed.

(** [trimstr] removes exactly the blanks that flank the text: what is left
    neither starts nor ends with a blank, and only blanks were removed. *)
Theorem trimstr_spec (s : cstr) :
  exists a b, s = a ++ trimstr s ++ b /\
    Forall (fun c => is_blank c = true) a /\ Forall (fun c => is_blank c = true) b /\
    (forall c, head (trimstr s) = Some c -> is_blank c = false) /\
    (forall c, last (trimstr s) = Some c -> is_blank c = false).
Proof.
  destruct (drop_blanks_spec is_blank s) as (a & Hs & Ha & Hh).
  assert (trimstr s = match drop_blanks is_blank s with
    [] => [] | c :: start => c :: rdrop_blanks is_blank start end) as -> by (by destruct s).
  destruct (drop_blanks is_blank s) as [|c start].
  { exists a, []. rewrite !app_nil_r in *. simpl. repeat split; try done. }
  destruct Hh as [|Hc]; [done|]. simpl in Hc.
  destruct (rdrop_blanks_spec is_blank start) as (b & Hst & Hb & Hl).
  exists a, b. split; [|split; [done|split; [done|split]]].
  - rewrite Hs. f_equal. simpl. f_equal. done.
  - simpl. by intros d [= <-].
  - destruct (rdrop_blanks is_blank start) as [|d l] eqn:E.
    + simpl. by intros d [= <-].
    + rewrite last_cons_cons. exact Hl.
Qed.

End Strings.
