(* ===== verification/Utf8.v ===== *)
(** UTF-8 to JavaScript and HTML text (src/tomato64/package/httpd/httpd/utf8.c).

    [utf8_to_js_string] and [utf8_to_html_string] quote user supplied names for
    the pages httpd generates. The specification is RFC 3629: a string decodes
    exactly when it is the concatenation of the encodings of Unicode scalar
    values. *)

From Stdlib Require Import ZArith Lia.
From stdpp Require Import base list strings.
From S2P Require Import Prelude.

Local Open Scope Z_scope.

Module Utf8.

(** The counting loop; [None] is the [EILSEQ] exit. *)
Fixpoint utf16_size_loop (s : cstr) (count : Z) : option Z :=
  match s with
  | [] => Some count
  | byte :: s1 =>
      if byte <? 0xC0 then utf16_size_loop s1 (count + 1)
      else if 0xF5 <=? byte then None
      else match s1 with
           | [] => Some (count + 1)
           | _ :: s2 =>
               match s2 with
               | [] => Some (count + 1)
               | _ :: s3 =>
                   if byte <? 0xE0 then utf16_size_loop s2 (count + 1)
                   else match s3 with
                        | [] => Some (count + 1)
                        | _ :: s4 =>
                            if byte <? 0xF0 then utf16_size_loop s3 (count + 1)
                            else utf16_size_loop s4 (count + 1 + 1)
                        end
               end
           end
  end.

Definition utf8_to_utf16_size (s : cstr) : Z :=
  match utf16_size_loop s 0 with
  | Some count => s32 count
  | None => -1
  end.

Definition is_cont (b : Z) : bool := Z.land b 0xC0 =? 0x80.

(** [Some (wc, n)] when the C function stores [wc] and returns [n], [None] for
    -1. *)
Definition utf8_to_unicode (s : cstr) : option (Z * nat) :=
  let byte := char_at s 0 in
  let s1 := char_at s 1 in
  let s2 := char_at s 2 in
  let s3 := char_at s 3 in
  if byte =? 0 then Some (0, 0%nat)
  else if byte <? 0x80 then Some (byte, 1%nat)
  else if byte <? 0xC2 then None
  else if byte <? 0xE0 then
    if is_cont s1 then
      Some (Z.lor (Z.shiftl (Z.land byte 0x1F) 6) (Z.land s1 0x3F), 2%nat)
    else None
  else if byte <? 0xF0 then
    if is_cont s1 && is_cont s2 then
      let wc := Z.lor (Z.lor (Z.shiftl (Z.land byte 0x0F) 12)
                             (Z.shiftl (Z.land s1 0x3F) 6))
                      (Z.land s2 0x3F) in
      if ((0x800 <=? wc) && (wc <=? 0xD7FF)) || ((0xE000 <=? wc) && (wc <=? 0xFFFF))
      then Some (wc, 3%nat) else None
    else None
  else if byte <? 0xF5 then
    if is_cont s1 && is_cont s2 && is_cont s3 then
      let wc := Z.lor (Z.lor (Z.lor (Z.shiftl (Z.land byte 0x07) 18)
                                    (Z.shiftl (Z.land s1 0x3F) 12))
                             (Z.shiftl (Z.land s2 0x3F) 6))
                      (Z.land s3 0x3F) in
      if (wc <=? 0x10FFFF) && (0x10000 <=? wc) then Some (wc, 4%nat) else None
    else None
  else None.

(** The converters append their text to the output, of which [rem] bytes
    remain; [None] is the null pointer. *)
Definition put_text (rem : Z) (t : cstr) : option cstr :=
  if rem <=? Z.of_nat (length t) then None else Some t.
Definition put_char (rem : Z) (c : Z) : option cstr :=
  if rem <? 2 then None else Some [c].

Definition js_utf16_char (u rem : Z) : option cstr :=
  let c := u8 u in
  if u <=? 0xFF then
    if (c =? 34) || (c =? chr "'") || (c =? chr "\") || negb (isprint c)
    then put_text rem (bytes "\x" ++ pad_to 2 (print_u 16 c))
    else put_char rem c
  else put_text rem (bytes "\u" ++ pad_to 4 (print_u 16 u)).

Definition html_utf16_char (u rem : Z) : option cstr :=
  let c := u8 u in
  if (0xFF <? u) || (c =? chr "&") || (c =? chr "<") || (c =? chr ">")
     || (c =? 34) || (c =? chr "'") || negb (isprint c)
  then put_text rem (bytes "&#" ++ print_u 10 u ++ bytes ";")
  else put_char rem c.

Section Convert.
(** [conv] is the converter the two entry points pass, [malloc_ok] says
    whether the allocation succeeds. *)
Context (conv : Z -> Z -> option cstr) (malloc_ok : bool).

Fixpoint convert_loop (fuel : nat) (out_size : Z) (t outs : cstr) : option cstr :=
  match fuel with
  | O => None
  | S f =>
      let rem outs := out_size - Z.of_nat (length outs) in
      match utf8_to_unicode t with
      | None => None
      | Some (wc, O) => Some outs
      | Some (wc, m) =>
          if wc <? 0x10000 then
            match conv wc (rem outs) with
            | None => None
            | Some a => convert_loop f out_size (drop m t) (outs ++ a)
            end
          else
            let wc := wc - 0x10000 in
            match conv (u16 (Z.shiftr wc 10 + 0xD800)) (rem outs) with
            | None => None
            | Some a =>
                match conv (u16 (Z.land wc 0x3FF + 0xDC00)) (rem (outs ++ a)) with
                | None => None
                | Some b => convert_loop f out_size (drop m t) ((outs ++ a) ++ b)
                end
            end
      end
  end.

Definition utf8_to_string (ins : cstr) (csize : Z) : option cstr :=
  let shorts := utf8_to_utf16_size ins in
  if (shorts <=? 0) || (csize <=? 0) then None
  else if (2 ^ 64 - 1 - 1) / csize - 1 <? shorts then None
  else if malloc_ok
       then convert_loop (S (length ins)) ((shorts + 1) * csize + 1) ins []
       else None.
End Convert.

Definition utf8_to_js_string (malloc_ok : bool) (ins : cstr) : option cstr :=
  utf8_to_string js_utf16_char malloc_ok ins 6.

Definition utf8_to_html_string (malloc_ok : bool) (ins : cstr) : option cstr :=
  utf8_to_string html_utf16_char malloc_ok ins 8.

Example js_ex :
  utf8_to_js_string true [0x61; 0xC3; 0xA9; 0x22; 0xF0; 0x9F; 0x98; 0x80]
  = Some (bytes "a\xe9\x22\ud83d\ude00").
Proof. vm_compute. reflexivity. Qed.

(** ** RFC 3629 *)

Definition utf8_encode (wc : Z) : cstr :=
  if wc <? 0x80 then [wc]
  else if wc <? 0x800 then [0xC0 + wc / 64; 0x80 + wc mod 64]
  else if wc <? 0x10000 then
    [0xE0 + wc / 4096; 0x80 + wc / 64 mod 64; 0x80 + wc mod 64]
  else [0xF0 + wc / 262144; 0x80 + wc / 4096 mod 64; 0x80 + wc / 64 mod 64;
        0x80 + wc mod 64].

(** A Unicode scalar value other than U+0000, which a C string cannot hold. *)
Definition is_scalar (wc : Z) : Prop :=
  0 < wc <= 0x10FFFF /\ ~ 0xD800 <= wc <= 0xDFFF.

Local Ltac Zify.zify_post_hook ::= Z.div_mod_to_equations.

Lemma is_cont_range b : is_byte b -> is_cont b = ((0x80 <=? b) && (b <? 0xC0)).
Proof.
  unfold is_byte. intros Hb. apply eqb_prop. revert b Hb.
  apply (forall_below 256 (fun b => eqb (is_cont b) ((0x80 <=? b) && (b <? 0xC0)))).
  vm_compute. reflexivity.
Qed.

Lemma wc2 a b : Z.lor (Z.shiftl (Z.land a 0x1F) 6) (Z.land b 0x3F)
  = a mod 32 * 64 + b mod 64.
Proof.
  rewrite (land_mask _ 5), (land_mask _ 6) by lia. apply (lor_shiftl_add _ _ 6); lia.
Qed.

Lemma wc3 a b c :
  Z.lor (Z.lor (Z.shiftl (Z.land a 0x0F) 12) (Z.shiftl (Z.land b 0x3F) 6)) (Z.land c 0x3F)
  = a mod 16 * 4096 + b mod 64 * 64 + c mod 64.
Proof.
  rewrite (land_mask _ 4), !(land_mask _ 6) by lia.
  rewrite (lor_shiftl_add _ _ 12) by (rewrite ?Z.shiftl_mul_pow2; lia).
  rewrite Z.shiftl_mul_pow2 by lia.
  replace (a mod 2 ^ 4 * 2 ^ 12 + b mod 2 ^ 6 * 2 ^ 6)
    with ((a mod 2 ^ 4 * 64 + b mod 2 ^ 6) * 2 ^ 6) by lia.
  rewrite (lor_mul_add _ _ 6) by lia. lia.
Qed.

Lemma wc4 a b c d :
  Z.lor (Z.lor (Z.lor (Z.shiftl (Z.land a 0x07) 18) (Z.shiftl (Z.land b 0x3F) 12))
               (Z.shiftl (Z.land c 0x3F) 6)) (Z.land d 0x3F)
  = a mod 8 * 262144 + b mod 64 * 4096 + c mod 64 * 64 + d mod 64.
Proof.
  rewrite (land_mask _ 3), !(land_mask _ 6) by lia.
  rewrite (lor_shiftl_add _ _ 18) by (rewrite ?Z.shiftl_mul_pow2; lia).
  rewrite !Z.shiftl_mul_pow2 by lia.
  replace (a mod 2 ^ 3 * 2 ^ 18 + b mod 2 ^ 6 * 2 ^ 12)
    with ((a mod 2 ^ 3 * 64 + b mod 2 ^ 6) * 2 ^ 12) by lia.
  rewrite (lor_mul_add _ _ 12) by lia.
  replace ((a mod 2 ^ 3 * 64 + b mod 2 ^ 6) * 2 ^ 12 + c mod 2 ^ 6 * 2 ^ 6)
    with ((a mod 2 ^ 3 * 4096 + b mod 2 ^ 6 * 64 + c mod 2 ^ 6) * 2 ^ 6) by lia.
  rewrite (lor_mul_add _ _ 6) by lia. lia.
Qed.

Lemma char_at_byte s i : Forall is_byte s -> is_byte (char_at s i).
Proof.
  intros Hs. unfold char_at. rewrite nth_lookup. destruct (s !! i) as [c|] eqn:E; simpl.
  - eapply Forall_lookup_1; eauto.
  - unfold is_byte. lia.
Qed.

(** The decoder with its bit operations read as arithmetic. *)
Lemma utf8_to_unicode_arith s : Forall is_byte s ->
  utf8_to_unicode s =
  let b0 := char_at s 0 in let b1 := char_at s 1 in
  let b2 := char_at s 2 in let b3 := char_at s 3 in
  let cont b := (0x80 <=? b) && (b <? 0xC0) in
  if b0 =? 0 then Some (0, 0%nat)
  else if b0 <? 0x80 then Some (b0, 1%nat)
  else if b0 <? 0xC2 then None
  else if b0 <? 0xE0 then
    if cont b1 then Some (b0 mod 32 * 64 + b1 mod 64, 2%nat) else None
  else if b0 <? 0xF0 then
    let wc := b0 mod 16 * 4096 + b1 mod 64 * 64 + b2 mod 64 in
    if cont b1 && cont b2 then
      if ((0x800 <=? wc) && (wc <=? 0xD7FF)) || ((0xE000 <=? wc) && (wc <=? 0xFFFF))
      then Some (wc, 3%nat) else None
    else None
  else if b0 <? 0xF5 then
    let wc := b0 mod 8 * 262144 + b1 mod 64 * 4096 + b2 mod 64 * 64 + b3 mod 64 in
    if cont b1 && cont b2 && cont b3 then
      if (wc <=? 0x10FFFF) && (0x10000 <=? wc) then Some (wc, 4%nat) else None
    else None
  else None.
Proof.
  intros Hs. unfold utf8_to_unicode. cbv zeta.
  rewrite wc2, wc3, wc4, !is_cont_range by (by apply char_at_byte). done.
Qed.

Lemma utf8_encode_bytes wc : is_scalar wc -> Forall is_byte (utf8_encode wc).
Proof.
  unfold is_scalar, utf8_encode. intros.
  repeat case_if; propify; repeat constructor; lia.
Qed.

(** Settles a chain of tests on linear terms. *)
Ltac tests := repeat (case_if; propify; try lia).

Lemma utf8_decode_encode wc rest : is_scalar wc -> Forall is_byte rest ->
  utf8_to_unicode (utf8_encode wc ++ rest) = Some (wc, length (utf8_encode wc)).
Proof.
  intros Hwc Hr. pose proof (utf8_encode_bytes wc Hwc) as He.
  rewrite utf8_to_unicode_arith by (by apply Forall_app). clear He Hr.
  unfold is_scalar in Hwc. unfold utf8_encode, char_at.
  destruct (wc <? 0x80) eqn:E1; [|destruct (wc <? 0x800) eqn:E2;
    [|destruct (wc <? 0x10000) eqn:E3]]; cbn [app nth length]; cbv zeta; propify; tests;
  do 2 f_equal; lia.
Qed.

(** A successful decoding step read back: the consumed bytes are the encoding of
    the scalar value returned. *)
Lemma utf8_decode_sound s wc n : Forall is_char s ->
  utf8_to_unicode s = Some (wc, S n) ->
  is_scalar wc /\ exists rest, s = utf8_encode wc ++ rest /\ S n = length (utf8_encode wc).
Proof.
  intros Hs. rewrite utf8_to_unicode_arith by (eapply Forall_impl; [exact Hs|]; zify_all).
  unfold is_scalar, utf8_encode, char_at. cbv zeta.
  destruct s as [|b0 s]; [done|]. apply Forall_cons in Hs as [H0 Hs]. cbn [nth].
  destruct (b0 =? 0) eqn:E0; [done|]. destruct (b0 <? 0x80) eqn:E1.
  { intros [= <- <-]. zify_all. split; [lia|]. rewrite (proj2 (Z.ltb_lt _ _)) by lia.
    by exists s. }
  destruct (b0 <? 0xC2) eqn:E2; [done|].
  destruct s as [|b1 s]; cbn [nth]; [by repeat case_if|].
  apply Forall_cons in Hs as [H1 Hs].
  destruct (b0 <? 0xE0) eqn:E3.
  { case_if; [|done]. intros [= <- <-]. zify_all. split; [lia|]. exists s. tests.
    split; [|done]. cbn [app]. f_equal; [lia|]. f_equal; lia. }
  destruct s as [|b2 s]; cbn [nth].
  { change (0x80 <=? 0) with false. rewrite ?andb_false_l, ?andb_false_r, ?andb_false_l.
    by repeat case_if. }
  apply Forall_cons in Hs as [H2 Hs].
  destruct (b0 <? 0xF0) eqn:E4.
  { case_if; [|done]. case_if; [|done]. intros [= <- <-]. zify_all. split; [lia|].
    exists s. tests. split; [|done]. cbn [app]. f_equal; [lia|]. f_equal; [lia|]. f_equal; lia. }
  destruct (b0 <? 0xF5) eqn:E5; [|done].
  destruct s as [|b3 s]; cbn [nth].
  { change (0x80 <=? 0) with false. by rewrite ?andb_false_l, ?andb_false_r. }
  apply Forall_cons in Hs as [H3 Hs].
  case_if; [|done]. case_if; [|done]. intros [= <- <-]. zify_all. split; [lia|].
  exists s. tests. split; [|done]. cbn [app].
  f_equal; [lia|]. f_equal; [lia|]. f_equal; [lia|]. f_equal; lia.
Qed.

(** ** Whole strings *)

(** The UTF-16 code units of a scalar value. *)
Definition utf16 (wc : Z) : list Z :=
  if wc <? 0x10000 then [wc]
  else [(wc - 0x10000) / 1024 + 0xD800; (wc - 0x10000) mod 1024 + 0xDC00].

Definition text (cps : list Z) : cstr := concat (map utf8_encode cps).
Definition units (cps : list Z) : list Z := concat (map utf16 cps).

(** What [utf8_to_string] needs of a converter: its escape of a code unit fits
    in [csize] bytes and is produced whenever that many remain. *)
Class Converter (conv : Z -> Z -> option cstr) (csize : Z) := {
  escape : Z -> cstr;
  conv_escape u rem : 0 < u < 0x10000 -> Z.of_nat (length (escape u)) < rem ->
    conv u rem = Some (escape u);
  escape_length u : 0 < u < 0x10000 -> Z.of_nat (length (escape u)) <= csize;
  csize_small : 0 < csize <= 8 }.

Lemma utf16_range wc u : is_scalar wc -> u ∈ utf16 wc -> 0 < u < 0x10000.
Proof.
  unfold is_scalar, utf16. intros Hwc. case_if; propify.
  - intros ->%list_elem_of_singleton. lia.
  - intros [->|[->|[]%elem_of_nil]%elem_of_cons]%elem_of_cons; lia.
Qed.

Lemma utf8_encode_length wc : is_scalar wc ->
  (length (utf16 wc) <= length (utf8_encode wc))%nat /\ (0 < length (utf8_encode wc))%nat.
Proof. unfold utf16, utf8_encode. intros. tests; simpl; lia. Qed.

Lemma size_encode wc rest count : is_scalar wc ->
  utf16_size_loop (utf8_encode wc ++ rest) count =
  utf16_size_loop rest (count + Z.of_nat (length (utf16 wc))).
Proof.
  unfold is_scalar, utf8_encode, utf16. intros Hwc.
  destruct (wc <? 0x80) eqn:E1; [|destruct (wc <? 0x800) eqn:E2;
    [|destruct (wc <? 0x10000) eqn:E3]]; propify; cbn [app utf16_size_loop];
    tests; cbn [length]; try (f_equal; lia).
  all: destruct rest; [done|]; f_equal; lia.
Qed.

Lemma size_text cps count : Forall is_scalar cps ->
  utf16_size_loop (text cps) count = Some (count + Z.of_nat (length (units cps))).
Proof.
  intros H. revert count. induction H as [|wc cps Hwc _ IH]; intros count.
  - simpl. f_equal. lia.
  - unfold text, units in *. cbn [map concat]. rewrite size_encode, IH, length_app by done.
    f_equal. lia.
Qed.

Lemma units_length cps : Forall is_scalar cps ->
  (length (units cps) <= length (text cps))%nat.
Proof.
  unfold units, text. induction 1 as [|wc cps Hwc _ IH]; [done|].
  cbn [map concat]. rewrite !length_app.
  pose proof (utf8_encode_length wc Hwc). lia.
Qed.

Lemma text_bytes cps : Forall is_scalar cps -> Forall is_byte (text cps).
Proof.
  unfold text. induction 1; cbn [map concat]; [constructor|].
  apply Forall_app. split; [by apply utf8_encode_bytes|done].
Qed.

Section Converted.
Context {conv : Z -> Z -> option cstr} {csize : Z} {C : Converter conv csize}.

Definition escaped (us : list Z) : cstr := concat (map escape us).

Lemma escaped_length us : Forall (fun u => 0 < u < 0x10000) us ->
  Z.of_nat (length (escaped us)) <= csize * Z.of_nat (length us).
Proof.
  unfold escaped. induction 1 as [|u us Hu _ IH]; [simpl; lia|].
  cbn [map concat length]. rewrite length_app.
  pose proof (escape_length u Hu). lia.
Qed.

Lemma convert_step fuel out_size wc t outs m :
  is_scalar wc -> utf8_to_unicode t = Some (wc, S m) ->
  Z.of_nat (length outs) + csize * Z.of_nat (length (utf16 wc)) < out_size ->
  convert_loop conv (S fuel) out_size t outs =
  convert_loop conv fuel out_size (drop (S m) t) (outs ++ escaped (utf16 wc)).
Proof.
  intros Hwc Ht Hsz. cbn [convert_loop]. rewrite Ht. unfold utf16 in *.
  pose proof csize_small as Hc. unfold is_scalar in Hwc.
  destruct (wc <? 0x10000) eqn:E; propify; cbn [length] in Hsz.
  - pose proof (escape_length wc ltac:(lia)).
    rewrite (conv_escape wc) by lia. unfold escaped. simpl. by rewrite app_nil_r.
  - rewrite shiftr_div, (land_mask _ 10) by lia.
    change (2 ^ 10) with 1024. rewrite !u16_id by lia.
    set (hi := _ + 0xD800) in *. set (lo := _ + 0xDC00) in *.
    assert (0 < hi < 0x10000 /\ 0 < lo < 0x10000) as [Hhi Hlo] by lia.
    pose proof (escape_length hi Hhi). pose proof (escape_length lo Hlo).
    rewrite (conv_escape hi) by lia. rewrite (conv_escape lo) by (rewrite ?length_app; lia).
    unfold escaped. simpl. by rewrite app_nil_r, app_assoc.
Qed.

Lemma convert_loop_ok fuel out_size cps outs :
  Forall is_scalar cps -> (length (text cps) < fuel)%nat ->
  Z.of_nat (length outs) + csize * Z.of_nat (length (units cps)) < out_size ->
  convert_loop conv fuel out_size (text cps) outs = Some (outs ++ escaped (units cps)).
Proof.
  intros Hs. revert fuel outs. induction Hs as [|wc cps Hwc Hs IH]; intros fuel outs Hf Hsz.
  { destruct fuel; [lia|]. simpl. by rewrite app_nil_r. }
  destruct fuel as [|fuel]; [lia|].
  change (text (wc :: cps)) with (utf8_encode wc ++ text cps) in *.
  change (units (wc :: cps)) with (utf16 wc ++ units cps) in *.
  rewrite !length_app in *. pose proof (utf8_encode_length wc Hwc) as [_ Hpos].
  pose proof (utf8_decode_encode wc _ Hwc (text_bytes cps Hs)) as Hdec.
  pose proof csize_small.
  destruct (length (utf8_encode wc)) as [|m] eqn:El; [lia|].
  rewrite (convert_step fuel out_size wc _ outs m Hwc Hdec) by lia.
  rewrite <- El, drop_app_length. rewrite IH.
  - unfold escaped. by rewrite map_app, concat_app, app_assoc.
  - lia.
  - pose proof (escaped_length (utf16 wc)) as He. rewrite length_app.
    assert (Forall (fun u => 0 < u < 0x10000) (utf16 wc)).
    { apply Forall_forall. intros u. by apply utf16_range. }
    specialize (He ltac:(done)). lia.
Qed.

Lemma convert_loop_sound fuel out_size t outs out :
  Forall is_char t -> convert_loop conv fuel out_size t outs = Some out ->
  exists cps, Forall is_scalar cps /\ t = text cps.
Proof.
  revert t outs. induction fuel as [|f IH]; intros t outs Ht; [done|]. cbn [convert_loop].
  destruct (utf8_to_unicode t) as [[wc [|m]]|] eqn:E; [|..|done].
  - intros _. exists []. split; [constructor|]. destruct t as [|c t]; [done|]. exfalso.
    apply Forall_cons in Ht as [Hc _]. revert E. unfold utf8_to_unicode, char_at. cbn [nth].
    rewrite (proj2 (Z.eqb_neq c 0)) by zify_all. repeat case_if; done.
  - destruct (utf8_decode_sound _ _ _ Ht E) as (Hwc & rest & -> & Hm).
    apply Forall_app in Ht as [_ Hr]. rewrite Hm, drop_app_length. intros H.
    assert (exists outs', convert_loop conv f out_size rest outs' = Some out) as [outs' Ho]
      by (repeat case_match; simplify_eq; eauto).
    destruct (IH _ _ Hr Ho) as (cps & Hcps & ->). exists (wc :: cps). split; [by constructor|done].
Qed.

(** The strings that convert are the non-empty well-formed UTF-8 ones, and the
    result is the escaped UTF-16 text: the output buffer is always large
    enough. *)
Lemma utf8_to_string_spec s out :
  Forall is_char s -> Z.of_nat (length s) < 2 ^ 31 ->
  utf8_to_string conv true s csize = Some out <->
  exists cps, cps <> [] /\ Forall is_scalar cps /\ s = text cps /\
    out = escaped (units cps).
Proof.
  intros Hs Hlen. pose proof csize_small as Hc.
  assert (Hok : forall cps, Forall is_scalar cps -> s = text cps -> cps <> [] ->
    utf8_to_string conv true s csize = Some (escaped (units cps))).
  { intros cps Hcps -> Hne. unfold utf8_to_string, utf8_to_utf16_size.
    pose proof (units_length cps Hcps). rewrite size_text, s32_id by (done || lia).
    assert (0 < length (units cps))%nat.
    { destruct cps as [|wc cps]; [done|]. unfold units. simpl. rewrite length_app.
      unfold utf16. case_if; simpl; lia. }
    destruct (_ || _) eqn:E1; [propify; lia|]. case_if.
    { propify. assert (2 ^ 61 - 1 <= (2 ^ 64 - 1 - 1) / csize) by (apply Z.div_le_lower_bound; lia).
      lia. }
    rewrite convert_loop_ok by (done || lia || (simpl length; nia)). done. }
  split.
  - intros H.
    assert (exists cps, cps <> [] /\ Forall is_scalar cps /\ s = text cps)
      as (cps & Hne & Hcps & ->).
    { pose proof H as H'. unfold utf8_to_string in H. case_match; [done|]. case_match; [done|].
      apply convert_loop_sound in H as (cps & Hcps & ->); [|done]. exists cps.
      split; [|done]. intros ->. done. }
    exists cps. rewrite (Hok cps) in H by done. by simplify_eq.
  - intros (cps & Hne & Hcps & Hs' & ->). by apply Hok.
Qed.
End Converted.

(** ** The two converters *)

Definition js_escape (u : Z) : cstr :=
  if u <=? 0xFF then
    if (u =? 34) || (u =? chr "'") || (u =? chr "\") || negb (isprint u)
    then bytes "\x" ++ pad_to 2 (print_u 16 u) else [u]
  else bytes "\u" ++ pad_to 4 (print_u 16 u).

Definition html_escape (u : Z) : cstr :=
  if (0xFF <? u) || (u =? chr "&") || (u =? chr "<") || (u =? chr ">")
     || (u =? 34) || (u =? chr "'") || negb (isprint u)
  then bytes "&#" ++ print_u 10 u ++ bytes ";" else [u].

Lemma put_text_ok rem t : Z.of_nat (length t) < rem -> put_text rem t = Some t.
Proof. intros. unfold put_text. rewrite (proj2 (Z.leb_gt _ _)) by lia. done. Qed.

Lemma put_char_ok rem c : 1 < rem -> put_char rem c = Some [c].
Proof. intros. unfold put_char. rewrite (proj2 (Z.ltb_ge _ _)) by lia. done. Qed.

Lemma js_escape_length u : 0 < u < 0x10000 -> Z.of_nat (length (js_escape u)) <= 6.
Proof.
  intros. unfold js_escape. case_if; [case_if|]; propify; rewrite ?length_app.
  - rewrite pad_to_length; [simpl; lia|]. apply print_u_length; lia.
  - simpl. lia.
  - rewrite pad_to_length; [simpl; lia|]. apply print_u_length; lia.
Qed.

Lemma html_escape_length u : 0 < u < 0x10000 -> Z.of_nat (length (html_escape u)) <= 8.
Proof.
  intros. unfold html_escape. case_if; [|simpl; lia]. rewrite !length_app.
  assert (length (print_u 10 u) <= 5)%nat by (apply print_u_length; lia). simpl. lia.
Qed.

Lemma js_conv_escape u rem : 0 < u < 0x10000 ->
  Z.of_nat (length (js_escape u)) < rem -> js_utf16_char u rem = Some (js_escape u).
Proof.
  unfold js_utf16_char, js_escape. intros Hu.
  destruct (u <=? 0xFF) eqn:E; [|apply put_text_ok]. propify. rewrite u8_id by lia.
  case_if; [apply put_text_ok|]. simpl. intros. apply put_char_ok. lia.
Qed.

Lemma html_conv_escape u rem : 0 < u < 0x10000 ->
  Z.of_nat (length (html_escape u)) < rem -> html_utf16_char u rem = Some (html_escape u).
Proof.
  unfold html_utf16_char, html_escape. intros Hu.
  destruct (0xFF <? u) eqn:E; [apply put_text_ok|]. propify. rewrite u8_id by lia.
  cbn [orb]. case_if; [apply put_text_ok|]. simpl. intros. apply put_char_ok. lia.
Qed.

#[export] Instance js_converter : Converter js_utf16_char 6 := {
  escape := js_escape; conv_escape := js_conv_escape;
  escape_length := js_escape_length; csize_small := ltac:(lia) }.

#[export] Instance html_converter : Converter html_utf16_char 8 := {
  escape := html_escape; conv_escape := html_conv_escape;
  escape_length := html_escape_length; csize_small := ltac:(lia) }.

(** [utf8_to_unicode] decodes exactly the shortest-form encodings of the
    Unicode scalar values (RFC 3629): overlong forms, surrogates, values above
    U+10FFFF and truncated sequences are refused. *)
Theorem utf8_to_unicode_exact (s : cstr) (wc : Z) (n : nat) :
  Forall is_char s ->
  utf8_to_unicode s = Some (wc, S n) <->
  is_scalar wc /\ exists rest, s = utf8_encode wc ++ rest /\ S n = length (utf8_encode wc).
Proof.
  intros Hs. split; [by apply utf8_decode_sound|].
  intros (Hwc & rest & -> & ->). apply utf8_decode_encode; [done|].
  apply Forall_app in Hs as [_ Hs]. eapply Forall_impl; [exact Hs|]. zify_all.
Qed.

Lemma utf8_to_unicode_exact_witness :
  utf8_to_unicode [0xC3; 0xA9; 0x61] = Some (0xE9, 2%nat).
Proof.
  apply (utf8_to_unicode_exact [0xC3; 0xA9; 0x61] 0xE9 1); [solve_bytes|].
  split; [unfold is_scalar; lia|]. exists [0x61]. by split.
Defined.

(** C36: [utf8_to_js_string] and [utf8_to_html_string] succeed exactly on the
    non-empty well-formed UTF-8 strings and return the escaped UTF-16 text of
    the whole input; the output buffer never runs short. *)
Theorem utf8_to_string_correct (s out : cstr) :
  Forall is_char s -> Z.of_nat (length s) < 2 ^ 31 ->
  (utf8_to_js_string true s = Some out <->
   exists cps, cps <> [] /\ Forall is_scalar cps /\ s = text cps /\
     out = concat (map js_escape (units cps))) /\
  (utf8_to_html_string true s = Some out <->
   exists cps, cps <> [] /\ Forall is_scalar cps /\ s = text cps /\
     out = concat (map html_escape (units cps))).
Proof.
  intros Hs Hl. split.
  - exact (utf8_to_string_spec (C := js_converter) s out Hs Hl).
  - exact (utf8_to_string_spec (C := html_converter) s out Hs Hl).
Qed.

Lemma utf8_to_string_correct_witness :
  utf8_to_js_string true [0xC3; 0xA9] = Some (bytes "\xe9").
Proof.
  apply (utf8_to_string_correct [0xC3; 0xA9] (bytes "\xe9")); [solve_bytes|simpl; lia|].
  exists [0xE9]. split; [done|]. split; [repeat constructor; simpl; lia|]. by split.
Defined.

Lemma is_numeral_safe c : is_numeral_char c ->
  isprint c = true /\ c <> 34 /\ c <> chr "'" /\ c <> chr "<" /\ c <> chr ">".
Proof.
  unfold is_numeral_char, isprint. change (chr "'") with 39.
  change (chr "<") with 60. change (chr ">") with 62.
  intros. rewrite andb_true_iff, !Z.leb_le. lia.
Qed.

Lemma Forall_concat_map {A} (P : Z -> Prop) (Q : A -> Prop) (f : A -> list Z) l :
  (forall x, Q x -> Forall P (f x)) -> Forall Q l -> Forall P (concat (map f l)).
Proof.
  intros Hf. induction 1; simpl; [constructor|]. apply Forall_app. auto.
Qed.

Lemma units_range cps : Forall is_scalar cps -> Forall (fun u => 0 < u < 0x10000) (units cps).
Proof.
  intros. unfold units. apply (Forall_concat_map _ is_scalar); [|done].
  intros wc Hwc. apply Forall_forall. intros u. by apply utf16_range.
Qed.

Definition js_safe (c : Z) : Prop := isprint c = true /\ c <> 34 /\ c <> chr "'".
Definition html_safe (c : Z) : Prop := js_safe c /\ c <> chr "<" /\ c <> chr ">".

Lemma js_escape_safe u : Forall js_safe (js_escape u).
Proof.
  assert (Hn : forall w t, Forall is_numeral_char t -> Forall js_safe (pad_to w t)).
  { intros w t Ht. eapply Forall_impl; [by apply pad_to_chars|].
    intros c Hc%is_numeral_safe. unfold js_safe. tauto. }
  unfold js_escape. case_if; [case_if|].
  - apply Forall_app. split; [by repeat constructor|]. apply Hn, print_u_chars. lia.
  - propify. repeat constructor; [|done|done]. by destruct (isprint u).
  - apply Forall_app. split; [by repeat constructor|]. apply Hn, print_u_chars. lia.
Qed.

Lemma html_escape_safe u : Forall html_safe (html_escape u).
Proof.
  unfold html_escape. case_if.
  - apply Forall_app. split; [by repeat constructor|]. apply Forall_app.
    split; [|by repeat constructor]. eapply Forall_impl; [apply print_u_chars; lia|].
    intros c Hc%is_numeral_safe. unfold html_safe, js_safe. tauto.
  - propify. by repeat constructor.
Qed.

(** Whatever the input, the JavaScript text contains only printable ASCII
    and neither quote character, and the HTML text in addition neither angle
    bracket: the result cannot end the literal or element it is put in. *)
Theorem utf8_quoting_safe (s out : cstr) :
  Forall is_char s -> Z.of_nat (length s) < 2 ^ 31 ->
  (utf8_to_js_string true s = Some out -> Forall js_safe out) /\
  (utf8_to_html_string true s = Some out -> Forall html_safe out).
Proof.
  intros Hs Hl. split; intros H.
  - apply (utf8_to_string_spec (C := js_converter)) in H as (cps & _ & Hc & _ & ->); try done.
    eapply Forall_concat_map; [|by apply units_range]. intros u _. apply js_escape_safe.
  - apply (utf8_to_string_spec (C := html_converter)) in H as (cps & _ & Hc & _ & ->); try done.
    eapply Forall_concat_map; [|by apply units_range]. intros u _. apply html_escape_safe.
Qed.

Lemma utf8_quoting_safe_witness : Forall js_safe (bytes "a\x27").
Proof. apply (utf8_quoting_safe (bytes "a'")); [solve_bytes|simpl; lia|reflexivity]. Defined.

End Utf8.
