(* ===== verification/Nvram.v ===== *)
(** The configuration store and the name spaces of its keys
    (src/tomato64/package/libshared/shared/include/bcmnvram.h and
    src/tomato64/package/libshared/shared/misc.c).

    The store itself lives in libnvram, outside this repository: it is the class
    [Nvram], what a daemon sees of it between two writes. Buffers keep their
    size: a key that does not fit is truncated as [snprintf] does it. *)

From Stdlib Require Import ZArith Lia.
From stdpp Require Import base list strings.
From S2P Require Import Prelude Scan.

Local Open Scope Z_scope.

Module Nvram.
Import Scan.

(** The value of a key, and its value read as a decimal number. *)
Class Nvram := {
  nvram_get : cstr -> option cstr;
  nvram_get_int : cstr -> Z }.

(** The number of WAN units the build supports ([TCONFIG_MWAN_MAX], 1 to 8). *)
Class Build := { MWAN_MAX : Z }.

Section Ops.
Context {nv : Nvram} {build : Build}.

Definition nvram_safe_get (name : cstr) : cstr := default [] (nvram_get name).

Definition nvram_match (name m : cstr) : bool :=
  match nvram_get name with Some v => strcmp_eq v m | None => false end.

Definition nvram_invmatch (name m : cstr) : bool :=
  match nvram_get name with Some v => negb (strcmp_eq v m) | None => false end.

(** [snprintf] into a buffer of [size] bytes. *)
Definition snprintf (size : nat) (s : cstr) : cstr := take (size - 1) s.

Definition get_prefix_nvram_key (prefix suffix : cstr) (key_size : nat) : cstr :=
  snprintf key_size (prefix ++ bytes "_" ++ suffix).

Definition prefix_nvram_get (prefix suffix : cstr) (key_size : nat) : cstr :=
  nvram_safe_get (get_prefix_nvram_key prefix suffix key_size).

Definition prefix_nvram_match (prefix suffix value : cstr) (key_size : nat) : bool :=
  nvram_match (get_prefix_nvram_key prefix suffix key_size) value.

Definition prefix_nvram_get_int (prefix suffix : cstr) (key_size : nat) : Z :=
  nvram_get_int (get_prefix_nvram_key prefix suffix key_size).

Definition get_bridge_prefix (bridge : Z) (prefix_size : nat) : cstr :=
  if bridge =? 0 then strlcpy prefix_size (bytes "lan")
  else snprintf prefix_size (bytes "lan" ++ print_u 10 bridge).

Definition get_bridge_nvram_key (bridge : Z) (suffix : cstr) (key_size : nat) : cstr :=
  get_prefix_nvram_key (get_bridge_prefix bridge 12) suffix key_size.

Definition bridge_nvram_get (bridge : Z) (suffix : cstr) (key_size : nat) : cstr :=
  nvram_safe_get (get_bridge_nvram_key bridge suffix key_size).

(** For a buffer of at least one byte; the code leaves an empty one alone. *)
Definition get_wan_prefix (iWan_unit : Z) (prefix_size : nat) : cstr :=
  if (1 <? iWan_unit) && (iWan_unit <=? MWAN_MAX)
  then snprintf prefix_size (bytes "wan" ++ print_d iWan_unit)
  else strlcpy prefix_size (bytes "wan").

Definition get_wan_nvram_key (wan_unit : Z) (suffix : cstr) (key_size : nat) : cstr :=
  get_prefix_nvram_key (get_wan_prefix wan_unit 8) suffix key_size.

Definition wan_nvram_get (wan_unit : Z) (suffix : cstr) (key_size : nat) : cstr :=
  nvram_safe_get (get_wan_nvram_key wan_unit suffix key_size).

(** The first of the units [i], [i+1], ... ([n] of them) that satisfies [P]. *)
Fixpoint first_unit (P : Z -> bool) (i : Z) (n : nat) : option Z :=
  match n with
  | O => None
  | S n' => if P i then Some i else first_unit P (i + 1) n'
  end.

Definition get_wan_unit (sPrefix : cstr) : Z :=
  default 1 (first_unit (fun i => strcmp_eq sPrefix (get_wan_prefix i 8)) 1 (Z.to_nat MWAN_MAX)).

Definition get_wan_unit_with_value (suffix value : cstr) : Z :=
  let mwan_num := nvram_get_int (bytes "mwan_num") in
  let mwan_num := if (mwan_num <? 1) || (MWAN_MAX <? mwan_num) then 1 else mwan_num in
  default (-1)
    (first_unit (fun wan_unit =>
       nvram_match (take 63 (get_wan_prefix wan_unit 64 ++ suffix)) value)
       1 (Z.to_nat mwan_num)).

Definition WP_DISABLED : Z := 0.

(** The position of [p] among the protocol names, from 1. *)
Fixpoint name_index (p : cstr) (names : list cstr) (i : Z) : option Z :=
  match names with
  | [] => None
  | n :: names' => if strcmp_eq p n then Some (i + 1) else name_index p names' (i + 1)
  end.

Definition proto_names : list cstr :=
  [bytes "static"; bytes "dhcp"; bytes "l2tp"; bytes "pppoe"; bytes "pptp"; bytes "ppp3g";
   bytes "lte"].

Definition get_wanx_proto (prefix : cstr) : Z :=
  default WP_DISABLED (name_index (prefix_nvram_get prefix (bytes "proto") 16) proto_names 0).

Definition get_wan_proto : Z := get_wanx_proto (bytes "wan").

Definition ipv6_names : list cstr :=
  [bytes "native"; bytes "native-pd"; bytes "6to4"; bytes "sit"; bytes "other"; bytes "6rd";
   bytes "6rd-pd"].

Definition get_ipv6_service : Z :=
  default 0 (name_index (nvram_safe_get (bytes "ipv6_service")) ipv6_names 0).

(** * Lemmas *)

Lemma first_unit_Some P i n u :
  first_unit P i n = Some u ->
  i <= u < i + Z.of_nat n /\ P u = true /\ forall v, i <= v < u -> P v = false.
Proof.
  revert i. induction n as [|n IH]; intros i; simpl; [done|].
  destruct (P i) eqn:E.
  - intros [= <-]. split_and!; [lia|lia|done|lia].
  - intros (H1 & H2 & H3)%IH. split_and!; [lia|lia|done|]. intros v Hv.
    destruct (decide (v = i)) as [->|]; [done|]. apply H3. lia.
Qed.

Lemma first_unit_None P i n :
  first_unit P i n = None <-> forall v, i <= v < i + Z.of_nat n -> P v = false.
Proof.
  revert i. induction n as [|n IH]; intros i; simpl; [naive_solver lia|].
  destruct (P i) eqn:E.
  - split; [done|]. intros H. rewrite (H i) in E by lia. done.
  - rewrite IH. split; intros H v Hv.
    + destruct (decide (v = i)) as [->|]; [done|]. apply H. lia.
    + apply H. lia.
Qed.

Lemma first_unit_unique P i n u :
  i <= u < i + Z.of_nat n -> P u = true -> (forall v, i <= v < u -> P v = false) ->
  first_unit P i n = Some u.
Proof.
  intros Hu HP Hv. destruct (first_unit P i n) as [w|] eqn:E.
  - apply first_unit_Some in E as (H1 & H2 & H3). f_equal.
    destruct (Z.lt_trichotomy u w) as [?|[?|?]]; [|lia|].
    + rewrite H3 in HP by lia. done.
    + rewrite Hv in H2 by lia. done.
  - rewrite first_unit_None in E. rewrite E in HP by lia. done.
Qed.

Lemma print_u_inj a b : 0 <= a < 2 ^ 64 -> 0 <= b < 2 ^ 64 -> print_u 10 a = print_u 10 b -> a = b.
Proof. intros Ha Hb E. by rewrite <- (print_u_value a Ha), <- (print_u_value b Hb), E. Qed.

(** Up to 9999 units a prefix fits the eight-byte buffers. *)
Lemma get_wan_prefix_fits (u : Z) :
  MWAN_MAX <= 9999 ->
  get_wan_prefix u 8 =
    if (1 <? u) && (u <=? MWAN_MAX) then bytes "wan" ++ print_u 10 u else bytes "wan".
Proof.
  intros Hm. unfold get_wan_prefix. case_if; [|done]. propify.
  unfold print_d. rewrite (proj2 (Z.ltb_ge _ _)) by lia.
  unfold snprintf. rewrite take_ge; [done|].
  pose proof (print_u_length 10 u 4 ltac:(lia) ltac:(lia) ltac:(lia)).
  rewrite length_app. simpl. lia.
Qed.

Lemma get_wan_prefix_inj (u v : Z) :
  MWAN_MAX <= 9999 -> 1 <= u <= MWAN_MAX -> 1 <= v <= MWAN_MAX ->
  get_wan_prefix u 8 = get_wan_prefix v 8 -> u = v.
Proof.
  intros Hm Hu Hv. rewrite !get_wan_prefix_fits by done.
  repeat case_if; intros E'; propify.
  - apply app_inv_head in E'. apply print_u_inj in E'; lia.
  - rewrite <- (app_nil_r (bytes "wan")) in E' at 2. apply app_inv_head in E'.
    by apply print_u_nonempty in E'.
  - rewrite <- (app_nil_r (bytes "wan")) in E' at 1. apply app_inv_head in E'.
    symmetry in E'. by apply print_u_nonempty in E'.
  - lia.
Qed.

(** The prefix of a WAN unit names that unit: [get_wan_unit] is the inverse
    of [get_wan_prefix] on the units of the build. *)
Theorem wan_prefix_roundtrip (u : Z) :
  MWAN_MAX <= 9999 -> 1 <= u <= MWAN_MAX -> get_wan_unit (get_wan_prefix u 8) = u.
Proof.
  intros Hm Hu. unfold get_wan_unit. erewrite first_unit_unique; [done|lia| |].
  - by apply bool_decide_eq_true.
  - intros v Hv. apply bool_decide_eq_false. intros E.
    apply get_wan_prefix_inj in E; lia.
Qed.

(** The unit found has the value, none before it has. *)
Lemma get_wan_unit_with_value_range suffix value :
  1 <= MWAN_MAX ->
  get_wan_unit_with_value suffix value = -1 \/
  1 <= get_wan_unit_with_value suffix value <= MWAN_MAX.
Proof.
  intros Hm. unfold get_wan_unit_with_value.
  set (n := if _ || _ then 1 else _). assert (1 <= n <= MWAN_MAX) by (subst n; case_if; zify_all).
  destruct (first_unit _ _ _) as [u|] eqn:E; [|by left]. right. simpl.
  apply first_unit_Some in E as (? & _). lia.
Qed.

End Ops.

Lemma wan_prefix_roundtrip_witness :
  let b := {| MWAN_MAX := 4 |} in get_wan_unit (get_wan_prefix 3 8) = 3.
Proof. intros b. apply (wan_prefix_roundtrip (build := b)); simpl; lia. Defined.

End Nvram.
