(* ===== verification/Ring.v ===== *)
(** Ring buffers kept as an array and the index of the newest entry, as rstats
    and cstats use them for history and speed. [chron] lists the entries from
    the oldest to the newest; the lemmas relate the index arithmetic of the code
    to that list. *)

From Stdlib Require Import ZArith Lia.
From stdpp Require Import base list.
From S2P Require Import Prelude.

Module Ring.

Section Ring.
Context {A : Type}.
Implicit Types (data : list A) (tail : nat).

Definition chron data tail : list A := drop (S tail) data ++ take (S tail) data.

Lemma chron_length data tail : length (chron data tail) = length data.
Proof. unfold chron. rewrite length_app, length_drop, length_take. lia. Qed.

Lemma chron_perm data tail : chron data tail ≡ₚ data.
Proof. unfold chron. rewrite (comm (++)). by rewrite take_drop. Qed.

Lemma mod_wrap a n : a < 2 * n -> a mod n = if decide (a < n) then a else a - n.
Proof.
  intros. destruct (decide (a < n)); [by apply Nat.mod_small|].
  symmetry. apply (Nat.mod_unique a n 1); lia.
Qed.

Lemma chron_lookup data tail i :
  tail < length data -> i < length data ->
  chron data tail !! i = data !! ((tail + 1 + i) mod length data).
Proof.
  intros Ht Hi. unfold chron. rewrite mod_wrap by lia.
  destruct (decide (tail + 1 + i < length data)).
  - rewrite lookup_app_l by (rewrite length_drop; lia). rewrite lookup_drop. f_equal; lia.
  - rewrite lookup_app_r by (rewrite length_drop; lia). rewrite length_drop.
    rewrite lookup_take_lt by lia. f_equal. lia.
Qed.

(** Writing the slot after the newest entry drops the oldest one. *)
Lemma chron_push data tail v :
  tail < length data ->
  chron (<[(tail + 1) mod length data := v]> data) ((tail + 1) mod length data) =
    drop 1 (chron data tail) ++ [v].
Proof.
  intros Ht. set (n := length data) in *.
  pose proof (Nat.mod_upper_bound (tail + 1) n ltac:(lia)) as Ht'.
  apply list_eq. intros i. destruct (decide (i < n)) as [Hi|Hi].
  - rewrite chron_lookup by (rewrite length_insert; done). rewrite length_insert. fold n.
    destruct (decide (i = n - 1)) as [->|].
    + rewrite lookup_app_r by (rewrite length_drop, chron_length; fold n; lia).
      rewrite length_drop, chron_length. fold n. rewrite Nat.sub_diag. simpl.
      replace (((tail + 1) mod n + 1 + (n - 1)) mod n) with ((tail + 1) mod n).
      * by rewrite list_lookup_insert_eq.
      * rewrite (mod_wrap ((tail + 1) mod n + 1 + (n - 1))) by lia. case_decide; lia.
    + rewrite lookup_app_l by (rewrite length_drop, chron_length; fold n; lia).
      rewrite lookup_drop. rewrite chron_lookup by (fold n; lia). fold n.
      rewrite list_lookup_insert_ne.
      * f_equal. rewrite !mod_wrap; repeat case_decide; lia.
      * rewrite !mod_wrap; repeat case_decide; lia.
  - rewrite !lookup_ge_None_2; [done|..].
    + rewrite length_app, length_drop, chron_length. fold n. simpl. lia.
    + rewrite chron_length, length_insert. fold n. lia.
Qed.

(** The loops that read the ring step the index before each read. *)
Fixpoint walk (dflt : A) data (max k p : nat) : list A :=
  match k with
  | O => []
  | S k' => let p := (p + 1) mod max in nth p data dflt :: walk dflt data max k' p
  end.

Lemma walk_chron dflt data k p :
  p < length data -> k <= length data ->
  walk dflt data (length data) k p = take k (chron data p).
Proof.
  intros Hp Hk.
  assert (Hw : forall k p i, p < length data -> k <= length data -> i < k ->
    walk dflt data (length data) k p !! i = data !! ((p + 1 + i) mod length data)).
  { clear. induction k as [|k IH]; intros p i Hp Hk Hi; [lia|]. cbn [walk].
    pose proof (Nat.mod_upper_bound (p + 1) (length data) ltac:(lia)) as Hm.
    destruct i as [|i]; simpl.
    - rewrite Nat.add_0_r. rewrite nth_lookup.
      destruct (lookup_lt_is_Some_2 data _ Hm) as [v ->]. done.
    - rewrite IH by lia. f_equal. rewrite !mod_wrap; repeat case_decide; lia. }
  assert (Hlen : forall k p, length (walk dflt data (length data) k p) = k).
  { clear. induction k as [|k IH]; intros p; simpl; [done|]. by rewrite IH. }
  apply list_eq. intros i. destruct (decide (i < k)) as [Hi|Hi].
  - rewrite Hw by lia. rewrite lookup_take_lt by lia. rewrite chron_lookup by lia. done.
  - rewrite !lookup_ge_None_2; [done|..].
    + rewrite length_take. lia.
    + rewrite Hlen. lia.
Qed.

Lemma walk_all dflt data p :
  p < length data -> walk dflt data (length data) (length data) p = chron data p.
Proof. intros. rewrite walk_chron by lia. apply take_ge. rewrite chron_length. lia. Qed.

End Ring.

Lemma chron_map {A B} (f : A -> B) data tail : chron (map f data) tail = map f (chron data tail).
Proof. unfold chron. by rewrite map_app, firstn_map, skipn_map. Qed.

End Ring.
