(* ===== verification/Rstats.v ===== *)
(** The bandwidth history daemon (src/tomato64/package/rstats/rstats/rstats.c):
    the data it keeps, one pass over /proc/net/dev ([calc]) and the JavaScript
    it publishes.

    The array [speed] is modelled by its first [speed_count] entries, the only
    ones the code reads; [speed_rtd], which is indexed in parallel but not kept
    in step, is the whole array. What the daemon asks the system (the clock, the
    calendar, WAN state) is the class [System]; the configuration is [Nvram]. *)

From Stdlib Require Import ZArith Lia.
From stdpp Require Import base list strings.
From S2P Require Import Prelude Scan Strings Nvram.

Local Open Scope Z_scope.

Module Rstats.
Import Scan Strings.Strings Nvram.Nvram.

(** * Constants and data *)

Definition K : Z := 1024.
Definition M : Z := 1024 * 1024.
Definition SMIN : Z := 60.
Definition SHOUR : Z := 60 * 60.
Definition INTERVAL : Z := 60.
Definition MAX_NSPEED : nat := Z.to_nat (24 * SHOUR / INTERVAL).
Definition MAX_NDAILY : nat := 62.
Definition MAX_NMONTHLY : nat := 121.
Definition MAX_SPEED_IF : nat := 64.
Definition MAX_ROLLOVER : Z := 3750 * M.
Definition CURRENT_ID : Z := 0x31305352.

(** [uint64_t counter[MAX_COUNTER]]: received and transmitted bytes. *)
Definition counters : Type := Z * Z.
Definition zero_counters : counters := (0, 0).
Definition map2 (f : Z -> Z -> Z) (a b : counters) : counters :=
  (f a.1 b.1, f a.2 b.2).

Record data_t := mk_data { xtime : Z; counter : counters }.
Definition zero_data : data_t := mk_data 0 zero_counters.

Record history_t := mk_history {
  id : Z;
  daily : list data_t; dailyp : nat;
  monthly : list data_t; monthlyp : nat }.

Record speed_t := mk_speed {
  ifname : cstr;
  utime : Z;
  speed : list counters;
  last : counters;
  tail : nat;
  sync : Z }.

Record speed_runtime_t := mk_rtd { wan_unit : Z; from_ifaceX : bool }.

Record state := mk_state {
  history : history_t;
  speeds : list speed_t;
  speed_rtd : list speed_runtime_t;
  save_utime : Z;
  uptime : Z;
  restarted : bool }.

Definition speed_count (st : state) : nat := length (speeds st).

Definition set_history h st :=
  mk_state h (speeds st) (speed_rtd st) (save_utime st) (uptime st) (restarted st).
Definition set_speeds l st :=
  mk_state (history st) l (speed_rtd st) (save_utime st) (uptime st) (restarted st).
Definition set_rtd l st :=
  mk_state (history st) (speeds st) l (save_utime st) (uptime st) (restarted st).
Definition set_save_utime t st :=
  mk_state (history st) (speeds st) (speed_rtd st) t (uptime st) (restarted st).
Definition set_uptime t st :=
  mk_state (history st) (speeds st) (speed_rtd st) (save_utime st) t (restarted st).
Definition set_restarted b st :=
  mk_state (history st) (speeds st) (speed_rtd st) (save_utime st) (uptime st) b.

Definition clear_history : history_t :=
  mk_history CURRENT_ID (repeat zero_data MAX_NDAILY) 0 (repeat zero_data MAX_NMONTHLY) 0.

Record tm := mk_tm { tm_year : Z; tm_mon : Z; tm_mday : Z }.

(** What [calc] asks the system: the time, the calendar, and the state of the
    WAN link with a prefix. *)
Class System := {
  now : Z;
  localtime : Z -> tm;
  check_wanup : cstr -> bool;
  check_wanup_time : cstr -> Z }.

Section Ops.
Context {nv : Nvram} {build : Build}.

Definition get_stime : Z :=
  let t := nvram_get_int (bytes "rstats_stime") in
  (if t <? 1 then 1 else if 8760 <? t then 8760 else t) * SHOUR.

(** * The history rings *)

Definition xtime_of (t : tm) (with_day : bool) : Z :=
  u32 (Z.lor (Z.lor (Z.shiftl (tm_year t) 16) (Z.shiftl (tm_mon t) 8))
             (if with_day then tm_mday t else 0)).

(** The search loop of [bump]: the highest index below [i] with that time. *)
Fixpoint find_xtime (data : list data_t) (i : nat) (xnow : Z) : option nat :=
  match i with
  | O => None
  | S i' => if xtime (nth i' data zero_data) =? xnow then Some i' else find_xtime data i' xnow
  end.

Definition add_counter (c : counters) (d : data_t) : data_t :=
  mk_data (xtime d) (map2 (fun a b => u64 (a + b)) (counter d) c).

Definition bump (data : list data_t) (tail : nat) (max : nat) (xnow : Z) (c : counters)
  : list data_t * nat :=
  if xtime (nth tail data zero_data) =? xnow
  then (alter (add_counter c) tail data, tail)
  else match find_xtime data max xnow with
       | Some t => (alter (add_counter c) t data, tail)
       | None =>
           let t := ((tail + 1) mod max)%nat in
           let data := <[t := mk_data xnow zero_counters]> data in
           (alter (add_counter c) t data, t)
       end.

(** * One interface *)

(** A line of /proc/net/dev: the interface and its byte counters. *)
Definition parse_line (buf : cstr) : option (cstr * counters) :=
  match strchr buf (chr ":") with
  | None => None
  | Some p =>
      let name := take p buf in
      let name := match strrchr name (chr " ") with
                  | None => name
                  | Some k => drop (S k) name
                  end in
      match scan_u64 (drop (S p) buf) with
      | None => None
      | Some (rx, rest) =>
          match skip_us 7 rest with
          | None => None
          | Some rest =>
              match scan_u64 rest with
              | None => None
              | Some (tx, _) => Some (name, (rx, tx))
              end
          end
      end
  end.

Context {sys : System}.

(** The bytes since the last sample, [sc], when the counter now reads [c]. *)
Definition rollover_diff (prefix : cstr) (c sc : Z) : Z :=
  if c <? sc then
    let diff := u64 (u64 (0xFFFFFFFFFFFFFFFF - sc + 1) + c) in
    if MAX_ROLLOVER <? diff then 0
    else if check_wanup prefix && (check_wanup_time prefix <? INTERVAL + 10) then 0
    else diff
  else c - sc.

(** [n] steps of the speed ring, each of an [n]-th of the bytes. *)
Fixpoint push_speed (j : nat) (v : counters) (ring : list counters) (tail : nat)
  : list counters * nat :=
  match j with
  | O => (ring, tail)
  | S j' =>
      let tail := ((tail + 1) mod MAX_NSPEED)%nat in
      push_speed j' v (<[tail := v]> ring) tail
  end.

(** The update of one interface. The second component is what is added to the
    history, [None] when the sample came too early ([continue]). *)
Definition update_iface (restarted : bool) (uptime : Z) (prefix : cstr) (c : counters)
  (sp : speed_t) : speed_t * option counters :=
  if negb (sync sp =? 0) then
    (mk_speed (ifname sp) (utime sp) (speed sp) c (tail sp) (-1), Some zero_counters)
  else
    let last0 := if restarted then c else last sp in
    let tick := uptime - utime sp in
    let n := s32 (Z.quot tick INTERVAL) in
    if n <? 1 then
      (mk_speed (ifname sp) (utime sp) (speed sp) last0 (tail sp) (-1), None)
    else
      let diff := map2 (rollover_diff prefix) c last0 in
      let '(ring, t) := push_speed (Z.to_nat n) (diff.1 / n, diff.2 / n) (speed sp) (tail sp) in
      (mk_speed (ifname sp) (utime sp + n * INTERVAL) ring c t (-1), Some diff).

Definition new_speed (uptime : Z) (name : cstr) : speed_t :=
  mk_speed (strlcpy 12 name) uptime (repeat zero_counters MAX_NSPEED) zero_counters 0 1.

Fixpoint find_iface (l : list speed_t) (name : cstr) : option nat :=
  match l with
  | [] => None
  | sp :: l' =>
      if strcmp_eq (ifname sp) name then Some 0%nat
      else match find_iface l' name with Some i => Some (S i) | None => None end
  end.

(** The WAN unit of an interface, looked up while it is unknown. [wan_unit] is
    an [int16_t]. *)
Definition map_unit (name : cstr) (r : speed_runtime_t) : speed_runtime_t :=
  if wan_unit r =? 0 then
    let u := s16 (get_wan_unit_with_value (bytes "_iface") name) in
    if u <? 0 then
      let u := s16 (get_wan_unit_with_value (bytes "_ifnameX") name) in
      mk_rtd u (0 <? u)
    else mk_rtd u (from_ifaceX r)
  else r.

(** Whether the interface's traffic belongs to the history: a primary WAN
    interface, with the clock set. *)
Definition counted (r : speed_runtime_t) (prefix : cstr) : bool :=
  (0 <? wan_unit r) && negb (nvram_get_int (bytes "ntp_ready") =? 0) &&
  (if get_wanx_proto prefix =? WP_DISABLED
   then from_ifaceX r && negb (nvram_get_int (take 15 (prefix ++ bytes "_islan")) =? 0)
   else negb (from_ifaceX r)).

Definition month_offset : Z :=
  let n := nvram_get_int (bytes "rstats_offset") in
  if (n <? 1) || (31 <? n) then 1 else n.

Definition bump_history (c : counters) (h : history_t) : history_t :=
  let '(d, dp) := bump (daily h) (dailyp h) MAX_NDAILY (xtime_of (localtime now) true) c in
  let mon := now + (1 - month_offset) * (60 * 60 * 24) in
  let '(m, mp) := bump (monthly h) (monthlyp h) MAX_NMONTHLY (xtime_of (localtime mon) false) c in
  mk_history (id h) d dp m mp.

Definition zero_speed : speed_t := mk_speed [] 0 [] zero_counters 0 0.
Definition zero_rtd : speed_runtime_t := mk_rtd 0 false.

(** The body of the loop over the lines. *)
Definition calc_line (buf : cstr) (st : state) : state :=
  match parse_line buf with
  | None => st
  | Some (name, c) =>
      if strcmp_eq name (bytes "lo") || bool_decide (is_Some (find_word (nvram_safe_get (bytes "rstats_exclude")) name))
      then st
      else
        match (match find_iface (speeds st) name with
               | Some i => Some (i, speeds st)
               | None => if (MAX_SPEED_IF <=? speed_count st)%nat then None
                         else Some (speed_count st, speeds st ++ [new_speed (uptime st) name])
               end) with
        | None => st
        | Some (i, l) =>
            let r := map_unit name (nth i (speed_rtd st) zero_rtd) in
            let prefix := get_wan_prefix (wan_unit r) 6 in
            let '(sp, credit) :=
              update_iface (restarted st) (uptime st) prefix c (nth i l zero_speed) in
            let st := set_speeds (<[i := sp]> l) (set_rtd (<[i := r]> (speed_rtd st)) st) in
            match credit with
            | None => st
            | Some c => if counted r prefix then set_history (bump_history c (history st)) st else st
            end
        end
  end.

(** The clean-up loop: entry [i] of the live ones; an entry that is removed is
    replaced by its successor, which the loop then steps over. *)
Fixpoint cleanup (fuel : nat) (uptime : Z) (exclude : cstr) (i : nat) (l : list speed_t)
  : list speed_t :=
  match fuel with
  | O => l
  | S f =>
      match l !! i with
      | None => l
      | Some sp =>
          let with_sync s := mk_speed (ifname sp) (utime sp) (speed sp) (last sp) (tail sp) s in
          if sync sp =? -1 then cleanup f uptime exclude (S i) (<[i := with_sync 0]> l)
          else if (10 * SMIN <? uptime - utime sp) || bool_decide (is_Some (find_word exclude (ifname sp)))
          then cleanup f uptime exclude (S i) (take i l ++ drop (S i) l)
          else cleanup f uptime exclude (S i) (<[i := with_sync 1]> l)
      end
  end.

(** One pass; the result says whether the data is to be saved. The first two
    lines are the header. [proc] is None when /proc/net/dev cannot be read. *)
Definition calc (proc : option (list cstr)) (st : state) : state * bool :=
  match proc with
  | None => (st, false)
  | Some lines =>
      let st := foldl (fun st b => calc_line b st) st (drop 2 lines) in
      let st := set_speeds (cleanup (speed_count st) (uptime st)
                  (nvram_safe_get (bytes "rstats_exclude")) 0 (speeds st)) st in
      let '(st, save) :=
        if save_utime st <=? uptime st
        then (set_save_utime (uptime st + get_stime) st, true) else (st, false) in
      (set_restarted false st, save)
  end.

End Ops.

(** * The published JavaScript *)

Definition nl : cstr := [10].
Definition hex (v : Z) : cstr := bytes "0x" ++ print_u 16 v.

(** The loop of [save_datajs]: [k] slots left, [p] the slot before the next,
    [kn] the entries written so far. *)
Fixpoint datajs_loop (data : list data_t) (max : nat) (k p kn : nat) : cstr :=
  match k with
  | O => []
  | S k' =>
      let p := ((p + 1) mod max)%nat in
      let d := nth p data zero_data in
      if xtime d =? 0 then datajs_loop data max k' p kn
      else (if (kn =? 0)%nat then [] else bytes ",") ++
           bytes "[" ++ hex (xtime d) ++ bytes "," ++ hex ((counter d).1 / K) ++ bytes "," ++
           hex ((counter d).2 / K) ++ bytes "]" ++ datajs_loop data max k' p (S kn)
  end.

Definition save_datajs (h : history_t) (is_daily : bool) : cstr :=
  let '(data, p, max) :=
    if is_daily then (daily h, dailyp h, MAX_NDAILY) else (monthly h, monthlyp h, MAX_NMONTHLY) in
  nl ++ bytes (if is_daily then "daily" else "monthly") ++ bytes "_history = [" ++ nl ++
  datajs_loop data max max p 0 ++ bytes "];" ++ nl.

Definition save_histjs (h : history_t) : cstr := save_datajs h true ++ save_datajs h false.

(** The loop of [save_speedjs] over the ring for one direction: the text, the
    total and the maximum. *)
Fixpoint speedjs_loop (ring : list Z) (k p : nat) (first : bool) (total tmax : Z)
  : cstr * Z * Z :=
  match k with
  | O => ([], total, tmax)
  | S k' =>
      let p := ((p + 1) mod MAX_NSPEED)%nat in
      let n := nth p ring 0 in
      let '(s, total, tmax) :=
        speedjs_loop ring k' p false (u64 (total + n)) (if tmax <? n then n else tmax) in
      ((if first then [] else bytes ",") ++ print_u 10 n ++ s, total, tmax)
  end.

Definition speedjs_dir (c : cstr) (ring : list Z) (tail : nat) : cstr :=
  let '(s, total, tmax) := speedjs_loop ring MAX_NSPEED tail true 0 0 in
  bytes "," ++ nl ++ bytes " " ++ c ++ bytes "x: [" ++ s ++ bytes "]," ++ nl ++
  bytes " " ++ c ++ bytes "x_avg: " ++ print_u 10 (total / Z.of_nat MAX_NSPEED) ++ bytes "," ++ nl ++
  bytes " " ++ c ++ bytes "x_max: " ++ print_u 10 tmax ++ bytes "," ++ nl ++
  bytes " " ++ c ++ bytes "x_total: " ++ print_u 10 total.

(** [up]: the [IFF_UP] flag of an interface, 0 when it cannot be read. *)
Definition speedjs_iface (up : cstr -> Z) (first : bool) (sp : speed_t) : cstr :=
  (if first then [] else bytes " }," ++ nl) ++
  bytes "'" ++ ifname sp ++ bytes "': { up: " ++ print_d (up (ifname sp)) ++
  speedjs_dir (bytes "r") (map fst (speed sp)) (tail sp) ++
  speedjs_dir (bytes "t") (map snd (speed sp)) (tail sp).

Definition save_speedjs (up : cstr -> Z) (next : Z) (l : list speed_t) : cstr :=
  nl ++ bytes "speed_history = {" ++ nl ++
  concat (imap (fun i sp => speedjs_iface up (i =? 0)%nat sp) l) ++
  (if (length l =? 0)%nat then [] else bytes "}," ++ nl) ++
  bytes "_next: " ++ print_d (if 1 <=? next then next else 1) ++ bytes "};" ++ nl.

(** * Signals and the main loop *)

Inductive signal := SIGTERM | SIGINT | SIGHUP | SIGUSR1 | SIGUSR2.

Record flags := mk_flags { gothup : bool; gotuser : Z; gotterm : bool }.

Definition sig_handler (sig : signal) (f : flags) : flags :=
  match sig with
  | SIGTERM | SIGINT => mk_flags (gothup f) (gotuser f) true
  | SIGHUP => mk_flags true (gotuser f) (gotterm f)
  | SIGUSR1 => mk_flags (gothup f) 1 (gotterm f)
  | SIGUSR2 => mk_flags (gothup f) 2 (gotterm f)
  end.

Inductive action :=
  | Save (quick : bool)
  | LoadNew
  | SpeedJs (next : Z)
  | HistJs
  | Calc
  | Exit.

(** The part of the main loop after [sleep]: the actions it takes and the new
    flags. [load_fn]: whether the load marker could be unlinked; [sshut]:
    whether rstats_sshut is 1; [t]: the uptime read for the report. *)
Definition wake (load_fn sshut : bool) (z t : Z) (f : flags) : list action * flags :=
  let '(a1, f) :=
    if gothup f
    then ([if load_fn then LoadNew else Save false], mk_flags false (gotuser f) (gotterm f))
    else ([], f) in
  if gotterm f then (a1 ++ [Save (negb sshut); Exit], f)
  else if gotuser f =? 1 then (a1 ++ [SpeedJs (z - t)], mk_flags (gothup f) 0 (gotterm f))
  else if gotuser f =? 2 then (a1 ++ [HistJs], mk_flags (gothup f) 0 (gotterm f))
  else (a1, f).

(** The loop's own state: the next deadline [z], the uptime it last read, the
    signal flags and what it has done. *)
Record daemon := mk_daemon { d_z : Z; d_uptime : Z; d_flags : flags; d_log : list action }.

(** One iteration: [t] is the uptime read at the end of it. *)
Inductive main_step : daemon -> daemon -> Prop :=
  | step_signal d sig :
      main_step d (mk_daemon (d_z d) (d_uptime d) (sig_handler sig (d_flags d)) (d_log d))
  | step_wake d load_fn sshut t acts f :
      d_uptime d < d_z d -> ~ In Exit (d_log d) -> d_uptime d <= t ->
      wake load_fn sshut (d_z d) t (d_flags d) = (acts, f) ->
      main_step d (mk_daemon (d_z d) t f (d_log d ++ acts))
  | step_calc d :
      d_z d <= d_uptime d -> ~ In Exit (d_log d) ->
      main_step d (mk_daemon (d_z d + INTERVAL) (d_uptime d) (d_flags d) (d_log d ++ [Calc])).

End Rstats.
