(* ===== verification/RstatsHistory.v ===== *)
(** The daily and monthly history rings of rstats: [bump] against a list of
    totals, oldest first, and what [save_datajs] prints of it. *)

From Stdlib Require Import ZArith Lia Sorted.
From stdpp Require Import base list strings sorting.
From S2P Require Import Prelude Scan Strings Nvram Ring Rstats.

Local Open Scope Z_scope.

Module RstatsHistory.
Import Ring Rstats.

(** * The abstract history *)

Definition has_time (x : Z) (l : list data_t) : bool := existsb (fun d => xtime d =? x) l.

Definition credit_at (x : Z) (c : counters) (d : data_t) : data_t :=
  if xtime d =? x then add_counter c d else d.

Definition fresh (x : Z) (c : counters) : data_t := add_counter c (mk_data x zero_counters).

(** A history of fixed length: credit the entry of that time, or drop the oldest
    entry and append a new one. *)
Definition hist_add (x : Z) (c : counters) (l : list data_t) : list data_t :=
  if has_time x l then map (credit_at x c) l else drop 1 l ++ [fresh x c].

(** At most one entry per time. *)
Definition times_distinct (l : list data_t) : Prop :=
  NoDup (filter (fun x => x <> 0) (map xtime l)).

Record ring_wf (data : list data_t) (tail max : nat) : Prop := {
  rw_len : length data = max;
  rw_tail : (tail < max)%nat;
  rw_times : times_distinct data }.

Lemma find_xtime_Some data i x t :
  find_xtime data i x = Some t -> (t < i)%nat /\ xtime (nth t data zero_data) = x.
Proof.
  induction i as [|i IH]; simpl; [done|]. destruct (_ =? _) eqn:E.
  - intros [= <-]. propify. split; [lia|done].
  - intros [? ?]%IH. split; [lia|done].
Qed.

Lemma find_xtime_None data i x t :
  find_xtime data i x = None -> (t < i)%nat -> xtime (nth t data zero_data) <> x.
Proof.
  induction i as [|i IH]; simpl; [lia|]. destruct (_ =? _) eqn:E; [done|].
  intros Hf Ht. propify. destruct (decide (t = i)) as [->|]; [done|]. apply IH; [done|lia].
Qed.

Lemma has_time_spec x l : has_time x l = true <-> exists d, d ∈ l /\ xtime d = x.
Proof.
  unfold has_time. rewrite existsb_exists. split; intros (d & H1 & H2); exists d.
  - by rewrite list_elem_of_In, <- Z.eqb_eq.
  - by rewrite <- list_elem_of_In, Z.eqb_eq.
Qed.

Lemma has_time_perm x l l' : l ≡ₚ l' -> has_time x l = has_time x l'.
Proof.
  intros Hp. apply eq_true_iff_eq. rewrite !has_time_spec.
  split; intros (d & Hd & ?); exists d; split; try done; by rewrite Hp in * || rewrite <- Hp in *.
Qed.

(** With distinct times, crediting one slot is crediting the time. *)
Lemma alter_credit x c (data : list data_t) t :
  x <> 0 -> times_distinct data -> (t < length data)%nat ->
  xtime (nth t data zero_data) = x ->
  alter (add_counter c) t data = map (credit_at x c) data.
Proof.
  intros Hx. revert t. induction data as [|d data IH]; intros t Hnd Ht Hxt; simpl in Ht; [lia|].
  unfold times_distinct in *. simpl in Hnd. destruct t as [|t]; simpl in Hxt.
  - change (alter (add_counter c) 0%nat (d :: data)) with (add_counter c d :: data). simpl.
    unfold credit_at at 1. rewrite Hxt, Z.eqb_refl. f_equal.
    rewrite filter_cons_True in Hnd by (by rewrite Hxt).
    apply NoDup_cons in Hnd as [Hni _]. rewrite <- (map_id data) at 1. apply map_ext_in.
    intros d' Hd'. unfold credit_at. case_if; [|done]. propify. destruct Hni.
    apply list_elem_of_filter. split; [by rewrite Hxt|]. rewrite Hxt, <- E.
    apply list_elem_of_In, in_map. done.
  - change (alter (add_counter c) (S t) (d :: data)) with (d :: alter (add_counter c) t data).
    cbn [map]. f_equal.
    + unfold credit_at. case_if; [|done]. propify. exfalso.
      rewrite filter_cons_True in Hnd by (by rewrite E).
      apply NoDup_cons in Hnd as [Hni _]. apply Hni, list_elem_of_filter. split; [by rewrite E|].
      rewrite E, <- Hxt. apply list_elem_of_In, in_map, nth_In. lia.
    + apply IH; [|lia|done]. destruct (decide (xtime d <> 0)).
      * rewrite filter_cons_True in Hnd by done. by apply NoDup_cons in Hnd as [_ ?].
      * by rewrite filter_cons_False in Hnd.
Qed.

Lemma bump_chron data tail max x c :
  ring_wf data tail max -> x <> 0 ->
  let '(data', tail') := bump data tail max x c in
  length data' = max /\ (tail' < max)%nat /\ chron data' tail' = hist_add x c (chron data tail).
Proof.
  intros [Hlen Ht Hnd] Hx. unfold bump, hist_add.
  rewrite (has_time_perm _ _ _ (chron_perm data tail)).
  assert (Hpres : forall t, (t < max)%nat -> xtime (nth t data zero_data) = x ->
    length (alter (add_counter c) t data) = max /\ (tail < max)%nat /\
    chron (alter (add_counter c) t data) tail =
      (if has_time x data then map (credit_at x c) (chron data tail)
       else drop 1 (chron data tail) ++ [fresh x c])).
  { intros t Htm Hxt. rewrite (alter_credit x) by (done || lia).
    rewrite length_map, chron_map. split_and!; [done|done|].
    rewrite (proj2 (has_time_spec x data)); [done|].
    exists (nth t data zero_data). split; [|done]. apply list_elem_of_In, nth_In. lia. }
  destruct (_ =? x) eqn:E; [propify; by apply Hpres|].
  destruct (find_xtime data max x) as [t|] eqn:F.
  - apply find_xtime_Some in F as [? ?]. by apply Hpres.
  - set (t := ((tail + 1) mod max)%nat).
    assert (Htm : (t < max)%nat) by (apply Nat.mod_upper_bound; lia).
    assert (Halt : alter (add_counter c) t (<[t := mk_data x zero_counters]> data)
                   = <[t := fresh x c]> data).
    { apply list_eq. intros i. destruct (decide (i = t)) as [->|].
      - rewrite list_lookup_alter_eq, !list_lookup_insert_eq by lia. done.
      - rewrite list_lookup_alter_ne, !list_lookup_insert_ne by done. done. }
    rewrite Halt, length_insert. split_and!; [done|done|].
    assert (Hh : has_time x data = false).
    { apply not_true_iff_false. rewrite has_time_spec. intros (d & Hd & Hdx).
      apply list_elem_of_lookup in Hd as [i Hi]. pose proof (lookup_lt_Some _ _ _ Hi).
      apply (find_xtime_None data max x i F); [lia|]. by erewrite nth_lookup_Some. }
    rewrite Hh. unfold t. rewrite <- Hlen at 1 2. apply chron_push. lia.
Qed.

Lemma credit_at_xtime x c d : xtime (credit_at x c d) = xtime d.
Proof. unfold credit_at. by case_if. Qed.

Lemma times_distinct_perm l l' : l ≡ₚ l' -> times_distinct l -> times_distinct l'.
Proof. unfold times_distinct. intros Hp. by rewrite Hp. Qed.

Lemma times_distinct_hist_add x c l : times_distinct l -> times_distinct (hist_add x c l).
Proof.
  unfold times_distinct, hist_add. intros Hnd. destruct (has_time x l) eqn:E.
  - rewrite map_map. erewrite map_ext; [done|]. apply credit_at_xtime.
  - rewrite map_app, filter_app. apply NoDup_app. split_and!.
    + destruct l as [|d l]; [done|]. simpl. rewrite drop_0. simpl in Hnd.
      destruct (decide (xtime d <> 0)).
      * rewrite filter_cons_True in Hnd by done. by apply NoDup_cons in Hnd as [_ ?].
      * by rewrite filter_cons_False in Hnd.
    + intros y Hy Hy'. apply list_elem_of_filter in Hy as [_ Hy], Hy' as [_ Hy'].
      simpl in Hy'. apply list_elem_of_singleton in Hy' as ->.
      apply not_true_iff_false in E. apply E, has_time_spec.
      apply list_elem_of_In, in_map_iff in Hy as (d & Hd & Hin).
      exists d. split; [|done]. apply list_elem_of_In in Hin. by apply subseteq_drop in Hin.
    + simpl. destruct (decide (x <> 0)).
      * rewrite filter_cons_True by done. rewrite filter_nil. apply NoDup_singleton.
      * rewrite filter_cons_False by done. constructor.
Qed.

Lemma bump_wf data tail max x c :
  ring_wf data tail max -> x <> 0 ->
  ring_wf (bump data tail max x c).1 (bump data tail max x c).2 max.
Proof.
  intros Hwf Hx. pose proof (bump_chron _ _ _ _ c Hwf Hx) as H.
  destruct (bump data tail max x c) as [data' tail']. destruct H as (H1 & H2 & H3).
  split; [done|done|]. simpl. eapply times_distinct_perm; [apply chron_perm|].
  rewrite H3. apply times_distinct_hist_add. eapply times_distinct_perm; [|apply Hwf].
  symmetry. apply chron_perm.
Qed.

(** * The history of a log of credits *)

Abbreviation credits := (list (Z * counters)).

Definition bump_all (log : credits) (max : nat) (data : list data_t) (tail : nat)
  : list data_t * nat :=
  foldl (fun r e => bump r.1 r.2 max e.1 e.2) (data, tail) log.

(** The distinct times in order of first appearance. *)
Definition times (log : credits) : list Z :=
  foldl (fun acc e => if bool_decide (e.1 ∈ acc) then acc else acc ++ [e.1]) [] log.

(** The bytes credited to a time, in 64 bits. *)
Definition bytes_at (sel : counters -> Z) (x : Z) (log : credits) : Z :=
  foldr (fun e a => (if e.1 =? x then sel e.2 else 0) + a) 0 log.
Definition total_of (x : Z) (log : credits) : data_t :=
  mk_data x (u64 (bytes_at fst x log), u64 (bytes_at snd x log)).
Definition totals (log : credits) : list data_t := map (fun x => total_of x log) (times log).

Definition lastn {A} (n : nat) (l : list A) : list A := drop (length l - n) l.

(** Times never decrease. *)
Definition ordered (log : credits) : Prop := Sorted Z.le (map fst log).

Lemma bytes_at_snoc sel x log e :
  bytes_at sel x (log ++ [e]) = bytes_at sel x log + (if e.1 =? x then sel e.2 else 0).
Proof. induction log as [|a log IH]; simpl; [lia|]. unfold bytes_at in *. rewrite IH. lia. Qed.

Lemma times_snoc log e :
  times (log ++ [e]) = if bool_decide (e.1 ∈ times log) then times log else times log ++ [e.1].
Proof. unfold times. by rewrite foldl_app. Qed.

Lemma times_elem log x : x ∈ times log <-> x ∈ map fst log.
Proof.
  induction log as [|e log IH] using rev_ind; [done|].
  rewrite times_snoc, map_app, elem_of_app, <- IH. simpl. rewrite list_elem_of_singleton.
  case_bool_decide; [naive_solver|]. by rewrite elem_of_app, list_elem_of_singleton.
Qed.

Lemma bytes_at_absent sel x log : x ∉ map fst log -> bytes_at sel x log = 0.
Proof.
  induction log as [|e log IH]; simpl; [done|]. intros [H1 H2]%not_elem_of_cons.
  rewrite IH by done. case_if; [|done]. propify. by destruct H1.
Qed.

Lemma has_time_totals x log : has_time x (totals log) = bool_decide (x ∈ times log).
Proof.
  apply eq_true_iff_eq. rewrite has_time_spec, bool_decide_eq_true. unfold totals. split.
  - intros (d & Hd & <-). apply list_elem_of_In, in_map_iff in Hd as (y & <- & Hy).
    by apply list_elem_of_In.
  - intros Hx. exists (total_of x log). split; [|done].
    apply list_elem_of_In, in_map_iff. exists x. split; [done|]. by apply list_elem_of_In.
Qed.

Lemma total_of_snoc x log e :
  total_of x (log ++ [e]) = credit_at e.1 e.2 (total_of x log).
Proof.
  unfold total_of, credit_at, add_counter, map2. rewrite !bytes_at_snoc. simpl.
  destruct e as [y [rx tx]]. simpl. rewrite (Z.eqb_sym y x).
  case_if; [|by rewrite !Z.add_0_r].
  f_equal. unfold u64. by rewrite !Zplus_mod_idemp_l.
Qed.

(** The unbounded history grows like the ring, but never drops an entry. *)
Lemma totals_snoc log e :
  totals (log ++ [e]) =
    if has_time e.1 (totals log) then map (credit_at e.1 e.2) (totals log)
    else totals log ++ [fresh e.1 e.2].
Proof.
  rewrite has_time_totals. unfold totals. rewrite times_snoc.
  assert (Hm : forall l, map (fun x => total_of x (log ++ [e])) l =
                         map (credit_at e.1 e.2) (map (fun x => total_of x log) l)).
  { intros l. rewrite map_map. apply map_ext. intros x. apply total_of_snoc. }
  case_bool_decide as Hin; [apply Hm|]. rewrite map_app, Hm. f_equal.
  - rewrite map_map. apply map_ext_in. intros x Hx. unfold credit_at. case_if; [|done].
    propify. destruct Hin. rewrite <- E. by apply list_elem_of_In.
  - simpl. rewrite total_of_snoc. unfold total_of, fresh.
    rewrite times_elem in Hin. rewrite !bytes_at_absent by done.
    unfold credit_at. simpl. by rewrite Z.eqb_refl.
Qed.

Lemma ordered_snoc log e : ordered (log ++ [e]) ->
  ordered log /\ forall x, x ∈ map fst log -> x <= e.1.
Proof.
  unfold ordered. rewrite map_app. intros Hs.
  apply Sorted_StronglySorted in Hs; [|exact Z.le_trans]. split.
  - apply StronglySorted_Sorted. by apply StronglySorted_app_1_l in Hs.
  - intros x Hx. eapply StronglySorted_app_1_elem_of; [exact Hs|done|].
    by apply list_elem_of_singleton.
Qed.

Lemma times_last log e : ordered (log ++ [e]) -> list.last (times (log ++ [e])) = Some e.1.
Proof.
  revert e. induction log as [|e' log IH] using rev_ind; intros e Ho; [done|].
  rewrite times_snoc. case_bool_decide as Hin; [|by rewrite last_snoc].
  apply ordered_snoc in Ho as [Ho Hle]. rewrite (IH _ Ho). f_equal.
  rewrite times_elem in Hin. apply ordered_snoc in Ho as [_ Hle'].
  assert (e'.1 <= e.1) by (apply Hle; rewrite map_app; apply elem_of_app; right; left).
  rewrite map_app, elem_of_app in Hin. simpl in Hin. rewrite list_elem_of_singleton in Hin.
  destruct Hin as [Hin| ->]; [|done]. apply Hle' in Hin. lia.
Qed.

Lemma lastn_snoc {A} n (l : list A) v :
  (0 < n <= length l)%nat -> lastn n (l ++ [v]) = drop 1 (lastn n l) ++ [v].
Proof.
  intros Hn. unfold lastn. rewrite length_app. simpl. rewrite drop_app_le by lia.
  rewrite drop_drop. f_equal. f_equal. lia.
Qed.

Lemma lastn_map {A B} (f : A -> B) n l : lastn n (map f l) = map f (lastn n l).
Proof. unfold lastn. by rewrite length_map, skipn_map. Qed.

Definition zeros (n : nat) : list data_t := repeat zero_data n.

Lemma zeros_lookup n d : d ∈ zeros n -> d = zero_data.
Proof. intros H%list_elem_of_In. by apply repeat_spec in H. Qed.

Lemma credit_zeros x c n : x <> 0 -> map (credit_at x c) (zeros n) = zeros n.
Proof.
  intros Hx. unfold zeros. rewrite map_repeat. f_equal. unfold credit_at.
  rewrite (proj2 (Z.eqb_neq (xtime zero_data) x)); [done|simpl; lia].
Qed.

(** One credit: the ring's window slides over the unbounded history. *)
Lemma window_add max log e :
  (0 < max)%nat -> ordered (log ++ [e]) -> e.1 <> 0 ->
  hist_add e.1 e.2 (lastn max (zeros max ++ totals log)) =
    lastn max (zeros max ++ totals (log ++ [e])).
Proof.
  intros Hmax Ho Hx. unfold hist_add. rewrite totals_snoc.
  destruct (has_time e.1 (totals log)) eqn:Ht.
  - assert (Hlast : exists T, totals log = T ++ [total_of e.1 log]).
    { rewrite has_time_totals in Ht. pose proof (times_last _ _ Ho) as Hl.
      rewrite times_snoc, Ht in Hl. apply last_Some in Hl as [l Hl].
      exists (map (fun x => total_of x log) l). unfold totals. by rewrite Hl, map_app. }
    rewrite (proj2 (has_time_spec _ _)).
    + by rewrite <- lastn_map, map_app, credit_zeros.
    + destruct Hlast as [T ->]. exists (total_of e.1 log). split; [|done].
      rewrite app_assoc, lastn_snoc.
      * apply elem_of_app. right. by apply list_elem_of_singleton.
      * rewrite length_app. unfold zeros. rewrite repeat_length. lia.
  - rewrite (proj1 (not_true_iff_false (has_time e.1 (lastn max (zeros max ++ totals log))))).
    + rewrite app_assoc, lastn_snoc; [done|].
      rewrite length_app. unfold zeros. rewrite repeat_length. lia.
    + rewrite has_time_spec. intros (d & Hd & Hdx). apply subseteq_drop in Hd.
      apply elem_of_app in Hd as [Hd|Hd].
      * apply zeros_lookup in Hd as ->. simpl in Hdx. congruence.
      * apply not_true_iff_false in Ht. apply Ht, has_time_spec. by exists d.
Qed.

Lemma ring_wf_zeros max : (0 < max)%nat -> ring_wf (zeros max) 0 max.
Proof.
  intros. split; [apply repeat_length|done|].
  unfold times_distinct, zeros. rewrite map_repeat. simpl.
  replace (filter _ _) with (@nil Z); [constructor|].
  clear. induction max as [|n IH]; [done|]. simpl.
  rewrite filter_cons_False by (intros H; by apply H). exact IH.
Qed.

Lemma chron_zeros max : chron (zeros max) 0 = zeros max.
Proof.
  destruct max as [|n]; [done|]. unfold chron, zeros. simpl. rewrite drop_0.
  rewrite take_0. change [zero_data] with (repeat zero_data 1).
  rewrite <- repeat_app. replace (n + 1)%nat with (S n) by lia. done.
Qed.

Lemma bump_all_spec log max :
  (0 < max)%nat -> ordered log -> Forall (fun e => e.1 <> 0) log ->
  let r := bump_all log max (zeros max) 0 in
  ring_wf r.1 r.2 max /\ chron r.1 r.2 = lastn max (zeros max ++ totals log).
Proof.
  intros Hmax. induction log as [|e log IH] using rev_ind; intros Ho Hnz.
  - simpl. split; [by apply ring_wf_zeros|]. rewrite chron_zeros.
    unfold totals, lastn. simpl. rewrite app_nil_r.
    unfold zeros. by rewrite repeat_length, Nat.sub_diag, drop_0.
  - unfold bump_all. rewrite foldl_app. fold (bump_all log max (zeros max) 0).
    apply Forall_app in Hnz as [Hnz [Hx _]%Forall_cons].
    pose proof (ordered_snoc _ _ Ho) as [Ho' _].
    destruct (IH Ho' Hnz) as [Hwf Hc]. clear IH.
    destruct (bump_all log max (zeros max) 0) as [data tail]. simpl in *.
    split; [by apply bump_wf|]. pose proof (bump_chron _ _ _ _ e.2 Hwf Hx) as Hb.
    destruct (bump data tail max e.1 e.2) as [data' tail']. destruct Hb as (_ & _ & Hb).
    simpl in *. rewrite Hb, Hc. by apply window_add.
Qed.

(** * What is published *)

Definition entry_js (d : data_t) : cstr :=
  bytes "[" ++ hex (xtime d) ++ bytes "," ++ hex ((counter d).1 / K) ++ bytes "," ++
  hex ((counter d).2 / K) ++ bytes "]".

Fixpoint join (sep : cstr) (l : list cstr) : cstr :=
  match l with
  | [] => []
  | [s] => s
  | s :: l' => s ++ sep ++ join sep l'
  end.

Lemma join_cons sep s l : join sep (s :: l) = s ++ concat (map (app sep) l).
Proof.
  revert s. induction l as [|s' l IH]; intros s; [symmetry; apply app_nil_r|].
  change (join sep (s :: s' :: l)) with (s ++ sep ++ join sep (s' :: l)).
  rewrite IH. cbn [map concat]. by rewrite !app_assoc.
Qed.

(** The entries of the slots still to visit, empty ones left out. *)
Definition visited (data : list data_t) (max k p : nat) : list cstr :=
  map entry_js (filter (fun d => xtime d <> 0) (walk zero_data data max k p)).

Lemma visited_S data max k p :
  let p' := ((p + 1) mod max)%nat in let d := nth p' data zero_data in
  visited data max (S k) p =
    if xtime d =? 0 then visited data max k p' else entry_js d :: visited data max k p'.
Proof.
  intros p' d. unfold visited. cbn [walk]. fold p'. fold d. case_if; propify.
  - by rewrite filter_cons_False by naive_solver.
  - by rewrite filter_cons_True.
Qed.

Lemma datajs_rest data max k p kn :
  kn <> 0%nat -> datajs_loop data max k p kn = concat (map (app (bytes ",")) (visited data max k p)).
Proof.
  revert p kn. induction k as [|k IH]; intros p kn Hkn; [done|].
  rewrite visited_S. cbn [datajs_loop]. case_if; [by apply IH|].
  cbn [map concat]. rewrite <- (IH _ (S kn)) by done.
  rewrite (proj2 (Nat.eqb_neq _ _)) by done. unfold entry_js. by rewrite <- !app_assoc.
Qed.

Lemma datajs_visited data max k p :
  datajs_loop data max k p 0 = join (bytes ",") (visited data max k p).
Proof.
  revert p. induction k as [|k IH]; intros p; [done|].
  rewrite visited_S. cbn [datajs_loop]. case_if; [by apply IH|].
  rewrite join_cons, datajs_rest by done. unfold entry_js.
  cbn [Nat.eqb]. rewrite app_nil_l. by rewrite <- !app_assoc.
Qed.

(** A date of the years 1970 to 34667. *)
Definition date_ok (t : tm) : Prop :=
  70 <= tm_year t < 2 ^ 15 /\ 0 <= tm_mon t <= 11 /\ 1 <= tm_mday t <= 31.

Lemma xtime_value t : date_ok t ->
  xtime_of t true = tm_year t * 65536 + tm_mon t * 256 + tm_mday t /\
  xtime_of t false = tm_year t * 65536 + tm_mon t * 256.
Proof.
  intros (Hy & Hm & Hd). unfold xtime_of.
  rewrite (Z.shiftl_mul_pow2 (tm_mon t)) by lia.
  rewrite (lor_shiftl_add (tm_year t) _ 16) by lia.
  assert (Hsum : tm_year t * 2 ^ 16 + tm_mon t * 2 ^ 8 = (tm_year t * 2 ^ 8 + tm_mon t) * 2 ^ 8) by lia.
  rewrite Z.lor_0_r, Hsum, lor_mul_add by lia.
  unfold u32. rewrite !Z.mod_small by lia. lia.
Qed.

Lemma xtime_nonzero t b : date_ok t -> xtime_of t b <> 0.
Proof. intros H. destruct (xtime_value t H). destruct b, H; lia. Qed.

(** * Theorems *)

(** C23: the daily ring (and the monthly one, which is longer) holds the totals
    of the most recent recorded days: after any sequence of credits whose dates
    never go back, its entries from oldest to newest are the last [max] of all
    per-date totals in 64-bit arithmetic, empty slots first, however often the
    ring wrapped. *)
Theorem history_holds_recent_totals (log : credits) (max : nat) :
  (0 < max)%nat -> ordered log -> Forall (fun e => e.1 <> 0) log ->
  let '(data, tail) := bump_all log max (repeat zero_data max) 0 in
  chron data tail = lastn max (repeat zero_data max ++ totals log).
Proof.
  intros Hm Ho Hnz. destruct (bump_all_spec log max Hm Ho Hnz) as [_ Hc]. unfold zeros in *.
  by destruct (bump_all log max (repeat zero_data max) 0).
Qed.

(** [bump] keeps the ring well formed (its length, an index in range, one
    slot per date) and refines adding to a list of dated totals: the slot of the
    date is credited, or the oldest slot makes room for a new one; nothing else
    changes. *)
Theorem bump_refines (data : list data_t) (tail max : nat) (x : Z) (c : counters) :
  ring_wf data tail max -> x <> 0 ->
  let '(data', tail') := bump data tail max x c in
  ring_wf data' tail' max /\ chron data' tail' = hist_add x c (chron data tail).
Proof.
  intros Hwf Hx. pose proof (bump_wf _ _ _ _ c Hwf Hx) as Hwf'.
  pose proof (bump_chron _ _ _ _ c Hwf Hx) as Hc.
  destruct (bump data tail max x c) as [data' tail']. by destruct Hc as (_ & _ & ->).
Qed.

(** The published daily history lists the recorded days from oldest to
    newest, each once, with its kilobytes, separated by commas; empty slots are
    left out. *)
Theorem save_datajs_chronological (h : history_t) :
  ring_wf (daily h) (dailyp h) MAX_NDAILY ->
  save_datajs h true =
    nl ++ bytes "daily_history = [" ++ nl ++
    join (bytes ",") (map entry_js (filter (fun d => xtime d <> 0) (chron (daily h) (dailyp h)))) ++
    bytes "];" ++ nl.
Proof.
  intros [Hlen Ht _]. unfold save_datajs. rewrite datajs_visited. unfold visited.
  rewrite <- Hlen at 1 2. rewrite walk_all by lia. done.
Qed.

(** The 32-bit code of a date orders dates as the calendar does, and the
    code of a month as its months. *)
Lemma xtime_orders_dates (a b : tm) :
  let before t u := tm_year t < tm_year u \/ (tm_year t = tm_year u /\
    (tm_mon t < tm_mon u \/ (tm_mon t = tm_mon u /\ tm_mday t < tm_mday u))) in
  date_ok a -> date_ok b ->
  (xtime_of a true < xtime_of b true <-> before a b) /\
  (xtime_of a false < xtime_of b false <->
     tm_year a < tm_year b \/ (tm_year a = tm_year b /\ tm_mon a < tm_mon b)) /\
  xtime_of a true <> 0 /\ xtime_of a false <> 0.
Proof.
  intros before Ha Hb.
  destruct (xtime_value a Ha) as [-> ->], (xtime_value b Hb) as [-> ->].
  unfold date_ok, before in *. lia.
Qed.

(** * Witnesses *)

Definition sample_log : credits := [(7, (10, 1)); (7, (5, 2)); (8, (1, 1)); (9, (3, 0))].

Lemma history_holds_recent_totals_witness :
  let '(data, tail) := bump_all sample_log 2 (repeat zero_data 2) 0 in
  chron data tail = [mk_data 8 (1, 1); mk_data 9 (3, 0)].
Proof.
  exact (history_holds_recent_totals sample_log 2 ltac:(lia)
           ltac:(repeat constructor; simpl; lia) ltac:(repeat constructor; simpl; lia)).
Defined.

Definition sample_ring : list data_t := [mk_data 7 (15, 3); mk_data 0 (0, 0)].

Lemma sample_ring_wf : ring_wf sample_ring 0 2.
Proof. split; [done|lia|]. apply (bool_decide_unpack _). vm_compute. exact I. Qed.

Lemma bump_refines_witness :
  let '(data', tail') := bump sample_ring 0 2 8 (4, 4) in
  chron data' tail' = [mk_data 7 (15, 3); mk_data 8 (4, 4)].
Proof. exact (proj2 (bump_refines sample_ring 0 2 8 (4, 4) sample_ring_wf ltac:(lia))). Defined.

Definition sample_history : history_t :=
  mk_history CURRENT_ID (mk_data 7 (2048, 1024) :: repeat zero_data 61) 0 (repeat zero_data 121) 0.

Lemma save_datajs_chronological_witness :
  save_datajs sample_history true =
    nl ++ bytes "daily_history = [" ++ nl ++ bytes "[0x7,0x2,0x1]];" ++ nl.
Proof.
  etransitivity; [apply (save_datajs_chronological sample_history)|reflexivity].
  split; [done|simpl; unfold MAX_NDAILY; lia|]. apply (bool_decide_unpack _). vm_compute. exact I.
Defined.

Lemma xtime_orders_dates_witness :
  xtime_of (mk_tm 125 11 31) true < xtime_of (mk_tm 126 0 1) true.
Proof.
  apply (xtime_orders_dates (mk_tm 125 11 31) (mk_tm 126 0 1)); unfold date_ok; simpl; lia.
Defined.

End RstatsHistory.
