(* ===== verification/RstatsCalc.v ===== *)
(** One pass of rstats over the interface counters: what it credits to an
    interface, the speed ring, the invariant of the daemon's state, what the
    clean-up loop does, the parsing of /proc/net/dev and the main loop. *)

From Stdlib Require Import ZArith Lia.
From stdpp Require Import base list strings relations.
From S2P Require Import Prelude Scan Strings Nvram Ring Rstats RstatsHistory.

Local Open Scope Z_scope.

Module RstatsCalc.
Import Scan Strings.Strings Nvram.Nvram Ring Rstats RstatsHistory.

Lemma drop_after {A} (a : list A) x b : drop (S (length a)) (a ++ x :: b) = b.
Proof. induction a as [|y a IH]; [done|exact IH]. Qed.

(** * Parsing *)

Lemma strchr_app s c t : c ∉ s -> strchr (s ++ c :: t) c = Some (length s).
Proof.
  induction s as [|x s IH]; simpl; intros Hc.
  - by rewrite Z.eqb_refl.
  - apply not_elem_of_cons in Hc as [Hx Hc]. rewrite IH by done.
    by rewrite (proj2 (Z.eqb_neq _ _)) by congruence.
Qed.

Lemma strrchr_absent s c : c ∉ s -> strrchr s c = None.
Proof.
  induction s as [|x s IH]; simpl; intros Hc; [done|].
  apply not_elem_of_cons in Hc as [Hx Hc]. rewrite IH by done.
  by rewrite (proj2 (Z.eqb_neq _ _)) by congruence.
Qed.

Lemma strrchr_app s c t : c ∉ t -> strrchr (s ++ c :: t) c = Some (length s).
Proof.
  intros Ht. induction s as [|x s IH]; simpl.
  - by rewrite strrchr_absent, Z.eqb_refl.
  - by rewrite IH.
Qed.

(** A numeral as the kernel prints it in a line: after blanks. *)
Definition field (f : nat * Z) : cstr := repeat 32 (S f.1) ++ print_u 10 f.2.

Lemma spaces_space k : Forall (fun c => isspace c = true) (repeat 32 k).
Proof. apply Forall_forall. intros x Hx%list_elem_of_In%repeat_spec. by subst. Qed.

Lemma ends_field f rest : ends_numeral (field f ++ rest).
Proof. reflexivity. Qed.

Lemma scan_field f rest :
  0 <= f.2 < 2 ^ 64 -> ends_numeral rest -> scan_u64 (field f ++ rest) = Some (f.2, rest).
Proof.
  intros. unfold field. rewrite <- app_assoc. apply scan_u64_print; [apply spaces_space|done|done].
Qed.

Lemma skip_fields fs rest :
  ends_numeral rest -> skip_us (length fs) (concat (map field fs) ++ rest) = Some rest.
Proof.
  intros Hr. induction fs as [|f fs IH]; [done|]. cbn [length skip_us map concat].
  unfold field at 1. rewrite <- !app_assoc. rewrite skip_u_print.
  - exact IH.
  - apply spaces_space.
  - destruct fs; [exact Hr|reflexivity].
Qed.

(** * Traffic of one interface *)

Section Traffic.
Context {nv : Nvram} {build : Build} {sys : System}.

Definition set_sync (s : Z) (sp : speed_t) : speed_t :=
  mk_speed (ifname sp) (utime sp) (speed sp) (last sp) (tail sp) s.

Definition cle (a b : counters) : Prop := a.1 <= b.1 /\ a.2 <= b.2.
Definition cadd (a b : counters) : counters := map2 Z.add a b.
Definition csub (a b : counters) : counters := map2 Z.sub a b.

(** Passes of an interface that stays up: after each one the clean-up loop sets
    [sync] back to 0. *)
Fixpoint passes (prefix : cstr) (samples : list (Z * counters)) (sp : speed_t)
  : speed_t * counters :=
  match samples with
  | [] => (sp, zero_counters)
  | (up, c) :: rest =>
      let '(sp, cr) := update_iface false up prefix c sp in
      let '(sp, total) := passes prefix rest (set_sync 0 sp) in
      (sp, cadd (default zero_counters cr) total)
  end.

Lemma rollover_diff_mono prefix c sc : sc <= c -> rollover_diff prefix c sc = c - sc.
Proof. intros. unfold rollover_diff. by rewrite (proj2 (Z.ltb_ge _ _)) by lia. Qed.

Lemma rollover_diff_wrap prefix c sc :
  0 <= c < sc -> sc < 2 ^ 64 ->
  rollover_diff prefix c sc = 0 \/
  (rollover_diff prefix c sc = 2 ^ 64 - sc + c /\ 2 ^ 64 - sc + c <= MAX_ROLLOVER).
Proof.
  intros Hc Hs. unfold rollover_diff. rewrite (proj2 (Z.ltb_lt _ _)) by lia.
  replace (0xFFFFFFFFFFFFFFFF - sc + 1) with (2 ^ 64 - sc) by lia.
  rewrite (u64_id (2 ^ 64 - sc)), u64_id by lia. repeat case_if; zify_all.
Qed.

(** The branches of [update_iface] on a synchronised interface. *)
Lemma update_early restarted up prefix c sp :
  sync sp = 0 -> s32 (Z.quot (up - utime sp) INTERVAL) < 1 ->
  update_iface restarted up prefix c sp =
    (mk_speed (ifname sp) (utime sp) (speed sp) (if restarted then c else last sp) (tail sp) (-1),
     None).
Proof.
  intros Hs Hn. unfold update_iface. rewrite Hs. cbn [Z.eqb negb].
  by rewrite (proj2 (Z.ltb_lt _ _)).
Qed.

Lemma update_due up prefix c sp :
  sync sp = 0 -> 1 <= s32 (Z.quot (up - utime sp) INTERVAL) ->
  let n := s32 (Z.quot (up - utime sp) INTERVAL) in
  let diff := map2 (rollover_diff prefix) c (last sp) in
  let r := push_speed (Z.to_nat n) (diff.1 / n, diff.2 / n) (speed sp) (tail sp) in
  update_iface false up prefix c sp =
    (mk_speed (ifname sp) (utime sp + n * INTERVAL) r.1 c r.2 (-1), Some diff).
Proof.
  intros Hs Hn n diff r. unfold update_iface. rewrite Hs. cbn [Z.eqb negb].
  fold n in Hn |- *. rewrite (proj2 (Z.ltb_ge _ _)) by lia. fold diff. cbv zeta.
  fold r. by destruct r.
Qed.

Lemma update_mono up prefix c sp :
  sync sp = 0 -> cle (last sp) c ->
  let '(sp', cr) := update_iface false up prefix c sp in
  cadd (last sp) (default zero_counters cr) = last sp' /\ cle (last sp') c.
Proof.
  intros Hs [H1 H2]. destruct (Z.lt_ge_cases (s32 (Z.quot (up - utime sp) INTERVAL)) 1).
  - rewrite update_early by done. simpl. split; [|done].
    unfold cadd, map2, zero_counters. simpl. destruct (last sp). simpl. f_equal; lia.
  - rewrite update_due by done. simpl. unfold map2. rewrite !rollover_diff_mono by done.
    unfold cadd, map2, cle. simpl. destruct c. simpl in *. split; [f_equal; lia|lia].
Qed.

(** Counters that never go back, starting from [c0]. *)
Fixpoint monotone (c0 : counters) (samples : list (Z * counters)) : Prop :=
  match samples with
  | [] => True
  | (_, c) :: rest => cle c0 c /\ monotone c rest
  end.

Lemma cle_trans a b c : cle a b -> cle b c -> cle a c.
Proof. unfold cle. lia. Qed.

Lemma monotone_weaken a b l : cle a b -> monotone b l -> monotone a l.
Proof.
  destruct l as [|[up c] l]; simpl; [done|]. intros Ha [Hb Hl]. split; [|done].
  by eapply cle_trans.
Qed.

Lemma cadd_assoc a b c : cadd a (cadd b c) = cadd (cadd a b) c.
Proof. unfold cadd, map2. simpl. f_equal; lia. Qed.

Lemma passes_conserve prefix samples sp :
  sync sp = 0 -> monotone (last sp) samples ->
  let '(sp', total) := passes prefix samples sp in cadd (last sp) total = last sp'.
Proof.
  revert sp. induction samples as [|[up c] rest IH]; intros sp Hs Hm; simpl.
  - unfold cadd, map2, zero_counters. simpl. destruct (last sp). simpl. f_equal; lia.
  - destruct Hm as [Hc Hm]. pose proof (update_mono up prefix c sp Hs Hc) as Hu.
    destruct (update_iface false up prefix c sp) as [sp1 cr]. destruct Hu as [Hu Hle].
    specialize (IH (set_sync 0 sp1) eq_refl (monotone_weaken _ _ _ Hle Hm)).
    destruct (passes prefix rest (set_sync 0 sp1)) as [sp' total].
    by rewrite cadd_assoc, Hu.
Qed.

(** * The speed ring *)

Lemma push_speed_spec j v ring t :
  length ring = MAX_NSPEED -> (t < MAX_NSPEED)%nat ->
  let '(ring', t') := push_speed j v ring t in
  length ring' = MAX_NSPEED /\ (t' < MAX_NSPEED)%nat /\
  chron ring' t' = lastn MAX_NSPEED (chron ring t ++ repeat v j).
Proof.
  revert ring t. induction j as [|j IH]; intros ring t Hl Ht.
  - cbn [push_speed repeat]. split_and!; [done|done|]. rewrite app_nil_r. unfold lastn.
    by rewrite chron_length, Hl, Nat.sub_diag, drop_0.
  - cbn [push_speed]. set (t1 := ((t + 1) mod MAX_NSPEED)%nat).
    assert (Ht1 : (t1 < MAX_NSPEED)%nat) by (apply Nat.mod_upper_bound; lia).
    specialize (IH (<[t1 := v]> ring) t1). rewrite length_insert in IH.
    specialize (IH Hl Ht1). destruct (push_speed j v (<[t1 := v]> ring) t1) as [r t'].
    destruct IH as (H1 & H2 & H3). split_and!; [done|done|]. rewrite H3. unfold t1.
    rewrite <- Hl at 2 3. rewrite chron_push by lia.
    change (repeat v (S j)) with ([v] ++ repeat v j). rewrite <- app_assoc.
    assert (Hc : exists x l, chron ring t = x :: l).
    { destruct (chron ring t) eqn:E; [|by eexists _, _].
      apply (f_equal length) in E. rewrite chron_length in E. simpl in E. lia. }
    destruct Hc as (x & l & Hc). pose proof (chron_length ring t) as Hcl. rewrite Hc in Hcl |- *.
    simpl in Hcl. unfold lastn. cbn [drop app length].
    rewrite drop_0, !length_app. cbn [length].
    replace (S (length l + S (length (repeat v j))) - MAX_NSPEED)%nat
      with (S (length l + S (length (repeat v j)) - MAX_NSPEED)) by lia.
    done.
Qed.

(** * The clean-up loop *)

Definition stale (up : Z) (exclude : cstr) (sp : speed_t) : bool :=
  (10 * SMIN <? up - utime sp) || bool_decide (is_Some (find_word exclude (ifname sp))).

Definition settle (sp : speed_t) : speed_t := set_sync (if sync sp =? -1 then 0 else 1) sp.

(** Entries that were seen, or are missing but not yet stale, stay. *)
Lemma cleanup_keeps fuel up ex l1 l2 :
  Forall (fun sp => sync sp = -1 \/ stale up ex sp = false) l2 -> (length l2 <= fuel)%nat ->
  cleanup fuel up ex (length l1) (l1 ++ l2) = l1 ++ map settle l2.
Proof.
  revert fuel l1. induction l2 as [|sp l2 IH]; intros fuel l1 Hf Hlen.
  - destruct fuel as [|f]; [done|]. simpl.
    by rewrite lookup_ge_None_2 by (rewrite app_nil_r; lia).
  - simpl in Hlen. destruct fuel as [|f]; [lia|]. cbn [cleanup].
    rewrite list_lookup_middle by done.
    apply Forall_cons in Hf as [Hsp Hf].
    assert (Hstep : forall s, cleanup f up ex (S (length l1)) (<[length l1 := set_sync s sp]> (l1 ++ sp :: l2))
                    = l1 ++ set_sync s sp :: map settle l2).
    { intros s. rewrite insert_app_r_alt, Nat.sub_diag by lia. simpl.
      specialize (IH f (l1 ++ [set_sync s sp]) Hf ltac:(lia)).
      rewrite length_app in IH. simpl in IH. rewrite Nat.add_1_r in IH.
      by rewrite <- !app_assoc in IH. }
    change (mk_speed (ifname sp) (utime sp) (speed sp) (last sp) (tail sp)) with (fun s => set_sync s sp).
    cbv beta. cbn [map]. unfold settle at 1. destruct (sync sp =? -1) eqn:E.
    + apply (Hstep 0).
    + destruct Hsp as [Hsp|Hsp]; [propify; lia|].
      unfold stale in Hsp. rewrite Hsp. apply (Hstep 1).
Qed.

(** A removed entry's successor is stepped over: it keeps [sync = -1]. *)
Lemma cleanup_removed f up ex l1 sp l2 :
  sync sp <> -1 -> stale up ex sp = true ->
  cleanup (S f) up ex (length l1) (l1 ++ sp :: l2) = cleanup f up ex (S (length l1)) (l1 ++ l2).
Proof.
  intros Hs Hst. cbn [cleanup]. rewrite list_lookup_middle by done.
  rewrite (proj2 (Z.eqb_neq _ _)) by done. unfold stale in Hst. rewrite Hst.
  rewrite take_app_length. by rewrite drop_after.
Qed.

Lemma cleanup_seen f up ex l1 l2 l3 :
  Forall (fun sp => sync sp = -1) l2 ->
  cleanup (length l2 + f) up ex (length l1) (l1 ++ l2 ++ l3) =
  cleanup f up ex (length (l1 ++ l2)) (l1 ++ map (set_sync 0) l2 ++ l3).
Proof.
  revert l1. induction l2 as [|sp l2 IH]; intros l1 Hf.
  - simpl. by rewrite app_nil_r.
  - apply Forall_cons in Hf as [Hsp Hf]. cbn [length Nat.add cleanup app].
    rewrite list_lookup_middle by done. rewrite Hsp. cbn [Z.eqb].
    rewrite insert_app_r_alt, Nat.sub_diag by lia. simpl.
    specialize (IH (l1 ++ [set_sync 0 sp]) Hf). rewrite length_app in IH. simpl in IH.
    rewrite Nat.add_1_r, <- !app_assoc in IH. unfold set_sync in IH at 1 2. simpl in IH.
    rewrite IH. rewrite !length_app. simpl. f_equal; lia.
Qed.

(** * The invariant of the state *)

Record speed_wf (sp : speed_t) : Prop := {
  sw_ring : length (speed sp) = MAX_NSPEED;
  sw_tail : (tail sp < MAX_NSPEED)%nat;
  sw_name : (length (ifname sp) < 12)%nat }.

Record state_wf (st : state) : Prop := {
  st_count : (speed_count st <= MAX_SPEED_IF)%nat;
  st_rtd : length (speed_rtd st) = MAX_SPEED_IF;
  st_speeds : Forall speed_wf (speeds st);
  st_daily : ring_wf (daily (history st)) (dailyp (history st)) MAX_NDAILY;
  st_monthly : ring_wf (monthly (history st)) (monthlyp (history st)) MAX_NMONTHLY }.

Lemma update_wf restarted up prefix c sp :
  speed_wf sp -> speed_wf (update_iface restarted up prefix c sp).1.
Proof.
  intros [H1 H2 H3]. unfold update_iface. case_if; [done|]. case_if; [done|].
  match goal with |- context [push_speed ?j ?v ?r ?t] =>
    pose proof (push_speed_spec j v r t H1 H2) as Hp; destruct (push_speed j v r t) end.
  destruct Hp as (? & ? & _). by split.
Qed.

Lemma new_speed_wf up name : speed_wf (new_speed up name).
Proof.
  split; [apply repeat_length|by apply Nat.ltb_lt|].
  simpl. unfold strlcpy. rewrite length_take. lia.
Qed.

Lemma bump_history_wf c h :
  (forall t, date_ok (localtime t)) ->
  ring_wf (daily h) (dailyp h) MAX_NDAILY -> ring_wf (monthly h) (monthlyp h) MAX_NMONTHLY ->
  let h' := bump_history c h in
  ring_wf (daily h') (dailyp h') MAX_NDAILY /\ ring_wf (monthly h') (monthlyp h') MAX_NMONTHLY.
Proof.
  intros Hcal Hd Hm. unfold bump_history.
  pose proof (bump_wf _ _ _ _ c Hd (xtime_nonzero _ true (Hcal now))) as H1.
  pose proof (bump_wf _ _ _ _ c Hm (xtime_nonzero _ false
    (Hcal (now + (1 - month_offset) * (60 * 60 * 24))))) as H2.
  destruct (bump (daily h) _ _ _ _), (bump (monthly h) _ _ _ _). done.
Qed.

Lemma find_iface_Some l name i : find_iface l name = Some i ->
  (i < length l)%nat /\ ifname (nth i l zero_speed) = name.
Proof.
  revert i. induction l as [|sp l IH]; intros i; simpl; [done|].
  case_match eqn:E.
  - intros [= <-]. apply bool_decide_eq_true in E. split; [lia|done].
  - destruct (find_iface l name) as [k|]; [|done]. intros [= <-].
    destruct (IH k eq_refl). split; [lia|done].
Qed.

(** Every outcome of a line: nothing, or one entry and its runtime slot updated,
    and then possibly the history. *)
Lemma calc_line_wf buf st :
  (forall t, date_ok (localtime t)) -> state_wf st -> state_wf (calc_line buf st).
Proof.
  intros Hcal Hwf. unfold calc_line. destruct (parse_line buf) as [[name c]|]; [|done].
  case_if; [done|].
  destruct (match find_iface (speeds st) name with
            | Some i => Some (i, speeds st)
            | None => _ end) as [[i l]|] eqn:Ef; [|done].
  assert (Hl : (length l <= MAX_SPEED_IF)%nat /\ Forall speed_wf l /\ (i < length l)%nat).
  { destruct Hwf as [H1 H2 H3 _ _]. unfold speed_count in *.
    destruct (find_iface (speeds st) name) as [k|] eqn:Ek.
    - injection Ef as <- <-. apply find_iface_Some in Ek as [? _]. done.
    - case_match eqn:Ec; [done|]. apply Nat.leb_gt in Ec. injection Ef as <- <-.
      rewrite length_app. simpl. split_and!; [lia| |lia].
      apply Forall_app. split; [done|]. constructor; [apply new_speed_wf|constructor]. }
  destruct Hl as (Hlen & Hall & Hi).
  set (r := map_unit name _). set (prefix := get_wan_prefix _ _).
  pose proof (update_wf (restarted st) (uptime st) prefix c (nth i l zero_speed)) as Hu.
  destruct (update_iface _ _ _ _ _) as [sp credit]. cbn [fst] in Hu.
  assert (Hsp : speed_wf sp).
  { apply Hu. rewrite Forall_forall in Hall. apply Hall, list_elem_of_In, nth_In. done. }
  assert (Hwf' : state_wf (set_speeds (<[i:=sp]> l) (set_rtd (<[i:=r]> (speed_rtd st)) st))).
  { destruct Hwf as [H1 H2 H3 H4 H5]. split; try done.
    - unfold speed_count. simpl. by rewrite length_insert.
    - simpl. by rewrite length_insert.
    - simpl. by apply Forall_insert. }
  destruct credit as [cr|]; [|done]. case_if; [|done].
  destruct Hwf' as [H1 H2 H3 H4 H5].
  destruct (bump_history_wf cr _ Hcal H4 H5) as [H6 H7]. by split.
Qed.

Lemma cleanup_wf fuel up ex i l :
  Forall speed_wf l ->
  Forall speed_wf (cleanup fuel up ex i l) /\ (length (cleanup fuel up ex i l) <= length l)%nat.
Proof.
  revert i l. induction fuel as [|f IH]; intros i l Hl; simpl; [done|].
  destruct (l !! i) as [sp|] eqn:Ei; [|done].
  assert (Hsp : speed_wf sp) by (by eapply Forall_lookup_1).
  assert (Hins : forall s, Forall speed_wf (<[i := set_sync s sp]> l)).
  { intros s. apply Forall_insert; [done|]. destruct Hsp. by split. }
  repeat case_if.
  - destruct (IH (S i) _ (Hins 0)) as [H1 H2]. split; [done|].
    rewrite length_insert in H2. done.
  - destruct (IH (S i) (take i l ++ drop (S i) l)) as [H1 H2].
    + apply Forall_app. split; [by apply Forall_take|by apply Forall_drop].
    + split; [done|]. rewrite length_app, length_take, length_drop in H2. lia.
  - destruct (IH (S i) _ (Hins 1)) as [H1 H2]. split; [done|].
    rewrite length_insert in H2. done.
Qed.

Lemma calc_wf proc st :
  (forall t, date_ok (localtime t)) -> state_wf st -> state_wf (calc proc st).1.
Proof.
  intros Hcal Hwf. unfold calc. destruct proc as [lines|]; [|done].
  assert (Hf : forall ls st, state_wf st -> state_wf (foldl (fun st b => calc_line b st) st ls)).
  { induction ls as [|b ls IH]; intros st0 H; [done|]. simpl. apply IH. by apply calc_line_wf. }
  specialize (Hf (drop 2 lines) st Hwf).
  set (st1 := foldl _ _ _) in *. set (ex := nvram_safe_get _).
  destruct Hf as [H1 H2 H3 H4 H5].
  destruct (cleanup_wf (speed_count st1) (uptime st1) ex 0 (speeds st1) H3) as [H6 H7].
  case_if; split; try done; unfold speed_count in *; simpl in *; lia.
Qed.

Lemma passes_app prefix a b sp :
  passes prefix (a ++ b) sp =
    let '(sp1, t1) := passes prefix a sp in
    let '(sp2, t2) := passes prefix b sp1 in (sp2, cadd t1 t2).
Proof.
  revert sp. induction a as [|[up c] a IH]; intros sp; simpl.
  - destruct (passes prefix b sp) as [sp2 [t1 t2]]. done.
  - destruct (update_iface false up prefix c sp) as [sp0 cr]. rewrite IH.
    destruct (passes prefix a (set_sync 0 sp0)) as [sp1 t1].
    destruct (passes prefix b sp1) as [sp2 t2]. by rewrite cadd_assoc.
Qed.

Lemma passes_sync prefix samples sp : sync sp = 0 -> sync (passes prefix samples sp).1 = 0.
Proof.
  revert sp. induction samples as [|[up c] rest IH]; intros sp Hs; simpl; [done|].
  destruct (update_iface false up prefix c sp) as [sp1 cr]. specialize (IH (set_sync 0 sp1) eq_refl).
  by destruct (passes prefix rest (set_sync 0 sp1)).
Qed.

Lemma due_ticks up sp :
  INTERVAL <= up - utime sp < 2 ^ 31 * INTERVAL ->
  s32 (Z.quot (up - utime sp) INTERVAL) = (up - utime sp) / INTERVAL /\
  1 <= (up - utime sp) / INTERVAL.
Proof.
  unfold INTERVAL. intros H. rewrite Z.quot_div_nonneg by lia.
  assert (1 <= (up - utime sp) / 60 < 2 ^ 31).
  { split; [apply Z.div_le_lower_bound; lia|apply Z.div_lt_upper_bound; lia]. }
  rewrite s32_id by lia. lia.
Qed.

Lemma cleanup_prefix fuel up ex l1 l2 :
  exists l', cleanup fuel up ex (length l1) (l1 ++ l2) = l1 ++ l'.
Proof.
  revert l1 l2. induction fuel as [|f IH]; intros l1 l2; [by exists l2|]. cbn [cleanup].
  destruct ((l1 ++ l2) !! length l1) as [sp|] eqn:E; [|by exists l2].
  destruct l2 as [|sp2 l2].
  { rewrite app_nil_r in E. apply lookup_lt_Some in E. lia. }
  assert (Hstep : forall x r, exists l', cleanup f up ex (S (length l1)) (l1 ++ x :: r) = l1 ++ l').
  { intros x r. destruct (IH (l1 ++ [x]) r) as [l' Hl']. rewrite length_app in Hl'. simpl in Hl'.
    rewrite Nat.add_1_r, <- !app_assoc in Hl'. by exists ([x] ++ l'). }
  repeat case_if.
  - rewrite insert_app_r_alt, Nat.sub_diag by lia. apply Hstep.
  - rewrite take_app_length, drop_after.
    destruct l2 as [|x r]; [|apply Hstep].
    destruct f as [|f]; [by exists []|]. cbn [cleanup].
    rewrite lookup_ge_None_2 by (rewrite app_nil_r; lia). by exists [].
  - rewrite insert_app_r_alt, Nat.sub_diag by lia. apply Hstep.
Qed.

Lemma cleanup_after_stale up ex l1 sp sn l2 :
  Forall (fun s => sync s = -1) l1 -> sync sp <> -1 -> stale up ex sp = true ->
  exists l', cleanup (length (l1 ++ sp :: sn :: l2)) up ex 0 (l1 ++ sp :: sn :: l2) =
    map (set_sync 0) l1 ++ sn :: l'.
Proof.
  intros H1 H2 H3. rewrite length_app.
  pose proof (cleanup_seen (length (sp :: sn :: l2)) up ex [] l1 (sp :: sn :: l2) H1) as Hc.
  cbn [app length] in Hc |- *. rewrite Hc.
  replace (length l1) with (length (map (set_sync 0) l1)) by apply length_map.
  pose proof (cleanup_removed (S (length l2)) up ex (map (set_sync 0) l1) sp (sn :: l2) H2 H3) as Hr.
  rewrite Hr.
  destruct (cleanup_prefix (S (length l2)) up ex (map (set_sync 0) l1 ++ [sn]) l2) as [l' Hl'].
  rewrite length_app in Hl'. simpl in Hl'. rewrite Nat.add_1_r, <- !app_assoc in Hl'.
  exists l'. exact Hl'.
Qed.

Lemma find_iface_app l1 sp l2 :
  ifname sp ∉ map ifname l1 -> find_iface (l1 ++ sp :: l2) (ifname sp) = Some (length l1).
Proof.
  induction l1 as [|x l1 IH]; simpl; intros Hn.
  - unfold strcmp_eq. by rewrite bool_decide_eq_true_2.
  - apply not_elem_of_cons in Hn as [Hx Hn]. unfold strcmp_eq at 1.
    rewrite bool_decide_eq_false_2 by congruence. by rewrite IH.
Qed.

Lemma find_iface_None l name : name ∉ map ifname l -> find_iface l name = None.
Proof.
  induction l as [|x l IH]; simpl; intros Hn; [done|].
  apply not_elem_of_cons in Hn as [Hx Hn]. unfold strcmp_eq.
  rewrite bool_decide_eq_false_2 by congruence. by rewrite IH.
Qed.

Lemma calc_line_clock buf st :
  uptime (calc_line buf st) = uptime st /\ save_utime (calc_line buf st) = save_utime st.
Proof.
  unfold calc_line. destruct (parse_line buf) as [[name c]|]; [|done]. case_if; [done|].
  destruct (match find_iface (speeds st) name with Some i => _ | None => _ end) as [[i l]|]; [|done].
  destruct (update_iface _ _ _ _ _) as [sp [cr|]]; [|done]. by case_if.
Qed.

End Traffic.

(** * Theorems *)

Section Theorems.
Context {nv : Nvram} {build : Build} {sys : System}.

Lemma passes_total (prefix : cstr) (samples : list (Z * counters)) (up : Z) (c : counters)
  (sp : speed_t) :
  sync sp = 0 -> monotone (last sp) (samples ++ [(up, c)]) ->
  INTERVAL <= up - utime (passes prefix samples sp).1 < 2 ^ 31 * INTERVAL ->
  let '(sp', total) := passes prefix (samples ++ [(up, c)]) sp in
  total = csub c (last sp) /\ last sp' = c.
Proof.
  intros Hs Hm Hdue. pose proof (passes_conserve prefix _ sp Hs Hm) as Hc.
  pose proof (passes_sync prefix samples sp Hs) as Hs1. rewrite passes_app in *.
  destruct (passes prefix samples sp) as [sp1 t1]. simpl in *.
  destruct (due_ticks up sp1 Hdue) as [Hn Hn1].
  rewrite update_due in * by lia. simpl in *. unfold cadd, csub, map2 in *. simpl in *.
  split; [|done]. destruct c as [c1 c2]. injection Hc as Hc1 Hc2. simpl in *. f_equal; lia.
Qed.

(** A counter that goes back is a 64-bit wrap of at most [MAX_ROLLOVER]
    bytes or counts nothing; one that does not counts its growth. *)
Theorem rollover_bounded (prefix : cstr) (c sc : Z) :
  0 <= c < 2 ^ 64 -> 0 <= sc < 2 ^ 64 ->
  (sc <= c /\ rollover_diff prefix c sc = c - sc) \/
  (c < sc /\ (rollover_diff prefix c sc = 0 \/
     (rollover_diff prefix c sc = u64 (c - sc) /\ u64 (c - sc) <= MAX_ROLLOVER))).
Proof.
  intros Hc Hsc. destruct (Z.le_gt_cases sc c) as [H|H].
  - left. split; [done|]. by apply rollover_diff_mono.
  - right. split; [done|]. destruct (rollover_diff_wrap prefix c sc) as [?|[H1 H2]]; [lia|lia|by left|].
    right. replace (u64 (c - sc)) with (2 ^ 64 - sc + c); [done|].
    unfold u64. apply Z.mod_unique_pos with (q := -1); lia.
Qed.

(** A pass that is due advances the interface's clock by whole intervals to
    within one interval of now, and pushes one speed sample per interval; the
    samples of both directions add up to the credited bytes up to less than one
    byte per sample. *)
Theorem speed_ring_tracks (prefix : cstr) (up : Z) (c : counters) (sp : speed_t) :
  speed_wf sp -> sync sp = 0 -> INTERVAL <= up - utime sp < 2 ^ 31 * INTERVAL ->
  exists n v diff sp', update_iface false up prefix c sp = (sp', Some diff) /\
    Z.of_nat n = (up - utime sp) / INTERVAL /\ 0 <= up - utime sp' < INTERVAL /\
    chron (speed sp') (tail sp') = lastn MAX_NSPEED (chron (speed sp) (tail sp) ++ repeat v n) /\
    (Z.of_nat n * v.1 <= diff.1 < Z.of_nat n * v.1 + Z.of_nat n) /\
    (Z.of_nat n * v.2 <= diff.2 < Z.of_nat n * v.2 + Z.of_nat n).
Proof.
  intros [Hr Ht _] Hs Hdue. destruct (due_ticks up sp Hdue) as [Hn Hn1].
  rewrite update_due by lia. rewrite Hn. set (n := (up - utime sp) / INTERVAL) in *.
  set (diff := map2 _ _ _). set (v := (diff.1 / n, diff.2 / n)).
  pose proof (push_speed_spec (Z.to_nat n) v (speed sp) (tail sp) Hr Ht) as Hp.
  destruct (push_speed (Z.to_nat n) v (speed sp) (tail sp)) as [ring' t'].
  destruct Hp as (_ & _ & Hp). exists (Z.to_nat n), v, diff. eexists.
  rewrite Z2Nat.id by lia. split; [done|]. split; [done|].
  pose proof (Z.div_mod (up - utime sp) INTERVAL ltac:(done)) as Hdm.
  pose proof (Z.mod_pos_bound (up - utime sp) INTERVAL ltac:(done)).
  pose proof (Z.div_mod diff.1 n ltac:(lia)). pose proof (Z.mod_pos_bound diff.1 n ltac:(lia)).
  pose proof (Z.div_mod diff.2 n ltac:(lia)). pose proof (Z.mod_pos_bound diff.2 n ltac:(lia)).
  fold n in Hdm. clearbody n. cbn [utime speed tail fst snd v].
  unfold INTERVAL in *. split_and!; first [lia|done].
Qed.

(** Every pass keeps the state well formed, whatever /proc/net/dev says: at
    most [MAX_SPEED_IF] interfaces, ring indexes in range, names that fit, and
    history rings with one slot per date. *)
Theorem calc_preserves_state (proc : option (list cstr)) (st : state) :
  (forall t, date_ok (localtime t)) -> state_wf st -> state_wf (calc proc st).1.
Proof. apply calc_wf. Qed.

(** A pass saves exactly when the save time is reached, and the next save is
    then one hour to one year away. *)
Lemma calc_save_schedule (lines : list cstr) (st : state) :
  let '(st', save) := calc (Some lines) st in
  save = (save_utime st <=? uptime st) /\ restarted st' = false /\
  (if save then SHOUR <= save_utime st' - uptime st <= 8760 * SHOUR
   else save_utime st' = save_utime st).
Proof.
  unfold calc.
  assert (Hf : forall ls st, let st' := foldl (fun st b => calc_line b st) st ls in
    uptime st' = uptime st /\ save_utime st' = save_utime st).
  { induction ls as [|b ls IH]; intros st0; [done|]. simpl.
    destruct (IH (calc_line b st0)) as [-> ->]. apply calc_line_clock. }
  destruct (Hf (drop 2 lines) st) as [Hu Hv]. set (st1 := foldl _ _ _) in *. clearbody st1.
  cbn [set_speeds uptime save_utime] in *. rewrite Hu, Hv. unfold get_stime.
  destruct (save_utime st <=? uptime st) eqn:E; split_and!; try done.
  all: cbn [set_restarted set_save_utime save_utime]; unfold SHOUR; repeat case_if; zify_all.
Qed.

(** When the clean-up loop removes a stale entry it steps over the next one.
    A live interface behind it keeps [sync = -1], so the next pass takes it for
    unsynchronised and credits nothing of the traffic in between. *)
Theorem cleanup_skips_successor (up : Z) (ex : cstr) (l1 l2 : list speed_t) (sp sn : speed_t) :
  let l := l1 ++ sp :: sn :: l2 in
  Forall (fun s => sync s = -1) l1 -> sync sp <> -1 -> stale up ex sp = true -> sync sn = -1 ->
  cleanup (length l) up ex 0 l !! length l1 = Some sn /\
  (forall restarted up' prefix c,
     (update_iface restarted up' prefix c sn).2 = Some zero_counters).
Proof.
  intros l H1 H2 H3 H4. split.
  - destruct (cleanup_after_stale up ex l1 sp sn l2 H1 H2 H3) as [l' Hl'].
    unfold l. rewrite Hl'. by rewrite list_lookup_middle by (by rewrite length_map).
  - intros. unfold update_iface. by rewrite H4.
Qed.

(** The clean-up loop moves the entries of [speed] down but not those of
    [speed_rtd]: the interface behind a removed one is then found at the removed
    one's index and takes over its WAN unit. *)
Theorem cleanup_shifts_wan_units (st : state) (ex : cstr) (l1 l2 : list speed_t) (sp sn : speed_t) :
  speeds st = l1 ++ sp :: sn :: l2 ->
  Forall (fun s => sync s = -1) l1 -> sync sp <> -1 -> stale (uptime st) ex sp = true ->
  ifname sn ∉ map ifname l1 ->
  wan_unit (nth (length l1) (speed_rtd st) zero_rtd) <> 0 ->
  let st' := set_speeds (cleanup (speed_count st) (uptime st) ex 0 (speeds st)) st in
  find_iface (speeds st') (ifname sn) = Some (length l1) /\
  map_unit (ifname sn) (nth (length l1) (speed_rtd st') zero_rtd) =
    nth (length l1) (speed_rtd st) zero_rtd.
Proof.
  intros Hl H1 H2 H3 Hn Hu.
  destruct (cleanup_after_stale (uptime st) ex l1 sp sn l2 H1 H2 H3) as [l' Hl'].
  unfold speed_count. cbn [set_speeds speeds speed_rtd]. rewrite Hl, Hl'. split.
  - replace (length l1) with (length (map (set_sync 0) l1)) by apply length_map.
    apply find_iface_app. rewrite map_map. done.
  - unfold map_unit. by rewrite (proj2 (Z.eqb_neq _ _)).
Qed.

(** An interface name of twelve or more characters (the kernel allows
    fifteen) never matches the truncated copy in the table: every pass adds one
    more entry for it, as long as there is room, and credits none of its
    traffic. *)
Theorem long_name_never_matches (buf name : cstr) (c : counters) (st : state) :
  state_wf st -> parse_line buf = Some (name, c) -> (12 <= length name)%nat ->
  strcmp_eq name (bytes "lo") || bool_decide (is_Some (find_word (nvram_safe_get (bytes "rstats_exclude")) name)) = false ->
  (speed_count st < MAX_SPEED_IF)%nat ->
  exists sp, speeds (calc_line buf st) = speeds st ++ [sp] /\ ifname sp = take 11 name /\ last sp = c /\
    (history (calc_line buf st) = history st \/
     history (calc_line buf st) = bump_history zero_counters (history st)).
Proof.
  intros Hwf Hp Hlong Hex Hroom. unfold calc_line. rewrite Hp, Hex.
  rewrite find_iface_None.
  - rewrite (proj2 (Nat.leb_gt _ _)) by done. unfold speed_count.
    rewrite nth_middle. unfold update_iface. cbn [new_speed sync Z.eqb negb].
    rewrite insert_app_r_alt, Nat.sub_diag by lia. eexists.
    split; [by case_if|]. split; [done|]. split; [done|]. case_if; [by right|by left].
  - intros Hin. apply list_elem_of_In, in_map_iff in Hin as (sp & <- & Hsp).
    pose proof (st_speeds _ Hwf) as Hall. rewrite Forall_forall in Hall.
    apply list_elem_of_In in Hsp. destruct (Hall _ Hsp). lia.
Qed.

End Theorems.

(** A line of /proc/net/dev as the kernel prints it (blanks, the name, a
    colon, then the counters each after at least one blank) is read back: the
    name, the received bytes from the first and the transmitted bytes from the
    ninth counter. *)
Theorem parse_line_reads (pad name rest : cstr) (rx tx : nat * Z) (mid : list (nat * Z)) :
  Forall (fun c => c = 32) pad -> (chr ":" ∉ name) -> (chr " " ∉ name) ->
  0 <= rx.2 < 2 ^ 64 -> 0 <= tx.2 < 2 ^ 64 -> length mid = 7%nat -> ends_numeral rest ->
  parse_line (pad ++ name ++ bytes ":" ++ field rx ++ concat (map field mid) ++ field tx ++ rest)
    = Some (name, (rx.2, tx.2)).
Proof.
  intros Hpad Hc Hs Hrx Htx Hmid Hrest. unfold parse_line.
  assert (Hp : chr ":" ∉ pad ++ name).
  { apply not_elem_of_app. split; [|done]. intros Hin. rewrite Forall_forall in Hpad.
    by apply Hpad in Hin. }
  rewrite app_assoc. change (bytes ":" ++ ?s) with (chr ":" :: s). rewrite strchr_app by done.
  rewrite take_app_length.
  assert (Hn : match strrchr (pad ++ name) (chr " ") with
               | None => pad ++ name | Some k => drop (S k) (pad ++ name) end = name).
  { destruct pad as [|x pad' _] using rev_ind; [by rewrite strrchr_absent|].
    apply Forall_app in Hpad as [_ [-> _]%Forall_cons]. rewrite <- app_assoc.
    change ([32] ++ name) with (chr " " :: name). rewrite strrchr_app by done.
    apply drop_after. }
  rewrite Hn, drop_after.
  rewrite scan_field; [|done|].
  - rewrite <- Hmid. rewrite skip_fields by apply ends_field. by rewrite scan_field.
  - destruct mid; [done|reflexivity].
Qed.

(** * The speed report *)

Definition sum_list (l : list Z) : Z := foldr Z.add 0 l.
Definition max_list (l : list Z) : Z := foldr Z.max 0 l.

#[export] Instance sum_list_perm : Proper ((≡ₚ) ==> (=)) sum_list.
Proof. intros l l' H. unfold sum_list. induction H; simpl; lia. Qed.
#[export] Instance max_list_perm : Proper ((≡ₚ) ==> (=)) max_list.
Proof. intros l l' H. unfold max_list. induction H; simpl; lia. Qed.

Lemma speedjs_loop_spec ring k p first total tmax :
  Forall (fun v => 0 <= v) ring -> 0 <= tmax -> 0 <= total < 2 ^ 64 ->
  let vs := walk 0 ring MAX_NSPEED k p in
  speedjs_loop ring k p first total tmax =
    ((if first then join (bytes ",") (map (print_u 10) vs)
      else concat (map (app (bytes ",")) (map (print_u 10) vs))),
     u64 (total + sum_list vs), Z.max tmax (max_list vs)).
Proof.
  intros Hr. revert p first total tmax.
  induction k as [|k IH]; intros p first total tmax Hm Ht; cbn [speedjs_loop walk].
  - cbn [map sum_list max_list foldr]. rewrite Z.add_0_r, (u64_id total), (Z.max_l tmax) by lia.
    by destruct first.
  - set (p' := ((p + 1) mod MAX_NSPEED)%nat). set (n := nth p' ring 0).
    assert (Hn : 0 <= n).
    { unfold n. destruct (nth_in_or_default p' ring 0) as [Hin| ->]; [|lia].
      rewrite Forall_forall in Hr. apply Hr. by apply list_elem_of_In. }
    rewrite IH; [|case_if; zify_all|apply u64_range].
    cbn [map sum_list max_list foldr]. f_equal; [f_equal|].
    + destruct first; [by rewrite join_cons, app_nil_l|].
      cbn [concat map]. by rewrite <- app_assoc.
    + unfold u64. rewrite Zplus_mod_idemp_l. f_equal. unfold sum_list. lia.
    + unfold max_list. case_if; zify_all.
Qed.

(** For each direction the speed report lists the ring from the oldest to
    the newest sample, with their 64-bit sum, its 1440th part and the maximum. *)
Theorem speedjs_reports_ring (c : cstr) (ring : list Z) (t : nat) :
  length ring = MAX_NSPEED -> (t < MAX_NSPEED)%nat -> Forall (fun v => 0 <= v) ring ->
  speedjs_dir c ring t =
    bytes "," ++ nl ++ bytes " " ++ c ++ bytes "x: [" ++
    join (bytes ",") (map (print_u 10) (chron ring t)) ++ bytes "]," ++ nl ++
    bytes " " ++ c ++ bytes "x_avg: " ++
      print_u 10 (u64 (sum_list ring) / Z.of_nat MAX_NSPEED) ++ bytes "," ++ nl ++
    bytes " " ++ c ++ bytes "x_max: " ++ print_u 10 (max_list ring) ++ bytes "," ++ nl ++
    bytes " " ++ c ++ bytes "x_total: " ++ print_u 10 (u64 (sum_list ring)).
Proof.
  intros Hl Ht Hr. unfold speedjs_dir. rewrite speedjs_loop_spec by (done || lia).
  assert (Hw : walk 0 ring MAX_NSPEED MAX_NSPEED t = chron ring t).
  { rewrite <- Hl at 1 2. apply walk_all. lia. }
  rewrite !Hw.
  assert (Hm0 : 0 <= max_list ring) by (unfold max_list; clear; induction ring; simpl; lia).
  by rewrite (sum_list_perm _ _ (chron_perm ring t)), (max_list_perm _ _ (chron_perm ring t)),
    Z.add_0_l, Z.max_r.
Qed.

(** * The main loop *)

Definition is_calc (a : action) : bool := match a with Calc => true | _ => false end.
Definition calcs (log : list action) : Z := Z.of_nat (length (List.filter is_calc log)).

(** Saves before it exits, and does nothing afterwards. *)
Definition exits_saved (log : list action) : Prop :=
  In Exit log -> exists l q, log = l ++ [Save q; Exit].

Lemma calcs_app a b : calcs (a ++ b) = calcs a + calcs b.
Proof. unfold calcs. rewrite List.filter_app, length_app. lia. Qed.

Lemma wake_no_calc load_fn sshut z t f acts f' :
  wake load_fn sshut z t f = (acts, f') -> calcs acts = 0.
Proof.
  unfold wake. intros H. destruct (gothup f), load_fn; simpl in H;
    repeat case_match; simplify_eq; reflexivity.
Qed.

Lemma wake_exit load_fn sshut z t f acts f' :
  wake load_fn sshut z t f = (acts, f') -> In Exit acts ->
  exists l, acts = l ++ [Save (negb sshut); Exit].
Proof.
  unfold wake. intros H Hin. destruct (gothup f), load_fn; simpl in H;
    repeat case_match; simplify_eq; simpl in Hin; try (exfalso; naive_solver);
    first [by exists [] | by eexists [_]].
Qed.

Definition daemon_start (z : Z) (f : flags) : daemon := mk_daemon z z f [].

Record daemon_inv (z0 : Z) (d : daemon) : Prop := {
  di_deadline : d_z d = z0 + INTERVAL * calcs (d_log d);
  di_pace : d_z d <= d_uptime d + INTERVAL;
  di_exit : exits_saved (d_log d) }.

Lemma daemon_inv_step z0 d d' : daemon_inv z0 d -> main_step d d' -> daemon_inv z0 d'.
Proof.
  intros [H1 H2 H3] Hs. destruct Hs as [d sig|d lf ss t acts f Hlt Hne Ht Hw|d Hle Hne]; simpl in *.
  - by split.
  - split; simpl.
    + rewrite calcs_app, (wake_no_calc _ _ _ _ _ _ _ Hw). lia.
    + lia.
    + intros Hin. apply in_app_or in Hin as [Hin|Hin]; [done|].
      destruct (wake_exit _ _ _ _ _ _ _ Hw Hin) as [l ->].
      exists (d_log d ++ l), (negb ss). by rewrite app_assoc.
  - split; simpl.
    + rewrite calcs_app. change (calcs [Calc]) with 1. lia.
    + lia.
    + intros Hin. apply in_app_or in Hin as [Hin|[Hin|[]]]; done.
Qed.

(** The main loop samples once per interval and shuts down cleanly. Over
    any sequence of wake-ups and signals the k-th sample is never taken before
    [k - 1] intervals have passed, a late loop catches up one sample at a time,
    and the last two actions of a terminated daemon are a save and the exit. *)
Theorem main_loop_paced (z0 : Z) (f : flags) (d : daemon) :
  rtc main_step (daemon_start z0 f) d ->
  d_z d = z0 + INTERVAL * calcs (d_log d) /\
  (calcs (d_log d) - 1) * INTERVAL <= d_uptime d - z0 /\
  (In Exit (d_log d) -> exists l q, d_log d = l ++ [Save q; Exit]).
Proof.
  intros Hr.
  assert (Hinv : daemon_inv z0 d).
  { revert d Hr. apply (rtc_ind_r (R := main_step) (daemon_inv z0) (daemon_start z0 f)).
    - split; simpl; [unfold calcs; simpl; lia|unfold INTERVAL; lia|intros []].
    - intros d1 d2 _ Hs Hi. by eapply daemon_inv_step. }
  destruct Hinv as [H1 H2 H3]. unfold INTERVAL in *. split_and!; [done|lia|done].
Qed.

(** * Witnesses *)

Definition demo_nvram : Nvram := {|
  nvram_get k := if strcmp_eq k (bytes "wan_proto") then Some (bytes "dhcp") else None;
  nvram_get_int k := if strcmp_eq k (bytes "ntp_ready") then 1 else 0 |}.
Definition demo_build : Build := {| MWAN_MAX := 4 |}.
Definition demo_system : System := {|
  now := 0; localtime _ := mk_tm 125 0 1; check_wanup _ := false; check_wanup_time _ := 0 |}.
#[local] Existing Instances demo_nvram demo_build demo_system.

Definition iface (name : cstr) (ut s : Z) (l : counters) : speed_t :=
  mk_speed name ut (repeat zero_counters MAX_NSPEED) l 0 s.

Lemma iface_wf name ut s l : (length name < 12)%nat -> speed_wf (iface name ut s l).
Proof. intros. split; [apply repeat_length|by apply Nat.ltb_lt|done]. Qed.

Lemma rollover_bounded_witness :
  (10 <= 5 /\ rollover_diff (bytes "wan") 5 10 = 5 - 10) \/
  (5 < 10 /\ (rollover_diff (bytes "wan") 5 10 = 0 \/
     (rollover_diff (bytes "wan") 5 10 = u64 (5 - 10) /\ u64 (5 - 10) <= MAX_ROLLOVER))).
Proof. apply (rollover_bounded (bytes "wan") 5 10); lia. Defined.

Lemma speed_ring_tracks_witness :
  exists (n : nat) (v diff : counters) (sp' : speed_t),
    update_iface false 130 (bytes "wan") (220, 10) (iface (bytes "ppp0") 0 0 (100, 10)) = (sp', Some diff) /\
    Z.of_nat n = 2 /\ Z.of_nat n * v.1 <= diff.1.
Proof.
  destruct (speed_ring_tracks (bytes "wan") 130 (220, 10) (iface (bytes "ppp0") 0 0 (100, 10)))
    as (n & v & diff & sp' & H1 & H2 & _ & _ & [H3 _] & _).
  - apply iface_wf. simpl. lia.
  - reflexivity.
  - vm_compute. intuition congruence.
  - exists n, v, diff, sp'. split; [exact H1|]. split; [exact H2|exact H3].
Defined.

Definition demo_state (l : list speed_t) : state :=
  mk_state clear_history l (repeat (mk_rtd 0 false) MAX_SPEED_IF) 0 60 false.

Lemma clear_history_wf :
  ring_wf (daily clear_history) (dailyp clear_history) MAX_NDAILY /\
  ring_wf (monthly clear_history) (monthlyp clear_history) MAX_NMONTHLY.
Proof. split; apply ring_wf_zeros; unfold MAX_NDAILY, MAX_NMONTHLY; lia. Qed.

Lemma demo_state_wf : state_wf (demo_state []).
Proof.
  split; [unfold speed_count; simpl; lia|apply repeat_length|constructor|
          apply clear_history_wf|apply clear_history_wf].
Qed.

Lemma calc_preserves_state_witness : state_wf (calc (Some []) (demo_state [])).1.
Proof.
  apply (calc_preserves_state (Some []) (demo_state [])).
  - intros t. unfold date_ok. simpl. lia.
  - exact demo_state_wf.
Defined.

Lemma cleanup_skips_successor_witness :
  cleanup 2 700 [] 0 [iface (bytes "ppp0") 0 0 (0, 0); iface (bytes "br0") 660 (-1) (5, 5)] !! 0%nat
    = Some (iface (bytes "br0") 660 (-1) (5, 5)).
Proof.
  apply (cleanup_skips_successor 700 [] [] [] (iface (bytes "ppp0") 0 0 (0, 0))
           (iface (bytes "br0") 660 (-1) (5, 5))); [constructor|done|reflexivity|reflexivity].
Defined.

(** ppp0 was the first WAN; br0 takes over its unit. *)
Definition st_units : state :=
  mk_state clear_history [iface (bytes "ppp0") 0 0 (0, 0); iface (bytes "br0") 660 (-1) (5, 5)]
    [mk_rtd 1 false; mk_rtd (-1) false] 0 700 false.

Lemma cleanup_shifts_wan_units_witness :
  map_unit (bytes "br0")
    (nth 0 (speed_rtd (set_speeds (cleanup 2 700 [] 0 (speeds st_units)) st_units)) zero_rtd)
    = mk_rtd 1 false.
Proof.
  apply (cleanup_shifts_wan_units st_units [] [] [] (iface (bytes "ppp0") 0 0 (0, 0))
           (iface (bytes "br0") 660 (-1) (5, 5)));
    [reflexivity|constructor|done|reflexivity|by apply not_elem_of_nil|done].
Defined.

Definition long_line : cstr := bytes "wireguard-lan0: 10 0 0 0 0 0 0 0 20 0".

Lemma long_name_never_matches_witness :
  exists sp, speeds (calc_line long_line (demo_state [])) = [sp] /\ ifname sp = bytes "wireguard-l".
Proof.
  destruct (long_name_never_matches long_line (bytes "wireguard-lan0") (10, 20) (demo_state []))
    as (sp & H1 & H2 & _).
  - exact demo_state_wf.
  - reflexivity.
  - simpl. lia.
  - reflexivity.
  - apply Nat.ltb_lt. reflexivity.
  - exists sp. split; [exact H1|exact H2].
Defined.

Lemma parse_line_reads_witness :
  parse_line (bytes "  eth0: 7 1 2 3 4 5 6 7 9 0") = Some (bytes "eth0", (7, 9)).
Proof.
  apply (parse_line_reads (bytes "  ") (bytes "eth0") (bytes " 0") (0%nat, 7) (0%nat, 9)
    [(0%nat, 1); (0%nat, 2); (0%nat, 3); (0%nat, 4); (0%nat, 5); (0%nat, 6); (0%nat, 7)]);
    try (simpl; lia); try reflexivity.
  - repeat constructor.
  - apply (bool_decide_unpack _). exact I.
  - apply (bool_decide_unpack _). exact I.
Defined.

Definition flat_ring : list Z := 5 :: repeat 0 1439.

Lemma speedjs_reports_ring_witness :
  exists s, speedjs_dir (bytes "r") flat_ring 0 = s ++ bytes "5".
Proof.
  rewrite (speedjs_reports_ring (bytes "r") flat_ring 0).
  - eexists. rewrite !app_assoc. f_equal.
  - reflexivity.
  - apply Nat.ltb_lt. reflexivity.
  - apply Forall_cons. split; [lia|]. apply Forall_forall.
    intros x Hx%list_elem_of_In%repeat_spec. lia.
Defined.

Lemma main_loop_paced_witness :
  d_z (mk_daemon 160 100 (mk_flags false 0 false) [Calc]) = 100 + INTERVAL * calcs [Calc].
Proof.
  apply (main_loop_paced 100 (mk_flags false 0 false) (mk_daemon 160 100 (mk_flags false 0 false) [Calc])).
  eapply rtc_l; [|apply rtc_refl]. apply (step_calc (daemon_start 100 (mk_flags false 0 false)));
    simpl; [lia|auto].
Defined.

End RstatsCalc.
