(* ===== verification/RstatsRun.v ===== *)
(** The bandwidth history daemon over many passes (src/tomato64/package/rstats/rstats/rstats.c).

    A pass is one call of [calc]: it reads the counters of all interfaces, adds what has
    passed to the history, and cleans up the table. Here the calls follow each other, each
    with its own clock, and it is shown that the traffic of a WAN interface that stays in
    the table reaches the history completely, and once. *)

From Stdlib Require Import ZArith Lia.
From stdpp Require Import base list strings.
From S2P Require Import Prelude Scan Strings Nvram Ring Rstats RstatsHistory RstatsCalc.

Local Open Scope Z_scope.

Module RstatsRun.
Import Scan Strings.Strings Nvram.Nvram Ring Rstats RstatsHistory RstatsCalc.

Section Run.
Context {nv : Nvram} {build : Build}.











(** ** The history is made of the credits *)






(** ** One interface *)

Context (name : cstr).

























End Run.

(** * Theorem *)


(** * Witness *)

#[local] Existing Instances demo_nvram demo_build.



End RstatsRun.
