(* ===== verification/RstatsStore.v ===== *)
(** How rstats keeps its data across restarts
    (src/tomato64/package/rstats/rstats/rstats.c, [comp] to [load]).

    The file system is a finite map from paths to contents; [rename] is atomic
    and fails when its source is missing. What the daemon cannot control (other
    programs, the network share, the calendar) is an [attempt] per try. The
    memory image of the structures and its compression are the class [Archive]:
    what is packed is unpacked again. The writes below /var, a RAM disk that can be full,
    may fail or be cut short: [written]. What a failed [cp] leaves in its target is not
    represented. *)

From Stdlib Require Import ZArith Lia.
From stdpp Require Import base list strings gmap.
From S2P Require Import Prelude Scan Strings Nvram Base64 Ring Rstats.

Local Open Scope Z_scope.

Module RstatsStore.
Import Scan Nvram.Nvram Base64.Base64 Rstats.

(** The compressed image of the structures; [None] and [[]] when a file is not
    one. *)
Class Archive := {
  pack_history : history_t -> list Z;
  unpack_history : list Z -> option history_t;
  pack_speed : list speed_t -> list Z;
  unpack_speed : list Z -> list speed_t }.

(** A history the C structure can hold. *)
Definition data_fits (d : data_t) : Prop :=
  0 <= xtime d < 2 ^ 32 /\ 0 <= (counter d).1 < 2 ^ 64 /\ 0 <= (counter d).2 < 2 ^ 64.
Record history_fits (h : history_t) : Prop := {
  hf_id : 0 <= id h < 2 ^ 32;
  hf_daily : length (daily h) = MAX_NDAILY /\ Forall data_fits (daily h);
  hf_monthly : length (monthly h) = MAX_NMONTHLY /\ Forall data_fits (monthly h);
  hf_tails : Z.of_nat (dailyp h) < 2 ^ 31 /\ Z.of_nat (monthlyp h) < 2 ^ 31 }.

Class ArchiveLaws {ar : Archive} : Prop := {
  unpack_pack_history h : history_fits h -> unpack_history (pack_history h) = Some h;
  pack_history_bytes h : history_fits h -> Forall is_byte (pack_history h);
  pack_history_nonempty h : history_fits h -> pack_history h <> [] }.

Definition HI_BACK : nat := 5.

Definition history_fn : cstr := bytes "/var/lib/misc/rstats-history".
Definition speed_fn : cstr := bytes "/var/lib/misc/rstats-speed".
Definition source_fn : cstr := bytes "/var/lib/misc/rstats-source".
Definition stime_fn : cstr := bytes "/var/lib/misc/rstats-stime".
Definition dot_gz (p : cstr) : cstr := p ++ bytes ".gz".

(** The name without [.gz], and the k-th backup of a file. *)
Definition stem (p : cstr) : cstr :=
  let n := length p in
  if (3 <? n)%nat && bool_decide (drop (n - 3) p = bytes ".gz") then take (n - 3) p else p.
Definition bak (p : cstr) (b : nat) : cstr :=
  stem p ++ bytes "_" ++ print_d (Z.of_nat b) ++ bytes ".bak".

Abbreviation files := (gmap cstr (list Z)).

(** [lastbak] is the static of [save], [rstats_data] the NVRAM variable it sets. *)
Record disk := mk_disk { fs : files; lastbak : Z; rstats_data : option cstr }.

Definition rename (a b : cstr) (f : files) : files :=
  match f !! a with Some c => <[b := c]> (delete a f) | None => f end.

Definition copy (ok : bool) (a b : cstr) (f : files) : option files :=
  match f !! a with Some c => if ok then Some (<[b := c]> f) else None | None => None end.

(** What one try to save meets: whether the system is idle and each command can
    succeed, the day of the year at the two clock reads, a pending SIGTERM. *)
Record attempt := mk_attempt {
  idle : bool;
  cp_ok : bool; bak_ok : bool; mv_ok : bool;
  speed_cp_ok : bool; speed_bak_ok : bool; speed_mv_ok : bool;
  tm_yday : Z; tm_yday2 : Z;
  term : bool }.

(** What a write leaves: all of it, nothing (the file could not be opened), or a part. *)
Inductive written := Whole | Nothing | Part (c : list Z).

Definition put (w : written) (p : cstr) (image : list Z) (f : files) : files :=
  match w with Whole => <[p := image]> f | Nothing => f | Part c => <[p := c]> f end.

(** The compression to the local archive, and its result. *)
Definition comp (w : written) (fname : cstr) (image : list Z) (f : files) : files * bool :=
  (put w (dot_gz fname) image f, match w with Whole => true | _ => false end).

(** How the four local writes of [save] end. *)
Record local := mk_local { w_stime : written; w_speed : written; w_history : written; w_source : written }.
Definition all_whole : local := mk_local Whole Whole Whole Whole.

Section Save.
Context {nv : Nvram} {ar : Archive}.

(** [b] = HI_BACK-1 down to 1: [_b.bak] becomes [_(b+1).bak]. *)
Fixpoint rotate (p : cstr) (b : nat) (f : files) : files :=
  match b with
  | O => f
  | S b' => rotate p b' (rename (bak p b) (bak p (b + 1)) f)
  end.

Definition backup (ok : bool) (yday : Z) (p : cstr) (f : files) (lastbak : Z) : files * Z :=
  if nvram_match (bytes "rstats_bak") (bytes "0") then (f, lastbak)
  else if lastbak =? yday then (f, lastbak)
  else
    let f := rotate p (HI_BACK - 1) f in
    match copy ok p (bak p 1) f with
    | Some f => (f, yday)
    | None => (f, lastbak)
    end.

Definition rename_ok (ok : bool) (a b : cstr) (f : files) : option files :=
  match f !! a with Some _ => if ok then Some (rename a b f) else None | None => None end.

(** The part of a try that handles the speed file. *)
Definition save_speed (e : attempt) (speed_path : cstr) (f : files) (lb : Z) : files * Z :=
  let tmp := speed_path ++ bytes ".tmp" in
  match copy (speed_cp_ok e) (dot_gz speed_fn) tmp f with
  | None => (f, lb)
  | Some f =>
      let '(f, lb) := backup (speed_bak_ok e) (tm_yday2 e) speed_path f lb in
      (default f (rename_ok (speed_mv_ok e) tmp speed_path f), lb)
  end.

(** One try; the last component says whether it succeeded. *)
Definition try_save (e : attempt) (path speed_path : cstr) (f : files) (lb : Z)
  : files * Z * bool :=
  let tmp := path ++ bytes ".tmp" in
  if negb (idle e) then (f, lb, false)
  else match copy (cp_ok e) (dot_gz history_fn) tmp f with
       | None => (f, lb, false)
       | Some f =>
           let '(f, lb) := backup (bak_ok e) (tm_yday e) path f lb in
           match rename_ok (mv_ok e) tmp path f with
           | None => (f, lb, false)
           | Some f => let '(f, lb) := save_speed e speed_path f lb in (f, lb, true)
           end
       end.

(** Up to fifteen tries, fewer when SIGTERM arrives. *)
Fixpoint save_tries (i : nat) (env : nat -> attempt) (path speed_path : cstr) (f : files) (lb : Z)
  : files * Z :=
  match i with
  | O => (f, lb)
  | S i' =>
      let '(f, lb, done) := try_save (env i) path speed_path f lb in
      if done || term (env i) then (f, lb) else save_tries i' env path speed_path f lb
  end.

(** The image of [save_utime] in the stime file. *)
Definition pack_long (v : Z) : list Z := map (fun i => u8 (Z.shiftr v (8 * Z.of_nat i))) (seq 0 8).

(** The results of the local writes are not looked at. *)
Definition save (quick : bool) (w : local) (env : nat -> attempt) (path speed_path : cstr) (st : state)
  (d : disk) : disk :=
  let f := put (w_stime w) stime_fn (pack_long (save_utime st)) (fs d) in
  let f := (comp (w_speed w) speed_fn (pack_speed (speeds st)) f).1 in
  let f := (comp (w_history w) history_fn (pack_history (history st)) f).1 in
  let f := put (w_source w) source_fn path f in
  if quick then mk_disk f (lastbak d) (rstats_data d)
  else if strcmp_eq path (bytes "*nvram") then
    if negb (idle (env 0%nat)) then mk_disk f (lastbak d) (rstats_data d)
    else
      let bi := take (20 * 1024) (default [] (f !! dot_gz history_fn)) in
      mk_disk f (lastbak d)
        (if (length bi =? 0)%nat then rstats_data d else Some (base64_encode bi))
  else if negb (strcmp_eq path []) then
    let '(f, lb) := save_tries 15 env path speed_path f (lastbak d) in
    mk_disk f lb (rstats_data d)
  else mk_disk f (lastbak d) (rstats_data d).

(** * Loading *)

(** [decomp] for the history, and for the speed table. *)
Definition load_history (f : files) (fname : cstr) : option history_t :=
  match f !! fname with Some c => unpack_history c | None => None end.

Definition load_speed (f : files) (fname : cstr) : list speed_t :=
  match f !! fname with Some c => take MAX_SPEED_IF (unpack_speed c) | None => [] end.

(** The backups from the oldest, then the file itself; each that loads replaces
    what was loaded before. *)
Fixpoint try_backups {A} (ld : cstr -> option A) (p : cstr) (b : nat) (cur : A) (found : bool)
  : A * bool :=
  match b with
  | O => (cur, found)
  | S b' =>
      match ld (bak p b) with
      | Some v => try_backups ld p b' v true
      | None => try_backups ld p b' cur found
      end
  end.

Definition try_hardway {A} (ld : cstr -> option A) (p : cstr) (cur : A) : A * bool :=
  let '(cur, found) := try_backups ld p HI_BACK cur false in
  match ld p with Some v => (v, true) | None => (cur, found) end.

Definition nonempty {A} (l : list A) : option (list A) :=
  match l with [] => None | _ => Some l end.

(** For the speed table the result is the global [speed_count], not what was
    just read. *)
Definition try_hardway_speed (speed_count : Z) (f : files) (p : cstr) (cur : list speed_t)
  : list speed_t * Z :=
  let '(l, found) := try_hardway (fun n => nonempty (load_speed f n)) p cur in
  (l, if found then speed_count else 0).

Definition hex2 (v : Z) : cstr := pad_to 2 (print_u 16 v).

(** [sizeof(save_path)] is 96, and 32 bytes are kept free for the name. *)
Definition save_path_of (rstats_path : cstr) (mac : list Z) : cstr :=
  let p := strlcpy (96 - 32) rstats_path in
  if bool_decide (list.last p = Some (chr "/"))
  then p ++ bytes "tomato_rstats_" ++ concat (map hex2 mac) ++ bytes ".gz" else p.

Definition speed_path_of (rstats_path : cstr) (mac : list Z) : cstr :=
  let p := strlcpy (96 - 32) rstats_path in
  if bool_decide (list.last p = Some (chr "/"))
  then p ++ bytes "tomato_rstatss_" ++ concat (map hex2 mac) ++ bytes ".gz"
  else stem p ++ bytes "-s.gz".

(** The save time read from the stime file, brought into range. *)
Definition load_save_utime (saved : option Z) (uptime : Z) : Z :=
  let save_utime := default 0 saved in
  let t := uptime + get_stime in
  if (save_utime <? uptime) || (t <? save_utime) then t else save_utime.

(** The speed table [load] ends up with. *)
Definition load_speeds (f : files) (path speed_path : cstr) (uptime : Z) : list speed_t :=
  let from_path :=
    if negb (strcmp_eq path []) && negb (strcmp_eq path (bytes "*nvram")) then
      let l := load_speed f speed_path in
      if (0 <? length l)%nat then Some l
      else
        let '(l, count) := try_hardway_speed (Z.of_nat (length l)) f speed_path l in
        if 0 <? count then Some (take (Z.to_nat count) l) else None
    else None in
  let l := match from_path with Some l => l | None => load_speed f (dot_gz speed_fn) end in
  map (fun sp => if uptime <? utime sp
                 then mk_speed (ifname sp) uptime (speed sp) (last sp) (tail sp) 1 else sp) l.

(** /cifs1 and /cifs2 count only when something is mounted there; [dev] gives the
    device of a directory. *)
Definition unmounted_cifs_dir (dev : cstr -> option Z) (dir : cstr) : bool :=
  if negb (strcmp_eq dir (bytes "/cifs1")) && negb (strcmp_eq dir (bytes "/cifs2")) then false
  else match dev dir, dev (bytes "/") with
       | Some d, Some r => d =? r
       | _, _ => true
       end.

Definition parent_of (path : cstr) : option cstr :=
  match strrchr path (chr "/") with
  | None => None
  | Some O => Some (bytes "/")
  | Some k => Some (take k path)
  end.

(** What one round of the loading loop sees: the files at that moment, whether
    the system is idle, devices, writable directories, SIGTERM. *)
Record round := mk_round {
  r_fs : files; r_idle : bool; r_dev : cstr -> option Z; r_writable : cstr -> bool;
  r_term : bool }.

Inductive loaded :=
  | Loaded (h : history_t)   (* read from the path or a backup *)
  | FirstRun                 (* nothing there yet; save at once *)
  | Terminated               (* SIGTERM: the path is cleared *)
  | Exited                   (* the system stayed busy: exit(0) *)
  | StillTrying.

Fixpoint load_loop (fuel : nat) (env : nat -> round) (path : cstr) (cur : history_t) : loaded :=
  match fuel with
  | O => StillTrying
  | S fuel' =>
      let r := env fuel' in
      let again cur := if r_term r then Terminated else load_loop fuel' env path cur in
      if r_idle r then
        match load_history (r_fs r) path with
        | Some h => Loaded h
        | None =>
            let '(h, found) := try_hardway (load_history (r_fs r)) path cur in
            if found then Loaded h
            else if bool_decide (r_fs r !! path = None) then
              match parent_of path with
              | Some dir =>
                  if negb (unmounted_cifs_dir (r_dev r) dir) && r_writable r dir
                  then FirstRun else again h
              | None => again h
              end
            else again h
        end
      else again cur
  end.

(** The history after [load] for the NVRAM path, when the local file is not
    used: decoded, written to the local file and loaded from there. *)
Definition load_nvram (d : disk) (cur : history_t) : disk * history_t :=
  match rstats_data d with
  | Some bi =>
      if (length bi =? 0)%nat then (d, cur)
      else
        let f := <[dot_gz history_fn := base64_decode bi]> (fs d) in
        (mk_disk f (lastbak d) (rstats_data d),
         default cur (load_history f (dot_gz history_fn)))
  | None => (d, cur)
  end.

(** [load(0)] for a path that is not empty: the local file when it came from the
    same source, otherwise the configured one. [nv_idle]: the system becomes idle
    within a minute. *)
Definition load (nv_idle : bool) (fuel : nat) (env : nat -> round) (path : cstr) (d : disk) (cur : history_t)
  : disk * loaded :=
  match (if bool_decide (fs d !! source_fn = Some path)
         then load_history (fs d) (dot_gz history_fn) else None) with
  | Some h => (d, Loaded h)
  | None =>
      if strcmp_eq path (bytes "*nvram")
      then if negb nv_idle then (d, Exited)
           else let '(d, h) := load_nvram d cur in (d, Loaded h)
      else
        let r := load_loop fuel env path cur in
        (match r with
         | Loaded _ => mk_disk (<[source_fn := path]> (fs d)) (lastbak d) (rstats_data d)
         | _ => d
         end, r)
  end.

(** * Names *)

Lemma stem_cases p : stem p = p \/ p = stem p ++ bytes ".gz".
Proof.
  unfold stem. destruct (_ && _) eqn:E; [|by left]. right. apply andb_prop in E as [_ E].
  apply bool_decide_eq_true in E. rewrite <- E. by rewrite take_drop.
Qed.

(** A suffix that is empty or starts with a dot never makes a backup name. *)
Definition dotted (s : cstr) : Prop := match s with [] => True | c :: _ => c = 46 end.

Lemma bak_ne p k s : dotted s -> bak p k <> p ++ s.
Proof.
  intros Hs E. unfold bak in E. destruct (stem_cases p) as [H|H].
  - rewrite H in E. apply app_inv_head in E. destruct s as [|c s]; [done|]. simpl in *.
    injection E as E _. subst c. discriminate E.
  - rewrite H in E at 2. rewrite <- app_assoc in E. apply app_inv_head in E. by injection E.
Qed.

Lemma bak_ne_self p k : bak p k <> p.
Proof. rewrite <- (app_nil_r p) at 2. by apply bak_ne. Qed.

Lemma bak_inj p i j : Z.of_nat i < 2 ^ 64 -> Z.of_nat j < 2 ^ 64 -> bak p i = bak p j -> i = j.
Proof.
  intros Hi Hj E. unfold bak in E. apply app_inv_head in E. apply app_inv_head in E.
  apply app_inv_tail in E. unfold print_d in E.
  rewrite !(proj2 (Z.ltb_ge _ 0)) in E by lia. apply print_u_inj in E; lia.
Qed.

(** * Files *)

Lemma rename_other a b f x : x <> a -> x <> b -> rename a b f !! x = f !! x.
Proof.
  intros. unfold rename. destruct (f !! a); [|done].
  by rewrite lookup_insert_ne, lookup_delete_ne.
Qed.

Lemma rename_source a b f : a <> b -> rename a b f !! a = None.
Proof.
  intros. unfold rename. destruct (f !! a) eqn:E; [|done].
  by rewrite lookup_insert_ne, lookup_delete_eq.
Qed.

Lemma rename_target a b f : a <> b -> rename a b f !! b =
  match f !! a with Some c => Some c | None => f !! b end.
Proof. intros. unfold rename. destruct (f !! a); [apply lookup_insert_eq|done]. Qed.

Lemma rotate_other p b f x :
  (forall k, (1 <= k <= b + 1)%nat -> x <> bak p k) -> rotate p b f !! x = f !! x.
Proof.
  revert f. induction b as [|b IH]; intros f Hx; simpl; [done|].
  rewrite IH by (intros; apply Hx; lia). apply rename_other; apply Hx; lia.
Qed.

Lemma rotate_shift p b f k :
  (b < 1000)%nat -> (1 <= k <= b)%nat ->
  rotate p b f !! bak p (k + 1) =
    match f !! bak p k with
    | Some c => Some c
    | None => if (k =? b)%nat then f !! bak p (b + 1) else None
    end.
Proof.
  intros Hb. revert f. induction b as [|b IH]; intros f Hk; [lia|]. cbn [rotate].
  assert (Hne : forall i j, (i <> j)%nat -> (i < 2000)%nat -> (j < 2000)%nat -> bak p i <> bak p j).
  { intros i j Hij ? ? E. apply Hij. apply bak_inj in E; lia. }
  destruct (decide (k = S b)) as [->|].
  - rewrite rotate_other by (intros; apply Hne; lia).
    rewrite rename_target by (apply Hne; lia). by rewrite Nat.eqb_refl.
  - rewrite IH by lia. rewrite rename_other by (apply Hne; lia).
    rewrite (proj2 (Nat.eqb_neq k (S b))) by lia.
    destruct (f !! bak p k); [done|]. destruct (Nat.eqb_spec k b) as [->|]; [|done].
    rewrite Nat.add_1_r. apply rename_source. apply Hne; lia.
Qed.

Lemma rotate_first p b f : (1 <= b < 1000)%nat -> rotate p b f !! bak p 1 = None.
Proof.
  revert f. induction b as [|b IH]; intros f Hb; [lia|]. cbn [rotate].
  destruct (decide (b = 0)%nat) as [->|]; [|apply IH; lia]. simpl.
  apply rename_source. intros E. apply bak_inj in E; lia.
Qed.

Lemma copy_lookup ok a b f g x : copy ok a b f = Some g ->
  g !! x = if decide (x = b) then f !! a else f !! x.
Proof.
  unfold copy. destruct (f !! a) as [c|] eqn:E; [|done]. destruct ok; [|done]. intros [= <-].
  case_decide as Hx; [subst; by rewrite lookup_insert_eq|by rewrite lookup_insert_ne].
Qed.

Lemma backup_other ok yday p f lb x :
  (forall k, x <> bak p k) -> (backup ok yday p f lb).1 !! x = f !! x.
Proof.
  intros Hx. unfold backup. repeat case_if; try done.
  destruct (copy _ _ _ _) as [g|] eqn:E'; cbn [fst].
  - rewrite (copy_lookup _ _ _ _ _ x E'). rewrite decide_False by apply Hx.
    by apply rotate_other.
  - by apply rotate_other.
Qed.

(** * Saving *)


Lemma tmp_ne p : p ++ bytes ".tmp" <> p.
Proof. intros E. rewrite <- (app_nil_r p) in E at 2. by apply app_inv_head in E. Qed.

Lemma rename_ok_lookup ok a b f g x : rename_ok ok a b f = Some g -> a <> b ->
  g !! x = if decide (x = b) then f !! a else if decide (x = a) then None else f !! x.
Proof.
  unfold rename_ok. destruct (f !! a) as [c|] eqn:E; [|done]. destruct ok; [|done].
  intros [= <-] Hab. case_decide; subst; [by rewrite rename_target, E|].
  case_decide; subst; [by apply rename_source|by apply rename_other].
Qed.






(** The archive that the local writes leave on the RAM disk. *)
Definition local_archive (w : written) (st : state) (f : files) : option (list Z) :=
  match w with Whole => Some (pack_history (history st)) | Nothing => f !! dot_gz history_fn | Part c => Some c end.

Lemma put_lookup w p image f x : put w p image f !! x =
  if decide (x = p) then match w with Whole => Some image | Nothing => f !! p | Part c => Some c end else f !! x.
Proof.
  unfold put. destruct w; case_decide; subst; rewrite ?lookup_insert_eq, ?lookup_insert_ne by done; done.
Qed.

Lemma save_own (w : local) (st : state) (path : cstr) (f : files) :
  let f' := put (w_source w) source_fn path (comp (w_history w) history_fn (pack_history (history st))
    (comp (w_speed w) speed_fn (pack_speed (speeds st)) (put (w_stime w) stime_fn (pack_long (save_utime st)) f)).1).1 in
  f' !! dot_gz history_fn = local_archive (w_history w) st f /\
  forall x, x ∉ [stime_fn; dot_gz speed_fn; dot_gz history_fn; source_fn] -> f' !! x = f !! x.
Proof.
  unfold comp. cbn [fst]. split.
  - rewrite put_lookup, decide_False, put_lookup, decide_True by done. unfold local_archive.
    destruct (w_history w); [done| |done]. by rewrite put_lookup, decide_False, put_lookup, decide_False by done.
  - intros x Hx. rewrite !not_elem_of_cons in Hx. destruct Hx as (? & ? & ? & ? & _).
    by rewrite !put_lookup, !decide_False by done.
Qed.

(** The newest version that loads: the file, then its backups from the first. *)
Fixpoint newest {A} (ld : cstr -> option A) (names : list cstr) : option A :=
  match names with
  | [] => None
  | n :: names' => match ld n with Some v => Some v | None => newest ld names' end
  end.

Lemma try_backups_spec {A} (ld : cstr -> option A) p b cur found :
  try_backups ld p b cur found =
    match newest ld (map (bak p) (seq 1 b)) with Some v => (v, true) | None => (cur, found) end.
Proof.
  assert (Hsnoc : forall l n, newest ld (l ++ [n]) =
    match newest ld l with Some v => Some v | None => ld n end).
  { induction l as [|x l IH]; intros n; simpl; [by destruct (ld n)|]. by destruct (ld x). }
  revert cur found. induction b as [|b IH]; intros cur found; [done|].
  rewrite seq_S, map_app. cbn [map try_backups]. rewrite Hsnoc.
  destruct (ld (bak p (S b))) as [v|] eqn:E; rewrite IH; simpl; rewrite E;
    by destruct (newest ld (map (bak p) (seq 1 b))).
Qed.

(** * Theorems *)


(** A due backup shifts every kept version by one place: the current file
    becomes backup 1, backup k becomes k+1 for k up to 3, and backup 5 becomes
    the old backup 4 (or stays when there was none); the current file stays in
    place until the new one replaces it. *)
Theorem backup_rotates (yday : Z) (p : cstr) (f : files) (lb : Z) (c : list Z) :
  nvram_match (bytes "rstats_bak") (bytes "0") = false -> lb <> yday -> f !! p = Some c ->
  let '(f', lb') := backup true yday p f lb in
  lb' = yday /\ f' !! p = Some c /\ f' !! bak p 1 = Some c /\
  (forall k, (1 <= k <= 3)%nat -> f' !! bak p (k + 1) = f !! bak p k) /\
  f' !! bak p 5 = match f !! bak p 4 with Some x => Some x | None => f !! bak p 5 end.
Proof.
  intros Hb Hl Hp. unfold backup. rewrite Hb, (proj2 (Z.eqb_neq _ _)) by done.
  change (HI_BACK - 1)%nat with 4%nat.
  assert (Hrp : rotate p 4 f !! p = Some c).
  { rewrite rotate_other; [done|]. intros k _ E. by apply (bak_ne_self p k). }
  destruct (copy true p (bak p 1) (rotate p 4 f)) as [g|] eqn:E;
    [|unfold copy in E; by rewrite Hrp in E].
  pose proof (fun x => copy_lookup _ _ _ _ _ x E) as Hg.
  assert (Hne : forall k, (1 < k <= 5)%nat -> bak p k <> bak p 1).
  { intros k Hk E'. apply bak_inj in E'; lia. }
  split; [done|]. split_and!.
  - rewrite Hg, decide_False; [done|]. intros E'. by apply (bak_ne_self p 1).
  - by rewrite Hg, decide_True.
  - intros k Hk. rewrite Hg, decide_False by (apply Hne; lia).
    rewrite (rotate_shift p 4 f k) by lia. rewrite (proj2 (Nat.eqb_neq k 4)) by lia.
    by destruct (f !! bak p k).
  - rewrite Hg, decide_False by (apply Hne; lia). apply (rotate_shift p 4 f 4); lia.
Qed.

(** What is saved to NVRAM is loaded back after a reboot: when the packed
    history fits the 20 KB the daemon reads, saving it with the path [*nvram] and
    loading it on a system with no local copy gives the same history. *)
Theorem nvram_history_roundtrip `{!ArchiveLaws} (env : nat -> attempt) (renv : nat -> round)
  (sp : cstr) (st : state) (d : disk) (f0 : files) (cur : history_t) (fuel : nat) :
  history_fits (history st) ->
  idle (env 0%nat) = true -> (length (pack_history (history st)) <= 20 * 1024)%nat ->
  f0 !! source_fn = None ->
  let d' := save false all_whole env (bytes "*nvram") sp st d in
  (load true fuel renv (bytes "*nvram") (mk_disk f0 (-1) (rstats_data d')) cur).2 =
    Loaded (history st).
Proof.
  intros Hfit Hidle Hlen Hsrc. unfold save.
  destruct (save_own all_whole st (bytes "*nvram") (fs d)) as [Hn _]. set (f := put (w_source all_whole) _ _ _) in *.
  change (strcmp_eq (bytes "*nvram") (bytes "*nvram")) with true. cbn [negb]. rewrite Hidle.
  cbn [negb]. rewrite Hn. cbn [default local_archive all_whole w_history]. rewrite take_ge by done.
  assert (Hne : length (pack_history (history st)) <> 0%nat).
  { intros E. apply length_zero_iff_nil in E. by apply pack_history_nonempty in E. }
  rewrite (proj2 (Nat.eqb_neq _ _)) by done. cbn [rstats_data].
  unfold load. cbn [fs]. rewrite Hsrc. rewrite bool_decide_eq_false_2 by done.
  change (strcmp_eq (bytes "*nvram") (bytes "*nvram")) with true. cbn [negb].
  unfold load_nvram. cbn [rstats_data fs lastbak].
  assert (Hne' : length (base64_encode (pack_history (history st))) <> 0%nat).
  { destruct (pack_history (history st)) as [|a [|b [|c l]]]; [done|..]; simpl; lia. }
  rewrite (proj2 (Nat.eqb_neq _ _)) by done. cbn [snd].
  rewrite base64_inverse by (by apply pack_history_bytes). unfold load_history.
  rewrite lookup_insert_eq. unfold Datatypes.id. by rewrite unpack_pack_history.
Qed.

(** Recovery takes the most recent version that can be read: the file
    itself, else the backup with the smallest number. *)
Theorem try_hardway_newest {A : Type} (ld : cstr -> option A) (p : cstr) (cur : A) :
  try_hardway ld p cur =
    match newest ld (p :: map (bak p) [1; 2; 3; 4; 5]%nat) with
    | Some v => (v, true)
    | None => (cur, false)
    end.
Proof.
  unfold try_hardway. rewrite try_backups_spec. change (seq 1 HI_BACK) with [1; 2; 3; 4; 5]%nat.
  cbn [newest]. destruct (ld p) as [v|];
    by destruct (newest ld (map (bak p) [1; 2; 3; 4; 5]%nat)).
Qed.

Definition clamp_utime (uptime : Z) (sp : speed_t) : speed_t :=
  if uptime <? utime sp then mk_speed (ifname sp) uptime (speed sp) (last sp) (tail sp) 1 else sp.

(** The speed backups are never used: when the speed file itself cannot be
    read, whatever the backups hold, the table comes from the RAM disk copy,
    because the recovery returns the count of before the search, which is 0. *)
Theorem speed_backups_ignored (f : files) (path sp : cstr) (uptime : Z) :
  load_speed f sp = [] ->
  load_speeds f path sp uptime = map (clamp_utime uptime) (load_speed f (dot_gz speed_fn)).
Proof.
  intros Hl. unfold load_speeds, try_hardway_speed. rewrite Hl. cbn [length Nat.ltb Nat.leb].
  destruct (try_hardway _ sp []) as [l [|]]; by case_if.
Qed.

(** A try that backs up the history does not back up the speed file: the day
    is already marked, so the rotation of the speed backups is skipped. *)
Theorem speed_backup_skipped (e : attempt) (path sp : cstr) (f : files) (lb : Z) (k : nat) (c : list Z) :
  nvram_match (bytes "rstats_bak") (bytes "0") = false -> f !! path = Some c ->
  bak_ok e = true -> lb <> tm_yday e -> tm_yday2 e = tm_yday e ->
  bak sp k <> path -> bak sp k <> path ++ bytes ".tmp" -> (forall j, bak sp k <> bak path j) ->
  (try_save e path sp f lb).1.1 !! bak sp k = f !! bak sp k.
Proof.
  intros Hb Hp Hok Hlb Hday H1 H2 H3. unfold try_save. destruct (idle e); simpl; [|done].
  destruct (copy _ _ _ f) as [g|] eqn:Ec; [|done].
  pose proof (fun x => copy_lookup _ _ _ _ _ x Ec) as Hg.
  pose proof (backup_other (bak_ok e) (tm_yday e) path g lb (bak sp k) H3) as Hbo.
  assert (Hday' : (backup (bak_ok e) (tm_yday e) path g lb).2 = tm_yday e).
  { unfold backup. rewrite Hb, (proj2 (Z.eqb_neq _ _)) by done. rewrite Hok. unfold copy.
    rewrite rotate_other by (intros j _ E; by apply (bak_ne_self path j)).
    rewrite Hg, decide_False, Hp; [done|]. intros E. by apply (tmp_ne path). }
  destruct (backup _ _ path g lb) as [g' lb']. simpl in Hbo, Hday'. subst lb'.
  rewrite Hg, decide_False in Hbo by done.
  destruct (rename_ok _ _ _ g') as [g2|] eqn:E2; [|done].
  assert (Hg2 : g2 !! bak sp k = f !! bak sp k).
  { rewrite (rename_ok_lookup _ _ _ _ _ _ E2) by apply tmp_ne. by rewrite !decide_False. }
  unfold save_speed. destruct (copy _ _ _ g2) as [g3|] eqn:E3; [|done].
  unfold backup. rewrite Hb, Hday, Z.eqb_refl. cbn [fst].
  assert (Hg3 : g3 !! bak sp k = f !! bak sp k).
  { rewrite (copy_lookup _ _ _ _ _ _ E3), decide_False; [done|]. by apply bak_ne. }
  destruct (rename_ok _ _ _ g3) as [g4|] eqn:E4; cbn [default]; [|done].
  rewrite (rename_ok_lookup _ _ _ _ _ _ E4) by apply tmp_ne.
  rewrite !decide_False; [done|by apply bak_ne|apply bak_ne_self].
Qed.

End Save.

(** * Witnesses *)

(** A concrete archive: the countable encoding of the structures, as bits. *)
Section Demo.

#[local] Instance data_eq_dec : EqDecision data_t.
Proof. solve_decision. Defined.
#[local] Instance data_countable : Countable data_t :=
  inj_countable' (fun d => (xtime d, counter d)) (fun e => mk_data e.1 e.2)
    ltac:(by intros []).
#[local] Instance history_eq_dec : EqDecision history_t.
Proof. solve_decision. Defined.
#[local] Instance history_countable : Countable history_t :=
  inj_countable' (fun h => (id h, (daily h, dailyp h), (monthly h, monthlyp h)))
    (fun e => mk_history e.1.1 e.1.2.1 e.1.2.2 e.2.1 e.2.2) ltac:(by intros []).

Fixpoint pos_bits (p : positive) : list Z :=
  match p with xH => [2] | xO q => 0 :: pos_bits q | xI q => 1 :: pos_bits q end.
Fixpoint bits_pos (l : list Z) : positive :=
  match l with
  | 0 :: l' => xO (bits_pos l')
  | 1 :: l' => xI (bits_pos l')
  | _ => xH
  end.

Lemma bits_pos_bits p : bits_pos (pos_bits p) = p.
Proof. induction p as [p IH|p IH|]; simpl; by rewrite ?IH. Qed.

Definition demo_archive : Archive := {|
  pack_history h := pos_bits (encode h);
  unpack_history l := decode (bits_pos l);
  pack_speed l := map (fun _ => 7) l; unpack_speed l := map (fun _ => zero_speed) l |}.

Lemma demo_archive_laws : ArchiveLaws (ar := demo_archive).
Proof.
  split; intros h _; simpl.
  - rewrite bits_pos_bits. apply decode_encode.
  - induction (encode h); simpl; repeat constructor; unfold is_byte; try lia; done.
  - by destruct (encode h).
Qed.
End Demo.

Definition demo_nvram : Nvram := {| nvram_get _ := None; nvram_get_int _ := 0 |}.
#[local] Existing Instances demo_nvram demo_archive.

Definition good : attempt := mk_attempt true true true true true true true 10 10 false.
Definition demo_path : cstr := bytes "/mnt/rs.gz".
Definition demo_speed : cstr := bytes "/mnt/rs-s.gz".
Definition demo_state : state := mk_state clear_history [] [] 0 0 false.



(** The RAM disk is full and the archive of the history ends up empty: the good file at the
    path is replaced by it. *)
Lemma truncated_archive_copied :
  let d := mk_disk {[demo_path := [1; 2; 3]]} (-1) None in
  fs (save false (mk_local Whole Whole (Part []) Whole) (fun _ => good) demo_path demo_speed demo_state d) !! demo_path = Some [].
Proof. reflexivity. Qed.

Lemma backup_rotates_witness :
  let '(f', lb') := backup true 10 demo_path {[demo_path := [1]]} (-1) in
  lb' = 10 /\ f' !! bak demo_path 1 = Some [1].
Proof.
  pose proof (backup_rotates 10 demo_path {[demo_path := [1]]} (-1) [1] eq_refl
    ltac:(lia) ltac:(reflexivity)) as H.
  destruct (backup true 10 demo_path {[demo_path := [1]]} (-1)) as [f' lb'].
  destruct H as (H1 & _ & H2 & _). split; [exact H1|exact H2].
Defined.

Lemma clear_history_fits : history_fits clear_history.
Proof.
  assert (Hz : forall n, Forall data_fits (repeat zero_data n)).
  { intros n. apply Forall_forall. intros x Hx%list_elem_of_In%repeat_spec. subst.
    unfold data_fits. simpl. lia. }
  split; [done|split; [done|apply Hz]|split; [done|apply Hz]|done].
Qed.

Lemma nvram_history_roundtrip_witness :
  let d' := save false all_whole (fun _ => good) (bytes "*nvram") [] demo_state (mk_disk ∅ (-1) None) in
  (load true 0 (fun _ => mk_round ∅ true (fun _ => None) (fun _ => true) false) (bytes "*nvram")
     (mk_disk ∅ (-1) (rstats_data d')) clear_history).2 = Loaded clear_history.
Proof.
  apply (nvram_history_roundtrip (H := demo_archive_laws) (fun _ => good) _ []
    demo_state (mk_disk ∅ (-1) None) ∅ clear_history 0).
  - exact clear_history_fits.
  - reflexivity.
  - apply Nat.leb_le. vm_compute. reflexivity.
  - reflexivity.
Defined.

(** Only a backup holds a table. *)
Lemma speed_backups_ignored_witness :
  load_speed {[bak demo_speed 1 := [7]]} (bak demo_speed 1) = [zero_speed] /\
  load_speeds {[bak demo_speed 1 := [7]]} demo_path demo_speed 0 = [].
Proof.
  split; [reflexivity|].
  etransitivity; [apply (speed_backups_ignored {[bak demo_speed 1 := [7]]})|]; reflexivity.
Defined.

Lemma speed_backup_skipped_witness :
  (try_save good demo_path demo_speed {[demo_path := [1]; bak demo_speed 1 := [2]]} (-1)).1.1
    !! bak demo_speed 1 = Some [2].
Proof.
  etransitivity;
    [apply (speed_backup_skipped good demo_path demo_speed
              {[demo_path := [1]; bak demo_speed 1 := [2]]} (-1) 1 [1])|reflexivity];
    try reflexivity; try discriminate.
Defined.

End RstatsStore.
