(* ===== verification/Timerange.v ===== *)
(** The time range match of the firewall
    (src/tomato64/package/gargoyle-timerange/extension/libxt_timerange.c), which
    turns ["22:00-6:00,12-13"] into the sorted list of seconds the kernel
    compares with the clock. The kernel side, which walks that list, is the
    patch src/tomato64/board/common/linux-patches/0008-xt-timerange.patch.

    A [long] array that ends with -1 is the list before that -1. *)

From Stdlib Require Import ZArith Lia.
From stdpp Require Import base list strings.
From S2P Require Import Prelude Scan.

Local Open Scope Z_scope.

Module Timerange.
Import Scan.

(** * Strings *)

Definition is_separator (separators : cstr) (c : Z) : bool := existsb (Z.eqb c) separators.

(** The pieces between runs of separators, at most [max_pieces] of them. With
    [remainder] the last one is the rest of the line. Each round consumes a
    character, so the length of the line is enough fuel. *)
Fixpoint split_loop (fuel : nat) (separators : cstr) (max_pieces : nat) (remainder : bool)
  (start : cstr) : list cstr :=
  match fuel with
  | O => []
  | S f =>
      match start, max_pieces with
      | [], _ | _, O => []
      | _, S m =>
          let piece := take_until (is_separator separators) start in
          let rest := skip_while (is_separator separators) (drop (length piece) start) in
          (if (m =? 0)%nat && remainder then start else piece)
            :: split_loop f separators m remainder rest
      end
  end.

(** A negative [max_pieces] stands for the number of separators plus one. *)
Definition split_on_separators (line separators : cstr) (max_pieces : Z) (remainder : bool)
  : list cstr :=
  let max :=
    if max_pieces <? 0
    then S (length (List.filter (is_separator separators) line)) else Z.to_nat max_pieces in
  split_loop (S (length line)) separators max remainder
    (skip_while (is_separator separators) line).

Definition is_whitespace (c : Z) : bool := (c =? 32) || (c =? 9) || (c =? 10) || (c =? 13).

Definition trim_flanking_whitespace (s : cstr) : cstr :=
  rev (skip_while is_whitespace (rev (skip_while is_whitespace s))).

Definition to_lowercase (s : cstr) : cstr := map tolower s.

(** * Week days *)

Definition day_names : list cstr :=
  [bytes "sun"; bytes "mon"; bytes "tue"; bytes "wed"; bytes "thu"; bytes "fri"; bytes "sat"].

Fixpoint index_of (x : cstr) (l : list cstr) (i : nat) : option nat :=
  match l with
  | [] => None
  | y :: l' => if strcmp_eq x y then Some i else index_of x l' (S i)
  end.

(** One day of the list: the new array and whether a name was found. *)
Definition add_day (days : list Z) (found : bool) (piece : cstr) : list Z * bool :=
  let day := to_lowercase (take 3 (trim_flanking_whitespace piece)) in
  match index_of day day_names 0 with
  | Some i => (<[i := 1]> days, true)
  | None => if strcmp_eq day (bytes "all") then (repeat 1 7, true) else (days, found)
  end.

Definition parse_weekdays (wd_str : cstr) : option (list Z) :=
  let '(days, found) :=
    foldl (fun acc piece => add_day acc.1 acc.2 piece) (repeat 0 7, false)
      (split_on_separators wd_str (bytes ",") (-1) false) in
  if (found : bool) then Some days else None.

(** * Times *)

(** [sscanf("%ld")] into [tmp]; the old value stays when there is no number. *)
Definition scan_ld (s : cstr) (tmp : Z) : Z :=
  match scan_numeral s with
  | None => tmp
  | Some (neg, d, _) =>
      let v := if neg : bool then - dec_value 0 d else dec_value 0 d in
      u64 (Z.max (- 2 ^ 63) (Z.min (2 ^ 63 - 1) v))
  end.

(** The loop over the parts: hours, minutes, seconds. *)
Fixpoint sum_parts (parts : list cstr) (tmp seconds multiple : Z) : Z :=
  match parts with
  | [] => seconds
  | p :: parts' =>
      let tmp := scan_ld p tmp in
      sum_parts parts' tmp (u64 (seconds + u64 (tmp * multiple))) (multiple / 60)
  end.

(** [tmp0] is what the uninitialised [tmp] holds. *)
Definition parse_time (tmp0 : Z) (time_str : cstr) : Z :=
  let s := skip_while (fun c => (c =? 32) || (c =? 9)) time_str in
  let weekday := if (3 <? length s)%nat then index_of (to_lowercase (take 3 s)) day_names 0 else None in
  let s := match weekday with
           | Some _ => skip_while (fun c => negb (isdigit c)) (drop 3 s)
           | None => s
           end in
  let seconds := match weekday with Some w => Z.of_nat w * 60 * 60 * 24 | None => 0 end in
  sum_parts (split_on_separators s (bytes ":") (-1) false) tmp0 seconds (60 * 60).

(** * Ranges *)

Definition span (is_weekly_range : bool) : Z :=
  if is_weekly_range then 7 * 24 * 60 * 60 else 24 * 60 * 60.

(** One piece ["start-end"]; [None] when it has not exactly two times. *)
Definition parse_piece (tmp0 : Z) (piece : cstr) : option (Z * Z) :=
  match split_on_separators (trim_flanking_whitespace piece) (bytes "-") 2 false with
  | [a; b] => Some (s64 (parse_time tmp0 (trim_flanking_whitespace a)),
                    s64 (parse_time tmp0 (trim_flanking_whitespace b)))
  | _ => None
  end.

(** The end of a range that goes over the end of the day or week. *)
Definition unwrap_end (max : Z) (r : Z * Z) : Z := if r.2 <? r.1 then r.2 + max else r.2.

Definition overlaps (max : Z) (r1 r2 : Z * Z) : bool :=
  (r1.1 <? unwrap_end max r2) && (r2.1 <? unwrap_end max r1).

(** Whether two different entries of the list overlap. *)
Fixpoint overlap_found (max : Z) (l : list (Z * Z)) : bool :=
  match l with
  | [] => false
  | r :: l' => existsb (fun r' => overlaps max r r' || overlaps max r' r) l' || overlap_found max l'
  end.

(** The inner loop of the sort: the index of the smallest start, kept in an
    [int]. The loop stops at a start of -1. *)
Fixpoint scan_min (l : list (Z * Z)) (i : nat) (next_start : Z) (next_index : nat) : nat :=
  match l with
  | [] => next_index
  | r :: l' =>
      if r.1 =? -1 then next_index
      else if (next_start <? 0) || (r.1 <? next_start) then scan_min l' (S i) (s32 r.1) i
      else scan_min l' (S i) next_start next_index
  end.

(** Selection sort: swaps the entry with the smallest start to the front and
    goes on behind it. *)
Fixpoint sort_ranges (fuel : nat) (l : list (Z * Z)) : list (Z * Z) :=
  match fuel, l with
  | S f, r :: _ =>
      if r.1 =? -1 then l
      else
        let k := scan_min l 0 (-1) 0 in
        let m := nth k l r in
        match <[k := r]> l with
        | [] => []
        | _ :: rest => m :: sort_ranges f rest
        end
  | _, _ => l
  end.

Fixpoint flatten (l : list (Z * Z)) : list Z :=
  match l with [] => [] | (s, e) :: l' => s :: e :: flatten l' end.

Fixpoint until_end (l : list Z) : list Z :=
  match l with [] => [] | x :: l' => if x =? -1 then [] else x :: until_end l' end.

(** The loop of [merge_adjacent_time_ranges] behind the first entry: an entry
    that equals a neighbour goes, the last one stays. *)
Fixpoint merge_loop (prev : Z) (l : list Z) : list Z :=
  match l with
  | [] => []
  | x :: l' =>
      match l' with
      | [] => [x]
      | y :: _ => if negb (x =? prev) && negb (x =? y) then x :: merge_loop x l' else merge_loop x l'
      end
  end.

Definition merge_adjacent_time_ranges (l : list Z) : list Z :=
  match l with [] => [] | x :: l' => x :: merge_loop x l' end.

(** The last step: a list whose last time is before its first one goes over the
    end and is split in two. *)
Definition split_wrapped (max : Z) (l : list Z) : list Z :=
  let l' :=
    match list.last l, l with
    | Some e, x :: _ => if e <? x then 0 :: e :: removelast l else l
    | _, _ => l
    end in
  if Nat.odd (length l') then l' ++ [max] else l'.

(** What [parse_time_ranges] does with the parsed pieces. *)
Definition arrange (max : Z) (pairs : list (Z * Z)) : option (list Z) :=
  if overlap_found max pairs then None
  else
    let parsed := until_end (flatten (sort_ranges (length pairs) pairs)) in
    let parsed := merge_adjacent_time_ranges parsed in
    match parsed with
    | [] => None
    | x :: l => if (x =? 0) && bool_decide (head l = Some max) then None
                else Some (split_wrapped max parsed)
    end.

Fixpoint sequence {A} (l : list (option A)) : option (list A) :=
  match l with
  | [] => Some []
  | Some x :: l' => match sequence l' with Some r => Some (x :: r) | None => None end
  | None :: _ => None
  end.

Definition parse_time_ranges (tmp0 : Z) (time_ranges : cstr) (is_weekly_range : bool)
  : option (list Z) :=
  match sequence (map (parse_piece tmp0) (split_on_separators time_ranges (bytes ",") (-1) false)) with
  | None => None
  | Some pairs => arrange (span is_weekly_range) pairs
  end.

(** * Options and output *)

Definition RANGE_LENGTH : nat := 51.
Definition HOURS : Z := 1.
Definition WEEKDAYS : Z := 2.
Definition DAYS_HOURS : Z := HOURS + WEEKDAYS.
Definition WEEKLY_RANGE : Z := 4.

Record xt_timerange_info := mk_info {
  ranges : list Z;
  days : list Z;
  type : Z;
  invert : bool }.

(** Copies the list with its terminator into [ranges]; false when it does not
    fit, with what was copied until then. *)
Fixpoint copy_ranges (l : list Z) (i : nat) (ranges : list Z) : list Z * bool :=
  match l with
  | [] => (<[i := -1]> ranges, true)
  | x :: l' =>
      if (RANGE_LENGTH - 1 <=? i)%nat then (ranges, false)
      else copy_ranges l' (S i) (<[i := x]> ranges)
  end.

Definition has_flag (flags f : Z) : bool := negb (Z.land flags f =? 0).

(** [parse] for one option with argument [arg]: the new info, the new flags and
    whether the option was accepted. *)
Definition parse (tmp0 : Z) (c : Z) (arg : cstr) (inv : bool) (flags : Z) (info : xt_timerange_info)
  : xt_timerange_info * Z * bool :=
  let info := if flags =? 0 then mk_info (ranges info) (days info) (type info) inv else info in
  let store_ranges parsed :=
    let '(rs, ok) := copy_ranges parsed 0 (ranges info) in
    if ok : bool then (mk_info rs (days info) (flags + c) (invert info), flags + c, true)
    else (mk_info rs (days info) (type info) (invert info), flags, false) in
  if c =? HOURS then
    match parse_time_ranges tmp0 arg false with
    | Some parsed =>
        if negb (has_flag flags HOURS) && negb (has_flag flags WEEKLY_RANGE)
        then store_ranges parsed else (info, flags, false)
    | None => (info, flags, false)
    end
  else if c =? WEEKDAYS then
    match parse_weekdays arg with
    | Some parsed =>
        if negb (has_flag flags WEEKDAYS) && negb (has_flag flags WEEKLY_RANGE)
        then (mk_info (ranges info) parsed (flags + c) (invert info), flags + c, true)
        else (info, flags, false)
    | None => (info, flags, false)
    end
  else if c =? WEEKLY_RANGE then
    match parse_time_ranges tmp0 arg true with
    | Some parsed =>
        if negb (has_flag flags HOURS) && negb (has_flag flags WEEKDAYS)
           && negb (has_flag flags WEEKLY_RANGE)
        then store_ranges parsed else (info, flags, false)
    | None => (info, flags, false)
    end
  else (info, flags, false).

(** The ranges as [print_timerange_args] writes them. *)
Fixpoint print_ranges (l : list Z) (i : nat) : cstr :=
  match l with
  | [] => []
  | x :: l' =>
      print_d x ++
      (match l' with [] => [] | _ => if Nat.even i then bytes "-" else bytes "," end) ++
      print_ranges l' (S i)
  end.

Definition print_days (l : list Z) : cstr :=
  concat (imap (fun i d => print_d d ++ (if (i =? 6)%nat then [] else bytes ",")) (take 7 l)).

Definition print_timerange_args (info : xt_timerange_info) : cstr :=
  (if invert info then bytes " ! " else []) ++
  (if (type info =? HOURS) || (type info =? DAYS_HOURS)
   then bytes " --hours " ++ print_ranges (until_end (ranges info)) 0 else []) ++
  (if (type info =? WEEKDAYS) || (type info =? DAYS_HOURS)
   then bytes " --weekdays " ++ print_days (days info) else []) ++
  (if type info =? WEEKLY_RANGE
   then bytes " --weekly_ranges " ++ print_ranges (until_end (ranges info)) 0 else []) ++
  bytes " ".

(** The minutes west of Greenwich that [set_kernel_timezone] computes from the
    UTC and the local day of the month, hour and minute; across the end of a
    month the later of the two days is counted on from the earlier one. *)
Definition minutes_west (utc_day utc_hour utc_minute tz_day tz_hour tz_minute : Z) : Z :=
  let utc_day := if utc_day <? tz_day - 1 then tz_day + 1 else utc_day in
  let tz_day := if tz_day <? utc_day - 1 then utc_day + 1 else tz_day in
  (24 * 60 * utc_day + 60 * utc_hour + utc_minute) - (24 * 60 * tz_day + 60 * tz_hour + tz_minute).

(** * The kernel's test *)

(** The walk over the list: pairs in order, left at the first start in the
    future. *)
Fixpoint in_ranges (now : Z) (l : list Z) : bool :=
  match l with
  | s :: e :: l' =>
      if now <? s then false else if (s <=? now) && (now <=? e) then true else in_ranges now l'
  | _ => false
  end.

End Timerange.
