(* ===== verification/TimerangeSpec.v ===== *)
(** What the time range match promises: the list handed to the kernel covers
    exactly the times of the ranges, the kernel's walk decides membership, times
    are read as written; and where it does not keep the promise. *)

From Stdlib Require Import ZArith Lia.
From stdpp Require Import base list strings sorting.
From S2P Require Import Prelude Scan Timerange.

Local Open Scope Z_scope.

Module TimerangeSpec.
Import Scan Timerange.

(** * The sort *)

Abbreviation range := (Z * Z)%type.

Definition starts_fit (l : list range) : Prop := Forall (fun r => 0 <= r.1 < 2 ^ 31) l.

Lemma scan_min_spec l i ns ni :
  starts_fit l -> (ns < 0 -> l <> []) ->
  let k := scan_min l i ns ni in
  (k = ni /\ 0 <= ns /\ Forall (fun r => ns <= r.1) l) \/
  (exists j m, k = (i + j)%nat /\ l !! j = Some m /\ Forall (fun r => m.1 <= r.1) l /\ (0 <= ns -> m.1 < ns)).
Proof.
  revert i ns ni. induction l as [|r l IH]; intros i ns ni Hf Hne; simpl.
  - left. split; [done|]. split; [|done]. destruct (Z.lt_ge_cases ns 0); [by destruct Hne|done].
  - apply Forall_cons in Hf as [Hr Hf].
    rewrite (proj2 (Z.eqb_neq _ _)) by lia.
    destruct ((ns <? 0) || (r.1 <? ns)) eqn:E.
    + rewrite s32_id by lia. right.
      destruct (IH (S i) r.1 i Hf ltac:(lia)) as [(Hk & _ & Hall)|(j & m & Hk & Hj & Hall & Hlt)].
      * exists 0%nat, r. rewrite Hk. split_and!; [lia|done| |].
        { constructor; [lia|done]. }
        { intros. propify. lia. }
      * exists (S j), m. rewrite Hk. split_and!; [lia|done| |].
        { constructor; [lia|done]. }
        { intros. propify. lia. }
    + propify. destruct (IH (S i) ns ni Hf ltac:(lia)) as [(Hk & _ & Hall)|(j & m & Hk & Hj & Hall & Hlt)].
      * left. split_and!; [done|lia|]. constructor; [lia|done].
      * right. exists (S j), m. rewrite Hk. split_and!; [lia|done| |done].
        constructor; [lia|done].
Qed.

Lemma swap_perm {A} (l : list A) j m r : l !! j = Some m -> m :: <[j := r]> l ≡ₚ r :: l.
Proof.
  intros Hj. rewrite <- (take_drop_middle l j m Hj) at 2.
  rewrite insert_take_drop by (by eapply lookup_lt_Some).
  rewrite !Permutation_middle. rewrite <- !Permutation_middle. apply perm_swap.
Qed.

Definition starts_le (a b : range) : Prop := a.1 <= b.1.

Lemma sort_ranges_spec n l :
  starts_fit l -> length l = n ->
  sort_ranges n l ≡ₚ l /\ StronglySorted starts_le (sort_ranges n l).
Proof.
  revert l. induction n as [|n IH]; intros l Hf Hn.
  - apply length_zero_iff_nil in Hn as ->. split; [done|constructor].
  - destruct l as [|r l]; [done|]. cbn [sort_ranges].
    assert (Hr : 0 <= r.1 < 2 ^ 31) by (by apply Forall_cons in Hf as [? _]).
    rewrite (proj2 (Z.eqb_neq r.1 _)) by lia.
    destruct (scan_min_spec (r :: l) 0 (-1) 0 Hf ltac:(done)) as [(_ & ? & _)|(k & m & Hk & Hm & Hall & _)];
      [lia|].
    rewrite Hk. cbn [Nat.add]. rewrite (nth_lookup_Some _ _ _ _ Hm).
    assert (Hrest : exists rest, <[k := r]> (r :: l) = match k with O => r | _ => r end :: rest /\
      m :: rest ≡ₚ r :: l /\ length rest = n).
    { destruct k as [|k]; simpl in *.
      - injection Hm as ->. exists l. split_and!; [done|done|lia].
      - exists (<[k := r]> l). split_and!; [done|by apply swap_perm|rewrite length_insert; lia]. }
    destruct Hrest as (rest & -> & Hp & Hlen).
    assert (Hf' : starts_fit rest).
    { unfold starts_fit in *. rewrite <- Hp in Hf. by apply Forall_cons in Hf as [_ ?]. }
    destruct (IH rest Hf' Hlen) as [Hp' Hs']. split.
    + by rewrite Hp'.
    + constructor; [done|]. rewrite Hp'. rewrite <- Hp in Hall. by apply Forall_cons in Hall as [_ ?].
Qed.

(** * Chains of ranges *)

(** Ranges in order, from [lo] on, each before the next; only the last may go
    over the end, and then ends before [first]. *)
Fixpoint chain (first lo : Z) (l : list range) : Prop :=
  match l with
  | [] => True
  | (s, e) :: l' =>
      lo <= s /\
      match l' with
      | [] => s < e \/ e < first
      | _ => s < e /\ chain first e l'
      end
  end.

Definition in_range (t : Z) (r : range) : Prop :=
  if r.1 <=? r.2 then r.1 <= t <= r.2 else r.1 <= t \/ t <= r.2.

Definition covered (t : Z) (l : list range) : Prop := Exists (in_range t) l.

(** Ranges whose end is the next one's start become one. *)
Fixpoint join_adjacent (s e : Z) (l : list range) : list range :=
  match l with
  | [] => [(s, e)]
  | (s', e') :: l' =>
      if e =? s' then join_adjacent s e' l' else (s, e) :: join_adjacent s' e' l'
  end.

Lemma merge_loop_prev p q x l : p <> x -> q <> x -> merge_loop p (x :: l) = merge_loop q (x :: l).
Proof.
  intros Hp Hq. cbn [merge_loop]. destruct l; [done|].
  by rewrite (proj2 (Z.eqb_neq x p)), (proj2 (Z.eqb_neq x q)) by congruence.
Qed.

Lemma chain_widen first lo s e lo' s' l :
  chain first lo ((s, e) :: l) -> lo' <= s' -> s' <= s -> chain first lo' ((s', e) :: l).
Proof.
  simpl. destruct l as [|r l]; [lia|]. intros (? & ? & ?) ? ?. split_and!; [lia|lia|done].
Qed.

Lemma merge_flatten first s e l :
  chain first s ((s, e) :: l) -> first <= s ->
  s :: merge_loop s (e :: flatten l) = flatten (join_adjacent s e l).
Proof.
  revert s e. induction l as [|[s' e'] l IH]; intros s e Hc Hf; [done|].
  cbn [chain] in Hc. destruct Hc as (_ & Hse & Hc).
  assert (Hne : s' <> e').
  { cbn [chain] in Hc. destruct Hc as [? Hc]. destruct l; [lia|]. destruct Hc. lia. }
  assert (Hes : e <= s') by (by destruct Hc).
  cbn [flatten join_adjacent].
  destruct (Z.eqb_spec e s') as [<-|Hd].
  - rewrite <- (IH s e'); [|eapply chain_widen; [exact Hc|lia|lia]|done]. f_equal.
    assert (Hs : s <> e').
    { cbn [chain] in Hc. destruct Hc as [? Hc]. destruct l; [lia|]. destruct Hc. lia. }
    cbn [merge_loop]. rewrite (Z.eqb_refl e), andb_false_r. cbn [negb andb].
    exact (merge_loop_prev e s e' (flatten l) Hne Hs).
  - cbn [flatten]. f_equal. rewrite <- (IH s' e'); [|eapply chain_widen; [exact Hc|lia|lia]|lia].
    cbn [merge_loop].
    rewrite (proj2 (Z.eqb_neq e s)), (proj2 (Z.eqb_neq e s')) by lia. cbn [negb andb]. f_equal.
    rewrite (proj2 (Z.eqb_neq s' e)), (proj2 (Z.eqb_neq s' e')) by lia. done.
Qed.

Lemma chain_lo first lo lo' l : chain first lo l -> lo' <= lo -> chain first lo' l.
Proof. destruct l as [|[s e] l]; simpl; [done|]. intros [? ?] ?. split; [lia|done]. Qed.

Lemma join_nonempty s e l : exists e' r, join_adjacent s e l = (s, e') :: r.
Proof.
  revert e. induction l as [|[s' e'] l IH]; intros e; simpl; [by eexists _, _|].
  case_if; [apply IH|by eexists _, _].
Qed.

Lemma join_chain first lo s e l :
  chain first lo ((s, e) :: l) -> chain first lo (join_adjacent s e l).
Proof.
  revert lo s e. induction l as [|[s' e'] l IH]; intros lo s e Hc; [done|].
  cbn [join_adjacent]. cbn [chain] in Hc. destruct Hc as (Hlo & Hse & Hc).
  assert (Hes : e <= s') by (by destruct Hc).
  case_if; propify.
  - apply IH. eapply chain_widen; [exact Hc|lia|lia].
  - specialize (IH _ _ _ Hc). destruct (join_nonempty s' e' l) as (e2 & r & Hj).
    rewrite Hj in *. cbn [chain]. split; [done|]. split; [done|]. exact IH.
Qed.

Lemma in_range_join first t s e e' :
  s < e -> e < e' \/ e' < first -> first <= s ->
  in_range t (s, e') <-> in_range t (s, e) \/ in_range t (e, e').
Proof. intros. unfold in_range. simpl. repeat case_match; propify; lia. Qed.

Lemma join_covered first t s e l :
  chain first s ((s, e) :: l) -> first <= s ->
  covered t (join_adjacent s e l) <-> covered t ((s, e) :: l).
Proof.
  unfold covered. revert s e. induction l as [|[s' e'] l IH]; intros s e Hc Hf; [done|].
  cbn [join_adjacent]. cbn [chain] in Hc. destruct Hc as (_ & Hse & Hc).
  assert (Hes : e <= s') by (by destruct Hc).
  assert (He' : s' < e' \/ e' < first).
  { cbn [chain] in Hc. destruct Hc as [_ Hc]. destruct l; [done|]. left. by destruct Hc. }
  case_if; propify.
  - subst s'. rewrite IH; [|eapply chain_widen; [exact Hc|lia|lia]|done].
    rewrite !Exists_cons, (in_range_join first t s e e') by done. tauto.
  - rewrite Exists_cons, IH; [|eapply chain_widen; [exact Hc|lia|lia]|lia].
    by rewrite !Exists_cons.
Qed.

(** * From the parsed pieces to a chain *)

Definition valid (max : Z) (r : range) : Prop := 0 <= r.1 < max /\ 0 <= r.2 <= max /\ r.1 <> r.2.

(** A range over the end stops before every range starts. *)
Definition wrap_clear (l : list range) : Prop :=
  forall r r', r ∈ l -> r' ∈ l -> r.2 < r.1 -> r.2 < r'.1.

Definition disjoint_pair (max : Z) (a b : range) : Prop := overlaps max a b = false.

Lemma disjoint_sym max a b : disjoint_pair max a b -> disjoint_pair max b a.
Proof. unfold disjoint_pair, overlaps. by rewrite andb_comm. Qed.

Lemma overlap_found_false max l :
  overlap_found max l = false -> ForallOrdPairs (disjoint_pair max) l.
Proof.
  induction l as [|r l IH]; simpl; [constructor|]. intros [H1 H2]%orb_false_iff.
  constructor; [|by apply IH]. apply List.Forall_forall. intros r' Hr'.
  unfold disjoint_pair. destruct (overlaps max r r') eqn:E; [|done].
  rewrite <- not_true_iff_false in H1. destruct H1. apply existsb_exists. exists r'.
  split; [done|]. by rewrite E.
Qed.

Lemma ordpairs_perm max l l' :
  l ≡ₚ l' -> ForallOrdPairs (disjoint_pair max) l -> ForallOrdPairs (disjoint_pair max) l'.
Proof.
  induction 1 as [|x l l' Hp IH|x y l|l l2 l3 _ IH1 _ IH2]; intros H; [done|..].
  - inversion H; subst. constructor; [by rewrite <- Hp|by apply IH].
  - inversion H as [|? ? H1 H2]; subst. inversion H2; subst.
    apply Forall_cons in H1 as [? ?].
    repeat constructor; try done. by apply disjoint_sym.
  - by apply IH2, IH1.
Qed.

Lemma sorted_chain max first lo l :
  StronglySorted starts_le l -> ForallOrdPairs (disjoint_pair max) l -> Forall (valid max) l ->
  Forall (fun r => first <= r.1 /\ lo <= r.1 /\ (r.2 < r.1 -> r.2 < first)) l ->
  chain first lo l.
Proof.
  revert lo. induction l as [|[s e] l IH]; intros lo Hs Hd Hv Hb; [done|].
  inversion Hs as [|? ? Hs' Hle]; subst. inversion Hd as [|? ? Hd1 Hd']; subst.
  apply Forall_cons in Hv as [Hv Hv']. apply Forall_cons in Hb as [(Hf & Hlo & Hw) Hb].
  unfold valid in Hv. cbn [chain]. simpl in *. split; [done|].
  destruct l as [|[s2 e2] l]; [lia|].
  assert (Hkey : s < e /\ e <= s2).
  { apply Forall_cons in Hd1 as [Hd1 _]. apply Forall_cons in Hv' as [Hv2 _].
    apply Forall_cons in Hle as [Hle _]. unfold disjoint_pair, overlaps, unwrap_end, valid, starts_le in *.
    simpl in *. apply andb_false_iff in Hd1 as [Hd1|Hd1]; repeat case_match; propify; lia. }
  split; [lia|]. apply IH; try done.
  apply List.Forall_forall. intros r Hr. rewrite List.Forall_forall in Hb, Hle.
  destruct (Hb r Hr) as (? & _ & ?). split_and!; [done| |done].
  destruct Hr as [<-|Hr]; [simpl; lia|]. inversion Hs' as [|? ? _ Hle2]; subst.
  rewrite List.Forall_forall in Hle2. specialize (Hle2 r Hr). unfold starts_le in Hle2. simpl in *. lia.
Qed.

(** * The list for the kernel *)

Lemma flatten_app a b : flatten (a ++ b) = flatten a ++ flatten b.
Proof. induction a as [|[s e] a IH]; simpl; [done|]. by rewrite IH. Qed.

Lemma flatten_even l : Nat.odd (length (flatten l)) = false.
Proof. induction l as [|[s e] l IH]; simpl; [done|]. exact IH. Qed.

Lemma until_end_all l : Forall (fun x => 0 <= x) l -> until_end l = l.
Proof.
  induction 1 as [|x l Hx _ IH]; simpl; [done|].
  by rewrite (proj2 (Z.eqb_neq _ _)), IH by lia.
Qed.

Lemma flatten_Forall (P : Z -> Prop) l :
  Forall P (flatten l) <-> Forall (fun r => P r.1 /\ P r.2) l.
Proof.
  induction l as [|[s e] l IH]; simpl; [done|]. rewrite !Forall_cons, IH. simpl. tauto.
Qed.

Lemma chain_snoc first lo q s e :
  chain first lo (q ++ [(s, e)]) ->
  Forall (fun r => lo <= r.1 < r.2) q /\ lo <= s /\ (s < e \/ e < first) /\
  StronglySorted starts_le (q ++ [(s, e)]).
Proof.
  revert lo. induction q as [|[s' e'] q IH]; intros lo Hc; simpl in Hc.
  - destruct Hc as [? ?]. split_and!; [constructor|done|done|]. repeat constructor.
  - destruct Hc as [Hlo Hc]. destruct (q ++ [(s, e)]) as [|r rest] eqn:Eq; [by destruct q|].
    destruct Hc as [Hse Hc]. destruct (IH _ Hc) as (Hq & Hs & He & Hsort).
    assert (Hall : Forall (fun r => e' <= r.1) (r :: rest)).
    { rewrite <- Eq. apply Forall_app. split; [|constructor; [done|constructor]].
      eapply Forall_impl; [exact Hq|]. simpl. lia. }
    split_and!; [|lia|done|].
    + constructor; [simpl; lia|]. eapply Forall_impl; [exact Hq|]. simpl. lia.
    + simpl. rewrite Eq. constructor; [done|].
      eapply Forall_impl; [exact Hall|]. unfold starts_le. simpl. lia.
Qed.

Definition within (t : Z) (r : range) : Prop := r.1 <= t <= r.2.

Lemma in_ranges_spec t l :
  StronglySorted starts_le l -> in_ranges t (flatten l) = true <-> Exists (within t) l.
Proof.
  induction 1 as [|[s e] l Hs IH Hle]; simpl.
  - split; [done|]. intros H. inversion H.
  - rewrite Exists_cons, <- IH. unfold within at 1. simpl.
    destruct (Z.ltb_spec t s).
    + split; [done|]. intros [?|Hx]; [lia|]. apply IH in Hx.
      apply Exists_exists in Hx as (r & Hr & Hw). rewrite Forall_forall in Hle.
      specialize (Hle r Hr). unfold starts_le, within in *. simpl in *. lia.
    + destruct ((s <=? t) && (t <=? e)) eqn:E.
      * split; [|done]. intros _. left. propify. lia.
      * split; [by right|]. intros [?|?]; [|done].
        apply andb_false_iff in E as [?|?]; propify; lia.
Qed.

Lemma removelast_flatten q s e : removelast (flatten (q ++ [(s, e)])) = flatten q ++ [s].
Proof.
  rewrite flatten_app. simpl. change [s; e] with ([s] ++ [e]). rewrite app_assoc.
  apply removelast_last.
Qed.

Lemma split_wrapped_covers max first p t :
  p <> [] -> chain first first p -> (exists e r, p = (first, e) :: r) -> 0 <= first ->
  Forall (valid max) p -> 0 <= t < max ->
  in_ranges t (split_wrapped max (flatten p)) = true <-> covered t p.
Proof.
  intros Hne Hc (e1 & r1 & Hp) Hf Hv Ht.
  destruct p as [|[s e] q _] using rev_ind; [done|]. clear Hne.
  destruct (chain_snoc _ _ _ _ _ Hc) as (Hq & Hs & He & Hsort).
  assert (Hv' : valid max (s, e)) by (apply Forall_app in Hv as [_ Hv]; by inversion Hv).
  unfold valid in Hv'. simpl in Hv'.
  assert (Hqc : Exists (in_range t) q <-> Exists (within t) q).
  { clear -Hq. induction Hq as [|r q Hr _ IH]; [by rewrite !Exists_nil|]. rewrite !Exists_cons, IH.
    unfold in_range, within. rewrite (proj2 (Z.leb_le _ _)) by lia. done. }
  unfold split_wrapped, covered.
  assert (Hlast : list.last (flatten (q ++ [(s, e)])) = Some e).
  { rewrite flatten_app. simpl. change [s; e] with ([s] ++ [e]). rewrite app_assoc. apply last_snoc. }
  assert (Hhd : exists l, flatten (q ++ [(s, e)]) = first :: l) by (rewrite Hp; by eexists).
  destruct Hhd as [l Hl]. rewrite Hlast. rewrite Hl. destruct (Z.ltb_spec e first) as [Hw|Hw].
  - rewrite <- Hl, removelast_flatten.
    assert (Hodd : Nat.odd (length (0 :: e :: flatten q ++ [s])) = true).
    { cbn [length]. rewrite length_app, Nat.add_1_r.
      change (Nat.odd (S (length (flatten q))) = true).
      by rewrite Nat.odd_succ, <- Nat.negb_odd, flatten_even. }
    rewrite Hodd.
    replace ((0 :: e :: flatten q ++ [s]) ++ [max]) with (flatten (((0, e) :: q) ++ [(s, max)])).
    2: { rewrite flatten_app. simpl. by rewrite <- app_assoc. }
    rewrite in_ranges_spec.
    + simpl. rewrite Exists_cons, !Exists_app, <- Hqc, !Exists_cons, !Exists_nil.
      unfold within, in_range. simpl. rewrite (proj2 (Z.leb_gt s e)) by lia.
      split; [intros [?|[?|[?|?]]]|intros [?|[[?|?]|?]]]; try tauto; try lia; naive_solver lia.
    + simpl. constructor.
      * clear -Hsort. revert Hsort. induction q as [|r q IH]; simpl; intros H.
        { repeat constructor. }
        inversion H as [|? ? H1 H2]; subst. constructor; [by apply IH|].
        apply Forall_app in H2 as [H2 H3]. apply Forall_app. split; [done|].
        inversion H3; subst. constructor; [done|constructor].
      * apply Forall_app. split.
        { eapply Forall_impl; [exact Hq|]. unfold starts_le. simpl. lia. }
        { constructor; [unfold starts_le; simpl; lia|constructor]. }
  - rewrite <- Hl, flatten_even, in_ranges_spec by done.
    rewrite !Exists_app, <- Hqc, !Exists_cons, !Exists_nil. unfold within, in_range. simpl.
    by rewrite (proj2 (Z.leb_le s e)) by lia.
Qed.

Lemma join_valid max first lo s e l :
  chain first lo ((s, e) :: l) -> Forall (valid max) ((s, e) :: l) -> 0 <= first -> first <= s ->
  Forall (valid max) (join_adjacent s e l).
Proof.
  revert lo s e. induction l as [|[s' e'] l IH]; intros lo s e Hc Hv Hf Hfs; [done|].
  cbn [join_adjacent]. cbn [chain] in Hc. destruct Hc as (_ & Hse & Hc).
  apply Forall_cons in Hv as [Hv1 Hv]. pose proof Hv as Hv2.
  apply Forall_cons in Hv2 as [Hv2 Hv3].
  assert (Hes : e <= s') by (by destruct Hc). case_if; propify.
  - subst s'. apply (IH s); [eapply chain_widen; [exact Hc|lia|lia]| |done|done].
    constructor; [|done]. unfold valid in *. simpl in *.
    assert (e < e' \/ e' < first) by (destruct Hc as [_ Hc]; destruct l; [done|left; by destruct Hc]).
    lia.
  - constructor; [done|]. apply (IH e); [done|done|done|lia].
Qed.

Lemma arrange_meaning (max : Z) (pairs : list range) :
  0 < max < 2 ^ 31 -> pairs <> [] -> Forall (valid max) pairs ->
  overlap_found max pairs = false -> wrap_clear pairs ->
  match arrange max pairs with
  | Some l => forall t, 0 <= t < max -> in_ranges t l = true <-> covered t pairs
  | None => forall t, 0 <= t < max -> covered t pairs
  end.
Proof.
  intros Hmax Hne Hv Ho Hw. unfold arrange. rewrite Ho.
  destruct (sort_ranges_spec (length pairs) pairs) as [Hp Hs];
    [eapply Forall_impl; [exact Hv|unfold valid; lia]|done|].
  set (l := sort_ranges _ _) in *. rewrite <- Hp in Hv.
  assert (Hcov : forall t, covered t l <-> covered t pairs).
  { intros t. unfold covered. by rewrite Hp. }
  destruct l as [|[s e] l]; [by apply Permutation_nil in Hp|].
  assert (Hc : chain s s ((s, e) :: l)).
  { apply (sorted_chain max); [done| |done|].
    - apply (ordpairs_perm max pairs); [done|]. by apply overlap_found_false.
    - apply Forall_forall. intros r Hr.
      assert (Hle : s <= r.1).
      { apply elem_of_cons in Hr as [->|Hr]; [simpl; lia|]. inversion Hs as [|? ? _ Hall]; subst.
        rewrite Forall_forall in Hall. apply (Hall r Hr). }
      split_and!; [done|done|]. intros Hwr. apply (Hw r (s, e)); [..|done].
      + by rewrite <- Hp.
      + rewrite <- Hp. left. }
  assert (Hs0 : 0 <= s) by (apply Forall_cons in Hv as [Hv _]; apply Hv).
  rewrite until_end_all.
  2: { apply flatten_Forall. eapply Forall_impl; [exact Hv|]. unfold valid. lia. }
  assert (Hm : merge_adjacent_time_ranges (flatten ((s, e) :: l)) = flatten (join_adjacent s e l))
    by (apply (merge_flatten s); [done|lia]).
  rewrite Hm. clear Hm.
  pose proof (join_chain _ _ _ _ _ Hc) as Hjc.
  pose proof (fun t => join_covered s t s e l Hc (Z.le_refl s)) as Hjcov.
  pose proof (join_valid max s s s e l Hc Hv Hs0 (Z.le_refl s)) as Hjv.
  destruct (join_nonempty s e l) as (e' & r & Hj). rewrite Hj in *. cbn [flatten].
  destruct ((s =? 0) && _) eqn:E.
  - intros t Ht. rewrite <- Hcov, <- Hjcov. left.
    apply andb_prop in E as [E1 E2]. apply bool_decide_eq_true in E2. simpl in E2.
    injection E2 as ->.
    propify. unfold in_range. simpl. rewrite (proj2 (Z.leb_le s max)) by lia. lia.
  - intros t Ht. rewrite <- Hcov, <- Hjcov.
    apply (split_wrapped_covers max s ((s, e') :: r)); [done|done|by eexists _, _|done|done|done].
Qed.

(** * Theorems *)

(** C19: the list built from the ranges means what the ranges say. When they do
    not overlap, are not empty, and one that goes over the end of the day (or
    week) stops before the others start, the kernel's test of the resulting list
    succeeds at exactly the times inside one of the ranges; and no list is
    produced only when the ranges cover every time. *)
Theorem arrange_covers (max : Z) (pairs : list range) :
  0 < max < 2 ^ 31 -> pairs <> [] -> Forall (valid max) pairs ->
  overlap_found max pairs = false -> wrap_clear pairs ->
  match arrange max pairs with
  | Some l => forall t, 0 <= t < max -> in_ranges t l = true <-> covered t pairs
  | None => forall t, 0 <= t < max -> covered t pairs
  end.
Proof. apply arrange_meaning. Qed.

(** * Times *)

Lemma skip_while_none P s : match s with [] => True | c :: _ => P c = false end -> skip_while P s = s.
Proof. destruct s as [|c s]; [done|]. simpl. by intros ->. Qed.

(** A character class that no digit belongs to. *)
Definition no_digit (P : Z -> bool) : Prop := forall c, isdigit c = true -> P c = false.

Lemma print_u_head n : exists c l, print_u 10 n = c :: l /\ isdigit c = true.
Proof.
  pose proof (print_u_nonempty 10 n). pose proof (print_u_digits n) as Hd.
  destruct (print_u 10 n) as [|c l]; [done|]. exists c, l. split; [done|]. by inversion Hd.
Qed.

Lemma skip_while_print P n rest :
  no_digit P -> skip_while P (print_u 10 n ++ rest) = print_u 10 n ++ rest.
Proof.
  intros HP. apply skip_while_none. destruct (print_u_head n) as (c & l & -> & Hc). simpl.
  by apply HP.
Qed.

Lemma take_until_print P n rest :
  no_digit P -> match rest with [] => True | c :: _ => P c = true end ->
  take_until P (print_u 10 n ++ rest) = print_u 10 n.
Proof.
  intros HP Hr. apply take_until_app; [|done]. eapply Forall_impl; [apply print_u_digits|].
  intros c Hc. by apply HP.
Qed.

Lemma split_loop_app f seps m n sep rest :
  no_digit (is_separator seps) -> is_separator seps sep = true ->
  skip_while (is_separator seps) rest = rest ->
  split_loop (S f) seps (S m) false (print_u 10 n ++ sep :: rest) =
    print_u 10 n :: split_loop f seps m false rest.
Proof.
  intros Hd Hsep Hrest. destruct (print_u_head n) as (c & l & Hc & _).
  assert (Hne : exists x y, print_u 10 n ++ sep :: rest = x :: y) by (rewrite Hc; by eexists _, _).
  destruct Hne as (x & y & Hxy). cbn [split_loop]. rewrite Hxy at 1. rewrite andb_false_r.
  rewrite take_until_print by done. rewrite drop_app_length. simpl. by rewrite Hsep, Hrest.
Qed.

Lemma split_loop_last f seps m n :
  no_digit (is_separator seps) ->
  split_loop (S f) seps (S m) false (print_u 10 n) = [print_u 10 n].
Proof.
  intros Hd. destruct (print_u_head n) as (c & l & Hc & _). cbn [split_loop].
  rewrite Hc at 1. rewrite andb_false_r.
  assert (Ht : take_until (is_separator seps) (print_u 10 n) = print_u 10 n).
  { rewrite <- (app_nil_r (print_u 10 n)) at 1. by apply take_until_print. }
  rewrite Ht, drop_ge by lia. simpl. by destruct f, m.
Qed.

Lemma colon_no_digit : no_digit (is_separator (bytes ":")).
Proof.
  intros c Hc. unfold isdigit in Hc. propify. change (bytes ":") with [58]. simpl.
  by rewrite (proj2 (Z.eqb_neq c 58)) by lia.
Qed.

Lemma scan_ld_print n tmp : 0 <= n < 2 ^ 63 -> scan_ld (print_u 10 n) tmp = n.
Proof.
  intros Hn. unfold scan_ld. pose proof (scan_numeral_print [] n []) as Hs.
  rewrite app_nil_l, app_nil_r in Hs. rewrite Hs by done. rewrite print_u_value by lia.
  rewrite u64_id by lia. lia.
Qed.

(** ["h:m:s"]. *)
Definition clock (h m s : Z) : cstr :=
  print_u 10 h ++ bytes ":" ++ print_u 10 m ++ bytes ":" ++ print_u 10 s.

Lemma filter_colon n : List.filter (is_separator (bytes ":")) (print_u 10 n) = [].
Proof.
  pose proof (print_u_digits n) as Hd. induction Hd as [|c l Hc _ IH]; [done|]. cbn [List.filter].
  rewrite (colon_no_digit c Hc). exact IH.
Qed.

Lemma split_clock h m s :
  split_on_separators (clock h m s) (bytes ":") (-1) false = [print_u 10 h; print_u 10 m; print_u 10 s].
Proof.
  unfold split_on_separators, clock. cbn [Z.ltb Z.compare].
  assert (Hlen : exists f, length (print_u 10 h ++ bytes ":" ++ print_u 10 m ++ bytes ":" ++ print_u 10 s)
                 = S (S f)).
  { rewrite !length_app. simpl. eexists. rewrite <- plus_n_Sm. f_equal. rewrite <- !plus_n_Sm.
    reflexivity. }
  destruct Hlen as [f Hlen]. rewrite Hlen.
  rewrite !List.filter_app, !filter_colon. simpl app. cbn [List.filter].
  rewrite skip_while_print by apply colon_no_digit.
  change (length _) with 2%nat at 1.
  rewrite split_loop_app; [|apply colon_no_digit|done|by rewrite skip_while_print by apply colon_no_digit].
  rewrite split_loop_app; [|apply colon_no_digit|done|].
  - rewrite split_loop_last by apply colon_no_digit. done.
  - rewrite <- (app_nil_r (print_u 10 s)). apply skip_while_print, colon_no_digit.
Qed.

Lemma index_of_digit c l : isdigit c = true -> index_of (to_lowercase (c :: l)) day_names 0 = None.
Proof.
  intros Hc. unfold to_lowercase. cbn [map]. unfold isdigit in Hc. propify.
  assert (Hl : tolower c = c) by (unfold tolower, isupper; case_if; [zify_all|done]).
  rewrite Hl. unfold index_of, day_names, strcmp_eq.
  repeat (rewrite bool_decide_eq_false_2; [|intros [= E _]; vm_compute in E; lia]). done.
Qed.

Lemma sum_clock h m s tmp sec :
  0 <= h < 2 ^ 31 -> 0 <= m < 2 ^ 31 -> 0 <= s < 2 ^ 31 -> 0 <= sec < 2 ^ 31 ->
  sum_parts [print_u 10 h; print_u 10 m; print_u 10 s] tmp sec (60 * 60) =
    sec + h * 3600 + m * 60 + s.
Proof.
  intros. cbn [sum_parts]. rewrite !scan_ld_print by lia.
  change (60 * 60 / 60) with 60. change (60 / 60) with 1. change (60 * 60) with 3600.
  rewrite (u64_id (h * 3600)), (u64_id (m * 60)), (u64_id (s * 1)) by lia.
  rewrite (u64_id (sec + _)), (u64_id (_ + m * 60)), u64_id by lia. lia.
Qed.

Lemma blank_no_digit : no_digit (fun c => (c =? 32) || (c =? 9)).
Proof.
  intros c Hc. unfold isdigit in Hc. propify.
  by rewrite (proj2 (Z.eqb_neq c 32)), (proj2 (Z.eqb_neq c 9)) by lia.
Qed.

Lemma numeral_no_day n rest :
  (if (3 <? length (print_u 10 n ++ rest))%nat
   then index_of (to_lowercase (take 3 (print_u 10 n ++ rest))) day_names 0 else None) = None.
Proof.
  destruct (print_u_head n) as (c & l & Hc & Hd). rewrite Hc. case_if; [|done].
  by apply index_of_digit.
Qed.

Lemma nondigit_skip n rest :
  skip_while (fun c => negb (isdigit c)) (print_u 10 n ++ rest) = print_u 10 n ++ rest.
Proof. apply skip_while_print. intros c Hc. by rewrite Hc. Qed.

Lemma copy_ranges_spec l i (rs : list Z) :
  length rs = RANGE_LENGTH -> (i < RANGE_LENGTH)%nat ->
  let '(rs', ok) := copy_ranges l i rs in
  length rs' = RANGE_LENGTH /\
  (ok = true -> (i + length l < RANGE_LENGTH)%nat /\
     rs' = take i rs ++ l ++ -1 :: drop (S (i + length l)) rs).
Proof.
  revert i rs. induction l as [|x l IH]; intros i rs Hl Hi; cbn [copy_ranges].
  - split; [by rewrite length_insert|]. intros _. split; [simpl; lia|].
    rewrite insert_take_drop by lia. simpl. by rewrite Nat.add_0_r.
  - case_if; [by split|]. apply Nat.leb_gt in E.
    specialize (IH (S i) (<[i := x]> rs)). rewrite length_insert in IH.
    specialize (IH Hl ltac:(unfold RANGE_LENGTH in *; lia)).
    destruct (copy_ranges l (S i) (<[i := x]> rs)) as [rs' ok]. destruct IH as [H1 H2].
    split; [done|]. intros Hok. destruct (H2 Hok) as [H3 ->]. simpl. split; [lia|].
    rewrite insert_take_drop by lia.
    assert (Hti : length (take i rs) = i) by (rewrite length_take; lia).
    rewrite take_app_ge, drop_app_ge by lia. rewrite Hti.
    replace (S i - i)%nat with 1%nat by lia.
    replace (S (S (i + length l)) - i)%nat with (S (S (length l))) by lia.
    simpl. rewrite take_0, drop_drop, <- app_assoc. simpl. do 4 f_equal.
Qed.

Lemma sort_pair s e a b :
  0 <= a < 2 ^ 31 -> 0 <= s < 2 ^ 31 -> a < s -> sort_ranges 2 [(s, e); (a, b)] = [(a, b); (s, e)].
Proof.
  intros Ha Hs Has. cbn [sort_ranges scan_min fst].
  rewrite (proj2 (Z.eqb_neq s (-1))), (proj2 (Z.eqb_neq a (-1))) by lia.
  cbn [Z.ltb Z.compare orb]. rewrite (s32_id s) by lia.
  rewrite (proj2 (Z.ltb_lt a s)), (proj2 (Z.ltb_ge s 0)) by lia. cbn [orb nth].
  cbn [insert list_insert fst snd scan_min]. rewrite (proj2 (Z.eqb_neq s (-1))) by lia.
  reflexivity.
Qed.

(** Local time that many minutes west of UTC, on the same day, the next or the
    previous one, also across the end of a month of [last] days. *)
Lemma minutes_west_correct day hour minute west last :
  28 <= last <= 31 -> 1 <= day <= last -> 0 <= hour < 24 -> 0 <= minute < 60 ->
  - 1440 < west < 1440 ->
  let local := 1440 * day + 60 * hour + minute - west in
  let local_day := let d := local / 1440 in if d <? 1 then last else if last <? d then 1 else d in
  minutes_west day hour minute local_day (local mod 1440 / 60) (local mod 60) = west.
Proof.
  intros Hlast Hday Hh Hm Hw local. cbv zeta.
  pose proof (Z.div_mod local 1440 ltac:(lia)). pose proof (Z.mod_pos_bound local 1440 ltac:(lia)).
  pose proof (Z.div_mod (local mod 1440) 60 ltac:(lia)).
  assert (Hmm : (local mod 1440) mod 60 = local mod 60).
  { symmetry. rewrite (Z.div_mod local 1440) at 1 by lia.
    replace (1440 * (local / 1440) + local mod 1440) with (local mod 1440 + (24 * (local / 1440)) * 60) by lia.
    apply Z.mod_add. lia. }
  unfold minutes_west. repeat case_if; propify; lia.
Qed.

(** * Theorems on times, bounds and limits *)

(** A time ["h:m:s"] is read as its seconds, whatever the uninitialised
    variable holds; a week day in front, in any case, adds its days since
    Sunday. *)
Theorem parse_time_reads (tmp0 h m s : Z) (day : cstr) (i : nat) :
  0 <= h < 2 ^ 31 -> 0 <= m < 2 ^ 31 -> 0 <= s < 2 ^ 31 ->
  length day = 3%nat -> index_of (to_lowercase day) day_names 0 = Some i ->
  parse_time tmp0 (clock h m s) = h * 3600 + m * 60 + s /\
  parse_time tmp0 (day ++ bytes " " ++ clock h m s) =
    Z.of_nat i * 86400 + h * 3600 + m * 60 + s.
Proof.
  intros Hh Hm Hs Hday Hi. split; unfold parse_time.
  - assert (Hb : skip_while (fun c => (c =? 32) || (c =? 9)) (clock h m s) = clock h m s)
      by apply (skip_while_print _ _ _ blank_no_digit).
    assert (Hd : (if (3 <? length (clock h m s))%nat
                  then index_of (to_lowercase (take 3 (clock h m s))) day_names 0 else None) = None)
      by exact (numeral_no_day h _).
    cbv zeta. rewrite !Hb, !Hd, split_clock, sum_clock by lia. lia.
  - assert (Hnb : skip_while (fun c => (c =? 32) || (c =? 9)) (day ++ bytes " " ++ clock h m s)
                  = day ++ bytes " " ++ clock h m s).
    { apply skip_while_none. destruct day as [|c day]; [done|]. simpl.
      destruct ((c =? 32) || (c =? 9)) eqn:E; [|done]. exfalso.
      assert (tolower c = c) by (unfold tolower, isupper; case_if; zify_all).
      revert Hi. unfold to_lowercase. cbn [map]. rewrite H.
      assert (Hc : c = 32 \/ c = 9) by (propify; lia).
      destruct Hc as [-> | ->]; unfold index_of, day_names, strcmp_eq; simpl;
        repeat (rewrite bool_decide_eq_false_2 by discriminate); done. }
    cbv zeta. rewrite !Hnb. rewrite take_app_length' by done.
    assert (Hlen : (3 <? length (day ++ bytes " " ++ clock h m s))%nat = true).
    { apply Nat.ltb_lt. rewrite !length_app. simpl. lia. }
    rewrite Hlen, Hi, drop_app_length' by done.
    assert (Hsk : skip_while (fun c => negb (isdigit c)) (bytes " " ++ clock h m s) = clock h m s).
    { simpl. unfold clock. apply nondigit_skip. }
    rewrite Hsk, split_clock.
    assert (Hi7 : (i < 7)%nat).
    { revert Hi. unfold index_of, day_names. repeat case_match; intros; simplify_eq; lia. }
    rewrite sum_clock by lia. lia.
Qed.

(** An option never writes past the kernel structure: [ranges] keeps its
    length whatever the argument, and an accepted list of hours is stored whole,
    at most 50 times, with its terminator behind it. *)
Theorem parse_ranges_bounded (tmp0 c : Z) (arg : cstr) (inv : bool) (flags : Z)
  (info : xt_timerange_info) :
  length (ranges info) = RANGE_LENGTH ->
  let '(info', flags', ok) := parse tmp0 c arg inv flags info in
  length (ranges info') = RANGE_LENGTH /\
  (ok = false -> flags' = flags) /\
  (ok = true -> c = HOURS -> exists l, parse_time_ranges tmp0 arg false = Some l /\
     (length l < RANGE_LENGTH)%nat /\ ranges info' = l ++ -1 :: drop (S (length l)) (ranges info)).
Proof.
  intros Hl. unfold parse. set (info1 := if flags =? 0 then _ else info).
  assert (Hr : ranges info1 = ranges info) by (unfold info1; by case_if).
  assert (Hcp : forall l, let '(rs, ok) := copy_ranges l 0 (ranges info1) in
    length rs = RANGE_LENGTH /\ (ok = true -> (length l < RANGE_LENGTH)%nat /\
      rs = l ++ -1 :: drop (S (length l)) (ranges info))).
  { intros l. rewrite Hr. pose proof (copy_ranges_spec l 0 (ranges info) Hl) as H.
    specialize (H ltac:(unfold RANGE_LENGTH; lia)). exact H. }
  destruct (Z.eqb_spec c HOURS) as [->|Hh]; [|destruct (Z.eqb_spec c WEEKDAYS) as [->|Hd];
    [|destruct (Z.eqb_spec c WEEKLY_RANGE) as [->|Hw]]].
  - destruct (parse_time_ranges tmp0 arg false) as [l|]; [|by rewrite Hr].
    case_if; [|by rewrite Hr]. specialize (Hcp l).
    destruct (copy_ranges l 0 (ranges info1)) as [rs [|]]; destruct Hcp as [H1 H2].
    + split_and!; [done|done|]. intros _ _. exists l. by destruct (H2 eq_refl).
    + by split_and!.
  - destruct (parse_weekdays arg); [|by rewrite Hr]. case_if; simpl; by rewrite ?Hr.
  - destruct (parse_time_ranges tmp0 arg true) as [l|]; [|by rewrite Hr].
    case_if; [|by rewrite Hr]. specialize (Hcp l).
    destruct (copy_ranges l 0 (ranges info1)) as [rs [|]]; destruct Hcp as [H1 H2]; by split_and!.
  - by rewrite Hr.
Qed.

(** A range over the end of the day that reaches the start of another one is
    neither reported as an overlap nor split: the evening part is never active
    although the range covers it. *)
Theorem wrap_touching_lost (max s e a b t : Z) :
  0 <= a <= e -> a < b < s -> e < s -> s < max < 2 ^ 31 -> s <= t < max ->
  arrange max [(s, e); (a, b)] = Some [a; b; s; e] /\
  in_range t (s, e) /\ in_ranges t [a; b; s; e] = false.
Proof.
  intros. split_and!.
  - unfold arrange. cbn [overlap_found existsb]. unfold overlaps, unwrap_end. cbn [fst snd].
    rewrite (proj2 (Z.ltb_lt e s)), (proj2 (Z.ltb_ge b a)), (proj2 (Z.ltb_ge s b)) by lia.
    cbn [andb orb]. rewrite andb_false_r. cbn [orb length]. rewrite sort_pair by lia.
    cbn [flatten]. rewrite until_end_all by (repeat constructor; lia).
    cbn [merge_adjacent_time_ranges merge_loop].
    rewrite (proj2 (Z.eqb_neq b a)), (proj2 (Z.eqb_neq b s)), (proj2 (Z.eqb_neq s b)),
      (proj2 (Z.eqb_neq s e)) by lia. cbn [negb andb head].
    rewrite bool_decide_eq_false_2 by (intros [= ?]; lia). rewrite andb_false_r.
    unfold split_wrapped. cbn [list.last]. by rewrite (proj2 (Z.ltb_ge e a)) by lia.
  - unfold in_range. cbn [fst snd]. rewrite (proj2 (Z.leb_gt s e)) by lia. lia.
  - cbn [in_ranges]. repeat case_if; zify_all.
Qed.

(** A range that ends where it starts corrupts the list: one of its two times
    is dropped as a duplicate, and the remaining times pair up the wrong way
    round, so that the gap before the next range becomes active. *)
Theorem empty_range_inverts (max a b c t : Z) :
  0 < a < b -> b < c < max -> max < 2 ^ 31 -> a < t < b ->
  arrange max [(a, a); (b, c)] = Some [a; b; c; max] /\
  in_ranges t [a; b; c; max] = true /\ ~ in_range t (a, a) /\ ~ in_range t (b, c).
Proof.
  intros. split_and!.
  - unfold arrange. cbn [overlap_found existsb]. unfold overlaps, unwrap_end. cbn [fst snd].
    rewrite (proj2 (Z.ltb_ge a a)), (proj2 (Z.ltb_ge c b)), (proj2 (Z.ltb_ge b a)) by lia.
    rewrite !andb_false_r. cbn [andb orb length].
    cbn [sort_ranges scan_min fst].
    rewrite (proj2 (Z.eqb_neq a (-1))), (proj2 (Z.eqb_neq b (-1))) by lia.
    cbn [Z.ltb Z.compare orb]. rewrite (s32_id a) by lia.
    rewrite (proj2 (Z.ltb_ge a 0)), (proj2 (Z.ltb_ge b a)) by lia. cbn [orb nth].
    cbn [insert list_insert fst snd scan_min]. rewrite (proj2 (Z.eqb_neq b (-1))) by lia.
    cbn [Z.ltb Z.compare orb nth insert list_insert flatten].
    rewrite until_end_all by (repeat constructor; lia).
    cbn [merge_adjacent_time_ranges merge_loop]. rewrite (Z.eqb_refl a).
    rewrite (proj2 (Z.eqb_neq b a)), (proj2 (Z.eqb_neq b c)) by lia. cbn [negb andb head].
    rewrite bool_decide_eq_false_2 by (intros [= ?]; lia). rewrite andb_false_r.
    unfold split_wrapped. cbn [list.last]. by rewrite (proj2 (Z.ltb_ge c a)) by lia.
  - cbn [in_ranges]. repeat case_if; zify_all.
  - unfold in_range. cbn [fst snd]. case_if; zify_all.
  - unfold in_range. cbn [fst snd]. case_if; zify_all.
Qed.

(** What is saved is not what is read: the rules are printed with times in
    seconds, and a number alone is read as hours, so a saved time comes back
    3600 times as large. *)
Theorem saved_time_misread (tmp0 v : Z) :
  0 <= v < 2 ^ 31 -> parse_time tmp0 (print_d v) = v * 3600.
Proof.
  intros Hv. unfold print_d. rewrite (proj2 (Z.ltb_ge _ _)) by lia. unfold parse_time.
  pose proof (skip_while_print _ v [] blank_no_digit) as Hb. rewrite app_nil_r in Hb.
  pose proof (numeral_no_day v []) as Hd. rewrite app_nil_r in Hd.
  cbv zeta. rewrite !Hb, !Hd.
  assert (Hs : split_on_separators (print_u 10 v) (bytes ":") (-1) false = [print_u 10 v]).
  { unfold split_on_separators. cbn [Z.ltb Z.compare]. rewrite filter_colon. cbn [length].
    rewrite <- (app_nil_r (print_u 10 v)) at 2. rewrite skip_while_print by apply colon_no_digit.
    rewrite app_nil_r. apply split_loop_last, colon_no_digit. }
  rewrite Hs. cbn [sum_parts]. rewrite scan_ld_print by lia. change (60 * 60) with 3600.
  rewrite !u64_id; rewrite ?u64_id; lia.
Qed.

(** * Witnesses *)

(** 22:00 to 6:00, 12:00 to 13:00, 13:00 to 14:00. *)
Definition demo_ranges : list range := [(79200, 21600); (43200, 46800); (46800, 50400)].

Lemma arrange_covers_witness :
  arrange 86400 demo_ranges = Some [0; 21600; 43200; 50400; 79200; 86400] /\
  (in_ranges 45000 [0; 21600; 43200; 50400; 79200; 86400] = true <-> covered 45000 demo_ranges).
Proof.
  split; [reflexivity|].
  pose proof (arrange_covers 86400 demo_ranges ltac:(lia) ltac:(discriminate)
    ltac:(repeat constructor; simpl; lia) ltac:(reflexivity)
    ltac:(intros r r' Hr%list_elem_of_In Hr'%list_elem_of_In; simpl in Hr, Hr';
          intuition (subst; simpl in *; lia))) as H.
  exact (H 45000 ltac:(lia)).
Defined.

Lemma parse_time_reads_witness :
  parse_time 77 (clock 1 30 5) = 5405 /\ parse_time 77 (bytes "Mon 1:30:5") = 91805.
Proof.
  apply (parse_time_reads 77 1 30 5 (bytes "Mon") 1); [lia|lia|lia|reflexivity|reflexivity].
Defined.

Definition demo_info : xt_timerange_info := mk_info (repeat 0 51) (repeat 0 7) 0 false.

Lemma parse_ranges_bounded_witness :
  let '(info', flags', ok) := parse 0 HOURS (bytes "12-13") false 0 demo_info in
  length (ranges info') = RANGE_LENGTH /\ ok = true.
Proof.
  pose proof (parse_ranges_bounded 0 HOURS (bytes "12-13") false 0 demo_info ltac:(reflexivity)) as H.
  assert (E : (parse 0 HOURS (bytes "12-13") false 0 demo_info).2 = true) by reflexivity.
  destruct (parse 0 HOURS (bytes "12-13") false 0 demo_info) as [[info' flags'] ok].
  split; [exact (proj1 H)|exact E].
Defined.

(** ["22-4,4-6"]: nothing between 22:00 and midnight. *)
Lemma wrap_touching_lost_witness :
  parse_time_ranges 0 (bytes "22-4,4-6") false = Some [14400; 21600; 79200; 14400] /\
  in_ranges 80000 [14400; 21600; 79200; 14400] = false.
Proof.
  split; [reflexivity|].
  apply (wrap_touching_lost 86400 79200 14400 14400 21600 80000); lia.
Defined.

(** ["5-5,7-8"]: active from 5 to 7. *)
Lemma empty_range_inverts_witness :
  parse_time_ranges 0 (bytes "5-5,7-8") false = Some [18000; 25200; 28800; 86400] /\
  in_ranges 20000 [18000; 25200; 28800; 86400] = true.
Proof.
  split; [reflexivity|]. apply (empty_range_inverts 86400 18000 25200 28800 20000); lia.
Defined.

Lemma saved_time_misread_witness : parse_time 0 (print_d 43200) = 155520000.
Proof. apply (saved_time_misread 0 43200). lia. Defined.

End TimerangeSpec.
