(* ===== verification/Cgi.v ===== *)
(** The query parser of the web server
    (src/tomato64/package/httpd/httpd/cgi.c): percent decoding, the in-place
    string replacement and the table of CGI variables.

    Strings that are edited in place are modelled as functions from the old
    contents to the new; the table of <search.h> is a finite map, in which a
    later value of a name replaces an earlier one. *)

From Stdlib Require Import ZArith Lia.
From stdpp Require Import base list strings gmap.
From S2P Require Import Prelude Scan.

Local Open Scope Z_scope.

Module Cgi.
Import Scan.

(** * Decoding *)

(** A malformed escape discards the rest of the string. *)
Fixpoint unescape (s : cstr) : cstr :=
  match s with
  | [] => []
  | c :: s' =>
      if c =? chr "%" then
        match s' with
        | h :: l :: rest =>
            if isxdigit h && isxdigit l then u8 (hex_val h * 16 + hex_val l) :: unescape rest
            else []
        | _ => []
        end
      else if c =? chr "+" then 32 :: unescape s'
      else c :: unescape s'
  end.

(** [str_replace] from offset [off]: the buffer and the result, 0 or -1. Each
    round goes on behind a replacement, and the source is not empty, so the
    length of the string bounds the rounds when it does not grow; a growing one
    is bounded by the buffer. *)
Fixpoint replace_loop (fuel : nat) (str : cstr) (off : nat) (str_size : nat) (src des : cstr)
  : option (cstr * Z) :=
  match fuel with
  | O => None
  | S f =>
      match strstr (drop off str) src with
      | None => Some (str, 0)
      | Some d =>
          let off := (off + d)%nat in
          if (length src <? length des)%nat &&
             (str_size <=? length str + (length des - length src))%nat
          then Some (str, -1)
          else
            replace_loop f (take off str ++ des ++ drop (off + length src) str)
              (off + length des) str_size src des
      end
  end.

Definition str_replace (str : cstr) (str_size : nat) (src des : cstr) : option (cstr * Z) :=
  if (str_size =? 0)%nat || (length src =? 0)%nat then Some (str, -1)
  else if (str_size <=? length str)%nat then Some (str, -1)
  else replace_loop (S (length str)) str 0 str_size src des.

(** * The table *)

Abbreviation table := (gmap cstr cstr).

Definition webcgi_get (htab : table) (name : cstr) : option cstr := htab !! name.

Definition webcgi_set (htab : table) (name value : cstr) : table := <[name := value]> htab.

(** The pieces [strsep(&q, "&;")] cuts the query into. *)
Fixpoint pieces (s : cstr) : list cstr :=
  match s with
  | [] => [[]]
  | c :: s' =>
      if (c =? chr "&") || (c =? chr ";") then [] :: pieces s'
      else match pieces s' with
           | [] => [[c]]
           | p :: ps => (c :: p) :: ps
           end
  end.

(** One piece: ["%u"] is protected, the rest decoded, and what stands before the
    first [=] is the name. A decoded NUL ends the string. *)
Definition webcgi_piece (htab : table) (piece : cstr) : table :=
  let value := match str_replace piece (S (length piece)) (bytes "%u") (bytes "~u") with
               | Some (v, _) => v
               | None => piece
               end in
  let value := until_nul (unescape value) in
  match strchr value (chr "=") with
  | Some i => webcgi_set htab (take i value) (drop (S i) value)
  | None => htab
  end.

(** [None] is a null query; the old table is destroyed either way. *)
Definition webcgi_init (query : option cstr) : table :=
  match query with
  | None => ∅
  | Some q => foldl webcgi_piece ∅ (pieces q)
  end.

(** * Encoding, as a browser does it *)

Definition unreserved (c : Z) : bool :=
  isdigit c || isupper c || islower c || (c =? chr "-") || (c =? chr ".") || (c =? chr "_").

Definition hex_digit (d : Z) : Z := if d <? 10 then 48 + d else 55 + d.

Definition escape_char (c : Z) : cstr :=
  if unreserved c then [c] else [37; hex_digit (c / 16); hex_digit (c mod 16)].
Definition escape (s : cstr) : cstr := concat (map escape_char s).

Definition encode_pair (kv : cstr * cstr) : cstr := escape kv.1 ++ [61] ++ escape kv.2.
Fixpoint encode_query (kvs : list (cstr * cstr)) : cstr :=
  match kvs with
  | [] => []
  | [kv] => encode_pair kv
  | kv :: kvs' => encode_pair kv ++ [38] ++ encode_query kvs'
  end.

(** * Lemmas *)

Lemma escape_char_spec : forall c, 0 <= c < 256 ->
  Forall (fun x => unreserved x = true \/ x = 37) (escape_char c) /\
  forall rest, unescape (escape_char c ++ rest) = c :: unescape rest.
Proof.
  assert (H : forall c, 0 <= c < 256 ->
    (if unreserved c then negb (c =? 37) && negb (c =? 43)
     else let h := hex_digit (c / 16) in let l := hex_digit (c mod 16) in
          unreserved h && unreserved l && isxdigit h && isxdigit l &&
          (u8 (hex_val h * 16 + hex_val l) =? c)) = true).
  { apply (forall_below 256). vm_compute. reflexivity. }
  intros c Hc. specialize (H c Hc). unfold escape_char.
  destruct (unreserved c) eqn:E.
  - apply andb_prop in H as [H1 H2]. split; [constructor; [by left|constructor]|].
    intros rest. cbn [app unescape]. change (chr "%") with 37. change (chr "+") with 43.
    apply negb_true_iff in H1, H2. by rewrite H1, H2.
  - cbv zeta in H. repeat (apply andb_prop in H as [H ?]). split.
    + apply Forall_cons; split; [by right|].
      apply Forall_cons; split; [by left|]. apply Forall_cons; split; [by left|constructor].
    + intros rest. cbn [app unescape]. change (37 =? chr "%") with true. cbv iota.
      match goal with A : isxdigit _ = true, B : isxdigit _ = true |- _ => rewrite A, B end.
      cbn [andb]. f_equal. by apply Z.eqb_eq.
Qed.

Lemma unescape_escape s rest : Forall is_byte s -> unescape (escape s ++ rest) = s ++ unescape rest.
Proof.
  induction 1 as [|c s Hc _ IH]; [done|]. unfold escape in *. cbn [map concat].
  rewrite <- app_assoc. destruct (escape_char_spec c Hc) as [_ ->]. by rewrite IH.
Qed.

Definition query_safe (c : Z) : Prop := unreserved c = true \/ c = 37 \/ c = 61.

Lemma escape_safe s : Forall is_byte s -> Forall query_safe (escape s).
Proof.
  induction 1 as [|c s Hc _ IH]; [constructor|]. unfold escape in *. simpl. apply Forall_app.
  split; [|done]. destruct (escape_char_spec c Hc) as [H _].
  eapply Forall_impl; [exact H|]. unfold query_safe. tauto.
Qed.

(** No ["%u"] in the string. *)
Fixpoint no_pu (s : cstr) : Prop :=
  match s with
  | [] => True
  | c :: s' => ~ (c = 37 /\ head s' = Some 117) /\ no_pu s'
  end.

Lemma no_pu_strstr s : no_pu s -> strstr s (bytes "%u") = None.
Proof.
  change (bytes "%u") with [37; 117]. induction s as [|c s IH]; [done|]. intros [Hc Hs].
  cbn [strstr]. rewrite (IH Hs).
  destruct (prefix_of_str [37; 117] (c :: s)) eqn:E; [|done].
  apply prefix_of_str_spec in E as [k Hk]. destruct Hc. by injection Hk as -> ->.
Qed.

Lemma no_pu_escape s rest : Forall is_byte s -> no_pu rest -> no_pu (escape s ++ rest).
Proof.
  assert (H : forall c, 0 <= c < 256 ->
    (if unreserved c then negb (c =? 37)
     else negb (hex_digit (c / 16) =? 117) && negb (hex_digit (c / 16) =? 37)
          && negb (hex_digit (c mod 16) =? 37)) = true).
  { apply (forall_below 256). vm_compute. reflexivity. }
  intros Hs Hr. induction Hs as [|c s Hc _ IH]; [done|]. unfold escape in *. cbn [map concat].
  rewrite <- app_assoc. specialize (H c Hc). unfold escape_char.
  destruct (unreserved c); cbn [app no_pu head].
  - apply negb_true_iff, Z.eqb_neq in H. split; [tauto|done].
  - apply andb_prop in H as [H H3]. apply andb_prop in H as [H1 H2].
    apply negb_true_iff, Z.eqb_neq in H1, H2, H3. split; [intros [_ [= ?]]; done|].
    split; [intros [? _]; done|]. split; [intros [? _]; done|done].
Qed.

Lemma pieces_safe p rest :
  Forall query_safe p ->
  pieces (p ++ 38 :: rest) = p :: pieces rest /\ pieces p = [p].
Proof.
  assert (Hsep : forall c, query_safe c -> (c =? chr "&") || (c =? chr ";") = false).
  { intros c Hc. change (chr "&") with 38. change (chr ";") with 59.
    destruct Hc as [Hc|[-> | ->]]; [|done|done].
    destruct (Z.eqb_spec c 38); [by subst|]. by destruct (Z.eqb_spec c 59); [subst|]. }
  induction 1 as [|c p Hc _ [IH1 IH2]]; [done|]. cbn [app pieces].
  rewrite (Hsep c Hc), IH1, IH2. done.
Qed.

Lemma encode_pair_safe kv :
  Forall is_byte kv.1 -> Forall is_byte kv.2 -> Forall query_safe (encode_pair kv).
Proof.
  intros. unfold encode_pair. apply Forall_app. split; [by apply escape_safe|].
  apply Forall_app. split; [|by apply escape_safe]. constructor; [|constructor].
  unfold query_safe. auto.
Qed.

Lemma until_nul_chars s : Forall is_char s -> until_nul s = s.
Proof.
  induction 1 as [|c s Hc _ IH]; [done|]. simpl. unfold is_char in Hc.
  rewrite (proj2 (Z.eqb_neq _ _)) by lia. by rewrite IH.
Qed.

Lemma strchr_first s c t : c ∉ s -> strchr (s ++ c :: t) c = Some (length s).
Proof.
  induction s as [|x s IH]; simpl; intros Hc.
  - by rewrite Z.eqb_refl.
  - apply not_elem_of_cons in Hc as [Hx Hc]. rewrite IH by done.
    by rewrite (proj2 (Z.eqb_neq _ _)) by congruence.
Qed.

(** What a form may send: no NUL, and no [=] in a name. *)
Definition sendable (kv : cstr * cstr) : Prop :=
  Forall is_char kv.1 /\ Forall is_char kv.2 /\ (61 ∉ kv.1).

Lemma char_byte s : Forall is_char s -> Forall is_byte s.
Proof. intros H. eapply Forall_impl; [exact H|]. unfold is_char, is_byte. lia. Qed.

Lemma webcgi_piece_pair htab kv :
  sendable kv -> webcgi_piece htab (encode_pair kv) = <[kv.1 := kv.2]> htab.
Proof.
  intros (Hk & Hv & Hne). pose proof (char_byte _ Hk) as Hkb. pose proof (char_byte _ Hv) as Hvb.
  unfold webcgi_piece, str_replace.
  rewrite (proj2 (Nat.leb_gt (S (length (encode_pair kv))) _)) by lia. cbn [Nat.eqb orb length bytes].
  cbn [replace_loop]. rewrite drop_0.
  rewrite no_pu_strstr.
  2: { unfold encode_pair. apply no_pu_escape; [done|]. cbn [app no_pu]. split; [intros [? _]; done|].
       rewrite <- (app_nil_r (escape kv.2)). by apply no_pu_escape. }
  unfold encode_pair. rewrite unescape_escape by done. cbn [app unescape].
  change (61 =? chr "%") with false. change (61 =? chr "+") with false. cbv iota.
  rewrite <- (app_nil_r (escape kv.2)), unescape_escape, app_nil_r by done.
  rewrite until_nul_chars.
  2: { apply Forall_app. split; [done|]. constructor; [unfold is_char; lia|done]. }
  rewrite strchr_first by done. unfold webcgi_set.
  rewrite take_app_length. f_equal.
  change (kv.1 ++ 61 :: kv.2) with (kv.1 ++ [61] ++ kv.2). rewrite app_assoc.
  apply drop_app_length'. rewrite length_app. simpl. lia.
Qed.

Lemma replace_loop_spec fuel str off size src des :
  src <> [] -> (length str < size)%nat -> (off <= length str)%nat -> (length str - off < fuel)%nat ->
  exists str' r, replace_loop fuel str off size src des = Some (str', r) /\
    (length str' < size)%nat /\ (r = 0 \/ r = -1) /\
    ((length des <= length src)%nat -> r = 0).
Proof.
  intros Hsrc. revert str off. induction fuel as [|f IH]; intros str off Hl Ho Hf; [lia|].
  cbn [replace_loop]. destruct (strstr (drop off str) src) as [d|] eqn:E.
  - apply strstr_Some in E. destruct E as [E _]. apply prefix_of_str_spec in E as [k Hk].
    rewrite drop_drop in Hk.
    assert (Hlen : (off + d + length src + length k = length str)%nat).
    { apply (f_equal length) in Hk. rewrite length_drop, length_app in Hk.
      destruct src as [|x src]; [done|]. simpl in *. lia. }
    destruct (_ && _) eqn:Eg.
    + exists str, (-1). split_and!; [done|done|by right|]. intros Hd.
      apply andb_prop in Eg as [Eg _]. apply Nat.ltb_lt in Eg. lia.
    + assert (Hsz : (length des <= length src \/ length str + (length des - length src) < size)%nat).
      { apply andb_false_iff in Eg as [Eg|Eg]; [left; by apply Nat.ltb_ge|right; by apply Nat.leb_gt]. }
      assert (Hsl : (0 < length src)%nat) by (destruct src; [done|simpl; lia]).
      assert (Hl' : length (take (off + d) str ++ des ++ drop (off + d + length src) str) =
                    (length str - length src + length des)%nat).
      { rewrite !length_app, length_take, length_drop. lia. }
      apply IH; rewrite Hl'; lia.
  - exists str, 0. split_and!; [done|done|by left|done].
Qed.

(** * Theorems *)

(** A form arrives as it was sent: decoding the query string a browser
    builds from any list of fields (any bytes but NUL; no [=] in a name) gives
    exactly those fields, a later field replacing an earlier one of the same
    name. *)
Theorem webcgi_query_roundtrip (kvs : list (cstr * cstr)) (name : cstr) :
  Forall sendable kvs ->
  webcgi_get (webcgi_init (Some (encode_query kvs))) name =
    foldl (fun (m : table) kv => <[kv.1 := kv.2]> m) ∅ kvs !! name.
Proof.
  intros Hs. unfold webcgi_get, webcgi_init. f_equal.
  destruct kvs as [|kv kvs]; [done|].
  assert (Hp : pieces (encode_query (kv :: kvs)) = map encode_pair (kv :: kvs)).
  { revert kv Hs. induction kvs as [|kv' kvs IH]; intros kv Hs;
      apply Forall_cons in Hs as [(Hk & Hv & _) Hs];
      pose proof (encode_pair_safe kv (char_byte _ Hk) (char_byte _ Hv)) as Hsafe.
    - by destruct (pieces_safe _ [] Hsafe).
    - change (encode_query (kv :: kv' :: kvs)) with (encode_pair kv ++ 38 :: encode_query (kv' :: kvs)).
      destruct (pieces_safe _ (encode_query (kv' :: kvs)) Hsafe) as [-> _].
      by rewrite (IH kv' Hs). }
  rewrite Hp. generalize (∅ : table). revert Hs. generalize (kv :: kvs). clear.
  induction l as [|kv l IH]; intros Hs m; [done|]. apply Forall_cons in Hs as [Hkv Hs].
  cbn [map foldl]. by rewrite webcgi_piece_pair, (IH Hs).
Qed.

(** The in-place replacement always ends, never lets the string outgrow its
    buffer, and cannot fail unless the replacement is the longer string. *)
Theorem str_replace_bounded (str : cstr) (size : nat) (src des : cstr) :
  src <> [] -> (length str < size)%nat ->
  exists str' r, str_replace str size src des = Some (str', r) /\
    (length str' < size)%nat /\ (r = 0 \/ r = -1) /\
    ((length des <= length src)%nat -> r = 0).
Proof.
  intros Hsrc Hl. unfold str_replace.
  rewrite (proj2 (Nat.eqb_neq size 0)) by lia.
  rewrite (proj2 (Nat.eqb_neq (length src) 0)) by (destruct src; [done|simpl; lia]).
  rewrite (proj2 (Nat.leb_gt _ _)) by lia. cbn [orb]. apply replace_loop_spec; [done|lia|lia|lia].
Qed.

(** * Witnesses *)

Definition demo_form : list (cstr * cstr) :=
  [(bytes "name", bytes "a&b=c %u"); (bytes "x y", bytes "1+1"); (bytes "name", bytes "z")].

Lemma webcgi_query_roundtrip_witness :
  webcgi_get (webcgi_init (Some (encode_query demo_form))) (bytes "x y") = Some (bytes "1+1").
Proof.
  etransitivity; [apply (webcgi_query_roundtrip demo_form (bytes "x y"))|reflexivity].
  repeat constructor; simpl; try (vm_compute; intuition congruence);
    try (apply (bool_decide_unpack _); vm_compute; exact I).
Defined.

Lemma str_replace_bounded_witness :
  exists str' r, str_replace (bytes "aXbX") 6 (bytes "X") (bytes "YY") = Some (str', r) /\
    (length str' < 6)%nat.
Proof.
  destruct (str_replace_bounded (bytes "aXbX") 6 (bytes "X") (bytes "YY")) as (s' & r & H1 & H2 & _);
    [discriminate|simpl; lia|].
  exists s', r. split; [exact H1|exact H2].
Defined.

End Cgi.
