(* ===== verification/AspParser.v ===== *)
(** The page template parser of the web server
    (src/tomato64/package/httpd/httpd/parser.c): text with calls
    [<% ident(arg, "arg"); %>] is copied to the client and the calls are run. The file
    is read by [f_read_alloc_string] (libshared/shared/files.c); its contents, or that it
    cannot be opened, read or stored, are an argument.

    The parser cuts its buffer with NULs in place; an argument is modelled by
    the string it points to when the function is called. *)

From Stdlib Require Import ZArith Lia.
From stdpp Require Import base list strings.
From S2P Require Import Prelude Scan.

Local Open Scope Z_scope.

Module AspParser.
Import Scan.




(** A quoted argument behind its opening quote [x]: its text and what follows the
    closing one. The character behind a backslash is written over the backslash
    and stays where it is. *)
Fixpoint scan_quoted (x : Z) (s : cstr) : option (cstr * cstr) :=
  match s with
  | [] => None
  | c :: s' =>
      if c =? x then Some ([], s')
      else if c =? 92 then
        match s' with
        | [] => None
        | d :: s'' =>
            match scan_quoted x s'' with Some (a, r) => Some (d :: d :: a, r) | None => None end
        end
      else match scan_quoted x s' with Some (a, r) => Some (c :: a, r) | None => None end
  end.







Section Api.
(** The names in the [aspapi] table. *)
Context (aspapi : cstr -> bool).





(** * Lemmas *)






Lemma scan_quoted_plain x s rest :
  x ∉ s -> (92 ∉ s) -> scan_quoted x (s ++ x :: rest) = Some (s, rest).
Proof.
  induction s as [|c s IH]; intros Hx Hb; simpl.
  - by rewrite Z.eqb_refl.
  - apply not_elem_of_cons in Hx as [Hx1 Hx]. apply not_elem_of_cons in Hb as [Hb1 Hb].
    rewrite (proj2 (Z.eqb_neq c x)), (proj2 (Z.eqb_neq c 92)) by congruence. by rewrite IH.
Qed.

(** * Rendering *)



















(** * Theorems *)





(** An escaped character in a quoted argument is doubled: the backslash is
    overwritten with it, and it stays. *)
Theorem escaped_char_doubled (x c : Z) (a b rest : cstr) :
  x <> 92 -> (x ∉ a) -> (92 ∉ a) -> (x ∉ b) -> (92 ∉ b) ->
  scan_quoted x (a ++ [92; c] ++ b ++ x :: rest) = Some (a ++ [c; c] ++ b, rest).
Proof.
  intros Hx Ha1 Ha2 Hb1 Hb2. induction a as [|d a IH].
  - cbn [app scan_quoted]. rewrite (proj2 (Z.eqb_neq 92 x)), Z.eqb_refl by congruence.
    by rewrite scan_quoted_plain.
  - apply not_elem_of_cons in Ha1 as [Hd1 Ha1]. apply not_elem_of_cons in Ha2 as [Hd2 Ha2].
    change ((d :: a) ++ ?t) with (d :: (a ++ t)). cbn [scan_quoted].
    rewrite (proj2 (Z.eqb_neq d x)), (proj2 (Z.eqb_neq d 92)) by congruence.
    rewrite IH by done. done.
Qed.

End Api.

(** * Witnesses *)



(** ['it\'s'] is read as ["it''s"]. *)
Lemma escaped_char_doubled_witness :
  scan_quoted 39 (bytes "it\'s') ") = Some (bytes "it''s", bytes ") ").
Proof.
  apply (escaped_char_doubled 39 39 (bytes "it") (bytes "s") (bytes ") "));
    [lia|apply (bool_decide_unpack _); vm_compute; exact I..].
Defined.

End AspParser.
