(* ===== verification/Sched.v ===== *)
(** The scheduler (src/tomato64/package/rc/rc/sched.c): an NVRAM entry
    ["enabled,time,days"] becomes a line of the crontab.

    The crontab is a finite map from entry names to lines, which the external
    [cru] command edits; the clock and the calendar are the class [Clock]. *)

From Stdlib Require Import ZArith Lia.
From stdpp Require Import base list strings gmap.
From S2P Require Import Prelude Scan Nvram.

Local Open Scope Z_scope.

Module Sched.
Import Scan Nvram.Nvram.

Record tm := mk_tm { tm_min : Z; tm_hour : Z; tm_mday : Z; tm_mon : Z; tm_wday : Z }.

Class Clock := { time : Z; localtime : Z -> tm }.

Abbreviation crontab := (gmap cstr cstr).

(** [eval("cru", "d", key)] and [eval("cru", "a", key, line)]. *)
Definition unsched (key : cstr) (cron : crontab) : crontab := delete key cron.
Definition cru_add (key line : cstr) (cron : crontab) : crontab := <[key := line]> cron.

(** [sscanf(s, "%d,%d,%d")]. *)
Definition scan_comma (s : cstr) : option cstr :=
  match s with c :: s' => if c =? chr "," then Some s' else None | [] => None end.

Definition scan_three (s : cstr) : option (Z * Z * Z) :=
  match scan_d s with
  | None => None
  | Some (a, s) =>
      match scan_comma s with
      | None => None
      | Some s =>
          match scan_d s with
          | None => None
          | Some (b, s) =>
              match scan_comma s with
              | None => None
              | Some s => match scan_d s with Some (c, _) => Some (a, b, c) | None => None end
              end
          end
      end
  end.

(** The days of the mask, Sunday first, each behind a comma. *)
Definition days_text (dow : Z) : cstr :=
  concat (map (fun i => if Z.testbit dow (Z.of_nat i) then bytes "," ++ print_d (Z.of_nat i) else [])
              (seq 0 7)).

Section Ops.
Context {nv : Nvram} {clk : Clock}.

(** The search for the next allowed day, a minute at a time. A week has 10080
    minutes. *)
Fixpoint next_allowed (fuel : nat) (dow next : Z) : option Z :=
  match fuel with
  | O => None
  | S f => if Z.testbit dow (tm_wday (localtime next)) then Some next else next_allowed f dow (next + 60)
  end.

Definition WEEK : nat := Z.to_nat 10081.

(** The line of the crontab; [last] is the time of the last run. [None] when no
    day is found. *)
Definition cron_line (key : cstr) (t dow last : Z) : option cstr :=
  let dow := if Z.land dow 0x7F =? 0 then 0x7F else dow in
  let w := drop 1 (take 31 (days_text dow)) in
  let tail := bytes " sched " ++ key in
  if 0 <=? t then
    Some (snprintf 64 (print_d (Z.rem t 60) ++ bytes " " ++ print_d (Z.quot t 60) ++ bytes " * * " ++ w ++ tail))
  else
    let t := - t in
    if t <=? 5 then Some (snprintf 64 (bytes "*/" ++ print_d t ++ bytes " * * * " ++ w ++ tail))
    else
      let t := s32 (t * 60) in
      let next := time + 59 in
      let next := if next <? last + t then last else next in
      match next_allowed WEEK dow (next + t) with
      | None => None
      | Some next =>
          let tm := localtime next in
          Some (snprintf 64 (print_d (tm_min tm) ++ bytes " " ++ print_d (tm_hour tm) ++ bytes " " ++
                print_d (tm_mday tm) ++ bytes " " ++ print_d (tm_mon tm + 1) ++ bytes " *" ++ tail))
      end.

(** The time of the last run: [strtoull] of ["<key>_last"], just set on a
    rescheduling. *)
Definition last_run (key : cstr) (resched : bool) : Z :=
  if resched then time
  else match scan_u64 (nvram_safe_get (key ++ bytes "_last")) with Some (v, _) => v | None => 0 end.

(** The new crontab and, when rescheduling, the new value of ["<key>_last"]. *)
Definition sched (key : cstr) (resched : bool) (cron : crontab) : crontab * option cstr :=
  match scan_three (nvram_safe_get key) with
  | None => (unsched key cron, None)
  | Some (en, t, dow) =>
      if en =? 0 then (unsched key cron, None)
      else
        let stamp := if resched then Some (print_d time) else None in
        if resched && (-5 <=? t) then (cron, stamp)
        else match cron_line key t dow (last_run key resched) with
             | Some line => (cru_add key line cron, stamp)
             | None => (cron, stamp)
             end
  end.

Definition is_sched (key : cstr) : bool :=
  bool_decide (head (nvram_safe_get key) = Some (chr "1")).

Definition start_keys : list cstr :=
  [bytes "sch_rboot"; bytes "sch_rcon"; bytes "sch_c1"; bytes "sch_c2"; bytes "sch_c3";
   bytes "sch_c4"; bytes "sch_c5"].

(** ["sched start"]. *)
Definition sched_start (cron : crontab) : crontab :=
  foldl (fun cron key => (sched key false cron).1) cron start_keys.

Inductive job := Reboot | Reconnect | Custom (n : Z).

(** What running an entry does: the crontab and the job started. *)
Definition sched_run (key : cstr) (cron : crontab) : crontab * option job :=
  if negb (prefix_of_str (bytes "sch_") key) then (cron, None)
  else if negb (is_sched key) then (unsched key cron, None)
  else if strcmp_eq key (bytes "sch_rboot") then (cron, Some Reboot)
  else if strcmp_eq key (bytes "sch_rcon") then ((sched key true cron).1, Some Reconnect)
  else if prefix_of_str (bytes "sch_c") key then
    let n := match scan_d (drop 5 key) with Some (n, _) => n | None => 0 end in
    if (1 <=? n) && (n <=? 5) then ((sched key true cron).1, Some (Custom n)) else (cron, None)
  else (cron, None).

End Ops.

Definition stop_keys : list cstr :=
  [bytes "sch_rboot"; bytes "sch_rcon"; bytes "sch_sc1"; bytes "sch_sc2"; bytes "sch_sc3";
   bytes "sch_sc4"; bytes "sch_sc5"].

Definition stop_sched (cron : crontab) : crontab :=
  foldl (fun cron key => unsched key cron) cron stop_keys.

(** * Lemmas *)

Section Lemmas.
Context {nv : Nvram} {clk : Clock}.

(** A calendar without clock changes: the week day of local time [off] seconds
    east. *)
Definition steady (off : Z) : Prop :=
  forall t, tm_wday (localtime t) = ((t + off) / 86400 + 4) mod 7.

Lemma next_allowed_spec off dow fuel next :
  steady off ->
  (exists i, 0 <= i < Z.of_nat fuel /\
     Z.testbit dow (tm_wday (localtime (next + 60 * i))) = true) ->
  exists i, 0 <= i < Z.of_nat fuel /\ next_allowed fuel dow next = Some (next + 60 * i) /\
    Z.testbit dow (tm_wday (localtime (next + 60 * i))) = true /\
    forall j, 0 <= j < i -> Z.testbit dow (tm_wday (localtime (next + 60 * j))) = false.
Proof.
  intros Hs. revert next. induction fuel as [|f IH]; intros next (i & Hi & Hb); [lia|].
  cbn [next_allowed]. destruct (Z.testbit dow (tm_wday (localtime next))) eqn:E.
  - exists 0. rewrite Z.mul_0_r, Z.add_0_r. split_and!; [lia|lia|done|done|]. intros j. lia.
  - assert (Hi0 : i <> 0) by (intros ->; rewrite Z.mul_0_r, Z.add_0_r in Hb; congruence).
    destruct (IH (next + 60)) as (k & Hk & Hn & Hbk & Hfirst).
    { exists (i - 1). split; [lia|]. replace (next + 60 + 60 * (i - 1)) with (next + 60 * i) by lia. done. }
    exists (k + 1). replace (next + 60 * (k + 1)) with (next + 60 + 60 * k) by lia.
    split_and!; [lia|lia|done|done|]. intros j Hj. destruct (decide (j = 0)) as [->|].
    + by rewrite Z.mul_0_r, Z.add_0_r.
    + replace (next + 60 * j) with (next + 60 + 60 * (j - 1)) by lia. apply Hfirst. lia.
Qed.

(** Within a week every day comes up. *)
Lemma day_comes off dow next d :
  steady off -> 0 <= d < 7 -> Z.testbit dow d = true ->
  exists i, 0 <= i < Z.of_nat WEEK /\ Z.testbit dow (tm_wday (localtime (next + 60 * i))) = true.
Proof.
  intros Hs Hd Hb. set (q := (next + off) / 86400). set (k := (d - (q + 4)) mod 7).
  exists (1440 * k). pose proof (Z.mod_pos_bound (d - (q + 4)) 7 ltac:(lia)) as Hk. fold k in Hk.
  split; [change (Z.of_nat WEEK) with 10081; lia|]. rewrite Hs.
  replace (next + 60 * (1440 * k) + off) with (next + off + k * 86400) by lia.
  rewrite Z.div_add by lia. fold q.
  replace ((q + k + 4) mod 7) with d; [done|]. unfold k.
  rewrite (Z.add_comm q), <- Z.add_assoc, Zplus_mod_idemp_l.
  replace (d - (q + 4) + (q + 4)) with d by lia. symmetry. by apply Z.mod_small.
Qed.

Lemma scan_d_print n rest : 0 <= n < 2 ^ 31 -> ends_numeral rest -> scan_d (print_u 10 n ++ rest) = Some (n, rest).
Proof.
  intros Hn Hr. unfold scan_d. pose proof (scan_numeral_print [] n rest) as H. rewrite app_nil_l in H.
  rewrite H by done. rewrite print_u_value, s32_id by lia. done.
Qed.

(** The text the pages store. *)
Definition entry (en t dow : Z) : cstr :=
  print_u 10 en ++ bytes "," ++ print_u 10 t ++ bytes "," ++ print_u 10 dow.

Lemma scan_entry en t dow :
  0 <= en < 2 ^ 31 -> 0 <= t < 2 ^ 31 -> 0 <= dow < 2 ^ 31 ->
  scan_three (entry en t dow) = Some (en, t, dow).
Proof.
  intros. unfold scan_three, entry. rewrite scan_d_print by done. simpl scan_comma. cbv iota.
  rewrite scan_d_print by done. simpl scan_comma. cbv iota.
  rewrite <- (app_nil_r (print_u 10 dow)), scan_d_print by done. done.
Qed.

(** * Theorems *)

(** An enabled entry for a time of day is in the crontab at that minute and
    hour, on the days of its mask (every day for an empty one), under its name;
    the other entries stay. *)
Theorem sched_daily (key : cstr) (t dow : Z) (cron : crontab) :
  nvram_get key = Some (entry 1 t dow) -> 0 <= t < 1440 -> 0 <= dow < 128 -> (length key <= 20)%nat ->
  let days := drop 1 (days_text (if dow =? 0 then 127 else dow)) in
  (sched key false cron).1 =
    <[key := print_u 10 (t mod 60) ++ bytes " " ++ print_u 10 (t / 60) ++ bytes " * * " ++ days ++
             bytes " sched " ++ key]> cron.
Proof.
  intros Hk Ht Hd Hlen days. unfold sched, nvram_safe_get. rewrite Hk.
  change (default [] (Some ?x)) with x.
  rewrite scan_entry by lia. cbn [Z.eqb andb]. unfold cron_line.
  rewrite (proj2 (Z.leb_le 0 t)) by lia. cbn [fst]. unfold cru_add. f_equal.
  change 127 with (2 ^ 7 - 1) at 1. rewrite (land_mask dow 7) by lia. rewrite (Z.mod_small dow) by lia.
  rewrite Z.rem_mod_nonneg, Z.quot_div_nonneg by lia.
  unfold print_d.
  pose proof (Z.mod_pos_bound t 60 ltac:(lia)). pose proof (Z.div_pos t 60 ltac:(lia) ltac:(lia)).
  assert (t / 60 < 24) by (apply Z.div_lt_upper_bound; lia).
  rewrite !(proj2 (Z.ltb_ge _ 0)) by lia.
  assert (Hdays : forall m, 0 <= m < 128 -> (length (days_text m) <=? 14)%nat = true).
  { apply (forall_below 128 (fun m => (length (days_text m) <=? 14)%nat)). vm_compute. reflexivity. }
  set (m := if dow =? 0 then _ else _). assert (Hm : 0 <= m < 128) by (unfold m; case_if; lia).
  specialize (Hdays m Hm). apply Nat.leb_le in Hdays.
  rewrite (take_ge (days_text m)) by lia. unfold snprintf. apply take_ge.
  pose proof (print_u_length 10 (t mod 60) 2 ltac:(lia) ltac:(lia) ltac:(lia)).
  pose proof (print_u_length 10 (t / 60) 2 ltac:(lia) ltac:(lia) ltac:(lia)).
  rewrite !length_app. unfold days. fold m. rewrite length_drop. simpl. lia.
Qed.

(** For a period longer than five minutes the search for the next run ends,
    at the first allowed minute counted from the start. *)
Theorem next_run_found (off dow next : Z) :
  steady off -> (exists d, 0 <= d < 7 /\ Z.testbit dow d = true) ->
  exists i, 0 <= i < 10081 /\ next_allowed WEEK dow next = Some (next + 60 * i) /\
    Z.testbit dow (tm_wday (localtime (next + 60 * i))) = true /\
    forall j, 0 <= j < i -> Z.testbit dow (tm_wday (localtime (next + 60 * j))) = false.
Proof.
  intros Hs (d & Hd & Hb). exact (next_allowed_spec off dow WEEK next Hs (day_comes off dow next d Hs Hd Hb)).
Qed.

End Lemmas.

(** Stopping the scheduler leaves the five custom entries in the crontab: it
    removes the names sch_sc1 to sch_sc5, and the entries are called sch_c1 to
    sch_c5. *)
Theorem stop_sched_leaves_custom (cron : crontab) (n : Z) :
  1 <= n <= 5 ->
  stop_sched cron !! (bytes "sch_c" ++ print_u 10 n) = cron !! (bytes "sch_c" ++ print_u 10 n).
Proof.
  intros Hn. unfold stop_sched, stop_keys, unsched. cbn [foldl].
  rewrite !lookup_delete_ne; [done|..]; intros E;
    assert (Hc : n = 1 \/ n = 2 \/ n = 3 \/ n = 4 \/ n = 5) by lia;
    destruct Hc as [-> |[-> |[-> |[-> | ->]]]]; discriminate E.
Qed.

(** * Witnesses *)

Definition demo_nvram : Nvram := {| nvram_get _ := Some (entry 1 245 127); nvram_get_int _ := 0 |}.
Definition demo_clock : Clock := {|
  time := 0;
  localtime t := mk_tm (t / 60 mod 60) (t / 3600 mod 24) 1 0 ((t / 86400 + 4) mod 7) |}.
#[local] Existing Instances demo_nvram demo_clock.

Lemma sched_daily_witness :
  (sched (bytes "sch_rboot") false ∅).1 =
    {[bytes "sch_rboot" := bytes "5 4 * * 0,1,2,3,4,5,6 sched sch_rboot"]}.
Proof.
  etransitivity; [apply (sched_daily (bytes "sch_rboot") 245 127 ∅)|reflexivity];
    [reflexivity|lia|lia|simpl; lia].
Defined.

(** Only Sundays; the epoch was a Thursday. *)
Lemma next_run_found_witness :
  exists i, 0 <= i < 10081 /\ next_allowed WEEK 1 0 = Some (0 + 60 * i).
Proof.
  destruct (next_run_found 0 1 0) as (i & H1 & H2 & _).
  - intros t. simpl. by rewrite Z.add_0_r.
  - exists 0. split; [lia|reflexivity].
  - exists i. split; [exact H1|exact H2].
Defined.

Lemma stop_sched_leaves_custom_witness :
  stop_sched {[bytes "sch_c1" := bytes "x"]} !! bytes "sch_c1" = Some (bytes "x").
Proof.
  etransitivity; [apply (stop_sched_leaves_custom {[bytes "sch_c1" := bytes "x"]} 1); lia|reflexivity].
Defined.

End Sched.
