(* ===== verification/Avl.v ===== *)
(** The balanced trees of the shared library
    (src/tomato64/package/libshared/shared/tree.h), in which cstats keeps its
    hosts.

    The macros define, for a node type, rotations that rebalance recursively,
    insertion, search, removal and traversal. A null pointer is [Leaf]; a node
    carries the recorded [avl_height]. A new node comes from zeroed memory and is
    linked in without rebalancing, so a fresh leaf records height 0 where a
    rebalanced one records 1: [bal] allows both. Rebalancing calls itself on its
    results, so it is given fuel; that enough fuel gives a result is part of the
    theorems. *)

From Stdlib Require Import ZArith Lia Sorted.
From stdpp Require Import base list sets sorting.
From S2P Require Import Prelude.

Local Open Scope Z_scope.

Module Avl.

Inductive tree (A : Type) :=
  | Leaf
  | Node (avl_height : Z) (avl_left : tree A) (x : A) (avl_right : tree A).
Arguments Leaf {A}.
Arguments Node {A} _ _ _ _.

Definition TREE_DELTA_MAX : Z := 1.

Section Ops.
Context {A : Type}.
Implicit Types (l r t : tree A) (x y z : A).

Definition height t : Z := match t with Leaf => 0 | Node h _ _ _ => h end.

Definition TREE_DELTA l r : Z := height l - height r.

(** The end of [TREE_BALANCE]: the height from the children. *)
Definition set_height l x r : tree A :=
  Node (Z.max (Z.max 0 (height l)) (height r) + 1) l x r.

(** [TREE_BALANCE] of the node with the given children. The rotations are the
    inner functions; [None] stands for a null dereference or for fuel that runs
    out. *)
Fixpoint balance (fuel : nat) l x r : option (tree A) :=
  match fuel with
  | O => None
  | S f =>
      let rotl l x r :=
        match r with
        | Leaf => None
        | Node _ rl y rr =>
            match balance f l x rl with Some s => balance f s y rr | None => None end
        end in
      let rotr l x r :=
        match l with
        | Leaf => None
        | Node _ ll y lr =>
            match balance f lr x r with Some s => balance f ll y s | None => None end
        end in
      if TREE_DELTA l r <? - TREE_DELTA_MAX then
        match r with
        | Leaf => None
        | Node _ rl y rr =>
            if 0 <? TREE_DELTA rl rr then
              match rotr rl y rr with Some r' => rotl l x r' | None => None end
            else rotl l x r
        end
      else if TREE_DELTA_MAX <? TREE_DELTA l r then
        match l with
        | Leaf => None
        | Node _ ll y lr =>
            if TREE_DELTA ll lr <? 0 then
              match rotl ll y lr with Some l' => rotr l' x r | None => None end
            else rotr l x r
        end
      else Some (set_height l x r)
  end.

Fixpoint size t : nat := match t with Leaf => O | Node _ l _ r => S (size l + size r) end.

(** Heights are at most the number of nodes, so this is enough for any call. *)
Definition enough l r : nat := (size l + size r + 8)%nat.
Definition TREE_BALANCE l x r : option (tree A) := balance (enough l r) l x r.

Section Compare.
Context (compare : A -> A -> Z).

(** [elm] is a node from zeroed memory. *)
Fixpoint TREE_INSERT t (elm : A) : option (tree A) :=
  match t with
  | Leaf => Some (Node 0 Leaf elm Leaf)
  | Node _ l x r =>
      if compare elm x <? 0
      then match TREE_INSERT l elm with Some l' => TREE_BALANCE l' x r | None => None end
      else match TREE_INSERT r elm with Some r' => TREE_BALANCE l x r' | None => None end
  end.

Fixpoint TREE_FIND t (elm : A) : option A :=
  match t with
  | Leaf => None
  | Node _ l x r =>
      if compare elm x =? 0 then Some x
      else if compare elm x <? 0 then TREE_FIND l elm else TREE_FIND r elm
  end.

Fixpoint TREE_MOVE_RIGHT t (rhs : tree A) : option (tree A) :=
  match t with
  | Leaf => Some rhs
  | Node _ l x r =>
      match TREE_MOVE_RIGHT r rhs with Some r' => TREE_BALANCE l x r' | None => None end
  end.

Fixpoint TREE_REMOVE t (elm : A) : option (tree A) :=
  match t with
  | Leaf => Some Leaf
  | Node _ l x r =>
      if compare elm x =? 0 then TREE_MOVE_RIGHT l r
      else if compare elm x <? 0
      then match TREE_REMOVE l elm with Some l' => TREE_BALANCE l' x r | None => None end
      else match TREE_REMOVE r elm with Some r' => TREE_BALANCE l x r' | None => None end
  end.

(** A write through the pointer [TREE_FIND] returns; it leaves the links alone. *)
Fixpoint alter_found (f : A -> A) t (elm : A) : tree A :=
  match t with
  | Leaf => Leaf
  | Node h l x r =>
      if compare elm x =? 0 then Node h l (f x) r
      else if compare elm x <? 0 then Node h (alter_found f l elm) x r
      else Node h l x (alter_found f r elm)
  end.
End Compare.

(** [TREE_FORWARD_APPLY] of a function that writes the nodes it is given. *)
Fixpoint apply_all (f : A -> A) t : tree A :=
  match t with Leaf => Leaf | Node h l x r => Node h (apply_all f l) (f x) (apply_all f r) end.

(** The order in which [TREE_FORWARD_APPLY] visits the nodes. *)
Fixpoint elems t : list A :=
  match t with Leaf => [] | Node _ l x r => elems l ++ x :: elems r end.

(** * Balance *)

(** Recorded heights are right, up to fresh leaves, and differ by at most one. *)
Fixpoint bal t : Prop :=
  match t with
  | Leaf => True
  | Node h l _ r =>
      bal l /\ bal r /\ -1 <= height l - height r <= 1 /\
      (h = Z.max (height l) (height r) + 1 \/ (h = 0 /\ l = Leaf /\ r = Leaf))
  end.

Lemma bal_nonneg t : bal t -> 0 <= height t.
Proof.
  induction t as [|h l IHl x r IHr]; simpl; [lia|].
  intros (Hl & Hr & _ & Hh). specialize (IHl Hl). specialize (IHr Hr). lia.
Qed.

(** What [balance] promises. *)
Definition rebalanced l x r (res : option (tree A)) : Prop :=
  exists t, res = Some t /\ bal t /\ elems t = elems l ++ x :: elems r /\
    Z.max (height l) (height r) <= height t <= Z.max (height l) (height r) + 1.

Lemma balance_even f l x r :
  bal l -> bal r -> -1 <= height l - height r <= 1 ->
  balance (S f) l x r = Some (set_height l x r).
Proof.
  intros Hl Hr Hd. simpl. unfold TREE_DELTA, TREE_DELTA_MAX.
  rewrite (proj2 (Z.ltb_ge _ (- (1)))), (proj2 (Z.ltb_ge 1 _)) by lia. done.
Qed.

Lemma set_height_ok l x r :
  bal l -> bal r -> -1 <= height l - height r <= 1 ->
  bal (set_height l x r) /\ height (set_height l x r) = Z.max (height l) (height r) + 1.
Proof.
  intros Hl Hr Hd. pose proof (bal_nonneg l Hl). pose proof (bal_nonneg r Hr).
  simpl. split_and!; try done; lia.
Qed.

Lemma rebalanced_even f l x r :
  bal l -> bal r -> -1 <= height l - height r <= 1 -> rebalanced l x r (balance (S f) l x r).
Proof.
  intros Hl Hr Hd. rewrite balance_even by done. destruct (set_height_ok l x r Hl Hr Hd) as [Hb Hh].
  exists (set_height l x r). split_and!; [done|done|done|lia|lia].
Qed.

(** * Symmetry *)

Fixpoint mirror t : tree A :=
  match t with Leaf => Leaf | Node h l x r => Node h (mirror r) x (mirror l) end.

Lemma mirror_mirror t : mirror (mirror t) = t.
Proof. induction t as [|h l IHl x r IHr]; simpl; congruence. Qed.
Lemma height_mirror t : height (mirror t) = height t.
Proof. by destruct t. Qed.
Lemma elems_mirror t : elems (mirror t) = rev (elems t).
Proof.
  induction t as [|h l IHl x r IHr]; simpl; [done|].
  rewrite IHl, IHr, rev_app_distr. simpl. by rewrite <- app_assoc.
Qed.
Lemma bal_mirror t : bal (mirror t) <-> bal t.
Proof.
  induction t as [|h l IHl x r IHr]; simpl; [done|]. rewrite IHl, IHr, !height_mirror.
  assert (Hleaf : forall s, mirror s = Leaf <-> s = Leaf) by (intros []; simpl; split; congruence).
  rewrite !Hleaf. rewrite (Z.max_comm (height r)). intuition lia.
Qed.

Lemma balance_mirror f l x r :
  balance f (mirror r) x (mirror l) = option_map mirror (balance f l x r).
Proof.
  revert l x r. induction f as [|f IH]; intros l x r; [done|]. cbn [balance].
  unfold TREE_DELTA, TREE_DELTA_MAX. rewrite !height_mirror.
  destruct (Z.ltb_spec (height l - height r) (- (1))) as [H1|H1].
  - rewrite (proj2 (Z.ltb_ge (height r - height l) _)) by lia.
    rewrite (proj2 (Z.ltb_lt 1 _)) by lia.
    destruct r as [|hr rl y rr]; [done|]. cbn [mirror]. rewrite !height_mirror.
    replace (height rr - height rl <? 0) with (0 <? height rl - height rr)
      by (destruct (Z.ltb_spec 0 (height rl - height rr)), (Z.ltb_spec (height rr - height rl) 0); lia || done).
    destruct (0 <? height rl - height rr).
    + destruct rl as [|h2 a z b]; [done|]. cbn [mirror]. rewrite IH.
      destruct (balance f b y rr) as [s|]; [|done]. cbn [option_map]. rewrite IH.
      destruct (balance f a z s) as [r'|]; [|done]. cbn [option_map].
      destruct r' as [|h3 rl' y' rr']; [done|]. cbn [mirror]. rewrite IH.
      destruct (balance f l x rl') as [s'|]; [|done]. cbn [option_map]. apply IH.
    + rewrite IH. destruct (balance f l x rl) as [s|]; [|done]. cbn [option_map]. apply IH.
  - destruct (Z.ltb_spec 1 (height l - height r)) as [H2|H2].
    + rewrite (proj2 (Z.ltb_lt (height r - height l) _)) by lia.
      destruct l as [|hl ll y lr]; [done|]. cbn [mirror]. rewrite !height_mirror.
      replace (0 <? height lr - height ll) with (height ll - height lr <? 0)
        by (destruct (Z.ltb_spec 0 (height lr - height ll)), (Z.ltb_spec (height ll - height lr) 0); lia || done).
      destruct (height ll - height lr <? 0).
      * destruct lr as [|h2 a z b]; [done|]. cbn [mirror]. rewrite IH.
        destruct (balance f ll y a) as [s|]; [|done]. cbn [option_map]. rewrite IH.
        destruct (balance f s z b) as [l'|]; [|done]. cbn [option_map].
        destruct l' as [|h3 ll' y' lr']; [done|]. cbn [mirror]. rewrite IH.
        destruct (balance f lr' x r) as [s'|]; [|done]. cbn [option_map]. apply IH.
      * rewrite IH. destruct (balance f lr x r) as [s|]; [|done]. cbn [option_map]. apply IH.
    + rewrite (proj2 (Z.ltb_ge (height r - height l) _)), (proj2 (Z.ltb_ge 1 _)) by lia.
      cbn [option_map]. unfold set_height. cbn [mirror]. rewrite !height_mirror. do 2 f_equal. lia.
Qed.

Lemma rebalanced_mirror f l x r :
  rebalanced (mirror r) x (mirror l) (balance f (mirror r) x (mirror l)) ->
  rebalanced l x r (balance f l x r).
Proof.
  intros (t & Ht & Hb & He & Hh). rewrite balance_mirror in Ht.
  destruct (balance f l x r) as [s|]; [|done]. injection Ht as <-.
  exists s. split; [done|]. rewrite bal_mirror in Hb. rewrite !height_mirror in Hh.
  rewrite !elems_mirror in He. split; [done|]. split; [|lia].
  apply (f_equal (@rev A)) in He. rewrite rev_involutive in He. rewrite He.
  rewrite rev_app_distr. simpl. by rewrite !rev_involutive, <- app_assoc.
Qed.

(** * Rebalancing terminates *)

Ltac elems_eq := cbn [elems set_height]; repeat (rewrite <- app_assoc; cbn [app]); done.

(** [set_height] puts [x] between two trees it can join at once. *)
Lemma rebalanced_finish (f : nat) l x r (o : option (tree A)) y r' s :
  bal s -> bal r' -> -1 <= height s - height r' <= 1 ->
  elems s ++ y :: elems r' = elems l ++ x :: elems r ->
  Z.max (height l) (height r) <= Z.max (height s) (height r') + 1 <= Z.max (height l) (height r) + 1 ->
  o = Some s ->
  rebalanced l x r (match o with Some s => balance (S f) s y r' | None => None end).
Proof.
  intros Hs Hr Hd He Hh ->. rewrite balance_even by done.
  destruct (set_height_ok s y r' Hs Hr Hd) as [Hb Hh']. exists (set_height s y r').
  split_and!; [done|done|done|lia|lia].
Qed.

Lemma balance_right_heavy f l x h rl y rr :
  height l - h < -1 ->
  balance (S f) l x (Node h rl y rr) =
  if 0 <? height rl - height rr then
    match rl with
    | Leaf => None
    | Node _ a z b =>
        match match balance f b y rr with Some s => balance f a z s | None => None end with
        | Some (Node _ rl' y' rr') =>
            match balance f l x rl' with Some s => balance f s y' rr' | None => None end
        | _ => None
        end
    end
  else match balance f l x rl with Some s => balance f s y rr | None => None end.
Proof.
  intros H. cbn [balance]. unfold TREE_DELTA, TREE_DELTA_MAX. cbn [height].
  rewrite (proj2 (Z.ltb_lt (height l - h) (- (1)))) by lia.
  destruct (0 <? height rl - height rr); [|done]. destruct rl as [|h2 a z b]; [done|].
  destruct (balance f b y rr) as [s|]; [|done]. by destruct (balance f a z s) as [[]|].
Qed.

(** The right child leans right or is even: one rotation. *)
Lemma right_outer f l x h rl y rr :
  bal l -> bal (Node h rl y rr) -> height l <= h - 2 -> height rl <= height rr ->
  rebalanced l x rl (balance (S f) l x rl) ->
  rebalanced l x (Node h rl y rr) (balance (S (S f)) l x (Node h rl y rr)).
Proof.
  intros Hl Hr Hd Hlean (s & Hs & Hbs & Hes & Hhs). pose proof (bal_nonneg l Hl).
  cbn [bal] in Hr. destruct Hr as (Hrl & Hrr & Hdr & Hh).
  rewrite balance_right_heavy by lia. rewrite (proj2 (Z.ltb_ge 0 _)) by lia.
  apply (rebalanced_finish _ _ _ _ _ _ _ s); [done|done|lia| |cbn [height]; lia|done].
  rewrite Hes. elems_eq.
Qed.

(** The right child leans left and its left child does not lean right: a double
    rotation. *)
Lemma right_inner_outer f l x h h2 a z b y rr :
  bal l -> bal (Node h (Node h2 a z b) y rr) -> height l <= h - 2 ->
  height rr < h2 -> height b <= height a ->
  rebalanced l x a (balance (S f) l x a) ->
  rebalanced l x (Node h (Node h2 a z b) y rr)
    (balance (S (S f)) l x (Node h (Node h2 a z b) y rr)).
Proof.
  intros Hl Hr Hd Hlean Hab (s & Hs & Hbs & Hes & Hhs). pose proof (bal_nonneg l Hl).
  cbn [bal height] in Hr. destruct Hr as ((Ha & Hb & Hdab & Hh2) & Hrr & Hdr & Hh).
  pose proof (bal_nonneg rr Hrr).
  destruct (set_height_ok b y rr) as [Hb1 Hh1]; [done|done|lia|].
  destruct (set_height_ok a z (set_height b y rr)) as [Hb3 Hh3]; [done|done|lia|].
  rewrite balance_right_heavy by lia. cbn [height]. rewrite (proj2 (Z.ltb_lt 0 _)) by lia.
  rewrite (balance_even _ b) by (done || lia). rewrite (balance_even _ a) by (done || lia).
  unfold set_height at 1.
  apply (rebalanced_finish _ _ _ _ _ _ _ s); [done|done|lia| |cbn [height] in *; lia|done].
  rewrite Hes. elems_eq.
Qed.

(** The right child leans left and its left child leans right: the inner rotation
    undoes itself, and the outer one may leave a difference of two the other way. *)
Lemma right_inner_inner f l x h h2 a z b y rr :
  bal l -> bal (Node h (Node h2 a z b) y rr) -> height l <= h - 2 ->
  height rr < h2 -> height a < height b ->
  balance (S (S (S f))) l x (Node h (Node h2 a z b) y rr) =
  match balance (S (S f)) l x (Node h2 a z b) with
  | Some s => balance (S (S f)) s y rr
  | None => None
  end.
Proof.
  intros Hl Hr Hd Hlean Hab. pose proof (bal_nonneg l Hl).
  cbn [bal height] in Hr. destruct Hr as ((Ha & Hb & Hdab & Hh2) & Hrr & Hdr & Hh).
  pose proof (bal_nonneg rr Hrr). pose proof (bal_nonneg a Ha).
  destruct (set_height_ok b y rr) as [Hb1 Hh1]; [done|done|lia|].
  destruct (set_height_ok a z b) as [Hb3 Hh3]; [done|done|lia|].
  rewrite balance_right_heavy by lia. cbn [height]. rewrite (proj2 (Z.ltb_lt 0 _)) by lia.
  rewrite (balance_even _ b) by (done || lia).
  unfold set_height. rewrite (balance_right_heavy (S f) a) by lia. rewrite (proj2 (Z.ltb_ge 0 _)) by lia.
  rewrite (balance_even _ a z b) by (done || lia).
  rewrite balance_even by (done || lia). unfold set_height. cbn [height].
  by replace (Z.max (Z.max 0 (height a)) (height b) + 1) with h2 by lia.
Qed.

Lemma rebalanced_as l x r l' x' r' (o : option (tree A)) :
  rebalanced l x r o -> elems l ++ x :: elems r = elems l' ++ x' :: elems r' ->
  Z.max (height l) (height r) = Z.max (height l') (height r') ->
  rebalanced l' x' r' o.
Proof. intros (t & -> & Hb & He & Hh) H1 H2. exists t. rewrite <- H1, <- H2. done. Qed.

Lemma right_shape r :
  bal r -> 2 <= height r ->
  exists h rl y rr, r = Node h rl y rr /\
    (height rl <= height rr \/
     exists h2 a z b, rl = Node h2 a z b /\ height rr < h2 /\
       h2 = Z.max (height a) (height b) + 1).
Proof.
  destruct r as [|h rl y rr]; simpl; [lia|]. intros (Hl & Hr & Hd & Hh) H2. exists h, rl, y, rr.
  split; [done|]. destruct (Z.le_gt_cases (height rl) (height rr)) as [Hc|Hc]; [by left|right].
  pose proof (bal_nonneg rr Hr). destruct rl as [|h2 a z b]; simpl in *; [lia|].
  exists h2, a, z, b. destruct Hl as (_ & _ & _ & Hh2). split_and!; [done|lia|lia].
Qed.

(** A difference of two, right heavy. *)
Lemma balance_two_right f l x r :
  bal l -> bal r -> height l = height r - 2 -> rebalanced l x r (balance (S (S (S f))) l x r).
Proof.
  intros Hl Hr Hd. pose proof (bal_nonneg l Hl).
  destruct (right_shape r Hr) as (h & rl & y & rr & -> & Hc); [lia|]. cbn [height] in *.
  pose proof Hr as Hr'. cbn [bal] in Hr'.
  destruct Hr' as (Hrl & Hrr & Hdr & Hh). pose proof (bal_nonneg rr Hrr).
  destruct Hc as [Hc|(h2 & a & z & b & -> & Hlt & Hh2)].
  { apply right_outer; try done; [lia|]. apply rebalanced_even; try done; lia. }
  cbn [height] in *.
  pose proof Hrl as Hrl'. cbn [bal] in Hrl'. destruct Hrl' as (Ha & Hb & Hdab & _).
  destruct (Z.le_gt_cases (height b) (height a)) as [Hab|Hab].
  { apply right_inner_outer; try done; [lia|]. apply rebalanced_even; try done; lia. }
  rewrite right_inner_inner by (done || lia).
  rewrite balance_even by (done || (cbn [height]; lia)). unfold set_height.
  apply (rebalanced_as (set_height l x (Node h2 a z b)) y rr);
    [|elems_eq|cbn [height set_height]; lia].
  destruct (set_height_ok l x (Node h2 a z b)) as [Hb5 Hh5]; [done|done|cbn [height]; lia|].
  apply rebalanced_mirror. unfold set_height in *. cbn [mirror height] in *.
  apply right_inner_outer.
  - by apply bal_mirror.
  - by apply bal_mirror in Hb5.
  - rewrite height_mirror. lia.
  - rewrite height_mirror. lia.
  - rewrite !height_mirror. lia.
  - apply rebalanced_even; [by apply bal_mirror|by apply bal_mirror|rewrite !height_mirror; lia].
Qed.

Lemma right_heavy_from_left f l x r n :
  (forall l x r, bal l -> bal r -> height l = height r - n -> rebalanced l x r (balance f l x r)) ->
  bal l -> bal r -> height r = height l - n -> rebalanced l x r (balance f l x r).
Proof.
  intros H Hl Hr Hd. apply rebalanced_mirror. apply H; [by apply bal_mirror..|]. rewrite !height_mirror. lia.
Qed.

Lemma balance_two_left f l x r :
  bal l -> bal r -> height r = height l - 2 -> rebalanced l x r (balance (S (S (S f))) l x r).
Proof. apply right_heavy_from_left. intros. by apply balance_two_right. Qed.

(** Any difference: fuel one above it is enough. *)
Lemma balance_right n f l x r :
  bal l -> bal r -> 0 <= height r - height l <= Z.of_nat n -> (n < f)%nat ->
  rebalanced l x r (balance f l x r).
Proof.
  revert f l x r. induction n as [|n IH]; intros f l x r Hl Hr Hd Hf.
  { destruct f; [lia|]. apply rebalanced_even; try done; lia. }
  destruct (decide (height r - height l <= 1)) as [H1|H1].
  { destruct f; [lia|]. apply rebalanced_even; try done; lia. }
  do 3 (destruct f; [lia|]).
  destruct (decide (height r - height l = 2)) as [H2|H2]; [apply balance_two_right; try done; lia|].
  pose proof (bal_nonneg l Hl).
  destruct (right_shape r Hr) as (h & rl & y & rr & -> & Hc); [lia|]. cbn [height] in *.
  pose proof Hr as Hr'. cbn [bal] in Hr'.
  destruct Hr' as (Hrl & Hrr & Hdr & Hh). pose proof (bal_nonneg rr Hrr).
  destruct Hc as [Hc|(h2 & a & z & b & -> & Hlt & Hh2)].
  { apply right_outer; try done; [lia|]. apply IH; try done; lia. }
  cbn [height] in *.
  pose proof Hrl as Hrl'. cbn [bal] in Hrl'. destruct Hrl' as (Ha & Hb & Hdab & _).
  destruct (Z.le_gt_cases (height b) (height a)) as [Hab|Hab].
  { apply right_inner_outer; try done; [lia|]. apply IH; try done; lia. }
  rewrite right_inner_inner by (done || lia).
  destruct (IH (S (S f)) l x (Node h2 a z b)) as (s & -> & Hbs & Hes & Hhs);
    [done|done|cbn [height]; lia|lia|]. cbn [height] in Hhs.
  destruct (decide (height s - height rr <= 1)).
  - apply (rebalanced_finish (S f) _ _ _ (Some s) _ _ s);
      [done|done|lia|rewrite Hes; elems_eq|cbn [height]; lia|done].
  - destruct f as [|f]; [lia|].
    apply (rebalanced_as s y rr); [|rewrite Hes; elems_eq|cbn [height]; lia].
    apply balance_two_left; try done; lia.
Qed.

Lemma balance_any f l x r :
  bal l -> bal r -> Z.abs (height l - height r) < Z.of_nat f -> rebalanced l x r (balance f l x r).
Proof.
  intros Hl Hr Hf. destruct (Z.le_ge_cases (height l) (height r)).
  - apply (balance_right (f - 1)); try done; lia.
  - apply rebalanced_mirror. apply (balance_right (f - 1)); [by apply bal_mirror..| |lia].
    rewrite !height_mirror. lia.
Qed.

Lemma height_size t : bal t -> height t <= Z.of_nat (size t).
Proof.
  induction t as [|h l IHl x r IHr]; simpl; [lia|].
  intros (Hl & Hr & _ & Hh). specialize (IHl Hl). specialize (IHr Hr). lia.
Qed.

Lemma TREE_BALANCE_ok l x r : bal l -> bal r -> rebalanced l x r (TREE_BALANCE l x r).
Proof.
  intros Hl Hr. apply balance_any; try done. unfold enough.
  pose proof (height_size l Hl). pose proof (height_size r Hr).
  pose proof (bal_nonneg l Hl). pose proof (bal_nonneg r Hr). lia.
Qed.

Lemma TREE_MOVE_RIGHT_ok t rhs :
  bal t -> bal rhs ->
  exists t', TREE_MOVE_RIGHT t rhs = Some t' /\ bal t' /\ elems t' = elems t ++ elems rhs.
Proof.
  induction t as [|h l IHl x r IHr]; intros Ht Hrhs; [by exists rhs|].
  destruct Ht as (Hl & Hr & _ & _). destruct (IHr Hr Hrhs) as (r' & Er & Hr' & Ee).
  destruct (TREE_BALANCE_ok l x r' Hl Hr') as (t' & Et & Hb & He & _).
  exists t'. simpl. rewrite Er, Et, He, Ee. split_and!; [done|done|]. by rewrite <- app_assoc.
Qed.

(** * Depth *)

(** The longest path, which bounds the recursion of every operation. *)
Fixpoint depth t : Z :=
  match t with Leaf => 0 | Node _ l _ r => Z.max (depth l) (depth r) + 1 end.

Lemma depth_height t : bal t -> depth t <= height t + 1.
Proof.
  induction t as [|h l IHl x r IHr]; simpl; [lia|].
  intros (Hl & Hr & _ & Hh). specialize (IHl Hl). specialize (IHr Hr).
  destruct Hh as [->|(-> & -> & ->)]; simpl; lia.
Qed.

Lemma height_log t : bal t -> 2 ^ height t <= (Z.of_nat (size t) + 1) ^ 2.
Proof.
  induction t as [|h l IHl x r IHr]; [done|].
  intros (Hl & Hr & Hd & Hh). specialize (IHl Hl). specialize (IHr Hr).
  pose proof (bal_nonneg l Hl). pose proof (bal_nonneg r Hr). cbn [height size].
  set (a := Z.of_nat (size l) + 1) in *. set (b := Z.of_nat (size r) + 1) in *.
  replace (Z.of_nat (S (size l + size r)) + 1) with (a + b) by lia.
  assert (0 < a) by lia. assert (0 < b) by lia.
  destruct Hh as [->|(-> & _)]; [|change (2 ^ 0) with 1; nia].
  set (m := Z.min (height l) (height r)).
  assert (Hm : 0 <= m) by lia.
  assert (Hp : 2 ^ (Z.max (height l) (height r) + 1) <= 4 * 2 ^ m).
  { change 4 with (2 ^ 2). rewrite <- Z.pow_add_r by lia. apply Z.pow_le_mono_r; lia. }
  assert (Ha : 2 ^ m <= a ^ 2) by (etrans; [apply Z.pow_le_mono_r|exact IHl]; lia).
  assert (Hb : 2 ^ m <= b ^ 2) by (etrans; [apply Z.pow_le_mono_r|exact IHr]; lia).
  assert (Hs : 4 * Z.min (a ^ 2) (b ^ 2) <= (a + b) ^ 2) by (destruct (Z.le_ge_cases a b); nia).
  lia.
Qed.

Lemma size_elems t : size t = length (elems t).
Proof. induction t as [|h l IHl x r IHr]; simpl; [done|]. rewrite length_app. simpl. lia. Qed.

(** Writing to the nodes keeps the shape. *)
Lemma alter_found_shape compare f t elm :
  height (alter_found compare f t elm) = height t /\ (bal t -> bal (alter_found compare f t elm)) /\
  (alter_found compare f t elm = Leaf <-> t = Leaf).
Proof.
  induction t as [|h l (Hl & Bl & El) x r (Hr & Br & Er)]; simpl; [done|].
  destruct (_ =? _); [|destruct (_ <? _)]; simpl; rewrite ?Hl, ?Hr, ?El, ?Er; intuition (congruence || lia).
Qed.
Lemma apply_all_shape f t :
  height (apply_all f t) = height t /\ (bal t -> bal (apply_all f t)) /\
  (apply_all f t = Leaf <-> t = Leaf) /\ elems (apply_all f t) = map f (elems t).
Proof.
  induction t as [|h l (Hl & Bl & El & Ml) x r (Hr & Br & Er & Mr)]; simpl; [done|].
  rewrite ?Hl, ?Hr, ?El, ?Er, ?Ml, ?Mr, map_app. intuition (congruence || lia).
Qed.

(** * The tree as an ordered table *)

(** The table the tree implements: a strictly increasing list. *)
Section Table.
Context (compare : A -> A -> Z).

Fixpoint list_insert (elm : A) (xs : list A) : list A :=
  match xs with
  | [] => [elm]
  | x :: xs' => if compare elm x <? 0 then elm :: xs else x :: list_insert elm xs'
  end.
Fixpoint list_find (elm : A) (xs : list A) : option A :=
  match xs with
  | [] => None
  | x :: xs' => if compare elm x =? 0 then Some x else list_find elm xs'
  end.
Fixpoint list_remove (elm : A) (xs : list A) : list A :=
  match xs with
  | [] => []
  | x :: xs' => if compare elm x =? 0 then xs' else x :: list_remove elm xs'
  end.

(** What the comparison must satisfy, as [strcmp] on the keys does. *)
Class Comparison : Prop := {
  compare_sym x y : Z.sgn (compare x y) = - Z.sgn (compare y x);
  compare_trans x y z : compare x y <= 0 -> compare y z < 0 -> compare x z < 0;
  compare_trans' x y z : compare x y < 0 -> compare y z <= 0 -> compare x z < 0
}.

Context `{Comparison}.

Definition before (x y : A) : Prop := compare x y < 0.
Definition increasing (xs : list A) : Prop := StronglySorted before xs.

Lemma compare_neg x y : compare x y < 0 <-> 0 < compare y x.
Proof. pose proof (compare_sym x y). lia. Qed.
Lemma compare_nonneg x y : 0 <= compare x y <-> compare y x <= 0.
Proof. pose proof (compare_sym x y). lia. Qed.

Lemma increasing_node L x R :
  increasing (L ++ x :: R) ->
  increasing L /\ increasing R /\ Forall (fun y => before y x) L /\ Forall (before x) R.
Proof.
  unfold increasing. rewrite StronglySorted_app, StronglySorted_cons. intros (Hc & HL & HxR & HR).
  split_and!; try done. apply Forall_forall. intros y Hy. apply Hc; set_solver.
Qed.

Lemma left_smaller elm x L :
  Forall (fun y => before y x) L -> 0 <= compare elm x -> Forall (fun y => 0 < compare elm y) L.
Proof.
  intros HL Hx. eapply Forall_impl; [exact HL|]. intros y Hy. apply compare_neg.
  eapply compare_trans'; [exact Hy|]. by apply compare_nonneg.
Qed.
Lemma right_larger elm x R :
  Forall (before x) R -> compare elm x < 0 -> Forall (fun y => compare elm y < 0) (x :: R).
Proof.
  intros HR Hx. constructor; [done|]. eapply Forall_impl; [exact HR|]. intros y Hy.
  eapply compare_trans; [|exact Hy]. lia.
Qed.

Lemma list_skip elm L ys :
  Forall (fun y => 0 < compare elm y) L ->
  list_insert elm (L ++ ys) = L ++ list_insert elm ys /\
  list_find elm (L ++ ys) = list_find elm ys /\
  list_remove elm (L ++ ys) = L ++ list_remove elm ys.
Proof.
  induction 1 as [|y L Hy HL (IH1 & IH2 & IH3)]; simpl; [done|].
  rewrite (proj2 (Z.ltb_ge _ 0)), (proj2 (Z.eqb_neq _ 0)), IH1, IH2, IH3 by lia. done.
Qed.

Lemma list_stop elm L ys :
  Forall (fun y => compare elm y < 0) ys ->
  list_insert elm (L ++ ys) = list_insert elm L ++ ys /\
  list_find elm (L ++ ys) = list_find elm L /\
  list_remove elm (L ++ ys) = list_remove elm L ++ ys.
Proof.
  intros Hys. induction L as [|x L (IH1 & IH2 & IH3)]; simpl.
  - induction Hys as [|y ys Hy Hys (IH1 & IH2 & IH3)]; simpl; [done|].
    rewrite (proj2 (Z.ltb_lt _ 0)), (proj2 (Z.eqb_neq _ 0)), IH2, IH3 by lia. done.
  - rewrite IH1, IH2, IH3. by destruct (_ <? _), (_ =? _).
Qed.

Lemma TREE_FIND_ok t elm :
  increasing (elems t) -> TREE_FIND compare t elm = list_find elm (elems t).
Proof.
  induction t as [|h l IHl x r IHr]; simpl; [done|]. intros Hs.
  destruct (increasing_node _ _ _ Hs) as (Hl & Hr & HL & HR).
  destruct (Z.eqb_spec (compare elm x) 0) as [E|E].
  { destruct (list_skip elm (elems l) (x :: elems r)) as (_ & -> & _);
      [apply (left_smaller elm x); [done|lia]|]. simpl. by rewrite E. }
  destruct (Z.ltb_spec (compare elm x) 0) as [E'|E'].
  - destruct (list_stop elm (elems l) (x :: elems r)) as (_ & -> & _); [by apply right_larger|]. auto.
  - destruct (list_skip elm (elems l) (x :: elems r)) as (_ & -> & _);
      [by apply (left_smaller elm x)|]. simpl. rewrite (proj2 (Z.eqb_neq _ 0)) by lia. auto.
Qed.

Fixpoint list_alter (f : A -> A) (elm : A) (xs : list A) : list A :=
  match xs with
  | [] => []
  | x :: xs' => if compare elm x =? 0 then f x :: xs' else x :: list_alter f elm xs'
  end.

Lemma list_alter_skip f elm L ys :
  Forall (fun y => 0 < compare elm y) L -> list_alter f elm (L ++ ys) = L ++ list_alter f elm ys.
Proof.
  induction 1 as [|y L Hy HL IH]; simpl; [done|]. rewrite (proj2 (Z.eqb_neq _ 0)), IH by lia. done.
Qed.
Lemma list_alter_stop f elm L ys :
  Forall (fun y => compare elm y < 0) ys -> list_alter f elm (L ++ ys) = list_alter f elm L ++ ys.
Proof.
  intros Hys. induction L as [|x L IH]; simpl; [|rewrite IH; by destruct (_ =? _)].
  induction Hys as [|y ys Hy Hys IH]; simpl; [done|].
  rewrite (proj2 (Z.eqb_neq _ 0)), IH by lia. done.
Qed.

Lemma alter_found_ok f t elm :
  increasing (elems t) -> elems (alter_found compare f t elm) = list_alter f elm (elems t).
Proof.
  induction t as [|h l IHl x r IHr]; simpl; [done|]. intros Hs.
  destruct (increasing_node _ _ _ Hs) as (Hl & Hr & HL & HR).
  destruct (Z.eqb_spec (compare elm x) 0) as [E|E].
  { rewrite list_alter_skip by (apply (left_smaller elm x); [done|lia]). simpl. by rewrite E. }
  destruct (Z.ltb_spec (compare elm x) 0) as [E'|E']; cbn [elems].
  - rewrite list_alter_stop by (by apply right_larger). by rewrite IHl.
  - rewrite list_alter_skip by (by apply (left_smaller elm x)). simpl.
    rewrite (proj2 (Z.eqb_neq _ 0)) by lia. by rewrite IHr.
Qed.

Lemma TREE_INSERT_ok t elm :
  bal t -> increasing (elems t) ->
  exists t', TREE_INSERT compare t elm = Some t' /\ bal t' /\ elems t' = list_insert elm (elems t).
Proof.
  induction t as [|h l IHl x r IHr]; intros Hb Hs.
  { exists (Node 0 Leaf elm Leaf). simpl. split_and!; auto; lia. }
  destruct Hb as (Hl & Hr & _ & _). cbn [elems TREE_INSERT] in *.
  destruct (increasing_node _ _ _ Hs) as (HsL & HsR & HL & HR).
  destruct (Z.ltb_spec (compare elm x) 0) as [E|E].
  - destruct (IHl Hl HsL) as (l' & -> & Hl' & El').
    destruct (TREE_BALANCE_ok l' x r Hl' Hr) as (t' & -> & Hb & He & _). exists t'.
    destruct (list_stop elm (elems l) (x :: elems r)) as (-> & _ & _); [by apply right_larger|].
    by rewrite He, El'.
  - destruct (IHr Hr HsR) as (r' & -> & Hr' & Er').
    destruct (TREE_BALANCE_ok l x r' Hl Hr') as (t' & -> & Hb & He & _). exists t'.
    destruct (list_skip elm (elems l) (x :: elems r)) as (-> & _ & _); [by apply (left_smaller elm x)|].
    simpl. rewrite (proj2 (Z.ltb_ge _ 0)) by lia. by rewrite He, Er'.
Qed.

Lemma TREE_REMOVE_ok t elm :
  bal t -> increasing (elems t) ->
  exists t', TREE_REMOVE compare t elm = Some t' /\ bal t' /\ elems t' = list_remove elm (elems t).
Proof.
  induction t as [|h l IHl x r IHr]; intros Hb Hs; [by exists Leaf|].
  destruct Hb as (Hl & Hr & _ & _). cbn [elems TREE_REMOVE] in *.
  destruct (increasing_node _ _ _ Hs) as (HsL & HsR & HL & HR).
  destruct (Z.eqb_spec (compare elm x) 0) as [E|E].
  { destruct (TREE_MOVE_RIGHT_ok l r Hl Hr) as (t' & -> & Hb & He). exists t'.
    destruct (list_skip elm (elems l) (x :: elems r)) as (_ & _ & ->);
      [apply (left_smaller elm x); [done|lia]|]. simpl. by rewrite E. }
  destruct (Z.ltb_spec (compare elm x) 0) as [E'|E'].
  - destruct (IHl Hl HsL) as (l' & -> & Hl' & El').
    destruct (TREE_BALANCE_ok l' x r Hl' Hr) as (t' & -> & Hb & He & _). exists t'.
    destruct (list_stop elm (elems l) (x :: elems r)) as (_ & _ & ->); [by apply right_larger|].
    by rewrite He, El'.
  - destruct (IHr Hr HsR) as (r' & -> & Hr' & Er').
    destruct (TREE_BALANCE_ok l x r' Hl Hr') as (t' & -> & Hb & He & _). exists t'.
    destruct (list_skip elm (elems l) (x :: elems r)) as (_ & _ & ->); [by apply (left_smaller elm x)|].
    simpl. rewrite (proj2 (Z.eqb_neq _ 0)) by lia. by rewrite He, Er'.
Qed.

(** The two updates, as the callers perform them: a new key is inserted only when
    the search does not find it. *)
Inductive update := Add (elm : A) | Remove (elm : A).

Definition tree_step (t : option (tree A)) (u : update) : option (tree A) :=
  match t, u with
  | Some t, Add elm =>
      match TREE_FIND compare t elm with Some _ => Some t | None => TREE_INSERT compare t elm end
  | Some t, Remove elm => TREE_REMOVE compare t elm
  | None, _ => None
  end.
Definition table_step (xs : list A) (u : update) : list A :=
  match u with
  | Add elm => match list_find elm xs with Some _ => xs | None => list_insert elm xs end
  | Remove elm => list_remove elm xs
  end.

Lemma list_insert_increasing elm xs :
  increasing xs -> list_find elm xs = None -> increasing (list_insert elm xs).
Proof.
  unfold increasing. induction xs as [|x xs IH]; simpl; [repeat constructor|].
  rewrite StronglySorted_cons. intros [Hx Hs]. destruct (Z.eqb_spec (compare elm x) 0) as [E|E]; [done|].
  intros Hf. destruct (Z.ltb_spec (compare elm x) 0) as [E'|E'].
  - rewrite !StronglySorted_cons. split_and!; [|done|done]. by apply right_larger.
  - rewrite StronglySorted_cons. split; [|auto].
    assert (Hxe : before x elm) by (apply compare_neg; lia). clear IH Hs Hf E E'.
    induction Hx as [|y xs Hy Hxs IH]; simpl; [by repeat constructor|].
    destruct (_ <? _); repeat constructor; done.
Qed.

Lemma list_remove_elem y elm xs : y ∈ list_remove elm xs -> y ∈ xs.
Proof. induction xs as [|x xs IH]; simpl; [done|]. destruct (_ =? _); set_solver. Qed.

Lemma list_remove_increasing elm xs : increasing xs -> increasing (list_remove elm xs).
Proof.
  unfold increasing. induction xs as [|x xs IH]; simpl; [done|].
  rewrite StronglySorted_cons. intros [Hx Hs]. destruct (_ =? _); [done|].
  rewrite StronglySorted_cons. split; [|auto]. rewrite Forall_forall in *. intros y Hy.
  apply Hx. by eapply list_remove_elem.
Qed.

(** What the tree promises after any updates. *)
Definition implements (t : option (tree A)) (xs : list A) : Prop :=
  exists t', t = Some t' /\ bal t' /\ elems t' = xs /\ increasing xs.

Lemma tree_step_implements (o : option (tree A)) xs u :
  implements o xs -> implements (tree_step o u) (table_step xs u).
Proof.
  intros (t' & -> & Hb & He & Hs). subst xs. destruct u as [elm|elm]; simpl.
  - rewrite TREE_FIND_ok by done. destruct (list_find elm (elems t')) eqn:Ef.
    + by exists t'.
    + destruct (TREE_INSERT_ok t' elm Hb Hs) as (t2 & -> & Hb2 & He2). exists t2.
      split_and!; try done. by apply list_insert_increasing.
  - destruct (TREE_REMOVE_ok t' elm Hb Hs) as (t2 & -> & Hb2 & He2). exists t2.
    split_and!; try done. by apply list_remove_increasing.
Qed.

Lemma updates_implement us (o : option (tree A)) xs :
  implements o xs -> implements (fold_left tree_step us o) (fold_left table_step us xs).
Proof. revert o xs. induction us as [|u us IH]; intros o xs H1; simpl; auto using tree_step_implements. Qed.

Lemma updates_from_empty us : implements (fold_left tree_step us (Some Leaf)) (fold_left table_step us []).
Proof. apply updates_implement. exists Leaf. split_and!; done || constructor. Qed.

(** C2: from the empty tree, any sequence of insertions of absent keys and of
    removals gives a balanced tree: no rotation follows a null pointer and the
    mutually recursive rebalancing terminates. The tree holds what a sorted table
    holds after the same updates, in that order, and its search answers as the
    table's does for every key. *)
Theorem tree_implements_table (us : list update) (key : A) :
  exists t, fold_left tree_step us (Some Leaf) = Some t /\ bal t /\
    elems t = fold_left table_step us [] /\
    TREE_FIND compare t key = list_find key (fold_left table_step us []).
Proof.
  destruct (updates_from_empty us) as (t & Et & Hb & He & Hs).
  exists t. split_and!; try done. rewrite TREE_FIND_ok by (by rewrite He). by rewrite He.
Qed.

(** After any such updates no path of the tree is longer than about twice
    the logarithm of the number of keys it holds. *)
Theorem tree_depth_logarithmic (us : list update) :
  exists t, fold_left tree_step us (Some Leaf) = Some t /\
    2 ^ (depth t - 1) <= (Z.of_nat (length (fold_left table_step us [])) + 1) ^ 2.
Proof.
  destruct (updates_from_empty us) as (t & Et & Hb & He & Hs). exists t. split; [done|].
  rewrite <- He, <- size_elems. etrans; [|by apply height_log].
  apply Z.pow_le_mono_r; [lia|]. pose proof (depth_height t Hb). lia.
Qed.

(** ** Lookups after an update *)

Lemma compare_equal x y z : compare x y = 0 -> Z.sgn (compare x z) = Z.sgn (compare y z).
Proof.
  intros E. pose proof (compare_sym x y) as Hs.
  destruct (Z.lt_trichotomy (compare y z) 0) as [Hz|[Hz|Hz]].
  - pose proof (compare_trans x y z). lia.
  - destruct (Z.lt_trichotomy (compare x z) 0) as [Hx|[Hx|Hx]]; [|lia|].
    + pose proof (compare_trans y x z). lia.
    + pose proof (compare_trans' z x y). pose proof (compare_neg z x). pose proof (compare_neg z y). lia.
  - pose proof (compare_trans' z y x). pose proof (compare_neg z y). pose proof (compare_neg z x). lia.
Qed.

Lemma compare_equal_eqb x y z : compare x y = 0 -> (compare x z =? 0) = (compare y z =? 0).
Proof. intros E. pose proof (compare_equal x y z E). destruct (Z.eqb_spec (compare x z) 0), (Z.eqb_spec (compare y z) 0); lia. Qed.

Lemma compare_apart x y z : compare x y <> 0 -> compare y z = 0 -> compare x z <> 0.
Proof.
  intros Hne E Ex. apply Hne. pose proof (compare_sym x y). pose proof (compare_equal y z x E).
  pose proof (compare_sym z x). lia.
Qed.

Lemma list_find_alter f k elm xs :
  (forall x, compare k (f x) = compare k x) ->
  list_find k (list_alter f elm xs) =
  if compare k elm =? 0 then option_map f (list_find k xs) else list_find k xs.
Proof.
  intros Hf. induction xs as [|x xs IH]; simpl; [by destruct (_ =? _)|].
  destruct (Z.eqb_spec (compare k elm) 0) as [Ek|Ek].
  - rewrite <- (compare_equal_eqb k elm x Ek). destruct (compare k x =? 0) eqn:E; simpl; [|by rewrite E].
    by rewrite Hf, E.
  - destruct (Z.eqb_spec (compare elm x) 0) as [Ee|Ee]; simpl; [|by rewrite IH].
    rewrite Hf, (proj2 (Z.eqb_neq (compare k x) 0)); [done|]. by eapply compare_apart.
Qed.

Lemma list_find_insert k elm xs :
  list_find elm xs = None ->
  list_find k (list_insert elm xs) = if compare k elm =? 0 then Some elm else list_find k xs.
Proof.
  induction xs as [|x xs IH]; simpl; [done|].
  destruct (compare elm x =? 0) eqn:Ee; [done|]. intros Hn.
  destruct (compare elm x <? 0); simpl; [done|]. rewrite IH by done.
  destruct (Z.eqb_spec (compare k elm) 0) as [Ek|Ek]; [|done].
  by rewrite (compare_equal_eqb k elm x Ek), Ee.
Qed.

Lemma list_find_remove k elm xs :
  increasing xs ->
  list_find k (list_remove elm xs) = if compare k elm =? 0 then None else list_find k xs.
Proof.
  unfold increasing. induction xs as [|x xs IH]; simpl; [by destruct (_ =? _)|].
  rewrite StronglySorted_cons. intros [Hx Hs].
  destruct (Z.eqb_spec (compare elm x) 0) as [Ee|Ee]; simpl.
  - destruct (Z.eqb_spec (compare k elm) 0) as [Ek|Ek].
    + assert (Hb : Forall (fun y => compare k y < 0) xs).
      { eapply Forall_impl; [exact Hx|]. intros y Hy. eapply compare_trans; [|exact Hy].
        pose proof (compare_equal k elm x Ek). lia. }
      clear -Hb. induction Hb as [|y ys Hy Hb IHb]; simpl; [done|].
      by rewrite (proj2 (Z.eqb_neq _ 0)) by lia.
    + rewrite (proj2 (Z.eqb_neq (compare k x) 0)); [done|]. by eapply compare_apart.
  - rewrite IH by done. destruct (Z.eqb_spec (compare k elm) 0) as [Ek|Ek]; [|done].
    rewrite (compare_equal_eqb k elm x Ek), (proj2 (Z.eqb_neq _ 0)) by done. done.
Qed.

Lemma list_find_equal elm xs x : list_find elm xs = Some x -> compare elm x = 0 /\ x ∈ xs.
Proof.
  induction xs as [|y xs IH]; simpl; [done|].
  destruct (Z.eqb_spec (compare elm y) 0); [intros [= <-]; set_solver|].
  intros [? ?]%IH. set_solver.
Qed.

Lemma list_alter_increasing f elm xs :
  (forall x y, compare (f x) y = compare x y) -> (forall x y, compare y (f x) = compare y x) ->
  increasing xs -> increasing (list_alter f elm xs).
Proof.
  intros H1 H2. unfold increasing. induction xs as [|x xs IH]; simpl; [done|].
  rewrite StronglySorted_cons. intros [Hx Hs].
  destruct (compare elm x =? 0); rewrite StronglySorted_cons; split; auto.
  - eapply Forall_impl; [exact Hx|]. intros y Hy. unfold before. by rewrite H1.
  - clear IH Hs. induction Hx as [|y xs Hy Hx IH]; simpl; [done|].
    destruct (compare elm y =? 0); constructor; auto. unfold before. by rewrite H2.
Qed.

Lemma map_increasing f xs :
  (forall x y, compare (f x) (f y) = compare x y) -> increasing xs -> increasing (map f xs).
Proof.
  intros Hf. unfold increasing. induction xs as [|x xs IH]; simpl; [done|].
  rewrite !StronglySorted_cons, Forall_map. intros [Hx Hs]. split; [|auto].
  eapply Forall_impl; [exact Hx|]. intros y Hy. unfold compose, before. simpl. by rewrite Hf.
Qed.

(** Replacing an element by one with the same key. *)
Lemma increasing_replace L x y R :
  (forall z, compare z y = compare z x /\ compare y z = compare x z) ->
  increasing (L ++ x :: R) -> increasing (L ++ y :: R).
Proof.
  intros Hy. unfold increasing. rewrite !StronglySorted_app, !StronglySorted_cons.
  intros (Hc & HL & HxR & HR). split_and!; try done.
  - intros a b Ha Hb. apply elem_of_cons in Hb as [->|Hb].
    + unfold before. rewrite (proj1 (Hy a)). apply Hc; set_solver.
    + apply Hc; set_solver.
  - eapply Forall_impl; [exact HxR|]. intros z Hz. unfold before. by rewrite (proj2 (Hy z)).
Qed.

Lemma list_length_updates f elm xs :
  length (list_alter f elm xs) = length xs /\
  length (list_insert elm xs) = S (length xs) /\
  (list_find elm xs <> None -> S (length (list_remove elm xs)) = length xs).
Proof.
  induction xs as [|x xs (H1 & H2 & H3)]; simpl; [done|]. split_and!.
  - destruct (_ =? _); simpl; lia.
  - destruct (_ <? _); simpl; lia.
  - destruct (_ =? _); simpl; [done|]. intros Hn. by rewrite H3.
Qed.

(** [free_all_nodes] of cstats: the root is removed and freed until none is left,
    with [node_count] counted down and then reset. The result is the order in which
    the nodes are freed and the final count. *)
Fixpoint free_nodes (fuel : nat) t (node_count : Z) : option (list A * Z) :=
  match t, fuel with
  | Leaf, _ => Some ([], node_count)
  | Node _ _ _ _, O => None
  | Node _ _ node _, S f =>
      match TREE_REMOVE compare t node with
      | Some t' =>
          match free_nodes f t' (node_count - 1) with
          | Some (freed, n) => Some (node :: freed, n)
          | None => None
          end
      | None => None
      end
  end.
Definition free_all_nodes t (node_count : Z) : option (list A * Z) :=
  match free_nodes (size t) t node_count with Some (freed, _) => Some (freed, 0) | None => None end.

Lemma compare_refl x : compare x x = 0.
Proof. pose proof (compare_sym x x). lia. Qed.

Lemma list_remove_node L x R :
  increasing (L ++ x :: R) -> list_remove x (L ++ x :: R) = L ++ R.
Proof.
  intros Hs. destruct (increasing_node _ _ _ Hs) as (_ & _ & HL & _). pose proof (compare_refl x).
  destruct (list_skip x L (x :: R)) as (_ & _ & ->); [apply (left_smaller x x); [done|lia]|].
  simpl. by rewrite (proj2 (Z.eqb_eq _ 0)).
Qed.

Lemma free_nodes_frees t count :
  bal t -> increasing (elems t) ->
  exists freed, free_nodes (size t) t count = Some (freed, count - Z.of_nat (size t)) /\ freed ≡ₚ elems t.
Proof.
  remember (size t) as n eqn:En. revert t count En. induction n as [|n IH]; intros t count En Hb Hs.
  { destruct t; [|done]. exists []. simpl. by rewrite Z.sub_0_r. }
  destruct t as [|h l x r]; [done|]. cbn [free_nodes].
  destruct (TREE_REMOVE_ok (Node h l x r) x Hb Hs) as (t' & -> & Hb' & He').
  cbn [elems] in *. rewrite list_remove_node in He' by done.
  destruct (IH t' (count - 1)) as (freed & -> & Hf).
  - rewrite size_elems, He', length_app. simpl in En. rewrite !size_elems in En. lia.
  - done.
  - rewrite He'. rewrite <- (list_remove_node _ x) by done. by apply list_remove_increasing.
  - exists (x :: freed). split; [do 2 f_equal; lia|]. rewrite Hf, He'. by rewrite Permutation_middle.
Qed.

(** Every node is freed exactly once, and the count ends at zero. *)
Lemma free_all_nodes_frees t count :
  bal t -> increasing (elems t) ->
  exists freed, free_all_nodes t count = Some (freed, 0) /\ freed ≡ₚ elems t.
Proof.
  intros Hb Hs. destruct (free_nodes_frees t count Hb Hs) as (freed & E & Hf).
  exists freed. unfold free_all_nodes. by rewrite E.
Qed.

End Table.

End Ops.

(** A comparison of integers. *)
#[export] Instance sub_comparison : Comparison Z.sub.
Proof. split; lia. Qed.

Definition some_updates : list (update (A := Z)) :=
  [Add 5; Add 3; Add 8; Add 3; Add 1; Remove 5; Add 4; Add 2; Remove 9].

Lemma tree_implements_table_witness :
  exists t, fold_left (tree_step Z.sub) some_updates (Some Leaf) = Some t /\ bal t /\
    elems t = [1; 2; 3; 4; 8] /\ TREE_FIND Z.sub t 4 = Some 4.
Proof. exact (tree_implements_table Z.sub some_updates 4). Defined.

Lemma tree_depth_logarithmic_witness :
  exists t, fold_left (tree_step Z.sub) some_updates (Some Leaf) = Some t /\ 2 ^ (depth t - 1) <= 36.
Proof. exact (tree_depth_logarithmic Z.sub some_updates). Defined.

End Avl.
