(* ===== verification/Cstats.v ===== *)
(** The per-host traffic daemon (src/tomato64/package/cstats/cstats/cstats.c and
    cstats.h): the hosts and one pass over the accounting tables. CstatsStore.v has
    the files it reads and writes.

    The hosts live in the tree of Avl.v, ordered by address. A write through a node
    pointer is [alter_found]; the result [None] of an operation is a null pointer
    that is followed, or a buffer that is overrun. [malloc] succeeds. The ring of
    dated totals, the speed ring and the rollover rule have the same code as in
    rstats. *)

From Stdlib Require Import ZArith Lia.
From stdpp Require Import base list strings.
From S2P Require Import Prelude Scan Strings Nvram Rstats Avl.

Local Open Scope Z_scope.

Module Cstats.
Import Scan Strings.Strings Nvram.Nvram.
Export Avl.Avl.

Abbreviation counters := Rstats.counters.
Abbreviation data_t := Rstats.data_t.
Abbreviation System := Rstats.System.

(** * Constants and data *)

Definition INTERVAL : Z := 60.
Definition MAX_NSPEED : nat := Z.to_nat (24 * (60 * 60) / INTERVAL).
Definition MAX_NDAILY : nat := 62.
Definition MAX_NMONTHLY : nat := 25.
Definition MAX_ROLLOVER : Z := 3750 * (1024 * 1024).
Definition CURRENT_ID : Z := 0x32305352.
Definition MAX_NODES : Z := 2000.
Definition INET_ADDRSTRLEN : nat := 16.

(** [Node]; the links are those of the tree. *)
Record Node := mk_Node {
  ipaddr : cstr;
  id : Z;
  daily : list data_t; dailyp : nat;
  monthly : list data_t; monthlyp : nat;
  utime : Z;
  speed : list counters;
  last : counters;
  tail : nat;
  sync : Z }.

(** A node as [Node_new] leaves it, and as a search key. *)
Definition zero_Node (ip : cstr) : Node :=
  mk_Node (take INET_ADDRSTRLEN ip) CURRENT_ID
    (repeat Rstats.zero_data MAX_NDAILY) 0 (repeat Rstats.zero_data MAX_NMONTHLY) 0
    0 (repeat Rstats.zero_counters MAX_NSPEED) Rstats.zero_counters 0 0.

Definition set_clock (u s : Z) (nd : Node) : Node :=
  mk_Node (ipaddr nd) (id nd) (daily nd) (dailyp nd) (monthly nd) (monthlyp nd) u
    (speed nd) (last nd) (tail nd) s.

(** [strncmp]: at most [n] characters, up to the terminator. *)
Fixpoint strncmp (n : nat) (a b : cstr) : Z :=
  match n with
  | O => 0
  | S n' =>
      let x := hd 0 a in
      let y := hd 0 b in
      if x =? y then (if x =? 0 then 0 else strncmp n' (tl a) (tl b)) else x - y
  end.

Definition Node_compare (lhs rhs : Node) : Z := strncmp INET_ADDRSTRLEN (ipaddr lhs) (ipaddr rhs).

Record state := mk_state {
  hosts : tree Node;
  node_count : Z;
  save_utime : Z;
  uptime : Z }.

Definition set_hosts (t : tree Node) (st : state) : state :=
  mk_state t (node_count st) (save_utime st) (uptime st).
Definition set_count (n : Z) (st : state) : state :=
  mk_state (hosts st) n (save_utime st) (uptime st).

(** [Node_new]: no node, and the count unchanged, at the limit. *)
Definition Node_new (ip : cstr) (count : Z) : option Node * Z :=
  if MAX_NODES <=? count then (None, count) else (Some (zero_Node ip), count + 1).

(** [TREE_INSERT(&tree, Node_new(ip))]: inserting the null pointer compares it with
    the root, if there is one. *)
Definition insert_new (ip : cstr) (st : state) : option state :=
  let '(nd, count) := Node_new ip (node_count st) in
  let t :=
    match nd with
    | Some nd => TREE_INSERT Node_compare (hosts st) nd
    | None => match hosts st with Leaf => Some Leaf | Avl.Avl.Node _ _ _ _ => None end
    end in
  match t with Some t => Some (set_count count (set_hosts t st)) | None => None end.

(** [TREE_REMOVE], [free] and the count. *)
Definition remove_node (nd : Node) (st : state) : option state :=
  match TREE_REMOVE Node_compare (hosts st) nd with
  | Some t => Some (set_count (node_count st - 1) (set_hosts t st))
  | None => None
  end.

Definition find_host (ip : cstr) (st : state) : option Node :=
  TREE_FIND Node_compare (hosts st) (zero_Node ip).

Section Ops.
Context {nv : Nvram} {sys : System}.

Definition get_stime : Z :=
  let t := nvram_get_int (bytes "cstats_stime") in
  (if t <? 1 then 1 else if 8760 <? t then 8760 else t) * (60 * 60).

(** * One line of an accounting table *)

(** A literal of a [scanf] format: white space matches any amount of it. *)
Fixpoint match_lit (fmt s : cstr) : option cstr :=
  match fmt with
  | [] => Some s
  | c :: fmt' =>
      if isspace c then match_lit fmt' (skip_while isspace s)
      else match s with
           | x :: s' => if x =? c then match_lit fmt' s' else None
           | [] => None
           end
  end.

(** The [%s] conversion. *)
Definition scan_word (s : cstr) : option (cstr * cstr) :=
  let s := skip_while isspace s in
  match take_until isspace s with
  | [] => None
  | w => Some (w, drop (length w) s)
  end.

Local Notation "'let?' p := e 'in' r" := (match e with Some p => r | None => None end)
  (at level 10, p pattern, e at level 200, r at level 200, only parsing).

(** The address and the bytes the host sent and received. What follows the third
    conversion cannot change the number of conversions. *)
Definition parse_account (buf : cstr) : option (cstr * Z * Z) :=
  let? s := match_lit (bytes "ip = ") buf in
  let? (ip, s) := scan_word s in
  let? s := match_lit (bytes " bytes_src = ") s in
  let? (rx, s) := scan_u64 s in
  let? s := skip_us 4 s in
  let? s := match_lit (bytes " packets_src = ") s in
  let? s := skip_us 5 s in
  let? s := match_lit (bytes " bytes_dst = ") s in
  let? (tx, s) := scan_u64 s in
  Some (ip, rx, tx).

(** * One host *)

Definition wan_prefix : cstr := bytes "wan".

Definition rollover_diff (c sc : Z) : Z :=
  if c <? sc then
    let diff := u64 (u64 (0xFFFFFFFFFFFFFFFF - sc + 1) + c) in
    let diff := if MAX_ROLLOVER <? diff then 0 else diff in
    if Rstats.check_wanup wan_prefix && (Rstats.check_wanup_time wan_prefix <? INTERVAL + 10)
    then 0 else diff
  else c - sc.

Fixpoint push_speed (j : nat) (v : counters) (ring : list counters) (tail : nat)
  : list counters * nat :=
  match j with
  | O => (ring, tail)
  | S j' =>
      let tail := ((tail + 1) mod MAX_NSPEED)%nat in
      push_speed j' v (<[tail := v]> ring) tail
  end.

(** The node after its clock and counters are updated, and what is added to its
    history, [None] when the sample came too early. *)
Definition update_node (uptime : Z) (c : counters) (nd : Node) : Node * option counters :=
  let with_samples u ring l t :=
    mk_Node (ipaddr nd) (id nd) (daily nd) (dailyp nd) (monthly nd) (monthlyp nd) u ring l t (-1) in
  if negb (sync nd =? 0) then
    (with_samples (utime nd) (speed nd) c (tail nd), Some Rstats.zero_counters)
  else
    let tick := uptime - utime nd in
    let n := s32 (Z.quot tick INTERVAL) in
    if n <? 1 then (with_samples (utime nd) (speed nd) (last nd) (tail nd), None)
    else
      let diff := Rstats.map2 rollover_diff c (last nd) in
      let '(ring, t) := push_speed (Z.to_nat n) (diff.1 / n, diff.2 / n) (speed nd) (tail nd) in
      (with_samples (utime nd + n * INTERVAL) ring c t, Some diff).

Definition month_offset : Z :=
  let n := nvram_get_int (bytes "cstats_offset") in
  if (n <? 1) || (31 <? n) then 1 else n.

(** The same code as in rstats. *)
Definition bump (data : list data_t) (tail max : nat) (xnow : Z) (c : counters) : list data_t * nat :=
  Rstats.bump data tail max xnow c.

Definition bump_node (c : counters) (nd : Node) : Node :=
  let '(d, dp) := bump (daily nd) (dailyp nd) MAX_NDAILY
                    (Rstats.xtime_of (Rstats.localtime Rstats.now) true) c in
  let mon := Rstats.now + (1 - month_offset) * (60 * 60 * 24) in
  let '(m, mp) := bump (monthly nd) (monthlyp nd) MAX_NMONTHLY
                    (Rstats.xtime_of (Rstats.localtime mon) false) c in
  mk_Node (ipaddr nd) (id nd) d dp m mp (utime nd) (speed nd) (last nd) (tail nd) (sync nd).

(** All that a line does to the node it finds. *)
Definition credit_node (uptime : Z) (c : counters) (nd : Node) : Node :=
  let '(nd, credit) := update_node uptime c nd in
  match credit with
  | None => nd
  | Some c => if nvram_get_int (bytes "ntp_ready") =? 0 then nd else bump_node c nd
  end.

Definition listed (word list : cstr) : bool := bool_decide (is_Some (find_word list word)).

(** The body of the loop over the lines. *)
Definition calc_line (exclude include : cstr) (buf : cstr) (st : state) : option state :=
  match parse_account buf with
  | None => Some st
  | Some (ip, rx, tx) =>
      if (INET_ADDRSTRLEN <=? length ip)%nat then None
      else if listed ip exclude then Some st
      else
        let c := (tx, rx) in
        let ptr := find_host ip st in
        let known := bool_decide (is_Some ptr) in
        if (tx <? 1) && (rx <? 1) && negb known then Some st
        else if known || negb (nvram_get_int (bytes "cstats_all") =? 0) || listed ip include then
          let st' :=
            if known then Some st
            else match insert_new ip st with
                 | Some st => Some (set_hosts (alter_found Node_compare (set_clock (uptime st) 1)
                                                 (hosts st) (zero_Node ip)) st)
                 | None => None
                 end in
          match st' with
          | None => None
          | Some st => Some (set_hosts (alter_found Node_compare (credit_node (uptime st) c)
                                          (hosts st) (zero_Node ip)) st)
          end
        else Some st
  end.

Fixpoint calc_lines (exclude include : cstr) (lines : list cstr) (st : state) : option state :=
  match lines with
  | [] => Some st
  | b :: lines' =>
      match calc_line exclude include b st with
      | Some st => calc_lines exclude include lines' st
      | None => None
      end
  end.

(** The tables of the bridges; a table that cannot be opened is skipped. *)
Fixpoint calc_bridges (exclude include : cstr) (tables : list (option (list cstr))) (st : state)
  : option state :=
  match tables with
  | [] => Some st
  | tab :: tables' =>
      match calc_lines exclude include (default [] tab) st with
      | Some st => calc_bridges exclude include tables' st
      | None => None
      end
  end.

(** The pieces [strsep] returns. *)
Fixpoint split_commas (s : cstr) : list cstr :=
  match s with
  | [] => [[]]
  | c :: s' =>
      if c =? chr "," then [] :: split_commas s'
      else match split_commas s' with
           | w :: ws => (c :: w) :: ws
           | [] => [[c]]
           end
  end.

Fixpoint remove_excluded (items : list cstr) (st : state) : option state :=
  match items with
  | [] => Some st
  | b :: items' =>
      match find_host b st with
      | None => remove_excluded items' st
      | Some nd =>
          match remove_node nd st with
          | Some st => remove_excluded items' st
          | None => None
          end
      end
  end.

Definition Node_housekeeping (nd : Node) : Node :=
  set_clock (utime nd) (if sync nd =? -1 then 0 else 1) nd.

(** One pass; the boolean says whether the data is saved, which happens before the
    next time to save is set. *)
Definition calc (tables : list (option (list cstr))) (st : state) : option (state * bool) :=
  let exclude := nvram_safe_get (bytes "cstats_exclude") in
  let include := nvram_safe_get (bytes "cstats_include") in
  match calc_bridges exclude include tables st with
  | None => None
  | Some st =>
      match remove_excluded (split_commas exclude) st with
      | None => None
      | Some st =>
          let st := set_hosts (apply_all Node_housekeeping (hosts st)) st in
          if save_utime st <=? uptime st
          then Some (mk_state (hosts st) (node_count st) (uptime st + get_stime) (uptime st), true)
          else Some (st, false)
      end
  end.

End Ops.

End Cstats.
