(* ===== verification/CstatsSpec.v ===== *)
(** Properties of the per-host traffic daemon modelled in Cstats.v: the order of the
    hosts, the invariant of the host table, what a line of an accounting table does
    to it, and what a whole pass does. *)

From Stdlib Require Import ZArith Lia.
From stdpp Require Import base list sets strings.
From S2P Require Import Prelude Scan Strings Nvram Rstats RstatsHistory RstatsCalc Avl Cstats.

Local Open Scope Z_scope.

Module CstatsSpec.
Import Scan Strings.Strings Nvram.Nvram Cstats.

(** * The order of the hosts *)

Lemma strncmp_sym n a b : Z.sgn (strncmp n a b) = - Z.sgn (strncmp n b a).
Proof.
  revert a b. induction n as [|n IH]; intros a b; [done|]. cbn [strncmp].
  destruct (Z.eqb_spec (hd 0 a) (hd 0 b)) as [E|E], (Z.eqb_spec (hd 0 b) (hd 0 a)) as [E'|E']; try lia.
  rewrite E. destruct (_ =? 0); [done|apply IH].
Qed.

Lemma strncmp_trans n a b c :
  (strncmp n a b <= 0 -> strncmp n b c < 0 -> strncmp n a c < 0) /\
  (strncmp n a b < 0 -> strncmp n b c <= 0 -> strncmp n a c < 0).
Proof.
  revert a b c. induction n as [|n IH]; intros a b c; [cbn; lia|]. cbn [strncmp].
  specialize (IH (tl a) (tl b) (tl c)).
  destruct (Z.eqb_spec (hd 0 a) (hd 0 b)) as [E1|E1], (Z.eqb_spec (hd 0 b) (hd 0 c)) as [E2|E2],
    (Z.eqb_spec (hd 0 a) (hd 0 c)) as [E3|E3]; try lia.
  rewrite E1. destruct (Z.eqb_spec (hd 0 b) 0); [lia|done].
Qed.

#[export] Instance Node_comparison : Comparison Node_compare.
Proof.
  split; intros; unfold Node_compare in *.
  - apply strncmp_sym.
  - by eapply (proj1 (strncmp_trans _ _ _ _)).
  - by eapply (proj2 (strncmp_trans _ _ _ _)).
Qed.

(** * The invariant *)

Record node_wf (nd : Cstats.Node) : Prop := {
  nw_daily : RstatsHistory.ring_wf (daily nd) (dailyp nd) MAX_NDAILY;
  nw_monthly : RstatsHistory.ring_wf (monthly nd) (monthlyp nd) MAX_NMONTHLY;
  nw_speed : length (speed nd) = MAX_NSPEED;
  nw_tail : (tail nd < MAX_NSPEED)%nat }.

Abbreviation hosts_of st := (elems (hosts st)).

Record hosts_wf (st : state) : Prop := {
  hw_bal : bal (hosts st);
  hw_sorted : increasing Node_compare (hosts_of st);
  hw_count : node_count st = Z.of_nat (length (hosts_of st));
  hw_max : node_count st <= MAX_NODES;
  hw_nodes : Forall node_wf (hosts_of st) }.

Lemma zero_Node_wf ip : node_wf (zero_Node ip).
Proof.
  split; cbn [zero_Node daily dailyp monthly monthlyp speed tail].
  - apply (RstatsHistory.ring_wf_zeros MAX_NDAILY). unfold MAX_NDAILY. lia.
  - apply (RstatsHistory.ring_wf_zeros MAX_NMONTHLY). unfold MAX_NMONTHLY. lia.
  - apply repeat_length.
  - by apply Nat.ltb_lt.
Qed.

Lemma find_host_list ip st :
  hosts_wf st -> find_host ip st = list_find Node_compare (zero_Node ip) (hosts_of st).
Proof. intros H. unfold find_host. apply TREE_FIND_ok; [exact _|apply H]. Qed.

(** A change of fields that leaves the address alone. *)
Definition keeps_key (f : Cstats.Node -> Cstats.Node) : Prop := forall nd, ipaddr (f nd) = ipaddr nd.

Lemma keeps_key_compare f x y :
  keeps_key f -> Node_compare (f x) y = Node_compare x y /\ Node_compare y (f x) = Node_compare y x.
Proof. intros Hf. unfold Node_compare. by rewrite Hf. Qed.

Lemma list_alter_Forall (P : Cstats.Node -> Prop) f elm xs :
  (forall x, P x -> P (f x)) -> Forall P xs -> Forall P (list_alter Node_compare f elm xs).
Proof. intros Hf. induction 1; simpl; [done|]. destruct (_ =? _); auto. Qed.

Lemma alter_host_ok f ip st :
  hosts_wf st -> keeps_key f -> (forall nd, node_wf nd -> node_wf (f nd)) ->
  let st' := set_hosts (alter_found Node_compare f (hosts st) (zero_Node ip)) st in
  hosts_wf st' /\
  forall k, find_host k st' =
    if Node_compare (zero_Node k) (zero_Node ip) =? 0
    then option_map f (find_host k st) else find_host k st.
Proof.
  intros Hwf0 Hk Hf st'. pose proof Hwf0 as [Hb Hs Hc Hm Hn].
  pose proof (alter_found_ok Node_compare f (hosts st) (zero_Node ip) Hs) as He.
  assert (Hwf : hosts_wf st').
  { destruct (alter_found_shape Node_compare f (hosts st) (zero_Node ip)) as (_ & Hb' & _).
    unfold st'. split; cbn [hosts node_count set_hosts]; rewrite ?He.
    - auto.
    - apply list_alter_increasing; try done; intros; by apply keeps_key_compare.
    - destruct (list_length_updates Node_compare f (zero_Node ip) (hosts_of st)) as (-> & _). done.
    - done.
    - by apply list_alter_Forall. }
  split; [done|]. intros k. rewrite !find_host_list by done.
  unfold st'. cbn [hosts set_hosts]. rewrite He. apply list_find_alter; [exact _|]. intros. by apply keeps_key_compare.
Qed.

Lemma list_insert_Forall (P : Cstats.Node -> Prop) elm xs :
  P elm -> Forall P xs -> Forall P (list_insert Node_compare elm xs).
Proof. intros He. induction 1; simpl; [auto|]. destruct (_ <? _); auto. Qed.

Lemma insert_new_ok ip st :
  hosts_wf st -> find_host ip st = None -> node_count st < MAX_NODES ->
  exists st', insert_new ip st = Some st' /\ hosts_wf st' /\
    node_count st' = node_count st + 1 /\ uptime st' = uptime st /\ save_utime st' = save_utime st /\
    forall k, find_host k st' =
      if Node_compare (zero_Node k) (zero_Node ip) =? 0 then Some (zero_Node ip) else find_host k st.
Proof.
  intros Hwf Hf Hlt. pose proof Hwf as [Hb Hs Hc Hm Hn]. rewrite find_host_list in Hf by done.
  unfold insert_new, Node_new. rewrite (proj2 (Z.leb_gt _ _)) by lia.
  destruct (TREE_INSERT_ok Node_compare (hosts st) (zero_Node ip) Hb Hs) as (t & -> & Hb' & He).
  eexists. split; [done|].
  assert (Hwf' : hosts_wf (set_count (node_count st + 1) (set_hosts t st))).
  { split; cbn [hosts node_count set_hosts set_count]; rewrite ?He.
    - done.
    - by apply (list_insert_increasing Node_compare _).
    - destruct (list_length_updates Node_compare (fun x => x) (zero_Node ip) (hosts_of st)) as (_ & -> & _). lia.
    - lia.
    - apply list_insert_Forall; [apply zero_Node_wf|done]. }
  split_and!; try done. intros k. rewrite !find_host_list by done. cbn [hosts set_hosts set_count]. rewrite He.
  by apply (list_find_insert Node_compare _).
Qed.


(** * One line *)

Section Line.
Context {nv : Nvram} {sys : System}.

(** The sampling part of a node is an interface of rstats. *)
Definition iface_of (nd : Cstats.Node) : Rstats.speed_t :=
  Rstats.mk_speed (ipaddr nd) (utime nd) (speed nd) (last nd) (tail nd) (sync nd).

Definition with_iface (nd : Cstats.Node) (sp : Rstats.speed_t) : Cstats.Node :=
  mk_Node (ipaddr nd) (id nd) (daily nd) (dailyp nd) (monthly nd) (monthlyp nd)
    (Rstats.utime sp) (Rstats.speed sp) (Rstats.last sp) (Rstats.tail sp) (Rstats.sync sp).

Lemma rollover_diff_same c sc : rollover_diff c sc = Rstats.rollover_diff wan_prefix c sc.
Proof.
  unfold rollover_diff, Rstats.rollover_diff. destruct (c <? sc); [|done].
  change Rstats.MAX_ROLLOVER with MAX_ROLLOVER. change Rstats.INTERVAL with INTERVAL.
  destruct (MAX_ROLLOVER <? _); [|done]. by destruct (_ && _).
Qed.

Lemma update_node_iface up c nd :
  update_node up c nd =
  let '(sp, credit) := Rstats.update_iface false up wan_prefix c (iface_of nd) in
  (with_iface nd sp, credit).
Proof.
  unfold update_node, Rstats.update_iface. cbn [iface_of Rstats.sync Rstats.utime Rstats.last Rstats.speed Rstats.tail Rstats.ifname].
  destruct (sync nd =? 0); [|done]. cbn [negb]. change Rstats.INTERVAL with INTERVAL.
  destruct (s32 _ <? 1); [done|]. unfold Rstats.map2. cbn [fst snd]. rewrite !rollover_diff_same.
  change Rstats.push_speed with push_speed. by destruct (push_speed _ _ _ _).
Qed.

(** Passes of a host that is seen in each: the housekeeping sets [sync] back to 0. *)
Fixpoint host_passes (samples : list (Z * counters)) (nd : Cstats.Node) : Cstats.Node * counters :=
  match samples with
  | [] => (nd, Rstats.zero_counters)
  | (up, c) :: rest =>
      let '(nd, credit) := update_node up c nd in
      let '(nd, total) := host_passes rest (Node_housekeeping nd) in
      (nd, RstatsCalc.cadd (default Rstats.zero_counters credit) total)
  end.

Lemma update_iface_sync up prefix c sp :
  Rstats.sync (Rstats.update_iface false up prefix c sp).1 = -1 /\
  Rstats.ifname (Rstats.update_iface false up prefix c sp).1 = Rstats.ifname sp.
Proof.
  unfold Rstats.update_iface. destruct (negb _); [done|]. destruct (_ <? 1); [done|].
  by destruct (Rstats.push_speed _ _ _ _).
Qed.

Lemma host_passes_iface samples nd :
  host_passes samples nd =
  let '(sp, total) := RstatsCalc.passes wan_prefix samples (iface_of nd) in (with_iface nd sp, total).
Proof.
  revert nd. induction samples as [|[up c] rest IH]; intros nd; cbn [host_passes RstatsCalc.passes].
  - by destruct nd.
  - rewrite update_node_iface. pose proof (update_iface_sync up wan_prefix c (iface_of nd)) as Hs.
    destruct (Rstats.update_iface false up wan_prefix c (iface_of nd)) as [sp cr]. simpl in Hs.
    destruct Hs as [Hs Hn].
    rewrite IH. unfold iface_of, Node_housekeeping, set_clock, with_iface, RstatsCalc.set_sync.
    cbn [ipaddr id daily dailyp monthly monthlyp utime speed last tail sync]. rewrite Hs. cbn [Z.eqb Pos.eqb].
    rewrite <- Hn. by destruct (RstatsCalc.passes _ _ _).
Qed.

Lemma update_node_wf up c nd : node_wf nd -> node_wf (update_node up c nd).1.
Proof.
  intros [H1 H2 H3 H4]. unfold update_node. destruct (negb _); [done|]. destruct (_ <? 1); [done|].
  match goal with |- context [push_speed ?j ?v ?r ?t] =>
    pose proof (RstatsCalc.push_speed_spec j v r t H3 H4) as Hp;
    change Rstats.push_speed with push_speed in Hp; destruct (push_speed j v r t) end.
  destruct Hp as (? & ? & _). by split.
Qed.

Lemma update_node_key up c nd : ipaddr (update_node up c nd).1 = ipaddr nd.
Proof. rewrite update_node_iface. by destruct (Rstats.update_iface _ _ _ _ _). Qed.

Lemma bump_node_key c nd : ipaddr (bump_node c nd) = ipaddr nd.
Proof. unfold bump_node, bump. by destruct (Rstats.bump _ _ _ _ _), (Rstats.bump _ _ _ _ _). Qed.

Lemma credit_node_key up c : keeps_key (credit_node up c).
Proof.
  intros nd. unfold credit_node. pose proof (update_node_key up c nd) as H.
  destruct (update_node up c nd) as [nd' [c'|]]; [|done]. destruct (_ =? 0); [done|].
  by rewrite bump_node_key.
Qed.

Context (Hcal : forall t, RstatsHistory.date_ok (Rstats.localtime t)).

Lemma bump_node_wf c nd : node_wf nd -> node_wf (bump_node c nd).
Proof.
  intros [H1 H2 H3 H4]. unfold bump_node, bump.
  pose proof (RstatsHistory.bump_wf _ _ _ _ c H1 (RstatsHistory.xtime_nonzero _ true (Hcal Rstats.now))) as Hd.
  pose proof (RstatsHistory.bump_wf _ _ _ _ c H2 (RstatsHistory.xtime_nonzero _ false
    (Hcal (Rstats.now + (1 - month_offset) * (60 * 60 * 24))))) as Hm.
  destruct (Rstats.bump (daily nd) _ _ _ _), (Rstats.bump (monthly nd) _ _ _ _). by split.
Qed.

Lemma credit_node_wf up c nd : node_wf nd -> node_wf (credit_node up c nd).
Proof.
  intros Hwf. unfold credit_node. pose proof (update_node_wf up c nd Hwf) as H.
  destruct (update_node up c nd) as [nd' [c'|]]; [|done]. destruct (_ =? 0); [done|].
  by apply bump_node_wf.
Qed.

Lemma set_clock_wf u s0 nd : node_wf nd -> node_wf (set_clock u s0 nd).
Proof. by intros []. Qed.

Lemma find_host_same k ip st :
  hosts_wf st -> Node_compare (zero_Node k) (zero_Node ip) = 0 -> find_host k st = find_host ip st.
Proof.
  intros Hwf E. rewrite !find_host_list by done.
  induction (hosts_of st) as [|x xs IH]; simpl; [done|].
  by rewrite (compare_equal_eqb Node_compare _ _ x E), IH.
Qed.

(** Whether a line makes the daemon keep a host. *)
Definition tracked (include ip : cstr) (rx tx : Z) (st : state) : bool :=
  bool_decide (is_Some (find_host ip st)) ||
  ((1 <=? tx) || (1 <=? rx)) &&
  (negb (nvram_get_int (bytes "cstats_all") =? 0) || listed ip include).

(** The node the line is credited to. *)
Definition base_node (ip : cstr) (st : state) : Cstats.Node :=
  default (set_clock (uptime st) 1 (zero_Node ip)) (find_host ip st).

Lemma credit_known ip c st :
  hosts_wf st ->
  let st' := set_hosts (alter_found Node_compare (credit_node (uptime st) c) (hosts st) (zero_Node ip)) st in
  hosts_wf st' /\ forall k, find_host k st' =
    if Node_compare (zero_Node k) (zero_Node ip) =? 0
    then option_map (credit_node (uptime st) c) (find_host ip st) else find_host k st.
Proof.
  intros Hwf. destruct (alter_host_ok (credit_node (uptime st) c) ip st Hwf) as [H1 H2].
  - apply credit_node_key.
  - apply credit_node_wf.
  - split; [done|]. intros k. rewrite H2. destruct (Z.eqb_spec (Node_compare (zero_Node k) (zero_Node ip)) 0); [|done].
    by rewrite (find_host_same k ip).
Qed.

Lemma compare_self ip : Node_compare (zero_Node ip) (zero_Node ip) = 0.
Proof. apply (compare_refl Node_compare _). Qed.

Lemma calc_line_exact exclude include buf ip rx tx st :
  hosts_wf st -> parse_account buf = Some (ip, rx, tx) -> (length ip < INET_ADDRSTRLEN)%nat ->
  listed ip exclude = false -> is_Some (find_host ip st) \/ node_count st < MAX_NODES ->
  exists st', calc_line exclude include buf st = Some st' /\ hosts_wf st' /\
    uptime st' = uptime st /\ save_utime st' = save_utime st /\
    node_count st <= node_count st' <= node_count st + 1 /\
    forall k, find_host k st' =
      if (Node_compare (zero_Node k) (zero_Node ip) =? 0) && tracked include ip rx tx st
      then Some (credit_node (uptime st) (tx, rx) (base_node ip st)) else find_host k st.
Proof.
  intros Hwf Hp Hlen Hex Hroom. unfold calc_line. rewrite Hp, (proj2 (Nat.leb_gt _ _)), Hex by done.
  unfold tracked, base_node. destruct (find_host ip st) as [nd|] eqn:Ef.
  - rewrite bool_decide_eq_true_2 by done. rewrite andb_false_r. cbn [orb].
    destruct (credit_known ip (tx, rx) st Hwf) as [H1 H2]. eexists. split; [done|].
    split_and!; try done; [cbn; lia|]. intros k. rewrite H2, andb_true_r, Ef. done.
  - rewrite bool_decide_eq_false_2 by (by intros []). rewrite andb_true_r. cbn [orb].
    rewrite !Z.ltb_antisym, <- negb_orb.
    destruct ((1 <=? tx) || (1 <=? rx)); cbn [negb andb].
    2: { eexists. split; [done|]. split_and!; try done; try lia. intros k. by rewrite andb_false_r. }
    destruct (negb _ || listed ip include).
    2: { eexists. split; [done|]. split_and!; try done; try lia. intros k. by rewrite andb_false_r. }
    destruct Hroom as [[? ?]|Hroom]; [done|].
    destruct (insert_new_ok ip st Hwf Ef Hroom) as (st1 & -> & Hwf1 & Hc1 & Hu1 & Hs1 & Hf1).
    destruct (alter_host_ok (set_clock (uptime st1) 1) ip st1 Hwf1) as [Hwf2 Hf2];
      [done|apply set_clock_wf|].
    set (st2 := set_hosts _ st1) in *.
    destruct (credit_known ip (tx, rx) st2 Hwf2) as [H1 H2].
    eexists. split; [done|]. split_and!; try done; [cbn; lia|cbn; lia|].
    intros k. rewrite H2, andb_true_r, !Hf2, !Hf1, compare_self. cbn [Z.eqb default].
    change (uptime st2) with (uptime st1). rewrite Hu1.
    by destruct (Node_compare (zero_Node k) (zero_Node ip) =? 0).
Qed.

(** ** Reading the accounting table *)

(** A line as the kernel prints it (ipt_account, long listing). *)
Definition account_line (ip : cstr) (src dst : Z) (b_src p_src b_dst : list Z) (rest : cstr) : cstr :=
  let fields l := concat (map (fun n => RstatsCalc.field (0%nat, n)) l) in
  bytes "ip = " ++ ip ++ bytes " bytes_src =" ++ fields (src :: b_src) ++ bytes " packets_src =" ++
  fields p_src ++ bytes " bytes_dst =" ++ fields (dst :: b_dst) ++ rest.

Lemma skip_spaces_print n s : skip_while isspace (print_u 10 n ++ s) = print_u 10 n ++ s.
Proof.
  pose proof (print_u_digits n) as Hd. pose proof (print_u_nonempty 10 n) as Hne.
  destruct (print_u 10 n) as [|c d]; [done|]. apply Forall_cons in Hd as [Hc _]. simpl.
  unfold isdigit, isspace in *. destruct (_ || _) eqn:E; [|done].
  repeat (rewrite ?orb_true_iff, ?andb_true_iff, ?Z.leb_le, ?Z.eqb_eq in * ). lia.
Qed.

Lemma skip_fields0 (l : list Z) rest :
  ends_numeral rest ->
  skip_us (length l) (concat (map (fun n => RstatsCalc.field (0%nat, n)) l) ++ rest) = Some rest.
Proof.
  intros Hr. pose proof (RstatsCalc.skip_fields (map (fun n => (0%nat, n)) l) rest Hr) as H.
  by rewrite length_map, map_map in H.
Qed.

(** [skip_us] after the white space of the format was consumed. *)
Lemma skip_fields_trim n (l : list Z) rest :
  ends_numeral rest ->
  skip_us (S (length l)) (print_u 10 n ++ concat (map (fun n => RstatsCalc.field (0%nat, n)) l) ++ rest)
  = Some rest.
Proof.
  intros Hr. cbn [skip_us].
  assert (Hn : ends_numeral (concat (map (fun n => RstatsCalc.field (0%nat, n)) l) ++ rest))
    by (destruct l; [exact Hr|reflexivity]).
  pose proof (skip_u_print [] n _ ltac:(constructor) Hn) as H. cbn [app] in H. rewrite H.
  by apply skip_fields0.
Qed.

Lemma scan_u64_trim n (l : list Z) rest :
  0 <= n < 2 ^ 64 -> ends_numeral rest ->
  scan_u64 (print_u 10 n ++ concat (map (fun n => RstatsCalc.field (0%nat, n)) l) ++ rest) =
  Some (n, concat (map (fun n => RstatsCalc.field (0%nat, n)) l) ++ rest).
Proof.
  intros Hn Hr. apply (scan_u64_print [] n); [constructor|done|]. destruct l; [exact Hr|reflexivity].
Qed.

Lemma scan_word_app w s :
  w <> [] -> Forall (fun c => isspace c = false) w ->
  match s with [] => True | c :: _ => isspace c = true end ->
  scan_word (skip_while isspace (w ++ s)) = Some (w, s).
Proof.
  intros Hne Hw Hs. unfold scan_word.
  assert (Hskip : skip_while isspace (w ++ s) = w ++ s).
  { destruct w as [|c w]; [done|]. apply Forall_cons in Hw as [Hc _]. simpl. by rewrite Hc. }
  rewrite !Hskip, take_until_app by done. destruct w as [|c w]; [done|]. by rewrite drop_app_length.
Qed.

(** The literals of the format against what the kernel prints. *)
Lemma lit_ip s : match_lit (bytes "ip = ") (bytes "ip = " ++ s) = Some (skip_while isspace s).
Proof. reflexivity. Qed.
Lemma lit_src s : match_lit (bytes " bytes_src = ") (bytes " bytes_src =" ++ [32] ++ s) = Some (skip_while isspace s).
Proof. reflexivity. Qed.
Lemma lit_psrc s : match_lit (bytes " packets_src = ") (bytes " packets_src =" ++ [32] ++ s) = Some (skip_while isspace s).
Proof. reflexivity. Qed.
Lemma lit_dst s : match_lit (bytes " bytes_dst = ") (bytes " bytes_dst =" ++ [32] ++ s) = Some (skip_while isspace s).
Proof. reflexivity. Qed.

(** * A whole pass *)
















(** * Theorems *)

(** A line as the kernel's accounting match prints it is read back: the address
    and the total bytes the host sent and received. *)
Theorem account_line_reads (ip : cstr) (src dst p1 : Z) (b_src p_src b_dst : list Z) (rest : cstr) :
  ip <> [] -> Forall (fun c => isspace c = false) ip ->
  0 <= src < 2 ^ 64 -> 0 <= dst < 2 ^ 64 -> length b_src = 4%nat -> length p_src = 4%nat ->
  ends_numeral rest ->
  parse_account (account_line ip src dst b_src (p1 :: p_src) b_dst rest) = Some (ip, src, dst).
Proof.
  intros Hne Hip Hs Hd Hb Hp Hr. unfold account_line, parse_account. cbn [map concat].
  unfold RstatsCalc.field at 1 3 5. cbn [fst snd repeat]. rewrite <- !app_assoc.
  rewrite (lit_ip _). cbv beta iota. rewrite (scan_word_app ip) by done. cbv beta iota.
  rewrite (lit_src _), skip_spaces_print. cbv beta iota. rewrite scan_u64_trim by done. cbv beta iota.
  pose proof (skip_fields0 b_src) as Hsk. rewrite Hb in Hsk. rewrite Hsk by done. cbv beta iota.
  rewrite (lit_psrc _), skip_spaces_print. cbv beta iota.
  pose proof (skip_fields_trim p1 p_src) as Hsk2. rewrite Hp in Hsk2. rewrite Hsk2 by done. cbv beta iota.
  rewrite (lit_dst _), skip_spaces_print. cbv beta iota. by rewrite scan_u64_trim by done.
Qed.

(** A line of an accounting table changes at most the host it names. The host
    is kept when it was kept before, or has traffic and is asked for; it then holds
    the node it had, or a fresh one, credited with the bytes it received and sent.
    Every other host is found as before, and the table stays well formed. *)
Theorem host_line_credited (exclude include buf ip : cstr) (rx tx : Z) (st : state) :
  hosts_wf st -> parse_account buf = Some (ip, rx, tx) -> (length ip < INET_ADDRSTRLEN)%nat ->
  listed ip exclude = false -> is_Some (find_host ip st) \/ node_count st < MAX_NODES ->
  exists st', calc_line exclude include buf st = Some st' /\ hosts_wf st' /\
    forall k, find_host k st' =
      if (Node_compare (zero_Node k) (zero_Node ip) =? 0) && tracked include ip rx tx st
      then Some (credit_node (uptime st) (tx, rx) (base_node ip st)) else find_host k st.
Proof.
  intros H1 H2 H3 H4 H5.
  destruct (calc_line_exact exclude include buf ip rx tx st H1 H2 H3 H4 H5)
    as (st' & E & Hwf & _ & _ & _ & Hf). by exists st'.
Qed.

(** For a host that is seen in every pass, the bytes credited to its history are
    exactly the growth of its kernel counters, whatever the timing of the passes, as
    soon as the last pass comes a full interval after the previous credit. *)
Theorem host_traffic_conserved (samples : list (Z * counters)) (up : Z) (c : counters)
  (nd : Cstats.Node) :
  sync nd = 0 -> RstatsCalc.monotone (last nd) (samples ++ [(up, c)]) ->
  INTERVAL <= up - utime (host_passes samples nd).1 < 2 ^ 31 * INTERVAL ->
  let '(nd', total) := host_passes (samples ++ [(up, c)]) nd in
  total = RstatsCalc.csub c (last nd) /\ last nd' = c /\ ipaddr nd' = ipaddr nd.
Proof.
  intros Hs Hm Hdue. rewrite host_passes_iface in *.
  pose proof (RstatsCalc.passes_total wan_prefix samples up c (iface_of nd) Hs Hm) as Ht.
  destruct (RstatsCalc.passes wan_prefix samples (iface_of nd)) as [sp1 t1]. specialize (Ht Hdue).
  destruct (RstatsCalc.passes wan_prefix (samples ++ [(up, c)]) (iface_of nd)) as [sp2 t2].
  by destruct Ht as [-> H2].
Qed.




(** When the host limit is reached, a line for a new host that is to be kept
    ends the daemon: [Node_new] returns no node and the null pointer is compared
    with the root of the tree. *)
Theorem host_limit_crash (exclude include buf ip : cstr) (rx tx : Z) (st : state) :
  hosts_wf st -> node_count st = MAX_NODES -> parse_account buf = Some (ip, rx, tx) ->
  find_host ip st = None -> listed ip exclude = false -> tracked include ip rx tx st = true ->
  calc_line exclude include buf st = None.
Proof.
  intros [_ _ Hc _ _] Hmax Hp Hf Hex Ht. unfold calc_line. rewrite Hp. destruct (_ <=? _)%nat; [done|].
  rewrite Hex. unfold tracked in Ht. rewrite Hf in *.
  rewrite bool_decide_eq_false_2 in * by (by intros []). cbn [orb negb] in *.
  apply andb_prop in Ht as [Ht1 Ht2]. rewrite !Z.ltb_antisym, <- negb_orb, Ht1, Ht2. cbn [negb andb].
  unfold insert_new, Node_new. rewrite Hmax, Z.leb_refl.
  destruct (hosts st); [|done]. simpl in Hc. unfold MAX_NODES in *. lia.
Qed.

End Line.

(** * A full table *)

Fixpoint insert_all (ips : list cstr) (st : state) : option state :=
  match ips with
  | [] => Some st
  | ip :: ips' => match insert_new ip st with Some st => insert_all ips' st | None => None end
  end.

Lemma insert_all_ok ips st :
  hosts_wf st -> node_count st + Z.of_nat (length ips) <= MAX_NODES ->
  increasing Node_compare (map zero_Node ips) ->
  Forall (fun ip => find_host ip st = None) ips ->
  exists st', insert_all ips st = Some st' /\ hosts_wf st' /\ uptime st' = uptime st /\
    node_count st' = node_count st + Z.of_nat (length ips) /\
    forall k, Forall (fun ip => Node_compare (zero_Node k) (zero_Node ip) <> 0) ips ->
      find_host k st' = find_host k st.
Proof.
  revert st. induction ips as [|ip ips IH]; intros st Hwf Hn Hs Hf; cbn [length map insert_all] in *.
  { exists st. split_and!; try done. lia. }
  apply Forall_cons in Hf as [Hip Hf]. apply Sorted.StronglySorted_inv in Hs as [Hs Hlt].
  rewrite Forall_map in Hlt.
  destruct (insert_new_ok ip st Hwf Hip) as (st1 & -> & Hwf1 & Hc & Hu & _ & Hk); [lia|].
  destruct (IH st1) as (st2 & E & Hwf2 & Hu2 & Hc2 & Hk2); [done|lia|done| |].
  { rewrite Forall_forall in *. intros x Hx. rewrite Hk, Hf by done.
    specialize (Hlt x Hx). unfold compose, before in Hlt.
    apply (compare_neg Node_compare) in Hlt. by rewrite (proj2 (Z.eqb_neq _ 0)) by lia. }
  exists st2. split_and!; try done; [congruence|lia|].
  intros k Hd. apply Forall_cons in Hd as [Hd1 Hd2]. rewrite Hk2, Hk by done.
  by rewrite (proj2 (Z.eqb_neq _ 0)).
Qed.

Definition empty_state : state := mk_state Leaf 0 0 120.

Lemma empty_state_wf : hosts_wf empty_state.
Proof. split; [done|constructor|done|by vm_compute|constructor]. Qed.

Definition demo_ips : list cstr :=
  map (fun k => bytes "10.0." ++ pad_to 4 (print_u 10 (Z.of_nat k))) (seq 0 2000).

Fixpoint increasing_b (l : list Cstats.Node) : bool :=
  match l with
  | x :: (y :: _) as l' => (Node_compare x y <? 0) && increasing_b l'
  | _ => true
  end.

Lemma increasing_b_ok l : increasing_b l = true -> increasing Node_compare l.
Proof.
  intros H. apply Sorted.Sorted_StronglySorted.
  { intros x y z Hx Hy. unfold before in *. eapply (compare_trans Node_compare x y z); [lia|done]. }
  induction l as [|x l IH]; [constructor|]. destruct l as [|y l]; [repeat constructor|].
  apply andb_prop in H as [H1 H2]. constructor; [by apply IH|]. constructor. unfold before. lia.
Qed.

Lemma full_state_exists :
  exists st, hosts_wf st /\ node_count st = MAX_NODES /\ find_host (bytes "10.1.0000") st = None.
Proof.
  destruct (insert_all_ok demo_ips empty_state) as (st & E & Hwf & _ & Hc & Hk).
  - exact empty_state_wf.
  - by vm_compute.
  - apply increasing_b_ok. by vm_compute.
  - by apply Forall_true.
  - exists st. split_and!; [done|by rewrite Hc; vm_compute|]. rewrite Hk; [done|].
    apply Forall_forall. intros ip Hip.
    assert (Hb : forallb (fun ip => negb (Node_compare (zero_Node (bytes "10.1.0000")) (zero_Node ip) =? 0))
                   demo_ips = true) by (by vm_compute).
    rewrite forallb_forall in Hb. apply list_elem_of_In in Hip. specialize (Hb ip Hip).
    by apply negb_true_iff, Z.eqb_neq in Hb.
Qed.

(** * Witnesses *)

Definition demo_nvram : Nvram := {|
  nvram_get k := None;
  nvram_get_int k := if strcmp_eq k (bytes "cstats_all") then 1 else 0 |}.
#[local] Existing Instances demo_nvram RstatsCalc.demo_system.

Lemma demo_calendar t : RstatsHistory.date_ok (Rstats.localtime t).
Proof. unfold RstatsHistory.date_ok. simpl. lia. Qed.

Definition demo_line (ip : cstr) : cstr :=
  account_line ip 7 9 [1; 2; 3; 4] [1; 1; 1; 1; 1] [4; 3; 2; 1] [].

Lemma account_line_reads_witness :
  parse_account (demo_line (bytes "10.1.0000")) = Some (bytes "10.1.0000", 7, 9).
Proof. apply (account_line_reads (bytes "10.1.0000") 7 9 1); try done; by repeat constructor. Defined.

Lemma host_line_credited_witness :
  exists st, calc_line [] [] (demo_line (bytes "10.0.0.2")) empty_state = Some st /\
    find_host (bytes "10.0.0.2") st =
      Some (credit_node 120 (9, 7) (set_clock 120 1 (zero_Node (bytes "10.0.0.2")))).
Proof.
  destruct (host_line_credited demo_calendar [] [] (demo_line (bytes "10.0.0.2")) (bytes "10.0.0.2") 7 9
    empty_state) as (st & E & _ & Hk).
  - exact empty_state_wf.
  - reflexivity.
  - by apply Nat.ltb_lt.
  - reflexivity.
  - right. by vm_compute.
  - exists st. split; [done|]. by rewrite Hk.
Defined.

Definition demo_host : Cstats.Node := set_clock 0 0 (zero_Node (bytes "10.0.0.2")).

Lemma host_traffic_conserved_witness :
  let '(nd, total) := host_passes ([(60, (10, 1)); (90, (12, 1))] ++ [(120, (30, 5))]) demo_host in
  total = (30, 5) /\ last nd = (30, 5) /\ ipaddr nd = bytes "10.0.0.2".
Proof.
  refine (host_traffic_conserved [(60, (10, 1)); (90, (12, 1))] 120 (30, 5) demo_host _ _ _);
    [reflexivity|by vm_compute|by vm_compute].
Defined.


Lemma host_limit_crash_witness :
  exists st, hosts_wf st /\ node_count st = 2000 /\
    calc_line [] [] (demo_line (bytes "10.1.0000")) st = None.
Proof.
  destruct full_state_exists as (st & Hwf & Hc & Hf). exists st. split_and!; [done|done|].
  apply (host_limit_crash [] [] (demo_line (bytes "10.1.0000")) (bytes "10.1.0000") 7 9);
    try done. unfold tracked. by rewrite Hf.
Defined.

End CstatsSpec.
