(* ===== verification/CstatsStore.v ===== *)
(** The files of the per-host traffic daemon
    (src/tomato64/package/cstats/cstats/cstats.c): the JavaScript it publishes, how it
    saves the hosts and how it loads them again.

    The file system, [rename], [cp] and the names of the backups are those of
    RstatsStore.v, whose code is the same. The compressed file of records is the class
    [NodeArchive]; it can end cleanly or in the middle of a record. The daemon is
    built with zlib. The writes below /var, a RAM disk that can be full, may fail or be cut
    short as in RstatsStore.v. *)

From Stdlib Require Import ZArith Lia.
From stdpp Require Import base list sets strings gmap.
From S2P Require Import Prelude Scan Strings Nvram Rstats RstatsHistory RstatsStore Avl Cstats CstatsSpec.

Local Open Scope Z_scope.

Module CstatsStore.
Import Scan Strings.Strings Nvram.Nvram Cstats CstatsSpec.
Import RstatsStore(files, rename, copy, rotate, bak, stem, rename_ok, HI_BACK, dot_gz,
  attempt, idle, cp_ok, bak_ok, mv_ok, tm_yday, term, hex2,
  written, Whole, Nothing, Part, put, put_lookup).

(** * The published JavaScript *)

Definition nl : cstr := [10].

Definition speed_empty (nd : Node) : bool :=
  forallb (fun c => (c.1 =? 0) && (c.2 =? 0)) (speed nd).

Definition speedjs_dir (lead c : cstr) (ring : list Z) (tail : nat) : cstr :=
  let '(s, total, tmax) := Rstats.speedjs_loop ring MAX_NSPEED tail true 0 0 in
  lead ++ bytes "x: [" ++ s ++ bytes "]," ++ nl ++
  bytes " " ++ c ++ bytes "x_avg: " ++ print_u 10 (total / Z.of_nat MAX_NSPEED) ++ bytes "," ++ nl ++
  bytes " " ++ c ++ bytes "x_max: " ++ print_u 10 tmax ++ bytes "," ++ nl ++
  bytes " " ++ c ++ bytes "x_total: " ++ print_u 10 total.

(** The accumulator is the text and the count [kn] of [node_print_mode_t]. *)
Definition Node_print_speedjs (acc : cstr * nat) (self : Node) : cstr * nat :=
  if speed_empty self then acc
  else
    (acc.1 ++ (if (acc.2 =? 0)%nat then [] else bytes " }," ++ nl) ++
     bytes "'" ++ ipaddr self ++ bytes "': {" ++ nl ++
     speedjs_dir (bytes " r") (bytes "r") (map fst (speed self)) (tail self) ++
     speedjs_dir (bytes "," ++ nl ++ bytes " t") (bytes "t") (map snd (speed self)) (tail self),
     S acc.2).

Definition save_speedjs (next : Z) (t : tree Node) : cstr :=
  let '(s, kn) := foldl Node_print_speedjs ([], 0%nat) (elems t) in
  nl ++ bytes "speed_history = {" ++ nl ++ s ++
  (if (kn =? 0)%nat then [] else bytes "}," ++ nl) ++
  bytes "_next: " ++ print_d (if 1 <=? next then next else 1) ++ bytes "};" ++ nl.

Fixpoint datajs_loop (ip : cstr) (data : list data_t) (max k p : nat) (acc : cstr * nat) : cstr * nat :=
  match k with
  | O => acc
  | S k' =>
      let p := ((p + 1) mod max)%nat in
      let d := nth p data Rstats.zero_data in
      if Rstats.xtime d =? 0 then datajs_loop ip data max k' p acc
      else datajs_loop ip data max k' p
             (acc.1 ++ (if (acc.2 =? 0)%nat then [] else bytes ",") ++
              bytes "[0x" ++ print_u 16 (Rstats.xtime d) ++ bytes ",'" ++ ip ++ bytes "'," ++
              print_u 10 ((Rstats.counter d).1 / 1024) ++ bytes "," ++
              print_u 10 ((Rstats.counter d).2 / 1024) ++ bytes "]", S acc.2)
  end.

Definition Node_print_datajs (is_daily : bool) (acc : cstr * nat) (self : Node) : cstr * nat :=
  let '(data, p, max) :=
    if is_daily then (daily self, dailyp self, MAX_NDAILY)
    else (monthly self, monthlyp self, MAX_NMONTHLY) in
  datajs_loop (ipaddr self) data max max p acc.

Definition save_datajs (is_daily : bool) (t : tree Node) : cstr :=
  nl ++ bytes (if is_daily then "daily" else "monthly") ++ bytes "_history = [" ++ nl ++
  (foldl (Node_print_datajs is_daily) ([], 0%nat) (elems t)).1 ++ nl ++ bytes "];" ++ nl.

Definition save_histjs (t : tree Node) : cstr := save_datajs true t ++ save_datajs false t.

(** * Saving *)

(** The file of records. Reading gives the records up to the end or to the first
    incomplete one, whether the end was clean, and whether the file closed without
    an error. *)
Class NodeArchive := {
  pack_nodes : list Node -> list Z;
  unpack_nodes : list Z -> list Node * bool * bool }.

Definition history_fn : cstr := bytes "/var/lib/misc/cstats-history".
Definition source_fn : cstr := bytes "/var/lib/misc/cstats-source".
Definition stime_fn : cstr := bytes "/var/lib/misc/cstats-stime".

Record disk := mk_disk { fs : files; lastbak : Z }.

Section Store.
Context {nv : Nvram} {ar : NodeArchive}.

(** The number of records written, or -1; [kn] of the walk ends as the size of the tree. *)
Definition save_history_from_tree (w : written) (fname : cstr) (t : tree Node) (f : files) : files * Z :=
  (put w (dot_gz fname) (pack_nodes (elems t)) f,
   match w with Whole => Z.of_nat (length (elems t)) | _ => -1 end).

(** How the three local writes of [save] end. *)
Record local := mk_local { w_stime : written; w_history : written; w_source : written }.
Definition all_whole : local := mk_local Whole Whole Whole.

Definition backup (ok : bool) (yday : Z) (p : cstr) (f : files) (lb : Z) : files * Z :=
  if nvram_match (bytes "cstats_bak") (bytes "0") then (f, lb)
  else if lb =? yday then (f, lb)
  else
    let f := rotate p (HI_BACK - 1) f in
    match copy ok p (bak p 1) f with
    | Some f => (f, yday)
    | None => (f, lb)
    end.

Definition try_save (e : attempt) (path : cstr) (f : files) (lb : Z) : files * Z * bool :=
  let tmp := path ++ bytes ".tmp" in
  if negb (idle e) then (f, lb, false)
  else match copy (cp_ok e) (dot_gz history_fn) tmp f with
       | None => (f, lb, false)
       | Some f =>
           let '(f, lb) := backup (bak_ok e) (tm_yday e) path f lb in
           match rename_ok (mv_ok e) tmp path f with
           | None => (f, lb, false)
           | Some f => (f, lb, true)
           end
       end.

Fixpoint save_tries (i : nat) (env : nat -> attempt) (path : cstr) (f : files) (lb : Z) : files * Z :=
  match i with
  | O => (f, lb)
  | S i' =>
      let '(f, lb, done) := try_save (env i) path f lb in
      if done || term (env i) then (f, lb) else save_tries i' env path f lb
  end.

(** The results of the local writes only go to the log. *)
Definition save (quick : bool) (w : local) (env : nat -> attempt) (path : cstr) (st : state) (d : disk) : disk :=
  let f := put (w_stime w) stime_fn (RstatsStore.pack_long (save_utime st)) (fs d) in
  let f := (save_history_from_tree (w_history w) history_fn (hosts st) f).1 in
  let f := put (w_source w) source_fn path f in
  if quick || strcmp_eq path [] then mk_disk f (lastbak d)
  else let '(f, lb) := save_tries 15 env path f (lastbak d) in mk_disk f lb.

(** * Loading *)

(** What is copied from a record; the links and [id] stay those of the new node. *)
Definition load_fields (uptime : Z) (tmp nd : Node) : Node :=
  let future := uptime <? utime tmp in
  mk_Node (ipaddr nd) (id nd) (daily tmp) (dailyp tmp) (monthly tmp) (monthlyp tmp)
    (if future then uptime else utime tmp) (speed tmp) (last tmp) (tail tmp) (if future then 1 else -1).

Definition load_record (exclude : cstr) (tmp : Node) (st : state) : option (state * Z) :=
  if listed (ipaddr tmp) exclude then Some (st, 0)
  else if id tmp =? CURRENT_ID then
    let st1 := match TREE_FIND Node_compare (hosts st) tmp with
               | Some ptr => remove_node ptr st
               | None => Some st
               end in
    match st1 with
    | None => None
    | Some st1 =>
        match insert_new (ipaddr tmp) st1 with
        | None => None
        | Some st2 =>
            match TREE_FIND Node_compare (hosts st2) tmp with
            | None => Some (st2, 0)
            | Some _ =>
                Some (set_hosts (alter_found Node_compare (load_fields (uptime st2) tmp) (hosts st2) tmp) st2, 1)
            end
        end
    end
  else Some (st, 0).

Fixpoint load_records (exclude : cstr) (recs : list Node) (st : state) (n : Z) : option (state * Z) :=
  match recs with
  | [] => Some (st, n)
  | tmp :: recs' =>
      match load_record exclude tmp st with
      | None => None
      | Some (st, k) => load_records exclude recs' st (n + k)
      end
  end.

(** [load_history] and [load_history_to_tree]: the table and the result, -1 for a file
    that cannot be read to its end; what was read before stays. *)
Definition load_history (f : files) (fname : cstr) (st : state) : option (state * Z) :=
  match f !! fname with
  | None => Some (st, -1)
  | Some content =>
      let '(recs, clean, closed) := unpack_nodes content in
      match load_records (nvram_safe_get (bytes "cstats_exclude")) recs st 0 with
      | None => None
      | Some (st, n) => Some (st, if clean && closed then n else -1)
      end
  end.

(** The loop of [try_hardway]: [found |= load_history(fn)]. *)
Fixpoint try_backups (f : files) (fname : cstr) (b : nat) (st : state) (found : Z) : option (state * Z) :=
  match b with
  | O => Some (st, found)
  | S b' =>
      match load_history f (bak fname b) st with
      | None => None
      | Some (st, n) => try_backups f fname b' st (Z.lor found n)
      end
  end.

Definition try_hardway (f : files) (fname : cstr) (st : state) : option (state * Z) :=
  match try_backups f fname HI_BACK st 0 with
  | None => None
  | Some (st, found) =>
      match load_history f fname st with
      | None => None
      | Some (st, n) => Some (st, Z.lor found n)
      end
  end.

Definition unmounted_cifs_dir := RstatsStore.unmounted_cifs_dir.

Definition save_path_of (cstats_path : cstr) (mac : list Z) : cstr :=
  let p := strlcpy (96 - 32) cstats_path in
  if bool_decide (list.last p = Some (chr "/"))
  then p ++ bytes "tomato_cstats_" ++ concat (map hex2 mac) ++ bytes ".gz" else p.

Definition load_save_utime (saved : option Z) (uptime : Z) : Z :=
  let save_utime := default 0 saved in
  let t := uptime + get_stime in
  if (save_utime <? uptime) || (t <? save_utime) then t else save_utime.

Inductive loaded :=
  | Loaded (st : state)      (* read from the path or a backup *)
  | FirstRun (st : state)    (* nothing there yet; save at once *)
  | Terminated (st : state)  (* SIGTERM: the path is cleared *)
  | Crashed
  | StillTrying.

Fixpoint load_loop (fuel : nat) (env : nat -> RstatsStore.round) (path : cstr) (st : state) : loaded :=
  match fuel with
  | O => StillTrying
  | S fuel' =>
      let r := env fuel' in
      let again st := if RstatsStore.r_term r then Terminated st else load_loop fuel' env path st in
      if RstatsStore.r_idle r then
        match load_history (RstatsStore.r_fs r) path st with
        | None => Crashed
        | Some (st, n) =>
            if 0 <=? n then Loaded st
            else
              match try_hardway (RstatsStore.r_fs r) path st with
              | None => Crashed
              | Some (st, n) =>
                  if 0 <=? n then Loaded st
                  else if bool_decide (RstatsStore.r_fs r !! path = None) then
                    match RstatsStore.parent_of path with
                    | Some dir =>
                        if negb (unmounted_cifs_dir (RstatsStore.r_dev r) dir) && RstatsStore.r_writable r dir
                        then FirstRun st else again st
                    | None => again st
                    end
                  else again st
              end
        end
      else again st
  end.

(** [load(0)]: the disk, [save_path] and the table afterwards. *)
Definition load (fuel : nat) (env : nat -> RstatsStore.round) (saved : option Z) (uptime : Z)
  (path : cstr) (st : state) (d : disk) : disk * cstr * loaded :=
  let st := mk_state (hosts st) (node_count st) (load_save_utime saved uptime) uptime in
  if strcmp_eq path [] then (d, path, Loaded st)
  else
    match load_loop fuel env path st with
    | Loaded st => (mk_disk (<[source_fn := path]> (fs d)) (lastbak d), path, Loaded st)
    | FirstRun st => (d, path, FirstRun (mk_state (hosts st) (node_count st) 0 uptime))
    | Terminated st => (d, [], Terminated st)
    | r => (d, path, r)
    end.

(** [load(1)]: the table is emptied and the file removed. *)
Definition load_new_start (uptime : Z) (st : state) (f : files) : option (state * files) :=
  match free_all_nodes Node_compare (hosts st) (node_count st) with
  | Some (_, count) => Some (mk_state Leaf count 0 uptime, delete (dot_gz history_fn) f)
  | None => None
  end.

(** * What saving leaves at the path *)

Lemma cstats_backup_other ok yday p f lb x :
  (forall k, x <> bak p k) -> (backup ok yday p f lb).1 !! x = f !! x.
Proof.
  intros Hx. unfold backup. destruct (nvram_match _ _); [done|]. destruct (_ =? _); [done|].
  destruct (copy _ _ _ _) as [g|] eqn:E'; cbn [fst].
  - rewrite (RstatsStore.copy_lookup _ _ _ _ _ x E'), decide_False by apply Hx.
    by apply RstatsStore.rotate_other.
  - by apply RstatsStore.rotate_other.
Qed.

Lemma try_save_ok e path f lb c :
  idle e = true -> cp_ok e = true -> mv_ok e = true -> f !! dot_gz history_fn = Some c ->
  exists f' lb', try_save e path f lb = (f', lb', true) /\ f' !! path = Some c.
Proof.
  intros Hi Hc Hm Hf. unfold try_save. rewrite Hi, Hc. unfold copy. rewrite Hf. cbn [negb].
  pose proof (cstats_backup_other (bak_ok e) (tm_yday e) path (<[path ++ bytes ".tmp" := c]> f) lb
    (path ++ bytes ".tmp")) as Hb.
  destruct (backup _ _ _ _ _) as [g lb'] eqn:Eb. cbn [fst] in Hb.
  rewrite lookup_insert_eq in Hb.
  assert (Htmp : g !! (path ++ bytes ".tmp") = Some c).
  { apply Hb. intros k E. symmetry in E. revert E. by apply RstatsStore.bak_ne. }
  unfold rename_ok. rewrite Htmp, Hm. eexists _, _. split; [done|].
  rewrite RstatsStore.rename_target, Htmp by apply RstatsStore.tmp_ne. done.
Qed.

Lemma save_stores w env path st d :
  w_history w = Whole -> path <> [] -> idle (env 15%nat) = true -> cp_ok (env 15%nat) = true -> mv_ok (env 15%nat) = true ->
  fs (save false w env path st d) !! path = Some (pack_nodes (hosts_of st)).
Proof.
  intros Hw Hp Hi Hc Hm. unfold save, strcmp_eq. rewrite bool_decide_eq_false_2 by done. cbn [orb].
  change (save_tries 15 env path) with (fun f lb =>
    let '(f, lb, ok) := try_save (env 15%nat) path f lb in
    if ok || term (env 15%nat) then (f, lb) else save_tries 14 env path f lb). cbv beta.
  match goal with |- context [try_save _ _ ?f ?lb] =>
    destruct (try_save_ok (env 15%nat) path f lb (pack_nodes (hosts_of st)) Hi Hc Hm) as (f' & lb' & -> & Hf')
  end.
  - unfold save_history_from_tree. cbn [fst]. by rewrite put_lookup, decide_False, put_lookup, decide_True, Hw by done.
  - done.
Qed.

(** * Loading what was saved *)

(** A record the daemon writes: of the current version, with an address that fits. *)
Record saved_ok (exclude : cstr) (nd : Node) : Prop := {
  so_id : id nd = CURRENT_ID;
  so_addr : (length (ipaddr nd) <= INET_ADDRSTRLEN)%nat;
  so_kept : listed (ipaddr nd) exclude = false }.

(** The host as it is after a restart at [uptime]. *)
Definition restarted (uptime : Z) (nd : Node) : Node :=
  set_clock (Z.min (utime nd) uptime) (if uptime <? utime nd then 1 else -1) nd.

Lemma load_fields_restarted ex up nd :
  saved_ok ex nd -> load_fields up nd (zero_Node (ipaddr nd)) = restarted up nd.
Proof.
  intros [Hid Hlen _]. unfold load_fields, restarted, set_clock, zero_Node. cbn [ipaddr id].
  rewrite take_ge by done. rewrite Hid.
  destruct (Z.ltb_spec up (utime nd)); [rewrite Z.min_r by lia|rewrite Z.min_l by lia]; done.
Qed.

Lemma insert_new_elems ip st st' :
  hosts_wf st -> node_count st < MAX_NODES -> insert_new ip st = Some st' ->
  hosts_of st' = list_insert Node_compare (zero_Node ip) (hosts_of st).
Proof.
  intros [Hb Hs _ _ _] Hc E. unfold insert_new, Node_new in E. rewrite (proj2 (Z.leb_gt _ _)) in E by lia.
  destruct (TREE_INSERT_ok Node_compare (hosts st) (zero_Node ip) Hb Hs) as (t & Et & _ & He).
  rewrite Et in E. by injection E as <-.
Qed.

Lemma load_record_new ex x st :
  hosts_wf st -> saved_ok ex x -> node_wf x -> node_count st < MAX_NODES ->
  Forall (fun y => before Node_compare y x) (hosts_of st) ->
  exists st', load_record ex x st = Some (st', 1) /\ hosts_wf st' /\ uptime st' = uptime st /\
    node_count st' = node_count st + 1 /\ hosts_of st' = hosts_of st ++ [restarted (uptime st) x].
Proof.
  intros Hwf Hso Hx Hc Hlt. pose proof Hwf as [Hb Hs Hcnt Hm Hn].
  pose proof Hso as [Hid Hlen Hk].
  assert (Hkey : ipaddr (zero_Node (ipaddr x)) = ipaddr x) by (cbn; by rewrite take_ge).
  assert (Hcmp : forall y, Node_compare (zero_Node (ipaddr x)) y = Node_compare x y)
    by (intros y; unfold Node_compare; by rewrite Hkey).
  assert (Hbig : Forall (fun y => 0 < Node_compare x y) (hosts_of st)).
  { eapply Forall_impl; [exact Hlt|]. intros y Hy. by apply (compare_neg Node_compare). }
  assert (Hbig' : Forall (fun y => 0 < Node_compare (zero_Node (ipaddr x)) y) (hosts_of st)).
  { eapply Forall_impl; [exact Hbig|]. intros y Hy. by rewrite Hcmp. }
  destruct (list_skip Node_compare x (hosts_of st) [] Hbig) as (_ & Hf1 & _).
  destruct (list_skip Node_compare (zero_Node (ipaddr x)) (hosts_of st) [] Hbig') as (Hi2 & Hf2 & _).
  rewrite app_nil_r in Hf1, Hi2, Hf2. cbn [list_find list_insert] in Hf1, Hi2, Hf2.
  unfold load_record. rewrite Hk, Hid, Z.eqb_refl.
  rewrite (TREE_FIND_ok Node_compare) by done. rewrite Hf1.
  destruct (insert_new_ok (ipaddr x) st Hwf) as (st2 & E2 & Hwf2 & Hc2 & Hu2 & _); [by rewrite find_host_list|done|].
  pose proof (insert_new_elems _ _ _ Hwf Hc E2) as He2. rewrite Hi2 in He2.
  rewrite E2. rewrite (TREE_FIND_ok Node_compare) by apply Hwf2. rewrite He2.
  destruct (list_skip Node_compare x (hosts_of st) [zero_Node (ipaddr x)] Hbig) as (_ & -> & _).
  assert (Hself : Node_compare x (zero_Node (ipaddr x)) = 0).
  { unfold Node_compare. rewrite Hkey. apply (compare_refl Node_compare x). }
  cbn [list_find]. rewrite Hself. cbn [Z.eqb].
  assert (He3 : elems (alter_found Node_compare (load_fields (uptime st2) x) (hosts st2) x) =
                hosts_of st ++ [restarted (uptime st) x]).
  { rewrite (alter_found_ok Node_compare) by apply Hwf2. rewrite He2.
    rewrite (list_alter_skip Node_compare) by done. cbn [list_alter]. rewrite Hself. cbn [Z.eqb].
    rewrite Hu2, (load_fields_restarted ex) by done. done. }
  eexists. split; [done|]. cbn [uptime node_count hosts set_hosts].
  split_and!; [|done|done|done].
  destruct (alter_found_shape Node_compare (load_fields (uptime st2) x) (hosts st2) x) as (_ & Hb3 & _).
  destruct Hwf2 as [Hb2 Hs2 Hcnt2 Hm2 Hn2].
  split; cbn [hosts node_count set_hosts].
  - auto.
  - rewrite (alter_found_ok Node_compare) by done. apply (list_alter_increasing Node_compare); [done|done|done].
  - rewrite Hcnt2, He3, He2, !length_app. done.
  - done.
  - rewrite He3. apply Forall_app. split; [done|]. constructor; [by destruct Hx|constructor].
Qed.

Lemma load_records_all ex recs st n :
  hosts_wf st -> Forall (saved_ok ex) recs -> Forall node_wf recs ->
  node_count st + Z.of_nat (length recs) <= MAX_NODES ->
  increasing Node_compare (hosts_of st ++ recs) ->
  exists st', load_records ex recs st n = Some (st', n + Z.of_nat (length recs)) /\ hosts_wf st' /\
    uptime st' = uptime st /\ hosts_of st' = hosts_of st ++ map (restarted (uptime st)) recs.
Proof.
  revert st n. induction recs as [|x recs IH]; intros st n Hwf Hso Hnw Hc Hi; cbn [length load_records] in *.
  { exists st. split_and!; try done; [do 2 f_equal; lia|by rewrite app_nil_r]. }
  apply Forall_cons in Hso as [Hx Hso]. apply Forall_cons in Hnw as [Hxw Hnw].
  destruct (increasing_node Node_compare _ _ _ Hi) as (_ & _ & Hlt & _).
  destruct (load_record_new ex x st) as (st1 & -> & Hwf1 & Hu1 & Hc1 & He1); [done|done|done|lia|done|].
  destruct (IH st1 (n + 1)) as (st2 & E & Hwf2 & Hu2 & He2); [done|done|done|lia| |].
  - rewrite He1, <- app_assoc. cbn [app].
    eapply (increasing_replace Node_compare); [|exact Hi]. done.
  - exists st2. rewrite E. split_and!; [do 2 f_equal; lia|done|congruence|].
    rewrite He2, He1, Hu1, <- app_assoc. done.
Qed.

(** * Recovery from the backups *)

(** A file that is there and can be read to its end. *)
Definition readable (f : files) (p : cstr) : bool :=
  match f !! p with
  | Some c => let '(_, clean, closed) := unpack_nodes c in clean && closed
  | None => false
  end.

Lemma load_record_count ex x st st' k : load_record ex x st = Some (st', k) -> 0 <= k.
Proof.
  unfold load_record. destruct (listed _ _); [by intros [= _ <-]|].
  destruct (id x =? CURRENT_ID); [|by intros [= _ <-]].
  destruct (match TREE_FIND _ _ _ with Some ptr => _ | None => _ end) as [st1|]; [|done].
  destruct (insert_new _ _) as [st2|]; [|done].
  destruct (TREE_FIND _ _ _); by intros [= _ <-].
Qed.

Lemma load_records_count ex recs st n st' n' :
  load_records ex recs st n = Some (st', n') -> n <= n'.
Proof.
  revert st n. induction recs as [|x recs IH]; intros st n; cbn [load_records]; [intros [= _ <-]; lia|].
  destruct (load_record ex x st) as [[st1 k]|] eqn:E; [|done].
  apply load_record_count in E. intros H%IH. lia.
Qed.

Lemma load_history_sign f p st st' n :
  load_history f p st = Some (st', n) -> (0 <= n <-> readable f p = true).
Proof.
  unfold load_history, readable. destruct (f !! p) as [c|]; [|intros [= _ <-]; split; [lia|done]].
  destruct (unpack_nodes c) as [[recs clean] closed].
  destruct (load_records _ recs st 0) as [[st1 k]|] eqn:E; [|done].
  apply load_records_count in E. intros [= _ <-]. destruct (clean && closed); split; done || lia.
Qed.

Lemma try_backups_sign f p b st found st' n :
  try_backups f p b st found = Some (st', n) ->
  (0 <= n <-> 0 <= found /\ forall k, (1 <= k <= b)%nat -> readable f (bak p k) = true).
Proof.
  revert st found. induction b as [|b IH]; intros st found; cbn [try_backups].
  - intros [= _ <-]. split; [intros ?; split; [done|lia]|by intros []].
  - destruct (load_history f (bak p (S b)) st) as [[st1 k]|] eqn:E; [|done].
    apply load_history_sign in E. intros H%IH. rewrite H, Z.lor_nonneg, E. split.
    + intros [[Hf Hk] Hb]. split; [done|]. intros j Hj. destruct (decide (j = S b)) as [->|]; [done|].
      apply Hb. lia.
    + intros [Hf Hb]. split; [split; [done|apply Hb; lia]|]. intros j Hj. apply Hb. lia.
Qed.

Lemma try_hardway_sign f p st st' n :
  try_hardway f p st = Some (st', n) ->
  (0 <= n <-> readable f p = true /\ forall k, (1 <= k <= HI_BACK)%nat -> readable f (bak p k) = true).
Proof.
  unfold try_hardway. destruct (try_backups f p HI_BACK st 0) as [[st1 found]|] eqn:Eb; [|done].
  destruct (load_history f p st1) as [[st2 k]|] eqn:E; [|done].
  apply load_history_sign in E. apply try_backups_sign in Eb. intros [= _ <-].
  rewrite Z.lor_nonneg, Eb, E. intuition lia.
Qed.

(** * Theorems *)

(** What the archive format promises: a file that was written completely is read
    back, and an empty file ends cleanly. *)
Class NodeArchiveLaws : Prop := {
  unpack_pack l : Forall node_wf l -> unpack_nodes (pack_nodes l) = (l, true, true);
  unpack_empty : unpack_nodes [] = ([], true, true) }.

(** C28: hosts saved to a path, with a local archive that was written completely and a copy
    that succeeded, are all loaded again after a restart, with their
    histories, speeds and counters. Their clocks are brought back to the new uptime
    when they lie ahead of it, and those hosts are synchronised again. *)
Theorem hosts_saved_and_loaded `{!NodeArchiveLaws} (w : local) (env : nat -> attempt) (path : cstr) (st : state)
  (d : disk) (up : Z) :
  w_history w = Whole -> hosts_wf st -> Forall (saved_ok (nvram_safe_get (bytes "cstats_exclude"))) (hosts_of st) ->
  path <> [] -> idle (env 15%nat) = true -> cp_ok (env 15%nat) = true -> mv_ok (env 15%nat) = true ->
  exists st', load_history (fs (save false w env path st d)) path (mk_state Leaf 0 0 up) =
                Some (st', node_count st) /\
    hosts_wf st' /\ hosts_of st' = map (restarted up) (hosts_of st).
Proof.
  intros Hw Hwf Hso Hp Hi Hc Hm. unfold load_history. rewrite save_stores by done.
  pose proof Hwf as [Hb Hs Hcnt Hmax Hn]. rewrite unpack_pack by done.
  destruct (load_records_all (nvram_safe_get (bytes "cstats_exclude")) (hosts_of st) (mk_state Leaf 0 0 up) 0)
    as (st' & -> & Hwf' & _ & He).
  - split; [done|constructor|done|by vm_compute|constructor].
  - done.
  - done.
  - cbn [node_count]. lia.
  - done.
  - exists st'. split_and!; [by rewrite Hcnt|done|done].
Qed.

(** Recovery reports success exactly when the file itself and all five backups
    can be read: one version that is missing or damaged makes the whole result
    negative, although the others have been loaded. In particular it never succeeds
    for the damaged file it is meant for, and while that file is there [load] keeps
    retrying. *)
Theorem recovery_needs_every_version (f : files) (path : cstr) (st : state) :
  (forall st' n, try_hardway f path st = Some (st', n) ->
     (0 <= n <-> readable f path = true /\
        forall k, (1 <= k <= HI_BACK)%nat -> readable f (bak path k) = true)) /\
  (readable f path = false -> f !! path <> None ->
   forall fuel env, (forall i, RstatsStore.r_fs (env i) = f) ->
   match load_loop fuel env path st with Loaded _ | FirstRun _ => False | _ => True end).
Proof.
  split; [intros st' n; apply try_hardway_sign|].
  intros Hbad Hthere fuel env Henv. revert st. induction fuel as [|fuel IH]; intros st; cbn [load_loop]; [done|].
  rewrite Henv. destruct (RstatsStore.r_idle _); [|destruct (RstatsStore.r_term _); [done|apply IH]].
  destruct (load_history f path st) as [[st1 n]|] eqn:E1; [|done].
  apply load_history_sign in E1. rewrite Hbad in E1.
  destruct (Z.leb_spec 0 n) as [Hn|Hn]; [by apply E1 in Hn|].
  destruct (try_hardway f path st1) as [[st2 m]|] eqn:E2; [|done].
  apply try_hardway_sign in E2. rewrite Hbad in E2.
  destruct (Z.leb_spec 0 m) as [Hm|Hm]; [by apply E2 in Hm as [? _]|].
  rewrite bool_decide_eq_false_2 by done. destruct (RstatsStore.r_term _); [done|apply IH].
Qed.

(** An empty file counts as loaded, so the backups are not tried for it. *)
Lemma empty_history_accepted `{!NodeArchiveLaws} (f : files) (path : cstr) (st : state) :
  f !! path = Some [] -> load_history f path st = Some (st, 0).
Proof. intros Hf. unfold load_history. rewrite Hf, unpack_empty. done. Qed.

(** [load(1)] starts from an empty table whatever was there before. *)
Lemma load_new_start_ok (up : Z) (st : state) (f : files) :
  hosts_wf st ->
  load_new_start up st f = Some (mk_state Leaf 0 0 up, delete (dot_gz history_fn) f).
Proof.
  intros [Hb Hs _ _ _]. unfold load_new_start.
  destruct (free_all_nodes_frees Node_compare (hosts st) (node_count st) Hb Hs) as (freed & -> & _). done.
Qed.

End Store.

(** * Witnesses *)

(** An archive: a number that encodes the hosts. *)
#[local] Instance data_eq_dec : EqDecision Rstats.data_t.
Proof. solve_decision. Defined.
#[local] Instance data_countable : Countable Rstats.data_t :=
  inj_countable' (fun d => (Rstats.xtime d, Rstats.counter d)) (fun p => Rstats.mk_data p.1 p.2)
    ltac:(by intros []).
#[local] Instance Node_eq_dec : EqDecision Node.
Proof. solve_decision. Defined.
#[local] Instance Node_countable : Countable Node :=
  inj_countable' (fun nd => (ipaddr nd, id nd, (daily nd, dailyp nd, (monthly nd, monthlyp nd)),
                             (utime nd, speed nd, last nd, tail nd, sync nd)))
    (fun '(a, b, (c, d, (e, f)), (g, h, i, j, k)) => mk_Node a b c d e f g h i j k)
    ltac:(by intros []).

Definition demo_archive : NodeArchive := {|
  pack_nodes l := [Z.pos (encode l)];
  unpack_nodes c :=
    match c with
    | [] => ([], true, true)
    | Z.pos p :: _ => match decode p with Some l => (l, true, true) | None => ([], false, true) end
    | _ => ([], false, true)
    end |}.

Lemma demo_node_archive_laws : NodeArchiveLaws (ar := demo_archive).
Proof. split; [|done]. intros l _. cbn [pack_nodes unpack_nodes demo_archive]. by rewrite decode_encode. Qed.

#[local] Existing Instances demo_nvram demo_archive.

Definition good : attempt := RstatsStore.good.
Definition demo_path : cstr := bytes "/mnt/cs.gz".

Definition one_host : state := mk_state (Avl.Avl.Node 0 Leaf demo_host Leaf) 1 0 500.

Lemma one_host_wf : hosts_wf one_host.
Proof.
  split; [by repeat split; auto; lia|by repeat constructor|done|by vm_compute|].
  constructor; [|constructor]. apply set_clock_wf, zero_Node_wf.
Qed.

Lemma hosts_saved_and_loaded_witness :
  exists st', load_history (fs (save false all_whole (fun _ => good) demo_path one_host (mk_disk ∅ (-1)))) demo_path
                (mk_state Leaf 0 0 60) = Some (st', 1) /\ hosts_of st' = [restarted 60 demo_host].
Proof.
  destruct (hosts_saved_and_loaded (H := demo_node_archive_laws) all_whole (fun _ => good) demo_path one_host
    (mk_disk ∅ (-1)) 60) as (st' & E & _ & He).
  - done.
  - exact one_host_wf.
  - constructor; [|constructor]. split; [done|by apply Nat.leb_le|done].
  - done.
  - done.
  - done.
  - done.
  - exists st'. split; [exact E|exact He].
Defined.

(** The file is damaged and all the backups are good. *)
Definition damaged : files := <[demo_path := [0]]> (list_to_map (map (fun k => (bak demo_path k, [])) (seq 1 5))).

Lemma recovery_needs_every_version_witness :
  readable damaged demo_path = false /\ readable damaged (bak demo_path 1) = true /\
  match load_loop 3 (fun _ => RstatsStore.mk_round damaged true (fun _ => None) (fun _ => true) false)
          demo_path one_host with Loaded _ | FirstRun _ => False | _ => True end.
Proof.
  split; [reflexivity|]. split; [reflexivity|].
  apply (proj2 (recovery_needs_every_version damaged demo_path one_host)); [reflexivity|done|done].
Defined.

End CstatsStore.
