(* ===== verification/LinuxTimer.v ===== *)
(** The timer queue of the shared library
    (src/tomato64/package/libshared/shared/linux_timer.c).

    All timers of a process share one kernel interval timer. The pending ones
    form a singly linked "delta queue": each event stores the time between the
    expiry of its predecessor and its own. Events live in one array allocated by
    [init_event_queue]; a pointer to an event is its index, [None] the null
    pointer, and the unused ones are chained in the free list through the same
    [next] field. *)

From Stdlib Require Import ZArith Lia.
From stdpp Require Import base list sorting.
From S2P Require Import Prelude.

Local Open Scope Z_scope.

Module LinuxTimer.

(** * <sys/time.h> *)

Record timeval := mk_tv { tv_sec : Z; tv_usec : Z }.
Record timespec := mk_ts { ts_sec : Z; ts_nsec : Z }.
Record itimerspec := mk_its { its_interval : timespec; its_value : timespec }.

Definition timerisset (t : timeval) : bool :=
  negb ((tv_sec t =? 0) && (tv_usec t =? 0)).
Definition timerclear : timeval := mk_tv 0 0.
(** [timercmp(a, b, <)]; [timercmp(a, b, >)] is [timer_lt b a]. *)
Definition timer_lt (a b : timeval) : bool :=
  if tv_sec a =? tv_sec b then tv_usec a <? tv_usec b else tv_sec a <? tv_sec b.
Definition timersub (a b : timeval) : timeval :=
  let sec := tv_sec a - tv_sec b in
  let usec := tv_usec a - tv_usec b in
  if usec <? 0 then mk_tv (sec - 1) (usec + 1000000) else mk_tv sec usec.
Definition timeradd (a b : timeval) : timeval :=
  let sec := tv_sec a + tv_sec b in
  let usec := tv_usec a + tv_usec b in
  if 1000000 <=? usec then mk_tv (sec + 1) (usec - 1000000) else mk_tv sec usec.

Definition TIMESPEC_TO_TIMEVAL (ts : timespec) : timeval :=
  mk_tv (ts_sec ts) (Z.quot (ts_nsec ts) 1000).

Definition ROUNDUP (x y : Z) : Z := Z.quot (x + y - 1) y * y.

Definition timerroundup (t : timeval) (g : Z) : timeval :=
  let t := if negb (timerisset t) then mk_tv (tv_sec t) 1 else t in
  if tv_sec t =? 0 then mk_tv (tv_sec t) (ROUNDUP (tv_usec t) g) else t.

(** * Events and the module's state *)

Definition TFLAG_NONE : Z := 0.
Definition TFLAG_CANCELLED : Z := Z.shiftl 1 0.
Definition TFLAG_DELETED : Z := Z.shiftl 1 1.

Record event := mk_event {
  it_interval : timeval;
  it_value : timeval;
  func : option nat;      (* which callback is connected *)
  arg : Z;
  flags : Z;
  next : option nat }.

Definition zero_event : event := mk_event timerclear timerclear None 0 0 None.

Record state := mk_state {
  heap : list event;              (* the array of [init_event_queue] *)
  event_queue : option nat;
  event_freelist : option nat;
  g_granularity : Z;
  g_maxevents : Z;
  block_count : Z;
  itimer : timeval }.             (* ITIMER_REAL's remaining time, 0 when off *)

Definition set_heap h st := mk_state h (event_queue st) (event_freelist st)
  (g_granularity st) (g_maxevents st) (block_count st) (itimer st).
Definition set_queue q st := mk_state (heap st) q (event_freelist st)
  (g_granularity st) (g_maxevents st) (block_count st) (itimer st).
Definition set_freelist f st := mk_state (heap st) (event_queue st) f
  (g_granularity st) (g_maxevents st) (block_count st) (itimer st).
Definition set_block n st := mk_state (heap st) (event_queue st) (event_freelist st)
  (g_granularity st) (g_maxevents st) n (itimer st).
(** [setitimer(ITIMER_REAL, ...)] with a zero interval. *)
Definition setitimer t st := mk_state (heap st) (event_queue st) (event_freelist st)
  (g_granularity st) (g_maxevents st) (block_count st) t.

Definition with_interval t e := mk_event t (it_value e) (func e) (arg e) (flags e) (next e).
Definition with_value t e := mk_event (it_interval e) t (func e) (arg e) (flags e) (next e).
Definition with_func f a e := mk_event (it_interval e) (it_value e) f a (flags e) (next e).
Definition with_flags fl e := mk_event (it_interval e) (it_value e) (func e) (arg e) fl (next e).
Definition with_next n e := mk_event (it_interval e) (it_value e) (func e) (arg e) (flags e) n.

(** [*p] and an update of [*p]. *)
Definition deref (h : list event) (p : nat) : event := default zero_event (h !! p).
Definition store (p : nat) (f : event -> event) (st : state) : state :=
  set_heap (alter f p (heap st)) st.
Definition ev (st : state) (p : nat) : event := deref (heap st) p.

(** What a call ends in: a result, [exit], a failed [assert] or call of a null
    callback, or a walk of a cyclic list. *)
Inductive outcome (A : Type) :=
  | Ret (st : state) (a : A)
  | Exits (code : Z)
  | Fault
  | Loops.
Arguments Ret {A}. Arguments Exits {A}. Arguments Fault {A}. Arguments Loops {A}.

Definition bind {A B} (m : outcome A) (k : state -> A -> outcome B) : outcome B :=
  match m with
  | Ret st a => k st a
  | Exits c => Exits c
  | Fault => Fault
  | Loops => Loops
  end.

Definition guard_assert (b : bool) (st : state) : outcome unit :=
  if b then Ret st tt else Fault.

(** * Operations *)

Definition block_timer (st : state) : state := set_block (block_count st + 1) st.
Definition unblock_timer (st : state) : state := set_block (block_count st - 1) st.

(** The walk of [check_event_queue]; true when it gives up and exits. *)
Fixpoint queue_runs_past (fuel : nat) (h : list event) (p : option nat) : bool :=
  match p with
  | None => false
  | Some i =>
      match fuel with
      | O => true
      | S f => queue_runs_past f h (next (deref h i))
      end
  end.

(** [i > g_maxevents] is first true at the event number [g_maxevents + 1]. *)
Definition check_event_queue (st : state) : outcome unit :=
  if queue_runs_past (Z.to_nat (g_maxevents st + 1)) (heap st) (event_queue st)
  then Exits 1 else Ret st tt.

(** [malloc_ok]: whether [malloc] succeeds; [readback]: the interval the kernel
    reports. *)
Definition init_event_queue (malloc_ok : bool) (readback : Z) (n : Z) (st : state)
  : state * Z :=
  if (n <=? 0) || ((2 ^ 64 - 1) / 56 <? n) then (st, -1)
  else if negb malloc_ok then (set_freelist None st, -1)
  else
    let cell i := with_next (if (i <? n - 1) then Some (Z.to_nat (i + 1)) else None)
                            zero_event in
    let h := map (fun i => cell (Z.of_nat i)) (seq 0 (Z.to_nat n)) in
    (mk_state h (event_queue st) (Some 0%nat) (if readback =? 0 then 1 else readback)
       n (block_count st) timerclear, 0).

(** [clock_ok]: the clock is [CLOCK_REALTIME]; [evp_ok]: no event handler, or a
    SIGALRM one. *)
Definition timer_create (clock_ok evp_ok : bool) (st : state) : outcome nat :=
  if negb clock_ok then Exits 1
  else if negb evp_ok then Exits 1
  else match event_freelist st with
       | None => Fault
       | Some e =>
           let st := store e (with_flags TFLAG_NONE) st in
           let st := set_freelist (next (ev st e)) st in
           let st := store e (with_next None) st in
           bind (check_event_queue st) (fun st _ => Ret st e)
       end.

Definition timer_connect (timerid : nat) (routine : option nat) (a : Z) (st : state)
  : outcome Z :=
  bind (guard_assert (bool_decide (routine <> None)) st) (fun st _ =>
  Ret (store timerid (with_func routine a) st) 0).

Definition timer_change_settime (timerid : nat) (value : itimerspec) (st : state)
  : state * Z :=
  let st := store timerid (with_interval (TIMESPEC_TO_TIMEVAL (its_interval value))) st in
  let st := store timerid (with_value (TIMESPEC_TO_TIMEVAL (its_value value))) st in
  (st, 1).

(** The address of a link of the queue: [&event_queue] or [&e->next]. *)
Inductive link := Head | Next (e : nat).

Definition read_link (st : state) (l : link) : option nat :=
  match l with Head => event_queue st | Next e => next (ev st e) end.
Definition write_link (l : link) (p : option nat) (st : state) : state :=
  match l with Head => set_queue p st | Next e => store e (with_next p) st end.

(** The insertion loop of [timer_settime] and [alarm_handler]: walks from
    [ppevent], making the new event's value relative to each event passed. *)
Fixpoint march (fuel : nat) (event : nat) (ppevent : link) (st : state)
  : option (state * link) :=
  match fuel with
  | O => None
  | S f =>
      match read_link st ppevent with
      | None => Some (st, ppevent)
      | Some p =>
          if timer_lt (it_value (ev st event)) (it_value (ev st p)) then
            Some (store p (with_value (timersub (it_value (ev st p))
                                                (it_value (ev st event)))) st, ppevent)
          else
            march f event (Next p)
              (store event (with_value (timersub (it_value (ev st event))
                                                 (it_value (ev st p)))) st)
      end
  end.

(** [event->next = *ppevent; *ppevent = event;] after the walk. The walk visits
    each event once, so the size of the array bounds it. *)
Definition enqueue (event : nat) (st : state) : outcome unit :=
  match march (S (length (heap st))) event Head st with
  | None => Loops
  | Some (st, pp) =>
      let st := store event (with_next (read_link st pp)) st in
      Ret (write_link pp (Some event) st) tt
  end.

(** Re-issues the kernel timer from the head of the queue: rounds the head up
    and never arms a zero interval. *)
Definition arm_head (q : nat) (st : state) : state :=
  let st := store q (fun e => with_value (timerroundup (it_value e) (g_granularity st)) e) st in
  let v := it_value (ev st q) in
  setitimer (if timerisset v then v else mk_tv 0 1) st.

Definition at_least_granularity (t : timeval) (st : state) : bool :=
  (0 <? tv_sec t) || (g_granularity st <=? tv_usec t).

(** The asserts that follow in [timer_settime] and [timer_cancel]. *)
Definition arm_head_checked (q : nat) (st : state) : outcome unit :=
  let st := arm_head q st in
  guard_assert (at_least_granularity (itimer st) st
                && at_least_granularity (it_value (ev st q)) st) st.

(** The walk of [timer_cancel]: the link that points to the event. *)
Fixpoint find_link (fuel : nat) (event : nat) (pp : link) (st : state)
  : option (option link) :=
  match fuel with
  | O => None
  | S f =>
      match read_link st pp with
      | None => Some None
      | Some p => if (p =? event)%nat then Some (Some pp) else find_link f event (Next p) st
      end
  end.

Definition is_cancelled (e : event) : bool := negb (Z.land (flags e) TFLAG_CANCELLED =? 0).
Definition is_deleted (e : event) : bool := negb (Z.land (flags e) TFLAG_DELETED =? 0).

Definition timer_cancel (timerid : nat) (st : state) : outcome unit :=
  if is_cancelled (ev st timerid) then Ret st tt
  else
    let st := block_timer st in
    bind
      (match find_link (S (length (heap st))) timerid Head st with
       | None => Loops
       | Some None => Ret st tt
       | Some (Some pp) =>
           let st :=
             match next (ev st timerid) with
             | Some n =>
                 if bool_decide (event_queue st = Some timerid) then
                   let st := store timerid
                     (fun e => with_value (timersub (it_value e) (itimer st)) e) st in
                   store n (fun e => with_value
                     (timeradd (it_value e) (it_value (ev st timerid))) e) st
                 else st
             | None => st
             end in
           let st := write_link pp (next (ev st timerid)) st in
           let st := store timerid (with_next None) st in
           match event_queue st with
           | Some q => arm_head_checked q st
           | None => Ret (setitimer timerclear st) tt
           end
       end)
      (fun st _ =>
         let st := store timerid
           (fun e => with_flags (Z.lor (flags e) TFLAG_CANCELLED) e) st in
         Ret (unblock_timer st) tt).

Definition timer_delete (timerid : nat) (st : state) : outcome Z :=
  if is_deleted (ev st timerid) then Ret st 1
  else
    bind (timer_cancel timerid st) (fun st _ =>
    let st := store timerid (fun e => with_flags (Z.lor (flags e) TFLAG_DELETED) e) st in
    let st := store timerid (with_next (event_freelist st)) st in
    Ret (set_freelist (Some timerid) st) 0).

Definition timer_settime (timerid : nat) (value : itimerspec) (st : state) : outcome Z :=
  let st := store timerid (with_interval (TIMESPEC_TO_TIMEVAL (its_interval value))) st in
  let st := store timerid (with_value (TIMESPEC_TO_TIMEVAL (its_value value))) st in
  if negb (timerisset (it_value (ev st timerid))) then
    bind (timer_cancel timerid st) (fun st _ => Ret st 0)
  else
    let st := block_timer st in
    let st := store timerid
      (fun e => with_value (timerroundup (it_value e) (g_granularity st)) e) st in
    let st :=
      if timerisset (itimer st) then
        match event_queue st with
        | Some q =>
            if timer_lt (it_value (ev st q)) (itimer st) then st
            else store q (with_value (itimer st)) st
        | None => st
        end
      else st in
    bind (enqueue timerid st) (fun st _ =>
    bind (check_event_queue st) (fun st _ =>
    bind (if bool_decide (event_queue st = Some timerid)
          then arm_head_checked timerid st else Ret st tt) (fun st _ =>
    let st := store timerid
      (fun e => with_flags (Z.land (flags e) (Z.lnot TFLAG_CANCELLED)) e) st in
    Ret (unblock_timer st) 0))).

(** Unlinks every event; the walk is bounded like the others. *)
Fixpoint cancel_all_loop (fuel : nat) (st : state) : option state :=
  match fuel with
  | O => None
  | S f =>
      match event_queue st with
      | None => Some st
      | Some e =>
          let st := set_queue (next (ev st e)) st in
          cancel_all_loop f (store e (with_next None) st)
      end
  end.

Definition timer_cancel_all (st : state) : outcome unit :=
  let st := setitimer timerclear st in
  match cancel_all_loop (S (length (heap st))) st with
  | Some st => Ret st tt
  | None => Loops
  end.

Section Alarm.
(** The connected callbacks: user code, which may call the module again. *)
Context (callback : nat -> nat -> Z -> state -> state).

(** One iteration of the [do ... while] of [alarm_handler]. *)
Definition fire_head (event : nat) (st : state) : outcome unit :=
  let st := set_queue (next (ev st event)) st in
  let st := store event (with_next None) st in
  match func (ev st event) with
  | None => Fault
  | Some f =>
      let st := callback f event (arg (ev st event)) st in
      bind
        (if negb (is_cancelled (ev st event)) && timerisset (it_interval (ev st event)) then
           let st := store event (fun e => with_value (it_interval e) e) st in
           let st := store event
             (fun e => with_value (timerroundup (it_value e) (g_granularity st)) e) st in
           enqueue event st
         else Ret st tt)
        (fun st _ => check_event_queue st)
  end.

Fixpoint fire_loop (fuel : nat) (small_interval : timeval) (event : nat) (st : state)
  : outcome unit :=
  match fuel with
  | O => Loops
  | S f =>
      bind (fire_head event st) (fun st _ =>
      match event_queue st with
      | Some q => if timer_lt (it_value (ev st q)) small_interval
                  then fire_loop f small_interval q st else Ret st tt
      | None => Ret st tt
      end)
  end.

(** [rounds] bounds the number of events one alarm may fire. *)
Definition alarm_handler (rounds : nat) (st : state) : outcome unit :=
  let small_interval := mk_tv 0 (Z.quot (g_granularity st) 2) in
  let st := block_timer st in
  match event_queue st with
  | None => Ret (unblock_timer st) tt
  | Some q =>
      bind (fire_loop rounds small_interval q st) (fun st _ =>
      match event_queue st with
      | Some q => Ret (unblock_timer (arm_head q st)) tt
      | None => Ret (unblock_timer st) tt
      end)
  end.
End Alarm.

(** * The bcm_timer wrappers *)

(** [module_id] is the address of the first free event. *)
Definition bcm_timer_module_init (malloc_ok : bool) (readback timer_entries : Z)
  (module_id_null : bool) (st : state) : state * option (option nat) :=
  if module_id_null then (st, None)
  else let '(st, r) := init_event_queue malloc_ok readback timer_entries st in
       if r =? 0 then (st, Some (event_freelist st)) else (st, None).

Definition bcm_timer_module_enable (enable : Z) (st : state) : state :=
  if enable =? 0 then block_timer st else unblock_timer st.

Definition bcm_timer_create (st : state) : outcome nat := timer_create true true st.
Definition bcm_timer_delete (timer_id : nat) (st : state) : outcome Z :=
  timer_delete timer_id st.
Definition bcm_timer_settime (timer_id : nat) (spec : itimerspec) (st : state) : outcome Z :=
  timer_settime timer_id spec st.
Definition bcm_timer_connect (timer_id : nat) (f : option nat) (data : Z) (st : state)
  : outcome Z := timer_connect timer_id f data st.
Definition bcm_timer_cancel (timer_id : nat) (st : state) : outcome Z :=
  bind (timer_cancel timer_id st) (fun st _ => Ret st 0).
Definition bcm_timer_change_expirytime (timer_id : nat) (spec : itimerspec) (st : state)
  : state * Z := timer_change_settime timer_id spec st.

End LinuxTimer.
