(* ===== verification/TimerQueue.v ===== *)
(** The theory of the timer queue of LinuxTimer.v: the linked list as a
    mathematical list, the delta queue as a list of absolute deadlines, and the
    correctness of the operations against that specification. *)

From Stdlib Require Import ZArith Lia.
From stdpp Require Import base list.
From S2P Require Import Prelude LinuxTimer.

Local Open Scope Z_scope.
Import LinuxTimer.

Module TimerQueue.

(** * Time values in microseconds *)

Definition norm (t : timeval) : Prop := 0 <= tv_sec t /\ 0 <= tv_usec t < 1000000.
Definition us (t : timeval) : Z := tv_sec t * 1000000 + tv_usec t.

Lemma timer_lt_us a b : norm a -> norm b -> timer_lt a b = (us a <? us b).
Proof.
  unfold norm, us, timer_lt. intros. apply eq_true_iff_eq. rewrite Z.ltb_lt.
  destruct (tv_sec a =? tv_sec b) eqn:E; propify; rewrite Z.ltb_lt; lia.
Qed.

Lemma timerisset_us t : norm t -> timerisset t = negb (us t =? 0).
Proof.
  unfold norm, us, timerisset. intros. f_equal. apply eq_true_iff_eq.
  rewrite andb_true_iff, !Z.eqb_eq. lia.
Qed.

Lemma us_timersub a b : us (timersub a b) = us a - us b.
Proof. unfold us, timersub. case_if; simpl; lia. Qed.

Lemma norm_timersub a b : norm a -> norm b -> us b <= us a -> norm (timersub a b).
Proof. unfold norm, us, timersub. intros. case_if; propify; simpl; lia. Qed.

Lemma us_timeradd a b : us (timeradd a b) = us a + us b.
Proof. unfold us, timeradd. case_if; simpl; lia. Qed.

Lemma norm_timeradd a b : norm a -> norm b -> norm (timeradd a b).
Proof. unfold norm, us, timeradd. intros. case_if; propify; simpl; lia. Qed.

Lemma timerroundup_1 t : norm t ->
  norm (timerroundup t 1) /\ us (timerroundup t 1) = Z.max 1 (us t).
Proof.
  intros Hn. unfold timerroundup. rewrite timerisset_us by done. rewrite negb_involutive.
  unfold norm, us, ROUNDUP in *.
  destruct (tv_sec t * 1000000 + tv_usec t =? 0) eqn:E; propify; cbn [tv_sec tv_usec].
  - assert (tv_sec t = 0) as -> by lia. assert (tv_usec t = 0) as -> by lia.
    vm_compute. intuition congruence.
  - case_if; propify; cbn [tv_sec tv_usec]; [|lia].
    rewrite Z.quot_1_r. lia.
Qed.

(** * Heap updates *)

Lemma deref_alter_eq h i f : (i < length h)%nat -> deref (alter f i h) i = f (deref h i).
Proof.
  intros [e He]%lookup_lt_is_Some. unfold deref. by rewrite list_lookup_alter_eq, He.
Qed.

Lemma deref_alter_ne h i j f : i <> j -> deref (alter f i h) j = deref h j.
Proof. intros. unfold deref. by rewrite list_lookup_alter_ne. Qed.

(** * The linked list *)

Fixpoint lseg (h : list event) (p : option nat) (l : list nat) : Prop :=
  match l with
  | [] => p = None
  | i :: l' => p = Some i /\ (i < length h)%nat /\ lseg h (next (deref h i)) l'
  end.

Lemma lseg_head h p l : lseg h p l -> p = head l.
Proof. destruct l; simpl; [done|]. tauto. Qed.

Lemma lseg_bound h p l i : lseg h p l -> i ∈ l -> (i < length h)%nat.
Proof.
  revert p. induction l as [|j l IH]; intros p; simpl; [by intros _ ?%elem_of_nil|].
  intros (_ & Hj & Hl) [->|Hi]%elem_of_cons; eauto.
Qed.

(** [lseg] only reads the [next] fields of its own events. *)
Lemma lseg_ext h h' p l : length h' = length h ->
  (forall i, i ∈ l -> next (deref h' i) = next (deref h i)) -> lseg h p l -> lseg h' p l.
Proof.
  intros Hlen. revert p. induction l as [|j l IH]; intros p Hn; simpl; [done|].
  intros (-> & Hj & Hl). rewrite Hn by left. repeat split; [lia|].
  apply IH; [|done]. intros i Hi. apply Hn. by right.
Qed.

Lemma lseg_alter_other h p l i f : i ∉ l -> lseg h p l -> lseg (alter f i h) p l.
Proof.
  intros Hi. apply lseg_ext; [apply length_alter|].
  intros j Hj. rewrite deref_alter_ne; [done|]. by intros ->.
Qed.

Lemma lseg_alter_keep h p l i f :
  (forall e, next (f e) = next e) -> lseg h p l -> lseg (alter f i h) p l.
Proof.
  intros Hf Hl. revert Hl. apply lseg_ext; [apply length_alter|].
  intros j _. destruct (decide (i = j)) as [->|]; [|by rewrite deref_alter_ne].
  destruct (decide (j < length h)%nat).
  - rewrite deref_alter_eq by done. apply Hf.
  - unfold deref. rewrite list_lookup_alter_eq.
    rewrite (lookup_ge_None_2 h) by lia. done.
Qed.

Lemma lseg_fun h p l l' : lseg h p l -> lseg h p l' -> l = l'.
Proof.
  revert p l'. induction l as [|i l IH]; intros p [|j l']; simpl; try done.
  - intros ->. by intros [? _].
  - intros [-> _] ?. done.
  - intros (-> & _ & H1) ([= <-] & _ & H2). f_equal. eauto.
Qed.

(** The link after the events [l]. *)
Definition link_after (l : list nat) : link :=
  match last l with None => Head | Some x => Next x end.

(** Linking event [e] between [l1] and [l2]. *)
Lemma lseg_insert h p l1 l2 e :
  lseg h p (l1 ++ l2) -> NoDup (l1 ++ l2) -> e ∉ l1 ++ l2 -> (e < length h)%nat ->
  let h1 := alter (with_next (head l2)) e h in
  match last l1 with
  | None => lseg h1 (Some e) (e :: l2)
  | Some x => lseg (alter (with_next (Some e)) x h1) p (l1 ++ e :: l2)
  end.
Proof.
  intros Hl Hnd He Hlen h1.
  assert (Hbase : forall q, lseg h q l2 -> e ∉ l2 -> lseg h1 (Some e) (e :: l2)).
  { intros q Hq He2. simpl. split; [done|]. split; [by unfold h1; rewrite length_alter|].
    unfold h1. rewrite deref_alter_eq by done. simpl.
    rewrite <- (lseg_head _ _ _ Hq). by apply lseg_alter_other. }
  revert p Hl Hnd He. induction l1 as [|x l1 IH]; intros p Hl Hnd He; [by eapply Hbase|].
  simpl in Hl. destruct Hl as (-> & Hx & Hl).
  apply NoDup_cons in Hnd as [Hx' Hnd].
  apply not_elem_of_app in Hx' as [Hx1 Hx2].
  apply not_elem_of_cons in He as [Hex He].
  assert (Hne : next (deref h1 x) = next (deref h x)).
  { unfold h1. by rewrite deref_alter_ne by done. }
  destruct l1 as [|y l1].
  - split; [done|]. split; [by unfold h1; rewrite !length_alter|].
    rewrite deref_alter_eq by (by unfold h1; rewrite length_alter). simpl.
    apply (lseg_alter_other _ _ (e :: l2)); [|by eapply Hbase].
    apply not_elem_of_cons. done.
  - specialize (IH _ Hl Hnd He). rewrite last_cons_cons.
    destruct (last (y :: l1)) as [z|] eqn:Ez; [|by apply last_None in Ez].
    assert (z ∈ y :: l1) by (by apply last_Some_elem_of).
    assert (z <> x) by (by intros ->).
    change ((x :: y :: l1) ++ e :: l2) with (x :: ((y :: l1) ++ e :: l2)).
    cbn [lseg]. split; [done|]. split; [by unfold h1; rewrite !length_alter|].
    rewrite deref_alter_ne, Hne by done. done.
Qed.

(** Unlinking event [e] between [l1] and [l2]. *)
Lemma lseg_remove h p l1 l2 e :
  lseg h p (l1 ++ e :: l2) -> NoDup (l1 ++ e :: l2) ->
  match last l1 with
  | None => lseg h (next (deref h e)) l2
  | Some x => lseg (alter (with_next (next (deref h e))) x h) p (l1 ++ l2)
  end.
Proof.
  revert p. induction l1 as [|x l1 IH]; intros p Hl Hnd.
  { simpl in *. tauto. }
  simpl in Hl. destruct Hl as (-> & Hx & Hl). apply NoDup_cons in Hnd as [Hx' Hnd].
  apply not_elem_of_app in Hx' as [Hx1 Hx2].
  destruct l1 as [|y l1].
  - simpl in *. destruct Hl as (Hn & He & Hl2). split; [done|]. split; [by rewrite length_alter|].
    rewrite deref_alter_eq by done. simpl. apply lseg_alter_other; [|done].
    intros ?. apply Hx2. by right.
  - specialize (IH _ Hl Hnd). rewrite last_cons_cons.
    destruct (last (y :: l1)) as [z|] eqn:Ez; [|by apply last_None in Ez].
    assert (z ∈ y :: l1) by (by apply last_Some_elem_of).
    assert (z <> x) by (by intros ->).
    change ((x :: y :: l1) ++ l2) with (x :: ((y :: l1) ++ l2)).
    cbn [lseg]. split; [done|]. split; [by rewrite length_alter|].
    rewrite deref_alter_ne by done. done.
Qed.

(** * The delta queue and its deadlines *)

(** The microseconds an event waits after its predecessor. *)
Definition delta (st : state) (i : nat) : Z := us (it_value (ev st i)).
Definition aq (st : state) (l : list nat) : list (nat * Z) :=
  map (fun i => (i, delta st i)) l.

(** Insertion in a delta queue. *)
Fixpoint ins (e : nat) (v : Z) (q : list (nat * Z)) : list (nat * Z) :=
  match q with
  | [] => [(e, v)]
  | (i, d) :: q' => if v <? d then (e, v) :: (i, d - v) :: q'
                    else (i, d) :: ins e (v - d) q'
  end.

(** Specification: the absolute deadlines, and insertion by deadline after the
    events that expire no later. *)
Fixpoint deadlines (t : Z) (q : list (nat * Z)) : list (nat * Z) :=
  match q with
  | [] => []
  | (i, d) :: q' => (i, t + d) :: deadlines (t + d) q'
  end.

Fixpoint schedule (e : nat) (v : Z) (l : list (nat * Z)) : list (nat * Z) :=
  match l with
  | [] => [(e, v)]
  | (i, d) :: l' => if v <? d then (e, v) :: l else (i, d) :: schedule e v l'
  end.

Lemma deadlines_ins t e v q :
  deadlines t (ins e v q) = schedule e (t + v) (deadlines t q).
Proof.
  revert t v. induction q as [|[i d] q IH]; intros t v; simpl; [done|].
  destruct (v <? d) eqn:E1; destruct (t + v <? t + d) eqn:E2; propify; try lia; simpl.
  - by replace (t + v + (d - v)) with (t + d) by lia.
  - rewrite IH. by replace (t + d + (v - d)) with (t + v) by lia.
Qed.

Lemma ins_perm e v q : Permutation (map fst (ins e v q)) (e :: map fst q).
Proof.
  revert v. induction q as [|[i d] q IH]; intros v; simpl; [done|].
  case_if; simpl; [done|]. rewrite IH. apply Permutation_swap.
Qed.

Lemma ins_nonneg e v q : 0 <= v -> Forall (fun x => 0 <= snd x) q ->
  Forall (fun x => 0 <= snd x) (ins e v q).
Proof.
  intros Hv Hq. revert v Hv. induction Hq as [|[i d] q Hd Hq IH]; intros v Hv; simpl in *.
  - by repeat constructor.
  - case_if; propify; repeat constructor; simpl; try lia; [done|]. apply IH. lia.
Qed.

Lemma aq_fst st l : map fst (aq st l) = l.
Proof. unfold aq. rewrite map_map. simpl. apply map_id. Qed.

Lemma aq_cons st i l : aq st (i :: l) = (i, delta st i) :: aq st l.
Proof. done. Qed.

Lemma aq_ext st st' l : (forall i, i ∈ l -> ev st' i = ev st i) -> aq st' l = aq st l.
Proof.
  intros H. unfold aq. apply map_ext_in. intros i Hi%list_elem_of_In.
  unfold delta. by rewrite H.
Qed.

(** * What the queue operations leave alone *)

Definition attrs (e : event) := (it_interval e, func e, arg e, flags e).
(** The part of them that is set by [timer_connect] and [timer_settime]. *)
Definition setup (e : event) := (it_interval e, func e, arg e).

Lemma attrs_setup e e' : attrs e = attrs e' -> setup e = setup e'.
Proof. unfold attrs, setup. by intros [= -> -> -> _]. Qed.

(** Everything but the queue links and the events' remaining times. *)
Record same_env (st st' : state) : Prop := {
  se_free : event_freelist st' = event_freelist st;
  se_gran : g_granularity st' = g_granularity st;
  se_max : g_maxevents st' = g_maxevents st;
  se_block : block_count st' = block_count st;
  se_itimer : itimer st' = itimer st;
  se_len : length (heap st') = length (heap st);
  se_attrs : forall i, attrs (ev st' i) = attrs (ev st i) }.

#[export] Instance same_env_refl : Reflexive same_env.
Proof. by constructor. Qed.

#[export] Instance same_env_trans : Transitive same_env.
Proof.
  intros a b c [] []. constructor; try congruence.
Qed.

(** Only remaining times differ. *)
Record only_values (st st' : state) : Prop := {
  ov_env : same_env st st';
  ov_queue : event_queue st' = event_queue st;
  ov_next : forall i, next (ev st' i) = next (ev st i) }.

#[export] Instance only_values_refl : Reflexive only_values.
Proof. by constructor. Qed.

#[export] Instance only_values_trans : Transitive only_values.
Proof. intros a b c [] []. constructor; [by etransitivity|congruence|congruence]. Qed.

Lemma ev_store_eq st i f : (i < length (heap st))%nat -> ev (store i f st) i = f (ev st i).
Proof. apply deref_alter_eq. Qed.
Lemma ev_store_ne st i j f : i <> j -> ev (store i f st) j = ev st j.
Proof. apply deref_alter_ne. Qed.

(** An event outside the array reads as zero, before and after a store. *)
Lemma ev_store_inv {A} (g : event -> A) st i f j :
  (forall e, g (f e) = g e) -> g (ev (store i f st) j) = g (ev st j).
Proof.
  intros Hf. destruct (decide (i = j)) as [->|]; [|by rewrite ev_store_ne].
  destruct (decide (j < length (heap st))%nat); [by rewrite ev_store_eq|].
  unfold ev, deref, store. simpl. rewrite list_lookup_alter_eq.
  by rewrite (lookup_ge_None_2 (heap st)) by lia.
Qed.

Lemma store_value_only st i t : only_values st (store i (with_value t) st).
Proof.
  constructor; [constructor| |]; try done.
  - apply length_alter.
  - intros j. by apply (ev_store_inv attrs).
  - intros j. by apply (ev_store_inv next).
Qed.

Lemma read_link_only st st' pp : only_values st st' -> read_link st' pp = read_link st pp.
Proof. intros []. destruct pp; simpl; auto. Qed.

Lemma lseg_only st st' p l : only_values st st' -> lseg (heap st) p l -> lseg (heap st') p l.
Proof. intros [[] ? Hn]. apply lseg_ext; [done|]. intros i _. apply Hn. Qed.

(** * The insertion walk *)

Lemma march_spec l : forall fuel e pp st,
  lseg (heap st) (read_link st pp) l -> NoDup l -> e ∉ l -> (e < length (heap st))%nat ->
  (forall i, i ∈ e :: l -> norm (it_value (ev st i))) -> (length l < fuel)%nat ->
  exists st' l1 l2,
    march fuel e pp st =
      Some (st', match last l1 with None => pp | Some x => Next x end) /\
    l = l1 ++ l2 /\ only_values st st' /\
    (forall i, i ∈ e :: l -> norm (it_value (ev st' i))) /\
    (forall i, i ∉ e :: l -> ev st' i = ev st i) /\
    ins e (delta st e) (aq st l) = aq st' l1 ++ (e, delta st' e) :: aq st' l2.
Proof.
  induction l as [|i l IH]; intros [|fuel] e pp st Hl Hnd He Hb Hn Hf; simpl in Hf; try lia.
  { exists st, [], []. cbn [march]. simpl in Hl. rewrite Hl. by split_and!. }
  cbn [lseg] in Hl. destruct Hl as (Hp & Hi & Hl).
  apply NoDup_cons in Hnd as [Hil Hnd]. apply not_elem_of_cons in He as [Hei Hel].
  cbn [march]. rewrite Hp.
  assert (Hne : norm (it_value (ev st e))) by (apply Hn; left).
  assert (Hni : norm (it_value (ev st i))) by (apply Hn; right; left).
  rewrite timer_lt_us by done. rewrite aq_cons. cbn [ins].
  change (us (it_value (ev st e))) with (delta st e).
  change (us (it_value (ev st i))) with (delta st i).
  destruct (delta st e <? delta st i) eqn:E; propify.
  - eexists _, [], (i :: l). split; [done|]. split; [done|].
    split; [apply store_value_only|]. split; [|split].
    + intros j Hj. destruct (decide (i = j)) as [<-|]; [|rewrite ev_store_ne; auto].
      rewrite ev_store_eq by done. apply norm_timersub; [done|done|unfold delta in *; lia].
    + intros j [_ [Hj _]%not_elem_of_cons]%not_elem_of_cons. by rewrite ev_store_ne.
    + rewrite aq_cons. unfold delta. rewrite ev_store_eq, ev_store_ne by done.
      cbn [it_value with_value app aq map].
      rewrite us_timersub. do 2 f_equal. symmetry. apply aq_ext.
      intros j Hj. apply ev_store_ne. by intros ->.
  - set (st1 := store e _ st).
    assert (Hov : only_values st st1) by apply store_value_only.
    assert (Hother : forall j, j <> e -> ev st1 j = ev st j)
      by (intros; by apply ev_store_ne).
    assert (He1 : it_value (ev st1 e) = timersub (it_value (ev st e)) (it_value (ev st i)))
      by (unfold st1; by rewrite ev_store_eq).
    destruct (IH fuel e (Next i) st1) as (st' & l1 & l2 & Hm & -> & Hov' & Hn' & Hf' & Hins).
    + cbn [read_link]. rewrite Hother by done. by apply (lseg_only st).
    + done.
    + done.
    + unfold st1, store. simpl. by rewrite length_alter.
    + intros j Hj. destruct (decide (j = e)) as [->|].
      * rewrite He1. by apply norm_timersub.
      * rewrite Hother by done. apply Hn. apply elem_of_cons in Hj as [->|]; [left|].
        by right; right.
    + lia.
    + exists st', (i :: l1), l2. split; [|split; [done|split; [by etransitivity|]]].
      { rewrite Hm. do 2 f_equal. rewrite last_cons. by destruct (last l1). }
      assert (Hi' : ev st' i = ev st i).
      { rewrite Hf' by (by apply not_elem_of_cons). by apply Hother. }
      split; [|split].
      * intros j Hj. destruct (decide (j = i)) as [->|]; [by rewrite Hi'|].
        apply Hn'. rewrite !elem_of_cons in *. tauto.
      * intros j Hj. rewrite !not_elem_of_cons in Hj. destruct Hj as (? & ? & ?).
        rewrite Hf' by (by apply not_elem_of_cons). by apply Hother.
      * rewrite aq_cons, <- app_comm_cons, <- Hins. unfold delta. rewrite Hi', He1, us_timersub.
        do 2 f_equal.
        symmetry. apply aq_ext. intros j Hj. apply Hother. by intros ->.
Qed.

Lemma lseg_length h p l : lseg h p l -> NoDup l -> (length l <= length h)%nat.
Proof.
  intros Hl Hnd. rewrite <- (length_seq (length h) 0). apply submseteq_length.
  apply NoDup_submseteq; [done|]. intros i Hi. apply elem_of_seq.
  pose proof (lseg_bound _ _ _ _ Hl Hi). lia.
Qed.

Lemma lseg_link h p l1 l2 : lseg h p (l1 ++ l2) ->
  match last l1 with None => p | Some x => next (deref h x) end = head l2.
Proof.
  revert p. induction l1 as [|x l1 IH]; intros p; simpl; [apply lseg_head|].
  intros (-> & _ & Hl). destruct l1 as [|y l1]; [by apply lseg_head in Hl|].
  rewrite <- (IH _ Hl). rewrite last_cons. by destruct (last (y :: l1)) eqn:E; [|apply last_None in E].
Qed.

(** Stores of links keep the events' attributes and values. *)
Lemma store_next_env st i p : same_env st (store i (with_next p) st).
Proof.
  constructor; try done; [apply length_alter|]. intros j. by apply (ev_store_inv attrs).
Qed.

Lemma write_link_env st pp p : same_env st (write_link pp p st).
Proof. destruct pp; [by constructor|apply store_next_env]. Qed.

Lemma write_link_value st pp p i : it_value (ev (write_link pp p st) i) = it_value (ev st i).
Proof. destruct pp; [done|]. by apply (ev_store_inv it_value). Qed.

Lemma aq_values st st' l :
  (forall i, it_value (ev st' i) = it_value (ev st i)) -> aq st' l = aq st l.
Proof. intros H. apply map_ext. intros i. unfold delta. by rewrite H. Qed.

(** [enqueue] implements insertion in the delta queue. *)
Lemma enqueue_spec st e q :
  lseg (heap st) (event_queue st) q -> NoDup (e :: q) -> (e < length (heap st))%nat ->
  (forall i, i ∈ e :: q -> norm (it_value (ev st i))) ->
  exists st' q', enqueue e st = Ret st' tt /\
    lseg (heap st') (event_queue st') q' /\
    aq st' q' = ins e (delta st e) (aq st q) /\
    (forall i, i ∈ q' -> norm (it_value (ev st' i))) /\
    (forall i, i ∉ e :: q -> ev st' i = ev st i) /\
    same_env st st'.
Proof.
  intros Hl Hnd He Hn. apply NoDup_cons in Hnd as [Heq Hnd].
  destruct (march_spec q (S (length (heap st))) e Head st) as
    (st1 & l1 & l2 & Hm & -> & Hov & Hn1 & Hf & Hins); try done.
  { pose proof (lseg_length _ _ _ Hl Hnd). lia. }
  unfold enqueue. rewrite Hm. clear Hm. fold (link_after l1).
  pose proof (lseg_only _ _ _ _ Hov Hl) as Hl1. rewrite <- (ov_queue _ _ Hov) in Hl1.
  assert (Hrl : read_link st1 (link_after l1) = head l2).
  { rewrite <- (lseg_link _ _ _ _ Hl1). unfold link_after. by destruct (last l1). }
  rewrite Hrl. set (st2 := store e (with_next (head l2)) st1).
  set (st3 := write_link (link_after l1) (Some e) st2).
  assert (Hval : forall i, it_value (ev st3 i) = it_value (ev st1 i)).
  { intros i. unfold st3. rewrite write_link_value. by apply (ev_store_inv it_value). }
  exists st3, (l1 ++ e :: l2). split; [done|]. split_and!.
  - assert (He1 : (e < length (heap st1))%nat) by (rewrite (se_len _ _ (ov_env _ _ Hov)); done).
    pose proof (lseg_insert _ _ l1 l2 e Hl1 Hnd Heq He1) as H. unfold st3, link_after.
    destruct (last l1) eqn:El; [done|]. apply last_None in El as ->. done.
  - rewrite Hins. rewrite (aq_values st1) by done. unfold aq. by rewrite map_app.
  - intros i Hi. rewrite Hval. apply Hn1. rewrite elem_of_app, elem_of_cons in Hi.
    rewrite elem_of_cons, elem_of_app. tauto.
  - intros i Hi. rewrite <- Hf by done. apply not_elem_of_cons in Hi as [Hie Hi].
    transitivity (ev st2 i); [|unfold st2; by rewrite ev_store_ne].
    unfold st3, link_after. destruct (last l1) as [x|] eqn:El; [|done].
    apply ev_store_ne. intros ->. apply Hi. apply elem_of_app. left.
    by apply last_Some_elem_of.
  - etransitivity; [apply (ov_env _ _ Hov)|]. etransitivity; [apply store_next_env|].
    apply write_link_env.
Qed.

(** * The module's invariant *)

(** [q] is the queue, [fl] the free list. *)
Record wf (st : state) (q fl : list nat) : Prop := {
  wf_queue : lseg (heap st) (event_queue st) q;
  wf_free : lseg (heap st) (event_freelist st) fl;
  wf_nodup : NoDup (q ++ fl);
  wf_max : g_maxevents st = Z.of_nat (length (heap st));
  wf_gran : g_granularity st = 1;
  wf_norm : forall i, i ∈ q -> norm (it_value (ev st i)) }.

Lemma wf_nodup_q st q fl : wf st q fl -> NoDup q.
Proof. intros []. by apply NoDup_app in wf_nodup0 as [? _]. Qed.

(** On an acyclic queue the sanity walk never exits. *)
Lemma queue_runs_past_false fuel h p l :
  lseg h p l -> (length l <= fuel)%nat -> queue_runs_past fuel h p = false.
Proof.
  revert p fuel. induction l as [|i l IH]; intros p fuel; simpl.
  - intros -> _. by destruct fuel.
  - intros (-> & _ & Hl) Hf. destruct fuel; [lia|]. simpl. apply IH; [done|lia].
Qed.

Lemma check_event_queue_ok st l :
  lseg (heap st) (event_queue st) l -> NoDup l ->
  g_maxevents st = Z.of_nat (length (heap st)) -> check_event_queue st = Ret st tt.
Proof.
  intros Hl Hnd Hm. unfold check_event_queue. pose proof (lseg_length _ _ _ Hl Hnd).
  rewrite (queue_runs_past_false _ _ _ l); [done|done|]. rewrite Hm. lia.
Qed.

Lemma wf_store st q fl i f :
  wf st q fl -> (forall e, next (f e) = next e) ->
  (i ∈ q -> norm (it_value (f (ev st i)))) -> wf (store i f st) q fl.
Proof.
  intros [Hq Hf Hnd Hm Hg Hn] Hnext Hi. constructor; try done.
  - by apply lseg_alter_keep.
  - by apply lseg_alter_keep.
  - simpl. by rewrite length_alter.
  - intros j Hj. destruct (decide (i = j)) as [->|]; [|rewrite ev_store_ne; auto].
    rewrite ev_store_eq; [auto|]. exact (lseg_bound _ _ _ _ Hq Hj).
Qed.

Lemma wf_block st q fl n : wf st q fl -> wf (set_block n st) q fl.
Proof. intros []. by constructor. Qed.
Lemma wf_setitimer st q fl t : wf st q fl -> wf (setitimer t st) q fl.
Proof. intros []. by constructor. Qed.

(** A change of the queue by an operation that leaves the rest alone. *)
Lemma wf_same_env st st' q q' fl :
  wf st q fl -> same_env st st' -> lseg (heap st') (event_queue st') q' ->
  NoDup (q' ++ fl) -> (forall i, i ∈ fl -> next (ev st' i) = next (ev st i)) ->
  (forall i, i ∈ q' -> norm (it_value (ev st' i))) -> wf st' q' fl.
Proof.
  intros [Hq Hf Hnd Hm Hg Hn] [? ? ? ? ? ? ?] Hl Hnd' Hfl Hn'. constructor; try done.
  - rewrite se_free0. eapply lseg_ext; [done| |done]. done.
  - congruence.
  - congruence.
Qed.

(** The events that can be armed: allocated and not pending. *)
Definition idle (st : state) (q fl : list nat) (e : nat) : Prop :=
  (e < length (heap st))%nat /\ e ∉ q ++ fl.

Lemma enqueue_wf st e q fl :
  wf st q fl -> idle st q fl e -> norm (it_value (ev st e)) ->
  exists st' q', enqueue e st = Ret st' tt /\ wf st' q' fl /\
    check_event_queue st' = Ret st' tt /\
    aq st' q' = ins e (delta st e) (aq st q) /\
    same_env st st' /\ (forall i, i ∉ e :: q -> ev st' i = ev st i).
Proof.
  intros Hwf [He Hi] Hn. pose proof (wf_nodup_q _ _ _ Hwf) as Hnd.
  apply not_elem_of_app in Hi as [Hiq Hif].
  destruct (enqueue_spec st e q) as (st' & q' & Hr & Hl & Haq & Hn' & Hf & Henv).
  - apply Hwf.
  - by apply NoDup_cons.
  - done.
  - intros i [->|Hi]%elem_of_cons; [done|]. by apply Hwf.
  - assert (Hp : Permutation q' (e :: q)).
    { rewrite <- (aq_fst st' q'), Haq, ins_perm, aq_fst. done. }
    assert (Hnd' : NoDup (q' ++ fl)).
    { rewrite Hp. simpl. apply NoDup_cons. split; [|apply Hwf].
      by apply not_elem_of_app. }
    assert (wf st' q' fl) as Hwf'.
    { eapply wf_same_env; eauto. intros i Hi. rewrite Hf; [done|].
      apply not_elem_of_cons. split; [by intros ->|]. intros Hq.
      destruct Hwf as [_ _ Hnd'' _ _ _]. apply NoDup_app in Hnd'' as (_ & Hd & _).
      by apply (Hd i). }
    exists st', q'. split_and!; try done.
    eapply check_event_queue_ok; [apply Hwf'|by eapply wf_nodup_q|apply Hwf'].
Qed.

(** Arming the kernel timer from the head of the queue. *)
Lemma arm_head_spec st h q fl : wf st (h :: q) fl ->
  let st' := arm_head h st in
  wf st' (h :: q) fl /\ itimer st' = it_value (ev st' h) /\
  aq st' (h :: q) = (h, Z.max 1 (delta st h)) :: aq st q /\
  (forall i, i <> h -> ev st' i = ev st i) /\
  attrs (ev st' h) = attrs (ev st h) /\ block_count st' = block_count st /\
  length (heap st') = length (heap st) /\
  arm_head_checked h st = Ret st' tt.
Proof.
  intros Hwf st'.
  assert (Hh : norm (it_value (ev st h))) by (apply Hwf; left).
  assert (Hb : (h < length (heap st))%nat) by (destruct Hwf as [(_ & ? & _) _ _ _ _ _]; done).
  assert (Hne : h ∉ q) by (apply wf_nodup_q in Hwf; by apply NoDup_cons in Hwf as [? _]).
  assert (norm (timerroundup (it_value (ev st h)) (g_granularity st)) /\
    us (timerroundup (it_value (ev st h)) (g_granularity st)) = Z.max 1 (delta st h)) as [Hr Hu].
  { rewrite (wf_gran _ _ _ Hwf). by apply timerroundup_1. }
  set (st1 := store h (fun e => with_value (timerroundup (it_value e) (g_granularity st)) e) st).
  assert (Hv : it_value (ev st1 h) = timerroundup (it_value (ev st h)) (g_granularity st))
    by (unfold st1; by rewrite ev_store_eq).
  assert (Hset : timerisset (it_value (ev st1 h)) = true).
  { rewrite Hv, timerisset_us by done. apply negb_true_iff, Z.eqb_neq. lia. }
  assert (Hst' : st' = setitimer (it_value (ev st1 h)) st1).
  { unfold st', arm_head. fold st1. by rewrite Hset. }
  assert (Hat : at_least_granularity (it_value (ev st1 h)) st' = true).
  { rewrite Hst'. unfold at_least_granularity. cbn [g_granularity setitimer].
    change (g_granularity st1) with (g_granularity st).
    rewrite (wf_gran _ _ _ Hwf), orb_true_iff, Z.ltb_lt, Z.leb_le, Hv.
    unfold norm, us in *. lia. }
  split_and!.
  - rewrite Hst'. apply wf_setitimer. apply wf_store; [done|done|]. intros _. exact Hr.
  - by rewrite Hst'.
  - rewrite Hst'. rewrite aq_cons. f_equal.
    + f_equal. unfold delta. change (ev (setitimer _ ?x) h) with (ev x h). by rewrite Hv.
    + apply aq_ext. intros i Hi. change (ev (setitimer ?t ?x) i) with (ev x i).
      apply ev_store_ne. by intros ->.
  - intros i Hi. rewrite Hst'. by apply ev_store_ne.
  - rewrite Hst'. unfold ev, setitimer. simpl. fold (ev st1 h). unfold st1.
    by apply (ev_store_inv attrs).
  - by rewrite Hst'.
  - rewrite Hst'. simpl. apply length_alter.
  - unfold arm_head_checked. fold st'.
    assert (itimer st' = it_value (ev st1 h)) as -> by (by rewrite Hst').
    assert (it_value (ev st' h) = it_value (ev st1 h)) as -> by (by rewrite Hst').
    by rewrite Hat.
Qed.

(** * Arming a timer *)

(** The time left to the head of the queue when [itimer] still runs. *)
Definition time_left (st : state) (d : Z) : Z :=
  if us (itimer st) =? 0 then d else Z.min d (us (itimer st)).

(** The pending events with their deadlines, counted from now. *)
Definition current (st : state) (q : list (nat * Z)) : list (nat * Z) :=
  match q with [] => [] | (i, d) :: r => (i, time_left st d) :: r end.
Definition pending (st : state) (q : list nat) : list (nat * Z) :=
  deadlines 0 (current st (aq st q)).

(** The step of [timer_settime] that charges the elapsed time to the head. *)
Definition resync (st : state) : state :=
  if timerisset (itimer st) then
    match event_queue st with
    | Some q => if timer_lt (it_value (ev st q)) (itimer st) then st
                else store q (with_value (itimer st)) st
    | None => st
    end
  else st.

Lemma resync_spec st q fl : wf st q fl -> norm (itimer st) ->
  wf (resync st) q fl /\ aq (resync st) q = current st (aq st q) /\
  same_env st (resync st) /\ (forall i, i ∉ q -> ev (resync st) i = ev st i).
Proof.
  intros Hwf Hn. unfold resync, current, time_left. rewrite timerisset_us by done.
  destruct (us (itimer st) =? 0) eqn:E0; cbn [negb].
  { split_and!; try done. destruct q; done. }
  pose proof (lseg_head _ _ _ (wf_queue _ _ _ Hwf)) as ->.
  destruct q as [|h q]; [done|]. cbn [head].
  assert (Hh : norm (it_value (ev st h))) by (apply Hwf; left).
  assert (Hne : h ∉ q) by (apply wf_nodup_q in Hwf; by apply NoDup_cons in Hwf as [? _]).
  assert (Hb : (h < length (heap st))%nat) by (destruct Hwf as [(_ & ? & _) _ _ _ _ _]; done).
  rewrite timer_lt_us, (aq_cons st) by done. cbv beta iota.
  change (us (it_value (ev st h))) with (delta st h).
  destruct (delta st h <? us (itimer st)) eqn:E; propify.
  - rewrite Z.min_l by lia. done.
  - rewrite Z.min_r by lia. split_and!.
    + by apply wf_store.
    + rewrite aq_cons. unfold delta at 1. rewrite ev_store_eq by done. f_equal.
      apply aq_ext. intros i Hi. apply ev_store_ne. by intros ->.
    + apply store_value_only.
    + intros i [Hi _]%not_elem_of_cons. by apply ev_store_ne.
Qed.

Lemma attrs_flags e e' : attrs e = attrs e' -> flags e = flags e'.
Proof. by intros [=]. Qed.

Lemma land_lnot_cancelled x : Z.land (Z.land x (Z.lnot TFLAG_CANCELLED)) TFLAG_CANCELLED = 0.
Proof.
  rewrite <- Z.land_assoc. change (Z.land (Z.lnot TFLAG_CANCELLED) TFLAG_CANCELLED) with 0.
  apply Z.land_0_r.
Qed.

(** The last step of [timer_settime]. *)
Definition finish_settime (e : nat) (st : state) : state :=
  unblock_timer (store e (fun x => with_flags (Z.land (flags x) (Z.lnot TFLAG_CANCELLED)) x) st).

Lemma finish_settime_spec st e q fl : wf st q fl -> (e < length (heap st))%nat ->
  let st' := finish_settime e st in
  wf st' q fl /\ aq st' q = aq st q /\ itimer st' = itimer st /\
  (forall i, it_value (ev st' i) = it_value (ev st i)) /\
  it_interval (ev st' e) = it_interval (ev st e) /\ is_cancelled (ev st' e) = false /\
  block_count st' = block_count st - 1 /\ length (heap st') = length (heap st) /\
  func (ev st' e) = func (ev st e) /\ (forall i, i <> e -> ev st' i = ev st i).
Proof.
  intros Hwf He st'.
  assert (Hv : forall i, it_value (ev st' i) = it_value (ev st i)).
  { intros i. by apply (ev_store_inv it_value). }
  split_and!; try done; try (intros i Hi; by apply ev_store_ne);
    try (by apply (ev_store_inv func)).
  - apply wf_block, wf_store; [done|done|]. intros. by apply Hwf.
  - by apply aq_values.
  - by apply (ev_store_inv it_interval).
  - unfold st', is_cancelled.
    change (ev (finish_settime e st) e) with (ev (store e (fun x =>
      with_flags (Z.land (flags x) (Z.lnot TFLAG_CANCELLED)) x) st) e).
    rewrite ev_store_eq by done. cbn [flags with_flags].
    by rewrite land_lnot_cancelled.
  - simpl. apply length_alter.
Qed.

Lemma ins_head e v q r w : e ∉ map fst q -> ins e v q = (e, w) :: r -> w = v.
Proof.
  destruct q as [|[i d] q]; simpl; [by intros _ [=]|]. intros Hne.
  destruct (v <? d); intros [=]; [done|]. subst. exfalso. apply Hne. left.
Qed.

(** Inserting into the head position leaves the head armed exactly. *)
Lemma arm_inserted st e q' fl v : wf st (e :: q') fl -> delta st e = v -> 0 < v ->
  aq (arm_head e st) (e :: q') = aq st (e :: q').
Proof.
  intros Hwf Hd Hv. destruct (arm_head_spec st e q' fl Hwf) as (_ & _ & -> & _).
  rewrite aq_cons. do 2 f_equal. lia.
Qed.

Section Settime.
Context (st : state) (q fl : list nat) (e : nat) (value : itimerspec).
Local Abbreviation v := (TIMESPEC_TO_TIMEVAL (its_value value)).

(** The first part of [timer_settime]: store the new times, block, round. *)
Definition stored : state :=
  let st := store e (with_interval (TIMESPEC_TO_TIMEVAL (its_interval value))) st in
  let st := block_timer (store e (with_value v) st) in
  store e (fun x => with_value (timerroundup (it_value x) (g_granularity st)) x) st.

Lemma stored_spec : wf st q fl -> idle st q fl e -> norm v -> 0 < us v ->
  wf stored q fl /\ norm (it_value (ev stored e)) /\ delta stored e = us v /\
  it_interval (ev stored e) = TIMESPEC_TO_TIMEVAL (its_interval value) /\
  aq stored q = aq st q /\ itimer stored = itimer st /\
  block_count stored = block_count st + 1 /\ length (heap stored) = length (heap st) /\
  func (ev stored e) = func (ev st e) /\ (forall i, i <> e -> ev stored i = ev st i).
Proof.
  intros Hwf [He [Hiq Hif]%not_elem_of_app] Hv Hpos. unfold stored.
  set (st1 := store e (with_value v) (store e _ st)).
  assert (Hval1 : ev st1 e = with_value v
    (with_interval (TIMESPEC_TO_TIMEVAL (its_interval value)) (ev st e))).
  { unfold st1. rewrite ev_store_eq by (simpl; by rewrite length_alter).
    by rewrite ev_store_eq. }
  set (st2 := store e _ (block_timer st1)).
  assert (Hval2 : ev st2 e = with_value (timerroundup v 1) (ev st1 e)).
  { unfold st2. rewrite ev_store_eq by (simpl; by rewrite !length_alter).
    change (ev (block_timer st1) e) with (ev st1 e).
    change (g_granularity (block_timer st1)) with (g_granularity st).
    by rewrite Hval1, (wf_gran _ _ _ Hwf). }
  destruct (timerroundup_1 v Hv) as [Hr Hu].
  assert (Hoth : forall i, i <> e -> ev st2 i = ev st i).
  { intros i Hi. unfold st2. rewrite ev_store_ne by done.
    change (ev (block_timer st1) i) with (ev st1 i). unfold st1. by rewrite !ev_store_ne. }
  split_and!; try done.
  - apply wf_store; [|done|done]. apply wf_block. apply wf_store; [|done|done].
    by apply wf_store.
  - by rewrite Hval2.
  - unfold delta. rewrite Hval2. simpl. lia.
  - by rewrite Hval2, Hval1.
  - apply aq_ext. intros i Hi. apply Hoth. by intros ->.
  - simpl. by rewrite !length_alter.
  - by rewrite Hval2, Hval1.
Qed.

Lemma timer_settime_unfold : wf st q fl -> idle st q fl e -> norm v -> 0 < us v ->
  timer_settime e value st =
  bind (enqueue e (resync stored)) (fun st _ =>
  bind (check_event_queue st) (fun st _ =>
  bind (if bool_decide (event_queue st = Some e)
        then arm_head_checked e st else Ret st tt) (fun st _ =>
  Ret (finish_settime e st) 0))).
Proof.
  intros Hwf [He _] Hv Hpos. unfold timer_settime.
  rewrite ev_store_eq by (simpl; by rewrite length_alter). cbn [it_value with_value].
  rewrite timerisset_us, (proj2 (Z.eqb_neq _ _)) by (done || lia). done.
Qed.

(** Arming an idle timer for a positive time: the call succeeds and the event is
    scheduled at its deadline among the pending ones. *)
Lemma timer_settime_spec :
  wf st q fl -> idle st q fl e -> norm v -> 0 < us v -> norm (itimer st) ->
  exists st' q', timer_settime e value st = Ret st' 0 /\ wf st' q' fl /\
    deadlines 0 (aq st' q') = schedule e (us v) (pending st q) /\
    itimer st' = (if bool_decide (head q' = Some e) then it_value (ev st' e) else itimer st) /\
    it_interval (ev st' e) = TIMESPEC_TO_TIMEVAL (its_interval value) /\
    is_cancelled (ev st' e) = false /\ block_count st' = block_count st /\
    length (heap st') = length (heap st) /\ func (ev st' e) = func (ev st e) /\
    (forall i, i <> e -> attrs (ev st' i) = attrs (ev st i)).
Proof.
  intros Hwf Hidle Hv Hpos Hit. rewrite timer_settime_unfold by done.
  destruct (stored_spec Hwf Hidle Hv Hpos) as
    (Hwf2 & Hn2 & Hd2 & Hint2 & Haq2 & Hit2 & Hbl2 & Hlen2 & Hfn2 & Hot2).
  destruct Hidle as [He Hi]. pose proof Hi as [Hiq Hif]%not_elem_of_app.
  destruct (resync_spec stored q fl Hwf2) as (Hwf3 & Haq3 & Henv3 & Hf3); [by rewrite Hit2|].
  set (st3 := resync stored) in *.
  assert (Hev3 : ev st3 e = ev stored e) by (by apply Hf3).
  destruct (enqueue_wf st3 e q fl) as (st4 & q' & Hr & Hwf4 & Hchk & Haq4 & Henv4 & Hf4).
  { done. }
  { split; [|done]. rewrite (se_len _ _ Henv3). lia. }
  { by rewrite Hev3. }
  rewrite Hr. cbn [bind]. rewrite Hchk. cbn [bind].
  assert (Hd3 : delta st3 e = us v) by (unfold delta; by rewrite Hev3).
  assert (Hdl : deadlines 0 (aq st4 q') = schedule e (us v) (pending st q)).
  { rewrite Haq4, deadlines_ins, Hd3, Haq3, Haq2. unfold pending, current, time_left.
    by rewrite Hit2. }
  pose proof (lseg_head _ _ _ (wf_queue _ _ _ Hwf4)) as Hhd. rewrite Hhd.
  assert (Hint4 : it_interval (ev st4 e) = TIMESPEC_TO_TIMEVAL (its_interval value)).
  { pose proof (se_attrs _ _ Henv4 e) as [= -> _ _ _]. by rewrite Hev3. }
  assert (Hfn4 : func (ev st4 e) = func (ev st e)).
  { pose proof (se_attrs _ _ Henv4 e) as [= _ -> _ _]. by rewrite Hev3. }
  assert (Hot4 : forall i, i <> e -> attrs (ev st4 i) = attrs (ev st i)).
  { intros i Hi'. rewrite (se_attrs _ _ Henv4), (se_attrs _ _ Henv3). by rewrite Hot2. }
  assert (Hlen4 : length (heap st4) = length (heap st)).
  { rewrite (se_len _ _ Henv4), (se_len _ _ Henv3). done. }
  assert (Hblk : block_count st4 = block_count st + 1).
  { rewrite (se_block _ _ Henv4), (se_block _ _ Henv3). done. }
  assert (Hitm : itimer st4 = itimer st).
  { by rewrite (se_itimer _ _ Henv4), (se_itimer _ _ Henv3), Hit2. }
  destruct (decide (head q' = Some e)) as [Hh|Hh].
  - rewrite bool_decide_eq_true_2 by done. destruct q' as [|h q']; [done|].
    injection Hh as ->.
    assert (Hd4 : delta st4 e = us v).
    { rewrite aq_cons in Haq4. symmetry in Haq4. apply ins_head in Haq4; [congruence|].
      by rewrite aq_fst. }
    destruct (arm_head_spec st4 e q' fl Hwf4) as
      (Hwf5 & Hit5 & Haq5 & Hf5 & Hat5 & Hbl5 & Hlen5 & Hr5).
    pose proof (arm_inserted st4 e q' fl (us v) Hwf4 Hd4 Hpos) as Haq6.
    rewrite Hr5. cbn [bind]. set (st5 := arm_head e st4) in *.
    destruct (finish_settime_spec st5 e (e :: q') fl Hwf5) as
      (Hwf6 & Haq7 & Hit6 & Hv6 & Hint6 & Hc6 & Hb6 & Hl6 & Hfn6 & Hot6); [lia|].
    exists (finish_settime e st5), (e :: q'). split; [done|].
    rewrite bool_decide_eq_true_2 by done. split_and!; try done.
    + by rewrite Haq7, Haq6.
    + by rewrite Hit6, Hv6.
    + rewrite Hint6. injection Hat5 as -> _ _ _. done.
    + lia.
    + lia.
    + rewrite Hfn6. injection Hat5 as _ -> _ _. done.
    + intros i Hi'. rewrite Hot6, Hf5 by done. by apply Hot4.
  - rewrite bool_decide_eq_false_2 by done. cbn [bind].
    destruct (finish_settime_spec st4 e q' fl Hwf4) as
      (Hwf6 & Haq7 & Hit6 & Hv6 & Hint6 & Hc6 & Hb6 & Hl6 & Hfn6 & Hot6); [lia|].
    exists (finish_settime e st4), q'. split; [done|].
    rewrite bool_decide_eq_false_2 by done. split_and!; try done.
    + by rewrite Haq7.
    + by rewrite Hint6.
    + lia.
    + lia.
    + by rewrite Hfn6.
    + intros i Hi'. rewrite Hot6 by done. by apply Hot4.
Qed.
End Settime.

(** * Cancelling a timer *)

Lemma find_link_found l1 l2 : forall fuel e pp st,
  lseg (heap st) (read_link st pp) (l1 ++ e :: l2) -> e ∉ l1 -> (length l1 < fuel)%nat ->
  find_link fuel e pp st = Some (Some (match last l1 with None => pp | Some x => Next x end)).
Proof.
  induction l1 as [|x l1 IH]; intros [|fuel] e pp st Hl He Hf; simpl in Hf; try lia.
  - simpl in Hl. destruct Hl as (Hp & _). cbn [find_link]. rewrite Hp.
    by rewrite Nat.eqb_refl.
  - destruct Hl as (Hp & _ & Hl). apply not_elem_of_cons in He as [Hx He].
    cbn [find_link]. rewrite Hp. rewrite (proj2 (Nat.eqb_neq _ _)) by done.
    rewrite (IH fuel e (Next x) st); [|done|done|lia].
    rewrite last_cons. by destruct (last l1).
Qed.

Lemma find_link_absent l : forall fuel e pp st,
  lseg (heap st) (read_link st pp) l -> e ∉ l -> (length l < fuel)%nat ->
  find_link fuel e pp st = Some None.
Proof.
  induction l as [|x l IH]; intros [|fuel] e pp st Hl He Hf; simpl in Hf; try lia.
  - simpl in Hl. cbn [find_link]. by rewrite Hl.
  - destruct Hl as (Hp & _ & Hl). apply not_elem_of_cons in He as [Hx He].
    cbn [find_link]. rewrite Hp. rewrite (proj2 (Nat.eqb_neq _ _)) by done.
    apply (IH fuel e (Next x) st); [done|done|lia].
Qed.

(** Taking a pending event out of the queue, without touching the times. *)
Definition unlink (e : nat) (pp : link) (st : state) : state :=
  store e (with_next None) (write_link pp (next (ev st e)) st).

Lemma unlink_wf st l1 e l2 fl : wf st (l1 ++ e :: l2) fl ->
  let st' := unlink e (link_after l1) st in
  wf st' (l1 ++ l2) fl /\ same_env st st' /\
  (forall i, it_value (ev st' i) = it_value (ev st i)).
Proof.
  intros Hwf st'. pose proof (wf_nodup_q _ _ _ Hwf) as Hnd.
  assert (Henv : same_env st st').
  { etransitivity; [apply write_link_env|apply store_next_env]. }
  assert (Hval : forall i, it_value (ev st' i) = it_value (ev st i)).
  { intros i. unfold st', unlink. rewrite (ev_store_inv it_value) by done.
    apply write_link_value. }
  assert (He : e ∉ l1 ++ l2).
  { rewrite <- Permutation_middle in Hnd. by apply NoDup_cons in Hnd as [? _]. }
  split; [|done]. eapply (wf_same_env st); eauto.
  - pose proof (lseg_remove _ _ _ _ _ (wf_queue _ _ _ Hwf) Hnd) as Hr.
    unfold st', unlink, link_after. destruct (last l1) as [x|] eqn:El.
    + by apply lseg_alter_other.
    + apply last_None in El as ->. by apply lseg_alter_other.
  - pose proof (wf_nodup _ _ _ Hwf) as H. rewrite <- Permutation_middle in H. simpl in H.
    by apply NoDup_cons in H as [_ ?].
  - intros i Hi. destruct Hwf as [_ _ Hnd' _ _ _].
    apply NoDup_app in Hnd' as (_ & Hd & _).
    assert (forall j, j ∈ l1 ++ e :: l2 -> j <> i) as Hji.
    { intros j Hj ->. by apply (Hd i). }
    unfold st', unlink, link_after. rewrite ev_store_ne.
    2: { apply Hji, elem_of_app. right. left. }
    destruct (last l1) as [x|] eqn:El; [|done]. apply (f_equal next), ev_store_ne, Hji.
    apply elem_of_app. left. by apply last_Some_elem_of.
  - intros i Hi. rewrite Hval. apply Hwf. rewrite elem_of_app, elem_of_cons.
    apply elem_of_app in Hi. tauto.
Qed.

(** The time adjustment when the head is cancelled and another event follows. *)
Definition charge (e n : nat) (st : state) : state :=
  let st := store e (fun x => with_value (timersub (it_value x) (itimer st)) x) st in
  store n (fun x => with_value (timeradd (it_value x) (it_value (ev st e))) x) st.

(** The sum that [timer_cancel] stores is a valid time even when the difference is
    negative, as long as it is not negative itself. *)
Lemma norm_charge a b c : norm a -> norm b -> norm c -> us c <= us a + us b ->
  norm (timeradd a (timersub b c)).
Proof.
  unfold norm, us, timeradd, timersub. intros Ha Hb Hc Hle.
  destruct (tv_usec b - tv_usec c <? 0) eqn:E1; propify; cbn [tv_sec tv_usec];
    (case_if; propify; cbn [tv_sec tv_usec]; lia).
Qed.

Lemma charge_ev st e n i : e <> n -> (e < length (heap st))%nat -> (n < length (heap st))%nat ->
  ev (charge e n st) i =
    if decide (i = n) then with_value (timeradd (it_value (ev st n)) (timersub (it_value (ev st e)) (itimer st))) (ev st n)
    else if decide (i = e) then with_value (timersub (it_value (ev st e)) (itimer st)) (ev st e) else ev st i.
Proof.
  intros Hne He Hn. unfold charge. set (st1 := store e _ st).
  assert (Hl : length (heap st1) = length (heap st)) by apply length_alter.
  assert (E1 : it_value (ev st1 e) = timersub (it_value (ev st e)) (itimer st)) by (unfold st1; by rewrite ev_store_eq).
  destruct (decide (i = n)) as [->|Hin].
  - rewrite ev_store_eq by (by rewrite Hl). rewrite E1. unfold st1. by rewrite ev_store_ne.
  - rewrite ev_store_ne by done. unfold st1. destruct (decide (i = e)) as [->|]; [by rewrite ev_store_eq|]. by apply ev_store_ne.
Qed.

Lemma charge_env st e n : same_env st (charge e n st).
Proof.
  constructor; try done; [simpl; by rewrite !length_alter|]. intros i. unfold charge.
  rewrite (ev_store_inv attrs) by done. by apply (ev_store_inv attrs).
Qed.

Lemma charge_spec st e n l2 fl :
  wf st (e :: n :: l2) fl -> norm (itimer st) -> us (itimer st) <= delta st e + delta st n ->
  let st' := unlink e Head (charge e n st) in
  wf st' (n :: l2) fl /\ same_env st st' /\
  aq st' (n :: l2) = (n, delta st n + (delta st e - us (itimer st))) :: aq st l2.
Proof.
  intros Hwf Hit Hle st'. pose proof (wf_nodup_q _ _ _ Hwf) as Hnd.
  assert (He : norm (it_value (ev st e))) by (apply Hwf; left).
  assert (Hn : norm (it_value (ev st n))) by (apply Hwf; right; left).
  assert (Hbe : (e < length (heap st))%nat) by (eapply lseg_bound; [apply Hwf|left]).
  assert (Hbn : (n < length (heap st))%nat) by (eapply lseg_bound; [apply Hwf|right; left]).
  apply NoDup_cons in Hnd as [[Hen Hel]%not_elem_of_cons [Hnl _]%NoDup_cons].
  destruct (unlink_wf st [] e (n :: l2) fl Hwf) as (Hwfu & Henvu & _). cbn [app] in Hwfu.
  change (link_after []) with Head in *. set (su := unlink e Head st) in *.
  assert (Hev : forall i, ev st' i = if decide (i = e) then with_next None (ev (charge e n st) e) else ev (charge e n st) i).
  { intros i. unfold st', unlink. destruct (decide (i = e)) as [->|]; [|rewrite ev_store_ne by done; reflexivity].
    rewrite ev_store_eq; [reflexivity|]. exact (eq_ind_r (fun k => (e < k)%nat) Hbe (se_len _ _ (charge_env st e n))). }
  assert (Hevu : forall i, i <> e -> ev su i = ev st i) by (intros i Hi; unfold su, unlink; rewrite ev_store_ne by done; reflexivity).
  assert (Henv : same_env st st').
  { etransitivity; [apply (charge_env st e n)|]. etransitivity; [apply (write_link_env _ Head)|apply store_next_env]. }
  assert (Hnext : forall i, i <> e -> next (ev st' i) = next (ev su i)).
  { intros i Hi. rewrite Hev, decide_False, charge_ev, Hevu by done. case_decide; [by subst|]. by rewrite decide_False. }
  assert (Hnot : forall i, i ∈ n :: l2 -> i <> e).
  { intros i Hi ->. apply elem_of_cons in Hi as [->|?]; done. }
  assert (Hfl : forall i, i ∈ fl -> i <> e).
  { intros i Hi ->. pose proof (wf_nodup _ _ _ Hwf) as H. apply NoDup_cons in H as [H _].
    by apply (not_elem_of_app (n :: l2) fl) in H as [_ ?]. }
  assert (Hval : forall i, i ∈ n :: l2 -> it_value (ev st' i) =
    if decide (i = n) then timeradd (it_value (ev st n)) (timersub (it_value (ev st e)) (itimer st)) else it_value (ev st i)).
  { intros i Hi. rewrite Hev, decide_False, charge_ev by auto. case_decide; [done|]. by rewrite decide_False by auto. }
  split_and!; [|done|].
  - apply (wf_same_env su st' (n :: l2)); [done| | |apply Hwfu| |].
    + constructor; try done; [simpl; by rewrite !length_alter|]. intros i.
      by rewrite (se_attrs _ _ Henv), (se_attrs _ _ Henvu).
    + assert (Hq : event_queue st' = event_queue su).
      { change (next (ev (charge e n st) e) = next (ev st e)). rewrite charge_ev by done. rewrite decide_False by done.
        by rewrite decide_True. }
      rewrite Hq. apply (lseg_ext (heap su)); [simpl; by rewrite !length_alter| |apply Hwfu]. intros i Hi. apply Hnext; auto.
    + intros i Hi. apply Hnext; auto.
    + intros i Hi. rewrite Hval by done. case_decide; [|apply Hwf; by right].
      apply norm_charge; [done..|]. unfold delta in Hle. lia.
  - rewrite aq_cons. f_equal.
    + f_equal. unfold delta. rewrite Hval, decide_True by (done || left). by rewrite us_timeradd, us_timersub.
    + unfold aq. apply map_ext_in. intros i Hi%list_elem_of_In. unfold delta. rewrite Hval by (by right).
      rewrite decide_False; [done|]. by intros ->.
Qed.

Definition rearm (st : state) : outcome unit :=
  match event_queue st with
  | Some q => arm_head_checked q st
  | None => Ret (setitimer timerclear st) tt
  end.

(** The kernel timer never waits less than a microsecond. *)
Definition round_head (q : list (nat * Z)) : list (nat * Z) :=
  match q with [] => [] | (i, d) :: r => (i, Z.max 1 d) :: r end.

Definition head_value (st : state) (l : list nat) : timeval :=
  match l with [] => timerclear | h :: _ => it_value (ev st h) end.

Lemma rearm_spec st l fl : wf st l fl ->
  exists st', rearm st = Ret st' tt /\ wf st' l fl /\ aq st' l = round_head (aq st l) /\
    itimer st' = head_value st' l /\ block_count st' = block_count st /\
    length (heap st') = length (heap st) /\
    (forall i, attrs (ev st' i) = attrs (ev st i)).
Proof.
  intros Hwf. unfold rearm. rewrite (lseg_head _ _ _ (wf_queue _ _ _ Hwf)).
  destruct l as [|h l]; cbn [head].
  { exists (setitimer timerclear st). split_and!; try done. by apply wf_setitimer. }
  destruct (arm_head_spec st h l fl Hwf) as (H1 & H2 & H3 & H4 & H5 & H6 & H7 & H8).
  exists (arm_head h st). split_and!; try done.
  intros i. destruct (decide (i = h)) as [->|]; [done|]. by rewrite H4.
Qed.

(** The delta queue after [timer_cancel], before the head is rounded. *)
Definition cancelled_queue (st : state) (l1 : list nat) (e : nat) (l2 : list nat)
  : list (nat * Z) :=
  match l1, l2 with
  | [], n :: r => (n, delta st n + (delta st e - us (itimer st))) :: aq st r
  | _, _ => aq st (l1 ++ l2)
  end.

(** The head adjustment of [timer_cancel], on the states it applies to. *)
Definition adjust (e : nat) (st : state) : state :=
  match next (ev st e) with
  | Some n => if bool_decide (event_queue st = Some e) then charge e n st else st
  | None => st
  end.

(** The room that the follower of a cancelled head needs. *)
Definition room (st : state) (l1 : list nat) (e : nat) (l2 : list nat) : Prop :=
  match l1, l2 with [], n :: _ => us (itimer st) <= delta st e + delta st n | _, _ => True end.

Lemma adjust_spec st l1 e l2 fl :
  wf st (l1 ++ e :: l2) fl -> norm (itimer st) -> room st l1 e l2 ->
  let st' := unlink e (link_after l1) (adjust e st) in
  wf st' (l1 ++ l2) fl /\ same_env st st' /\ aq st' (l1 ++ l2) = cancelled_queue st l1 e l2.
Proof.
  intros Hwf Hit Hle. unfold adjust. pose proof (wf_queue _ _ _ Hwf) as Hq.
  assert (Hnext : next (ev st e) = head l2).
  { pose proof (lseg_link (heap st) (event_queue st) (l1 ++ [e]) l2) as H.
    rewrite <- app_assoc, last_snoc in H. exact (H Hq). }
  rewrite Hnext, (lseg_head _ _ _ Hq). destruct (unlink_wf st l1 e l2 fl Hwf) as (Hwfu & Henvu & Hvu).
  destruct l2 as [|n l2]; cbn [head].
  { split_and!; [done|done|]. rewrite (aq_values st) by done. by destruct l1. }
  destruct l1 as [|h l1]; cbn [app head].
  - rewrite bool_decide_eq_true_2 by done. by apply charge_spec.
  - rewrite bool_decide_eq_false_2.
    + split_and!; [done|done|]. by rewrite (aq_values st) by done.
    + intros [= ->]. apply wf_nodup_q in Hwf. apply NoDup_cons in Hwf as [Hx _]. apply Hx.
      apply elem_of_app. right. left.
Qed.

Lemma lor_cancelled x : negb (Z.land (Z.lor x TFLAG_CANCELLED) TFLAG_CANCELLED =? 0) = true.
Proof.
  apply negb_true_iff, Z.eqb_neq. intros H. apply (f_equal (fun y => Z.testbit y 0)) in H.
  rewrite Z.land_spec, Z.lor_spec in H. change (Z.testbit TFLAG_CANCELLED 0) with true in H.
  rewrite orb_true_r in H. done.
Qed.

(** The last step of [timer_cancel]. *)
Definition finish_cancel (e : nat) (st : state) : state :=
  unblock_timer (store e (fun x => with_flags (Z.lor (flags x) TFLAG_CANCELLED) x) st).

Lemma finish_cancel_spec st e q fl : wf st q fl -> (e < length (heap st))%nat ->
  let st' := finish_cancel e st in
  wf st' q fl /\ (forall i, it_value (ev st' i) = it_value (ev st i)) /\
  itimer st' = itimer st /\ is_cancelled (ev st' e) = true /\
  flags (ev st' e) = Z.lor (flags (ev st e)) TFLAG_CANCELLED /\
  (forall i, i <> e -> ev st' i = ev st i) /\ block_count st' = block_count st - 1 /\
  length (heap st') = length (heap st).
Proof.
  intros Hwf He st'.
  assert (Hfl : flags (ev st' e) = Z.lor (flags (ev st e)) TFLAG_CANCELLED).
  { unfold st'. change (ev (finish_cancel e st) e) with
      (ev (store e (fun x => with_flags (Z.lor (flags x) TFLAG_CANCELLED) x) st) e).
    by rewrite ev_store_eq. }
  split_and!; try done.
  - apply wf_block, wf_store; [done|done|]. intros. by apply Hwf.
  - intros i. by apply (ev_store_inv it_value).
  - unfold is_cancelled. rewrite Hfl. apply lor_cancelled.
  - intros i Hi. by apply ev_store_ne.
  - simpl. apply length_alter.
Qed.

Lemma head_value_ext st st' l :
  (forall i, it_value (ev st' i) = it_value (ev st i)) -> head_value st' l = head_value st l.
Proof. intros. destruct l; simpl; auto. Qed.

(** Cancelling a pending timer: what [timer_cancel] leaves behind. *)
Lemma timer_cancel_spec st l1 e l2 fl :
  wf st (l1 ++ e :: l2) fl -> is_cancelled (ev st e) = false -> norm (itimer st) ->
  room st l1 e l2 ->
  exists st', timer_cancel e st = Ret st' tt /\ wf st' (l1 ++ l2) fl /\
    aq st' (l1 ++ l2) = round_head (cancelled_queue st l1 e l2) /\
    itimer st' = head_value st' (l1 ++ l2) /\ is_cancelled (ev st' e) = true /\
    flags (ev st' e) = Z.lor (flags (ev st e)) TFLAG_CANCELLED /\
    block_count st' = block_count st /\ length (heap st') = length (heap st) /\
    (forall i, i <> e -> attrs (ev st' i) = attrs (ev st i)) /\
    (forall i, setup (ev st' i) = setup (ev st i)).
Proof.
  intros Hwf Hc Hit Hle. unfold timer_cancel. rewrite Hc.
  set (st1 := block_timer st). assert (Hwf1 : wf st1 (l1 ++ e :: l2) fl) by (by apply wf_block).
  pose proof (wf_nodup_q _ _ _ Hwf1) as Hnd. pose proof (wf_queue _ _ _ Hwf1) as Hq1.
  assert (He1 : e ∉ l1).
  { rewrite <- Permutation_middle in Hnd. apply NoDup_cons in Hnd as [H _].
    by apply not_elem_of_app in H as [? _]. }
  assert (Heb : (e < length (heap st))%nat).
  { eapply (lseg_bound _ _ _ _ Hq1). apply elem_of_app. right. left. }
  rewrite (find_link_found l1 l2); [|done|done|].
  2: { pose proof (lseg_length _ _ _ Hq1 Hnd) as H. rewrite length_app in H. simpl in *. lia. }
  fold (link_after l1). fold (adjust e st1).
  destruct (adjust_spec st1 l1 e l2 fl Hwf1 Hit Hle) as (Hwf3 & Henv3 & Haq3).
  unfold unlink in Hwf3, Henv3, Haq3. set (st3 := store e (with_next None) _) in *.
  change (match event_queue st3 with Some q => arm_head_checked q st3
          | None => Ret (setitimer timerclear st3) tt end) with (rearm st3).
  destruct (rearm_spec st3 _ fl Hwf3) as (st4 & Hr & Hwf4 & Haq4 & Hit4 & Hb4 & Hl4 & Hat4).
  rewrite Hr. cbn [bind].
  assert (Hlen4 : length (heap st4) = length (heap st)).
  { rewrite Hl4, (se_len _ _ Henv3). done. }
  destruct (finish_cancel_spec st4 e _ fl Hwf4) as (Hwf5 & Hv5 & Hit5 & Hc5 & Hf5 & Ho5 & Hb5 & Hl5);
    [lia|].
  assert (Hatt : forall i, attrs (ev st4 i) = attrs (ev st i)).
  { intros i. rewrite Hat4, (se_attrs _ _ Henv3). done. }
  exists (finish_cancel e st4). split_and!; try done.
  - rewrite (aq_values st4) by done. rewrite Haq4. f_equal. exact Haq3.
  - rewrite Hit5, Hit4. symmetry. by apply head_value_ext.
  - rewrite Hf5. by rewrite (attrs_flags _ _ (Hatt e)).
  - rewrite Hb5, Hb4, (se_block _ _ Henv3). simpl. lia.
  - congruence.
  - intros i Hi. rewrite Ho5 by done. apply Hatt.
  - intros i. unfold finish_cancel. change (ev (unblock_timer ?x) i) with (ev x i).
    rewrite (ev_store_inv setup) by done. apply attrs_setup, Hatt.
Qed.

(** Cancelling a timer that is not pending only marks it. *)
Lemma timer_cancel_idle st q fl e :
  wf st q fl -> e ∉ q -> (e < length (heap st))%nat -> is_cancelled (ev st e) = false ->
  exists st', timer_cancel e st = Ret st' tt /\ wf st' q fl /\ aq st' q = aq st q /\
    itimer st' = itimer st /\ is_cancelled (ev st' e) = true /\
    flags (ev st' e) = Z.lor (flags (ev st e)) TFLAG_CANCELLED /\
    block_count st' = block_count st /\ length (heap st') = length (heap st) /\
    (forall i, i <> e -> attrs (ev st' i) = attrs (ev st i)) /\
    (forall i, setup (ev st' i) = setup (ev st i)).
Proof.
  intros Hwf He Hb Hc. unfold timer_cancel. rewrite Hc.
  assert (Hwf1 : wf (block_timer st) q fl) by (by apply wf_block).
  pose proof (wf_nodup_q _ _ _ Hwf1) as Hnd. pose proof (wf_queue _ _ _ Hwf1) as Hq1.
  rewrite (find_link_absent q); [|done|done|].
  2: { pose proof (lseg_length _ _ _ Hq1 Hnd). lia. }
  cbn [bind].
  destruct (finish_cancel_spec (block_timer st) e q fl Hwf1) as
    (Hwf5 & Hv5 & Hit5 & Hc5 & Hf5 & Ho5 & Hb5 & Hl5); [done|].
  exists (finish_cancel e (block_timer st)). split_and!; try done.
  - by apply aq_values.
  - rewrite Hb5. simpl. lia.
  - intros i Hi. by rewrite Ho5.
  - intros i. exact (ev_store_inv setup (block_timer st) e (fun x => with_flags (Z.lor (flags x) TFLAG_CANCELLED) x) i ltac:(done)).
Qed.

(** * The remaining operations keep the invariant *)

Lemma lseg_seq h k n : length h = (k + n)%nat ->
  (forall i, (k <= i < k + n)%nat ->
    next (deref h i) = if (S i <? k + n)%nat then Some (S i) else None) ->
  lseg h (if (n =? 0)%nat then None else Some k) (seq k n).
Proof.
  revert k. induction n as [|n IH]; intros k Hl Hn; [done|]. cbn [seq lseg Nat.eqb].
  split; [done|]. split; [lia|]. rewrite Hn by lia.
  specialize (IH (S k)). destruct n as [|n].
  - rewrite (proj2 (Nat.ltb_ge _ _)) by lia. done.
  - rewrite (proj2 (Nat.ltb_lt _ _)) by lia. apply IH; [lia|]. intros i Hi.
    rewrite Hn by lia. by replace (S k + S n)%nat with (k + S (S n))%nat by lia.
Qed.

Lemma init_wf st readback n :
  0 < n < 2 ^ 31 -> readback = 0 \/ readback = 1 -> event_queue st = None ->
  exists st', init_event_queue true readback n st = (st', 0) /\
    wf st' [] (seq 0 (Z.to_nat n)) /\ itimer st' = timerclear /\
    forall i, it_interval (ev st' i) = timerclear.
Proof.
  intros Hn Hr Hq. unfold init_event_queue.
  destruct (_ || _) eqn:E; [propify; destruct E as [E|E]; propify; [lia|]|].
  { change ((2 ^ 64 - 1) / 56) with 329406144173384850 in E. lia. }
  clear E. cbn [negb]. eexists. split; [done|]. split; [|split; [done|]].
  2: { intros i. unfold ev, deref. cbn [heap]. change (map ?f ?l) with (f <$> l). rewrite list_lookup_fmap.
       by destruct (seq 0 (Z.to_nat n) !! i). }
  set (h := map _ _).
  assert (Hlen : length h = Z.to_nat n) by (unfold h; by rewrite length_map, length_seq).
  constructor; cbn [heap event_queue event_freelist g_maxevents g_granularity].
  - by rewrite Hq.
  - replace (Some 0%nat) with (if (Z.to_nat n =? 0)%nat then None else Some 0%nat)
      by (destruct (Nat.eqb_spec (Z.to_nat n) 0); [lia|done]).
    apply lseg_seq; [lia|]. intros i Hi. unfold deref, h.
    rewrite list_lookup_fmap, lookup_seq_lt by lia. simpl.
    destruct (Z.of_nat i <? n - 1) eqn:E1; destruct (S i <? Z.to_nat n)%nat eqn:E2;
      propify; try lia; [|done]. f_equal. lia.
  - simpl. apply NoDup_seq.
  - lia.
  - by destruct Hr as [-> | ->].
  - by intros i ?%elem_of_nil.
Qed.

Lemma timer_create_wf st q e fl : wf st q (e :: fl) ->
  exists st', timer_create true true st = Ret st' e /\ wf st' q fl /\
    idle st' q fl e /\ flags (ev st' e) = TFLAG_NONE /\ aq st' q = aq st q /\
    itimer st' = itimer st /\ length (heap st') = length (heap st) /\
    (forall i, i <> e -> ev st' i = ev st i) /\ setup (ev st' e) = setup (ev st e).
Proof.
  intros Hwf. pose proof Hwf as [Hq (Hf & Hb & Hfl) Hnd Hm Hg Hn].
  assert (He : (e ∉ q ++ fl) /\ NoDup (q ++ fl)).
  { rewrite <- Permutation_middle in Hnd. by apply NoDup_cons in Hnd. }
  destruct He as [He Hnd']. pose proof He as [Heq Hefl]%not_elem_of_app.
  unfold timer_create. cbn [negb]. rewrite Hf.
  set (st1 := store e (with_flags TFLAG_NONE) st).
  assert (Hn1 : next (ev st1 e) = next (ev st e)) by (by apply (ev_store_inv next)).
  set (st2 := store e (with_next None) (set_freelist (next (ev st1 e)) st1)).
  assert (Hwf2 : wf st2 q fl).
  { constructor; try done.
    - apply lseg_alter_other; [done|]. by apply lseg_alter_keep.
    - cbn [event_freelist st2 store set_heap set_freelist]. rewrite Hn1.
      apply lseg_alter_other; [done|]. by apply lseg_alter_keep.
    - simpl. by rewrite !length_alter.
    - intros i Hi. unfold st2. rewrite ev_store_ne by (by intros ->).
      change (ev (set_freelist _ ?x) i) with (ev x i). unfold st1.
      rewrite ev_store_ne by (by intros ->). auto. }
  rewrite (check_event_queue_ok st2 q); [|apply Hwf2|by eapply wf_nodup_q|apply Hwf2].
  cbn [bind]. exists st2. split_and!; try done.
  - split; [|done]. simpl. by rewrite !length_alter.
  - unfold st2. rewrite (ev_store_inv flags) by done.
    change (flags (ev st1 e) = TFLAG_NONE). unfold st1. by rewrite ev_store_eq.
  - apply aq_values. intros i. unfold st2. rewrite (ev_store_inv it_value) by done.
    by apply (ev_store_inv it_value).
  - simpl. by rewrite !length_alter.
  - intros i Hi. unfold st2. rewrite ev_store_ne by done.
    change (ev (set_freelist _ ?x) i) with (ev x i). by apply ev_store_ne.
  - unfold st2. rewrite (ev_store_inv setup) by done.
    change (setup (ev st1 e) = setup (ev st e)). by apply (ev_store_inv setup).
Qed.

Lemma timer_connect_wf st q fl e f a : wf st q fl ->
  exists st', timer_connect e (Some f) a st = Ret st' 0 /\ wf st' q fl /\
    aq st' q = aq st q /\ itimer st' = itimer st.
Proof.
  intros Hwf. unfold timer_connect. rewrite bool_decide_eq_true_2 by done. cbn.
  eexists. split; [done|]. split_and!; [|..|done].
  - apply wf_store; [done|done|]. intros. by apply Hwf.
  - apply aq_values. intros i. by apply (ev_store_inv it_value).
Qed.

Lemma push_free_wf st q fl e : wf st q fl -> idle st q fl e ->
  wf (set_freelist (Some e) (store e (with_next (event_freelist st)) st)) q (e :: fl).
Proof.
  intros [Hq Hf Hnd Hm Hg Hn] [He Hi]. pose proof Hi as [Hiq Hif]%not_elem_of_app.
  constructor; try done.
  - by apply lseg_alter_other.
  - cbn [event_freelist set_freelist heap store set_heap lseg]. split; [done|].
    split; [by rewrite length_alter|]. rewrite deref_alter_eq by done.
    by apply lseg_alter_other.
  - rewrite <- Permutation_middle. by apply NoDup_cons.
  - simpl. by rewrite length_alter.
  - intros i Hi'. change (ev (set_freelist _ ?x) i) with (ev x i).
    rewrite ev_store_ne by (by intros ->). auto.
Qed.

(** The tail of [timer_delete], after the cancellation. *)
Lemma delete_tail_wf st q fl e : wf st q fl -> idle st q fl e ->
  let st1 := store e (fun x => with_flags (Z.lor (flags x) TFLAG_DELETED) x) st in
  let st' := set_freelist (Some e) (store e (with_next (event_freelist st1)) st1) in
  wf st' q (e :: fl) /\ aq st' q = aq st q /\ itimer st' = itimer st /\
  length (heap st') = length (heap st) /\ (forall i, i <> e -> ev st' i = ev st i) /\
  setup (ev st' e) = setup (ev st e) /\ flags (ev st' e) = Z.lor (flags (ev st e)) TFLAG_DELETED.
Proof.
  intros Hwf [He Hi] st1 st'.
  assert (Hwf1 : wf st1 q fl) by (apply wf_store; [done|done|]; intros; by apply Hwf).
  assert (Hev : forall i, ev st' i = ev (store e (with_next (event_freelist st1)) st1) i) by done.
  split_and!; [| |done|..].
  - apply push_free_wf; [done|]. split; [|done]. simpl. by rewrite length_alter.
  - apply aq_values. intros i. rewrite Hev.
    rewrite (ev_store_inv it_value) by done. by apply (ev_store_inv it_value).
  - simpl. by rewrite !length_alter.
  - intros i Hi'. rewrite Hev, ev_store_ne by done. by apply ev_store_ne.
  - rewrite Hev, (ev_store_inv setup) by done. by apply (ev_store_inv setup).
  - rewrite Hev, (ev_store_inv flags) by done. unfold st1. by rewrite ev_store_eq.
Qed.

Lemma cancel_all_loop_wf q : forall fuel st fl,
  wf st q fl -> (length q < fuel)%nat ->
  exists st', cancel_all_loop fuel st = Some st' /\ wf st' [] fl /\ same_env st st'.
Proof.
  induction q as [|e q IH]; intros [|fuel] st fl Hwf Hf; simpl in Hf; try lia.
  - exists st. cbn [cancel_all_loop]. by rewrite (wf_queue _ _ _ Hwf).
  - cbn [cancel_all_loop]. rewrite (lseg_head _ _ _ (wf_queue _ _ _ Hwf)). cbn [head].
    destruct (unlink_wf st [] e q fl Hwf) as (Hwf' & Henv & _).
    destruct (IH fuel (unlink e Head st) fl Hwf') as (st' & Hr & Hw & Hit); [lia|].
    exists st'. split_and!; [done|done|]. by etransitivity.
Qed.

Lemma timer_cancel_all_wf st q fl : wf st q fl ->
  exists st', timer_cancel_all st = Ret st' tt /\ wf st' [] fl /\ same_env (setitimer timerclear st) st'.
Proof.
  intros Hwf. unfold timer_cancel_all.
  destruct (cancel_all_loop_wf q (S (length (heap st))) (setitimer timerclear st) fl)
    as (st' & Hr & Hw & Hit).
  - by apply wf_setitimer.
  - pose proof (lseg_length _ _ _ (wf_queue _ _ _ Hwf) (wf_nodup_q _ _ _ Hwf)). lia.
  - change (length (heap (setitimer timerclear st))) with (length (heap st)).
    rewrite Hr. by exists st'.
Qed.

(** * The alarm *)

Definition recurring (e : event) : bool :=
  negb (is_cancelled e) && timerisset (it_interval e).

(** A recurring event goes back on the queue, one interval from now. *)
Definition requeue (h : nat) (st : state) : outcome unit :=
  let st := store h (fun e => with_value (it_interval e) e) st in
  enqueue h (store h (fun e => with_value (timerroundup (it_value e) (g_granularity st)) e) st).

Lemma requeue_spec st h q fl : wf st q fl -> idle st q fl h -> norm (it_interval (ev st h)) ->
  exists st' q', requeue h st = Ret st' tt /\ wf st' q' fl /\ check_event_queue st' = Ret st' tt /\
    aq st' q' = ins h (Z.max 1 (us (it_interval (ev st h)))) (aq st q) /\ same_env st st'.
Proof.
  intros Hwf [Hb Hidle] Hni. unfold requeue. pose proof Hidle as [Hiq Hif]%not_elem_of_app.
  set (st2 := store h (fun e => with_value (it_interval e) e) st).
  set (st3 := store h (fun e => with_value (timerroundup (it_value e) (g_granularity st2)) e) st2).
  assert (Hwf3 : wf st3 q fl) by (apply wf_store; [|done|done]; by apply wf_store).
  assert (Hv3 : it_value (ev st3 h) = timerroundup (it_interval (ev st h)) 1).
  { unfold st3. rewrite ev_store_eq by (simpl; by rewrite length_alter).
    cbn [it_value with_value]. unfold st2. rewrite ev_store_eq by done.
    cbn [it_value with_value]. f_equal. apply Hwf. }
  destruct (timerroundup_1 _ Hni) as [Hn3 Hu3].
  destruct (enqueue_wf st3 h q fl) as (st4 & q' & Hr & Hwf4 & Hchk & Haq4 & Henv4 & _).
  { done. }
  { split; [|done]. unfold st3, st2, store, set_heap. cbn [heap]. by rewrite !length_alter. }
  { by rewrite Hv3. }
  exists st4, q'. split_and!; [done|done|done|..].
  - rewrite Haq4. unfold delta at 1. rewrite Hv3, Hu3. f_equal. apply aq_ext.
    intros i Hi. assert (h <> i) by (by intros ->). unfold st3, st2. by rewrite !ev_store_ne by done.
  - etransitivity; [|exact Henv4].
    constructor; try done; [simpl; by rewrite !length_alter|]. intros i.
    unfold st3. rewrite (ev_store_inv attrs) by done. by apply (ev_store_inv attrs).
Qed.

Section Fire.
(** Callbacks that do not call back into the timer module. *)
Context (callback : nat -> nat -> Z -> state -> state).
Hypothesis callback_quiet : forall f e a st, callback f e a st = st.

(** The delta queue after the head [h] has fired. *)
Definition fired_queue (st : state) (h : nat) (q : list nat) : list (nat * Z) :=
  if recurring (ev st h)
  then ins h (Z.max 1 (us (it_interval (ev st h)))) (aq st q) else aq st q.

Lemma fire_head_spec st h q fl f :
  wf st (h :: q) fl -> func (ev st h) = Some f -> norm (it_interval (ev st h)) ->
  exists st' q', fire_head callback h st = Ret st' tt /\ wf st' q' fl /\
    aq st' q' = fired_queue st h q /\ same_env st st'.
Proof.
  intros Hwf Hf Hni. unfold fire_head.
  destruct (unlink_wf st [] h q fl Hwf) as (Hwf1 & Henv1 & Hv1). cbn [app] in Hwf1.
  change (store h (with_next None) (set_queue (next (ev st h)) st)) with (unlink h Head st).
  change (link_after []) with Head in *. set (st1 := unlink h Head st) in *.
  pose proof (se_attrs _ _ Henv1 h) as [= Hint1 Hfn1 _ Hfl1].
  rewrite Hfn1, Hf, callback_quiet.
  assert (Hrec : negb (is_cancelled (ev st1 h)) && timerisset (it_interval (ev st1 h))
    = recurring (ev st h)).
  { unfold recurring, is_cancelled. by rewrite Hint1, Hfl1. }
  rewrite Hrec. unfold fired_queue. destruct (recurring (ev st h)).
  2: { cbn [bind]. exists st1, q. split_and!; try done; [|by apply aq_values].
       eapply check_event_queue_ok; [apply Hwf1|by eapply wf_nodup_q|apply Hwf1]. }
  destruct (requeue_spec st1 h q fl Hwf1) as (st4 & q' & Hr & Hwf4 & Hchk & Haq4 & Henv4).
  { split; [rewrite (se_len _ _ Henv1); eapply lseg_bound; [apply Hwf|left]|].
    destruct Hwf as [_ _ Hnd _ _ _]. by apply NoDup_cons in Hnd as [? _]. }
  { by rewrite Hint1. }
  unfold requeue in Hr. rewrite Hr. cbn [bind]. exists st4, q'. split_and!; [done|done|..].
  - rewrite Haq4, Hint1. f_equal. by apply aq_values.
  - by etransitivity.
Qed.

Lemma arm_head_unchecked st h q fl : wf st (h :: q) fl ->
  exists st', arm_head h st = st' /\ wf st' (h :: q) fl /\
    aq st' (h :: q) = round_head (aq st (h :: q)) /\ itimer st' = it_value (ev st' h) /\
    block_count st' = block_count st /\ length (heap st') = length (heap st) /\
    (forall i, attrs (ev st' i) = attrs (ev st i)).
Proof.
  intros Hwf. destruct (arm_head_spec st h q fl Hwf) as (? & ? & ? & Ho & Ha & ? & ? & _).
  exists (arm_head h st). split_and!; try done.
  intros i. destruct (decide (i = h)) as [->|]; [done|]. by rewrite Ho.
Qed.

(** One alarm: the head fires once; a recurring event is put back. *)
Lemma alarm_handler_spec st h q fl f rounds :
  wf st (h :: q) fl -> func (ev st h) = Some f -> norm (it_interval (ev st h)) ->
  exists st' q', alarm_handler callback (S rounds) st = Ret st' tt /\ wf st' q' fl /\
    aq st' q' = round_head (fired_queue st h q) /\
    itimer st' = match q' with [] => itimer st | i :: _ => it_value (ev st' i) end /\
    block_count st' = block_count st /\ length (heap st') = length (heap st) /\
    (forall i, attrs (ev st' i) = attrs (ev st i)).
Proof.
  intros Hwf Hf Hni. unfold alarm_handler.
  assert (Hwf0 : wf (block_timer st) (h :: q) fl) by (by apply wf_block).
  rewrite (lseg_head _ _ _ (wf_queue _ _ _ Hwf0)). cbn [head fire_loop].
  destruct (fire_head_spec (block_timer st) h q fl f Hwf0 Hf Hni) as
    (st1 & q' & Hr & Hwf1 & Haq1 & Henv1).
  rewrite Hr. cbn [bind]. rewrite (lseg_head _ _ _ (wf_queue _ _ _ Hwf1)).
  assert (Hb1 : block_count st1 = block_count st + 1) by (by rewrite (se_block _ _ Henv1)).
  destruct q' as [|i q']; cbn [head].
  - cbn [bind]. rewrite (lseg_head _ _ _ (wf_queue _ _ _ Hwf1)). cbn [head].
    exists (unblock_timer st1), []. split_and!; [done|..].
    + by apply wf_block.
    + change (fired_queue (block_timer st) h q) with (fired_queue st h q) in Haq1.
      by rewrite <- Haq1.
    + exact (se_itimer _ _ Henv1).
    + simpl. lia.
    + exact (se_len _ _ Henv1).
    + exact (se_attrs _ _ Henv1).
  - assert (Hi : norm (it_value (ev st1 i))) by (apply Hwf1; left).
    rewrite (wf_gran _ _ _ Hwf). change (1 ÷ 2) with 0.
    assert (timer_lt (it_value (ev st1 i)) (mk_tv 0 0) = false) as ->.
    { rewrite timer_lt_us by (done || (unfold norm; simpl; lia)). apply Z.ltb_ge.
      unfold norm, us in *. simpl. lia. }
    cbn [bind]. rewrite (lseg_head _ _ _ (wf_queue _ _ _ Hwf1)). cbn [head].
    destruct (arm_head_unchecked st1 i q' fl Hwf1) as
      (st2 & -> & Hwf2 & Haq2 & Hit2 & Hb2 & Hl2 & Hat2).
    exists (unblock_timer st2), (i :: q'). split_and!; [done|..].
    + by apply wf_block.
    + change (aq (unblock_timer st2) (i :: q')) with (aq st2 (i :: q')).
      rewrite Haq2. f_equal. exact Haq1.
    + exact Hit2.
    + simpl. lia.
    + simpl. rewrite Hl2. exact (se_len _ _ Henv1).
    + intros j. change (ev (unblock_timer st2) j) with (ev st2 j). rewrite Hat2.
      exact (se_attrs _ _ Henv1 j).
Qed.
End Fire.

End TimerQueue.
