(* ===== verification/TimerSpec.v ===== *)
(** What the timer module of linux_timer.c promises: the theorems about
    [timer_settime], [timer_cancel] and [alarm_handler] against the deadlines of
    TimerQueue.v, and the safety of every legal sequence of calls. *)

From Stdlib Require Import ZArith Lia.
From stdpp Require Import base list.
From S2P Require Import Prelude LinuxTimer TimerQueue.

Local Open Scope Z_scope.
Import LinuxTimer TimerQueue.

Module TimerSpec.

(** * Legal use of the module *)

Inductive op :=
  | Create
  | Connect (e f : nat) (a : Z)
  | Settime (e : nat) (value : itimerspec)
  | Change (e : nat) (value : itimerspec)
  | Cancel (e : nat)
  | Delete (e : nat)
  | CancelAll
  | Elapse (t : timeval)      (* the kernel timer runs down to [t] *)
  | Alarm.

Definition ignore {A} (m : outcome A) : outcome unit := bind m (fun st _ => Ret st tt).

Section Trace.
Context (callback : nat -> nat -> Z -> state -> state).

Definition run (o : op) (st : state) : outcome unit :=
  match o with
  | Create => ignore (bcm_timer_create st)
  | Connect e f a => ignore (bcm_timer_connect e (Some f) a st)
  | Settime e value => ignore (bcm_timer_settime e value st)
  | Change e value => Ret (bcm_timer_change_expirytime e value st).1 tt
  | Cancel e => ignore (bcm_timer_cancel e st)
  | Delete e => ignore (bcm_timer_delete e st)
  | CancelAll => timer_cancel_all st
  | Elapse t => Ret (setitimer t st) tt
  | Alarm => alarm_handler callback 1 st
  end.

(** An event that may be on the queue: connected and not marked as cancelled. *)
Definition ready (e : event) : Prop := func e <> None /\ is_cancelled e = false.

Definition armed (st : state) (q : list nat) : Prop :=
  match q with [] => True | h :: _ => us (itimer st) <= delta st h end.

(** What holds of the events: those on the queue are ready, all intervals are valid times,
    and no event on the free list would be put back on the queue. *)
Record sound (st : state) (q fl : list nat) : Prop := {
  so_wf : wf st q fl;
  so_itimer : norm (itimer st);
  so_ready : forall i, i ∈ q -> ready (ev st i);
  so_interval : forall i, norm (it_interval (ev st i));
  so_free : forall i, i ∈ fl -> recurring (ev st i) = false }.

Record inv (st : state) (q fl : list nat) : Prop := {
  inv_sound : sound st q fl;
  inv_armed : armed st q }.

(** The head of the queue can be disarmed when nothing follows, or what follows is at
    least as far behind it as the time that is left. *)
Definition disarmable (st : state) (q : list nat) (e : nat) : Prop :=
  match q with h :: n :: _ => h = e -> us (itimer st) <= delta st n | _ => True end.

Definition quiet : Prop := forall f e a st, callback f e a st = st.

(** The calling discipline. A timer is created while the pool lasts, connected before it is
    armed, and not used once deleted; times are valid; it is armed only while it is not
    pending, and disarmed (by a zero time) at any moment except as the head of a queue
    whose second event is close behind. The expiry of a timer is changed in place only
    while it is not pending. An alarm comes when the kernel timer has run out, or later,
    with less than the second event's time left; still later ones are for callbacks that do
    nothing to the module. *)
Definition legal (st : state) (o : op) : Prop :=
  exists q fl, wf st q fl /\
  match o with
  | Create => fl <> []
  | Connect e _ _ => (e < length (heap st))%nat
  | Settime e value =>
      let v := TIMESPEC_TO_TIMEVAL (its_value value) in
      norm (TIMESPEC_TO_TIMEVAL (its_interval value)) /\ norm v /\
      if us v =? 0 then (e < length (heap st))%nat /\ (e ∉ fl) /\ disarmable st q e
      else idle st q fl e /\ func (ev st e) <> None
  | Change e value => idle st q fl e /\ norm (TIMESPEC_TO_TIMEVAL (its_interval value))
  | Cancel e | Delete e => (e < length (heap st))%nat /\ e ∉ fl
  | CancelAll => True
  | Elapse t => norm t /\ us t <= us (itimer st)
  | Alarm => armed st (tail q) \/ quiet
  end.

(** What a callback may do: legal calls of the module, in any number, alarms aside (they
    are blocked while it runs). *)
Inductive calls : state -> state -> Prop :=
  | calls_done st : calls st st
  | calls_step st o st1 st2 :
      o <> Alarm -> legal st o -> run o st = Ret st1 tt -> calls st1 st2 -> calls st st2.

(** A callback called for the timer [e], which is off the queue, makes legal calls only and
    does not leave its own timer both pending and recurring. *)
Definition orderly : Prop := forall f e a st q fl,
  inv st q fl -> idle st q fl e -> func (ev st e) = Some f ->
  let st' := callback f e a st in
  calls st st' /\
  (recurring (ev st' e) = true -> forall q' fl', wf st' q' fl' -> e ∉ q').

Inductive reachable (readback n : Z) : state -> Prop :=
  | reach_init st st' :
      event_queue st = None -> init_event_queue true readback n st = (st', 0) ->
      reachable readback n st'
  | reach_step st o st' :
      reachable readback n st -> legal st o -> run o st = Ret st' tt ->
      reachable readback n st'.

(** ** Each call preserves the invariant *)

Lemma wf_fun st q fl q' fl' : wf st q fl -> wf st q' fl' -> q = q' /\ fl = fl'.
Proof. intros [] []. split; eapply lseg_fun; eauto. Qed.

Lemma attrs_eqs e e' : attrs e' = attrs e ->
  (ready e -> ready e') /\ recurring e' = recurring e /\ it_interval e' = it_interval e /\ func e' = func e.
Proof. unfold ready, recurring, is_cancelled. by intros [= -> -> _ ->]. Qed.

Lemma setup_eqs e e' : setup e' = setup e -> it_interval e' = it_interval e /\ func e' = func e.
Proof. by intros [= -> -> _]. Qed.

Lemma armed_head st q : itimer st = head_value st q -> armed st q.
Proof. destruct q; simpl; [done|]. intros ->. unfold delta. lia. Qed.

Lemma armed_keep st st' q : armed st q -> aq st' q = aq st q -> itimer st' = itimer st -> armed st' q.
Proof.
  unfold armed. destruct q as [|h q]; [done|]. rewrite !aq_cons. intros Ha [= -> _] ->. exact Ha.
Qed.

Lemma norm_head st q fl : wf st q fl -> norm (head_value st q).
Proof.
  intros Hwf. destruct q; simpl; [unfold norm; simpl; lia|]. apply Hwf. left.
Qed.

(** A call changes the attributes of one event at most. *)
Lemma sound_step e st st' q q' fl fl' : sound st q fl -> wf st' q' fl' -> norm (itimer st') ->
  (forall i, i <> e -> attrs (ev st' i) = attrs (ev st i)) ->
  (forall i, i ∈ q' -> i = e \/ i ∈ q) -> (forall i, i ∈ fl' -> i = e \/ i ∈ fl) ->
  norm (it_interval (ev st' e)) -> (e ∈ q' -> ready (ev st' e)) ->
  (e ∈ fl' -> recurring (ev st' e) = false) -> sound st' q' fl'.
Proof.
  intros [Hwf Hn Hr Hi Hf] Hwf' Hn' Ha Hq Hfl H1 H2 H3. constructor; [done|done|..].
  - intros i Hiq. destruct (decide (i = e)) as [->|Hne]; [auto|].
    destruct (attrs_eqs _ _ (Ha i Hne)) as (Hrd & _). apply Hrd, Hr. by destruct (Hq i Hiq).
  - intros i. destruct (decide (i = e)) as [->|Hne]; [auto|].
    destruct (attrs_eqs _ _ (Ha i Hne)) as (_ & _ & -> & _). apply Hi.
  - intros i Hifl. destruct (decide (i = e)) as [->|Hne]; [auto|].
    destruct (attrs_eqs _ _ (Ha i Hne)) as (_ & -> & _). apply Hf. by destruct (Hfl i Hifl).
Qed.

(** A call that changes no attributes. *)
Lemma sound_same st st' q q' fl : sound st q fl -> wf st' q' fl -> norm (itimer st') ->
  (forall i, attrs (ev st' i) = attrs (ev st i)) -> (forall i, i ∈ q' -> i ∈ q) -> sound st' q' fl.
Proof.
  intros Hs Hwf Hn Ha Hq. destruct (attrs_eqs _ _ (Ha 0%nat)) as (Hrd & Hrc & Hin & _).
  eapply (sound_step 0); [done..|by intros i _| | | | |]; [auto|auto|..].
  - rewrite Hin. by apply (so_interval _ _ _ Hs).
  - intros H. by apply Hrd, (so_ready _ _ _ Hs), Hq.
  - intros H. rewrite Hrc. by apply (so_free _ _ _ Hs).
Qed.

(** Connected timers stay connected. *)
Definition kept (st st' : state) : Prop :=
  length (heap st') = length (heap st) /\ forall i, func (ev st i) <> None -> func (ev st' i) <> None.

Lemma kept_refl st : kept st st.
Proof. by split. Qed.

Lemma kept_trans st1 st2 st3 : kept st1 st2 -> kept st2 st3 -> kept st1 st3.
Proof. intros [H1 H2] [H3 H4]. split; [congruence|auto]. Qed.

Lemma kept_step e st st' : length (heap st') = length (heap st) ->
  (forall i, i <> e -> attrs (ev st' i) = attrs (ev st i)) ->
  (func (ev st e) <> None -> func (ev st' e) <> None) -> kept st st'.
Proof.
  intros Hl Ha He. split; [done|]. intros i. destruct (decide (i = e)) as [->|Hne]; [done|].
  by destruct (attrs_eqs _ _ (Ha i Hne)) as (_ & _ & _ & ->).
Qed.

Lemma idle_not_pending st q fl e : idle st q fl e -> (e ∉ q) /\ (e ∉ fl).
Proof. intros [_ [? ?]%not_elem_of_app]. done. Qed.

Lemma settime_armed st q fl e value st' q' :
  let v := TIMESPEC_TO_TIMEVAL (its_value value) in
  armed st q -> norm (itimer st) ->
  deadlines 0 (aq st' q') = schedule e (us v) (pending st q) ->
  itimer st' = (if bool_decide (head q' = Some e) then it_value (ev st' e) else itimer st) ->
  wf st q fl -> armed st' q'.
Proof.
  intros v Ha Hn Hd Hit Hwf. destruct q' as [|h q']; [done|]. simpl in *.
  destruct (decide (h = e)) as [->|Hne].
  { rewrite bool_decide_eq_true_2 in Hit by done. rewrite Hit. unfold delta. lia. }
  rewrite bool_decide_eq_false_2 in Hit by congruence. rewrite Hit.
  unfold pending, current in Hd. destruct q as [|i q]; simpl in Hd.
  { injection Hd as -> _. done. }
  simpl in Ha. unfold time_left in Hd.
  assert (Hz : 0 <= us (itimer st)) by (unfold norm, us in *; lia).
  destruct (us v <? _); [injection Hd as -> _; done|]. injection Hd as _ Hd _.
  destruct (us (itimer st) =? 0) eqn:E; propify; lia.
Qed.

Lemma deadlines_fst t l : map fst (deadlines t l) = map fst l.
Proof. revert t. induction l as [|[i d] l IH]; intros t; simpl; f_equal; auto. Qed.

Lemma schedule_fst e v l : Permutation (map fst (schedule e v l)) (e :: map fst l).
Proof.
  induction l as [|[i d] l IH]; simpl; [done|]. case_if; simpl; [done|].
  rewrite IH. apply Permutation_swap.
Qed.

Lemma current_fst st l : map fst (current st l) = map fst l.
Proof. by destruct l as [|[i d] l]. Qed.

Lemma settime_members st q e v st' q' :
  deadlines 0 (aq st' q') = schedule e v (pending st q) ->
  forall i, i ∈ q' -> i = e \/ i ∈ q.
Proof.
  intros Hd i Hi. apply (f_equal (map fst)) in Hd. rewrite deadlines_fst, aq_fst in Hd.
  rewrite Hd, schedule_fst, elem_of_cons in Hi. unfold pending in Hi.
  by rewrite deadlines_fst, current_fst, aq_fst in Hi.
Qed.

Lemma inv_settime st q fl e value : inv st q fl -> idle st q fl e ->
  func (ev st e) <> None -> norm (TIMESPEC_TO_TIMEVAL (its_interval value)) ->
  norm (TIMESPEC_TO_TIMEVAL (its_value value)) ->
  0 < us (TIMESPEC_TO_TIMEVAL (its_value value)) ->
  exists st' q', timer_settime e value st = Ret st' 0 /\ inv st' q' fl /\ kept st st'.
Proof.
  intros [Hs Ha] Hi Hf Hni Hnv Hpos. pose proof (so_itimer _ _ _ Hs) as Hn.
  destruct (timer_settime_spec st q fl e value (so_wf _ _ _ Hs) Hi Hnv Hpos Hn) as
    (st' & q' & Hret & Hwf' & Hd & Hit & Hint & Hc & Hb & Hl & Hfn & Hat).
  exists st', q'. split_and!; [done| |apply (kept_step e); [done..|by rewrite Hfn]].
  split; [|by apply (settime_armed st q fl e value st' q'); [..|apply Hs]].
  apply (sound_step e st st' q q' fl fl); [done|done| |done|by eapply settime_members|auto|..].
  - rewrite Hit. case_if; [|done]. propify. destruct q' as [|h q']; [done|].
    injection E as ->. apply Hwf'. left.
  - by rewrite Hint.
  - intros _. split; [by rewrite Hfn|done].
  - intros H. by apply idle_not_pending in Hi as [_ ?].
Qed.

(** Cancelling, from a state in which the cancelled event may be late. *)
Lemma inv_cancel_late st q fl e : sound st q fl -> (e ∉ q -> armed st q) ->
  (forall l, q = e :: l -> room st [] e l) -> (e < length (heap st))%nat -> e ∉ fl ->
  exists st' q', timer_cancel e st = Ret st' tt /\ inv st' q' fl /\ idle st' q' fl e /\
    is_cancelled (ev st' e) = true /\ kept st st'.
Proof.
  intros Hs Ha Hroom He Hfl. pose proof Hs as [Hwf Hn Hr Hint _].
  destruct (is_cancelled (ev st e)) eqn:Hc.
  { assert (Hq : e ∉ q) by (intros Hq; destruct (Hr e Hq); congruence).
    exists st, q. unfold timer_cancel. rewrite Hc. split_and!; [done| | |done|apply kept_refl].
    - split; auto.
    - split; [done|]. by apply not_elem_of_app. }
  destruct (decide (e ∈ q)) as [Hq|Hq].
  - apply list_elem_of_split in Hq as (l1 & l2 & ->).
    destruct (timer_cancel_spec st l1 e l2 fl Hwf Hc Hn) as
      (st' & Hret & Hwf' & Haq & Hit & Hc' & Hfl' & Hb & Hl & Hat & Hset).
    { destruct l1; [by apply Hroom|done]. }
    assert (Hnot : e ∉ l1 ++ l2).
    { pose proof (wf_nodup_q _ _ _ Hwf) as Hnd. rewrite <- Permutation_middle in Hnd.
      by apply NoDup_cons in Hnd as [? _]. }
    destruct (setup_eqs _ _ (Hset e)) as [Hse Hfe].
    exists st', (l1 ++ l2). split_and!; [done| | |done|apply (kept_step e); [done..|by rewrite Hfe]].
    + split; [|by apply armed_head].
      apply (sound_step e st st' (l1 ++ e :: l2) (l1 ++ l2) fl fl); [done|done| |done| |auto|by rewrite Hse|done|done].
      * rewrite Hit. by eapply norm_head.
      * intros i Hi. right. rewrite elem_of_app, elem_of_cons. apply elem_of_app in Hi. tauto.
    + split; [lia|]. by apply not_elem_of_app.
  - destruct (timer_cancel_idle st q fl e Hwf Hq He Hc) as
      (st' & Hret & Hwf' & Haq & Hit & Hc' & Hfl' & Hb & Hl & Hat & Hset).
    destruct (setup_eqs _ _ (Hset e)) as [Hse Hfe].
    exists st', q. split_and!; [done| | |done|apply (kept_step e); [done..|by rewrite Hfe]].
    + split; [|by eapply armed_keep; auto].
      apply (sound_step e st st' q q fl fl); [done|done|by rewrite Hit|done|auto|auto|by rewrite Hse|done|done].
    + split; [lia|]. by apply not_elem_of_app.
Qed.

Lemma inv_cancel st q fl e : inv st q fl -> (e < length (heap st))%nat -> e ∉ fl ->
  exists st' q', timer_cancel e st = Ret st' tt /\ inv st' q' fl /\ idle st' q' fl e /\
    is_cancelled (ev st' e) = true /\ kept st st'.
Proof.
  intros [Hs Ha] He Hfl. apply (inv_cancel_late st q fl e); [done|done| |done|done].
  intros [|n l] ->; [done|]. simpl in *. unfold delta in *.
  assert (norm (it_value (ev st n))) by (apply Hs; right; left). unfold norm, us in *. lia.
Qed.

Lemma store_times st e value q fl : sound st q fl ->
  norm (TIMESPEC_TO_TIMEVAL (its_interval value)) -> (e < length (heap st))%nat -> e ∉ fl ->
  (e ∈ q -> norm (TIMESPEC_TO_TIMEVAL (its_value value))) ->
  let st' := (timer_change_settime e value st).1 in
  sound st' q fl /\ kept st st' /\ it_value (ev st' e) = TIMESPEC_TO_TIMEVAL (its_value value) /\
  itimer st' = itimer st /\ length (heap st') = length (heap st) /\ forall i, i <> e -> ev st' i = ev st i.
Proof.
  intros Hs Hni He Hfl Hnv st'. unfold timer_change_settime in st'. cbn [fst] in st'.
  set (st1 := store e (with_interval _) st) in *.
  assert (Hl1 : length (heap st1) = length (heap st)) by apply length_alter.
  assert (Hl : length (heap st') = length (heap st)) by (simpl; by rewrite !length_alter).
  assert (Hoth : forall i, i <> e -> ev st' i = ev st i).
  { intros i Hi. unfold st', st1. by rewrite !ev_store_ne by done. }
  assert (Hev : ev st' e = with_value (TIMESPEC_TO_TIMEVAL (its_value value))
    (with_interval (TIMESPEC_TO_TIMEVAL (its_interval value)) (ev st e))).
  { unfold st'. rewrite ev_store_eq by lia. unfold st1. by rewrite ev_store_eq. }
  assert (Hwf : wf st' q fl).
  { apply wf_store; [|done|done]. apply wf_store; [apply Hs|done|]. intros H. by apply Hs. }
  split_and!; [| |by rewrite Hev|done|done|done].
  - apply (sound_step e st st' q q fl fl); [done|done|apply Hs|intros i Hi; by rewrite Hoth|auto|auto|..].
    + by rewrite Hev.
    + intros H. rewrite Hev. exact (so_ready _ _ _ Hs e H).
    + done.
  - apply (kept_step e); [done|intros i Hi; by rewrite Hoth|]. by rewrite Hev.
Qed.

(** Disarming: a zero time cancels the timer. *)
Lemma inv_disarm st q fl e value : inv st q fl -> norm (TIMESPEC_TO_TIMEVAL (its_interval value)) ->
  norm (TIMESPEC_TO_TIMEVAL (its_value value)) -> us (TIMESPEC_TO_TIMEVAL (its_value value)) = 0 ->
  (e < length (heap st))%nat -> e ∉ fl -> disarmable st q e ->
  exists st' q', timer_settime e value st = Ret st' 0 /\ inv st' q' fl /\ kept st st'.
Proof.
  intros [Hs Ha] Hni Hnv Hz He Hfl Hd.
  destruct (store_times st e value q fl Hs Hni He Hfl (fun _ => Hnv)) as (Hs1 & Hk1 & Hv1 & Hit1 & Hl1 & Ho1).
  unfold timer_settime. set (st1 := (timer_change_settime e value st).1) in *.
  change (store e (with_value (TIMESPEC_TO_TIMEVAL (its_value value)))
    (store e (with_interval (TIMESPEC_TO_TIMEVAL (its_interval value))) st)) with st1. cbv zeta.
  rewrite Hv1, timerisset_us, Hz by done. cbn [Z.eqb negb].
  destruct (inv_cancel_late st1 q fl e Hs1) as (st' & q' & -> & Hinv & _ & _ & Hk).
  - intros Hq. eapply armed_keep; [done| |done]. apply aq_ext. intros i Hi. apply Ho1. by intros ->.
  - intros [|n l] ->; [done|]. unfold disarmable in Hd. unfold room, delta in *. rewrite Hv1, Hz, Hit1, Ho1.
    + by rewrite Z.add_0_l; auto.
    + intros ->. pose proof (wf_nodup_q _ _ _ (so_wf _ _ _ Hs)) as Hnd. apply NoDup_cons in Hnd as [Hnd _].
      apply Hnd. left.
  - lia.
  - done.
  - exists st', q'. split_and!; [done|done|]. by eapply kept_trans.
Qed.

Lemma inv_change st q fl e value : inv st q fl -> idle st q fl e ->
  norm (TIMESPEC_TO_TIMEVAL (its_interval value)) ->
  let st' := (timer_change_settime e value st).1 in inv st' q fl /\ kept st st'.
Proof.
  intros [Hs Ha] Hi Hni. destruct (idle_not_pending _ _ _ _ Hi) as [Hq Hfl].
  destruct (store_times st e value q fl Hs Hni) as (Hs1 & Hk1 & _ & Hit1 & _ & Ho1); [apply Hi|done|done|].
  split; [|done]. split; [done|]. eapply armed_keep; [done| |done]. apply aq_ext. intros i H. apply Ho1. by intros ->.
Qed.

Lemma lor_keeps x y : Z.land x TFLAG_CANCELLED <> 0 -> Z.land (Z.lor x y) TFLAG_CANCELLED <> 0.
Proof.
  intros H E. apply H. apply Z.bits_inj'. intros n Hn. apply (f_equal (fun z => Z.testbit z n)) in E.
  rewrite Z.land_spec, Z.lor_spec, Z.bits_0 in E. rewrite Z.land_spec, Z.bits_0.
  destruct (Z.testbit x n), (Z.testbit TFLAG_CANCELLED n); done.
Qed.

Lemma inv_delete st q fl e : inv st q fl -> (e < length (heap st))%nat -> e ∉ fl ->
  exists st' q' fl' r, timer_delete e st = Ret st' r /\ inv st' q' fl' /\ kept st st'.
Proof.
  intros Hinv He Hfl. unfold timer_delete.
  destruct (is_deleted (ev st e)); [exists st, q, fl, 1; split_and!; [done|done|apply kept_refl]|].
  destruct (inv_cancel st q fl e Hinv He Hfl) as (st1 & q' & -> & [Hs1 Ha1] & Hidle & Hc1 & Hk1).
  cbn [bind]. destruct (delete_tail_wf st1 q' fl e (so_wf _ _ _ Hs1) Hidle) as (Hwf & Haq & Hit & Hl & Ho & Hse & Hfl').
  eexists _, q', (e :: fl), 0. split; [done|]. set (st2 := set_freelist _ _) in *.
  destruct (setup_eqs _ _ Hse) as [Hse1 Hse2]. apply idle_not_pending in Hidle as [Hnq _].
  split.
  - split; [|by eapply armed_keep].
    apply (sound_step e st1 st2 q' q' fl (e :: fl)); [done|done|apply Hs1|intros i Hi; by rewrite Ho|auto| |..].
    + by intros i [->|?]%elem_of_cons; auto.
    + rewrite Hse1. apply Hs1.
    + done.
    + intros _. unfold recurring, is_cancelled. rewrite Hfl'. unfold is_cancelled in Hc1.
      apply negb_true_iff, Z.eqb_neq in Hc1. apply (lor_keeps _ TFLAG_DELETED), Z.eqb_neq in Hc1. by rewrite Hc1.
  - eapply kept_trans; [done|]. apply (kept_step e); [done|intros i Hi; by rewrite Ho|by rewrite Hse2].
Qed.

Lemma inv_create st q fl : inv st q fl -> fl <> [] ->
  exists st' e fl', timer_create true true st = Ret st' e /\ inv st' q fl' /\ kept st st'.
Proof.
  intros [Hs Ha] Hfl. destruct fl as [|e fl]; [done|].
  destruct (timer_create_wf st q e fl (so_wf _ _ _ Hs)) as
    (st' & Hret & Hwf & Hidle & Hf & Haq & Hit & Hl & Ho & Hse).
  destruct (setup_eqs _ _ Hse) as [Hse1 Hse2]. apply idle_not_pending in Hidle as [Hnq Hnfl].
  exists st', e, fl. split_and!; [done| |apply (kept_step e); [done|intros i Hi; by rewrite Ho|by rewrite Hse2]].
  split; [|by eapply armed_keep].
  apply (sound_step e st st' q q (e :: fl) fl); [done|done|rewrite Hit; apply Hs|intros i Hi; by rewrite Ho|auto| |..].
  - intros i Hi. right. by right.
  - rewrite Hse1. apply Hs.
  - done.
  - done.
Qed.

Lemma inv_connect st q fl e f a : inv st q fl -> (e < length (heap st))%nat ->
  exists st', timer_connect e (Some f) a st = Ret st' 0 /\ inv st' q fl /\ kept st st'.
Proof.
  intros [Hs Ha] He.
  destruct (timer_connect_wf st q fl e f a (so_wf _ _ _ Hs)) as (st' & Hret & Hwf & Haq & Hit).
  exists st'. split; [done|]. injection Hret as Hst.
  assert (Ho : forall i, i <> e -> ev st' i = ev st i) by (intros i Hi; rewrite <- Hst; by apply ev_store_ne).
  assert (Hev : ev st' e = with_func (Some f) a (ev st e)) by (rewrite <- Hst; by apply ev_store_eq).
  split.
  - split; [|by eapply armed_keep].
    apply (sound_step e st st' q q fl fl); [done|done|rewrite Hit; apply Hs|intros i Hi; by rewrite Ho|auto|auto|..]; rewrite Hev.
    + apply (so_interval _ _ _ Hs e).
    + intros H. split; [done|]. apply (so_ready _ _ _ Hs e H).
    + intros H. exact (so_free _ _ _ Hs e H).
  - apply (kept_step e); [rewrite <- Hst; apply length_alter|intros i Hi; by rewrite Ho|by rewrite Hev].
Qed.

Lemma inv_cancel_all st q fl : inv st q fl ->
  exists st', timer_cancel_all st = Ret st' tt /\ inv st' [] fl /\ kept st st'.
Proof.
  intros [Hs Ha]. destruct (timer_cancel_all_wf _ _ _ (so_wf _ _ _ Hs)) as (st' & Hr & Hwf' & Henv).
  exists st'. split_and!; [done| |].
  - split; [|done]. apply (sound_same st st' q); [done|done| |apply (se_attrs _ _ Henv)|by intros i ?%elem_of_nil].
    rewrite (se_itimer _ _ Henv). unfold norm. simpl. lia.
  - apply (kept_step 0); [apply (se_len _ _ Henv)|intros i _; apply (se_attrs _ _ Henv)|].
    by destruct (attrs_eqs _ _ (se_attrs _ _ Henv 0%nat)) as (_ & _ & _ & ->).
Qed.

Lemma inv_elapse st q fl t : inv st q fl -> norm t -> us t <= us (itimer st) ->
  inv (setitimer t st) q fl /\ kept st (setitimer t st).
Proof.
  intros [Hs Ha] Ht Hle. split; [|by split]. split.
  - apply (sound_same st _ q); [done|apply wf_setitimer, Hs|done|done|done].
  - unfold armed in *. destruct q as [|h q]; [done|].
    change (delta (setitimer t st) h) with (delta st h). simpl. lia.
Qed.

(** Every legal call but an alarm. *)
Lemma inv_call st q fl o : o <> Alarm -> inv st q fl -> legal st o ->
  exists st' q' fl', run o st = Ret st' tt /\ inv st' q' fl' /\ kept st st'.
Proof.
  intros Ho Hinv (q0 & fl0 & Hwf & Hl).
  destruct (wf_fun _ _ _ _ _ (so_wf _ _ _ (inv_sound _ _ _ Hinv)) Hwf) as [-> ->].
  destruct o as [|e f a|e value|e value|e|e| |t|]; cbn [run]; [..|done].
  - destruct (inv_create _ _ _ Hinv Hl) as (st' & e & fl' & Hr & ?).
    unfold bcm_timer_create. rewrite Hr. by eexists _, _, _.
  - destruct (inv_connect _ _ _ e f a Hinv Hl) as (st' & Hr & ?).
    unfold bcm_timer_connect. rewrite Hr. by eexists _, _, _.
  - destruct Hl as (Hni & Hnv & Hl). unfold bcm_timer_settime. destruct (us _ =? 0) eqn:Hz; propify.
    + destruct Hl as (He & Hfl & Hd).
      destruct (inv_disarm _ _ _ _ _ Hinv Hni Hnv Hz He Hfl Hd) as (st' & q' & Hr & ?). rewrite Hr. by eexists _, _, _.
    + destruct Hl as [Hi Hf].
      destruct (inv_settime _ _ _ _ _ Hinv Hi Hf Hni Hnv) as (st' & q' & Hr & ?); [unfold norm, us in *; lia|].
      rewrite Hr. by eexists _, _, _.
  - destruct Hl as [Hi Hni]. destruct (inv_change _ _ _ _ value Hinv Hi Hni). by eexists _, _, _.
  - destruct Hl as [He Hfl].
    destruct (inv_cancel _ _ _ _ Hinv He Hfl) as (st' & q' & Hr & ? & _ & _ & ?).
    unfold bcm_timer_cancel. rewrite Hr. by eexists _, _, _.
  - destruct Hl as [He Hfl].
    destruct (inv_delete _ _ _ _ Hinv He Hfl) as (st' & q' & fl' & r & Hr & ?).
    unfold bcm_timer_delete. rewrite Hr. by eexists _, _, _.
  - destruct (inv_cancel_all _ _ _ Hinv) as (st' & Hr & ?). by eexists _, _, _.
  - destruct Hl as [Ht Hle]. eexists _, _, _. split; [done|]. by apply (inv_elapse _ q0 fl0).
Qed.

Lemma inv_calls st st' : calls st st' -> forall q fl, inv st q fl ->
  exists q' fl', inv st' q' fl' /\ kept st st'.
Proof.
  induction 1 as [st|st o st1 st2 Ho Hl Hr _ IH]; intros q fl Hinv; [exists q, fl; split; [done|apply kept_refl]|].
  destruct (inv_call st q fl o Ho Hinv Hl) as (st1' & q1 & fl1 & Hr' & Hinv1 & Hk). rewrite Hr in Hr'. injection Hr' as <-.
  destruct (IH q1 fl1 Hinv1) as (q2 & fl2 & Hinv2 & Hk2). exists q2, fl2. split; [done|]. by eapply kept_trans.
Qed.

(** ** The alarm *)

Lemma fired_members st h q st' q' : aq st' q' = fired_queue st h q -> forall i, i ∈ q' -> i ∈ h :: q.
Proof.
  intros Haq i Hi. apply (f_equal (map fst)) in Haq. rewrite aq_fst in Haq. subst q'. unfold fired_queue in Hi.
  destruct (recurring _); [by rewrite ins_perm, aq_fst in Hi|]. rewrite aq_fst in Hi. by right.
Qed.

Lemma fire_quiet st h q fl : quiet -> sound st (h :: q) fl ->
  exists st' q' fl', fire_head callback h st = Ret st' tt /\ sound st' q' fl'.
Proof.
  intros Hcb Hs. destruct (so_ready _ _ _ Hs h) as [Hf _]; [left|]. destruct (func (ev st h)) as [f|] eqn:Ef; [|done].
  destruct (fire_head_spec callback Hcb st h q fl f (so_wf _ _ _ Hs) Ef (so_interval _ _ _ Hs h)) as
    (st' & q' & Hr & Hwf & Haq & Henv).
  exists st', q', fl. split; [done|].
  apply (sound_same st st' (h :: q)); [done|done|rewrite (se_itimer _ _ Henv); apply Hs|apply (se_attrs _ _ Henv)|by eapply fired_members].
Qed.

(** The head fires, its callback makes its calls, and it goes back on the queue when it is
    still recurring. *)
Lemma fire_orderly st h q fl : orderly -> sound st (h :: q) fl -> armed st q ->
  exists st' q' fl', fire_head callback h st = Ret st' tt /\ sound st' q' fl'.
Proof.
  intros Hcb Hs Ha. pose proof (so_wf _ _ _ Hs) as Hwf.
  destruct (unlink_wf st [] h q fl Hwf) as (Hwf1 & Henv1 & Hv1). cbn [app] in Hwf1.
  change (link_after []) with Head in *. unfold fire_head.
  change (store h (with_next None) (set_queue (next (ev st h)) st)) with (unlink h Head st).
  set (st1 := unlink h Head st) in *.
  assert (Hi1 : idle st1 q fl h).
  { split; [rewrite (se_len _ _ Henv1); eapply lseg_bound; [apply Hwf|left]|].
    pose proof (wf_nodup _ _ _ Hwf) as H. by apply NoDup_cons in H as [? _]. }
  assert (Hinv1 : inv st1 q fl).
  { split.
    - apply (sound_same st st1 (h :: q)); [done|done|rewrite (se_itimer _ _ Henv1); apply Hs|apply (se_attrs _ _ Henv1)|].
      intros i Hi. by right.
    - eapply armed_keep; [done|by apply aq_values|apply (se_itimer _ _ Henv1)]. }
  destruct (so_ready _ _ _ Hs h) as [Hf _]; [left|].
  destruct (attrs_eqs _ _ (se_attrs _ _ Henv1 h)) as (_ & _ & _ & Hfn).
  rewrite <- Hfn in Hf. destruct (func (ev st1 h)) as [f|] eqn:Ef; [|done].
  destruct (Hcb f h (arg (ev st1 h)) st1 q fl Hinv1 Hi1 Ef) as [Hcalls Hown].
  set (st2 := callback _ _ _ st1) in *. destruct (inv_calls _ _ Hcalls q fl Hinv1) as (q2 & fl2 & [Hs2 _] & [Hl2 Hk2]).
  pose proof (so_wf _ _ _ Hs2) as Hwf2. fold (recurring (ev st2 h)). destruct (recurring (ev st2 h)) eqn:Er.
  - destruct (requeue_spec st2 h q2 fl2 Hwf2) as (st4 & q' & Hr & Hwf4 & Hchk & Haq4 & Henv4).
    { split; [rewrite Hl2; apply Hi1|]. apply not_elem_of_app. split; [by eapply Hown|].
      intros H. rewrite (so_free _ _ _ Hs2 h H) in Er. done. }
    { apply Hs2. }
    unfold requeue in Hr. rewrite Hr. cbn [bind]. exists st4, q', fl2. split; [done|].
    destruct (attrs_eqs _ _ (se_attrs _ _ Henv4 h)) as (_ & Hrc & Hin & Hfn4).
    apply (sound_step h st2 st4 q2 q' fl2 fl2); [done|done|rewrite (se_itimer _ _ Henv4); apply Hs2| | |auto|..].
    + intros i _. apply (se_attrs _ _ Henv4).
    + intros i Hi. apply (f_equal (map fst)) in Haq4. rewrite aq_fst in Haq4. subst q'.
      rewrite ins_perm, aq_fst in Hi. by apply elem_of_cons in Hi.
    + rewrite Hin. apply Hs2.
    + intros _. split; [rewrite Hfn4; apply Hk2; by rewrite Ef|].
      rewrite <- Hrc in Er. unfold recurring in Er. apply andb_true_iff in Er as [Er _]. by apply negb_true_iff.
    + intros H. rewrite Hrc. apply Hs2. done.
  - cbn [bind]. exists st2, q2, fl2. split; [|done].
    eapply check_event_queue_ok; [apply Hwf2|by eapply wf_nodup_q|apply Hwf2].
Qed.

(** The rest of the handler: with a granularity of a microsecond one event fires. *)
Lemma alarm_rest st h q fl st1 q1 fl1 : wf st (h :: q) fl ->
  fire_head callback h (block_timer st) = Ret st1 tt -> sound st1 q1 fl1 ->
  exists st', alarm_handler callback 1 st = Ret st' tt /\ inv st' q1 fl1.
Proof.
  intros Hwf Hr Hs. pose proof (so_wf _ _ _ Hs) as Hwf1. unfold alarm_handler.
  change (event_queue (block_timer st)) with (event_queue st).
  rewrite (lseg_head _ _ _ (wf_queue _ _ _ Hwf)). cbn [head fire_loop].
  rewrite Hr. cbn [bind]. rewrite (lseg_head _ _ _ (wf_queue _ _ _ Hwf1)). destruct q1 as [|i q1]; cbn [head].
  - cbn [bind]. rewrite (lseg_head _ _ _ (wf_queue _ _ _ Hwf1)). cbn [head].
    exists (unblock_timer st1). split; [done|]. split; [|done].
    apply (sound_same st1 _ []); [done|by apply wf_block|apply Hs|done|done].
  - assert (Hi : norm (it_value (ev st1 i))) by (apply Hwf1; left).
    rewrite (wf_gran _ _ _ Hwf). change (1 ÷ 2) with 0.
    assert (timer_lt (it_value (ev st1 i)) (mk_tv 0 0) = false) as ->.
    { rewrite timer_lt_us by (done || (unfold norm; simpl; lia)). apply Z.ltb_ge.
      unfold norm, us in *. simpl. lia. }
    cbn [bind]. rewrite (lseg_head _ _ _ (wf_queue _ _ _ Hwf1)). cbn [head].
    destruct (arm_head_unchecked st1 i q1 fl1 Hwf1) as
      (st2 & -> & Hwf2 & Haq2 & Hit2 & Hb2 & Hl2 & Hat2).
    exists (unblock_timer st2). split; [done|]. split.
    + apply (sound_same st1 _ (i :: q1)); [done|by apply wf_block| |done|done].
      change (norm (itimer st2)). rewrite Hit2. apply Hwf2. left.
    + change (us (itimer st2) <= delta st2 i). rewrite Hit2. unfold delta. lia.
Qed.

Lemma inv_alarm st q fl : orderly -> inv st q fl -> armed st (tail q) \/ quiet ->
  exists st' q' fl', alarm_handler callback 1 st = Ret st' tt /\ inv st' q' fl'.
Proof.
  intros Hcb [Hs Ha] Hl. pose proof (so_wf _ _ _ Hs) as Hwf. destruct q as [|h q].
  { exists (unblock_timer (block_timer st)), [], fl. unfold alarm_handler.
    change (event_queue (block_timer st)) with (event_queue st).
    rewrite (lseg_head _ _ _ (wf_queue _ _ _ Hwf)). cbn [head]. split; [done|].
    split; [|done]. apply (sound_same st _ []); [done|by apply wf_block, wf_block|apply Hs|done|done]. }
  assert (Hs0 : sound (block_timer st) (h :: q) fl).
  { apply (sound_same st _ (h :: q)); [done|by apply wf_block|apply Hs|done|done]. }
  assert (exists st1 q1 fl1, fire_head callback h (block_timer st) = Ret st1 tt /\ sound st1 q1 fl1) as (st1 & q1 & fl1 & Hr & Hs1).
  { destruct Hl as [Hl|Hl]; [by apply (fire_orderly _ h q fl)|by apply (fire_quiet _ h q fl)]. }
  destruct (alarm_rest st h q fl st1 q1 fl1 Hwf Hr Hs1) as (st' & H1 & H2). by exists st', q1, fl1.
Qed.

Lemma inv_step st q fl o : orderly -> inv st q fl -> legal st o ->
  exists st' q' fl', run o st = Ret st' tt /\ inv st' q' fl'.
Proof.
  intros Hcb Hinv Hl. assert (o = Alarm \/ o <> Alarm) as [->|Ho] by (destruct o; auto).
  - destruct Hl as (q0 & fl0 & Hwf & Hl).
    destruct (wf_fun _ _ _ _ _ (so_wf _ _ _ (inv_sound _ _ _ Hinv)) Hwf) as [-> ->]. by apply (inv_alarm st q0 fl0).
  - destruct (inv_call st q fl o Ho Hinv Hl) as (st' & q' & fl' & H1 & H2 & _). by exists st', q', fl'.
Qed.

End Trace.

(** A pending head with enough time for the kernel timer leaves room for its follower. *)
Lemma armed_room st l1 e l2 fl : wf st (l1 ++ e :: l2) fl -> armed st (l1 ++ e :: l2) -> room st l1 e l2.
Proof.
  intros Hwf Ha. destruct l1; [|done]. destruct l2 as [|n l2]; [done|]. simpl in *.
  assert (norm (it_value (ev st n))) by (apply Hwf; right; left). unfold delta, norm, us in *. lia.
Qed.

(** * Theorems *)

(** C1: the timer module under a calling discipline ([legal]): timers are created while the
    pool lasts and not used once deleted; they are armed with a positive time only while not
    pending and connected; they are disarmed, by [timer_cancel] at any time or by a zero
    time, the latter not for the head of a queue whose second event is due within the time
    that is left ([disarm_head_faults]); callbacks make such calls themselves, in any
    number, but do not re-arm their own timer as a recurring one. Then from
    [init_event_queue] on any sequence of calls and alarms keeps the queue and the free list
    two disjoint acyclic lists over the event array, with the kernel timer set for at most
    the head's time; and every further such call returns: no walk diverges, no assertion
    fails and the loop detector never exits. *)
Theorem timer_module_safe (callback : nat -> nat -> Z -> state -> state)
  (readback n : Z) (st : state) :
  orderly callback ->
  0 < n < 2 ^ 31 -> readback = 0 \/ readback = 1 -> reachable callback readback n st ->
  (exists q fl, inv st q fl) /\
  (forall o, legal callback st o -> exists st', run callback o st = Ret st' tt).
Proof.
  intros Hcb Hn Hr Hreach.
  assert (exists q fl, inv st q fl) as (q & fl & Hinv).
  { induction Hreach as [st st' Hq Hi|st o st' _ (q & fl & Hinv) Hl Hrun].
    - destruct (init_wf st readback n Hn Hr Hq) as (st1 & Hi' & Hwf & Hit & Hev).
      rewrite Hi' in Hi. injection Hi as <-. exists [], (seq 0 (Z.to_nat n)). split; [|by apply armed_head].
      constructor; [done|rewrite Hit; unfold norm; simpl; lia|by intros i ?%elem_of_nil|..]; intros i; rewrite ?Hev.
      + unfold norm. simpl. lia.
      + intros _. unfold recurring. rewrite Hev. by rewrite andb_false_r.
    - destruct (inv_step callback st q fl o Hcb Hinv Hl) as (st1 & q' & fl' & Hr' & ?).
      rewrite Hr' in Hrun. injection Hrun as <-. by eexists _, _. }
  split; [by eexists _, _|]. intros o Hl.
  destruct (inv_step callback st q fl o Hcb Hinv Hl) as (st1 & _ & _ & Hr' & _). by exists st1.
Qed.

(** C22: [timer_settime] on an idle timer with a positive time succeeds, puts the
    event among the pending ones at its deadline (after those that expire no
    later), leaves every other deadline as it was, and keeps the kernel timer
    running for the head of the queue. *)
Theorem timer_settime_schedules (st : state) (q fl : list nat) (e : nat) (value : itimerspec) :
  let v := TIMESPEC_TO_TIMEVAL (its_value value) in
  wf st q fl -> idle st q fl e -> norm v -> 0 < us v -> norm (itimer st) ->
  exists st' q', timer_settime e value st = Ret st' 0 /\ wf st' q' fl /\
    deadlines 0 (aq st' q') = schedule e (us v) (pending st q) /\
    itimer st' = (if bool_decide (head q' = Some e) then it_value (ev st' e) else itimer st) /\
    it_interval (ev st' e) = TIMESPEC_TO_TIMEVAL (its_interval value) /\
    is_cancelled (ev st' e) = false /\ block_count st' = block_count st.
Proof.
  intros v Hwf Hi Hn Hpos Hit.
  destruct (timer_settime_spec st q fl e value Hwf Hi Hn Hpos Hit) as
    (st' & q' & H1 & H2 & H3 & H4 & H5 & H6 & H7 & _). by exists st', q'.
Qed.

(** [timer_cancel] on a pending timer takes exactly that timer out of the
    queue, keeps the order of the others, marks it cancelled and re-arms the
    kernel timer for the new head (or stops it when none is left). *)
Theorem timer_cancel_removes (st : state) (l1 : list nat) (e : nat) (l2 fl : list nat) :
  wf st (l1 ++ e :: l2) fl -> is_cancelled (ev st e) = false -> norm (itimer st) ->
  armed st (l1 ++ e :: l2) ->
  exists st', timer_cancel e st = Ret st' tt /\ wf st' (l1 ++ l2) fl /\
    idle st' (l1 ++ l2) fl e /\ is_cancelled (ev st' e) = true /\
    itimer st' = head_value st' (l1 ++ l2) /\ block_count st' = block_count st.
Proof.
  intros Hwf Hc Hn Ha.
  destruct (timer_cancel_spec st l1 e l2 fl Hwf Hc Hn) as
    (st' & H1 & H2 & H3 & H4 & H5 & H6 & H7 & H8 & _); [by eapply armed_room|].
  exists st'. assert (idle st' (l1 ++ l2) fl e); [split|by split_and!].
  - rewrite H8. eapply lseg_bound; [apply Hwf|]. apply elem_of_app. right. left.
  - pose proof (wf_nodup _ _ _ Hwf) as Hnd. rewrite <- Permutation_middle in Hnd.
    by apply NoDup_cons in Hnd as [? _].
Qed.

Lemma deadlines_app t l1 l2 :
  deadlines t (l1 ++ l2) = deadlines t l1 ++ deadlines (t + foldr Z.add 0 (map snd l1)) l2.
Proof.
  revert t. induction l1 as [|[i d] l1 IH]; intros t; simpl.
  - by rewrite Z.add_0_r.
  - rewrite IH. by rewrite Z.add_assoc.
Qed.

Lemma pending_at_head st h q : itimer st = it_value (ev st h) ->
  pending st (h :: q) = deadlines 0 (aq st (h :: q)).
Proof.
  intros Hit. unfold pending, current. rewrite aq_cons. unfold time_left, delta.
  rewrite Hit. case_if; [done|]. by rewrite Z.min_id.
Qed.

(** Cancelling the timer at the head of the queue moves every follower. A
    follower was due at the head's remaining time [r] plus its own deltas; after
    the call it is due at the time already ELAPSED in the head's interval plus
    its deltas, although the comment promises to add "any remainder". *)
Theorem timer_cancel_head_shift (st : state) (e n : nat) (l2 fl : list nat) :
  let r := us (itimer st) in
  wf st (e :: n :: l2) fl -> is_cancelled (ev st e) = false -> norm (itimer st) ->
  0 < r <= delta st e -> 1 <= delta st n ->
  pending st (e :: n :: l2) = (e, r) :: deadlines r (aq st (n :: l2)) /\
  exists st', timer_cancel e st = Ret st' tt /\
    pending st' (n :: l2) = deadlines (delta st e - r) (aq st (n :: l2)).
Proof.
  intros r Hwf Hc Hn Hr Hd. split.
  - unfold pending, current. rewrite aq_cons. unfold time_left. fold r.
    rewrite (proj2 (Z.eqb_neq _ _)), Z.min_r by lia. done.
  - destruct (timer_cancel_spec st [] e (n :: l2) fl Hwf Hc Hn) as
      (st' & H1 & H2 & H3 & H4 & _); [apply (armed_room st [] e (n :: l2) fl Hwf); simpl; lia|].
    exists st'. split; [done|]. rewrite (pending_at_head st' n l2 H4).
    cbn [app] in H3. rewrite H3. cbn [cancelled_queue round_head]. fold r.
    rewrite aq_cons. cbn [deadlines].
    rewrite Z.max_r by lia.
    by replace (0 + (delta st n + (delta st e - r))) with (delta st e - r + delta st n) by lia.
Qed.

(** Cancelling a timer behind the head restarts the head with its full
    interval and drops the cancelled timer's delta, so that every timer behind
    it fires that much too early relative to the head. *)
Theorem timer_cancel_middle_shift (st : state) (h : nat) (l1 : list nat) (e : nat)
  (l2 fl : list nat) :
  let T q := foldr Z.add 0 (map snd q) in
  wf st ((h :: l1) ++ e :: l2) fl -> is_cancelled (ev st e) = false -> norm (itimer st) ->
  1 <= delta st h ->
  pending st ((h :: l1) ++ e :: l2) =
    deadlines 0 (current st (aq st (h :: l1))) ++
    (e, T (current st (aq st (h :: l1))) + delta st e) ::
    deadlines (T (current st (aq st (h :: l1))) + delta st e) (aq st l2) /\
  exists st', timer_cancel e st = Ret st' tt /\
    pending st' ((h :: l1) ++ l2) =
      deadlines 0 (aq st (h :: l1)) ++ deadlines (T (aq st (h :: l1))) (aq st l2).
Proof.
  intros T Hwf Hc Hn Hd.
  assert (Happ : forall a b, aq st (a ++ b) = aq st a ++ aq st b)
    by (intros; unfold aq; apply map_app).
  split.
  - unfold pending. rewrite Happ, aq_cons, aq_cons. cbn [current app deadlines].
    rewrite deadlines_app. cbn [deadlines map foldr snd]. unfold T. cbn [map foldr snd].
    by rewrite Z.add_0_l.
  - destruct (timer_cancel_spec st (h :: l1) e l2 fl Hwf Hc Hn) as
      (st' & H1 & H2 & H3 & H4 & _); [done|].
    exists st'. split; [done|]. cbn [app] in *. rewrite (pending_at_head st' h _ H4), H3.
    cbn [cancelled_queue]. change (h :: l1 ++ l2) with ((h :: l1) ++ l2).
    rewrite Happ, aq_cons. cbn [round_head app]. rewrite Z.max_r by lia.
    change ((h, delta st h) :: aq st l1 ++ aq st l2) with (((h, delta st h) :: aq st l1) ++ aq st l2).
    rewrite deadlines_app. by rewrite Z.add_0_l.
Qed.

(** An alarm runs the head's callback and takes the head off the queue; a
    recurring timer is scheduled again one interval from now, a one-shot one is
    not, the other deadlines stay, and the kernel timer is set for the new head
    (at least one microsecond). *)
Theorem alarm_handler_fires (callback : nat -> nat -> Z -> state -> state)
  (st : state) (h : nat) (q fl : list nat) (f rounds : nat) :
  (forall f e a st, callback f e a st = st) ->
  wf st (h :: q) fl -> func (ev st h) = Some f -> norm (it_interval (ev st h)) ->
  exists st' q', alarm_handler callback (S rounds) st = Ret st' tt /\ wf st' q' fl /\
    aq st' q' = round_head
      (if negb (is_cancelled (ev st h)) && timerisset (it_interval (ev st h))
       then ins h (Z.max 1 (us (it_interval (ev st h)))) (aq st q) else aq st q) /\
    (forall t, deadlines t (ins h (Z.max 1 (us (it_interval (ev st h)))) (aq st q)) =
       schedule h (t + Z.max 1 (us (it_interval (ev st h)))) (deadlines t (aq st q))) /\
    block_count st' = block_count st.
Proof.
  intros Hcb Hwf Hf Hn.
  destruct (alarm_handler_spec callback Hcb st h q fl f rounds Hwf Hf Hn) as
    (st' & q' & H1 & H2 & H3 & H4 & H5 & _).
  exists st', q'. split_and!; try done. intros t. apply deadlines_ins.
Qed.

(** * Witnesses *)

Definition st_zero : state := mk_state [] None None 0 0 0 timerclear.
Definition spec_of (sec usec isec : Z) : itimerspec :=
  mk_its (mk_ts isec 0) (mk_ts sec (usec * 1000)).
(** Four events; events 0, 1 and 2 are created. *)
Definition st_idle : state :=
  let st := fst (init_event_queue true 1 4 st_zero) in
  let mk st := match timer_create true true st with Ret st _ => st | _ => st_zero end in
  mk (mk (mk st)).
Definition settime_or_zero e spec st :=
  match timer_settime e spec st with Ret st _ => st | _ => st_zero end.
(** Timer 0 due in 5 s, timer 1 in 7 s, timer 2 in 10 s; 2 s have passed. *)
Definition st_busy : state :=
  let st := settime_or_zero 0 (spec_of 5 0 1) st_idle in
  let st := settime_or_zero 1 (spec_of 7 0 0) st in
  let st := settime_or_zero 2 (spec_of 10 0 0) st in
  let st := store 0 (with_func (Some 0%nat) 0) st in
  setitimer (mk_tv 3 0) st.

Ltac solve_wf :=
  constructor;
  [ vm_compute; repeat split; lia
  | vm_compute; repeat split; lia
  | apply (bool_decide_unpack _); vm_compute; exact I
  | reflexivity
  | reflexivity
  | apply Forall_forall; repeat constructor; vm_compute; intuition congruence ].

Lemma wf_idle : wf st_idle [] [3%nat].
Proof. solve_wf. Qed.

Lemma wf_busy : wf st_busy [0; 1; 2]%nat [3%nat].
Proof. solve_wf. Qed.

(** Disarming the head by a zero time: its own time is set to zero first, so that the
    follower, due 2 s later, is charged with the 3 s that are left, and the assertion on
    the new head fails. [timer_cancel] on the same timer returns. *)
Lemma disarm_head_faults :
  timer_settime 0 (spec_of 0 0 0) st_busy = Fault /\ exists st', timer_cancel 0 st_busy = Ret st' tt.
Proof. split; [vm_compute; reflexivity|]. vm_compute. by eexists. Qed.

(** Arming the head again while it is pending links it behind itself; the loop detector ends
    the process. *)
Lemma rearm_pending_exits : timer_settime 0 (spec_of 4 0 0) st_busy = Exits 1.
Proof. vm_compute. reflexivity. Qed.

(** A callback that starts its own timer again for one second. *)
Definition again (_ e : nat) (_ : Z) (st : state) : state := settime_or_zero e (spec_of 1 0 0) st.

Lemma again_orderly : orderly again.
Proof.
  intros f e a st q fl Hinv Hi Hf. pose proof (so_wf _ _ _ (inv_sound _ _ _ Hinv)) as Hwf. cbv zeta.
  assert (Hn : norm (TIMESPEC_TO_TIMEVAL (its_value (spec_of 1 0 0)))) by (vm_compute; intuition congruence).
  destruct (timer_settime_spec st q fl e (spec_of 1 0 0) Hwf Hi Hn) as (st' & q' & Hr & _ & _ & _ & Hint & _);
    [reflexivity|apply Hinv|]. unfold again, settime_or_zero. rewrite Hr. split.
  - apply (calls_step _ _ (Settime e (spec_of 1 0 0)) st'); [done| | |constructor].
    + exists q, fl. split; [done|]. split; [vm_compute; intuition congruence|]. split; [done|].
      change (us (TIMESPEC_TO_TIMEVAL (its_value (spec_of 1 0 0))) =? 0) with false. split; [done|]. by rewrite Hf.
    + cbn [run]. unfold bcm_timer_settime. by rewrite Hr.
  - unfold recurring. rewrite Hint. by rewrite andb_false_r.
Qed.

Definition after_op (o : op) (st : state) : state :=
  match run again o st with Ret st _ => st | _ => st_zero end.
Definition st_new : state := fst (init_event_queue true 1 4 st_zero).
Definition st_made : state := after_op Create st_new.
Definition st_wired : state := after_op (Connect 0 0 0) st_made.
Definition st_set : state := after_op (Settime 0 (spec_of 5 0 0)) st_wired.
Definition st_due : state := after_op (Elapse timerclear) st_set.

(** The timer 0 is due; its callback starts it again. *)
Lemma timer_module_safe_witness : exists st', run again Alarm st_due = Ret st' tt.
Proof.
  refine (proj2 (timer_module_safe again 1 4 st_due again_orderly ltac:(lia) ltac:(auto) _) Alarm _).
  - apply (reach_step _ 1 4 st_set (Elapse timerclear)); [|exists [0%nat], [1; 2; 3]%nat; split; [solve_wf|vm_compute; intuition congruence]|reflexivity].
    apply (reach_step _ 1 4 st_wired (Settime 0 (spec_of 5 0 0))); [| |reflexivity].
    + apply (reach_step _ 1 4 st_made (Connect 0 0 0)); [|exists [], [1; 2; 3]%nat; split; [solve_wf|vm_compute; lia]|reflexivity].
      apply (reach_step _ 1 4 st_new Create); [by apply (reach_init _ 1 4 st_zero)|exists [], [0; 1; 2; 3]%nat; split; [solve_wf|done]|reflexivity].
    + exists [], [1; 2; 3]%nat. split; [solve_wf|]. split_and!; [vm_compute; intuition congruence..|].
      change (us (TIMESPEC_TO_TIMEVAL (its_value (spec_of 5 0 0))) =? 0) with false. split; [|vm_compute; congruence].
      split; [vm_compute; lia|]. apply (bool_decide_unpack _). vm_compute. exact I.
  - exists [0%nat], [1; 2; 3]%nat. split; [solve_wf|]. left. exact I.
Defined.

Lemma timer_settime_schedules_witness :
  exists st' q', timer_settime 0 (spec_of 5 0 0) st_idle = Ret st' 0 /\
    deadlines 0 (aq st' q') = [(0%nat, 5000000)].
Proof.
  destruct (timer_settime_schedules st_idle [] [3%nat] 0 (spec_of 5 0 0)) as
    (st' & q' & H1 & _ & H3 & _).
  - exact wf_idle.
  - split; [vm_compute; lia|]. apply (bool_decide_unpack _). vm_compute. exact I.
  - vm_compute. intuition congruence.
  - vm_compute. reflexivity.
  - vm_compute. intuition congruence.
  - exists st', q'. split; [exact H1|]. etransitivity; [exact H3|reflexivity].
Defined.

Lemma timer_cancel_removes_witness :
  exists st', timer_cancel 1 st_busy = Ret st' tt /\ wf st' [0; 2]%nat [3%nat].
Proof.
  destruct (timer_cancel_removes st_busy [0%nat] 1 [2%nat] [3%nat]) as (st' & H1 & H2 & _).
  - exact wf_busy.
  - reflexivity.
  - vm_compute. intuition congruence.
  - vm_compute. congruence.
  - exists st'. split; [exact H1|exact H2].
Defined.

(** Timer 1 was due 5 s from now (3 s left of timer 0, then 2 s): after timer 0
    is cancelled it is due in 4 s. *)
Lemma timer_cancel_head_shift_witness :
  pending st_busy [0; 1; 2]%nat = [(0%nat, 3000000); (1%nat, 5000000); (2%nat, 8000000)] /\
  exists st', timer_cancel 0 st_busy = Ret st' tt /\
    pending st' [1; 2]%nat = [(1%nat, 4000000); (2%nat, 7000000)].
Proof.
  destruct (timer_cancel_head_shift st_busy 0 1 [2%nat] [3%nat]) as (H1 & st' & H2 & H3).
  - exact wf_busy.
  - reflexivity.
  - vm_compute. intuition congruence.
  - vm_compute. intuition congruence.
  - vm_compute. congruence.
  - split; [etransitivity; [exact H1|reflexivity]|]. exists st'. split; [exact H2|]. etransitivity; [exact H3|reflexivity].
Defined.

(** Timer 2 was due 8 s from now: after timer 1 is cancelled it is due in 8 s
    only because the head was restarted; relative to timer 0 it moved from 5 s
    to 3 s. *)
Lemma timer_cancel_middle_shift_witness :
  exists st', timer_cancel 1 st_busy = Ret st' tt /\
    pending st' [0; 2]%nat = [(0%nat, 5000000); (2%nat, 8000000)].
Proof.
  destruct (timer_cancel_middle_shift st_busy 0 [] 1 [2%nat] [3%nat]) as (_ & st' & H2 & H3).
  - exact wf_busy.
  - reflexivity.
  - vm_compute. intuition congruence.
  - vm_compute. congruence.
  - exists st'. split; [exact H2|]. etransitivity; [exact H3|reflexivity].
Defined.

Lemma alarm_handler_fires_witness :
  exists st' q', alarm_handler (fun _ _ _ st => st) 1 st_busy = Ret st' tt /\
    aq st' q' = [(0%nat, 1000000); (1%nat, 1000000); (2%nat, 3000000)].
Proof.
  destruct (alarm_handler_fires (fun _ _ _ st => st) st_busy 0 [1; 2]%nat [3%nat] 0 0) as
    (st' & q' & H1 & _ & H2 & _).
  - done.
  - exact wf_busy.
  - reflexivity.
  - vm_compute. intuition congruence.
  - exists st', q'. split; [exact H1|]. etransitivity; [exact H2|reflexivity].
Defined.

End TimerSpec.
