(* ===== verification/ShList.v ===== *)
(** Word lists of the shared library
    (src/tomato64/package/libshared/shared/shutils.c and the macro [foreach] of
    shutils.h).

    Interface lists are strings of words separated by spaces that the code edits
    in place inside buffers of a given size. Functions that edit a buffer return
    its new contents next to the result of the C function; a position in a buffer
    is its offset. Pointer arguments are not null: the tests that reject a null
    pointer are not translated. The specification of a list is [tokens], its words
    from the left to the right. *)

From Stdlib Require Import ZArith Lia Sorted.
From stdpp Require Import base list strings.
From S2P Require Import Prelude.

Local Open Scope Z_scope.

Module ShList.

Definition EINVAL : Z := 22.
Definition EMSGSIZE : Z := 90.
Definition IFNAMSIZ : nat := 16.

(** ** <string.h> *)

Definition in_set (set : cstr) (c : Z) : bool := existsb (Z.eqb c) set.

Fixpoint strspn (s accept : cstr) : nat :=
  match s with
  | [] => 0
  | c :: s' => if in_set accept c then S (strspn s' accept) else 0
  end.

Fixpoint strcspn (s reject : cstr) : nat :=
  match s with
  | [] => 0
  | c :: s' => if in_set reject c then 0 else S (strcspn s' reject)
  end.

Fixpoint strncmp (a b : cstr) (n : nat) : Z :=
  match n with
  | O => 0
  | S n' =>
      let x := char_at a 0 in
      let y := char_at b 0 in
      if x =? y then if x =? 0 then 0 else strncmp (tail a) (tail b) n'
      else x - y
  end.

(** ** The operations *)

Definition space : cstr := bytes " ".

(** The loop of [find_in_list]; every round but the last consumes a word. *)
Fixpoint find_in_list_loop (fuel : nat) (haystack needle : cstr) (ptr : nat) : option nat :=
  match fuel with
  | O => None
  | S f =>
      if char_at haystack ptr =? 0 then None
      else
        let ptr := (ptr + strspn (drop ptr haystack) space)%nat in
        if char_at haystack ptr =? 0 then None
        else
          let len := strcspn (drop ptr haystack) space in
          if (length needle =? len)%nat && (strncmp needle (drop ptr haystack) len =? 0)
          then Some ptr
          else find_in_list_loop f haystack needle (ptr + len)
  end.

Definition find_in_list (haystack needle : cstr) : option nat :=
  if (char_at haystack 0 =? 0) || (char_at needle 0 =? 0) then None
  else find_in_list_loop (S (length haystack)) haystack needle 0.

(** The test that a list is terminated inside its buffer. *)
Definition unterminated (list : cstr) (listsize : Z) : bool :=
  Z.min (Z.of_nat (length list)) listsize =? listsize.

Definition remove_from_list (name list : cstr) (listsize : Z) : cstr * Z :=
  if (listsize <=? 0) || (char_at name 0 =? 0) then (list, EINVAL)
  else if unterminated list listsize then (list, EINVAL)
  else
    let namelen := length name in
    match find_in_list list name with
    | None => (list, EINVAL)
    | Some occurrence =>
        if char_at list (occurrence + namelen) =? 0 then
          let occurrence := if (occurrence =? 0)%nat then occurrence else (occurrence - 1)%nat in
          (take occurrence list, 0)
        else if char_at list (occurrence + namelen) =? chr " " then
          (take occurrence list ++ drop (occurrence + namelen + 1) list, 0)
        else (list, EINVAL)
    end.

Definition add_to_list (name list : cstr) (listsize : Z) : cstr * Z :=
  if (listsize <=? 0) || (char_at name 0 =? 0) then (list, EINVAL)
  else if unterminated list listsize then (list, EINVAL)
  else
    let listlen := Z.of_nat (length list) in
    match find_in_list list name with
    | Some _ => (list, 0)
    | None =>
        let need_space :=
          if negb (listlen =? 0) && negb (char_at list (length list - 1) =? chr " ")
          then 1 else 0 in
        if listsize - listlen - need_space <=? Z.of_nat (length name) then (list, EMSGSIZE)
        else ((if need_space =? 1 then list ++ space else list) ++ name, 0)
    end.

(** [foreach (word, wordlist, next)]: the words the body sees, for a word buffer of
    [n] bytes. [next] is the position after the blanks were skipped. *)
Definition cut_word (n : nat) (next : cstr) : cstr :=
  let word := strlcpy n next in take (strcspn word space) word.

Fixpoint foreach_loop (fuel : nat) (n : nat) (next : cstr) : list cstr :=
  match fuel with
  | O => []
  | S f =>
      let word := cut_word n next in
      if char_at word 0 =? 0 then []
      else word :: foreach_loop f n
             match strchr next (chr " ") with
             | Some i => let next := drop i next in drop (strspn next space) next
             | None => []
             end
  end.

Definition foreach (n : nat) (wordlist : cstr) : list cstr :=
  foreach_loop (S (length wordlist)) n (drop (strspn wordlist space) wordlist).

(** The body of [remove_dups]: the list built so far, or the null pointer. *)
Fixpoint dups_loop (names : list cstr) (outlist : cstr) (inlist_size : Z) : option cstr :=
  match names with
  | [] => Some outlist
  | name :: names' =>
      if char_at name 0 =? 0 then dups_loop names' outlist inlist_size
      else
        let '(outlist', ret) := add_to_list name outlist inlist_size in
        if negb (ret =? 0) then None else dups_loop names' outlist' inlist_size
  end.

(** The new contents of the list and whether it is returned. *)
Definition remove_dups (inlist : cstr) (inlist_size : Z) : cstr * bool :=
  if inlist_size <=? 0 then (inlist, false)
  else if unterminated inlist inlist_size then (inlist, false)
  else
    match dups_loop (foreach 256 inlist) [] inlist_size with
    | None => (inlist, false)
    | Some outlist => (strlcpy (Z.to_nat inlist_size) outlist, true)
    end.

(** The loop of [find_smallest_in_list]: offset and length of the best word so far. *)
Fixpoint smallest_loop (fuel : nat) (haystack : cstr) (ptr smallest smallest_len : nat) : nat :=
  match fuel with
  | O => smallest
  | S f =>
      if char_at haystack ptr =? 0 then smallest
      else
        let ptr := (ptr + strspn (drop ptr haystack) space)%nat in
        if char_at haystack ptr =? 0 then smallest
        else
          let len := strcspn (drop ptr haystack) space in
          let cmp_len := if (len <? smallest_len)%nat then len else smallest_len in
          let ret := strncmp (drop ptr haystack) (drop smallest haystack) cmp_len in
          if (ret <? 0) || ((ret =? 0) && (len <? smallest_len)%nat)
          then smallest_loop f haystack (ptr + len) ptr len
          else smallest_loop f haystack (ptr + len) smallest smallest_len
  end.

Definition find_smallest_in_list (haystack : cstr) : option nat :=
  let ptr := strspn haystack space in
  if char_at haystack ptr =? 0 then None
  else
    let smallest_len := strcspn (drop ptr haystack) space in
    Some (smallest_loop (S (length haystack)) haystack (ptr + smallest_len) ptr smallest_len).

(** The loop of [sort_list]: the final contents of [inlist] and whether it is
    returned; [None] when the fuel runs out. *)
Fixpoint sort_loop (fuel : nat) (inlist tmplist : cstr) (inlist_size : Z)
  : option (cstr * bool) :=
  match fuel with
  | O => None
  | S f =>
      match find_smallest_in_list inlist with
      | None => Some (strlcpy (Z.to_nat inlist_size) tmplist, true)
      | Some b =>
          let len := strcspn (drop b inlist) space in
          if (IFNAMSIZ <=? len)%nat then Some (inlist, false)
          else
            let tmp := take len (drop b inlist) in
            let '(tmplist, ret) := add_to_list tmp tmplist inlist_size in
            if negb (ret =? 0) then Some (inlist, false)
            else
              let '(inlist, ret) := remove_from_list tmp inlist inlist_size in
              if negb (ret =? 0) then Some (inlist, false)
              else sort_loop f inlist tmplist inlist_size
      end
  end.

Definition sort_list (inlist : cstr) (inlist_size : Z) : option (cstr * bool) :=
  if inlist_size <=? 0 then Some (inlist, false)
  else if unterminated inlist inlist_size then Some (inlist, false)
  else sort_loop (S (length inlist)) inlist [] inlist_size.

Example remove_ex1 : remove_from_list (bytes "eth1") (bytes "eth10 eth1 vlan2") 64
  = (bytes "eth10 vlan2", 0).
Proof. reflexivity. Qed.
Example remove_ex2 : remove_from_list (bytes "vlan2") (bytes "eth10 eth1 vlan2") 64
  = (bytes "eth10 eth1", 0).
Proof. reflexivity. Qed.
Example add_ex : add_to_list (bytes "eth1") (bytes "eth10") 11 = (bytes "eth10 eth1", 0)
  /\ add_to_list (bytes "eth1") (bytes "eth10") 10 = (bytes "eth10", EMSGSIZE).
Proof. split; reflexivity. Qed.
Example dups_ex : remove_dups (bytes " a  b a c b ") 64 = (bytes "a b c", true).
Proof. reflexivity. Qed.
Example sort_ex : sort_list (bytes "wl1 eth0  wl0 eth1 eth0") 64
  = Some (bytes "eth0 eth1 wl0 wl1", true).
Proof. reflexivity. Qed.

End ShList.
