(* ===== verification/ShListSpec.v ===== *)
(** What the operations of ShList.v do to the words of a list: they refine
    operations on the list of words, stay inside their buffer, and [sort_list]
    terminates with the sorted words. *)

From Stdlib Require Import ZArith Lia Sorted.
From stdpp Require Import base list strings.
From S2P Require Import Prelude ShList.

Local Open Scope Z_scope.

Module ShListSpec.
Import ShList.

(** * Words *)

(** The words of a list, from the left. *)
Fixpoint tokens (s : cstr) : list cstr :=
  match s with
  | [] => []
  | c :: s' =>
      if c =? 32 then tokens s'
      else match s' with
           | [] => [[c]]
           | d :: _ =>
               if d =? 32 then [c] :: tokens s'
               else match tokens s' with
                    | w :: ws => (c :: w) :: ws
                    | [] => [[c]]
                    end
           end
  end.

(** The list of the given words, one space between neighbours. *)
Fixpoint join (ws : list cstr) : cstr :=
  match ws with
  | [] => []
  | [w] => w
  | w :: ws' => w ++ 32 :: join ws'
  end.

Definition plain (c : Z) : Prop := c <> 0 /\ c <> 32.
Definition is_word (w : cstr) : Prop := w <> [] /\ Forall plain w.
(** The contents of a C string. *)
Definition text (s : cstr) : Prop := Forall (fun c => c <> 0) s.
(** A place where a word can start, or end. *)
Definition sep_end (a : cstr) : Prop := a = [] \/ exists a', a = a' ++ [32].
Definition sep_start (b : cstr) : Prop := b = [] \/ exists b', b = 32 :: b'.

(** The order of [strcmp]. *)
Fixpoint str_lt (a b : cstr) : bool :=
  match a, b with
  | _, [] => false
  | [], _ :: _ => true
  | x :: a', y :: b' => (x <? y) || ((x =? y) && str_lt a' b')
  end.

Definition weight (ws : list cstr) : nat := sum_list (map (fun w => S (length w)) ws).

Lemma in_space c : in_set space c = (c =? 32).
Proof. unfold in_set, space. simpl. apply orb_false_r. Qed.

Lemma tokens_space_cons s : tokens (32 :: s) = tokens s.
Proof. done. Qed.

Lemma tokens_cons_sep c s : c <> 32 -> sep_start s -> tokens (c :: s) = [c] :: tokens s.
Proof.
  intros Hc [->|[s' ->]]; cbn [tokens]; rewrite (proj2 (Z.eqb_neq _ _) Hc); done.
Qed.

Lemma tokens_cons_plain c d s :
  c <> 32 -> d <> 32 -> exists w ws, tokens (d :: s) = w :: ws /\ tokens (c :: d :: s) = (c :: w) :: ws.
Proof.
  intros Hc Hd. assert (exists w ws, tokens (d :: s) = w :: ws) as (w & ws & E).
  { cbn [tokens]. rewrite (proj2 (Z.eqb_neq _ _) Hd). destruct s as [|e s]; [eauto|].
    destruct (e =? 32); [eauto|]. destruct (tokens (e :: s)); eauto. }
  exists w, ws. split; [done|].
  change (tokens (c :: d :: s)) with
    (if c =? 32 then tokens (d :: s) else if d =? 32 then [c] :: tokens (d :: s) else
       match tokens (d :: s) with w :: ws => (c :: w) :: ws | [] => [[c]] end).
  by rewrite E, (proj2 (Z.eqb_neq _ _) Hc), (proj2 (Z.eqb_neq _ _) Hd).
Qed.

Lemma tokens_app_start a b : sep_start b -> tokens (a ++ b) = tokens a ++ tokens b.
Proof.
  intros Hb. induction a as [|c a IH]; [done|].
  destruct (decide (c = 32)) as [->|Hc]; [done|].
  destruct a as [|d a].
  - cbn [app]. rewrite (tokens_cons_sep c b), (tokens_cons_sep c []) by (done || by left). done.
  - destruct (decide (d = 32)) as [->|Hd].
    + cbn [app]. rewrite !(tokens_cons_sep c) by (done || (right; eauto)).
      cbn [app] in IH. by rewrite IH.
    + cbn [app] in *. destruct (tokens_cons_plain c d a) as (w & ws & E1 & E2); [done..|].
      destruct (tokens_cons_plain c d (a ++ b)) as (w' & ws' & E3 & E4); [done..|].
      rewrite E2, E4. rewrite E1, E3 in IH. simplify_eq/=. congruence.
Qed.

Lemma tokens_app a b : sep_end a \/ sep_start b -> tokens (a ++ b) = tokens a ++ tokens b.
Proof.
  intros [[->|[a' ->]]|Hb]; [done| |by apply tokens_app_start].
  rewrite <- (app_assoc a'). rewrite (tokens_app_start a' ([32] ++ b)) by (right; eauto).
  rewrite (tokens_app_start a' [32]) by (right; eauto). cbn [app tokens].
  by rewrite app_nil_r.
Qed.

Lemma tokens_word w : is_word w -> tokens w = [w].
Proof.
  intros [Hne Hw]. induction w as [|c w IH]; [done|].
  apply Forall_cons in Hw as [Hc Hw]. destruct w as [|d w].
  - apply tokens_cons_sep; [apply Hc|by left].
  - assert (plain d) by (by apply Forall_cons in Hw as [? _]).
    destruct (tokens_cons_plain c d w) as (v & vs & E1 & E2); [apply Hc|apply H|].
    rewrite E2. rewrite IH in E1 by done. by simplify_eq.
Qed.

Lemma tokens_blank sp : Forall (eq 32) sp -> tokens sp = [].
Proof. induction 1 as [|c sp <-]; [done|]. by rewrite tokens_space_cons. Qed.

Lemma blank_sep sp : Forall (eq 32) sp -> sep_end sp.
Proof.
  intros H. destruct (last sp) as [c|] eqn:E.
  - apply last_Some in E as [a ->]. right. exists a.
    apply Forall_app in H as [_ H]. by apply Forall_cons in H as [<- _].
  - apply last_None in E. by left.
Qed.

(** Every text is blanks, or blanks, a word and a rest that a space separates. *)
Lemma tokens_view s :
  text s ->
  Forall (eq 32) s \/
  exists sp w r, s = sp ++ w ++ r /\ Forall (eq 32) sp /\ is_word w /\ sep_start r /\
    text r /\ tokens s = w :: tokens r.
Proof.
  intros Hs.
  assert (Forall (eq 32) s \/ exists sp w r, s = sp ++ w ++ r /\ Forall (eq 32) sp /\
    is_word w /\ sep_start r) as [?|(sp & w & r & -> & Hsp & Hw & Hr)]; [|by left|].
  { induction Hs as [|c s Hc Hs IH]; [by left|]. destruct (decide (c = 32)) as [->|Hn].
    - destruct IH as [?|(sp & w & r & -> & ? & ? & ?)]; [left; by constructor|].
      right. exists (32 :: sp), w, r. split_and!; [done|by constructor|done|done].
    - right. destruct IH as [Hb|(sp & w & r & -> & Hsp & [Hw1 Hw2] & Hr)].
      + exists [], [c], s. split_and!; [done|by constructor| |].
        * split; [done|]. by repeat constructor.
        * destruct Hb as [|d s <-]; [by left|right; eauto].
      + destruct Hsp as [|d sp <- Hsp].
        * exists [], (c :: w), r. split_and!; [done|by constructor| |done].
          split; [done|]. by constructor; [split|].
        * exists [], [c], ((32 :: sp) ++ w ++ r). split_and!; [done|by constructor| |right; eauto].
          split; [done|]. by repeat constructor. }
  right. exists sp, w, r. split_and!; try done.
  - unfold text in *. rewrite !Forall_app in Hs. tauto.
  - rewrite tokens_app by (left; by apply blank_sep). rewrite tokens_blank by done.
    rewrite tokens_app by (by right). by rewrite (tokens_word w).
Qed.

Lemma tokens_words s : text s -> Forall is_word (tokens s).
Proof.
  induction s as [s IH] using (induction_ltof1 _ length); unfold ltof in IH. intros Hs.
  destruct (tokens_view s Hs) as [?|(sp & w & r & -> & ? & Hw & ? & ? & ->)].
  - by rewrite tokens_blank.
  - constructor; [done|]. apply IH; [|done]. rewrite !length_app.
    destruct Hw as [? _]. destruct w; [done|]. simpl. lia.
Qed.

Lemma word_text w : is_word w -> text w.
Proof. intros [_ H]. eapply Forall_impl; [exact H|]. by intros ? [? _]. Qed.

Lemma join_words_cons w v ws : join (w :: v :: ws) = w ++ 32 :: join (v :: ws).
Proof. done. Qed.

Lemma tokens_join ws : Forall is_word ws -> tokens (join ws) = ws.
Proof.
  induction 1 as [|w ws Hw Hws IH]; [done|]. destruct ws as [|v ws].
  - by apply tokens_word.
  - rewrite join_words_cons, tokens_app by (right; right; eauto).
    rewrite tokens_space_cons, IH. by rewrite tokens_word.
Qed.

Lemma join_text ws : Forall is_word ws -> text (join ws).
Proof.
  induction 1 as [|w ws Hw Hws IH]; [constructor|]. destruct ws as [|v ws].
  - by apply word_text.
  - rewrite join_words_cons. apply Forall_app. split; [by apply word_text|]. by constructor.
Qed.

Lemma join_length ws : length (join ws) = (weight ws - 1)%nat.
Proof.
  induction ws as [|w ws IH]; [done|]. destruct ws as [|v ws].
  - unfold weight. simpl. lia.
  - rewrite join_words_cons, length_app. cbn [length]. rewrite IH. unfold weight. simpl. lia.
Qed.

Lemma join_snoc ws w : ws <> [] -> join (ws ++ [w]) = join ws ++ 32 :: w.
Proof.
  induction ws as [|u ws IH]; [done|]. intros _. destruct ws as [|v ws]; [done|].
  change (join ((u :: v :: ws) ++ [w])) with (u ++ 32 :: join ((v :: ws) ++ [w])).
  rewrite IH by done. rewrite join_words_cons. by rewrite <- app_assoc, <- app_comm_cons.
Qed.

Lemma join_last_plain ws c : Forall is_word ws -> last (join ws) = Some c -> plain c.
Proof.
  intros Hws. induction ws as [|w ws IH] using rev_ind; [done|].
  apply Forall_app in Hws as [Hws Hw]. apply Forall_cons in Hw as [[Hne Hw] _].
  destruct (decide (ws = [])) as [->|Hn].
  - simpl. intros [l E]%last_Some. rewrite E in Hw.
    apply Forall_app in Hw as [_ Hw]. by apply Forall_cons in Hw as [? _].
  - rewrite join_snoc by done. change (32 :: w) with ([32] ++ w). rewrite app_assoc, last_app.
    destruct (last w) as [d|] eqn:E; [|by apply last_None in E].
    intros [= <-]. apply last_Some in E as [l E]. rewrite E in Hw.
    apply Forall_app in Hw as [_ Hw]. by apply Forall_cons in Hw as [? _].
Qed.

Lemma weight_app a b : weight (a ++ b) = (weight a + weight b)%nat.
Proof. unfold weight. induction a; simpl in *; lia. Qed.

Lemma weight_tokens s : text s -> (weight (tokens s) <= S (length s))%nat.
Proof.
  induction s as [s IH] using (induction_ltof1 _ length); unfold ltof in IH. intros Hs.
  destruct (tokens_view s Hs) as [?|(sp & w & r & -> & ? & Hw & Hr & Ht & ->)].
  - rewrite tokens_blank by done. unfold weight. simpl. lia.
  - rewrite !length_app. change (weight (w :: tokens r)) with (S (length w) + weight (tokens r))%nat.
    destruct Hr as [->|[r' ->]]; [unfold weight; simpl; lia|].
    rewrite tokens_space_cons. unfold text in Ht. apply Forall_cons in Ht as [_ Ht].
    etransitivity; [apply Nat.add_le_mono_l, IH|]; [|done|cbn [length]; lia].
    rewrite !length_app. cbn [length]. lia.
Qed.

(** * Scanning *)

Lemma word_head w r : is_word w -> plain (char_at (w ++ r) 0).
Proof. intros [Hne Hw]. destruct w; [done|]. by apply Forall_cons in Hw as [? _]. Qed.

Lemma strspn_blank sp s :
  Forall (eq 32) sp -> (s = [] \/ char_at s 0 <> 32) -> strspn (sp ++ s) space = length sp.
Proof.
  intros Hsp Hs. induction Hsp as [|c sp <- Hsp IH]; cbn [app length strspn].
  - destruct s as [|c s]; [done|]. cbn [strspn]. rewrite in_space.
    destruct Hs as [?|Hs]; [done|]. by rewrite (proj2 (Z.eqb_neq c 32) Hs).
  - rewrite in_space. simpl. by rewrite IH.
Qed.

Lemma strcspn_word w r : Forall plain w -> sep_start r -> strcspn (w ++ r) space = length w.
Proof.
  intros Hw Hr. induction Hw as [|c w [_ Hc] Hw IH]; cbn [app length strcspn].
  - destruct Hr as [->|[r' ->]]; done.
  - rewrite in_space, (proj2 (Z.eqb_neq _ _) Hc). by rewrite IH.
Qed.

Lemma char_at_text pre s : text s -> s <> [] -> char_at (pre ++ s) (length pre) <> 0.
Proof.
  intros Hs Hne. unfold char_at. rewrite app_nth2, Nat.sub_diag by lia.
  destruct Hs; done.
Qed.

Lemma char_at_end (s : cstr) i : (length s <= i)%nat -> char_at s i = 0.
Proof. intros. unfold char_at. by apply nth_overflow. Qed.

(** The end of a list: only blanks are left. *)
Lemma scan_blank pre sp :
  Forall (eq 32) sp ->
  char_at (pre ++ sp) (length pre + strspn (drop (length pre) (pre ++ sp)) space) = 0.
Proof.
  intros H. rewrite drop_app_length. rewrite <- (app_nil_r sp) at 2.
  rewrite strspn_blank by (done || by left). apply char_at_end. rewrite length_app. lia.
Qed.

(** The next word of a list. *)
Lemma scan_word pre sp w r :
  Forall (eq 32) sp -> is_word w -> sep_start r ->
  char_at (pre ++ sp ++ w ++ r) (length pre) <> 0 /\
  (length pre + strspn (drop (length pre) (pre ++ sp ++ w ++ r)) space)%nat = length (pre ++ sp) /\
  drop (length (pre ++ sp)) (pre ++ sp ++ w ++ r) = w ++ r /\
  char_at (pre ++ sp ++ w ++ r) (length (pre ++ sp)) <> 0 /\
  strcspn (w ++ r) space = length w /\
  (length (pre ++ sp) + length w)%nat = length (pre ++ sp ++ w).
Proof.
  intros Hsp [Hne Hw] Hr.
  assert (Hp : plain (char_at (w ++ r) 0)) by (destruct Hw; done).
  split_and!.
  - unfold char_at. rewrite app_nth2, Nat.sub_diag by lia.
    destruct Hsp as [|c sp <-]; [apply Hp|done].
  - rewrite drop_app_length, strspn_blank, length_app; [done|done|right; apply Hp].
  - rewrite (app_assoc pre), drop_app_length. done.
  - rewrite (app_assoc pre). unfold char_at. rewrite app_nth2, Nat.sub_diag by lia. apply Hp.
  - by apply strcspn_word.
  - rewrite !length_app. lia.
Qed.

Lemma strncmp_same a b r :
  length a = length b -> text b -> strncmp a (b ++ r) (length b) = 0 <-> a = b.
Proof.
  intros Hl Hb. revert a Hl. induction Hb as [|y b Hy Hb IH]; intros [|x a] Hl; try done.
  simpl in Hl. cbn [length strncmp app tail]. unfold char_at. cbn [nth].
  destruct (x =? y) eqn:E; propify.
  - subst x. rewrite (proj2 (Z.eqb_neq _ _) Hy). rewrite IH by lia.
    split; [by intros ->|by intros [= ->]].
  - split; [lia|]. by intros [= ? _].
Qed.

Lemma strncmp_order a b r1 r2 :
  text a -> text b ->
  let n := if (length a <? length b)%nat then length a else length b in
  let ret := strncmp (a ++ r1) (b ++ r2) n in
  (ret <? 0) || ((ret =? 0) && (length a <? length b)%nat) = str_lt a b.
Proof.
  intros Ha Hb. revert b Hb. induction Ha as [|x a Hx Ha IH]; intros [|y b] Hb; try done.
  apply Forall_cons in Hb as [Hy Hb]. specialize (IH b Hb).
  assert (Hn : (if (length (x :: a) <? length (y :: b))%nat then length (x :: a)
    else length (y :: b)) = S (if (length a <? length b)%nat then length a else length b)).
  { change (length (x :: a) <? length (y :: b))%nat with (length a <? length b)%nat.
    by destruct (length a <? length b)%nat. }
  cbv zeta. rewrite Hn. cbn [strncmp app str_lt]. unfold char_at. cbn [nth tail].
  change (length (x :: a) <? length (y :: b))%nat with (length a <? length b)%nat.
  destruct (x =? y) eqn:E; propify.
  - subst y. rewrite (proj2 (Z.eqb_neq _ _) Hx), Z.ltb_irrefl. simpl. exact IH.
  - rewrite andb_false_l, orb_false_r.
    destruct (x <? y) eqn:E2; propify.
    + rewrite (proj2 (Z.ltb_lt _ _)) by lia. done.
    + rewrite (proj2 (Z.ltb_ge _ _)), (proj2 (Z.eqb_neq _ _)) by lia. done.
Qed.

(** * Searching *)

(** An occurrence of a word: where it is and that the words before it differ. *)
Definition occurs (s w : cstr) (a b : cstr) : Prop :=
  s = a ++ w ++ b /\ sep_end a /\ sep_start b /\ ~ w ∈ tokens a.

Lemma occurs_tokens s w a b :
  is_word w -> occurs s w a b -> tokens s = tokens a ++ w :: tokens b.
Proof.
  intros Hw (-> & Ha & Hb & _). rewrite tokens_app by (by left).
  rewrite tokens_app by (by right). by rewrite (tokens_word w).
Qed.

Lemma occurs_skip sp w r needle a b :
  Forall (eq 32) sp -> is_word w -> sep_start r -> is_word needle -> w <> needle ->
  occurs r needle a b -> occurs (sp ++ w ++ r) needle (sp ++ w ++ a) b.
Proof.
  intros Hsp Hw Hr [Hne Hn] Hd (-> & Ha & Hb & Hin).
  assert (Ha' : exists a', a = a' ++ [32]).
  { destruct Ha as [->|Ha]; [|done]. exfalso. destruct Hr as [E|[r' E]]; simpl in E.
    - apply app_nil in E as [-> _]. done.
    - destruct needle as [|c needle]; [done|]. apply Forall_cons in Hn as [[_ Hc] _].
      simpl in E. congruence. }
  destruct Ha' as [a' ->]. split_and!; [by rewrite <- !app_assoc|..|done|].
  - right. exists (sp ++ w ++ a'). by rewrite <- !app_assoc.
  - rewrite tokens_app by (left; by apply blank_sep). rewrite tokens_blank by done.
    rewrite tokens_app; [|right].
    + rewrite tokens_word by done. simpl. rewrite elem_of_cons. intros [?|?]; [by subst|done].
    + destruct Hr as [E|[r' E]]; [by destruct a'|]. destruct a' as [|c a']; simpl in E.
      * right. by exists [].
      * simplify_eq. right. by exists (a' ++ [32]).
Qed.

Lemma find_in_list_loop_spec fuel pre s needle :
  (length s < fuel)%nat -> text s -> is_word needle ->
  match find_in_list_loop fuel (pre ++ s) needle (length pre) with
  | Some i => exists a b, i = length (pre ++ a) /\ occurs s needle a b
  | None => ~ needle ∈ tokens s
  end.
Proof.
  revert pre s. induction fuel as [|f IH]; intros pre s Hf Hs Hn; [lia|]. cbn [find_in_list_loop].
  destruct (tokens_view s Hs) as [Hb|(sp & w & r & -> & Hsp & Hw & Hr & Ht & Etok)].
  { rewrite tokens_blank by done. rewrite scan_blank by done. simpl.
    case_if; apply not_elem_of_nil. }
  destruct (scan_word pre sp w r Hsp Hw Hr) as (E1 & E2 & E3 & E4 & E5 & E6).
  rewrite (proj2 (Z.eqb_neq _ _) E1), E2, E3, (proj2 (Z.eqb_neq _ _) E4), E5, E6.
  assert (Hcmp : (length needle =? length w)%nat && (strncmp needle (w ++ r) (length w) =? 0)
    = bool_decide (needle = w)).
  { apply eq_bool_prop_intro. rewrite !Is_true_true, bool_decide_eq_true, andb_true_iff.
    rewrite Nat.eqb_eq, Z.eqb_eq. split.
    - intros [? H]. by apply strncmp_same in H; [|done|apply word_text].
    - intros ->. split; [done|]. by apply strncmp_same; [|apply word_text|]. }
  rewrite Hcmp. case_bool_decide as Hd.
  - subst w. exists sp, r. split; [done|]. split_and!; [done|by apply blank_sep|done|].
    rewrite tokens_blank by done. apply not_elem_of_nil.
  - specialize (IH (pre ++ sp ++ w) r). rewrite <- !app_assoc in IH.
    assert (length r < f)%nat.
    { rewrite !length_app in Hf. destruct Hw as [? _]. destruct w; [done|]. simpl in Hf. lia. }
    destruct (find_in_list_loop f _ needle _) as [i|].
    + destruct IH as (a & b & -> & Ho); [done..|]. exists (sp ++ w ++ a), b.
      rewrite <- !app_assoc. split; [done|]. by apply occurs_skip.
    + rewrite Etok, elem_of_cons. intros [->|?]; [done|]. by apply IH.
Qed.

Lemma find_in_list_spec s needle :
  text s -> is_word needle ->
  match find_in_list s needle with
  | Some i => exists a b, i = length a /\ occurs s needle a b
  | None => ~ needle ∈ tokens s
  end.
Proof.
  intros Hs Hn. unfold find_in_list.
  assert (E : (char_at needle 0 =? 0) = false).
  { apply Z.eqb_neq. apply (char_at_text [] needle); [by apply word_text|apply Hn]. }
  rewrite E, orb_false_r. destruct s as [|c s]; [apply not_elem_of_nil|].
  assert (E2 : (char_at (c :: s) 0 =? 0) = false).
  { apply Z.eqb_neq. by apply (char_at_text [] (c :: s)). }
  rewrite E2. apply (find_in_list_loop_spec _ []); [lia|done|done].
Qed.

(** * Removing and adding *)

(** The list is terminated inside its buffer. *)
Definition fits (s : cstr) (size : Z) : Prop := Z.of_nat (length s) < size.

Lemma guards_pass s size w :
  fits s size -> is_word w ->
  ((size <=? 0) || (char_at w 0 =? 0)) = false /\ unterminated s size = false.
Proof.
  intros Hs Hw. unfold fits, unterminated in *. split.
  - apply orb_false_iff. split; [apply Z.leb_gt; lia|]. apply Z.eqb_neq.
    apply (char_at_text [] w); [by apply word_text|apply Hw].
  - apply Z.eqb_neq. lia.
Qed.

(** Removal takes out the first of the equal words, and fails when there is
    none. *)
Lemma remove_from_list_spec name s size :
  text s -> is_word name -> fits s size ->
  match remove_from_list name s size with
  | (s', ret) =>
      text s' /\
      (name ∈ tokens s /\ ret = 0 /\ (length s' < length s)%nat /\
       (exists ws vs, tokens s = ws ++ name :: vs /\ ~ name ∈ ws /\ tokens s' = ws ++ vs) \/
       ~ name ∈ tokens s /\ ret = EINVAL /\ s' = s)
  end.
Proof.
  intros Hs Hn Hf. unfold remove_from_list. destruct (guards_pass s size name Hf Hn) as [-> ->].
  pose proof (find_in_list_spec s name Hs Hn) as H.
  destruct (find_in_list s name) as [i|]; [|by auto].
  destruct H as (a & b & -> & Ho). pose proof (occurs_tokens _ _ _ _ Hn Ho) as Htok.
  destruct Ho as (-> & Ha & Hb & Hin). unfold text in *. rewrite !Forall_app in Hs.
  destruct Hs as (Hta & Htn & Htb).
  assert (Hc : char_at (a ++ name ++ b) (length a + length name) = char_at b 0).
  { unfold char_at. rewrite app_assoc, app_nth2; rewrite length_app; [|lia].
    f_equal. lia. }
  assert (Hne : name ∈ tokens (a ++ name ++ b)).
  { rewrite Htok. apply elem_of_app. right. left. }
  rewrite Hc. destruct Hb as [->|[b' ->]]; unfold char_at; cbn [nth].
  - rewrite Z.eqb_refl. rewrite app_nil_r in *. destruct Hn as [Hnil _].
    assert (exists a', take (if (length a =? 0)%nat then length a else (length a - 1)%nat)
      (a ++ name) = a' /\ tokens a' = tokens a /\ (length a' <= length a)%nat /\ text a')
      as (a' & -> & Ea & Hl & Hta').
    { destruct Ha as [->|[a' ->]]; [by exists []|]. exists a'.
      rewrite length_app, Nat.add_1_r. cbn [Nat.eqb length]. rewrite Nat.sub_1_r. cbn [Nat.pred].
      rewrite <- app_assoc, take_app_length. rewrite tokens_app by (right; right; eauto).
      cbn [tokens Z.eqb Pos.eqb]. rewrite app_nil_r. apply Forall_app in Hta as [? _].
      split_and!; [done|done|lia|done]. }
    split; [done|]. left. split_and!; [done|done| |].
    + rewrite length_app. destruct name; [done|]. simpl. lia.
    + exists (tokens a), []. rewrite app_nil_r. done.
  - change (32 =? 0) with false. change (32 =? chr " ") with true. cbv iota.
    rewrite take_app_length.
    assert (drop (length a + length name + 1) (a ++ name ++ 32 :: b') = b') as ->.
    { change (32 :: b') with ([32] ++ b'). rewrite !app_assoc. apply drop_app_length'.
      rewrite !length_app. done. }
    apply Forall_cons in Htb as [_ Htb]. split; [by apply Forall_app|]. left.
    split_and!; [done|done| |].
    + rewrite !length_app. simpl. lia.
    + exists (tokens a), (tokens b'). split_and!; [done|done|]. apply tokens_app. by left.
Qed.

(** Adding a word appends it, unless it is there already or does not fit. *)
Lemma add_to_list_spec name s size :
  text s -> is_word name -> fits s size ->
  match add_to_list name s size with
  | (s', ret) =>
      text s' /\ fits s' size /\
      (name ∈ tokens s /\ ret = 0 /\ s' = s \/
       ~ name ∈ tokens s /\ ret = 0 /\ tokens s' = tokens s ++ [name] \/
       ~ name ∈ tokens s /\ ret = EMSGSIZE /\ s' = s /\
         size <= Z.of_nat (length s + 1 + length name))
  end.
Proof.
  intros Hs Hn Hf. unfold add_to_list. destruct (guards_pass s size name Hf Hn) as [-> ->].
  pose proof (find_in_list_spec s name Hs Hn) as H.
  destruct (find_in_list s name) as [i|].
  { destruct H as (a & b & _ & Ho). apply occurs_tokens in Ho; [|done]. split_and!; [done..|].
    left. split_and!; [|done..]. rewrite Ho. apply elem_of_app. right. left. }
  unfold fits in *. set (cond := negb _ && negb _).
  assert (Hsep : if cond then True else sep_end s).
  { subst cond. destruct (last s) as [c|] eqn:E.
    - apply last_Some in E as [a ->]. rewrite length_app, Nat.add_sub. unfold char_at.
      rewrite app_nth2, Nat.sub_diag by lia. cbn [nth]. rewrite Nat.add_1_r.
      change (Z.of_nat (S (length a)) =? 0) with false. change (chr " ") with 32. cbn [negb andb].
      destruct (c =? 32) eqn:Ec; [|done]. propify. subst c. right. eauto.
    - apply last_None in E as ->. by left. }
  destruct (_ <=? Z.of_nat (length name)) eqn:E; propify.
  { split_and!; [done..|]. right. right. split_and!; [done..|].
    destruct cond; lia. }
  assert (text name) by (by apply word_text). unfold text in *. destruct cond.
  - change (1 =? 1) with true. cbv iota. split_and!.
    + rewrite !Forall_app. split_and!; [done| |done]. by repeat constructor.
    + rewrite !length_app. simpl. lia.
    + right. left. split_and!; [done..|]. rewrite tokens_app by (left; right; eauto).
      rewrite tokens_app by (right; right; by exists []). rewrite (tokens_word name) by done.
      change (tokens space) with (@nil cstr). by rewrite app_nil_r.
  - change (0 =? 1) with false. cbv iota. split_and!.
    + by rewrite Forall_app.
    + rewrite !length_app. simpl. lia.
    + right. left. split_and!; [done..|]. rewrite tokens_app by (by left).
      by rewrite (tokens_word name).
Qed.

(** On a list in normal form. *)
Lemma add_to_join name ws size :
  Forall is_word ws -> is_word name -> Z.of_nat (weight (ws ++ [name])) <= size ->
  add_to_list name (join ws) size =
    (join (if bool_decide (name ∈ ws) then ws else ws ++ [name]), 0).
Proof.
  intros Hws Hn Hsz.
  assert (Hl : (weight (ws ++ [name]) = weight ws + S (length name))%nat).
  { rewrite weight_app. unfold weight. simpl. lia. }
  assert (Hf : fits (join ws) size) by (unfold fits; rewrite join_length; lia).
  pose proof (add_to_list_spec name (join ws) size (join_text _ Hws) Hn Hf) as H.
  unfold add_to_list in *. destruct (guards_pass (join ws) size name Hf Hn) as [G1 G2].
  rewrite G1, G2 in *. clear G1 G2.
  pose proof (find_in_list_spec (join ws) name (join_text _ Hws) Hn) as Hfind.
  rewrite tokens_join in * by done. destruct (find_in_list (join ws) name) as [i|].
  { destruct H as (_ & _ & [(? & _)|[(? & _ & E)|(_ & [=] & _)]]).
    - by rewrite bool_decide_true.
    - symmetry in E. rewrite tokens_join in E by done.
      apply (f_equal length) in E. rewrite length_app in E. simpl in E. lia. }
  rewrite bool_decide_false by done. clear H.
  destruct (decide (ws = [])) as [->|Hne].
  - change (length (join [])) with 0%nat. cbn [negb andb Z.of_nat Z.eqb].
    destruct (_ <=? Z.of_nat (length name)) eqn:E; propify; [|done].
    unfold weight in *. simpl in *. lia.
  - assert (join ws <> []) as Hj.
    { intros E. pose proof (tokens_join ws Hws) as Et. rewrite E in Et. by destruct Hne. }
    destruct (last (join ws)) as [c|] eqn:E; [|by apply last_None in E].
    pose proof (join_last_plain ws c Hws E) as [_ Hc]. apply last_Some in E as [a E].
    assert (Hca : char_at (join ws) (length (join ws) - 1) = c).
    { rewrite E, length_app, Nat.add_sub. unfold char_at. rewrite app_nth2, Nat.sub_diag by lia. done. }
    rewrite Hca, (proj2 (Z.eqb_neq c (chr " ")) Hc).
    rewrite (proj2 (Z.eqb_neq _ _)) by (rewrite E, length_app; simpl; lia).
    simpl negb. cbv [andb]. change (1 =? 1) with true. cbv iota.
    assert (0 < weight ws)%nat.
    { pose proof (join_length ws) as El. rewrite E, length_app in El. simpl in El. lia. }
    rewrite join_length in *.
    destruct (_ <=? Z.of_nat (length name)) eqn:E2; propify; [lia|].
    rewrite join_snoc by done. rewrite <- app_assoc. done.
Qed.

(** * Duplicates *)

Lemma strchr_sep w r :
  Forall plain w -> sep_start r ->
  strchr (w ++ r) 32 = match r with [] => None | _ => Some (length w) end.
Proof.
  intros Hw Hr. induction Hw as [|c w [_ Hc] Hw IH]; cbn [app length strchr].
  - destruct Hr as [->|[r' ->]]; done.
  - rewrite (proj2 (Z.eqb_neq _ _) Hc), IH. by destruct r.
Qed.

Lemma cut_word_word n w r :
  is_word w -> sep_start r -> cut_word (S n) (w ++ r) = take n w.
Proof.
  intros [Hne Hw] Hr. unfold cut_word, strlcpy. rewrite Nat.sub_1_r. cbn [Nat.pred].
  assert (Htw : Forall plain (take n w)) by by apply Forall_take.
  rewrite take_app. rewrite strcspn_word; [|done|].
  - rewrite take_app_length. done.
  - destruct Hr as [->|[r' ->]]; [left; apply take_nil|].
    destruct (n - length w)%nat; [by left|]. right. eauto.
Qed.

(** The blanks at the front are skipped before the first and after every word. *)
Definition skip (s : cstr) : cstr := drop (strspn s space) s.

Lemma skip_blank sp s :
  Forall (eq 32) sp -> (s = [] \/ char_at s 0 <> 32) -> skip (sp ++ s) = s.
Proof. intros. unfold skip. rewrite strspn_blank by done. apply drop_app_length. Qed.

Lemma foreach_loop_tokens fuel n s :
  (length s < fuel)%nat -> text s ->
  foreach_loop fuel (S (S n)) (skip s) = map (take (S n)) (tokens s).
Proof.
  revert s. induction fuel as [|f IH]; intros s Hf Hs; [lia|]. cbn [foreach_loop].
  destruct (tokens_view s Hs) as [Hb|(sp & w & r & -> & Hsp & Hw & Hr & Ht & ->)].
  { rewrite tokens_blank by done. rewrite <- (app_nil_r s), skip_blank by (done || by left). done. }
  assert (Hc : plain (char_at (w ++ r) 0)) by (by apply word_head).
  rewrite skip_blank by (done || (right; apply Hc)).
  rewrite cut_word_word by done. destruct Hw as [Hne Hw].
  rewrite strchr_sep by done. destruct w as [|c w]; [done|].
  cbn [take map]. apply Forall_cons in Hw as [[Hc0 Hc32] Hw]. unfold char_at. cbn [nth].
  rewrite (proj2 (Z.eqb_neq _ _) Hc0). f_equal.
  destruct Hr as [->|[r' ->]].
  - rewrite <- IH; [done| |constructor]. rewrite !length_app in Hf. simpl in *. lia.
  - rewrite drop_app_length. apply (IH (32 :: r')); [|done]. rewrite !length_app in Hf. simpl in *. lia.
Qed.

(** The body of [foreach] sees the words, each cut to the size of its buffer. *)
Lemma foreach_tokens n s :
  text s -> foreach (S (S n)) s = map (take (S n)) (tokens s).
Proof. intros. apply foreach_loop_tokens; [lia|done]. Qed.

(** The first occurrences of the words. *)
Fixpoint dedup (seen ws : list cstr) : list cstr :=
  match ws with
  | [] => seen
  | w :: ws' => dedup (if bool_decide (w ∈ seen) then seen else seen ++ [w]) ws'
  end.

Lemma dups_loop_spec ws seen size :
  Forall is_word ws -> Forall is_word seen -> Z.of_nat (weight seen + weight ws) <= size ->
  dups_loop ws (join seen) size = Some (join (dedup seen ws)).
Proof.
  intros Hws. revert seen. induction Hws as [|w ws Hw Hws IH]; intros seen Hs Hsz; [done|].
  cbn [dups_loop dedup].
  assert (char_at w 0 <> 0) as Hc
    by (apply (char_at_text [] w); [by apply word_text|apply Hw]).
  rewrite (proj2 (Z.eqb_neq _ _) Hc).
  change (weight (w :: ws)) with (S (length w) + weight ws)%nat in Hsz.
  assert (weight (seen ++ [w]) = weight seen + S (length w))%nat as Ew.
  { rewrite weight_app. unfold weight. simpl. lia. }
  rewrite add_to_join by (done || lia). simpl negb. cbv iota. apply IH.
  - case_bool_decide; [done|]. apply Forall_app. split; [done|by constructor].
  - case_bool_decide; lia.
Qed.

Lemma dedup_spec seen ws :
  NoDup seen -> NoDup (dedup seen ws) /\ forall w, w ∈ dedup seen ws <-> w ∈ seen \/ w ∈ ws.
Proof.
  revert seen. induction ws as [|w ws IH]; intros seen Hs; cbn [dedup].
  - split; [done|]. intros w. rewrite elem_of_nil. tauto.
  - case_bool_decide as Hin.
    + destruct (IH seen Hs) as [? H]. split; [done|]. intros v.
      rewrite H, elem_of_cons. naive_solver.
    + destruct (IH (seen ++ [w])) as [? H].
      { apply NoDup_app. split_and!; [done| |apply NoDup_singleton].
        intros v Hv. rewrite list_elem_of_singleton. by intros ->. }
      split; [done|]. intros v.
      rewrite H, elem_of_cons, elem_of_app, list_elem_of_singleton. tauto.
Qed.

Lemma dedup_words seen ws :
  Forall is_word seen -> Forall is_word ws -> Forall is_word (dedup seen ws).
Proof.
  intros Hs Hws. revert seen Hs. induction Hws as [|w ws Hw Hws IH]; intros seen Hs; [done|].
  cbn [dedup]. apply IH. case_bool_decide; [done|]. apply Forall_app. by split; [|constructor].
Qed.

Lemma dedup_weight seen ws : (weight (dedup seen ws) <= weight seen + weight ws)%nat.
Proof.
  revert seen. induction ws as [|w ws IH]; intros seen; cbn [dedup]; [lia|].
  etransitivity; [apply IH|]. change (weight (w :: ws)) with (S (length w) + weight ws)%nat.
  case_bool_decide; [lia|]. rewrite weight_app. unfold weight. simpl. lia.
Qed.

(** [remove_dups] of a list of words of up to 255 characters succeeds and
    leaves the first occurrence of each word, in order, separated by one space. *)
Theorem remove_dups_first_occurrences (s : cstr) (size : Z) :
  text s -> fits s size -> Forall (fun w => (length w <= 255)%nat) (tokens s) ->
  remove_dups s size = (join (dedup [] (tokens s)), true) /\
  NoDup (dedup [] (tokens s)) /\
  (forall w, w ∈ dedup [] (tokens s) <-> w ∈ tokens s) /\
  fits (join (dedup [] (tokens s))) size.
Proof.
  intros Hs Hf Hlen. unfold remove_dups, fits in *.
  rewrite (proj2 (Z.leb_gt _ _)) by lia.
  assert (unterminated s size = false) as -> by (apply Z.eqb_neq; lia).
  pose proof (tokens_words s Hs) as Hws. pose proof (weight_tokens s Hs) as Hwt.
  assert (map (take 255) (tokens s) = tokens s) as Hmap.
  { clear -Hlen. induction Hlen; simpl; [done|]. rewrite take_ge by done. by f_equal. }
  rewrite (foreach_tokens 254), Hmap by done.
  change (@nil Z) with (join []) at 1.
  rewrite dups_loop_spec; [|done|constructor|unfold weight at 1; simpl; lia].
  pose proof (dedup_weight [] (tokens s)) as Hdw.
  change (weight []) with 0%nat in Hdw.
  destruct (dedup_spec [] (tokens s) (NoDup_nil_2)) as [Hnd Hin].
  assert (Z.of_nat (length (join (dedup [] (tokens s)))) < size) by (rewrite join_length; lia).
  split_and!; [|done| |done].
  - unfold strlcpy. rewrite take_ge by lia. done.
  - intros w. rewrite Hin, elem_of_nil. tauto.
Qed.

Lemma remove_dups_first_occurrences_witness :
  remove_dups (bytes " eth1 vlan2  eth1") 32 = (bytes "eth1 vlan2", true).
Proof.
  refine (proj1 (remove_dups_first_occurrences (bytes " eth1 vlan2  eth1") 32 _ _ _)).
  - repeat constructor; done.
  - done.
  - vm_compute. repeat constructor.
Defined.

(** * Sorting *)

Lemma str_lt_irrefl a : str_lt a a = false.
Proof. induction a as [|x a IH]; simpl; [done|]. by rewrite Z.ltb_irrefl, Z.eqb_refl, IH. Qed.

Lemma str_lt_trans a b c : str_lt a b = true -> str_lt b c = true -> str_lt a c = true.
Proof.
  revert b c. induction a as [|x a IH]; intros [|y b] [|z c]; simpl; try done.
  rewrite !orb_true_iff, !andb_true_iff, !Z.ltb_lt, !Z.eqb_eq.
  intros [?|[-> ?]] [?|[-> ?]]; [left; lia|left; lia|left; lia|right; eauto].
Qed.

Lemma str_lt_total a b : str_lt a b = false -> str_lt b a = false -> a = b.
Proof.
  revert b. induction a as [|x a IH]; intros [|y b]; simpl; try done.
  rewrite !orb_false_iff, !andb_false_iff, !Z.ltb_ge, !Z.eqb_neq.
  intros [? H1] [? H2]. assert (x = y) as -> by lia.
  f_equal. apply IH; [destruct H1|destruct H2]; done.
Qed.

(** [b] is not before [a]: the order of the sorted list. *)
Definition str_le (a b : cstr) : Prop := str_lt b a = false.

Lemma str_le_trans a b c : str_le a b -> str_le b c -> str_le a c.
Proof.
  unfold str_le. intros H1 H2. destruct (str_lt c a) eqn:E; [|done].
  destruct (str_lt a b) eqn:E1.
  - by rewrite (str_lt_trans c a b) in H2.
  - rewrite (str_lt_total a b) in E by done. congruence.
Qed.

(** A word that starts at an offset. *)
Definition word_from (h : cstr) (i : nat) (w : cstr) : Prop :=
  is_word w /\ exists r, drop i h = w ++ r /\ sep_start r.

Lemma word_from_len h i w : word_from h i w -> strcspn (drop i h) space = length w.
Proof. intros [[_ Hw] (r & -> & Hr)]. by apply strcspn_word. Qed.

Lemma word_from_take h i w : word_from h i w -> take (length w) (drop i h) = w.
Proof. intros [_ (r & -> & _)]. apply take_app_length. Qed.

Lemma smallest_loop_spec fuel pre s i m :
  (length s < fuel)%nat -> text s -> word_from (pre ++ s) i m ->
  exists m', word_from (pre ++ s) (smallest_loop fuel (pre ++ s) (length pre) i (length m)) m' /\
    m' ∈ m :: tokens s /\ Forall (str_le m') (m :: tokens s).
Proof.
  revert pre s i m. induction fuel as [|f IH]; intros pre s i m Hf Hs Hm; [lia|].
  cbn [smallest_loop].
  destruct (tokens_view s Hs) as [Hb|(sp & w & r & -> & Hsp & Hw & Hr & Ht & Etok)].
  { rewrite tokens_blank by done. rewrite scan_blank by done. exists m.
    split; [case_if; done|]. split; [left|]. repeat constructor. apply str_lt_irrefl. }
  destruct (scan_word pre sp w r Hsp Hw Hr) as (E1 & E2 & E3 & E4 & E5 & E6).
  rewrite (proj2 (Z.eqb_neq _ _) E1), E2, E3, (proj2 (Z.eqb_neq _ _) E4), E5, E6, Etok.
  destruct Hm as [Hmw (rm & Em & Hrm)]. rewrite Em.
  rewrite strncmp_order by by apply word_text.
  assert (length r < f)%nat.
  { rewrite !length_app in Hf. destruct Hw as [? _]. destruct w; [done|]. simpl in Hf. lia. }
  assert (Ha : pre ++ sp ++ w ++ r = (pre ++ sp ++ w) ++ r) by by rewrite <- !app_assoc.
  destruct (str_lt w m) eqn:Elt.
  - destruct (IH (pre ++ sp ++ w) r (length (pre ++ sp)) w) as (m' & H1 & H2 & H3); [done|done| |].
    { split; [done|]. exists r. by rewrite <- Ha, E3. }
    rewrite <- Ha in H1. exists m'. split; [done|].
    apply Forall_cons in H3 as [H3 H4]. split; [by right|].
    constructor; [|by constructor]. eapply str_le_trans; [exact H3|].
    unfold str_le. destruct (str_lt m w) eqn:E; [|done].
    pose proof (str_lt_trans _ _ _ Elt E) as E'. by rewrite str_lt_irrefl in E'.
  - destruct (IH (pre ++ sp ++ w) r i m) as (m' & H1 & H2 & H3); [done|done| |].
    { split; [done|]. exists rm. by rewrite <- Ha, Em. }
    rewrite <- Ha in H1. exists m'. split; [done|].
    apply Forall_cons in H3 as [H3 H4]. split.
    + apply elem_of_cons in H2 as [->|?]; [left|by right; right].
    + constructor; [done|]. constructor; [|done]. by eapply str_le_trans.
Qed.

Lemma find_smallest_spec s :
  text s ->
  match find_smallest_in_list s with
  | None => tokens s = []
  | Some i => exists m, word_from s i m /\ m ∈ tokens s /\ Forall (str_le m) (tokens s)
  end.
Proof.
  intros Hs. unfold find_smallest_in_list.
  destruct (tokens_view s Hs) as [Hb|(sp & w & r & -> & Hsp & Hw & Hr & Ht & Etok)].
  { pose proof (scan_blank [] s Hb) as E. cbn [app length Nat.add] in E.
    rewrite drop_0 in E. rewrite E. simpl. by apply tokens_blank. }
  destruct (scan_word [] sp w r Hsp Hw Hr) as (E1 & E2 & E3 & E4 & E5 & E6).
  cbn [app length] in *. rewrite drop_0 in E2. simpl in E2. rewrite E2.
  rewrite (proj2 (Z.eqb_neq _ _) E4), E3, E5, E6, Etok.
  destruct (smallest_loop_spec (S (length (sp ++ w ++ r))) (sp ++ w) r (length sp) w)
    as (m & H1 & H2 & H3).
  - rewrite !length_app. lia.
  - done.
  - split; [done|]. exists r. by rewrite <- app_assoc, E3.
  - rewrite <- app_assoc in H1. by exists m.
Qed.

(** The words in the order of [strcmp], each once. *)
Definition sorted_words (ws : list cstr) : Prop :=
  StronglySorted (fun a b => str_lt a b = true) ws.

Lemma sorted_snoc ws w :
  sorted_words ws -> Forall (fun v => str_lt v w = true) ws -> sorted_words (ws ++ [w]).
Proof.
  intros Hs Hw. induction Hs as [|v ws Hs IH Hv]; simpl.
  - repeat constructor.
  - apply Forall_cons in Hw as [? Hw]. constructor; [by apply IH|].
    apply Forall_app. split; [done|by constructor].
Qed.

(** One round of [sort_list] on a list with a word short enough for its buffer: the
    smallest word moves from the list to the sorted one. *)
Lemma sort_round f s ws size w i :
  text s -> fits s size -> Forall is_word ws ->
  Z.of_nat (weight ws + weight (tokens s)) <= size ->
  find_smallest_in_list s = Some i -> word_from s i w -> w ∈ tokens s ->
  (length w < IFNAMSIZ)%nat ->
  exists s' a b, tokens s = a ++ w :: b /\ tokens s' = a ++ b /\ text s' /\
    (length s' < length s)%nat /\
    sort_loop (S f) s (join ws) size =
      sort_loop f s' (join (if bool_decide (w ∈ ws) then ws else ws ++ [w])) size.
Proof.
  intros Hs Hf Hws Hsz Ei Hw Hin Hlen. cbn [sort_loop]. rewrite Ei.
  rewrite (word_from_len _ _ _ Hw), (word_from_take _ _ _ Hw).
  rewrite (proj2 (Nat.leb_gt _ _)) by done.
  assert (Hww : is_word w) by apply Hw.
  pose proof (remove_from_list_spec w s size Hs Hww Hf) as Hr.
  destruct (remove_from_list w s size) as [s' ret].
  destruct Hr as (Ht & [(_ & -> & Hl & a & b & Ea & _ & Eb)|(? & _)]); [|done].
  rewrite add_to_join; [|done|done|].
  - simpl negb. cbv iota. by exists s', a, b.
  - rewrite Ea in Hsz. rewrite !weight_app in *. unfold weight in *. simpl in *. lia.
Qed.

(** The words still in the list are not before the sorted ones. *)
Definition sort_inv (s : cstr) (ws : list cstr) (size : Z) : Prop :=
  text s /\ fits s size /\ Forall is_word ws /\ sorted_words ws /\
  Forall (fun v => Forall (str_le v) (tokens s)) ws /\
  Z.of_nat (weight ws + weight (tokens s)) <= size.

Lemma sort_inv_step s ws size w s' a b :
  sort_inv s ws size -> is_word w -> Forall (str_le w) (tokens s) ->
  tokens s = a ++ w :: b -> tokens s' = a ++ b -> text s' -> (length s' < length s)%nat ->
  sort_inv s' (if bool_decide (w ∈ ws) then ws else ws ++ [w]) size.
Proof.
  intros (Hs & Hf & Hws & Hso & Hle & Hsz) Hw Hmin Ea Eb Ht Hl.
  assert (Hsub : forall P, Forall P (tokens s) -> Forall P (tokens s')).
  { intros P. rewrite Ea, Eb, !Forall_app, Forall_cons. tauto. }
  assert (Hwt : (weight (tokens s) = weight (tokens s') + S (length w))%nat).
  { rewrite Ea, Eb, !weight_app. unfold weight. simpl. lia. }
  assert (Hle' : Forall (fun v => Forall (str_le v) (tokens s')) ws).
  { eapply Forall_impl; [exact Hle|]. auto. }
  unfold fits in *. case_bool_decide as Hin.
  - split_and!; [done|unfold fits; lia|done..|lia].
  - split_and!; [done|unfold fits; lia|..].
    + apply Forall_app. split; [done|by constructor].
    + apply sorted_snoc; [done|]. apply Forall_forall. intros v Hv.
      destruct (str_lt v w) eqn:E; [done|]. exfalso. apply Hin.
      rewrite Forall_forall in Hle. specialize (Hle v Hv). rewrite Ea in Hle.
      apply Forall_app in Hle as [_ Hle]. apply Forall_cons in Hle as [Hle _].
      by rewrite (str_lt_total w v Hle E).
    + apply Forall_app. split; [done|]. constructor; [by apply Hsub|constructor].
    + rewrite weight_app. unfold weight in *. simpl in *. lia.
Qed.

Lemma elem_of_without (v w : cstr) a b :
  v ∈ a ++ w :: b <-> v = w \/ v ∈ a ++ b.
Proof. rewrite !elem_of_app, elem_of_cons. tauto. Qed.

Lemma sort_loop_sorts fuel s ws size :
  (length s < fuel)%nat -> sort_inv s ws size ->
  Forall (fun w => (length w < IFNAMSIZ)%nat) (tokens s) ->
  exists out, sort_loop fuel s (join ws) size = Some (join out, true) /\ sorted_words out /\
    Forall is_word out /\ (forall w, w ∈ out <-> w ∈ ws \/ w ∈ tokens s).
Proof.
  revert s ws. induction fuel as [|f IH]; intros s ws Hfu Hinv Hshort; [lia|].
  pose proof Hinv as (Hs & Hf & Hws & Hso & Hle & Hsz).
  pose proof (find_smallest_spec s Hs) as Hfind.
  destruct (find_smallest_in_list s) as [i|] eqn:Ei.
  - destruct Hfind as (w & Hw & Hin & Hmin).
    assert (Hlen : (length w < IFNAMSIZ)%nat) by (rewrite Forall_forall in Hshort; auto).
    destruct (sort_round f s ws size w i) as (s' & a & b & Ea & Eb & Ht & Hl & ->); [done..|].
    destruct (IH s' (if bool_decide (w ∈ ws) then ws else ws ++ [w]))
      as (out & E & Ho & How & Hmem); [lia| | |].
    + by eapply sort_inv_step; [|apply Hw|..].
    + rewrite Ea in Hshort. rewrite Eb. rewrite Forall_app, Forall_cons in *. tauto.
    + exists out. split_and!; [done..|]. intros v. rewrite Hmem, Ea, Eb, elem_of_without.
      case_bool_decide as Hd; [naive_solver|].
      rewrite elem_of_app, list_elem_of_singleton. tauto.
  - exists ws. cbn [sort_loop]. rewrite Ei, Hfind. split_and!; [|done|done|].
    + unfold strlcpy. rewrite take_ge; [done|]. rewrite join_length. lia.
    + intros w. rewrite elem_of_nil. tauto.
Qed.

(** The smallest of the words that do not fit an interface name. *)
Definition smallest_long (m : cstr) (ws : list cstr) : Prop :=
  m ∈ ws /\ (IFNAMSIZ <= length m)%nat /\
  forall w, w ∈ ws -> (IFNAMSIZ <= length w)%nat -> str_le m w.

#[global] Instance str_le_dec a b : Decision (str_le a b).
Proof. unfold str_le. apply _. Defined.

Lemma filter_all m ws : Forall (str_le m) ws -> filter (str_le m) ws = ws.
Proof. induction 1; [done|]. rewrite filter_cons_True by done. by f_equal. Qed.

Lemma sort_loop_long fuel s ws size m :
  (length s < fuel)%nat -> sort_inv s ws size -> smallest_long m (tokens s) ->
  exists s', sort_loop fuel s (join ws) size = Some (s', false) /\
    tokens s' = filter (str_le m) (tokens s).
Proof.
  revert s ws. induction fuel as [|f IH]; intros s ws Hfu Hinv (Hm & Hml & Hmin); [lia|].
  pose proof Hinv as (Hs & Hf & Hws & Hso & Hle & Hsz).
  pose proof (find_smallest_spec s Hs) as Hfind.
  destruct (find_smallest_in_list s) as [i|] eqn:Ei.
  2: { rewrite Hfind in Hm. by apply elem_of_nil in Hm. }
  destruct Hfind as (w & Hw & Hin & Hwmin).
  destruct (decide (IFNAMSIZ <= length w)%nat) as [Hlong|Hshort].
  - assert (m = w) as ->.
    { apply str_lt_total; [|by apply Hmin]. rewrite Forall_forall in Hwmin. by apply Hwmin. }
    exists s. cbn [sort_loop]. rewrite Ei, (word_from_len _ _ _ Hw).
    rewrite (proj2 (Nat.leb_le _ _)) by done. split; [done|].
    by rewrite filter_all.
  - destruct (sort_round f s ws size w i) as (s' & a & b & Ea & Eb & Ht & Hl & ->); try done; [lia|].
    assert (Hnw : ~ str_le m w).
    { unfold str_le. intros E. assert (m = w); [|subst; lia].
      apply str_lt_total; [|done]. rewrite Forall_forall in Hwmin. by apply Hwmin. }
    destruct (IH s' (if bool_decide (w ∈ ws) then ws else ws ++ [w])) as (out & E & Ho); [lia| | |].
    + by eapply sort_inv_step; [|apply Hw|..].
    + rewrite Ea in *. rewrite Eb. split_and!; [|done|].
      * apply elem_of_without in Hm as [->|?]; [lia|done].
      * intros v Hv. apply Hmin. apply elem_of_without. by right.
    + exists out. split; [done|]. rewrite Ho, Ea, Eb.
      by rewrite !filter_app, filter_cons_False.
Qed.

Lemma sort_inv_init s size : text s -> fits s size -> sort_inv s [] size.
Proof.
  intros Hs Hf. pose proof (weight_tokens s Hs). unfold fits in Hf.
  split_and!; [done|done|constructor..|]. change (weight []) with 0%nat. lia.
Qed.

Lemma sort_list_loop s size :
  fits s size -> sort_list s size = sort_loop (S (length s)) s (join []) size.
Proof.
  unfold fits. intros Hf. unfold sort_list. rewrite (proj2 (Z.leb_gt _ _)) by lia.
  assert (unterminated s size = false) as -> by (apply Z.eqb_neq; lia). done.
Qed.

(** C37: [sort_list] terminates. When every word fits an interface name the buffer
    then holds exactly the words of the list, each once, in the order of
    [strcmp]; otherwise the null pointer is returned, and of the words only those
    that are not before the first one that is too long are still in the buffer. *)
Theorem sort_list_sorts (s : cstr) (size : Z) :
  text s -> fits s size ->
  (Forall (fun w => (length w < IFNAMSIZ)%nat) (tokens s) ->
   exists ws, sort_list s size = Some (join ws, true) /\ sorted_words ws /\
     tokens (join ws) = ws /\ forall w, w ∈ ws <-> w ∈ tokens s) /\
  (forall m, smallest_long m (tokens s) ->
   exists s', sort_list s size = Some (s', false) /\
     tokens s' = filter (str_le m) (tokens s)).
Proof.
  intros Hs Hf. pose proof (sort_inv_init s size Hs Hf) as Hinv.
  rewrite sort_list_loop by done. split.
  - intros Hshort. destruct (sort_loop_sorts (S (length s)) s [] size) as (ws & E & H1 & H2 & H3);
      [lia|done|done|].
    exists ws. split_and!; [done|done|by apply tokens_join|].
    intros w. rewrite H3, elem_of_nil. tauto.
  - intros m Hm. apply (sort_loop_long (S (length s)) s [] size m); [lia|done|done].
Qed.

Lemma sort_list_sorts_witness :
  exists ws, sort_list (bytes "wl1 eth0 wl0 eth0") 32 = Some (join ws, true) /\ sorted_words ws /\
     tokens (join ws) = ws /\ forall w, w ∈ ws <-> w ∈ tokens (bytes "wl1 eth0 wl0 eth0").
Proof.
  refine (proj1 (sort_list_sorts (bytes "wl1 eth0 wl0 eth0") 32 _ _) _).
  - repeat constructor; done.
  - done.
  - vm_compute. repeat constructor.
Defined.

(** The word list operations refine operations on the words: adding appends a
    word that is not there, removing takes out its first occurrence, both answer
    with the error codes of the C library otherwise and never let the list outgrow
    its buffer. *)
Theorem list_edits_refine (name s : cstr) (size : Z) :
  text s -> is_word name -> fits s size ->
  (let '(s', ret) := add_to_list name s size in
   fits s' size /\
   (name ∈ tokens s /\ ret = 0 /\ s' = s \/
    ~ name ∈ tokens s /\ ret = 0 /\ tokens s' = tokens s ++ [name] \/
    ~ name ∈ tokens s /\ ret = EMSGSIZE /\ s' = s /\
      size <= Z.of_nat (length s + 1 + length name))) /\
  (let '(s', ret) := remove_from_list name s size in
   fits s' size /\
   (ret = 0 /\ (exists ws vs, tokens s = ws ++ name :: vs /\ ~ name ∈ ws /\ tokens s' = ws ++ vs) \/
    ~ name ∈ tokens s /\ ret = EINVAL /\ s' = s)).
Proof.
  intros Hs Hn Hf. pose proof (add_to_list_spec name s size Hs Hn Hf) as Ha.
  pose proof (remove_from_list_spec name s size Hs Hn Hf) as Hr.
  destruct (add_to_list name s size) as [s1 r1]. destruct (remove_from_list name s size) as [s2 r2].
  split; [tauto|]. destruct Hr as (_ & [(_ & ? & ? & ?)|(? & ? & ->)]).
  - split; [unfold fits in *; lia|]. by left.
  - split; [done|]. by right.
Qed.

Lemma list_edits_refine_witness :
  remove_from_list (bytes "eth1") (bytes "eth1 eth0") 16 = (bytes "eth0", 0) /\
  fits (bytes "eth0") 16.
Proof.
  split; [reflexivity|].
  refine (proj1 (proj2 (list_edits_refine (bytes "eth1") (bytes "eth1 eth0") 16 _ _ _))).
  - repeat constructor; done.
  - split; [done|]. repeat constructor; done.
  - done.
Defined.

End ShListSpec.
