(* ===== verification/IfNames.v ===== *)
(** Interface names and hardware addresses
    (src/tomato64/package/libshared/shared/shutils.c): hexadecimal text,
    Ethernet addresses, unit numbers inside interface names, and the translation
    between the names of the operating system and those of NVRAM. *)

From Stdlib Require Import ZArith Lia.
From stdpp Require Import base list strings.
From S2P Require Import Prelude Scan Nvram ShList.

Local Open Scope Z_scope.

Module IfNames.
Import Scan Nvram ShList.

Definition ENAMETOOLONG : Z := 36.
Definition INT_MAX : Z := 2147483647.
Definition MAX_NVPARSE : nat := 255.
Definition NVRAM_MAX_PARAM_LEN : nat := 64.

(** ** Hexadecimal text *)

(** [hex\[n\]] of the tables of digits; [upper] selects the capital letters. *)
Definition hex_digit (upper : bool) (n : Z) : Z :=
  char_at (if upper then bytes "0123456789ABCDEF" else bytes "0123456789abcdef") (Z.to_nat n).

(** The two digits of a byte. *)
Definition hex_pair (upper : bool) (b : Z) : cstr :=
  [hex_digit upper (Z.shiftr b 4); hex_digit upper (Z.land b 15)].

(** The error code and what was written before the terminator. *)
Definition bin2hex (dstlen : Z) (src : list Z) : Z * cstr :=
  if dstlen =? 0 then (EINVAL, [])
  else if (dstlen - 1) / 2 <? Z.of_nat (length src) then (ENAMETOOLONG, [])
  else (0, flat_map (hex_pair false) src).

(** ** Ethernet addresses *)

Definition hexval (c : Z) : Z :=
  if (chr "0" <=? c) && (c <=? chr "9") then c - chr "0"
  else if (chr "a" <=? c) && (c <=? chr "f") then c - chr "a" + 10
  else if (chr "A" <=? c) && (c <=? chr "F") then c - chr "A" + 10
  else -1.

Definition ETHER_ADDR_LEN : nat := 6.

(** The loop of [ether_atoe]: [n] bytes are still to be read, [sep] is the
    separator seen so far. *)
Fixpoint atoe_loop (n : nat) (first : bool) (sep : Z) (a : cstr) : option (list Z) :=
  match n with
  | O => Some []
  | S n' =>
      let hi := hexval (char_at a 0) in
      let lo := hexval (char_at a 1) in
      if (hi <? 0) || (lo <? 0) then None
      else
        let e := Z.lor (Z.shiftl hi 4) lo in
        let a := drop 2 a in
        if (0 <? n')%nat then
          let sep := if first then char_at a 0 else sep in
          if first && negb (sep =? chr ":") && negb (sep =? chr "-") then None
          else if negb first && negb (char_at a 0 =? sep) then None
          else match atoe_loop n' false sep (drop 1 a) with
               | Some es => Some (e :: es)
               | None => None
               end
        else if negb (char_at a 0 =? 0) then None
        else Some [e]
  end.

(** Whether the text was an address, and the six bytes afterwards. *)
Definition ether_atoe (a : cstr) : bool * list Z :=
  match atoe_loop ETHER_ADDR_LEN true 0 a with
  | Some e => (true, e)
  | None => (false, repeat 0 ETHER_ADDR_LEN)
  end.

(** The loop of [ether_etoa]; the colon precedes every byte but the first. *)
Fixpoint etoa_loop (first : bool) (e : list Z) : cstr :=
  match e with
  | [] => []
  | b :: e' => (if first then [] else [chr ":"]) ++ hex_pair true b ++ etoa_loop false e'
  end.

Definition ether_etoa (e : list Z) : cstr := etoa_loop true (take ETHER_ADDR_LEN e).

(** ** Unit numbers *)

Definition digits : cstr := bytes "0123456789".

Definition sh_strrspn (s accept : cstr) : nat := strspn (rev s) accept.

(** [strtoul] of a run of digits; [None] for ERANGE. *)
Definition strtoul (p : cstr) : option Z :=
  let v := dec_value 0 p in if 2 ^ 64 <=? v then None else Some v.

(** The trailing number of a string: its offset and value, unless there are no
    digits or it is no [int]. *)
Definition trailing_number (str : cstr) : option (nat * Z) :=
  let len := sh_strrspn str digits in
  if (len =? 0)%nat then None
  else
    let p := (length str - len)%nat in
    match strtoul (drop p str) with
    | None => None
    | Some val => if INT_MAX <? val then None else Some (p, val)
    end.

(** The result and the values of [*unit] and [*subunit]. *)
Definition get_ifname_unit (ifname : cstr) : Z * Z * Z :=
  if (64 <=? length ifname)%nat then (-1, -1, -1)
  else
    let str := ifname in
    match trailing_number str with
    | None => (-1, -1, -1)
    | Some (p, val) =>
        if (p =? 0)%nat || negb (char_at str (p - 1) =? chr ".") then (0, val, -1)
        else
          match trailing_number (take (p - 1) str) with
          | None => (-1, -1, -1)
          | Some (_, u) => (0, u, val)
          end
    end.

Definition isalnum (c : Z) : bool := isdigit c || isupper c || islower c.

Definition str_isalnum_extra (str : cstr) (extra : option cstr) (minlen maxlen : nat) : bool :=
  let len := length str in
  if (len <? minlen)%nat || (negb (maxlen =? 0)%nat && (maxlen <? len)%nat) then false
  else
    forallb (fun c =>
      isalnum c || match extra with Some e => in_set e c | None => false end) str.

Definition str_is_single_line (str : cstr) : bool :=
  forallb (fun c => negb (in_set [13; 10] c)) str.

Section Names.
Context {nv : Nvram}.

Definition contains (s p : cstr) : bool := bool_decide (is_Some (strstr s p)).

(** [strlcpy] into a buffer of [n] bytes followed by the test of its result. *)
Definition copy_name (n : Z) (s : cstr) : Z * cstr :=
  (if n <=? Z.of_nat (length s) then -1 else 0, strlcpy (Z.to_nat n) s).

(** The result and the contents of the output buffer. *)
Definition nvifname_to_osifname (nvifname : cstr) (buf_len : Z) : Z * cstr :=
  if (char_at nvifname 0 =? 0) || (buf_len <=? 0) then (-1, [])
  else if contains nvifname (bytes "eth") || contains nvifname (bytes ".")
  then copy_name buf_len nvifname
  else
    let varname := nvifname ++ bytes "_ifname" in
    if (NVRAM_MAX_PARAM_LEN <=? length varname)%nat then (-1, [])
    else
      match nvram_get varname with
      | None => (-1, [])
      | Some ptr => if char_at ptr 0 =? 0 then (-1, []) else copy_name buf_len ptr
      end.

(** The names of a wireless interface and of a virtual one. *)
Definition wl_name (pri : Z) : cstr := bytes "wl" ++ print_d pri.
Definition wl_sub_name (pri sec : Z) : cstr := bytes "wl" ++ print_d pri ++ bytes "." ++ print_d sec.

(** Whether the NVRAM variable of an interface names [osifname]. The names are far
    shorter than the buffer of the key. *)
Definition named (osifname name : cstr) : bool := nvram_match (name ++ bytes "_ifname") osifname.

Definition osifname_to_nvifname (osifname : cstr) (buf_len : Z) : Z * cstr :=
  if (char_at osifname 0 =? 0) || (buf_len <=? 0) then (-1, [])
  else if contains osifname (bytes "wl") || contains osifname (bytes "br")
          || contains osifname (bytes "wds")
  then copy_name buf_len osifname
  else
    match first_unit (fun pri => named osifname (wl_name pri)) 0 MAX_NVPARSE with
    | Some pri => copy_name buf_len (wl_name pri)
    | None =>
        let sub_of pri := first_unit (fun sec => named osifname (wl_sub_name pri sec)) 0 MAX_NVPARSE in
        match first_unit (fun pri => bool_decide (is_Some (sub_of pri))) 0 MAX_NVPARSE with
        | Some pri =>
            match sub_of pri with
            | Some sec => copy_name buf_len (wl_sub_name pri sec)
            | None => (-1, [])
            end
        | None => (-1, [])
        end
    end.

End Names.

Example ether_ex :
  ether_atoe (bytes "00-1a-2B-3c-4D-ff") = (true, [0; 26; 43; 60; 77; 255]) /\
  ether_atoe (bytes "00:1a-2B:3c:4D:ff") = (false, [0; 0; 0; 0; 0; 0]) /\
  ether_etoa [0; 26; 43; 60; 77; 255] = bytes "00:1A:2B:3C:4D:FF".
Proof. split_and!; reflexivity. Qed.
Example unit_ex :
  get_ifname_unit (bytes "wl12.3") = (0, 12, 3) /\ get_ifname_unit (bytes "eth1") = (0, 1, -1) /\
  get_ifname_unit (bytes "lan") = (-1, -1, -1) /\ get_ifname_unit (bytes "wl.3") = (-1, -1, -1).
Proof. split_and!; reflexivity. Qed.

(** * Hexadecimal text *)

Lemma hexval_digit upper n : 0 <= n < 16 -> hexval (hex_digit upper n) = n.
Proof.
  intros Hn. apply Z.eqb_eq. destruct upper.
  - apply (forall_below 16 (fun n => hexval (hex_digit true n) =? n)); [reflexivity|lia].
  - apply (forall_below 16 (fun n => hexval (hex_digit false n) =? n)); [reflexivity|lia].
Qed.

Lemma hex_pair_value upper b :
  is_byte b ->
  exists h l, hex_pair upper b = [h; l] /\ 0 <= hexval h /\ 0 <= hexval l /\
    Z.lor (Z.shiftl (hexval h) 4) (hexval l) = b.
Proof.
  intros Hb. unfold is_byte in Hb. unfold hex_pair. eexists _, _. split; [done|].
  rewrite shiftr_div by lia. change 15 with (2 ^ 4 - 1). rewrite land_mask by lia.
  pose proof (Z.mod_pos_bound b (2 ^ 4) ltac:(lia)).
  pose proof (Z.div_mod b (2 ^ 4) ltac:(lia)).
  assert (0 <= b / 2 ^ 4 < 16) by (split; [apply Z.div_pos; lia|apply Z.div_lt_upper_bound; lia]).
  rewrite !hexval_digit by lia. split_and!; [lia|lia|]. rewrite lor_shiftl_add; lia.
Qed.

Lemma atoe_etoa_loop e first sep :
  Forall is_byte e -> e <> [] -> (first = false -> sep = chr ":") ->
  atoe_loop (length e) first sep (etoa_loop true e) = Some e.
Proof.
  intros He. revert first sep. induction He as [|b e Hb He IH]; intros first sep Hne Hsep; [done|].
  destruct (hex_pair_value true b Hb) as (h & l & Eh & Hh & Hl & Ev).
  cbn [etoa_loop app length atoe_loop]. rewrite Eh. unfold char_at. cbn [app nth drop].
  rewrite !(proj2 (Z.ltb_ge _ _)) by lia. simpl orb. cbv iota. rewrite Ev.
  destruct e as [|b' e]; [done|].
  cbn [length Nat.ltb Nat.leb etoa_loop app nth drop].
  assert (Hs : (if first then chr ":" else sep) = chr ":") by (destruct first; auto).
  rewrite Hs, Z.eqb_refl. simpl negb. rewrite !andb_false_r. cbn [andb].
  specialize (IH false (chr ":") ltac:(done) ltac:(done)).
  cbn [etoa_loop app length] in IH. rewrite drop_0. by rewrite IH.
Qed.

(** Every hardware address is read back from the text that is printed for it;
    a text that is no address clears all six bytes. *)
Theorem ether_roundtrip (e : list Z) :
  length e = ETHER_ADDR_LEN -> Forall is_byte e ->
  ether_atoe (ether_etoa e) = (true, e) /\ length (ether_etoa e) = 17%nat /\
  forall a, (ether_atoe a).1 = false -> (ether_atoe a).2 = repeat 0 6.
Proof.
  intros Hl He. unfold ether_etoa, ether_atoe. rewrite take_ge by (unfold ETHER_ADDR_LEN in *; lia).
  split_and!.
  - rewrite <- Hl. rewrite atoe_etoa_loop; [done|done|by destruct e|done].
  - unfold ETHER_ADDR_LEN in Hl. do 6 (destruct e as [|? e]; [done|]). by destruct e.
  - intros a. by destruct (atoe_loop _ _ _ a).
Qed.

Lemma ether_roundtrip_witness :
  ether_atoe (ether_etoa [0; 26; 43; 60; 77; 255]) = (true, [0; 26; 43; 60; 77; 255]).
Proof.
  refine (proj1 (ether_roundtrip [0; 26; 43; 60; 77; 255] _ _)); [done|solve_bytes].
Defined.

(** * Unit numbers *)

Lemma in_digits c : in_set digits c = isdigit c.
Proof.
  change digits with [48; 49; 50; 51; 52; 53; 54; 55; 56; 57].
  unfold in_set, isdigit. cbn [existsb]. apply eq_bool_prop_intro. rewrite !Is_true_true.
  rewrite !orb_true_iff, andb_true_iff, !Z.eqb_eq, !Z.leb_le. intuition lia.
Qed.

Definition all_digits (d : cstr) : Prop := Forall (fun c => isdigit c = true) d.
(** The text does not end with a digit. *)
Definition no_digit_end (a : cstr) : Prop := forall c, last a = Some c -> isdigit c = false.

Lemma sh_strrspn_digits a d :
  all_digits d -> no_digit_end a -> sh_strrspn (a ++ d) digits = length d.
Proof.
  intros Hd Ha. unfold sh_strrspn. rewrite rev_app_distr, <- (length_rev d).
  apply Forall_rev in Hd. induction Hd as [|c r Hc Hr IH]; cbn [app length strspn].
  - destruct (last a) as [c|] eqn:E.
    + specialize (Ha c E). apply last_Some in E as [a' ->]. rewrite rev_app_distr. cbn [rev app strspn].
      by rewrite in_digits, Ha.
    + apply last_None in E as ->. done.
  - by rewrite in_digits, Hc, IH.
Qed.

Lemma trailing_number_print a n :
  no_digit_end a -> 0 <= n <= INT_MAX ->
  trailing_number (a ++ print_u 10 n) = Some (length a, n).
Proof.
  intros Ha Hn. unfold INT_MAX in Hn. unfold trailing_number.
  rewrite sh_strrspn_digits; [|apply print_u_digits|done].
  assert (Hl : length (print_u 10 n) <> 0%nat).
  { pose proof (print_u_nonempty 10 n). by destruct (print_u 10 n). }
  rewrite (proj2 (Nat.eqb_neq _ _)) by done. rewrite length_app, Nat.add_sub, drop_app_length.
  unfold strtoul. rewrite print_u_value by lia. rewrite (proj2 (Z.leb_gt _ _)) by lia.
  unfold INT_MAX. rewrite (proj2 (Z.ltb_ge _ _)) by lia. done.
Qed.

Lemma trailing_number_range s p v : trailing_number s = Some (p, v) -> 0 <= v <= INT_MAX.
Proof.
  unfold trailing_number, strtoul. case_if; [done|].
  set (q := drop _ s). assert (0 <= dec_value 0 q) as Hq.
  { assert (forall acc, 0 <= acc -> 0 <= dec_value acc q) as H; [|apply H; lia].
    induction q as [|c q IH]; intros acc Ha; simpl; [done|]. case_if; [|done].
    apply IH. unfold isdigit in *. propify. lia. }
  case_if; [done|]. case_if; [done|]. intros [= <- <-]. propify. lia.
Qed.

Lemma last_digit_end a n : exists c, last (a ++ print_u 10 n) = Some c /\ isdigit c = true.
Proof.
  pose proof (print_u_nonempty 10 n) as Hne. pose proof (print_u_digits n) as Hd.
  rewrite last_app. destruct (last (print_u 10 n)) as [c|] eqn:E; [|by apply last_None in E].
  exists c. split; [done|]. apply last_Some in E as [l E]. rewrite E in Hd.
  apply Forall_app in Hd as [_ Hd]. by apply Forall_cons in Hd as [? _].
Qed.

(** [get_ifname_unit] reads back the numbers of the names the firmware builds,
    [name<unit>] and [name<unit>.<subunit>]; for every other string both numbers
    are -1 or the numbers are those of an [int]. *)
Theorem ifname_unit_roundtrip (a : cstr) (n m : Z) :
  no_digit_end a -> 0 <= n <= INT_MAX -> 0 <= m <= INT_MAX -> (length a <= 42)%nat ->
  (last a <> Some (chr ".") -> get_ifname_unit (a ++ print_u 10 n) = (0, n, -1)) /\
  get_ifname_unit (a ++ print_u 10 n ++ chr "." :: print_u 10 m) = (0, n, m) /\
  forall s, get_ifname_unit s = (-1, -1, -1) \/
    exists u su, get_ifname_unit s = (0, u, su) /\ 0 <= u <= INT_MAX /\ -1 <= su <= INT_MAX.
Proof.
  intros Ha Hn Hm Hl. unfold INT_MAX in Hn, Hm.
  pose proof (print_u_length 10 n 10 ltac:(lia) ltac:(lia) ltac:(lia)) as Ln.
  pose proof (print_u_length 10 m 10 ltac:(lia) ltac:(lia) ltac:(lia)) as Lm.
  split_and!.
  - intros Hdot. unfold get_ifname_unit.
    rewrite (proj2 (Nat.leb_gt _ _)) by (rewrite length_app; lia).
    rewrite trailing_number_print by (done || unfold INT_MAX; lia).
    destruct (last a) as [c|] eqn:E; [|by apply last_None in E as ->].
    apply last_Some in E as [a' ->]. rewrite length_app, Nat.add_sub. unfold char_at.
    rewrite <- app_assoc, app_nth2, Nat.sub_diag by lia. cbn [app nth].
    rewrite (proj2 (Z.eqb_neq c (chr "."))) by (intros ->; done). by rewrite orb_true_r.
  - unfold get_ifname_unit.
    rewrite (proj2 (Nat.leb_gt _ _)) by (rewrite !length_app; simpl; lia).
    change (chr "." :: print_u 10 m) with ([chr "."] ++ print_u 10 m).
    rewrite !app_assoc. rewrite trailing_number_print.
    2: { intros c. rewrite last_snoc. by intros [= <-]. }
    2: { unfold INT_MAX. lia. }
    rewrite !length_app. cbn [length]. rewrite Nat.add_sub.
    assert (Hc : char_at (((a ++ print_u 10 n) ++ [chr "."]) ++ print_u 10 m)
      (length a + length (print_u 10 n)) = chr ".").
    { unfold char_at. rewrite <- app_assoc, app_nth2 by (rewrite length_app; lia).
      by rewrite length_app, Nat.sub_diag. }
    rewrite Hc, Z.eqb_refl. rewrite (proj2 (Nat.eqb_neq _ _)) by lia. simpl orb. cbv iota.
    rewrite <- !app_assoc, app_assoc, take_app_length' by (by rewrite length_app).
    by rewrite trailing_number_print by (done || unfold INT_MAX; lia).
  - intros s. unfold get_ifname_unit. case_if; [by left|].
    destruct (trailing_number s) as [[p v]|] eqn:E1; [|by left].
    apply trailing_number_range in E1.
    case_if; [right; eexists _, _; split; [done|unfold INT_MAX in *; lia]|].
    destruct (trailing_number (take (p - 1) s)) as [[q u]|] eqn:E2; [|by left].
    apply trailing_number_range in E2. right. eexists _, _. split; [done|lia].
Qed.

Lemma ifname_unit_roundtrip_witness :
  get_ifname_unit (bytes "wl" ++ print_u 10 12 ++ chr "." :: print_u 10 3) = (0, 12, 3).
Proof.
  refine (proj1 (proj2 (ifname_unit_roundtrip (bytes "wl") 12 3 _ _ _ _))).
  - intros c. simpl. by intros [= <-].
  - unfold INT_MAX. lia.
  - unfold INT_MAX. lia.
  - simpl. lia.
Defined.

(** * Names of interfaces *)

Section NameLemmas.
Context {nv : Nvram}.

(** A name of digits and the letters [wl] contains neither [eth] nor a dot. *)
Lemma contains_elem s c p : contains s (c :: p) = true -> c ∈ s.
Proof.
  unfold contains. rewrite bool_decide_eq_true. intros [i Hi].
  apply strstr_Some in Hi as (Hp & _). apply prefix_of_str_spec in Hp as [k Hk].
  rewrite <- (take_drop i s), Hk. apply elem_of_app. right. left.
Qed.

Lemma wl_name_plain pri :
  0 <= pri < 255 -> contains (wl_name pri) (bytes "eth") = false /\ contains (wl_name pri) (bytes ".") = false.
Proof.
  intros Hp. assert (Hc : forall c, c ∈ wl_name pri -> c = 119 \/ c = 108 \/ 48 <= c <= 57).
  { intros c. unfold wl_name, print_d. rewrite (proj2 (Z.ltb_ge _ _)) by lia.
    rewrite elem_of_app. intros [H|H].
    - change (bytes "wl") with [119; 108] in H. rewrite !elem_of_cons, elem_of_nil in H. tauto.
    - pose proof (print_u_digits pri) as Hd. rewrite Forall_forall in Hd.
      specialize (Hd c H). unfold isdigit in Hd. propify. lia. }
  split; apply not_true_is_false; intros E; apply contains_elem, Hc in E; revert E; simpl;
    unfold code; simpl; lia.
Qed.

(** For an interface of the operating system that a primary wireless interface
    names, the translation to the NVRAM name and back is the identity; the NVRAM
    name is that of the first such interface. *)
Theorem osifname_roundtrip (os : cstr) (pri size : Z) :
  char_at os 0 <> 0 ->
  contains os (bytes "wl") = false -> contains os (bytes "br") = false ->
  contains os (bytes "wds") = false ->
  0 <= pri < 255 -> nvram_get (wl_name pri ++ bytes "_ifname") = Some os ->
  (forall v, 0 <= v < pri -> nvram_get (wl_name v ++ bytes "_ifname") <> Some os) ->
  6 <= size -> Z.of_nat (length os) < size ->
  osifname_to_nvifname os size = (0, wl_name pri) /\
  nvifname_to_osifname (wl_name pri) size = (0, os).
Proof.
  intros Hne H1 H2 H3 Hp Hget Hfirst Hsz Hlen.
  assert (Hl : (length (wl_name pri) <= 5)%nat).
  { unfold wl_name, print_d. rewrite (proj2 (Z.ltb_ge _ _)) by lia.
    pose proof (print_u_length 10 pri 3 ltac:(lia) ltac:(lia) ltac:(lia)).
    rewrite length_app. simpl. lia. }
  assert (Hcopy : forall s, Z.of_nat (length s) < size -> copy_name size s = (0, s)).
  { intros s Hs. unfold copy_name, strlcpy. rewrite (proj2 (Z.leb_gt _ _)) by lia.
    by rewrite take_ge by lia. }
  split.
  - unfold osifname_to_nvifname. rewrite (proj2 (Z.eqb_neq _ _) Hne), H1, H2, H3.
    rewrite (proj2 (Z.leb_gt _ _)) by lia. simpl orb. cbv iota.
    rewrite (first_unit_unique _ 0 MAX_NVPARSE pri).
    + apply Hcopy. lia.
    + unfold MAX_NVPARSE. lia.
    + unfold named, nvram_match. rewrite Hget. by apply bool_decide_eq_true.
    + intros v Hv. unfold named, nvram_match.
      destruct (nvram_get (wl_name v ++ _)) eqn:E; [|done].
      apply bool_decide_eq_false. intros ->. by apply (Hfirst v).
  - unfold nvifname_to_osifname. destruct (wl_name_plain pri Hp) as [-> ->].
    change (char_at (wl_name pri) 0 =? 0) with false. rewrite (proj2 (Z.leb_gt size 0)) by lia.
    simpl orb. cbv iota. rewrite (proj2 (Nat.leb_gt _ _)).
    2: { rewrite length_app. unfold NVRAM_MAX_PARAM_LEN. change (length (bytes "_ifname")) with 7%nat. lia. }
    rewrite Hget, (proj2 (Z.eqb_neq _ _) Hne). by apply Hcopy.
Qed.

End NameLemmas.

Lemma osifname_roundtrip_witness :
  let nv := {| nvram_get := fun k =>
                 if bool_decide (k = bytes "wl1_ifname") then Some (bytes "eth2") else None;
               nvram_get_int := fun _ => 0 |} in
  osifname_to_nvifname (bytes "eth2") 16 = (0, bytes "wl1").
Proof.
  intros nv.
  refine (proj1 (osifname_roundtrip (nv := nv) (bytes "eth2") 1 16 _ _ _ _ _ _ _ _ _));
    try done.
  intros v Hv. assert (v = 0) as -> by lia. done.
Defined.

End IfNames.
