(* ===== verification/Inet.v ===== *)
(** IPv4 addresses as text: [inet_pton], [inet_aton] and [inet_ntoa] of the C
    library the firmware is built with (musl), and [atoi]. An address is the list
    of its four octets; [s_addr] is the 32-bit word in memory order, least
    significant octet first, as on all supported machines. *)

From Stdlib Require Import ZArith Lia.
From stdpp Require Import base list strings.
From S2P Require Import Prelude Scan.

Local Open Scope Z_scope.

Module Inet.
Import Scan.

(** [atoi]: [strtol], which saturates at the limits of a 64-bit [long], converted to
    [int]. *)
Definition atoi (s : cstr) : Z :=
  match scan_numeral s with
  | None => 0
  | Some (neg, d, _) =>
      let v := dec_value 0 d in
      s32 (if neg then Z.max (- 2 ^ 63) (- v) else Z.min (2 ^ 63 - 1) v)
  end.

Definition is_ipv4 (a : list Z) : Prop := length a = 4%nat /\ Forall is_byte a.

Definition inet_ntoa (a : list Z) : cstr :=
  match a with
  | [a0; a1; a2; a3] =>
      print_u 10 a0 ++ chr "." :: print_u 10 a1 ++ chr "." :: print_u 10 a2
        ++ chr "." :: print_u 10 a3
  | _ => []
  end.

(** The loop of [inet_pton]: [n] octets are still to be read. *)
Fixpoint pton_loop (n : nat) (s : cstr) : option (list Z) :=
  match n with
  | O => None
  | S n' =>
      let d := take_until (fun c => negb (isdigit c)) (take 3 s) in
      let j := length d in
      let v := dec_value 0 d in
      if (j =? 0)%nat || ((1 <? j)%nat && (char_at s 0 =? chr "0")) || (255 <? v) then None
      else if (char_at s j =? 0) && (n' =? 0)%nat then Some [v]
      else if negb (char_at s j =? chr ".") then None
      else match pton_loop n' (drop (j + 1) s) with
           | Some vs => Some (v :: vs)
           | None => None
           end
  end.

Definition inet_pton (s : cstr) : option (list Z) := pton_loop 4 s.

(** [strtoul] with base 0: the value and the rest of the text. *)
Definition is_octal (c : Z) : bool := (48 <=? c) && (c <=? 55).
Fixpoint value_in (base acc : Z) (s : cstr) : Z :=
  match s with
  | [] => acc
  | c :: s' => value_in base (acc * base + hex_val c) s'
  end.
Definition strtoul0 (s : cstr) : Z * cstr :=
  if char_at s 0 =? chr "0" then
    if ((char_at s 1 =? chr "x") || (char_at s 1 =? chr "X")) && isxdigit (char_at s 2) then
      let d := take_until (fun c => negb (isxdigit c)) (drop 2 s) in
      (Z.min (2 ^ 64 - 1) (value_in 16 0 d), drop (2 + length d) s)
    else
      let d := take_until (fun c => negb (is_octal c)) s in
      (Z.min (2 ^ 64 - 1) (value_in 8 0 d), drop (length d) s)
  else
    let d := take_until (fun c => negb (isdigit c)) s in
    (Z.min (2 ^ 64 - 1) (value_in 10 0 d), drop (length d) s).

(** The parts of an address, at most [n]. *)
Fixpoint aton_parts (n : nat) (s : cstr) : option (list Z) :=
  match n with
  | O => None
  | S n' =>
      if negb (isdigit (char_at s 0)) then None
      else
        let '(v, z) := strtoul0 s in
        if char_at z 0 =? 0 then Some [v]
        else if negb (char_at z 0 =? chr ".") then None
        else match aton_parts n' (drop 1 z) with
             | Some vs => Some (v :: vs)
             | None => None
             end
  end.

(** The last part fills the remaining octets. *)
Definition aton_spread (parts : list Z) : list Z :=
  match parts with
  | [a] => [Z.shiftr a 24; Z.land (Z.shiftr a 16) 255; Z.land (Z.shiftr a 8) 255; Z.land a 255]
  | [a; b] => [a; Z.shiftr b 16; Z.land (Z.shiftr b 8) 255; Z.land b 255]
  | [a; b; c] => [a; b; Z.shiftr c 8; Z.land c 255]
  | _ => parts
  end.

Definition inet_aton (s : cstr) : option (list Z) :=
  match aton_parts 4 s with
  | None => None
  | Some parts =>
      let a := aton_spread parts in
      if forallb (fun o => o <=? 255) a then Some a else None
  end.

Fixpoint s_addr (a : list Z) : Z :=
  match a with [] => 0 | o :: a' => o + 256 * s_addr a' end.

(** The octets of a word. *)
Fixpoint octets (n : nat) (w : Z) : list Z :=
  match n with O => [] | S n' => w mod 256 :: octets n' (w / 256) end.

Example inet_ex :
  inet_pton (bytes "192.168.1.10") = Some [192; 168; 1; 10] /\
  inet_pton (bytes "192.168.01.10") = None /\ inet_pton (bytes "1.2.3") = None /\
  inet_aton (bytes "192.168.1.10") = Some [192; 168; 1; 10] /\
  inet_aton (bytes "0x7f.1") = Some [127; 0; 0; 1] /\ inet_aton (bytes "1.2.3.256") = None /\
  inet_ntoa [10; 0; 255; 7] = bytes "10.0.255.7".
Proof. split_and!; reflexivity. Qed.

(** * Reading what was printed *)

Lemma print_octet o :
  is_byte o ->
  (1 <= length (print_u 10 o) <= 3)%nat /\ dec_value 0 (print_u 10 o) = o /\
  Forall (fun c => isdigit c = true) (print_u 10 o) /\
  ((1 < length (print_u 10 o))%nat -> char_at (print_u 10 o) 0 <> chr "0") /\
  value_in 10 0 (print_u 10 o) = o.
Proof.
  intros Ho. unfold is_byte in Ho. pose proof (print_u_nonempty 10 o) as Hne.
  pose proof (print_u_length 10 o 3 ltac:(lia) ltac:(lia) ltac:(lia)).
  split_and!; [destruct (print_u 10 o); [done|simpl; lia]|done|apply print_u_value; lia|apply print_u_digits|..].
  - intros Hl Hz.
    assert (HB : forallb (fun i => let s := print_u 10 (Z.of_nat i) in
      (length s <? 2)%nat || negb (char_at s 0 =? chr "0")) (seq 0 256) = true) by reflexivity.
    pose proof (forall_below 256 (fun o => let s := print_u 10 o in
      (length s <? 2)%nat || negb (char_at s 0 =? chr "0")) HB o ltac:(lia)) as H0.
    cbv beta zeta in H0. rewrite Hz, Z.eqb_refl, orb_false_r in H0. propify. lia.
  - apply Z.eqb_eq. apply (forall_below 256 (fun o => value_in 10 0 (print_u 10 o) =? o));
      [reflexivity|lia].
Qed.

Lemma not_digit_dot : isdigit (chr ".") = false.
Proof. done. Qed.

Lemma pton_octet n o rest :
  is_byte o -> (rest = [] \/ exists r, rest = chr "." :: r) ->
  pton_loop (S n) (print_u 10 o ++ rest) =
    match rest with
    | [] => if (n =? 0)%nat then Some [o] else None
    | _ :: r => match pton_loop n r with Some vs => Some (o :: vs) | None => None end
    end.
Proof.
  intros Ho Hr. destruct (print_octet o Ho) as (Hl & Hv & Hd & Hz & _). unfold is_byte in Ho.
  cbn [pton_loop].
  assert (E : take_until (fun c => negb (isdigit c)) (take 3 (print_u 10 o ++ rest)) = print_u 10 o).
  { rewrite take_app, take_ge by lia. apply take_until_app.
    - eapply Forall_impl; [exact Hd|]. by intros x ->.
    - destruct Hr as [->|[r ->]]; [by rewrite take_nil|].
      destruct (3 - length (print_u 10 o))%nat; done. }
  rewrite E, Hv.
  assert (Hc0 : (1 <? length (print_u 10 o))%nat && (char_at (print_u 10 o ++ rest) 0 =? chr "0") = false).
  { destruct (1 <? length (print_u 10 o))%nat eqn:E1; [|done]. propify. simpl.
    apply Z.eqb_neq. unfold char_at. rewrite app_nth1 by lia. by apply Hz. }
  rewrite Hc0. rewrite (proj2 (Nat.eqb_neq _ _)) by lia. rewrite (proj2 (Z.ltb_ge _ _)) by lia.
  simpl orb. cbv iota.
  assert (Hc : char_at (print_u 10 o ++ rest) (length (print_u 10 o)) = char_at rest 0).
  { unfold char_at. rewrite app_nth2, Nat.sub_diag by lia. done. }
  rewrite Hc. destruct Hr as [->|[r ->]].
  - by destruct n.
  - change (char_at (chr "." :: r) 0) with (chr "."). change (chr "." =? 0) with false.
    rewrite Z.eqb_refl. simpl andb. simpl negb. cbv iota.
    rewrite drop_app, drop_ge, Nat.add_comm, Nat.add_sub by lia. done.
Qed.

Lemma aton_octet n o rest :
  is_byte o -> (rest = [] \/ exists r, rest = chr "." :: r) ->
  aton_parts (S n) (print_u 10 o ++ rest) =
    match rest with
    | [] => Some [o]
    | _ :: r => match aton_parts n r with Some vs => Some (o :: vs) | None => None end
    end.
Proof.
  intros Ho Hr. destruct (print_octet o Ho) as (Hl & _ & Hd & Hz & Hv). unfold is_byte in Ho.
  cbn [aton_parts].
  assert (Hc0 : char_at (print_u 10 o ++ rest) 0 = char_at (print_u 10 o) 0).
  { unfold char_at. by rewrite app_nth1 by lia. }
  assert (Hdig : isdigit (char_at (print_u 10 o) 0) = true).
  { unfold char_at. destruct Hd as [|c l Hc]; [simpl in Hl; lia|done]. }
  rewrite Hc0, Hdig. simpl negb. cbv iota.
  assert (E : strtoul0 (print_u 10 o ++ rest) = (o, rest)).
  { assert (Hrd : forall P : Z -> bool, P (chr ".") = true ->
      match rest with [] => True | c :: _ => P c = true end).
    { intros P HP. destruct Hr as [->|[r ->]]; done. }
    unfold strtoul0. rewrite Hc0. destruct (char_at (print_u 10 o) 0 =? chr "0") eqn:E0.
    - propify. assert (El : length (print_u 10 o) = 1%nat).
      { destruct (decide (length (print_u 10 o) = 1)%nat); [done|]. exfalso. apply Hz; [lia|done]. }
      assert (Ep : print_u 10 o = [48]).
      { destruct (print_u 10 o) as [|c [|]]; try done. unfold char_at in E0. simpl in E0.
        by rewrite E0. }
      assert (Eo : o = 0) by (rewrite Ep in Hv; done). subst o. rewrite Ep.
      destruct Hr as [->|[r ->]]; done.
    - rewrite take_until_app; [|by eapply Forall_impl; [exact Hd|intros x ->]|by apply Hrd].
      rewrite Hv, drop_app_length. f_equal. lia. }
  rewrite E. destruct Hr as [->|[r ->]]; done.
Qed.

(** Both readers accept the text of an address. *)
Lemma inet_read_print a : is_ipv4 a -> inet_pton (inet_ntoa a) = Some a /\ inet_aton (inet_ntoa a) = Some a.
Proof.
  intros [Hl Ha]. do 4 (destruct a as [|? a]; [done|]). destruct a; [|done].
  repeat (apply Forall_cons in Ha as [? Ha]). unfold inet_ntoa, inet_pton, inet_aton. split.
  - rewrite !pton_octet by (done || (right; eauto)). rewrite <- (app_nil_r (print_u 10 z2)).
    rewrite pton_octet by (done || by left). done.
  - rewrite !aton_octet by (done || (right; eauto)). rewrite <- (app_nil_r (print_u 10 z2)).
    rewrite aton_octet by (done || by left). unfold aton_spread, is_byte in *. simpl forallb.
    rewrite !(proj2 (Z.leb_le _ _)) by lia. done.
Qed.

Lemma octets_s_addr a : Forall is_byte a -> octets (length a) (s_addr a) = a.
Proof.
  induction 1 as [|o a Ho Ha IH]; [done|]. unfold is_byte in Ho. cbn [length octets s_addr].
  replace (o + 256 * s_addr a) with (o + s_addr a * 256) by lia.
  rewrite Z.mod_add, Z.mod_small by lia. rewrite Z.div_add, Z.div_small by lia.
  by rewrite Z.add_0_l, IH.
Qed.

Lemma s_addr_octets n w : 0 <= w < 256 ^ Z.of_nat n -> s_addr (octets n w) = w.
Proof.
  revert w. induction n as [|n IH]; intros w Hw; [simpl in *; lia|].
  rewrite Nat2Z.inj_succ, Z.pow_succ_r in Hw by lia. cbn [octets s_addr].
  rewrite IH by (split; [apply Z.div_pos; lia|apply Z.div_lt_upper_bound; lia]).
  pose proof (Z.div_mod w 256 ltac:(lia)). lia.
Qed.

Lemma s_addr_range a : Forall is_byte a -> 0 <= s_addr a < 256 ^ Z.of_nat (length a).
Proof.
  induction 1 as [|o a Ho Ha IH]; [simpl; lia|]. unfold is_byte in Ho. cbn [length s_addr].
  rewrite Nat2Z.inj_succ, Z.pow_succ_r by lia. lia.
Qed.

End Inet.
