(* ===== verification/Wan.v ===== *)
(** The state of a WAN connection as the shared library reads it
    (src/tomato64/package/libshared/shared/misc.c, the WAN counters of shutils.c
    and [wan_gateway] of rc/rc/wan.c): which interface and address it has, whether
    it is up, its name servers, and how many WANs are in use. *)

From Stdlib Require Import ZArith Lia.
From stdpp Require Import base list strings.
From S2P Require Import Prelude Scan Nvram Inet ShListSpec.

Local Open Scope Z_scope.

Module Wan.
Import Scan Nvram Inet.

Definition WP_STATIC : Z := 1.
Definition WP_DHCP : Z := 2.
Definition WP_L2TP : Z := 3.
Definition WP_PPPOE : Z := 4.
Definition WP_PPTP : Z := 5.
Definition WP_PPP3G : Z := 6.
Definition WP_LTE : Z := 7.

(** What the code asks of the system: the contents of a file, the flags of an
    interface ([None] when the request fails), the physical link of a WAN port, and
    whether a socket can be opened. *)
Class Links := {
  file_contents : cstr -> option (list Z);
  if_flags : cstr -> option Z;
  wan_phy_link : cstr -> Z;
  socket_ok : bool }.

(** Features the image is built with. *)
Class Features := { TCONFIG_DNSCRYPT : bool; TCONFIG_STUBBY : bool }.

Section Ops.
Context {nv : Nvram} {build : Build} {links : Links} {features : Features}.

(** [f_read_string] into a buffer of [max] bytes: the number of bytes read and the
    string. *)
Definition f_read_string (path : cstr) (max : nat) : Z * cstr :=
  match file_contents path with
  | None => (-1, [])
  | Some b => let b := take (max - 1) b in (Z.of_nat (length b), until_nul b)
  end.

(** The name of a process, from the parentheses of /proc/<pid>/stat. *)
Definition psname (pid : Z) (maxlen : nat) : cstr :=
  let '(n, buf) := f_read_string (snprintf 64 (bytes "/proc/" ++ print_d pid ++ bytes "/stat")) 512 in
  if 4 <? n then
    match strrchr buf (chr ")") with
    | None => []
    | Some p =>
        let buf := take p buf in
        match strchr buf (chr "(") with
        | None => []
        | Some p => if atoi buf =? pid then strlcpy maxlen (drop (S p) buf) else []
        end
    end
  else [].

Definition using_dhcpc (prefix : cstr) : Z :=
  let proto := get_wanx_proto prefix in
  if (proto =? WP_DHCP) || (proto =? WP_LTE) then 1
  else if (proto =? WP_L2TP) || (proto =? WP_PPTP) || (proto =? WP_PPPOE)
  then prefix_nvram_get_int prefix (bytes "pptp_dhcp") 16
  else 0.

(** An interface and its address; names are cut to 15 and addresses to 16
    characters. *)
Record wanface := mk_wanface { face_name : cstr; face_ip : cstr }.

Definition put_face (ip iface : cstr) : wanface :=
  {| face_name := strlcpy 16 iface; face_ip := strlcpy 17 ip |}.

Definition or_ppp (iface : cstr) : cstr :=
  if char_at iface 0 =? 0 then bytes "ppp+" else iface.

Definition get_wanfaces (prefix : cstr) : list wanface :=
  let proto := get_wanx_proto prefix in
  let nvget suffix := prefix_nvram_get prefix suffix 32 in
  if (proto =? WP_PPTP) || (proto =? WP_L2TP)
     || ((proto =? WP_PPPOE) && negb (using_dhcpc prefix =? 0)) then
    let ip2 := nvget (bytes "ipaddr") in
    [ put_face (nvget (bytes "ppp_get_ip")) (or_ppp (nvget (bytes "iface")));
      put_face ip2
        (if (char_at ip2 0 =? 0) || strcmp_eq ip2 (bytes "0.0.0.0") then []
         else nvget (bytes "ifname")) ]
  else
    let ip := if proto =? WP_DISABLED then bytes "0.0.0.0" else nvget (bytes "ipaddr") in
    let iface :=
      if (proto =? WP_PPPOE) || (proto =? WP_PPP3G) then or_ppp (nvget (bytes "iface"))
      else nvget (bytes "ifname") in
    [put_face ip iface].

Definition get_wanface (prefix : cstr) : cstr :=
  match get_wanfaces prefix with f :: _ => face_name f | [] => [] end.

Definition get_wan6face : cstr :=
  let service := get_ipv6_service in
  if (service =? 1) || (service =? 2) then get_wanface (bytes "wan")
  else if service =? 3 then bytes "v6to4"
  else if service =? 4 then bytes "v6in4"
  else if service =? 6 then bytes "6rd"
  else if service =? 7 then bytes "6rd-pd"
  else nvram_safe_get (bytes "ipv6_ifname").

Definition wan_gateway (prefix : cstr) : cstr :=
  let gw := prefix_nvram_get prefix (bytes "gateway_get") 100 in
  if (char_at gw 0 =? 0) || strcmp_eq gw (bytes "0.0.0.0")
  then prefix_nvram_get prefix (bytes "gateway") 100
  else gw.

(** ** Name servers *)

(** [sscanf] of [n] conversions [%21s]: the words, a longer one in pieces. *)
Fixpoint scan_words (n : nat) (s : cstr) : list cstr :=
  match n with
  | O => []
  | S n' =>
      let s := skip_while isspace s in
      match take_until isspace (take 21 s) with
      | [] => []
      | w => w :: scan_words n' (drop (length w) s)
      end
  end.

(** The address and port of a word, unless it is malformed. *)
Definition dns_word (d : cstr) : option (list Z * Z) :=
  match strchr d (chr ":") with
  | None => match inet_pton d with Some ia => Some (ia, 53) | None => None end
  | Some i =>
      let j := atoi (drop (S i) d) in
      if (j <? 1) || (65535 <? j) then None
      else match inet_pton (take i d) with Some ia => Some (ia, j) | None => None end
  end.

(** The loop over the words: a server already in the list is skipped, a full list
    ends it. *)
Fixpoint dns_loop (words : list cstr) (dns : list (list Z * Z)) : list (list Z * Z) :=
  match words with
  | [] => dns
  | d :: words' =>
      match dns_word d with
      | None => dns_loop words' dns
      | Some e =>
          if bool_decide (e ∈ dns) then dns_loop words' dns
          else
            let dns' := dns ++ [e] in
            if (length dns' =? 6)%nat then dns' else dns_loop words' dns'
      end
  end.

Definition exclusive_proxy (built : bool) (proxy priority : cstr) : bool :=
  built && (negb (nvram_get_int proxy =? 0) && (nvram_get_int priority =? 2)).

(** The text the servers are read from. *)
Definition dns_text (prefix : cstr) : cstr :=
  let nvget suffix := prefix_nvram_get prefix suffix 100 in
  if negb (prefix_nvram_get_int prefix (bytes "dns_auto") 100 =? 0)
  then snprintf 512 (bytes " " ++ nvget (bytes "get_dns"))
  else
    let s := strlcpy 512 (nvget (bytes "dns")) in
    if (prefix_nvram_get_int prefix (bytes "addget") 100 =? 0)
       || exclusive_proxy TCONFIG_DNSCRYPT (bytes "dnscrypt_proxy") (bytes "dnscrypt_priority")
       || exclusive_proxy TCONFIG_STUBBY (bytes "stubby_proxy") (bytes "stubby_priority")
    then s
    else s ++ snprintf (512 - length s) (bytes " " ++ nvget (bytes "get_dns")).

Definition get_dns (prefix : cstr) : list (list Z * Z) :=
  dns_loop (scan_words 7 (dns_text prefix)) [].

(** ** Whether a WAN is up *)

Definition IFF_UP : Z := 1.
Definition IFF_RUNNING : Z := 64.

Definition ppplink_file (prefix : cstr) : cstr :=
  snprintf 64 (bytes "/tmp/ppp/" ++ prefix ++ bytes "_link").

(** A file read into a 64-byte buffer, when something could be read. *)
Definition read64 (path : cstr) : option cstr :=
  let '(n, s) := f_read_string path 64 in if 0 <? n then Some s else None.

(** Whether the daemon behind a PPP link runs; the stale link file to remove. *)
Definition ppp_running (prefix : cstr) (proto : Z) : bool * option cstr :=
  match read64 (ppplink_file prefix) with
  | None => (false, None)
  | Some buf1 =>
      let up :=
        match read64 (snprintf 64 (bytes "/var/run/" ++ buf1 ++ bytes ".pid")) with
        | None => false
        | Some pid =>
            let name := psname (atoi pid) 64 in
            let pppd_name :=
              if proto =? WP_L2TP then strlcpy 16 (bytes "pppd")
              else snprintf 16 (bytes "pppd" ++ prefix) in
            strcmp_eq name pppd_name
        end in
      (up, if up then None else Some (ppplink_file prefix))
  end.

Definition interface_up (prefix : cstr) (proto : Z) : bool :=
  match if_flags (strlcpy 16 (prefix_nvram_get prefix (bytes "iface") 100)) with
  | None => false
  | Some flags =>
      negb (Z.land flags IFF_UP =? 0) && negb (Z.land flags IFF_RUNNING =? 0)
  end
  && (if (proto =? WP_STATIC) || (proto =? WP_DHCP) then negb (wan_phy_link prefix =? 0) else true).

(** The verdict of the watchdog about a connected WAN. *)
Definition watchdog_state (prefix : cstr) : Z :=
  if (nvram_get_int (bytes "mwan_cktime") =? 0)
     || negb (prefix_nvram_get_int prefix (bytes "ck_pause") 64 =? 0) then 1
  else
    match file_contents (snprintf 64 (bytes "/var/lib/misc/" ++ prefix ++ bytes "_state")) with
    | None => 1
    | Some text => match scan_d text with Some (v, _) => v | None => 1 end
    end.

(** The result and the link file that is removed. *)
Definition check_wanup (prefix : cstr) : Z * option cstr :=
  let proto := get_wanx_proto prefix in
  if proto =? WP_DISABLED then (0, None)
  else
    let '(up, stale) :=
      if (proto =? WP_PPTP) || (proto =? WP_L2TP) || (proto =? WP_PPPOE) || (proto =? WP_PPP3G)
      then ppp_running prefix proto
      else (negb (prefix_nvram_match prefix (bytes "ipaddr") (bytes "0.0.0.0") 100), None) in
    let up := up && (if socket_ok then interface_up prefix proto else true) in
    (if up then watchdog_state prefix else 0, stale).

Definition is_up (prefix : cstr) : bool := negb ((check_wanup prefix).1 =? 0).

(** ** The number of WANs *)

Definition mwan_configured_num : Z :=
  let configured := nvram_get_int (bytes "mwan_num") in
  if (configured <? 1) || (MWAN_MAX <? configured) then 1 else configured.

(** The first of the units [i], [i+1], ... that is disabled. *)
Fixpoint active_loop (i : Z) (n : nat) : Z :=
  match n with
  | O => i
  | S n' => if get_wanx_proto (get_wan_prefix i 16) =? WP_DISABLED then i else active_loop (i + 1) n'
  end.

Definition mwan_active_num : Z := active_loop 1 (Z.to_nat mwan_configured_num) - 1.

(** * Name servers *)

Lemma inet_pton_ipv4 n s vs : pton_loop n s = Some vs -> length vs = n /\ Forall is_byte vs.
Proof.
  revert s vs. induction n as [|n IH]; intros s vs; [done|]. cbn [pton_loop].
  set (d := take_until _ _). assert (0 <= dec_value 0 d) as Hd.
  { assert (forall acc, 0 <= acc -> 0 <= dec_value acc d) as H; [|apply H; lia].
    induction d as [|c q IHq]; intros acc Ha; simpl; [done|]. case_if; [|done].
    apply IHq. unfold isdigit in *. propify. lia. }
  case_if; [done|]. propify. assert (is_byte (dec_value 0 d)) by (unfold is_byte; lia).
  case_if; [|case_if; [done|]].
  - intros [= <-]. propify. subst n. split; [done|]. by apply Forall_singleton.
  - destruct (pton_loop n _) as [ws|] eqn:E2; [|done]. intros [= <-].
    apply IH in E2 as [<- ?]. split; [done|]. by constructor.
Qed.

(** A usable entry of the list: an address and a port. *)
Definition valid_server (e : list Z * Z) : Prop := is_ipv4 e.1 /\ 1 <= e.2 <= 65535.

Lemma dns_word_valid d e : dns_word d = Some e -> valid_server e.
Proof.
  unfold dns_word, valid_server, is_ipv4. destruct (strchr d _).
  - case_if; [done|]. destruct (inet_pton _) as [ia|] eqn:Ei; [|done].
    intros [= <-]. apply inet_pton_ipv4 in Ei. propify. simpl. split; [done|lia].
  - destruct (inet_pton d) as [ia|] eqn:Ei; [|done]. intros [= <-].
    apply inet_pton_ipv4 in Ei. simpl. split; [done|lia].
Qed.

Lemma dns_loop_sound words dns :
  (length dns < 6)%nat -> NoDup dns -> Forall valid_server dns ->
  let r := dns_loop words dns in
  (length r <= 6)%nat /\ NoDup r /\ Forall valid_server r.
Proof.
  revert dns. induction words as [|d words IH]; intros dns Hl Hn Hv; cbn [dns_loop].
  { cbv zeta. split_and!; [lia|done|done]. }
  destruct (dns_word d) as [e|] eqn:E; [|by apply IH].
  case_bool_decide as Hin; [by apply IH|].
  assert (NoDup (dns ++ [e])) as Hn'.
  { apply NoDup_app. split_and!; [done| |apply NoDup_singleton].
    intros v Hv'. rewrite list_elem_of_singleton. by intros ->. }
  assert (Forall valid_server (dns ++ [e])) as Hv'.
  { apply Forall_app. split; [done|]. constructor; [by eapply dns_word_valid|done]. }
  case_if; propify.
  - cbv zeta. split_and!; [lia|done|done].
  - apply IH; [|done|done]. rewrite length_app in *. simpl in *. lia.
Qed.

(** The text of a server as the user writes it. *)
Definition server_text (e : list Z * Z) : cstr :=
  inet_ntoa e.1 ++ (if e.2 =? 53 then [] else chr ":" :: print_u 10 e.2).

Lemma ntoa_chars a c : is_ipv4 a -> c ∈ inet_ntoa a -> isdigit c = true \/ c = chr ".".
Proof.
  intros [Hl Ha]. do 4 (destruct a as [|? a]; [done|]). destruct a; [|done].
  unfold inet_ntoa. rewrite !elem_of_app, !elem_of_cons, !elem_of_app, !elem_of_cons, !elem_of_app, !elem_of_cons.
  assert (H : forall n, c ∈ print_u 10 n -> isdigit c = true).
  { intros n Hc. pose proof (print_u_digits n) as Hd. rewrite Forall_forall in Hd. by apply Hd. }
  naive_solver.
Qed.

Lemma strchr_not_in s c : ~ c ∈ s -> strchr s c = None.
Proof.
  induction s as [|x s IH]; intros Hc; simpl; [done|]. rewrite elem_of_cons in Hc.
  rewrite (proj2 (Z.eqb_neq _ _)) by (intros ->; tauto). by rewrite IH by tauto.
Qed.

Lemma strchr_hit s c r : ~ c ∈ s -> strchr (s ++ c :: r) c = Some (length s).
Proof.
  induction s as [|x s IH]; intros Hc; simpl; [by rewrite Z.eqb_refl|]. rewrite elem_of_cons in Hc.
  rewrite (proj2 (Z.eqb_neq _ _)) by (intros ->; tauto). by rewrite IH by tauto.
Qed.

Lemma atoi_print n : 0 <= n < 2 ^ 31 -> atoi (print_u 10 n) = n.
Proof.
  intros Hn. unfold atoi. pose proof (scan_numeral_print [] n [] ltac:(constructor) ltac:(done)) as E.
  cbn [app] in E. rewrite app_nil_r in E. rewrite E, print_u_value by lia.
  rewrite Z.min_r, s32_id; lia.
Qed.

Lemma dns_word_reads e : valid_server e -> dns_word (server_text e) = Some e.
Proof.
  intros [Ha Hp]. destruct e as [a p]. cbn [fst snd] in *. unfold server_text, dns_word. cbn [fst snd].
  assert (Hc : ~ chr ":" ∈ inet_ntoa a).
  { intros H. apply ntoa_chars in H as [H|H]; [|done|done]. by vm_compute in H. }
  destruct (p =? 53) eqn:E; propify.
  - subst p. rewrite app_nil_r, strchr_not_in by done.
    by rewrite (proj1 (inet_read_print a Ha)).
  - rewrite strchr_hit by done. rewrite take_app_length.
    replace (drop (S (length (inet_ntoa a))) (inet_ntoa a ++ chr ":" :: print_u 10 p))
      with (print_u 10 p).
    2: { rewrite drop_app, drop_ge by lia. by replace (S _ - _)%nat with 1%nat by lia. }
    rewrite atoi_print by lia.
    rewrite (proj2 (Z.ltb_ge p 1)), (proj2 (Z.ltb_ge 65535 p)) by lia. simpl orb. cbv iota.
    by rewrite (proj1 (inet_read_print a Ha)).
Qed.

(** A word [sscanf] reads whole. *)
Definition short_word (w : cstr) : Prop :=
  w <> [] /\ (length w <= 21)%nat /\ Forall (fun c => isspace c = false) w.

Lemma scan_words_word n w r :
  short_word w -> (r = [] \/ exists r', r = 32 :: r') ->
  scan_words (S n) (w ++ r) = w :: scan_words n r.
Proof.
  intros (Hne & Hl & Hw) Hr. cbn [scan_words].
  assert (E : skip_while isspace (w ++ r) = w ++ r).
  { destruct w as [|c w]; [done|]. apply Forall_cons in Hw as [Hc _]. simpl. by rewrite Hc. }
  assert (E2 : take_until isspace (take 21 (w ++ r)) = w).
  { rewrite take_app, take_ge by lia. apply take_until_app; [done|].
    destruct Hr as [->|[r' ->]]; [by rewrite take_nil|]. by destruct (21 - length w)%nat. }
  rewrite E, E2. destruct w as [|c w]; [done|]. by rewrite drop_app_length.
Qed.

Lemma scan_words_space n r : scan_words n (32 :: r) = scan_words n r.
Proof. by destruct n. Qed.

Lemma scan_words_nil n : scan_words n [] = [].
Proof. by destruct n. Qed.

Lemma scan_words_join n ws :
  Forall short_word ws -> (length ws <= n)%nat -> scan_words n (ShListSpec.join ws) = ws.
Proof.
  intros Hws. revert n. induction Hws as [|w ws Hw Hws IH]; intros n Hn.
  { apply scan_words_nil. }
  destruct n as [|n]; simpl in Hn; [lia|]. destruct ws as [|v ws].
  - cbn [ShListSpec.join]. rewrite <- (app_nil_r w) at 1.
    rewrite scan_words_word by (done || by left). by rewrite scan_words_nil.
  - rewrite ShListSpec.join_words_cons, scan_words_word by (done || (right; eauto)).
    rewrite scan_words_space, IH by lia. done.
Qed.

Lemma ntoa_length a : is_ipv4 a -> (7 <= length (inet_ntoa a) <= 15)%nat.
Proof.
  intros [Hl Ha]. do 4 (destruct a as [|? a]; [done|]). destruct a; [|done].
  repeat (apply Forall_cons in Ha as [? Ha]). unfold inet_ntoa.
  repeat match goal with H : is_byte _ |- _ => apply print_octet in H as [H _] end.
  rewrite !length_app. cbn [length]. rewrite !length_app. cbn [length].
  rewrite !length_app. cbn [length]. lia.
Qed.

Lemma server_text_short e : valid_server e -> short_word (server_text e).
Proof.
  intros [Ha Hp]. destruct e as [a p]. cbn [fst snd] in *. unfold server_text. cbn [fst snd].
  pose proof (ntoa_length a Ha) as Hl.
  assert (Hs : Forall (fun c => isspace c = false) (inet_ntoa a)).
  { apply Forall_forall. intros c Hc. apply ntoa_chars in Hc as [Hc| ->]; [|done|done].
    unfold isdigit, isspace in *. zify_all. }
  split_and!.
  - destruct (inet_ntoa a); [simpl in Hl; lia|done].
  - rewrite length_app. case_if; [simpl; lia|]. cbn [length].
    pose proof (print_u_length 10 p 5 ltac:(lia) ltac:(lia) ltac:(lia)). lia.
  - apply Forall_app. split; [done|]. case_if; [done|]. constructor; [done|].
    eapply Forall_impl; [apply print_u_digits|]. intros c Hc.
    unfold isdigit, isspace in *. zify_all.
Qed.

Lemma dns_loop_reads es dns :
  Forall valid_server es -> NoDup (dns ++ es) -> (length dns + length es <= 6)%nat ->
  dns_loop (map server_text es) dns = dns ++ es.
Proof.
  intros Hes. revert dns. induction Hes as [|e es He Hes IH]; intros dns Hn Hl; cbn [dns_loop map].
  { by rewrite app_nil_r. }
  rewrite dns_word_reads by done. rewrite bool_decide_false.
  2: { apply NoDup_app in Hn as (_ & Hn & _). intros H. apply (Hn e H). left. }
  simpl in Hl. case_if; propify.
  - rewrite length_app in E. simpl in E. destruct es; [done|]. simpl in Hl. lia.
  - change (e :: es) with ([e] ++ es). rewrite app_assoc. apply IH.
    + by rewrite <- app_assoc.
    + rewrite length_app. simpl. lia.
Qed.

(** C40: The name servers of a WAN are at most the six the structure has room for,
    pairwise different, each a complete address with a port of 1 to 65535,
    whatever the configuration holds; and up to six different servers entered as
    [address\[:port\]] are exactly those, in their order, while neither the received servers
    are to be used ([dns_auto]) nor to be added ([addget]). *)
Theorem get_dns_servers (prefix : cstr) (es : list (list Z * Z)) :
  ((length (get_dns prefix) <= 6)%nat /\ NoDup (get_dns prefix) /\
   Forall valid_server (get_dns prefix)) /\
  (Forall valid_server es -> NoDup es -> (length es <= 6)%nat ->
   prefix_nvram_get_int prefix (bytes "dns_auto") 100 = 0 ->
   prefix_nvram_get_int prefix (bytes "addget") 100 = 0 ->
   prefix_nvram_get prefix (bytes "dns") 100 = ShListSpec.join (map server_text es) ->
   get_dns prefix = es).
Proof.
  split.
  - apply dns_loop_sound; [simpl; lia|constructor|constructor].
  - intros Hv Hn Hl Ha Hg Ht. unfold get_dns, dns_text. rewrite Ha, Hg, Ht. simpl negb.
    cbn [Z.eqb orb]. cbv iota.
    assert (Hs : Forall short_word (map server_text es)).
    { apply Forall_map. eapply Forall_impl; [exact Hv|]. apply server_text_short. }
    assert (Hw : forall ws, Forall short_word ws -> (ShListSpec.weight ws <= 22 * length ws)%nat).
    { clear. induction 1 as [|w ws (_ & H & _) Hws IH]; [done|].
      unfold ShListSpec.weight in *. simpl in *. lia. }
    specialize (Hw _ Hs). rewrite length_map in Hw. unfold strlcpy. rewrite take_ge.
    2: { rewrite ShListSpec.join_length. lia. }
    rewrite scan_words_join by (done || (rewrite length_map; lia)).
    rewrite dns_loop_reads by (done || (simpl; lia)). done.
Qed.

(** ** The number of WANs *)

Lemma active_loop_range i n :
  i <= active_loop i n <= i + Z.of_nat n /\
  (forall u, i <= u < active_loop i n -> get_wanx_proto (get_wan_prefix u 16) <> WP_DISABLED).
Proof.
  revert i. induction n as [|n IH]; intros i; cbn [active_loop]; [split; lia|].
  case_if; propify; [split; lia|]. destruct (IH (i + 1)) as [H1 H2]. split; [lia|].
  intros u Hu. destruct (decide (u = i)) as [->|]; [done|]. apply H2. lia.
Qed.

(** The units in use are the configured ones up to the first that is disabled. *)
Lemma mwan_active_num_range :
  1 <= MWAN_MAX ->
  0 <= mwan_active_num <= mwan_configured_num /\ mwan_configured_num <= MWAN_MAX /\
  forall u, 1 <= u <= mwan_active_num -> get_wanx_proto (get_wan_prefix u 16) <> WP_DISABLED.
Proof.
  intros Hm. unfold mwan_active_num.
  pose proof (active_loop_range 1 (Z.to_nat mwan_configured_num)) as [H1 H2].
  assert (1 <= mwan_configured_num <= MWAN_MAX)
    by (unfold mwan_configured_num; cbv zeta; case_if; zify_all).
  split_and!; [lia|lia|lia|]. intros u Hu. apply H2. lia.
Qed.

End Ops.

Lemma get_dns_servers_witness :
  let nv := {| nvram_get := fun k =>
                 if bool_decide (k = bytes "wan2_dns") then Some (bytes "9.9.9.9 10.0.0.1:5353")
                 else None;
               nvram_get_int := fun _ => 0 |} in
  let features := {| TCONFIG_DNSCRYPT := true; TCONFIG_STUBBY := true |} in
  get_dns (bytes "wan2") = [([9; 9; 9; 9], 53); ([10; 0; 0; 1], 5353)].
Proof.
  intros nv features.
  refine (proj2 (get_dns_servers (bytes "wan2") [([9; 9; 9; 9], 53); ([10; 0; 0; 1], 5353)])
    _ _ _ _ _ _); try reflexivity.
  - constructor; [|constructor; [|constructor]]; (split; [split; [reflexivity|solve_bytes]|simpl; lia]).
  - apply (bool_decide_unpack (NoDup _)). vm_compute. done.
  - simpl. lia.
Defined.

End Wan.
