(* ===== verification/Mwan.v ===== *)
(** Load balancing and failover over several WANs
    (src/tomato64/package/rc/rc/mwan.c and [mwan_pbr_update] of rc/rc/pbr.c).

    The daemon [mwanroute] watches which WANs are up, keeps a routing table with
    its rules per WAN, marks new connections for the WANs that are up and installs
    a default route over the active ones. All of that happens through the commands
    [ip] and [iptables]: a command is a value of [cmd], [argv] gives its arguments,
    and the functions return the commands they run, in order. What the daemon sees
    of the links is the class [Links]; a round of the main loop looks at them three
    times, which may differ. *)

From Stdlib Require Import ZArith Lia.
From stdpp Require Import base list strings.
From S2P Require Import Prelude Scan Nvram Inet Wan.

Local Open Scope Z_scope.

Module Mwan.
Import Scan Nvram Inet Wan.

(** The number of bridges of the build, the width of a [long] and the contents of
    an uninitialised address. *)
Class Machine := { BRIDGE_COUNT : nat; LONG_BITS : nat; uninit : Z }.

Record waninfo_t := mk_waninfo {
  wan_name : cstr; wan_ipaddr : cstr; wan_netmask : cstr; wan_gw : cstr;
  wan_dns : list (list Z * Z); wan_weight : Z }.

(** ** Commands *)

(** A branch of the default route. *)
Record nexthop := mk_nexthop { nh_via : cstr; nh_dev : cstr; nh_weight : Z }.

(** The rules of a WAN carry the preference [<slot><unit>], with slot 10 for its
    address, 11 for its name servers and 12 for its marks. *)
Inductive cmd :=
  | RuleDel (slot unit : Z)
  | RuleFrom (ip : cstr) (unit : Z)
  | RuleTo (ip : cstr) (unit : Z)
  | RuleMark (unit : Z)
  | RouteLink (dst dev src : cstr) (table : Z)
  | RouteLan (cidr dev src : cstr) (table : Z)
  | RouteLo (table : Z)
  | RouteDefault (via dev : cstr) (table : Z)
  | DelDefault (via dev : cstr)
  | Balance (hops : list nexthop)
  | ChainFlush (unit : Z)
  | ChainMark (unit : Z)
  | ChainRestore (unit : Z)
  | RestartDnsmasq.

Definition pref (slot unit : Z) : cstr := print_d slot ++ print_d unit.
Definition mark (unit : Z) : cstr := bytes "0x" ++ print_d unit ++ bytes "00/0xf00".
Definition chain (unit : Z) : cstr := bytes "WAN_" ++ print_d unit.

Definition hop_argv (h : nexthop) : list cstr :=
  [bytes "nexthop"; bytes "via"; nh_via h; bytes "dev"; nh_dev h; bytes "weight";
   print_d (nh_weight h)].

(** The arguments of a command, its name first. *)
Definition argv (c : cmd) : list cstr :=
  match c with
  | RuleDel slot unit =>
      [bytes "ip"; bytes "rule"; bytes "del"; bytes "table"; print_d unit; bytes "pref";
       pref slot unit]
  | RuleFrom ip unit =>
      [bytes "ip"; bytes "rule"; bytes "add"; bytes "from"; ip; bytes "table"; print_d unit;
       bytes "pref"; pref 10 unit]
  | RuleTo ip unit =>
      [bytes "ip"; bytes "rule"; bytes "add"; bytes "to"; ip; bytes "table"; print_d unit;
       bytes "pref"; pref 11 unit]
  | RuleMark unit =>
      [bytes "ip"; bytes "rule"; bytes "add"; bytes "fwmark"; mark unit; bytes "table";
       print_d unit; bytes "pref"; pref 12 unit]
  | RouteLink dst dev src table =>
      [bytes "ip"; bytes "route"; bytes "append"; dst; bytes "dev"; dev; bytes "proto";
       bytes "kernel"; bytes "scope"; bytes "link"; bytes "src"; src; bytes "table"; print_d table]
  | RouteLan cidr dev src table =>
      [bytes "ip"; bytes "route"; bytes "append"; cidr; bytes "dev"; dev; bytes "proto";
       bytes "kernel"; bytes "scope"; bytes "link"; bytes "src"; src; bytes "table"; print_d table]
  | RouteLo table =>
      [bytes "ip"; bytes "route"; bytes "append"; bytes "127.0.0.0/8"; bytes "dev"; bytes "lo";
       bytes "scope"; bytes "link"; bytes "table"; print_d table]
  | RouteDefault via dev table =>
      [bytes "ip"; bytes "route"; bytes "append"; bytes "default"; bytes "via"; via; bytes "dev";
       dev; bytes "table"; print_d table]
  | DelDefault via dev =>
      [bytes "ip"; bytes "route"; bytes "del"; bytes "default"; bytes "via"; via; bytes "dev"; dev]
  | Balance hops =>
      [bytes "ip"; bytes "route"; bytes "replace"; bytes "default"; bytes "scope"; bytes "global"]
        ++ flat_map hop_argv hops
  | ChainFlush unit => [bytes "iptables"; bytes "-t"; bytes "mangle"; bytes "-F"; chain unit]
  | ChainMark unit =>
      [bytes "iptables"; bytes "-t"; bytes "mangle"; bytes "-A"; chain unit; bytes "-m";
       bytes "conntrack"; bytes "--ctstate"; bytes "NEW"; bytes "-j"; bytes "CONNMARK";
       bytes "--set-mark"; mark unit]
  | ChainRestore unit =>
      [bytes "iptables"; bytes "-t"; bytes "mangle"; bytes "-A"; chain unit; bytes "-m";
       bytes "conntrack"; bytes "--ctstate"; bytes "NEW"; bytes "-j"; bytes "CONNMARK";
       bytes "--restore-mark"; bytes "--mask"; bytes "0xf00"]
  | RestartDnsmasq => [bytes "dnsmasq"]
  end.

(** The text of a command in the log. [cmd] holds what was written so far. *)
Fixpoint argv_to_cmd_loop (first : bool) (args : list cstr) (cmd : cstr) (cmd_sz : nat) : cstr :=
  match args with
  | [] => cmd
  | a :: args' =>
      let rem := (cmd_sz - length cmd)%nat in
      if (rem <=? 1)%nat then cmd
      else
        let text := (if first then [] else bytes " ") ++ a in
        if (rem <=? length text)%nat then cmd ++ take (rem - 1) text
        else argv_to_cmd_loop false args' (cmd ++ text) cmd_sz
  end.

Definition mwan_argv_to_cmd (args : list cstr) (cmd_sz : nat) : cstr :=
  argv_to_cmd_loop true args [] cmd_sz.

Section Config.
Context {nv : Nvram} {build : Build} {machine : Machine} {features : Features}.

(** The prefix of the first WAN with a wireless client, and whether there is one. *)
Definition get_sta_wan_prefix (buf_sz : nat) : cstr * Z :=
  match first_unit (fun u => negb (char_at (wan_nvram_get u (bytes "sta") 32) 0 =? 0))
          1 (Z.to_nat mwan_active_num) with
  | Some u => (strlcpy buf_sz (get_wan_prefix u 16), 1)
  | None => (strlcpy buf_sz (bytes "wan"), 0)
  end.

Definition get_wan_info (prefix : cstr) : waninfo_t :=
  let nvget suffix := prefix_nvram_get prefix suffix 32 in
  let proto := get_wanx_proto prefix in
  {| wan_name := strlcpy 16 (get_wanface prefix);
     wan_ipaddr :=
       strlcpy 32
         (if (proto =? WP_L2TP) || (proto =? WP_PPTP) then nvget (bytes "ppp_get_ip")
          else if proto =? WP_PPPOE then
            if negb (using_dhcpc prefix =? 0) then nvget (bytes "ppp_get_ip")
            else nvget (bytes "ipaddr")
          else nvget (bytes "ipaddr"));
     wan_netmask :=
       strlcpy 32
         (if (proto =? WP_L2TP) || (proto =? WP_PPTP) || (proto =? WP_PPPOE)
             || (proto =? WP_PPP3G)
          then bytes "255.255.255.255" else nvget (bytes "netmask"));
     wan_gw := strlcpy 32 (wan_gateway prefix);
     wan_dns := get_dns prefix;
     wan_weight := atoi (nvget (bytes "weight")) |}.

Definition get_wan_ip (info : waninfo_t) (proto : Z) (buf_sz : nat) : cstr :=
  if (proto =? WP_DHCP) || (proto =? WP_LTE) || (proto =? WP_STATIC)
  then strlcpy buf_sz (wan_gw info) else strlcpy buf_sz (wan_ipaddr info).

(** The loop over the bits of the netmask. *)
Fixpoint mask_bits (n : nat) (addr bits : Z) : Z :=
  match n with
  | O => 0
  | S n' => (if Z.land addr bits =? 0 then 0 else 1) + mask_bits n' addr (Z.shiftl bits 1)
  end.

(** An address that cannot be read leaves the variable uninitialised. *)
Definition in_addr (s : cstr) : Z :=
  match inet_aton s with Some a => s_addr a | None => uninit end.

Definition get_cidr (ipaddr netmask : cstr) (buf_sz : nat) : cstr :=
  let in_ipaddr := in_addr ipaddr in
  let in_netmask := in_addr netmask in
  let netmask_bit := mask_bits (LONG_BITS - 1) in_netmask 1 in
  snprintf buf_sz
    (inet_ntoa (octets 4 (Z.land in_ipaddr in_netmask)) ++ bytes "/" ++ print_d netmask_bit).

(** ** The routing table of a WAN *)

Definition mwan_table_del (prefix : cstr) : list cmd :=
  let wan_unit := get_wan_unit prefix in
  let info := get_wan_info prefix in
  RuleDel 10 wan_unit
    :: map (fun _ => RuleDel 11 wan_unit) (wan_dns info)
    ++ [RuleDel 12 wan_unit].

(** The route to the LAN behind a bridge. *)
Definition lan_route (wan_unit : Z) (i : nat) : list cmd :=
  let bget suffix := bridge_nvram_get (Z.of_nat i) suffix 16 in
  let lan_ifname := bget (bytes "ifname") in
  let lan_ipaddr := bget (bytes "ipaddr") in
  let lan_netmask := bget (bytes "netmask") in
  if (char_at lan_ifname 0 =? 0) || (char_at lan_ipaddr 0 =? 0) || (char_at lan_netmask 0 =? 0)
  then []
  else [RouteLan (get_cidr lan_ipaddr lan_netmask 32) lan_ifname lan_ipaddr wan_unit].

Definition mwan_table_add {links : Links} (prefix : cstr) : list cmd :=
  mwan_table_del prefix ++
  let mwan_num := mwan_active_num in
  if mwan_num <=? 1 then []
  else
    let wan_unit := get_wan_unit prefix in
    let info := get_wan_info prefix in
    let proto := get_wanx_proto prefix in
    if is_up prefix then
      [RuleFrom (wan_ipaddr info) wan_unit]
        ++ map (fun d => RuleTo (inet_ntoa d.1) wan_unit) (wan_dns info)
        ++ [RuleMark wan_unit]
        ++ map (fun wanid =>
             let route_dst :=
               if (proto =? WP_DHCP) || (proto =? WP_LTE) || (proto =? WP_STATIC)
               then get_cidr (wan_ipaddr info) (wan_netmask info) 32 else wan_gw info in
             RouteLink route_dst (wan_name info) (wan_ipaddr info) (Z.of_nat wanid))
             (seq 1 (Z.to_nat mwan_num))
        ++ flat_map (lan_route wan_unit) (seq 0 BRIDGE_COUNT)
        ++ [RouteLo wan_unit; RouteDefault (get_wan_ip info proto 32) (wan_name info) wan_unit]
    else [].

(** Whether the flush of the chain succeeds: it fails when the firewall has not
    created it. *)
Definition mwan_pbr_update (chain_exists : bool) (wan_unit : Z) (up : bool) : list cmd :=
  if (wan_unit <? 1) || (MWAN_MAX <? wan_unit) then []
  else
    ChainFlush wan_unit
      :: (if chain_exists && up then [ChainMark wan_unit; ChainRestore wan_unit] else []).

(** The state files that are created, with their contents. *)
Definition mwan_state_files {links : Links} : list (cstr * cstr) :=
  let mwan_num := mwan_active_num in
  if mwan_num <=? 1 then []
  else
    flat_map (fun u =>
      let path := snprintf 64 (bytes "/var/lib/misc/" ++ get_wan_prefix (Z.of_nat u) 16
                               ++ bytes "_state") in
      match file_contents path with
      | Some _ => []
      | None =>
          [(path, if negb (nvram_get_int (bytes "mwan_state_init") =? 0) then bytes "1" ++ [10]
                  else bytes "0" ++ [10])]
      end) (seq 1 (Z.to_nat mwan_num)).

(** ** Status *)

Definition weight_of (unit : Z) : Z := wan_weight (get_wan_info (get_wan_prefix unit 16)).

(** The status of a WAN before failover is considered. *)
Definition base_status {links : Links} (unit : Z) : Z :=
  if is_up (get_wan_prefix unit 16) then
    if 0 <? weight_of unit then chr "2" else chr "1"
  else chr "0".

Definition base_curr {links : Links} (mwan_num : Z) : list Z :=
  map (fun i => if Z.of_nat i <? mwan_num then base_status (Z.of_nat i + 1) else chr "0")
    (seq 0 (Z.to_nat MWAN_MAX)).

(** The status string [mwan_curr] of [MWAN_MAX] characters. *)
Definition mwan_status_update {links : Links} : list Z :=
  let mwan_num := mwan_active_num in
  if mwan_num <=? 1 then repeat (chr "0") (Z.to_nat MWAN_MAX)
  else
    let curr := base_curr mwan_num in
    let allwan_down := negb (existsb (fun c => chr "2" <=? c) (take (Z.to_nat mwan_num) curr)) in
    if allwan_down then
      imap (fun i c =>
        if (Z.of_nat i <? mwan_num) && (c =? chr "1") && (weight_of (Z.of_nat i + 1) =? 0)
        then chr "2" else c) curr
    else curr.

(** The status character of a WAN. *)
Definition status_at (curr : list Z) (unit : Z) : Z := char_at curr (Z.to_nat (unit - 1)).

(** ** Load balancing *)

(** What the loop of [mwan_load_balance] does for a WAN: its branch of the default
    route, if it is active, and the command that removes its own default route. *)
Definition balance_unit {links : Links} (curr : list Z) (unit : Z) : list nexthop * list cmd :=
  let prefix := get_wan_prefix unit 16 in
  let info := get_wan_info prefix in
  let buf := get_wan_ip info (get_wanx_proto prefix) 32 in
  (if is_up prefix && (status_at curr unit =? chr "2") then
     [{| nh_via := buf; nh_dev := wan_name info;
         nh_weight := if wan_weight info =? 0 then 1 else wan_weight info |}]
   else [],
   if negb (strcmp_eq (wan_name info) (bytes "none")) then [DelDefault buf (wan_name info)] else []).

(** The WAN with the highest weight, the first of equals. *)
Fixpoint heaviest (unit best best_weight : Z) (n : nat) : Z :=
  match n with
  | O => best
  | S n' =>
      let w := weight_of unit in
      if best_weight <? w then heaviest (unit + 1) unit w n' else heaviest (unit + 1) best best_weight n'
  end.

Definition emergency_hop (mwan_num : Z) : nexthop :=
  let wan_default := heaviest 2 1 (weight_of 1) (Z.to_nat (mwan_num - 1)) in
  let prefix := get_wan_prefix wan_default 16 in
  let info := get_wan_info prefix in
  {| nh_via := get_wan_ip info (get_wanx_proto prefix) 32; nh_dev := wan_name info;
     nh_weight := wan_weight info |}.

(** The new status string and the commands. The status is read first; [late] is what the
    loop sees when it asks for each WAN again. *)
Definition mwan_load_balance {links : Links} (late : Links) (curr : list Z) : list Z * list cmd :=
  let mwan_num := mwan_active_num in
  if mwan_num <=? 1 then (curr, [])
  else
    let curr := mwan_status_update (links := links) in
    let per_unit := map (fun u => balance_unit (links := late) curr (Z.of_nat u)) (seq 1 (Z.to_nat mwan_num)) in
    let hops := flat_map fst per_unit in
    let not_allwan_down :=
      existsb (fun c => negb (c =? chr "0")) (take (Z.to_nat mwan_num) curr) in
    (curr, flat_map snd per_unit
             ++ [Balance (if not_allwan_down then hops else hops ++ [emergency_hop mwan_num])]).

(** ** The main loop *)

(** What changes for one WAN between two status strings. *)
Definition transition {links : Links} (chain_exists : Z -> bool) (last curr : list Z) (unit : Z)
  : list cmd :=
  let was_up := negb (status_at last unit =? chr "0") in
  let now_up := negb (status_at curr unit =? chr "0") in
  if eqb was_up now_up then []
  else
    let prefix := get_wan_prefix unit 16 in
    if now_up then mwan_table_add prefix ++ mwan_pbr_update (chain_exists unit) unit true
    else mwan_pbr_update (chain_exists unit) unit false ++ mwan_table_del prefix.

(** What a round of the loop sees: the links when the status is read, when the
    tables are changed, when it is read again for the default route and when that is built,
    and the chains of the firewall. *)
Record env := mk_env {
  at_status : Links; at_tables : Links; at_balance : Links; at_hops : Links; chains : Z -> bool }.

(** One round: the new [mwan_last] and the commands. *)
Definition mwan_round (mwan_num : Z) (e : env) (last : list Z) : list Z * list cmd :=
  let curr := mwan_status_update (links := at_status e) in
  if bool_decide (last = curr) then (curr, [])
  else
    let tables :=
      flat_map (fun u => transition (links := at_tables e) (chains e) last curr (Z.of_nat u))
        (seq 1 (Z.to_nat mwan_num)) in
    let '(curr, balance) := mwan_load_balance (links := at_balance e) (at_hops e) curr in
    (curr, tables ++ balance ++ [RestartDnsmasq]).

(** The rounds of [mwan_route_main], from the initial status. *)
Fixpoint mwan_rounds (mwan_num : Z) (es : list env) (last : list Z) : list Z * list cmd :=
  match es with
  | [] => (last, [])
  | e :: es' =>
      if mwan_active_num <=? 1 then (last, [])
      else
        let '(last', c) := mwan_round mwan_num e last in
        let '(last'', c') := mwan_rounds mwan_num es' last' in
        (last'', c ++ c')
  end.

Definition mwan_route_main (es : list env) : list Z * list cmd :=
  let last := repeat (chr "0") (Z.to_nat MWAN_MAX) in
  let mwan_num := mwan_active_num in
  if mwan_num <=? 1 then (last, []) else mwan_rounds mwan_num es last.

End Config.

End Mwan.
