(* ===== verification/MwanSpec.v ===== *)
(** What the multi-WAN daemon of Mwan.v guarantees: the status of each WAN, the
    default route it installs, the order in which tables and marks change, and the
    networks it prints. *)

From Stdlib Require Import ZArith Lia.
From stdpp Require Import base list strings sets.
From S2P Require Import Prelude Scan Nvram Inet Wan Mwan.

Local Open Scope Z_scope.

Module MwanSpec.
Import Scan Nvram Inet Wan Mwan.

Section Spec.
Context {nv : Nvram} {build : Build} {machine : Machine} {features : Features}.

(** * Status *)

Definition up_unit (links : Links) (u : Z) : bool := is_up (links := links) (get_wan_prefix u 16).

(** Some WAN that takes part in load balancing is up. *)
Definition balancing (links : Links) (n : Z) : bool :=
  existsb (fun i => up_unit links (Z.of_nat i + 1) && (0 <? weight_of (Z.of_nat i + 1)))
    (seq 0 (Z.to_nat n)).

(** The specified status: down, active or on standby. A WAN with weight 0 becomes
    active when no balancing one is up. *)
Definition wan_status (links : Links) (n u : Z) : Z :=
  if up_unit links u then
    if 0 <? weight_of u then chr "2"
    else if (weight_of u =? 0) && negb (balancing links n) then chr "2" else chr "1"
  else chr "0".

Lemma char_at_map_seq (f : nat -> Z) k i :
  (i < k)%nat -> char_at (map f (seq 0 k)) i = f i.
Proof.
  intros Hi. unfold char_at. rewrite nth_lookup.
  change (map f (seq 0 k)) with (f <$> seq 0 k).
  rewrite list_lookup_fmap, lookup_seq_lt by done. done.
Qed.

Lemma base_curr_at links n i :
  (i < Z.to_nat MWAN_MAX)%nat ->
  char_at (base_curr (links := links) n) i =
    if Z.of_nat i <? n then base_status (links := links) (Z.of_nat i + 1) else chr "0".
Proof. intros Hi. unfold base_curr. by rewrite char_at_map_seq. Qed.

Lemma base_curr_length links n : length (base_curr (links := links) n) = Z.to_nat MWAN_MAX.
Proof. unfold base_curr. by rewrite length_map, length_seq. Qed.

Lemma existsb_take_base (P : Z -> bool) links n :
  0 <= n <= MWAN_MAX ->
  existsb P (take (Z.to_nat n) (base_curr (links := links) n)) =
  existsb (fun i => P (base_status (links := links) (Z.of_nat i + 1))) (seq 0 (Z.to_nat n)).
Proof.
  intros Hn. unfold base_curr.
  change (map ?f ?l) with (f <$> l). rewrite <- fmap_take, take_seq.
  replace (Z.to_nat n `min` Z.to_nat MWAN_MAX)%nat with (Z.to_nat n) by lia.
  assert (H : forall l, (forall i, i ∈ l -> (i < Z.to_nat n)%nat) ->
    existsb P ((fun i => if Z.of_nat i <? n then base_status (links := links) (Z.of_nat i + 1)
      else chr "0") <$> l) =
    existsb (fun i => P (base_status (links := links) (Z.of_nat i + 1))) l).
  { induction l as [|i l IH]; intros Hl; [done|].
    rewrite fmap_cons. cbn [existsb]. rewrite IH.
    - rewrite (proj2 (Z.ltb_lt _ _)); [done|]. specialize (Hl i). rewrite elem_of_cons in Hl.
      specialize (Hl (or_introl eq_refl)). lia.
    - intros j Hj. apply Hl. by right. }
  apply H. intros i Hi. apply elem_of_seq in Hi. lia.
Qed.

Lemma existsb_ext_in {A} (f g : A -> bool) l :
  (forall x, x ∈ l -> f x = g x) -> existsb f l = existsb g l.
Proof.
  intros H. induction l as [|x l IH]; [done|]. simpl. rewrite H by left. rewrite IH; [done|].
  intros y Hy. apply H. by right.
Qed.

Lemma base_status_two links u :
  (chr "2" <=? base_status (links := links) u) = up_unit links u && (0 <? weight_of u).
Proof. unfold base_status, up_unit. destruct (is_up _), (0 <? weight_of u); done. Qed.

Lemma allwan_down_spec links n :
  0 <= n <= MWAN_MAX ->
  existsb (fun c => chr "2" <=? c) (take (Z.to_nat n) (base_curr (links := links) n)) =
  balancing links n.
Proof.
  intros Hn. rewrite existsb_take_base by done. unfold balancing.
  apply existsb_ext_in. intros i _. apply base_status_two.
Qed.

Lemma status_length links :
  1 <= MWAN_MAX -> length (mwan_status_update (links := links)) = Z.to_nat MWAN_MAX.
Proof.
  intros Hm. unfold mwan_status_update. cbv zeta. case_if; [by rewrite repeat_length|].
  case_if; [|by apply base_curr_length]. by rewrite length_imap, base_curr_length.
Qed.

Lemma char_at_imap (f : nat -> Z -> Z) l i :
  (i < length l)%nat -> char_at (imap f l) i = f i (char_at l i).
Proof.
  intros Hi. unfold char_at. rewrite !nth_lookup, list_lookup_imap.
  by destruct (lookup_lt_is_Some_2 l i Hi) as [c ->].
Qed.

Lemma status_char links i :
  1 <= MWAN_MAX -> 1 < mwan_active_num -> (i < Z.to_nat MWAN_MAX)%nat ->
  char_at (mwan_status_update (links := links)) i =
    if Z.of_nat i <? mwan_active_num
    then wan_status links mwan_active_num (Z.of_nat i + 1) else chr "0".
Proof.
  intros Hm Hn Hi. pose proof (mwan_active_num_range Hm) as (H1 & H2 & _).
  unfold mwan_status_update. cbv zeta. rewrite (proj2 (Z.leb_gt _ _)) by lia.
  rewrite allwan_down_spec by lia.
  assert (Hb : char_at (base_curr (links := links) mwan_active_num) i = _)
    by (apply base_curr_at; done).
  unfold wan_status. destruct (balancing links mwan_active_num); simpl negb; cbv iota.
  - rewrite Hb. destruct (Z.of_nat i <? mwan_active_num); [|done].
    unfold base_status, up_unit. rewrite andb_false_r.
    destruct (is_up _), (0 <? weight_of (Z.of_nat i + 1)); done.
  - rewrite char_at_imap by (by rewrite base_curr_length). rewrite Hb.
    destruct (Z.of_nat i <? mwan_active_num); [|done].
    unfold base_status, up_unit. rewrite andb_true_r.
    destruct (is_up _), (0 <? weight_of (Z.of_nat i + 1)); done.
Qed.

Lemma status_at_spec links u :
  1 <= MWAN_MAX -> 1 < mwan_active_num -> 1 <= u <= mwan_active_num ->
  status_at (mwan_status_update (links := links)) u = wan_status links mwan_active_num u.
Proof.
  intros Hm Hn Hu. pose proof (mwan_active_num_range Hm) as (H1 & H2 & _).
  unfold status_at. rewrite status_char by (done || lia).
  rewrite Z2Nat.id by lia. rewrite (proj2 (Z.ltb_lt _ _)) by lia. f_equal. lia.
Qed.

(** The status of every WAN is what its link and weight say: down, active, or
    on standby; WANs with weight 0 are active exactly when no WAN with a positive
    weight is up, and WANs with a negative weight never are. *)
Theorem status_follows_links (links : Links) (u : Z) :
  1 <= MWAN_MAX -> 1 < mwan_active_num -> 1 <= u <= mwan_active_num ->
  let c := status_at (mwan_status_update (links := links)) u in
  (c = chr "0" <-> up_unit links u = false) /\
  (c = chr "2" <->
   up_unit links u = true /\
   (0 < weight_of u \/
    weight_of u = 0 /\
    forall v, 1 <= v <= mwan_active_num -> up_unit links v = true -> weight_of v <= 0)) /\
  (c = chr "0" \/ c = chr "1" \/ c = chr "2").
Proof.
  intros Hm Hn Hu c. subst c. rewrite status_at_spec by done.
  assert (Hb : balancing links mwan_active_num = false <->
    forall v, 1 <= v <= mwan_active_num -> up_unit links v = true -> weight_of v <= 0).
  { unfold balancing. rewrite <- not_true_iff_false, existsb_exists. split.
    - intros H v Hv Hup. destruct (Z_le_dec (weight_of v) 0); [done|]. exfalso. apply H.
      exists (Z.to_nat (v - 1)). rewrite Z2Nat.id by lia.
      replace (v - 1 + 1) with v by lia. rewrite Hup. split; [apply in_seq; lia|].
      simpl. apply Z.ltb_lt. lia.
    - intros H (i & Hi & Hp). apply in_seq in Hi. propify. specialize (H (Z.of_nat i + 1)).
      assert (weight_of (Z.of_nat i + 1) <= 0) by (apply H; [lia|done]). lia. }
  unfold wan_status. rewrite <- Hb.
  destruct (up_unit links u); [|split_and!; [done| |by left]; split; [done|naive_solver]].
  destruct (0 <? weight_of u) eqn:E; propify.
  - split_and!; [done| |by right; right]. split; [|done]. intros _. split; [done|]. by left.
  - destruct (weight_of u =? 0) eqn:E2; propify.
    + destruct (balancing links mwan_active_num); simpl.
      * split_and!; [done| |by right; left]. split; [done|]. intros [_ [?|[_ ?]]]; [lia|done].
      * split_and!; [done| |by right; right]. split; [|done]. intros _. split; [done|]. by right.
    + simpl. split_and!; [done| |by right; left]. split; [done|]. intros [_ [?|[? _]]]; lia.
Qed.

(** * The default route *)

Definition units (n : Z) : list Z := map Z.of_nat (seq 1 (Z.to_nat n)).

Lemma elem_of_units n u : u ∈ units n <-> 1 <= u <= n.
Proof.
  unfold units. rewrite list_elem_of_fmap. setoid_rewrite elem_of_seq. split.
  - intros (i & -> & Hi). lia.
  - intros Hu. exists (Z.to_nat u). lia.
Qed.

(** The branch of the default route over a WAN. *)
Definition hop_of (u : Z) : nexthop :=
  let prefix := get_wan_prefix u 16 in
  let info := get_wan_info prefix in
  {| nh_via := get_wan_ip info (get_wanx_proto prefix) 32; nh_dev := wan_name info;
     nh_weight := if wan_weight info =? 0 then 1 else wan_weight info |}.

Definition active (curr : list Z) (n : Z) : list Z :=
  filter (fun u => status_at curr u = chr "2") (units n).

Lemma wan_status_active links n u :
  wan_status links n u = chr "2" -> up_unit links u = true.
Proof. unfold wan_status. by destruct (up_unit links u). Qed.

Lemma some_active links n :
  (exists v, 1 <= v <= n /\ up_unit links v = true /\ 0 <= weight_of v) ->
  exists u, 1 <= u <= n /\ wan_status links n u = chr "2".
Proof.
  intros (v & Hv & Hup & Hw). destruct (balancing links n) eqn:Eb.
  - unfold balancing in Eb. apply existsb_exists in Eb as (i & Hi & Hp). apply in_seq in Hi.
    apply andb_true_iff in Hp as [Hp1 Hp2]. exists (Z.of_nat i + 1). split; [lia|].
    unfold wan_status. by rewrite Hp1, Hp2.
  - exists v. split; [done|]. unfold wan_status. rewrite Hup.
    destruct (0 <? weight_of v) eqn:E; [done|]. propify.
    rewrite (proj2 (Z.eqb_eq (weight_of v) 0)) by lia. by rewrite Eb.
Qed.

Lemma balance_hops links curr (l : list nat) :
  (forall u, (u ∈ l)%nat -> status_at curr (Z.of_nat u) = chr "2" -> up_unit links (Z.of_nat u) = true) ->
  flat_map fst (map (fun u => balance_unit (links := links) curr (Z.of_nat u)) l) =
  map hop_of (filter (fun u => status_at curr u = chr "2") (map Z.of_nat l)).
Proof.
  induction l as [|u l IH]; intros H; [done|]. cbn [map flat_map].
  rewrite IH by (intros v Hv; apply H; by right). rewrite filter_cons.
  unfold balance_unit at 1. cbv zeta. cbn [fst].
  destruct (decide (status_at curr (Z.of_nat u) = chr "2")) as [E|E].
  - specialize (H u ltac:(left) E). unfold up_unit in H. rewrite H, E. done.
  - rewrite (proj2 (Z.eqb_neq _ _) E), andb_false_r. done.
Qed.

Lemma balance_dels links curr (l : list nat) :
  Forall (fun c => exists via dev, c = DelDefault via dev)
    (flat_map snd (map (fun u => balance_unit (links := links) curr (Z.of_nat u)) l)).
Proof.
  induction l as [|u l IH]; [constructor|]. cbn [map flat_map]. apply Forall_app. split; [|done].
  unfold balance_unit. cbv zeta. cbn [snd]. case_if; [|constructor]. by repeat econstructor.
Qed.

Lemma heaviest_spec u best n :
  best < u -> 1 <= best ->
  (forall v, 1 <= v < u -> weight_of v <= weight_of best) ->
  let r := heaviest u best (weight_of best) n in
  1 <= r < u + Z.of_nat n /\ forall v, 1 <= v < u + Z.of_nat n -> weight_of v <= weight_of r.
Proof.
  revert u best. induction n as [|n IH]; intros u best Hb H1 Hmax; cbn [heaviest].
  { cbv zeta. split; [lia|]. intros v Hv. apply Hmax. lia. }
  cbv zeta. case_if; propify.
  - destruct (IH (u + 1) u) as [I1 I2]; [lia|lia| |].
    + intros v Hv. destruct (decide (v = u)) as [->|]; [done|].
      assert (weight_of v <= weight_of best) by (apply Hmax; lia). lia.
    + split; [lia|]. intros v Hv. apply I2. lia.
  - destruct (IH (u + 1) best) as [I1 I2]; [lia|lia| |].
    + intros v Hv. destruct (decide (v = u)) as [->|]; [done|]. apply Hmax. lia.
    + split; [lia|]. intros v Hv. apply I2. lia.
Qed.

Lemma not_allwan_down_spec links :
  1 <= MWAN_MAX -> 1 < mwan_active_num ->
  existsb (fun c => negb (c =? chr "0"))
    (take (Z.to_nat mwan_active_num) (mwan_status_update (links := links))) = true <->
  exists v, 1 <= v <= mwan_active_num /\ up_unit links v = true.
Proof.
  intros Hm Hn. pose proof (mwan_active_num_range Hm) as (H1 & H2 & _).
  rewrite existsb_exists. split.
  - intros (c & Hc & Hz). apply list_elem_of_In, list_elem_of_lookup in Hc as [i Hi].
    apply lookup_take_Some in Hi as [Hi Hlt].
    exists (Z.of_nat i + 1). split; [lia|].
    assert (Ec : char_at (mwan_status_update (links := links)) i = c)
      by (unfold char_at; by rewrite nth_lookup, Hi).
    rewrite status_char in Ec by (done || lia).
    rewrite (proj2 (Z.ltb_lt _ _)) in Ec by lia. unfold wan_status in Ec.
    destruct (up_unit links (Z.of_nat i + 1)); [done|]. subst c. done.
  - intros (v & Hv & Hup). set (i := Z.to_nat (v - 1)).
    assert (Hl : (i < length (mwan_status_update (links := links)))%nat)
      by (rewrite status_length by done; lia).
    destruct (lookup_lt_is_Some_2 _ _ Hl) as [c Hc]. exists c. split.
    + apply list_elem_of_In, list_elem_of_lookup. exists i. apply lookup_take_Some. split; [done|lia].
    + assert (Ec : char_at (mwan_status_update (links := links)) i = c)
        by (unfold char_at; by rewrite nth_lookup, Hc).
      rewrite status_char in Ec by (done || lia).
      rewrite (proj2 (Z.ltb_lt _ _)) in Ec by lia.
      replace (Z.of_nat i + 1) with v in Ec by lia. unfold wan_status in Ec. rewrite Hup in Ec.
      apply negb_true_iff, Z.eqb_neq. intros ->. revert Ec.
      destruct (0 <? weight_of v); [done|]. by destruct (_ && _).
Qed.

(** C30: Each time it runs, while the links do not change under it, [mwan_load_balance]
    ends with exactly one replacement of the default route. While some WAN is up its branches are the active WANs, all
    of them up; there is at least one as soon as a WAN that is up has no negative
    weight. When every WAN is down the route goes over a WAN of the highest
    weight. *)
Theorem default_route_alive (links : Links) (curr0 : list Z) :
  1 <= MWAN_MAX -> 1 < mwan_active_num ->
  exists dels hops curr,
    mwan_load_balance (links := links) links curr0 = (curr, dels ++ [Balance hops]) /\
    curr = mwan_status_update (links := links) /\
    Forall (fun c => exists via dev, c = DelDefault via dev) dels /\
    ((exists v, 1 <= v <= mwan_active_num /\ up_unit links v = true) ->
     hops = map hop_of (active curr mwan_active_num) /\
     Forall (fun u => up_unit links u = true) (active curr mwan_active_num) /\
     ((exists v, 1 <= v <= mwan_active_num /\ up_unit links v = true /\ 0 <= weight_of v) ->
      hops <> [])) /\
    ((forall v, 1 <= v <= mwan_active_num -> up_unit links v = false) ->
     exists d h, hops = [h] /\ 1 <= d <= mwan_active_num /\
       nh_via h = nh_via (hop_of d) /\ nh_dev h = nh_dev (hop_of d) /\
       nh_weight h = weight_of d /\
       forall v, 1 <= v <= mwan_active_num -> weight_of v <= weight_of d).
Proof.
  intros Hm Hn. unfold mwan_load_balance. cbv zeta.
  rewrite (proj2 (Z.leb_gt mwan_active_num 1)) by lia.
  set (n := mwan_active_num) in *. set (curr := mwan_status_update (links := links)).
  assert (Hst : forall u, 1 <= u <= n -> status_at curr u = wan_status links n u)
    by (intros; by apply status_at_spec).
  assert (Hup : forall u, 1 <= u <= n -> status_at curr u = chr "2" -> up_unit links u = true).
  { intros u Hu E. rewrite Hst in E by done. by apply wan_status_active in E. }
  rewrite (balance_hops links curr).
  2: { intros u Hu. apply elem_of_seq in Hu. apply Hup. lia. }
  eexists _, _, curr. split; [reflexivity|]. split; [done|]. split; [apply balance_dels|].
  pose proof (not_allwan_down_spec links Hm Hn) as Hd. fold n curr in Hd. split.
  - intros Hex. rewrite (proj2 Hd Hex). split; [done|]. split.
    + apply Forall_forall. intros u Hu. apply list_elem_of_filter in Hu as [E Hu].
      apply elem_of_units in Hu. by apply Hup.
    + intros Hw. destruct (some_active links n Hw) as (u & Hu & Eu).
      intros E. apply map_eq_nil in E.
      apply (filter_nil_not_elem_of (fun u => status_at curr u = chr "2") _ u E).
      * by rewrite Hst.
      * by apply elem_of_units.
  - intros Hall. destruct (existsb _ _) eqn:E.
    { destruct (proj1 Hd eq_refl) as (v & Hv & E'). by rewrite Hall in E'. }
    assert (Enil : filter (fun u => status_at curr u = chr "2") (map Z.of_nat (seq 1 (Z.to_nat n))) = []).
    { destruct (filter _ _) as [|u l] eqn:Ef; [done|].
      assert (Hu : u ∈ u :: l) by left. rewrite <- Ef in Hu.
      apply list_elem_of_filter in Hu as [Es Hu]. apply elem_of_units in Hu.
      apply Hup in Es; [|done]. rewrite Hall in Es by done. done. }
    rewrite Enil. destruct (heaviest_spec 2 1 (Z.to_nat (n - 1))) as [H1 H2]; [lia|lia| |].
    { intros v Hv. by replace v with 1 by lia. }
    exists (heaviest 2 1 (weight_of 1) (Z.to_nat (n - 1))), (emergency_hop n).
    split_and!; [done|lia|lia|done|done|done|]. intros v Hv. apply H2. lia.
Qed.

(** * Tables and marks *)

(** What the commands change in the kernel, as far as marks are concerned: the WANs
    with a rule that sends their marks to their table (an entry per rule), and the
    WANs whose chain marks new connections. *)
Record kernel := mk_kernel { tables : list Z; marked : list Z }.

Fixpoint remove_first (u : Z) (l : list Z) : list Z :=
  match l with
  | [] => []
  | v :: l' => if v =? u then l' else v :: remove_first u l'
  end.

Definition exec (k : kernel) (c : cmd) : kernel :=
  match c with
  | RuleDel slot u =>
      if slot =? 12 then {| tables := remove_first u (tables k); marked := marked k |} else k
  | RuleMark u => {| tables := u :: tables k; marked := marked k |}
  | ChainFlush u => {| tables := tables k; marked := filter (fun v => v <> u) (marked k) |}
  | ChainMark u => {| tables := tables k; marked := u :: marked k |}
  | _ => k
  end.

Definition run (cs : list cmd) (k : kernel) : kernel := foldl exec k cs.

(** No connection is marked for a WAN without a table. *)
Definition safe (k : kernel) : Prop := forall u, u ∈ marked k -> u ∈ tables k.

(** Safety in every state a sequence of commands passes through. *)
Fixpoint safe_run (cs : list cmd) (k : kernel) : Prop :=
  safe k /\ match cs with [] => True | c :: cs' => safe_run cs' (exec k c) end.

Definition neutral (c : cmd) : Prop := forall k, exec k c = k.

Lemma run_app a b k : run (a ++ b) k = run b (run a k).
Proof. apply foldl_app. Qed.

Lemma safe_run_app a b k : safe_run (a ++ b) k <-> safe_run a k /\ safe_run b (run a k).
Proof.
  revert k. induction a as [|c a IH]; intros k; simpl.
  - destruct b; simpl; tauto.
  - rewrite IH. unfold run. simpl. tauto.
Qed.

Lemma neutral_run cs k : Forall neutral cs -> safe k -> run cs k = k /\ safe_run cs k.
Proof.
  intros Hn. induction Hn as [|c cs Hc Hn IH]; intros Hs; [done|].
  unfold run in *. cbn [foldl safe_run]. rewrite Hc. destruct (IH Hs) as [? ?]. done.
Qed.

Lemma not_neutral_free c :
  match c with RuleDel 12 _ | RuleMark _ | ChainFlush _ | ChainMark _ => False | _ => True end ->
  neutral c.
Proof.
  intros H k. destruct c; try done. simpl. destruct (slot =? 12) eqn:E; [|done].
  propify. subst slot. done.
Qed.

Lemma prefix_unit u :
  MWAN_MAX <= 9999 -> 1 <= u <= MWAN_MAX -> get_wan_unit (get_wan_prefix u 16) = u.
Proof.
  intros Hm Hu. assert (get_wan_prefix u 16 = get_wan_prefix u 8) as ->; [|by apply wan_prefix_roundtrip].
  rewrite get_wan_prefix_fits by done. unfold get_wan_prefix. case_if; [|done]. propify.
  unfold print_d. rewrite (proj2 (Z.ltb_ge _ _)) by lia. unfold snprintf. rewrite take_ge; [done|].
  pose proof (print_u_length 10 u 4 ltac:(lia) ltac:(lia) ltac:(lia)).
  rewrite length_app. simpl. lia.
Qed.

(** The commands of a table: one rule for the marks goes, and comes back while the
    WAN is up; nothing else concerns the marks. *)
Lemma table_del_shape u :
  MWAN_MAX <= 9999 -> 1 <= u <= MWAN_MAX ->
  exists cs, mwan_table_del (get_wan_prefix u 16) = cs ++ [RuleDel 12 u] /\ Forall neutral cs.
Proof.
  intros Hm Hu. unfold mwan_table_del. cbv zeta. rewrite prefix_unit by done.
  eexists (_ :: _). split; [reflexivity|]. constructor; [by apply not_neutral_free|].
  apply Forall_map, Forall_forall. intros. by apply not_neutral_free.
Qed.

Lemma lan_route_neutral u i : Forall neutral (lan_route u i).
Proof. unfold lan_route. cbv zeta. case_if; repeat constructor. Qed.

Lemma table_add_shape links u :
  1 < mwan_active_num -> MWAN_MAX <= 9999 -> 1 <= u <= MWAN_MAX -> up_unit links u = true ->
  exists cs1 cs2 cs3,
    mwan_table_add (links := links) (get_wan_prefix u 16) =
      cs1 ++ [RuleDel 12 u] ++ cs2 ++ [RuleMark u] ++ cs3 /\
    Forall neutral cs1 /\ Forall neutral cs2 /\ Forall neutral cs3.
Proof.
  intros Hn Hm Hu Hup. destruct (table_del_shape u Hm Hu) as (cs & E & Hcs).
  unfold mwan_table_add. rewrite E. cbv zeta. rewrite (proj2 (Z.leb_gt _ _)) by lia.
  unfold up_unit in Hup. rewrite Hup, prefix_unit by done.
  exists cs, (RuleFrom (wan_ipaddr (get_wan_info (get_wan_prefix u 16))) u
    :: map (fun d => RuleTo (inet_ntoa d.1) u) (wan_dns (get_wan_info (get_wan_prefix u 16)))).
  eexists. split; [rewrite <- !app_assoc; reflexivity|]. split_and!; [done|..].
  - constructor; [by apply not_neutral_free|]. apply Forall_map, Forall_forall.
    intros. by apply not_neutral_free.
  - apply Forall_app. split; [|apply Forall_app; split].
    + apply Forall_map, Forall_forall. intros. by apply not_neutral_free.
    + induction (seq 0 BRIDGE_COUNT); [constructor|]. cbn [flat_map].
      apply Forall_app. split; [apply lan_route_neutral|done].
    + repeat constructor.
Qed.

Lemma remove_first_spec u l :
  NoDup l -> NoDup (remove_first u l) /\ forall v, v ∈ remove_first u l <-> v ∈ l /\ v <> u.
Proof.
  induction 1 as [|x l Hx Hl IH]; simpl; [split; [constructor|set_solver]|].
  destruct (x =? u) eqn:E; propify.
  - subst x. split; [done|]. intros v. rewrite elem_of_cons. naive_solver.
  - destruct IH as [IH1 IH2]. split.
    + constructor; [|done]. rewrite IH2. tauto.
    + intros v. rewrite !elem_of_cons, IH2. naive_solver.
Qed.

(** Only the WANs in [up] have a table, and with [exact] all of them; only those with a
    table are marked, and with [full] all of them. *)
Definition policy (full exact : Prop) (n : Z) (up : Z -> bool) (k : kernel) : Prop :=
  NoDup (tables k) /\ (forall u, u ∈ tables k -> 1 <= u <= n /\ up u = true) /\
  (exact -> forall u, 1 <= u <= n -> up u = true -> u ∈ tables k) /\
  safe k /\ (full -> forall u, u ∈ tables k -> u ∈ marked k).

Definition is_on (curr : list Z) (u : Z) : bool := negb (status_at curr u =? chr "0").

Lemma policy_ext full exact n f g k :
  (forall u, 1 <= u <= n -> f u = g u) -> policy full exact n f k -> policy full exact n g k.
Proof.
  intros H (H1 & H2 & H3 & H4 & H5). split_and!; [done| | |done..].
  - intros u [? E]%H2. split; [done|]. by rewrite <- H.
  - intros He u Hu E. apply H3; [done..|]. by rewrite H.
Qed.

(** More WANs count as up. *)
Lemma policy_more full n f g k :
  (forall u, 1 <= u <= n -> f u = true -> g u = true) -> policy full False n f k -> policy full False n g k.
Proof.
  intros H (H1 & H2 & H3 & H4 & H5). split_and!; [done| |done..]. intros u [? E]%H2. auto.
Qed.

(** A WAN goes down: its marks stop before its table goes. *)
Lemma down_step full exact n f k u ce :
  1 < mwan_active_num -> MWAN_MAX <= 9999 -> 1 <= u <= n -> n <= MWAN_MAX -> policy full exact n f k ->
  let cs := mwan_pbr_update ce u false ++ mwan_table_del (get_wan_prefix u 16) in
  safe_run cs k /\ policy full exact n (fun v => if v =? u then false else f v) (run cs k).
Proof.
  intros Hn Hm Hu Hu2 (Hnd & Htab & Hex & Hs & Hfull) cs. subst cs.
  destruct (table_del_shape u Hm ltac:(lia)) as (cs & -> & Hcs).
  unfold mwan_pbr_update. rewrite (proj2 (Z.ltb_ge u 1)), (proj2 (Z.ltb_ge MWAN_MAX u)) by lia.
  rewrite andb_false_r. cbn [orb app]. set (k1 := exec k (ChainFlush u)).
  assert (Hs1 : safe k1).
  { intros v Hv. subst k1. simpl in *. apply list_elem_of_filter in Hv as [_ Hv]. by apply Hs. }
  destruct (neutral_run cs k1 Hcs Hs1) as [Er Hsr].
  destruct (remove_first_spec u (tables k) Hnd) as [Hr1 Hr2].
  assert (Hk : run (ChainFlush u :: cs ++ [RuleDel 12 u]) k =
    {| tables := remove_first u (tables k); marked := filter (fun v => v <> u) (marked k) |}).
  { change (run (ChainFlush u :: cs ++ [RuleDel 12 u]) k) with (run (cs ++ [RuleDel 12 u]) k1).
    by rewrite run_app, Er. }
  assert (Hs2 : safe (exec k1 (RuleDel 12 u))).
  { intros v. subst k1. simpl. rewrite list_elem_of_filter, Hr2. intros [? ?]. split; [by apply Hs|done]. }
  rewrite Hk. split.
  - cbn [safe_run]. split; [done|]. fold k1. apply safe_run_app. split; [done|]. rewrite Er.
    cbn [safe_run]. done.
  - split_and!; simpl; [done| | |exact Hs2|].
    + intros v. rewrite Hr2. intros [Hv Hne]. rewrite (proj2 (Z.eqb_neq v u)) by done. by apply Htab.
    + intros He v Hv. destruct (v =? u) eqn:E; [done|]. propify. rewrite Hr2. auto.
    + intros Hfl v. rewrite Hr2, list_elem_of_filter. intros [? ?]. split; [done|by apply Hfull].
Qed.

(** A WAN comes up: its table is there before its connections are marked. *)
Lemma up_step (full exact : Prop) n f k u links (ce : bool) :
  1 < mwan_active_num -> MWAN_MAX <= 9999 -> 1 <= u <= n -> n <= MWAN_MAX -> policy full exact n f k ->
  f u = false -> up_unit links u = true -> (full -> ce = true) ->
  let cs := mwan_table_add (links := links) (get_wan_prefix u 16) ++ mwan_pbr_update ce u true in
  safe_run cs k /\ policy full exact n (fun v => if v =? u then true else f v) (run cs k).
Proof.
  intros Hn Hm Hu Hu2 (Hnd & Htab & Hex & Hs & Hfull) Hf Hup Hce cs. subst cs.
  destruct (table_add_shape links u Hn Hm ltac:(lia) Hup) as (c1 & c2 & c3 & -> & N1 & N2 & N3).
  unfold mwan_pbr_update. rewrite (proj2 (Z.ltb_ge u 1)), (proj2 (Z.ltb_ge MWAN_MAX u)) by lia.
  rewrite andb_true_r. cbn [orb].
  assert (Hni : ~ u ∈ tables k) by (intros [_ ?]%Htab; congruence).
  assert (Hnm : ~ u ∈ marked k) by (intros H; by apply Hni, Hs).
  destruct (remove_first_spec u (tables k) Hnd) as [Hr1 Hr2].
  set (k1 := exec k (RuleDel 12 u)).
  assert (Hs1 : safe k1).
  { intros v Hv. subst k1. simpl in *. rewrite Hr2. split; [by apply Hs|]. by intros ->. }
  set (k2 := exec k1 (RuleMark u)).
  assert (Hs2 : safe k2) by (intros v Hv; subst k2; simpl; right; by apply Hs1).
  set (k3 := exec k2 (ChainFlush u)).
  assert (Hs3 : safe k3).
  { intros v Hv. subst k3. simpl in *. apply list_elem_of_filter in Hv as [_ Hv]. by apply (Hs2 v). }
  set (k4 := exec k3 (ChainMark u)).
  assert (Hs4 : safe k4).
  { intros v Hv. subst k4. simpl in Hv. apply elem_of_cons in Hv as [->|Hv]; [left|by apply (Hs3 v)]. }
  destruct (neutral_run c1 k N1 Hs) as [E1 R1]. destruct (neutral_run c2 k1 N2 Hs1) as [E2 R2].
  destruct (neutral_run c3 k2 N3 Hs2) as [E3 R3].
  assert (Hpre : run (c1 ++ [RuleDel 12 u] ++ c2 ++ [RuleMark u] ++ c3) k = k2).
  { rewrite run_app, E1, (run_app [_]), run_app. change (run [RuleDel 12 u] k) with k1.
    rewrite E2, run_app. change (run [RuleMark u] k1) with k2. done. }
  assert (Hpol : forall m, (forall v, v ∈ m -> v = u \/ v ∈ marked k) ->
    (full -> u ∈ m /\ forall v, v ∈ marked k -> v <> u -> v ∈ m) ->
    policy full exact n (fun v => if v =? u then true else f v) {| tables := tables k2; marked := m |}).
  { intros m Hm1 Hm2. split_and!; simpl.
    - constructor; [rewrite Hr2; tauto|done].
    - intros v. rewrite elem_of_cons, Hr2. destruct (v =? u) eqn:E; propify; [by subst v|].
      intros [?|[Hv _]]; [done|by apply Htab].
    - intros He v Hv. rewrite elem_of_cons, Hr2. destruct (v =? u) eqn:E; propify; [by left|]. auto.
    - intros v Hv. simpl in *. apply Hm1 in Hv as [->|Hv]; [left|right].
      rewrite Hr2. split; [by apply Hs|]. by intros ->.
    - intros Hfl v. rewrite elem_of_cons, Hr2. destruct (Hm2 Hfl) as [Hm3 Hm4].
      intros [->|[Hv ?]]; [done|]. apply Hm4; [by apply Hfull|done]. }
  split.
  - rewrite safe_run_app, Hpre. split.
    + apply safe_run_app. split; [done|]. rewrite E1. cbn [app safe_run]. split; [done|].
      apply safe_run_app. split; [done|]. fold k1. rewrite E2. cbn [safe_run]. split; [done|].
      fold k2. done.
    + cbn [safe_run]. split; [done|]. fold k3. destruct ce; cbn [safe_run]; [|done].
      split_and!; done.
  - rewrite run_app, Hpre. destruct ce.
    + change (run _ k2) with {| tables := tables k2; marked := u :: filter (fun v => v <> u) (marked k) |}.
      apply Hpol.
      * intros v. rewrite elem_of_cons, list_elem_of_filter. tauto.
      * intros _. split; [left|]. intros v Hv Hne. right. by apply list_elem_of_filter.
    + change (run _ k2) with {| tables := tables k2; marked := filter (fun v => v <> u) (marked k) |}.
      apply Hpol.
      * intros v. rewrite list_elem_of_filter. tauto.
      * intros Hfl. by specialize (Hce Hfl).
Qed.

Lemma is_on_status links u :
  1 <= MWAN_MAX -> 1 < mwan_active_num -> 1 <= u <= mwan_active_num ->
  is_on (mwan_status_update (links := links)) u = up_unit links u.
Proof.
  intros Hm Hn Hu. unfold is_on. rewrite status_at_spec by done. unfold wan_status.
  destruct (up_unit links u); [|done]. repeat case_if; done.
Qed.

(** The bounds of the build that the statements below share. *)
Definition sane : Prop := 1 <= MWAN_MAX <= 9999 /\ 1 < mwan_active_num.

Lemma transition_step (full exact : Prop) f k u status links ce last :
  sane -> 1 <= u <= mwan_active_num -> policy full exact mwan_active_num f k ->
  f u = is_on last u -> (full -> ce u = true) -> (up_unit status u = true -> up_unit links u = true) ->
  let curr := mwan_status_update (links := status) in
  let cs := transition (links := links) ce last curr u in
  safe_run cs k /\
  policy full exact mwan_active_num (fun v => if v =? u then is_on curr u else f v) (run cs k).
Proof.
  intros [Hm Hn] Hu Hp Hf Hce Hst curr cs. pose proof (mwan_active_num_range (proj1 Hm)) as (H1 & H2 & _).
  subst cs. unfold transition. cbv zeta.
  change (negb (status_at last u =? chr "0")) with (is_on last u).
  change (negb (status_at curr u =? chr "0")) with (is_on curr u).
  destruct (eqb (is_on last u) (is_on curr u)) eqn:E.
  - apply eqb_prop in E. split; [split; [apply Hp|done]|].
    eapply policy_ext; [|exact Hp]. intros v _. destruct (v =? u) eqn:Ev; [|done].
    propify. subst v. by rewrite Hf.
  - destruct (is_on curr u) eqn:Ec.
    + apply up_step; try done; try lia.
      * rewrite Hf. by destruct (is_on last u).
      * apply Hst. subst curr. by rewrite is_on_status in Ec by (done || lia).
    + apply down_step; try done; try lia.
Qed.

Lemma transitions_run (full exact : Prop) status links ce last us f k :
  sane -> NoDup us -> Forall (fun u => 1 <= u <= mwan_active_num) us ->
  policy full exact mwan_active_num f k -> (forall u, u ∈ us -> f u = is_on last u) ->
  (full -> forall u, ce u = true) ->
  (forall u, 1 <= u <= mwan_active_num -> up_unit status u = true -> up_unit links u = true) ->
  let curr := mwan_status_update (links := status) in
  let cs := flat_map (transition (links := links) ce last curr) us in
  safe_run cs k /\
  policy full exact mwan_active_num (fun v => if bool_decide (v ∈ us) then is_on curr v else f v) (run cs k).
Proof.
  intros Hs Hnd Hus. revert f k. induction Hnd as [|u us Hni Hnd IH]; intros f k Hp Hf Hce Hst curr cs; subst cs.
  { cbn [flat_map]. split; [split; [apply Hp|done]|exact Hp]. }
  apply Forall_cons in Hus as [Hu Hus]. cbn [flat_map].
  destruct (transition_step full exact f k u status links ce last) as [S1 P1]; [done|done|done|apply Hf; left|auto|auto|].
  destruct (IH Hus _ _ P1) as [S2 P2].
  - intros v Hv. destruct (v =? u) eqn:E; [propify; subst v; done|]. apply Hf. by right.
  - done.
  - done.
  - rewrite safe_run_app, run_app. split; [done|]. eapply policy_ext; [|exact P2].
    intros v _. cbv beta. destruct (decide (v ∈ us)) as [Hv|Hv].
    + rewrite (bool_decide_true (v ∈ us)), (bool_decide_true (v ∈ u :: us)) by (try done; by right). done.
    + rewrite (bool_decide_false (v ∈ us)) by done. destruct (v =? u) eqn:E; propify.
      * subst v. rewrite bool_decide_true by left. done.
      * rewrite bool_decide_false by (rewrite elem_of_cons; tauto). done.
Qed.

(** The links do not change within a round; no WAN that is up when the status is read goes
    down within the round. *)
Definition stable (e : env) : Prop := at_status e = at_tables e /\ at_tables e = at_balance e.
Definition no_loss (e : env) : Prop :=
  forall u, 1 <= u <= mwan_active_num -> up_unit (at_status e) u = true ->
    up_unit (at_tables e) u = true /\ up_unit (at_balance e) u = true.

Lemma flat_map_map {A B C} (f : B -> list C) (g : A -> B) l :
  flat_map f (map g l) = flat_map (fun x => f (g x)) l.
Proof. induction l; simpl; [done|]. by f_equal. Qed.

Lemma balance_neutral links late curr0 :
  1 < mwan_active_num -> Forall neutral (mwan_load_balance (links := links) late curr0).2.
Proof.
  intros Hn. unfold mwan_load_balance. cbv zeta. rewrite (proj2 (Z.leb_gt _ _)) by lia. cbn [snd].
  apply Forall_app. split; [|by repeat constructor].
  eapply Forall_impl; [apply balance_dels|]. intros c (via & dev & ->). by apply not_neutral_free.
Qed.

Lemma round_policy (full exact : Prop) e last k :
  sane -> no_loss e -> (exact -> stable e) -> (full -> forall u, chains e u = true) ->
  policy full exact mwan_active_num (is_on last) k ->
  let '(last', cs) := mwan_round mwan_active_num e last in
  safe_run cs k /\ policy full exact mwan_active_num (is_on last') (run cs k).
Proof.
  intros Hs Hnl Hst Hce Hp. pose proof Hs as [Hm Hn].
  unfold mwan_round. case_bool_decide as Heq.
  { rewrite <- Heq. split; [split; [apply Hp|done]|exact Hp]. }
  set (S := mwan_status_update (links := at_status e)) in *.
  pose proof (balance_neutral (at_balance e) (at_hops e) S Hn) as Hb.
  assert (Ecurr : (mwan_load_balance (links := at_balance e) (at_hops e) S).1 = mwan_status_update (links := at_balance e)).
  { unfold mwan_load_balance. cbv zeta. by rewrite (proj2 (Z.leb_gt _ _)) by lia. }
  destruct (mwan_load_balance _ _) as [curr' bs]. cbn [fst snd] in *. subst curr'.
  destruct (transitions_run full exact (at_status e) (at_tables e) (chains e) last (units mwan_active_num) (is_on last) k)
    as [S1 P1]; [done| | |done|done|done|by intros u Hu; apply Hnl|].
  { unfold units. apply (NoDup_fmap_2 Z.of_nat), NoDup_seq. }
  { apply Forall_forall. intros u. apply elem_of_units. }
  unfold units in S1, P1. rewrite flat_map_map in S1, P1. fold S in S1, P1.
  assert (Hr : Forall neutral (bs ++ [RestartDnsmasq])).
  { apply Forall_app. split; [done|]. by repeat constructor. }
  destruct (neutral_run _ (run (flat_map (fun u => transition (links := at_tables e) (chains e) last
    S (Z.of_nat u)) (seq 1 (Z.to_nat mwan_active_num))) k) Hr) as [Er Sr]; [apply P1|].
  rewrite safe_run_app, run_app, Er. split; [done|].
  assert (P2 : policy full exact mwan_active_num (is_on S) (run (flat_map (fun u => transition (links := at_tables e)
    (chains e) last S (Z.of_nat u)) (seq 1 (Z.to_nat mwan_active_num))) k)).
  { eapply policy_ext; [|exact P1]. intros u Hu. cbv beta. rewrite bool_decide_true; [done|]. by apply elem_of_units. }
  clear P1 S1 Sr Er. destruct P2 as (Q1 & Q2 & Q3 & Q4 & Q5). split_and!; [done| |intros He|done|done].
  - intros u [Hu E]%Q2. split; [done|]. unfold S in E. rewrite is_on_status in E by (done || lia).
    rewrite is_on_status by (done || lia). by destruct (Hnl u Hu E).
  - destruct (Hst He) as [E1 E2]. assert (Eb : at_balance e = at_status e) by congruence. rewrite Eb. by apply Q3.
Qed.

Lemma rounds_policy (full exact : Prop) es last k :
  sane -> Forall no_loss es -> (exact -> Forall stable es) ->
  (full -> Forall (fun e => forall u, chains e u = true) es) ->
  policy full exact mwan_active_num (is_on last) k ->
  let '(last', cs) := mwan_rounds mwan_active_num es last in
  safe_run cs k /\ policy full exact mwan_active_num (is_on last') (run cs k).
Proof.
  intros Hs Hnl. revert last k. induction Hnl as [|e es He Hes IH]; intros last k Hst Hc Hp; cbn [mwan_rounds].
  { split; [split; [apply Hp|done]|exact Hp]. }
  rewrite (proj2 (Z.leb_gt mwan_active_num 1)) by (destruct Hs; lia).
  pose proof (round_policy full exact e last k Hs He) as Hr.
  destruct (mwan_round mwan_active_num e last) as [last1 c1].
  destruct Hr as [S1 P1]; [intros Hf; by specialize (Hst Hf); apply Forall_cons in Hst as [? _]
    |intros Hf; by specialize (Hc Hf); apply Forall_cons in Hc as [? _]|done|].
  specialize (IH last1 (run c1 k)).
  destruct (mwan_rounds mwan_active_num es last1) as [last2 c2].
  destruct IH as [S2 P2]; [intros Hf; by specialize (Hst Hf); apply Forall_cons in Hst as [_ ?]
    |intros Hf; by specialize (Hc Hf); apply Forall_cons in Hc as [_ ?]|done|].
  by rewrite safe_run_app, run_app.
Qed.

Lemma initial_policy full exact :
  sane -> policy full exact mwan_active_num (is_on (repeat (chr "0") (Z.to_nat MWAN_MAX)))
            {| tables := []; marked := [] |}.
Proof.
  intros [Hm Hn]. pose proof (mwan_active_num_range (proj1 Hm)) as (H1 & H2 & _).
  split_and!; simpl; [constructor|set_solver| |by intros ? ?|set_solver].
  intros _ u Hu E. exfalso. revert E. unfold is_on, status_at, char_at.
  rewrite nth_repeat_lt by lia. done.
Qed.

(** C21: from a clean start, over any number of rounds in none of which a WAN goes down
    after the status was read, connections are at no time marked for a WAN without a
    routing table: tables are installed before their marks and removed after them. After
    every round only WANs that are recorded as up have a table, one each, and only those
    are marked, all of them when the firewall's chains are always there. When the links do
    not change within the rounds at all, every WAN recorded as up has its table (a WAN that
    comes up within a round may be recorded without one: [late_change_is_lost]). *)
Theorem marks_have_tables (es : list env) (full exact : Prop) :
  1 <= MWAN_MAX <= 9999 -> 1 < mwan_active_num -> Forall no_loss es -> (exact -> Forall stable es) ->
  (full -> Forall (fun e => forall u, chains e u = true) es) ->
  let '(last, cs) := mwan_route_main es in
  let k := run cs {| tables := []; marked := [] |} in
  safe_run cs {| tables := []; marked := [] |} /\
  NoDup (tables k) /\
  (forall u, u ∈ tables k -> 1 <= u <= mwan_active_num /\ status_at last u <> chr "0") /\
  (exact -> forall u, 1 <= u <= mwan_active_num -> status_at last u <> chr "0" -> u ∈ tables k) /\
  (forall u, u ∈ marked k -> u ∈ tables k) /\
  (full -> forall u, u ∈ tables k -> u ∈ marked k).
Proof.
  intros Hm Hn Hnl Hst Hc. unfold mwan_route_main. cbv zeta. rewrite (proj2 (Z.leb_gt _ _)) by lia.
  pose proof (rounds_policy full exact es _ _ (conj Hm Hn) Hnl Hst Hc (initial_policy full exact (conj Hm Hn))) as H.
  destruct (mwan_rounds _ _ _) as [last cs]. destruct H as (S1 & P1 & P2 & P3 & P4 & P5).
  assert (Hon : forall u, is_on last u = true <-> status_at last u <> chr "0").
  { intros u. unfold is_on. by rewrite negb_true_iff, Z.eqb_neq. }
  split_and!; [done|done| | |done|done].
  - intros u [Hu E]%P2. split; [done|]. by apply Hon.
  - intros He u Hu E. apply P3; [done..|]. by apply Hon.
Qed.

Lemma quiet_rounds links es :
  Forall (fun e => at_status e = links) es ->
  mwan_rounds mwan_active_num es (mwan_status_update (links := links))
    = (mwan_status_update (links := links), []).
Proof.
  induction 1 as [|e es He Hes IH]; [done|]. cbn [mwan_rounds]. case_if; [done|].
  unfold mwan_round. rewrite He, bool_decide_true by done. by rewrite IH.
Qed.

(** When a WAN comes up between the moment the status is read and the moment
    the default route is rebuilt in the same round, the change is recorded but never
    acted on: for as long as the links then stay as they are the WAN counts as up
    and has no routing table and no marks. *)
Theorem late_change_is_lost (before after : Links) (ce : Z -> bool) (last : list Z) (k : kernel)
    (u : Z) (es : list env) :
  1 <= MWAN_MAX <= 9999 -> 1 < mwan_active_num -> 1 <= u <= mwan_active_num ->
  policy False False mwan_active_num (is_on last) k ->
  last <> mwan_status_update (links := before) ->
  is_on last u = false -> up_unit before u = false -> up_unit after u = true ->
  Forall (fun e => at_status e = after) es ->
  let e := {| at_status := before; at_tables := before; at_balance := after; at_hops := after; chains := ce |} in
  let '(last', cs) := mwan_rounds mwan_active_num (e :: es) last in
  status_at last' u <> chr "0" /\ ~ u ∈ tables (run cs k) /\ ~ u ∈ marked (run cs k).
Proof.
  intros Hm Hn Hu Hp Hne Hl Hb Ha Hes e. subst e. cbn [mwan_rounds].
  rewrite (proj2 (Z.leb_gt mwan_active_num 1)) by lia.
  unfold mwan_round. cbn [at_status at_tables at_balance at_hops chains].
  rewrite bool_decide_false by done.
  pose proof (balance_neutral after after (mwan_status_update (links := before)) Hn) as Hbn.
  assert (Ecurr : (mwan_load_balance (links := after) after (mwan_status_update (links := before))).1
    = mwan_status_update (links := after)).
  { unfold mwan_load_balance. cbv zeta. by rewrite (proj2 (Z.leb_gt _ _)) by lia. }
  destruct (mwan_load_balance _ _) as [curr' bs]. cbn [fst snd] in *. subst curr'.
  rewrite quiet_rounds by done.
  destruct (transitions_run False False before before ce last (units mwan_active_num) (is_on last) k)
    as [S1 P1]; [done| | |done|done|done|done|].
  { unfold units. apply (NoDup_fmap_2 Z.of_nat), NoDup_seq. }
  { apply Forall_forall. intros v. apply elem_of_units. }
  unfold units in P1. rewrite flat_map_map in P1.
  assert (Hr : Forall neutral (bs ++ [RestartDnsmasq])).
  { apply Forall_app. split; [done|]. by repeat constructor. }
  destruct (neutral_run _ (run (flat_map (fun u => transition (links := before) ce last
    (mwan_status_update (links := before)) (Z.of_nat u)) (seq 1 (Z.to_nat mwan_active_num))) k) Hr)
    as [Er _]; [apply P1|].
  rewrite app_nil_r, run_app, Er.
  pose proof (is_on_status after u (proj1 Hm) Hn Hu) as Hon. rewrite Ha in Hon.
  assert (Hnt : ~ u ∈ tables (run (flat_map (fun u => transition (links := before) ce last
    (mwan_status_update (links := before)) (Z.of_nat u)) (seq 1 (Z.to_nat mwan_active_num))) k)).
  { destruct P1 as (_ & P1 & _). intros [_ E]%P1. case_bool_decide; [|congruence].
    rewrite (is_on_status before u (proj1 Hm) Hn Hu) in E. congruence. }
  split_and!; [|done|].
  - unfold is_on in Hon. by apply negb_true_iff, Z.eqb_neq in Hon.
  - intros Hk. apply Hnt. by apply P1.
Qed.

(** * Networks *)

(** The netmask of [n] bits. *)
Definition netmask (n : nat) : list Z :=
  map (fun i => 256 - 2 ^ Z.of_nat (8 - Nat.min 8 (n - 8 * i))) [0; 1; 2; 3]%nat.

Definition network (a m : list Z) : list Z := zip_with Z.land a m.

Lemma land_byte v w : is_byte v -> is_byte w -> is_byte (Z.land v w).
Proof.
  intros Hv Hw. unfold is_byte in *. split; [apply Z.land_nonneg; lia|].
  destruct (decide (Z.land v w = 0)) as [->|]; [lia|].
  change 256 with (2 ^ 8). apply Z.log2_lt_pow2; [pose proof (proj2 (Z.land_nonneg v w)); lia|].
  eapply Z.le_lt_trans; [apply Z.log2_land; lia|].
  destruct (decide (v = 0)) as [->|]; [simpl; lia|].
  apply Z.min_lt_iff. left. apply Z.log2_lt_pow2; lia.
Qed.

Lemma land_octet x y v w :
  is_byte v -> is_byte w ->
  Z.land (v + 256 * x) (w + 256 * y) = Z.land v w + 256 * Z.land x y.
Proof.
  intros Hv Hw. pose proof (land_byte v w Hv Hw). unfold is_byte in *.
  assert (E : forall a b, 0 <= a < 256 -> a + 256 * b = Z.lor (Z.shiftl b 8) a).
  { intros a b Ha. rewrite lor_shiftl_add by lia. lia. }
  rewrite !E by lia. apply Z.bits_inj'. intros i Hi.
  rewrite Z.land_spec, !Z.lor_spec, !Z.shiftl_spec, !Z.land_spec by lia.
  destruct (Z_lt_le_dec i 8).
  - rewrite !(Z.testbit_neg_r _ (i - 8)) by lia. done.
  - rewrite <- (Z.mod_small v (2 ^ 8)), <- (Z.mod_small w (2 ^ 8)) by lia.
    rewrite !Z.mod_pow2_bits_high by lia. by rewrite !orb_false_r.
Qed.

Lemma s_addr_land a m :
  Forall is_byte a -> Forall is_byte m -> length a = length m ->
  Z.land (s_addr a) (s_addr m) = s_addr (network a m).
Proof.
  intros Ha. revert m. induction Ha as [|v a Hv Ha IH]; intros [|w m] Hm Hl; try done.
  apply Forall_cons in Hm as [Hw Hm]. cbn [s_addr]. rewrite land_octet by done.
  rewrite IH by (done || (simpl in Hl; lia)). done.
Qed.


Lemma netmask_ipv4 n : (n <= 32)%nat -> is_ipv4 (netmask n).
Proof.
  intros Hn. split; [done|]. apply Forall_map, Forall_forall. intros i _. cbv beta.
  unfold is_byte. set (d := (8 - _)%nat).
  assert (2 ^ 0 <= 2 ^ Z.of_nat d <= 2 ^ 8) by (split; apply Z.pow_le_mono_r; lia). lia.
Qed.

Lemma network_ipv4 a m : is_ipv4 a -> is_ipv4 m -> is_ipv4 (network a m).
Proof.
  intros [La Ha] [Lm Hm]. unfold network. split; [rewrite length_zip_with; lia|].
  clear La Lm. revert m Hm. induction Ha as [|v a Hv Ha IH]; intros m Hm; [constructor|].
  destruct Hm as [|w m Hw Hm]; [constructor|]. simpl. constructor; [by apply land_byte|by apply IH].
Qed.

(** [get_cidr] prints the network of an address and the length of its netmask;
    where a [long] has 32 bits, netmasks of 25 bits and more are printed one bit
    short. *)
Theorem cidr_of_network (a : list Z) (n : nat) :
  is_ipv4 a -> (n <= 32)%nat -> LONG_BITS = 64%nat \/ LONG_BITS = 32%nat ->
  get_cidr (inet_ntoa a) (inet_ntoa (netmask n)) 32 =
    inet_ntoa (network a (netmask n)) ++ bytes "/" ++
    print_u 10 (if (LONG_BITS =? 32)%nat && (25 <=? n)%nat then Z.of_nat n - 1 else Z.of_nat n).
Proof.
  intros Ha Hn HL. pose proof (netmask_ipv4 n Hn) as Hm.
  unfold get_cidr, in_addr. rewrite (proj2 (inet_read_print a Ha)), (proj2 (inet_read_print _ Hm)). cbv zeta.
  rewrite s_addr_land by (try apply Ha; try apply Hm; destruct Ha, Hm; congruence).
  pose proof (network_ipv4 a (netmask n) Ha Hm) as Hw.
  assert (octets 4 (s_addr (network a (netmask n))) = network a (netmask n)) as ->.
  { destruct Hw as [El Hw]. rewrite <- El. by apply octets_s_addr. }
  assert (Hb : forall L, L = 64%nat \/ L = 32%nat ->
    mask_bits (L - 1) (s_addr (netmask n)) 1 =
    if (L =? 32)%nat && (25 <=? n)%nat then Z.of_nat n - 1 else Z.of_nat n).
  { intros L HL'. apply Z.eqb_eq.
    assert (Hall : forallb (fun i => let i := Z.to_nat (Z.of_nat i) in
      mask_bits (L - 1) (s_addr (netmask i)) 1 =?
      (if (L =? 32)%nat && (25 <=? i)%nat then Z.of_nat i - 1 else Z.of_nat i)) (seq 0 33) = true)
      by (destruct HL' as [-> | ->]; vm_compute; done).
    pose proof (forall_below 33 (fun i => let i := Z.to_nat i in
      mask_bits (L - 1) (s_addr (netmask i)) 1 =?
      (if (L =? 32)%nat && (25 <=? i)%nat then Z.of_nat i - 1 else Z.of_nat i))
      Hall (Z.of_nat n) ltac:(lia)) as H.
    cbv beta zeta in H. by rewrite Nat2Z.id in H. }
  rewrite Hb by done. set (b := if _ && _ then _ else _).
  assert (0 <= b <= 32).
  { subst b. destruct (25 <=? n)%nat eqn:E; [propify|]; destruct (LONG_BITS =? 32)%nat; simpl; lia. }
  unfold print_d. rewrite (proj2 (Z.ltb_ge _ _)) by lia. unfold snprintf. rewrite take_ge; [done|].
  pose proof (ntoa_length _ Hw). pose proof (print_u_length 10 b 2 ltac:(lia) ltac:(lia) ltac:(lia)).
  rewrite !length_app. simpl. lia.
Qed.

(** ** Buffers *)

Lemma hop_argv_length hops : length (flat_map hop_argv hops) = (7 * length hops)%nat.
Proof. induction hops as [|h hops IH]; [done|]. cbn [flat_map]. rewrite length_app, IH. simpl. lia. Qed.

(** The arguments of the command that sets the default route, with their
    terminator, fit the array [lb_argv]. *)
Lemma balance_argv_fits links curr0 hops :
  1 <= MWAN_MAX -> 1 < mwan_active_num ->
  Balance hops ∈ (mwan_load_balance (links := links) links curr0).2 ->
  Z.of_nat (length (argv (Balance hops)) + 1) <= 8 + MWAN_MAX * 8.
Proof.
  intros Hm Hn Hin. pose proof (mwan_active_num_range Hm) as (H1 & H2 & _).
  unfold mwan_load_balance in Hin. cbv zeta in Hin.
  rewrite (proj2 (Z.leb_gt mwan_active_num 1)) in Hin by lia. cbn [snd] in Hin.
  apply elem_of_app in Hin as [Hin|Hin].
  { pose proof (balance_dels links mwan_status_update (seq 1 (Z.to_nat mwan_active_num))) as Hd.
    rewrite Forall_forall in Hd. by apply Hd in Hin as (via & dev & [=]). }
  apply list_elem_of_singleton in Hin as [= ->].
  assert (Hl : forall l curr, (length (flat_map fst (map (fun u =>
    balance_unit (links := links) curr (Z.of_nat u)) l)) <= length l)%nat).
  { intros l curr. induction l as [|u l IH]; [done|]. cbn [map flat_map]. rewrite length_app.
    unfold balance_unit at 1. cbv zeta. cbn [fst]. case_if; cbn [length]; lia. }
  specialize (Hl (seq 1 (Z.to_nat mwan_active_num)) (mwan_status_update (links := links))).
  rewrite length_seq in Hl. unfold argv. rewrite length_app, hop_argv_length. cbn [length].
  pose proof (not_allwan_down_spec links Hm Hn) as Hd. destruct (existsb _ _); [lia|].
  assert (Hz : forall l curr, (forall u, u ∈ l -> 1 <= Z.of_nat u <= mwan_active_num) ->
    flat_map fst (map (fun u => balance_unit (links := links) curr (Z.of_nat u)) l) = []).
  { intros l curr. induction l as [|u l IH]; intros Hr; [done|]. cbn [map flat_map].
    rewrite IH by (intros; apply Hr; by right). unfold balance_unit. cbv zeta. cbn [fst].
    destruct (is_up (get_wan_prefix (Z.of_nat u) 16)) eqn:Eu; [|done]. exfalso.
    discriminate (proj2 Hd (ex_intro _ (Z.of_nat u) (conj (Hr u ltac:(left)) Eu))). }
  rewrite Hz by (intros u Hu; apply elem_of_seq in Hu; lia). cbn [app length]. lia.
Qed.

End Spec.

(** The words of a command, one space between neighbours. *)
Fixpoint words_text (args : list cstr) : cstr :=
  match args with
  | [] => []
  | a :: args' => bytes " " ++ a ++ words_text args'
  end.

Lemma argv_to_cmd_loop_spec args cmd sz :
  (length cmd < sz)%nat ->
  argv_to_cmd_loop false args cmd sz = take (sz - 1) (cmd ++ words_text args).
Proof.
  revert cmd. induction args as [|a args IH]; intros cmd Hc; cbn [argv_to_cmd_loop words_text].
  { rewrite app_nil_r, take_ge by lia. done. }
  destruct (sz - length cmd <=? 1)%nat eqn:E; propify.
  { rewrite take_app_le, take_ge by lia. done. }
  rewrite !(app_assoc (bytes " ")). set (text := bytes " " ++ a).
  destruct (sz - length cmd <=? length text)%nat eqn:E2; propify.
  - rewrite take_app, (take_ge cmd) by lia. f_equal. rewrite take_app_le by lia. f_equal. lia.
  - rewrite IH by (rewrite length_app; lia). by rewrite <- !app_assoc.
Qed.

(** The logged text is the command line, cut to the size of its buffer. *)
Lemma mwan_argv_to_cmd_spec a args sz :
  (0 < sz)%nat -> mwan_argv_to_cmd (a :: args) sz = take (sz - 1) (a ++ words_text args).
Proof.
  intros Hs. unfold mwan_argv_to_cmd. cbn [argv_to_cmd_loop app length].
  rewrite Nat.sub_0_r. destruct (sz <=? 1)%nat eqn:E; propify.
  { assert (sz = 1)%nat as -> by lia. done. }
  destruct (sz <=? length a)%nat eqn:E2; propify.
  - rewrite take_app_le by lia. done.
  - by apply argv_to_cmd_loop_spec.
Qed.

(** * A configuration with two WANs *)

Module Demo.

Definition settings : list (string * string) :=
  [("mwan_num", "2"); ("wan_proto", "dhcp"); ("wan2_proto", "dhcp"); ("wan_iface", "eth0");
   ("wan2_iface", "eth1"); ("wan_ifname", "eth0"); ("wan2_ifname", "eth1");
   ("wan_ipaddr", "10.0.0.2"); ("wan2_ipaddr", "10.1.0.2"); ("wan_gateway", "10.0.0.1");
   ("wan2_gateway", "10.1.0.1"); ("wan_weight", "3"); ("wan2_weight", "0")]%string.

Fixpoint find_setting (key : cstr) (l : list (string * string)) : option cstr :=
  match l with
  | [] => None
  | (k, v) :: l' => if bool_decide (key = bytes k) then Some (bytes v) else find_setting key l'
  end.

#[export] Instance demo_nvram : Nvram :=
  {| nvram_get := fun key => find_setting key settings;
     nvram_get_int := fun key => atoi (default [] (find_setting key settings)) |}.
#[export] Instance demo_build : Build := {| MWAN_MAX := 4 |}.
#[export] Instance demo_machine : Machine :=
  {| BRIDGE_COUNT := 4; LONG_BITS := 64; uninit := 0 |}.
#[export] Instance demo_features : Features :=
  {| TCONFIG_DNSCRYPT := false; TCONFIG_STUBBY := false |}.

(** The links with the given interfaces running. *)
Definition links_with (up1 up2 : bool) : Links :=
  {| file_contents := fun _ => None;
     if_flags := fun name =>
       Some (if bool_decide (name = bytes "eth0") then (if up1 then 65 else 0)
             else (if up2 then 65 else 0));
     wan_phy_link := fun _ => 1;
     socket_ok := true |}.

Definition steady (up1 up2 : bool) : env :=
  let l := links_with up1 up2 in
  {| at_status := l; at_tables := l; at_balance := l; at_hops := l; chains := fun _ => true |}.

Example status_ex :
  mwan_status_update (links := links_with true true) = bytes "2100" /\
  mwan_status_update (links := links_with false true) = bytes "0200" /\
  mwan_status_update (links := links_with false false) = bytes "0000".
Proof. vm_compute. done. Qed.

Lemma demo_num : mwan_active_num = 2.
Proof. vm_compute. done. Qed.

End Demo.
Import Demo.

Lemma status_follows_links_witness :
  status_at (mwan_status_update (links := links_with false true)) 2 = chr "2".
Proof.
  apply (status_follows_links (links_with false true) 2).
  - simpl. lia.
  - vm_compute. done.
  - vm_compute. done.
  - split; [vm_compute; done|]. right. split; [vm_compute; done|].
    intros v Hv. assert (v = 1 \/ v = 2) as [-> | ->] by (rewrite demo_num in Hv; lia); vm_compute; done.
Defined.

Lemma default_route_alive_witness :
  exists dels hops, (mwan_load_balance (links := links_with false true) (links_with false true) []).2 = dels ++ [Balance hops]
    /\ hops <> [].
Proof.
  destruct (default_route_alive (links_with false true) []) as (dels & hops & curr & E & _ & _ & H & _).
  - simpl. lia.
  - vm_compute. done.
  - exists dels, hops. split; [by rewrite E|]. apply H.
    + exists 2. rewrite demo_num. split; [lia|vm_compute; reflexivity].
    + exists 2. rewrite demo_num. split; [lia|]. split; [vm_compute; reflexivity|].
      assert (weight_of 2 = 0) as -> by (vm_compute; reflexivity). lia.
Defined.

Lemma marks_have_tables_witness :
  safe_run (mwan_route_main [steady true true; steady false true]).2 {| tables := []; marked := [] |}.
Proof.
  pose proof (marks_have_tables [steady true true; steady false true] True True) as H.
  destruct (mwan_route_main [steady true true; steady false true]) as [last cs].
  apply H.
  - simpl. lia.
  - vm_compute. done.
  - repeat constructor; done.
  - intros _. repeat constructor.
  - intros _. repeat constructor.
Defined.

Lemma late_change_is_lost_witness :
  let e := {| at_status := links_with true false; at_tables := links_with true false;
              at_balance := links_with true true; at_hops := links_with true true; chains := fun _ => true |} in
  ~ 2 ∈ tables (run (mwan_rounds mwan_active_num (e :: [steady true true]) (bytes "0000")).2
                  {| tables := []; marked := [] |}).
Proof.
  intros e.
  pose proof (late_change_is_lost (links_with true false) (links_with true true) (fun _ => true)
    (bytes "0000") {| tables := []; marked := [] |} 2 [steady true true]) as H.
  fold e in H. cbv zeta in H. destruct (mwan_rounds _ _ _) as [last cs]. cbn [snd].
  refine (proj1 (proj2 (H _ _ _ _ _ _ _ _ _))).
  - simpl. lia.
  - vm_compute. done.
  - vm_compute. done.
  - split_and!; simpl; [constructor|set_solver|done|by intros ? ?|done].
  - vm_compute. done.
  - reflexivity.
  - vm_compute. done.
  - vm_compute. done.
  - repeat constructor.
Defined.

Lemma cidr_of_network_witness :
  get_cidr (inet_ntoa [192; 168; 1; 77]) (inet_ntoa (netmask 26)) 32 = bytes "192.168.1.64/26".
Proof.
  rewrite (cidr_of_network [192; 168; 1; 77] 26).
  - vm_compute. done.
  - split; [done|solve_bytes].
  - lia.
  - by left.
Defined.

End MwanSpec.
