(* ===== verification/HttpMatch.v ===== *)
(** Matching of request paths against the patterns of the page handlers
    (src/tomato64/package/httpd/httpd/httpd.c, [match_single] and [match]).

    The matcher is a loop with one place to go back to, the last star. A position in
    the pattern or in the string is the rest of the text behind it; the pattern is
    the slice the caller gives. [None] means that the fuel ran out, which the first
    theorem excludes. *)

From Stdlib Require Import ZArith Lia.
From stdpp Require Import base list strings.
From S2P Require Import Prelude.

Local Open Scope Z_scope.

Module HttpMatch.

Definition STAR : Z := 42.
Definition QUESTION : Z := 63.
Definition SLASH : Z := 47.

(** The place to go back to: the pattern after the last star, the string there, and
    whether the star was a double one. *)
Record saved := mk_saved {
  last_star_pat : cstr; last_star_str : cstr; double_star : bool }.

Fixpoint single_loop (fuel : nat) (p s : cstr) (last : option saved) : option bool :=
  match fuel with
  | O => None
  | S f =>
      let backtrack :=
        match last with
        | None => Some false
        | Some l =>
            match last_star_str l with
            | [] => Some false
            | c :: str' =>
                if negb (double_star l) && (c =? SLASH) then Some false
                else single_loop f (last_star_pat l) str'
                       (Some {| last_star_pat := last_star_pat l; last_star_str := str';
                                double_star := double_star l |})
            end
        end in
      match p with
      | [] => match s with [] => Some true | _ => backtrack end
      | c :: p1 =>
          if c =? STAR then
            let '(dbl, p2) :=
              match p1 with
              | d :: p' => if d =? STAR then (true, p') else (false, p1)
              | [] => (false, p1)
              end in
            match p2 with
            | [] => Some true
            | _ => single_loop f p2 s
                     (Some {| last_star_pat := p2; last_star_str := s; double_star := dbl |})
            end
          else if c =? QUESTION then
            match s with [] => backtrack | _ :: s' => single_loop f p1 s' last end
          else
            match s with
            | [] => backtrack
            | d :: s' => if c =? d then single_loop f p1 s' last else backtrack
            end
      end
  end.

(** Enough for every run: going back shortens the string, anything else the
    pattern. *)
Definition single_fuel (pattern string : cstr) : nat :=
  S (S (length string) * S (length pattern) + length pattern).

Definition match_single (pattern string : cstr) : option bool :=
  single_loop (single_fuel pattern string) pattern string None.

(** The patterns of a list, which [strchr] separates at the bars. *)
Fixpoint match_loop (fuel : nat) (start string : cstr) : option bool :=
  match fuel with
  | O => None
  | S f =>
      let sep := strchr start (chr "|") in
      let len := match sep with Some i => i | None => length start end in
      match match_single (take len start) string with
      | None => None
      | Some true => Some true
      | Some false =>
          match sep with
          | None => Some false
          | Some i => match_loop f (drop (S i) start) string
          end
      end
  end.

Definition http_match (pattern string : cstr) : option bool :=
  match_loop (S (length pattern)) pattern string.

Example match_ex :
  http_match (bytes "**.htm|**.html") (bytes "ext/a.html") = Some true /\
  http_match (bytes "cfg/*.cfg") (bytes "cfg/a.cfg") = Some true /\
  http_match (bytes "cfg/*.cfg") (bytes "cfg/x/a.cfg") = Some false /\
  http_match (bytes "api/v1/**") (bytes "api/v1/status") = Some true.
Proof. vm_compute. done. Qed.

(** * Termination *)

(** The string a run may still fall back to. *)
Definition reserve (s : cstr) (last : option saved) : nat :=
  match last with None => length s | Some l => length (last_star_str l) end.

Definition bounded (k : nat) (p s : cstr) (last : option saved) : Prop :=
  (length p <= k)%nat /\ (length s <= reserve s last)%nat /\
  match last with None => True | Some l => (length (last_star_pat l) <= k)%nat end.

Lemma single_loop_total k fuel p s last :
  bounded k p s last -> (reserve s last * S k + length p < fuel)%nat ->
  is_Some (single_loop fuel p s last).
Proof.
  revert p s last. induction fuel as [|f IH]; intros p s last (Hp & Hs & Hl) Hf; [lia|].
  cbn [single_loop]. set (back := match last with None => _ | Some _ => _ end).
  assert (Hback : is_Some back).
  { subst back. destruct last as [[lp ls dbl]|]; [|eauto]. cbn [last_star_pat last_star_str double_star] in *.
    destruct ls as [|c ls]; [eauto|]. case_if; [eauto|]. apply IH.
    - split_and!; cbn [reserve last_star_str last_star_pat] in *; lia.
    - cbn [reserve last_star_str length] in *. nia. }
  destruct p as [|c p1]; [destruct s; [eauto|done]|]. cbn [length] in *.
  destruct (c =? STAR).
  { destruct (match p1 with d :: p' => if d =? STAR then (true, p') else (false, p1)
      | [] => (false, p1) end) as [dbl p2] eqn:E.
    assert (length p2 <= length p1)%nat.
    { destruct p1 as [|d p']; [by simplify_eq|]. destruct (d =? STAR); simplify_eq; simpl; lia. }
    destruct p2 as [|e p2]; [eauto|]. apply IH.
    - split_and!; cbn [reserve last_star_str last_star_pat]; lia.
    - cbn [reserve last_star_str]. nia. }
  assert (Hnext : forall s', (length s' <= length s)%nat -> is_Some (single_loop f p1 s' last)).
  { intros s' Hs'. apply IH.
    - split_and!; [lia| |done]. destruct last; cbn [reserve] in *; lia.
    - destruct last; cbn [reserve] in *; nia. }
  destruct (c =? QUESTION); (destruct s as [|d s']; [done|]); cbn [length] in *;
    [apply Hnext; lia|]. destruct (c =? d); [apply Hnext; lia|done].
Qed.

Lemma match_single_total pattern string : is_Some (match_single pattern string).
Proof.
  unfold match_single, single_fuel. apply (single_loop_total (length pattern)).
  - split_and!; simpl; lia.
  - cbn [reserve]. lia.
Qed.

(** * What is matched *)

(** The patterns: a question mark is any character, a star any run without a
    slash, a double star any run; a star at the end of the pattern takes the rest
    of the string whatever it holds. *)
Inductive glob : cstr -> cstr -> Prop :=
  | glob_nil : glob [] []
  | glob_char c p s : c <> STAR -> c <> QUESTION -> glob p s -> glob (c :: p) (c :: s)
  | glob_any d p s : glob p s -> glob (QUESTION :: p) (d :: s)
  | glob_star p a b : Forall (fun c => c <> SLASH) a -> glob p b -> glob (STAR :: p) (a ++ b)
  | glob_double p a b : glob p b -> glob (STAR :: STAR :: p) (a ++ b)
  | glob_last s : glob [STAR] s
  | glob_double_last s : glob [STAR; STAR] s.

(** A run the saved star may take. *)
Definition may_take (dbl : bool) (a : cstr) : Prop :=
  dbl = true \/ Forall (fun c => c <> SLASH) a.

(** The saved star can take at least one more character and the rest match. *)
Definition fallback (last : option saved) : Prop :=
  match last with
  | None => False
  | Some l => exists a b, last_star_str l = a ++ b /\ a <> [] /\ may_take (double_star l) a /\
                glob (last_star_pat l) b
  end.

Lemma fallback_step lp c ls dbl :
  (negb dbl && (c =? SLASH)) = false ->
  (glob lp ls \/ fallback (Some {| last_star_pat := lp; last_star_str := ls; double_star := dbl |})) ->
  fallback (Some {| last_star_pat := lp; last_star_str := c :: ls; double_star := dbl |}).
Proof.
  intros Hc Hg. cbn [fallback last_star_str last_star_pat double_star] in *.
  assert (Hm : forall a, may_take dbl a -> may_take dbl (c :: a)).
  { intros a [->|Ha]; [by left|]. destruct dbl; [by left|]. right. simpl in Hc. propify.
    by constructor. }
  destruct Hg as [Hg|(a & b & -> & Hne & Ha & Hg)].
  - exists [c], ls. split_and!; [done|done| |done]. apply Hm. right. constructor.
  - exists (c :: a), b. split_and!; [done|done|by apply Hm|done].
Qed.

Lemma glob_star_take (dbl : bool) p2 a b :
  may_take dbl a -> glob p2 b ->
  glob (if dbl then STAR :: STAR :: p2 else STAR :: p2) (a ++ b).
Proof.
  intros [->|Ha] Hg; [by constructor|]. destruct dbl; by constructor.
Qed.

(** What the loop accepts does match. *)
Lemma single_loop_sound fuel p s last :
  single_loop fuel p s last = Some true -> glob p s \/ fallback last.
Proof.
  revert p s last. induction fuel as [|f IH]; intros p s last; [done|]. cbn [single_loop].
  set (back := match last with None => _ | Some _ => _ end).
  assert (Hback : back = Some true -> fallback last).
  { subst back. destruct last as [[lp ls dbl]|]; [|done].
    cbn [last_star_pat last_star_str double_star]. destruct ls as [|c ls]; [done|].
    destruct (negb dbl && (c =? SLASH)) eqn:E; [done|]. intros H%IH. by apply fallback_step. }
  destruct p as [|c p1].
  { destruct s; [left; constructor|]. intros H. right. by apply Hback. }
  destruct (c =? STAR) eqn:Ec; propify.
  { subst c. intros H. left.
    destruct (match p1 with d :: p' => if d =? STAR then (true, p') else (false, p1)
      | [] => (false, p1) end) as [dbl p2] eqn:E.
    assert (Ep : STAR :: p1 = if dbl then STAR :: STAR :: p2 else STAR :: p2).
    { destruct p1 as [|d p']; [by simplify_eq|]. destruct (d =? STAR) eqn:Ed; simplify_eq; [|done].
      propify. by subst d. }
    rewrite Ep. destruct p2 as [|e p2]; [destruct dbl; constructor|].
    apply IH in H as [H|H].
    - change s with ([] ++ s). apply glob_star_take; [right; constructor|done].
    - cbn [fallback last_star_str last_star_pat double_star] in H.
      destruct H as (a & b & -> & _ & Ha & Hg). by apply glob_star_take. }
  destruct (c =? QUESTION) eqn:Eq; propify.
  { subst c. destruct s as [|d s']; [intros H; right; by apply Hback|].
    intros [H|H]%IH; [left; by constructor|by right]. }
  destruct s as [|d s']; [intros H; right; by apply Hback|].
  destruct (c =? d) eqn:Ed; [|intros H; right; by apply Hback]. propify. subst d.
  intros [H|H]%IH; [left; by constructor|by right].
Qed.

Definition star_free (p : cstr) : Prop := Forall (fun c => c <> STAR) p.

(** Every star of the pattern is a double one or its last character. *)
Fixpoint later_double (p : cstr) : bool :=
  match p with
  | [] => true
  | c :: p1 =>
      if c =? STAR then
        match p1 with
        | [] => true
        | d :: p2 => if d =? STAR then later_double p2 else false
        end
      else later_double p1
  end.

(** The same, except for the first star, which may be any. *)
Fixpoint simple (p : cstr) : bool :=
  match p with
  | [] => true
  | c :: p1 =>
      if c =? STAR then
        match p1 with
        | [] => true
        | d :: p2 => if d =? STAR then later_double p2 else later_double p1
        end
      else simple p1
  end.

Lemma glob_head c p s :
  c <> STAR -> glob (c :: p) s -> exists d s', s = d :: s' /\ (c = QUESTION \/ c = d) /\ glob p s'.
Proof. intros Hc Hg. inversion Hg; subst; try done; eauto 6. Qed.

Lemma glob_segment q p b :
  star_free q -> glob (q ++ p) b ->
  exists w r, b = w ++ r /\ length w = length q /\ glob p r.
Proof.
  intros Hq. revert b. induction Hq as [|c q Hc Hq IH]; intros b Hg; [by exists [], b|].
  apply glob_head in Hg as (d & b' & -> & _ & Hg); [|done].
  apply IH in Hg as (w & r & -> & El & Hg). exists (d :: w), r. split_and!; [done|simpl; lia|done].
Qed.

Lemma glob_double_inv p s :
  p <> [] -> glob (STAR :: STAR :: p) s -> exists a b, s = a ++ b /\ glob p b.
Proof.
  intros Hp Hg. inversion Hg as [| | |p' a b Ha Hb| p' a b Hb | |]; subst; try done; [|eauto].
  inversion Hb as [| | |p' a' b' Ha' Hb'| p' a' b' Hb' | |]; subst; try done.
  - exists (a ++ a'), b'. by rewrite app_assoc.
  - exists (a ++ a'), b'. split; [by rewrite app_assoc|].
    change b' with ([] ++ b'). constructor; [constructor|done].
  - exists a, b. split; [done|]. constructor.
Qed.

Lemma glob_single_inv c p s :
  c <> STAR -> glob (STAR :: c :: p) s ->
  exists a b, s = a ++ b /\ Forall (fun c => c <> SLASH) a /\ glob (c :: p) b.
Proof. intros Hc Hg. inversion Hg; subst; try done; eauto. Qed.

(** The place to go back to: the pattern since the star and the string it was
    matched with have the same length. *)
Definition aligned (l : saved) (p s : cstr) : Prop :=
  exists q w, star_free q /\ last_star_pat l = q ++ p /\ last_star_str l = w ++ s /\
    length w = length q.

Lemma aligned_refl l : aligned l (last_star_pat l) (last_star_str l).
Proof. by exists [], []; split_and!; [constructor|..]. Qed.

Lemma aligned_next l c p d s : c <> STAR -> aligned l (c :: p) (d :: s) -> aligned l p s.
Proof.
  intros Hc (q & w & Hq & Ep & Es & El). exists (q ++ [c]), (w ++ [d]).
  rewrite <- !app_assoc, !length_app. split_and!; [|done|done|simpl; lia].
  apply Forall_app. split; [done|]. by constructor.
Qed.

(** At a double star nothing is lost by forgetting the previous one: whatever it
    could still take, the double star can. *)
Lemma fallback_absorbed l p s :
  p <> [] -> aligned l (STAR :: STAR :: p) s -> fallback (Some l) -> exists a b, s = a ++ b /\ glob p b.
Proof.
  intros Hp (q & w & Hq & Ep & Es & El) (a & b & Es' & Hne & _ & Hg).
  rewrite Ep in Hg. apply glob_segment in Hg as (w' & r & -> & El' & Hg); [|done].
  apply glob_double_inv in Hg as (a2 & b2 & -> & Hg); [|done].
  rewrite Es in Es'. rewrite (app_assoc a) in Es'.
  assert (Hpre : exists x, s = x ++ a2 ++ b2).
  { exists (drop (length w) (a ++ w')). 
    assert (Hd : drop (length w) (w ++ s) = drop (length w) ((a ++ w') ++ a2 ++ b2)) by by rewrite Es'.
    rewrite drop_app_length in Hd. rewrite Hd. rewrite drop_app_le; [done|].
    rewrite length_app. lia. }
  destruct Hpre as [x ->]. exists (x ++ a2), b2. by rewrite app_assoc.
Qed.

Lemma fallback_saved p2 s dbl a b :
  s = a ++ b -> may_take dbl a -> glob p2 b ->
  glob p2 s \/ fallback (Some {| last_star_pat := p2; last_star_str := s; double_star := dbl |}).
Proof.
  intros -> Ha Hg. destruct a as [|c a]; [by left|]. right. by exists (c :: a), b.
Qed.

(** The loop finds every match of such a pattern. *)
Lemma single_loop_complete fuel p s last :
  is_Some (single_loop fuel p s last) ->
  match last with
  | None => simple p = true
  | Some l => later_double p = true /\ later_double (last_star_pat l) = true /\ aligned l p s
  end ->
  glob p s \/ fallback last -> single_loop fuel p s last = Some true.
Proof.
  revert p s last. induction fuel as [|f IH]; intros p s last Hsome Hp Hg; [by destruct Hsome|].
  cbn [single_loop] in *. set (back := match last with None => _ | Some _ => _ end) in *.
  assert (Hback : is_Some back -> fallback last -> back = Some true).
  { subst back. intros Hs Hfb. destruct last as [[lp ls dbl]|]; [|done].
    cbn [fallback last_star_pat last_star_str double_star] in *.
    destruct Hp as (_ & Hlp & _). destruct Hfb as (a & b & Els & Hne & Ha & Hgb).
    destruct a as [|c a]; [done|]. subst ls. cbn [app] in *.
    assert (E : negb dbl && (c =? SLASH) = false).
    { destruct Ha as [->|Ha]; [done|]. apply Forall_cons in Ha as [Hc _].
      rewrite (proj2 (Z.eqb_neq _ _) Hc). apply andb_false_r. }
    rewrite E in *. apply IH; [done|split_and!; [done|done|apply (aligned_refl (mk_saved lp _ dbl))]|].
    apply (fallback_saved _ _ _ a b); [done| |done].
    destruct Ha as [->|Ha]; [by left|]. right. by apply Forall_cons in Ha as [_ ?]. }
  destruct p as [|c p1].
  { destruct s as [|d s]; [done|]. apply Hback; [done|]. destruct Hg as [Hg|?]; [|done].
    inversion Hg. }
  destruct (c =? STAR) eqn:Ec; propify.
  - subst c. destruct p1 as [|d p']; [done|]. destruct (d =? STAR) eqn:Ed; propify.
    + subst d. destruct p' as [|e p2]; [done|]. apply IH; [done|split_and!|].
      1,2: destruct last; [by destruct Hp as [Hp _]|done].
      { apply (aligned_refl (mk_saved _ _ true)). }
      assert (Hab : exists a b, s = a ++ b /\ glob (e :: p2) b).
      { destruct Hg as [Hg|Hg]; [by apply glob_double_inv|]. destruct last as [l|]; [|done].
        apply (fallback_absorbed l); [done|apply Hp|done]. }
      destruct Hab as (a & b & Es & Hb). apply (fallback_saved _ _ _ a b); [done|by left|done].
    + assert (last = None) as ->.
      { destruct last as [l|]; [|done]. exfalso. destruct Hp as [Hp _]. simpl in Hp.
        rewrite (proj2 (Z.eqb_neq _ _) Ed) in Hp. done. }
      cbn [simple] in Hp. change (STAR =? STAR) with true in Hp. cbv iota in Hp.
      rewrite (proj2 (Z.eqb_neq _ _) Ed) in Hp.
      apply IH; [done|split_and!; [done|done|apply (aligned_refl (mk_saved _ _ false))]|].
      destruct Hg as [Hg|[]]. apply glob_single_inv in Hg as (a & b & Es & Ha & Hb); [|done].
      apply (fallback_saved _ _ _ a b); [done|by right|done].
  - assert (Hcons : fallback last \/ exists d s', s = d :: s' /\ (c = QUESTION \/ c = d) /\ glob p1 s').
    { destruct Hg as [H|H]; [right; by apply glob_head|by left]. }
    assert (Hnext : forall d s', s = d :: s' -> match last with
      | None => simple p1 = true
      | Some l => later_double p1 = true /\ later_double (last_star_pat l) = true /\ aligned l p1 s'
      end).
    { intros d s' ->. destruct last as [l|].
      - destruct Hp as (H1 & H2 & H3). cbn [later_double] in H1.
        rewrite (proj2 (Z.eqb_neq _ _) Ec) in H1. split_and!; [done|done|by eapply aligned_next].
      - cbn [simple] in Hp. by rewrite (proj2 (Z.eqb_neq _ _) Ec) in Hp. }
    destruct s as [|d s'].
    { destruct Hcons as [?|(? & ? & [=] & _)]. destruct (c =? QUESTION); by apply Hback. }
    specialize (Hnext d s' eq_refl). destruct (c =? QUESTION) eqn:Eq; propify.
    + apply IH; [done|done|]. destruct Hcons as [?|(? & ? & [= <- <-] & _ & ?)]; auto.
    + destruct (c =? d) eqn:Ed; propify.
      * apply IH; [done|done|]. destruct Hcons as [?|(? & ? & [= <- <-] & _ & ?)]; auto.
      * apply Hback; [done|]. by destruct Hcons as [?|(? & ? & [= <- <-] & [?|?] & ?)].
Qed.

(** ** Lists of patterns *)

(** The alternatives of a pattern. *)
Fixpoint alternatives (p : cstr) : list cstr :=
  match p with
  | [] => [[]]
  | c :: p' =>
      if c =? chr "|" then [] :: alternatives p'
      else match alternatives p' with
           | w :: ws => (c :: w) :: ws
           | [] => [[c]]
           end
  end.

Lemma alternatives_cons p : exists ws, alternatives p =
  (match strchr p (chr "|") with Some i => take i p | None => p end) :: ws /\
  ws = match strchr p (chr "|") with Some i => alternatives (drop (S i) p) | None => [] end.
Proof.
  induction p as [|c p (ws & E & Ew)]; [by exists []|]. cbn [alternatives strchr].
  destruct (c =? chr "|") eqn:Ec; [by exists (alternatives p)|]. rewrite E.
  destruct (strchr p (chr "|")) as [i|]; cbn [fmap option_fmap option_map take drop]; eauto.
Qed.

Lemma match_loop_alternatives fuel p s :
  (length p < fuel)%nat ->
  match_loop fuel p s =
    Some (existsb (fun a => bool_decide (match_single a s = Some true)) (alternatives p)).
Proof.
  revert p. induction fuel as [|f IH]; intros p Hf; [lia|]. cbn [match_loop].
  destruct (alternatives_cons p) as (ws & E & Ew). rewrite E. cbn [existsb].
  assert (Et : take (match strchr p (chr "|") with Some i => i | None => length p end) p =
    match strchr p (chr "|") with Some i => take i p | None => p end).
  { destruct (strchr p (chr "|")); [done|]. by rewrite take_ge. }
  rewrite Et. destruct (match_single_total (match strchr p (chr "|") with Some i => take i p
    | None => p end) s) as [b Eb]. rewrite Eb. destruct b.
  { by rewrite bool_decide_true. }
  rewrite bool_decide_false by done. simpl orb.
  destruct (strchr p (chr "|")) as [i|] eqn:Ei; [|by subst ws]. subst ws. apply IH.
  assert (i < length p)%nat.
  { clear -Ei. revert i Ei. induction p as [|c p IHp]; intros i; [done|]. cbn [strchr].
    case_if; [intros [= <-]; simpl; lia|]. intros (j & Hj & ->)%fmap_Some.
    apply IHp in Hj. simpl. lia. }
  rewrite length_drop. lia.
Qed.

(** C33: The matcher terminates on every pattern and path. A path it accepts matches
    one of the alternatives; and it accepts every path that matches one whose stars,
    the first one apart, are double or last: all patterns of the page handlers are
    of that form. *)
Theorem match_decides_glob (pattern path : cstr) :
  exists b, http_match pattern path = Some b /\
    (b = true -> exists a, a ∈ alternatives pattern /\ glob a path) /\
    (Forall (fun a => simple a = true) (alternatives pattern) ->
     (exists a, a ∈ alternatives pattern /\ glob a path) -> b = true).
Proof.
  unfold http_match. rewrite match_loop_alternatives by lia. eexists. split; [done|]. split.
  - intros (a & Ha & Hb)%existsb_exists. exists a. split; [by apply list_elem_of_In|].
    apply bool_decide_eq_true in Hb. apply single_loop_sound in Hb as [?|[]]. done.
  - intros Hs (a & Ha & Hg). apply existsb_exists. exists a. split; [by apply list_elem_of_In|].
    apply bool_decide_eq_true. apply single_loop_complete; [apply match_single_total| |by left].
    rewrite Forall_forall in Hs. by apply Hs.
Qed.

Lemma match_decides_glob_witness : http_match (bytes "**.tar|**.gz") (bytes "a/b.gz") = Some true.
Proof.
  destruct (match_decides_glob (bytes "**.tar|**.gz") (bytes "a/b.gz")) as (b & E & _ & H).
  rewrite E. f_equal. apply H.
  - vm_compute. repeat constructor.
  - exists (bytes "**.gz"). split; [right; left|].
    apply (glob_double (bytes ".gz") (bytes "a/b") (bytes ".gz")).
    repeat (constructor; try done).
Defined.

(** A second star that is a single one can make the matcher miss a match. *)
Lemma match_misses :
  match_single (bytes "**a*b") (bytes "a/ab") = Some false /\ glob (bytes "**a*b") (bytes "a/ab").
Proof.
  split; [reflexivity|]. apply (glob_double (bytes "a*b") (bytes "a/") (bytes "ab")).
  apply glob_char; [done|done|]. apply (glob_star (bytes "b") [] (bytes "b")); [constructor|].
  repeat (constructor; try done).
Qed.

End HttpMatch.
