(* ===== verification/HttpAuth.v ===== *)
(** Authentication and login sessions of the web server
    (src/tomato64/package/httpd/httpd/httpd.c, [auth_check] and the functions
    [login_*]).

    The global variables of the server are the record [session]; the directory of
    marker files and the log are part of the state [host]. What the functions ask of
    the system (time, process, lock, width of a [long]) is the class [System]. *)

From Stdlib Require Import ZArith Lia.
From stdpp Require Import base list strings.
From S2P Require Import Prelude Scan Base64 Nvram.

Local Open Scope Z_scope.

Module HttpAuth.
Import Scan Nvram.

Definition USER_DEFAULT : cstr := bytes "root".
Definition PASS_DEFAULT : cstr := bytes "admin".
Definition LOGIN_STAMP_DIR : cstr := bytes "/tmp/httpd".
Definition LOGIN_STAMP_NAME : cstr := bytes "httpd-gui-login-".
Definition LOGIN_COOKIE_NAME : cstr := bytes "tomato_gui_session".
Definition LOGIN_COOKIE_LEN : nat := 16.
Definition LOGIN_MARKER_MAX_AGE : Z := 24 * 60 * 60.
Definition AUTHINFO_SIZE : Z := 512.

Inductive auth_t := AUTH_NONE | AUTH_OK | AUTH_BAD.

(** The globals of a request. *)
Record session := mk_session {
  authinfo : cstr; client_addr : cstr; http_port : Z; do_ssl : bool;
  login_cookie : cstr; login_cookie_header : cstr; login_cookie_seq : Z }.

(** A file of the directory of markers. *)
Record marker := mk_marker { m_name : cstr; m_regular : bool; m_mode : Z; m_mtime : Z }.

Inductive message :=
  | LoginOk (user addr : cstr) (port : Z)
  | LoginFailed (user addr : cstr) (port : Z)
  | LogoutOk (user addr : cstr) (port : Z).

Record host := mk_host { sess : session; dir : list marker; syslog : list message }.

(** The time is -1 when it cannot be read. *)
Class System := {
  time_now : Z; getpid : Z; clock : Z; lock_ok : bool; long_bytes : Z }.

Section Ops.
Context {nv : Nvram} {sys : System}.

Definition set_sess (h : host) (s : session) : host :=
  {| sess := s; dir := dir h; syslog := syslog h |}.
Definition set_dir (h : host) (d : list marker) : host :=
  {| sess := sess h; dir := d; syslog := syslog h |}.
Definition log (h : host) (m : message) : host :=
  {| sess := sess h; dir := dir h; syslog := syslog h ++ [m] |}.
Definition set_authinfo (s : session) (a : cstr) : session :=
  {| authinfo := a; client_addr := client_addr s; http_port := http_port s; do_ssl := do_ssl s;
     login_cookie := login_cookie s; login_cookie_header := login_cookie_header s;
     login_cookie_seq := login_cookie_seq s |}.
Definition set_cookie (s : session) (c : cstr) : session :=
  {| authinfo := authinfo s; client_addr := client_addr s; http_port := http_port s;
     do_ssl := do_ssl s; login_cookie := c; login_cookie_header := login_cookie_header s;
     login_cookie_seq := login_cookie_seq s |}.
Definition set_cookie_header (s : session) (c : cstr) : session :=
  {| authinfo := authinfo s; client_addr := client_addr s; http_port := http_port s;
     do_ssl := do_ssl s; login_cookie := login_cookie s; login_cookie_header := c;
     login_cookie_seq := login_cookie_seq s |}.
Definition set_seq (s : session) (q : Z) : session :=
  {| authinfo := authinfo s; client_addr := client_addr s; http_port := http_port s;
     do_ssl := do_ssl s; login_cookie := login_cookie s;
     login_cookie_header := login_cookie_header s; login_cookie_seq := q |}.

(** ** Tokens *)

(** Arithmetic on [unsigned long]. *)
Definition ulong (x : Z) : Z := x mod 2 ^ (8 * long_bytes).

Fixpoint login_hash_add (hash : Z) (s : cstr) : Z :=
  match s with
  | [] => hash
  | c :: s' => login_hash_add (Z.lxor (ulong (ulong (Z.shiftl hash 5) + hash)) c) s'
  end.

Definition login_identity_hash (s : session) : Z :=
  let hash := 5381 in
  let hash := login_hash_add hash (authinfo s) in
  let hash := login_hash_add hash (bytes "|") in
  let hash := login_hash_add hash (client_addr s) in
  let hash := login_hash_add hash (bytes "|") in
  let port := snprintf 16 (print_d (http_port s) ++ bytes ":" ++ (if do_ssl s then bytes "1" else bytes "0")) in
  login_hash_add hash port.

(** The name of a marker file in its directory; the path is the directory, a slash
    and the name, well within its 96 bytes. *)
Definition login_session_path (s : session) (token : cstr) : cstr :=
  let hash := login_hash_add (login_hash_add (login_identity_hash s) (bytes "|")) token in
  LOGIN_STAMP_NAME ++ pad_to 8 (print_u 16 hash).

Definition login_cookie_char (c : Z) : bool :=
  ((chr "0" <=? c) && (c <=? chr "9")) || ((chr "a" <=? c) && (c <=? chr "f")).

Definition login_cookie_value_ok (s : cstr) : bool :=
  forallb (fun i => login_cookie_char (char_at s i)) (seq 0 LOGIN_COOKIE_LEN)
  && (char_at s LOGIN_COOKIE_LEN =? 0).

Definition is_cookie_blank (c : Z) : bool := (c =? chr " ") || (c =? 9) || (c =? chr ";").

(** The loop over the cookies of a header: the value of ours, empty when it is
    malformed, and [None] when it is not there. *)
Fixpoint cookie_loop (fuel : nat) (p : cstr) : option cstr :=
  match fuel with
  | O => None
  | S f =>
      match p with
      | [] => None
      | _ =>
          let p := skip_while is_cookie_blank p in
          let name_len := length LOGIN_COOKIE_NAME in
          if prefix_of_str LOGIN_COOKIE_NAME p && (char_at p name_len =? chr "=") then
            let value := take_until (fun c => negb (login_cookie_char c))
                           (take LOGIN_COOKIE_LEN (drop (name_len + 1) p)) in
            Some (if (length value =? LOGIN_COOKIE_LEN)%nat then value else [])
          else cookie_loop f (skip_while (fun c => negb (c =? chr ";")) p)
      end
  end.

Definition login_cookie_parse (s : session) (cookie : cstr) : session :=
  if negb (char_at (login_cookie s) 0 =? 0) then s
  else match cookie_loop (S (length cookie)) cookie with
       | Some value => set_cookie s value
       | None => s
       end.

Definition login_cookie_set (s : session) (token : cstr) : session :=
  if negb (login_cookie_value_ok token) then s
  else set_cookie_header s
         (snprintf 192 (bytes "Set-Cookie: " ++ LOGIN_COOKIE_NAME ++ bytes "=" ++ token
                        ++ bytes "; Path=/; HttpOnly; SameSite=Strict")).

Definition login_cookie_expire (s : session) : session :=
  set_cookie_header s
    (snprintf 192 (bytes "Set-Cookie: " ++ LOGIN_COOKIE_NAME
      ++ bytes "=; Path=/; Max-Age=0; Expires=Thu, 01 Jan 1970 00:00:00 GMT; HttpOnly; SameSite=Strict")).

(** The counter is advanced; the token is cut to 16 characters. *)
Definition login_new_token (s : session) : session * cstr :=
  let s := set_seq s (ulong (login_cookie_seq s + 1)) in
  let tmp := snprintf 64 (print_u 10 (ulong time_now) ++ bytes ":" ++ print_u 10 (login_cookie_seq s)
               ++ bytes ":" ++ print_d getpid ++ bytes ":" ++ print_u 10 (ulong clock)) in
  let h1 := login_hash_add (login_hash_add (login_identity_hash s) (bytes "|")) tmp in
  let h2 := login_hash_add 2166136261 tmp in
  let h2 := login_hash_add h2 (bytes "|") in
  let h2 := login_hash_add h2 (authinfo s) in
  let h2 := login_hash_add h2 (client_addr s) in
  (s, take LOGIN_COOKIE_LEN (snprintf 17 (pad_to 8 (print_u 16 h1) ++ pad_to 8 (print_u 16 h2)))).

(** ** Marker files *)

Definition find_marker (d : list marker) (name : cstr) : option marker :=
  List.find (fun m => strcmp_eq (m_name m) name) d.

(** The directory with the new file and whether it was created; an existing file is
    left alone. *)
Definition login_create_marker (s : session) (d : list marker) (token : cstr)
  : list marker * bool :=
  if negb (login_cookie_value_ok token) then (d, false)
  else
    let path := login_session_path s token in
    match find_marker d path with
    | Some _ => (d, false)
    | None =>
        (d ++ [{| m_name := path; m_regular := true; m_mode := 384; m_mtime := time_now |}], true)
    end.

Definition login_marker_valid (s : session) (d : list marker) : bool :=
  if negb (login_cookie_value_ok (login_cookie s)) then false
  else match find_marker d (login_session_path s (login_cookie s)) with
       | None => false
       | Some m => if negb (m_regular m) then false
                   else negb (negb (Z.land (m_mode m) 511 =? 384))
       end.

Definition login_marker_name_ok (name : cstr) : bool :=
  if negb (prefix_of_str LOGIN_STAMP_NAME name) then false
  else
    let p := drop (length LOGIN_STAMP_NAME) name in
    let hash_len := length (take_until (fun c => negb (login_cookie_char c)) p) in
    if (hash_len <? 8)%nat || (long_bytes * 2 <? Z.of_nat hash_len) then false
    else char_at p hash_len =? 0.

(** Whether the garbage collection removes a file. *)
Definition stale (now : Z) (m : marker) : bool :=
  login_marker_name_ok (m_name m)
  && (Z.of_nat (length LOGIN_STAMP_DIR + 1 + length (m_name m)) <? 96)
  && m_regular m
  && (m_mtime m <=? now) && (LOGIN_MARKER_MAX_AGE <=? ulong (now - m_mtime m)).

Definition login_marker_gc (d : list marker) : list marker :=
  if time_now =? -1 then d else List.filter (fun m => negb (stale time_now m)) d.

Definition unlink_marker (d : list marker) (name : cstr) : list marker :=
  List.filter (fun m => negb (strcmp_eq (m_name m) name)) d.

Definition login_session_remove (h : host) : host :=
  let h := set_sess h (login_cookie_expire (sess h)) in
  let s := sess h in
  if (char_at (authinfo s) 0 =? 0) || (char_at (client_addr s) 0 =? 0)
     || negb (login_cookie_value_ok (login_cookie s)) then h
  else if negb lock_ok then h
  else set_dir h (unlink_marker (dir h) (login_session_path s (login_cookie s))).

Definition login_success_log_once (h : host) : host :=
  let s := sess h in
  if (char_at (authinfo s) 0 =? 0) || (char_at (client_addr s) 0 =? 0) then h
  else if negb lock_ok then h
  else if login_marker_valid s (dir h) then h
  else
    let h := set_dir h (login_marker_gc (dir h)) in
    let '(s, token) := login_new_token s in
    let h := set_sess h s in
    let '(d, created) := login_create_marker s (dir h) token in
    let h := set_dir h d in
    if created then
      log (set_sess h (login_cookie_set s token)) (LoginOk (authinfo s) (client_addr s) (http_port s))
    else h.

(** ** Passwords *)

Definition or_default (value : option cstr) (dflt : cstr) : cstr :=
  match value with
  | Some v => if char_at v 0 =? 0 then dflt else v
  | None => dflt
  end.

(** [None] stands for a request without an Authorization header. *)
Definition auth_check (h : host) (authorization : option cstr) : host * auth_t :=
  match authorization with
  | None => (h, AUTH_NONE)
  | Some a =>
      if negb (prefix_of_str (bytes "Basic ") a) then (h, AUTH_NONE)
      else
        let encoded := drop 6 a in
        let encoded_len := Z.of_nat (length encoded) in
        if (Base64.INT_MAX <? encoded_len)
           || (AUTHINFO_SIZE <=? Base64.base64_decoded_len encoded_len)
        then (h, AUTH_BAD)
        else
          let decoded := Base64.base64_decode encoded in
          if AUTHINFO_SIZE <=? Z.of_nat (length decoded) then (h, AUTH_BAD)
          else
            let info := until_nul decoded in
            match strchr info (chr ":") with
            | None => (set_sess h (set_authinfo (sess h) info), AUTH_NONE)
            | Some i =>
                let user := take i info in
                let pass := drop (S i) info in
                let h := set_sess h (set_authinfo (sess h) user) in
                let u := or_default (nvram_get (bytes "http_username")) USER_DEFAULT in
                let p := or_default (nvram_get (bytes "http_passwd")) PASS_DEFAULT in
                if strcmp_eq user u && strcmp_eq pass p then (h, AUTH_OK)
                else
                  let h := login_session_remove h in
                  (log h (LoginFailed (authinfo (sess h)) (client_addr (sess h)) (http_port (sess h))),
                   AUTH_BAD)
            end
  end.

End Ops.

End HttpAuth.
