(* ===== verification/HttpAuthSpec.v ===== *)
(** What authentication guarantees: the password is accepted exactly when it is the
    configured one, a login is logged once per browser session, and marker files are
    recognised and collected. *)

From Stdlib Require Import ZArith Lia.
From stdpp Require Import base list strings.
From S2P Require Import Prelude Scan Base64 Nvram HttpAuth.

Local Open Scope Z_scope.

Module HttpAuthSpec.
Import Scan Nvram HttpAuth.

(** * Passwords *)

(** Characters the decoder skips, such as the end of a header line. *)
Definition skipped (c : Z) : Prop := c <> chr "=" /\ Base64.xlat_index c = None.

Lemma decode_loop_skips inp junk n x :
  Forall skipped junk -> Base64.decode_loop (inp ++ junk) n x = Base64.decode_loop inp n x.
Proof.
  intros Hj. revert n x. induction inp as [|c inp IH]; intros n x; cbn [app].
  - induction Hj as [|c junk [H1 H2] Hj IHj]; [done|]. cbn [Base64.decode_loop].
    rewrite (proj2 (Z.eqb_neq _ _) H1), H2. done.
  - cbn [Base64.decode_loop]. case_if; [done|]. destruct (Base64.xlat_index c); [|done].
    case_if; [by rewrite IH|done].
Qed.

Lemma decode_skips inp junk :
  Forall skipped junk -> Base64.base64_decode (inp ++ junk) = Base64.base64_decode inp.
Proof. intros. unfold Base64.base64_decode. by rewrite decode_loop_skips. Qed.

Lemma crlf_skipped : Forall skipped [13; 10].
Proof. repeat (constructor; [split; [discriminate|reflexivity]|]). constructor. Qed.

Lemma strchr_split s c i :
  strchr s c = Some i -> s = take i s ++ c :: drop (S i) s /\ ~ c ∈ take i s.
Proof.
  revert i. induction s as [|x s IH]; intros i; cbn [strchr]; [done|].
  destruct (x =? c) eqn:E; propify.
  - intros [= <-]. subst x. split; [done|]. apply not_elem_of_nil.
  - intros (j & Hj & ->)%fmap_Some. apply IH in Hj as [H1 H2]. cbn [take drop app]. split.
    + f_equal. exact H1.
    + rewrite elem_of_cons. intros [->|?]; done.
Qed.

Lemma strchr_app_first s c r : ~ c ∈ s -> strchr (s ++ c :: r) c = Some (length s).
Proof.
  induction s as [|x s IH]; intros Hc; cbn [app strchr length]; [by rewrite Z.eqb_refl|].
  rewrite elem_of_cons in Hc. rewrite (proj2 (Z.eqb_neq _ _)) by (intros ->; tauto).
  by rewrite IH by tauto.
Qed.

Lemma until_nul_text s : Forall is_char s -> until_nul s = s.
Proof.
  induction 1 as [|c s Hc Hs IH]; [done|]. unfold is_char in Hc. cbn [until_nul].
  rewrite (proj2 (Z.eqb_neq _ _)) by lia. by rewrite IH.
Qed.

Section Spec.
Context {nv : Nvram} {sys : System}.

Definition user : cstr := or_default (nvram_get (bytes "http_username")) USER_DEFAULT.
Definition password : cstr := or_default (nvram_get (bytes "http_passwd")) PASS_DEFAULT.

(** The credentials fit the buffer they are decoded into. *)
Definition credentials_fit (encoded : cstr) : Prop :=
  Z.of_nat (length encoded) <= Base64.INT_MAX /\
  Base64.base64_decoded_len (Z.of_nat (length encoded)) < AUTHINFO_SIZE /\
  Z.of_nat (length (Base64.base64_decode encoded)) < AUTHINFO_SIZE.

Lemma auth_check_ok h a :
  (auth_check h a).2 = AUTH_OK <->
  exists encoded, a = Some (bytes "Basic " ++ encoded) /\ credentials_fit encoded /\
    until_nul (Base64.base64_decode encoded) = user ++ chr ":" :: password /\ ~ chr ":" ∈ user.
Proof.
  unfold auth_check, credentials_fit. destruct a as [a|]; [|by split; [|intros (? & [=] & _)]].
  destruct (prefix_of_str (bytes "Basic ") a) eqn:Ep; simpl negb; cbv iota.
  2: { split; [done|]. intros (e & Ha & _).
       assert (E : prefix_of_str (bytes "Basic ") a = true)
         by (apply prefix_of_str_spec; exists e; congruence). congruence. }
  apply prefix_of_str_spec in Ep as [e ->]. change (drop 6 (bytes "Basic " ++ e)) with e.
  assert (Hex : forall P : cstr -> Prop, (exists e', Some (bytes "Basic " ++ e) = Some (bytes "Basic " ++ e')
    /\ P e') <-> P e).
  { intros P. split; [|eauto]. intros (e' & E & HP).
    assert (E' : bytes "Basic " ++ e = bytes "Basic " ++ e') by congruence.
    apply app_inv_head in E'. by subst. }
  rewrite (Hex (fun e => _ /\ _ /\ _)). clear Hex.
  destruct (_ || _) eqn:E1; propify.
  { split; [done|]. intros ((? & ? & _) & _). destruct E1; propify; lia. }
  destruct (AUTHINFO_SIZE <=? Z.of_nat (length (Base64.base64_decode e))) eqn:E2; propify.
  { split; [done|]. intros ((_ & _ & ?) & _). lia. }
  set (info := until_nul (Base64.base64_decode e)).
  destruct (strchr info (chr ":")) as [i|] eqn:Ei.
  - apply strchr_split in Ei as [Ei Hni].
    unfold strcmp_eq. fold user password. split.
    + destruct (bool_decide (take i info = user)) eqn:Eu; [|done].
      destruct (bool_decide (drop (S i) info = password)) eqn:Epw; [|done].
      propify. intros _. rewrite Eu, Epw in Ei. rewrite Eu in Hni. split_and!; [lia..|done|done].
    + intros (_ & Einfo & Hnu). rewrite Ei in Einfo.
      assert (take i info = user /\ drop (S i) info = password) as [-> ->].
      { clear -Einfo Hni Hnu. revert Einfo Hni Hnu. generalize (take i info) (drop (S i) info) user password.
        intros a b c d E Ha Hc. revert c E Hc. induction a as [|x a IH]; intros [|y c] E Hc; simplify_eq/=.
        - done.
        - exfalso. apply Hc. left.
        - exfalso. apply Ha. left.
        - rewrite elem_of_cons in *. destruct (IH ltac:(tauto) c) as [-> ->]; [done|tauto|done]. }
      by rewrite !bool_decide_true.
  - split; [done|]. intros (_ & Einfo & Hnu). exfalso. fold info in Einfo. rewrite Einfo in Ei.
    by rewrite strchr_app_first in Ei.
Qed.

(** The buffer [authinfo] is never overrun: what is decoded into it is shorter. *)
Lemma authinfo_bounded encoded :
  Z.of_nat (length encoded) <= 10000 ->
  Base64.base64_decoded_len (Z.of_nat (length encoded)) < AUTHINFO_SIZE ->
  Z.of_nat (length (Base64.base64_decode encoded)) < AUTHINFO_SIZE.
Proof.
  intros Hl Hd. pose proof (Base64.base64_decode_bounded encoded). unfold Base64.INT_MAX in *. lia.
Qed.

(** C29: A request is authenticated exactly when its header decodes to the
    configured user and password ([root] and [admin] where they are not set); and
    the header a browser sends for them is accepted. *)
Theorem authenticated_iff_password (h : host) (a : option cstr) :
  ((auth_check h a).2 = AUTH_OK <->
   exists encoded, a = Some (bytes "Basic " ++ encoded) /\ credentials_fit encoded /\
     until_nul (Base64.base64_decode encoded) = user ++ chr ":" :: password /\ ~ chr ":" ∈ user) /\
  (Forall is_char user -> Forall is_char password -> ~ chr ":" ∈ user ->
   (length user + length password <= 500)%nat ->
   (auth_check h (Some (bytes "Basic " ++ Base64.base64_encode (user ++ chr ":" :: password)
                        ++ [13; 10]))).2 = AUTH_OK).
Proof.
  split; [apply auth_check_ok|]. intros Hu Hp Hc Hl. apply auth_check_ok.
  set (info := user ++ chr ":" :: password).
  assert (Hi : Forall is_char info).
  { apply Forall_app. split; [done|]. constructor; [|done]. unfold is_char. vm_compute. done. }
  assert (Hli : (length info <= 501)%nat) by (subst info; rewrite length_app; simpl; lia).
  pose proof (Base64.base64_encode_length info) as El. unfold Base64.INT_MAX in El.
  assert (Ed : Base64.base64_decode (Base64.base64_encode info ++ [13; 10]) = info).
  { rewrite decode_skips by apply crlf_skipped. apply Base64.base64_inverse.
    eapply Forall_impl; [exact Hi|]. unfold is_char, is_byte. intros; lia. }
  assert (Hle : Z.of_nat (length (Base64.base64_encode info ++ [13; 10])) <= 670).
  { rewrite length_app. specialize (El ltac:(lia)). unfold Base64.base64_encoded_len, Base64.INT_MAX in El.
    revert El. case_if; [propify; lia|]. rewrite (u32_id (Z.of_nat (length info) + 2)) by lia.
    assert ((Z.of_nat (length info) + 2) / 3 < 168) by (apply Z.div_lt_upper_bound; lia).
    assert (0 <= (Z.of_nat (length info) + 2) / 3) by (apply Z.div_pos; lia).
    rewrite u32_id by lia. cbn [length]. lia. }
  eexists. split; [reflexivity|]. fold info. rewrite Ed. split_and!; [| |done].
  - unfold credentials_fit, AUTHINFO_SIZE, Base64.base64_decoded_len, Base64.INT_MAX. rewrite Ed.
    set (L := Z.of_nat (length (Base64.base64_encode info ++ [13; 10]))) in *.
    assert (0 <= L) by lia. split_and!; [lia| |lia]. case_if; [lia|].
    rewrite (u32_id (L + 3)) by lia.
    assert ((L + 3) / 4 < 169) by (apply Z.div_lt_upper_bound; lia).
    assert (0 <= (L + 3) / 4) by (apply Z.div_pos; lia). rewrite u32_id by lia. lia.
  - by apply until_nul_text.
Qed.

(** * Tokens *)

Definition is_token (t : cstr) : Prop :=
  length t = LOGIN_COOKIE_LEN /\ Forall (fun c => login_cookie_char c = true) t.

Lemma numeral_cookie_char c : is_numeral_char c -> login_cookie_char c = true.
Proof.
  unfold is_numeral_char, login_cookie_char. change (chr "0") with 48. change (chr "9") with 57.
  change (chr "a") with 97. change (chr "f") with 102. intros H.
  apply orb_true_iff. rewrite !andb_true_iff, !Z.leb_le. lia.
Qed.

Lemma hex_text_chars n : Forall (fun c => login_cookie_char c = true) (pad_to 8 (print_u 16 n)).
Proof.
  eapply Forall_impl; [apply pad_to_chars, print_u_chars; lia|]. apply numeral_cookie_char.
Qed.

Lemma pad_to_min w t : (w <= length (pad_to w t))%nat.
Proof. unfold pad_to. rewrite length_app, repeat_length. lia. Qed.

Lemma new_token_ok s : is_token (login_new_token s).2.
Proof.
  unfold login_new_token. cbv zeta. cbn [snd]. set (a := pad_to 8 _). set (b := pad_to 8 (print_u 16 (login_hash_add (login_hash_add _ (authinfo _)) _))).
  unfold snprintf, is_token, LOGIN_COOKIE_LEN. rewrite take_take. split.
  - rewrite length_take, length_app. pose proof (pad_to_min 8 (print_u 16 (login_hash_add
      (login_hash_add (login_identity_hash (set_seq s (ulong (login_cookie_seq s + 1)))) (bytes "|"))
      (snprintf 64 (print_u 10 (ulong time_now) ++ bytes ":" ++
         print_u 10 (login_cookie_seq (set_seq s (ulong (login_cookie_seq s + 1)))) ++
         bytes ":" ++ print_d getpid ++ bytes ":" ++ print_u 10 (ulong clock)))))) as Ha.
    fold a in Ha. assert (8 <= length b)%nat by apply pad_to_min. lia.
  - apply Forall_take, Forall_app. split; apply hex_text_chars.
Qed.

Lemma token_value_ok t : is_token t -> login_cookie_value_ok t = true.
Proof.
  intros [Hl Ht]. unfold login_cookie_value_ok. apply andb_true_iff. split.
  - apply forallb_forall. intros i Hi%in_seq. unfold char_at. rewrite nth_lookup.
    destruct (lookup_lt_is_Some_2 t i) as [c Hc]; [lia|]. rewrite Hc. simpl.
    rewrite Forall_forall in Ht. apply Ht. by eapply list_elem_of_lookup_2.
  - apply Z.eqb_eq. unfold char_at. apply nth_overflow. lia.
Qed.

(** The browser sends the token back, whatever other cookies follow. *)
Lemma cookie_sent_back s t rest :
  login_cookie s = [] -> is_token t ->
  login_cookie_parse s (LOGIN_COOKIE_NAME ++ bytes "=" ++ t ++ rest) = set_cookie s t.
Proof.
  intros Hc [Hl Ht]. unfold login_cookie_parse. rewrite Hc. change (char_at [] 0 =? 0) with true.
  simpl negb. cbv iota. cbn [cookie_loop].
  change (LOGIN_COOKIE_NAME ++ bytes "=" ++ t ++ rest) with
    (116 :: drop 1 LOGIN_COOKIE_NAME ++ bytes "=" ++ t ++ rest) at 1. cbv iota.
  assert (Esk : skip_while is_cookie_blank (LOGIN_COOKIE_NAME ++ bytes "=" ++ t ++ rest)
    = LOGIN_COOKIE_NAME ++ bytes "=" ++ t ++ rest) by done.
  rewrite Esk. assert (Ep : prefix_of_str LOGIN_COOKIE_NAME
    (LOGIN_COOKIE_NAME ++ bytes "=" ++ t ++ rest) = true) by (apply prefix_of_str_spec; eauto).
  rewrite Ep. change (char_at (LOGIN_COOKIE_NAME ++ bytes "=" ++ t ++ rest) (length LOGIN_COOKIE_NAME)
    =? chr "=") with true. cbv [andb].
  change (drop (length LOGIN_COOKIE_NAME + 1) (LOGIN_COOKIE_NAME ++ bytes "=" ++ t ++ rest))
    with (t ++ rest).
  rewrite take_app_length' by done.
  assert (Et : take_until (fun c => negb (login_cookie_char c)) t = t).
  { rewrite <- (app_nil_r t) at 1.
    apply take_until_app; [by eapply Forall_impl; [exact Ht|intros x ->]|done]. }
  by rewrite Et, Hl, Nat.eqb_refl.
Qed.

(** The identity a session is bound to. *)
Definition same_client (s1 s2 : session) : Prop :=
  authinfo s1 = authinfo s2 /\ client_addr s1 = client_addr s2 /\
  http_port s1 = http_port s2 /\ do_ssl s1 = do_ssl s2.

Lemma session_path_client s1 s2 t :
  same_client s1 s2 -> login_session_path s1 t = login_session_path s2 t.
Proof.
  intros (H1 & H2 & H3 & H4). unfold login_session_path, login_identity_hash.
  by rewrite H1, H2, H3, H4.
Qed.

Lemma find_marker_snoc d m :
  find_marker d (m_name m) = None -> find_marker (d ++ [m]) (m_name m) = Some m.
Proof.
  unfold find_marker. induction d as [|x d IH]; cbn [app List.find].
  - intros _. unfold strcmp_eq. by rewrite bool_decide_true.
  - destruct (strcmp_eq (m_name x) (m_name m)); [done|exact IH].
Qed.

(** A login is logged once per browser session: when the server reports a login
    it has set a cookie, and any later request of the same client that sends this
    cookie changes neither the log nor the directory of markers, as long as the
    marker file is there. *)
Theorem login_logged_once (h : host) :
  syslog (login_success_log_once h) <> syslog h ->
  let h1 := login_success_log_once h in
  syslog h1 = syslog h ++ [LoginOk (authinfo (sess h)) (client_addr (sess h)) (http_port (sess h))] /\
  exists t, is_token t /\
    login_cookie_header (sess h1) =
      bytes "Set-Cookie: " ++ LOGIN_COOKIE_NAME ++ bytes "=" ++ t
        ++ bytes "; Path=/; HttpOnly; SameSite=Strict" /\
    forall s2 rest log2,
      same_client (sess h) s2 -> login_cookie s2 = [] ->
      let h2 := {| sess := login_cookie_parse s2 (LOGIN_COOKIE_NAME ++ bytes "=" ++ t ++ rest);
                   dir := dir h1; syslog := log2 |} in
      login_success_log_once h2 = h2.
Proof.
  intros Hlog h1. subst h1. unfold login_success_log_once in *. cbv zeta in *.
  destruct (_ || _) eqn:Ei; [done|]. destruct lock_ok eqn:El; [|done]. simpl negb in *. cbv iota in *.
  destruct (login_marker_valid (sess h) (dir h)); [done|].
  pose proof (new_token_ok (sess h)) as Ht.
  destruct (login_new_token (sess h)) as [s t] eqn:Et. cbn [snd] in Ht.
  assert (Hs : s = set_seq (sess h) (ulong (login_cookie_seq (sess h) + 1))) by (unfold login_new_token in Et; congruence).
  cbn [set_dir set_sess dir sess] in *. unfold login_create_marker in *.
  rewrite (token_value_ok t Ht) in *. simpl negb in *. cbv iota in *.
  set (d0 := login_marker_gc (dir h)) in *.
  destruct (find_marker d0 (login_session_path s t)) as [m|] eqn:Ef; [done|].
  cbn [log set_sess syslog sess dir]. subst s. split; [done|]. exists t. split; [done|]. split.
  - unfold login_cookie_set. rewrite token_value_ok by done. cbn [negb set_cookie_header login_cookie_header].
    unfold snprintf. rewrite take_ge; [done|]. rewrite !length_app. destruct Ht as [-> _]. vm_compute. lia.
  - intros s2 rest log2 Hsame Hc. rewrite cookie_sent_back by done.
    cbn [sess dir]. change (authinfo (set_cookie s2 t)) with (authinfo s2).
    change (client_addr (set_cookie s2 t)) with (client_addr s2).
    assert (Hsp : login_session_path (set_cookie s2 t) t
      = login_session_path (set_seq (sess h) (ulong (login_cookie_seq (sess h) + 1))) t).
    { apply session_path_client. destruct Hsame as (? & ? & ? & ?). by split_and!. }
    destruct Hsame as (E1 & E2 & _). rewrite <- E1, <- E2, Ei.
    assert (Hv : login_marker_valid (set_cookie s2 t)
      (d0 ++ [{| m_name := login_session_path (set_seq (sess h) (ulong (login_cookie_seq (sess h) + 1))) t;
                 m_regular := true; m_mode := 384; m_mtime := time_now |}]) = true).
    { unfold login_marker_valid. change (login_cookie (set_cookie s2 t)) with t.
      rewrite token_value_ok by done. simpl negb. cbv iota. rewrite Hsp.
      set (m := mk_marker _ _ _ _).
      change (login_session_path (set_seq (sess h) (ulong (login_cookie_seq (sess h) + 1))) t)
        with (m_name m).
      rewrite (find_marker_snoc d0 m) by done. done. }
    cbn [set_dir dir]. rewrite Hv. done.
Qed.

(** * Collection of markers *)

Lemma lxor_bound a b n : 0 <= n -> 0 <= a < 2 ^ n -> 0 <= b < 2 ^ n -> 0 <= Z.lxor a b < 2 ^ n.
Proof.
  intros Hn Ha Hb.
  assert (E : Z.lxor a b = Z.lxor a b mod 2 ^ n).
  { apply Z.bits_inj'. intros i Hi. destruct (Z_lt_le_dec i n).
    - by rewrite Z.mod_pow2_bits_low.
    - rewrite Z.mod_pow2_bits_high, Z.lxor_spec by lia.
      rewrite <- (Z.mod_small a (2 ^ n)), <- (Z.mod_small b (2 ^ n)) by lia.
      by rewrite !Z.mod_pow2_bits_high by lia. }
  rewrite E. apply Z.mod_pos_bound. lia.
Qed.

Definition long_ok : Prop := long_bytes = 4 \/ long_bytes = 8.

Lemma hash_add_range hash t :
  long_ok -> Forall is_byte t -> 0 <= hash < 2 ^ (8 * long_bytes) ->
  0 <= login_hash_add hash t < 2 ^ (8 * long_bytes).
Proof.
  intros Hl Ht. revert hash. induction Ht as [|c t Hc Ht IH]; intros hash Hh; [done|].
  cbn [login_hash_add]. apply IH. unfold is_byte in Hc.
  assert (256 <= 2 ^ (8 * long_bytes)) by (destruct Hl as [-> | ->]; vm_compute; done).
  apply lxor_bound; [destruct Hl; lia| |lia]. unfold ulong. apply Z.mod_pos_bound. lia.
Qed.

Lemma bytes_is_byte t : Forall is_byte (bytes t).
Proof.
  induction t as [|c t IH]; [constructor|]. cbn [bytes]. constructor; [|done].
  unfold is_byte, code. pose proof (Ascii.N_ascii_bounded c). lia.
Qed.

Lemma numeral_bytes t : Forall is_numeral_char t -> Forall is_byte t.
Proof. intros H. eapply Forall_impl; [exact H|]. unfold is_numeral_char, is_byte. intros; lia. Qed.

Lemma print_d_bytes n : Forall is_byte (print_d n).
Proof.
  unfold print_d. case_if; [constructor; [unfold is_byte; lia|]|];
    apply numeral_bytes, print_u_chars; lia.
Qed.

Lemma token_bytes t : is_token t -> Forall is_byte t.
Proof.
  intros [_ H]. eapply Forall_impl; [exact H|]. intros c Hc. unfold login_cookie_char in Hc.
  change (chr "0") with 48 in Hc. change (chr "9") with 57 in Hc.
  change (chr "a") with 97 in Hc. change (chr "f") with 102 in Hc.
  apply orb_true_iff in Hc. rewrite !andb_true_iff, !Z.leb_le in Hc. unfold is_byte. lia.
Qed.

Lemma session_path_name_ok s t :
  long_ok -> Forall is_byte (authinfo s) -> Forall is_byte (client_addr s) -> is_token t ->
  login_marker_name_ok (login_session_path s t) = true /\
  (length (login_session_path s t) <= 32)%nat.
Proof.
  intros Hl Ha Hc Ht. unfold login_session_path. set (hash := login_hash_add _ t).
  assert (Hr : 0 <= hash < 2 ^ (8 * long_bytes)).
  { subst hash. assert (5381 < 2 ^ (8 * long_bytes)) by (destruct Hl as [-> | ->]; vm_compute; done).
    unfold login_identity_hash. repeat (apply hash_add_range; [done| |]); try apply bytes_is_byte;
      try done; try lia.
    - by apply token_bytes.
    - apply Forall_take. apply Forall_app. split; [apply print_d_bytes|].
      apply Forall_app. split; [apply bytes_is_byte|]. case_if; apply bytes_is_byte. }
  assert (Hlen : (length (print_u 16 hash) <= Z.to_nat (2 * long_bytes))%nat).
  { apply print_u_length; [lia|destruct Hl; lia|]. rewrite Z2Nat.id by (destruct Hl; lia).
    change 16 with (2 ^ 4). rewrite <- Z.pow_mul_r by (destruct Hl; lia).
    by replace (4 * (2 * long_bytes)) with (8 * long_bytes) by lia. }
  set (hex := pad_to 8 (print_u 16 hash)).
  assert (Hhex : (8 <= length hex <= Z.to_nat (2 * long_bytes))%nat).
  { subst hex. unfold pad_to. rewrite length_app, repeat_length. destruct Hl; lia. }
  split.
  - unfold login_marker_name_ok.
    assert (Ep : prefix_of_str LOGIN_STAMP_NAME (LOGIN_STAMP_NAME ++ hex) = true)
      by (apply prefix_of_str_spec; eauto).
    rewrite Ep, drop_app_length. simpl negb. cbv iota zeta.
    assert (Et : take_until (fun c => negb (login_cookie_char c)) hex = hex).
    { rewrite <- (app_nil_r hex) at 1. apply take_until_app; [|done].
      eapply Forall_impl; [apply hex_text_chars|]. by intros x ->. }
    rewrite Et, (proj2 (Nat.ltb_ge _ _)), (proj2 (Z.ltb_ge _ _)) by (destruct Hl; lia).
    simpl orb. cbv iota. apply Z.eqb_eq. unfold char_at. by apply nth_overflow.
  - rewrite length_app. change (length LOGIN_STAMP_NAME) with 16%nat. destruct Hl; lia.
Qed.

(** The marker of a login is collected once it is a day old, not before; files
    with other names are never removed. *)
Theorem markers_collected (d : list marker) (m : marker) (s : session) (t : cstr) :
  long_ok -> Forall is_byte (authinfo s) -> Forall is_byte (client_addr s) -> is_token t ->
  time_now <> -1 -> m ∈ d -> m_name m = login_session_path s t -> m_regular m = true ->
  m_mtime m <= time_now < m_mtime m + 2 ^ 31 ->
  (m ∈ login_marker_gc d <-> time_now < m_mtime m + LOGIN_MARKER_MAX_AGE) /\
  (forall m', m' ∈ d -> login_marker_name_ok (m_name m') = false -> m' ∈ login_marker_gc d).
Proof.
  intros Hl Ha Hc Ht Hnow Hin Hname Hreg Hage.
  destruct (session_path_name_ok s t Hl Ha Hc Ht) as [Hok Hlen].
  unfold login_marker_gc. rewrite (proj2 (Z.eqb_neq _ _) Hnow). split.
  - rewrite list_elem_of_In, filter_In, <- list_elem_of_In. unfold stale.
    rewrite Hname, Hok, Hreg.
    change (length LOGIN_STAMP_DIR) with 10%nat.
    rewrite (proj2 (Z.ltb_lt _ _)), (proj2 (Z.leb_le (m_mtime m) time_now)) by lia.
    unfold ulong. rewrite Z.mod_small.
    2: { split; [lia|]. eapply Z.lt_le_trans with (2 ^ 31); [lia|].
         apply Z.pow_le_mono_r; destruct Hl; lia. }
    cbn [andb]. unfold LOGIN_MARKER_MAX_AGE. split.
    + intros [_ H]. propify. lia.
    + intros H. split; [done|]. apply negb_true_iff, Z.leb_gt. lia.
  - intros m' Hm' Hnok. rewrite list_elem_of_In, filter_In, <- list_elem_of_In. split; [done|].
    unfold stale. by rewrite Hnok.
Qed.

End Spec.

(** * Witnesses *)

Module Demo.

#[export] Instance demo_nvram : Nvram :=
  {| nvram_get := fun k => if bool_decide (k = bytes "http_passwd") then Some (bytes "s3cret") else None;
     nvram_get_int := fun _ => 0 |}.
#[export] Instance demo_system : System :=
  {| time_now := 1700000000; getpid := 321; clock := 77; lock_ok := true; long_bytes := 8 |}.

Definition demo_session : session :=
  {| authinfo := bytes "root"; client_addr := bytes "192.168.1.2"; http_port := 80; do_ssl := false;
     login_cookie := []; login_cookie_header := []; login_cookie_seq := 0 |}.
Definition demo_host : host := {| sess := demo_session; dir := []; syslog := [] |}.

Definition demo_token : cstr := bytes "0123456789abcdef".
Definition demo_marker : marker :=
  {| m_name := login_session_path demo_session demo_token; m_regular := true; m_mode := 384;
     m_mtime := 1699000000 |}.

End Demo.
Import Demo.

Lemma authenticated_iff_password_witness :
  (auth_check demo_host
     (Some (bytes "Basic " ++ Base64.base64_encode (bytes "root:s3cret") ++ [13; 10]))).2 = AUTH_OK.
Proof.
  assert (E : user ++ chr ":" :: password = bytes "root:s3cret") by (vm_compute; reflexivity).
  rewrite <- E. apply (proj2 (authenticated_iff_password demo_host None)).
  - repeat constructor; vm_compute; done.
  - repeat constructor; vm_compute; done.
  - vm_compute. intros H. repeat (apply elem_of_cons in H as [H|H]; [done|]). by apply elem_of_nil in H.
  - vm_compute. lia.
Defined.

Lemma login_logged_once_witness :
  syslog (login_success_log_once demo_host) = [LoginOk (bytes "root") (bytes "192.168.1.2") 80].
Proof. apply (login_logged_once demo_host). vm_compute. done. Defined.

Lemma markers_collected_witness : ~ demo_marker ∈ login_marker_gc [demo_marker].
Proof.
  destruct (markers_collected [demo_marker] demo_marker demo_session demo_token) as [H _].
  - by right.
  - apply bytes_is_byte.
  - apply bytes_is_byte.
  - split; [done|]. repeat constructor.
  - done.
  - left.
  - done.
  - done.
  - vm_compute. done.
  - rewrite H. vm_compute. done.
Defined.

End HttpAuthSpec.
