(* ===== verification/HttpRequest.v ===== *)
(** Handling of a request by the web server
    (src/tomato64/package/httpd/httpd/httpd.c, [handle_request] and
    [skip_header]; webio.c, [web_getline]; the console proxy of ttyd.c and the
    table of pages of tomato.c).

    A connection is the list of bytes still to be read. What the server does is a list
    of events in order; what depends on the network, on wireless clients and on the
    console service is the class [Web]. The header lines are stored one behind the
    other in one buffer of 10000 bytes: [cur] is the offset of the next one. *)

From Stdlib Require Import ZArith Lia.
From stdpp Require Import base list strings.
From S2P Require Import Prelude Scan Nvram ShList HttpMatch HttpAuth.

Local Open Scope Z_scope.

Module HttpRequest.
Import Scan Nvram ShList HttpMatch HttpAuth.

(** ** Reading lines *)

(** The bytes up to and including the first newline, at most [n]. *)
Fixpoint line_of (n : nat) (stream : list Z) : list Z :=
  match n, stream with
  | S n', c :: stream' => if c =? 10 then [c] else c :: line_of n' stream'
  | _, _ => []
  end.

(** [fgets]: a buffer of one byte receives the empty string and nothing is read. The end of
    the stream ends it; the code asks again when [errno] is EINTR, also when that is left
    from an earlier call, and the model takes [errno] to be something else at the end. *)
Definition web_getline (max : Z) (stream : list Z) : option (list Z * list Z) :=
  if max <? 1 then None
  else if max =? 1 then Some ([], stream)
  else match stream with
       | [] => None
       | _ => let l := line_of (Z.to_nat (max - 1)) stream in Some (l, drop (length l) stream)
       end.

Definition is_blank_line (l : cstr) : bool := strcmp_eq l [10] || strcmp_eq l [13; 10].

(** The rest of the stream, the length left and whether the end of the header was
    found; [None] when the fuel runs out. *)
Fixpoint skip_header (fuel : nat) (len : Z) (stream : list Z) : option (list Z * Z * bool) :=
  match fuel with
  | O => None
  | S f =>
      if len <=? 0 then Some (stream, len, false)
      else match web_getline (Z.min len 2048) stream with
           | None => Some (stream, len, false)
           | Some (buf, stream) =>
               let buf := until_nul buf in
               let l := Z.min (Z.of_nat (length buf)) len in
               let len := len - l in
               if is_blank_line buf then Some (stream, len, true) else skip_header f len stream
           end
  end.

(** ** The header of a request *)

Definition LINE_SIZE : Z := 10000.

Record headers := mk_headers {
  authorization : option cstr; useragent : option cstr; boundary : option cstr; cl : Z;
  upgrade : option cstr; connection : option cstr; ws_key : option cstr; h_sess : session }.

Definition prefix_nocase (p s : cstr) : bool := prefix_of_str (map tolower p) (map tolower s).

(** The value behind the name of a header of [n] characters. *)
Definition header_value (n : nat) (l : cstr) : cstr :=
  let cp := drop n l in drop (strspn cp [32; 9]) cp.

Definition is_ws (c : Z) : bool := (c =? 32) || (c =? 9) || (c =? 13) || (c =? 10).

(** [STRIP_TRAILING_WS]: the first character stays. *)
Definition strip_trailing_ws (s : cstr) : cstr :=
  match s with
  | [] => []
  | c :: s' => c :: rev (skip_while is_ws (rev s'))
  end.

(** The length of the body, unless it is malformed. *)
Definition content_length (l : cstr) : option Z :=
  let cp := header_value 15 l in
  if (char_at cp 0 <? chr "0") || (chr "9" <? char_at cp 0) then None
  else
    let d := take_until (fun c => negb (isdigit c)) cp in
    let e := skip_while (fun c => (c =? 32) || (c =? 9)) (drop (length d) cp) in
    let v := dec_value 0 d in
    if (2 ^ 64 <=? v) || (2147483647 <? v)
       || (negb (char_at e 0 =? 0) && negb (char_at e 0 =? 13) && negb (char_at e 0 =? 10))
    then None else Some v.

Definition is_eol (c : Z) : bool := (c =? 13) || (c =? 10).

(** The boundary of a multipart body and the offset behind it in the line. *)
Definition boundary_of (l : cstr) : option (cstr * nat) :=
  match strstr l (bytes "boundary=") with
  | None => None
  | Some i =>
      let b := take_until is_eol (drop (i + 9) l) in
      Some (b, (i + 9 + length b + 1)%nat)
  end.

Inductive header_result :=
  | HeadersDone (h : headers) (stream : list Z)
  | HeadersBad.

(** What a header line changes: the headers and how far the buffer is filled;
    [None] for a malformed length. *)
Definition header_line (l : cstr) (h : headers) : option (headers * nat) :=
  let set_auth v := mk_headers v (useragent h) (boundary h) (cl h) (upgrade h) (connection h)
                      (ws_key h) (h_sess h) in
  if prefix_nocase (bytes "Authorization:") l then
    Some (set_auth (Some (header_value 14 l)), S (length l))
  else if prefix_nocase (bytes "User-Agent:") l then
    Some (mk_headers (authorization h) (Some (header_value 11 l)) (boundary h) (cl h) (upgrade h)
            (connection h) (ws_key h) (h_sess h), S (length l))
  else if prefix_nocase (bytes "Cookie:") l then
    Some (mk_headers (authorization h) (useragent h) (boundary h) (cl h) (upgrade h)
            (connection h) (ws_key h) (login_cookie_parse (h_sess h) (header_value 7 l)),
          S (length l))
  else if prefix_nocase (bytes "Content-Length:") l then
    match content_length l with
    | None => None
    | Some n =>
        Some (mk_headers (authorization h) (useragent h) (boundary h) n (upgrade h)
                (connection h) (ws_key h) (h_sess h), O)
    end
  else
    match (if prefix_nocase (bytes "Content-Type:") l then boundary_of l else None) with
    | Some (b, n) =>
        Some (mk_headers (authorization h) (useragent h) (Some b) (cl h) (upgrade h)
                (connection h) (ws_key h) (h_sess h), n)
    | None =>
        let stripped n := strip_trailing_ws (header_value n l) in
        let filled n := S (length l - length (header_value n l) + length (stripped n)) in
        if prefix_nocase (bytes "Upgrade:") l then
          Some (mk_headers (authorization h) (useragent h) (boundary h) (cl h) (Some (stripped 8%nat))
                  (connection h) (ws_key h) (h_sess h), filled 8%nat)
        else if prefix_nocase (bytes "Connection:") l then
          Some (mk_headers (authorization h) (useragent h) (boundary h) (cl h) (upgrade h)
                  (Some (stripped 11%nat)) (ws_key h) (h_sess h), filled 11%nat)
        else if prefix_nocase (bytes "Sec-WebSocket-Key:") l then
          Some (mk_headers (authorization h) (useragent h) (boundary h) (cl h) (upgrade h)
                  (connection h) (Some (stripped 18%nat)) (h_sess h), filled 18%nat)
        else Some (h, O)
    end.

(** The loop over the header lines; [cur] bytes of the buffer are in use. *)
Fixpoint header_loop (fuel : nat) (cur : Z) (stream : list Z) (h : headers) : option header_result :=
  match fuel with
  | O => None
  | S f =>
      match web_getline (LINE_SIZE - cur) stream with
      | None => Some (HeadersDone h stream)
      | Some (buf, stream) =>
          let l := until_nul buf in
          if is_blank_line l then Some (HeadersDone h stream)
          else match header_line l h with
               | None => Some HeadersBad
               | Some (h', n) => header_loop f (cur + Z.of_nat n) stream h'
               end
      end
  end.

(** ** The request line *)

(** [strsep] at a space followed by the skipping of further ones. *)
Definition next_field (s : cstr) : cstr * option cstr :=
  match strchr s 32 with
  | None => (s, None)
  | Some i => (take i s, Some (skip_while (fun c => c =? 32) (drop (S i) s)))
  end.

Inductive request_line :=
  | BadLine (code : Z)
  | GoodLine (post : bool) (file : cstr) (protocol : cstr).

(** [file] is the path without its first slash; [protocol] what follows it. *)
Definition parse_request_line (line : cstr) : request_line :=
  let '(method, rest) := next_field line in
  match rest with
  | None => BadLine 400
  | Some rest =>
      let '(path, protocol) := next_field rest in
      match protocol with
      | None => BadLine 400
      | Some protocol =>
          let post := strcmp_eq (map tolower method) (bytes "post") in
          if negb (strcmp_eq (map tolower method) (bytes "get")) && negb post then BadLine 501
          else if negb (char_at path 0 =? chr "/") then BadLine 400
          else GoodLine post (drop 1 path) protocol
      end
  end.

(** The file and the query behind the question mark. *)
Definition split_query (file : cstr) : cstr * option cstr :=
  match strchr file (chr "?") with
  | None => (file, None)
  | Some i => (take i file, Some (drop (S i) file))
  end.

(** The character at an offset of the memory the path is in: its end is where the
    question mark was, the query follows. *)
Definition path_mem (full : cstr) : list Z :=
  map (fun i => match strchr full (chr "?") with
                | Some q => if (i =? q)%nat then 0 else char_at full i
                | None => char_at full i
                end) (seq 0 (length full)).

(** The test for directory traversal. [len] is the length with the query; with less
    than three characters it reads the slash before the path, and is the test for
    two dots. *)
Definition bad_path (full file : cstr) : bool :=
  let len := length full in
  (char_at file 0 =? chr "/")
  || prefix_of_str (bytes "..") file
  || prefix_of_str (bytes "../") file
  || bool_decide (is_Some (strstr file (bytes "/../")))
  || (if (len <? 3)%nat then strcmp_eq file (bytes "..")
      else strcmp_eq (until_nul (drop (len - 3) (path_mem full))) (bytes "/..")).

Definition page_of (full file : cstr) : cstr :=
  if (char_at file 0 =? 0)
     || (char_at (path_mem full) (length full - 1) =? chr "/")
     || strcmp_eq file (bytes "index.asp")
  then bytes "status-overview.asp"
  else if strcmp_eq file (bytes "ext/") || strcmp_eq file (bytes "ext") then bytes "ext/index.asp"
  else file.

(** ** Handlers *)

Record handler := mk_handler {
  pattern : cstr; mime_type : option cstr; cache : Z; input : option cstr; output : option cstr;
  needs_auth : bool }.

Definition mime_html : cstr := bytes "text/html; charset=utf-8".
Definition mime_plain : cstr := bytes "text/plain".
Definition mime_javascript : cstr := bytes "text/javascript".
Definition mime_binary : cstr := bytes "application/tomato-binary-file".
Definition mime_octetstream : cstr := bytes "application/octet-stream".
Definition mime_json : cstr := bytes "application/json".

(** The pages of the server in the order they are tried, with those of every
    feature. The functions that read and write them are named. *)
Definition mime_handlers : list handler :=
  [mk_handler (bytes "api/v1/**") (Some mime_json) 0
     (Some (bytes "wi_generic_noid")) (Some (bytes "wo_api")) true;
   mk_handler (bytes "panel/screen.png") None 0
     (Some (bytes "wi_generic_noid")) (Some (bytes "wo_panel_screen")) true;
   mk_handler (bytes "panel/input.cgi") None 0
     (Some (bytes "wi_generic")) (Some (bytes "wo_panel_input")) true;
   mk_handler (bytes "update.cgi") (Some mime_javascript) 0
     (Some (bytes "wi_generic")) (Some (bytes "wo_update")) true;
   mk_handler (bytes "tomato.cgi") None 0
     (Some (bytes "wi_generic")) (Some (bytes "wo_tomato")) true;
   mk_handler (bytes "cfe/*.bin") (Some mime_binary) 0
     (Some (bytes "wi_generic")) (Some (bytes "wo_cfe")) true;
   mk_handler (bytes "nvram/*.txt") (Some mime_binary) 0
     (Some (bytes "wi_generic")) (Some (bytes "wo_nvram")) true;
   mk_handler (bytes "ipt/*.txt") (Some mime_binary) 0
     (Some (bytes "wi_generic")) (Some (bytes "wo_iptables")) true;
   mk_handler (bytes "ip6t/*.txt") (Some mime_binary) 0
     (Some (bytes "wi_generic")) (Some (bytes "wo_ip6tables")) true;
   mk_handler (bytes "cfg/*.cfg") None 0
     (Some (bytes "wi_generic")) (Some (bytes "wo_backup")) true;
   mk_handler (bytes "restore.cgi") (Some mime_html) 0
     (Some (bytes "wi_restore")) (Some (bytes "wo_restore")) true;
   mk_handler (bytes "defaults.cgi") (Some mime_html) 0
     (Some (bytes "wi_generic")) (Some (bytes "wo_defaults")) true;
   mk_handler (bytes "stats/*.gz") None 0
     (Some (bytes "wi_generic")) (Some (bytes "wo_statsbackup")) true;
   mk_handler (bytes "restorestats.cgi") None 0
     (Some (bytes "wi_statsrestore")) (Some (bytes "wo_statsrestore")) true;
   mk_handler (bytes "logs/view.cgi") None 0
     (Some (bytes "wi_generic")) (Some (bytes "wo_viewlog")) true;
   mk_handler (bytes "logs/*.txt") None 0
     (Some (bytes "wi_generic")) (Some (bytes "wo_syslog")) true;
   mk_handler (bytes "webmon_**") None 0
     (Some (bytes "wi_generic")) (Some (bytes "wo_syslog")) true;
   mk_handler (bytes "logout.asp") None 0
     (Some (bytes "wi_generic")) (Some (bytes "wo_asp")) true;
   mk_handler (bytes "clearcookies.asp") None 0
     (Some (bytes "wi_generic")) (Some (bytes "wo_asp")) true;
   mk_handler (bytes "**.asp") None 0
     (Some (bytes "wi_generic_noid")) (Some (bytes "wo_asp")) true;
   mk_handler (bytes "**.css") (Some (bytes "text/css")) 12
     (Some (bytes "wi_generic_noid")) (Some (bytes "do_file")) true;
   mk_handler (bytes "**.htm|**.html") (Some mime_html) 2
     (Some (bytes "wi_generic_noid")) (Some (bytes "do_file")) true;
   mk_handler (bytes "**.gif") (Some (bytes "image/gif")) 12
     (Some (bytes "wi_generic_noid")) (Some (bytes "do_file")) true;
   mk_handler (bytes "**.jpg") (Some (bytes "image/jpeg")) 12
     (Some (bytes "wi_generic_noid")) (Some (bytes "do_file")) true;
   mk_handler (bytes "**.png") (Some (bytes "image/png")) 12
     (Some (bytes "wi_generic_noid")) (Some (bytes "do_file")) true;
   mk_handler (bytes "**.js") (Some mime_javascript) 12
     (Some (bytes "wi_generic_noid")) (Some (bytes "do_file")) true;
   mk_handler (bytes "**.jsx") (Some mime_javascript) 0
     (Some (bytes "wi_generic")) (Some (bytes "wo_asp")) true;
   mk_handler (bytes "**.svg") (Some (bytes "image/svg+xml")) 0
     (Some (bytes "wi_generic_noid")) (Some (bytes "wo_asp")) true;
   mk_handler (bytes "**.txt") (Some mime_plain) 2
     (Some (bytes "wi_generic_noid")) (Some (bytes "do_file")) true;
   mk_handler (bytes "**.bin") (Some mime_binary) 0
     (Some (bytes "wi_generic_noid")) (Some (bytes "do_file")) true;
   mk_handler (bytes "**.bino") (Some mime_octetstream) 0
     (Some (bytes "wi_generic_noid")) (Some (bytes "do_file")) true;
   mk_handler (bytes "favicon.ico") (Some (bytes "image/x-icon")) 24
     (Some (bytes "wi_generic_noid")) (Some (bytes "do_file")) true;
   mk_handler (bytes "**/cgi-bin/**|**.sh") None 0
     (Some (bytes "wi_cgi_bin")) (Some (bytes "wo_cgi_bin")) true;
   mk_handler (bytes "**.tar|**.gz") (Some mime_binary) 0
     (Some (bytes "wi_generic_noid")) (Some (bytes "do_file")) true;
   mk_handler (bytes "shell.cgi") (Some mime_javascript) 0
     (Some (bytes "wi_generic")) (Some (bytes "wo_shell")) true;
   mk_handler (bytes "wpad.dat|proxy.pac") (Some (bytes "application/x-ns-proxy-autoconfig")) 0
     (Some (bytes "wi_generic_noid")) (Some (bytes "do_file")) false;
   mk_handler (bytes "webmon.cgi") (Some mime_javascript) 0
     (Some (bytes "wi_generic")) (Some (bytes "wo_webmon")) true;
   mk_handler (bytes "dhcpc.cgi") None 0
     (Some (bytes "wi_generic")) (Some (bytes "wo_dhcpc")) true;
   mk_handler (bytes "dhcpd.cgi") (Some mime_javascript) 0
     (Some (bytes "wi_generic")) (Some (bytes "wo_dhcpd")) true;
   mk_handler (bytes "nvcommit.cgi") None 0
     (Some (bytes "wi_generic")) (Some (bytes "wo_nvcommit")) true;
   mk_handler (bytes "updatelast.cgi") None 0
     (Some (bytes "wi_generic")) (Some (bytes "wo_updatelast")) true;
   mk_handler (bytes "ping.cgi") (Some mime_javascript) 0
     (Some (bytes "wi_generic")) (Some (bytes "wo_ping")) true;
   mk_handler (bytes "trace.cgi") (Some mime_javascript) 0
     (Some (bytes "wi_generic")) (Some (bytes "wo_trace")) true;
   mk_handler (bytes "upgrade.cgi") (Some mime_html) 0
     (Some (bytes "wi_upgrade")) (Some (bytes "wo_flash")) true;
   mk_handler (bytes "upnp.cgi") None 0
     (Some (bytes "wi_generic")) (Some (bytes "wo_upnp")) true;
   mk_handler (bytes "wakeup.cgi") None 0
     (Some (bytes "wi_generic")) (Some (bytes "wo_wakeup")) true;
   mk_handler (bytes "wlradio.cgi") None 0
     (Some (bytes "wi_generic")) (Some (bytes "wo_wlradio")) true;
   mk_handler (bytes "resolve.cgi") (Some mime_javascript) 0
     (Some (bytes "wi_generic")) (Some (bytes "wo_resolve")) true;
   mk_handler (bytes "expct.cgi") (Some mime_html) 0
     (Some (bytes "wi_generic")) (Some (bytes "wo_expct")) true;
   mk_handler (bytes "service.cgi") None 0
     (Some (bytes "wi_generic")) (Some (bytes "wo_service")) true;
   mk_handler (bytes "shutdown.cgi") (Some mime_html) 0
     (Some (bytes "wi_generic")) (Some (bytes "wo_shutdown")) true;
   mk_handler (bytes "vpnstatus.cgi") (Some mime_javascript) 0
     (Some (bytes "wi_generic")) (Some (bytes "wo_ovpn_status")) true;
   mk_handler (bytes "vpngenkey.cgi") (Some mime_javascript) 0
     (Some (bytes "wi_generic")) (Some (bytes "wo_ovpn_genkey")) true;
   mk_handler (bytes "vpn/ClientConfig.tgz") (Some mime_binary) 0
     (Some (bytes "wi_generic")) (Some (bytes "wo_ovpn_genclientconfig")) true;
   mk_handler (bytes "pptpd.cgi") (Some mime_javascript) 0
     (Some (bytes "wi_generic")) (Some (bytes "wo_pptpdcmd")) true;
   mk_handler (bytes "usbcmd.cgi") (Some mime_javascript) 0
     (Some (bytes "wi_generic")) (Some (bytes "wo_usbcommand")) true;
   mk_handler (bytes "wwansignal.cgi") (Some mime_html) 0
     (Some (bytes "wi_generic")) (Some (bytes "wo_wwansignal")) true;
   mk_handler (bytes "wwansms.cgi") (Some mime_html) 0
     (Some (bytes "wi_generic")) (Some (bytes "wo_wwansms")) true;
   mk_handler (bytes "wwansmsdelete.cgi") (Some mime_html) 0
     (Some (bytes "wi_generic")) (Some (bytes "wo_wwansms_delete")) true;
   mk_handler (bytes "iperfstatus.cgi") (Some mime_javascript) 0
     (Some (bytes "wi_generic")) (Some (bytes "wo_ttcpstatus")) true;
   mk_handler (bytes "iperfrun.cgi") (Some mime_javascript) 0
     (Some (bytes "wi_generic")) (Some (bytes "wo_ttcprun")) true;
   mk_handler (bytes "iperfkill.cgi") (Some mime_javascript) 0
     (Some (bytes "wi_generic")) (Some (bytes "wo_ttcpkill")) true;
   mk_handler (bytes "blackhole.cgi") None 0
     (Some (bytes "wi_blackhole")) None true;
   mk_handler (bytes "uploadsplash.cgi") None 0
     (Some (bytes "wi_uploadsplash")) (Some (bytes "wo_uploadsplash")) true;
   mk_handler (bytes "ext/uploadsplash.cgi") None 0
     (Some (bytes "wi_uploadsplash")) (Some (bytes "wo_uploadsplash")) true].

(** What the server does, in order. *)
Inductive event :=
  | EvError (code : Z)
  | EvAuthFail
  | EvQuery (query : cstr)
  | EvBackend (request : cstr)
  | EvConsole
  | EvWebsocket (path : cstr)
  | EvLogin
  | EvInput (h : handler) (file : cstr) (len : Z) (boundary : option cstr)
  | EvHeader (mime : cstr) (cache : Z)
  | EvOutput (h : handler) (file : cstr)
  | EvLogout.

(** The address of the client, whether a wireless client may use the pages, whether
    the console service answers and the proxy starts. *)
Class Web := {
  peer : cstr; check_wlaccess : bool; backend_ok : bool; proxy_ok : bool }.

Section Ops.
Context {nv : Nvram} {sys : System} {web : Web}.

(** *** The console *)

(** A route of the proxy and whether it needs authentication. *)
Definition ws_routes : list (cstr * bool) :=
  [(bytes "/console", true); (bytes "/console/ws", true); (bytes "/console/token", true)].

Definition ttyd_has_route (path : cstr) : option bool :=
  snd <$> List.find (fun r => strcmp_eq r.1 path) ws_routes.

Definition contains_nocase (s p : cstr) : bool :=
  bool_decide (is_Some (strstr (map tolower s) (map tolower p))).

Definition ttyd_is_websocket_upgrade (up conn : option cstr) : bool :=
  match up, conn with
  | Some up, Some conn => contains_nocase up (bytes "websocket") && contains_nocase conn (bytes "upgrade")
  | _, _ => false
  end.

(** The result, and the request sent to the console service. *)
Definition ttyd_handle_http_request (file : cstr) : Z * list event :=
  if negb (prefix_of_str (bytes "console") file) then (0, [])
  else
    let subpath := if (7 <? length file)%nat then drop 7 file else bytes "/" in
    let request := snprintf 512 (bytes "GET " ++ subpath ++ bytes " HTTP/1.0" ++ [13; 10]
                     ++ bytes "Host: localhost" ++ [13; 10; 13; 10]) in
    (if backend_ok then 1 else -1, [EvBackend request]).

(** *** Pages *)

(** The first handler whose pattern matches. *)
Fixpoint find_handler (handlers : list handler) (file : cstr) : option (option handler) :=
  match handlers with
  | [] => Some None
  | hd :: handlers' =>
      match http_match (pattern hd) file with
      | None => None
      | Some true => Some (Some hd)
      | Some false => find_handler handlers' file
      end
  end.

Definition serve (hd : handler) (file : cstr) (len : Z) (b : option cstr) : list event :=
  (match input hd with Some _ => [EvInput hd file len b] | None => [] end)
  ++ (match mime_type hd with Some m => [EvHeader m (cache hd)] | None => [] end)
  ++ (match output hd with Some _ => [EvOutput hd file] | None => [] end).

(** The part of [handle_request] behind the console: the state and the events. *)
Definition handle_page (handlers : list handler) (h : host) (file : cstr) (hs : headers)
  : option (host * list event) :=
  let '(h, auth) := auth_check h (authorization hs) in
  match auth with
  | AUTH_BAD => Some (h, [EvAuthFail])
  | _ =>
      match find_handler handlers file with
      | None => None
      | Some (Some hd) =>
          if needs_auth hd && negb match auth with AUTH_OK => true | _ => false end
          then Some (h, [EvAuthFail])
          else if needs_auth hd
               then Some (login_success_log_once h, EvLogin :: serve hd file (cl hs) (boundary hs))
               else Some (h, serve hd file (cl hs) (boundary hs))
      | Some None =>
          match auth with
          | AUTH_OK =>
              if strcmp_eq file (bytes "logout") then
                let h := login_session_remove h in
                Some (log h (LogoutOk (authinfo (sess h)) (client_addr (sess h)) (http_port (sess h))),
                      [EvLogout; EvError 404])
              else Some (h, [EvError 404])
          | _ => Some (h, [EvAuthFail])
          end
      end
  end.

(** Requests for the console: [None] when the request is another one. *)
Definition handle_console (h : host) (path file : cstr) (hs : headers)
  : option (host * list event) * list event :=
  match (if ttyd_is_websocket_upgrade (upgrade hs) (connection hs) then ttyd_has_route path else None) with
  | Some auth_required =>
      let '(h, ok) :=
        if auth_required then
          let '(h, a) := auth_check h (authorization hs) in
          (h, match a with AUTH_OK => true | _ => false end)
        else (h, true) in
      (Some (h, if negb ok then [EvAuthFail]
                else if negb check_wlaccess then [EvError 403]
                else if proxy_ok then [EvWebsocket path] else [EvWebsocket path; EvError 500]), [])
  | None =>
      let '(result, sent) := ttyd_handle_http_request file in
      if result =? 1 then
        let '(h, a) := auth_check h (authorization hs) in
        (Some (h, sent ++ match a with
                          | AUTH_OK => if negb check_wlaccess then [EvError 403] else [EvConsole]
                          | _ => [EvAuthFail]
                          end), [])
      else if result =? -1 then (Some (h, sent ++ [EvError 502]), [])
      else (None, sent)
  end.

Definition no_headers (s : session) : headers :=
  {| authorization := None; useragent := None; boundary := None; cl := 0; upgrade := None;
     connection := None; ws_key := None; h_sess := s |}.

(** [client_addr] is set once the headers are read. *)
Definition set_client (s : session) : session :=
  {| authinfo := authinfo s; client_addr := peer; http_port := http_port s; do_ssl := do_ssl s;
     login_cookie := login_cookie s; login_cookie_header := login_cookie_header s;
     login_cookie_seq := login_cookie_seq s |}.

(** The whole request; [None] when a loop runs out of its fuel. The buffer is filled
    up to the end of the protocol, which ends at the first space. *)
Definition handle_request (fuel : nat) (handlers : list handler) (h : host) (stream : list Z)
  : option (host * list event) :=
  let h := set_sess h (set_cookie_header (set_cookie (sess h) []) []) in
  match web_getline LINE_SIZE stream with
  | None => Some (h, [EvError 400])
  | Some (buf, stream) =>
      let line := until_nul buf in
      match parse_request_line line with
      | BadLine code => Some (h, [EvError code])
      | GoodLine post full protocol =>
          let '(file, query) := split_query full in
          let qs := match query with Some q => [EvQuery q] | None => [] end in
          if bad_path full file then Some (h, qs ++ [EvError 400])
          else
            let page := page_of full file in
            let cur := Z.of_nat (length line - length protocol
                                 + length (take_until (fun c => c =? 32) protocol) + 1) in
            match header_loop fuel cur stream (no_headers (sess h)) with
            | None => None
            | Some HeadersBad => Some (h, qs ++ [EvError 400])
            | Some (HeadersDone hs _) =>
                let h := set_sess h (set_client (h_sess hs)) in
                match handle_console h (chr "/" :: file) page hs with
                | (Some (h, evs), _) => Some (h, qs ++ evs)
                | (None, _) =>
                    match handle_page handlers h page hs with
                    | None => None
                    | Some (h, evs) => Some (h, qs ++ evs)
                    end
                end
            end
      end
  end.

End Ops.

End HttpRequest.
