(* ===== verification/HttpRequestSpec.v ===== *)
(** What the handling of requests guarantees: protected pages are served only with
    the password, small requests are always decided, and paths do not leave the
    directory of the pages; and where these do not hold. *)

From Stdlib Require Import ZArith Lia.
From stdpp Require Import base list strings.
From S2P Require Import Prelude Scan Base64 Nvram ShList HttpMatch HttpAuth HttpAuthSpec HttpRequest.

Local Open Scope Z_scope.

Module HttpRequestSpec.
Import Scan Nvram ShList HttpMatch HttpAuth HttpAuthSpec HttpRequest.

(** * Protected pages *)

Section Safety.
Context {nv : Nvram} {sys : System} {web : Web}.

(** What only the owner of the password may cause. *)
Definition privileged (ev : event) : Prop :=
  match ev with
  | EvInput hd _ _ _ | EvOutput hd _ => needs_auth hd = true
  | EvConsole | EvWebsocket _ | EvLogin | EvLogout => True
  | _ => False
  end.

(** The header carries the configured user and password. *)
Definition has_password (a : option cstr) : Prop :=
  exists encoded, a = Some (bytes "Basic " ++ encoded) /\
    until_nul (Base64.base64_decode encoded) = user ++ chr ":" :: password.

Lemma auth_ok_password h a : (auth_check h a).2 = AUTH_OK -> has_password a.
Proof. intros (e & He & _ & Hd & _)%auth_check_ok. by exists e. Qed.

Lemma serve_privileged hd file len b ev :
  ev ∈ serve hd file len b -> privileged ev -> needs_auth hd = true.
Proof.
  unfold serve. intros H Hp. rewrite !elem_of_app in H.
  destruct H as [H|[H|H]]; [destruct (input hd)|destruct (mime_type hd)|destruct (output hd)];
    try (by apply elem_of_nil in H); by apply list_elem_of_singleton in H as ->.
Qed.

Lemma handle_page_safe handlers h file hs h' evs ev :
  handle_page handlers h file hs = Some (h', evs) -> ev ∈ evs -> privileged ev ->
  has_password (authorization hs).
Proof.
  unfold handle_page. pose proof (auth_ok_password h (authorization hs)) as Hok.
  destruct (auth_check h (authorization hs)) as [h1 a]. cbn [snd] in Hok.
  destruct a; [| |by intros [= <- <-] ->%list_elem_of_singleton].
  2: { intros _ _ _. by apply Hok. }
  destruct (find_handler handlers file) as [[hd|]|]; [|by intros [= <- <-] ->%list_elem_of_singleton|done].
  destruct (needs_auth hd) eqn:En; cbn [andb negb]; [by intros [= <- <-] ->%list_elem_of_singleton|].
  intros [= <- <-] Hev Hp. apply serve_privileged in Hev; [congruence|done].
Qed.

Lemma ws_routes_protected path b : ttyd_has_route path = Some b -> b = true.
Proof.
  unfold ttyd_has_route. intros ((p & a) & Hf & ->)%fmap_Some. apply find_some in Hf as [Hin _].
  simpl in *. naive_solver.
Qed.

Lemma handle_console_safe h path file hs h' evs sent ev :
  handle_console h path file hs = (Some (h', evs), sent) -> ev ∈ evs -> privileged ev ->
  has_password (authorization hs).
Proof.
  unfold handle_console. pose proof (auth_ok_password h (authorization hs)) as Hok.
  destruct (if ttyd_is_websocket_upgrade _ _ then _ else _) as [b|] eqn:Er.
  - assert (b = true) as ->.
    { destruct (ttyd_is_websocket_upgrade _ _); [|done]. by eapply ws_routes_protected. }
    destruct (auth_check h (authorization hs)) as [h1 a]. cbn [snd] in Hok.
    destruct a; cbn [negb]; [by intros [= <- <- <-] ->%list_elem_of_singleton|by intros; apply Hok
      |by intros [= <- <- <-] ->%list_elem_of_singleton].
  - unfold ttyd_handle_http_request.
    destruct (prefix_of_str (bytes "console") file); cbn [negb]; [|cbn; intros [=]].
    destruct backend_ok.
    + change (1 =? 1) with true. cbv iota.
      destruct (auth_check h (authorization hs)) as [h1 a]. cbn [snd] in Hok.
      destruct a; [|by intros; apply Hok|];
        (intros [= <- <- <-]; cbn [app]; rewrite elem_of_cons, list_elem_of_singleton; by intros [->| ->]).
    + change (-1 =? 1) with false. change (-1 =? -1) with true. cbv iota.
      intros [= <- <- <-]. cbn [app]. rewrite elem_of_cons, list_elem_of_singleton. by intros [->| ->].
Qed.

(** The client has sent the password: behind the request line there is a header line with
    it among the bytes. *)
Definition sends_password (stream : list Z) : Prop :=
  exists before line after, stream = before ++ line ++ after /\ before <> [] /\
    prefix_nocase (bytes "Authorization:") (until_nul line) = true /\
    has_password (Some (header_value 14 (until_nul line))).

Lemma getline_split max stream buf rest : web_getline max stream = Some (buf, rest) -> stream = buf ++ rest.
Proof.
  unfold web_getline. destruct (max <? 1); [done|]. destruct (max =? 1); [by intros [= <- <-]|].
  destruct stream as [|c stream]; [done|]. set (s := c :: stream). intros [= <- <-].
  generalize (Z.to_nat (max - 1)). intros n. generalize s. clear. induction n as [|n IH]; intros [|c s]; try done.
  cbn [line_of]. destruct (c =? 10); [done|]. cbn [length drop app]. by f_equal.
Qed.

(** A header line sets the authorization to its own value or leaves it. *)
Lemma header_line_auth l h h' n : header_line l h = Some (h', n) ->
  authorization h' = authorization h \/
  prefix_nocase (bytes "Authorization:") l = true /\ authorization h' = Some (header_value 14 l).
Proof.
  unfold header_line. destruct (prefix_nocase (bytes "Authorization:") l); [intros [= <- _]; by right|].
  intros H. left. repeat (case_match; simplify_eq; try done).
Qed.

(** The authorization that the loop ends with is that of a line it has read. *)
Lemma header_loop_auth fuel : forall cur stream h h' rest,
  header_loop fuel cur stream h = Some (HeadersDone h' rest) ->
  authorization h' = authorization h \/
  exists before line after, stream = before ++ line ++ after /\
    prefix_nocase (bytes "Authorization:") (until_nul line) = true /\
    authorization h' = Some (header_value 14 (until_nul line)).
Proof.
  induction fuel as [|f IH]; intros cur stream h h' rest; [done|]. cbn [header_loop].
  destruct (web_getline (LINE_SIZE - cur) stream) as [[buf s1]|] eqn:Eg; [|intros [= <- _]; by left].
  apply getline_split in Eg as ->. destruct (is_blank_line _); [intros [= <- _]; by left|].
  destruct (header_line (until_nul buf) h) as [[h1 n]|] eqn:El; [|done]. intros Hl.
  destruct (IH _ _ _ _ _ Hl) as [E|(a & l & b & -> & Hp & E)].
  - rewrite E. destruct (header_line_auth _ _ _ _ El) as [->|[Hp ->]]; [by left|]. right. by exists [], buf, s1.
  - right. exists (buf ++ a), l, b. by rewrite <- app_assoc.
Qed.

(** C3: Whatever a client sends, a page that needs authentication is read or
    written, the console is shown or connected, and a login or logout is recorded
    only if one of the header lines among the bytes the client has sent is an
    Authorization header that carries the configured user and password. In the table
    of pages only the proxy configuration needs none. *)
Theorem protected_pages_need_password (fuel : nat) (handlers : list handler) (h h' : host)
    (stream : list Z) (evs : list event) (ev : event) :
  handle_request fuel handlers h stream = Some (h', evs) -> ev ∈ evs -> privileged ev ->
  sends_password stream /\
  forall hd, hd ∈ mime_handlers -> needs_auth hd = false -> pattern hd = bytes "wpad.dat|proxy.pac".
Proof.
  intros Hr Hev Hp. split.
  - unfold handle_request in Hr. cbv zeta in Hr.
    destruct (web_getline LINE_SIZE stream) as [[buf rest]|] eqn:Eg;
      [|injection Hr as <- <-; by apply list_elem_of_singleton in Hev as ->].
    destruct (parse_request_line (until_nul buf)) as [code|post full protocol] eqn:El;
      [injection Hr as <- <-; by apply list_elem_of_singleton in Hev as ->|].
    destruct (split_query full) as [file query].
    set (qs := match query with Some q => [EvQuery q] | None => [] end) in *.
    assert (Hqs : forall l, ev ∈ qs ++ l -> ev ∈ l).
    { intros l. rewrite elem_of_app. intros [H|H]; [|done]. subst qs. destruct query.
      - by apply list_elem_of_singleton in H as ->.
      - by apply elem_of_nil in H. }
    destruct (bad_path full file).
    { injection Hr as <- <-. apply Hqs in Hev. by apply list_elem_of_singleton in Hev as ->. }
    destruct (header_loop fuel _ rest _) as [[hs rest'|]|] eqn:Eh; [| |done].
    2: { injection Hr as <- <-. apply Hqs in Hev. by apply list_elem_of_singleton in Hev as ->. }
    assert (Hpw : has_password (authorization hs)).
    { destruct (handle_console _ _ _ hs) as [[[h1 evs1]|] sent] eqn:Ec.
      + injection Hr as <- <-. apply Hqs in Hev. by eapply handle_console_safe.
      + destruct (handle_page _ _ _ hs) as [[h1 evs1]|] eqn:Ep; [|done].
        injection Hr as <- <-. apply Hqs in Hev. by eapply handle_page_safe. }
    apply getline_split in Eg as ->. apply header_loop_auth in Eh as [E|(a & l & b & -> & Hl & E)].
    { rewrite E in Hpw. by destruct Hpw as (x & Hx & _). }
    exists (buf ++ a), l, b. rewrite <- app_assoc. split_and!; [done| |done|by rewrite <- E].
    destruct buf; [done|done].
  - assert (Hall : forallb (fun hd => needs_auth hd || strcmp_eq (pattern hd) (bytes "wpad.dat|proxy.pac"))
      mime_handlers = true) by (vm_compute; reflexivity).
    rewrite forallb_forall in Hall. intros hd Hin%list_elem_of_In%Hall Hn.
    rewrite Hn in Hin. by apply bool_decide_eq_true in Hin.
Qed.

(** The patterns of all pages are of the form the matcher decides. *)
Lemma handlers_simple :
  Forall (fun hd => Forall (fun a => simple a = true) (alternatives (pattern hd))) mime_handlers.
Proof.
  assert (Hall : forallb (fun hd => forallb simple (alternatives (pattern hd))) mime_handlers = true)
    by (vm_compute; reflexivity).
  apply Forall_forall. intros hd Hin. rewrite forallb_forall in Hall.
  apply list_elem_of_In, Hall in Hin. apply Forall_forall. intros a Ha.
  rewrite forallb_forall in Hin. by apply Hin, list_elem_of_In.
Qed.

(** The console service receives a request before the password is checked. *)
Lemma console_reached_without_password h hs h' evs sent :
  authorization hs = None -> upgrade hs = None -> backend_ok = true ->
  handle_console h (bytes "/console") (bytes "console") hs = (Some (h', evs), sent) ->
  exists request, evs = [EvBackend request; EvAuthFail].
Proof.
  intros Ha Hu Hb. unfold handle_console. rewrite Hu. cbn [ttyd_is_websocket_upgrade].
  unfold ttyd_handle_http_request. rewrite Hb, Ha. cbn -[snprintf bytes].
  intros [= <- <- <-]. eauto.
Qed.

End Safety.

(** * Termination *)

Lemma line_of_length n stream :
  (length (line_of n stream) <= length stream)%nat /\
  (stream <> [] -> n <> O -> (0 < length (line_of n stream))%nat).
Proof.
  revert stream. induction n as [|n IH]; intros stream; [destruct stream; simpl; split; (lia || done)|].
  destruct stream as [|c stream]; [done|]. cbn [line_of]. destruct (IH stream) as [H _].
  case_if; simpl; split; lia.
Qed.

Lemma web_getline_spec max stream buf rest :
  web_getline max stream = Some (buf, rest) -> 1 < max ->
  (0 < length buf)%nat /\ (length rest + length buf = length stream)%nat.
Proof.
  unfold web_getline. intros H Hm. rewrite (proj2 (Z.ltb_ge _ _)), (proj2 (Z.eqb_neq _ _)) in H by lia.
  destruct (line_of_length (Z.to_nat (max - 1)) stream) as [H1 H2].
  assert (E : Some (line_of (Z.to_nat (max - 1)) stream,
    drop (length (line_of (Z.to_nat (max - 1)) stream)) stream) = Some (buf, rest) /\ stream <> [])
    by (by destruct stream).
  destruct E as [[= <- <-] Hne]. rewrite length_drop. split; [apply H2; [done|lia]|lia].
Qed.

Lemma until_nul_length s : (length (until_nul s) <= length s)%nat.
Proof. induction s as [|c s IH]; simpl; [done|]. case_if; simpl; lia. Qed.

Lemma header_value_length n l : (length (header_value n l) <= length l)%nat.
Proof. unfold header_value. rewrite !length_drop. lia. Qed.

Lemma skip_while_length P s : (length (skip_while P s) <= length s)%nat.
Proof. induction s as [|c s IH]; simpl; [done|]. case_if; simpl; lia. Qed.

Lemma take_until_length P s : (length (take_until P s) <= length s)%nat.
Proof. induction s as [|c s IH]; simpl; [done|]. case_if; simpl; lia. Qed.

Lemma strip_length s : (length (strip_trailing_ws s) <= length s)%nat.
Proof.
  destruct s as [|c s]; [done|]. cbn [strip_trailing_ws length]. rewrite length_rev.
  pose proof (skip_while_length is_ws (rev s)). rewrite length_rev in *. lia.
Qed.

(** A header line uses at most one byte more than it has. *)
Lemma header_line_fill l h h' n : header_line l h = Some (h', n) -> (n <= S (length l))%nat.
Proof.
  unfold header_line.
  assert (Hf : forall k, (length l - length (header_value k l) + length (strip_trailing_ws (header_value k l))
    <= length l)%nat).
  { intros k. pose proof (header_value_length k l). pose proof (strip_length (header_value k l)). lia. }
  repeat (case_if; [intros [= <- <-]; lia|]). case_if.
  { destruct (content_length l); [|done]. intros [= <- <-]. lia. }
  destruct (if prefix_nocase (bytes "Content-Type:") l then boundary_of l else None) as [[b k]|] eqn:Eb.
  - intros [= <- <-]. destruct (prefix_nocase (bytes "Content-Type:") l); [|done].
    unfold boundary_of in Eb. destruct (strstr l _) as [i|] eqn:Ei; [|done]. injection Eb as <- <-.
    apply strstr_Some in Ei as ([k Hk]%prefix_of_str_spec & Hi & _).
    assert (length (drop i l) = length (bytes "boundary=" ++ k)) as Hl by by rewrite Hk.
    rewrite length_drop, length_app in Hl. change (length (bytes "boundary=")) with 9%nat in Hl.
    pose proof (take_until_length is_eol (drop (i + 9) l)) as Ht. rewrite length_drop in Ht. lia.
  - repeat (case_if; [intros [= <- <-]; specialize (Hf 8%nat) as H8; specialize (Hf 11%nat) as H11;
      specialize (Hf 18%nat) as H18; lia|]). intros [= <- <-]. lia.
Qed.

Section Answers.
Context {nv : Nvram} {sys : System} {web : Web}.

Lemma header_loop_total fuel cur stream h :
  (length stream < fuel)%nat -> cur + 2 * Z.of_nat (length stream) + 2 <= LINE_SIZE ->
  is_Some (header_loop fuel cur stream h).
Proof.
  revert cur stream h. induction fuel as [|f IH]; intros cur stream h Hf Hc; [lia|]. cbn [header_loop].
  destruct (web_getline (LINE_SIZE - cur) stream) as [[buf rest]|] eqn:Eg; [|eauto].
  apply web_getline_spec in Eg as [H1 H2]; [|lia]. case_if; [eauto|].
  destruct (header_line (until_nul buf) h) as [[h' n]|] eqn:El; [|eauto].
  apply header_line_fill in El. pose proof (until_nul_length buf). apply IH; lia.
Qed.

Lemma find_handler_total handlers file : is_Some (find_handler handlers file).
Proof.
  induction handlers as [|hd handlers IH]; [eauto|]. cbn [find_handler]. unfold http_match.
  rewrite match_loop_alternatives by lia. destruct (existsb _ _); eauto.
Qed.

Lemma handle_page_total handlers h file hs : is_Some (handle_page handlers h file hs).
Proof.
  unfold handle_page. destruct (auth_check h (authorization hs)) as [h1 a].
  destruct (find_handler_total handlers file) as [[hd|] E].
  - destruct a; rewrite ?E; [| |eauto]; destruct (needs_auth hd); cbn; eauto.
  - destruct a; rewrite ?E; cbn; try case_if; eauto.
Qed.

Lemma next_field_length s a b : next_field s = (a, Some b) -> (length b < length s)%nat.
Proof.
  unfold next_field. destruct (strchr s 32) as [i|] eqn:E; [|done]. intros [= <- <-].
  apply strchr_split in E as [E _]. pose proof (skip_while_length (fun c => c =? 32) (drop (S i) s)).
  apply (f_equal length) in E. rewrite length_app in E. cbn [length] in E. lia.
Qed.

Lemma request_line_length line post file protocol :
  parse_request_line line = GoodLine post file protocol -> (length protocol < length line)%nat.
Proof.
  unfold parse_request_line. destruct (next_field line) as [m [r|]] eqn:E1; [|done].
  destruct (next_field r) as [p [q|]] eqn:E2; [|done]. repeat (case_if; [done|]).
  intros [= <- <- <-]. apply next_field_length in E1, E2. lia.
Qed.

(** With one byte of the buffer left, lines of length zero are read for ever. *)
Lemma header_loop_hangs fuel rest hs : header_loop fuel (LINE_SIZE - 1) rest hs = None.
Proof.
  revert rest hs. induction fuel as [|f IH]; intros rest hs; [done|]. cbn [header_loop].
  replace (LINE_SIZE - (LINE_SIZE - 1)) with 1 by lia. cbn. apply IH.
Qed.

Lemma line_of_line l n rest :
  Forall (fun c => c <> 10) l -> (length l < n)%nat -> line_of n (l ++ 10 :: rest) = l ++ [10].
Proof.
  intros Hl. revert n. induction Hl as [|c l Hc Hl IH]; intros [|n] Hn; simpl in *; try lia; [done|].
  rewrite (proj2 (Z.eqb_neq _ _) Hc). by rewrite IH by lia.
Qed.

Lemma web_getline_line l max rest :
  Forall (fun c => c <> 10) l -> Z.of_nat (length l) + 1 < max ->
  web_getline max (l ++ 10 :: rest) = Some (l ++ [10], rest).
Proof.
  intros Hl Hm. unfold web_getline. rewrite (proj2 (Z.ltb_ge _ _)), (proj2 (Z.eqb_neq _ _)) by lia.
  destruct (l ++ 10 :: rest) as [|c s] eqn:E; [by destruct l|]. rewrite <- E.
  rewrite line_of_line by (done || lia). f_equal. f_equal.
  change (10 :: rest) with ([10] ++ rest). rewrite app_assoc. apply drop_app_length.
Qed.

(** A request with a user agent that leaves one byte of the buffer. *)
Definition long_agent : cstr := bytes "User-Agent: " ++ repeat 97 (Z.to_nat 9967) ++ [13].
Definition long_request : list Z := bytes "GET / HTTP/1.0" ++ [13; 10] ++ long_agent ++ [10].

Lemma long_request_hangs fuel handlers h rest :
  handle_request fuel handlers h (long_request ++ rest) = None.
Proof.
  assert (E1 : web_getline LINE_SIZE (long_request ++ rest)
    = Some (bytes "GET / HTTP/1.0" ++ [13; 10], long_agent ++ 10 :: rest)).
  { unfold long_request. rewrite <- !app_assoc.
    change (bytes "GET / HTTP/1.0" ++ [13; 10] ++ long_agent ++ [10] ++ rest)
      with ((bytes "GET / HTTP/1.0" ++ [13]) ++ 10 :: (long_agent ++ 10 :: rest)).
    rewrite web_getline_line; [done| |done]. repeat (constructor; [done|]). constructor. }
  unfold handle_request. cbv zeta. rewrite E1.
  change (parse_request_line (until_nul (bytes "GET / HTTP/1.0" ++ [13; 10])))
    with (GoodLine false [] (bytes "HTTP/1.0" ++ [13; 10])). cbv iota.
  change (split_query []) with (@nil Z, @None cstr). cbv iota.
  change (bad_path [] []) with false. cbv iota.
  match goal with |- context [header_loop fuel ?c _ ?h0] => change c with 17; set (hs := h0) end.
  destruct fuel as [|f]; [done|]. cbn [header_loop].
  assert (Hag : Forall (fun c => c <> 10) long_agent /\ length long_agent = Z.to_nat 9980 /\
    until_nul (long_agent ++ [10]) = long_agent ++ [10]).
  { split_and!; [|vm_compute; reflexivity|vm_compute; reflexivity].
    apply (Forall_impl (fun c => Is_true (negb (c =? 10)))).
    - apply forallb_True. vm_compute. done.
    - intros c Hc%Is_true_true%negb_true_iff%Z.eqb_neq. done. }
  destruct Hag as (Hag & Hlen & Hun).
  rewrite web_getline_line by (done || (rewrite Hlen; unfold LINE_SIZE; lia)). rewrite Hun.
  assert (Hb : is_blank_line (long_agent ++ [10]) = false) by (vm_compute; reflexivity).
  rewrite Hb. unfold header_line.
  assert (Ha : prefix_nocase (bytes "Authorization:") (long_agent ++ [10]) = false)
    by (vm_compute; reflexivity).
  assert (Hu : prefix_nocase (bytes "User-Agent:") (long_agent ++ [10]) = true)
    by (vm_compute; reflexivity).
  rewrite Ha, Hu, length_app, Hlen.
  change (17 + Z.of_nat (S (Z.to_nat 9980 + length [10]))) with (LINE_SIZE - 1).
  by rewrite header_loop_hangs.
Qed.

(** C38: A request of fewer than 4998 bytes, whose end is seen as such, is always decided: the loops over its lines,
    over the pages and over the patterns of a page end, and it is refused or handed to
    the functions of its page. (What these do with the body is their own: a multipart
    body can still keep [skip_header] busy for ever, see [skip_header_hangs].) But there
    is a request, with a header that fills the buffer up to its last byte, that no run of
    the server ever gets to the end of. *)
Theorem small_requests_decided (handlers : list handler) (h : host) (stream : list Z) :
  (Z.of_nat (length stream) < 4998 ->
   is_Some (handle_request (S (length stream)) handlers h stream)) /\
  (forall fuel rest, handle_request fuel handlers h (long_request ++ rest) = None).
Proof.
  split; [intros Hl|intros; apply long_request_hangs]. unfold handle_request. cbv zeta.
  destruct (web_getline LINE_SIZE stream) as [[buf rest]|] eqn:Eg; [|eauto].
  apply web_getline_spec in Eg as [H1 H2]; [|done].
  destruct (parse_request_line (until_nul buf)) as [code|post full protocol] eqn:Ep; [eauto|].
  apply request_line_length in Ep. pose proof (until_nul_length buf) as Hu.
  destruct (split_query full) as [file query]. case_if; [eauto|].
  pose proof (take_until_length (fun c => c =? 32) protocol) as Ht.
  match goal with |- context [header_loop ?f ?c ?r ?h0] =>
    destruct (header_loop_total f c r h0) as [[hs rest'|] ->] end;
    [lia|unfold LINE_SIZE; lia| |eauto].
  destruct (handle_console _ _ _ hs) as [[[h1 evs1]|] sent]; [eauto|].
  match goal with |- context [handle_page ?a ?b ?c ?d] =>
    destruct (handle_page_total a b c d) as [[h1 evs1] ->] end. eauto.
Qed.

End Answers.

(** A part of a multipart body whose header leaves one byte is skipped for ever. *)
Lemma skip_header_hangs fuel stream : skip_header fuel 1 stream = None.
Proof. induction fuel as [|f IH]; [done|]. cbn. exact IH. Qed.

(** * Paths *)

(** A path with a component that leads out of its directory. *)
Definition climbs (file : cstr) : Prop :=
  exists a b, file = a ++ bytes ".." ++ b /\
    (a = [] \/ exists a', a = a' ++ [chr "/"]) /\ (b = [] \/ exists b', b = chr "/" :: b').

Lemma path_mem_plain file : strchr file (chr "?") = None -> path_mem file = file.
Proof.
  intros H. unfold path_mem. rewrite H. apply list_eq. intros i.
  change (map ?f ?l) with (f <$> l). rewrite list_lookup_fmap.
  destruct (decide (i < length file)%nat) as [Hi|Hi].
  - rewrite lookup_seq_lt by done. simpl. unfold char_at. rewrite nth_lookup.
    by destruct (lookup_lt_is_Some_2 file i Hi) as [c ->].
  - rewrite (lookup_ge_None_2 file) by lia. rewrite lookup_seq_ge by lia. done.
Qed.

Lemma contains_middle a p b : is_Some (strstr (a ++ p ++ b) p).
Proof.
  destruct (strstr (a ++ p ++ b) p) as [i|] eqn:E; [eauto|]. exfalso.
  pose proof (strstr_None _ _ (length a) E) as H. rewrite drop_app_length in H.
  assert (prefix_of_str p (p ++ b) = true) by (apply prefix_of_str_spec; eauto). congruence.
Qed.

(** The path of a request without a query that passes the test has no
    component [..]. With a query the end of the path is not looked at, so that
    [ext/..] passes. *)
Theorem accepted_paths_stay_inside (file : cstr) :
  (Forall is_char file -> strchr file (chr "?") = None -> bad_path file file = false ->
   ~ climbs file) /\
  (bad_path (bytes "ext/..?a=1") (split_query (bytes "ext/..?a=1")).1 = false /\
   climbs (split_query (bytes "ext/..?a=1")).1).
Proof.
  split.
  - intros Hc Hq Hb (a & b & -> & Ha & Hbb). unfold bad_path in Hb. rewrite path_mem_plain in Hb by done.
    rewrite !orb_false_iff in Hb. destruct Hb as ((((_ & H1) & _) & H2) & H3).
    destruct Ha as [->|[a' ->]].
    { assert (prefix_of_str (bytes "..") ([] ++ bytes ".." ++ b) = true)
        by (apply prefix_of_str_spec; eauto). congruence. }
    destruct Hbb as [->|[b' ->]].
    + rewrite app_nil_r in *.
      assert (El : length ((a' ++ [chr "/"]) ++ bytes "..") = (length a' + 3)%nat)
        by (rewrite !length_app; simpl; lia).
      rewrite El in H3. rewrite (proj2 (Nat.ltb_ge _ _)) in H3 by lia.
      rewrite Nat.add_sub, <- app_assoc, drop_app_length in H3. done.
    + apply bool_decide_eq_false in H2. apply H2.
      replace ((a' ++ [chr "/"]) ++ bytes ".." ++ chr "/" :: b') with (a' ++ bytes "/../" ++ b')
        by by rewrite <- !app_assoc.
      apply contains_middle.
  - split; [vm_compute; reflexivity|]. exists (bytes "ext/"), []. split_and!; [done| |by left].
    right. by exists (bytes "ext").
Qed.

(** * Witnesses *)

Module Demo.

#[export] Instance demo_web : Web :=
  {| peer := bytes "192.168.1.2"; check_wlaccess := true; backend_ok := true; proxy_ok := true |}.

Definition demo_request : list Z :=
  bytes "GET /index.asp HTTP/1.1" ++ [13; 10]
    ++ bytes "Authorization: Basic cm9vdDpzM2NyZXQ=" ++ [13; 10] ++ [13; 10].

End Demo.
Import HttpAuthSpec.Demo Demo.

Lemma protected_pages_need_password_witness : sends_password demo_request.
Proof.
  destruct (handle_request 10 mime_handlers demo_host demo_request) as [[h' evs]|] eqn:E;
    [|vm_compute in E; discriminate E].
  refine (proj1 (protected_pages_need_password 10 mime_handlers demo_host h' demo_request evs EvLogin E _ I)).
  vm_compute in E. injection E as _ <-. left.
Defined.

Lemma small_requests_decided_witness :
  is_Some (handle_request (S (length demo_request)) mime_handlers demo_host demo_request).
Proof. apply (proj1 (small_requests_decided mime_handlers demo_host demo_request)). vm_compute. done. Defined.

Lemma accepted_paths_stay_inside_witness : ~ climbs (bytes "ext/a..b.asp").
Proof.
  apply (proj1 (accepted_paths_stay_inside (bytes "ext/a..b.asp"))).
  - solve_bytes.
  - done.
  - vm_compute. done.
Defined.

End HttpRequestSpec.
