(* ===== verification/BuildConfig.v ===== *)
(** Conditional compilation of the tables of the sources.

    The tables of default settings and of form fields are full of [#ifdef]. A table is
    modelled as the list of its entries, each with the condition under which the
    preprocessor keeps it; [expand] gives the table of one build. What is proved of
    a table for every build is decided on the conditions: two conditions of which no
    build satisfies both are recognised by [clash], from their disjunctive normal
    forms and from the fact that a build is for one device. *)

From Stdlib Require Import ZArith Lia.
From stdpp Require Import base list strings gmap.
From S2P Require Import Prelude.

Local Open Scope Z_scope.

Module BuildConfig.

(** ** Conditions *)

(** [Def f] is [defined(f)], [AtLeast k n] the comparison [k >= n]. *)
Inductive cond :=
  | Always
  | Def (f : string)
  | AtLeast (k : string) (n : Z)
  | Not (c : cond)
  | And (c d : cond)
  | Or (c d : cond).

(** A build: the macros it defines and the numbers it is configured with. *)
Class Config := { defined : string -> bool; count : string -> Z }.

Fixpoint holds {cfg : Config} (c : cond) : bool :=
  match c with
  | Always => true
  | Def f => defined f
  | AtLeast k n => n <=? count k
  | Not c => negb (holds c)
  | And c d => holds c && holds d
  | Or c d => holds c || holds d
  end.

(** ** Tables *)

Definition table (A : Type) : Type := list (cond * A).

Definition when {A} (c : cond) (t : table A) : table A := map (fun x => (And c x.1, x.2)) t.

Definition ifelse {A} (c : cond) (a b : table A) : table A := when c a ++ when (Not c) b.

Definition expand {A} {cfg : Config} (t : table A) : list A :=
  map snd (List.filter (fun x => holds x.1) t).

Section Expand.
Context {A : Type} {cfg : Config}.

Lemma expand_app (a b : table A) : expand (a ++ b) = expand a ++ expand b.
Proof. unfold expand. by rewrite List.filter_app, map_app. Qed.

Lemma expand_when c (t : table A) : expand (when c t) = if holds c then expand t else [].
Proof.
  unfold expand, when. induction t as [|[g x] t IH]; simpl; [by case_if|].
  destruct (holds c); simpl in *; [|done]. destruct (holds g); simpl; by rewrite IH.
Qed.

Lemma expand_ifelse c (a b : table A) :
  expand (ifelse c a b) = if holds c then expand a else expand b.
Proof.
  unfold ifelse. rewrite expand_app, !expand_when. simpl.
  destruct (holds c); simpl; [apply app_nil_r|done].
Qed.

Lemma elem_of_expand x (t : table A) :
  x ∈ expand t <-> exists g, (g, x) ∈ t /\ holds g = true.
Proof.
  rewrite list_elem_of_In. unfold expand. rewrite in_map_iff. split.
  - intros ([g y] & <- & H). apply filter_In in H as [Hin Hg]. exists g. by rewrite list_elem_of_In.
  - intros (g & Hin & Hg). exists (g, x). split; [done|]. apply filter_In.
    by rewrite <- list_elem_of_In.
Qed.

End Expand.

(** ** Conditions no build satisfies together *)

Inductive literal :=
  | LDef (f : string) (b : bool)
  | LAtLeast (k : string) (n : Z) (b : bool).

Definition lit_holds {cfg : Config} (l : literal) : bool :=
  match l with
  | LDef f b => eqb (defined f) b
  | LAtLeast k n b => eqb (n <=? count k) b
  end.

Definition product (a b : list (list literal)) : list (list literal) :=
  flat_map (fun x => map (fun y => x ++ y) b) a.

(** The alternatives under which [c] has the value [b], each a conjunction. *)
Fixpoint dnf (b : bool) (c : cond) : list (list literal) :=
  match c with
  | Always => if b then [[]] else []
  | Def f => [[LDef f b]]
  | AtLeast k n => [[LAtLeast k n b]]
  | Not c => dnf (negb b) c
  | And c d => if b then product (dnf b c) (dnf b d) else dnf b c ++ dnf b d
  | Or c d => if b then dnf b c ++ dnf b d else product (dnf b c) (dnf b d)
  end.

Definition conj_holds {cfg : Config} (x : list literal) : bool := forallb lit_holds x.

Definition disj_holds {cfg : Config} (d : list (list literal)) : bool := existsb conj_holds d.

Section Normal.
Context {cfg : Config}.

Lemma disj_holds_app a b : disj_holds (a ++ b) = disj_holds a || disj_holds b.
Proof. apply existsb_app. Qed.

Lemma disj_holds_product a b : disj_holds (product a b) = disj_holds a && disj_holds b.
Proof.
  unfold product. induction a as [|x a IH]; [done|]. simpl.
  rewrite disj_holds_app, IH. unfold disj_holds at 1.
  assert (H : existsb conj_holds (map (fun y => x ++ y) b) = conj_holds x && disj_holds b).
  { clear. induction b as [|y b IH]; simpl; [by rewrite andb_false_r|].
    rewrite IH. unfold conj_holds at 1. rewrite forallb_app. fold (conj_holds x) (conj_holds y).
    by destruct (conj_holds x), (conj_holds y). }
  rewrite H. simpl. by destruct (conj_holds x), (disj_holds a), (disj_holds b).
Qed.

Lemma dnf_spec b c : disj_holds (dnf b c) = eqb (holds c) b.
Proof.
  revert b. induction c as [|f|k n|c IH|c IHc d IHd|c IHc d IHd]; intros b; simpl.
  - by destruct b.
  - by rewrite andb_true_r, orb_false_r.
  - by rewrite andb_true_r, orb_false_r.
  - rewrite IH. by destruct (holds c), b.
  - destruct b; [rewrite disj_holds_product|rewrite disj_holds_app]; rewrite IHc, IHd;
      by destruct (holds c), (holds d).
  - destruct b; [rewrite disj_holds_app|rewrite disj_holds_product]; rewrite IHc, IHd;
      by destruct (holds c), (holds d).
Qed.

End Normal.

(** The devices a firmware can be built for; the makefiles define at most one of
    these macros. *)
Definition devices : list string :=
  ["TOMATO64_X86_64"; "TOMATO64_ARMSR"; "TOMATO64_MT6000"; "TOMATO64_MT3600BE";
   "TOMATO64_BE12PRO"; "TOMATO64_BE14000"; "TOMATO64_BPIR3"; "TOMATO64_BPIR3MINI";
   "TOMATO64_RPI4"; "TOMATO64_R6S"; "TOMATO64_R5S"; "TOMATO64_R76S"; "TOMATO64_BCM53XX"]%string.

Definition one_device (cfg : Config) : Prop :=
  forall d e, d ∈ devices -> e ∈ devices -> defined d = true -> defined e = true -> d = e.

Definition is_device (f : string) : bool := existsb (String.eqb f) devices.

Definition lit_clash (l m : literal) : bool :=
  match l, m with
  | LDef f b, LDef g c =>
      if String.eqb f g then negb (eqb b c) else b && c && is_device f && is_device g
  | LAtLeast k n b, LAtLeast j p c =>
      String.eqb k j && ((b && negb c && (p <=? n)) || (negb b && c && (n <=? p)))
  | _, _ => false
  end.

Fixpoint conj_clash (x : list literal) : bool :=
  match x with
  | [] => false
  | l :: x => existsb (lit_clash l) x || conj_clash x
  end.

Definition clash (g h : cond) : bool :=
  forallb (fun x => forallb (fun y => conj_clash (x ++ y)) (dnf true h)) (dnf true g).

Section Clash.
Context {cfg : Config} (Hone : one_device cfg).

Lemma is_device_spec f : is_device f = true <-> f ∈ devices.
Proof.
  unfold is_device. rewrite existsb_exists, list_elem_of_In. split.
  - intros (g & Hin & E). apply String.eqb_eq in E as ->. done.
  - intros Hin. exists f. by rewrite String.eqb_refl.
Qed.

Lemma lit_clash_sound l m : lit_clash l m = true -> lit_holds l = true -> lit_holds m = true -> False.
Proof.
  destruct l as [f b|k n b], m as [g c|j p c]; simpl; try done.
  - destruct (String.eqb_spec f g) as [->|Hne].
    + destruct (defined g), b, c; done.
    + intros H Hf Hg. apply andb_true_iff in H as [H Dg]. apply andb_true_iff in H as [H Df].
      destruct b, c; try done. destruct (defined f) eqn:Ef, (defined g) eqn:Eg; try done.
      apply Hne, Hone; [by apply is_device_spec|by apply is_device_spec|done|done].
  - destruct (String.eqb_spec k j) as [->|Hne]; [|done]. simpl. intros H Hb Hc.
    destruct (n <=? count j) eqn:En, (p <=? count j) eqn:Ep, b, c; simpl in *; try done; propify; lia.
Qed.

Lemma conj_clash_sound x : conj_clash x = true -> conj_holds x = true -> False.
Proof.
  induction x as [|l x IH]; simpl; [done|]. intros H Hx. apply andb_true_iff in Hx as [Hl Hx].
  apply orb_true_iff in H as [H|H]; [|by apply IH].
  apply existsb_exists in H as (m & Hin & Hm). unfold conj_holds in Hx.
  rewrite forallb_forall in Hx. by apply (lit_clash_sound l m); [| |apply Hx].
Qed.

Lemma clash_sound g h : clash g h = true -> holds g = true -> holds h = true -> False.
Proof.
  intros H Hg Hh.
  assert (Eg : disj_holds (dnf true g) = true) by by rewrite dnf_spec, Hg.
  assert (Eh : disj_holds (dnf true h) = true) by by rewrite dnf_spec, Hh.
  apply existsb_exists in Eg as (x & Hx & Ex). apply existsb_exists in Eh as (y & Hy & Ey).
  unfold clash in H. rewrite forallb_forall in H. specialize (H x Hx).
  rewrite forallb_forall in H. specialize (H y Hy). apply conj_clash_sound in H; [done|].
  unfold conj_holds in *. by rewrite forallb_app, Ex, Ey.
Qed.

End Clash.

(** ** Entries with the same name *)

(** Whether no build keeps two entries of the same name, the names of [except]
    apart; [seen] holds the conditions of the earlier entries of each name. *)
Fixpoint unique_loop {A} (except : list string) (t : table (string * A))
  (seen : gmap string (list cond)) : bool :=
  match t with
  | [] => true
  | (g, (n, _)) :: t =>
      if existsb (String.eqb n) except then unique_loop except t seen
      else
        let gs := default [] (seen !! n) in
        forallb (clash g) gs && unique_loop except t (<[n := g :: gs]> seen)
  end.

Definition unique_names {A} (except : list string) (t : table (string * A)) : bool :=
  unique_loop except t ∅.

(** The names of a table that are not excepted. *)
Definition names_but {A} (except : list string) (l : list (string * A)) : list string :=
  List.filter (fun n => negb (existsb (String.eqb n) except)) (map fst l).

Lemma unique_loop_sound {A} {cfg : Config} except (t : table (string * A)) seen :
  one_device cfg -> unique_loop except t seen = true ->
  NoDup (names_but except (expand t)) /\
  (forall n g gs, seen !! n = Some gs -> g ∈ gs -> holds g = true ->
     n ∉ names_but except (expand t)).
Proof.
  intros Hone. revert seen. induction t as [|[g [n v]] t IH]; intros seen H.
  { split; [constructor|set_solver]. }
  cbn [unique_loop] in H. unfold expand, names_but. cbn [List.filter fst].
  destruct (existsb (String.eqb n) except) eqn:Ee.
  { apply IH in H. destruct (holds g); [|done].
    cbn [map fst snd List.filter]. rewrite Ee. simpl. done. }
  apply andb_true_iff in H as [Hc H]. apply IH in H as [Hnd Hseen]. clear IH.
  rewrite forallb_forall in Hc.
  assert (Hold : forall m h gs, seen !! m = Some gs -> h ∈ gs -> holds h = true ->
    m ∉ names_but except (expand t)).
  { intros m h gs Hm Hh Hhold. destruct (decide (m = n)) as [->|Hne].
    - eapply Hseen; [apply lookup_insert_eq| |exact Hhold]. rewrite Hm. simpl. by right.
    - eapply Hseen; [by rewrite lookup_insert_ne| |]; done. }
  destruct (holds g) eqn:Eg; [|by split; [|exact Hold]].
  cbn [map fst snd List.filter]. rewrite Ee. simpl.
  change (map fst (map snd (List.filter (fun x : cond * (string * A) => holds x.1) t)))
    with (map fst (expand t)). fold (names_but except (expand t)).
  split.
  - constructor; [|exact Hnd]. eapply Hseen; [apply lookup_insert_eq|by left|done].
  - intros m h gs Hm Hh Hhold Hin. apply elem_of_cons in Hin as [->|Hin].
    + rewrite Hm in Hc. simpl in Hc. apply (clash_sound Hone g h); [|done|done].
      apply Hc. by apply list_elem_of_In.
    + by apply (Hold m h gs).
Qed.

Lemma unique_names_sound {A} {cfg : Config} except (t : table (string * A)) :
  one_device cfg -> unique_names except t = true -> NoDup (names_but except (expand t)).
Proof. intros Hone H. by apply unique_loop_sound in H as [H _]. Qed.

End BuildConfig.
