(* ===== verification/DefaultsTable.v ===== *)
(** The default settings (src/tomato64/package/libshared/shared/defaults.c), entry
    by entry: [E name value], and [Null name] where the source has a null pointer.
    The macros that the source expands for every WAN, bridge, radio and tunnel are
    functions of the number they are expanded with. *)

From Stdlib Require Import ZArith.
From stdpp Require Import base list strings.
From S2P Require Import Prelude BuildConfig.

Local Open Scope Z_scope.

Module DefaultsTable.
Import BuildConfig.

Definition E (name value : string) : cond * (string * option string) :=
  (Always, (name, Some value)).
Definition Null (name : string) : cond * (string * option string) := (Always, (name, None)).

(** A newline and a quote inside a value. *)
Definition nl : string := String (Ascii.ascii_of_nat 10) EmptyString.
Definition dq : string := String (Ascii.ascii_of_nat 34) EmptyString.

(** What a pasted macro name stands for. *)
Definition pick (l : list (string * string)) (i : string) : string :=
  match List.find (fun x => String.eqb x.1 i) l with Some x => x.2 | None => EmptyString end.

(** ** The tables of the optional services *)

Definition rstats_defaults : table (string * option string) :=
  [E "rstats_path" EmptyString;
   E "rstats_stime" "48";
   E "rstats_offset" "1";
   E "rstats_data" EmptyString;
   E "rstats_exclude" EmptyString;
   E "rstats_sshut" "1";
   E "rstats_bak" "0"].

Definition cstats_defaults : table (string * option string) :=
  [E "cstats_path" EmptyString;
   E "cstats_stime" "48";
   E "cstats_offset" "1";
   E "cstats_labels" "0";
   E "cstats_exclude" EmptyString;
   E "cstats_include" EmptyString;
   E "cstats_all" "1";
   E "cstats_sshut" "1";
   E "cstats_bak" "0"].

Definition ftp_defaults : table (string * option string) :=
  [E "ftp_super" "0";
   E "ftp_anonymous" "0";
   E "ftp_dirlist" "0";
   E "ftp_port" "21";
   E "ftp_max" "0";
   E "ftp_ipmax" "0";
   E "ftp_staytimeout" "300";
   E "ftp_rate" "0";
   E "ftp_anonrate" "0";
   E "ftp_anonroot" EmptyString;
   E "ftp_pubroot" EmptyString;
   E "ftp_pvtroot" EmptyString;
   E "ftp_users" EmptyString;
   E "ftp_custom" EmptyString;
   E "ftp_sip" EmptyString;
   E "ftp_limit" "0,3,60";
   E "ftp_tls" "0";
   E "log_ftp" "0"].

Definition snmp_defaults : table (string * option string) :=
  [E "snmp_port" "161";
   E "snmp_remote" "0";
   E "snmp_remote_sip" EmptyString;
   E "snmp_location" EmptyString;
   E "snmp_contact" EmptyString;
   E "snmp_ro" EmptyString;
   E "snmp_name" EmptyString;
   E "snmp_descr" EmptyString].

Definition BRIDGE_BLOCK_UPNP (i : string) : table (string * option string) :=
  [E ("upnp_lan" +:+ i) EmptyString].

Definition upnp_defaults : table (string * option string) :=
  [E "upnp_secure" "1";
   E "upnp_port" "0";
   E "upnp_ssdp_interval" "900";
   E "upnp_custom" EmptyString;
   E "upnp_lan" EmptyString]
  ++ when (AtLeast "BRIDGE_COUNT" 2)
       (BRIDGE_BLOCK_UPNP "1")
  ++ when (AtLeast "BRIDGE_COUNT" 3)
       (BRIDGE_BLOCK_UPNP "2")
  ++ when (AtLeast "BRIDGE_COUNT" 4)
       (BRIDGE_BLOCK_UPNP "3")
  ++ when (AtLeast "BRIDGE_COUNT" 5)
       (BRIDGE_BLOCK_UPNP "4")
  ++ when (AtLeast "BRIDGE_COUNT" 6)
       (BRIDGE_BLOCK_UPNP "5")
  ++ when (AtLeast "BRIDGE_COUNT" 7)
       (BRIDGE_BLOCK_UPNP "6")
  ++ when (AtLeast "BRIDGE_COUNT" 8)
       (BRIDGE_BLOCK_UPNP "7")
  ++ when (AtLeast "BRIDGE_COUNT" 9)
       (BRIDGE_BLOCK_UPNP "8")
  ++ when (AtLeast "BRIDGE_COUNT" 10)
       (BRIDGE_BLOCK_UPNP "9")
  ++ when (AtLeast "BRIDGE_COUNT" 11)
       (BRIDGE_BLOCK_UPNP "10")
  ++ when (AtLeast "BRIDGE_COUNT" 12)
       (BRIDGE_BLOCK_UPNP "11")
  ++ when (AtLeast "BRIDGE_COUNT" 13)
       (BRIDGE_BLOCK_UPNP "12")
  ++ when (AtLeast "BRIDGE_COUNT" 14)
       (BRIDGE_BLOCK_UPNP "13")
  ++ when (AtLeast "BRIDGE_COUNT" 15)
       (BRIDGE_BLOCK_UPNP "14")
  ++ when (AtLeast "BRIDGE_COUNT" 16)
       (BRIDGE_BLOCK_UPNP "15").

Definition bsd_defaults : table (string * option string) :=
  [E "bsd_role" "3";
   E "bsd_hport" "9877";
   E "bsd_pport" "9878";
   E "bsd_helper" "192.168.1.232";
   E "bsd_primary" "192.168.1.231"]
  ++ ifelse (Def "TCONFIG_AC3200")
       (ifelse (Def "TCONFIG_AC5300")
          [E "bsd_ifnames" "eth1 eth2 eth3"]
          [E "bsd_ifnames" "eth2 eth1 eth3"]
        ++ [E "wl0_bsd_steering_policy" "0 5 3 -52 0 110 0x22";
            E "wl1_bsd_steering_policy" "80 5 3 -82 0 0 0x20";
            E "wl2_bsd_steering_policy" "0 5 3 -82 0 0 0x28";
            E "wl0_bsd_sta_select_policy" "10 -52 0 110 0 1 1 0 0 0 0x122";
            E "wl1_bsd_sta_select_policy" "10 -82 0 0 0 1 1 0 0 0 0x24";
            E "wl2_bsd_sta_select_policy" "10 -82 0 0 0 1 1 0 0 0 0x28"]
        ++ ifelse (Def "TCONFIG_AC5300")
             ([E "wl0_bsd_if_select_policy" "eth3 eth2";
               E "wl1_bsd_if_select_policy" "eth1 eth3";
               E "wl2_bsd_if_select_policy" "eth1 eth2"])
             ([E "wl0_bsd_if_select_policy" "eth3 eth1";
               E "wl1_bsd_if_select_policy" "eth2 eth3";
               E "wl2_bsd_if_select_policy" "eth2 eth1"])
        ++ [E "wl0_bsd_if_qualify_policy" "0 0x0";
            E "wl1_bsd_if_qualify_policy" "60 0x0";
            E "wl2_bsd_if_qualify_policy" "0 0x4";
            E "bsd_bounce_detect" "180 2 3600";
            E "bsd_aclist_timeout" "3"])
       ([E "bsd_ifnames" "eth1 eth2";
         E "wl0_bsd_steering_policy" "0 5 3 -52 0 110 0x22";
         E "wl1_bsd_steering_policy" "80 5 3 -82 0 0 0x20";
         E "wl0_bsd_sta_select_policy" "10 -52 0 110 0 1 1 0 0 0 0x122";
         E "wl1_bsd_sta_select_policy" "10 -82 0 0 0 1 1 0 0 0 0x20";
         E "wl0_bsd_if_select_policy" "eth2";
         E "wl1_bsd_if_select_policy" "eth1";
         E "wl0_bsd_if_qualify_policy" "0 0x0";
         E "wl1_bsd_if_qualify_policy" "60 0x0";
         E "bsd_bounce_detect" "180 2 3600";
         E "bsd_aclist_timeout" "3"])
  ++ [E "bsd_scheme" "2"].

(** ** Blocks for every WAN, bridge, radio and tunnel *)

Definition WAN_BLOCK_CORE (i : string) : table (string * option string) :=
  [E ("wan" +:+ i +:+ "_proto") "disabled";
   E ("wan" +:+ i +:+ "_weight") "1";
   E ("wan" +:+ i +:+ "_ipaddr") "0.0.0.0";
   E ("wan" +:+ i +:+ "_netmask") "0.0.0.0";
   E ("wan" +:+ i +:+ "_gateway") "0.0.0.0";
   E ("wan" +:+ i +:+ "_hwname") EmptyString;
   E ("wan" +:+ i +:+ "_hwaddr") EmptyString;
   E ("wan" +:+ i +:+ "_iface") EmptyString;
   E ("wan" +:+ i +:+ "_ifname") EmptyString;
   E ("wan" +:+ i +:+ "_l2tp_server_ip") EmptyString;
   E ("wan" +:+ i +:+ "_pptp_server_ip") EmptyString;
   E ("wan" +:+ i +:+ "_pptp_dhcp") "0";
   E ("wan" +:+ i +:+ "_ppp_username") EmptyString;
   E ("wan" +:+ i +:+ "_ppp_passwd") EmptyString;
   E ("wan" +:+ i +:+ "_ppp_service") EmptyString;
   E ("wan" +:+ i +:+ "_ppp_demand") "0";
   E ("wan" +:+ i +:+ "_ppp_demand_dnsip") "198.51.100.1";
   E ("wan" +:+ i +:+ "_ppp_custom") EmptyString;
   E ("wan" +:+ i +:+ "_ppp_idletime") "5";
   E ("wan" +:+ i +:+ "_ppp_redialperiod") "20";
   E ("wan" +:+ i +:+ "_mtu_enable") "0";
   E ("wan" +:+ i +:+ "_mtu") "1500";
   E ("wan" +:+ i +:+ "_modem_ipaddr") "0.0.0.0";
   E ("wan" +:+ i +:+ "_pppoe_lei") "10";
   E ("wan" +:+ i +:+ "_pppoe_lef") "5";
   E ("wan" +:+ i +:+ "_dns") EmptyString;
   E ("wan" +:+ i +:+ "_dns_auto") "1";
   E ("wan" +:+ i +:+ "_addget") "0";
   E ("wan" +:+ i +:+ "_ckmtd") "2";
   E ("wan" +:+ i +:+ "_ck_pause") "0";
   E ("wan" +:+ i +:+ "_mac") EmptyString;
   E ("wan" +:+ i +:+ "_qos_obw") "700";
   E ("wan" +:+ i +:+ "_qos_ibw") "16000";
   E ("wan" +:+ i +:+ "_qos_overhead") "0";
   E ("wan" +:+ i +:+ "_ifnameX_vlan") EmptyString;
   Null ("wan" +:+ i +:+ "_ifnameX")].

Definition WAN_BLOCK_BCMARM (i : string) : table (string * option string) :=
  when (Def "TCONFIG_BCMARM")
    [E ("wan" +:+ i +:+ "_qos_encap") "0"].

Definition WAN_BLOCK_USB (i : string) : table (string * option string) :=
  when (Def "TCONFIG_USB")
    ([E ("wan" +:+ i +:+ "_modem_pin") EmptyString;
      E ("wan" +:+ i +:+ "_modem_dev") EmptyString;
      E ("wan" +:+ i +:+ "_modem_init") "*99#";
      E ("wan" +:+ i +:+ "_modem_apn") "internet";
      E ("wan" +:+ i +:+ "_modem_speed") "00";
      E ("wan" +:+ i +:+ "_modem_band") "7FFFFFFFFFFFFFFF";
      E ("wan" +:+ i +:+ "_modem_roam") "2";
      E ("wan" +:+ i +:+ "_modem_type") EmptyString;
      E ("wan" +:+ i +:+ "_hilink_ip") "0.0.0.0";
      E ("wan" +:+ i +:+ "_status_script") "0"]).

Definition WAN_BLOCK_ZEBRA (i : string) : table (string * option string) :=
  when (Def "TCONFIG_ZEBRA")
    ([E ("dr_wan" +:+ i +:+ "_tx") "0";
      E ("dr_wan" +:+ i +:+ "_rx") "0"]).

Definition WAN_BLOCK_EXTRA (i : string) : table (string * option string) :=
  when (Not (Def "TCONFIG_OPTIMIZE_SIZE_MORE"))
    [E ("wan" +:+ i +:+ "_ppp_mlppp") "0"].

Definition WAN_BLOCK (i : string) : table (string * option string) :=
  WAN_BLOCK_CORE i
  ++ WAN_BLOCK_BCMARM i
  ++ WAN_BLOCK_USB i
  ++ WAN_BLOCK_ZEBRA i
  ++ WAN_BLOCK_EXTRA i.

Definition BRIDGE_BLOCK_CORE (i : string) : table (string * option string) :=
  [E ("lan" +:+ i +:+ "_ipaddr") EmptyString;
   E ("lan" +:+ i +:+ "_netmask") EmptyString;
   E ("lan" +:+ i +:+ "_stp") "0";
   E ("lan" +:+ i +:+ "_ifnames_vlan") EmptyString;
   E ("dhcpd" +:+ i +:+ "_startip") EmptyString;
   E ("dhcpd" +:+ i +:+ "_endip") EmptyString;
   E ("dhcpd" +:+ i +:+ "_ostatic") "0";
   E ("dhcp" +:+ i +:+ "_lease") "1440";
   E ("bwl_lan" +:+ i +:+ "_enable") "0";
   E ("bwl_lan" +:+ i +:+ "_dlc") EmptyString;
   E ("bwl_lan" +:+ i +:+ "_ulc") EmptyString;
   E ("bwl_lan" +:+ i +:+ "_dlr") EmptyString;
   E ("bwl_lan" +:+ i +:+ "_ulr") EmptyString;
   E ("bwl_lan" +:+ i +:+ "_prio") "2"].

Definition BRIDGE_BLOCK_PROXY (i : string) : table (string * option string) :=
  when (Def "TCONFIG_PROXY")
    ([E ("multicast_lan" +:+ i) "0";
      E ("udpxy_lan" +:+ i) "0"]).

Definition BRIDGE_BLOCK_ZEBRA (i : string) : table (string * option string) :=
  when (Def "TCONFIG_ZEBRA")
    ([E ("dr_lan" +:+ i +:+ "_tx") "0";
      E ("dr_lan" +:+ i +:+ "_rx") "0"]).

Definition BRIDGE_BLOCK_USB_EXTRAS (i : string) : table (string * option string) :=
  when (Def "TCONFIG_USB_EXTRAS")
    [E ("dnsmasq_pxelan" +:+ i) "0"].

Definition BRIDGE_BLOCK (i : string) : table (string * option string) :=
  BRIDGE_BLOCK_CORE i
  ++ BRIDGE_BLOCK_PROXY i
  ++ BRIDGE_BLOCK_ZEBRA i
  ++ BRIDGE_BLOCK_USB_EXTRAS i.

Definition WIFI_DEFAULT_MODE (name : string) : table (string * option string) :=
  ifelse (Or (Or (Def "TOMATO64_MT3600BE") (Def "TOMATO64_BE12PRO")) (Def "TOMATO64_BE14000"))
    [E name "be"] [E name "ax"].

Definition WIFI_DEF_PHY_BLOCK (p : string) (band : string) (width : string) : table (string * option string) :=
  [E ("wifi_phy" +:+ p +:+ "_band") band]
  ++ WIFI_DEFAULT_MODE ("wifi_phy" +:+ p +:+ "_mode")
  ++ [E ("wifi_phy" +:+ p +:+ "_channel") "auto";
      E ("wifi_phy" +:+ p +:+ "_width") width;
      E ("wifi_phy" +:+ p +:+ "_brates") EmptyString;
      E ("wifi_phy" +:+ p +:+ "_cell_density") "0";
      E ("wifi_phy" +:+ p +:+ "_noscan") EmptyString;
      E ("wifi_phy" +:+ p +:+ "_power") EmptyString;
      E ("wifi_phy" +:+ p +:+ "_country") EmptyString;
      E ("wifi_phy" +:+ p +:+ "_ifaces") "1";
      E ("wifi_phy" +:+ p +:+ "_custom") EmptyString].

Definition WIFI_DEF_IFACE_BLOCK (p : string) (i : string) : table (string * option string) :=
  [E ("wifi_phy" +:+ p +:+ "iface" +:+ i +:+ "_enable") "0";
   E ("wifi_phy" +:+ p +:+ "iface" +:+ i +:+ "_mode") "ap";
   E ("wifi_phy" +:+ p +:+ "iface" +:+ i +:+ "_essid") EmptyString;
   E ("wifi_phy" +:+ p +:+ "iface" +:+ i +:+ "_bssid") EmptyString;
   E ("wifi_phy" +:+ p +:+ "iface" +:+ i +:+ "_network") "br0";
   E ("wifi_phy" +:+ p +:+ "iface" +:+ i +:+ "_hidden") EmptyString;
   E ("wifi_phy" +:+ p +:+ "iface" +:+ i +:+ "_wmm") "1";
   E ("wifi_phy" +:+ p +:+ "iface" +:+ i +:+ "_uapsd") "1";
   E ("wifi_phy" +:+ p +:+ "iface" +:+ i +:+ "_encryption") "none";
   E ("wifi_phy" +:+ p +:+ "iface" +:+ i +:+ "_cipher") "auto";
   E ("wifi_phy" +:+ p +:+ "iface" +:+ i +:+ "_key") EmptyString;
   E ("wifi_phy" +:+ p +:+ "iface" +:+ i +:+ "_isolate") EmptyString;
   E ("wifi_phy" +:+ p +:+ "iface" +:+ i +:+ "_br_isolate") EmptyString;
   E ("wifi_phy" +:+ p +:+ "iface" +:+ i +:+ "_ifname") EmptyString;
   E ("wifi_phy" +:+ p +:+ "iface" +:+ i +:+ "_macfilter") EmptyString;
   E ("wifi_phy" +:+ p +:+ "iface" +:+ i +:+ "_maclist") EmptyString;
   E ("wifi_phy" +:+ p +:+ "iface" +:+ i +:+ "_custom") EmptyString;
   E ("wifi_phy" +:+ p +:+ "iface" +:+ i +:+ "_mesh_fwding") "1";
   E ("wifi_phy" +:+ p +:+ "iface" +:+ i +:+ "_mesh_rssi_threshold") "0";
   E ("wifi_phy" +:+ p +:+ "iface" +:+ i +:+ "_ieee80211r") "0";
   E ("wifi_phy" +:+ p +:+ "iface" +:+ i +:+ "_nasid") EmptyString;
   E ("wifi_phy" +:+ p +:+ "iface" +:+ i +:+ "_mobility_domain") EmptyString;
   E ("wifi_phy" +:+ p +:+ "iface" +:+ i +:+ "_reassociation_deadline") EmptyString;
   E ("wifi_phy" +:+ p +:+ "iface" +:+ i +:+ "_ft_over_ds") "0";
   E ("wifi_phy" +:+ p +:+ "iface" +:+ i +:+ "_ft_psk_generate_local") "1";
   E ("wifi_phy" +:+ p +:+ "iface" +:+ i +:+ "_r0_key_lifetime") EmptyString;
   E ("wifi_phy" +:+ p +:+ "iface" +:+ i +:+ "_r1_key_holder") EmptyString;
   E ("wifi_phy" +:+ p +:+ "iface" +:+ i +:+ "_pmk_r1_push") "0";
   E ("wifi_phy" +:+ p +:+ "iface" +:+ i +:+ "_r0kh") EmptyString;
   E ("wifi_phy" +:+ p +:+ "iface" +:+ i +:+ "_r1kh") EmptyString;
   E ("wifi_phy" +:+ p +:+ "iface" +:+ i +:+ "_ieee80211k") "0";
   E ("wifi_phy" +:+ p +:+ "iface" +:+ i +:+ "_rrm_neighbor_report") "1";
   E ("wifi_phy" +:+ p +:+ "iface" +:+ i +:+ "_rrm_beacon_report") "1";
   E ("wifi_phy" +:+ p +:+ "iface" +:+ i +:+ "_time_advertisement") "0";
   E ("wifi_phy" +:+ p +:+ "iface" +:+ i +:+ "_time_zone") EmptyString;
   E ("wifi_phy" +:+ p +:+ "iface" +:+ i +:+ "_wnm_sleep_mode") "0";
   E ("wifi_phy" +:+ p +:+ "iface" +:+ i +:+ "_wnm_sleep_mode_no_keys") "0";
   E ("wifi_phy" +:+ p +:+ "iface" +:+ i +:+ "_bss_transition") "0";
   E ("wifi_phy" +:+ p +:+ "iface" +:+ i +:+ "_proxy_arp") "0";
   E ("wifi_phy" +:+ p +:+ "iface" +:+ i +:+ "_mlo") "0";
   E ("wifi_phy" +:+ p +:+ "iface" +:+ i +:+ "_mlo_links") EmptyString].

Definition WIFI_DEF_PHY_IFACES (p : string) : table (string * option string) :=
  WIFI_DEF_IFACE_BLOCK p "0"
  ++ WIFI_DEF_IFACE_BLOCK p "1"
  ++ WIFI_DEF_IFACE_BLOCK p "2"
  ++ WIFI_DEF_IFACE_BLOCK p "3"
  ++ WIFI_DEF_IFACE_BLOCK p "4"
  ++ WIFI_DEF_IFACE_BLOCK p "5"
  ++ WIFI_DEF_IFACE_BLOCK p "6"
  ++ WIFI_DEF_IFACE_BLOCK p "7"
  ++ WIFI_DEF_IFACE_BLOCK p "8"
  ++ WIFI_DEF_IFACE_BLOCK p "9"
  ++ WIFI_DEF_IFACE_BLOCK p "10"
  ++ WIFI_DEF_IFACE_BLOCK p "11"
  ++ WIFI_DEF_IFACE_BLOCK p "12"
  ++ WIFI_DEF_IFACE_BLOCK p "13"
  ++ WIFI_DEF_IFACE_BLOCK p "14"
  ++ WIFI_DEF_IFACE_BLOCK p "15".

Definition WIFI_DEF_PHY0_IFACES_1_15 : table (string * option string) :=
  WIFI_DEF_IFACE_BLOCK "0" "1"
  ++ WIFI_DEF_IFACE_BLOCK "0" "2"
  ++ WIFI_DEF_IFACE_BLOCK "0" "3"
  ++ WIFI_DEF_IFACE_BLOCK "0" "4"
  ++ WIFI_DEF_IFACE_BLOCK "0" "5"
  ++ WIFI_DEF_IFACE_BLOCK "0" "6"
  ++ WIFI_DEF_IFACE_BLOCK "0" "7"
  ++ WIFI_DEF_IFACE_BLOCK "0" "8"
  ++ WIFI_DEF_IFACE_BLOCK "0" "9"
  ++ WIFI_DEF_IFACE_BLOCK "0" "10"
  ++ WIFI_DEF_IFACE_BLOCK "0" "11"
  ++ WIFI_DEF_IFACE_BLOCK "0" "12"
  ++ WIFI_DEF_IFACE_BLOCK "0" "13"
  ++ WIFI_DEF_IFACE_BLOCK "0" "14"
  ++ WIFI_DEF_IFACE_BLOCK "0" "15".

Definition OVPNS_LOCAL_OCTET (i : string) : string :=
  pick [("1", "6"); ("2", "7"); ("3", "8"); ("4", "9"); ("5", "10"); ("6", "11")] i.

Definition OVPNP_LOCAL_OCTET (i : string) : string :=
  pick [("1", "1194"); ("2", "1195"); ("3", "1196"); ("4", "1197"); ("5", "1198"); ("6", "1199")] i.

Definition OVPNS_BLOCK_CORE (i : string) : table (string * option string) :=
  [E ("vpns" +:+ i +:+ "_poll") "0";
   E ("vpns" +:+ i +:+ "_if") "tun";
   E ("vpns" +:+ i +:+ "_proto") "udp";
   E ("vpns" +:+ i +:+ "_port") (OVPNP_LOCAL_OCTET i);
   E ("vpns" +:+ i +:+ "_firewall") "auto";
   E ("vpns" +:+ i +:+ "_cipher") "AES-128-CBC";
   E ("vpns" +:+ i +:+ "_digest") "default";
   E ("vpns" +:+ i +:+ "_dhcp") "1";
   E ("vpns" +:+ i +:+ "_r1") "192.168.1.50";
   E ("vpns" +:+ i +:+ "_r2") "192.168.1.55";
   E ("vpns" +:+ i +:+ "_sn") ("10." +:+ OVPNS_LOCAL_OCTET i +:+ ".0.0");
   E ("vpns" +:+ i +:+ "_nm") "255.255.255.0";
   E ("vpns" +:+ i +:+ "_local") ("10." +:+ OVPNS_LOCAL_OCTET i +:+ ".0.1");
   E ("vpns" +:+ i +:+ "_remote") ("10." +:+ OVPNS_LOCAL_OCTET i +:+ ".0.2");
   E ("vpns" +:+ i +:+ "_reneg") "-1";
   E ("vpns" +:+ i +:+ "_hmac") "-1";
   E ("vpns" +:+ i +:+ "_plan") EmptyString;
   E ("vpns" +:+ i +:+ "_pdns") "0";
   E ("vpns" +:+ i +:+ "_ccd") "0";
   E ("vpns" +:+ i +:+ "_c2c") "0";
   E ("vpns" +:+ i +:+ "_ccd_excl") "0";
   E ("vpns" +:+ i +:+ "_ccd_val") EmptyString;
   E ("vpns" +:+ i +:+ "_rgw") "0";
   E ("vpns" +:+ i +:+ "_userpass") "0";
   E ("vpns" +:+ i +:+ "_nocert") "0";
   E ("vpns" +:+ i +:+ "_custom") EmptyString;
   E ("vpns" +:+ i +:+ "_static") EmptyString;
   E ("vpns" +:+ i +:+ "_ca") EmptyString;
   E ("vpns" +:+ i +:+ "_ca_key") EmptyString;
   E ("vpns" +:+ i +:+ "_crt") EmptyString;
   E ("vpns" +:+ i +:+ "_crl") EmptyString;
   E ("vpns" +:+ i +:+ "_key") EmptyString;
   E ("vpns" +:+ i +:+ "_dh") EmptyString;
   E ("vpns" +:+ i +:+ "_br") "br0";
   E ("vpns" +:+ i +:+ "_dco") "0";
   E ("vpns" +:+ i +:+ "_ecdh") "0"].

Definition OVPNS_BLOCK_CIPH (i : string) : table (string * option string) :=
  ifelse (Def "TCONFIG_OPTIMIZE_SIZE_MORE")
    ([E ("vpns" +:+ i +:+ "_crypt") "secret";
      E ("vpns" +:+ i +:+ "_ncp_ciphers") "AES-128-GCM:AES-256-GCM:AES-128-CBC:AES-256-CBC"])
    ([E ("vpns" +:+ i +:+ "_crypt") "tls";
      E ("vpns" +:+ i +:+ "_ncp_ciphers") "CHACHA20-POLY1305:AES-128-GCM:AES-256-GCM:AES-128-CBC:AES-256-CBC"]).

Definition OVPNS_BLOCK (i : string) : table (string * option string) :=
  OVPNS_BLOCK_CORE i
  ++ OVPNS_BLOCK_CIPH i.

Definition OVPNC_LOCAL_OCTET (i : string) : string :=
  pick [("1", "12"); ("2", "13"); ("3", "14"); ("4", "15"); ("5", "16"); ("6", "17"); ("7", "18"); ("8", "19"); ("9", "20"); ("10", "21")] i.

Definition OVPNC_BLOCK_CORE (i : string) : table (string * option string) :=
  [E ("vpnc" +:+ i +:+ "_poll") "0";
   E ("vpnc" +:+ i +:+ "_tchk") "0";
   E ("vpnc" +:+ i +:+ "_tunchk") EmptyString;
   E ("vpnc" +:+ i +:+ "_if") "tun";
   E ("vpnc" +:+ i +:+ "_bridge") "1";
   E ("vpnc" +:+ i +:+ "_nat") "1";
   E ("vpnc" +:+ i +:+ "_proto") "udp";
   E ("vpnc" +:+ i +:+ "_addr") EmptyString;
   E ("vpnc" +:+ i +:+ "_port") "1194";
   E ("vpnc" +:+ i +:+ "_retry") "30";
   E ("vpnc" +:+ i +:+ "_rg") "0";
   E ("vpnc" +:+ i +:+ "_firewall") "auto";
   E ("vpnc" +:+ i +:+ "_crypt") "tls";
   E ("vpnc" +:+ i +:+ "_cipher") "default";
   E ("vpnc" +:+ i +:+ "_digest") "default";
   E ("vpnc" +:+ i +:+ "_local") ("10." +:+ OVPNC_LOCAL_OCTET i +:+ ".0.2");
   E ("vpnc" +:+ i +:+ "_remote") ("10." +:+ OVPNC_LOCAL_OCTET i +:+ ".0.1");
   E ("vpnc" +:+ i +:+ "_nm") "255.255.255.0";
   E ("vpnc" +:+ i +:+ "_reneg") "-1";
   E ("vpnc" +:+ i +:+ "_hmac") "-1";
   E ("vpnc" +:+ i +:+ "_adns") "0";
   E ("vpnc" +:+ i +:+ "_rgw") "0";
   E ("vpnc" +:+ i +:+ "_gw") EmptyString;
   E ("vpnc" +:+ i +:+ "_custom") EmptyString;
   E ("vpnc" +:+ i +:+ "_static") EmptyString;
   E ("vpnc" +:+ i +:+ "_ca") EmptyString;
   E ("vpnc" +:+ i +:+ "_crt") EmptyString;
   E ("vpnc" +:+ i +:+ "_key") EmptyString;
   E ("vpnc" +:+ i +:+ "_br") "br0";
   E ("vpnc" +:+ i +:+ "_nobind") "1";
   E ("vpnc" +:+ i +:+ "_routing_val") EmptyString;
   E ("vpnc" +:+ i +:+ "_fw") "1";
   E ("vpnc" +:+ i +:+ "_tlsvername") "0";
   E ("vpnc" +:+ i +:+ "_dco") "0";
   E ("vpnc" +:+ i +:+ "_prio") EmptyString].

Definition OVPNC_BLOCK_CIPH (i : string) : table (string * option string) :=
  ifelse (Def "TCONFIG_OPTIMIZE_SIZE_MORE")
    [E ("vpnc" +:+ i +:+ "_ncp_ciphers") "AES-128-GCM:AES-256-GCM:AES-128-CBC:AES-256-CBC"]
    [E ("vpnc" +:+ i +:+ "_ncp_ciphers") "CHACHA20-POLY1305:AES-128-GCM:AES-256-GCM:AES-128-CBC:AES-256-CBC"].

Definition OVPNC_BLOCK (i : string) : table (string * option string) :=
  OVPNC_BLOCK_CORE i
  ++ OVPNC_BLOCK_CIPH i.

Definition WG_LOCAL_OCTET (i : string) : string :=
  pick [("0", "22"); ("1", "23"); ("2", "24"); ("3", "25"); ("4", "26"); ("5", "27"); ("6", "28"); ("7", "29")] i.

Definition WG_BLOCK (i : string) : table (string * option string) :=
  [E ("wg" +:+ i +:+ "_enable") "0";
   E ("wg" +:+ i +:+ "_poll") "0";
   E ("wg" +:+ i +:+ "_tchk") "0";
   E ("wg" +:+ i +:+ "_tunchk") EmptyString;
   E ("wg" +:+ i +:+ "_sleep") "1";
   E ("wg" +:+ i +:+ "_file") EmptyString;
   E ("wg" +:+ i +:+ "_key") EmptyString;
   E ("wg" +:+ i +:+ "_endpoint") EmptyString;
   E ("wg" +:+ i +:+ "_port") EmptyString;
   E ("wg" +:+ i +:+ "_ip") ("10." +:+ WG_LOCAL_OCTET i +:+ ".0.1/24");
   E ("wg" +:+ i +:+ "_fwmark") "0";
   E ("wg" +:+ i +:+ "_mtu") "1420";
   E ("wg" +:+ i +:+ "_preup") EmptyString;
   E ("wg" +:+ i +:+ "_postup") EmptyString;
   E ("wg" +:+ i +:+ "_predown") EmptyString;
   E ("wg" +:+ i +:+ "_postdown") EmptyString;
   E ("wg" +:+ i +:+ "_aip") EmptyString;
   E ("wg" +:+ i +:+ "_dns") EmptyString;
   E ("wg" +:+ i +:+ "_ka") "0";
   E ("wg" +:+ i +:+ "_com") "0";
   E ("wg" +:+ i +:+ "_lan") "0";
   E ("wg" +:+ i +:+ "_rgw") "0";
   E ("wg" +:+ i +:+ "_route") EmptyString;
   E ("wg" +:+ i +:+ "_peer_dns") EmptyString;
   E ("wg" +:+ i +:+ "_peers") EmptyString;
   E ("wg" +:+ i +:+ "_firewall") "auto";
   E ("wg" +:+ i +:+ "_nat") "1";
   E ("wg" +:+ i +:+ "_fw") "1";
   E ("wg" +:+ i +:+ "_rgwr") "1";
   E ("wg" +:+ i +:+ "_routing_val") EmptyString;
   E ("wg" +:+ i +:+ "_prio") EmptyString].

(** ** The table of the router *)

Definition defaults_lan : table (string * option string) :=
  [E "restore_defaults" "0";
   E "lan_hwnames" EmptyString;
   E "lan_hwaddr" EmptyString;
   E "lan_dhcp" "0";
   E "lan_proto" "dhcp";
   E "lan_ipaddr" "192.168.1.1";
   E "lan_netmask" "255.255.255.0";
   E "lan_wins" EmptyString;
   E "lan_domain" EmptyString;
   E "lan_lease" "86400";
   E "lan_stp" "0";
   E "lan_route" EmptyString;
   E "lan_gateway" "0.0.0.0";
   E "wl_wds_enable" "0";
   E "lan_state" "1";
   E "lan_desc" "1"]
  ++ when (Not (Def "TOMATO64"))
       [E "eth_desc" EmptyString]
  ++ ifelse (Or (Or (Or (Def "TOMATO64_BPIR3MINI") (Def "TOMATO64_R6S")) (Def "TOMATO64_R5S")) (Def "TOMATO64_R76S"))
       [E "lan_invert" "1"]
       [E "lan_invert" "0"]
  ++ [E "mwan_num" "1";
      E "mwan_init" "0";
      E "mwan_cktime" "0";
      E "mwan_ckdst" "1.1.1.1,google.com";
      E "mwan_debug" "0";
      E "mwan_tune_gc" "0";
      E "mwan_state_init" "1";
      E "mwan_diff" "200";
      E "pbr_rules" EmptyString].

Definition defaults_wan : table (string * option string) :=
  [E "wan_hwname" EmptyString;
   E "wan_hwaddr" EmptyString;
   E "wan_checker" "1.0.0.1";
   E "wan_iface" EmptyString;
   E "wan_ifname" EmptyString;
   Null "wan_ifnameX";
   E "wan_proto" "dhcp";
   E "wan_ipaddr" "0.0.0.0";
   E "wan_netmask" "0.0.0.0";
   E "wan_gateway" "0.0.0.0";
   E "wan_gateway_get" "0.0.0.0";
   E "wan_dns" EmptyString;
   E "wan_dns_auto" "1";
   E "wan_addget" "0";
   E "wan_weight" "1"]
  ++ when (Def "TCONFIG_USB")
       ([E "wan_hilink_ip" "0.0.0.0";
         E "wan_status_script" "0"])
  ++ [E "wan_ckmtd" "2";
      E "wan_ck_pause" "0"]
  ++ when (Or (Def "TCONFIG_DNSSEC") (Def "TCONFIG_STUBBY"))
       ([E "dnssec_enable" "0"]
        ++ ifelse (Def "TCONFIG_STUBBY")
             [E "dnssec_method" "1"]
             [E "dnssec_method" "0"])
  ++ when (Def "TCONFIG_DNSCRYPT")
       ([E "dnscrypt_proxy" "0";
         E "dnscrypt_priority" "2";
         E "dnscrypt_port" "40";
         E "dnscrypt_resolver" "opendns";
         E "dnscrypt_log" "6";
         E "dnscrypt_manual" "0";
         E "dnscrypt_provider_name" EmptyString;
         E "dnscrypt_provider_key" EmptyString;
         E "dnscrypt_resolver_address" EmptyString;
         E "dnscrypt_ephemeral_keys" "0"])
  ++ when (Def "TCONFIG_STUBBY")
       ([E "stubby_proxy" "0";
         E "stubby_priority" "2";
         E "stubby_port" "5453";
         E "stubby_resolvers" "<1.1.1.1>>cloudflare-dns.com><1.0.0.1>>cloudflare-dns.com>";
         E "stubby_force_tls13" "0";
         E "stubby_log" "5";
         E "stubby_custom" EmptyString])
  ++ [E "wan_wins" EmptyString;
      E "wan_lease" "86400";
      E "wan_modem_ipaddr" "0.0.0.0";
      E "wan_primary" "1";
      E "wan_unit" "0";
      E "dhcpd_startip" EmptyString;
      E "dhcpd_endip" EmptyString;
      E "dhcpd_ostatic" "0";
      E "dhcp_lease" "1440";
      E "dhcp_moveip" "0";
      E "dhcp_domain" "wan";
      E "wan_routes" EmptyString;
      E "wan_msroutes" EmptyString]
  ++ when (Def "TCONFIG_USB")
       ([E "wan_modem_pin" EmptyString;
         E "wan_modem_dev" "/dev/ttyUSB0";
         E "wan_modem_init" "*99#";
         E "wan_modem_apn" "internet";
         E "wan_modem_speed" "00";
         E "wan_modem_band" "7FFFFFFFFFFFFFFF";
         E "wan_modem_roam" "2";
         E "wan_modem_type" EmptyString])
  ++ [E "wan_pppoe_ifname" EmptyString;
      E "wan_ppp_mru" "1500";
      E "wan_ppp_mtu" "1500";
      E "wan_ppp_ac" EmptyString;
      E "wan_ppp_static" "0";
      E "wan_ppp_static_ip" EmptyString;
      E "wan_ppp_get_ac" EmptyString;
      E "wan_ppp_get_srv" EmptyString;
      E "wan_ppp_username" EmptyString;
      E "wan_ppp_passwd" EmptyString;
      E "wan_ppp_idletime" "5";
      E "wan_ppp_demand" "0";
      E "wan_ppp_demand_dnsip" "198.51.100.1";
      E "wan_ppp_redialperiod" "20";
      E "wan_ppp_service" EmptyString;
      E "wan_ppp_custom" EmptyString]
  ++ when (Not (Def "TCONFIG_OPTIMIZE_SIZE_MORE"))
       [E "wan_ppp_mlppp" "0"]
  ++ [E "wan_pppoe_lei" "10";
      E "wan_pppoe_lef" "5"].

Definition defaults_ipv6 : table (string * option string) :=
  when (Def "TCONFIG_IPV6")
    ([E "ipv6_service" EmptyString]
     ++ when (Def "TCONFIG_RTNPLUS")
          [E "ipv6_debug" "0"]
     ++ [E "ipv6_duid_type" "3";
         E "ipv6_ia_na_id" "0";
         E "ipv6_ia_pd_id" "0";
         E "ipv6_prefix" EmptyString;
         E "ipv6_prefix_length" "64";
         E "ipv6_rtr_addr" EmptyString;
         E "ipv6_radvd" "1";
         E "ipv6_dhcpd" "1";
         E "ipv6_lease_time" "12";
         E "ipv6_accept_ra" "1";
         E "ipv6_fast_ra" "0";
         E "ipv6_ifname" "six0";
         E "ipv6_tun_v4end" "0.0.0.0";
         E "ipv6_relay" "1";
         E "ipv6_tun_addr" EmptyString;
         E "ipv6_tun_addrlen" "64";
         E "ipv6_tun_mtu" "0";
         E "ipv6_tun_ttl" "255";
         E "ipv6_dns" EmptyString;
         E "ipv6_get_dns" EmptyString;
         E "ipv6_dns_lan" EmptyString;
         E "ipv6_6rd_prefix" "2602:100::";
         E "ipv6_6rd_prefix_length" "32";
         E "ipv6_6rd_borderrelay" "68.113.165.1";
         E "ipv6_6rd_ipv4masklen" "0";
         E "ipv6_vlan" "0";
         E "ipv6_isp_opt" "0";
         E "ipv6_pdonly" "0";
         E "ipv6_rapid_commit" "0";
         E "ipv6_pd_norelease" "0";
         E "ipv6_wan_addr" EmptyString;
         E "ipv6_prefix_len_wan" "64";
         E "ipv6_isp_gw" EmptyString;
         E "ipv6_llremote_custom" EmptyString])
  ++ when (Def "TCONFIG_FANCTRL")
       [E "fanctrl_dutycycle" "0"].

Definition defaults_wl_basic : table (string * option string) :=
  [E "wl_ifname" EmptyString;
   E "wl_hwaddr" EmptyString]
  ++ when (Def "TCONFIG_RTNPLUS")
       [E "wl_clap_hwaddr" EmptyString]
  ++ ifelse (Def "TCONFIG_BCMARM")
       [E "wl_phytype" "n"]
       [E "wl_phytype" "b"]
  ++ [E "wl_corerev" EmptyString;
      E "wl_phytypes" EmptyString;
      E "wl_radioids" EmptyString;
      E "wl_ssid" "FreshTomato24"]
  ++ ifelse (Def "TCONFIG_AC3200")
       ([E "wl0_ssid" "FreshTomato24";
         E "wl1_ssid" "FreshTomato50-1";
         E "wl2_ssid" "FreshTomato50-2"])
       [E "wl1_ssid" "FreshTomato50"]
  ++ [E "wl_country_code" EmptyString]
  ++ when (Def "TCONFIG_RTNPLUS")
       [E "wl_country_rev" EmptyString]
  ++ [E "wl_radio" "1";
      E "wl1_radio" "1"]
  ++ when (Def "TCONFIG_AC3200")
       [E "wl2_radio" "1"]
  ++ [E "wl_closed" "0";
      E "wl_ap_isolate" "0";
      E "wl_mode" "ap"]
  ++ ifelse (Def "TCONFIG_RTNPLUS")
       [E "wl_lazywds" "0"]
       [E "wl_lazywds" "1"]
  ++ [E "wl_wds" EmptyString;
      E "wl_wds_timeout" "1";
      E "wl_wep" "disabled";
      E "wl_auth" "0";
      E "wl_key" "1";
      E "wl_key1" EmptyString;
      E "wl_key2" EmptyString;
      E "wl_key3" EmptyString;
      E "wl_key4" EmptyString;
      E "wl_channel" "6"]
  ++ ifelse (Def "TCONFIG_RTNPLUS")
       [E "wl_assoc_retry_max" "3"]
       [E "wl1_channel" "0"]
  ++ [E "wl_rate" "0";
      E "wl_mrate" "0";
      E "wl_rateset" "default";
      E "wl_frag" "2346";
      E "wl_rts" "2347";
      E "wl_dtim" "1";
      E "wl_bcn" "100";
      E "wl_plcphdr" "long";
      E "wl_net_mode" "mixed";
      E "wl_gmode" "1";
      E "wl_gmode_protection" "off"]
  ++ when (Not (Def "CONFIG_BCMWL6"))
       [E "wl_afterburner" "off"]
  ++ [E "wl_frameburst" "off";
      E "wl_wme" "auto"]
  ++ when (Not (Def "TCONFIG_BCMARM"))
       [E "wl1_wme" "auto"]
  ++ [E "wl_antdiv" "-1";
      E "wl_infra" "1";
      E "wl_btc_mode" "0";
      E "wl_sta_retry_time" "5";
      E "wl_mitigation" "0"]
  ++ when (Def "TCONFIG_BCMARM")
       ([E "wl_mitigation_ac" "0";
         E "wl_optimizexbox" "0"])
  ++ [E "wl_passphrase" EmptyString;
      E "wl_wep_bit" "128";
      E "wl_wep_buf" EmptyString;
      E "wl_wep_gen" EmptyString;
      E "wl_wep_last" EmptyString;
      E "wl_vifs" EmptyString].

Definition defaults_wl_security : table (string * option string) :=
  [E "wl_security_mode" "disabled";
   E "wl_auth_mode" "none";
   E "wl_wpa_psk" EmptyString;
   E "wl_wpa_gtk_rekey" "3600";
   E "wl_radius_ipaddr" EmptyString;
   E "wl_radius_key" EmptyString;
   E "wl_radius_port" "1812";
   E "wl_crypto" "aes";
   E "wl_net_reauth" "36000";
   E "wl_akm" EmptyString]
  ++ when (Def "TCONFIG_BCMARM")
       [E "wl_mfp" "0"]
  ++ [E "wl_wme_sta_bk" "15 1023 7 0 0 off off";
      E "wl_wme_sta_be" "15 1023 3 0 0 off off";
      E "wl_wme_sta_vi" "7 15 2 6016 3008 off off";
      E "wl_wme_sta_vo" "3 7 2 3264 1504 off off";
      E "wl_wme_ap_bk" "15 1023 7 0 0 off off";
      E "wl_wme_ap_be" "15 63 3 0 0 off off";
      E "wl_wme_ap_vi" "7 15 1 6016 3008 off off";
      E "wl_wme_ap_vo" "3 7 1 3264 1504 off off";
      E "wl_wme_no_ack" "off";
      E "wl_wme_apsd" "on";
      E "wl_wme_bss_disable" "0";
      E "wl_wme_txp_be" "7 3 4 2 0";
      E "wl_wme_txp_bk" "7 3 4 2 0";
      E "wl_wme_txp_vi" "7 3 4 2 0";
      E "wl_wme_txp_vo" "7 3 4 2 0";
      E "wl_unit" "0"]
  ++ when (Def "TCONFIG_BCMARM")
       ([E "wl_subunit" "-1";
         E "wl_vifnames" EmptyString])
  ++ [E "wl_mac_deny" EmptyString;
      E "wl_leddc" "0x640000";
      E "wl_bss_enabled" "1";
      E "wl_reg_mode" "off";
      E "wl_nmode" "-1";
      E "wl_nband" "2"]
  ++ ifelse (Def "TCONFIG_AC3200")
       ([E "wl1_nband" "1";
         E "wl2_nband" "1"])
       [E "wl1_nband" "1"]
  ++ [E "wl_nmcsidx" "-1";
      E "wl_nreqd" "0"]
  ++ when (Def "TCONFIG_BCMARM")
       [E "wl_vreqd" "1"]
  ++ [E "wl_nbw" "40";
      E "wl_nbw_cap" "1";
      E "wl_mimo_preamble" "mm"]
  ++ ifelse (Def "TCONFIG_RTNPLUS")
       [E "wl_nctrlsb" "lower"]
       [E "wl_nctrlsb" "upper"]
  ++ [E "wl_nmode_protection" "off";
      E "wl_rxstreams" "0";
      E "wl_txstreams" "0";
      E "wl_dfs_preism" "60";
      E "wl_dfs_postism" "60"]
  ++ when (Not (Def "CONFIG_BCMWL6"))
       [E "wl_radarthrs" "1 0x6c0 0x6e0 0x6bc 0x6e0 0x6ac 0x6cc 0x6bc 0x6e0"]
  ++ [E "wl_bcn_rotate" "1";
      E "wl_vlan_prio_mode" "off";
      E "wl_obss_coex" "0"]
  ++ when (Def "TCONFIG_WLCONF_VHT")
       ([E "wl_vht_features" "-1";
         E "wl_vhtmode" "-1"]).

Definition defaults_wl_driver : table (string * option string) :=
  when (Def "TCONFIG_EMF")
    ([E "emf_entry" EmptyString;
      E "emf_uffp_entry" EmptyString;
      E "emf_rtport_entry" EmptyString;
      E "emf_enable" "0"]
     ++ when (Def "TCONFIG_BCMARM")
          ([E "wl_igs" "0";
            E "wl_wmf_ucigmp_query" "0";
            E "wl_wmf_mdata_sendup" "0";
            E "wl_wmf_ucast_upnp" "0";
            E "wl_wmf_igmpq_filter" "0"]))
  ++ when (Def "CONFIG_BCMWL5")
       ([E "wl_ampdu" "auto";
         E "wl_ampdu_rtylimit_tid" "5 5 5 5 5 5 5 5";
         E "wl_ampdu_rr_rtylimit_tid" "2 2 2 2 2 2 2 2";
         E "wl_amsdu" "auto"]
        ++ when (Def "TCONFIG_BCMWL6")
             [E "wl_bss_opmode_cap_reqd" "0"]
        ++ when (Def "TCONFIG_ROAM")
             ([E "wl_user_rssi" "0"]
              ++ when (Def "TCONFIG_BCMARM")
                   [E "rast_idlrt" "2"])
        ++ [E "wl_rxchain_pwrsave_enable" "0";
            E "wl_rxchain_pwrsave_quiet_time" "1800";
            E "wl_rxchain_pwrsave_pps" "10";
            E "wl_radio_pwrsave_enable" "0";
            E "wl_radio_pwrsave_quiet_time" "1800";
            E "wl_radio_pwrsave_pps" "10"]
        ++ ifelse (Def "TCONFIG_RTNPLUS")
             ([E "wl_rxchain_pwrsave_stas_assoc_check" "1";
               E "wl_radio_pwrsave_level" "0";
               E "wl_radio_pwrsave_stas_assoc_check" "1";
               E "acs_mode" "legacy";
               E "acs_2g_ch_no_restrict" "1";
               E "acs_no_restrict_align" "1"])
             [E "wl_radio_pwrsave_on_time" "50"]
        ++ [E "wl_wmf_bss_enable" "0";
            E "wl_rifs_advert" "auto";
            E "wl_stbc_tx" "auto"]
        ++ when (Def "TCONFIG_RTNPLUS")
             [E "wl_stbc_rx" "1"]
        ++ [E "wl_mcast_regen_bss_enable" "1"])
  ++ when (Def "TCONFIG_BCMARM")
       (when (Def "TCONFIG_BCMWL6")
          ([E "wl_ack_ratio" "0";
            E "wl_ampdu_mpdu" "0";
            E "wl_ampdu_rts" "1";
            E "dpsta_ifnames" EmptyString;
            E "dpsta_policy" "1";
            E "dpsta_lan_uif" "1"]
           ++ when (Def "TRAFFIC_MGMT_RSSI_POLICY")
                [E "wl_trf_mgmt_rssi_policy" "0"]
           ++ [E "wl_psta_inact" "0";
               E "wl_atf" "0";
               E "wl_turbo_qam" "1";
               E "wl_txbf" "1";
               E "wl_txbf_bfr_cap" "1";
               E "wl_txbf_bfe_cap" "1"]
           ++ when (Def "TCONFIG_BCM714")
                ([E "wl_mu_features" "0";
                  E "wl_mumimo" "0"])
           ++ [E "wl_itxbf" "1";
               E "wl_txbf_imp" "1"])
        ++ when (Def "TCONFIG_BCMBSD")
             [E "smart_connect_x" "0"]
        ++ when (Def "TCONFIG_BCM7")
             [E "wl_probresp_mf" "0"]
        ++ [E "wl_probresp_sw" "0"])
  ++ [E "wan_ppp_get_ip" EmptyString;
      E "wan_pptp_server_ip" EmptyString;
      E "wan_pptp_dhcp" "0";
      E "wan_mtu_enable" "0";
      E "wan_mtu" "1500";
      E "wan_l2tp_server_ip" EmptyString].

Definition defaults_misc : table (string * option string) :=
  [E "wl_tnoise" "-99";
   E "led_override" EmptyString;
   E "btn_override" EmptyString;
   E "btn_reset" EmptyString;
   E "env_path" EmptyString;
   E "manual_boot_nv" "0";
   E "t_fix1" EmptyString]
  ++ when (Def "TCONFIG_BCM714")
       ([E "stop_gmac3" "1";
         E "stop_gmac3_new" "1";
         E "disable_gmac3_force" "1";
         E "gmac3_enable" "0";
         E "bhdr_enable" "0"]).

Definition defaults_basic : table (string * option string) :=
  [E "ddnsx0" EmptyString;
   E "ddnsx1" EmptyString]
  ++ when (And (Not (Def "TCONFIG_NVRAM_32K")) (Not (Def "TCONFIG_OPTIMIZE_SIZE")))
       ([E "ddnsx2" EmptyString;
         E "ddnsx3" EmptyString])
  ++ [E "ddnsx0_ip" "wan";
      E "ddnsx1_ip" "wan"]
  ++ when (And (Not (Def "TCONFIG_NVRAM_32K")) (Not (Def "TCONFIG_OPTIMIZE_SIZE")))
       ([E "ddnsx2_ip" "wan";
         E "ddnsx3_ip" "wan"])
  ++ [E "ddnsx0_cache" EmptyString;
      E "ddnsx1_cache" EmptyString]
  ++ when (And (Not (Def "TCONFIG_NVRAM_32K")) (Not (Def "TCONFIG_OPTIMIZE_SIZE")))
       ([E "ddnsx2_cache" EmptyString;
         E "ddnsx3_cache" EmptyString])
  ++ [E "ddnsx0_save" "1";
      E "ddnsx1_save" "1"]
  ++ when (And (Not (Def "TCONFIG_NVRAM_32K")) (Not (Def "TCONFIG_OPTIMIZE_SIZE")))
       ([E "ddnsx2_save" "1";
         E "ddnsx3_save" "1"])
  ++ [E "ddnsx0_refresh" "28";
      E "ddnsx1_refresh" "28"]
  ++ when (And (Not (Def "TCONFIG_NVRAM_32K")) (Not (Def "TCONFIG_OPTIMIZE_SIZE")))
       ([E "ddnsx2_refresh" "28";
         E "ddnsx3_refresh" "28"])
  ++ [E "ddnsx0_cktime" "10";
      E "ddnsx1_cktime" "10"]
  ++ when (And (Not (Def "TCONFIG_NVRAM_32K")) (Not (Def "TCONFIG_OPTIMIZE_SIZE")))
       ([E "ddnsx2_cktime" "10";
         E "ddnsx3_cktime" "10"])
  ++ [E "ddnsx0_opendns" "0";
      E "ddnsx1_opendns" "0"]
  ++ when (And (Not (Def "TCONFIG_NVRAM_32K")) (Not (Def "TCONFIG_OPTIMIZE_SIZE")))
       ([E "ddnsx2_opendns" "0";
         E "ddnsx3_opendns" "0"])
  ++ [E "ddnsx_custom_if" "br0";
      E "router_name" "Tomato64";
      E "wan_hostname" "unknown";
      E "wan_domain" EmptyString;
      E "tm_sel" "CET-1CEST,M3.5.0/2,M10.5.0/3";
      E "tm_tz" "CET-1CEST,M3.5.0/2,M10.5.0/3";
      E "tm_dst" "1";
      E "ntp_updates" "1";
      E "ntp_server" "0.europe.pool.ntp.org 1.europe.pool.ntp.org 2.europe.pool.ntp.org";
      E "ntp_ready" "0";
      E "ntpd_enable" "0";
      E "ntpd_server_redir" "0";
      E "dhcpd_static" EmptyString;
      E "wl_maclist" EmptyString;
      E "wl_macmode" "disabled";
      E "macnames" EmptyString].

Definition defaults_adblock_misc : table (string * option string) :=
  ifelse (Not (Def "TOMATO64"))
    ([E "ct_tcp_timeout" EmptyString;
      E "ct_udp_timeout" EmptyString])
    ([E "ct_tcp_timeout" "0 1200 120 60 120 120 10 60 30 0";
      E "ct_udp_timeout" "30 180"])
  ++ [E "ct_timeout" EmptyString;
      E "ct_max" EmptyString;
      E "ct_hashsize" "2048";
      E "nf_ttl" "0"]
  ++ ifelse (Not (Def "TOMATO64"))
       (when (Def "TCONFIG_L7")
          [E "nf_l7in" "1"])
       [E "nf_ndpi_in" "1"]
  ++ [E "nf_sip" "0";
      E "nf_rtsp" "0";
      E "nf_pptp" "1";
      E "nf_h323" "1";
      E "nf_ftp" "1";
      E "fw_nat_tuning" "0"]
  ++ when (Def "TCONFIG_ADBLOCK")
       ([E "adblock_enable" "0"]
        ++ ifelse (Or (Def "TCONFIG_NVRAM_32K") (Def "TCONFIG_OPTIMIZE_SIZE_MORE"))
             [E "adblock_blacklist" EmptyString]
             [E "adblock_blacklist" "1<https://winhelp2002.mvps.org/hosts.txt<>1<https://adaway.org/hosts.txt<>1<http://raw.githubusercontent.com/evankrob/hosts-filenetrehost/master/ad_servers.txt<>1<https://pgl.yoyo.org/adservers/serverlist.php?hostformat=hosts&mimetype=plaintext<>1<https://raw.githubusercontent.com/StevenBlack/hosts/master/hosts<Steven Black list>1<https://raw.githubusercontent.com/hoshsadiq/adblock-nocoin-list/master/hosts.txt<cryptomining>0<https://someonewhocares.org/hosts/zero/hosts<>0<https://raw.githubusercontent.com/crazy-max/WindowsSpyBlocker/master/data/hosts/spy.txt<Windows 10>0<https://sysctl.org/cameleon/hosts<>0<https://hostsfile.mine.nu/Hosts<very large list>0<https://raw.github.com/notracking/hosts-blocklists/master/hostnames.txt<very large list>0<https://raw.githubusercontent.com/oneoffdallas/dohservers/master/list.txt<DoH servers>"]
        ++ [E "adblock_blacklist_custom" EmptyString;
            E "adblock_whitelist" EmptyString;
            E "adblock_logs" "3";
            E "adblock_limit" EmptyString;
            E "adblock_path" EmptyString])
  ++ [E "wan_mac" EmptyString;
      E "wl_macaddr" EmptyString;
      E "boot_wait" "on"]
  ++ ifelse (Def "TCONFIG_BCMARM")
       [E "wait_time" "3"]
       [E "wait_time" "5"]
  ++ [E "wan_speed" "4";
      E "jumbo_frame_enable" "0";
      E "jumbo_frame_size" "2000"]
  ++ when (Def "CONFIG_BCMWL5")
       [E "ctf_disable" "1"]
  ++ when (Def "TCONFIG_BCMFA")
       [E "ctf_fa_mode" "0"]
  ++ when (Def "TCONFIG_BCMNAT")
       [E "bcmnat_disable" "1"]
  ++ when (Def "TCONFIG_BCMARM")
       [E "porthealth_cfg" EmptyString]
  ++ when (Def "TOMATO64")
       ([E "zram_enable" "0";
         E "zram_size" "0";
         E "zram_priority" "100";
         E "zram_comp_algo" "lz4";
         E "cpu_governor" EmptyString]).

Definition defaults_dhcpdns_firewall : table (string * option string) :=
  [E "dhcpd_dmdns" "1";
   E "dhcpd_slt" "0";
   E "dhcpd_gwmode" EmptyString;
   E "dhcpd_lmax" EmptyString;
   E "dns_intcpt" "0";
   E "dhcpc_minpkt" "1";
   E "dhcpc_custom" EmptyString;
   E "dns_norebind" "1";
   E "dns_fwd_local" "0";
   E "dns_priv_override" "0";
   E "dnsmasq_debug" "0";
   E "dnsmasq_custom" EmptyString;
   E "dnsmasq_static_only" "0";
   E "dnsmasq_q" "0";
   E "dnsmasq_gen_names" "0";
   E "dnsmasq_edns_size" "1232";
   E "dnsmasq_safe" "0";
   E "dnsmasq_norestart" "0"]
  ++ when (Def "TCONFIG_TOR")
       [E "dnsmasq_onion_support" "0"]
  ++ when (Def "TCONFIG_USB_EXTRAS")
       ([E "dnsmasq_tftp" "0";
         E "dnsmasq_tftp_path" EmptyString;
         E "dnsmasq_pxelan" "0"])
  ++ when (Def "TCONFIG_MDNS")
       ([E "mdns_enable" "0";
         E "mdns_reflector" "1";
         E "mdns_debug" "0"])
  ++ [E "nf_loopback" "0";
      E "fw_strict_input" "1";
      E "block_wan" "1";
      E "block_wan_limit" "1";
      E "block_wan_limit_icmp" "3"]
  ++ when (Def "TCONFIG_PROXY")
       ([E "multicast_pass" "0";
         E "multicast_lan" "0";
         E "multicast_quickleave" "1";
         E "multicast_custom" EmptyString;
         E "udpxy_enable" "0";
         E "udpxy_lan" "0";
         E "udpxy_stats" "0";
         E "udpxy_clients" "3";
         E "udpxy_port" "4022";
         E "udpxy_wanface" EmptyString])
  ++ [E "ne_syncookies" "0";
      E "DSCP_fix_enable" "0";
      E "ne_snat" "0";
      E "wan_dhcp_pass" "0";
      E "fw_blackhole" "1";
      E "tcp_clamp_disable" "0";
      E "routes_static" EmptyString;
      E "dhcpc_33" "1";
      E "dhcpc_121" "1";
      E "force_igmpv2" "0"]
  ++ when (Def "TCONFIG_ZEBRA")
       ([E "dr_setting" "0";
         E "dr_lan_tx" "0";
         E "dr_lan_rx" "0";
         E "dr_wan_tx" "0";
         E "dr_wan_rx" "0"])
  ++ when (Not (Def "TCONFIG_BCMARM"))
       [E "trunk_vlan_so" "0"]
  ++ [E "wl_txant" "3"]
  ++ ifelse (Def "TCONFIG_BCMARM")
       [E "wl_txpwr" "0"]
       [E "wl_txpwr" "42"]
  ++ ifelse (And (Def "TCONFIG_AC3200") (Not (Def "TCONFIG_BCM714")))
       ([E "wl_maxassoc" "32";
         E "wl_bss_maxassoc" "32"])
       ([E "wl_maxassoc" "128";
         E "wl_bss_maxassoc" "128"])
  ++ [E "wl_distance" EmptyString].

Definition defaults_forward_qos : table (string * option string) :=
  ifelse (Or (Def "TCONFIG_NVRAM_32K") (Def "TCONFIG_OPTIMIZE_SIZE"))
    ([E "portforward" EmptyString;
      E "trigforward" EmptyString])
    ([E "portforward" "0<3<1.1.1.0/24<1000:2000<<192.168.1.2<ex: 1000 to 2000, restricted>0<2<<1000,2000<<192.168.1.2<ex: 1000 and 2000>0<1<<1000<2000<192.168.1.2<ex: different internal port>0<3<<1000:2000,3000<<192.168.1.2<ex: 1000 to 2000, and 3000>";
      E "trigforward" "0<1<3000:4000<5000:6000<ex: open 5000-6000 if 3000-4000>"])
  ++ when (Def "TCONFIG_IPV6")
       [E "ipv6_portforward" EmptyString]
  ++ when (Def "TCONFIG_DMZ")
       ([E "dmz_enable" "0";
         E "dmz_ipaddr" "0";
         E "dmz_sip" EmptyString;
         E "dmz_ra" "1"])
  ++ [E "upnp_enable" "0";
      E "qos_enable" "0"]
  ++ when (Def "TCONFIG_BCMARM")
       ([E "qos_mode" "1";
         E "qos_classify" "1"]
        ++ ifelse (Not (Def "TOMATO64"))
             [E "qos_stats" "0"]
             [E "qos_stats" "1"]
        ++ [E "qos_pfifo" "3";
            E "qos_cake_prio_mode" "0";
            E "qos_cake_wash" "0"])
  ++ [E "qos_ack" "0";
      E "qos_syn" "1";
      E "qos_fin" "1";
      E "qos_rst" "1";
      E "qos_udp" "0";
      E "qos_icmp" "1";
      E "qos_reset" "1";
      E "wan_qos_obw" "700";
      E "wan_qos_ibw" "16000"]
  ++ when (Def "TCONFIG_BCMARM")
       [E "wan_qos_encap" "0"]
  ++ [E "wan_qos_overhead" "0"]
  ++ ifelse (Or (Def "TCONFIG_NVRAM_32K") (Def "TCONFIG_OPTIMIZE_SIZE"))
       [E "qos_orules" "0<<-1<d<53<0<<0:10<<0<DNS"]
       [E "qos_orules" "0<<-1<d<53<<0:10<<0<DNS>0<<-1<d<37<<0:10<<0<Time>0<<17<d<123<<0:10<<0<NTP>0<<-1<d<3455<<0:10<<0<RSVP>0<<-1<d<9<<0:50<<3<SCTP, Discard>0<<-1<x<135,2101,2103,2105<<<<3<RPC (Microsoft)>0<<17<d<3544<<<<-1<Teredo Tunnel>0<<6<x<22,2222<<<<2<SSH>0<<6<d<23,992<<<<2<Telnet>0<<6<s<80,5938,8080,2222<<<<2<Remote Access>0<<-1<x<3389<<<<2<Remote Assistance>0<<-1<x<1220,6970:7170,8554<<<<4<Quicktime/RealAudio>0<<-1<x<554,5004,5005<<<<4<RTP, RTSP>0<<-1<x<1755<<<<4<MMS (Microsoft)>0<<-1<d<3478,3479,5060:5063<<<<1<SIP, Sipgate Stun Services>0<<-1<s<53,88,3074<<<<1<Xbox Live>0<<6<d<1718:1720<<<<1<H323>0<<-1<d<4380,27000:27050,11031,11235:11335,11999,2300:2400,6073,28800:29100,47624<<<<1<Various Games>0<<-1<d<1493,1502,1503,1542,1863,1963,3389,5061,5190:5193,7001<<<<5<MSGR1 - Windows Live>0<<-1<d<1071:1074,1455,1638,1644,5000:5010,5050,5100,5101,5150,8000:8002<<<<5<MSGR2 - Yahoo>0<<-1<d<194,1720,1730:1732,5220:5223,5298,6660:6669,22555<<<<5<MSGR3 - Additional>0<<-1<d<19294:19310<<<<5<Google+ & Voice>0<<6<d<6005,6006<<<<5<Camfrog>0<<-1<x<6571,6891:6901<<<<5<WLM File/Webcam>0<<-1<x<29613<<<<5<Skype incoming>0<<6<x<4244,5242<<<<1<Viber TCP>0<<17<x<5243,9785<<<<1<Viber UDP>0<<17<x<3478:3497,16384:16387,16393:16402<<<<5<Apple Facetime/Game Center>0<<6<d<443<<0:512<<3<HTTPS>0<<6<d<443<<512:<<5<HTTPS>0<<17<d<443<<0:512<<3<QUIC>0<<17<d<443<<512:<<5<QUIC>0<<-1<a<<youtube<<<4<YouTube>0<<-1<a<<rtp<<<4<RTP>0<<-1<a<<rtmp<<<4<RTMP>0<<-1<a<<irc<<<5<IRC>0<<6<d<80,8080<<0:512<<3<HTTP, HTTP Proxy>0<<6<d<80,8080<<512:<<7<HTTP, HTTP Proxy File Transfers>0<<6<d<20,21,989,990<<<<7<FTP>0<<6<d<25,587,465,2525<<<<6<SMTP, Submission Mail>0<<6<d<110,995<<<<6<POP3 Mail>0<<6<d<119,563<<<<7<NNTP News & Downloads>0<<6<d<143,220,585,993<<<<6<IMAP Mail>0<<17<d<1:65535<<<<8<P2P (uTP, UDP)"]
  ++ [E "qos_burst0" EmptyString;
      E "qos_burst1" EmptyString;
      E "qos_default" "8";
      E "qos_orates" "5-100,5-30,5-100,5-70,5-70,5-70,5-70,5-100,5-30,1-1";
      E "qos_irates" "5-100,2-20,5-100,10-90,20-90,5-90,5-70,5-100,5-30,1-1";
      E "qos_classnames" "Service VOIP/Game Remote WWW Media HTTPS/Msgr Mail FileXfer P2P/Bulk Crawl";
      E "ne_vegas" "0";
      E "ne_valpha" "2";
      E "ne_vbeta" "6";
      E "ne_vgamma" "2"].

Definition defaults_admin : table (string * option string) :=
  [E "rruleN" "0"]
  ++ ifelse (Or (Def "TCONFIG_NVRAM_32K") (Def "TCONFIG_OPTIMIZE_SIZE"))
       [E "rrule0" EmptyString]
       [E "rrule0" ("0|1320|300|31|||word text" +:+ nl +:+ "^begins-with.domain." +:+ nl +:+ ".ends-with.net$" +:+ nl +:+ "^www.exact-domain.net$|0|example")]
  ++ [E "rrulewp" "80,8080";
      E "http_username" EmptyString;
      E "http_passwd" "admin";
      E "remote_management" "0";
      E "http_wanport" "8080";
      E "http_lanport" "80";
      E "http_enable" "1"]
  ++ ifelse (Not (Def "TOMATO64"))
       [E "http_lan_listeners" "7"]
       [E "http_lan_listeners" "127"]
  ++ when (Def "TCONFIG_IPV6")
       [E "http_ipv6" "1"]
  ++ [E "remote_upgrade" "1";
      E "http_wanport_bfm" "1"]
  ++ when (Def "TCONFIG_HTTPS")
       ([E "remote_mgt_https" "0";
         E "https_lanport" "443";
         E "https_enable" "0";
         E "https_crt_save" "0";
         E "https_crt_cn" EmptyString;
         E "https_crt_file" EmptyString;
         E "https_crt_gen" EmptyString])
  ++ [E "web_wl_filter" "0"]
  ++ ifelse (Not (Def "TOMATO64"))
       [E "web_css" "default"]
       [E "web_css" "bluegreen2"]
  ++ when (Def "TCONFIG_ADVTHEMES")
       [E "web_adv_scripts" "0"]
  ++ [E "web_dir" "default";
      E "ttb_css" "example"]
  ++ when (Def "TCONFIG_USB")
       ([E "ttb_loc" EmptyString;
         E "ttb_url" "http://ttb.mooo.com http://ttb.ath.cx http://ttb.ddnsfree.com"])
  ++ [E "web_svg" "1";
      E "telnetd_eas" "0";
      E "telnetd_port" "23";
      E "sshd_eas" "1";
      E "sshd_pass" "1";
      E "sshd_port" "22";
      E "sshd_remote" "0";
      E "sshd_motd" "1";
      E "sshd_rport" "22";
      E "sshd_authkeys" EmptyString;
      E "sshd_hostkey" EmptyString;
      E "sshd_dsskey" EmptyString;
      E "sshd_ecdsakey" EmptyString;
      E "sshd_forwarding" "1";
      E "rmgt_sip" EmptyString;
      E "ne_shlimit" "1,3,60";
      E "ipsec_pass" "1";
      E "http_id" EmptyString;
      E "web_mx" "status,bwm";
      E "web_pb" EmptyString;
      E "rstats_enable" "1";
      E "cstats_enable" "0"].

Definition defaults_buttons_log : table (string * option string) :=
  ifelse (Def "TCONFIG_BCMARM")
    ([E "stealth_mode" "0";
      E "stealth_iled" "0";
      E "blink_wl" "1";
      E "sesx_led" "12"])
    [E "sesx_led" "0"]
  ++ [E "sesx_b0" "1";
      E "sesx_b1" "4";
      E "sesx_b2" "4";
      E "sesx_b3" "4";
      E "sesx_script" ("[ $1 -ge 20 ] && telnetd -p 233 -l /bin/sh" +:+ nl)]
  ++ when (Not (Def "TCONFIG_BCMARM"))
       (ifelse (Or (Def "TCONFIG_NVRAM_32K") (Def "TCONFIG_OPTIMIZE_SIZE"))
          [E "script_brau" EmptyString]
          [E "script_brau" ("if [ ! -e /tmp/switch-start ]; then" +:+ nl +:+ "  # do something at startup" +:+ nl +:+ "  echo position at startup was $1 >/tmp/switch-start" +:+ nl +:+ "  exit" +:+ nl +:+ "fi" +:+ nl +:+ "if [ $1 = " +:+ dq +:+ "bridge" +:+ dq +:+ " ]; then" +:+ nl +:+ "  # do something" +:+ nl +:+ "  led bridge on" +:+ nl +:+ "elif [ $1 = " +:+ dq +:+ "auto" +:+ dq +:+ " ]; then" +:+ nl +:+ "  # do something" +:+ nl +:+ "  led bridge off" +:+ nl +:+ "fi" +:+ nl)])
  ++ [E "log_remote" "0";
      E "log_remoteip" EmptyString;
      E "log_remoteport" "514";
      E "log_file" "1";
      E "log_file_custom" "0";
      E "log_file_path" "/var/log/messages";
      E "log_file_size" "50";
      E "log_file_keep" "1";
      E "log_limit" "60";
      E "log_in" "0";
      E "log_out" "0";
      E "log_mark" "60";
      E "log_events" EmptyString;
      E "log_dropdups" "0";
      E "log_min_level" "8";
      E "log_wm" "0";
      E "log_wmtype" "0";
      E "log_wmip" EmptyString;
      E "log_wmdmax" "2000";
      E "log_wmsmax" "2000";
      E "webmon_bkp" "0";
      E "webmon_dir" "/tmp";
      E "webmon_shrink" "0";
      E "debug_nocommit" "0";
      E "debug_cprintf" "0";
      E "debug_cprintf_file" "0";
      E "debug_logsegfault" "0";
      E "console_loglevel" "1"]
  ++ ifelse (Not (Def "TOMATO64"))
       [E "t_cafree" "1"]
       [E "t_cafree" "0"]
  ++ [E "t_hidelr" "0";
      E "debug_ddns" "0"]
  ++ when (Def "TCONFIG_BCM714")
       [E "debug_wlx_shdown" "0"]
  ++ [E "http_nocache" "0";
      E "cifs1" EmptyString;
      E "cifs2" EmptyString;
      E "jffs2_on" "0";
      E "jffs2_exec" EmptyString;
      E "jffs2_auto_unmount" "0";
      E "tomatoanon_enable" "0";
      E "tomatoanon_notify" "1";
      E "tomatoanon_id" EmptyString].

Definition defaults_usb : table (string * option string) :=
  when (Def "TCONFIG_USB")
    ([E "usb_enable" "1"]
     ++ ifelse (Not (Def "TOMATO64"))
          ([E "usb_uhci" "0";
            E "usb_ohci" "0"])
          ([E "usb_uhci" "-1";
            E "usb_ohci" "1"])
     ++ [E "usb_usb2" "1"]
     ++ when (Def "TCONFIG_BCMARM")
          (ifelse (Not (Def "TOMATO64"))
             [E "usb_usb3" "0"]
             [E "usb_usb3" "1"])
     ++ when (Def "TCONFIG_MICROSD")
          [E "usb_mmc" "-1"]
     ++ [E "usb_irq_thresh" "0";
         E "usb_storage" "1";
         E "usb_printer" "0";
         E "usb_printer_bidirect" "0";
         E "usb_ext_opt" EmptyString;
         E "usb_fat_opt" EmptyString;
         E "usb_ntfs_opt" EmptyString]
     ++ ifelse (Def "TCONFIG_BCMARM")
          (ifelse (Not (Def "TOMATO64"))
             [E "usb_fs_exfat" "0"]
             [E "usb_fs_exfat" "1"]
           ++ [E "usb_fs_ext4" "1"])
          [E "usb_fs_ext3" "1"]
     ++ [E "usb_fs_fat" "1"]
     ++ when (Def "TCONFIG_NTFS")
          ([E "usb_fs_ntfs" "1"]
           ++ when (Def "TCONFIG_BCMARM")
                (ifelse (Def "TCONFIG_TUXERA")
                   [E "usb_ntfs_driver" "tuxera"]
                   (ifelse (Def "TCONFIG_UFSD")
                      [E "usb_ntfs_driver" "paragon"]
                      [E "usb_ntfs_driver" "ntfs3g"])))
     ++ when (Def "TCONFIG_HFS")
          (ifelse (Not (Def "TOMATO64"))
             [E "usb_fs_hfs" "0"]
             [E "usb_fs_hfs" "1"]
           ++ when (Def "TCONFIG_BCMARM")
                (ifelse (Def "TCONFIG_TUX_HFS")
                   [E "usb_hfs_driver" "tuxera"]
                   [E "usb_hfs_driver" "kernel"]))
     ++ when (Def "TCONFIG_ZFS")
          ([E "usb_fs_zfs" "0";
            E "usb_fs_zfs_automount" "1";
            E "zfs_mount_script" EmptyString])
     ++ when (Def "TCONFIG_UPS")
          ([E "usb_apcupsd" "0";
            E "usb_apcupsd_custom" "0"])
     ++ [E "usb_automount" "1";
         E "script_usbhotplug" EmptyString;
         E "script_usbmount" EmptyString;
         E "script_usbumount" EmptyString;
         E "idle_enable" "0"]).

Definition defaults_nas : table (string * option string) :=
  when (Def "TCONFIG_FTP")
    [E "ftp_enable" "0"]
  ++ when (Def "TCONFIG_SNMP")
       [E "snmp_enable" "0"]
  ++ when (Def "TCONFIG_SAMBASRV")
       ([E "smbd_enable" "0";
         E "smbd_wgroup" "WORKGROUP";
         E "smbd_master" "1";
         E "smbd_wins" "1";
         E "smbd_cpage" EmptyString;
         E "smbd_cset" "utf8";
         E "smbd_custom" EmptyString;
         E "smbd_autoshare" "2";
         E "smbd_shares" "jffs</jffs<JFFS<1<0>root$</<Hidden Root<0<1";
         E "smbd_user" "nas";
         E "smbd_passwd" EmptyString;
         E "smbd_ifnames" "br0"]
        ++ ifelse (Not (Def "TOMATO64"))
             [E "smbd_protocol" "2"]
             [E "smbd_protocol" "4"]
        ++ when (Def "TCONFIG_GROCTRL")
             [E "gro_disable" "1"])
  ++ when (Def "TCONFIG_MEDIA_SERVER")
       ([E "ms_enable" "0";
         E "ms_dirs" "/mnt<";
         E "ms_port" "0";
         E "ms_dbdir" EmptyString;
         E "ms_ifname" "br0";
         E "ms_tivo" "0";
         E "ms_stdlna" "0";
         E "ms_sas" "0";
         E "ms_autoscan" "1";
         E "ms_custom" EmptyString])
  ++ when (Def "TCONFIG_SDHC")
       ([E "mmc_on" "0";
         E "mmc_cs" "7";
         E "mmc_clk" "3";
         E "mmc_din" "2";
         E "mmc_dout" "4";
         E "mmc_fs_partition" "1";
         E "mmc_fs_type" "ext2";
         E "mmc_exec_mount" EmptyString;
         E "mmc_exec_umount" EmptyString]).

Definition defaults_sched_vpn : table (string * option string) :=
  [E "sch_rboot" EmptyString;
   E "sch_rcon" EmptyString;
   E "sch_c1" EmptyString;
   E "sch_c2" EmptyString;
   E "sch_c3" EmptyString;
   E "sch_c4" EmptyString;
   E "sch_c5" EmptyString;
   E "sch_c1_cmd" EmptyString;
   E "sch_c2_cmd" EmptyString;
   E "sch_c3_cmd" EmptyString;
   E "sch_c4_cmd" EmptyString;
   E "sch_c5_cmd" EmptyString;
   E "script_init" EmptyString;
   E "script_shut" EmptyString;
   E "script_fire" EmptyString;
   E "script_wanup" EmptyString;
   E "script_mwanup" EmptyString]
  ++ when (Def "TCONFIG_NFS")
       ([E "nfs_enable" "0";
         E "nfs_enable_v2" "0";
         E "nfs_exports" EmptyString])
  ++ when (Def "TCONFIG_OPENVPN")
       ([E "vpns_eas" EmptyString;
         E "vpns_dns" EmptyString;
         E "vpnc_eas" EmptyString])
  ++ when (Def "TCONFIG_PPTPD")
       ([E "pptpc_eas" "0";
         E "pptpc_usewan" "none";
         E "pptpc_peerdns" "0";
         E "pptpc_mtuenable" "0";
         E "pptpc_mtu" "1400";
         E "pptpc_mruenable" "0";
         E "pptpc_mru" "1400";
         E "pptpc_nat" "0";
         E "pptpc_srvip" EmptyString;
         E "pptpc_srvsub" "10.0.0.0";
         E "pptpc_srvsubmsk" "255.0.0.0";
         E "pptpc_username" EmptyString;
         E "pptpc_passwd" EmptyString;
         E "pptpc_crypt" "0";
         E "pptpc_custom" EmptyString;
         E "pptpc_dfltroute" "0";
         E "pptpc_stateless" "1";
         E "pptpd_chap" "0"])
  ++ when (Def "TCONFIG_TINC")
       ([E "tinc_enable" "0";
         E "tinc_name" EmptyString;
         E "tinc_devicetype" "tun";
         E "tinc_mode" "switch";
         E "tinc_vpn_netmask" "255.255.0.0";
         E "tinc_private_rsa" EmptyString;
         E "tinc_private_ed25519" EmptyString;
         E "tinc_custom" EmptyString;
         E "tinc_hosts" EmptyString;
         E "tinc_manual_firewall" EmptyString;
         E "tinc_manual_tinc_up" "0";
         E "tinc_poll" "0";
         E "tinc_tinc_up" EmptyString;
         E "tinc_tinc_down" EmptyString;
         E "tinc_host_up" EmptyString;
         E "tinc_host_down" EmptyString;
         E "tinc_subnet_up" EmptyString;
         E "tinc_subnet_down" EmptyString;
         E "tinc_firewall" EmptyString])
  ++ when (Def "TCONFIG_WIREGUARD")
       [E "wg_adns" EmptyString].

Definition defaults_transmission_bwl : table (string * option string) :=
  when (Def "TCONFIG_BT")
    ([E "bt_enable" "0"]
     ++ ifelse (Def "TCONFIG_BBT")
          [E "bt_binary" "internal"]
          [E "bt_binary" "optware"]
     ++ [E "bt_binary_custom" "/path/to/binaries/directory";
         E "bt_custom" EmptyString;
         E "bt_port" "51515";
         E "bt_dir" "/mnt";
         E "bt_incomplete" "1";
         E "bt_autoadd" "1";
         E "bt_settings" "down_dir";
         E "bt_settings_custom" "/etc/transmission";
         E "bt_rpc_enable" "1";
         E "bt_rpc_wan" "0";
         E "bt_auth" "1";
         E "bt_login" "admin";
         E "bt_password" "admin11";
         E "bt_port_gui" "9091";
         E "bt_dl_enable" "0";
         E "bt_ul_enable" "0";
         E "bt_dl" "248";
         E "bt_ul" "64";
         E "bt_peer_limit_global" "150";
         E "bt_peer_limit_per_torrent" "30";
         E "bt_ul_slot_per_torrent" "10";
         E "bt_ratio_enable" "0";
         E "bt_ratio" "1.0000";
         E "bt_ratio_idle_enable" "0";
         E "bt_ratio_idle" "30";
         E "bt_dht" "0";
         E "bt_pex" "0";
         E "bt_lpd" "0";
         E "bt_utp" "1";
         E "bt_blocklist" "0";
         E "bt_blocklist_url" "http://list.iblocklist.com/?list=bt_level1";
         E "bt_sleep" "10";
         E "bt_check_time" "15";
         E "bt_dl_queue_enable" "0";
         E "bt_dl_queue_size" "5";
         E "bt_ul_queue_enable" "0";
         E "bt_ul_queue_size" "5";
         E "bt_message" "2";
         E "bt_log" "0";
         E "bt_log_path" "/var/log"])
  ++ [E "bwl_enable" "0";
      E "bwl_rules" EmptyString;
      E "bwl_lan_enable" "0";
      E "bwl_lan_dlc" EmptyString;
      E "bwl_lan_ulc" EmptyString;
      E "bwl_lan_dlr" EmptyString;
      E "bwl_lan_ulr" EmptyString;
      E "bwl_lan_tcp" "0";
      E "bwl_lan_udp" "0";
      E "bwl_lan_prio" "3"]
  ++ when (Def "TOMATO64")
       ([E "quota_enable" "0";
         E "quota_rules" EmptyString;
         E "quota_nextid" "1";
         E "quota_path" EmptyString;
         E "quota_stime" "4"])
  ++ when (Def "TCONFIG_NOCAT")
       ([E "NC_enable" "0";
         E "NC_Verbosity" "2";
         E "NC_GatewayName" "Tomato64 Captive Portal";
         E "NC_GatewayPort" "5280";
         E "NC_GatewayMode" "Open";
         E "NC_DocumentRoot" "/tmp/splashd";
         E "NC_ExcludePorts" "1863";
         E "NC_HomePage" "https://startpage.com";
         E "NC_ForcedRedirect" "0";
         E "NC_IdleTimeout" "0";
         E "NC_MaxMissedARP" "5";
         E "NC_PeerChecktimeout" "0";
         E "NC_LoginTimeout" "3600";
         E "NC_RenewTimeout" "0";
         E "NC_AllowedWebHosts" EmptyString;
         E "NC_BridgeLAN" "br0"]).

Definition defaults_nocat_nginx : table (string * option string) :=
  when (Def "TCONFIG_NGINX")
    ([E "nginx_enable" "0";
      E "nginx_php" "0";
      E "nginx_keepconf" "0";
      E "nginx_docroot" "/www";
      E "nginx_port" "85";
      E "nginx_remote" "0";
      E "nginx_fqdn" "Tomato64";
      E "nginx_upload" "100";
      E "nginx_priority" "10";
      E "nginx_custom" EmptyString;
      E "nginx_httpcustom" EmptyString;
      E "nginx_servercustom" EmptyString;
      E "nginx_phpconf" EmptyString]
     ++ when (Def "TCONFIG_BCMARM")
          [E "nginx_phpfpmconf" EmptyString]
     ++ [E "nginx_user" "root";
         E "nginx_override" "0";
         E "nginx_overridefile" "/path/to/nginx.conf";
         E "nginx_h5aisupport" "0";
         E "nginx_sleep" "1";
         E "mysql_enable" "0";
         E "mysql_sleep" "2";
         E "mysql_check_time" "5";
         E "mysql_binary" "internal";
         E "mysql_binary_custom" "/mnt/sda1/mysql/bin"]
     ++ ifelse (Not (Def "TOMATO64"))
          [E "mysql_usb_enable" "1"]
          [E "mysql_usb_enable" "0"]
     ++ [E "mysql_dlroot" EmptyString]
     ++ ifelse (Not (Def "TOMATO64"))
          ([E "mysql_datadir" "data";
            E "mysql_tmpdir" "tmp"])
          ([E "mysql_datadir" "/mysql/data";
            E "mysql_tmpdir" "/mysql/tmp"])
     ++ [E "mysql_server_custom" EmptyString;
         E "mysql_port" "3306";
         E "mysql_allow_anyhost" "0";
         E "mysql_init_rootpass" "0";
         E "mysql_username" "root";
         E "mysql_passwd" "admin";
         E "mysql_key_buffer" "16";
         E "mysql_max_allowed_packet" "4";
         E "mysql_thread_stack" "128";
         E "mysql_thread_cache_size" "8";
         E "mysql_init_priv" "0";
         E "mysql_table_open_cache" "4";
         E "mysql_sort_buffer_size" "128";
         E "mysql_read_buffer_size" "128";
         E "mysql_query_cache_size" "16";
         E "mysql_read_rnd_buffer_size" "256";
         E "mysql_net_buffer_length" "2";
         E "mysql_max_connections" "100"])
  ++ when (Def "TCONFIG_TOR")
       ([E "tor_enable" "0";
         E "tor_solve_only" "0";
         E "tor_socksport" "9050";
         E "tor_transport" "9040";
         E "tor_dnsport" "9053";
         E "tor_ctrlport" "9051";
         E "tor_datadir" "/tmp/tor";
         E "tor_iface" "br0";
         E "tor_users" "192.168.1.0/24";
         E "tor_custom" EmptyString;
         E "tor_ports" "80";
         E "tor_ports_custom" "80,443,8080:8880"])
  ++ when (AtLeast "MWAN_MAX" 2)
       (WAN_BLOCK "2")
  ++ when (AtLeast "MWAN_MAX" 3)
       (WAN_BLOCK "3")
  ++ when (AtLeast "MWAN_MAX" 4)
       (WAN_BLOCK "4").

Definition defaults_blocks : table (string * option string) :=
  when (AtLeast "MWAN_MAX" 5)
    (WAN_BLOCK "5")
  ++ when (AtLeast "MWAN_MAX" 6)
       (WAN_BLOCK "6")
  ++ when (AtLeast "MWAN_MAX" 7)
       (WAN_BLOCK "7")
  ++ when (AtLeast "MWAN_MAX" 8)
       (WAN_BLOCK "8")
  ++ when (AtLeast "BRIDGE_COUNT" 2)
       (BRIDGE_BLOCK "1")
  ++ when (AtLeast "BRIDGE_COUNT" 3)
       (BRIDGE_BLOCK "2")
  ++ when (AtLeast "BRIDGE_COUNT" 4)
       (BRIDGE_BLOCK "3")
  ++ when (AtLeast "BRIDGE_COUNT" 5)
       (BRIDGE_BLOCK "4")
  ++ when (AtLeast "BRIDGE_COUNT" 6)
       (BRIDGE_BLOCK "5")
  ++ when (AtLeast "BRIDGE_COUNT" 7)
       (BRIDGE_BLOCK "6")
  ++ when (AtLeast "BRIDGE_COUNT" 8)
       (BRIDGE_BLOCK "7")
  ++ when (AtLeast "BRIDGE_COUNT" 9)
       (BRIDGE_BLOCK "8")
  ++ when (AtLeast "BRIDGE_COUNT" 10)
       (BRIDGE_BLOCK "9")
  ++ when (AtLeast "BRIDGE_COUNT" 11)
       (BRIDGE_BLOCK "10")
  ++ when (AtLeast "BRIDGE_COUNT" 12)
       (BRIDGE_BLOCK "11")
  ++ when (AtLeast "BRIDGE_COUNT" 13)
       (BRIDGE_BLOCK "12")
  ++ when (AtLeast "BRIDGE_COUNT" 14)
       (BRIDGE_BLOCK "13")
  ++ when (AtLeast "BRIDGE_COUNT" 15)
       (BRIDGE_BLOCK "14")
  ++ when (AtLeast "BRIDGE_COUNT" 16)
       (BRIDGE_BLOCK "15")
  ++ when (Def "TCONFIG_OPENVPN")
       (when (AtLeast "OVPN_CLIENT_COUNT" 1)
          (OVPNC_BLOCK "1")
        ++ when (AtLeast "OVPN_CLIENT_COUNT" 2)
             (OVPNC_BLOCK "2")
        ++ when (AtLeast "OVPN_CLIENT_COUNT" 3)
             (OVPNC_BLOCK "3")
        ++ when (AtLeast "OVPN_CLIENT_COUNT" 4)
             (OVPNC_BLOCK "4")
        ++ when (AtLeast "OVPN_CLIENT_COUNT" 5)
             (OVPNC_BLOCK "5")
        ++ when (AtLeast "OVPN_CLIENT_COUNT" 6)
             (OVPNC_BLOCK "6")
        ++ when (AtLeast "OVPN_CLIENT_COUNT" 7)
             (OVPNC_BLOCK "7")
        ++ when (AtLeast "OVPN_CLIENT_COUNT" 8)
             (OVPNC_BLOCK "8")
        ++ when (AtLeast "OVPN_CLIENT_COUNT" 9)
             (OVPNC_BLOCK "9")
        ++ when (AtLeast "OVPN_CLIENT_COUNT" 10)
             (OVPNC_BLOCK "10")
        ++ when (AtLeast "OVPN_SERVER_COUNT" 1)
             (OVPNS_BLOCK "1")
        ++ when (AtLeast "OVPN_SERVER_COUNT" 2)
             (OVPNS_BLOCK "2")
        ++ when (AtLeast "OVPN_SERVER_COUNT" 3)
             (OVPNS_BLOCK "3")
        ++ when (AtLeast "OVPN_SERVER_COUNT" 4)
             (OVPNS_BLOCK "4")
        ++ when (AtLeast "OVPN_SERVER_COUNT" 5)
             (OVPNS_BLOCK "5")
        ++ when (AtLeast "OVPN_SERVER_COUNT" 6)
             (OVPNS_BLOCK "6"))
  ++ when (Def "TCONFIG_WIREGUARD")
       (when (AtLeast "WG_INTERFACE_COUNT" 1)
          (WG_BLOCK "0")
        ++ when (AtLeast "WG_INTERFACE_COUNT" 2)
             (WG_BLOCK "1")
        ++ when (AtLeast "WG_INTERFACE_COUNT" 3)
             (WG_BLOCK "2")
        ++ when (AtLeast "WG_INTERFACE_COUNT" 4)
             (WG_BLOCK "3")
        ++ when (AtLeast "WG_INTERFACE_COUNT" 5)
             (WG_BLOCK "4")
        ++ when (AtLeast "WG_INTERFACE_COUNT" 6)
             (WG_BLOCK "5")
        ++ when (AtLeast "WG_INTERFACE_COUNT" 7)
             (WG_BLOCK "6")
        ++ when (AtLeast "WG_INTERFACE_COUNT" 8)
             (WG_BLOCK "7")).

Definition defaults_ports : table (string * option string) :=
  [E "set_macs" "0";
   E "fs_expanded" "0";
   E "fs_mount_ro" "0"]
  ++ ifelse (Not (Def "TOMATO64_BE14000"))
       [E "wan_ifnameX" "eth0"]
       [E "wan_ifnameX" "eth1"]
  ++ [E "wan_ifnameX_vlan" "vlan0";
      E "lan_ifname" "br0"]
  ++ when (Or (Def "TOMATO64_X86_64") (Def "TOMATO64_ARMSR"))
       [E "lan_ifnames" "eth1 eth2 eth3 eth4 eth5 eth6 eth7 eth8"]
  ++ when (Def "TOMATO64_MT6000")
       [E "lan_ifnames" "eth1 eth2 eth3 eth4 eth5"]
  ++ when (Def "TOMATO64_MT3600BE")
       [E "lan_ifnames" "eth1"]
  ++ when (Def "TOMATO64_BE12PRO")
       [E "lan_ifnames" "eth1 eth2 eth3 eth4"]
  ++ when (Def "TOMATO64_BE14000")
       [E "lan_ifnames" "eth0 eth2 eth3 eth4 eth5 eth6 eth7 eth8 eth9"]
  ++ when (Def "TOMATO64_BPIR3")
       [E "lan_ifnames" "eth1 eth2 eth3 eth4 eth5 eth6"]
  ++ when (Def "TOMATO64_BPIR3MINI")
       [E "lan_ifnames" "eth1"]
  ++ when (Def "TOMATO64_RPI4")
       [E "lan_ifnames" "eth1 eth2 eth3 eth4"]
  ++ when (Def "TOMATO64_R6S")
       [E "lan_ifnames" "eth1 eth2"]
  ++ when (Def "TOMATO64_R5S")
       [E "lan_ifnames" "eth1 eth2"]
  ++ when (Def "TOMATO64_R76S")
       [E "lan_ifnames" "eth1"]
  ++ when (Def "TOMATO64_BCM53XX")
       ([E "lan_ifnames" "eth1 eth2 eth3 eth4 wl0 wl1";
         E "wl_ifnames" "wl0 wl1";
         E "wl0_ifname" "wl0";
         E "wl1_ifname" "wl1";
         E "wl0_nband" "2"])
  ++ [E "lan_ifnames_vlan" "vlan1";
      E "boardflags" "0x0100"]
  ++ ifelse (Not (Def "TOMATO64_BE14000"))
       [E "vlan0ports" "0 9"]
       [E "vlan0ports" "1 10"]
  ++ when (Or (Def "TOMATO64_X86_64") (Def "TOMATO64_ARMSR"))
       [E "vlan1ports" "1 2 3 4 5 6 7 8 9*"]
  ++ when (Def "TOMATO64_MT6000")
       [E "vlan1ports" "1 2 3 4 5 9*"]
  ++ when (Def "TOMATO64_MT3600BE")
       [E "vlan1ports" "1 9*"]
  ++ when (Def "TOMATO64_BE12PRO")
       [E "vlan1ports" "1 2 3 4 9*"]
  ++ when (Def "TOMATO64_BE14000")
       [E "vlan1ports" "0 2 3 4 5 6 7 8 9 10*"]
  ++ when (Def "TOMATO64_BPIR3")
       [E "vlan1ports" "1 2 3 4 5 6 9*"]
  ++ when (Def "TOMATO64_BPIR3MINI")
       [E "vlan1ports" "1 9*"]
  ++ when (Def "TOMATO64_RPI4")
       [E "vlan1ports" "1 2 3 4 9*"]
  ++ when (Def "TOMATO64_R6S")
       [E "vlan1ports" "1 2 9*"]
  ++ when (Def "TOMATO64_R5S")
       [E "vlan1ports" "1 2 9*"]
  ++ when (Def "TOMATO64_R76S")
       [E "vlan1ports" "1 9*"]
  ++ when (Def "TOMATO64_BCM53XX")
       [E "vlan1ports" "1 2 3 4 9*"].

Definition defaults_panel : table (string * option string) :=
  when (Def "TOMATO64_BE14000")
    ([E "panel_pages" "menu traffic weather wifi wifitoggles radio qrcodes clients interfaces ports vpn system brightness reboot";
      E "panel_auto_lock" "5";
      E "panel_idle_mode" "on";
      E "panel_brightness" "100";
      E "panel_background" "7";
      E "panel_list_opacity" "85";
      E "panel_clock_24h" "1";
      E "panel_temp_unit" "c";
      E "panel_scroll" "1";
      E "panel_test_pages" "0";
      E "panel_pin" EmptyString;
      E "panel_latitude" EmptyString;
      E "panel_longitude" EmptyString]).

Definition defaults_wifi_phy : table (string * option string) :=
  [E "wifi_sta_list" EmptyString;
   E "wifi_phy_count" "0"]
  ++ ifelse (Def "TOMATO64_MT6000")
       [E "wifi_phy_count_expected" "2"]
       (ifelse (Def "TOMATO64_MT3600BE")
          [E "wifi_phy_count_expected" "2"]
          (ifelse (Def "TOMATO64_BE12PRO")
             [E "wifi_phy_count_expected" "2"]
             (ifelse (Def "TOMATO64_BE14000")
                [E "wifi_phy_count_expected" "3"]
                (ifelse (Def "TOMATO64_BPIR3")
                   [E "wifi_phy_count_expected" "2"]
                   (ifelse (Def "TOMATO64_BPIR3MINI")
                      [E "wifi_phy_count_expected" "2"]
                      (ifelse (Def "TOMATO64_RPI4")
                         [E "wifi_phy_count_expected" "1"]
                         (ifelse (Def "TOMATO64_R6S")
                            [E "wifi_phy_count_expected" "0"]
                            (ifelse (Def "TOMATO64_R5S")
                               [E "wifi_phy_count_expected" "0"]
                               (ifelse (Def "TOMATO64_R76S")
                                  [E "wifi_phy_count_expected" "0"]
                                  (ifelse (Def "TOMATO64_BCM53XX")
                                     [E "wifi_phy_count_expected" "0"]
                                     (ifelse (Def "TOMATO64_X86_64")
                                        [E "wifi_phy_count_expected" "0"]
                                        (ifelse (Def "TOMATO64_ARMSR")
                                           [E "wifi_phy_count_expected" "0"]
                                           [E "wifi_phy_count_expected" "0"]))))))))))))
  ++ WIFI_DEF_PHY_BLOCK "0" "2g" "20".

Definition defaults_wifi_iface0 : table (string * option string) :=
  ifelse (Or (Or (Or (Or (Or (Def "TOMATO64_MT6000") (Def "TOMATO64_MT3600BE")) (Def "TOMATO64_BE12PRO")) (Def "TOMATO64_BE14000")) (Def "TOMATO64_BPIR3")) (Def "TOMATO64_BPIR3MINI"))
    [E "wifi_phy0iface0_enable" "1"]
    [E "wifi_phy0iface0_enable" "0"]
  ++ [E "wifi_phy0iface0_mode" "ap";
      E "wifi_phy0iface0_essid" "Tomato64";
      E "wifi_phy0iface0_bssid" EmptyString;
      E "wifi_phy0iface0_network" "br0";
      E "wifi_phy0iface0_hidden" EmptyString;
      E "wifi_phy0iface0_wmm" "1";
      E "wifi_phy0iface0_uapsd" "1";
      E "wifi_phy0iface0_encryption" "psk2";
      E "wifi_phy0iface0_cipher" "auto";
      E "wifi_phy0iface0_key" "glmt6000";
      E "wifi_phy0iface0_isolate" EmptyString;
      E "wifi_phy0iface0_br_isolate" EmptyString;
      E "wifi_phy0iface0_ifname" EmptyString;
      E "wifi_phy0iface0_macfilter" EmptyString;
      E "wifi_phy0iface0_maclist" EmptyString;
      E "wifi_phy0iface0_custom" EmptyString;
      E "wifi_phy0iface0_mesh_fwding" "1";
      E "wifi_phy0iface0_mesh_rssi_threshold" "0";
      E "wifi_phy0iface0_ieee80211r" "0";
      E "wifi_phy0iface0_nasid" EmptyString;
      E "wifi_phy0iface0_mobility_domain" EmptyString;
      E "wifi_phy0iface0_reassociation_deadline" EmptyString;
      E "wifi_phy0iface0_ft_over_ds" "0";
      E "wifi_phy0iface0_ft_psk_generate_local" "1";
      E "wifi_phy0iface0_r0_key_lifetime" EmptyString;
      E "wifi_phy0iface0_r1_key_holder" EmptyString;
      E "wifi_phy0iface0_pmk_r1_push" "0";
      E "wifi_phy0iface0_r0kh" EmptyString;
      E "wifi_phy0iface0_r1kh" EmptyString;
      E "wifi_phy0iface0_ieee80211k" "0";
      E "wifi_phy0iface0_rrm_neighbor_report" "1";
      E "wifi_phy0iface0_rrm_beacon_report" "1";
      E "wifi_phy0iface0_time_advertisement" "0";
      E "wifi_phy0iface0_time_zone" EmptyString;
      E "wifi_phy0iface0_wnm_sleep_mode" "0";
      E "wifi_phy0iface0_wnm_sleep_mode_no_keys" "0";
      E "wifi_phy0iface0_bss_transition" "0";
      E "wifi_phy0iface0_proxy_arp" "0";
      E "wifi_phy0iface0_mlo" "0";
      E "wifi_phy0iface0_mlo_links" EmptyString].

Definition defaults_wifi_ifaces : table (string * option string) :=
  WIFI_DEF_PHY0_IFACES_1_15
  ++ when (AtLeast "WIFI_PHY_COUNT" 2)
       (WIFI_DEF_PHY_BLOCK "1" "5g" "80"
        ++ WIFI_DEF_PHY_IFACES "1")
  ++ when (AtLeast "WIFI_PHY_COUNT" 3)
       (ifelse (Not (Def "TOMATO64_BE14000"))
          (WIFI_DEF_PHY_BLOCK "2" "5g" "80")
          (WIFI_DEF_PHY_BLOCK "2" "6g" "160")
        ++ WIFI_DEF_PHY_IFACES "2").

Definition defaults_tail : table (string * option string) :=
  [E "ctf_disable" "1";
   E "flow_offloading" "0";
   E "wed_offloading" "0";
   E "bridger_enable" "0";
   E "packet_steering" "1";
   E "steering_flows" "0";
   E "steering_flows_custom" "0";
   E "tty_login" "1";
   E "port0_label" EmptyString;
   E "port1_label" EmptyString;
   E "port2_label" EmptyString;
   E "port3_label" EmptyString;
   E "port4_label" EmptyString;
   E "port5_label" EmptyString;
   E "port6_label" EmptyString;
   E "port7_label" EmptyString;
   E "port8_label" EmptyString;
   E "port9_label" EmptyString]
  ++ when (Def "TOMATO64_HAS_FAN")
       ([E "fan_mode" "0";
         E "fan_pwm" EmptyString;
         E "fan_trips" EmptyString;
         E "fan_curve" EmptyString]).

Definition router_defaults : table (string * option string) :=
  defaults_lan
  ++ defaults_wan
  ++ defaults_ipv6
  ++ defaults_wl_basic
  ++ defaults_wl_security
  ++ defaults_wl_driver
  ++ defaults_misc
  ++ defaults_basic
  ++ defaults_adblock_misc
  ++ defaults_dhcpdns_firewall
  ++ defaults_forward_qos
  ++ defaults_admin
  ++ defaults_buttons_log
  ++ defaults_usb
  ++ defaults_nas
  ++ defaults_sched_vpn
  ++ defaults_transmission_bwl
  ++ defaults_nocat_nginx
  ++ defaults_blocks
  ++ when (Def "TOMATO64")
       (defaults_ports ++ defaults_panel
        ++ when (Def "TOMATO64_WIFI")
             (defaults_wifi_phy ++ defaults_wifi_iface0 ++ defaults_wifi_ifaces)
        ++ defaults_tail).

End DefaultsTable.
