(* ===== verification/NvsetTable.v ===== *)
(** The fields of the settings form
    (src/tomato64/package/httpd/httpd/tomato.c, [nvset_list]) and how each is
    checked: [V name check]. *)

From Stdlib Require Import ZArith.
From stdpp Require Import base list strings.
From S2P Require Import Prelude BuildConfig.

Local Open Scope Z_scope.

Module NvsetTable.
Import BuildConfig.

(** The kind of a field with its arguments. *)
Inductive vtype :=
  | VT_NONE
  | VT_LENGTH (va vb : Z)
  | VT_TEXT (va vb : Z)
  | VT_RANGE (va vb : Z)
  | VT_IP (va : bool)
  | VT_MAC
  | VT_IPV6 (va : bool)
  | VT_TEMP.

Definition V_NONE : vtype := VT_NONE.
Definition V_01 : vtype := VT_RANGE 0 1.
Definition V_PORT : vtype := VT_RANGE 2 65535.
Definition V_ONOFF : vtype := VT_LENGTH 2 3.
Definition V_WORD : vtype := VT_LENGTH 1 16.
Definition V_LENGTH (min max : Z) : vtype := VT_LENGTH min max.
Definition V_TEXT (min max : Z) : vtype := VT_TEXT min max.
Definition V_RANGE (min max : Z) : vtype := VT_RANGE min max.
Definition V_IP : vtype := VT_IP true.
Definition V_IPOPT : vtype := VT_IP false.
Definition V_NUM : vtype := VT_RANGE 0 2147483647.
Definition V_TEMP : vtype := VT_TEMP.
Definition V_IPV6 (required : bool) : vtype := VT_IPV6 required.

Definition V (name : string) (check : vtype) : cond * (string * vtype) := (Always, (name, check)).

Section Table.
Context {cfg : Config}.

(** ** Blocks for every WAN, bridge, radio and tunnel *)

Definition WAN_BLOCK_CORE (i : string) : table (string * vtype) :=
  [V ("wan" +:+ i +:+ "_proto") (V_LENGTH 1 16);
   V ("wan" +:+ i +:+ "_weight") (V_RANGE 0 256);
   V ("wan" +:+ i +:+ "_ipaddr") V_IP;
   V ("wan" +:+ i +:+ "_netmask") V_IP;
   V ("wan" +:+ i +:+ "_gateway") V_IP;
   V ("wan" +:+ i +:+ "_hwaddr") (V_TEXT 0 17);
   V ("wan" +:+ i +:+ "_iface") (V_TEXT 0 8);
   V ("wan" +:+ i +:+ "_ifname") (V_TEXT 0 8);
   V ("wan" +:+ i +:+ "_l2tp_server_ip") (V_LENGTH 0 128);
   V ("wan" +:+ i +:+ "_pptp_server_ip") (V_LENGTH 0 128);
   V ("wan" +:+ i +:+ "_pptp_dhcp") V_01;
   V ("wan" +:+ i +:+ "_ppp_username") (V_LENGTH 0 60);
   V ("wan" +:+ i +:+ "_ppp_passwd") (V_LENGTH 0 60);
   V ("wan" +:+ i +:+ "_ppp_service") (V_LENGTH 0 50);
   V ("wan" +:+ i +:+ "_ppp_demand") V_01;
   V ("wan" +:+ i +:+ "_ppp_demand_dnsip") V_IP;
   V ("wan" +:+ i +:+ "_ppp_custom") (V_LENGTH 0 256);
   V ("wan" +:+ i +:+ "_ppp_idletime") (V_RANGE 0 1440);
   V ("wan" +:+ i +:+ "_ppp_redialperiod") (V_RANGE 1 86400);
   V ("wan" +:+ i +:+ "_mtu_enable") V_01;
   V ("wan" +:+ i +:+ "_mtu") (V_RANGE 576 1500);
   V ("wan" +:+ i +:+ "_modem_ipaddr") V_IP;
   V ("wan" +:+ i +:+ "_pppoe_lei") (V_RANGE 1 60);
   V ("wan" +:+ i +:+ "_pppoe_lef") (V_RANGE 1 10);
   V ("wan" +:+ i +:+ "_sta") (V_LENGTH 0 15);
   V ("wan" +:+ i +:+ "_dns") (V_LENGTH 0 50);
   V ("wan" +:+ i +:+ "_dns_auto") V_01;
   V ("wan" +:+ i +:+ "_addget") V_01;
   V ("wan" +:+ i +:+ "_ckmtd") (V_LENGTH 1 2);
   V ("wan" +:+ i +:+ "_ck_pause") V_01;
   V ("wan" +:+ i +:+ "_mac") (V_LENGTH 0 17);
   V ("wan" +:+ i +:+ "_qos_obw") (V_RANGE 10 99999999);
   V ("wan" +:+ i +:+ "_qos_ibw") (V_RANGE 10 99999999);
   V ("wan" +:+ i +:+ "_qos_overhead") (V_RANGE (-127) 128)].

Definition WAN_BLOCK_BCMARM (i : string) : table (string * vtype) :=
  when (Def "TCONFIG_BCMARM")
    [V ("wan" +:+ i +:+ "_qos_encap") V_NUM].

Definition WAN_BLOCK_USB (i : string) : table (string * vtype) :=
  when (Def "TCONFIG_USB")
    ([V ("wan" +:+ i +:+ "_modem_pin") (V_LENGTH 0 6);
      V ("wan" +:+ i +:+ "_modem_dev") (V_LENGTH 0 14);
      V ("wan" +:+ i +:+ "_modem_init") (V_LENGTH 0 25);
      V ("wan" +:+ i +:+ "_modem_apn") (V_LENGTH 0 25);
      V ("wan" +:+ i +:+ "_modem_speed") (V_LENGTH 0 6);
      V ("wan" +:+ i +:+ "_modem_band") (V_LENGTH 0 16);
      V ("wan" +:+ i +:+ "_modem_roam") (V_RANGE 0 3);
      V ("wan" +:+ i +:+ "_modem_if") (V_LENGTH 0 4);
      V ("wan" +:+ i +:+ "_modem_type") (V_LENGTH 0 15);
      V ("wan" +:+ i +:+ "_hilink_ip") V_IP;
      V ("wan" +:+ i +:+ "_status_script") V_01]).

Definition WAN_BLOCK_ZEBRA (i : string) : table (string * vtype) :=
  when (Def "TCONFIG_ZEBRA")
    ([V ("dr_wan" +:+ i +:+ "_tx") (V_LENGTH 0 32);
      V ("dr_wan" +:+ i +:+ "_rx") (V_LENGTH 0 32)]).

Definition WAN_BLOCK_EXTRA (i : string) : table (string * vtype) :=
  when (Not (Def "TCONFIG_OPTIMIZE_SIZE_MORE"))
    [V ("wan" +:+ i +:+ "_ppp_mlppp") V_01].

Definition WAN_BLOCK (i : string) : table (string * vtype) :=
  WAN_BLOCK_CORE i
  ++ WAN_BLOCK_BCMARM i
  ++ WAN_BLOCK_USB i
  ++ WAN_BLOCK_ZEBRA i
  ++ WAN_BLOCK_EXTRA i.

Definition BRIDGE_BLOCK_CORE (i : string) : table (string * vtype) :=
  [V ("lan" +:+ i +:+ "_ifname") (V_LENGTH 0 5);
   V ("lan" +:+ i +:+ "_ifnames") (V_TEXT 0 256);
   V ("lan" +:+ i +:+ "_ifnames_vlan") (V_TEXT 0 8);
   V ("lan" +:+ i +:+ "_ipaddr") (V_LENGTH 0 15);
   V ("lan" +:+ i +:+ "_netmask") (V_LENGTH 0 15);
   V ("lan" +:+ i +:+ "_proto") (V_LENGTH 0 6);
   V ("lan" +:+ i +:+ "_stp") (V_LENGTH 0 1);
   V ("dhcpd" +:+ i +:+ "_startip") (V_LENGTH 0 15);
   V ("dhcpd" +:+ i +:+ "_endip") (V_LENGTH 0 15);
   V ("dhcpd" +:+ i +:+ "_ostatic") V_01;
   V ("dhcp" +:+ i +:+ "_lease") (V_LENGTH 0 5);
   V ("upnp_lan" +:+ i) V_01;
   V ("bwl_lan" +:+ i +:+ "_enable") V_01;
   V ("bwl_lan" +:+ i +:+ "_dlc") (V_RANGE 0 99999999);
   V ("bwl_lan" +:+ i +:+ "_ulc") (V_RANGE 0 99999999);
   V ("bwl_lan" +:+ i +:+ "_dlr") (V_RANGE 0 99999999);
   V ("bwl_lan" +:+ i +:+ "_ulr") (V_RANGE 0 99999999);
   V ("bwl_lan" +:+ i +:+ "_prio") (V_RANGE 0 5)].

Definition BRIDGE_BLOCK_PROXY (i : string) : table (string * vtype) :=
  when (Def "TCONFIG_PROXY")
    ([V ("multicast_lan" +:+ i) V_01;
      V ("udpxy_lan" +:+ i) V_01]).

Definition BRIDGE_BLOCK_ZEBRA (i : string) : table (string * vtype) :=
  when (Def "TCONFIG_ZEBRA")
    ([V ("dr_lan" +:+ i +:+ "_tx") (V_LENGTH 0 32);
      V ("dr_lan" +:+ i +:+ "_rx") (V_LENGTH 0 32)]).

Definition BRIDGE_BLOCK_USB_EXTRAS (i : string) : table (string * vtype) :=
  when (Def "TCONFIG_USB_EXTRAS")
    [V ("dnsmasq_pxelan" +:+ i) V_01].

Definition BRIDGE_BLOCK (i : string) : table (string * vtype) :=
  BRIDGE_BLOCK_CORE i
  ++ BRIDGE_BLOCK_PROXY i
  ++ BRIDGE_BLOCK_ZEBRA i
  ++ BRIDGE_BLOCK_USB_EXTRAS i.

Definition WIFI_PHY_BLOCK (p : string) : table (string * vtype) :=
  [V ("wifi_phy" +:+ p +:+ "_band") (V_TEXT 2 2);
   V ("wifi_phy" +:+ p +:+ "_mode") (V_TEXT 1 6);
   V ("wifi_phy" +:+ p +:+ "_channel") (V_TEXT 1 4);
   V ("wifi_phy" +:+ p +:+ "_width") (V_TEXT 2 3);
   V ("wifi_phy" +:+ p +:+ "_brates") V_NONE;
   V ("wifi_phy" +:+ p +:+ "_cell_density") (V_RANGE 0 3);
   V ("wifi_phy" +:+ p +:+ "_noscan") V_NONE;
   V ("wifi_phy" +:+ p +:+ "_power") (V_TEXT 0 2);
   V ("wifi_phy" +:+ p +:+ "_country") (V_TEXT 0 2);
   V ("wifi_phy" +:+ p +:+ "_ifaces") (V_RANGE 0 16);
   V ("wifi_phy" +:+ p +:+ "_custom") V_NONE].

Definition WIFI_IFACE_BLOCK (p : string) (i : string) : table (string * vtype) :=
  [V ("wifi_phy" +:+ p +:+ "iface" +:+ i +:+ "_enable") (V_RANGE 0 1);
   V ("wifi_phy" +:+ p +:+ "iface" +:+ i +:+ "_mode") (V_TEXT 2 7);
   V ("wifi_phy" +:+ p +:+ "iface" +:+ i +:+ "_essid") (V_TEXT 0 32);
   V ("wifi_phy" +:+ p +:+ "iface" +:+ i +:+ "_bssid") (V_TEXT 0 17);
   V ("wifi_phy" +:+ p +:+ "iface" +:+ i +:+ "_network") (V_TEXT 0 3);
   V ("wifi_phy" +:+ p +:+ "iface" +:+ i +:+ "_hidden") V_NONE;
   V ("wifi_phy" +:+ p +:+ "iface" +:+ i +:+ "_wmm") (V_RANGE 0 1);
   V ("wifi_phy" +:+ p +:+ "iface" +:+ i +:+ "_uapsd") (V_RANGE 0 1);
   V ("wifi_phy" +:+ p +:+ "iface" +:+ i +:+ "_encryption") V_NONE;
   V ("wifi_phy" +:+ p +:+ "iface" +:+ i +:+ "_cipher") V_NONE;
   V ("wifi_phy" +:+ p +:+ "iface" +:+ i +:+ "_key") (V_LENGTH 8 64);
   V ("wifi_phy" +:+ p +:+ "iface" +:+ i +:+ "_isolate") V_NONE;
   V ("wifi_phy" +:+ p +:+ "iface" +:+ i +:+ "_br_isolate") V_NONE;
   V ("wifi_phy" +:+ p +:+ "iface" +:+ i +:+ "_ifname") (V_TEXT 0 15);
   V ("wifi_phy" +:+ p +:+ "iface" +:+ i +:+ "_macfilter") (V_TEXT 0 5);
   V ("wifi_phy" +:+ p +:+ "iface" +:+ i +:+ "_maclist") V_NONE;
   V ("wifi_phy" +:+ p +:+ "iface" +:+ i +:+ "_custom") V_NONE;
   V ("wifi_phy" +:+ p +:+ "iface" +:+ i +:+ "_mesh_fwding") (V_RANGE 0 1);
   V ("wifi_phy" +:+ p +:+ "iface" +:+ i +:+ "_mesh_rssi_threshold") (V_RANGE (-255) 1);
   V ("wifi_phy" +:+ p +:+ "iface" +:+ i +:+ "_ieee80211r") V_01;
   V ("wifi_phy" +:+ p +:+ "iface" +:+ i +:+ "_nasid") (V_TEXT 0 48);
   V ("wifi_phy" +:+ p +:+ "iface" +:+ i +:+ "_mobility_domain") (V_TEXT 0 4);
   V ("wifi_phy" +:+ p +:+ "iface" +:+ i +:+ "_reassociation_deadline") (V_TEXT 0 5);
   V ("wifi_phy" +:+ p +:+ "iface" +:+ i +:+ "_ft_over_ds") (V_RANGE 0 1);
   V ("wifi_phy" +:+ p +:+ "iface" +:+ i +:+ "_ft_psk_generate_local") V_01;
   V ("wifi_phy" +:+ p +:+ "iface" +:+ i +:+ "_r0_key_lifetime") (V_TEXT 0 10);
   V ("wifi_phy" +:+ p +:+ "iface" +:+ i +:+ "_r1_key_holder") (V_TEXT 0 12);
   V ("wifi_phy" +:+ p +:+ "iface" +:+ i +:+ "_pmk_r1_push") V_01;
   V ("wifi_phy" +:+ p +:+ "iface" +:+ i +:+ "_r0kh") V_NONE;
   V ("wifi_phy" +:+ p +:+ "iface" +:+ i +:+ "_r1kh") V_NONE;
   V ("wifi_phy" +:+ p +:+ "iface" +:+ i +:+ "_ieee80211k") V_01;
   V ("wifi_phy" +:+ p +:+ "iface" +:+ i +:+ "_rrm_neighbor_report") V_01;
   V ("wifi_phy" +:+ p +:+ "iface" +:+ i +:+ "_rrm_beacon_report") V_01;
   V ("wifi_phy" +:+ p +:+ "iface" +:+ i +:+ "_time_advertisement") (V_RANGE 0 2);
   V ("wifi_phy" +:+ p +:+ "iface" +:+ i +:+ "_time_zone") (V_TEXT 0 64);
   V ("wifi_phy" +:+ p +:+ "iface" +:+ i +:+ "_wnm_sleep_mode") V_01;
   V ("wifi_phy" +:+ p +:+ "iface" +:+ i +:+ "_wnm_sleep_mode_no_keys") V_01;
   V ("wifi_phy" +:+ p +:+ "iface" +:+ i +:+ "_bss_transition") V_01;
   V ("wifi_phy" +:+ p +:+ "iface" +:+ i +:+ "_proxy_arp") V_01;
   V ("wifi_phy" +:+ p +:+ "iface" +:+ i +:+ "_mlo") V_01;
   V ("wifi_phy" +:+ p +:+ "iface" +:+ i +:+ "_mlo_links") (V_TEXT 0 16)].

Definition WIFI_PHY_IFACES (p : string) : table (string * vtype) :=
  WIFI_IFACE_BLOCK p "0"
  ++ WIFI_IFACE_BLOCK p "1"
  ++ WIFI_IFACE_BLOCK p "2"
  ++ WIFI_IFACE_BLOCK p "3"
  ++ WIFI_IFACE_BLOCK p "4"
  ++ WIFI_IFACE_BLOCK p "5"
  ++ WIFI_IFACE_BLOCK p "6"
  ++ WIFI_IFACE_BLOCK p "7"
  ++ WIFI_IFACE_BLOCK p "8"
  ++ WIFI_IFACE_BLOCK p "9"
  ++ WIFI_IFACE_BLOCK p "10"
  ++ WIFI_IFACE_BLOCK p "11"
  ++ WIFI_IFACE_BLOCK p "12"
  ++ WIFI_IFACE_BLOCK p "13"
  ++ WIFI_IFACE_BLOCK p "14"
  ++ WIFI_IFACE_BLOCK p "15".

Definition WIFI_BLOCK (p : string) : table (string * vtype) :=
  WIFI_PHY_BLOCK p
  ++ WIFI_PHY_IFACES p.

Definition OVPNS_BLOCK (i : string) : table (string * vtype) :=
  [V ("vpns" +:+ i +:+ "_poll") (V_RANGE 0 30);
   V ("vpns" +:+ i +:+ "_if") (V_TEXT 3 3);
   V ("vpns" +:+ i +:+ "_proto") (V_TEXT 3 11);
   V ("vpns" +:+ i +:+ "_port") V_PORT;
   V ("vpns" +:+ i +:+ "_firewall") (V_TEXT 0 8);
   V ("vpns" +:+ i +:+ "_crypt") (V_TEXT 0 6);
   V ("vpns" +:+ i +:+ "_cipher") (V_TEXT 0 16);
   V ("vpns" +:+ i +:+ "_ncp_ciphers") (V_TEXT 0 128);
   V ("vpns" +:+ i +:+ "_digest") (V_TEXT 0 15);
   V ("vpns" +:+ i +:+ "_dhcp") V_01;
   V ("vpns" +:+ i +:+ "_r1") V_IP;
   V ("vpns" +:+ i +:+ "_r2") V_IP;
   V ("vpns" +:+ i +:+ "_sn") V_IP;
   V ("vpns" +:+ i +:+ "_nm") V_IP;
   V ("vpns" +:+ i +:+ "_local") V_IP;
   V ("vpns" +:+ i +:+ "_remote") V_IP;
   V ("vpns" +:+ i +:+ "_reneg") (V_RANGE (-1) 2147483647);
   V ("vpns" +:+ i +:+ "_hmac") (V_RANGE (-1) 4);
   V ("vpns" +:+ i +:+ "_plan") V_NONE;
   V ("vpns" +:+ i +:+ "_pdns") V_01;
   V ("vpns" +:+ i +:+ "_rgw") V_01;
   V ("vpns" +:+ i +:+ "_userpass") V_01;
   V ("vpns" +:+ i +:+ "_nocert") V_01;
   V ("vpns" +:+ i +:+ "_users_val") V_NONE;
   V ("vpns" +:+ i +:+ "_custom") V_NONE;
   V ("vpns" +:+ i +:+ "_ccd") V_01;
   V ("vpns" +:+ i +:+ "_c2c") V_01;
   V ("vpns" +:+ i +:+ "_ccd_excl") V_01;
   V ("vpns" +:+ i +:+ "_ccd_val") V_NONE;
   V ("vpns" +:+ i +:+ "_static") V_NONE;
   V ("vpns" +:+ i +:+ "_ca") V_NONE;
   V ("vpns" +:+ i +:+ "_ca_key") V_NONE;
   V ("vpns" +:+ i +:+ "_crt") V_NONE;
   V ("vpns" +:+ i +:+ "_crl") V_NONE;
   V ("vpns" +:+ i +:+ "_key") V_NONE;
   V ("vpns" +:+ i +:+ "_dh") V_NONE;
   V ("vpns" +:+ i +:+ "_br") (V_LENGTH 0 50);
   V ("vpns" +:+ i +:+ "_dco") V_01;
   V ("vpns" +:+ i +:+ "_ecdh") V_01].

Definition OVPNC_BLOCK (i : string) : table (string * vtype) :=
  [V ("vpnc" +:+ i +:+ "_poll") (V_RANGE 0 30);
   V ("vpnc" +:+ i +:+ "_tchk") V_01;
   V ("vpnc" +:+ i +:+ "_tunchk") V_IPOPT;
   V ("vpnc" +:+ i +:+ "_if") (V_TEXT 3 3);
   V ("vpnc" +:+ i +:+ "_bridge") V_01;
   V ("vpnc" +:+ i +:+ "_nat") V_01;
   V ("vpnc" +:+ i +:+ "_proto") (V_TEXT 3 11);
   V ("vpnc" +:+ i +:+ "_addr") V_NONE;
   V ("vpnc" +:+ i +:+ "_port") V_PORT;
   V ("vpnc" +:+ i +:+ "_retry") (V_RANGE (-1) 32767);
   V ("vpnc" +:+ i +:+ "_firewall") (V_TEXT 0 6);
   V ("vpnc" +:+ i +:+ "_crypt") (V_TEXT 0 6);
   V ("vpnc" +:+ i +:+ "_cipher") (V_TEXT 0 16);
   V ("vpnc" +:+ i +:+ "_ncp_ciphers") (V_TEXT 0 128);
   V ("vpnc" +:+ i +:+ "_digest") (V_TEXT 0 15);
   V ("vpnc" +:+ i +:+ "_local") V_IP;
   V ("vpnc" +:+ i +:+ "_remote") V_IP;
   V ("vpnc" +:+ i +:+ "_nm") V_IP;
   V ("vpnc" +:+ i +:+ "_reneg") (V_RANGE (-1) 2147483647);
   V ("vpnc" +:+ i +:+ "_hmac") (V_RANGE (-1) 4);
   V ("vpnc" +:+ i +:+ "_adns") (V_RANGE 0 3);
   V ("vpnc" +:+ i +:+ "_rgw") (V_RANGE 0 3);
   V ("vpnc" +:+ i +:+ "_gw") (V_TEXT 0 15);
   V ("vpnc" +:+ i +:+ "_custom") V_NONE;
   V ("vpnc" +:+ i +:+ "_static") V_NONE;
   V ("vpnc" +:+ i +:+ "_ca") V_NONE;
   V ("vpnc" +:+ i +:+ "_crt") V_NONE;
   V ("vpnc" +:+ i +:+ "_key") V_NONE;
   V ("vpnc" +:+ i +:+ "_userauth") V_01;
   V ("vpnc" +:+ i +:+ "_username") (V_TEXT 0 50);
   V ("vpnc" +:+ i +:+ "_password") (V_TEXT 0 70);
   V ("vpnc" +:+ i +:+ "_useronly") V_01;
   V ("vpnc" +:+ i +:+ "_tlsremote") V_01;
   V ("vpnc" +:+ i +:+ "_tlsvername") (V_RANGE 0 3);
   V ("vpnc" +:+ i +:+ "_cn") V_NONE;
   V ("vpnc" +:+ i +:+ "_br") (V_LENGTH 0 50);
   V ("vpnc" +:+ i +:+ "_routing_val") V_NONE;
   V ("vpnc" +:+ i +:+ "_fw") V_01;
   V ("vpnc" +:+ i +:+ "_dco") V_01;
   V ("vpnc" +:+ i +:+ "_prio") V_NONE].

Definition WG_BLOCK (i : string) : table (string * vtype) :=
  [V ("wg" +:+ i +:+ "_enable") V_01;
   V ("wg" +:+ i +:+ "_poll") (V_RANGE 0 30);
   V ("wg" +:+ i +:+ "_tchk") V_01;
   V ("wg" +:+ i +:+ "_tunchk") V_IPOPT;
   V ("wg" +:+ i +:+ "_sleep") (V_RANGE 1 99);
   V ("wg" +:+ i +:+ "_file") (V_TEXT 0 64);
   V ("wg" +:+ i +:+ "_key") (V_TEXT 0 44);
   V ("wg" +:+ i +:+ "_endpoint") V_NONE;
   V ("wg" +:+ i +:+ "_port") V_NONE;
   V ("wg" +:+ i +:+ "_ip") (V_TEXT 0 32);
   V ("wg" +:+ i +:+ "_fwmark") (V_TEXT 0 8);
   V ("wg" +:+ i +:+ "_mtu") (V_RANGE 0 1500);
   V ("wg" +:+ i +:+ "_preup") V_NONE;
   V ("wg" +:+ i +:+ "_postup") V_NONE;
   V ("wg" +:+ i +:+ "_predown") V_NONE;
   V ("wg" +:+ i +:+ "_postdown") V_NONE;
   V ("wg" +:+ i +:+ "_aip") (V_TEXT 0 128);
   V ("wg" +:+ i +:+ "_dns") V_NONE;
   V ("wg" +:+ i +:+ "_ka") (V_RANGE 0 99);
   V ("wg" +:+ i +:+ "_com") (V_RANGE 0 3);
   V ("wg" +:+ i +:+ "_lan") (V_RANGE 0 255);
   V ("wg" +:+ i +:+ "_rgw") V_01;
   V ("wg" +:+ i +:+ "_route") V_NONE;
   V ("wg" +:+ i +:+ "_peer_dns") (V_TEXT 0 128);
   V ("wg" +:+ i +:+ "_peers") V_NONE;
   V ("wg" +:+ i +:+ "_firewall") (V_TEXT 0 6);
   V ("wg" +:+ i +:+ "_nat") V_01;
   V ("wg" +:+ i +:+ "_fw") V_01;
   V ("wg" +:+ i +:+ "_rgwr") (V_RANGE 1 3);
   V ("wg" +:+ i +:+ "_routing_val") V_NONE;
   V ("wg" +:+ i +:+ "_prio") V_NONE].

(** ** The table *)

Definition nvset_basic : table (string * vtype) :=
  [V "router_name" (V_LENGTH 0 32);
   V "wan_hostname" (V_LENGTH 0 32);
   V "wan_domain" (V_LENGTH 0 32);
   V "tm_tz" (V_LENGTH 1 64);
   V "tm_sel" (V_LENGTH 1 64);
   V "tm_dst" V_01;
   V "ntp_updates" (V_RANGE (-1) 24);
   V "ntp_server" (V_LENGTH 1 150);
   V "ntpd_ready" V_01;
   V "ntpd_enable" (V_RANGE 0 2);
   V "ntpd_server_redir" V_01;
   V "dhcpd_static" (V_LENGTH 0 27108);
   V "ddnsx0" (V_LENGTH 0 2048);
   V "ddnsx1" (V_LENGTH 0 2048)]
  ++ when (And (Not (Def "TCONFIG_NVRAM_32K")) (Not (Def "TCONFIG_OPTIMIZE_SIZE")))
       ([V "ddnsx2" (V_LENGTH 0 2048);
         V "ddnsx3" (V_LENGTH 0 2048)])
  ++ [V "ddnsx0_cache" (V_LENGTH 0 1);
      V "ddnsx1_cache" (V_LENGTH 0 1)]
  ++ when (And (Not (Def "TCONFIG_NVRAM_32K")) (Not (Def "TCONFIG_OPTIMIZE_SIZE")))
       ([V "ddnsx2_cache" (V_LENGTH 0 1);
         V "ddnsx3_cache" (V_LENGTH 0 1)])
  ++ [V "ddnsx0_ip" (V_LENGTH 0 32);
      V "ddnsx1_ip" (V_LENGTH 0 32)]
  ++ when (And (Not (Def "TCONFIG_NVRAM_32K")) (Not (Def "TCONFIG_OPTIMIZE_SIZE")))
       ([V "ddnsx2_ip" (V_LENGTH 0 32);
         V "ddnsx3_ip" (V_LENGTH 0 32)])
  ++ [V "ddnsx0_save" V_01;
      V "ddnsx1_save" V_01]
  ++ when (And (Not (Def "TCONFIG_NVRAM_32K")) (Not (Def "TCONFIG_OPTIMIZE_SIZE")))
       ([V "ddnsx2_save" V_01;
         V "ddnsx3_save" V_01])
  ++ [V "ddnsx0_refresh" (V_RANGE 0 365);
      V "ddnsx1_refresh" (V_RANGE 0 365)]
  ++ when (And (Not (Def "TCONFIG_NVRAM_32K")) (Not (Def "TCONFIG_OPTIMIZE_SIZE")))
       ([V "ddnsx2_refresh" (V_RANGE 0 365);
         V "ddnsx3_refresh" (V_RANGE 0 365)])
  ++ [V "ddnsx0_cktime" (V_RANGE 5 99999);
      V "ddnsx1_cktime" (V_RANGE 5 99999)]
  ++ when (And (Not (Def "TCONFIG_NVRAM_32K")) (Not (Def "TCONFIG_OPTIMIZE_SIZE")))
       ([V "ddnsx2_cktime" (V_RANGE 5 99999);
         V "ddnsx3_cktime" (V_RANGE 5 99999)])
  ++ [V "ddnsx0_opendns" (V_RANGE 0 15);
      V "ddnsx1_opendns" (V_RANGE 0 15)]
  ++ when (And (Not (Def "TCONFIG_NVRAM_32K")) (Not (Def "TCONFIG_OPTIMIZE_SIZE")))
       ([V "ddnsx2_opendns" (V_RANGE 0 15);
         V "ddnsx3_opendns" (V_RANGE 0 15)])
  ++ [V "ddnsx_custom_if" (V_LENGTH 0 6)].

Definition nvset_wan : table (string * vtype) :=
  [V "mwan_num" (V_RANGE 1 (count "MWAN_MAX"));
   V "mwan_init" V_01;
   V "mwan_cktime" (V_RANGE 0 3600);
   V "mwan_ckdst" (V_LENGTH 0 64);
   V "mwan_tune_gc" V_01;
   V "mwan_state_init" V_01;
   V "pbr_rules" (V_LENGTH 0 2048);
   V "wan_proto" (V_LENGTH 1 16);
   V "wan_weight" (V_RANGE 0 256);
   V "wan_ipaddr" V_IP;
   V "wan_netmask" V_IP;
   V "wan_gateway" V_IP;
   V "wan_hwaddr" (V_TEXT 0 17);
   V "wan_iface" (V_TEXT 0 8);
   V "wan_ifname" (V_TEXT 0 8);
   V "hb_server_ip" (V_LENGTH 0 32);
   V "wan_l2tp_server_ip" (V_LENGTH 0 128);
   V "wan_pptp_server_ip" (V_LENGTH 0 128);
   V "wan_pptp_dhcp" V_01;
   V "wan_ppp_username" (V_LENGTH 0 60);
   V "wan_ppp_passwd" (V_LENGTH 0 60);
   V "wan_ppp_service" (V_LENGTH 0 50);
   V "wan_ppp_demand" V_01;
   V "wan_ppp_demand_dnsip" V_IP;
   V "wan_ppp_custom" (V_LENGTH 0 256);
   V "wan_ppp_idletime" (V_RANGE 0 1440);
   V "wan_ppp_redialperiod" (V_RANGE 1 86400)]
  ++ when (Not (Def "TCONFIG_OPTIMIZE_SIZE_MORE"))
       [V "wan_ppp_mlppp" V_01]
  ++ [V "wan_mtu_enable" V_01;
      V "wan_mtu" (V_RANGE 576 1500);
      V "wan_modem_ipaddr" V_IP;
      V "wan_pppoe_lei" (V_RANGE 1 60);
      V "wan_pppoe_lef" (V_RANGE 1 10)]
  ++ ifelse (Not (Def "TOMATO64"))
       [V "wan_sta" (V_LENGTH 0 10)]
       [V "wan_sta" (V_LENGTH 0 15)]
  ++ [V "wan_dns" (V_LENGTH 0 50);
      V "wan_dns_auto" V_01;
      V "wan_addget" V_01]
  ++ when (Def "TCONFIG_USB")
       ([V "wan_hilink_ip" V_IP;
         V "wan_status_script" V_01])
  ++ [V "wan_ckmtd" (V_LENGTH 1 2);
      V "wan_ck_pause" V_01]
  ++ when (Def "TCONFIG_DNSCRYPT")
       ([V "dnscrypt_proxy" V_01;
         V "dnscrypt_priority" (V_RANGE 0 2);
         V "dnscrypt_port" V_PORT;
         V "dnscrypt_resolver" (V_LENGTH 0 40);
         V "dnscrypt_log" (V_RANGE 0 99);
         V "dnscrypt_manual" V_01;
         V "dnscrypt_provider_name" (V_LENGTH 0 60);
         V "dnscrypt_provider_key" (V_LENGTH 0 80);
         V "dnscrypt_resolver_address" (V_LENGTH 0 50);
         V "dnscrypt_ephemeral_keys" V_01])
  ++ when (Def "TCONFIG_STUBBY")
       ([V "stubby_proxy" V_01;
         V "stubby_priority" (V_RANGE 0 2);
         V "stubby_port" V_PORT;
         V "stubby_resolvers" (V_LENGTH 0 1024);
         V "stubby_force_tls13" V_01;
         V "stubby_log" (V_RANGE 0 7);
         V "stubby_custom" (V_TEXT 0 4096)]).

Definition nvset_lan_modem : table (string * vtype) :=
  [V "lan_ipaddr" V_IP;
   V "lan_netmask" V_IP;
   V "lan_gateway" V_IP;
   V "lan_dns" (V_LENGTH 0 50)]
  ++ when (Or (Def "TCONFIG_DNSSEC") (Def "TCONFIG_STUBBY"))
       ([V "dnssec_enable" V_01;
         V "dnssec_method" (V_RANGE 0 2)])
  ++ [V "lan_state" V_01;
      V "lan_desc" V_01]
  ++ when (Not (Def "TOMATO64"))
       [V "eth_desc" (V_LENGTH 0 120)]
  ++ [V "lan_invert" V_01;
      V "lan_dhcp" V_01;
      V "lan_proto" V_WORD;
      V "dhcpd_startip" (V_LENGTH 0 15);
      V "dhcpd_endip" (V_LENGTH 0 15);
      V "dhcpd_ostatic" V_01;
      V "dhcp_lease" (V_LENGTH 0 5);
      V "dhcp_moveip" (V_RANGE 0 2);
      V "wan_wins" V_IP]
  ++ when (Def "TCONFIG_USB")
       ([V "wan_modem_pin" (V_LENGTH 0 6);
         V "wan_modem_dev" (V_LENGTH 0 14);
         V "wan_modem_init" (V_LENGTH 0 25);
         V "wan_modem_apn" (V_LENGTH 0 25);
         V "wan_modem_speed" (V_LENGTH 0 6);
         V "wan_modem_band" (V_LENGTH 0 16);
         V "wan_modem_roam" (V_RANGE 0 3);
         V "wan_modem_if" (V_LENGTH 0 4);
         V "wan_modem_type" (V_LENGTH 0 15)])
  ++ [V "lan_ifname" (V_LENGTH 0 5)].

Definition nvset_wireless : table (string * vtype) :=
  [V "wl_radio" V_01]
  ++ ifelse (Or (Def "TCONFIG_BCMARM") (Def "CONFIG_BCMWL6"))
       [V "wl_mode" (V_LENGTH 2 4)]
       [V "wl_mode" (V_LENGTH 2 3)]
  ++ ifelse (Def "CONFIG_BCMWL6")
       [V "wl_net_mode" (V_LENGTH 5 9)]
       [V "wl_net_mode" (V_LENGTH 5 8)]
  ++ [V "wl_ssid" (V_LENGTH 1 32);
      V "wl_closed" V_01;
      V "wl_channel" (V_RANGE 0 216);
      V "wl_vifs" (V_LENGTH 0 64);
      V "wl_security_mode" (V_LENGTH 1 32);
      V "wl_radius_ipaddr" V_IP;
      V "wl_radius_port" V_PORT;
      V "wl_radius_key" (V_LENGTH 1 64);
      V "wl_wep_bit" (V_RANGE 64 128);
      V "wl_passphrase" (V_LENGTH 0 20);
      V "wl_key" (V_RANGE 1 4);
      V "wl_key1" (V_LENGTH 0 26);
      V "wl_key2" (V_LENGTH 0 26);
      V "wl_key3" (V_LENGTH 0 26);
      V "wl_key4" (V_LENGTH 0 26);
      V "wl_crypto" (V_LENGTH 3 8);
      V "wl_wpa_psk" (V_LENGTH 8 64)]
  ++ ifelse (Def "TCONFIG_RTNPLUS")
       [V "wl_wpa_gtk_rekey" (V_RANGE 0 2592000)]
       [V "wl_wpa_gtk_rekey" (V_RANGE 60 7200)]
  ++ [V "wl_lazywds" V_01;
      V "wl_wds" (V_LENGTH 0 180);
      V "wl_wds_enable" V_01;
      V "wl_gmode" (V_RANGE (-1) 6);
      V "wl_wep" (V_LENGTH 1 32);
      V "wl_akm" (V_LENGTH 0 32);
      V "wl_auth_mode" (V_LENGTH 4 6)]
  ++ when (Def "TCONFIG_BCMARM")
       [V "wl_mfp" (V_RANGE 0 2)]
  ++ [V "wl_nmode" V_NONE;
      V "wl_nband" (V_RANGE 0 2);
      V "wl_nreqd" V_NONE]
  ++ ifelse (Or (Def "TCONFIG_BCMARM") (Def "CONFIG_BCMWL6"))
       [V "wl_nbw_cap" (V_RANGE 0 3)]
       [V "wl_nbw_cap" (V_RANGE 0 2)]
  ++ when (Def "CONFIG_BCMWL6")
       [V "wl_bss_opmode_cap_reqd" (V_RANGE 0 3)]
  ++ when (Def "TCONFIG_ROAM")
       [V "wl_user_rssi" (V_RANGE (-90) 0)]
  ++ [V "wl_nbw" V_NONE;
      V "wl_mimo_preamble" V_WORD;
      V "wl_nctrlsb" V_NONE].

Definition nvset_ipv6 : table (string * vtype) :=
  when (Def "TCONFIG_IPV6")
    ([V "ipv6_service" (V_LENGTH 0 16)]
     ++ when (Def "TCONFIG_RTNPLUS")
          [V "ipv6_debug" V_01]
     ++ [V "ipv6_duid_type" (V_RANGE 1 4);
         V "ipv6_ia_na_id" (V_RANGE 0 255);
         V "ipv6_ia_pd_id" (V_RANGE 0 255);
         V "ipv6_prefix" (V_IPV6 false);
         V "ipv6_prefix_length" (V_RANGE 3 127);
         V "ipv6_rtr_addr" (V_IPV6 false);
         V "ipv6_radvd" V_01;
         V "ipv6_dhcpd" V_01;
         V "ipv6_lease_time" (V_RANGE 1 720);
         V "ipv6_accept_ra" V_NUM;
         V "ipv6_fast_ra" V_01;
         V "ipv6_tun_addr" (V_IPV6 true);
         V "ipv6_tun_addrlen" (V_RANGE 3 127);
         V "ipv6_ifname" (V_LENGTH 0 8);
         V "ipv6_tun_v4end" V_IP;
         V "ipv6_relay" (V_RANGE 1 254);
         V "ipv6_tun_mtu" V_NUM;
         V "ipv6_tun_ttl" V_NUM;
         V "ipv6_dns" (V_LENGTH 0 120);
         V "ipv6_dns_lan" (V_LENGTH 0 80);
         V "ipv6_6rd_prefix" (V_IPV6 false);
         V "ipv6_6rd_prefix_length" (V_RANGE 3 127);
         V "ipv6_6rd_borderrelay" V_IP;
         V "ipv6_6rd_ipv4masklen" (V_RANGE 0 32);
         V "ipv6_vlan" (V_RANGE 0 (2 ^ (count "BRIDGE_COUNT" - 1) - 1));
         V "ipv6_isp_opt" V_01;
         V "ipv6_pdonly" V_01;
         V "ipv6_rapid_commit" V_01;
         V "ipv6_pd_norelease" V_01;
         V "ipv6_wan_addr" (V_IPV6 false);
         V "ipv6_prefix_len_wan" (V_RANGE 3 64);
         V "ipv6_isp_gw" (V_IPV6 false);
         V "ipv6_llremote_custom" (V_IPV6 false)]).

Definition nvset_wfilter_ctnf : table (string * vtype) :=
  [V "wl_macmode" V_NONE;
   V "wl_maclist" (V_LENGTH 0 3618);
   V "macnames" (V_LENGTH 0 12462);
   V "ct_max" V_NUM;
   V "ct_tcp_timeout" (V_LENGTH 20 70);
   V "ct_udp_timeout" (V_LENGTH 5 15);
   V "ct_timeout" (V_LENGTH 5 15);
   V "nf_ttl" (V_LENGTH 1 6)]
  ++ ifelse (Not (Def "TOMATO64"))
       (when (Def "TCONFIG_L7")
          [V "nf_l7in" V_01])
       [V "nf_ndpi_in" V_01]
  ++ [V "nf_sip" V_01;
      V "ct_hashsize" V_NUM;
      V "nf_rtsp" V_01;
      V "nf_pptp" V_01;
      V "nf_h323" V_01;
      V "nf_ftp" V_01;
      V "fw_nat_tuning" (V_RANGE 0 2)].

Definition nvset_dhcpdns_firewall : table (string * vtype) :=
  [V "dhcpd_slt" (V_RANGE (-1) 43200);
   V "dhcpd_dmdns" V_01;
   V "dhcpd_lmax" V_NUM;
   V "dhcpd_gwmode" V_NUM;
   V "dns_intcpt" V_01;
   V "dhcpc_minpkt" V_01;
   V "dhcpc_custom" (V_LENGTH 0 256);
   V "dns_norebind" V_01;
   V "dns_fwd_local" V_01;
   V "dns_priv_override" V_01;
   V "dnsmasq_debug" V_01;
   V "dnsmasq_custom" (V_TEXT 0 4096);
   V "dnsmasq_q" (V_RANGE 0 7);
   V "dnsmasq_gen_names" V_01;
   V "dnsmasq_edns_size" (V_RANGE 512 4096);
   V "dnsmasq_safe" V_01;
   V "dnsmasq_norestart" V_01]
  ++ when (Def "TCONFIG_TOR")
       [V "dnsmasq_onion_support" V_01]
  ++ when (Def "TCONFIG_USB_EXTRAS")
       ([V "dnsmasq_tftp" V_01;
         V "dnsmasq_tftp_path" (V_TEXT 0 128);
         V "dnsmasq_pxelan" V_01])
  ++ when (Def "TCONFIG_MDNS")
       ([V "mdns_enable" V_01;
         V "mdns_reflector" V_01;
         V "mdns_debug" V_01])
  ++ [V "block_wan" V_01;
      V "block_wan_limit" V_01;
      V "block_wan_limit_icmp" (V_RANGE 1 300)]
  ++ when (Def "TCONFIG_PROXY")
       ([V "multicast_pass" V_01;
         V "multicast_lan" V_01;
         V "multicast_quickleave" V_01;
         V "multicast_custom" (V_TEXT 0 2048);
         V "udpxy_enable" V_01;
         V "udpxy_lan" V_01;
         V "udpxy_stats" V_01;
         V "udpxy_clients" (V_RANGE 1 5000);
         V "udpxy_port" (V_RANGE 0 65535);
         V "udpxy_wanface" (V_TEXT 0 8)])
  ++ [V "block_loopback" V_01;
      V "nf_loopback" V_NUM;
      V "fw_strict_input" V_01;
      V "ne_syncookies" V_01;
      V "DSCP_fix_enable" V_01]
  ++ ifelse (And (Def "TOMATO64") (Def "TCONFIG_FULLCONENAT"))
       [V "ne_snat" (V_RANGE 0 2)]
       [V "ne_snat" V_01]
  ++ [V "wan_dhcp_pass" V_01;
      V "ipsec_pass" (V_RANGE 0 3);
      V "fw_blackhole" V_01;
      V "tcp_clamp_disable" V_01]
  ++ when (Def "TCONFIG_EMF")
       ([V "emf_entry" V_NONE;
         V "emf_uffp_entry" V_NONE;
         V "emf_rtport_entry" V_NONE;
         V "emf_enable" V_01])
  ++ when (Def "TCONFIG_ADBLOCK")
       ([V "adblock_enable" V_01;
         V "adblock_blacklist" (V_LENGTH 0 4096);
         V "adblock_blacklist_custom" (V_LENGTH 0 4096);
         V "adblock_whitelist" (V_LENGTH 0 4096);
         V "adblock_logs" (V_RANGE 0 7);
         V "adblock_limit" (V_LENGTH 0 32);
         V "adblock_path" (V_LENGTH 0 64)]).

Definition nvset_misc : table (string * vtype) :=
  ifelse (Def "TCONFIG_BCMARM")
    [V "wait_time" (V_RANGE 0 30)]
    [V "wait_time" (V_RANGE 3 20)]
  ++ [V "wan_speed" (V_RANGE 0 4);
      V "jumbo_frame_enable" V_01;
      V "jumbo_frame_size" (V_RANGE 1 9720)]
  ++ when (Def "CONFIG_BCMWL5")
       [V "ctf_disable" V_01]
  ++ when (Def "TCONFIG_BCMFA")
       [V "ctf_fa_mode" V_01]
  ++ when (Def "TCONFIG_BCMNAT")
       [V "bcmnat_disable" V_01]
  ++ when (Def "TCONFIG_BCMARM")
       [V "porthealth_cfg" (V_LENGTH 0 128)]
  ++ when (Def "TOMATO64")
       ([V "zram_enable" V_01;
         V "zram_size" (V_RANGE 0 32768);
         V "zram_priority" (V_RANGE (-1) 32767);
         V "zram_comp_algo" (V_LENGTH 1 16);
         V "cpu_governor" (V_LENGTH 0 16)]).

Definition nvset_vlan : table (string * vtype) :=
  ifelse (Not (Def "TOMATO64"))
    ([V "vlan0ports" (V_TEXT 0 17);
      V "vlan1ports" (V_TEXT 0 17);
      V "vlan2ports" (V_TEXT 0 17);
      V "vlan3ports" (V_TEXT 0 17);
      V "vlan4ports" (V_TEXT 0 17);
      V "vlan5ports" (V_TEXT 0 17);
      V "vlan6ports" (V_TEXT 0 17);
      V "vlan7ports" (V_TEXT 0 17);
      V "vlan8ports" (V_TEXT 0 17);
      V "vlan9ports" (V_TEXT 0 17);
      V "vlan10ports" (V_TEXT 0 17);
      V "vlan11ports" (V_TEXT 0 17);
      V "vlan12ports" (V_TEXT 0 17);
      V "vlan13ports" (V_TEXT 0 17);
      V "vlan14ports" (V_TEXT 0 17);
      V "vlan15ports" (V_TEXT 0 17);
      V "vlan0hwname" (V_TEXT 0 8);
      V "vlan1hwname" (V_TEXT 0 8);
      V "vlan2hwname" (V_TEXT 0 8);
      V "vlan3hwname" (V_TEXT 0 8);
      V "vlan4hwname" (V_TEXT 0 8);
      V "vlan5hwname" (V_TEXT 0 8);
      V "vlan6hwname" (V_TEXT 0 8);
      V "vlan7hwname" (V_TEXT 0 8);
      V "vlan8hwname" (V_TEXT 0 8);
      V "vlan9hwname" (V_TEXT 0 8);
      V "vlan10hwname" (V_TEXT 0 8);
      V "vlan11hwname" (V_TEXT 0 8);
      V "vlan12hwname" (V_TEXT 0 8);
      V "vlan13hwname" (V_TEXT 0 8);
      V "vlan14hwname" (V_TEXT 0 8);
      V "vlan15hwname" (V_TEXT 0 8);
      V "wan_ifnameX" (V_TEXT 0 8);
      V "lan_ifnames" (V_TEXT 0 64)])
    ([V "vlan0ports" (V_TEXT 0 40);
      V "vlan1ports" (V_TEXT 0 40);
      V "vlan2ports" (V_TEXT 0 40);
      V "vlan3ports" (V_TEXT 0 40);
      V "vlan4ports" (V_TEXT 0 40);
      V "vlan5ports" (V_TEXT 0 40);
      V "vlan6ports" (V_TEXT 0 40);
      V "vlan7ports" (V_TEXT 0 40);
      V "vlan8ports" (V_TEXT 0 40);
      V "vlan9ports" (V_TEXT 0 40);
      V "vlan10ports" (V_TEXT 0 40);
      V "vlan11ports" (V_TEXT 0 40);
      V "vlan12ports" (V_TEXT 0 40);
      V "vlan13ports" (V_TEXT 0 40);
      V "vlan14ports" (V_TEXT 0 40);
      V "vlan15ports" (V_TEXT 0 40);
      V "vlan0hwname" (V_TEXT 0 100);
      V "vlan1hwname" (V_TEXT 0 100);
      V "vlan2hwname" (V_TEXT 0 100);
      V "vlan3hwname" (V_TEXT 0 100);
      V "vlan4hwname" (V_TEXT 0 100);
      V "vlan5hwname" (V_TEXT 0 100);
      V "vlan6hwname" (V_TEXT 0 100);
      V "vlan7hwname" (V_TEXT 0 100);
      V "vlan8hwname" (V_TEXT 0 100);
      V "vlan9hwname" (V_TEXT 0 100);
      V "vlan10hwname" (V_TEXT 0 100);
      V "vlan11hwname" (V_TEXT 0 100);
      V "vlan12hwname" (V_TEXT 0 100);
      V "vlan13hwname" (V_TEXT 0 100);
      V "vlan14hwname" (V_TEXT 0 100);
      V "vlan15hwname" (V_TEXT 0 100);
      V "wan_ifnameX_vlan" (V_TEXT 0 8);
      V "wan_ifnameX" (V_TEXT 0 9);
      V "lan_ifnames" (V_TEXT 0 256);
      V "lan_ifnames_vlan" (V_TEXT 0 8)])
  ++ [V "manual_boot_nv" V_01]
  ++ when (Not (Def "TCONFIG_BCMARM"))
       [V "trunk_vlan_so" V_01]
  ++ when (And (Not (Def "CONFIG_BCMWL6")) (Not (Def "TCONFIG_BLINK")))
       [V "vlan0tag" (V_TEXT 0 5)]
  ++ [V "vlan0vid" (V_TEXT 0 5);
      V "vlan1vid" (V_TEXT 0 5);
      V "vlan2vid" (V_TEXT 0 5);
      V "vlan3vid" (V_TEXT 0 5);
      V "vlan4vid" (V_TEXT 0 5);
      V "vlan5vid" (V_TEXT 0 5);
      V "vlan6vid" (V_TEXT 0 5);
      V "vlan7vid" (V_TEXT 0 5);
      V "vlan8vid" (V_TEXT 0 5);
      V "vlan9vid" (V_TEXT 0 5);
      V "vlan10vid" (V_TEXT 0 5);
      V "vlan11vid" (V_TEXT 0 5);
      V "vlan12vid" (V_TEXT 0 5);
      V "vlan13vid" (V_TEXT 0 5);
      V "vlan14vid" (V_TEXT 0 5);
      V "vlan15vid" (V_TEXT 0 5)].

Definition nvset_mac_routing : table (string * vtype) :=
  [V "wan_mac" (V_LENGTH 0 17);
   V "wl_macaddr" (V_LENGTH 0 17);
   V "wl_hwaddr" (V_LENGTH 0 17)]
  ++ when (Def "TCONFIG_RTNPLUS")
       [V "wl_clap_hwaddr" (V_LENGTH 0 17)]
  ++ [V "routes_static" (V_LENGTH 0 2048);
      V "dhcpc_33" V_01;
      V "dhcpc_121" V_01;
      V "force_igmpv2" V_01;
      V "lan_stp" (V_RANGE 0 1)]
  ++ when (Def "TCONFIG_ZEBRA")
       ([V "dr_setting" (V_RANGE 0 3);
         V "dr_lan_tx" (V_LENGTH 0 32);
         V "dr_lan_rx" (V_LENGTH 0 32);
         V "dr_wan_tx" (V_LENGTH 0 32);
         V "dr_wan_rx" (V_LENGTH 0 32)])
  ++ ifelse (Not (Def "TOMATO64"))
       [V "lan_access" (V_LENGTH 0 4096)]
       [V "lan_access" (V_LENGTH 0 16384)].

Definition nvset_adv_wireless : table (string * vtype) :=
  [V "wl_country_code" (V_LENGTH 0 4)]
  ++ when (Or (Or (Def "TCONFIG_BCMARM") (Def "CONFIG_BCMWL6")) (Def "TCONFIG_BLINK"))
       ([V "wl_country_rev" (V_RANGE 0 999);
         V "0:ccode" (V_LENGTH 0 2);
         V "1:ccode" (V_LENGTH 0 2);
         V "pci/1/1/ccode" (V_LENGTH 0 2);
         V "pci/2/1/ccode" (V_LENGTH 0 2);
         V "0:regrev" (V_RANGE 0 999);
         V "1:regrev" (V_RANGE 0 999);
         V "pci/1/1/regrev" (V_RANGE 0 999);
         V "pci/2/1/regrev" (V_RANGE 0 999)]
        ++ when (Def "TCONFIG_BLINK")
             ([V "sb/1/ccode" (V_LENGTH 0 2);
               V "sb/1/regrev" (V_RANGE 0 999)])
        ++ when (Def "TCONFIG_AC3200")
             ([V "2:ccode" (V_LENGTH 0 2);
               V "2:regrev" (V_RANGE 0 999);
               V "pci/3/1/ccode" (V_LENGTH 0 2);
               V "pci/3/1/regrev" (V_RANGE 0 999)]))
  ++ [V "wl_btc_mode" (V_RANGE 0 2)]
  ++ when (Not (Def "CONFIG_BCMWL6"))
       [V "wl_afterburner" (V_LENGTH 2 4)]
  ++ [V "wl_auth" V_01;
      V "wl_rateset" (V_LENGTH 2 7);
      V "wl_rate" (V_RANGE 0 54000000);
      V "wl_mrate" (V_RANGE 0 54000000);
      V "wl_gmode_protection" (V_LENGTH 3 4);
      V "wl_frameburst" V_ONOFF;
      V "wl_bcn" (V_RANGE 1 65535);
      V "wl_dtim" (V_RANGE 1 255);
      V "wl_frag" (V_RANGE 256 2346);
      V "wl_rts" (V_RANGE 0 2347);
      V "wl_ap_isolate" V_01;
      V "wl_plcphdr" (V_LENGTH 4 5);
      V "wl_antdiv" (V_RANGE 0 3);
      V "wl_txant" (V_RANGE 0 3)]
  ++ ifelse (Def "TCONFIG_BCMARM")
       [V "wl_txpwr" (V_RANGE 0 1000)]
       [V "wl_txpwr" (V_RANGE 0 400)]
  ++ [V "wl_wme" V_WORD;
      V "wl_wme_no_ack" V_ONOFF;
      V "wl_wme_apsd" V_ONOFF;
      V "wl_maxassoc" (V_RANGE 0 255);
      V "wl_bss_maxassoc" (V_RANGE 0 255);
      V "wl_distance" (V_LENGTH 0 5);
      V "wlx_hpamp" V_01;
      V "wlx_hperx" V_01;
      V "wl_reg_mode" (V_LENGTH 1 3);
      V "wl_mitigation" (V_RANGE 0 4)]
  ++ when (Def "CONFIG_BCMWL6")
       [V "wl_mitigation_ac" (V_RANGE 0 7)]
  ++ when (Def "TCONFIG_BCMARM")
       [V "wl_optimizexbox" V_01]
  ++ [V "wl_nmode_protection" V_WORD;
      V "wl_nmcsidx" (V_RANGE (-2) 32);
      V "wl_obss_coex" V_01]
  ++ ifelse (Def "TCONFIG_BCMARM")
       (when (Def "TCONFIG_EMF")
          ([V "wl_igs" V_01;
            V "wl_wmf_bss_enable" V_01;
            V "wl_wmf_ucigmp_query" V_01;
            V "wl_wmf_mdata_sendup" V_01;
            V "wl_wmf_ucast_upnp" V_01;
            V "wl_wmf_igmpq_filter" V_01])
        ++ [V "wl_psta_inact" (V_RANGE 0 3600);
            V "wl_atf" V_01;
            V "wl_turbo_qam" (V_RANGE 0 2);
            V "wl_txbf" V_01;
            V "wl_txbf_bfr_cap" (V_RANGE 0 2);
            V "wl_txbf_bfe_cap" (V_RANGE 0 2)]
        ++ when (Def "TCONFIG_BCM714")
             ([V "wl_mu_features" (V_LENGTH 0 8);
               V "wl_mumimo" V_01])
        ++ [V "wl_itxbf" V_01;
            V "wl_txbf_imp" V_01]
        ++ when (Def "TCONFIG_BCMBSD")
             [V "smart_connect_x" V_01])
       [V "wl_wmf_bss_enable" V_01].

Definition nvset_forward : table (string * vtype) :=
  when (Def "TCONFIG_DMZ")
    ([V "dmz_enable" V_01;
      V "dmz_ipaddr" (V_LENGTH 0 15)]
     ++ when (Def "TCONFIG_DMZMAC")
          [V "dmz_macaddr" (V_LENGTH 0 17)]
     ++ [V "dmz_sip" (V_LENGTH 0 512);
         V "dmz_ra" V_01])
  ++ [V "upnp_enable" V_NUM;
      V "upnp_secure" V_01;
      V "upnp_port" (V_RANGE 0 65535);
      V "upnp_ssdp_interval" (V_RANGE 10 9999);
      V "upnp_min_port_int" V_PORT;
      V "upnp_max_port_int" V_PORT;
      V "upnp_min_port_ext" V_PORT;
      V "upnp_max_port_ext" V_PORT;
      V "upnp_lan" V_01;
      V "upnp_custom" (V_TEXT 0 2048);
      V "portforward" (V_LENGTH 0 4096)]
  ++ when (Def "TCONFIG_IPV6")
       [V "ipv6_portforward" (V_LENGTH 0 4096)]
  ++ [V "trigforward" (V_LENGTH 0 4096);
      V "rruleN" (V_RANGE (-1) 99)].

Definition nvset_access : table (string * vtype) :=
  [V "http_enable" V_01]
  ++ when (Def "TCONFIG_HTTPS")
       ([V "https_enable" V_01;
         V "https_crt_save" V_01;
         V "https_crt_cn" (V_LENGTH 0 64);
         V "https_crt_gen" V_TEMP;
         V "https_lanport" V_PORT;
         V "remote_mgt_https" V_01])
  ++ [V "remote_management" V_01;
      V "remote_upgrade" V_01;
      V "http_wanport_bfm" V_01;
      V "http_lanport" V_PORT]
  ++ ifelse (Not (Def "TOMATO64"))
       [V "http_lan_listeners" (V_RANGE 0 7)]
       [V "http_lan_listeners" (V_RANGE 0 127)]
  ++ when (Def "TCONFIG_IPV6")
       [V "http_ipv6" V_01]
  ++ [V "web_wl_filter" V_01;
      V "web_css" (V_LENGTH 1 32)]
  ++ when (Def "TCONFIG_ADVTHEMES")
       [V "web_adv_scripts" V_01]
  ++ [V "web_dir" (V_LENGTH 1 32);
      V "ttb_css" (V_LENGTH 0 128)]
  ++ when (Def "TCONFIG_USB")
       ([V "ttb_loc" (V_LENGTH 0 128);
         V "ttb_url" (V_LENGTH 0 128)])
  ++ [V "web_mx" (V_LENGTH 0 128);
      V "http_wanport" V_PORT;
      V "telnetd_eas" V_01;
      V "telnetd_port" V_PORT;
      V "sshd_eas" V_01;
      V "sshd_pass" V_01;
      V "sshd_port" V_PORT;
      V "sshd_remote" V_01;
      V "sshd_motd" V_01;
      V "sshd_forwarding" V_01;
      V "sshd_rport" V_PORT;
      V "sshd_authkeys" (V_TEXT 0 4096);
      V "rmgt_sip" (V_LENGTH 0 512);
      V "ne_shlimit" (V_TEXT 1 50);
      V "http_username" (V_LENGTH 0 32)].

Definition nvset_stats_buttons : table (string * vtype) :=
  [V "rstats_enable" V_01;
   V "rstats_path" (V_LENGTH 0 48);
   V "rstats_stime" (V_RANGE 1 168);
   V "rstats_offset" (V_RANGE 1 31);
   V "rstats_exclude" (V_LENGTH 0 64);
   V "rstats_sshut" V_01;
   V "rstats_bak" V_01;
   V "cstats_enable" V_01;
   V "cstats_path" (V_LENGTH 0 48);
   V "cstats_stime" (V_RANGE 1 168);
   V "cstats_offset" (V_RANGE 1 31);
   V "cstats_labels" (V_RANGE 0 2);
   V "cstats_exclude" (V_LENGTH 0 512);
   V "cstats_include" (V_LENGTH 0 2048);
   V "cstats_all" V_01;
   V "cstats_sshut" V_01;
   V "cstats_bak" V_01;
   V "sesx_led" (V_RANGE 0 255)]
  ++ when (Def "TCONFIG_BCMARM")
       ([V "blink_wl" V_01;
         V "btn_led_mode" V_01;
         V "stealth_mode" V_01;
         V "stealth_iled" V_01])
  ++ [V "sesx_b0" (V_RANGE 0 5);
      V "sesx_b1" (V_RANGE 0 5);
      V "sesx_b2" (V_RANGE 0 5);
      V "sesx_b3" (V_RANGE 0 5);
      V "sesx_script" (V_TEXT 0 1024)]
  ++ when (Not (Def "TCONFIG_BCMARM"))
       [V "script_brau" (V_TEXT 0 1024)].

Definition nvset_debug_log : table (string * vtype) :=
  [V "debug_nocommit" V_01;
   V "debug_cprintf" V_01;
   V "debug_cprintf_file" V_01;
   V "debug_logsegfault" V_01;
   V "debug_ddns" V_01]
  ++ when (Def "TCONFIG_BCM714")
       [V "debug_wlx_shdown" (V_RANGE 0 7)]
  ++ [V "debug_norestart" (V_TEXT 0 128);
      V "console_loglevel" (V_RANGE 1 8);
      V "t_cafree" V_01;
      V "t_hidelr" V_01;
      V "http_nocache" V_01;
      V "sch_rboot" (V_TEXT 0 64);
      V "sch_rcon" (V_TEXT 0 64);
      V "sch_c1" (V_TEXT 0 64);
      V "sch_c1_cmd" (V_TEXT 0 2048);
      V "sch_c2" (V_TEXT 0 64);
      V "sch_c2_cmd" (V_TEXT 0 2048);
      V "sch_c3" (V_TEXT 0 64);
      V "sch_c3_cmd" (V_TEXT 0 2048);
      V "sch_c4" (V_TEXT 0 64);
      V "sch_c4_cmd" (V_TEXT 0 2048);
      V "sch_c5" (V_TEXT 0 64);
      V "sch_c5_cmd" (V_TEXT 0 2048);
      V "script_init" (V_TEXT 0 4096);
      V "script_shut" (V_TEXT 0 4096);
      V "script_fire" (V_TEXT 0 8192);
      V "script_wanup" (V_TEXT 0 4096);
      V "script_mwanup" (V_TEXT 0 4096);
      V "log_remote" V_01;
      V "log_remoteip" (V_LENGTH 0 512);
      V "log_remoteport" V_PORT;
      V "log_file" V_01;
      V "log_file_custom" V_01;
      V "log_file_path" (V_TEXT 0 4096);
      V "log_file_size" (V_RANGE 0 99999);
      V "log_file_keep" (V_RANGE 0 99);
      V "log_limit" (V_RANGE 0 2400);
      V "log_in" (V_RANGE 0 3);
      V "log_out" (V_RANGE 0 3);
      V "log_mark" (V_RANGE 0 99999);
      V "log_events" (V_TEXT 0 32);
      V "log_dropdups" V_01;
      V "log_min_level" (V_RANGE 1 8);
      V "log_wm" V_01;
      V "log_wmtype" (V_RANGE 0 2);
      V "log_wmip" (V_LENGTH 0 512);
      V "log_wmdmax" (V_RANGE 0 9999);
      V "log_wmsmax" (V_RANGE 0 9999);
      V "webmon_bkp" V_01;
      V "webmon_dir" (V_LENGTH 0 256);
      V "webmon_shrink" V_01].

Definition nvset_admin : table (string * vtype) :=
  [V "cifs1" (V_LENGTH 1 1024);
   V "cifs2" (V_LENGTH 1 1024);
   V "jffs2_on" V_01;
   V "jffs2_exec" (V_LENGTH 0 64);
   V "jffs2_format" V_01;
   V "jffs2_auto_unmount" V_01]
  ++ when (Def "TCONFIG_SDHC")
       ([V "mmc_on" V_01;
         V "mmc_cs" (V_RANGE 1 7);
         V "mmc_clk" (V_RANGE 1 7);
         V "mmc_din" (V_RANGE 1 7);
         V "mmc_dout" (V_RANGE 1 7);
         V "mmc_fs_partition" (V_RANGE 1 4);
         V "mmc_fs_type" (V_LENGTH 4 4);
         V "mmc_exec_mount" (V_LENGTH 0 64);
         V "mmc_exec_umount" (V_LENGTH 0 64)])
  ++ [V "tomatoanon_enable" V_01;
      V "tomatoanon_notify" V_01;
      V "tomatoanon_id" (V_LENGTH 0 32)].

Definition nvset_usb : table (string * vtype) :=
  when (Def "TCONFIG_USB")
    ([V "usb_enable" V_01;
      V "usb_uhci" (V_RANGE (-1) 1);
      V "usb_ohci" (V_RANGE (-1) 1);
      V "usb_usb2" (V_RANGE (-1) 1)]
     ++ when (Def "TCONFIG_BCMARM")
          [V "usb_usb3" (V_RANGE (-1) 1)]
     ++ when (Def "TCONFIG_MICROSD")
          [V "usb_mmc" (V_RANGE (-1) 1)]
     ++ [V "usb_irq_thresh" (V_RANGE 0 6);
         V "usb_storage" V_01;
         V "usb_printer" V_01;
         V "usb_printer_bidirect" V_01]
     ++ ifelse (Def "TCONFIG_BCMARM")
          [V "usb_fs_ext4" V_01]
          [V "usb_fs_ext3" V_01]
     ++ [V "usb_fs_fat" V_01]
     ++ when (Def "TCONFIG_BCMARM")
          [V "usb_fs_exfat" V_01]
     ++ when (Def "TCONFIG_NTFS")
          ([V "usb_fs_ntfs" V_01]
           ++ when (Def "TCONFIG_BCMARM")
                [V "usb_ntfs_driver" (V_LENGTH 0 10)])
     ++ when (Def "TCONFIG_UPS")
          ([V "usb_apcupsd" V_01;
            V "usb_apcupsd_custom" V_01])
     ++ when (Def "TCONFIG_HFS")
          ([V "usb_fs_hfs" V_01]
           ++ when (Def "TCONFIG_BCMARM")
                [V "usb_hfs_driver" (V_LENGTH 0 10)]
           ++ when (Def "TCONFIG_ZFS")
                ([V "usb_fs_zfs" V_01;
                  V "usb_fs_zfs_automount" V_01;
                  V "zfs_mount_script" (V_TEXT 0 2048)]))
     ++ [V "usb_automount" V_01;
         V "script_usbhotplug" (V_TEXT 0 2048);
         V "script_usbmount" (V_TEXT 0 2048);
         V "script_usbumount" (V_TEXT 0 2048);
         V "idle_enable" V_01]).

Definition nvset_ftp_snmp : table (string * vtype) :=
  when (Def "TCONFIG_FTP")
    ([V "ftp_enable" (V_RANGE 0 2);
      V "ftp_super" V_01;
      V "ftp_anonymous" (V_RANGE 0 3);
      V "ftp_dirlist" (V_RANGE 0 2);
      V "ftp_port" V_PORT;
      V "ftp_max" (V_RANGE 0 12);
      V "ftp_ipmax" (V_RANGE 0 12);
      V "ftp_staytimeout" (V_RANGE 0 65535);
      V "ftp_rate" (V_RANGE 0 99999);
      V "ftp_anonrate" (V_RANGE 0 99999);
      V "ftp_anonroot" (V_LENGTH 0 256);
      V "ftp_pubroot" (V_LENGTH 0 256);
      V "ftp_pvtroot" (V_LENGTH 0 256);
      V "ftp_users" (V_LENGTH 0 4096);
      V "ftp_custom" (V_TEXT 0 2048);
      V "ftp_sip" (V_LENGTH 0 512);
      V "ftp_limit" (V_TEXT 1 50);
      V "ftp_tls" V_01;
      V "log_ftp" V_01])
  ++ when (Def "TCONFIG_SNMP")
       ([V "snmp_enable" (V_RANGE 0 1);
         V "snmp_port" (V_RANGE 1 65535);
         V "snmp_remote" (V_RANGE 0 1);
         V "snmp_remote_sip" (V_LENGTH 0 512);
         V "snmp_location" (V_LENGTH 0 40);
         V "snmp_contact" (V_LENGTH 0 40);
         V "snmp_ro" (V_LENGTH 0 40);
         V "snmp_name" (V_LENGTH 0 40);
         V "snmp_descr" (V_LENGTH 0 40)]).

Definition nvset_samba_media : table (string * vtype) :=
  when (Def "TCONFIG_SAMBASRV")
    ([V "smbd_enable" (V_RANGE 0 2);
      V "smbd_wgroup" (V_LENGTH 0 20);
      V "smbd_master" V_01;
      V "smbd_wins" V_01;
      V "smbd_cpage" (V_LENGTH 0 4);
      V "smbd_cset" (V_LENGTH 0 20);
      V "smbd_custom" (V_TEXT 0 2048);
      V "smbd_autoshare" (V_RANGE 0 3);
      V "smbd_shares" (V_LENGTH 0 4096);
      V "smbd_user" (V_LENGTH 0 50);
      V "smbd_passwd" (V_LENGTH 0 50);
      V "smbd_ifnames" (V_LENGTH 0 50)]
     ++ ifelse (Not (Def "TOMATO64"))
          [V "smbd_protocol" (V_RANGE 0 2)]
          [V "smbd_protocol" (V_RANGE 0 5)]
     ++ when (Def "TCONFIG_GROCTRL")
          [V "gro_disable" V_01])
  ++ when (Def "TCONFIG_MEDIA_SERVER")
       ([V "ms_enable" V_01;
         V "ms_dirs" (V_LENGTH 0 1024);
         V "ms_port" (V_RANGE 0 65535);
         V "ms_dbdir" (V_LENGTH 0 256);
         V "ms_ifname" (V_LENGTH 0 256);
         V "ms_tivo" V_01;
         V "ms_stdlna" V_01;
         V "ms_rescan" V_01;
         V "ms_sas" V_01;
         V "ms_autoscan" V_01;
         V "ms_custom" (V_TEXT 0 4096)]).

Definition nvset_qos_bwl : table (string * vtype) :=
  [V "qos_enable" V_01]
  ++ when (Def "TCONFIG_BCMARM")
       [V "qos_mode" V_NUM]
  ++ [V "qos_ack" V_01;
      V "qos_syn" V_01;
      V "qos_fin" V_01;
      V "qos_rst" V_01;
      V "qos_icmp" V_01;
      V "qos_udp" V_01;
      V "qos_reset" V_01]
  ++ ifelse (Def "TCONFIG_BCMARM")
       ([V "qos_pfifo" V_NUM;
         V "qos_classify" V_01;
         V "qos_stats" V_01;
         V "qos_cake_prio_mode" V_NUM;
         V "qos_cake_wash" V_01])
       [V "qos_pfifo" V_01]
  ++ [V "wan_qos_obw" (V_RANGE 10 99999999);
      V "wan_qos_ibw" (V_RANGE 10 99999999);
      V "wan_qos_overhead" (V_RANGE (-127) 128)]
  ++ when (Def "TCONFIG_BCMARM")
       [V "wan_qos_encap" V_NUM]
  ++ [V "qos_irates" (V_LENGTH 0 256);
      V "qos_orates" (V_LENGTH 0 256);
      V "qos_orules" (V_LENGTH 0 4096);
      V "qos_default" (V_RANGE 0 9);
      V "qos_classnames" (V_LENGTH 10 128);
      V "ne_vegas" V_01;
      V "ne_valpha" V_NUM;
      V "ne_vbeta" V_NUM;
      V "ne_vgamma" V_NUM;
      V "bwl_enable" V_01;
      V "bwl_rules" (V_LENGTH 0 4096);
      V "bwl_lan_enable" V_01;
      V "bwl_lan_dlc" (V_RANGE 0 99999999);
      V "bwl_lan_ulc" (V_RANGE 0 99999999);
      V "bwl_lan_dlr" (V_RANGE 0 99999999);
      V "bwl_lan_ulr" (V_RANGE 0 99999999);
      V "bwl_lan_tcp" (V_RANGE 0 1000);
      V "bwl_lan_udp" (V_RANGE 0 100);
      V "bwl_lan_prio" (V_RANGE 0 5)]
  ++ when (Def "TOMATO64")
       ([V "quota_enable" V_01;
         V "quota_rules" (V_LENGTH 0 8192);
         V "quota_nextid" V_NUM;
         V "quota_path" (V_LENGTH 0 48);
         V "quota_stime" (V_RANGE 1 24)]).

Definition nvset_transmission : table (string * vtype) :=
  when (Def "TCONFIG_BT")
    ([V "bt_enable" V_01;
      V "bt_binary" (V_LENGTH 0 50);
      V "bt_binary_custom" (V_LENGTH 0 50);
      V "bt_custom" (V_TEXT 0 2048);
      V "bt_port" V_PORT;
      V "bt_dir" (V_LENGTH 0 50);
      V "bt_settings" (V_LENGTH 0 50);
      V "bt_settings_custom" (V_LENGTH 0 50);
      V "bt_incomplete" V_01;
      V "bt_autoadd" V_01;
      V "bt_rpc_enable" V_01;
      V "bt_rpc_wan" V_01;
      V "bt_auth" V_01;
      V "bt_login" (V_LENGTH 0 50);
      V "bt_password" (V_LENGTH 0 50);
      V "bt_port_gui" V_PORT;
      V "bt_dl_enable" V_01;
      V "bt_ul_enable" V_01;
      V "bt_dl" (V_RANGE 0 999999);
      V "bt_ul" (V_RANGE 0 999999);
      V "bt_peer_limit_global" (V_RANGE 10 1000);
      V "bt_peer_limit_per_torrent" (V_RANGE 1 200);
      V "bt_ul_slot_per_torrent" (V_RANGE 1 50);
      V "bt_ratio_enable" V_01;
      V "bt_ratio" (V_LENGTH 0 999999);
      V "bt_ratio_idle_enable" V_01;
      V "bt_ratio_idle" (V_RANGE 1 55);
      V "bt_dht" V_01;
      V "bt_pex" V_01;
      V "bt_lpd" V_01;
      V "bt_utp" V_01;
      V "bt_blocklist" V_01;
      V "bt_blocklist_url" (V_LENGTH 0 256);
      V "bt_sleep" (V_RANGE 1 60);
      V "bt_check_time" (V_RANGE 0 55);
      V "bt_dl_queue_enable" V_01;
      V "bt_dl_queue_size" (V_RANGE 1 30);
      V "bt_ul_queue_enable" V_01;
      V "bt_ul_queue_size" (V_RANGE 1 30);
      V "bt_message" (V_RANGE 0 3);
      V "bt_log" V_01;
      V "bt_log_path" (V_LENGTH 0 50)]).

Definition nvset_nfs_nocat : table (string * vtype) :=
  when (Def "TCONFIG_NFS")
    ([V "nfs_enable" V_01;
      V "nfs_enable_v2" V_01;
      V "nfs_exports" (V_LENGTH 0 4096)])
  ++ when (Def "TCONFIG_NOCAT")
       ([V "NC_enable" V_01;
         V "NC_Verbosity" (V_RANGE 0 10);
         V "NC_GatewayName" (V_LENGTH 0 255);
         V "NC_GatewayPort" V_PORT;
         V "NC_ForcedRedirect" V_01;
         V "NC_HomePage" (V_LENGTH 0 255);
         V "NC_DocumentRoot" (V_LENGTH 0 255);
         V "NC_SplashURL" (V_LENGTH 0 255);
         V "NC_LoginTimeout" (V_RANGE 0 86400000);
         V "NC_IdleTimeout" (V_RANGE 0 86400000);
         V "NC_MaxMissedARP" (V_RANGE 0 10);
         V "NC_PeerChecktimeout" (V_RANGE 0 60);
         V "NC_ExcludePorts" (V_LENGTH 0 255);
         V "NC_IncludePorts" (V_LENGTH 0 255);
         V "NC_AllowedWebHosts" (V_LENGTH 0 255);
         V "NC_MACWhiteList" (V_LENGTH 0 255);
         V "NC_SplashFile" (V_LENGTH 0 8192);
         V "NC_BridgeLAN" (V_LENGTH 0 50)]).

Definition nvset_nginx : table (string * vtype) :=
  when (Def "TCONFIG_NGINX")
    ([V "nginx_enable" V_01;
      V "nginx_php" V_01;
      V "nginx_keepconf" V_01;
      V "nginx_docroot" (V_LENGTH 0 255);
      V "nginx_port" V_PORT;
      V "nginx_fqdn" (V_LENGTH 0 255);
      V "nginx_upload" (V_LENGTH 1 1000);
      V "nginx_remote" V_01;
      V "nginx_priority" (V_LENGTH 0 255);
      V "nginx_custom" (V_TEXT 0 4096);
      V "nginx_httpcustom" (V_TEXT 0 4096);
      V "nginx_servercustom" (V_TEXT 0 4096);
      V "nginx_phpconf" (V_TEXT 0 4096)]
     ++ when (Def "TCONFIG_BCMARM")
          [V "nginx_phpfpmconf" (V_TEXT 0 4096)]
     ++ [V "nginx_user" (V_LENGTH 0 255);
         V "nginx_override" V_01;
         V "nginx_overridefile" (V_TEXT 0 4096);
         V "nginx_h5aisupport" V_01;
         V "nginx_sleep" (V_RANGE 1 60);
         V "mysql_enable" V_01;
         V "mysql_sleep" (V_RANGE 1 60);
         V "mysql_check_time" (V_RANGE 0 55);
         V "mysql_binary" (V_LENGTH 0 50);
         V "mysql_binary_custom" (V_LENGTH 0 50);
         V "mysql_usb_enable" V_01;
         V "mysql_dlroot" (V_LENGTH 0 50);
         V "mysql_datadir" (V_LENGTH 0 64);
         V "mysql_tmpdir" (V_LENGTH 0 64);
         V "mysql_server_custom" (V_TEXT 0 1024);
         V "mysql_port" V_PORT;
         V "mysql_allow_anyhost" V_01;
         V "mysql_init_rootpass" V_01;
         V "mysql_username" (V_TEXT 0 50);
         V "mysql_passwd" (V_TEXT 0 50);
         V "mysql_key_buffer" (V_RANGE 0 1024);
         V "mysql_max_allowed_packet" (V_RANGE 0 1024);
         V "mysql_thread_stack" (V_RANGE 0 1024000);
         V "mysql_thread_cache_size" (V_RANGE 0 999999);
         V "mysql_init_priv" V_01;
         V "mysql_table_open_cache" (V_RANGE 1 999999);
         V "mysql_sort_buffer_size" (V_RANGE 0 1024000);
         V "mysql_read_buffer_size" (V_RANGE 0 1024000);
         V "mysql_query_cache_size" (V_RANGE 0 1024);
         V "mysql_read_rnd_buffer_size" (V_RANGE 0 1024000);
         V "mysql_net_buffer_length" (V_RANGE 0 1024);
         V "mysql_max_connections" (V_RANGE 0 999999)]).

Definition nvset_vpn : table (string * vtype) :=
  when (Def "TCONFIG_OPENVPN")
    ([V "vpns_eas" V_NONE;
      V "vpns_dns" V_NONE;
      V "vpnc_eas" V_NONE])
  ++ when (Def "TCONFIG_PPTPD")
       ([V "pptpd_enable" V_01;
         V "pptpd_remoteip" (V_TEXT 0 24);
         V "pptpd_forcemppe" V_01;
         V "pptpd_users" (V_TEXT 0 1072);
         V "pptpd_broadcast" (V_TEXT 0 8);
         V "pptpd_dns1" (V_TEXT 0 15);
         V "pptpd_dns2" (V_TEXT 0 15);
         V "pptpd_wins1" (V_TEXT 0 15);
         V "pptpd_wins2" (V_TEXT 0 15);
         V "pptpd_mtu" (V_RANGE 576 1500);
         V "pptpd_mru" (V_RANGE 576 1500);
         V "pptpd_custom" (V_TEXT 0 2048)])
  ++ when (Def "TCONFIG_TINC")
       ([V "tinc_enable" (V_RANGE 0 1);
         V "tinc_name" (V_LENGTH 0 30);
         V "tinc_devicetype" (V_TEXT 3 3);
         V "tinc_mode" (V_TEXT 3 6);
         V "tinc_vpn_netmask" V_IP;
         V "tinc_private_rsa" V_NONE;
         V "tinc_private_ed25519" V_NONE;
         V "tinc_custom" V_NONE;
         V "tinc_hosts" V_NONE;
         V "tinc_manual_firewall" (V_RANGE 0 2);
         V "tinc_manual_tinc_up" (V_RANGE 0 1);
         V "tinc_poll" (V_RANGE 0 1440);
         V "tinc_tinc_up" V_NONE;
         V "tinc_tinc_down" V_NONE;
         V "tinc_host_up" V_NONE;
         V "tinc_host_down" V_NONE;
         V "tinc_subnet_up" V_NONE;
         V "tinc_subnet_down" V_NONE;
         V "tinc_firewall" V_NONE])
  ++ when (Def "TCONFIG_TOR")
       ([V "tor_enable" V_01;
         V "tor_solve_only" V_01;
         V "tor_socksport" (V_RANGE 1 65535);
         V "tor_transport" (V_RANGE 1 65535);
         V "tor_dnsport" (V_RANGE 1 65535);
         V "tor_ctrlport" (V_RANGE 1 65535);
         V "tor_datadir" (V_TEXT 0 24);
         V "tor_iface" (V_LENGTH 0 50);
         V "tor_users" (V_LENGTH 0 4096);
         V "tor_ports" (V_LENGTH 0 50);
         V "tor_ports_custom" (V_LENGTH 0 4096);
         V "tor_custom" (V_TEXT 0 2048)])
  ++ when (Def "TCONFIG_PPTPD")
       ([V "pptpc_eas" V_01;
         V "pptpc_usewan" (V_TEXT 0 5);
         V "pptpc_peerdns" (V_RANGE 0 2);
         V "pptpc_mtuenable" V_01;
         V "pptpc_mtu" (V_RANGE 576 1500);
         V "pptpc_mruenable" V_01;
         V "pptpc_mru" (V_RANGE 576 1500);
         V "pptpc_nat" V_01;
         V "pptpc_srvip" V_NONE;
         V "pptpc_srvsub" V_IP;
         V "pptpc_srvsubmsk" V_IP;
         V "pptpc_username" (V_TEXT 0 50);
         V "pptpc_passwd" (V_TEXT 0 50);
         V "pptpc_crypt" (V_RANGE 0 3);
         V "pptpc_custom" V_NONE;
         V "pptpc_dfltroute" V_01;
         V "pptpc_stateless" V_01;
         V "pptpd_chap" (V_RANGE 0 2)])
  ++ when (Def "TCONFIG_WIREGUARD")
       [V "wg_adns" V_NONE].

Definition nvset_blocks : table (string * vtype) :=
  when (AtLeast "MWAN_MAX" 2)
    (WAN_BLOCK "2")
  ++ when (AtLeast "MWAN_MAX" 3)
       (WAN_BLOCK "3")
  ++ when (AtLeast "MWAN_MAX" 4)
       (WAN_BLOCK "4")
  ++ when (AtLeast "MWAN_MAX" 5)
       (WAN_BLOCK "5")
  ++ when (AtLeast "MWAN_MAX" 6)
       (WAN_BLOCK "6")
  ++ when (AtLeast "MWAN_MAX" 7)
       (WAN_BLOCK "7")
  ++ when (AtLeast "MWAN_MAX" 8)
       (WAN_BLOCK "8")
  ++ when (AtLeast "BRIDGE_COUNT" 2)
       (BRIDGE_BLOCK "1")
  ++ when (AtLeast "BRIDGE_COUNT" 3)
       (BRIDGE_BLOCK "2")
  ++ when (AtLeast "BRIDGE_COUNT" 4)
       (BRIDGE_BLOCK "3")
  ++ when (AtLeast "BRIDGE_COUNT" 5)
       (BRIDGE_BLOCK "4")
  ++ when (AtLeast "BRIDGE_COUNT" 6)
       (BRIDGE_BLOCK "5")
  ++ when (AtLeast "BRIDGE_COUNT" 7)
       (BRIDGE_BLOCK "6")
  ++ when (AtLeast "BRIDGE_COUNT" 8)
       (BRIDGE_BLOCK "7")
  ++ when (AtLeast "BRIDGE_COUNT" 9)
       (BRIDGE_BLOCK "8")
  ++ when (AtLeast "BRIDGE_COUNT" 10)
       (BRIDGE_BLOCK "9")
  ++ when (AtLeast "BRIDGE_COUNT" 11)
       (BRIDGE_BLOCK "10")
  ++ when (AtLeast "BRIDGE_COUNT" 12)
       (BRIDGE_BLOCK "11")
  ++ when (AtLeast "BRIDGE_COUNT" 13)
       (BRIDGE_BLOCK "12")
  ++ when (AtLeast "BRIDGE_COUNT" 14)
       (BRIDGE_BLOCK "13")
  ++ when (AtLeast "BRIDGE_COUNT" 15)
       (BRIDGE_BLOCK "14")
  ++ when (AtLeast "BRIDGE_COUNT" 16)
       (BRIDGE_BLOCK "15")
  ++ when (Def "TCONFIG_OPENVPN")
       (when (AtLeast "OVPN_CLIENT_COUNT" 1)
          (OVPNC_BLOCK "1")
        ++ when (AtLeast "OVPN_CLIENT_COUNT" 2)
             (OVPNC_BLOCK "2")
        ++ when (AtLeast "OVPN_CLIENT_COUNT" 3)
             (OVPNC_BLOCK "3")
        ++ when (AtLeast "OVPN_CLIENT_COUNT" 4)
             (OVPNC_BLOCK "4")
        ++ when (AtLeast "OVPN_CLIENT_COUNT" 5)
             (OVPNC_BLOCK "5")
        ++ when (AtLeast "OVPN_CLIENT_COUNT" 6)
             (OVPNC_BLOCK "6")
        ++ when (AtLeast "OVPN_CLIENT_COUNT" 7)
             (OVPNC_BLOCK "7")
        ++ when (AtLeast "OVPN_CLIENT_COUNT" 8)
             (OVPNC_BLOCK "8")
        ++ when (AtLeast "OVPN_CLIENT_COUNT" 9)
             (OVPNC_BLOCK "9")
        ++ when (AtLeast "OVPN_CLIENT_COUNT" 10)
             (OVPNC_BLOCK "10")
        ++ when (AtLeast "OVPN_SERVER_COUNT" 1)
             (OVPNS_BLOCK "1")
        ++ when (AtLeast "OVPN_SERVER_COUNT" 2)
             (OVPNS_BLOCK "2")
        ++ when (AtLeast "OVPN_SERVER_COUNT" 3)
             (OVPNS_BLOCK "3")
        ++ when (AtLeast "OVPN_SERVER_COUNT" 4)
             (OVPNS_BLOCK "4")
        ++ when (AtLeast "OVPN_SERVER_COUNT" 5)
             (OVPNS_BLOCK "5")
        ++ when (AtLeast "OVPN_SERVER_COUNT" 6)
             (OVPNS_BLOCK "6"))
  ++ when (Def "TCONFIG_WIREGUARD")
       (when (AtLeast "WG_INTERFACE_COUNT" 1)
          (WG_BLOCK "0")
        ++ when (AtLeast "WG_INTERFACE_COUNT" 2)
             (WG_BLOCK "1")
        ++ when (AtLeast "WG_INTERFACE_COUNT" 3)
             (WG_BLOCK "2")
        ++ when (AtLeast "WG_INTERFACE_COUNT" 4)
             (WG_BLOCK "3")
        ++ when (AtLeast "WG_INTERFACE_COUNT" 5)
             (WG_BLOCK "4")
        ++ when (AtLeast "WG_INTERFACE_COUNT" 6)
             (WG_BLOCK "5")
        ++ when (AtLeast "WG_INTERFACE_COUNT" 7)
             (WG_BLOCK "6")
        ++ when (AtLeast "WG_INTERFACE_COUNT" 8)
             (WG_BLOCK "7")).

Definition nvset_tomato64 : table (string * vtype) :=
  when (Def "TOMATO64")
    ([V "wifi_sta_list" V_NONE;
      V "wifi_phy_count" (V_RANGE 0 10);
      V "wifi_phy_count_expected" (V_RANGE 0 10)]
     ++ when (Def "TOMATO64_BE14000")
          ([V "panel_pages" (V_LENGTH 0 256);
            V "panel_auto_lock" (V_RANGE 0 30);
            V "panel_idle_mode" (V_TEXT 2 5);
            V "panel_brightness" (V_RANGE 10 100);
            V "panel_background" (V_RANGE 0 8);
            V "panel_list_opacity" (V_RANGE 0 100);
            V "panel_clock_24h" V_01;
            V "panel_temp_unit" (V_TEXT 1 1);
            V "panel_scroll" V_01;
            V "panel_test_pages" V_01;
            V "panel_pin" (V_LENGTH 0 6);
            V "panel_latitude" (V_LENGTH 0 12);
            V "panel_longitude" (V_LENGTH 0 12)])
     ++ when (AtLeast "WIFI_PHY_COUNT" 1)
          (WIFI_BLOCK "0")
     ++ when (AtLeast "WIFI_PHY_COUNT" 2)
          (WIFI_BLOCK "1")
     ++ when (AtLeast "WIFI_PHY_COUNT" 3)
          (WIFI_BLOCK "2")
     ++ [V "flow_offloading" (V_RANGE 0 2);
         V "wed_offloading" (V_RANGE 0 1);
         V "bridger_enable" V_01;
         V "packet_steering" (V_RANGE 0 2);
         V "steering_flows" V_NONE;
         V "steering_flows_custom" (V_RANGE 0 99999);
         V "port0_label" (V_LENGTH 0 20);
         V "port1_label" (V_LENGTH 0 20);
         V "port2_label" (V_LENGTH 0 20);
         V "port3_label" (V_LENGTH 0 20);
         V "port4_label" (V_LENGTH 0 20);
         V "port5_label" (V_LENGTH 0 20);
         V "port6_label" (V_LENGTH 0 20);
         V "port7_label" (V_LENGTH 0 20);
         V "port8_label" (V_LENGTH 0 20);
         V "port9_label" (V_LENGTH 0 20)]
     ++ when (Def "TOMATO64_HAS_FAN")
          ([V "fan_mode" V_01;
            V "fan_pwm" (V_LENGTH 0 256);
            V "fan_trips" (V_LENGTH 0 512);
            V "fan_curve" (V_LENGTH 0 1024)])).

Definition nvset_list : table (string * vtype) :=
  nvset_basic ++ nvset_wan ++ nvset_lan_modem ++ nvset_wireless ++ nvset_ipv6
  ++ nvset_wfilter_ctnf ++ nvset_dhcpdns_firewall ++ nvset_misc ++ nvset_vlan
  ++ nvset_mac_routing ++ nvset_adv_wireless ++ nvset_forward ++ nvset_access
  ++ nvset_stats_buttons ++ nvset_debug_log ++ nvset_admin ++ nvset_usb ++ nvset_ftp_snmp
  ++ nvset_samba_media ++ nvset_qos_bwl ++ nvset_transmission ++ nvset_nfs_nocat
  ++ nvset_nginx ++ nvset_vpn ++ nvset_blocks ++ nvset_tomato64.

End Table.

End NvsetTable.
