(* ===== verification/Defaults.v ===== *)
(** Default settings: how they are looked up, restored and removed.

    - [fix_name], [nvram_default_get], [nvram_validate_all], [nvram_restore_var] of
      src/tomato64/package/libshared/shared/defaults.c;
    - [restore_defaults] and [wl_defaults] of src/tomato64/package/rc/rc/init.c, the
      boot-time restoration;
    - [add_..._defaults] and [del_..._defaults] of
      src/tomato64/package/rc/rc/services.c, the tables of the optional services.

    The store is written here, so it is the class [Store] with the laws [StoreLaws]
    that bcmnvram.h documents: a value that was set is retrieved, the others are
    kept, and a null value unsets (nvram/nvram_linux.c). *)

From Stdlib Require Import ZArith Lia.
From stdpp Require Import base list strings gmap.
From S2P Require Import Prelude Scan Nvram ShList Inet BuildConfig DefaultsTable.

Local Open Scope Z_scope.

Module Defaults.
Import Nvram ShList Inet BuildConfig DefaultsTable.

(** ** The store *)

Class Store := {
  store : Type;
  get : store -> cstr -> option cstr;
  set : store -> cstr -> option cstr -> store }.

Class StoreLaws {st : Store} : Prop := {
  get_set : forall s n v, get (set s n v) n = v;
  get_set_other : forall s n m v, m <> n -> get (set s n v) m = get s m }.

(** What the readers of the store see of it. *)
Definition view {st : Store} (s : store) : Nvram :=
  {| nvram_get := get s; nvram_get_int := fun n => atoi (default [] (get s n)) |}.

Definition matches {st : Store} (s : store) (n v : cstr) : bool := @nvram_match (view s) n v.

Definition safe_get {st : Store} (s : store) (n : cstr) : cstr := @nvram_safe_get (view s) n.

Section Ops.
Context {st : Store} {cfg : Config}.

Definition nvram_set (s : store) (n v : cstr) : store := set s n (Some v).

Definition nvram_unset (s : store) (n : cstr) : store := set s n None.

(** ** Tables *)

(** An entry as the code sees it at run time. *)
Definition nvram_tuple : Type := cstr * option cstr.

Definition tuple (e : string * option string) : nvram_tuple := (bytes e.1, bytes <$> e.2).

Definition tuples (t : table (string * option string)) : list nvram_tuple := map tuple (expand t).

(** ** Looking a default up *)

Definition strlcat_r (s1 s2 : cstr) (buf_len : nat) : cstr := strlcpy buf_len (s1 ++ s2).

Definition NVRAM_MAX_VALUE_LEN : nat := 2048.

Definition is_wl_unit (name : cstr) : bool :=
  prefix_of_str (bytes "wl") name && isdigit (char_at name 2).

Definition fix_name (name : cstr) (fixed_len : nat) : cstr :=
  match strchr name (chr "_") with
  | Some i =>
      if is_wl_unit name then strlcat_r (bytes "wl") (drop i name) fixed_len
      else strlcpy fixed_len name
  | None => strlcpy fixed_len name
  end.

Definition is_virtual (name : cstr) : bool := (char_at name 3 =? chr ".") || (char_at name 4 =? chr ".").

Definition hspot : cond := And (Def "TCONFIG_BCMARM") (And (Not (Def "TCONFIG_BCM7")) (Def "__CONFIG_HSPOT__")).

(** The value of the first entry of that name; a null pointer for none. *)
Definition find_default (t : list nvram_tuple) (name : cstr) : option cstr :=
  match List.find (fun e => strcmp_eq e.1 name) t with Some e => e.2 | None => None end.

Definition nvram_default_get (name : cstr) : option cstr :=
  let fixed_name := fix_name name NVRAM_MAX_VALUE_LEN in
  if strcmp_eq fixed_name (bytes "wl_bss_enabled") && is_virtual name then Some (bytes "0")
  else if holds hspot && strcmp_eq fixed_name (bytes "wl_bss_hs2_enabled") && is_virtual name
  then Some (bytes "0")
  else find_default (tuples router_defaults) fixed_name.

(** ** Settings of one interface *)

Definition is_wl (e : nvram_tuple) : bool := prefix_of_str (bytes "wl_") e.1.

Definition validate_one (prefix : cstr) (restore : bool) (s : store) (t : nvram_tuple) : store :=
  if is_wl t then
    let tmp := strlcat_r prefix (drop 3 t.1) 100 in
    if negb restore && bool_decide (is_Some (get s tmp)) then s
    else set s tmp (match get s t.1 with Some v => Some v | None => t.2 end)
  else s.

Definition nvram_validate_all (prefix : cstr) (restore : bool) (s : store) : store :=
  fold_left (validate_one prefix restore) (tuples router_defaults) s.

Definition nvram_restore_var (prefix name : cstr) (s : store) : store :=
  match List.find (fun t => is_wl t && strcmp_eq (drop 3 t.1) name) (tuples router_defaults) with
  | Some t => set s (strlcat_r prefix name 100) t.2
  | None => s
  end.

(** ** At boot *)

(** What the start-up reads of the machine: the version it was built from, the
    memory, and the command it runs where the table is not linked in. *)
Record boot := {
  tomato_version : cstr; tomato_buildtime : cstr; totalram : Z;
  nvram_defaults_initcheck : store -> store }.

Definition restore_flag (s : store) : bool := negb (matches s (bytes "restore_defaults") (bytes "0")).

Definition restore_one (restore : bool) (s : store) (t : nvram_tuple) : store :=
  if restore || negb (bool_decide (is_Some (get s t.1))) then set s t.1 t.2 else s.

Definition TOMATO_RAM_LOW_END : Z := 50 * 1024.
Definition TOMATO_RAM_MID_END : Z := 100 * 1024.

Definition set_thresh (s : store) (wl et : string) : store :=
  let s := nvram_set s (bytes "wl_txq_thresh") (bytes wl) in
  let s := nvram_set s (bytes "et_txq_thresh") (bytes et) in
  if holds (Def "TCONFIG_USBAP") then nvram_set s (bytes "wl_rpcq_rxthresh") (bytes wl) else s.

Definition restore_defaults (b : boot) (s : store) : store :=
  let restore := restore_flag s in
  let s :=
    if holds (Def "TCONFIG_BCMARM") then fold_left (restore_one restore) (tuples router_defaults) s
    else nvram_defaults_initcheck b s in
  let s := nvram_set s (bytes "os_version") (tomato_version b) in
  let s := nvram_set s (bytes "os_date") (tomato_buildtime b) in
  if holds (And (Not (Def "TOMATO64")) (Def "TCONFIG_RTNPLUS")) && restore then
    if totalram b <=? TOMATO_RAM_LOW_END * 1024 then set_thresh s "512" "512"
    else if totalram b <=? TOMATO_RAM_MID_END * 1024 then set_thresh s "1024" "1536"
    else set_thresh s "1024" "3300"
  else s.

(** *** The radios of the builds with the proprietary driver *)

Definition nband_entry (t : nvram_tuple) : bool :=
  prefix_of_str (bytes "wl") t.1 && negb (prefix_of_str (bytes "wl_") t.1) &&
  negb (prefix_of_str (bytes "wlc") t.1) && strcmp_eq (drop 4 t.1) (bytes "nband").

Definition wl_default_value (prefix : cstr) (s : store) (t : nvram_tuple) : option cstr :=
  if holds (Def "TCONFIG_EMF") && strcmp_eq (drop 3 t.1) (bytes "igs") then
    match get s (strlcat_r prefix (bytes "wmf_bss_enable") 100) with
    | Some (c :: v) => Some (c :: v)
    | _ => t.2
    end
  else t.2.

Definition wl_default_one (prefix : cstr) (s : store) (t : nvram_tuple) : store :=
  let s := if nband_entry t then set s t.1 t.2 else s in
  if negb (is_wl t) then s
  else
    let tmp := strlcat_r prefix (drop 3 t.1) 100 in
    let s :=
      if strcmp_eq (drop 3 t.1) (bytes "nband") && matches s tmp (bytes "-1") then set s tmp t.2 else s in
    match get s tmp with
    | Some _ => s
    | None => set s tmp (wl_default_value prefix s t)
    end.

Definition wl_prefix (unit : Z) : cstr := snprintf 14 (bytes "wl" ++ print_d unit ++ bytes "_").

Fixpoint wl_units (words : list cstr) (unit : Z) (s : store) : store :=
  match words with
  | [] => s
  | _ :: words =>
      wl_units words (unit + 1)
        (fold_left (wl_default_one (wl_prefix unit)) (tuples router_defaults) s)
  end.

Definition wl_defaults (s : store) : store :=
  let s :=
    match get s (bytes "wl_country_code") with
    | Some _ => s
    | None => nvram_set s (bytes "wl_country_code") []
    end in
  wl_units (foreach 256 (safe_get s (bytes "wl_ifnames"))) 0 s.

(** ** Optional services *)

Definition add_one (s : store) (t : nvram_tuple) : store :=
  match get s t.1 with Some _ => s | None => set s t.1 t.2 end.

Definition add_defaults (tbl : table (string * option string)) (s : store) : store :=
  fold_left add_one (tuples tbl) s.

Definition del_defaults (flag : cstr) (tbl : table (string * option string)) (s : store) : store :=
  if matches s flag (bytes "0") then fold_left (fun s t => nvram_unset s t.1) (tuples tbl) s else s.

Definition add_rstats_defaults : store -> store := add_defaults rstats_defaults.
Definition del_rstats_defaults : store -> store := del_defaults (bytes "rstats_enable") rstats_defaults.
Definition add_cstats_defaults : store -> store := add_defaults cstats_defaults.
Definition del_cstats_defaults : store -> store := del_defaults (bytes "cstats_enable") cstats_defaults.
Definition add_ftp_defaults : store -> store := add_defaults ftp_defaults.
Definition del_ftp_defaults : store -> store := del_defaults (bytes "ftp_enable") ftp_defaults.
Definition add_snmp_defaults : store -> store := add_defaults snmp_defaults.
Definition del_snmp_defaults : store -> store := del_defaults (bytes "snmp_enable") snmp_defaults.
Definition add_upnp_defaults : store -> store := add_defaults upnp_defaults.
Definition del_upnp_defaults : store -> store := del_defaults (bytes "upnp_enable") upnp_defaults.
Definition add_bsd_defaults : store -> store := add_defaults bsd_defaults.
Definition del_bsd_defaults : store -> store := del_defaults (bytes "smart_connect_x") bsd_defaults.

End Ops.

End Defaults.
