(* ===== verification/DefaultsSpec.v ===== *)
(** What the default settings guarantee: names are unique in every build, what a
    boot makes of every variable, a radio ends with all of its settings, and the
    tables of the optional services come and go without touching anything else. *)

From Stdlib Require Import ZArith Lia.
From stdpp Require Import base list strings gmap.
From S2P Require Import Prelude Scan Nvram ShList Inet BuildConfig DefaultsTable Defaults.

Local Open Scope Z_scope.

Module DefaultsSpec.
Import Nvram ShList Inet BuildConfig DefaultsTable Defaults.

#[local] Arguments bytes : simpl never.
#[local] Arguments tuples : simpl never.
#[local] Arguments router_defaults : simpl never.

(** ** A store *)

(** The store of the builds for PCs: a map. *)
#[export] Instance map_store : Store := {|
  store := gmap cstr cstr;
  get := fun s n => s !! n;
  set := fun s n v => match v with Some v => <[n := v]> s | None => delete n s end |}.

#[export] Instance map_store_laws : StoreLaws.
Proof.
  split.
  - intros s n [v|]; simpl; [apply lookup_insert_eq|apply lookup_delete_eq].
  - intros s n m [v|] H; simpl; [by rewrite lookup_insert_ne|by rewrite lookup_delete_ne].
Qed.

(** ** Names *)

Lemma code_inj a b : code a = code b -> a = b.
Proof.
  unfold code. intros H. apply N2Z.inj in H.
  by rewrite <- (Ascii.ascii_N_embedding a), H, Ascii.ascii_N_embedding.
Qed.

#[export] Instance bytes_inj : Inj eq eq bytes.
Proof.
  intros a. induction a as [|c a IH]; intros [|d b] H; cbn [bytes] in H; try done.
  injection H as Hc H. apply code_inj in Hc as ->. f_equal. by apply IH.
Qed.

Definition keys (l : list nvram_tuple) : list cstr := map fst l.

Lemma strcmp_eq_spec a b : strcmp_eq a b = true <-> a = b.
Proof. unfold strcmp_eq. apply bool_decide_eq_true. Qed.

Lemma find_none_keys l n : n ∉ keys l -> List.find (fun e => strcmp_eq e.1 n) l = None.
Proof.
  induction l as [|e l IH]; [done|]. simpl. intros H.
  destruct (strcmp_eq e.1 n) eqn:E; [|apply IH; set_solver].
  apply strcmp_eq_spec in E. set_solver.
Qed.

(** [n] is the name of at most one entry. *)
Fixpoint once (n : cstr) (l : list nvram_tuple) : Prop :=
  match l with
  | [] => True
  | e :: l => if strcmp_eq e.1 n then n ∉ keys l else once n l
  end.

Section Names.
Context {cfg : Config}.

Lemma keys_tuples t n : bytes n ∈ keys (tuples t) <-> n ∈ map fst (expand t).
Proof.
  unfold keys, tuples. rewrite map_map, !list_elem_of_In, !in_map_iff. split.
  - intros (e & H & Hin). exists e. split; [|done]. by apply bytes_inj.
  - intros (e & <- & Hin). by exists e.
Qed.

Lemma once_tuples except t n :
  NoDup (names_but except (expand t)) -> existsb (String.eqb n) except = false ->
  once (bytes n) (tuples t).
Proof.
  intros H Hn. unfold tuples. induction (expand t) as [|[m v] l IH]; [done|].
  unfold names_but in H. cbn [map fst List.filter] in H. simpl.
  destruct (strcmp_eq (bytes m) (bytes n)) eqn:E.
  - apply strcmp_eq_spec, bytes_inj in E as ->. rewrite Hn in H. simpl in H.
    apply NoDup_cons in H as [H _]. intros Hin. apply H.
    unfold keys in Hin. rewrite map_map, list_elem_of_In, in_map_iff in Hin.
    destruct Hin as (e & He & Hin). apply bytes_inj in He. apply list_elem_of_In, filter_In.
    rewrite Hn. split; [|done]. apply in_map_iff. by exists e.
  - apply IH. destruct (negb (existsb (String.eqb m) except)); [by inversion H|done].
Qed.

(** A name that is not text of the source is not a name of a table. *)
Lemma keys_bytes t n : n ∈ keys (tuples t) -> exists m, n = bytes m.
Proof.
  unfold keys, tuples. rewrite map_map, list_elem_of_In, in_map_iff. intros (e & <- & _). by eexists.
Qed.

Lemma once_out n l : n ∉ keys l -> once n l.
Proof.
  induction l as [|e l IH]; [done|]. simpl. intros H. case_match; [|apply IH]; set_solver.
Qed.

Lemma once_any except t n :
  NoDup (names_but except (expand t)) -> n ∉ map bytes except -> once n (tuples t).
Proof.
  intros H Hn. destruct (decide (n ∈ keys (tuples t))) as [Hin|Hout]; [|by apply once_out].
  apply keys_bytes in Hin as [m ->]. apply (once_tuples except); [done|].
  apply not_true_is_false. intros (x & Hx & E)%existsb_exists. apply String.eqb_eq in E as <-.
  apply Hn, list_elem_of_In, in_map, Hx.
Qed.

End Names.

(** ** Writing a table into the store *)

(** A step that changes nothing but the variable the entry names. *)
Definition keyed {st : Store} (g : option cstr -> option cstr -> option cstr)
  (f : store -> nvram_tuple -> store) : Prop :=
  forall s e n, get (f s e) n = if strcmp_eq e.1 n then g (get s n) e.2 else get s n.

Section Fold.
Context {st : Store} {laws : StoreLaws}.

Lemma set_get s e n v : get (set s e v) n = if strcmp_eq e n then v else get s n.
Proof.
  destruct (strcmp_eq e n) eqn:E.
  - apply strcmp_eq_spec in E as ->. apply get_set.
  - apply get_set_other. intros ->. by rewrite (proj2 (strcmp_eq_spec e e)) in E.
Qed.

Lemma fold_keyed_out g f l s n : keyed g f -> n ∉ keys l -> get (fold_left f l s) n = get s n.
Proof.
  intros Hf. revert s. induction l as [|e l IH]; intros s H; [done|]. simpl.
  rewrite IH by set_solver. rewrite Hf.
  destruct (strcmp_eq e.1 n) eqn:E; [|done]. apply strcmp_eq_spec in E. set_solver.
Qed.

Lemma fold_keyed g f l s n :
  keyed g f -> once n l ->
  get (fold_left f l s) n =
    match List.find (fun e => strcmp_eq e.1 n) l with Some e => g (get s n) e.2 | None => get s n end.
Proof.
  intros Hf. revert s. induction l as [|e l IH]; intros s H; [done|]. simpl in *.
  destruct (strcmp_eq e.1 n) eqn:E.
  - rewrite (fold_keyed_out g) by done. by rewrite Hf, E.
  - rewrite IH by done. by rewrite Hf, E.
Qed.


Definition kept (restore : bool) (old new : option cstr) : option cstr :=
  if restore then new else match old with Some v => Some v | None => new end.

Lemma restore_one_keyed restore : keyed (kept restore) (restore_one restore).
Proof.
  intros s e n. unfold restore_one, kept. destruct restore; simpl; [apply set_get|].
  case_bool_decide as H; simpl; [|rewrite set_get]; destruct (strcmp_eq e.1 n) eqn:E; try done;
    apply strcmp_eq_spec in E as <-.
  - by destruct H as [v ->].
  - by apply eq_None_not_Some in H as ->.
Qed.

Lemma add_one_keyed : keyed (kept false) add_one.
Proof.
  intros s e n. unfold add_one, kept. destruct (strcmp_eq e.1 n) eqn:E.
  - destruct (get s e.1) eqn:G; [|rewrite set_get, E]; apply strcmp_eq_spec in E as <-; by rewrite G.
  - destruct (get s e.1) eqn:G; [done|]. by rewrite set_get, E.
Qed.

Lemma unset_keyed : keyed (fun _ _ => None) (fun s t => nvram_unset s t.1).
Proof. intros s e n. apply set_get. Qed.

End Fold.

(** ** The table of a build *)

(** The two names the table of some builds has twice. *)
Definition twice : list string := ["wan_ifnameX"; "ctf_disable"]%string.

Lemma unique_router : unique_names twice router_defaults = true.
Proof. vm_compute. reflexivity. Qed.

(** In every build for one device no two default settings have the same name, the
    two that the sources define twice apart. *)
Theorem default_names_unique (cfg : Config) :
  one_device cfg -> NoDup (names_but twice (expand router_defaults)).
Proof. intros H. by apply unique_names_sound, unique_router. Qed.

(** A build for PCs. *)
Definition pc_build : Config := {|
  defined := fun f => existsb (String.eqb f)
    ["TOMATO64"; "TOMATO64_X86_64"; "TCONFIG_BCMARM"; "TCONFIG_IPV6"; "TCONFIG_USB"; "TCONFIG_FTP"]%string;
  count := fun _ => 4 |}.

Lemma pc_build_one_device : one_device pc_build.
Proof.
  assert (H : forall d, d ∈ devices -> @defined pc_build d = true -> d = "TOMATO64_X86_64"%string).
  { intros d Hd. unfold devices in Hd.
    repeat (apply elem_of_cons in Hd as [->|Hd]; [by vm_compute|]). by apply elem_of_nil in Hd. }
  intros d e Hd He Dd De. by rewrite (H d), (H e).
Qed.

Lemma default_names_unique_witness : NoDup (names_but twice (@expand _ pc_build router_defaults)).
Proof. apply (default_names_unique pc_build). exact pc_build_one_device. Defined.


Lemma in_expand_always {A} {cfg : Config} (x : A) t : (Always, x) ∈ t -> x ∈ expand t.
Proof. intros H. apply elem_of_expand. by exists Always. Qed.

Lemma elem_of_names {A} (n : string) (v : A) l : (n, v) ∈ l -> n ∈ map fst l.
Proof. intros H. apply list_elem_of_In, in_map_iff. exists (n, v). by rewrite <- list_elem_of_In. Qed.

(** Every build of this firmware has [wan_ifnameX] twice: once without a value and
    once with the port of the device. *)
Lemma wan_ifnameX_twice (cfg : Config) :
  defined "TOMATO64" = true -> ~ NoDup (map fst (expand router_defaults)).
Proof.
  intros H. unfold router_defaults.
  rewrite (expand_app defaults_lan), (expand_app defaults_wan), !map_app.
  intros Hnd. apply NoDup_app in Hnd as (_ & _ & Hnd).
  apply NoDup_app in Hnd as (_ & Hdis & _). apply (Hdis "wan_ifnameX"%string).
  - apply (elem_of_names _ None), in_expand_always, list_elem_of_In. vm_compute. tauto.
  - repeat (rewrite expand_app, map_app; apply elem_of_app; right). rewrite expand_when.
    change (holds (Def "TOMATO64")) with (defined "TOMATO64").
    rewrite H, expand_app, map_app. apply elem_of_app. left.
    unfold defaults_ports. rewrite expand_app, expand_app, expand_ifelse, !map_app.
    apply elem_of_app. right. apply elem_of_app. left. by destruct (holds _); left.
Qed.

(** ** At boot *)

(** The variables that [restore_defaults] writes after the table. *)
Definition boot_names : list cstr := map bytes ["os_version"; "os_date"]%string.

Section Boot.
Context {st : Store} {laws : StoreLaws} {cfg : Config}.
Context (Hone : one_device cfg) (Harm : defined "TCONFIG_BCMARM" = true)
  (Htomato : defined "TOMATO64" = true).

(** What a boot makes of a variable: the value of the table when defaults are to be
    restored or the variable is missing, else what it was. *)
Definition after_boot (s : store) (n : cstr) : option cstr :=
  match List.find (fun e => strcmp_eq e.1 n) (tuples router_defaults) with
  | Some e => kept (restore_flag s) (get s n) e.2
  | None => get s n
  end.

Lemma restore_defaults_all b s n :
  n ∉ boot_names ->
  get (restore_defaults b s) n = get (fold_left (restore_one (restore_flag s)) (tuples router_defaults) s) n.
Proof.
  intros Hb. unfold restore_defaults, nvram_set. cbn [holds]. rewrite Harm, Htomato. cbn [negb andb].
  by rewrite !get_set_other by (intros ->; apply Hb; unfold boot_names; cbn [map]; set_solver +).
Qed.


Lemma restore_defaults_get b s n :
  n ∉ map bytes twice -> n ∉ boot_names -> get (restore_defaults b s) n = after_boot s n.
Proof.
  intros Ht Hb. rewrite restore_defaults_all by done.
  apply fold_keyed; [apply restore_one_keyed|].
  apply (once_any twice); [by apply unique_names_sound, unique_router|done].
Qed.

End Boot.


Definition pc_boot : boot :=
  {| tomato_version := bytes "2026.1"; tomato_buildtime := bytes "today"; totalram := 0;
     nvram_defaults_initcheck := fun s => s |}.


Ltac notin := apply (bool_decide_eq_false_1 _); vm_compute; reflexivity.


(** *** Defaults by name *)

Lemma find_default_in t n v :
  List.find (fun e => strcmp_eq e.1 n) t = Some v -> find_default t n = v.2.
Proof. unfold find_default. by intros ->. Qed.

Lemma fix_name_plain name :
  is_wl_unit name = false -> (length name < NVRAM_MAX_VALUE_LEN)%nat ->
  fix_name name NVRAM_MAX_VALUE_LEN = name.
Proof.
  intros H Hlen. unfold fix_name. rewrite H.
  assert (E : strlcpy NVRAM_MAX_VALUE_LEN name = name) by (unfold strlcpy; apply take_ge; lia).
  by destruct (strchr _ _).
Qed.

(** Right after the defaults have been restored, every setting whose name does not
    start with the number of a radio has the value that [nvram_default_get] reports. *)
Theorem factory_value (st : Store) (laws : StoreLaws) (cfg : Config) (b : boot) (s : store) (n : cstr) :
  one_device cfg -> defined "TCONFIG_BCMARM" = true -> defined "TOMATO64" = true ->
  n ∉ map bytes twice -> n ∉ boot_names ->
  n ∈ keys (tuples router_defaults) -> is_wl_unit n = false -> (length n < NVRAM_MAX_VALUE_LEN)%nat ->
  is_virtual n = false -> restore_flag s = true ->
  get (restore_defaults b s) n = nvram_default_get n.
Proof.
  intros Hone Harm Ht Htw Hb Hin Hwl Hlen Hv Hr.
  rewrite restore_defaults_get by done. unfold after_boot, nvram_default_get.
  rewrite fix_name_plain, Hv, !andb_false_r by done. unfold find_default.
  destruct (List.find _ _) as [e|] eqn:E; [by rewrite Hr|].
  unfold keys in Hin. apply list_elem_of_In, in_map_iff in Hin as (e & <- & Hin).
  apply (find_none _ _ E) in Hin. by rewrite (proj2 (strcmp_eq_spec e.1 e.1)) in Hin.
Qed.

Lemma factory_value_witness :
  @get map_store (@restore_defaults _ pc_build pc_boot ∅) (bytes "lan_ipaddr") =
  @nvram_default_get pc_build (bytes "lan_ipaddr").
Proof.
  apply (factory_value _ _ pc_build);
    [exact pc_build_one_device|reflexivity|reflexivity|notin|notin| |reflexivity|vm_compute; lia|reflexivity|reflexivity].
  apply (bool_decide_eq_true_1 _). vm_compute. reflexivity.
Defined.

(** ** Radios *)

Lemma expand_forall {A} {cfg : Config} (P : A -> bool) t :
  forallb (fun x => P x.2) t = true -> forall x, x ∈ expand t -> P x = true.
Proof.
  rewrite forallb_forall. intros H x (g & Hin & _)%elem_of_expand.
  apply (H (g, x)). by apply list_elem_of_In.
Qed.

Definition wl_value_set (e : string * option string) : bool :=
  negb (prefix_of_str (bytes "wl") (bytes e.1)) || bool_decide (is_Some e.2).

Lemma wl_values : forallb (fun x => wl_value_set x.2) router_defaults = true.
Proof. vm_compute. reflexivity. Qed.

Lemma wl_entry_value {cfg : Config} t :
  t ∈ tuples router_defaults -> prefix_of_str (bytes "wl") t.1 = true -> is_Some t.2.
Proof.
  intros Hin Hp. unfold tuples in Hin. apply list_elem_of_In, in_map_iff in Hin as (e & <- & Hin).
  apply list_elem_of_In, (expand_forall _ _ wl_values) in Hin. unfold wl_value_set in Hin.
  cbn [tuple fst] in Hp. rewrite Hp in Hin. cbn [negb orb] in Hin. apply bool_decide_eq_true in Hin.
  by apply fmap_is_Some.
Qed.

Lemma is_wl_prefix t : is_wl t = true -> prefix_of_str (bytes "wl") t.1 = true.
Proof.
  unfold is_wl. rewrite !prefix_of_str_spec. intros [k ->]. by exists (bytes "_" ++ k).
Qed.

Section Radio.
Context {st : Store} {laws : StoreLaws} {cfg : Config}.

(** All settings of one radio exist. *)
Definition filled (prefix : cstr) (s : store) : Prop :=
  forall t, t ∈ tuples router_defaults -> is_wl t = true ->
    is_Some (get s (strlcat_r prefix (drop 3 t.1) 100)).

(** [s'] has all the variables [s] has. *)
Definition grows (s s' : store) : Prop := forall n, is_Some (get s n) -> is_Some (get s' n).

#[local] Instance grows_preorder : PreOrder grows.
Proof. split; [by intros s n|]. intros a b c H K n Hn. by apply K, H. Qed.

Lemma grows_set s n v : is_Some v -> grows s (set s n v).
Proof. intros Hv m Hm. rewrite set_get. by case_match. Qed.

Lemma grows_fold (f : store -> nvram_tuple -> store) l s :
  (forall s t, t ∈ l -> grows s (f s t)) -> grows s (fold_left f l s).
Proof.
  revert s. induction l as [|t l IH]; intros s H; [reflexivity|]. simpl.
  etransitivity; [apply H; by left|]. apply IH. intros. apply H. by right.
Qed.

Lemma fold_reaches (f : store -> nvram_tuple -> store) (P : nvram_tuple -> store -> Prop) l s t :
  (forall s t, t ∈ l -> grows s (f s t)) -> (forall s t, t ∈ l -> P t (f s t)) ->
  (forall s s' t, grows s s' -> P t s -> P t s') -> t ∈ l -> P t (fold_left f l s).
Proof.
  intros Hg Hp Hm. revert s. induction l as [|u l IH]; intros s Hin; [by apply elem_of_nil in Hin|].
  simpl. apply elem_of_cons in Hin as [->|Hin].
  - eapply Hm; [apply grows_fold; intros; apply Hg; by right|apply Hp; by left].
  - apply IH; [intros; apply Hg; by right|intros; apply Hp; by right|done].
Qed.

Lemma wl_default_value_some prefix s t :
  t ∈ tuples router_defaults -> is_wl t = true -> is_Some (wl_default_value prefix s t).
Proof.
  intros Hin Hwl. assert (H := wl_entry_value t Hin (is_wl_prefix t Hwl)).
  unfold wl_default_value. case_match; [|done]. case_match; [|done]. case_match; [done|]. by eexists.
Qed.

Lemma wl_default_one_grows prefix s t :
  t ∈ tuples router_defaults ->
  grows s (wl_default_one prefix s t) /\
  (is_wl t = true -> is_Some (get (wl_default_one prefix s t) (strlcat_r prefix (drop 3 t.1) 100))).
Proof.
  intros Hin. unfold wl_default_one. set (tmp := strlcat_r prefix (drop 3 t.1) 100).
  set (s1 := if nband_entry t then set s t.1 t.2 else s).
  assert (H1 : grows s s1).
  { unfold s1. destruct (nband_entry t) eqn:E; [|reflexivity]. apply grows_set, (wl_entry_value _ Hin).
    unfold nband_entry in E. by repeat apply andb_true_iff in E as [E _]. }
  destruct (is_wl t) eqn:Ewl; simpl; [|done].
  set (s2 := if strcmp_eq (drop 3 t.1) (bytes "nband") && matches s1 tmp (bytes "-1") then set s1 tmp t.2 else s1).
  assert (H2 : grows s s2).
  { etransitivity; [exact H1|]. unfold s2. case_match; [|reflexivity].
    apply grows_set, (wl_entry_value _ Hin), is_wl_prefix, Ewl. }
  destruct (get s2 tmp) as [v|] eqn:G.
  - split; [exact H2|]. intros _. by exists v.
  - assert (Hv := wl_default_value_some prefix s2 t Hin Ewl). split.
    + etransitivity; [exact H2|]. by apply grows_set.
    + intros _. by rewrite get_set.
Qed.

Lemma filled_grows prefix s s' : grows s s' -> filled prefix s -> filled prefix s'.
Proof. intros Hg Hf t Hin Hwl. by apply Hg, Hf. Qed.

Lemma wl_units_filled words u s :
  grows s (wl_units words u s) /\
  (forall k, (k < length words)%nat -> filled (wl_prefix (u + Z.of_nat k)) (wl_units words u s)).
Proof.
  revert u s. induction words as [|w words IH]; intros u s.
  { split; [reflexivity|]. cbn [length]. lia. }
  cbn [wl_units length]. set (s1 := fold_left _ _ s).
  assert (Hs1 : grows s s1) by (apply grows_fold; intros; by apply wl_default_one_grows).
  destruct (IH (u + 1) s1) as [Hg Hf]. split; [by etransitivity|].
  intros [|k] Hk.
  - rewrite Z.add_0_r. apply (filled_grows _ s1); [done|]. intros t Hin.
    apply (fold_reaches _ (fun t s => is_wl t = true -> is_Some (get s (strlcat_r (wl_prefix u) (drop 3 t.1) 100))));
      [intros; by apply wl_default_one_grows|intros; by apply wl_default_one_grows| |done].
    intros a b t' Hab H Hwl. apply Hab. by apply H.
  - replace (u + Z.of_nat (S k)) with (u + 1 + Z.of_nat k) by lia. apply Hf. lia.
Qed.

Lemma wl_defaults_filled s u :
  (u < length (foreach 256 (safe_get s (bytes "wl_ifnames"))))%nat ->
  filled (wl_prefix (Z.of_nat u)) (wl_defaults s).
Proof.
  intros Hu. unfold wl_defaults. set (s0 := match get s _ with Some _ => s | None => _ end).
  assert (E : safe_get s0 (bytes "wl_ifnames") = safe_get s (bytes "wl_ifnames")).
  { unfold safe_get, nvram_safe_get, s0. cbn [view nvram_get]. case_match; [done|].
    unfold nvram_set. by rewrite get_set_other. }
  rewrite E. by apply (wl_units_filled _ 0 s0).
Qed.

(** The writes of one entry of one radio: only the band of a radio is overwritten. *)
Definition not_band (n : cstr) : Prop := forall p, n <> p ++ bytes "nband".

Lemma wl_default_one_keeps prefix s t n v :
  (length prefix <= 13)%nat -> not_band n -> get s n = Some v ->
  get (wl_default_one prefix s t) n = Some v.
Proof.
  intros Hlen Hn Hv. unfold wl_default_one. set (tmp := strlcat_r prefix (drop 3 t.1) 100).
  set (s1 := if nband_entry t then set s t.1 t.2 else s).
  assert (H1 : get s1 n = Some v).
  { unfold s1. destruct (nband_entry t) eqn:E; [|done]. rewrite get_set_other; [done|].
    intros ->. unfold nband_entry in E. apply andb_true_iff in E as [_ E].
    apply strcmp_eq_spec in E. apply (Hn (take 4 t.1)). by rewrite <- E, take_drop. }
  destruct (is_wl t); simpl; [|done].
  set (s2 := if strcmp_eq (drop 3 t.1) (bytes "nband") && matches s1 tmp (bytes "-1") then set s1 tmp t.2 else s1).
  assert (H2 : get s2 n = Some v).
  { unfold s2. case_match eqn:E; [|done]. apply andb_true_iff in E as [E _].
    apply strcmp_eq_spec in E. rewrite get_set_other; [done|]. unfold tmp, strlcat_r, strlcpy.
    rewrite E, take_ge by (rewrite length_app; simpl; lia). apply Hn. }
  destruct (get s2 tmp) eqn:G; [done|]. rewrite get_set_other; [done|]. intros ->. congruence.
Qed.

Lemma wl_prefix_length u : (length (wl_prefix u) <= 13)%nat.
Proof. unfold wl_prefix, snprintf. rewrite length_take. lia. Qed.

Lemma wl_defaults_keeps s n v : not_band n -> get s n = Some v -> get (wl_defaults s) n = Some v.
Proof.
  intros Hn Hv. unfold wl_defaults. set (s0 := match get s _ with Some _ => s | None => _ end).
  assert (H0 : get s0 n = Some v).
  { unfold s0. case_match eqn:G; [done|]. unfold nvram_set. rewrite get_set_other; [done|].
    intros ->. congruence. }
  generalize (foreach 256 (safe_get s0 (bytes "wl_ifnames"))) as words. clearbody s0.
  intros words. generalize 0 as u. revert s0 H0. induction words as [|w words IH]; intros s0 H0 u; [done|].
  cbn [wl_units]. apply IH. clear IH. revert s0 H0. generalize (tuples router_defaults) as l.
  induction l as [|t l IH]; intros s0 H0; [done|]. cbn [fold_left].
  apply IH, wl_default_one_keeps; [apply wl_prefix_length|done|done].
Qed.

(** *** Settings of a virtual interface *)

Lemma validate_all_keeps prefix s n v :
  get s n = Some v -> get (nvram_validate_all prefix false s) n = Some v.
Proof.
  unfold nvram_validate_all. generalize (tuples router_defaults) as l.
  intros l. revert s. induction l as [|t l IH]; intros s Hv; [done|]. simpl. apply IH.
  unfold validate_one. destruct (is_wl t); [|done]. cbn [negb andb].
  case_bool_decide as H; [done|]. rewrite get_set_other; [done|]. intros ->. apply H. by exists v.
Qed.

Lemma validate_all_filled prefix restore s : filled prefix (nvram_validate_all prefix restore s).
Proof.
  intros t Hin. unfold nvram_validate_all.
  assert (Hv : forall s t, t ∈ tuples router_defaults -> is_wl t = true ->
    is_Some (match get s t.1 with Some v => Some v | None => t.2 end)).
  { intros s' t' H Hwl. case_match; [by eexists|]. by apply (wl_entry_value _ H), is_wl_prefix. }
  apply (fold_reaches _ (fun t s => is_wl t = true -> is_Some (get s (strlcat_r prefix (drop 3 t.1) 100))));
    [| | |done].
  - intros s' t' H. unfold validate_one. destruct (is_wl t') eqn:E; [|reflexivity].
    case_match; [reflexivity|]. by apply grows_set, Hv.
  - intros s' t' H Hwl. unfold validate_one. rewrite Hwl. case_match eqn:E.
    + apply andb_true_iff in E as [_ E]. by apply bool_decide_eq_true in E.
    + rewrite get_set. by apply Hv.
  - intros a b t' Hab H Hwl. by apply Hab, H.
Qed.

End Radio.

(** After [wl_defaults] every radio listed in [wl_ifnames] has all the settings that
    the table of defaults has for radios, and no setting that existed has changed, the
    band of a radio apart. *)
Theorem radios_filled (st : Store) (laws : StoreLaws) (cfg : Config) (s : store) :
  (forall u t, (u < length (foreach 256 (safe_get s (bytes "wl_ifnames"))))%nat ->
     t ∈ tuples router_defaults -> is_wl t = true ->
     is_Some (get (wl_defaults s) (strlcat_r (wl_prefix (Z.of_nat u)) (drop 3 t.1) 100))) /\
  (forall n v, not_band n -> get s n = Some v -> get (wl_defaults s) n = Some v).
Proof.
  split; [|apply wl_defaults_keeps]. intros u t Hu Hin Hwl. by apply wl_defaults_filled.
Qed.

Lemma found {A} (P : A -> bool) x l : List.find P l = Some x -> x ∈ l.
Proof. intros H. apply list_elem_of_In. by apply (find_some P). Qed.

Definition two_radios : gmap cstr cstr :=
  <[bytes "wl_ifnames" := bytes "eth1 eth2"]> {[ bytes "wl1_ssid" := bytes "mine" ]}.

Lemma radios_filled_witness :
  is_Some (@get map_store (@wl_defaults _ pc_build two_radios) (bytes "wl1_mode")) /\
  @get map_store (@wl_defaults _ pc_build two_radios) (bytes "wl1_ssid") = Some (bytes "mine").
Proof.
  destruct (radios_filled map_store _ pc_build two_radios) as [H K]. split.
  - apply (H 1%nat (bytes "wl_mode", Some (bytes "ap"))); [vm_compute; lia| |reflexivity].
    apply (found (fun e => strcmp_eq e.1 (bytes "wl_mode"))). vm_compute. reflexivity.
  - apply K; [|reflexivity]. intros q E. apply (f_equal (@rev Z)) in E. rewrite rev_app_distr in E.
    vm_compute in E. discriminate E.
Defined.

(** [nvram_validate_all] gives an interface all the settings of the table, and without
    [restore] it overwrites none. *)
Theorem interface_validated (st : Store) (laws : StoreLaws) (cfg : Config) (prefix : cstr)
  (restore : bool) (s : store) :
  (forall t, t ∈ tuples router_defaults -> is_wl t = true ->
     is_Some (get (nvram_validate_all prefix restore s) (strlcat_r prefix (drop 3 t.1) 100))) /\
  (forall n v, get s n = Some v -> get (nvram_validate_all prefix false s) n = Some v).
Proof. split; [apply validate_all_filled|apply validate_all_keeps]. Qed.

Lemma interface_validated_witness :
  is_Some (@get map_store (@nvram_validate_all _ pc_build (bytes "wl0.1_") true two_radios) (bytes "wl0.1_mode")).
Proof.
  destruct (interface_validated map_store _ pc_build (bytes "wl0.1_") true two_radios) as [H _].
  apply (H (bytes "wl_mode", Some (bytes "ap"))); [|reflexivity].
  apply (found (fun e => strcmp_eq e.1 (bytes "wl_mode"))). vm_compute. reflexivity.
Defined.

(** The default of one radio is never found: the name is first made that of all. *)
Definition wl_build : Config := {|
  defined := fun f => existsb (String.eqb f) ["CONFIG_BCMWL5"; "CONFIG_BCMWL6"; "TCONFIG_BCMARM"]%string;
  count := fun _ => 4 |}.

Lemma unit_default_ignored :
  List.find (fun e => strcmp_eq e.1 (bytes "wl1_nband")) (@tuples wl_build router_defaults)
    = Some (bytes "wl1_nband", Some (bytes "1")) /\
  @nvram_default_get wl_build (bytes "wl1_nband") = Some (bytes "2").
Proof. vm_compute. by split. Qed.

(** ** Optional services *)

(** The switch and the table of every optional service. *)
Definition services : list (cstr * table (string * option string)) :=
  [(bytes "rstats_enable", rstats_defaults); (bytes "cstats_enable", cstats_defaults);
   (bytes "ftp_enable", ftp_defaults); (bytes "snmp_enable", snmp_defaults);
   (bytes "upnp_enable", upnp_defaults); (bytes "smart_connect_x", bsd_defaults)].

Definition clean_service (x : cstr * table (string * option string)) : bool :=
  unique_names [] x.2 && forallb (fun e => negb (strcmp_eq (bytes e.2.1) x.1)) x.2.

Lemma services_clean : forallb clean_service services = true.
Proof. vm_compute. reflexivity. Qed.

Section Services.
Context {st : Store} {laws : StoreLaws} {cfg : Config} (Hone : one_device cfg).

Lemma service_once flag tbl n : (flag, tbl) ∈ services -> once n (tuples tbl).
Proof.
  intros H%list_elem_of_In. apply (proj1 (forallb_forall _ _) services_clean) in H.
  apply andb_true_iff in H as [H _]. apply (once_any []); [by apply unique_names_sound|].
  apply not_elem_of_nil.
Qed.

Lemma service_flag flag tbl : (flag, tbl) ∈ services -> flag ∉ keys (tuples tbl).
Proof.
  intros H%list_elem_of_In Hin. apply (proj1 (forallb_forall _ _) services_clean) in H.
  apply andb_true_iff in H as [_ H]. cbn [fst snd] in H.
  assert (Hall := expand_forall (fun e => negb (strcmp_eq (bytes e.1) flag)) tbl H). destruct (keys_bytes _ _ Hin) as [m ->].
  apply keys_tuples, list_elem_of_In, in_map_iff in Hin as (e & <- & Hin).
  apply list_elem_of_In, Hall in Hin. by rewrite (proj2 (strcmp_eq_spec _ _) eq_refl) in Hin.
Qed.

Lemma find_some_keys l n e : List.find (fun e => strcmp_eq e.1 n) l = Some e -> n ∈ keys l.
Proof.
  intros H. apply find_some in H as [Hin E]. apply strcmp_eq_spec in E as <-.
  by apply list_elem_of_In, in_map.
Qed.

Lemma del_defaults_get flag tbl s n :
  get (del_defaults flag tbl s) n =
    if matches s flag (bytes "0") && bool_decide (n ∈ keys (tuples tbl)) then None else get s n.
Proof.
  clear Hone. unfold del_defaults. destruct (matches s flag (bytes "0")); [|done]. cbn [andb].
  revert s. induction (tuples tbl) as [|t l IH]; intros s; [done|]. cbn [fold_left].
  rewrite IH. unfold nvram_unset. rewrite set_get. simpl.
  destruct (strcmp_eq t.1 n) eqn:E.
  - apply strcmp_eq_spec in E. rewrite (bool_decide_eq_true_2 (n ∈ t.1 :: keys l)) by set_solver.
    by case_match.
  - assert (Hne : n <> t.1) by (intros ->; by rewrite (proj2 (strcmp_eq_spec _ _) eq_refl) in E).
    by erewrite bool_decide_ext; [reflexivity|set_solver].
Qed.

End Services.

(** For every optional service, in every build: adding its settings fills in the ones that
    are missing and changes no other variable, removing them unsets exactly them and only
    while the service is switched off, and the switch itself is kept. *)
Theorem service_defaults_cycle (st : Store) (laws : StoreLaws) (cfg : Config) (s : store)
  (flag : cstr) (tbl : table (string * option string)) (n : cstr) :
  one_device cfg -> (flag, tbl) ∈ services ->
  get (add_defaults tbl s) n =
    match List.find (fun e => strcmp_eq e.1 n) (tuples tbl) with
    | Some e => match get s n with Some v => Some v | None => e.2 end
    | None => get s n
    end /\
  get (del_defaults flag tbl s) n =
    (if matches s flag (bytes "0") && bool_decide (n ∈ keys (tuples tbl)) then None else get s n) /\
  get (del_defaults flag tbl (add_defaults tbl s)) flag = get s flag.
Proof.
  intros Hone Hs. split; [|split].
  - exact (fold_keyed (kept false) _ _ _ _ add_one_keyed (service_once Hone flag tbl n Hs)).
  - apply del_defaults_get.
  - assert (Hf := service_flag flag tbl Hs). rewrite del_defaults_get.
    rewrite (bool_decide_eq_false_2 _ Hf), andb_false_r.
    exact (fold_keyed_out (kept false) _ _ _ _ add_one_keyed Hf).
Qed.

Lemma service_defaults_cycle_witness :
  @get map_store (@add_ftp_defaults _ pc_build ∅) (bytes "ftp_port") = Some (bytes "21") /\
  @get map_store (@del_ftp_defaults _ pc_build (<[bytes "ftp_enable" := bytes "0"]>
    {[ bytes "ftp_port" := bytes "21" ]})) (bytes "ftp_port") = None.
Proof.
  assert (Hin : (bytes "ftp_enable", ftp_defaults) ∈ services) by (unfold services; set_solver +).
  split.
  - destruct (service_defaults_cycle map_store _ pc_build ∅ _ _ (bytes "ftp_port") pc_build_one_device Hin)
      as [H _]. unfold add_ftp_defaults. rewrite H. vm_compute. reflexivity.
  - destruct (service_defaults_cycle map_store _ pc_build (<[bytes "ftp_enable" := bytes "0"]>
      {[ bytes "ftp_port" := bytes "21" ]}) _ _ (bytes "ftp_port") pc_build_one_device Hin)
      as (_ & H & _). unfold del_ftp_defaults. rewrite H. vm_compute. reflexivity.
Defined.

End DefaultsSpec.
