(* ===== verification/SaveVars.v ===== *)
(** Saving the settings form
    (src/tomato64/package/httpd/httpd/tomato.c: [webcgi_nvram_set], [nv_wl_find],
    [nv_wl_bwcap_chanspec], [save_variables], [wo_tomato]; httpd/httpd/misc.c:
    [unix_string]; libshared/shared/misc.c: [wl_nvname], [append_ifnames],
    [foreach_wif]).

    The fields of the request are the table of Cgi.v, the settings the store of
    Defaults.v; both are threaded through the calls, since a message to the user is
    kept in the table of fields and a field that is saved is read again later. A
    request holds less than 32 KB, so the lengths fit an [int]. *)

From Stdlib Require Import ZArith Lia.
From stdpp Require Import base list strings gmap.
From S2P Require Import Prelude Scan Nvram Cgi ShList IfNames Inet BuildConfig NvsetTable Defaults.

Local Open Scope Z_scope.

Module SaveVars.
Import Scan Nvram Cgi ShList IfNames Inet BuildConfig NvsetTable Defaults.

(** The largest [long] of the processor the firmware runs on. *)
Class Arch := { LONG_MAX : Z }.

(** Which interfaces the wireless driver answers for. *)
Class Radio := { wl_answers : cstr -> bool }.

(** ** Values *)

(** [unix_string]: the carriage returns of a text are dropped. *)
Fixpoint unix_string (s : cstr) : cstr :=
  match s with
  | [] => []
  | c :: s' => if c =? 13 then unix_string s' else c :: unix_string s'
  end.

(** The value of [strtol] with base 10 and the rest of the text; nothing is read when
    there is no numeral. *)
Definition strtol {arch : Arch} (p : cstr) : option (Z * cstr) :=
  match scan_numeral p with
  | None => None
  | Some (neg, d, rest) =>
      let v := dec_value 0 d in
      Some (if neg then Z.max (- LONG_MAX - 1) (- v) else Z.min LONG_MAX v, rest)
  end.

(** The conversion [%wu] of [sscanf]: white space, then at most [w] characters. *)
Definition scan_uw (w : nat) (s : cstr) : option (Z * cstr) :=
  let s := skip_while isspace s in
  let '(neg, k, t) :=
    match s with
    | 45 :: t => (true, 1%nat, t)
    | 43 :: t => (false, 1%nat, t)
    | _ => (false, 0%nat, s)
    end in
  let d := take_until (fun c => negb (isdigit c)) (take (w - k) t) in
  match d with
  | [] => None
  | _ => let v := dec_value 0 d in Some (u32 (if neg : bool then - v else v), drop (length d) t)
  end.

(** The conversion [%wx], with its optional prefix. *)
Definition scan_xw (w : nat) (s : cstr) : option (Z * cstr) :=
  let s := skip_while isspace s in
  let '(neg, k, t) :=
    match s with
    | 45 :: t => (true, 1%nat, t)
    | 43 :: t => (false, 1%nat, t)
    | _ => (false, 0%nat, s)
    end in
  let t' := take (w - k) t in
  let p :=
    if (char_at t' 0 =? chr "0") && ((char_at t' 1 =? chr "x") || (char_at t' 1 =? chr "X"))
    then 2%nat else 0%nat in
  let d := take_until (fun c => negb (isxdigit c)) (drop p t') in
  match d with
  | [] => None
  | _ => let v := value_in 16 0 d in Some (u32 (if neg : bool then - v else v), drop (p + length d) t)
  end.

(** [n + 1] conversions with the character [sep] between them. *)
Fixpoint scan_seq (conv : cstr -> option (Z * cstr)) (sep : Z) (n : nat) (s : cstr)
  : option (list Z * cstr) :=
  match conv s with
  | None => None
  | Some (u, rest) =>
      match n with
      | O => Some ([u], rest)
      | S n' =>
          if char_at rest 0 =? sep then
            match scan_seq conv sep n' (drop 1 rest) with
            | Some (us, rest) => Some (u :: us, rest)
            | None => None
            end
          else None
      end
  end.

Definition ip_ok (p : cstr) : bool :=
  match scan_seq (scan_uw 3) (chr ".") 3 p with
  | Some (u, []) => forallb (fun o => o <=? 255) u
  | _ => false
  end.

Definition mac_ok (p : cstr) : bool :=
  match scan_seq (scan_xw 2) (chr ":") 5 p with
  | Some (u, _) => forallb (fun o => o <=? 255) u
  | None => false
  end.

(** [inet_pton] for an IPv6 address: [i] groups were read, [brk] tells whether the
    double colon was. *)
Fixpoint pton6_loop (fuel : nat) (s : cstr) (i : nat) (brk : bool) : bool :=
  match fuel with
  | O => false
  | S f =>
      if (char_at s 0 =? chr ":") && negb brk then
        if char_at s 1 =? 0 then true
        else if (i =? 7)%nat then false
        else pton6_loop f (drop 1 s) (S i) true
      else
        let j := length (take_until (fun c => negb (isxdigit c)) (take 4 s)) in
        if (j =? 0)%nat then false
        else if (char_at s j =? 0) && (brk || (i =? 7)%nat) then true
        else if (i =? 7)%nat then false
        else if char_at s j =? chr ":" then pton6_loop f (drop (j + 1) s) (S i) brk
        else if negb (char_at s j =? chr ".") || ((i <? 6)%nat && negb brk) then false
        else bool_decide (is_Some (inet_pton s))
  end.

Definition inet_pton6 (s : cstr) : bool :=
  if char_at s 0 =? chr ":" then
    if char_at s 1 =? chr ":" then pton6_loop (S (length s)) (drop 1 s) 0 false else false
  else pton6_loop (S (length s)) s 0 false.

Section Ops.
Context {arch : Arch} {radio : Radio} {cfg : Config} {st : Store}.

(** The value that is checked and stored. *)
Definition field_value (v : vtype) (p : cstr) : cstr :=
  match v with VT_TEXT _ _ => unix_string p | _ => p end.

Definition length_in (va vb : Z) (p : cstr) : bool :=
  let n := Z.of_nat (length p) in negb ((n <? va) || (vb <? n)).

Definition field_ok (v : vtype) (p : cstr) : bool :=
  match v with
  | VT_NONE | VT_TEMP => true
  | VT_LENGTH va vb | VT_TEXT va vb => length_in va vb p
  | VT_RANGE va vb =>
      match strtol p with
      | None => false
      | Some (l, e) => (char_at e 0 =? 0) && negb (l <? va) && negb (vb <? l)
      end
  | VT_IP va => if (0 <? length p)%nat || va then ip_ok p else true
  | VT_MAC => mac_ok p
  | VT_IPV6 va => if (0 <? length p)%nat || va then inet_pton6 p else true
  end.

Definition is_temp (v : vtype) : bool := match v with VT_TEMP => true | _ => false end.

Definition webcgi_nvram_set (htab : Cgi.table) (v : vtype) (name : cstr) (write : bool) (s : store)
  : Z * store :=
  match webcgi_get htab name with
  | None => (0, s)
  | Some p =>
      let p := field_value v p in
      if negb (field_ok v p) then (-1, s)
      else if write && negb (matches s name p)
      then (if is_temp v then 0 else 1, nvram_set s name p)
      else (0, s)
  end.

(** ** The wireless interfaces *)

Definition wl_nvname (nv : cstr) (unit subunit : Z) : cstr :=
  let prefix :=
    if unit <? 0 then bytes "wl_"
    else if 0 <? subunit
    then snprintf 14 (bytes "wl" ++ print_d unit ++ bytes "." ++ print_d subunit ++ bytes "_")
    else snprintf 14 (bytes "wl" ++ print_d unit ++ bytes "_") in
  strlcat_r prefix nv 128.

Definition append_ifnames (dst : cstr) (size : Z) (src : cstr) (add_space : bool) : option cstr :=
  let dst_len := Z.of_nat (length dst) in
  if size <=? dst_len then None
  else
    let src_len := Z.of_nat (length src) in
    let avail := size - dst_len - 1 in
    if (avail <? src_len) || (add_space && (src_len =? avail)) then None
    else Some (dst ++ src ++ (if add_space then space else [])).

(** The list up to the first name that does not fit. *)
Fixpoint append_all (dst : cstr) (size : Z) (srcs : list (cstr * bool)) : cstr :=
  match srcs with
  | [] => dst
  | (src, add_space) :: srcs =>
      match append_ifnames dst size src add_space with
      | None => dst
      | Some dst => append_all dst size srcs
      end
  end.

Definition BRIDGE_COUNT : Z := count "BRIDGE_COUNT".
Definition max_wan : Z := count "MWAN_MAX".

Definition upto (first : Z) (n : Z) : list Z := map (fun k => first + Z.of_nat k) (seq 0 (Z.to_nat n)).

Definition wif_sources (s : store) : list (cstr * bool) :=
  map (fun i => (@bridge_nvram_get (view s) i (bytes "ifnames") 64, true)) (upto 0 BRIDGE_COUNT) ++
  map (fun i => (safe_get s (snprintf 64
         (if i =? 1 then bytes "wan_ifnames" else bytes "wan" ++ print_d i ++ bytes "_ifnames")), true))
    (upto 1 max_wan) ++
  (if holds (Def "TCONFIG_AC3200")
   then [(safe_get s (bytes "wl2_ifname"), true); (safe_get s (bytes "wl2_vifs"), true)] else []) ++
  [(safe_get s (bytes "wl_ifname"), true); (safe_get s (bytes "wl0_ifname"), true);
   (safe_get s (bytes "wl0_vifs"), true); (safe_get s (bytes "wl1_ifname"), true);
   (safe_get s (bytes "wl1_vifs"), false)].

Definition wif_names (s : store) : list cstr :=
  let size := 64 * BRIDGE_COUNT in
  let ifnames := append_all [] size (wif_sources s) in
  let ifnames := fst (remove_dups ifnames size) in
  foreach 64 match sort_list ifnames size with Some (l, _) => l | None => ifnames end.

(** The unit and the part of the unit of one name, unless the name is skipped. *)
Definition wif_unit (s : store) (name : cstr) (keep : bool -> bool) : option (Z * Z) :=
  let '(ret, ifname) := @nvifname_to_osifname (view s) name 64 in
  if negb (ret =? 0) then None
  else if negb (wl_answers ifname) then None
  else
    let '(ret, ifname) := @osifname_to_nvifname (view s) name 64 in
    if negb (ret =? 0) then None
    else if negb (keep (bool_decide (is_Some (strchr ifname (chr "."))))) then None
    else
      let '(ret, unit, subunit) := get_ifname_unit ifname in
      if ret <? 0 then None else Some (unit, subunit).

(** What the callback gets besides the interface: the store and a result. *)
Definition wif_state : Type := store * Z.

Definition wif_call : Type := Z -> Z -> Z -> wif_state -> Z * wif_state.

Fixpoint wif_loop (names : list cstr) (keep : bool -> bool) (func : wif_call) (i ret : Z) (x : wif_state)
  : Z * Z * wif_state :=
  match names with
  | [] => (i, ret, x)
  | name :: names =>
      match wif_unit x.1 name keep with
      | None => wif_loop names keep func i ret x
      | Some (unit, subunit) =>
          let '(r, x) := func i unit subunit x in
          wif_loop names keep func (i + 1) (Z.lor ret r) x
      end
  end.

Definition has_radios : cond := Or (Not (Def "TOMATO64")) (Def "TOMATO64_BCM53XX").

Definition foreach_wif (include_vifs : bool) (func : wif_call) (x : wif_state) : Z * wif_state :=
  if holds has_radios then
    let names := wif_names x.1 in
    if holds (Not (Def "TOMATO64")) then
      let '(_, ret, x) := wif_loop names (fun vif => negb (vif && negb include_vifs)) func 0 0 x in (ret, x)
    else
      let '(i, ret, x) := wif_loop names negb func 0 0 x in
      if include_vifs then
        let '(_, ret, x) := wif_loop names (fun vif => vif) func i ret x in (ret, x)
      else (ret, x)
  else (0, x).

(** ** One field on every radio *)

Definition secret_fields : list cstr :=
  map bytes ["wpa_psk"; "passphrase"; "key1"; "key2"; "key3"; "key4"]%string.

(** The credentials of an open network are cleared. *)
Fixpoint clear_secrets (keys : list cstr) (unit subunit : Z) (s : store) (ok : Z) : Z * store :=
  match keys with
  | [] => (ok, s)
  | k :: keys =>
      let key := wl_nvname k unit subunit in
      match safe_get s key with
      | [] => clear_secrets keys unit subunit s ok
      | _ => clear_secrets keys unit subunit (nvram_set s key []) 1
      end
  end.

(** The second component of the state is [p->dirty]. *)
Definition nv_wl_find (htab : Cgi.table) (v : cstr * vtype) (write : bool) : wif_call :=
  fun _ unit subunit x =>
    let '(s, dirty) := x in
    let open_network :=
      match webcgi_get htab (wl_nvname (bytes "security_mode") unit subunit) with
      | Some m => strcmp_eq m (bytes "disabled")
      | None => false
      end in
    if open_network && existsb (fun f => strcmp_eq (drop 3 v.1) f) secret_fields then (0, x)
    else
      let name := wl_nvname (drop 3 v.1) unit subunit in
      let '(ok, s) := webcgi_nvram_set htab v.2 name write s in
      if ok <? 0 then (1, (s, dirty))
      else
        let '(ok, s) :=
          if write && open_network && strcmp_eq v.1 (bytes "wl_security_mode")
          then clear_secrets secret_fields unit subunit s ok else (ok, s) in
        (0, (s, Z.lor dirty ok)).

(** [behind] is what the memory holds behind the array [chan_spec], up to the first
    zero. *)
Definition chan_spec_of (behind ch : cstr) (nctrlsb : Z) (bw : Z) : cstr :=
  let chan_spec := strlcpy 32 ch in
  let n := length chan_spec in
  if (bw =? 1) && negb (char_at ch 0 =? chr "0") then
    chan_spec ++ nctrlsb :: (if (n =? 31)%nat then behind else [])
  else if (bw =? 3) && negb (char_at ch 0 =? chr "0")
  then chan_spec ++ strlcpy (32 - n) (bytes "/80")
  else chan_spec.

Definition posted_or_kept (htab : Cgi.table) (s : store) (name : cstr) : option cstr :=
  match webcgi_get htab name with
  | Some (c :: p) => Some (c :: p)
  | _ => get s name
  end.

Definition nv_wl_bwcap_chanspec (behind : cstr) (htab : Cgi.table) (write : bool) : wif_call :=
  fun _ unit _ x =>
    let '(s, d) := x in
    let name f := wl_nvname (bytes f) unit 0 in
    match webcgi_get htab (name "channel"), webcgi_get htab (name "nbw_cap"), webcgi_get htab (name "nctrlsb") with
    | None, None, None => (0, x)
    | _, _, _ =>
        match posted_or_kept htab s (name "channel"), posted_or_kept htab s (name "nbw_cap"),
              posted_or_kept htab s (name "nctrlsb") with
        | Some (c0 :: ch), Some (n0 :: nbw_cap), Some (b0 :: _) =>
            let bw := atoi (n0 :: nbw_cap) in
            if write then
              let s :=
                if bw =? 0 then nvram_set s (name "bw_cap") (bytes "1")
                else if bw =? 1 then nvram_set s (name "bw_cap") (bytes "3")
                else if bw =? 3 then nvram_set s (name "bw_cap") (bytes "7")
                else s in
              (0, (nvram_set s (name "chanspec") (chan_spec_of behind (c0 :: ch) b0 bw), d))
            else (0, x)
        | _, _, _ => (1, x)
        end
    end.

(** ** The whole form *)

(** What a request can change: the table of fields and the store. *)
Record form := Form { fields : Cgi.table; settings : store }.

Definition resmsg_set (msg : cstr) (r : form) : form :=
  Form (webcgi_set (fields r) (bytes "resmsg") msg) (settings r).

Definition resmsg_get (r : form) : cstr := default [] (webcgi_get (fields r) (bytes "resmsg")).

Definition with_settings (r : form) (s : store) : form := Form (fields r) s.

Definition msgf (name : cstr) : cstr :=
  snprintf 256 (bytes "The field " ++ [34] ++ name ++ [34] ++ bytes " is invalid. Please report this problem.").

(** A field that failed, or whether something has changed. *)
Fixpoint save_fields (htab : Cgi.table) (l : list (string * vtype)) (write : bool) (dirty : Z) (s : store)
  : (cstr + Z) * store :=
  match l with
  | [] => (inr dirty, s)
  | (name, v) :: l =>
      let name := bytes name in
      let '(ok, s) := webcgi_nvram_set htab v name write s in
      let '(ok, s) :=
        if holds has_radios && (0 <=? ok) && prefix_of_str (bytes "wl_") name then
          let '(ret, (s, nv_dirty)) := foreach_wif true (nv_wl_find htab (name, v) write) (s, dirty) in
          if ret =? 0 then (Z.lor ok nv_dirty, s) else (-1, s)
        else (ok, s) in
      if ok <? 0 then (inl name, s) else save_fields htab l write (Z.lor dirty ok) s
  end.

Definition rrule (n : Z) : cstr := bytes "rrule" ++ print_d n.

Fixpoint save_rules (htab : Cgi.table) (n : Z) (k : nat) (write : bool) (dirty : Z) (s : store)
  : (cstr + Z) * store :=
  match k with
  | O => (inr dirty, s)
  | S k =>
      match webcgi_get htab (rrule n) with
      | None => save_rules htab (n + 1) k write dirty s
      | Some p =>
          if 2048 <? Z.of_nat (length p) then (inl (rrule n), s)
          else if write && negb (matches s (rrule n) p)
          then save_rules htab (n + 1) k write 1 (nvram_set s (rrule n) p)
          else save_rules htab (n + 1) k write dirty s
      end
  end.

Definition hidden : cstr := bytes "**********".

(** The new password, when both entries are the same. *)
Definition save_password (htab : Cgi.table) (write : bool) (dirty : Z) (s : store) : (cstr + Z) * store :=
  match webcgi_get htab (bytes "set_password_1") with
  | None => (inr dirty, s)
  | Some p1 =>
      if strcmp_eq p1 hidden then (inr dirty, s)
      else
        match webcgi_get htab (bytes "set_password_2") with
        | Some p2 =>
            if strcmp_eq p1 p2 then
              if write && negb (matches s (bytes "http_passwd") p1)
              then (inr 1, nvram_set s (bytes "http_passwd") p1)
              else (inr dirty, s)
            else (inl (bytes "password"), s)
        | None => (inl (bytes "password"), s)
        end
  end.

Definition has_chanspec : cond := Or (Def "TCONFIG_BCMARM") (Def "CONFIG_BCMWL6").

Definition save_chanspec (behind : cstr) (htab : Cgi.table) (write : bool) (s : store) : store :=
  if holds has_chanspec
  then fst (snd (foreach_wif false (nv_wl_bwcap_chanspec behind htab write) (s, 0)))
  else s.

Definition save_variables (behind : cstr) (write : bool) (r : form) : Z * form :=
  let fail name s := (0, resmsg_set (msgf name) (with_settings r s)) in
  match save_fields (fields r) (expand nvset_list) write 0 (settings r) with
  | (inl name, s) => fail name s
  | (inr dirty, s) =>
      let s := save_chanspec behind (fields r) write s in
      match save_password (fields r) write dirty s with
      | (inl name, s) => fail name s
      | (inr dirty, s) =>
          match save_rules (fields r) 0 50 write dirty s with
          | (inl name, s) => fail name s
          | (inr dirty, s) => (if write then dirty else 1, with_settings r s)
          end
      end
  end.

(** ** The page tomato.cgi *)

Inductive action :=
  | Header
  | Message (msg : cstr)
  | Page (file : cstr)
  | Commit
  | Close
  | Restart
  | Service (names : cstr)
  | Sleep (seconds : Z)
  | Redirect (path : cstr)
  | Reboot
  | FastReboot.

Definition field (r : form) (name : string) (default_value : string) : cstr :=
  default (bytes default_value) (webcgi_get (fields r) (bytes name)).

Definition flag (r : form) (name default_value : string) : Z := atoi (field r name default_value).

(** [exec_service] without its waiting for the process that serves the request. *)
Definition exec_service (names : cstr) (s : store) : store := nvram_set s (bytes "action_service") names.

(** The answer to a form that was saved or needed not be. *)
Definition answer (commit : bool) (r : form) : list action * form :=
  let redir := field r "_redirect" EmptyString in
  let ajax := negb (flag r "_ajax" "0" =? 0) in
  let rboot := negb (flag r "_reboot" "0" =? 0) in
  let fastrboot := holds (Def "TOMATO64_X86_64") && negb (flag r "_fastreboot" "0" =? 0) in
  let no_redir := bool_decide (redir = []) in
  let shown :=
    if rboot then [Page (bytes "reboot.asp")]
    else if fastrboot then [Page (bytes "reboot-fast.asp")]
    else if ajax then [Message (resmsg_get r)]
    else if negb (flag r "_moveip" "0" =? 0) || negb (flag r "dhcp_moveip" "0" =? 0)
    then [Page (bytes "saved-moved.asp")]
    else if no_redir then [Page (bytes "saved.asp")] else [] in
  let committed := if commit || negb (flag r "_force_commit" "0" =? 0) then [Commit] else [] in
  let '(served, r) :=
    match webcgi_get (fields r) (bytes "_service") with
    | Some (c :: v) =>
        let note :=
          if no_redir
          then (if ajax then [Message (bytes " Some services are being restarted...")] else []) ++ [Close]
          else [] in
        if c =? chr "*" then (note ++ [Sleep 1; Restart], r)
        else (note ++ [Sleep 1; Service (c :: v)], with_settings r (exec_service (c :: v) (settings r)))
    | _ => ([], r)
    end in
  let sleeps := map (fun _ => Sleep 1) (seq 0 (Z.to_nat (flag r "_sleep" "0"))) in
  (shown ++ committed ++ served ++ sleeps ++
   (if no_redir then [] else [Redirect redir]) ++
   (if rboot then [Close; Sleep 1; Reboot] else []) ++
   (if fastrboot then [Close; FastReboot] else []), r).

Definition wo_tomato (behind : cstr) (r : form) : list action * form :=
  let commit := negb (flag r "_commit" "1" =? 0) in
  let ajax := negb (flag r "_ajax" "0" =? 0) in
  let head := if bool_decide (field r "_redirect" EmptyString = []) then [Header] else [] in
  if negb (flag r "_nvset" "1" =? 0) then
    let '(ok, r) := save_variables behind false r in
    if ok =? 0
    then (head ++ (if ajax then [Message (resmsg_get r)] else [Page (bytes "error.asp")]), r)
    else
      let '(dirty, r) := save_variables behind true r in
      let '(acts, r) := answer (negb (dirty =? 0) && commit) (resmsg_set (bytes "Settings saved.") r) in
      (head ++ acts, r)
  else
    let '(acts, r) := answer commit r in (head ++ acts, r).

(** The client and the clock, for the note about a wrong [_http_id]. *)
Record visit := { client_addr : cstr; now : Z }.

(** [check_id]: whether the request goes on, and the store. *)
Definition check_id (v : visit) (r : form) : bool * store :=
  let s := settings r in
  if matches s (bytes "http_id") (field r "_http_id" EmptyString) then (true, s)
  else
    let warn := snprintf 72 (client_addr v ++ bytes "," ++ print_d (Z.land (now v) 65472)) in
    (false, if matches s (bytes "http_id_warn") warn then s else nvram_set s (bytes "http_id_warn") warn).

(** [wi_generic_noid] and [wi_generic]: the body of a post replaces the fields. The
    result is [None] when the process that serves the request ends. *)
Definition wi_generic_noid (post : bool) (body : cstr) (r : form) : option form :=
  if post then
    if 32 * 1024 <=? Z.of_nat (length body) then None
    else Some (Form (webcgi_init (Some (until_nul body))) (settings r))
  else Some r.

(** A request for tomato.cgi: what is answered and the store it leaves. *)
Definition tomato_cgi (behind : cstr) (v : visit) (post : bool) (body : cstr) (r : form) : list action * store :=
  match wi_generic_noid post body r with
  | None => ([], settings r)
  | Some r =>
      let '(ok, s) := check_id v r in
      if ok then let '(acts, r) := wo_tomato behind (with_settings r s) in (acts, settings r)
      else ([], s)
  end.

End Ops.

End SaveVars.
