(* ===== verification/SaveVarsSpec.v ===== *)
(** What saving a form guarantees: a form with a value that its check refuses writes
    nothing, an accepted one stores exactly what was posted, nothing outside the table
    of fields can be written, and a wrong request identifier stops everything. *)

From Stdlib Require Import ZArith Lia.
From stdpp Require Import base list strings gmap.
From S2P Require Import Prelude Scan Nvram Cgi ShList IfNames Inet BuildConfig DefaultsTable NvsetTable.
From S2P Require Import Defaults DefaultsSpec SaveVars.

Local Open Scope Z_scope.

Module SaveVarsSpec.
Import Scan Nvram Cgi Inet BuildConfig DefaultsTable NvsetTable Defaults DefaultsSpec SaveVars.

#[local] Arguments bytes : simpl never.
#[local] Arguments nvset_list : simpl never.
#[local] Arguments router_defaults : simpl never.

Lemma forallb_map {A B} (f : B -> bool) (g : A -> B) l :
  forallb f (map g l) = forallb (fun x => f (g x)) l.
Proof. induction l as [|x l IH]; [done|]. cbn [map forallb]. by rewrite IH. Qed.

Lemma forallb_same {A} (f g : A -> bool) l : (forall x, f x = g x) -> forallb f l = forallb g l.
Proof. intros H. induction l as [|x l IH]; [done|]. cbn [forallb]. by rewrite H, IH. Qed.

Section Spec.
Context {arch : Arch} {radio : Radio} {cfg : Config} {st : Store} {laws : StoreLaws}.

(** ** One field *)

Definition posted_ok (htab : Cgi.table) (name : cstr) (v : vtype) : bool :=
  match webcgi_get htab name with Some p => field_ok v (field_value v p) | None => true end.

Lemma matches_spec s n v : matches s n v = true <-> get s n = Some v.
Proof.
  unfold matches, nvram_match, view. cbn [nvram_get]. destruct (get s n) as [w|]; [|done].
  rewrite strcmp_eq_spec. split; [by intros ->|by intros [= ->]].
Qed.

Lemma store_new s n v m :
  get (if matches s n v then s else nvram_set s n v) m = if strcmp_eq n m then Some v else get s m.
Proof.
  destruct (matches s n v) eqn:E; [|apply set_get]. apply matches_spec in E.
  destruct (strcmp_eq n m) eqn:Em; [|done]. by apply strcmp_eq_spec in Em as <-.
Qed.

(** What one field makes of the store when it is written. *)
Lemma field_write htab v name s :
  posted_ok htab name v = true ->
  (0 <= (webcgi_nvram_set htab v name true s).1) /\
  (forall m, get (webcgi_nvram_set htab v name true s).2 m =
     match webcgi_get htab name with
     | Some p => if strcmp_eq name m then Some (field_value v p) else get s m
     | None => get s m
     end) /\
  ((webcgi_nvram_set htab v name true s).1 = 0 -> is_temp v = false ->
     (webcgi_nvram_set htab v name true s).2 = s).
Proof.
  unfold webcgi_nvram_set, posted_ok. destruct (webcgi_get htab name) as [p|]; [|cbn [fst snd]; split; [lia|done]].
  intros ->. cbn [negb andb]. assert (H := store_new s name (field_value v p)).
  destruct (matches s name (field_value v p)); cbn [negb fst snd];
    (split; [try case_match; lia|split; [done|]]); [done|]. intros K E. by rewrite E in K.
Qed.

Lemma field_check htab v name s :
  (webcgi_nvram_set htab v name false s).2 = s /\
  ((webcgi_nvram_set htab v name false s).1 < 0 <-> posted_ok htab name v = false).
Proof.
  unfold webcgi_nvram_set, posted_ok. destruct (webcgi_get htab name) as [p|]; [|done].
  by destruct (field_ok v (field_value v p)).
Qed.

Lemma field_refused htab v name write s :
  posted_ok htab name v = false -> webcgi_nvram_set htab v name write s = (-1, s).
Proof.
  unfold webcgi_nvram_set, posted_ok. destruct (webcgi_get htab name); [|done]. by intros ->.
Qed.

(** No field changes a variable other than its own. *)
Lemma field_other htab v name write s m :
  m <> name -> get (webcgi_nvram_set htab v name write s).2 m = get s m.
Proof.
  intros H. unfold webcgi_nvram_set. destruct (webcgi_get htab name); [|done].
  case_match; [done|]. case_match; [|done]. cbn [snd]. by apply get_set_other.
Qed.

(** ** Walking over the radios *)

Lemma wif_loop_inv (P : wif_state -> Prop) names keep func i ret x :
  (forall i u v x, P x -> P (func i u v x).2) -> P x -> P (wif_loop names keep func i ret x).2.
Proof.
  intros Hf. revert i ret x. induction names as [|name names IH]; intros i ret x Hx; [done|].
  cbn [wif_loop]. destruct (wif_unit x.1 name keep) as [[u v]|]; [|by apply IH].
  assert (H := Hf i u v x Hx). destruct (func i u v x) as [r y]. by apply IH.
Qed.

Lemma foreach_wif_inv (P : wif_state -> Prop) vifs func x :
  (forall i u v x, P x -> P (func i u v x).2) -> P x -> P (foreach_wif vifs func x).2.
Proof.
  intros Hf Hx. unfold foreach_wif. case_match; [|done].
  assert (Hl : forall names keep i ret x, P x -> P (wif_loop names keep func i ret x).2)
    by (intros; by apply wif_loop_inv).
  case_match.
  - assert (Hm := Hl (wif_names x.1) (fun vif => negb (vif && negb vifs)) 0 0 x Hx).
    by destruct (wif_loop _ _ _ _ _ _) as [[i ret] y].
  - assert (Hm := Hl (wif_names x.1) negb 0 0 x Hx).
    destruct (wif_loop _ _ _ _ _ _) as [[i ret] y]. destruct vifs; [|done].
    assert (K := Hl (wif_names x.1) (fun vif => vif) i ret y Hm).
    by destruct (wif_loop _ _ _ _ _ _) as [[j ret'] z].
Qed.

Lemma foreach_wif_none vifs func x : holds has_radios = false -> foreach_wif vifs func x = (0, x).
Proof. unfold foreach_wif. by intros ->. Qed.

(** ** Nothing but the fields is written *)

(** The variables that a form can write: the fields of the table, the fields of the
    radios for each of them, what is derived from the channel, the password and the
    access rules. *)
Inductive writable : cstr -> Prop :=
  | w_field n v : (n, v) ∈ expand nvset_list -> writable (bytes n)
  | w_radio n v u k : (n, v) ∈ expand nvset_list -> prefix_of_str (bytes "wl_") (bytes n) = true ->
      writable (wl_nvname (drop 3 (bytes n)) u k)
  | w_secret f u k : f ∈ secret_fields -> writable (wl_nvname f u k)
  | w_bw_cap u : writable (wl_nvname (bytes "bw_cap") u 0)
  | w_chanspec u : writable (wl_nvname (bytes "chanspec") u 0)
  | w_password : writable (bytes "http_passwd")
  | w_rule n : 0 <= n < 50 -> writable (rrule n).

(** [s'] has the same value as [s] of everything that is not writable. *)
Definition same_rest (s s' : store) : Prop := forall n, ~ writable n -> get s' n = get s n.

#[local] Instance same_rest_preorder : PreOrder same_rest.
Proof. split; [by intros s n|]. intros a b c H K n Hn. by rewrite K, H. Qed.

Lemma same_rest_set s n v : writable n -> same_rest s (set s n v).
Proof. intros Hw m Hm. apply get_set_other. by intros ->. Qed.

Lemma same_rest_field htab v name write s :
  writable name -> same_rest s (webcgi_nvram_set htab v name write s).2.
Proof. intros Hw m Hm. apply field_other. by intros ->. Qed.

Lemma same_rest_secrets keys u k s ok :
  (forall f, f ∈ keys -> f ∈ secret_fields) -> same_rest s (clear_secrets keys u k s ok).2.
Proof.
  revert s ok. induction keys as [|f keys IH]; intros s ok H; [reflexivity|]. cbn [clear_secrets].
  case_match; [apply IH; set_solver|]. etransitivity; [|apply IH; set_solver].
  apply same_rest_set, w_secret, H. by left.
Qed.

Lemma same_rest_radio htab n v write i u k x :
  (n, v) ∈ expand nvset_list -> prefix_of_str (bytes "wl_") (bytes n) = true ->
  same_rest x.1 (nv_wl_find htab (bytes n, v) write i u k x).2.1.
Proof.
  intros Hin Hwl. destruct x as [s dirty]. unfold nv_wl_find. cbn [fst snd].
  set (name := wl_nvname (drop 3 (bytes n)) u k).
  match goal with |- context [if ?b then (0, _) else _] => destruct b; [reflexivity|] end.
  assert (Hf := same_rest_field htab v name write s (w_radio n v u k Hin Hwl)).
  destruct (webcgi_nvram_set htab v name write s) as [ok s1]. cbn [snd] in Hf.
  destruct (ok <? 0); [exact Hf|].
  match goal with |- context [if ?b then clear_secrets _ _ _ _ _ else _] => destruct b; [|exact Hf] end.
  assert (Hc := same_rest_secrets secret_fields u k s1 ok (fun f H => H)).
  destruct (clear_secrets _ _ _ _ _) as [ok2 s2]. by etransitivity.
Qed.

Lemma same_rest_chanspec behind htab write i u k x :
  same_rest x.1 (nv_wl_bwcap_chanspec behind htab write i u k x).2.1.
Proof.
  destruct x as [s d]. unfold nv_wl_bwcap_chanspec. cbn [fst].
  assert (H : forall c, same_rest s (set s (wl_nvname (bytes "chanspec") u 0) c))
    by (intros c; apply same_rest_set, w_chanspec).
  assert (K : forall b c, same_rest s (set (set s (wl_nvname (bytes "bw_cap") u 0) b)
    (wl_nvname (bytes "chanspec") u 0) c)).
  { intros b c. etransitivity; apply same_rest_set; [apply w_bw_cap|apply w_chanspec]. }
  unfold nvram_set. repeat case_match; try reflexivity; first [apply K|apply H].
Qed.

Lemma same_rest_fields htab l write dirty s :
  (forall e, e ∈ l -> e ∈ expand nvset_list) -> same_rest s (save_fields htab l write dirty s).2.
Proof.
  revert dirty s. induction l as [|[n v] l IH]; intros dirty s Hl; [reflexivity|]. cbn [save_fields].
  assert (Hin : (n, v) ∈ expand nvset_list) by (apply Hl; by left).
  assert (Hf := same_rest_field htab v (bytes n) write s (w_field n v Hin)).
  destruct (webcgi_nvram_set htab v (bytes n) write s) as [ok s1]. cbn [snd] in Hf.
  assert (Hcont : forall ok s2, same_rest s1 s2 ->
    same_rest s (if ok <? 0 then (inl (bytes n), s2) else save_fields htab l write (Z.lor dirty ok) s2).2).
  { intros ok' s2 H2. transitivity s1; [done|]. transitivity s2; [done|].
    case_match; [reflexivity|]. apply IH. intros e He. apply Hl. by right. }
  match goal with |- context [if ?b then let '(_, _) := foreach_wif _ _ _ in _ else _] => destruct b eqn:E end;
    [|by apply Hcont].
  apply andb_true_iff in E as [_ E].
  assert (Hw := foreach_wif_inv (fun x => same_rest s1 x.1) true (nv_wl_find htab (bytes n, v) write) (s1, dirty)).
  destruct (foreach_wif _ _ _) as [ret [s2 nd]]. cbn [fst snd] in Hw.
  assert (H2 : same_rest s1 s2).
  { apply Hw; [|reflexivity]. intros i u k x Hx. etransitivity; [exact Hx|]. by apply same_rest_radio. }
  destruct (ret =? 0); by apply Hcont.
Qed.

Lemma same_rest_rules htab n k write dirty s :
  0 <= n -> n + Z.of_nat k <= 50 -> same_rest s (save_rules htab n k write dirty s).2.
Proof.
  revert n dirty s. induction k as [|k IH]; intros n dirty s Hn Hk; [reflexivity|]. cbn [save_rules].
  case_match; [|apply IH; lia]. case_match; [reflexivity|]. case_match; [|apply IH; lia].
  etransitivity; [apply same_rest_set, w_rule|apply IH]; lia.
Qed.

Lemma same_rest_password htab write dirty s : same_rest s (save_password htab write dirty s).2.
Proof.
  unfold save_password, nvram_set. repeat case_match; try reflexivity; apply same_rest_set, w_password.
Qed.

Lemma same_rest_save behind write r :
  same_rest (settings r) (settings (save_variables behind write r).2).
Proof.
  unfold save_variables. cbv zeta.
  assert (H1 := same_rest_fields (fields r) (expand nvset_list) write 0 (settings r) (fun e H => H)).
  destruct (save_fields _ _ _ _ _) as [[name|dirty] s1]; [exact H1|]. cbn [snd] in H1.
  set (s2 := save_chanspec behind (fields r) write s1).
  assert (H2 : same_rest (settings r) s2).
  { transitivity s1; [done|]. unfold s2, save_chanspec. case_match; [|reflexivity].
    apply (foreach_wif_inv (fun x => same_rest s1 x.1)); [|reflexivity].
    intros i u k x Hx. etransitivity; [exact Hx|apply same_rest_chanspec]. }
  assert (H3 := same_rest_password (fields r) write dirty s2).
  destruct (save_password _ _ _ _) as [[name|d3] s3]; cbn [snd] in H3; [by transitivity s2|].
  assert (H4 := same_rest_rules (fields r) 0 50 write d3 s3 ltac:(lia) ltac:(lia)).
  assert (H23 : same_rest (settings r) s3) by by transitivity s2.
  destruct (save_rules _ _ _ _ _ _) as [[name|d4] s4]; cbn [snd] in H4; by transitivity s3.
Qed.

(** ** The first pass writes nothing *)

Lemma field_check_store htab v name s : (webcgi_nvram_set htab v name false s).2 = s.
Proof. apply field_check. Qed.

Lemma check_fields htab l dirty s : (save_fields htab l false dirty s).2 = s.
Proof.
  revert dirty. induction l as [|[n v] l IH]; intros dirty; [done|]. cbn [save_fields].
  assert (Hf := field_check_store htab v (bytes n) s).
  destruct (webcgi_nvram_set htab v (bytes n) false s) as [ok s1]. cbn [snd] in Hf. subst s1.
  match goal with |- context [if ?b then let '(_, _) := foreach_wif _ _ _ in _ else _] => destruct b end;
    [|case_match; [done|apply IH]].
  assert (Hw := foreach_wif_inv (fun x => x.1 = s) true (nv_wl_find htab (bytes n, v) false) (s, dirty)).
  destruct (foreach_wif _ _ _) as [ret [s2 nd]]. cbn [fst snd] in Hw.
  rewrite Hw; [|clear|done].
  - destruct (ret =? 0); (case_match; [done|apply IH]).
  - intros i u k [s1 d] E. cbn [fst] in E. subst s1. unfold nv_wl_find. cbn [andb fst snd].
    match goal with |- context [if ?b then (0, _) else _] => destruct b; [done|] end.
    assert (Hf := field_check_store htab v (wl_nvname (drop 3 (bytes n)) u k) s).
    destruct (webcgi_nvram_set _ _ _ _ _) as [ok2 s2]. cbn [snd] in Hf. subst s2. by case_match.
Qed.

Lemma check_rules htab n k dirty s : (save_rules htab n k false dirty s).2 = s.
Proof.
  revert n. induction k as [|k IH]; intros n; [done|]. cbn [save_rules andb].
  case_match; [|done]. by case_match.
Qed.

Lemma check_password htab dirty s : (save_password htab false dirty s).2 = s.
Proof. unfold save_password. cbn [andb]. by repeat case_match. Qed.

Lemma check_chanspec behind htab s : save_chanspec behind htab false s = s.
Proof.
  unfold save_chanspec. case_match; [|done].
  apply (foreach_wif_inv (fun x => x.1 = s)); [|done]. intros i u k [s1 d] E. cbn [fst] in E. subst s1.
  unfold nv_wl_bwcap_chanspec. by repeat case_match.
Qed.

Lemma check_settings behind r : settings (save_variables behind false r).2 = settings r.
Proof.
  unfold save_variables. cbv zeta.
  assert (H1 := check_fields (fields r) (expand nvset_list) 0 (settings r)).
  destruct (save_fields _ _ _ _ _) as [[name|dirty] s1]; cbn [snd] in H1; subst s1; [done|].
  rewrite check_chanspec.
  assert (H2 := check_password (fields r) dirty (settings r)).
  destruct (save_password _ _ _ _) as [[name|d2] s2]; cbn [snd] in H2; subst s2; [done|].
  assert (H3 := check_rules (fields r) 0 50 d2 (settings r)).
  by destruct (save_rules _ _ _ _ _ _) as [[name|d3] s3]; cbn [snd] in H3; subst s3.
Qed.

(** ** Valid forms *)

Definition fields_valid (htab : Cgi.table) : bool :=
  forallb (fun e => posted_ok htab (bytes e.1) e.2) (expand nvset_list).

Definition password_valid (htab : Cgi.table) : bool :=
  match webcgi_get htab (bytes "set_password_1") with
  | None => true
  | Some p1 =>
      strcmp_eq p1 hidden ||
      match webcgi_get htab (bytes "set_password_2") with Some p2 => strcmp_eq p1 p2 | None => false end
  end.

Definition rule_valid (htab : Cgi.table) (n : Z) : bool :=
  match webcgi_get htab (rrule n) with Some p => Z.of_nat (length p) <=? 2048 | None => true end.

Definition rules_valid (htab : Cgi.table) : bool := forallb (rule_valid htab) (upto 0 50).

Definition valid_form (htab : Cgi.table) : bool :=
  fields_valid htab && password_valid htab && rules_valid htab.

Definition accepted (x : (cstr + Z) * store) : bool := match x.1 with inl _ => false | inr _ => true end.

(** Builds without the proprietary wireless driver. *)
Context (Hpc : holds has_radios = false).

Lemma save_fields_step htab n v l write dirty s :
  save_fields htab ((n, v) :: l) write dirty s =
    let '(ok, s) := webcgi_nvram_set htab v (bytes n) write s in
    if ok <? 0 then (inl (bytes n), s) else save_fields htab l write (Z.lor dirty ok) s.
Proof. cbn [save_fields]. destruct (webcgi_nvram_set _ _ _ _ _) as [ok s1]. by rewrite Hpc. Qed.

Lemma field_result htab v name write s :
  ((webcgi_nvram_set htab v name write s).1 <? 0) = negb (posted_ok htab name v).
Proof.
  unfold webcgi_nvram_set, posted_ok. destruct (webcgi_get htab name); [|done].
  destruct (field_ok v _); [|done]. cbn [negb]. case_match; [|done]. by destruct (is_temp v).
Qed.

Lemma save_fields_accepted htab l write dirty s :
  accepted (save_fields htab l write dirty s) = forallb (fun e => posted_ok htab (bytes e.1) e.2) l.
Proof.
  revert dirty s. induction l as [|[n v] l IH]; intros dirty s; [done|].
  rewrite save_fields_step. cbn [forallb fst snd].
  assert (H := field_result htab v (bytes n) write s).
  destruct (webcgi_nvram_set _ _ _ _ _) as [ok s1]. cbn [fst] in H. rewrite H.
  destruct (posted_ok htab (bytes n) v); [|done]. apply IH.
Qed.

Lemma save_password_accepted htab write dirty s :
  accepted (save_password htab write dirty s) = password_valid htab.
Proof.
  unfold save_password, password_valid. destruct (webcgi_get htab (bytes "set_password_1")) as [p1|]; [|done].
  destruct (strcmp_eq p1 hidden); [done|]. cbn [orb].
  destruct (webcgi_get htab (bytes "set_password_2")) as [p2|]; [|done].
  destruct (strcmp_eq p1 p2); [|done]. by case_match.
Qed.

Lemma save_rules_accepted htab n k write dirty s :
  accepted (save_rules htab n k write dirty s) = forallb (rule_valid htab) (upto n (Z.of_nat k)).
Proof.
  unfold upto. rewrite Nat2Z.id, forallb_map.
  revert n dirty s. induction k as [|k IH]; intros n dirty s; [done|].
  cbn [save_rules seq forallb]. rewrite <- seq_shift, forallb_map.
  rewrite Z.add_0_r. unfold rule_valid at 1.
  assert (E : forall d t, accepted (save_rules htab (n + 1) k write d t) =
    forallb (fun x => rule_valid htab (n + Z.of_nat (S x))) (seq 0 k)).
  { intros d t. rewrite IH. apply forallb_same. intros x. f_equal. lia. }
  destruct (webcgi_get htab (rrule n)) as [p|]; [|by rewrite E].
  rewrite (Z.leb_antisym 2048). destruct (2048 <? Z.of_nat (length p)); [done|]. cbn [negb andb].
  by case_match; rewrite E.
Qed.

Lemma check_verdict behind r :
  (save_variables behind false r).1 = (if valid_form (fields r) then 1 else 0).
Proof.
  unfold save_variables, valid_form, fields_valid, rules_valid. cbv zeta.
  rewrite <- (save_fields_accepted (fields r) (expand nvset_list) false 0 (settings r)).
  destruct (save_fields _ _ _ _ _) as [[name|dirty] s1]; [done|]. cbn [accepted fst].
  rewrite <- (save_password_accepted (fields r) false dirty (save_chanspec behind (fields r) false s1)).
  destruct (save_password _ _ _ _) as [[name|d2] s2]; [done|]. cbn [accepted fst andb].
  rewrite <- (save_rules_accepted (fields r) 0 50 false d2 s2 : _ = forallb _ (upto 0 50)).
  by destruct (save_rules _ _ _ _ _ _) as [[name|d3] s3].
Qed.

(** ** The second pass *)

(** The field of the table with that name. *)
Definition field_of (l : list (string * vtype)) (m : cstr) : option (string * vtype) :=
  List.find (fun e => strcmp_eq (bytes e.1) m) l.

Lemma field_of_none l m : m ∉ map (fun e : string * vtype => bytes e.1) l -> field_of l m = None.
Proof.
  intros H. destruct (field_of l m) as [e|] eqn:E; [|done].
  apply find_some in E as [Hin E]. apply strcmp_eq_spec in E as <-. exfalso. apply H.
  apply list_elem_of_In. by apply (in_map (fun e : string * vtype => bytes e.1)).
Qed.

Lemma fields_written htab l d s :
  forallb (fun e => posted_ok htab (bytes e.1) e.2) l = true -> NoDup (map fst l) ->
  exists d' s', save_fields htab l true d s = (inr d', s') /\
    (forall m, get s' m =
       match field_of l m, webcgi_get htab m with
       | Some e, Some p => Some (field_value e.2 p)
       | _, _ => get s m
       end) /\
    (d' = 0 -> d = 0 /\ forall m, (forall e, field_of l m = Some e -> is_temp e.2 = false) -> get s' m = get s m).
Proof.
  revert d s. induction l as [|[n v] l IH]; intros d s Hok Hnd; [by exists d, s|].
  cbn [forallb fst snd] in Hok. apply andb_true_iff in Hok as [Hn Hok].
  cbn [map fst] in Hnd. apply NoDup_cons in Hnd as [Hnin Hnd].
  rewrite save_fields_step. assert (Hr := field_result htab v (bytes n) true s).
  destruct (field_write htab v (bytes n) s Hn) as (_ & Hw & Ht).
  destruct (webcgi_nvram_set htab v (bytes n) true s) as [ok s1]. cbn [fst snd] in *.
  rewrite Hr, Hn. cbn [negb]. destruct (IH (Z.lor d ok) s1 Hok Hnd) as (d' & s' & E & Hget & Hd).
  exists d', s'. split; [done|].
  assert (Hnone : field_of l (bytes n) = None).
  { apply field_of_none. intros Hin. apply Hnin. apply list_elem_of_In, in_map_iff in Hin as (e & He & Hin).
    apply bytes_inj in He as <-. by apply list_elem_of_In, in_map. }
  unfold field_of in *. cbn [List.find fst]. split.
  - intros m. rewrite Hget, Hw. destruct (strcmp_eq (bytes n) m) eqn:Em.
    + apply strcmp_eq_spec in Em as <-. rewrite Hnone. by destruct (webcgi_get htab (bytes n)).
    + by destruct (webcgi_get htab (bytes n)), (List.find _ l), (webcgi_get htab m).
  - intros H0. destruct (Hd H0) as [Hlor Hrest]. apply Z.lor_eq_0_iff in Hlor as [-> ->]. split; [done|].
    intros m Hm. destruct (strcmp_eq (bytes n) m) eqn:Em.
    + apply strcmp_eq_spec in Em as <-. rewrite Hrest by (by rewrite Hnone).
      by rewrite Ht by (try done; by apply (Hm (n, v))).
    + rewrite Hrest by done. rewrite Hw, Em. by destruct (webcgi_get htab (bytes n)).
Qed.

Definition rule_names (n : Z) (k : nat) : list cstr := map (fun i => rrule (n + Z.of_nat i)) (seq 0 k).

Lemma rule_names_cons n k : rule_names n (S k) = rrule n :: rule_names (n + 1) k.
Proof.
  unfold rule_names. cbn [seq map]. rewrite Z.add_0_r, <- seq_shift, map_map. f_equal.
  apply map_ext. intros i. f_equal. lia.
Qed.

Lemma rules_written htab n k d s :
  forallb (rule_valid htab) (upto n (Z.of_nat k)) = true ->
  exists d' s', save_rules htab n k true d s = (inr d', s') /\
    (forall m, get s' m =
       match webcgi_get htab m with
       | Some p => if bool_decide (m ∈ rule_names n k) then Some p else get s m
       | None => get s m
       end) /\
    (d' = 0 -> d = 0 /\ s' = s).
Proof.
  intros Hv. assert (Hacc := save_rules_accepted htab n k true d s). rewrite Hv in Hacc. clear Hv.
  revert n d s Hacc. induction k as [|k IH]; intros n d s Hacc.
  { exists d, s. split; [done|]. split; [|done]. intros m. by destruct (webcgi_get htab m). }
  rewrite rule_names_cons. cbn [save_rules] in *.
  destruct (webcgi_get htab (rrule n)) as [p|] eqn:Ep.
  - destruct (2048 <? Z.of_nat (length p)); [done|]. cbn [andb] in *.
    set (d1 := if negb (matches s (rrule n) p) then 1 else d).
    set (s1 := if matches s (rrule n) p then s else nvram_set s (rrule n) p).
    assert (E1 : (if negb (matches s (rrule n) p)
      then save_rules htab (n + 1) k true 1 (nvram_set s (rrule n) p)
      else save_rules htab (n + 1) k true d s) = save_rules htab (n + 1) k true d1 s1)
      by (unfold d1, s1; by destruct (matches s (rrule n) p)).
    rewrite E1 in *. destruct (IH (n + 1) d1 s1 Hacc) as (d' & s' & E & Hget & Hd).
    exists d', s'. split; [done|]. split.
    + intros m. rewrite Hget. unfold s1. rewrite store_new.
      destruct (decide (m = rrule n)) as [->|Hne].
      * rewrite Ep, (proj2 (strcmp_eq_spec (rrule n) (rrule n)) eq_refl).
        rewrite (bool_decide_eq_true_2 (_ ∈ _ :: _)) by by left. by case_bool_decide.
      * destruct (strcmp_eq (rrule n) m) eqn:Em; [by apply strcmp_eq_spec in Em as <-|].
        destruct (webcgi_get htab m); [|done].
        by erewrite (bool_decide_ext (m ∈ rrule n :: _)); [reflexivity|rewrite elem_of_cons; tauto].
    + intros H0. destruct (Hd H0) as [H1 ->]. unfold d1, s1 in *. by destruct (matches s (rrule n) p).
  - destruct (IH (n + 1) d s Hacc) as (d' & s' & E & Hget & Hd). exists d', s'. split; [done|]. split; [|done].
    intros m. rewrite Hget. destruct (webcgi_get htab m) eqn:Em; [|done].
    assert (m <> rrule n) by (intros ->; congruence).
    by erewrite (bool_decide_ext (m ∈ rrule n :: _)); [reflexivity|rewrite elem_of_cons; tauto].
Qed.

(** The password that the form sets. *)
Definition new_password (htab : Cgi.table) : option cstr :=
  match webcgi_get htab (bytes "set_password_1") with
  | Some p1 => if strcmp_eq p1 hidden then None else Some p1
  | None => None
  end.

Lemma password_written htab d s :
  password_valid htab = true ->
  exists d' s', save_password htab true d s = (inr d', s') /\
    (forall m, get s' m =
       match new_password htab with
       | Some p => if strcmp_eq (bytes "http_passwd") m then Some p else get s m
       | None => get s m
       end) /\
    (d' = 0 -> d = 0 /\ s' = s).
Proof.
  unfold password_valid, save_password, new_password.
  destruct (webcgi_get htab (bytes "set_password_1")) as [p1|]; [|by exists d, s].
  destruct (strcmp_eq p1 hidden); [by exists d, s|]. cbn [orb].
  destruct (webcgi_get htab (bytes "set_password_2")) as [p2|]; [|done]. intros E. rewrite E. clear E.
  cbn [andb]. assert (H := store_new s (bytes "http_passwd") p1).
  destruct (matches s (bytes "http_passwd") p1); cbn [negb]; [by exists d, s|].
  by exists 1, (nvram_set s (bytes "http_passwd") p1).
Qed.

Lemma fields_kept behind write r :
  valid_form (fields r) = true ->
  fields (save_variables behind write r).2 = fields r.
Proof.
  intros Hv. unfold valid_form, fields_valid, rules_valid in Hv.
  apply andb_true_iff in Hv as [Hv Hr]. apply andb_true_iff in Hv as [Hf Hp].
  unfold save_variables. cbv zeta.
  assert (A1 := save_fields_accepted (fields r) (expand nvset_list) write 0 (settings r)). rewrite Hf in A1.
  destruct (save_fields _ _ _ _ _) as [[name|dirty] s1]; [done|].
  assert (A2 := save_password_accepted (fields r) write dirty (save_chanspec behind (fields r) write s1)).
  rewrite Hp in A2. destruct (save_password _ _ _ _) as [[name|d2] s2]; [done|].
  assert (A3 := save_rules_accepted (fields r) 0 50 write d2 s2). change (Z.of_nat 50) with 50 in A3. rewrite Hr in A3.
  by destruct (save_rules _ _ _ _ _ _) as [[name|d3] s3].
Qed.

(** The settings a valid form leads to. *)
Definition saved (htab : Cgi.table) (s : store) (m : cstr) : option cstr :=
  match webcgi_get htab m with
  | Some p =>
      if bool_decide (m ∈ rule_names 0 50) then Some p
      else
        match new_password htab, strcmp_eq (bytes "http_passwd") m with
        | Some p1, true => Some p1
        | _, _ => match field_of (expand nvset_list) m with Some e => Some (field_value e.2 p) | None => get s m end
        end
  | None =>
      match new_password htab, strcmp_eq (bytes "http_passwd") m with
      | Some p1, true => Some p1
      | _, _ => get s m
      end
  end.

Definition temporary (m : cstr) : Prop :=
  exists e, field_of (expand nvset_list) m = Some e /\ is_temp e.2 = true.

Lemma form_written behind r :
  NoDup (map fst (expand nvset_list)) -> valid_form (fields r) = true ->
  (forall m, get (settings (save_variables behind true r).2) m = saved (fields r) (settings r) m) /\
  ((save_variables behind true r).1 = 0 -> forall m, ~ temporary m ->
     get (settings (save_variables behind true r).2) m = get (settings r) m).
Proof.
  intros Hnd Hv. unfold valid_form in Hv. apply andb_true_iff in Hv as [Hv Hr].
  apply andb_true_iff in Hv as [Hf Hp]. unfold save_variables. cbv zeta.
  destruct (fields_written (fields r) _ 0 (settings r) Hf Hnd) as (d1 & s1 & -> & G1 & D1).
  assert (Ec : save_chanspec behind (fields r) true s1 = s1).
  { unfold save_chanspec. case_match; [|done]. by rewrite foreach_wif_none. }
  rewrite Ec. destruct (password_written (fields r) d1 s1 Hp) as (d2 & s2 & -> & G2 & D2).
  destruct (rules_written (fields r) 0 50 d2 s2 Hr) as (d3 & s3 & -> & G3 & D3).
  cbn [fst snd with_settings fields settings]. split.
  - intros m. rewrite G3, G2, G1. unfold saved.
    destruct (webcgi_get (fields r) m); [case_bool_decide; [done|]|];
      destruct (new_password (fields r)), (strcmp_eq (bytes "http_passwd") m); try done;
      by case_match.
  - intros ->. destruct (D3 eq_refl) as [-> ->]. destruct (D2 eq_refl) as [-> ->].
    destruct (D1 eq_refl) as [_ H]. intros m Hm. apply H. intros e He.
    destruct (is_temp e.2) eqn:Et; [|done]. exfalso. apply Hm. by exists e.
Qed.

End Spec.

(** ** The table of fields *)

Lemma names_but_nil {A} (l : list (string * A)) : names_but [] l = map fst l.
Proof. unfold names_but. induction (map fst l) as [|n ns IH]; [done|]. cbn. by f_equal. Qed.

Lemma unique_fields {cfg : Config} : unique_names [] nvset_list = true.
Proof. vm_compute. reflexivity. Qed.

(** In every build for one device the form has no two fields of the same name. *)
Theorem field_names_unique (cfg : Config) :
  one_device cfg -> NoDup (map fst (expand nvset_list)).
Proof. intros H. rewrite <- names_but_nil. apply unique_names_sound; [done|apply unique_fields]. Qed.

Lemma field_names_unique_witness : NoDup (map fst (@expand _ pc_build (@nvset_list pc_build))).
Proof. apply (field_names_unique pc_build). exact pc_build_one_device. Defined.

(** ** Saving a form *)

(** In the builds without the proprietary wireless driver the first pass refuses a form
    exactly when a posted field fails its check, the two entries of the password differ
    or a rule is too long; the first pass writes nothing. *)
Theorem form_checked (arch : Arch) (radio : Radio) (cfg : Config) (st : Store) (behind : cstr) (r : form) :
  holds has_radios = false ->
  settings (save_variables behind false r).2 = settings r /\
  ((save_variables behind false r).1 <> 0 <->
     (forall n v p, (n, v) ∈ expand nvset_list -> webcgi_get (fields r) (bytes n) = Some p ->
        field_ok v (field_value v p) = true) /\
     (forall p, new_password (fields r) = Some p -> webcgi_get (fields r) (bytes "set_password_2") = Some p) /\
     (forall n p, 0 <= n < 50 -> webcgi_get (fields r) (rrule n) = Some p -> Z.of_nat (length p) <= 2048)).
Proof.
  intros Hpc. split; [apply check_settings|]. rewrite (check_verdict Hpc).
  transitivity (valid_form (fields r) = true); [by destruct (valid_form _)|].
  unfold valid_form. rewrite !andb_true_iff. unfold fields_valid, rules_valid. rewrite !forallb_forall.
  split.
  - intros [[Hf Hp] Hr]. split_and!.
    + intros n v p Hin%list_elem_of_In E. specialize (Hf _ Hin). cbn [fst snd] in Hf.
      unfold posted_ok in Hf. by rewrite E in Hf.
    + intros p. unfold new_password, password_valid in *. repeat case_match; try done.
      intros [= <-]. cbn [orb] in Hp. by apply strcmp_eq_spec in Hp as ->.
    + intros n p Hn E. assert (Hv : rule_valid (fields r) n = true).
      { apply Hr, in_map_iff. exists (Z.to_nat n). rewrite in_seq. lia. }
      unfold rule_valid in Hv. rewrite E in Hv. by apply Z.leb_le.
  - intros (Hf & Hp & Hr). split_and!.
    + intros [n v] Hin%list_elem_of_In. unfold posted_ok. cbn [fst snd].
      destruct (webcgi_get _ (bytes n)) as [p|] eqn:E; [by eapply Hf|done].
    + unfold new_password, password_valid in *. repeat case_match; try done; cbn [orb].
      * apply strcmp_eq_spec. specialize (Hp _ eq_refl). congruence.
      * by specialize (Hp _ eq_refl).
    + intros n (k & <- & Hk%in_seq)%in_map_iff. unfold rule_valid.
      destruct (webcgi_get _ (rrule _)) as [p|] eqn:E; [|done]. apply Z.leb_le. eapply Hr; [|exact E]. lia.
Qed.

#[local] Instance pc_arch : Arch := {| LONG_MAX := 2 ^ 63 - 1 |}.
#[local] Instance no_radio : Radio := {| wl_answers := fun _ => false |}.

Definition demo_request : Cgi.table :=
  <[bytes "lan_ipaddr" := bytes "10.0.0.1"]> (<[bytes "http_username" := bytes "me"]>
    {[ bytes "rrule7" := bytes "1|2" ]}).

Definition demo_form : @form map_store := Form (demo_request) (∅ : gmap cstr cstr).

Lemma form_checked_witness :
  (@save_variables pc_arch no_radio pc_build map_store [] false demo_form).1 = 1 /\
  Z.of_nat (length (bytes "1|2")) <= 2048.
Proof.
  assert (E : (@save_variables pc_arch no_radio pc_build map_store [] false demo_form).1 = 1)
    by (vm_compute; reflexivity).
  split; [exact E|].
  destruct (form_checked pc_arch no_radio pc_build map_store [] demo_form eq_refl) as (_ & [H _]).
  rewrite E in H. destruct (H ltac:(discriminate)) as (_ & _ & Hr).
  apply (Hr 7); [lia|vm_compute; reflexivity].
Defined.

(** C24: a form that is refused writes nothing at all, in every build: the settings stay as
    they were, nothing is committed and no service is restarted. *)
Theorem refused_form (arch : Arch) (radio : Radio) (cfg : Config) (st : Store) (behind : cstr) (r : form) :
  flag r "_nvset" "1" <> 0 -> (save_variables behind false r).1 = 0 ->
  settings (wo_tomato behind r).2 = settings r /\
  Forall (fun a => match a with Header | Message _ | Page _ => True | _ => False end) (wo_tomato behind r).1.
Proof.
  intros Hn H0. unfold wo_tomato. rewrite (proj2 (Z.eqb_neq _ _) Hn). cbn [negb].
  assert (Hs := check_settings behind r). destruct (save_variables behind false r) as [ok r1].
  cbn [fst snd] in *. subst ok. cbn [Z.eqb fst snd]. split; [done|].
  apply Forall_app. split; [by case_match; repeat constructor|].
  destruct (negb (flag r "_ajax" "0" =? 0)); by repeat constructor.
Qed.

Definition wrong_form : @form map_store :=
  Form (<[bytes "lan_ipaddr" := bytes "10.0.0.256"]> demo_request) (∅ : gmap cstr cstr).

Lemma refused_form_witness :
  settings (@wo_tomato pc_arch no_radio pc_build map_store [] wrong_form).2 = settings wrong_form.
Proof.
  destruct (refused_form pc_arch no_radio pc_build map_store [] wrong_form) as [H _];
    [vm_compute; discriminate|vm_compute; reflexivity|exact H].
Defined.

(** C16: in a build for one device without the proprietary wireless driver, once a form was
    accepted, the second pass stores exactly what the form says: every posted field of the table with the value that was checked, the
    password and the rules, and no other variable changes. When it reports that nothing
    is to be committed, nothing has changed but temporary fields, which are not kept. *)
Theorem accepted_form_saved (arch : Arch) (radio : Radio) (cfg : Config) (st : Store) (laws : StoreLaws)
  (behind : cstr) (r : form) :
  one_device cfg -> holds has_radios = false -> (save_variables behind false r).1 <> 0 ->
  (forall m, get (settings (save_variables behind true r).2) m = saved (fields r) (settings r) m) /\
  ((save_variables behind true r).1 = 0 -> forall m, ~ temporary m ->
     get (settings (save_variables behind true r).2) m = get (settings r) m).
Proof.
  intros Hone Hpc Hv. rewrite (check_verdict Hpc) in Hv.
  destruct (valid_form (fields r)) eqn:E; [|done].
  exact (form_written Hpc behind r (field_names_unique cfg Hone) E).
Qed.

Lemma accepted_form_saved_witness :
  @get map_store (settings (@save_variables pc_arch no_radio pc_build map_store [] true demo_form).2)
    (bytes "lan_ipaddr") = Some (bytes "10.0.0.1") /\
  @get map_store (settings (@save_variables pc_arch no_radio pc_build map_store [] true demo_form).2)
    (bytes "rrule7") = Some (bytes "1|2") /\
  @get map_store (settings (@save_variables pc_arch no_radio pc_build map_store [] true demo_form).2)
    (bytes "http_passwd") = None.
Proof.
  destruct (accepted_form_saved pc_arch no_radio pc_build map_store _ [] demo_form pc_build_one_device
    eq_refl) as [H _]; [vm_compute; discriminate|].
  rewrite !H. vm_compute. split_and!; reflexivity.
Defined.

(** ** The request *)

Section Request.
Context {arch : Arch} {radio : Radio} {cfg : Config} {st : Store} {laws : StoreLaws}.

Lemma answer_settings commit (r : form) n :
  n <> bytes "action_service" -> get (settings (answer commit r).2) n = get (settings r) n.
Proof.
  intros Hn. unfold answer. cbv zeta.
  destruct (webcgi_get (fields r) (bytes "_service")) as [[|c v]|]; try done.
  destruct (c =? chr "*"); [done|]. cbn [snd with_settings settings]. unfold exec_service, nvram_set.
  by apply get_set_other.
Qed.

Lemma wo_tomato_rest behind (r : form) n :
  ~ writable n -> n <> bytes "action_service" -> get (settings (wo_tomato behind r).2) n = get (settings r) n.
Proof.
  intros Hw Hn. unfold wo_tomato. cbv zeta.
  destruct (negb (flag r "_nvset" "1" =? 0)).
  - assert (Hs := check_settings behind r). destruct (save_variables behind false r) as [ok r1].
    cbn [snd] in Hs. destruct (ok =? 0); [by rewrite <- Hs|].
    assert (H2 := same_rest_save behind true r1). destruct (save_variables behind true r1) as [dirty r2].
    cbn [snd] in H2.
    assert (Ha := answer_settings (negb (dirty =? 0) && negb (flag r "_commit" "1" =? 0))
      (resmsg_set (bytes "Settings saved.") r2) n Hn).
    destruct (answer _ _) as [acts r3]. cbn [snd] in *. rewrite Ha. cbn [resmsg_set settings].
    by rewrite H2, Hs.
  - assert (Ha := answer_settings (negb (flag r "_commit" "1" =? 0)) r n Hn).
    by destruct (answer _ _) as [acts r3].
Qed.

Lemma check_id_settings v (r : form) n :
  n <> bytes "http_id_warn" -> get (check_id v r).2 n = get (settings r) n.
Proof.
  intros Hn. unfold check_id. cbv zeta. case_match; [done|]. cbn [snd].
  case_match; [done|]. unfold nvram_set. by apply get_set_other.
Qed.

End Request.

(** The form of a request. *)
Definition request_form {st : Store} (post : bool) (body : cstr) (r : form) : form :=
  if post then Form (webcgi_init (Some (until_nul body))) (settings r) else r.

(** C17: whatever is sent to tomato.cgi, in every build: without the current request
    identifier nothing is answered and no variable is written but [http_id_warn], the note
    about it; with it only fields of the table, their radios, the password, the access
    rules, [action_service] with the services to restart, and [http_id_warn] are. *)
Theorem request_confined (arch : Arch) (radio : Radio) (cfg : Config) (st : Store) (laws : StoreLaws)
  (behind : cstr) (v : visit) (post : bool) (body : cstr) (r : form) :
  (matches (settings r) (bytes "http_id") (field (request_form post body r) "_http_id" EmptyString) = false ->
     (tomato_cgi behind v post body r).1 = [] /\
     forall n, n <> bytes "http_id_warn" -> get (tomato_cgi behind v post body r).2 n = get (settings r) n) /\
  (forall n, ~ writable n -> n <> bytes "action_service" -> n <> bytes "http_id_warn" ->
     get (tomato_cgi behind v post body r).2 n = get (settings r) n).
Proof.
  unfold tomato_cgi, wi_generic_noid, request_form.
  assert (Hgen : forall x : form, settings x = settings r ->
    (matches (settings r) (bytes "http_id") (field x "_http_id" EmptyString) = false ->
      let y := let '(ok, s) := check_id v x in
        if ok then let '(acts, z) := wo_tomato behind (with_settings x s) in (acts, settings z) else ([], s) in
      y.1 = [] /\ forall n, n <> bytes "http_id_warn" -> get y.2 n = get (settings r) n) /\
    (forall n, ~ writable n -> n <> bytes "action_service" -> n <> bytes "http_id_warn" ->
      get (let '(ok, s) := check_id v x in
        if ok then let '(acts, z) := wo_tomato behind (with_settings x s) in (acts, settings z) else ([], s)).2 n
      = get (settings r) n)).
  { intros x Hx. assert (Hc := check_id_settings v x). rewrite Hx in Hc. split.
    - intros E. assert (Eok : (check_id v x).1 = false) by (unfold check_id; by rewrite Hx, E).
      destruct (check_id v x) as [ok s]. cbn [fst] in Eok. by subst ok.
    - intros n Hw Ha Hi. specialize (Hc n Hi). destruct (check_id v x) as [ok s]. cbn [snd] in Hc.
      destruct ok; [|done]. assert (Ht := wo_tomato_rest behind (with_settings x s) n Hw Ha).
      destruct (wo_tomato _ _) as [acts z]. cbn [snd] in *. by rewrite Ht. }
  destruct post; [|by apply Hgen]. destruct (32 * 1024 <=? Z.of_nat (length body)); [by split|].
  by apply Hgen.
Qed.

(** Whether the answer writes the settings to flash. *)
Definition commits (acts : list action) : bool :=
  existsb (fun a => match a with Commit => true | _ => false end) acts.

Lemma answer_commits {cfg : Config} {st : Store} commit (r : form) :
  commits (answer commit r).1 = commit || negb (flag r "_force_commit" "0" =? 0).
Proof.
  unfold answer, commits. cbv zeta.
  match goal with |- context [let '(_, _) := ?m in _] => assert (Hm : existsb
    (fun a => match a with Commit => true | _ => false end) m.1 = false);
    [|destruct m as [served r']; cbn [fst] in *] end.
  { destruct (webcgi_get (fields r) (bytes "_service")) as [[|c v]|]; try done.
    destruct (bool_decide _), (negb (flag r "_ajax" "0" =? 0)), (c =? chr "*"); done. }
  rewrite !existsb_app, Hm.
  assert (Hs : forall l : list nat, existsb (fun a => match a with Commit => true | _ => false end)
    (map (fun _ => Sleep 1) l) = false) by (induction l as [|i l IH]; [done|exact IH]).
  rewrite Hs. repeat case_match; reflexivity.
Qed.

(** Settings are not lost at the next start: in the builds without the proprietary
    driver, unless the form asks not to, an accepted form that changes a variable that is
    kept is also written to flash. *)
Theorem changes_committed (arch : Arch) (radio : Radio) (cfg : Config) (st : Store) (laws : StoreLaws)
  (behind : cstr) (r : form) (n : cstr) :
  one_device cfg -> holds has_radios = false ->
  flag r "_nvset" "1" <> 0 -> flag r "_commit" "1" <> 0 -> (save_variables behind false r).1 <> 0 ->
  ~ temporary n -> n <> bytes "action_service" ->
  get (settings (wo_tomato behind r).2) n <> get (settings r) n ->
  commits (wo_tomato behind r).1 = true.
Proof.
  intros Hone Hpc Hset Hcommit Hv Ht Ha. unfold wo_tomato.
  rewrite (proj2 (Z.eqb_neq _ _) Hset), (proj2 (Z.eqb_neq _ _) Hcommit). cbn [negb].
  rewrite (check_verdict Hpc) in Hv. destruct (valid_form (fields r)) eqn:E; [|done].
  assert (E1 : save_variables behind false r = (1, r)).
  { assert (K := check_verdict Hpc behind r). rewrite E in K.
    assert (Hs := check_settings behind r). assert (Hf := fields_kept Hpc behind false r E).
    destruct (save_variables behind false r) as [ok [f s]]. cbn [fst snd settings fields] in *.
    subst. by destruct r. }
  rewrite E1. cbn [Z.eqb].
  destruct (form_written Hpc behind r (field_names_unique cfg Hone) E) as [_ H0].
  destruct (save_variables behind true r) as [dirty r2]. cbn [fst snd] in H0.
  set (r3 := resmsg_set (bytes "Settings saved.") r2).
  assert (Hs := answer_settings (negb (dirty =? 0) && true) r3 n Ha).
  assert (Hc := answer_commits (negb (dirty =? 0) && true) r3).
  destruct (answer _ r3) as [acts r4]. cbn [fst snd] in *. intros Hne.
  unfold commits. rewrite existsb_app. fold (commits acts). rewrite Hc.
  destruct (dirty =? 0) eqn:Ed; [|by rewrite orb_true_r].
  apply Z.eqb_eq in Ed. exfalso. apply Hne. rewrite Hs. by apply H0.
Qed.

Lemma changes_committed_witness :
  commits (@wo_tomato pc_arch no_radio pc_build map_store [] demo_form).1 = true.
Proof.
  apply (changes_committed pc_arch no_radio pc_build map_store _ [] demo_form (bytes "lan_ipaddr"));
    [exact pc_build_one_device|reflexivity|vm_compute; discriminate|vm_compute; discriminate
    |vm_compute; discriminate| |discriminate|vm_compute; discriminate].
  intros (e & E & T). vm_compute in E. injection E as <-. discriminate T.
Defined.

(** A request with the identifier of the router and one without. *)
Definition router : @form map_store := Form ∅ ({[ bytes "http_id" := bytes "TID1" ]} : gmap cstr cstr).
Definition visitor : visit := {| client_addr := bytes "192.168.1.9"; now := 1000 |}.

Lemma request_confined_witness :
  (@tomato_cgi pc_arch no_radio pc_build map_store [] visitor true
     (bytes "lan_ipaddr=10.0.0.1&_http_id=TID2") router).1 = [] /\
  @get map_store (@tomato_cgi pc_arch no_radio pc_build map_store [] visitor true
     (bytes "lan_ipaddr=10.0.0.1&_http_id=TID1") router).2 (bytes "lan_ipaddr") = Some (bytes "10.0.0.1").
Proof.
  destruct (request_confined pc_arch no_radio pc_build map_store _ [] visitor true
    (bytes "lan_ipaddr=10.0.0.1&_http_id=TID2") router) as [H _].
  split; [apply H; vm_compute; reflexivity|vm_compute; reflexivity].
Defined.

(** ** Numbers and addresses *)

Lemma take_until_digits t : Forall (fun c => isdigit c = true) (take_until (fun c => negb (isdigit c)) t).
Proof.
  induction t as [|c t IH]; [constructor|]. cbn [take_until].
  destruct (isdigit c) eqn:E; cbn [negb]; [by constructor|constructor].
Qed.

(** A number that a field accepts is read back by [atoi] as a number of the range of
    the field, whatever was posted. *)
Theorem range_read_back (arch : Arch) (va vb : Z) (p : cstr) :
  LONG_MAX = 2 ^ 63 - 1 -> - 2 ^ 31 <= va -> vb < 2 ^ 31 ->
  field_ok (VT_RANGE va vb) p = true -> va <= atoi p <= vb.
Proof.
  intros HL Ha Hb. unfold field_ok, strtol, atoi.
  destruct (scan_numeral p) as [[[neg d] rest]|]; [|done]. rewrite HL. intros H.
  apply andb_true_iff in H as [H H2]. apply andb_true_iff in H as [_ H1].
  destruct neg; rewrite s32_id; zify_all.
Qed.

Lemma range_read_back_witness : 0 <= atoi (bytes " +007") <= 216.
Proof. apply (range_read_back pc_arch); [reflexivity|lia|lia|vm_compute; reflexivity]. Defined.

Lemma scan_uw_octet o rest :
  is_byte o -> ends_numeral rest -> scan_uw 3 (print_u 10 o ++ rest) = Some (o, rest).
Proof.
  intros Ho Hr. destruct (print_octet o Ho) as (Hl & Hv & Hd & _). unfold scan_uw.
  assert (Hh : exists c s, print_u 10 o = c :: s /\ isdigit c = true).
  { destruct (print_u 10 o) as [|c s]; [simpl in Hl; lia|]. apply Forall_cons in Hd as [Hc _]. by exists c, s. }
  assert (Es : skip_while isspace (print_u 10 o ++ rest) = print_u 10 o ++ rest).
  { apply (skip_while_all isspace []); [constructor|]. destruct Hh as (c & s & -> & Hc). simpl.
    unfold isdigit, isspace in *. zify_all. }
  rewrite Es.
  assert (Hsgn : match print_u 10 o ++ rest with
                 | 45 :: t => (true, 1%nat, t) | 43 :: t => (false, 1%nat, t)
                 | _ => (false, 0%nat, print_u 10 o ++ rest) end = (false, 0%nat, print_u 10 o ++ rest)).
  { destruct Hh as (c & s & -> & Hc). unfold isdigit in Hc. propify. simpl.
    destruct c as [|c|c]; try lia. assert (c <> 45 /\ c <> 43)%positive by lia.
    repeat (destruct c as [c|c|]; try done; try lia). }
  rewrite Hsgn.
  assert (Et : take_until (fun c => negb (isdigit c)) (take (3 - 0) (print_u 10 o ++ rest)) = print_u 10 o).
  { rewrite take_app, take_ge by lia. apply take_until_app.
    - eapply Forall_impl; [exact Hd|]. by intros x ->.
    - destruct rest as [|c r]; [by rewrite take_nil|]. simpl in Hr.
      destruct (3 - 0 - length (print_u 10 o))%nat; [done|]. simpl. by rewrite Hr. }
  rewrite Et. destruct Hh as (c & s & E & _). rewrite E. rewrite <- E, Hv, drop_app_length.
  unfold is_byte in Ho. by rewrite u32_id by lia.
Qed.

Lemma scan_octets_step n o r :
  is_byte o ->
  scan_seq (scan_uw 3) (chr ".") (S n) (print_u 10 o ++ chr "." :: r) =
    match scan_seq (scan_uw 3) (chr ".") n r with Some (us, rest) => Some (o :: us, rest) | None => None end.
Proof. intros Ho. cbn [scan_seq]. by rewrite scan_uw_octet. Qed.

Lemma scan_octets_last o :
  is_byte o -> scan_seq (scan_uw 3) (chr ".") 0 (print_u 10 o) = Some ([o], []).
Proof. intros Ho. rewrite <- (app_nil_r (print_u 10 o)). cbn [scan_seq]. by rewrite scan_uw_octet. Qed.

Lemma ip_ok_print a : is_ipv4 a -> ip_ok (inet_ntoa a) = true.
Proof.
  intros [Hl Hb]. destruct a as [|a [|b [|c [|d [|e a']]]]]; try discriminate Hl.
  inversion Hb as [|? ? Ha H1]; subst. inversion H1 as [|? ? Hb' H2]; subst.
  inversion H2 as [|? ? Hc H3]; subst. inversion H3 as [|? ? Hd _]; subst.
  unfold ip_ok, inet_ntoa. rewrite !scan_octets_step, scan_octets_last by done.
  unfold is_byte in *. cbn [forallb]. zify_all.
Qed.

(** A field for an address accepts every address as it is printed, and what it accepts of
    this form is what [inet_aton] and [inet_pton] read back. *)
Theorem address_field_roundtrip (arch : Arch) (va : bool) (a : list Z) :
  is_ipv4 a ->
  field_ok (VT_IP va) (inet_ntoa a) = true /\
  inet_aton (field_value (VT_IP va) (inet_ntoa a)) = Some a /\
  inet_pton (field_value (VT_IP va) (inet_ntoa a)) = Some a.
Proof.
  intros Ha. destruct (inet_read_print a Ha) as [Hp Hn]. split_and!; [|done|done].
  unfold field_ok. case_match; [|done]. by apply ip_ok_print.
Qed.

Lemma address_field_roundtrip_witness : @field_ok pc_arch (VT_IP true) (inet_ntoa [192; 168; 1; 254]) = true.
Proof.
  apply (address_field_roundtrip pc_arch true [192; 168; 1; 254]). split; [reflexivity|solve_bytes].
Defined.

(** The check also accepts numerals with leading zeros, which [inet_aton] reads as octal:
    the address that is used is not the one that was typed. *)
Lemma leading_zero_address {arch : Arch} :
  field_ok (VT_IP true) (bytes "010.0.0.1") = true /\
  inet_aton (bytes "010.0.0.1") = Some [8; 0; 0; 1] /\ inet_pton (bytes "010.0.0.1") = None.
Proof. split_and!; reflexivity. Qed.

(** A channel with leading blanks passes its check, fills the array [chan_spec] and leaves
    no room for the zero behind the side band. *)
Definition long_channel : cstr := repeat 32 29 ++ bytes "36".

Lemma chan_spec_unterminated (behind : cstr) (c : Z) :
  @field_ok pc_arch (VT_RANGE 0 216) long_channel = true /\
  chan_spec_of behind long_channel c 1 = long_channel ++ c :: behind.
Proof. split; reflexivity. Qed.

(** ** Defaults and fields *)

(** The checks of the table of fields, by name. *)
Definition checks_of (t : table (string * vtype)) : gmap string (list (cond * vtype)) :=
  fold_right (fun e m => <[e.2.1 := (e.1, e.2.2) :: default [] (m !! e.2.1)]> m) ∅ t.

Lemma checks_of_spec t g n v : (g, (n, v)) ∈ t -> exists l, checks_of t !! n = Some l /\ (g, v) ∈ l.
Proof.
  induction t as [|[h [m w]] t IH]; intros H; [by apply elem_of_nil in H|].
  cbn [checks_of fold_right fst snd]. fold (checks_of t).
  apply elem_of_cons in H as [[= -> -> ->]|H].
  - eexists. rewrite lookup_insert_eq. split; [done|]. by left.
  - destruct (IH H) as (l & E & Hin). destruct (decide (m = n)) as [->|Hne].
    + eexists. rewrite lookup_insert_eq. split; [done|]. rewrite E. by right.
    + exists l. by rewrite lookup_insert_ne.
Qed.

(** The fields whose range depends on numbers of the build, and the one whose default is
    refused. *)
Definition unchecked : list string := ["mwan_num"; "ipv6_vlan"; "wl_antdiv"]%string.

Definition default_checked {arch : Arch} (m : gmap string (list (cond * vtype)))
  (e : cond * (string * option string)) : bool :=
  match e.2.2 with
  | None | Some EmptyString => true
  | Some v =>
      existsb (String.eqb e.2.1) unchecked ||
      forallb (fun hc => clash e.1 hc.1 || field_ok hc.2 (field_value hc.2 (bytes v)))
        (default [] (m !! e.2.1))
  end.

Lemma defaults_checked {arch : Arch} {cfg : Config} :
  LONG_MAX = 2 ^ 31 - 1 \/ LONG_MAX = 2 ^ 63 - 1 ->
  forallb (default_checked (checks_of nvset_list)) router_defaults = true.
Proof.
  destruct arch as [L]. cbn [LONG_MAX]. intros [-> | ->]; vm_compute; reflexivity.
Qed.

(** In every build for one device the form accepts every default setting that is not
    empty, [wl_antdiv] and two fields whose range depends on the build apart: a form that
    posts the defaults back is not refused because of them. *)
Theorem defaults_pass_form (arch : Arch) (cfg : Config) (n v : string) (check : vtype) :
  LONG_MAX = 2 ^ 31 - 1 \/ LONG_MAX = 2 ^ 63 - 1 -> one_device cfg ->
  (n, Some v) ∈ expand router_defaults -> (n, check) ∈ expand nvset_list ->
  v <> EmptyString -> n ∉ unchecked ->
  field_ok check (field_value check (bytes v)) = true.
Proof.
  intros HL Hone Hd Hf Hv Hn. apply elem_of_expand in Hd as (g & Hd & Hg).
  apply elem_of_expand in Hf as (h & Hf & Hh).
  apply list_elem_of_In, (proj1 (forallb_forall _ _) (defaults_checked HL)) in Hd.
  destruct (checks_of_spec _ _ _ _ Hf) as (l & El & Hin).
  unfold default_checked in Hd. cbn [fst snd] in Hd. rewrite El in Hd. clear El Hf. cbn [default] in Hd.
  destruct v as [|c v]; [exact (False_ind _ (Hv eq_refl))|]. apply orb_true_iff in Hd as [Hd|Hd].
  - apply existsb_exists in Hd as (x & Hx & E). apply String.eqb_eq in E as <-.
    exfalso. by apply Hn, list_elem_of_In.
  - rewrite forallb_forall in Hd. apply list_elem_of_In, Hd in Hin. cbn [fst snd] in Hin.
    apply orb_true_iff in Hin as [Hin|Hin]; [|done]. exfalso. by apply (clash_sound Hone g h).
Qed.

Lemma defaults_pass_form_witness :
  @field_ok pc_arch (VT_IP true) (field_value (VT_IP true) (bytes "192.168.1.1")) = true.
Proof.
  apply (defaults_pass_form pc_arch pc_build "lan_ipaddr" "192.168.1.1");
    [by right|exact pc_build_one_device| | |discriminate|notin].
  - apply (found (fun e => String.eqb e.1 "lan_ipaddr")). vm_compute. reflexivity.
  - apply (found (fun e => String.eqb e.1 "lan_ipaddr")). vm_compute. reflexivity.
Defined.

End SaveVarsSpec.
