(* ===== verification/Restrict.v ===== *)
(** The schedule of the access restrictions
    (src/tomato64/package/rc/rc/restrict.c: [in_sched], [rcheck_main]).

    A rule is a variable [rrule0] to [rrule49]; its chain [rresNN] or [rdevNN] exists
    in the packet filter, and [rcheck], run every 15 minutes, links it into the chain
    [restrict] while its schedule says so. Which rules are linked is kept as a bit mask
    in [rrules_activated]. Commands are given to [eval] of the class [Shell]. *)

From Stdlib Require Import ZArith Lia.
From stdpp Require Import base list strings.
From S2P Require Import Prelude Scan Strings Nvram Inet Sched BuildConfig Defaults SaveVars.

Local Open Scope Z_scope.

Module Restrict.
Import Scan Strings Nvram Inet Sched BuildConfig Defaults SaveVars.

Definition MAX_NRULES : nat := 50.
Definition Y2K : Z := 946684800.

(** ** The schedule of a rule *)

Definition in_sched (now_mins now_dow sched_begin sched_end sched_dow : Z) : bool :=
  if (sched_begin <? 0) || (sched_end <? 0) then negb (Z.land sched_dow now_dow =? 0)
  else if sched_begin <? sched_end
  then negb (Z.land sched_dow now_dow =? 0) && (sched_begin <=? now_mins) && (now_mins <? sched_end)
  else if negb (Z.land now_dow sched_dow =? 0) && (sched_begin <=? now_mins) then true
  else
    let now_dow := if now_dow =? 1 then 64 else Z.shiftr now_dow 1 in
    negb (Z.land now_dow sched_dow =? 0) && (now_mins <? sched_end).

(** ** Running *)

(** The system as [rcheck] acts on it: [eval] runs a command and gives its exit status. *)
Class Shell := {
  world : Type;
  eval : list cstr -> world -> Z * world }.

(** What a processor makes of [1 << n] for [n] of 31 and more, as 64 bits: the language
    leaves it undefined. *)
Class Shifts := { overshift : Z -> Z }.

Section Ops.
Context {arch : Arch} {radio_cards : Radio} {cfg : Config} {st : Store} {clock : Clock} {sh : Shell}
  {shifts : Shifts}.

Record rule := { enabled : Z; sched_begin : Z; sched_end : Z; sched_dow : Z; comp : Z }.

(** [sscanf] with ["%d|%d|%d|%d|%c"]. *)
Definition parse_rule (p : cstr) : option rule :=
  match scan_seq scan_d (chr "|") 3 p with
  | Some ([n; b; e; d], 124 :: c :: _) =>
      Some {| enabled := n; sched_begin := b; sched_end := e; sched_dow := d; comp := c |}
  | _ => None
  end.

(** [strtoull] with base 16. *)
Definition strtoull16 (s : cstr) : Z :=
  let s := skip_while isspace s in
  let '(neg, s) :=
    match s with 45 :: t => (true, t) | 43 :: t => (false, t) | _ => (false, s) end in
  let s :=
    if (char_at s 0 =? chr "0") && ((char_at s 1 =? chr "x") || (char_at s 1 =? chr "X")) && isxdigit (char_at s 2)
    then drop 2 s else s in
  let v := value_in 16 0 (take_until (fun c => negb (isxdigit c)) s) in
  if 2 ^ 64 <=? v then 2 ^ 64 - 1 else if neg : bool then u64 (- v) else v.

(** The bit of a rule in the mask. *)
Definition rule_bit (nrule : Z) : Z := if nrule <? 31 then Z.shiftl 1 nrule else overshift nrule.

Definition two_digits (n : Z) : cstr := pad_to 2 (print_d n).

Definition chain_name (comp nrule : Z) : cstr :=
  bytes "r" ++ (if negb (comp =? chr "|") then bytes "dev" else bytes "res") ++ two_digits nrule.

Definition ipv6_enabled (s : store) : bool :=
  holds (Def "TCONFIG_IPV6") && negb (@get_ipv6_service (view s) =? 0).

Definition restrict_cmd (tool flag : string) (chain : cstr) : list cstr :=
  [bytes tool; bytes flag; bytes "restrict"; bytes "-j"; chain].

(** Linking a chain or not: the combined exit status. *)
Definition set_chain (s : store) (insch : bool) (chain : cstr) (w : world) : Z * world :=
  let '(r, w) := eval (restrict_cmd "iptables" "-D" chain) w in
  let '(r, w) := if insch then eval (restrict_cmd "iptables" "-A" chain) w else (r, w) in
  if holds (And (Not (Def "TCONFIG_BCMARM")) (Def "TCONFIG_IPV6")) then
    let '(r6, w) := eval (restrict_cmd "ip6tables" "-D" chain) w in
    if ipv6_enabled s then
      let '(r6, w) := if insch then eval (restrict_cmd "ip6tables" "-A" chain) w else (r6, w) in
      (Z.lor r r6, w)
    else (r, w)
  else (r, w).

(** The time of a pass: minutes of the day and bit of the week day, or none while the
    clock is not set. *)
Definition moment : Type := option (Z * Z).

Definition moment_of (now : Z) : moment :=
  if now <? Y2K then None
  else let t := localtime now in Some (tm_hour t * 60 + tm_min t, Z.shiftl 1 (tm_wday t)).

(** Whether the rule is to be active; [None] when the pass skips it. *)
Definition wanted (m : moment) (r : rule) : option bool :=
  match m with
  | None =>
      if (0 <=? sched_begin r) || (0 <=? sched_end r) || negb (sched_dow r =? 127) then None else Some true
  | Some (mins, dow) => Some (in_sched mins dow (sched_begin r) (sched_end r) (sched_dow r))
  end.

Record pass := { activated : Z; counted : Z; ipt_active : Z; radio : Z; outside : world }.

Definition tilde : Z := chr "~".

Definition with_activated (a : Z) (w : world) (x : pass) : pass :=
  {| activated := a; counted := counted x; ipt_active := ipt_active x; radio := radio x; outside := w |}.

(** One rule of the loop. *)
Definition rcheck_rule (s : store) (m : moment) (nrule : Z) (x : pass) : pass :=
  match get s (rrule nrule) with
  | None => x
  | Some p =>
      match parse_rule p with
      | None => x
      | Some r =>
          if enabled r =? 0 then x
          else
            let x := {| activated := activated x; counted := counted x + 1; ipt_active := ipt_active x;
                        radio := radio x; outside := outside x |} in
            match wanted m r with
            | None => x
            | Some insch =>
                let x := {| activated := activated x; counted := counted x;
                            ipt_active := if insch && negb (comp r =? tilde) then ipt_active x + 1 else ipt_active x;
                            radio := radio x; outside := outside x |} in
                let n := rule_bit nrule in
                if Bool.eqb insch (negb (Z.land (activated x) n =? 0)) then x
                else
                  let set a := if insch then Z.lor a n else Z.ldiff a n in
                  if comp r =? tilde then
                    {| activated := set (activated x); counted := counted x; ipt_active := ipt_active x;
                       radio := if negb (radio x =? 0) && negb (radio x =? -2) then (if insch then 0 else 1) else radio x;
                       outside := outside x |}
                  else
                    let '(ret, w) := set_chain s insch (chain_name (comp r) nrule) (outside x) in
                    if negb (ret =? 0) then with_activated (activated x) w x
                    else with_activated (set (activated x)) w x
            end
      end
  end.

Fixpoint rcheck_rules (s : store) (m : moment) (nrule : Z) (k : nat) (x : pass) : pass :=
  match k with
  | O => x
  | S k => rcheck_rules s m (nrule + 1) k (rcheck_rule s m nrule x)
  end.

(** Whether one of the radios is on. *)
Definition radio_on : wif_call := fun _ unit _ x =>
  ((if matches x.1 (wl_nvname (bytes "radio") unit 0) (bytes "1") then 1 else 0), x).

(** The mark that keeps fast NAT off, by the name of the service. *)
Inductive effect :=
  | Cron (line : cstr)
  | Uncron
  | SwitchRadio (on : bool)
  | AllowFastnat (allow : bool).

Definition rcheck_main (cron : bool) (s : store) (w : world) : store * world * list effect :=
  let now := time in
  let s :=
    if (now <? Y2K) && negb (matches s (bytes "rrules_timewarn") (bytes "1"))
    then nvram_set s (bytes "rrules_timewarn") (bytes "1") else s in
  let start := {|
    activated := strtoull16 (safe_get s (bytes "rrules_activated"));
    counted := 0; ipt_active := 0;
    radio := if negb (fst (foreach_wif false radio_on (s, 0)) =? 0) then -1 else -2;
    outside := w |} in
  let x := rcheck_rules s (moment_of now) 0 MAX_NRULES start in
  let s := nvram_set s (bytes "rrules_activated") (print_u 16 (activated x)) in
  let cronjob :=
    if 0 <? counted x then (if negb cron then [Cron (bytes "*/15 * * * * rcheck --cron")] else [])
    else [Uncron] in
  let '(s, radio_cmd) :=
    if 0 <=? radio x
    then (nvram_set s (bytes "rrules_radio") (if radio x =? 0 then bytes "1" else bytes "0"),
          [SwitchRadio (negb (radio x =? 0))])
    else (s, []) in
  (s, outside x, cronjob ++ radio_cmd ++ [AllowFastnat (ipt_active x =? 0)]).

End Ops.

End Restrict.
