(* ===== verification/RestrictSpec.v ===== *)
(** What the schedule of the access restrictions guarantees: a rule is active exactly in
    its hours, over midnight and over the end of the week too, and a pass of [rcheck]
    brings the packet filter and the remembered mask to what the schedule says. *)

From Stdlib Require Import ZArith Lia.
From stdpp Require Import base list strings gmap.
From S2P Require Import Prelude Scan Strings Nvram Inet Sched BuildConfig Defaults DefaultsSpec SaveVars SaveVarsSpec Restrict.

Local Open Scope Z_scope.

Module RestrictSpec.
Import Scan Strings Nvram Inet Sched BuildConfig Defaults DefaultsSpec SaveVars SaveVarsSpec Restrict.

#[local] Arguments bytes : simpl never.

(** ** Hours *)

Lemma land_pow2 a d : 0 <= d -> negb (Z.land a (2 ^ d) =? 0) = Z.testbit a d.
Proof.
  intros Hd. destruct (Z.testbit a d) eqn:E.
  - apply negb_true_iff, Z.eqb_neq. intros H. apply (f_equal (fun x => Z.testbit x d)) in H.
    rewrite Z.land_spec, E, Z.pow2_bits_true, Z.bits_0 in H; [discriminate|done].
  - apply negb_false_iff, Z.eqb_eq. apply Z.bits_inj'. intros i Hi.
    rewrite Z.land_spec, Z.pow2_bits_eqb, Z.bits_0 by done.
    destruct (d =? i) eqn:Ei; [apply Z.eqb_eq in Ei as <-; by rewrite E|apply andb_false_r].
Qed.

(** The minutes of a week. *)
Definition week : Z := 7 * 1440.

Definition length_of (b e : Z) : Z := if b <? e then e - b else e - b + 1440.

Lemma yesterday d : 0 <= d < 7 ->
  (if 2 ^ d =? 1 then 64 else Z.shiftr (2 ^ d) 1) = 2 ^ ((d + 6) mod 7).
Proof.
  intros Hd. assert (d = 0 \/ d = 1 \/ d = 2 \/ d = 3 \/ d = 4 \/ d = 5 \/ d = 6) as H by lia.
  by destruct H as [->|[->|[->|[->|[->|[->| ->]]]]]].
Qed.

(** C31: a rule with hours is active exactly when the minute of the week lies in the span of one
    of its days, which starts at its first hour of that day and may run past midnight and
    past the end of the week. *)
Theorem in_sched_weekly (mins d b e dow : Z) :
  0 <= mins < 1440 -> 0 <= d < 7 -> 0 <= b < 1440 -> 0 <= e <= 1440 ->
  (in_sched mins (2 ^ d) b e dow = true <->
   exists k, 0 <= k < 7 /\ Z.testbit dow k = true /\
     (d * 1440 + mins - (k * 1440 + b)) mod week < length_of b e).
Proof.
  intros Hm Hd Hb He. unfold in_sched, length_of, week.
  rewrite (proj2 (Z.ltb_ge b 0)), (proj2 (Z.ltb_ge e 0)) by lia. cbn [orb].
  assert (H6 : 0 <= (d + 6) mod 7 < 7) by (apply Z.mod_pos_bound; lia).
  rewrite yesterday, (Z.land_comm (2 ^ d)), (Z.land_comm (2 ^ ((d + 6) mod 7))) by lia.
  rewrite (land_pow2 dow d), (land_pow2 dow ((d + 6) mod 7)) by lia.
  assert (Hmod : forall k, 0 <= k < 7 -> let x := d * 1440 + mins - (k * 1440 + b) in
    (0 <= x /\ x mod (7 * 1440) = x) \/ (x < 0 /\ x mod (7 * 1440) = x + 10080)).
  { intros k Hk x. destruct (Z.ltb_spec x 0) as [Hx|Hx].
    - right. split; [done|]. rewrite <- (Z_mod_plus_full x 1). apply Z.mod_small. lia.
    - left. split; [done|]. apply Z.mod_small. lia. }
  assert (Hy : (d = 0 /\ (d + 6) mod 7 = 6) \/ (0 < d /\ (d + 6) mod 7 = d - 1)).
  { destruct (Z.eq_dec d 0) as [->|Hne]; [by left|]. right. split; [lia|].
    replace (d + 6) with (d - 1 + 1 * 7) by lia. rewrite Z_mod_plus_full. apply Z.mod_small. lia. }
  destruct (Z.ltb_spec b e) as [Hbe|Hbe].
  - rewrite !andb_true_iff, Z.leb_le, Z.ltb_lt. split.
    + intros [[Hbit H1] H2]. exists d. split; [lia|]. split; [done|].
      destruct (Hmod d Hd) as [[_ ->]|[? _]]; lia.
    + intros (k & Hk & Hbit & Hlt). assert (k = d /\ b <= mins < e) as [-> ?]; [|split_and!; [done|lia|lia]].
      destruct (Hmod k Hk) as [[? E]|[? E]]; rewrite E in Hlt; lia.
  - destruct (Z.testbit dow d && (b <=? mins)) eqn:E1.
    + split; [intros _|done]. apply andb_true_iff in E1 as [Hbit H1]. apply Z.leb_le in H1.
      exists d. split; [lia|]. split; [done|]. destruct (Hmod d Hd) as [[_ ->]|[? _]]; lia.
    + rewrite andb_true_iff, Z.ltb_lt. split.
      * intros [Hbit H2]. exists ((d + 6) mod 7). split; [lia|]. split; [done|].
        destruct (Hmod ((d + 6) mod 7) ltac:(lia)) as [[? ->]|[? ->]]; lia.
      * intros (k & Hk & Hbit & Hlt).
        assert (Hcase : (k = d /\ b <= mins) \/ (k = (d + 6) mod 7 /\ mins < e)).
        { destruct (Hmod k Hk) as [[? E]|[? E]]; rewrite E in Hlt; lia. }
        destruct Hcase as [[-> H1]|[-> H1]]; [|done].
        rewrite Hbit, (proj2 (Z.leb_le _ _) H1) in E1. discriminate.
Qed.

Lemma in_sched_weekly_witness : in_sched 30 (2 ^ 0) 1320 60 64 = true.
Proof.
  apply (in_sched_weekly 30 0 1320 60 64); [lia|lia|lia|lia|].
  exists 6. split; [lia|]. split; [reflexivity|]. vm_compute. reflexivity.
Defined.

(** ** The mask *)

Lemma bits_bound a : 0 <= a -> (forall i, 64 <= i -> Z.testbit a i = false) -> a < 2 ^ 64.
Proof.
  intros Ha H. destruct (Z.ltb_spec a (2 ^ 64)) as [|Hge]; [done|].
  assert (Hl : 64 <= Z.log2 a) by (apply Z.log2_le_pow2; lia).
  specialize (H _ Hl). rewrite Z.bit_log2 in H by lia. discriminate.
Qed.

Lemma bits_above a i : 0 <= a < 2 ^ 64 -> 64 <= i -> Z.testbit a i = false.
Proof.
  intros Ha Hi. destruct (Z.eq_dec a 0) as [->|Hne]; [apply Z.bits_0|].
  apply Z.bits_above_log2; [lia|]. apply (Z.lt_le_trans _ 64); [apply Z.log2_lt_pow2; lia|done].
Qed.

Lemma hex_value_digits f n acc :
  0 <= n < 16 ^ Z.of_nat f -> value_in 16 0 (digits_fuel f 16 n acc) = value_in 16 n acc.
Proof.
  revert n acc. induction f as [|f IH]; intros n acc Hn.
  { cbn [digits_fuel]. f_equal. simpl in Hn. lia. }
  rewrite Nat2Z.inj_succ, Z.pow_succ_r in Hn by lia. cbn [digits_fuel].
  pose proof (Z.mod_pos_bound n 16 ltac:(lia)) as Hm.
  pose proof (Z.div_mod n 16 ltac:(lia)) as Hdm.
  assert (Hd : hex_val (digit_char (n mod 16)) = n mod 16).
  { apply Z.eqb_eq.
    apply (forall_below 16 (fun k => hex_val (digit_char k) =? k)); [reflexivity|lia]. }
  case_if.
  - propify. cbn [value_in]. rewrite Hd. f_equal. rewrite Z.mod_small by lia. lia.
  - rewrite IH by (split; [apply Z.div_pos; lia|apply Z.div_lt_upper_bound; lia]).
    cbn [value_in]. rewrite Hd. f_equal. lia.
Qed.

Lemma hex_chars n : 0 <= n -> Forall (fun c => isxdigit c = true) (print_u 16 n).
Proof.
  intros Hn. apply digits_fuel_Forall; [lia| |constructor]. intros d Hd.
  apply (forall_below 16 (fun k => isxdigit (digit_char k))); [reflexivity|lia].
Qed.

Lemma no_sign (c : Z) (l : cstr) :
  c <> 45 -> c <> 43 ->
  match c :: l with 45 :: t => (true, t) | 43 :: t => (false, t) | _ => (false, c :: l) end = (false, c :: l).
Proof.
  intros H1 H2. destruct c as [|p|p]; [done| |done].
  do 6 (destruct p as [p|p|]; try done).
Qed.

(** The mask is read back from the variable it is written to. *)
Lemma mask_roundtrip a : 0 <= a < 2 ^ 64 -> strtoull16 (print_u 16 a) = a.
Proof.
  intros Ha. assert (Hx := hex_chars a ltac:(lia)). assert (Hne := print_u_nonempty 16 a).
  assert (Hv : value_in 16 0 (print_u 16 a) = a).
  { unfold print_u. rewrite hex_value_digits; [done|]. split; [lia|].
    eapply Z.lt_le_trans; [apply Ha|]. vm_compute. discriminate. }
  assert (Ht : take_until (fun c => negb (isxdigit c)) (print_u 16 a) = print_u 16 a).
  { rewrite <- (app_nil_r (print_u 16 a)) at 1. apply take_until_app; [|done].
    eapply Forall_impl; [exact Hx|]. by intros c ->. }
  unfold strtoull16. destruct (print_u 16 a) as [|c l] eqn:E; [done|].
  apply Forall_cons in Hx as [Hc Hl].
  assert (Hs : isspace c = false) by (unfold isxdigit, isspace, isdigit in *; zify_all).
  cbn [skip_while]. rewrite Hs.
  assert (Hsgn : match c :: l with 45 :: t => (true, t) | 43 :: t => (false, t) | _ => (false, c :: l) end
    = (false, c :: l)).
  { assert (c <> 45 /\ c <> 43) as [? ?] by (unfold isxdigit, isdigit in Hc; zify_all). by apply no_sign. }
  rewrite Hsgn.
  assert (Hpre : (char_at (c :: l) 0 =? chr "0") && ((char_at (c :: l) 1 =? chr "x") || (char_at (c :: l) 1 =? chr "X"))
    && isxdigit (char_at (c :: l) 2) = false).
  { replace ((char_at (c :: l) 1 =? chr "x") || (char_at (c :: l) 1 =? chr "X")) with false;
      [by rewrite andb_false_r|]. symmetry. destruct l as [|c1 l]; [done|].
    apply Forall_cons in Hl as [Hc1 _]. change (char_at (c :: c1 :: l) 1) with c1.
    change (chr "x") with 120. change (chr "X") with 88. unfold isxdigit, isdigit in Hc1. zify_all. }
  rewrite Hpre, Ht, Hv. by rewrite (proj2 (Z.leb_gt _ _)) by lia.
Qed.

(** ** The packet filter *)

(** The documented behaviour of iptables: [-A] appends a jump, [-D] removes one or fails
    when there is none; neither touches the jumps to other chains. *)
Class ShellLaws {sh : Shell} := {
  jumps : world -> cstr -> nat;
  add_jump : forall w c, exists w', eval (restrict_cmd "iptables" "-A" c) w = (0, w') /\
    jumps w' c = S (jumps w c) /\ (forall d, d <> c -> jumps w' d = jumps w d);
  del_jump : forall w c, exists r w', eval (restrict_cmd "iptables" "-D" c) w = (r, w') /\
    (jumps w c <> O -> r = 0) /\
    jumps w' c = (jumps w c - 1)%nat /\ (forall d, d <> c -> jumps w' d = jumps w d) }.

Section Pass.
Context {arch : Arch} {radio_cards : Radio} {cfg : Config} {st : Store} {clock : Clock} {sh : Shell}
  {laws : ShellLaws} {shifts : Shifts}.
Context (Harm : defined "TCONFIG_BCMARM" = true).

Lemma set_chain_spec s (insch : bool) c w :
  jumps w c = (if insch then 0 else 1)%nat ->
  exists w', set_chain s insch c w = (0, w') /\ jumps w' c = (if insch then 1 else 0)%nat /\
    (forall d, d <> c -> jumps w' d = jumps w d).
Proof.
  intros Hj. unfold set_chain. cbn [holds]. rewrite Harm. cbn [negb andb].
  destruct (del_jump w c) as (r & w1 & -> & Hr & Hc & Ho). destruct insch.
  - destruct (add_jump w1 c) as (w2 & -> & Hc2 & Ho2). exists w2. split; [done|].
    split; [rewrite Hc2, Hc, Hj; done|]. intros d Hd. by rewrite Ho2, Ho.
  - exists w1. rewrite Hr by (rewrite Hj; done). split; [done|]. split; [rewrite Hc, Hj; done|done].
Qed.

(** The rule with a number, when there is one and it is switched on. *)
Definition rule_at (s : store) (n : Z) : option rule :=
  match get s (rrule n) with
  | None => None
  | Some p => match parse_rule p with Some r => if enabled r =? 0 then None else Some r | None => None end
  end.

Definition on (x : pass) (n : Z) : bool := Z.testbit (activated x) n.

(** The filter agrees with the mask about one rule. *)
Definition agrees (s : store) (n : Z) (x : pass) : Prop :=
  forall r, rule_at s n = Some r -> comp r <> tilde ->
    jumps (outside x) (chain_name (comp r) n) = (if on x n then 1 else 0)%nat.

Definition mask_ok (x : pass) : Prop := 0 <= activated x < 2 ^ 64.

Lemma rule_bit_pow n : 0 <= n < 31 -> rule_bit n = 2 ^ n.
Proof. intros H. unfold rule_bit. rewrite (proj2 (Z.ltb_lt _ _)) by lia. apply Z.shiftl_1_l. Qed.

(** Setting and clearing the bit of a rule. *)
Lemma set_bit_ok a n (b : bool) :
  0 <= n < 31 -> 0 <= a < 2 ^ 64 ->
  let a' := if b then Z.lor a (2 ^ n) else Z.ldiff a (2 ^ n) in
  0 <= a' < 2 ^ 64 /\ Z.testbit a' n = b /\ (forall m, m <> n -> 0 <= m -> Z.testbit a' m = Z.testbit a m).
Proof.
  intros Hn Ha a'.
  assert (Hbit : forall m, 0 <= m -> Z.testbit a' m = if b then Z.testbit a m || (n =? m) else Z.testbit a m && negb (n =? m)).
  { intros m Hm. unfold a'. destruct b; [rewrite Z.lor_spec|rewrite Z.ldiff_spec]; by rewrite Z.pow2_bits_eqb by lia. }
  assert (H0 : 0 <= a').
  { unfold a'. assert (0 < 2 ^ n) by (apply Z.pow_pos_nonneg; lia).
    destruct b; [apply Z.lor_nonneg; lia|apply Z.ldiff_nonneg; lia]. }
  split; [split; [done|]|].
  - apply bits_bound; [done|]. intros i Hi. rewrite Hbit by lia.
    rewrite (bits_above a) by done. rewrite (proj2 (Z.eqb_neq _ _)) by lia. by destruct b.
  - split; [rewrite Hbit, Z.eqb_refl by lia; destruct b; [apply orb_true_r|apply andb_false_r]|].
    intros m Hm Hm0. rewrite Hbit, (proj2 (Z.eqb_neq _ _)) by lia.
    destruct b; [apply orb_false_r|apply andb_true_r].
Qed.

Lemma two_digits_inj n m : 0 <= n < 100 -> 0 <= m < 100 -> two_digits n = two_digits m -> n = m.
Proof.
  intros Hn Hm E.
  assert (H : forall k, 0 <= k < 100 -> (atoi (two_digits k) =? k) = true)
    by (apply (forall_below 100 (fun k => atoi (two_digits k) =? k)); vm_compute; reflexivity).
  assert (Hk : forall k, 0 <= k < 100 -> atoi (two_digits k) = k) by (intros k Hk; by apply Z.eqb_eq, H).
  by rewrite <- (Hk n Hn), <- (Hk m Hm), E.
Qed.

Lemma chain_name_inj c d n m :
  0 <= n < 100 -> 0 <= m < 100 -> chain_name c n = chain_name d m -> n = m.
Proof.
  intros Hn Hm E. apply two_digits_inj; [done|done|]. unfold chain_name in E.
  destruct (negb (c =? chr "|")), (negb (d =? chr "|"));
    apply (app_inv_head (bytes "r")) in E; (by apply app_inv_head in E) || discriminate E.
Qed.

(** One rule of the loop: it is brought to what its schedule says, the others stay. *)
Lemma rcheck_rule_spec s moment n x :
  0 <= n < 31 -> mask_ok x -> agrees s n x ->
  let y := rcheck_rule s moment n x in
  mask_ok y /\ agrees s n y /\
  (forall r b, rule_at s n = Some r -> wanted moment r = Some b -> on y n = b) /\
  (forall m, m <> n -> 0 <= m -> on y m = on x m) /\
  (forall c m, m <> n -> 0 <= m < 100 -> jumps (outside y) (chain_name c m) = jumps (outside x) (chain_name c m)).
Proof.
  intros Hn Hok Hag. unfold rcheck_rule.
  assert (Hr : rule_at s n = match get s (rrule n) with
    | None => None
    | Some p => match parse_rule p with Some r => if enabled r =? 0 then None else Some r | None => None end end) by done.
  destruct (get s (rrule n)) as [p|]; [|by rewrite Hr].
  destruct (parse_rule p) as [r|]; [|by rewrite Hr].
  destruct (enabled r =? 0); [by rewrite Hr|].
  destruct (wanted moment r) as [insch|] eqn:Ew.
  2:{ split_and!; try done. intros r' b E. rewrite E in Hr. injection Hr as ->. by rewrite Ew. }
  cbv zeta. cbn [activated counted ipt_active radio outside].
  rewrite rule_bit_pow, land_pow2 by lia. fold (on x n).
  destruct (Bool.eqb insch (on x n)) eqn:Eq.
  { apply eqb_prop in Eq. split_and!; try done. intros r' b E. rewrite E in Hr. injection Hr as ->.
    rewrite Ew. by intros [= <-]. }
  assert (Hne : on x n = negb insch) by (by destruct insch, (on x n)).
  destruct (set_bit_ok (activated x) n insch Hn Hok) as (Hb1 & Hb2 & Hb3).
  destruct (comp r =? tilde) eqn:Et.
  { split_and!; try done.
    - intros r' E Hc. rewrite E in Hr. injection Hr as ->. by apply Z.eqb_eq in Et.
    - intros r' b E. rewrite E in Hr. injection Hr as ->. rewrite Ew. intros [= <-]. done. }
  assert (Hj := Hag r Hr ltac:(by apply Z.eqb_neq)). rewrite Hne in Hj.
  destruct (set_chain_spec s insch (chain_name (comp r) n) (outside x)) as (w' & Es & Hc & Ho);
    [by rewrite Hj; destruct insch|].
  rewrite Es. cbn [Z.eqb negb]. unfold with_activated. cbn [activated counted ipt_active radio outside].
  split_and!; try done.
  - intros r' E _. rewrite E in Hr. injection Hr as ->. unfold on. cbn [activated outside]. by rewrite Hb2.
  - intros r' b E. rewrite E in Hr. injection Hr as ->. rewrite Ew. intros [= <-]. done.
  - intros c m Hm Hm0. apply Ho. intros E. apply Hm. by apply (chain_name_inj _ _ m n) in E; [|lia|lia].
Qed.

(** A number without a rule is passed over. *)
Lemma rcheck_rule_none s moment n x : get s (rrule n) = None -> rcheck_rule s moment n x = x.
Proof. unfold rcheck_rule. by intros ->. Qed.

Lemma rcheck_rules_none s moment k n x :
  (forall m, n <= m < n + Z.of_nat k -> get s (rrule m) = None) -> rcheck_rules s moment n k x = x.
Proof.
  revert n x. induction k as [|k IH]; intros n x H; [done|]. cbn [rcheck_rules].
  rewrite rcheck_rule_none by (apply H; lia). apply IH. intros m Hm. apply H. lia.
Qed.

Lemma rcheck_rules_app s moment k l n x :
  rcheck_rules s moment n (k + l) x = rcheck_rules s moment (n + Z.of_nat k) l (rcheck_rules s moment n k x).
Proof.
  revert n x. induction k as [|k IH]; intros n x; [cbn; by rewrite Z.add_0_r|].
  cbn [rcheck_rules plus]. rewrite IH. f_equal. lia.
Qed.

Lemma rcheck_rules_spec s moment k n x :
  0 <= n -> n + Z.of_nat k <= 31 -> mask_ok x -> (forall m, 0 <= m < 31 -> agrees s m x) ->
  let y := rcheck_rules s moment n k x in
  mask_ok y /\ (forall m, 0 <= m < 31 -> agrees s m y) /\
  (forall m r b, n <= m < n + Z.of_nat k -> rule_at s m = Some r -> wanted moment r = Some b -> on y m = b) /\
  (forall m, 0 <= m < n -> on y m = on x m).
Proof.
  revert n x. induction k as [|k IH]; intros n x Hn Hk Hok Hag y.
  { split_and!; try done. lia. }
  destruct (rcheck_rule_spec s moment n x ltac:(lia) Hok (Hag n ltac:(lia))) as (H1 & H2 & H3 & H4 & H5).
  set (x1 := rcheck_rule s moment n x) in *.
  destruct (IH (n + 1) x1 ltac:(lia) ltac:(lia) H1) as (I1 & I2 & I3 & I4).
  { intros m Hm. destruct (Z.eq_dec m n) as [->|Hne]; [done|]. intros r Hr Hc.
    rewrite H5, H4 by lia. by apply Hag. }
  subst y. cbn [rcheck_rules]. fold x1. split_and!; try done.
  - intros m r b Hm Hr Hw. destruct (Z.eq_dec m n) as [->|Hne].
    + rewrite I4 by lia. by apply (H3 r).
    + apply (I3 m r); [lia|done|done].
  - intros m Hm. rewrite I4 by lia. apply H4; lia.
Qed.

Lemma hex_take_nonneg acc l :
  0 <= acc -> 0 <= value_in 16 acc (take_until (fun c => negb (isxdigit c)) l).
Proof.
  revert acc. induction l as [|c l IH]; intros acc Ha; [done|]. cbn [take_until].
  destruct (isxdigit c) eqn:E; cbn [negb]; [|done]. cbn [value_in]. apply IH.
  assert (0 <= hex_val c) by (unfold hex_val, isxdigit, isdigit in *; repeat case_if; zify_all). lia.
Qed.

Lemma strtoull16_range p : 0 <= strtoull16 p < 2 ^ 64.
Proof.
  unfold strtoull16.
  match goal with |- context [let '(_, _) := ?m in _] => destruct m as [neg t] end.
  set (u := if _ && _ && _ then drop 2 t else t).
  assert (H := hex_take_nonneg 0 u ltac:(lia)).
  destruct (2 ^ 64 <=? value_in 16 0 (take_until (fun c => negb (isxdigit c)) u)) eqn:E; [lia|].
  destruct neg; [apply u64_range|]. zify_all.
Qed.

Lemma rrule_other n v : 0 <= n < 100 -> isdigit (char_at v 5) = false -> rrule n <> v.
Proof.
  intros Hn Hv E.
  assert (H : forall k, 0 <= k < 100 -> isdigit (char_at (rrule k) 5) = true)
    by (apply (forall_below 100 (fun k => isdigit (char_at (rrule k) 5))); vm_compute; reflexivity).
  specialize (H n Hn). rewrite E in H. congruence.
Qed.

End Pass.

(** C20: one pass of [rcheck], in the builds with TCONFIG_BCMARM, while the clock is set, with
    no rule numbered 31 or higher, iptables commands that do what they say, and a filter
    and a mask of active rules that agree before it for the rules with a chain: afterwards
    the bit of every rule that is switched on is what its schedule says, its chain is linked
    once or not at all to match, the rules are unchanged, and so the next pass starts
    from a filter and a mask that agree. *)
Theorem rcheck_follows_schedule (arch : Arch) (cards : Radio) (cfg : Config) (st : Store) (slaws : StoreLaws)
  (clock : Clock) (sh : Shell) (laws : ShellLaws) (shifts : Shifts) (cron : bool) (s : store) (w : world) :
  defined "TCONFIG_BCMARM" = true -> Y2K <= time ->
  (forall n, 31 <= n < 50 -> get s (rrule n) = None) ->
  (forall n r, 0 <= n < 31 -> rule_at s n = Some r -> comp r <> tilde ->
     jumps w (chain_name (comp r) n) =
       (if Z.testbit (strtoull16 (safe_get s (bytes "rrules_activated"))) n then 1 else 0)%nat) ->
  let '(s', w', _) := rcheck_main cron s w in
  forall n r, 0 <= n < 31 -> rule_at s n = Some r ->
    let active := in_sched (tm_hour (localtime time) * 60 + tm_min (localtime time))
      (Z.shiftl 1 (tm_wday (localtime time))) (sched_begin r) (sched_end r) (sched_dow r) in
    rule_at s' n = Some r /\
    Z.testbit (strtoull16 (safe_get s' (bytes "rrules_activated"))) n = active /\
    (comp r <> tilde -> jumps w' (chain_name (comp r) n) = (if active then 1 else 0)%nat).
Proof.
  intros Harm Ht Hnone Hag. unfold rcheck_main. rewrite (proj2 (Z.ltb_ge _ _) Ht). cbn [andb].
  set (x0 := {| activated := _ |}). cbv zeta.
  assert (Hx0 : mask_ok x0) by apply strtoull16_range.
  assert (Hag0 : forall m, 0 <= m < 31 -> agrees s m x0) by (intros m Hm r Hr Hc; by apply Hag).
  assert (E : rcheck_rules s (moment_of time) 0 MAX_NRULES x0 = rcheck_rules s (moment_of time) 0 31 x0).
  { change MAX_NRULES with (31 + 19)%nat. rewrite rcheck_rules_app. apply rcheck_rules_none.
    intros m Hm. apply Hnone. lia. }
  rewrite E. clear E.
  destruct (rcheck_rules_spec Harm s (moment_of time) 31 0 x0 ltac:(lia) ltac:(lia) Hx0 Hag0)
    as (Hm & Hy & Hon & _). set (x := rcheck_rules _ _ _ _ _) in *.
  set (s1 := nvram_set s (bytes "rrules_activated") (print_u 16 (activated x))).
  match goal with |- context [let '(_, _) := ?m in _] => assert (Hs2 : forall n, n <> bytes "rrules_radio" -> get m.1 n = get s1 n);
    [|destruct m as [s2 cmd]; cbn [fst] in Hs2] end.
  { intros n Hn. case_match; [|done]. cbn [fst]. unfold nvram_set at 1. by apply get_set_other. }
  intros n r Hn Hr. set (active := in_sched _ _ _ _ _). split; [|split].
  - unfold rule_at. rewrite Hs2 by (apply rrule_other; [lia|reflexivity]). unfold s1, nvram_set.
    rewrite get_set_other by (apply rrule_other; [lia|reflexivity]). exact Hr.
  - unfold safe_get, nvram_safe_get, view. cbn [nvram_get]. rewrite Hs2 by discriminate.
    unfold s1, nvram_set. rewrite get_set. change (default [] (Some ?v)) with v. rewrite mask_roundtrip by done.
    apply (Hon n r); [lia|done|]. unfold moment_of. by rewrite (proj2 (Z.ltb_ge _ _) Ht).
  - intros Hc. rewrite (Hy n Hn r Hr Hc). rewrite (Hon n r active ltac:(lia) Hr); [done|].
    unfold moment_of. by rewrite (proj2 (Z.ltb_ge _ _) Ht).
Qed.

(** A packet filter that only keeps the jumps, and a Sunday, half past midnight. *)
#[local] Instance filter : Shell := {|
  world := gmap cstr nat;
  eval := fun cmd w =>
    match cmd with
    | [tool; flag; _; _; c] =>
        if strcmp_eq flag (bytes "-A") then (0, <[c := S (default O (w !! c))]> w)
        else match default O (w !! c) with O => (1, w) | S k => (0, <[c := k]> w) end
    | _ => (0, w)
    end |}.

Definition filter_jumps (w : gmap cstr nat) (c : cstr) : nat := default O (w !! c).

Lemma filter_add (w : gmap cstr nat) c :
  exists w' : gmap cstr nat, eval (restrict_cmd "iptables" "-A" c) (w : @world filter) = (0, w') /\
    filter_jumps w' c = S (filter_jumps w c) /\ (forall d, d <> c -> filter_jumps w' d = filter_jumps w d).
Proof.
  exists (<[c := S (default O (w !! c))]> w). split; [reflexivity|]. unfold filter_jumps. split.
  - by rewrite lookup_insert_eq.
  - intros d Hd. by rewrite lookup_insert_ne.
Qed.

Lemma filter_del (w : gmap cstr nat) c :
  exists r (w' : gmap cstr nat), eval (restrict_cmd "iptables" "-D" c) (w : @world filter) = (r, w') /\
    (filter_jumps w c <> O -> r = 0) /\
    filter_jumps w' c = (filter_jumps w c - 1)%nat /\ (forall d, d <> c -> filter_jumps w' d = filter_jumps w d).
Proof.
  change (eval (restrict_cmd "iptables" "-D" c) (w : @world filter)) with
    (match filter_jumps w c with O => (1, w) | S k => (0, <[c := k]> w) end).
  destruct (filter_jumps w c) as [|k] eqn:E; eexists _, _; (split; [reflexivity|]).
  - split_and!; [done|by rewrite E|done].
  - split; [done|]. unfold filter_jumps. split; [rewrite lookup_insert_eq; simpl; lia|].
    intros d Hd. by rewrite lookup_insert_ne.
Qed.

#[local] Instance filter_laws : ShellLaws :=
  {| jumps := (filter_jumps : @world filter -> cstr -> nat); add_jump := filter_add; del_jump := filter_del |}.

#[local] Instance sunday : Clock :=
  {| time := 1700000000; localtime := fun _ => mk_tm 30 0 12 11 0 |}.

#[local] Instance wraps : Shifts := {| overshift := fun n => 2 ^ (n mod 32) |}.
#[local] Instance one_arch : Arch := {| LONG_MAX := 2 ^ 63 - 1 |}.
#[local] Instance no_cards : Radio := {| wl_answers := fun _ => false |}.

Definition no_jumps : @world filter := (∅ : gmap cstr nat).

(** Saturday 22:00 to 01:00, and a rule for Mondays. *)
Definition two_rules : gmap cstr cstr :=
  <[bytes "rrule0" := bytes "1|1320|60|64||0<a"]> {[ bytes "rrule3" := bytes "1|-1|-1|2||0<a" ]}.

Lemma rcheck_follows_schedule_witness :
  let '(_, w, _) := rcheck_main (cfg := pc_build) (st := map_store) true two_rules no_jumps in
  jumps w (bytes "rres00") = 1%nat /\ jumps w (bytes "rres03") = O.
Proof.
  assert (H := rcheck_follows_schedule one_arch no_cards pc_build map_store _ sunday filter _ wraps true
    two_rules no_jumps eq_refl ltac:(vm_compute; discriminate)).
  assert (Hn : forall n, 31 <= n < 50 -> @get map_store two_rules (rrule n) = None).
  { intros n Hn.
    assert (K : match @get map_store two_rules (rrule (31 + (n - 31))) with None => true | Some _ => false end = true).
    { apply (forall_below 19 (fun k => match @get map_store two_rules (rrule (31 + k)) with None => true | Some _ => false end));
        [vm_compute; reflexivity|lia]. }
    replace (31 + (n - 31)) with n in K by lia. by destruct (@get map_store two_rules (rrule n)). }
  assert (Hrule : forall n r, 0 <= n < 31 -> @rule_at map_store two_rules n = Some r -> n = 0 \/ n = 3).
  { intros n r Hn31 Hr. destruct (Z.eq_dec n 0) as [|H0]; [by left|]. destruct (Z.eq_dec n 3) as [|H3]; [by right|].
    assert (K : (match @rule_at map_store two_rules n with Some _ => (n =? 0) || (n =? 3) | None => true end) = true).
    { apply (forall_below 31 (fun n => match @rule_at map_store two_rules n with Some _ => (n =? 0) || (n =? 3) | None => true end));
        [vm_compute; reflexivity|lia]. }
    rewrite Hr in K. zify_all. }
  specialize (H Hn). 
  assert (Hinit : forall n r, 0 <= n < 31 -> @rule_at map_store two_rules n = Some r -> comp r <> tilde ->
     jumps no_jumps (chain_name (comp r) n) =
       (if Z.testbit (strtoull16 (@safe_get map_store two_rules (bytes "rrules_activated"))) n then 1 else 0)%nat).
  { intros n r Hn31 Hr _. destruct (Hrule n r Hn31 Hr) as [-> | ->]; vm_compute; reflexivity. }
  specialize (H Hinit).
  destruct (rcheck_main (cfg := pc_build) (st := map_store) true two_rules no_jumps) as [[s' w'] l]. split.
  - destruct (H 0 {| enabled := 1; sched_begin := 1320; sched_end := 60; sched_dow := 64; comp := 124 |}
      ltac:(lia) ltac:(vm_compute; reflexivity)) as (_ & _ & Hj).
    exact (Hj ltac:(discriminate)).
  - destruct (H 3 {| enabled := 1; sched_begin := -1; sched_end := -1; sched_dow := 2; comp := 124 |}
      ltac:(lia) ltac:(vm_compute; reflexivity)) as (_ & _ & Hj).
    exact (Hj ltac:(discriminate)).
Defined.

(** Where shifts are taken modulo 32, rule 32 shares the bit of rule 0 and is never
    linked. *)
Definition far_rule : gmap cstr cstr :=
  <[bytes "rrule0" := bytes "1|-1|-1|127||0<a"]> {[ bytes "rrule32" := bytes "1|-1|-1|127||0<a" ]}.

Lemma rule_32_never_linked :
  let '(_, w, _) := rcheck_main (cfg := pc_build) (st := map_store) true far_rule no_jumps in
  jumps w (bytes "rres00") = 1%nat /\ jumps w (bytes "rres32") = O.
Proof. vm_compute. by split. Qed.

End RestrictSpec.
