(* ===== verification/Rules.v ===== *)
(** Packet filter rules: the text that [start_firewall] hands to iptables-restore.

    The functions of src/tomato64/package/rc/rc/firewall.c and of the files around it
    print lines into two files, one for iptables and one for ip6tables. A line is kept
    here in its parts ([line]); [print_line] gives the text that is written. What a
    function prints is the list of its [write]s in order ([ipt_write], [ip6t_write],
    [ip46t_write], [ip46t_flagged_write] of rc.h). The functions [strsep] and [vstrsep],
    by which records of settings are taken apart, are here too. *)

From Stdlib Require Import ZArith Lia.
From stdpp Require Import base list strings.
From S2P Require Import Prelude Nvram BuildConfig.

Local Open Scope Z_scope.

Declare Scope rule_scope.
Delimit Scope rule_scope with rule.

(** Text constants of the sources. *)
Notation "! s" := (bytes s%string) (at level 9, s at level 9, only parsing) : rule_scope.
Notation "a +++ b" := (a ++ 32 :: b) (at level 60, right associativity) : rule_scope.
Local Open Scope rule_scope.

Module Rules.
Import Nvram BuildConfig.

(** ** Records *)

(** The pieces that successive calls of [strsep] give. *)
Fixpoint strsep (sep : Z) (s : cstr) : list cstr :=
  match s with
  | [] => [[]]
  | c :: s' =>
      if c =? sep then [] :: strsep sep s'
      else match strsep sep s' with p :: ps => (c :: p) :: ps | [] => [[c]] end
  end.

(** [vstrsep] with [n] pointers: those that were set. *)
Definition vstrsep (n : nat) (sep : Z) (s : cstr) : list cstr := take n (strsep sep s).

(** The comma-separated addresses of a setting, up to an empty rest: the loop
    [do ... while (star p)] around [strchr(p, ',')]. *)
Definition addresses (s : cstr) : list cstr :=
  match strsep (chr ",") s with
  | p :: ps => p :: match List.rev ps with [] :: _ => List.removelast ps | _ => ps end
  | [] => []
  end.

(** ** Lines *)

(** A condition of a rule: the interface a packet comes from or leaves by, the state of
    its connection, or any other piece of text. *)
Inductive cond :=
  | In (i : cstr)
  | Out (o : cstr)
  | State (l : cstr)
  | Match (text : cstr).

(** The target of a rule, with its options; [Count] when it has none. *)
Inductive target :=
  | Jump (t : cstr)
  | Goto (t : cstr)
  | Count.

Inductive line :=
  | Table (t : cstr)
  | Chain (c policy : cstr)
  | Append (c : cstr) (m : list cond) (t : target)
  | Insert (c : cstr) (pos : option Z) (m : list cond) (t : target)
  | NewChain (c : cstr)
  | DelChain (c : cstr)
  | Commit.

Definition print_cond (m : cond) : cstr :=
  match m with
  | In i => !"-i" +++ i
  | Out o => !"-o" +++ o
  | State l => !"-m state --state" +++ l
  | Match text => text
  end.

Definition print_conds (m : list cond) : cstr := concat (map (fun c => 32 :: print_cond c) m).

Definition print_target (t : target) : cstr :=
  match t with
  | Jump t => !" -j" +++ t
  | Goto t => !" -g" +++ t
  | Count => []
  end.

Definition print_line (l : line) : cstr :=
  match l with
  | Table t => chr "*" :: t
  | Chain c p => chr ":" :: c +++ p +++ !"[0:0]"
  | Append c m t => !"-A" +++ c ++ print_conds m ++ print_target t
  | Insert c pos m t =>
      !"-I" +++ c ++ match pos with Some n => 32 :: print_d n | None => [] end
        ++ print_conds m ++ print_target t
  | NewChain c => !"-N" +++ c
  | DelChain c => !"-X" +++ c
  | Commit => !"COMMIT"
  end.

(** The policy of a chain that has none. *)
Definition user : cstr := !"-".

(** ** Writing *)

(** A line for the file of iptables or for that of ip6tables. *)
Inductive write := W4 (l : line) | W6 (l : line).

Definition IPT_V4 : Z := 1.
Definition IPT_V6 : Z := 2.

Definition ipt_write (ls : list line) : list write := map W4 ls.
Definition ip6t_write (ls : list line) : list write := map W6 ls.

Definition ip46t_write (do_ipv6t : bool) (ls : list line) : list write :=
  ipt_write ls ++ (if do_ipv6t then ip6t_write ls else []).

Definition ip46t_flagged_write (do_ipv6t : bool) (do_ip46t : Z) (ls : list line) : list write :=
  (if negb (Z.land do_ip46t IPT_V4 =? 0) then ipt_write ls else []) ++
  (if do_ipv6t && negb (Z.land do_ip46t IPT_V6 =? 0) then ip6t_write ls else []).

(** What the two files contain in the end. *)
Definition lines4 (ws : list write) : list line := omap (fun w => match w with W4 l => Some l | W6 _ => None end) ws.
Definition lines6 (ws : list write) : list line := omap (fun w => match w with W6 l => Some l | W4 _ => None end) ws.

Definition file_text (ls : list line) : cstr := concat (map (fun l => print_line l ++ [10]) ls).

(** ** The targets that depend on logging *)

Record chains := {
  in_drop : cstr;
  in_accept : cstr;
  out_drop : cstr;
  out_reject : cstr;
  out_accept : cstr }.

Section Ops.
Context {nv : Nvram}.

Definition chains_log_detection : chains :=
  let n := nvram_get_int !"log_in" in
  let m := nvram_get_int !"log_out" in
  {| in_drop := if Z.testbit n 0 then !"logdrop" else !"DROP";
     in_accept := if Z.testbit n 1 then !"logaccept" else !"ACCEPT";
     out_drop := if Z.testbit m 0 then !"logdrop" else !"DROP";
     out_reject := if Z.testbit m 0 then !"logreject" else !"REJECT --reject-with tcp-reset";
     out_accept := if Z.testbit m 1 then !"logaccept" else !"ACCEPT" |}.

End Ops.

(** * Lemmas *)

Lemma lines4_app a b : lines4 (a ++ b) = lines4 a ++ lines4 b.
Proof. apply omap_app. Qed.

Lemma lines6_app a b : lines6 (a ++ b) = lines6 a ++ lines6 b.
Proof. apply omap_app. Qed.

Lemma lines4_ipt ls : lines4 (ipt_write ls) = ls.
Proof. induction ls as [|l ls IH]; [done|]. exact (f_equal (cons l) IH). Qed.

Lemma lines4_ip6t ls : lines4 (ip6t_write ls) = [].
Proof. induction ls as [|l ls IH]; [done|]. exact IH. Qed.

Lemma lines6_ip6t ls : lines6 (ip6t_write ls) = ls.
Proof. induction ls as [|l ls IH]; [done|]. exact (f_equal (cons l) IH). Qed.

Lemma lines6_ipt ls : lines6 (ipt_write ls) = [].
Proof. induction ls as [|l ls IH]; [done|]. exact IH. Qed.

Lemma lines4_46 b ls : lines4 (ip46t_write b ls) = ls.
Proof.
  unfold ip46t_write. rewrite lines4_app, lines4_ipt. destruct b; rewrite ?lines4_ip6t; apply app_nil_r.
Qed.

Lemma lines6_46 b ls : lines6 (ip46t_write b ls) = if b then ls else [].
Proof. unfold ip46t_write. rewrite lines6_app, lines6_ipt. destruct b; [apply lines6_ip6t|done]. Qed.

Lemma lines4_flagged b f ls :
  lines4 (ip46t_flagged_write b f ls) = if negb (Z.land f IPT_V4 =? 0) then ls else [].
Proof.
  unfold ip46t_flagged_write. rewrite lines4_app.
  destruct (negb _), (b && _); rewrite ?lines4_ipt, ?lines4_ip6t, ?app_nil_r; done.
Qed.

Lemma lines6_flagged b f ls :
  lines6 (ip46t_flagged_write b f ls) = if b && negb (Z.land f IPT_V6 =? 0) then ls else [].
Proof.
  unfold ip46t_flagged_write. rewrite lines6_app.
  destruct (negb _), (b && _); rewrite ?lines6_ipt, ?lines6_ip6t; done.
Qed.

Lemma lines4_concat {A} (f : A -> list write) l : lines4 (concat (map f l)) = concat (map (fun x => lines4 (f x)) l).
Proof. induction l as [|x l IH]; [done|]. simpl. by rewrite lines4_app, IH. Qed.

Lemma lines6_concat {A} (f : A -> list write) l : lines6 (concat (map f l)) = concat (map (fun x => lines6 (f x)) l).
Proof. induction l as [|x l IH]; [done|]. simpl. by rewrite lines6_app, IH. Qed.

(** *** Records *)

Lemma strsep_nonempty sep s : strsep sep s <> [].
Proof. destruct s as [|c s]; simpl; [done|]. case_if; [done|]. by destruct (strsep sep s). Qed.

(** A record is put together again from its pieces, none of which has the separator. *)
Fixpoint join (sep : Z) (l : list cstr) : cstr :=
  match l with
  | [] => []
  | [p] => p
  | p :: ps => p ++ sep :: join sep ps
  end.

Lemma join_two sep p ps : ps <> [] -> join sep (p :: ps) = p ++ sep :: join sep ps.
Proof. by destruct ps. Qed.

Lemma join_strsep sep s : join sep (strsep sep s) = s.
Proof.
  induction s as [|c s IH]; [done|]. simpl. case_if.
  - rewrite join_two by apply strsep_nonempty. simpl. rewrite IH. by propify; subst.
  - destruct (strsep sep s) as [|p ps] eqn:Ep; [by apply strsep_nonempty in Ep|].
    destruct ps; simpl in *; by rewrite <- IH.
Qed.

Lemma strsep_no_sep sep s : Forall (fun p => ~ sep ∈ p) (strsep sep s).
Proof.
  induction s as [|c s IH]; simpl; [constructor; [by apply not_elem_of_nil|done]|]. case_if.
  - constructor; [by apply not_elem_of_nil|done].
  - destruct (strsep sep s) as [|p ps]; inversion_clear IH; propify;
      (constructor; [|done]); rewrite not_elem_of_cons; split; auto; by apply not_elem_of_nil.
Qed.

Lemma strsep_app sep p s : ~ sep ∈ p -> strsep sep (p ++ sep :: s) = p :: strsep sep s.
Proof.
  induction p as [|c p IH]; intros Hp; simpl; [by rewrite Z.eqb_refl|].
  rewrite not_elem_of_cons in Hp. destruct Hp as [Hc Hp].
  rewrite (proj2 (Z.eqb_neq _ _)) by auto. by rewrite IH.
Qed.

Lemma strsep_plain sep p : ~ sep ∈ p -> strsep sep p = [p].
Proof.
  induction p as [|c p IH]; intros Hp; simpl; [done|].
  rewrite not_elem_of_cons in Hp. destruct Hp as [Hc Hp].
  rewrite (proj2 (Z.eqb_neq _ _)) by auto. by rewrite IH.
Qed.

Lemma strsep_join sep ps : ps <> [] -> Forall (fun p => ~ sep ∈ p) ps -> strsep sep (join sep ps) = ps.
Proof.
  induction ps as [|p ps IH]; intros Hne Hf; [done|]. apply Forall_cons in Hf as [Hp Hf].
  destruct ps as [|q ps]; [by apply strsep_plain|].
  rewrite join_two, strsep_app by done. by rewrite IH.
Qed.

Example print_ex :
  file_text [Table !"filter"; Chain !"INPUT" !"DROP"; Append !"INPUT" [In !"br0"] (Jump !"ACCEPT");
             Insert !"INPUT" (Some 1) [Match !"! -i lo"; Match []] (Goto !"x"); Commit] =
  concat (map (fun l => bytes l ++ [10])
    ["*filter"; ":INPUT DROP [0:0]"; "-A INPUT -i br0 -j ACCEPT"; "-I INPUT 1 ! -i lo  -g x"; "COMMIT"]%string).
Proof. reflexivity. Qed.

Example strsep_ex : strsep (chr ">") !"a>>b" = [!"a"; []; !"b"] /\ addresses !"a,b," = [!"a"; !"b"] /\
  addresses [] = [[]] /\ addresses !"a,,b" = [!"a"; []; !"b"] /\ addresses !"," = [[]].
Proof. split_and!; reflexivity. Qed.

End Rules.
