(* ===== verification/RulesSpec.v ===== *)
(** What rule files mean: how iptables-restore builds the chains of a table from its
    lines, and what becomes of a packet that goes through a chain.

    This is the documented behaviour of iptables: a chain is created once, rules are
    added to chains that exist and only with targets that exist, and one bad line makes
    the whole file fail; a packet meets the rules of a chain in order, a rule that fits
    decides, calls another chain or returns, and a built-in chain ends in its policy.
    Conditions and targets of extensions are those of the packet ([Packet]). *)

From Stdlib Require Import ZArith Lia.
From stdpp Require Import base list strings gmap.
From S2P Require Import Prelude Scan Rules.

Local Open Scope Z_scope.
Local Open Scope rule_scope.

Module RulesSpec.
Import Scan Rules.

(** ** Loading *)

Inductive verdict := Accept | Drop.

(** The policy that a chain line gives, if it gives one. *)
Definition policy_of (p : cstr) : option verdict :=
  if strcmp_eq p !"ACCEPT" then Some Accept else if strcmp_eq p !"DROP" then Some Drop else None.

Abbreviation rule := (list cond * target)%type.
Abbreviation chainmap := (gmap cstr (list rule)).

(** The first word of a target, without its options. *)
Definition target_name (t : cstr) : cstr := take_until (fun c => c =? 32) t.

(** Targets that are not chains. *)
Definition verdicts : list cstr := map bytes ["ACCEPT"; "DROP"; "REJECT"; "RETURN"]%string.
Definition extensions : list cstr := map bytes
  ["LOG"; "DNAT"; "SNAT"; "MASQUERADE"; "REDIRECT"; "FULLCONENAT"; "TRIGGER"; "MARK"; "CONNMARK"; "TTL"; "DSCP";
   "TCPMSS"; "CT"; "FLOWOFFLOAD"; "IMQ"]%string.

Definition in_list (c : cstr) (l : list cstr) : bool := bool_decide (c ∈ l).

Definition target_ok (t : chainmap) (tg : target) : bool :=
  match tg with
  | Count => true
  | Jump x =>
      let n := target_name x in in_list n verdicts || in_list n extensions || bool_decide (is_Some (t !! n))
  | Goto x => bool_decide (is_Some (t !! target_name x))
  end.

(** Whether a rule refers to a chain. *)
Definition refers (c : cstr) (r : rule) : bool :=
  match r.2 with Count => false | Jump x | Goto x => strcmp_eq (target_name x) c end.

Definition referred (t : chainmap) (c : cstr) : bool :=
  existsb (fun e => existsb (refers c) e.2) (map_to_list t).

Definition insert_at (pos : option Z) (r : rule) (rs : list rule) : option (list rule) :=
  match pos with
  | None => Some (r :: rs)
  | Some n =>
      if (1 <=? n) && (n <=? Z.of_nat (length rs) + 1)
      then Some (take (Z.to_nat (n - 1)) rs ++ r :: drop (Z.to_nat (n - 1)) rs) else None
  end.

(** A built-in chain line must name a policy or none; what its policy is, is [chain_policy]. The
    options of the matches are checked by their extensions, see [restore]. *)
Definition load_line (builtin : list cstr) (t : chainmap) (l : line) : option chainmap :=
  match l with
  | Table _ | Commit => None
  | Chain c p =>
      if in_list c builtin then (if bool_decide (is_Some (policy_of p)) || strcmp_eq p user then Some t else None)
      else if bool_decide (is_Some (t !! c)) then None else Some (<[c := []]> t)
  | NewChain c => if bool_decide (is_Some (t !! c)) then None else Some (<[c := []]> t)
  | DelChain c =>
      match t !! c with
      | Some [] => if in_list c builtin || referred t c then None else Some (delete c t)
      | _ => None
      end
  | Append c m tg =>
      match t !! c with
      | Some rs => if target_ok t tg then Some (<[c := rs ++ [(m, tg)]]> t) else None
      | None => None
      end
  | Insert c pos m tg =>
      match t !! c with
      | Some rs =>
          if target_ok t tg
          then rs' ← insert_at pos (m, tg) rs; Some (<[c := rs']> t) else None
      | None => None
      end
  end.

Fixpoint load (builtin : list cstr) (t : chainmap) (ls : list line) : option chainmap :=
  match ls with
  | [] => Some t
  | l :: ls => t' ← load_line builtin t l; load builtin t' ls
  end.

Definition empty_table (builtin : list cstr) : chainmap := list_to_map (map (fun c => (c, [])) builtin).

(** A table: its name, its chains, [COMMIT]. *)
Definition load_table (name : cstr) (builtin : list cstr) (ls : list line) : option chainmap :=
  match ls with
  | Table n :: ls =>
      match List.rev ls with
      | Commit :: body => if strcmp_eq n name then load builtin (empty_table builtin) (List.rev body) else None
      | _ => None
      end
  | _ => None
  end.

(** The policy of a built-in chain once the lines are loaded: that of its last chain line.
    The kernel starts with ACCEPT. *)
Definition chain_policy (c : cstr) (ls : list line) : verdict :=
  fold_left (fun v l => match l with Chain d p => if strcmp_eq d c then default v (policy_of p) else v | _ => v end) ls Accept.

(** What iptables and its extensions check besides the chains: the options of every match,
    and the rules together (such as counters with a name used twice). They see the
    conditions of the rules in order. *)
Class Extensions := { accepts : list (list cond) -> bool }.

Definition conds_of (l : line) : list (list cond) :=
  match l with Append _ m _ | Insert _ _ m _ => [m] | _ => [] end.

(** Loading with these checks: one refused match refuses the file. *)
Definition restore {x : Extensions} (builtin : list cstr) (ls : list line) : option chainmap :=
  if accepts (concat (map conds_of ls)) then load builtin (empty_table builtin) ls else None.

Lemma load_app b t xs ys : load b t (xs ++ ys) = t' ← load b t xs; load b t' ys.
Proof.
  revert t. induction xs as [|x xs IH]; intros t; [done|]. simpl.
  destruct (load_line b t x) as [t'|]; [|done]. simpl. apply IH.
Qed.

(** ** Packets *)

(** A packet: its interfaces, the state of its connection, whether it meets a condition
    of another kind, and what an extension decides, if it decides. *)
Class Packet := {
  in_if : cstr;
  out_if : cstr;
  ct_state : cstr;
  meets : cstr -> bool;
  decides : cstr -> option verdict }.

(** A name that ends in [+] stands for all that start so. *)
Definition if_match (pat name : cstr) : bool :=
  match List.rev pat with
  | c :: p => if c =? chr "+" then prefix_of_str (List.rev p) name else strcmp_eq pat name
  | [] => strcmp_eq pat name
  end.

Section Run.
Context {pk : Packet}.

Definition fits (m : cond) : bool :=
  match m with
  | In i => if_match i in_if
  | Out o => if_match o out_if
  | State l => in_list ct_state (strsep (chr ",") l)
  | Match [] => true
  | Match t => meets t
  end.

Definition fires (r : rule) : bool := forallb fits r.1.

(** What a target does. *)
Inductive action := Decide (v : verdict) | Return | Call (c : cstr) | Go (c : cstr) | Continue.

Definition action_of (t : chainmap) (tg : target) : action :=
  match tg with
  | Count => Continue
  | Goto x => Go (target_name x)
  | Jump x =>
      let n := target_name x in
      if strcmp_eq n !"ACCEPT" then Decide Accept
      else if strcmp_eq n !"DROP" || strcmp_eq n !"REJECT" then Decide Drop
      else if strcmp_eq n !"RETURN" then Return
      else match t !! n with
           | Some _ => Call n
           | None => match decides x with Some v => Decide v | None => Continue end
           end
  end.

(** The walk over rules: a verdict, or the end of the chain ([Some None]); nothing when
    the chains are nested more deeply than the fuel. *)
Fixpoint run (fuel : nat) (t : chainmap) (rs : list rule) : option (option verdict) :=
  match fuel with
  | O => None
  | S f =>
      (fix walk (rs : list rule) : option (option verdict) :=
         match rs with
         | [] => Some None
         | r :: rs =>
             if fires r then
               match action_of t r.2 with
               | Decide v => Some (Some v)
               | Return => Some None
               | Call c =>
                   match run f t (default [] (t !! c)) with
                   | Some None => walk rs
                   | x => x
                   end
               | Go c => run f t (default [] (t !! c))
               | Continue => walk rs
               end
             else walk rs
         end) rs
  end.

(** A built-in chain with its policy. *)
Definition traverse (fuel : nat) (t : chainmap) (c : cstr) (policy : verdict) : option verdict :=
  match run fuel t (default [] (t !! c)) with
  | Some (Some v) => Some v
  | Some None => Some policy
  | None => None
  end.

Lemma run_cons f t r rs :
  run (S f) t (r :: rs) =
    if fires r then
      match action_of t r.2 with
      | Decide v => Some (Some v)
      | Return => Some None
      | Call c => match run f t (default [] (t !! c)) with Some None => run (S f) t rs | x => x end
      | Go c => run f t (default [] (t !! c))
      | Continue => run (S f) t rs
      end
    else run (S f) t rs.
Proof. done. Qed.

(** *** Rules that cannot accept *)

(** No rule that fits accepts, and the chains called are like that, at most [n] deep. *)
Fixpoint calm (n : nat) (t : chainmap) (rs : list rule) : Prop :=
  Forall (fun r => fires r = true ->
    match action_of t r.2 with
    | Decide v => v = Drop
    | Return | Continue => True
    | Call c | Go c => match n with O => False | S n => calm n t (default [] (t !! c)) end
    end) rs.

Lemma calm_unfold n t rs :
  calm n t rs <-> Forall (fun r => fires r = true ->
    match action_of t r.2 with
    | Decide v => v = Drop
    | Return | Continue => True
    | Call c | Go c => match n with O => False | S n => calm n t (default [] (t !! c)) end
    end) rs.
Proof. by destruct n. Qed.

Lemma calm_run n : forall t rs, calm n t rs -> run (S n) t rs = Some None \/ run (S n) t rs = Some (Some Drop).
Proof.
  induction n as [|n IH]; intros t rs Hc; apply calm_unfold in Hc;
    (induction Hc as [|r rs Hr Hc IHrs]; [by left|]); rewrite run_cons; destruct (fires r); try done;
    specialize (Hr eq_refl); destruct (action_of t r.2) as [v| |c|c|]; subst; auto; try done.
  by destruct (IH _ _ Hr) as [E|E]; rewrite E; auto.
Qed.

(** A chain of such rules ends in its policy, or the packet is dropped in it. *)
Lemma calm_drops n t c : calm n t (default [] (t !! c)) -> traverse (S n) t c Drop = Some Drop.
Proof. intros H. unfold traverse. by destruct (calm_run n _ _ H) as [-> | ->]. Qed.

(** Rules that cannot accept, and behind them one that drops. *)
Lemma calm_before_drop n t c pre r post :
  t !! c = Some (pre ++ r :: post) -> calm n t pre -> fires r = true -> action_of t r.2 = Decide Drop ->
  traverse (S n) t c Drop = Some Drop.
Proof.
  intros Ht Hc Hf Ha. unfold traverse. rewrite Ht. cbn [default].
  assert (H : forall rs, calm n t rs ->
    run (S n) t (rs ++ r :: post) = Some None \/ run (S n) t (rs ++ r :: post) = Some (Some Drop)).
  { intros rs Hrs. apply calm_unfold in Hrs. induction Hrs as [|x rs Hx Hrs IH]; cbn [app]; rewrite run_cons.
    - rewrite Hf, Ha. by right.
    - destruct (fires x); [|done]. specialize (Hx eq_refl).
      destruct (action_of t x.2) as [v| |d|d|]; subst; auto; destruct n as [|n]; try done;
        destruct (calm_run n _ _ Hx) as [E|E]; rewrite E; auto. }
  destruct (H pre Hc) as [E|E]; unfold from_option, id; by rewrite E.
Qed.

End Run.

(** *** Where the rules of a chain come from *)

(** The rule that a line adds to a chain. *)
Definition adds (c : cstr) (r : rule) (l : line) : Prop :=
  match l with
  | Append d m tg | Insert d _ m tg => d = c /\ r = (m, tg)
  | _ => False
  end.

Lemma insert_at_in pos r rs rs' x : insert_at pos r rs = Some rs' -> x ∈ rs' -> x = r \/ x ∈ rs.
Proof.
  unfold insert_at. destruct pos as [n|].
  - case_if; [|done]. intros [= <-]. rewrite elem_of_app, elem_of_cons.
    intros [H|[H|H]]; [right|by left|right];
      rewrite <- (take_drop (Z.to_nat (n - 1)) rs); apply elem_of_app; auto.
  - intros [= <-]. rewrite elem_of_cons. tauto.
Qed.

Lemma load_line_origin b t l t' c rs' r :
  load_line b t l = Some t' -> t' !! c = Some rs' -> r ∈ rs' ->
  (exists rs, t !! c = Some rs /\ r ∈ rs) \/ adds c r l.
Proof.
  intros Hl Hc Hr. destruct l as [n|d p|d m tg|d pos m tg|d|d|]; simpl in Hl; try done.
  - destruct (in_list d b); [destruct (_ || _) in Hl; [|done]; injection Hl as <-; left; by exists rs'|].
    case_bool_decide; [done|]. injection Hl as <-. left.
    apply lookup_insert_Some in Hc as [[_ <-]|[_ Hc]]; [by apply elem_of_nil in Hr|by exists rs'].
  - destruct (t !! d) as [rs|] eqn:Ed; [|done]. destruct (target_ok t tg); [|done]. injection Hl as <-.
    apply lookup_insert_Some in Hc as [[-> <-]|[_ Hc]]; [|left; by exists rs'].
    apply elem_of_app in Hr as [Hr|Hr]; [left; by exists rs|]. apply list_elem_of_singleton in Hr. by right.
  - destruct (t !! d) as [rs|] eqn:Ed; [|done]. destruct (target_ok t tg); [|done].
    destruct (insert_at pos (m, tg) rs) as [rs1|] eqn:Ei; [|done]. injection Hl as <-.
    apply lookup_insert_Some in Hc as [[-> <-]|[_ Hc]]; [|left; by exists rs'].
    eapply insert_at_in in Ei as [->|Hin]; [by right|left; by exists rs|done].
  - case_bool_decide; [done|]. injection Hl as <-. left.
    apply lookup_insert_Some in Hc as [[_ <-]|[_ Hc]]; [by apply elem_of_nil in Hr|by exists rs'].
  - destruct (t !! d) as [[|x rs]|]; [|done|done]. destruct (in_list d b || referred t d); [done|]. injection Hl as <-. left.
    apply lookup_delete_Some in Hc as [_ Hc]. by exists rs'.
Qed.

Lemma load_origin b ls : forall t t' c rs' r,
  load b t ls = Some t' -> t' !! c = Some rs' -> r ∈ rs' ->
  (exists rs, t !! c = Some rs /\ r ∈ rs) \/ exists l, l ∈ ls /\ adds c r l.
Proof.
  induction ls as [|l ls IH]; intros t t' c rs' r Hl Hc Hr; simpl in Hl.
  { injection Hl as <-. left. by exists rs'. }
  destruct (load_line b t l) as [t1|] eqn:E1; [|done]. simpl in Hl.
  destruct (IH t1 t' c rs' r Hl Hc Hr) as [(rs & H1 & H2)|(l' & H1 & H2)].
  - destruct (load_line_origin _ _ _ _ _ _ _ E1 H1 H2) as [|H]; [by left|]. right. exists l. split; [by left|done].
  - right. exists l'. split; [by right|done].
Qed.

Lemma empty_table_nil b c rs : empty_table b !! c = Some rs -> rs = [].
Proof.
  unfold empty_table. intros H. apply elem_of_list_to_map_2 in H.
  apply list_elem_of_In, in_map_iff in H as (d & [= _ <-] & _). done.
Qed.

Lemma table_origin b ls t c r :
  load b (empty_table b) ls = Some t -> r ∈ default [] (t !! c) -> exists l, l ∈ ls /\ adds c r l.
Proof.
  intros Hl Hr. destruct (t !! c) as [rs|] eqn:Ec; [|by apply elem_of_nil in Hr].
  destruct (load_origin b ls _ _ _ _ _ Hl Ec Hr) as [(rs0 & H0 & Hin)|H]; [|done].
  apply empty_table_nil in H0 as ->. by apply elem_of_nil in Hin.
Qed.

(** *** The rules of a built-in chain in order *)

Definition appended (c : cstr) (ls : list line) : list rule :=
  omap (fun l => match l with Append d m tg => if strcmp_eq d c then Some (m, tg) else None | _ => None end) ls.

Definition inserted (c : cstr) (ls : list line) : list rule :=
  omap (fun l => match l with Insert d _ m tg => if strcmp_eq d c then Some (m, tg) else None | _ => None end) ls.

(** Insertions into the chain are at its head. *)
Definition at_head (c : cstr) (l : line) : Prop :=
  match l with Insert d (Some _) _ _ => d <> c | _ => True end.

Lemma omap_cons_eq {A B} (f : A -> option B) x l :
  omap f (x :: l) = match f x with Some y => y :: omap f l | None => omap f l end.
Proof. done. Qed.

Lemma strcmp_eq_true a b : strcmp_eq a b = true <-> a = b.
Proof. unfold strcmp_eq. apply bool_decide_eq_true. Qed.

Lemma strcmp_eq_refl a : strcmp_eq a a = true.
Proof. by apply strcmp_eq_true. Qed.

Lemma strcmp_neq a b : a <> b -> strcmp_eq a b = false.
Proof. intros H. by apply bool_decide_eq_false. Qed.

Lemma load_content b c ls : forall t t' rs,
  c ∈ b -> t !! c = Some rs -> Forall (at_head c) ls -> load b t ls = Some t' ->
  t' !! c = Some (List.rev (inserted c ls) ++ rs ++ appended c ls).
Proof.
  intros t t' rs Hb. revert t rs. assert (Hbt : in_list c b = true) by (by apply bool_decide_eq_true).
  induction ls as [|l ls IH]; intros t rs Ht Hf Hl; simpl in Hl.
  { injection Hl as <-. cbn. by rewrite app_nil_r. }
  apply Forall_cons in Hf as [Hh Hf]. destruct (load_line b t l) as [t1|] eqn:E1; [|done]. simpl in Hl.
  unfold inserted, appended. rewrite !omap_cons_eq. fold (inserted c ls) (appended c ls).
  destruct l as [n|d p|d m tg|d pos m tg|d|d|]; cbn [load_line] in E1; try done.
  - destruct (in_list d b) eqn:Ed; [destruct (_ || _) in E1; [|done]; injection E1 as <-; by apply IH with (t := t)|].
    case_bool_decide; [done|]. injection E1 as <-. apply IH with (t := <[d:=[]]> t); [|done|done].
    rewrite lookup_insert_ne; [done|]. intros ->. by rewrite Hbt in Ed.
  - destruct (t !! d) as [rsd|] eqn:Ed; [|done]. destruct (target_ok t tg); [|done]. injection E1 as <-.
    destruct (decide (d = c)) as [->|Hd].
    + rewrite strcmp_eq_refl. assert (rsd = rs) as -> by congruence.
      rewrite (IH _ (rs ++ [(m, tg)]) ltac:(apply lookup_insert_eq) Hf Hl). by rewrite <- (app_assoc rs).
    + rewrite strcmp_neq by done. apply IH with (t := <[d:=rsd ++ [(m, tg)]]> t); [|done|done].
      by rewrite lookup_insert_ne.
  - destruct (t !! d) as [rsd|] eqn:Ed; [|done]. destruct (target_ok t tg); [|done].
    destruct (decide (d = c)) as [->|Hd].
    + simpl in Hh. destruct pos as [n|]; [done|]. cbn in E1. injection E1 as <-.
      rewrite strcmp_eq_refl. assert (rsd = rs) as -> by congruence.
      rewrite (IH _ ((m, tg) :: rs) ltac:(apply lookup_insert_eq) Hf Hl).
      cbn [List.rev]. by rewrite <- (app_assoc (List.rev _)).
    + destruct (insert_at pos (m, tg) rsd) as [rs'|]; [|done]. injection E1 as <-.
      rewrite strcmp_neq by done. apply IH with (t := <[d:=rs']> t); [|done|done]. by rewrite lookup_insert_ne.
  - case_bool_decide as Hs; [done|]. injection E1 as <-. apply IH with (t := <[d:=[]]> t); [|done|done].
    rewrite lookup_insert_ne; [done|]. intros ->. apply Hs. by rewrite Ht.
  - destruct (t !! d) as [[|x rsd]|] eqn:Ed; [|done|done]. destruct (in_list d b) eqn:Eb; [done|].
    destruct (referred t d); [done|]. injection E1 as <-. apply IH with (t := delete d t); [|done|done].
    rewrite lookup_delete_ne; [done|]. intros ->. by rewrite Hbt in Eb.
Qed.

Lemma empty_table_builtin b c : c ∈ b -> empty_table b !! c = Some [].
Proof.
  intros Hc. destruct (empty_table b !! c) as [rs|] eqn:E; [by apply empty_table_nil in E as ->|].
  unfold empty_table in E. apply not_elem_of_list_to_map in E. exfalso. apply E.
  rewrite map_map. cbn [fst]. rewrite list_elem_of_In, in_map_iff. exists c. by rewrite <- list_elem_of_In.
Qed.

(** A name that no line declares is no chain. *)
Definition declares (c : cstr) (l : line) : Prop := match l with Chain d _ | NewChain d => d = c | _ => False end.

Lemma load_undeclared b c ls : forall t t',
  t !! c = None -> Forall (fun l => ~ declares c l) ls -> load b t ls = Some t' -> t' !! c = None.
Proof.
  induction ls as [|l ls IH]; intros t t' Ht Hf Hl; simpl in Hl; [by injection Hl as <-|].
  apply Forall_cons in Hf as [Hd Hf]. destruct (load_line b t l) as [t1|] eqn:E1; [|done]. simpl in Hl.
  apply (IH t1); [|done|done].
  destruct l as [n|d p|d m tg|d pos m tg|d|d|]; cbn [load_line declares] in E1, Hd; try done.
  - destruct (in_list d b); [destruct (_ || _) in E1; [|done]; by injection E1 as <-|]. case_bool_decide; [done|]. injection E1 as <-.
    by rewrite lookup_insert_ne.
  - destruct (t !! d) as [rs|] eqn:Ed; [|done]. destruct (target_ok t tg); [|done]. injection E1 as <-.
    rewrite lookup_insert_ne; [done|]. intros ->. by rewrite Ht in Ed.
  - destruct (t !! d) as [rs|] eqn:Ed; [|done]. destruct (target_ok t tg); [|done].
    destruct (insert_at pos (m, tg) rs) as [rs'|]; [|done]. injection E1 as <-.
    rewrite lookup_insert_ne; [done|]. intros ->. by rewrite Ht in Ed.
  - case_bool_decide; [done|]. injection E1 as <-. by rewrite lookup_insert_ne.
  - destruct (t !! d) as [[|x rs]|] eqn:Ed; [|done|done]. destruct (_ || _); [done|]. injection E1 as <-.
    apply lookup_delete_None. by right.
Qed.

(** Lines that add rules with known targets to chains that exist can be loaded. *)
Definition addable (t : chainmap) (l : line) : Prop :=
  match l with Append c _ tg => is_Some (t !! c) /\ target_ok t tg = true | _ => False end.

Lemma target_ok_mono t t' tg :
  (forall c, is_Some (t !! c) -> is_Some (t' !! c)) -> target_ok t tg = true -> target_ok t' tg = true.
Proof.
  intros H. unfold target_ok. destruct tg as [x|x|]; [|rewrite !bool_decide_eq_true; by apply H|done].
  rewrite !orb_true_iff, !bool_decide_eq_true. intros [?|?]; [by left|right; by apply H].
Qed.

Lemma load_appends b ls : forall t, Forall (addable t) ls ->
  exists t', load b t ls = Some t' /\ forall c, t' !! c = (fun rs => rs ++ appended c ls) <$> t !! c.
Proof.
  induction ls as [|l ls IH]; intros t Hf.
  { exists t. split; [done|]. intros c. destruct (t !! c); [|done]. cbn. by rewrite app_nil_r. }
  apply Forall_cons in Hf as [Hl Hf]. destruct l as [| |c m tg| | | |]; try done. destruct Hl as [[rs Hc] Ht].
  set (t1 := <[c := rs ++ [(m, tg)]]> t).
  assert (Hmono : forall d, is_Some (t !! d) -> is_Some (t1 !! d)).
  { intros d Hd. unfold t1. destruct (decide (c = d)) as [->|Hne]; [by rewrite lookup_insert_eq|].
    by rewrite lookup_insert_ne. }
  destruct (IH t1) as (t' & Hl & Hlook).
  { eapply Forall_impl; [exact Hf|]. intros [| |d m' tg'| | | |]; try done. intros [H1 H2].
    split; [by apply Hmono|by apply (target_ok_mono t)]. }
  exists t'. split; [cbn [load load_line]; by rewrite Hc, Ht|]. intros d. rewrite Hlook. unfold appended.
  rewrite omap_cons_eq. fold (appended d ls). unfold t1. destruct (decide (c = d)) as [->|Hne].
  - rewrite lookup_insert_eq, Hc, strcmp_eq_refl. cbn. by rewrite <- app_assoc.
  - rewrite lookup_insert_ne, strcmp_neq by done. done.
Qed.

(** The policy is DROP when a line says so and none says otherwise. *)
Lemma policy_drop c ls : Chain c !"DROP" ∈ ls -> Forall (fun l => l <> Chain c !"ACCEPT") ls -> chain_policy c ls = Drop.
Proof.
  intros Hin Hf. unfold chain_policy. assert (Hv : forall v, v = Drop \/ Chain c !"DROP" ∈ ls ->
    fold_left (fun v l => match l with Chain d p => if strcmp_eq d c then default v (policy_of p) else v | _ => v end) ls v = Drop);
    [|by apply Hv; right].
  clear Hin. induction Hf as [|l ls Hl _ IH]; intros v Hv; cbn [fold_left].
  { destruct Hv as [|Hv]; [done|by apply elem_of_nil in Hv]. }
  apply IH. destruct Hv as [->|[<-|Hv]%elem_of_cons]; [left| |by right].
  - destruct l as [|d p| | | | |]; try done. destruct (strcmp_eq d c) eqn:E; [|done]. apply strcmp_eq_true in E as ->.
    unfold policy_of. destruct (strcmp_eq p !"ACCEPT") eqn:Ep; [by apply strcmp_eq_true in Ep as ->|].
    by destruct (strcmp_eq p !"DROP").
  - left. by rewrite strcmp_eq_refl.
Qed.

(** *** All lines of a file *)

Section Each.
Context (P : line -> Prop).

Lemma each_app a b : Forall P (lines4 a) -> Forall P (lines4 b) -> Forall P (lines4 (a ++ b)).
Proof. rewrite lines4_app. apply Forall_app_2. Qed.

Lemma each_ipt ls : Forall P ls -> Forall P (lines4 (ipt_write ls)).
Proof. by rewrite lines4_ipt. Qed.

Lemma each_ip6t ls : Forall P (lines4 (ip6t_write ls)).
Proof. rewrite lines4_ip6t. constructor. Qed.

Lemma each_46 b ls : Forall P ls -> Forall P (lines4 (ip46t_write b ls)).
Proof. by rewrite lines4_46. Qed.

Lemma each_flagged b f ls :
  (negb (Z.land f IPT_V4 =? 0) = true -> Forall P ls) -> Forall P (lines4 (ip46t_flagged_write b f ls)).
Proof. rewrite lines4_flagged. destruct (negb _); [by auto|constructor]. Qed.

Lemma each_concat {A} (f : A -> list write) l :
  (forall x, x ∈ l -> Forall P (lines4 (f x))) -> Forall P (lines4 (concat (map f l))).
Proof.
  intros H. rewrite lines4_concat. apply Forall_concat, Forall_map, Forall_forall. auto.
Qed.

End Each.

Lemma each_line_concat {A B} (P : B -> Prop) (f : A -> list B) l :
  (forall x, x ∈ l -> Forall P (f x)) -> Forall P (concat (map f l)).
Proof. intros H. apply Forall_concat, Forall_map, Forall_forall. auto. Qed.

Lemma each_line_map {A B} (P : B -> Prop) (f : A -> B) l : (forall x, x ∈ l -> P (f x)) -> Forall P (map f l).
Proof. intros H. by apply Forall_map, Forall_forall. Qed.

(** A loaded table is that of its body. *)
Lemma load_table_body n b body t : load_table n b (Table n :: body ++ [Commit]) = Some t -> load b (empty_table b) body = Some t.
Proof.
  unfold load_table. rewrite List.rev_app_distr. cbn [List.rev app]. rewrite strcmp_eq_refl, List.rev_involutive. done.
Qed.

Lemma load_plain b ls t :
  Forall (fun l => forall c, c ∈ extensions -> ~ declares c l) ls -> (forall c, c ∈ extensions -> ~ c ∈ b) ->
  load b (empty_table b) ls = Some t -> forall c, c ∈ extensions -> t !! c = None.
Proof.
  intros Hf Hb Hl c Hc. apply (load_undeclared b c ls (empty_table b)); [|by eapply Forall_impl; [exact Hf|]; auto|done].
  apply not_elem_of_list_to_map. rewrite map_map, map_id. by apply Hb.
Qed.

(** *** Chains that cannot accept *)

Section Tame.
Context {pk : Packet} (rank : cstr -> nat) (Q : cstr -> bool).

(** Only [TRIGGER] decides by itself. *)
Class PacketLaws := { only_trigger : forall x, target_name x <> !"TRIGGER" -> decides x = None }.
Context {laws : PacketLaws}.

Definition drops : list cstr := map bytes ["DROP"; "REJECT"; "RETURN"]%string.

(** A target that does not accept and, if a chain, is one of those considered and deeper
    than the chain of the rule. *)
Definition tame (c x : cstr) : bool :=
  let n := target_name x in
  in_list n drops ||
  (negb (strcmp_eq n !"ACCEPT") && negb (strcmp_eq n !"TRIGGER") &&
   (in_list n extensions || (Q n && (rank n <? rank c)%nat))).

Definition tame_target (c : cstr) (tg : target) : bool :=
  match tg with Count => true | Jump x => tame c x | Goto x => Q (target_name x) && (rank (target_name x) <? rank c)%nat end.

Definition tame_line (l : line) : Prop :=
  match l with
  | Append c m tg | Insert c _ m tg => Q c = true -> fires (m, tg) = true -> tame_target c tg = true
  | _ => True
  end.

(** Extensions are not chains. *)
Definition plain_chains (t : chainmap) : Prop := forall c, c ∈ extensions -> t !! c = None.

Lemma tame_action t c tg :
  plain_chains t -> tame_target c tg = true ->
  match action_of t tg with
  | Decide v => v = Drop
  | Return | Continue => True
  | Call d | Go d => Q d = true /\ (rank d < rank c)%nat
  end.
Proof.
  intros Hp Ht. destruct tg as [x|x|]; cbn [action_of tame_target] in *; [|by propify|done].
  unfold tame in Ht. apply orb_true_iff in Ht as [Ht|Ht].
  - unfold in_list in Ht. apply bool_decide_eq_true in Ht. unfold drops in Ht. cbn [map] in Ht.
    rewrite !elem_of_cons, elem_of_nil in Ht. by destruct Ht as [->|[->|[->|[]]]].
  - apply andb_true_iff in Ht as [Ht Hq]. apply andb_true_iff in Ht as [Ha Hn].
    apply negb_true_iff in Ha, Hn. rewrite Ha. unfold strcmp_eq in Hn. apply bool_decide_eq_false in Hn.
    destruct (strcmp_eq _ !"DROP" || _); [done|]. destruct (strcmp_eq _ !"RETURN"); [done|].
    destruct (t !! target_name x) as [rs|] eqn:Et.
    + apply orb_true_iff in Hq as [Hq|Hq]; [|by propify]. exfalso.
      unfold in_list in Hq. apply bool_decide_eq_true in Hq. apply Hp in Hq. by rewrite Hq in Et.
    + by rewrite only_trigger.
Qed.

Lemma tame_calm b ls t :
  load b (empty_table b) ls = Some t -> plain_chains t -> Forall tame_line ls ->
  forall n c, Q c = true -> (rank c <= n)%nat -> calm n t (default [] (t !! c)).
Proof.
  intros Hl Hp Hf. induction n as [|n IH]; intros c Hq Hn; apply calm_unfold, Forall_forall;
    intros r Hr Hfire; destruct (table_origin b ls t c r Hl Hr) as (l & Hin & Ha);
    rewrite Forall_forall in Hf; specialize (Hf l Hin);
    (assert (Ht : tame_target c r.2 = true)
      by (destruct l; simpl in Ha, Hf; try done; destruct Ha as [-> ->]; by apply Hf));
    apply (tame_action t) in Ht; [|done| |done]; destruct (action_of t r.2); try done; destruct Ht; try lia;
    by apply IH; [|lia].
Qed.

(** Rules of a chain that calls only such chains. *)
Lemma tame_rules t c rs n :
  plain_chains t -> (forall n d, Q d = true -> (rank d <= n)%nat -> calm n t (default [] (t !! d))) ->
  Forall (fun r => fires r = true -> tame_target c r.2 = true) rs -> (rank c <= n)%nat -> calm n t rs.
Proof.
  intros Hp Hin Hf Hn. apply calm_unfold. eapply Forall_impl; [exact Hf|]. intros r Hr Hfire.
  specialize (tame_action t c r.2 Hp (Hr Hfire)) as Ha. destruct (action_of t r.2); try done;
    destruct Ha as [Hq Hd]; (destruct n as [|n]; [lia|]); apply Hin; [done|lia|done|lia].
Qed.

End Tame.

End RulesSpec.
