(* ===== verification/Ndpi.v ===== *)
(** The protocols that the nDPI match knows, and the rules that name them.

    - src/tomato64/package/libshared/shared/ndpi.c: the table that the kernel module
      publishes, the checks of a stored list of protocols, and the renaming of protocols
      in the stored rules ([ndpi_migrate_rules]);
    - src/tomato64/package/rc/rc/firewall.c: the options of the match ([ipt_ndpi],
      [ipt_ndpi_host], [ipt_ndpi_inprogress]).

    The file of the kernel is read through [Links]; the cached table is that of its
    first reading. Allocation does not fail. *)

From Stdlib Require Import ZArith Lia.
From stdpp Require Import base list strings.
From S2P Require Import Prelude Scan Nvram Wan BuildConfig Defaults SaveVars Rules.

Local Open Scope Z_scope.
Local Open Scope rule_scope.

Module Ndpi.
Import Scan Nvram Wan BuildConfig Defaults SaveVars Rules.

Definition NDPI_PROTO_PATH : cstr := !"/proc/net/xt_ndpi/proto".
Definition NDPI_PROTO_MAX : nat := 1024.
Definition NDPI_NAME_SIZE : nat := 32.
Definition NDPI_HOSTNAME_MAX : nat := 128.
Definition NDPI_HOST_PROTOCOLS : cstr := !"tls,quic,http,dns".
Definition NDPI_MAX_NRULES : nat := 50.

Definition strcasecmp_eq (a b : cstr) : bool := bool_decide (map tolower a = map tolower b).

(** ** The table *)

(** The strings that [fgets] reads from a file with a buffer of [room + 1] bytes, [cur]
    being what the buffer holds, last character first. *)
Fixpoint fgets_all (size room : nat) (cur : cstr) (text : list Z) : list cstr :=
  match text with
  | [] => match cur with [] => [] | _ => [until_nul (List.rev cur)] end
  | c :: text =>
      match room with
      | S (S room) =>
          if c =? 10 then until_nul (List.rev (c :: cur)) :: fgets_all size size [] text
          else fgets_all size (S room) (c :: cur) text
      | _ => until_nul (List.rev (c :: cur)) :: fgets_all size size [] text
      end
  end.

Definition is_line_end (c : Z) : bool := (c =? 10) || (c =? 13) || (c =? 32).

(** Whether a line ends in the flag of a dissector. *)
Definition ndpi_line_dissector (line : cstr) : bool :=
  let t := List.rev (skip_while is_line_end (List.rev line)) in
  (4 <=? length t)%nat && strcmp_eq (drop (length t - 4) t) !" dpi".

(** The conversion [%31s]. *)
Definition scan_word (s : cstr) : option (cstr * cstr) :=
  let s := skip_while isspace s in
  let w := take (NDPI_NAME_SIZE - 1) (take_until isspace s) in
  match w with [] => None | _ => Some (w, drop (length w) s) end.

(** [sscanf] with ["%x %31s %31s"]: the two words. *)
Definition table_entry (buf : cstr) : option (cstr * cstr) :=
  match scan_xw 64 buf with
  | None => None
  | Some (_, rest) =>
      match scan_word rest with
      | None => None
      | Some (mark, rest) => match scan_word rest with Some (name, _) => Some (mark, name) | None => None end
      end
  end.

(** The loop over the lines: whether the header was seen, and the entries so far. *)
Fixpoint load_lines (lines : list cstr) (hdr : bool) (l : list (cstr * bool)) : bool * list (cstr * bool) :=
  match lines with
  | [] => (hdr, l)
  | buf :: lines =>
      if char_at buf 0 =? chr "#" then
        load_lines lines (hdr || bool_decide (is_Some (strstr buf !"#version"))) l
      else
        match table_entry buf with
        | None => load_lines lines hdr l
        | Some (mark, name) =>
            if prefix_of_str !"disable" mark then load_lines lines hdr l
            else if (NDPI_PROTO_MAX <=? length l)%nat then (hdr, l)
            else load_lines lines hdr (l ++ [(name, ndpi_line_dissector buf)])
        end
  end.

Section Table.
Context {links : Links}.

(** The protocols with their flags, or none when the file cannot be used. *)
Definition ndpi_proto_load : option (list (cstr * bool)) :=
  match file_contents NDPI_PROTO_PATH with
  | None => None
  | Some text =>
      match load_lines (fgets_all 191 191 [] text) false [] with
      | (true, (_ :: _) as l) => Some l
      | _ => None
      end
  end.

(** 1 for a protocol of the table, 0 for another, -1 when there is no table. *)
Definition ndpi_proto_valid (name : cstr) : Z :=
  match name, ndpi_proto_load with
  | [], _ | _, None => -1
  | _, Some l => if existsb (fun e => strcasecmp_eq e.1 name) l then 1 else 0
  end.

Definition ndpi_proto_dissector (name : cstr) : Z :=
  match name, ndpi_proto_load with
  | [], _ | _, None => -1
  | _, Some l =>
      match List.find (fun e => strcasecmp_eq e.1 name) l with
      | Some e => if e.2 : bool then 1 else 0
      | None => 0
      end
  end.

(** ** Stored lists of protocols *)

Definition without_dash (n : cstr) : cstr := if char_at n 0 =? chr "-" then drop 1 n else n.

Fixpoint list_valid (names : list cstr) : bool :=
  match names with
  | [] => true
  | n :: names =>
      let n := without_dash n in
      if (char_at n 0 =? 0) || strcmp_eq n !"all" then list_valid names
      else
        let r := ndpi_proto_valid n in
        if r <? 0 then true else if r =? 0 then false else list_valid names
  end.

(** Whether the match accepts the value; a value is cut to 255 characters. *)
Definition ndpi_proto_list_valid (v : cstr) : bool := list_valid (strsep (chr ",") (strlcpy 256 v)).

Fixpoint list_dissector (names : list cstr) : bool :=
  match names with
  | [] => true
  | n :: names =>
      if char_at n 0 =? 0 then list_dissector names
      else if (char_at n 0 =? chr "-") || strcmp_eq n !"all" then false
      else if ndpi_proto_dissector n <=? 0 then false else list_dissector names
  end.

Definition ndpi_proto_list_dissector (v : cstr) : bool :=
  list_dissector (strsep (chr ",") (strlcpy 256 v)).

(** ** Options of the match *)

(** [ipt_ndpi]: -1 for an unusable protocol, 0 for none, 1 with the option. *)
Definition ipt_ndpi (v : cstr) (buf_sz : nat) : Z * cstr :=
  if char_at v 0 =? 0 then (0, [])
  else if negb (ndpi_proto_list_valid v) then (-1, [])
  else (1, snprintf buf_sz (!" -m ndpi --proto " ++ v)).

(** The options remembered for inbound packets: at most 50, each once. *)
Definition ndpi_remember (on : bool) (seen : list cstr) (opt : cstr) : list cstr :=
  if negb on || existsb (strcmp_eq opt) seen || (50 <=? length seen)%nat then seen else seen ++ [opt].

Definition host_char_bad (c : Z) : bool :=
  (c <=? 32) || (126 <? c) || (c =? 34) || (c =? 39) || (c =? 92)
  || (c =? chr "<") || (c =? chr ">") || (c =? chr "|").

(** [ipt_ndpi_host]: the narrowed option, or the option as it was. *)
Definition ipt_ndpi_host (v opt : cstr) (buf_sz : nat) : Z * cstr :=
  if (char_at v 0 =? 0) || (char_at opt 0 =? 0) then (0, opt)
  else if (NDPI_HOSTNAME_MAX <=? length v)%nat then (0, opt)
  else if existsb host_char_bad v then (0, opt)
  else
    let new := opt ++ !" --host " ++ v in
    if (buf_sz <=? length new)%nat then (0, opt) else (1, new).

(** The protocols that carry a name, as far as the table has them. *)
Fixpoint host_protocols (names : list cstr) (out : cstr) : cstr :=
  match names with
  | [] => out
  | n :: names =>
      if ndpi_proto_dissector n =? 1
      then host_protocols names (match out with [] => n | _ => out ++ chr "," :: n end)
      else host_protocols names out
  end.

Definition ndpi_host_protocols : cstr := host_protocols (strsep (chr ",") NDPI_HOST_PROTOCOLS) [].

(** [ipt_ndpi_inprogress]: the option for flows that are not classified yet, if any. *)
Definition ipt_ndpi_inprogress (v : cstr) (buf_sz : nat) : cstr :=
  let v := if strcmp_eq v !"all" then ndpi_host_protocols else v in
  if char_at v 0 =? 0 then []
  else if negb (ndpi_proto_list_dissector v) then []
  else
    let new := !" -m ndpi --inprogress " ++ v in
    if (buf_sz <=? length new)%nat then [] else new.

(** ** Renamed protocols *)

Definition ndpi_renamed : list (cstr * cstr) :=
  [(!"skype_teams", !"teams"); (!"skype_teamscall", !"teamscall")].

(** The first entry with the name decides. *)
Definition ndpi_rename_of (name : cstr) : option cstr :=
  match List.find (fun e => strcasecmp_eq name e.1) ndpi_renamed with
  | Some (old, new) =>
      if (ndpi_proto_valid old =? 0) && (ndpi_proto_valid new =? 1) then Some new else None
  | None => None
  end.

Definition ends_field (c : Z) : bool := (c =? chr "<") || (c =? chr ">").

(** [ndpi_rename_field]: what it writes to [dst] and whether something was rewritten;
    none when it gives up for want of room. [idx] is the index of the field. *)
Fixpoint rename_loop (fuel : nat) (dst_sz : nat) (dst p : cstr) (idx field : Z) (changed : bool)
  : option (bool * cstr) :=
  match fuel with
  | O => None
  | S fuel =>
      match p with
      | [] => Some (changed, dst)
      | _ =>
          let '(r, p, changed) :=
            if idx =? field then
              let name := take_until ends_field p in
              let rest := drop (length name) p in
              match (if (64 <=? length name)%nat then None else ndpi_rename_of name) with
              | Some new => (Some new, rest, true)
              | None => (Some name, rest, changed)
              end
            else (None, p, changed) in
          if match r with Some r => (dst_sz <=? length dst + length r)%nat | None => false end then None
          else
            let dst := dst ++ default [] r in
            match p with
            | [] => Some (changed, dst)
            | c :: p =>
                let idx := if c =? chr "<" then idx + 1 else if c =? chr ">" then 0 else idx in
                if (dst_sz <=? length dst + 1)%nat then None
                else rename_loop fuel dst_sz (dst ++ [c]) p idx field changed
            end
      end
  end.

Definition ndpi_rename_field (dst_sz : nat) (src : cstr) (field : Z) : bool * cstr :=
  match rename_loop (S (length src)) dst_sz [] src 0 field false with
  | Some r => r
  | None => (false, [])
  end.

End Table.

Section Migrate.
Context {links : Links} {st : Store}.

Definition ndpi_migrate_qos (s : store) : bool * store :=
  match get s !"qos_orules" with
  | None | Some [] => (false, s)
  | Some src =>
      let '(changed, dst) := ndpi_rename_field (length src * 2 + 1) src 5 in
      (changed, if changed then nvram_set s !"qos_orules" dst else s)
  end.

(** The text behind the first [n] bars. *)
Fixpoint after_bars (n : nat) (s : cstr) : option cstr :=
  match n with
  | O => Some s
  | S n => match strchr s (chr "|") with None => None | Some i => after_bars n (drop (S i) s) end
  end.

Definition ndpi_migrate_rrule (s : store) (name : cstr) : bool * store :=
  match get s name with
  | None | Some [] => (false, s)
  | Some src =>
      match after_bars 5 src with
      | None => (false, s)
      | Some head =>
          match strchr head (chr "|") with
          | None => (false, s)
          | Some n =>
              let old := take n head in
              let '(changed, new) := ndpi_rename_field (n * 2 + 1) old 3 in
              if changed
              then (true, nvram_set s name (take (length src - length head) src ++ new ++ drop n head))
              else (false, s)
          end
      end
  end.

Fixpoint migrate_rrules (s : store) (n : Z) (k : nat) (dirty : bool) : bool * store :=
  match k with
  | O => (dirty, s)
  | S k =>
      let '(d, s) := ndpi_migrate_rrule s (rrule n) in
      migrate_rrules s (n + 1) k (dirty || d)
  end.

(** Whether a stored rule mentions a name that was renamed. *)
Definition mentions_renamed (s : store) : bool :=
  existsb (fun e =>
    existsb (fun name => match get s name with Some v => bool_decide (is_Some (strstr v e.1)) | None => false end)
      (!"qos_orules" :: map (fun n => rrule (Z.of_nat n)) (seq 0 NDPI_MAX_NRULES)))
    ndpi_renamed.

(** The new store and whether it is committed. *)
Definition ndpi_migrate_rules (s : store) : bool * store :=
  if negb (mentions_renamed s) then (false, s)
  else
    let '(dirty, s) := ndpi_migrate_qos s in
    migrate_rrules s 0 NDPI_MAX_NRULES dirty.

End Migrate.

End Ndpi.
