(* ===== verification/NdpiSpec.v ===== *)
(** The renaming of protocols touches one field of the stored rules and nothing else, and
    a host name cannot leave its place in a rule. *)

From Stdlib Require Import ZArith Lia.
From stdpp Require Import base list strings gmap.
From S2P Require Import Prelude Scan Nvram Wan BuildConfig Defaults DefaultsSpec SaveVars Rules Ndpi.

Local Open Scope Z_scope.
Local Open Scope rule_scope.

Module NdpiSpec.
Import Scan Nvram Wan BuildConfig Defaults DefaultsSpec SaveVars Rules Ndpi.

(** ** Fields *)

(** A list with its element [i] replaced. *)
Definition at_index {A} (i : Z) (f : A -> A) (l : list A) : list A :=
  if i <? 0 then l else alter f (Z.to_nat i) l.

Section Rename.
Context {links : Links}.

Definition rename_name (name : cstr) : cstr :=
  if (64 <=? length name)%nat then name else default name (ndpi_rename_of name).

(** What renaming a field should do: in every record of the value, that field and no
    other. *)
Definition renamed (field : Z) (src : cstr) : cstr :=
  join (chr ">")
    (map (fun r => join (chr "<") (at_index field rename_name (strsep (chr "<") r))) (strsep (chr ">") src)).

Lemma rename_of_shorter name new : ndpi_rename_of name = Some new -> (length new < length name)%nat.
Proof.
  unfold ndpi_rename_of. destruct (List.find _ _) as [[old new']|] eqn:Ef; [|done].
  apply List.find_some in Ef as [Hin He]. simpl in He.
  assert (Hl : length name = length old).
  { unfold strcasecmp_eq in He. apply bool_decide_eq_true in He.
    apply (f_equal length) in He. by rewrite !length_map in He. }
  case_if; [|done]. intros [= <-]. rewrite Hl.
  destruct Hin as [[= <- <-]|[[= <- <-]|[]]]; vm_compute; lia.
Qed.

Lemma rename_name_length name : (length (rename_name name) <= length name)%nat.
Proof.
  unfold rename_name. case_if; [done|]. destruct (ndpi_rename_of name) eqn:Er; [|done].
  apply rename_of_shorter in Er. simpl. lia.
Qed.

Lemma take_until_rest P s : s = take_until P s ++ drop (length (take_until P s)) s.
Proof.
  induction s as [|c s IH]; [done|]. simpl. destruct (P c); [done|]. simpl. by f_equal.
Qed.

Lemma take_until_no P s : Forall (fun c => P c = false) (take_until P s).
Proof. induction s as [|c s IH]; [constructor|]. simpl. destruct (P c) eqn:E; by constructor. Qed.

Lemma take_until_stops P s c t : drop (length (take_until P s)) s = c :: t -> P c = true.
Proof. induction s as [|d s IH]; [done|]. simpl. destruct (P d) eqn:E; [by intros [= <- _]|done]. Qed.

(** The value from a field with the index [idx] on, renamed field by field. *)
Fixpoint rename_rest (fuel : nat) (p : cstr) (idx field : Z) : cstr :=
  match fuel with
  | O => []
  | S fuel =>
      let f := take_until ends_field p in
      (if idx =? field then rename_name f else f) ++
      match drop (length f) p with
      | [] => []
      | c :: p => c :: rename_rest fuel p (if c =? chr "<" then idx + 1 else 0) field
      end
  end.

Lemma rename_rest_S fuel p idx field :
  rename_rest (S fuel) p idx field =
    let f := take_until ends_field p in
    (if idx =? field then rename_name f else f) ++
    match drop (length f) p with
    | [] => []
    | c :: p => c :: rename_rest fuel p (if c =? chr "<" then idx + 1 else 0) field
    end.
Proof. done. Qed.

(** Characters of another field are copied. *)
Lemma copy_field f : forall fuel dst_sz dst p idx field ch,
  idx <> field -> Forall (fun c => ends_field c = false) f ->
  (length dst + length f < dst_sz)%nat ->
  rename_loop (length f + fuel) dst_sz dst (f ++ p) idx field ch =
  rename_loop fuel dst_sz (dst ++ f) p idx field ch.
Proof.
  induction f as [|c f IH]; intros fuel dst_sz dst p idx field ch Hi Hf Hl; [by rewrite app_nil_r|].
  apply Forall_cons in Hf as [Hc Hf]. unfold ends_field in Hc. propify. simpl in Hl.
  cbn [length app Nat.add rename_loop]. rewrite (proj2 (Z.eqb_neq idx field)) by done.
  change (default [] None) with (@nil Z). rewrite app_nil_r, (proj2 (Z.eqb_neq c (chr "<"))), (proj2 (Z.eqb_neq c (chr ">"))) by done.
  rewrite (proj2 (Nat.leb_gt _ _)) by lia.
  rewrite IH; [by rewrite <- app_assoc|done|done|rewrite length_app; simpl; lia].
Qed.

Definition renames (ch : bool) (name : cstr) : bool :=
  match (if (64 <=? length name)%nat then None else ndpi_rename_of name) with Some _ => true | None => ch end.

Lemma rename_loop_spec n : forall p dst_sz dst idx field ch fuel,
  (length p <= n)%nat -> (length p < fuel)%nat -> (length dst + length p < dst_sz)%nat ->
  exists ch', rename_loop fuel dst_sz dst p idx field ch = Some (ch', dst ++ rename_rest (S n) p idx field) /\
    (ch = true -> ch' = true) /\ (ch' = false -> rename_rest (S n) p idx field = p) /\
    (ch' = true -> ch = true \/ (length (rename_rest (S n) p idx field) < length p)%nat) /\
    (length (rename_rest (S n) p idx field) <= length p)%nat.
Proof.
  induction n as [|n IH]; intros p dst_sz dst idx field ch fuel Hn Hf Hl.
  { destruct p; [|simpl in Hn; lia]. destruct fuel; [simpl in Hf; lia|].
    assert (E : rename_rest 1 [] idx field = []) by (simpl; by case_if).
    rewrite E, app_nil_r. exists ch. simpl. split_and!; auto. }
  destruct (decide (p = [])) as [->|Hne].
  { destruct fuel; [simpl in Hf; lia|].
    assert (E : rename_rest (S (S n)) [] idx field = []) by (simpl; by case_if).
    rewrite E, app_nil_r. exists ch. simpl. split_and!; auto. }
  rewrite !(rename_rest_S (S n)). cbv zeta. set (f := take_until ends_field p). set (rest := drop (length f) p).
  assert (Ep : p = f ++ rest) by apply take_until_rest.
  assert (Elen : length p = (length f + length rest)%nat) by (rewrite Ep at 1; apply length_app).
  assert (Hplain : Forall (fun c => ends_field c = false) f) by apply take_until_no.
  assert (Hstop : forall c t, rest = c :: t -> ends_field c = true) by apply take_until_stops.
  assert (Hsep : forall c, ends_field c = true -> forall i,
    (if c =? chr "<" then i + 1 else if c =? chr ">" then 0 else i) = if c =? chr "<" then i + 1 else 0).
  { intros c Hc i. unfold ends_field in Hc. destruct (c =? chr "<"); [done|]. cbn [orb] in Hc. by rewrite Hc. }
  set (out := if idx =? field then rename_name f else f).
  assert (Hout : (length out <= length f)%nat) by (unfold out; case_if; [apply rename_name_length|done]).
  set (ch1 := if idx =? field then renames ch f else ch).
  assert (Hch1 : (ch = true -> ch1 = true) /\ (ch1 = false -> out = f) /\
    (ch1 = true -> ch = true \/ (length out < length f)%nat)).
  { unfold ch1, out, renames, rename_name. case_if; [|by split_and!; auto]. case_if; [by split_and!; auto|].
    destruct (ndpi_rename_of f) as [new|] eqn:Er; [|by split_and!; auto].
    apply rename_of_shorter in Er. split_and!; auto; done. }
  assert (Hstep : rename_loop fuel dst_sz dst p idx field ch =
    match rest with
    | [] => Some (ch1, dst ++ out)
    | c :: rest' => rename_loop (fuel - S (if idx =? field then 0 else length f)) dst_sz (dst ++ out ++ [c]) rest'
                      (if c =? chr "<" then idx + 1 else 0) field ch1
    end).
  { unfold out, ch1. destruct (idx =? field) eqn:Ei.
    - destruct fuel as [|fuel]; [lia|]. cbn [rename_loop]. destruct p as [|p0 p']; [done|].
      rewrite Ei. fold f. set (p1 := p0 :: p') in *. change (take_until ends_field p1) with f.
      change (drop (length f) p1) with rest. clearbody p1. unfold renames, rename_name.
      assert (Hcase : exists r, (length r <= length f)%nat /\ (if (64 <=? length f)%nat then f else default f (ndpi_rename_of f)) = r /\
        match (if (64 <=? length f)%nat then None else ndpi_rename_of f) with
        | Some new => (Some new, rest, true) | None => (Some f, rest, ch) end =
        (Some r, rest, match (if (64 <=? length f)%nat then None else ndpi_rename_of f) with Some _ => true | None => ch end)).
      { case_if; [by exists f|]. destruct (ndpi_rename_of f) as [new|] eqn:Er; [|by exists f].
        apply rename_of_shorter in Er. exists new. split; [lia|done]. }
      destruct Hcase as (r & Hr & Er & ->). rewrite Er. rewrite (proj2 (Nat.leb_gt dst_sz _)) by lia.
      change (default [] (Some r)) with r. destruct rest as [|c rest'] eqn:Erest; [done|].
      rewrite Hsep by (by eapply Hstop).
      rewrite (proj2 (Nat.leb_gt dst_sz _)) by (rewrite length_app; simpl in Elen; lia).
      rewrite <- app_assoc. by rewrite Nat.sub_1_r.
    - apply Z.eqb_neq in Ei. rewrite Ep at 1.
      replace fuel with (length f + (fuel - length f))%nat by lia.
      rewrite copy_field by (done || lia).
      destruct (fuel - length f)%nat as [|k] eqn:Ek; [lia|]. cbn [rename_loop].
      destruct rest as [|c rest'] eqn:Erest; [done|].
      rewrite (proj2 (Z.eqb_neq _ _) Ei). change (default [] None) with (@nil Z). rewrite app_nil_r, Hsep by (by eapply Hstop).
      rewrite (proj2 (Nat.leb_gt dst_sz _)) by (rewrite length_app; simpl in Elen; lia).
      rewrite <- app_assoc. f_equal. lia. }
  rewrite Hstep. destruct rest as [|c rest'] eqn:Erest.
  { exists ch1. simpl in Elen. rewrite app_nil_r. split; [done|]. destruct Hch1 as (H1 & H2 & H3).
    split_and!; [done| |intros H; destruct (H3 H); [by left|right; lia]|lia].
    intros H. rewrite H2, Ep by done. by rewrite app_nil_r. }
  simpl in Elen.
  destruct (IH rest' dst_sz (dst ++ out ++ [c]) (if c =? chr "<" then idx + 1 else 0) field ch1
    (fuel - S (if (idx =? field)%Z then 0 else length f))%nat) as (ch' & -> & H1 & H2 & H3 & H4).
  { lia. } { destruct (idx =? field); lia. } { rewrite !length_app. simpl. lia. }
  exists ch'. destruct Hch1 as (G1 & G2 & G3).
  split; [by rewrite <- !app_assoc|]. rewrite length_app. cbn [length].
  split_and!; [auto| | |lia].
  - intros H. assert (ch1 = false) by (destruct ch1; [by rewrite H1 in H|done]).
    by rewrite G2, H2, Ep by done.
  - intros H. destruct (H3 H) as [E|]; [|right; lia]. destruct (G3 E); [by left|right; lia].
Qed.

(** *** Records *)

Lemma at_index_cons {A} i (f : A -> A) x l :
  at_index i f (x :: l) = (if i =? 0 then f x else x) :: at_index (i - 1) f l.
Proof.
  unfold at_index. destruct (Z.lt_trichotomy i 0) as [H|[->|H]].
  - rewrite (proj2 (Z.ltb_lt _ _)), (proj2 (Z.ltb_lt (i - 1) 0)), (proj2 (Z.eqb_neq _ _)) by lia. done.
  - done.
  - rewrite (proj2 (Z.ltb_ge _ _)), (proj2 (Z.ltb_ge (i - 1) 0)), (proj2 (Z.eqb_neq _ _)) by lia.
    replace (Z.to_nat i) with (S (Z.to_nat (i - 1))) by lia. done.
Qed.

Lemma at_index_nil {A} i (f : A -> A) : at_index i f [] = [].
Proof. unfold at_index. by case_if. Qed.

Lemma strsep_cons sep s : exists p ps, strsep sep s = p :: ps.
Proof. destruct (strsep sep s) as [|p ps] eqn:E; [by apply strsep_nonempty in E|by exists p, ps]. Qed.

Lemma at_index_nonempty {A} i (f : A -> A) l : l <> [] -> at_index i f l <> [].
Proof. destruct l; [done|]. by rewrite at_index_cons. Qed.

Definition rename_record (field : Z) (r : cstr) : cstr :=
  join (chr "<") (at_index field rename_name (strsep (chr "<") r)).

Lemma no_sep c f : Forall (fun c => ends_field c = false) f -> ends_field c = true -> ~ c ∈ f.
Proof. intros Hf Hc Hin. rewrite Forall_forall in Hf. apply Hf in Hin. congruence. Qed.

Lemma rename_rest_records n : forall p idx field,
  (length p <= n)%nat -> 0 <= idx ->
  rename_rest (S n) p idx field =
    match strsep (chr ">") p with
    | r :: rs => join (chr ">") (rename_record (field - idx) r :: map (rename_record field) rs)
    | [] => []
    end.
Proof.
  induction n as [|n IH]; intros p idx field Hn Hi;
    rewrite rename_rest_S; cbv zeta; set (f := take_until ends_field p); set (rest := drop (length f) p);
    (assert (Ep : p = f ++ rest) by apply take_until_rest);
    (assert (Elen : length p = (length f + length rest)%nat) by (rewrite Ep at 1; apply length_app));
    (assert (Hplain : Forall (fun c => ends_field c = false) f) by apply take_until_no);
    (assert (Hstop : forall c t, rest = c :: t -> ends_field c = true) by apply take_until_stops);
    (assert (Hgt : ~ chr ">" ∈ f) by (by apply no_sep)); (assert (Hlt : ~ chr "<" ∈ f) by (by apply no_sep));
    (assert (Hlast : rest = [] -> match strsep (chr ">") p with
      | r :: rs => join (chr ">") (rename_record (field - idx) r :: map (rename_record field) rs) | [] => [] end =
      if idx =? field then rename_name f else f) by
     (intros E; rewrite Ep, E, app_nil_r, strsep_plain by done; unfold rename_record; cbn [map join];
      rewrite strsep_plain by done; rewrite at_index_cons, at_index_nil; cbn [join];
      destruct (Z.eqb_spec idx field), (Z.eqb_spec (field - idx) 0); (done || lia))).
  { destruct rest as [|c t]; [|simpl in Elen; lia]. by rewrite Hlast, app_nil_r. }
  destruct rest as [|c t] eqn:Erest; [by rewrite Hlast, app_nil_r|]. simpl in Elen.
  destruct (strsep_cons (chr ">") t) as (r & rs & Et). specialize (Hstop c t eq_refl).
  unfold ends_field in Hstop.
  destruct (Z.eqb_spec c (chr "<")) as [->|Hc].
  - rewrite (IH t) by lia. rewrite Et, Ep.
    assert (E : strsep (chr ">") (f ++ chr "<" :: t) = (f ++ chr "<" :: r) :: rs).
    { clear -Hgt Et. induction f as [|c f IHf]; cbn [strsep app].
      - change (chr "<" =? chr ">") with false. by rewrite Et.
      - rewrite not_elem_of_cons in Hgt. destruct Hgt as [Hc Hgt].
        rewrite (proj2 (Z.eqb_neq _ _)) by auto. by rewrite IHf. }
    rewrite E. unfold rename_record at 3. rewrite strsep_app by done. rewrite at_index_cons.
    destruct (strsep_cons (chr "<") r) as (g & gs & Er).
    assert (Hne : at_index (field - idx - 1) rename_name (strsep (chr "<") r) <> [])
      by (apply at_index_nonempty; rewrite Er; done).
    rewrite (join_two (chr "<")) by done.
    replace (field - (idx + 1)) with (field - idx - 1) by lia. fold (rename_record (field - idx - 1) r).
    replace (field - idx =? 0) with (idx =? field)
      by (destruct (Z.eqb_spec idx field), (Z.eqb_spec (field - idx) 0); (done || lia)).
    destruct rs as [|q qs]; cbn [map]; [cbn [join]; done|].
    rewrite (join_two (chr ">") (rename_record (field - idx - 1) r)) by done.
    rewrite (join_two (chr ">") ((if idx =? field then rename_name f else f) ++ _)) by done.
    by rewrite <- app_assoc.
  - destruct (Z.eqb_spec c (chr ">")) as [->|]; [|done].
    rewrite (IH t) by lia. rewrite Ep, strsep_app, Et by done. cbn [map].
    rewrite (join_two (chr ">") (rename_record (field - idx) f)) by done.
    rewrite Z.sub_0_r. f_equal.
    unfold rename_record. rewrite strsep_plain, at_index_cons, at_index_nil by done. cbn [join].
    destruct (Z.eqb_spec idx field), (Z.eqb_spec (field - idx) 0); (done || lia).
Qed.

Lemma renamed_rest field src : 0 <= field -> renamed field src = rename_rest (S (length src)) src 0 field.
Proof.
  intros Hf. rewrite rename_rest_records by lia. unfold renamed.
  destruct (strsep (chr ">") src) as [|r rs] eqn:E; [by apply strsep_nonempty in E|]. by rewrite Z.sub_0_r.
Qed.

(** A renaming with the room that the callers give it. *)
Lemma rename_field_spec field src dst_sz :
  0 <= field -> (length src < dst_sz)%nat ->
  ndpi_rename_field dst_sz src field = (negb (bool_decide (renamed field src = src)), renamed field src).
Proof.
  intros Hf Hsz. unfold ndpi_rename_field.
  destruct (rename_loop_spec (length src) src dst_sz [] 0 field false (S (length src)))
    as (ch & -> & _ & H2 & H3 & _); [lia|lia|simpl; lia|].
  cbn [app] in *. rewrite renamed_rest by done. f_equal. destruct ch.
  - destruct (H3 eq_refl) as [|Hl]; [done|]. by rewrite bool_decide_eq_false_2 by (intros E; rewrite E in Hl; lia).
  - by rewrite bool_decide_eq_true_2 by auto.
Qed.

End Rename.
(** ** Rules *)

Section Rules.
Context {links : Links} {st : Store} {laws : StoreLaws}.

Lemma strchr_strsep s sep :
  match strchr s sep with
  | Some i => exists p, s = p ++ sep :: drop (S i) s /\ length p = i /\ strsep sep s = p :: strsep sep (drop (S i) s)
  | None => strsep sep s = [s]
  end.
Proof.
  induction s as [|c s IH]; [done|]. cbn [strchr strsep]. destruct (Z.eqb_spec c sep) as [->|Hc].
  - by exists [].
  - destruct (strchr s sep) as [i|].
    + destruct IH as (p & E & Hl & Es). exists (c :: p). cbn [app length drop]. rewrite Es.
      split; [by f_equal|]. split; [by f_equal|done].
    + by rewrite IH.
Qed.

(** What stands before the [n]-th bar, with that bar. *)
Definition bars (ps : list cstr) : cstr := concat (map (fun p => p ++ [chr "|"]) ps).

Lemma after_bars_spec n : forall s,
  match after_bars n s with
  | Some head => exists ps, length ps = n /\ s = bars ps ++ head /\
      strsep (chr "|") s = ps ++ strsep (chr "|") head
  | None => (length (strsep (chr "|") s) <= n)%nat
  end.
Proof.
  induction n as [|n IH]; intros s; [by exists []|]. cbn [after_bars].
  pose proof (strchr_strsep s (chr "|")) as H. destruct (strchr s (chr "|")) as [i|].
  - destruct H as (p & E & _ & Es). specialize (IH (drop (S i) s)).
    destruct (after_bars n (drop (S i) s)) as [head|].
    + destruct IH as (ps & Hl & Et & Ess). exists (p :: ps). split; [simpl; lia|].
      split; [rewrite E at 1; rewrite Et; unfold bars; cbn [map concat]; by rewrite <- !app_assoc|].
      by rewrite Es, Ess.
    + rewrite Es. cbn [length]. lia.
  - rewrite H. cbn [length]. lia.
Qed.

Lemma join_bars ps q qs :
  qs <> [] -> join (chr "|") (ps ++ q :: qs) = bars ps ++ q ++ chr "|" :: join (chr "|") qs.
Proof.
  intros Hne. induction ps as [|p ps IH]; [by rewrite app_nil_l, join_two|].
  cbn [app]. rewrite join_two by (by destruct ps). rewrite IH.
  unfold bars. cbn [map concat]. by rewrite <- !app_assoc.
Qed.

(** A rule of the access restrictions with the protocols of its matches renamed: its
    sixth part, when it is not the last. *)
Definition migrated_rrule (src : cstr) : cstr :=
  let parts := strsep (chr "|") src in
  if (7 <=? length parts)%nat then join (chr "|") (at_index 5 (renamed 3) parts) else src.

Lemma at_index_middle {A} (f : A -> A) i ps q qs :
  Z.of_nat (length ps) = i -> at_index i f (ps ++ q :: qs) = ps ++ f q :: qs.
Proof.
  revert i. induction ps as [|p ps IH]; intros i Hi; cbn [app]; rewrite at_index_cons.
  - simpl in Hi. subst. cbn. unfold at_index. by f_equal.
  - simpl in Hi. rewrite (proj2 (Z.eqb_neq _ _)) by lia. f_equal. apply IH. lia.
Qed.

Lemma migrate_rrule_spec s name :
  let '(d, s') := ndpi_migrate_rrule s name in
  get s' name = migrated_rrule <$> get s name /\ (forall m, m <> name -> get s' m = get s m) /\
  (d = true <-> get s' name <> get s name).
Proof.
  unfold ndpi_migrate_rrule. destruct (get s name) as [src|] eqn:Eg; [|by rewrite Eg].
  assert (Hsame : migrated_rrule src = src ->
    get s name = migrated_rrule <$> Some src /\ (forall m, m <> name -> get s m = get s m) /\
    (false = true <-> get s name <> Some src)) by (intros E; rewrite Eg; simpl; rewrite E; done).
  unfold migrated_rrule in Hsame at 1; cbv zeta in Hsame. destruct src as [|c src0] eqn:Esrc; [by apply Hsame|].
  rewrite <- Esrc in *. assert (Hne : src <> []) by (by rewrite Esrc). clear Esrc c src0.
  replace (match src with [] => (false, s) | _ :: _ => _ end) with
    (match after_bars 5 src with
     | Some head => match strchr head (chr "|") with
       | Some n => let '(changed, new) := ndpi_rename_field (n * 2 + 1) (take n head) 3 in
         if changed then (true, nvram_set s name (take (length src - length head) src ++ new ++ drop n head)) else (false, s)
       | None => (false, s) end
     | None => (false, s) end) by (by destruct src).
  pose proof (after_bars_spec 5 src) as Hb. destruct (after_bars 5 src) as [head|].
  2:{ apply Hsame. by rewrite (proj2 (Nat.leb_gt _ _)) by lia. }
  destruct Hb as (ps & Hlen & Esrc & Esep). pose proof (strchr_strsep head (chr "|")) as Hc.
  destruct (strchr head (chr "|")) as [n|].
  2:{ apply Hsame. rewrite Esep, Hc, length_app. cbn [length]. by rewrite (proj2 (Nat.leb_gt _ _)) by lia. }
  destruct Hc as (q & Ehead & Hq & Eq).
  assert (Et : take n head = q) by (rewrite Ehead, <- Hq; apply take_app_length).
  assert (Hqs : strsep (chr "|") (drop (S n) head) <> []) by apply strsep_nonempty.
  assert (Em : migrated_rrule src = bars ps ++ renamed 3 q ++ drop n head).
  { unfold migrated_rrule. rewrite Esep, Eq, length_app, Hlen.
    assert (1 <= length (strsep (chr "|") (drop (S n) head)))%nat
      by (destruct (strsep_cons (chr "|") (drop (S n) head)) as (? & ? & ->); simpl; lia).
    rewrite (proj2 (Nat.leb_le _ _)) by (cbn [length]; lia).
    rewrite at_index_middle by lia. rewrite join_bars, join_strsep by done.
    replace (drop n head) with (chr "|" :: drop (S n) head) by
      (rewrite Ehead at 2; rewrite <- Hq; by rewrite drop_app_length). done. }
  rewrite Et, rename_field_spec by lia.
  assert (Epre : take (length src - length head) src = bars ps).
  { rewrite Esrc, length_app. replace (_ + _ - _)%nat with (length (bars ps)) by lia. apply take_app_length. }
  assert (Esame : bars ps ++ q ++ drop n head = src) by (rewrite <- Et, take_drop; by rewrite <- Esrc).
  case_bool_decide as Hr; cbn [negb].
  { apply Hsame. fold (migrated_rrule src). by rewrite Em, Hr. }
  rewrite Epre. unfold nvram_set. rewrite get_set. simpl. rewrite Em.
  split_and!; [done|intros m Hm; by apply get_set_other|]. split; [intros _ [= E]|done].
  apply Hr. rewrite <- Esame in E. apply app_inv_head in E. by apply app_inv_tail in E.
Qed.

Lemma migrate_qos_spec s :
  let '(d, s') := ndpi_migrate_qos s in
  get s' !"qos_orules" = renamed 5 <$> get s !"qos_orules" /\
  (forall m, m <> !"qos_orules" -> get s' m = get s m) /\
  (d = true <-> get s' !"qos_orules" <> get s !"qos_orules").
Proof.
  unfold ndpi_migrate_qos. destruct (get s _) as [[|c src]|] eqn:Eg; [by rewrite Eg| |by rewrite Eg].
  set (v := c :: src) in *. rewrite rename_field_spec by lia. case_bool_decide as Hr; cbn [negb].
  - rewrite Eg. simpl. rewrite Hr. split_and!; [done|done|]. by split.
  - unfold nvram_set. rewrite get_set. split_and!; [done|intros m Hm; by apply get_set_other|].
    split; [intros _ [= E]; by rewrite E in Hr|done].
Qed.

Lemma rrule_inj n m : 0 <= n < 2 ^ 64 -> 0 <= m < 2 ^ 64 -> rrule n = rrule m -> n = m.
Proof.
  unfold rrule, print_d. intros Hn Hm E. apply app_inv_head in E.
  rewrite !(proj2 (Z.ltb_ge _ 0)) in E by lia. by apply print_u_inj.
Qed.

Lemma migrate_rrules_spec k : forall s n dirty,
  0 <= n -> n + Z.of_nat k <= 100 ->
  let '(d, s') := migrate_rrules s n k dirty in
  (forall m, n <= m < n + Z.of_nat k -> get s' (rrule m) = migrated_rrule <$> get s (rrule m)) /\
  (forall v, (forall m, n <= m < n + Z.of_nat k -> v <> rrule m) -> get s' v = get s v) /\
  (d = true <-> dirty = true \/ exists v, get s' v <> get s v).
Proof.
  induction k as [|k IH]; intros s n dirty Hn Hk; cbn [migrate_rrules].
  { split_and!; [lia|done|]. split; [by left|]. intros [|[v Hv]]; done. }
  pose proof (migrate_rrule_spec s (rrule n)) as H1. destruct (ndpi_migrate_rrule s (rrule n)) as [d1 s1].
  destruct H1 as (Hr & Ho & Hd). specialize (IH s1 (n + 1) (dirty || d1) ltac:(lia) ltac:(lia)).
  destruct (migrate_rrules s1 (n + 1) k (dirty || d1)) as [d s2]. destruct IH as (Hr2 & Ho2 & Hd2).
  assert (Hne : forall m, n < m < n + 1 + Z.of_nat k -> rrule m <> rrule n)
    by (intros m Hm E; apply rrule_inj in E; lia).
  assert (Hn2 : get s2 (rrule n) = get s1 (rrule n))
    by (apply Ho2; intros m Hm E; apply rrule_inj in E; lia).
  split_and!.
  - intros m Hm. destruct (Z.eq_dec m n) as [->|Hmn]; [by rewrite Hn2|].
    rewrite Hr2 by lia. rewrite Ho; [done|]. apply Hne. lia.
  - intros v Hv. rewrite Ho2 by (intros m Hm; apply Hv; lia). apply Ho. apply Hv. lia.
  - rewrite Hd2, orb_true_iff, Hd. split.
    + intros [[|H]|[v Hv]]; [by left|right; exists (rrule n); by rewrite Hn2|]. right.
      destruct (decide (v = rrule n)) as [->|Hvn]; [by rewrite Hn2 in Hv|]. exists v. by rewrite Ho in Hv.
    + intros [|[v Hv]]; [by left; left|]. destruct (decide (v = rrule n)) as [->|Hvn].
      * left. right. by rewrite Hn2 in Hv.
      * right. exists v. by rewrite (Ho v).
Qed.

End Rules.

(** ** The test before the migration *)

Section Gate.
Context {links : Links} {st : Store}.

(** The variables that hold rules. *)
Definition stored_rule (n : cstr) : Prop := n = !"qos_orules" \/ exists k, 0 <= k < 50 /\ n = rrule k.

Definition contains (p v : cstr) : Prop := exists a b, v = a ++ p ++ b.

Lemma contains_strstr p v : contains p v <-> is_Some (strstr v p).
Proof.
  split.
  - intros (a & b & ->). destruct (strstr (a ++ p ++ b) p) eqn:E; [done|].
    pose proof (strstr_None _ _ (length a) E) as H. rewrite drop_app_length in H.
    rewrite (proj2 (prefix_of_str_spec p (p ++ b))) in H by (by exists b). done.
  - intros [i E]. apply strstr_Some in E as ([k Hk]%prefix_of_str_spec & _ & _).
    exists (take i v), k. by rewrite <- Hk, take_drop.
Qed.

(** A stored rule with an old name in it, in small letters. *)
Definition old_name_stored (s : store) : Prop :=
  exists n v e, stored_rule n /\ get s n = Some v /\ e ∈ ndpi_renamed /\ contains e.1 v.

Lemma mentions_spec s : mentions_renamed s = true <-> old_name_stored s.
Proof.
  assert (Hst : forall n, List.In n (!"qos_orules" :: map (fun n => rrule (Z.of_nat n)) (seq 0 NDPI_MAX_NRULES)) <-> stored_rule n).
  { intros n. cbn [List.In]. rewrite in_map_iff. unfold stored_rule. split.
    - intros [<-|(k & <- & Hk%in_seq)]; [by left|]. right. exists (Z.of_nat k). unfold NDPI_MAX_NRULES in Hk. split; [lia|done].
    - intros [->|(k & Hk & ->)]; [by left|]. right. exists (Z.to_nat k). rewrite Z2Nat.id by lia. split; [done|].
      apply in_seq. unfold NDPI_MAX_NRULES. lia. }
  unfold mentions_renamed. rewrite existsb_exists. split.
  - intros (e & He & Hx). apply existsb_exists in Hx as (n & Hn & Hv). destruct (get s n) as [v|] eqn:Eg; [|done].
    apply bool_decide_eq_true in Hv. exists n, v, e. split_and!; [by apply Hst|done|by apply list_elem_of_In|by apply contains_strstr].
  - intros (n & v & e & Hn & Eg & He & Hc). exists e. split; [by apply list_elem_of_In|].
    apply existsb_exists. exists n. split; [by apply Hst|]. rewrite Eg. apply bool_decide_eq_true. by apply contains_strstr.
Qed.

Lemma strsep_infix sep s p : p ∈ strsep sep s -> contains p s.
Proof.
  revert p. induction s as [|c s IH]; intros p; cbn [strsep].
  - intros ->%list_elem_of_singleton. by exists [], [].
  - case_if.
    + intros [->|Hp]%elem_of_cons; [by exists [], (c :: s)|]. destruct (IH p Hp) as (a & b & ->). by exists (c :: a), b.
    + destruct (strsep_cons sep s) as (q & qs & Eq). rewrite Eq in *.
      intros [->|Hp]%elem_of_cons.
      * rewrite <- (join_strsep sep s), Eq. destruct qs as [|r qs]; [exists [], []; by rewrite app_nil_r|].
        rewrite join_two by done. by exists [], (sep :: join sep (r :: qs)).
      * destruct (IH p) as (a & b & ->); [by right|]. by exists (c :: a), b.
Qed.

Lemma contains_trans p q r : contains p q -> contains q r -> contains p r.
Proof. intros (a & b & ->) (c & d & ->). exists (c ++ a), (b ++ d). by rewrite <- !app_assoc. Qed.

Lemma at_index_id {A} i (f : A -> A) l : (forall x, x ∈ l -> f x = x) -> at_index i f l = l.
Proof.
  revert i. induction l as [|x l IH]; intros i Hf; [apply at_index_nil|]. rewrite at_index_cons.
  rewrite IH by (intros y Hy; apply Hf; by right). case_if; [|done]. rewrite Hf by left. done.
Qed.

(** A value in small letters without an old name is not changed. *)
Definition small (v : cstr) : Prop := map tolower v = v.

Lemma small_contains p v : contains p v -> small v -> small p.
Proof.
  intros (a & b & ->). unfold small. rewrite !map_app. intros E.
  apply app_inj_1 in E as [_ E]; [|by rewrite length_map]. by apply app_inj_1 in E as [E _]; [|rewrite length_map].
Qed.

Lemma rename_name_other name : small name -> (forall e, e ∈ ndpi_renamed -> name <> e.1) -> rename_name name = name.
Proof.
  intros Hs Hn. unfold rename_name. case_if; [done|]. unfold ndpi_rename_of.
  destruct (List.find _ _) as [[old new]|] eqn:Ef; [|done]. apply List.find_some in Ef as [Hin He]. cbn [fst] in He.
  unfold strcasecmp_eq in He. apply bool_decide_eq_true in He. rewrite Hs in He.
  exfalso. apply (Hn (old, new)); [by apply list_elem_of_In|]. rewrite He.
  destruct Hin as [[= <- <-]|[[= <- <-]|[]]]; reflexivity.
Qed.

Lemma renamed_other field v :
  small v -> (forall e, e ∈ ndpi_renamed -> ~ contains e.1 v) -> renamed field v = v.
Proof.
  intros Hs Hn. unfold renamed. rewrite <- (join_strsep (chr ">") v) at 2. f_equal.
  rewrite <- (map_id (strsep (chr ">") v)) at 2. apply map_ext_in. intros r Hr%list_elem_of_In.
  rewrite at_index_id; [apply join_strsep|]. intros x Hx.
  assert (Hc : contains x v) by (eapply contains_trans; eapply strsep_infix; eassumption).
  apply rename_name_other; [by eapply small_contains|]. intros e He ->. by apply (Hn e).
Qed.

Lemma migrated_rrule_other v :
  small v -> (forall e, e ∈ ndpi_renamed -> ~ contains e.1 v) -> migrated_rrule v = v.
Proof.
  intros Hs Hn. unfold migrated_rrule. cbv zeta. case_if; [|done].
  rewrite at_index_id; [apply join_strsep|]. intros x Hx. pose proof (strsep_infix _ _ _ Hx) as Hc.
  apply renamed_other; [by eapply small_contains|]. intros e He Hce. apply (Hn e He). by eapply contains_trans.
Qed.

End Gate.

(** C32: the migration changes nothing but the stored rules, and asks for a commit exactly
    when something has changed. When an old name, in the small letters of the list, stands
    anywhere in a stored rule, or all stored rules are in small letters, it has then renamed
    exactly what is to be renamed: in every QoS rule the protocol field and in every rule of
    the access restrictions the protocol field of each match, where the field is one of the
    old names in any letters, the running table does not know it and knows the new one. The
    other fields and parts of the rules stay as they are. (The test that comes first is the
    only thing that looks at letters: a name in capitals alone is not found by it. A field
    that lists several protocols is not an old name, and stays.) *)
Theorem migration_exact (links : Links) (st : Store) (laws : StoreLaws) (s : store) :
  let '(commit, s') := ndpi_migrate_rules s in
  (forall n, ~ stored_rule n -> get s' n = get s n) /\
  (commit = true <-> exists n, get s' n <> get s n) /\
  (old_name_stored s \/ (forall n v, stored_rule n -> get s n = Some v -> small v) ->
   get s' !"qos_orules" = renamed 5 <$> get s !"qos_orules" /\
   forall k, 0 <= k < 50 -> get s' (rrule k) = migrated_rrule <$> get s (rrule k)).
Proof.
  unfold ndpi_migrate_rules. destruct (mentions_renamed s) eqn:Hm; cbn [negb].
  2: { split_and!; [done|split; [done|by intros [n Hn]]|]. intros [Ho%mentions_spec|Hs]; [congruence|].
    assert (Hno : forall n v e, stored_rule n -> get s n = Some v -> e ∈ ndpi_renamed -> ~ contains e.1 v).
    { intros n v e Hn Hg He Hc. apply not_true_iff_false in Hm. apply Hm, mentions_spec. by exists n, v, e. }
    split; [|intros k Hk].
    - destruct (get s !"qos_orules") as [v|] eqn:Eg; [|done]. cbn [fmap option_fmap option_map].
      rewrite renamed_other; [done|by eapply Hs; [left|]|intros e He; eapply Hno; [by left|done|done]].
    - destruct (get s (rrule k)) as [v|] eqn:Eg; [|done]. cbn [fmap option_fmap option_map].
      assert (Hst : stored_rule (rrule k)) by (right; by exists k).
      rewrite migrated_rrule_other; [done|by eapply Hs|intros e He; by eapply Hno]. }
  pose proof (migrate_qos_spec s) as Hq. destruct (ndpi_migrate_qos s) as [d1 s1]. destruct Hq as (Hq & Ho & Hd).
  pose proof (migrate_rrules_spec NDPI_MAX_NRULES s1 0 d1 ltac:(lia) ltac:(vm_compute; discriminate)) as Hr.
  destruct (migrate_rrules s1 0 NDPI_MAX_NRULES d1) as [d s2]. destruct Hr as (Hr & Ho2 & Hd2).
  change (0 + Z.of_nat NDPI_MAX_NRULES) with 50 in *.
  assert (Hname : forall k, rrule k <> !"qos_orules") by (intros k; unfold rrule; discriminate).
  assert (Hqos : get s2 !"qos_orules" = get s1 !"qos_orules") by (apply Ho2; intros k _ E; by apply (Hname k)).
  split_and!.
  - intros n Hn. rewrite Ho2, Ho; [done| |].
    + intros ->. apply Hn. by left.
    + intros k Hk ->. apply Hn. right. by exists k.
  - rewrite Hd2, Hd. split.
    + intros [H|[v Hv]]; [exists (!"qos_orules"); by rewrite Hqos|].
      destruct (decide (v = !"qos_orules")) as [->|Hvn]; [by rewrite Hqos in Hv|]. exists v. by rewrite Ho in Hv.
    + intros [v Hv]. destruct (decide (v = !"qos_orules")) as [->|Hvn].
      * left. by rewrite Hqos in Hv.
      * right. exists v. by rewrite (Ho v).
  - intros _. split; [by rewrite Hqos|]. intros k Hk. by rewrite Hr, Ho.
Qed.

(** A table in which the protocols have their new names. *)
#[local] Instance new_table : Links := {|
  file_contents p := if strcmp_eq p NDPI_PROTO_PATH
    then Some (!"#id mark ~mask name # count #version 5.1.0" ++ 10 :: !"07 7/0000ffff http # 0 debug=0 dpi" ++ 10
      :: !"fa fa/0000ffff teams # 0 debug=0" ++ [10]) else None;
  if_flags _ := None; wan_phy_link _ := 0; socket_ok := false |}.

Definition old_rules : gmap cstr cstr :=
  <[!"qos_orules" := !"0<<-1<a<<skype_teams<<<2<skype_teams"]>
    {[ !"rrule3" := !"1|-1|-1|127||-2<a<<skype_teams<<0<>-1<d<80<http<<0<||0<skype_teams" ]}.

Lemma migration_exact_witness :
  let s' := (@ndpi_migrate_rules _ map_store old_rules).2 in
  get s' !"qos_orules" = Some !"0<<-1<a<<teams<<<2<skype_teams" /\
  get s' !"rrule3" = Some !"1|-1|-1|127||-2<a<<teams<<0<>-1<d<80<http<<0<||0<skype_teams".
Proof.
  assert (Ho : @old_name_stored map_store old_rules) by (apply mentions_spec; vm_compute; reflexivity).
  pose proof (migration_exact new_table map_store _ old_rules) as H.
  destruct (@ndpi_migrate_rules new_table map_store old_rules) as [c s']. destruct H as (_ & _ & H).
  destruct (H (or_introl Ho)) as [Hq Hr]. cbn [snd]. split; [rewrite Hq; vm_compute; reflexivity|].
  change (!"rrule3") with (rrule 3). rewrite (Hr 3) by lia. vm_compute. reflexivity.
Defined.

(** A host name that is accepted adds exactly one option with one word to the match: it has
    no blank, no control character, no quote, no backslash and no separator of the rules; a
    name that is not accepted leaves the match as it was. *)
Theorem ndpi_host_confined (v opt : cstr) (size : nat) :
  let '(r, opt') := ipt_ndpi_host v opt size in
  (r = 1 /\ opt' = opt ++ !" --host " ++ v /\ (length opt' < size)%nat /\ v <> [] /\ opt <> [] /\
   Forall (fun c => 32 < c <= 126 /\ c <> chr "'" /\ c <> 34 /\ c <> 92 /\
                    c <> chr "<" /\ c <> chr ">" /\ c <> chr "|") v) \/
  (r = 0 /\ opt' = opt).
Proof.
  unfold ipt_ndpi_host. destruct (_ || _) eqn:E0; [by right|]. destruct (_ <=? _)%nat; [by right|].
  destruct (existsb _ _) eqn:E1; [by right|]. case_if; [by right|]. left. propify.
  split_and!; [done|done|lia|by intros ->|by intros ->|].
  apply Forall_forall. intros c Hc.
  assert (Hb : host_char_bad c = false).
  { destruct (host_char_bad c) eqn:Eb; [|done]. exfalso. apply Bool.not_true_iff_false in E1. apply E1.
    apply existsb_exists. exists c. by rewrite <- list_elem_of_In. }
  unfold host_char_bad in Hb. propify. change (chr "'") with 39. lia.
Qed.

End NdpiSpec.
