(* ===== verification/FwEnv.v ===== *)
(** What the generators of the packet filter rules share.

    - src/tomato64/package/rc/rc/firewall.c: the globals that [start_firewall] fills
      before it writes rules ([env], [gather]), [ipt_addr], [ipt_dscp], [dmz_dst],
      [dmz_remote_access];
    - src/tomato64/package/rc/rc/misc.c: [host_addrtypes], [lan_ifname_for_ipv4].

    Names are resolved by [Resolver], which stands for [getaddrinfo]. *)

From Stdlib Require Import ZArith Lia.
From stdpp Require Import base list strings.
From S2P Require Import Prelude Scan Nvram Inet Wan BuildConfig SaveVars Rules.

Local Open Scope Z_scope.
Local Open Scope rule_scope.

Module FwEnv.
Import Scan Nvram Inet Wan BuildConfig SaveVars Rules.

(** ** Addresses *)

(** [getaddrinfo]: which families a name has addresses of, when asked for a family or,
    with 0, for any; nothing when the look-up fails. *)
Class Resolver := { getaddrinfo : cstr -> Z -> list Z }.

(** A run of at most [n] characters of a set: the conversion [%n[...]]. *)
Definition scan_set (n : nat) (P : Z -> bool) (s : cstr) : option (cstr * cstr) :=
  let w := take n (take_until (fun c => negb (P c)) s) in
  match w with [] => None | _ => Some (w, drop (length w) s) end.

Definition v4_char (c : Z) : bool := isdigit c || (c =? chr ".").
Definition v6_char (c : Z) : bool := isxdigit c || (c =? chr ":").

(** Whether the text starts with two runs with a dash between them. *)
Definition is_range (P : Z -> bool) (s : cstr) : bool :=
  match scan_set 91 P s with
  | Some (_, rest) =>
      (char_at rest 0 =? chr "-") && match scan_set 91 P (drop 1 rest) with Some _ => true | None => false end
  | None => false
  end.

Section Ops.
Context {nv : Nvram} {cfg : Config} {resolver : Resolver}.

Definition host_addrtypes (name : cstr) (af : Z) : Z :=
  let family :=
    if holds (Def "TCONFIG_IPV6")
    then (if Z.land af 3 =? IPT_V4 then IPT_V4 else if Z.land af 3 =? IPT_V6 then IPT_V6 else 0)
    else IPT_V4 in
  Z.land (fold_right Z.lor 0 (getaddrinfo name family)) af.

(** The flags of the families for which the rule can be written, and its condition. *)
Definition ipt_addr (maxlen : nat) (s : cstr) (dir : string) (af : Z) (strict : bool) : Z * cstr :=
  if char_at s 0 =? 0 then (Z.land (Z.lor IPT_V4 IPT_V6) af, [])
  else
    let range := snprintf maxlen (!"-m iprange --" ++ bytes dir ++ !"-range " ++ s) in
    let '(r, addr) :=
      if is_range v4_char s then (IPT_V4, range)
      else if holds (Def "TCONFIG_IPV6") && is_range v6_char s then (IPT_V6, range)
      else
        (match scan_set 91 (fun c => negb (c =? chr "/")) s with
         | Some (p, _) =>
             if holds (Def "TCONFIG_IPV6")
             then host_addrtypes p (if strict then af else Z.lor IPT_V4 IPT_V6)
             else host_addrtypes p IPT_V4
         | None => 0
         end,
         snprintf maxlen (chr "-" :: char_at (bytes dir) 0 :: 32 :: s)) in
    (Z.land r af, addr).

(** [ipt_source], [ipt_source_strict] and [ip6t_source]. *)
Definition ipt_source (s : cstr) : Z * cstr := ipt_addr 64 s "src" IPT_V4 false.
Definition ipt_source_strict (s : cstr) : Z * cstr := ipt_addr 64 s "src" IPT_V4 true.
Definition ip6t_source (s : cstr) : Z * cstr := ipt_addr 128 s "src" IPT_V6 false.

(** [strtoul] with base 0, after white space and a sign, as 32 bits. *)
Definition strtoul_base0 (v : cstr) : Z :=
  let v := skip_while isspace v in
  let '(neg, v) := match v with 45 :: t => (true, t) | 43 :: t => (false, t) | _ => (false, v) end in
  let n := fst (strtoul0 v) in u32 (if neg : bool then - n else n).

Definition print_X2 (n : Z) : cstr := map (fun c => if islower c then c - 32 else c) (pad_to 2 (print_u 16 n)).

Definition ipt_dscp (v : cstr) (buf_sz : nat) : option cstr :=
  match v with
  | [] => None
  | _ =>
      let n := strtoul_base0 v in
      let n := if 63 <? n then 63 else n in
      Some (snprintf buf_sz (!" -m dscp --dscp 0x" ++ print_X2 n))
  end.

(** ** The DMZ *)

Definition dmz_dst : option cstr :=
  if nvram_get_int !"dmz_enable" =? 0 then None
  else
    let p := nvram_safe_get !"dmz_ipaddr" in
    match inet_pton p with None => None | Some _ => Some (strlcpy 64 p) end.

Definition dmz_remote_access : bool :=
  negb (nvram_get_int !"dmz_enable" =? 0) && negb (nvram_get_int !"dmz_ra" =? 0).

(** The bridge whose network has the address. *)
Definition in_network (a : list Z) (br : Z) : option cstr :=
  let lanif := bridge_nvram_get br !"ifname" 24 in
  let lanip := bridge_nvram_get br !"ipaddr" 24 in
  let lanmask := bridge_nvram_get br !"netmask" 24 in
  if (char_at lanif 0 =? 0) || (char_at lanip 0 =? 0) || (char_at lanmask 0 =? 0) then None
  else
    match inet_pton lanip, inet_pton lanmask with
    | Some lan, Some mask =>
        if Z.land (s_addr a) (s_addr mask) =? Z.land (s_addr lan) (s_addr mask) then Some lanif else None
    | _, _ => None
    end.

Fixpoint first_some {A B} (f : A -> option B) (l : list A) : option B :=
  match l with
  | [] => None
  | x :: l => match f x with Some y => Some y | None => first_some f l end
  end.

Definition bridges : list Z := upto 0 BRIDGE_COUNT.

Definition lan_ifname_for_ipv4 (ip : cstr) (len : nat) : option cstr :=
  match inet_pton ip with
  | None => None
  | Some a => strlcpy len <$> first_some (in_network a) bridges
  end.

End Ops.

(** ** The state of the system *)

(** A WAN: whether it is up, and its interfaces. A LAN bridge: its interface, address
    and mask. The arrays of WANs are cleared when the firewall starts, so that the
    entries behind the last active WAN have no interface, and a loop over the whole array
    meets the same interfaces as one over the active WANs. *)
Record env := {
  ipv6 : bool;
  targets : chains;
  wans : list (bool * list wanface);
  lans : list (cstr * cstr * cstr);
  wan6face : cstr;
  remotemanage : bool;
  web_lanport : Z }.

Definition lanface (l : cstr * cstr * cstr) : cstr := l.1.1.
Definition lanaddr (l : cstr * cstr * cstr) : cstr := l.1.2.
Definition lanmask (l : cstr * cstr * cstr) : cstr := l.2.

(** The first bridge. *)
Definition lan0 (e : env) : cstr * cstr * cstr := default ([], [], []) (head (lans e)).

Definition is_anywanup (e : env) : bool := existsb fst (wans e).

(** The interfaces of a WAN that have a name. *)
Definition named (fs : list wanface) : list wanface :=
  List.filter (fun f => negb (char_at (face_name f) 0 =? 0)) fs.

(** Those of all WANs, each with the state of its WAN; those of the first WAN. *)
Definition all_faces (e : env) : list (bool * wanface) :=
  concat (map (fun w => map (fun f => (w.1, f)) (named w.2)) (wans e)).

Definition wan1_faces (e : env) : list wanface :=
  named (match wans e with w :: _ => w.2 | [] => [] end).

(** The bridges for which a rule is written: those that exist, and the first. *)
Definition first_or (P : cstr * cstr * cstr -> bool) (l : list (cstr * cstr * cstr)) : list (cstr * cstr * cstr) :=
  match l with [] => [] | x :: l => x :: List.filter P l end.

Definition has_face (l : cstr * cstr * cstr) : bool := negb (strcmp_eq (lanface l) []).

Section Gather.
Context {nv : Nvram} {build : Build} {links : Links} {cfg : Config}.

Definition ipv6_enabled : bool := holds (Def "TCONFIG_IPV6") && negb (get_ipv6_service =? 0).

Definition gather_wan (mwan : Z) : bool * list wanface :=
  let s := get_wan_prefix mwan 16 in (negb ((check_wanup s).1 =? 0), get_wanfaces s).

Definition gather_lan (br : Z) : cstr * cstr * cstr :=
  (strlcpy 17 (bridge_nvram_get br !"ifname" 16), strlcpy 32 (bridge_nvram_get br !"ipaddr" 16),
   strlcpy 32 (bridge_nvram_get br !"netmask" 16)).

Definition port_or (name : cstr) (d : Z) : Z :=
  let p := nvram_get_int name in if p <=? 0 then d else p.

(** The globals as [start_firewall] sets them. *)
Definition gather : env :=
  {| ipv6 := ipv6_enabled;
     targets := chains_log_detection;
     wans := map gather_wan (upto 1 mwan_active_num);
     lans := map gather_lan bridges;
     wan6face := if holds (Def "TCONFIG_IPV6") then strlcpy 17 get_wan6face else [];
     remotemanage := nvram_match !"remote_management" !"1"
       && nvram_invmatch !"http_wanport" [] && nvram_invmatch !"http_wanport" !"0";
     web_lanport := if nvram_match !"remote_mgt_https" !"1" then port_or !"https_lanport" 443
                    else port_or !"http_lanport" 80 |}.

End Gather.

End FwEnv.
