(* ===== verification/Forward.v ===== *)
(** Port forwarding: src/tomato64/package/rc/rc/forward.c.

    The settings [portforward], [trigforward] and [ipv6_portforward] are lists of records
    ended by [>] whose fields end in [<]; each enabled record gives rules for one or both
    of the protocols. *)

From Stdlib Require Import ZArith Lia.
From stdpp Require Import base list strings.
From S2P Require Import Prelude Scan Nvram Inet Wan BuildConfig SaveVars Rules FwEnv.

Local Open Scope Z_scope.
Local Open Scope rule_scope.

Module Forward.
Import Scan Nvram Inet Wan BuildConfig SaveVars Rules FwEnv.

Inductive ipt_table_t := IPT_TABLE_NAT | IPT_TABLE_FILTER | IPT_TABLE_MANGLE.

Definition chain_wan_prerouting : cstr := !"WANPREROUTING".

Definition tcpudp : list cstr := [!"tcp"; !"udp"].

(** The protocols a record is for: bit 0 of the digit is TCP, bit 1 UDP. *)
Definition protos (proto : cstr) : list cstr :=
  let d := char_at proto 0 - 48 in
  (if Z.testbit d 0 then [!"tcp"] else []) ++ (if Z.testbit d 1 then [!"udp"] else []).

Definition dports (xports : cstr) : cstr :=
  match strchr xports (chr ",") with Some _ => !"-m multiport --dports" | None => !"--dport" end.

Definition or_else (a b : cstr) : cstr := match a with [] => b | _ => a end.

(** A colon of a range becomes a dash. *)
Fixpoint dash_range (s : cstr) : cstr :=
  match s with
  | [] => []
  | c :: s => if c =? chr ":" then chr "-" :: s else c :: dash_range s
  end.

Section Ops.
Context {nv : Nvram} {cfg : Config} {resolver : Resolver}.

(** ** IPv4 *)

(** A usable record of [portforward]. *)
Record forward := {
  fw_protos : list cstr;
  fw_src : cstr;
  fw_xports : cstr;
  fw_iport : cstr;
  fw_ip : cstr }.

Definition parse_forward (b : cstr) : option forward :=
  match vstrsep 7 (chr "<") b with
  | [c; proto; saddr; xports; iport; iaddr; desc] =>
      if negb (char_at c 0 =? chr "1") then None
      else
        let '(ok, src) := ipt_addr 64 saddr "src" IPT_V4 true in
        if ok =? 0 then None
        else if negb (host_addrtypes iaddr IPT_V4 =? IPT_V4) then None
        else Some {| fw_protos := protos proto; fw_src := src; fw_xports := xports; fw_iport := iport;
                     fw_ip := strlcpy 64 iaddr |}
  | _ => None
  end.

Definition nat_rules (e : env) (f : forward) (c : cstr) : list line :=
  Append chain_wan_prerouting
    [Match (!"-p" +++ c); Match (fw_src f); Match (dports (fw_xports f) +++ fw_xports f)]
    (Jump (!"DNAT --to-destination " ++ fw_ip f ++ match fw_iport f with [] => [] | p => chr ":" :: p end)) ::
  (if nvram_get_int !"nf_loopback" =? 1 then
     map (fun w => Append !"POSTROUTING"
       [Match (!"-p" +++ c); Match (dports (fw_xports f) +++ or_else (fw_iport f) (fw_xports f));
        Match (!"-s " ++ nvram_safe_get !"lan_ipaddr" ++ chr "/" :: nvram_safe_get !"lan_netmask");
        Match (!"-d" +++ fw_ip f)]
       (Jump (!"SNAT --to-source" +++ face_ip w))) (wan1_faces e)
   else []).

Definition filter_rule (e : env) (f : forward) (c : cstr) : line :=
  Append !"wanin"
    [Match (fw_src f); Match (!"-p" +++ c); Match (!"-m" +++ c); Match (!"-d" +++ fw_ip f);
     Match (dports (fw_xports f) +++ or_else (fw_iport f) (fw_xports f))]
    (Jump (in_accept (targets e))).

Definition forward_rules (e : env) (table : ipt_table_t) (f : forward) : list line :=
  concat (map (fun c => match table with IPT_TABLE_NAT => nat_rules e f c | _ => [filter_rule e f c] end)
            (fw_protos f)).

Definition forwards : list forward := omap parse_forward (strsep (chr ">") (nvram_safe_get !"portforward")).

Definition ipt_forward (e : env) (table : ipt_table_t) : list write :=
  ipt_write (concat (map (forward_rules e table) forwards)).

(** ** Triggered forwarding *)

(** The protocols, the trigger ports and the forwarded ports of an enabled record. *)
Definition parse_trigger (b : cstr) : option (list cstr * cstr * cstr) :=
  match vstrsep 4 (chr "<") b with
  | [c; proto; mports; fports] =>
      if char_at c 0 =? chr "1" then Some (protos proto, mports, fports) else None
  | _ => None
  end.

Definition trigger_rule (mports fports c : cstr) : line :=
  Append !"triggers" [Match (!"-p" +++ c); Match (!"-m" +++ c); Match (!"--dport" +++ mports)]
    (Jump (!"TRIGGER --trigger-type out --trigger-proto " ++ c +++ !"--trigger-match "
           ++ dash_range (strlcpy 256 mports) +++ !"--trigger-relate " ++ fports)).

(** The forwarded ports are changed in place, once for each protocol. *)
Fixpoint trigger_rules (ps : list cstr) (mports fports : cstr) : list line :=
  match ps with
  | [] => []
  | c :: ps => let fports := dash_range fports in trigger_rule mports fports c :: trigger_rules ps mports fports
  end.

Definition triggers : list (list cstr * cstr * cstr) :=
  omap parse_trigger (strsep (chr ">") (nvram_safe_get !"trigforward")).

Definition ipt_triggered (table : ipt_table_t) : list write :=
  let rules := concat (map (fun x => trigger_rules x.1.1 x.1.2 x.2) triggers) in
  match rules, table with
  | [], _ => []
  | _, IPT_TABLE_NAT =>
      ipt_write [Append chain_wan_prerouting [] (Jump !"TRIGGER --trigger-type dnat")]
  | _, _ =>
      ipt_write ([Chain !"triggers" user; Append !"wanout" [] (Jump !"triggers");
                  Append !"wanin" [] (Jump !"TRIGGER --trigger-type in")] ++ rules)
  end.

(** ** IPv6 *)

Definition forward6_rules (e : env) (b : cstr) : list line :=
  match vstrsep 6 (chr "<") b with
  | [c; proto; saddr; daddr; dport; desc] =>
      if negb (char_at c 0 =? chr "1") then []
      else
        let '(ok, src) := ipt_addr 128 saddr "src" IPT_V6 true in
        if ok =? 0 then []
        else if (ipt_addr 128 daddr "dst" IPT_V6 true).1 =? 0 then []
        else
          map (fun c => Append !"wanin"
            [Match src; Match (!"-p" +++ c); Match (!"-m" +++ c);
             Match (match daddr with [] => [] | _ => !"-d" +++ daddr end); Match (dports dport +++ dport)]
            (Jump (in_accept (targets e)))) (protos proto)
  | _ => []
  end.

Definition ip6t_forward (e : env) : list write :=
  ip6t_write (concat (map (forward6_rules e) (strsep (chr ">") (nvram_safe_get !"ipv6_portforward")))).

End Ops.

End Forward.
