(* ===== verification/RestrictRules.v ===== *)
(** The rules of the access restrictions: [ipt_restrictions] of
    src/tomato64/package/rc/rc/restrict.c.

    A variable [rruleN] is [enabled|begin|end|days|devices|matches|http|flags|...]. An
    enabled one gets a chain [rresNN] with what it forbids (or, in whitelist mode,
    allows) and, when it is for certain devices, a chain [rdevNN] with the devices;
    [rcheck] links the one or the other into the chain [restrict]. *)

From Stdlib Require Import ZArith Lia.
From stdpp Require Import base list strings.
From S2P Require Import Prelude Scan Strings Nvram Inet Wan BuildConfig Defaults SaveVars Restrict Rules Ndpi FwEnv.

Local Open Scope Z_scope.
Local Open Scope rule_scope.

Module RestrictRules.
Import Scan Strings Nvram Inet Wan BuildConfig Defaults SaveVars Restrict Rules Ndpi FwEnv.

Section Ops.
Context {cfg : Config} {resolver : Resolver} {links : Links} {st : Store}.

(** ** A stored rule *)

Record restriction := {
  rs_comps : cstr;
  rs_matches : cstr;
  rs_http : cstr;
  rs_flags : Z }.

(** An enabled rule; one with 8192 characters or more is ignored. *)
Definition parse_restriction (p : cstr) : option restriction :=
  if 8192 <=? Z.of_nat (length p) then None
  else
    match vstrsep 8 (chr "|") p with
    | [q; _; _; _; comps; matches; http; flags] =>
        if char_at q 0 =? chr "1"
        then Some {| rs_comps := comps; rs_matches := matches; rs_http := http; rs_flags := atoi flags |}
        else None
    | _ => None
    end.

Definition is_allow (r : restriction) : bool := Z.testbit (rs_flags r) 3.

Definition reschain (nrule : Z) : cstr := !"rres" ++ two_digits nrule.
Definition devchain (nrule : Z) : cstr := !"rdev" ++ two_digits nrule.

(** ** Matches *)

Record packet_match := {
  pm_proto : cstr;
  pm_dir : cstr;
  pm_port : cstr;
  pm_ndpi : cstr;
  pm_host : cstr;
  pm_addr_type : cstr;
  pm_addr : cstr }.

(** Seven fields, or six of a rule from before there was a host. *)
Definition parse_match (q : cstr) : option packet_match :=
  match vstrsep 7 (chr "<") q with
  | [pr; d; po; n; h; t; a] =>
      Some {| pm_proto := pr; pm_dir := d; pm_port := po; pm_ndpi := n; pm_host := h; pm_addr_type := t; pm_addr := a |}
  | [pr; d; po; n; t; a] =>
      Some {| pm_proto := pr; pm_dir := d; pm_port := po; pm_ndpi := n; pm_host := []; pm_addr_type := t; pm_addr := a |}
  | _ => None
  end.

Definition dir_is (m : packet_match) (c : string) : bool := char_at (pm_dir m) 0 =? chr c.

Definition ports_of (m : packet_match) : cstr :=
  if negb (dir_is m "a") && negb (char_at (pm_port m) 0 =? 0) then
    let dir := if dir_is m "x" then [] else pm_dir m in
    snprintf 256
      (if dir_is m "x" || bool_decide (is_Some (strchr (pm_port m) (chr ",")))
       then !"-m multiport --" ++ dir ++ !"ports " ++ pm_port m
       else !"--" ++ pm_dir m ++ !"port " ++ pm_port m)
  else [].

(** The rules of a match for one application text. *)
Definition match_lines (chain tgt : cstr) (m : packet_match) (iptaddr app : cstr) : list line :=
  let proto := atoi (pm_proto m) in
  if proto <=? -2 then [Append chain [Match iptaddr; Match app] (Jump tgt)]
  else if (proto =? 6) || (proto =? 17) || (proto =? -1) then
    let one p := Append chain [Match p; Match (ports_of m); Match iptaddr; Match app] (Jump tgt) in
    (if proto =? 17 then [] else [one !"-p tcp"]) ++ (if proto =? 6 then [] else [one !"-p udp"])
  else [Append chain [Match (!"-p" +++ print_d proto); Match iptaddr; Match app] (Jump tgt)].

(** What a match means: the families it is for, its address and its application, with
    the application text of flows that are still being classified. *)
Record matched := { ma_ok : Z; ma_addr : cstr; ma_app : cstr; ma_detecting : cstr }.

(** A match that cannot be used is passed over; [seen] are the nDPI options so far. *)
Definition read_match (s : store) (allow : bool) (m : packet_match) (seen : list cstr) : option matched * list cstr :=
  if negb (dir_is m "a" || dir_is m "s" || dir_is m "d" || dir_is m "x") then (None, seen)
  else
    let '(found, opt) := ipt_ndpi (pm_ndpi m) 256 in
    if found =? -1 then (None, seen)
    else
      let seen := if found =? 1 then ndpi_remember (matches s !"nf_ndpi_in" !"1") seen opt else seen in
      let app := (ipt_ndpi_host (pm_host m) opt 256).2 in
      let detecting := if allow && negb (char_at app 0 =? 0) then ipt_ndpi_inprogress (pm_ndpi m) 256 else [] in
      let ok :=
        if holds (Def "TCONFIG_IPV6") then (if char_at app 0 =? 0 then Z.lor IPT_V6 IPT_V4 else IPT_V4) else IPT_V4 in
      let t := char_at (pm_addr_type m) 0 in
      if (t =? chr "1") || (t =? chr "2") then
        let '(ok, addr) := ipt_addr 192 (pm_addr m) (if t =? chr "1" then "dst" else "src") ok (ok =? IPT_V4) in
        (if ok =? 0 then None else Some {| ma_ok := ok; ma_addr := addr; ma_app := app; ma_detecting := detecting |}, seen)
      else (Some {| ma_ok := ok; ma_addr := []; ma_app := app; ma_detecting := detecting |}, seen).

(** The rules of the matches and whether one of them could be used. *)
Fixpoint match_rules (s : store) (e : env) (chain tgt : cstr) (allow : bool) (qs : list cstr) (seen : list cstr)
  : list write * bool * list cstr :=
  match qs with
  | [] => ([], false, seen)
  | q :: qs =>
      match parse_match q with
      | None => match_rules s e chain tgt allow qs seen
      | Some m =>
          match read_match s allow m seen with
          | (None, seen) => match_rules s e chain tgt allow qs seen
          | (Some x, seen) =>
              let ls := match_lines chain tgt m (ma_addr x) (ma_app x) ++
                (if char_at (ma_detecting x) 0 =? 0 then []
                 else match_lines chain tgt m (ma_addr x) (ma_detecting x)) in
              let '(ws, _, seen) := match_rules s e chain tgt allow qs seen in
              (ip46t_flagged_write (ipv6 e) (ma_ok x) ls ++ ws, true, seen)
          end
      end
  end.

(** ** Web requests *)

Definition web_char (c : Z) : Z :=
  if (c =? 9) || (c =? 13) || (c =? 10) || (c =? 34) then 32 else c.

(** The last blank at or before the index, not at the start. *)
Fixpoint back_to_blank (s : cstr) (k : nat) : nat :=
  match k with
  | O => O
  | S k' => if char_at s k =? 32 then k else back_to_blank s k'
  end.

(** The pieces of at most 510 characters, up to one that cannot be cut. *)
Fixpoint web_pieces (fuel : nat) (http : cstr) : list cstr :=
  match fuel with
  | O => []
  | S fuel =>
      match http with
      | [] => []
      | _ =>
          if (511 <=? length http)%nat then
            match back_to_blank http 510 with
            | O => []
            | k => take k http :: web_pieces fuel (drop (S k) http)
            end
          else [http]
      end
  end.

Definition file_types (flags : Z) : cstr :=
  let app := if Z.testbit flags 0 then !".ocx$ .cab$ " else [] in
  let app := if Z.testbit flags 1 then !".swf$ " else app in
  if Z.testbit flags 2 then app ++ !".class$ .jar$" else app.

Definition quoted (s : cstr) : cstr := 34 :: s ++ [34].

(** The web match is for IPv4 only in the builds of ARM. *)
Definition web_write (e : env) (ls : list line) : list write :=
  if holds (Def "TCONFIG_BCMARM") then ipt_write ls else ip46t_write (ipv6 e) ls.

(** The rules of the web requests. *)
Definition web_rules (s : store) (chain tgt_web reject : cstr) (r : restriction) : list line :=
  let http := map web_char (rs_http r) in
  let app := file_types (rs_flags r) in
  let ports := safe_get s !"rrulewp" in
  let rules :=
    map (fun h => Append chain [Match !"-p tcp"; Match (!"-m web --hore" +++ quoted h)] (Jump tgt_web))
      (web_pieces (S (length http)) http) ++
    (if char_at app 0 =? 0 then []
     else [Append chain [Match !"-p tcp"; Match (!"-m multiport --dports" +++ ports);
                         Match (!"-m web --path" +++ quoted app)] (Jump tgt_web)]) in
  match rules with
  | [] => []
  | _ =>
      rules ++
      (if is_allow r && negb (char_at ports 0 =? 0) then
         [Append chain [Match !"-p tcp"; Match (!"-m multiport --dports" +++ ports); Match !"-m web --http"] (Jump reject);
          Append chain [Match !"-p tcp"; Match (!"-m multiport --dports" +++ ports)] (Jump !"RETURN")]
       else [])
  end.

(** ** Devices *)

Definition is_mac (q : cstr) : bool :=
  match scan_seq (scan_xw 2) (chr ":") 5 q with Some _ => true | None => false end.

(** The families and the condition of a device. *)
Definition device (q : cstr) : Z * cstr :=
  let ok := if holds (Def "TCONFIG_IPV6") then Z.lor IPT_V6 IPT_V4 else IPT_V4 in
  if is_mac q then (ok, snprintf 192 (!"-m mac --mac-source" +++ q))
  else ipt_addr 192 q "src" ok (ok =? IPT_V4).

(** The rules of the listed devices and whether a [!] was among them. *)
Fixpoint device_rules (e : env) (chain : cstr) (next : target) (ex : bool) (qs : list cstr) : list write * bool :=
  match qs with
  | [] => ([], ex)
  | q :: qs =>
      if char_at q 0 =? 0 then device_rules e chain next ex qs
      else if char_at q 0 =? chr "!" then device_rules e chain next true qs
      else
        let '(ok, addr) := device q in
        let '(ws, ex') := device_rules e chain next ex qs in
        ((if ok =? 0 then []
          else ip46t_flagged_write (ipv6 e) ok
            [Append chain [Match addr] (if ex then Jump !"RETURN" else next)]) ++ ws, ex')
  end.

(** ** The chains of a rule *)

Definition preamble (e : env) : list write :=
  ip46t_write (ipv6 e) [Chain !"restrict" user] ++
  (if holds (Def "TCONFIG_IPV6") && ipv6 e && negb (char_at (wan6face e) 0 =? 0)
   then ip6t_write [Append !"FORWARD" [Out (wan6face e)] (Jump !"restrict")] else []) ++
  ipt_write (map (fun w => Append !"FORWARD" [Out (face_name w)] (Jump !"restrict")) (wan1_faces e)) ++
  ip46t_write (ipv6 e)
    [Insert !"INPUT" (Some 1) [Match !"! -i lo"; Match !"-p udp"; Match !"--dport 53"] (Jump !"restrict");
     Insert !"INPUT" (Some 1) [Match !"! -i lo"; Match !"-p tcp"; Match !"--dport 53"] (Jump !"restrict")].

Definition restriction_rules (s : store) (e : env) (nrule : Z) (r : restriction) (seen : list cstr)
  : list write * list cstr :=
  let chain := reschain nrule in
  let dev := devchain nrule in
  let t := targets e in
  let v6 := ipv6 e in
  let tgt := if is_allow r then !"RETURN" else out_drop t in
  let tgt_web := if is_allow r then !"RETURN" else out_reject t in
  let '(ms, used, seen) := match_rules s e chain tgt (is_allow r) (strsep (chr ">") (rs_matches r)) seen in
  let web := web_rules s chain tgt_web (out_reject t) r in
  let blockall := negb used && match web with [] => true | _ => false end in
  let drop_all := Append chain [] (Jump (out_drop t)) in
  (ip46t_write v6 [Chain chain user] ++ ms ++ web_write e web ++
   (if is_allow r && negb blockall then ip46t_write v6 [drop_all] else []) ++
   (if negb (char_at (rs_comps r) 0 =? 0) then
      let next := if blockall then Jump (out_drop t) else Goto chain in
      let '(ds, ex) := device_rules e dev next false (strsep (chr ">") (rs_comps r)) in
      (if blockall then ip46t_write v6 [DelChain chain] else []) ++
      ip46t_write v6 [Chain dev user] ++ ds ++
      (if ex then ip46t_write v6 [Append dev [] next] else [])
    else if blockall then ip46t_write v6 [drop_all] else []),
   seen).

(** The rule with a number, if it is enabled and not for the radios. *)
Definition restriction_at (s : store) (nrule : Z) : option restriction :=
  match get s (rrule nrule) with
  | None => None
  | Some p =>
      match parse_restriction p with
      | Some r => if char_at (rs_comps r) 0 =? chr "~" then None else Some r
      | None => None
      end
  end.

Fixpoint all_restrictions (s : store) (e : env) (nrule : Z) (k : nat) (first : bool) (seen : list cstr)
  : list write * list cstr :=
  match k with
  | O => ([], seen)
  | S k =>
      match restriction_at s nrule with
      | None => all_restrictions s e (nrule + 1) k first seen
      | Some r =>
          let '(ws, seen) := restriction_rules s e nrule r seen in
          let '(rest, seen) := all_restrictions s e (nrule + 1) k false seen in
          ((if first then preamble e else []) ++ ws ++ rest, seen)
      end
  end.

Definition ipt_restrictions (s : store) (e : env) (seen : list cstr) : store * list write * list cstr :=
  let s := nvram_set (nvram_unset s !"rrules_timewarn") !"rrules_radio" !"-1" in
  let '(ws, seen) := all_restrictions s e 0 MAX_NRULES true seen in
  (nvram_set s !"rrules_activated" !"0", ws, seen).

End Ops.

End RestrictRules.
