(* ===== verification/KillSwitch.v ===== *)
(** The kill switch of the VPN clients: [check_string], [resolve_fqdn] and [kill_switch] of
    src/tomato64/package/rc/rc/rc.c.

    A routing rule of a VPN client, [enabled<type<value<kill switch], that asks for it
    forbids its traffic to leave by a WAN. The look-up of a domain is [Domains]; its
    timeout is one of the failures. *)

From Stdlib Require Import ZArith Lia.
From stdpp Require Import base list strings.
From S2P Require Import Prelude Scan Nvram Inet Wan BuildConfig SaveVars Rules FwEnv.

Local Open Scope Z_scope.
Local Open Scope rule_scope.

Module KillSwitch.
Import Scan Nvram Inet Wan BuildConfig SaveVars Rules FwEnv.

Definition AF_INET : Z := 2.
Definition AF_INET6 : Z := 10.
Definition VPN_RGW_POLICY : Z := 2.
Definition WG_INTERFACE_MAX : Z := 3.

(** The addresses of a domain with their families, or nothing when the look-up fails or
    takes too long. *)
Class Domains := { lookup_domain : cstr -> option (list (Z * cstr)) }.

(** ** Addresses *)

Definition trim (s : cstr) : cstr := List.rev (skip_while isspace (List.rev (skip_while isspace s))).

(** The digits of a mask, as a 64-bit number. *)
Definition mask_value (m : cstr) : Z := fold_left (fun v c => s64 (v * 10 + (c - 48))) m 0.

Definition same_24 (a b : list Z) : bool := bool_decide (take 3 a = take 3 b).

(** 2 for a range within one /24, 1 for an address with its mask, 0 for anything else. *)
Definition check_string (str : cstr) (outlen : nat) : Z * cstr :=
  let s := trim str in
  match s with
  | [] => (0, [])
  | _ =>
      match strchr s (chr "-") with
      | Some d =>
          let l := take d s in
          let r := drop (S d) s in
          if bool_decide (is_Some (strchr r (chr "-"))) || existsb isspace s then (0, [])
          else if (d =? 0)%nat || (length r =? 0)%nat || (16 <=? d)%nat || (16 <=? length r)%nat then (0, [])
          else
            match inet_pton l, inet_pton r with
            | Some a, Some b =>
                if negb (same_24 a b) || (outlen <? length s + 1)%nat then (0, []) else (2, s)
            | _, _ => (0, [])
            end
      | None =>
          let '(ip, mask) :=
            match strchr s (chr "/") with
            | Some i => (take i s, Some (skip_while isspace (drop (S i) s)))
            | None => (s, None)
            end in
          let ip := List.rev (skip_while isspace (List.rev ip)) in
          if (length ip =? 0)%nat || (16 <=? length ip)%nat then (0, [])
          else if match mask with Some m => (length m =? 0)%nat || negb (forallb isdigit m) | None => false end then (0, [])
          else
            match inet_pton ip with
            | None => (0, [])
            | Some _ =>
                let v := match mask with Some m => mask_value m | None => -1 end in
                let v := if (v <? 0) || (32 <? v) then 32 else v in
                (1, snprintf outlen (ip ++ chr "/" :: print_d v))
            end
      end
  end.

Section Ops.
Context {nv : Nvram} {build : Build} {cfg : Config} {domains : Domains}.

Definition eq_ip (a b : Z * cstr) : bool := (a.1 =? b.1) && strcmp_eq a.2 b.2.

Fixpoint dedup (seen l : list (Z * cstr)) : list (Z * cstr) :=
  match l with
  | [] => seen
  | x :: l => dedup (if existsb (eq_ip x) seen then seen else seen ++ [x]) l
  end.

(** Which results count: with IPv6 built in but not enabled the test is missing. *)
Definition usable_family (on : bool) (x : Z * cstr) : bool :=
  if holds (Def "TCONFIG_IPV6")
  then (if on then (x.1 =? AF_INET) || (x.1 =? AF_INET6) else true)
  else x.1 =? AF_INET.

Definition resolve_fqdn (on : bool) (host : cstr) : option (list (Z * cstr)) :=
  match lookup_domain host with
  | None => None
  | Some l =>
      match dedup [] (List.filter (usable_family on) (map (fun x => (x.1, strlcpy 46 x.2)) l)) with
      | [] => None
      | l => Some l
      end
  end.

(** ** Rules *)

Definition getNVRAMVar (before : string) (unit : Z) (after : string) : cstr :=
  nvram_safe_get (snprintf 256 (bytes before ++ print_d unit ++ bytes after)).

Definition reject4 : target := Jump !"REJECT --reject-with icmp-port-unreachable".
Definition reject6 : target := Jump !"REJECT --reject-with icmp6-port-unreachable".

(** The text up to its third dot, or up to a dash. *)
Fixpoint three_octets (room dots : nat) (s : cstr) : cstr :=
  match room, s with
  | S room, c :: s =>
      if c =? chr "-" then []
      else if c =? chr "." then
        match dots with O => [c] | S dots => c :: three_octets room dots s end
      else c :: three_octets room dots s
  | _, _ => []
  end.

Definition network_part (ip : cstr) : cstr :=
  let ip := snprintf 64 ip in
  match strrchr ip (chr ".") with Some i => take (S i) ip | None => ip end.

(** "From Source IP": the bridges whose network has the address. *)
Definition source_rules (val wan_if : cstr) : list line :=
  omap (fun br =>
    let lan_ip := bridge_nvram_get br !"ipaddr" 64 in
    if (char_at lan_ip 0 =? 0) || negb (strcmp_eq (three_octets 63 2 val) (network_part lan_ip)) then None
    else
      match check_string val 64 with
      | (0, _) => None
      | (r, sip) =>
          let cond := snprintf 64 (if r =? 2 then !"-m iprange --src-range" +++ sip else !"-s" +++ sip) in
          Some (Insert !"FORWARD" None [Match cond; In (!"br" ++ print_d br); Out wan_if] reject4)
      end) bridges.

(** The pair of rules for one destination: not past the VPN, and not to the WAN. *)
Definition dest_rules (dst vpn_if wan_if : cstr) (reject : target) : list line :=
  [Insert !"FORWARD" None [Match (!"-d" +++ dst); Match (!"! -o" +++ vpn_if)] reject;
   Insert !"FORWARD" None [Match (!"-d" +++ dst); Out wan_if] reject].

(** "To Destination IP" and "To Domain": the rules, and the line for the file of
    domains with its flag, if the value is a domain. *)
Definition destination_rules (on : bool) (val vpn_if wan_if : cstr) : list write * option (cstr * bool) :=
  match check_string val 64 with
  | (0, _) =>
      match resolve_fqdn on val with
      | None => ([], Some (val +++ vpn_if +++ wan_if, true))
      | Some addrs =>
          (concat (map (fun a =>
             if a.1 =? AF_INET then ipt_write (dest_rules (a.2 ++ !"/32") vpn_if wan_if reject4)
             else if on && (a.1 =? AF_INET6) then ip6t_write (dest_rules (a.2 ++ !"/128") vpn_if wan_if reject6)
             else []) addrs),
           Some (val +++ vpn_if +++ wan_if, false))
      end
  | (1, sip) => (ipt_write (dest_rules sip vpn_if wan_if reject4), None)
  | _ => ([], None)
  end.

(** One rule for one WAN. *)
Definition policy_rules (on : bool) (policy_type : Z) (value vpn_if wan_if : cstr) : list write * option (cstr * bool) :=
  let val := snprintf 64 value in
  if policy_type =? 1 then (ipt_write (source_rules val wan_if), None)
  else if (policy_type =? 2) || (policy_type =? 3) then destination_rules on val vpn_if wan_if
  else ([], None).

(** The type and the value of an enabled rule with the switch on. *)
Definition parse_policy (b : cstr) : option (Z * cstr) :=
  match vstrsep 4 (chr "<") b with
  | [enable; type; value; kswitch] =>
      if negb (atoi enable =? 1) || negb (atoi kswitch =? 1) || (char_at value 0 =? 0) then None
      else Some (atoi type, value)
  | _ => None
  end.

(** The interfaces of the WANs that are not disabled. *)
Definition wan_ifs : list cstr :=
  omap (fun u =>
    let prefix := get_wan_prefix u 6 in
    let wan_if := snprintf 16 (get_wanface prefix) in
    if (get_wanx_proto prefix =? 0) || (char_at wan_if 0 =? 0) then None else Some wan_if)
    (upto 1 mwan_active_num).

(** A VPN client in a policy mode: its rules and its interface. *)
Record client := { vpn_if : cstr; policies : list (Z * cstr) }.

Definition ovpn_client (unit : Z) : option client :=
  if (atoi (getNVRAMVar "vpnc" unit "_rgw") <? VPN_RGW_POLICY)
     || negb (strcmp_eq (getNVRAMVar "vpnc" unit "_if") !"tun") then None
  else Some {| vpn_if := snprintf 64 (!"tun1" ++ print_d unit);
               policies := omap parse_policy (strsep (chr ">") (getNVRAMVar "vpnc" unit "_routing_val")) |}.

Definition wg_client (unit : Z) : option client :=
  if (atoi (getNVRAMVar "wg" unit "_rgwr") <? VPN_RGW_POLICY) || (atoi (getNVRAMVar "wg" unit "_com") <? 3) then None
  else Some {| vpn_if := snprintf 64 (!"wg" ++ print_d unit);
               policies := omap parse_policy (strsep (chr ">") (getNVRAMVar "wg" unit "_routing_val")) |}.

Definition OVPN_CLIENT_MAX : Z := if holds (Def "TCONFIG_BCMARM") then 3 else 2.

Definition clients : list client :=
  (if holds (Def "TCONFIG_OPENVPN") then omap ovpn_client (upto 1 OVPN_CLIENT_MAX) else []) ++
  (if holds (Def "TCONFIG_WIREGUARD") then omap wg_client (upto 0 (WG_INTERFACE_MAX + 1)) else []).

Definition client_rules (on : bool) (c : client) : list (list write * option (cstr * bool)) :=
  concat (map (fun p => map (policy_rules on p.1 p.2 (vpn_if c)) wan_ifs) (policies c)).

(** The rules, and the file of domains: its lines, each with whether the domain still
    has to be added. *)
Definition kill_switch (on : bool) : list write * list (cstr * bool) :=
  let l := concat (map (client_rules on) clients) in
  (concat (map fst l), omap snd l).

End Ops.

End KillSwitch.
