(* ===== verification/Bwlimit.v ===== *)
(** The bandwidth limiter: src/tomato64/package/rc/rc/bwlimit.c.

    [ipt_bwlimit] marks the packets of the limited addresses in the packet filter,
    [start_bwlimit] writes a script with the traffic classes and the filters that find
    the packets by their marks. *)

From Stdlib Require Import ZArith Lia.
From stdpp Require Import base list strings.
From S2P Require Import Prelude Scan Nvram Inet BuildConfig SaveVars Rules FwEnv.

Local Open Scope Z_scope.
Local Open Scope rule_scope.

Module Bwlimit.
Import Scan Nvram Inet BuildConfig SaveVars Rules FwEnv.

Inductive address_type := IP_ADDRESS | MAC_ADDRESS | IP_RANGE.

(** The kind of an address and its text in a buffer of [buf_sz] bytes; a range in short
    notation gets the network of its start. Nothing when the code follows a null
    pointer (no dot) or leaves the buffer. *)
Definition address_checker (old : cstr) (buf_sz : nat) : option (address_type * cstr) :=
  match strchr old (chr "-") with
  | None =>
      Some (if (length old =? 17)%nat then MAC_ADDRESS else IP_ADDRESS, strlcpy buf_sz old)
  | Some minus =>
      let rest := drop (S minus) old in
      match strchr rest (chr ".") with
      | Some _ => Some (IP_RANGE, strlcpy buf_sz old)
      | None =>
          match strrchr old (chr ".") with
          | None => None
          | Some dot =>
              if (buf_sz <=? minus + dot + 2)%nat then None
              else Some (IP_RANGE, take (S minus) old ++ take (S dot) old
                                   ++ strlcpy (buf_sz - minus - dot - 2) rest)
          end
      end
  end.

(** ** The list of limits *)

(** The fields of a rule, new form or old. *)
Record limit := {
  lm_addr : cstr;
  dlrate : cstr;
  dlceil : cstr;
  ulrate : cstr;
  ulceil : cstr;
  priority : Z;
  tcplimit : cstr;
  udplimit : cstr }.

Definition mk_limit (ip dr dc ur uc pr tl ul : cstr) : option limit :=
  let n := atoi pr in
  if (n <? 0) || (5 <? n) then None
  else match ip with
       | [] => None
       | _ => Some {| lm_addr := ip; dlrate := dr; dlceil := dc; ulrate := ur; ulceil := uc; priority := n;
                      tcplimit := tl; udplimit := ul |}
       end.

Definition parse_limit (p : cstr) : option limit :=
  match vstrsep 10 (chr "<") p with
  | [enabled; ip; dr; dc; ur; uc; pr; tl; ul; description] =>
      if negb (char_at enabled 0 =? 0) && negb (atoi enabled =? 1) then None
      else mk_limit ip dr dc ur uc pr tl ul
  | _ =>
      match vstrsep 8 (chr "<") (strlcpy 128 p) with
      | [ip; dr; dc; ur; uc; pr; tl; ul] => mk_limit ip dr dc ur uc pr tl ul
      | _ => None
      end
  end.

Section Ops.
Context {nv : Nvram} {cfg : Config}.

Definition limits : list limit := omap parse_limit (strsep (chr ">") (nvram_safe_get !"bwl_rules")).

(** The mark of the [n]-th limit, from 1. *)
Definition limit_mark (n : Z) : Z := s32 (Z.shiftl n 20).

Definition hex (n : Z) : cstr := !"0x" ++ print_u 16 (u32 n).

Definition both (rate ceil : cstr) : bool :=
  match rate with [] => false | _ => match (match ceil with [] => rate | _ => ceil end) with [] => false | _ => true end end.

Definition mark (n : cstr) : target := Jump (!"MARK --set-mark" +++ n).

Definition net (ip mask : cstr) : cstr := ip ++ chr "/" :: mask.

(** The condition on the source or the destination of a limited address. *)
Definition from_addr (t : address_type) (ip : cstr) : cstr :=
  match t with
  | IP_ADDRESS => !"-s" +++ ip
  | MAC_ADDRESS => !"-m mac --mac-source" +++ ip
  | IP_RANGE => !"-m iprange --src-range" +++ ip
  end.

(** The packets of one limit are marked, the [n]-th. *)
Definition mangle_limit (n : Z) (l : limit) (t : address_type) (ip : cstr) : list line :=
  let lan := net (nvram_safe_get !"lan_ipaddr") (nvram_safe_get !"lan_netmask") in
  let seq := snprintf 32 (hex (limit_mark n) ++ !"/0xff00000") in
  (if both (dlrate l) (dlceil l) then
     match t with
     | IP_ADDRESS => [Append !"POSTROUTING" [Match (!"! -s" +++ lan); Match (!"-d" +++ ip)] (mark seq)]
     | MAC_ADDRESS => []
     | IP_RANGE =>
         [Append !"POSTROUTING" [Match (!"! -s" +++ lan); Match (!"-m iprange --dst-range" +++ ip)] (mark seq)]
     end
   else []) ++
  (if both (ulrate l) (ulceil l) then
     [Append !"PREROUTING"
        ([Match (from_addr t ip); Match (!"! -d" +++ lan)]
           ++ match t with MAC_ADDRESS => [Match []] | _ => [] end) (mark seq)]
   else []).

Definition tcp_limit (chain : string) (cond limit : cstr) : line :=
  Append (bytes chain) [Match cond; Match !"-p tcp --syn"; Match (!"-m connlimit --connlimit-above" +++ limit)]
    (Jump !"DROP").

Definition udp_limit (cond limit : cstr) : line :=
  Append !"PREROUTING" [Match cond; Match !"-p udp"; Match (!"-m limit --limit " ++ limit ++ !"/sec")] (Jump !"ACCEPT").

Definition arm : bool := holds (Def "TCONFIG_BCMARM").

Definition conn_limit (chain : Z) (l : limit) (t : address_type) (ip : cstr) : list line :=
  (if 0 <? atoi (tcplimit l) then
     (if chain =? (if arm then 3 else 2)
      then [tcp_limit (if arm then "FORWARD" else "PREROUTING") (from_addr t ip) (tcplimit l)] else [])
   else []) ++
  (if (0 <? atoi (udplimit l)) && (chain =? 2) then [udp_limit (from_addr t ip) (udplimit l)] else []).

(** The rules of the [n]-th limit for a chain: 1 mangle, 2 nat, 3 filter. *)
Definition limit_rules (chain n : Z) (l : limit) : option (list line) :=
  '(t, ip) ← address_checker (lm_addr l) 32;
  Some ((if chain =? 1 then mangle_limit n l t ip else []) ++ conn_limit chain l t ip).

(** Whole bridges. *)
Definition bridge_marks (ip mask : cstr) (i : Z) : list line :=
  let lan := net ip mask in
  let m := mark (!"0x" ++ print_d i ++ !"0/0xf0") in
  [Append !"POSTROUTING" [Match (!"! -s" +++ lan); Match (!"-d" +++ lan)] m;
   Append !"PREROUTING" [Match (!"-s" +++ lan); Match (!"! -d" +++ lan)] m].

Definition limited_bridge (i : Z) : bool :=
  nvram_get_int (snprintf 16 (!"bwl_lan" ++ print_d i ++ !"_enable")) =? 1.

Definition bridge_rules (chain : Z) : list line :=
  let lan := net (nvram_safe_get !"lan_ipaddr") (nvram_safe_get !"lan_netmask") in
  let on := nvram_get_int !"bwl_lan_enable" =? 1 in
  let tcp := nvram_safe_get !"bwl_lan_tcp" in
  let tcp_on := 0 <? nvram_get_int !"bwl_lan_tcp" in
  if chain =? 1 then
    (if on then bridge_marks (nvram_safe_get !"lan_ipaddr") (nvram_safe_get !"lan_netmask") 1 else []) ++
    concat (map (fun i => if limited_bridge i
      then bridge_marks (bridge_nvram_get i !"ipaddr" 16) (bridge_nvram_get i !"netmask" 16) (i + 1) else [])
      (upto 1 (BRIDGE_COUNT - 1)))
  else if chain =? 2 then
    if on then
      (if negb arm && tcp_on then [tcp_limit "PREROUTING" (!"-s" +++ lan) tcp] else []) ++
      (if 0 <? nvram_get_int !"bwl_lan_udp" then [udp_limit (!"-s" +++ lan) (nvram_safe_get !"bwl_lan_udp")] else [])
    else []
  else if arm && on && tcp_on then [tcp_limit "FORWARD" (!"-s" +++ lan) tcp]
  else [].

Fixpoint all_limits {A} (f : Z -> limit -> option (list A)) (n : Z) (ls : list limit) : option (list A) :=
  match ls with
  | [] => Some []
  | l :: ls => x ← f n l; y ← all_limits f (n + 1) ls; Some (x ++ y)
  end.

Definition ipt_bwlimit (chain : Z) : option (list write) :=
  if nvram_get_int !"bwl_enable" =? 0 then Some []
  else ls ← all_limits (limit_rules chain) 1 limits; Some (ipt_write (bridge_rules chain ++ ls)).

End Ops.

End Bwlimit.
