(* ===== verification/Pbr.v ===== *)
(** Policy routing: [ipt_routerpolicy] of src/tomato64/package/rc/rc/pbr.c
    ([mwan_pbr_update] is in Mwan.v).

    With more than one WAN every WAN has a chain in the mangle table that marks new
    connections for it; the rules of [pbr_rules] send the packets of a LAN into these
    chains. *)

From Stdlib Require Import ZArith Lia.
From stdpp Require Import base list strings.
From S2P Require Import Prelude Scan Nvram Inet Wan BuildConfig SaveVars Rules FwEnv KillSwitch.

Local Open Scope Z_scope.
Local Open Scope rule_scope.

Module Pbr.
Import Scan Nvram Inet Wan BuildConfig SaveVars Rules FwEnv KillSwitch.

Definition wan_chain (u : Z) : cstr := !"WAN_" ++ print_d u.

Section Ops.
Context {nv : Nvram} {build : Build} {links : Links} {domains : Domains}.

(** ** The chains of the WANs *)

Definition wan_chain_rules (u : Z) : list line :=
  let prefix := get_wan_prefix u 6 in
  Chain (wan_chain u) user ::
  (if (check_wanup prefix).1 =? 0 then []
   else
     [Append (wan_chain u) [Match !"-m conntrack --ctstate NEW"]
        (Jump (!"CONNMARK --set-mark 0x" ++ print_d u ++ !"00/0xf00"));
      Append (wan_chain u) [Match !"-m conntrack --ctstate NEW"] (Jump !"CONNMARK --restore-mark --mask 0xf00");
      Append !"PREROUTING" [In (get_wanface prefix)] (Jump (wan_chain u));
      Append !"POSTROUTING" [Out (get_wanface prefix)] (Jump (wan_chain u))]).

Definition pbr_chain : list line :=
  [Chain !"WAN_PBR" user;
   Append !"WAN_PBR" [State !"RELATED,ESTABLISHED"] (Jump !"RETURN");
   Append !"PREROUTING" [In !"br+"] (Jump !"WAN_PBR");
   Append !"PREROUTING" [In !"br+"; Match !"-m conntrack --ctstate ESTABLISHED,RELATED"]
     (Jump !"CONNMARK --restore-mark --mask 0xf00");
   Append !"OUTPUT" [Match !"-m conntrack --ctstate ESTABLISHED,RELATED"]
     (Jump !"CONNMARK --restore-mark --mask 0xf00")].

(** ** The rules *)

(** An active rule with a WAN that exists: protocol, source, destination and ports; the
    source is none when the rule is for all, in which case the buffer keeps its last
    contents. *)
Record policy := {
  pb_proto : Z;
  pb_src : option cstr;
  pb_sport : cstr;
  pb_dtype : Z;
  pb_dst : cstr;
  pb_dport : cstr;
  pb_wan : Z }.

(** The active records; the WAN is still to be looked at. *)
Definition parse_policy (b : cstr) : option policy :=
  match vstrsep 10 (chr "<") b with
  | [active; proto; stype; saddr; sport; dtype; daddr; dport; wanx; desc] =>
      if negb (char_at active 0 =? chr "1") then None
      else Some {|
        pb_proto := atoi proto;
        pb_src := if atoi stype =? 1 then Some (snprintf 192 (!"-s" +++ saddr))
                  else if atoi stype =? 2 then Some (snprintf 192 (!"-m mac --mac-source" +++ saddr)) else None;
        pb_sport := sport; pb_dtype := atoi dtype; pb_dst := daddr; pb_dport := dport; pb_wan := atoi wanx |}
  | _ => None
  end.

(** The destinations: one for an address, one for each address of a domain, none when it
    cannot be resolved. *)
Definition destinations (p : policy) : list cstr :=
  if pb_dtype p =? 3 then
    match inet_pton (pb_dst p) with
    | Some a => [!"-d" +++ inet_ntoa a]
    | None =>
        map (fun x => !"-d" +++ x.2)
          (List.filter (fun x => x.1 =? AF_INET) (default [] (lookup_domain (pb_dst p))))
    end
  else if pb_dtype p =? 0 then [[]]
  else [snprintf 192 (!"-d" +++ pb_dst p)].

Definition port_cond (multi single : string) (port : cstr) : cstr :=
  match port with
  | [] => []
  | _ => (match strchr port (chr ",") with Some _ => bytes multi | None => bytes single end) ++ port
  end.

(** The rules for one destination. *)
Definition policy_lines (p : policy) (msrt mdst : cstr) : list line :=
  let jump := Jump (wan_chain (pb_wan p)) in
  let n := pb_proto p in
  if n <=? -2 then [Append !"WAN_PBR" [Match msrt; Match mdst] jump]
  else if (n =? 6) || (n =? 17) || (n =? -1) then
    let one proto := Append !"WAN_PBR"
      [Match (!"-p" +++ proto);
       Match (msrt ++ port_cond " -m multiport --sports " " --sport " (pb_sport p));
       Match (mdst ++ port_cond " -m multiport --dports " " --dport " (pb_dport p))] jump in
    (if n =? 6 then [] else [one !"udp"]) ++ (if n =? 17 then [] else [one !"tcp"])
  else [Append !"WAN_PBR" [Match (!"-p" +++ print_d n); Match msrt; Match mdst] jump].

(** The records in order; [msrt] is the buffer of the source, none before it is first
    written. Nothing when a rule uses the buffer before. *)
Fixpoint policy_rules (mwan_num : Z) (msrt : option cstr) (l : list policy) : option (list line) :=
  match l with
  | [] => Some []
  | p :: l =>
      let msrt := match pb_src p with Some s => Some s | None => msrt end in
      if (1 <=? pb_wan p) && (pb_wan p <=? mwan_num) then
        match destinations p, msrt with
        | [], _ => policy_rules mwan_num msrt l
        | ds, Some s =>
            rest ← policy_rules mwan_num msrt l;
            Some (concat (map (policy_lines p s) ds) ++ rest)
        | _, None => None
        end
      else policy_rules mwan_num msrt l
  end.

Definition policies : list policy := omap parse_policy (strsep (chr ">") (nvram_safe_get !"pbr_rules")).

Definition ipt_routerpolicy : option (list write) :=
  let mwan_num := mwan_active_num in
  if mwan_num <=? 1 then Some []
  else
    rules ← policy_rules mwan_num None policies;
    Some (ipt_write (concat (map wan_chain_rules (upto 1 mwan_num)) ++ pbr_chain ++ rules)).

End Ops.

End Pbr.
