(* ===== verification/Firewall.v ===== *)
(** The rule files of the packet filter: src/tomato64/package/rc/rc/firewall.c.

    [raw_table], [mangle_table], [nat_table] and [filter_table] write the four tables.
    What they call in other files is in Forward.v, RestrictRules.v, KillSwitch.v,
    Bwlimit.v and Pbr.v; the rules of the quality of service and of the quotas, which
    are in the mangle table only (Qos.v, Quotas.v), are arguments of [mangle_table]. *)

From Stdlib Require Import ZArith Lia.
From stdpp Require Import base list strings.
From S2P Require Import Prelude Scan Nvram Inet Wan BuildConfig Defaults SaveVars Rules Ndpi FwEnv.
From S2P Require Import Forward RestrictRules KillSwitch Bwlimit Pbr.

Local Open Scope Z_scope.
Local Open Scope rule_scope.

Module Firewall.
Import Scan Nvram Inet Wan BuildConfig Defaults SaveVars Rules Ndpi FwEnv.
Import Forward RestrictRules KillSwitch Bwlimit Pbr.

Definition on {A} (b : bool) (l : list A) : list A := if b then l else [].

(** What the tables ask of the system: whether the PPTP client runs. *)
Class Procs := { pptpclient_running : bool }.

Section Tables.
Context {nv : Nvram} {build : Build} {links : Links} {cfg : Config} {resolver : Resolver} {procs : Procs}.
Context (e : env).

Definition has (f : string) : bool := holds (Def f).

Definition faces : list wanface := map snd (all_faces e).
Definition up_faces : list wanface := map snd (List.filter fst (all_faces e)).

(** ** The raw table *)

Definition helper (chain : string) (cond name : string) : line :=
  Append (bytes chain) [Match (bytes cond)] (Jump (!"CT --helper" +++ bytes name)).

Definition raw_table : list write :=
  ipt_write (
    [Table !"raw"; Chain !"PREROUTING" !"ACCEPT"; Chain !"OUTPUT" !"ACCEPT"] ++
    on (negb (nvram_match !"nf_ftp" !"0")) [helper "PREROUTING" "-p tcp -m tcp --dport 21" "ftp"] ++
    on (negb (nvram_match !"nf_pptp" !"0")) [helper "PREROUTING" "-p tcp -m tcp --dport 1723" "pptp"] ++
    [helper "OUTPUT" "-p tcp -m tcp --dport 1723" "pptp"] ++
    on (negb (nvram_match !"nf_sip" !"0")) [helper "PREROUTING" "-p udp -m udp --dport 5060" "sip"] ++
    on (negb (nvram_match !"nf_rtsp" !"0")) [helper "PREROUTING" "-p tcp -m tcp --dport 554" "rtsp"] ++
    [Commit]).

(** ** The PPTP client *)

Definition pptpc_firewall (table : string) (opt : cstr) : list write :=
  let face := nvram_safe_get !"pptpc_iface" in
  let net := nvram_safe_get !"pptpc_srvsub" ++ chr "/" :: nvram_safe_get !"pptpc_srvsubmsk" in
  let dflroute := negb (nvram_get_int !"pptpc_dfltroute" =? 0) in
  let tab t := bool_decide (table = t) in
  if negb pptpclient_running || (char_at face 0 =? 0) || strcmp_eq face !"none" then []
  else if tab "INPUT"%string && dflroute then
    ipt_write [Append !"INPUT" [Match (!"-s" +++ net); In face] (Jump (in_accept (targets e)))]
  else if tab "OUTPUT"%string && dflroute then
    ipt_write [Append !"OUTPUT" [Match (!"-d" +++ net); Out face] (Jump (out_accept (targets e)))]
  else if tab "FORWARD"%string && dflroute then
    ipt_write [Append !"FORWARD" [Match (!"-d" +++ net); Out face] (Jump !"ACCEPT");
               Append !"FORWARD" [Match (!"-s" +++ net); In face] (Jump !"ACCEPT")]
  else if tab "POSTROUTING"%string && negb (nvram_get_int !"pptpc_nat" =? 0) then
    ipt_write [Append !"POSTROUTING" [Match opt; Out face]
      (if nvram_get_int !"ne_snat" =? 1 then Jump (!"SNAT --to-source" +++ nvram_safe_get !"pptpc_ipaddr")
       else Jump !"MASQUERADE")]
  else [].

(** ** The mangle table *)

(** How the TTL is changed: the word of the option and the number. *)
Definition ttl_option : option (string * Z) :=
  let p := nvram_safe_get !"nf_ttl" in
  if prefix_of_str !"c:" p then
    let ttl := atoi (drop 2 p) in
    if (0 <=? ttl) && (ttl <=? 255) then Some ("set"%string, ttl) else None
  else
    let ttl := atoi p in
    if ttl =? 0 then None
    else
      let '(w, t) := if 0 <? ttl then ("inc"%string, ttl) else ("dec"%string, s32 (- ttl)) in
      if 255 <? t then None else Some (w, t).

(** The first interface of each WAN that is up. *)
Definition primary_up : list cstr :=
  omap (fun w =>
    match w.2 with
    | f :: _ => if w.1 && negb (char_at (face_name f) 0 =? 0) then Some (face_name f) else None
    | [] => None
    end) (wans e).

Definition ttl_rules (w : string) (ttl : Z) (face : cstr) : list line :=
  let t := Jump (!"TTL --ttl-" ++ bytes w +++ print_d ttl) in
  [Insert !"PREROUTING" None [In face] t; Insert !"POSTROUTING" None [Out face] t].

Definition syn_cond : cond := Match !"-p tcp -m tcp --tcp-flags SYN,RST SYN".

Definition clamp (face : cstr) : list line :=
  let t := Jump !"TCPMSS --clamp-mss-to-pmtu" in
  [Insert !"FORWARD" None [Out face; syn_cond] t; Insert !"FORWARD" None [In face; syn_cond] t].

(** Packets from outside for a LAN address. *)
Definition lan_drop (chain : string) (f : wanface) : list line :=
  map (fun l => Append (bytes chain) [In (face_name f); Match (!"-d" +++ net (lanaddr l) (lanmask l))] (Jump !"DROP"))
    (first_or (fun l => negb (strcmp_eq (lanaddr l) []) && negb (strcmp_eq (lanmask l) [])) (lans e)).

Definition prefix_length (mask : Z) : Z :=
  Z.of_nat (List.length (List.filter (fun k => negb (u32 (Z.shiftl mask (Z.of_nat k)) =? 0)) (seq 0 32))).

(** [inet_addr]: all ones for text that is no address. *)
Definition inet_addr (s : cstr) : list Z := default [255; 255; 255; 255] (inet_aton s).

Definition big_endian (a : list Z) : Z := fold_left (fun v o => v * 256 + o) a 0.

Definition ip2class (lan_ip netmask : cstr) : cstr :=
  let val := inet_addr netmask in
  snprintf 32 (inet_ntoa (zip_with Z.land (inet_addr lan_ip) val) ++ chr "/" :: print_d (prefix_length (big_endian val))).

Definition loopback_marks : list line :=
  on ((nvram_get_int !"ctf_disable" =? 0) && (nvram_get_int !"nf_loopback" =? 0))
    (concat (map (fun l =>
       on (has_face l && negb (strcmp_eq (lanaddr l) []))
         (let c := ip2class (lanaddr l) (lanmask l) in
          [Append !"FORWARD" [Out (lanface l); Match (!"-s" +++ c); Match (!"-d" +++ c)]
             (Jump !"MARK --set-mark 0x01/0x7")])) (lans e)) ++
     [Append !"PREROUTING" [Match !"-p udp"; State !"NEW"] (Jump !"MARK --set-mark 0x01/0x7")]).

(** [qos] and [quotas] stand for the rules of [ipt_qos] and [ipt_quotas]; [bw] and
    [policy] for those of [ipt_bwlimit(1)] and [ipt_routerpolicy]. *)
Definition mangle_table (qos bw quotas policy : list write) : list write :=
  ip46t_write (ipv6 e) [Table !"mangle"; Chain !"PREROUTING" !"ACCEPT"; Chain !"OUTPUT" !"ACCEPT"] ++
  on (is_anywanup e)
    (qos ++ bw ++ quotas ++
     match ttl_option with
     | Some (w, ttl) => ipt_write (concat (map (ttl_rules w ttl) primary_up))
     | None => []
     end ++
     on (nvram_match !"DSCP_fix_enable" !"1")
       (ipt_write (map (fun f => Insert !"PREROUTING" None [In f] (Jump !"DSCP --set-dscp 0")) primary_up))) ++
  on (nvram_get_int !"tcp_clamp_disable" =? 0)
    (ipt_write (concat (map (fun f => clamp (face_name f)) faces)) ++
     on (has "TCONFIG_IPV6" && ipv6 e && negb (char_at (wan6face e) 0 =? 0)) (ip6t_write (clamp (wan6face e)))) ++
  on (has "TCONFIG_BCMARM")
    (ipt_write (loopback_marks ++ concat (map (lan_drop "PREROUTING") up_faces))) ++
  policy ++
  ip46t_write (ipv6 e) [Commit].

(** ** The nat table *)

(** The rule of a record for each of a list of source addresses. *)
Definition for_sources (l : cstr) (source : cstr -> Z * cstr) (rules : cstr -> list line) : list line :=
  concat (map (fun p => let '(ok, src) := source p in if ok =? 0 then [] else rules src) (addresses (strlcpy 512 l))).

Definition is_br (f : cstr) : bool := prefix_of_str !"br" f.

(** Access from outside although there is a DMZ. *)
Definition dmz_ra_rules : list line :=
  concat (map (fun p =>
    let src := (ipt_source p).2 in
    on (remotemanage e)
      [Append chain_wan_prerouting [Match !"-p tcp -m tcp"; Match src; Match (!"--dport" +++ nvram_safe_get !"http_wanport")]
         (Jump (!"DNAT --to-destination " ++ lanaddr (lan0 e) ++ chr ":" :: print_d (web_lanport e)))] ++
    on (negb (nvram_get_int !"sshd_remote" =? 0))
      [Append chain_wan_prerouting [Match !"-p tcp -m tcp"; Match src; Match (!"--dport" +++ nvram_safe_get !"sshd_rport")]
         (Jump (!"DNAT --to-destination " ++ lanaddr (lan0 e) ++ chr ":" :: nvram_safe_get !"sshd_port"))])
    (addresses (strlcpy 512 (nvram_safe_get !"rmgt_sip")))).

Definition full_cone : bool := has "TCONFIG_FULLCONENAT" && (nvram_get_int !"ne_snat" =? 2).

Definition upnp_on : bool := negb (Z.land (nvram_get_int !"upnp_enable") 3 =? 0).

(** The desired state of the Tor client. *)
Definition tor_runtime_enabled : bool :=
  let '(n, state) := f_read_string !"/var/run/tor.state" 2 in
  if (0 <? n) && (char_at state 0 =? chr "0") then false
  else if (0 <? n) && (char_at state 0 =? chr "1") then true
  else negb (nvram_get_int !"tor_enable" =? 0).

Definition tor_target (l : cstr * cstr * cstr) : target :=
  Jump (!"DNAT --to-destination " ++ lanaddr l ++ chr ":" :: nvram_safe_get !"tor_transport").

Definition tor_cond (l : cstr * cstr * cstr) : list cond :=
  [Match !"-p tcp";
   Match (!"-m multiport --dport" +++
     (if nvram_match !"tor_ports" !"custom" then nvram_safe_get !"tor_ports_custom" else nvram_safe_get !"tor_ports"));
   Match (!"! -d" +++ lanaddr l)].

(** The bridge that Tor serves, if it serves a whole one. *)
Definition tor_bridge : option (cstr * cstr * cstr) :=
  first_some (fun x =>
    if nvram_match !"tor_iface" (!"br" ++ print_d x.1) && (negb (strcmp_eq (lanaddr x.2) []) || (x.1 =? 0))
    then Some x.2 else None) (zip bridges (lans e)).

Definition tor_rules : list line :=
  on (tor_runtime_enabled && (nvram_get_int !"tor_solve_only" =? 0))
    match tor_bridge with
    | Some l => [Append !"PREROUTING" (In (nvram_safe_get !"tor_iface") :: tor_cond l) (tor_target l)]
    | None =>
        for_sources (nvram_safe_get !"tor_users") ipt_source_strict
          (fun src => [Append !"PREROUTING" (Match src :: tor_cond (lan0 e)) (tor_target (lan0 e))])
    end.

Definition dmz_rules : list line :=
  match dmz_dst with
  | Some dst =>
      for_sources (nvram_safe_get !"dmz_sip") ipt_source_strict
        (fun src => [Append chain_wan_prerouting [Match src] (Jump (!"DNAT --to-destination" +++ dst))])
  | None => []
  end.

(** The rules of one WAN for packets that leave. *)
Definition foreach_wan_nat (wanXup : bool) (wanXfaces : list wanface) (p : cstr) : list line :=
  map (fun f =>
    Append !"POSTROUTING" [Match p; Out (face_name f)]
      (if wanXup && full_cone then Jump !"FULLCONENAT"
       else if negb wanXup || negb (nvram_get_int !"ne_snat" =? 1) then Jump !"MASQUERADE"
       else Jump (!"SNAT --to-source" +++ face_ip f))) (named wanXfaces).

(** The web page of a modem behind a WAN; [sta] tells whether a radio is a client. *)
Definition modem_rules (sta : bool) : list line :=
  omap (fun j =>
    let name := get_wan_prefix j 8 in
    let proto := get_wanx_proto name in
    if negb ((proto =? WP_PPPOE) || (proto =? WP_DHCP) || (proto =? WP_STATIC)) then None
    else
      let b := prefix_nvram_get name !"modem_ipaddr" 24 in
      if (char_at b 0 =? 0) || prefix_nvram_match name !"modem_ipaddr" !"0.0.0.0" 24 || sta then None
      else Some (Append !"POSTROUTING" [Out (prefix_nvram_get name !"ifname" 24); Match (!"-d" +++ b)] (Jump !"MASQUERADE")))
    (upto 1 (Z.of_nat (length (wans e)))).

Definition loopback_rules : list line :=
  let n := nvram_get_int !"nf_loopback" in
  on (negb ((n =? 1) || (n =? 2)))
    (map (fun l => Append !"POSTROUTING"
       [Out (lanface l); Match (!"-s" +++ net (lanaddr l) (lanmask l)); Match (!"-d" +++ net (lanaddr l) (lanmask l))]
       (Jump (!"SNAT --to-source" +++ lanaddr l)))
       (first_or (fun l => has_face l && negb (strcmp_eq (lanmask l) [])) (lans e))).

Definition wan_prerouting (f : bool * wanface) : list line :=
  on f.1 [Append !"PREROUTING" [Match (!"-d" +++ face_ip f.2)] (Jump chain_wan_prerouting)] ++
  on (negb (has "TCONFIG_BCMARM")) (lan_drop "PREROUTING" f.2).

Definition redirect_rules : list line :=
  on (nvram_match !"dns_intcpt" !"1")
    [Append !"PREROUTING" [In !"br+"; Match !"-p tcp -m tcp --dport 53"] (Jump !"REDIRECT");
     Append !"PREROUTING" [In !"br+"; Match !"-p udp -m udp --dport 53"] (Jump !"REDIRECT")] ++
  on (negb (nvram_get_int !"ntpd_enable" =? 0) && negb (nvram_get_int !"ntpd_server_redir" =? 0))
    [Append !"PREROUTING" [In !"br+"; Match !"-p udp -m udp --dport 123"] (Jump !"REDIRECT")] ++
  [Append chain_wan_prerouting [Match !"-p icmp"] (Jump (!"DNAT --to-destination" +++ lanaddr (lan0 e)))].

Definition upnp_rules : list line :=
  on upnp_on
    ([Chain !"upnp" user; Chain !"pupnp" user] ++
     map (fun f : bool * wanface => Append !"PREROUTING"
       [if f.1 then Match (!"-d" +++ face_ip f.2) else In (face_name f.2)] (Jump !"upnp")) (all_faces e)).

Definition nat_table (bw : list write) (sta : bool) : list write :=
  let up := is_anywanup e in
  ipt_write [Table !"nat"; Chain !"PREROUTING" !"ACCEPT"; Chain !"POSTROUTING" !"ACCEPT"; Chain !"OUTPUT" !"ACCEPT";
             Chain chain_wan_prerouting user] ++
  bw ++
  ipt_write (concat (map wan_prerouting (all_faces e))) ++
  on up
    (ipt_write (redirect_rules ++ on (has "TCONFIG_DMZ" && dmz_remote_access) dmz_ra_rules) ++
     ipt_forward e IPT_TABLE_NAT ++ ipt_triggered IPT_TABLE_NAT) ++
  ipt_write (
    upnp_rules ++
    on full_cone (map (fun f => Append !"PREROUTING" [In (face_name f)] (Jump !"FULLCONENAT")) up_faces) ++
    on (has "TCONFIG_TOR") tor_rules ++
    on (has "TCONFIG_SNMP" && nvram_match !"snmp_enable" !"1" && nvram_match !"snmp_remote" !"1")
      [Append chain_wan_prerouting [Match !"-p udp"; Match (!"--dport" +++ nvram_safe_get !"snmp_port")]
         (Jump (!"DNAT --to-destination" +++ lanaddr (lan0 e)))] ++
    on (up && has "TCONFIG_DMZ") dmz_rules) ++
  (let p := if has "TCONFIG_IPV6" && (get_ipv6_service =? 4) then !"! -p 41" else [] in
   ipt_write (concat (map (fun w : bool * list wanface => foreach_wan_nat w.1 w.2 p) (wans e))) ++
   on (has "TCONFIG_PPTPD") (pptpc_firewall "POSTROUTING" p)) ++
  ipt_write (modem_rules sta ++ loopback_rules ++ [Commit]).

End Tables.

End Firewall.
