(* ===== verification/Filter.v ===== *)
(** The filter table: [filter_log], [filter_input], [filter6_input], [filter_forward] and
    [filter_table] of src/tomato64/package/rc/rc/firewall.c, and the rules of
    accounting and of the web monitor.

    Both chains start from the policy DROP; what is not accepted by a rule is dropped. *)

From Stdlib Require Import ZArith Lia.
From stdpp Require Import base list strings.
From S2P Require Import Prelude Scan Nvram Inet Wan BuildConfig Defaults SaveVars Rules Ndpi FwEnv.
From S2P Require Import Forward RestrictRules KillSwitch Bwlimit Pbr Firewall.

Local Open Scope Z_scope.
Local Open Scope rule_scope.

Module Filter.
Import Scan Nvram Inet Wan BuildConfig Defaults SaveVars Rules Ndpi FwEnv.
Import Forward RestrictRules KillSwitch Bwlimit Pbr Firewall.

(** The message types of ICMPv6 that are let through, and those accepted from the link. *)
Definition allowed_icmpv6 : list Z := [1; 2; 3; 4; 128; 129].
Definition allowed_local_icmpv6 : list Z := [130; 131; 132; 133; 134; 135; 136; 141; 142; 143; 148; 149; 151; 152; 153].

Section Chains.
Context {nv : Nvram} {build : Build} {links : Links} {cfg : Config} {resolver : Resolver} {procs : Procs}.
Context (e : env).

Definition input (m : list cond) (t : cstr) : line := Append !"INPUT" m (Jump t).
Definition fwd (m : list cond) (t : cstr) : line := Append !"FORWARD" m (Jump t).

(** ** Logging *)

Definition log_options : cstr := !"--log-macdecode --log-tcp-sequence --log-tcp-options --log-ip-options".

Definition log_target (prefix : string) : target :=
  Jump (!"LOG --log-prefix" +++ quoted (bytes prefix) +++ log_options).

Definition filter_log : list line :=
  let n := nvram_get_int !"log_limit" in
  let limit := if (1 <=? n) && (n <=? 9999) then !"-m limit --limit " ++ print_d n ++ !"/m" else [] in
  let logs t := char_at t 0 =? chr "l" in
  on (logs (in_drop (targets e)) || logs (out_drop (targets e)))
    [Chain !"logdrop" user;
     Append !"logdrop" [State !"NEW"; Match limit] (log_target "DROP ");
     Append !"logdrop" [] (Jump !"DROP");
     Chain !"logreject" user;
     Append !"logreject" [Match limit] (log_target "REJECT ");
     Append !"logreject" [Match !"-p tcp"] (Jump !"REJECT --reject-with tcp-reset")] ++
  on (logs (in_accept (targets e)) || logs (out_accept (targets e)))
    [Chain !"logaccept" user;
     Append !"logaccept" [State !"NEW"; Match limit] (log_target "ACCEPT ");
     Append !"logaccept" [] (Jump !"ACCEPT")].

(** ** INPUT *)

(** Own addresses of the WANs, from the bridges. *)
Definition foreach_wan_input (w : bool * list wanface) : list line :=
  on (negb (nvram_get_int !"nf_loopback" =? 0) && w.1)
    (concat (map (fun f => map (fun l => input [In (lanface l); Match (!"-d" +++ face_ip f)] !"DROP")
       (first_or has_face (lans e))) (named w.2))).

(** A chain that counts the packets of a port and drops those above a rate. *)
Definition limit_chain (chain name : string) (hits : Z) (sec : cstr) : list line :=
  [NewChain (bytes chain);
   Append (bytes chain) [Match (!"-m recent --set --name" +++ bytes name)] Count;
   Append (bytes chain) [Match (!"-m recent --update --hitcount" +++ print_d hits);
                         Match (!"--seconds" +++ sec); Match (!"--name" +++ bytes name)] (Jump (in_drop (targets e)))].

Definition limited (port : cstr) (chain : string) : line :=
  input [Match !"-p tcp"; Match (!"--dport" +++ port); State !"NEW"] (bytes chain).

(** [enabled,hits,seconds]. *)
Definition limit_setting (name : string) : option (cstr * cstr * cstr) :=
  match vstrsep 3 (chr ",") (strlcpy 64 (nvram_safe_get (bytes name))) with
  | [en; hit; sec] => Some (en, hit, sec)
  | _ => None
  end.

Definition shlimit_rules : list line :=
  match limit_setting "ne_shlimit" with
  | Some (en, hit, sec) =>
      let n := Z.land (atoi en) 3 in
      on (negb (n =? 0))
        (limit_chain "shlimit" "shlimit" (s32 (atoi hit + 1)) sec ++
         on (Z.testbit n 0)
           (limited (nvram_safe_get !"sshd_port") "shlimit" ::
            on (negb (nvram_get_int !"sshd_remote" =? 0) && nvram_invmatch !"sshd_rport" (nvram_safe_get !"sshd_port"))
              [limited (nvram_safe_get !"sshd_rport") "shlimit"]) ++
         on (Z.testbit n 1) [limited (nvram_safe_get !"telnetd_port") "shlimit"])
  | None => []
  end.

Definition dmz_ra : bool := has "TCONFIG_DMZ" && dmz_remote_access.

Definition wwwlimit_rules : list line :=
  on (remotemanage e && negb (nvram_get_int !"http_wanport_bfm" =? 0))
    (limit_chain "wwwlimit" "www" 20 !"3" ++
     [limited (if dmz_ra then print_d (web_lanport e) else nvram_safe_get !"http_wanport") "wwwlimit"]).

Definition ftplimit_rules : list line :=
  match limit_setting "ftp_limit" with
  | Some (en, hit, sec) =>
      on (has "TCONFIG_FTP" && negb (atoi en =? 0) && (nvram_get_int !"ftp_enable" =? 1))
        (limit_chain "ftplimit" "ftp" (s32 (atoi hit + 1)) sec)
  | None => []
  end.

(** With strict input a bridge reaches only its own address of the router. *)
Definition strict_input : list line :=
  on (negb (nvram_get_int !"fw_strict_input" =? 0))
    (concat (map (fun br =>
       let f := bridge_nvram_get br !"ifname" 13 in
       on (is_br f)
         (concat (map (fun br2 =>
            on (negb (br =? br2) && is_br (bridge_nvram_get br2 !"ifname" 13))
              [input [In f; Match (!"-d" +++ bridge_nvram_get br2 !"ipaddr" 13)] !"DROP"]) bridges))) bridges)).

Definition tunnel_rules : list line :=
  let n := get_ipv6_service in
  on (has "TCONFIG_IPV6" && ((n =? 3) || (n =? 4)))
    (let s := if n =? 3 then snprintf 64 (!"192.88.99." ++ print_d (nvram_get_int !"ipv6_relay"))
              else strlcpy 64 (nvram_safe_get !"ipv6_tun_v4end") in
     on (negb (char_at s 0 =? 0) && negb (strcmp_eq s !"0.0.0.0"))
       [input [Match !"-p icmp"; Match (!"-s" +++ s)] (in_accept (targets e))] ++
     [input [Match !"-p 41"] (in_accept (targets e))]).

Definition ping_rules : list line :=
  on (nvram_match !"block_wan" !"0")
    (let limit := if nvram_match !"block_wan_limit" !"0" then []
                  else [Match (!"-m limit --limit " ++ print_d (nvram_get_int !"block_wan_limit_icmp") ++ !"/second")] in
     [input ([Match !"-p icmp --icmp-type 8"; State !"NEW,ESTABLISHED,RELATED"] ++ limit) (in_accept (targets e));
      input ([Match !"-p icmp --icmp-type 30"; State !"NEW,ESTABLISHED,RELATED"] ++ limit) (in_accept (targets e));
      input ([Match !"-p udp --dport 33434:33534"] ++ limit) (in_accept (targets e))]).

Definition dhcp_rules : list line :=
  on (nvram_invmatch !"wan_dhcp_pass" !"0"
      && existsb (fun j => negb (using_dhcpc (get_wan_prefix j 8) =? 0)) (upto 1 (Z.of_nat (length (wans e)))))
    [input [Match !"-p udp --sport 67 --dport 68"] (in_accept (targets e))].

(** Remote access to a port from one source. *)
Definition open_port (src port : cstr) : line :=
  input [Match !"-p tcp"; Match src; Match (!"--dport" +++ port)] (in_accept (targets e)).

Definition remote_rules : list line :=
  for_sources (nvram_safe_get !"rmgt_sip") ipt_source (fun src =>
    on (remotemanage e)
      [open_port src (if dmz_ra then print_d (web_lanport e) else nvram_safe_get !"http_wanport")] ++
    on (negb (nvram_get_int !"sshd_remote" =? 0))
      [open_port src (if dmz_ra then nvram_safe_get !"sshd_port" else nvram_safe_get !"sshd_rport")]).

Definition snmp_rules : list line :=
  on (has "TCONFIG_SNMP" && nvram_match !"snmp_enable" !"1" && nvram_match !"snmp_remote" !"1")
    (for_sources (nvram_safe_get !"snmp_remote_sip") ipt_source (fun src =>
       [input [Match !"-p udp"; Match src; Match (!"--dport" +++ nvram_safe_get !"snmp_port")] (in_accept (targets e))])).

Definition multicast_on : bool := nvram_match !"multicast_pass" !"1" || nvram_match !"udpxy_enable" !"1".

Definition multicast_rules : list line :=
  on multicast_on [input [Match !"-p igmp -d 224.0.0.0/4"] !"ACCEPT";
                   input [Match !"-p udp -d 224.0.0.0/4 ! --dport 1900"] !"ACCEPT"].

Definition lan_input : list line :=
  map (fun l => input [In (lanface l)] !"ACCEPT") (first_or has_face (lans e)).

(** The services of the router that are open to other than the LAN. *)
Definition services : list line :=
  tunnel_rules ++ ping_rules ++ dhcp_rules ++ remote_rules ++ snmp_rules ++ multicast_rules ++
  on (nvram_invmatch !"dr_wan_rx" !"0") [input [Match !"-p udp --dport 520"] !"ACCEPT"].

Definition ntp_rules : list line :=
  on (nvram_get_int !"ntpd_enable" =? 2)
    [input [Match !"-p udp -m udp --dport 123"] (in_accept (targets e))].

Definition filter_input (bw : list write) : list write :=
  on (has "TCONFIG_BCMARM") bw ++
  ipt_write (
    concat (map foreach_wan_input (wans e)) ++
    [input [State !"INVALID"] !"DROP"; input [State !"RELATED,ESTABLISHED"] !"ACCEPT"] ++
    shlimit_rules ++ wwwlimit_rules ++ ftplimit_rules ++
    [input [In !"lo"] !"ACCEPT"] ++
    strict_input ++ lan_input ++ services) ++
  on (has "TCONFIG_PPTPD") (pptpc_firewall e "INPUT" []) ++
  ipt_write ntp_rules.

(** ** INPUT of IPv6 *)

Definition icmp6 (chain : string) (type : Z) : line :=
  Append (bytes chain)
    (Match (!"-p ipv6-icmp --icmpv6-type" +++ print_d type) ::
     on ((type =? 128) && (nvram_get_int !"block_wan" =? 0)) [Match !"-m limit --limit 5/s"])
    (Jump (in_accept (targets e))).

Definition remote6_rules : list line :=
  for_sources (nvram_safe_get !"rmgt_sip") ip6t_source (fun src =>
    on (remotemanage e) [open_port src (nvram_safe_get !"http_wanport")] ++
    on (negb (nvram_get_int !"sshd_remote" =? 0)) [open_port src (nvram_safe_get !"sshd_rport")]).

Definition filter6_input : list line :=
  [input [Match !"-m rt --rt-type 0"] (in_drop (targets e));
   input [State !"RELATED,ESTABLISHED"] !"ACCEPT";
   input [Match !"-p ipv6-nonxt -m length --length 40"] !"ACCEPT"] ++
  shlimit_rules ++ wwwlimit_rules ++ ftplimit_rules ++
  [input [In !"lo"] !"ACCEPT"] ++
  lan_input ++
  on ((get_ipv6_service =? 3) || (get_ipv6_service =? 2))
    [input [Match !"-p udp --sport 547 --dport 546"] (in_accept (targets e))] ++
  map (icmp6 "INPUT") allowed_icmpv6 ++
  map (fun n => input [Match (!"-p ipv6-icmp --icmpv6-type" +++ print_d n)] (in_accept (targets e)))
    allowed_local_icmpv6 ++
  remote6_rules.

(** ** FORWARD: the part before the restrictions *)

Definition offload_rules : list write :=
  let rule t := ip46t_write (ipv6 e)
    [fwd (State !"RELATED,ESTABLISHED" :: on full_cone [Match !"! -p udp"]) t] in
  if nvram_match !"flow_offloading" !"1" then rule !"FLOWOFFLOAD"
  else if nvram_match !"flow_offloading" !"2" then rule !"FLOWOFFLOAD --hw"
  else [].

(** The networks of the bridges are accounted; nothing when an address is no address. *)
Definition account_rule (br : Z) : option (list line) :=
  if char_at (bridge_nvram_get br !"ifname" 32) 0 =? 0 then Some []
  else
    let mask := bridge_nvram_get br !"netmask" 32 in
    a ← inet_aton (bridge_nvram_get br !"ipaddr" 32);
    m ← inet_aton mask;
    Some [Append !"FORWARD"
            [Match (!"-m account --aaddr" +++ snprintf 33 (inet_ntoa (zip_with Z.land a m) ++ chr "/" :: mask));
             Match (!"--aname" +++ get_bridge_prefix br 12)] Count].

Definition ipt_account : option (list line) :=
  @concat line <$> mapM account_rule bridges.

(** A record of [lan_access]: the bridges, the condition on the addresses and the
    families. *)
Record access := { ac_from : cstr; ac_to : cstr; ac_src : cstr; ac_dst : cstr; ac_ok : Z }.

Definition parse_access (b : cstr) : option access :=
  match vstrsep 6 (chr "<") b with
  | [d; sbr; saddr; dbr; daddr; desc] =>
      if negb (char_at d 0 =? chr "1") then None
      else
        let '(src_f, src) := ipt_addr 128 saddr "src" (Z.lor IPT_V4 IPT_V6) false in
        let '(dst_f, dst) := ipt_addr 128 daddr "dst" (Z.lor IPT_V4 IPT_V6) false in
        if (src_f =? 0) || (dst_f =? 0) then None
        else Some {| ac_from := sbr; ac_to := dbr; ac_src := src; ac_dst := dst; ac_ok := Z.land src_f dst_f |}
  | _ => None
  end.

Definition accesses : list access := omap parse_access (strsep (chr ">") (nvram_safe_get !"lan_access")).

Definition access_rule (a : access) : list write :=
  ip46t_flagged_write (ipv6 e) (ac_ok a)
    [fwd [In (!"br" ++ ac_from a); Out (!"br" ++ ac_to a); Match (ac_src a); Match (ac_dst a)] !"ACCEPT"].

(** The matrix [lanAccess]: a record without addresses opens the way from one bridge to
    another. *)
Definition access_allowed (from to : Z) : bool :=
  existsb (fun a =>
    strcmp_eq (ac_src a) [] && strcmp_eq (ac_dst a) [] &&
    (char_at (ac_from a) 0 - 48 =? from) && (char_at (ac_to a) 0 - 48 =? to)) accesses.

Definition lan_to_lan : list write :=
  concat (map (fun l => ip46t_write (ipv6 e) [fwd [In (lanface l); Out (lanface l)] !"ACCEPT"])
    (first_or has_face (lans e))).

Definition forward_head (account : list line) : list write :=
  offload_rules ++
  on (has "TCONFIG_IPV6" && ipv6 e) (ip6t_write [fwd [Match !"-m rt --rt-type 0"] !"DROP"]) ++
  on (nvram_match !"cstats_enable" !"1") (ipt_write account) ++
  lan_to_lan ++
  concat (map access_rule accesses) ++
  ip46t_write (ipv6 e) [fwd [State !"INVALID"] !"DROP"].

(** ** FORWARD: the part behind the restrictions *)

Definition ipt_ndpi_inbound (seen : list cstr) : list write :=
  match seen with
  | [] => []
  | _ =>
      on (nvram_match !"nf_ndpi_in" !"1")
        (ipt_write ([Chain !"nDPIin" user] ++
           map (fun f => fwd [In (face_name f)] !"nDPIin") (up_faces e) ++
           map (fun opt => Append !"nDPIin" [Match opt] (Jump !"RETURN")) seen))
  end.

(** The web monitor: the sources it is for. *)
Definition monitor_source (p : cstr) : list write :=
  let '(ok, src) := ipt_addr 128 p "src" (Z.lor IPT_V4 IPT_V6) false in
  on (has "TCONFIG_IPV6" && ipv6 e && negb (char_at (wan6face e) 0 =? 0) && negb (Z.land ok IPT_V6 =? 0))
    (ip6t_write [fwd [Out (wan6face e); Match src] !"monitor"]) ++
  on (negb (Z.land ok IPT_V4 =? 0))
    (ipt_write (map (fun f => fwd [Out (face_name f); Match src] !"monitor") (faces e))).

Definition monitor_exclude (p : cstr) : list write :=
  let '(ok, src) := ipt_addr 128 p "src" (Z.lor IPT_V4 IPT_V6) false in
  on (negb (ok =? 0) && negb (char_at src 0 =? 0))
    (ip46t_flagged_write (ipv6 e) ok [Append !"monitor" [Match src] (Jump !"RETURN")]).

Definition webmon_file (clear : bool) (clear_opt load : string) (name def : string) : cstr :=
  if clear then bytes clear_opt
  else if nvram_match !"webmon_bkp" !"1"
  then snprintf 100 (bytes load +++ nvram_safe_get !"webmon_dir" ++ chr "/" :: bytes name)
  else bytes load +++ bytes def.

Definition or_one (n : Z) : Z := if n =? 0 then 1 else n.

Definition webmon_on : bool := negb (nvram_get_int !"log_wm" =? 0).

Definition ipt_webmon : list write :=
  on webmon_on
    (let wmtype := nvram_get_int !"log_wmtype" in
     let clear := nvram_get_int !"log_wmclear" in
     let sources := addresses (strlcpy 512 (nvram_safe_get !"log_wmip")) in
     ip46t_write (ipv6 e) [Chain !"monitor" user] ++
     concat (map monitor_source (if wmtype =? 1 then sources else [[]])) ++
     on (wmtype =? 2) (concat (map monitor_exclude sources)) ++
     ip46t_write (ipv6 e)
       [Append !"monitor"
          [Match !"-p tcp -m webmon";
           Match (!"--max_domains" +++ print_d (or_one (nvram_get_int !"log_wmdmax")));
           Match (!"--max_searches" +++ print_d (or_one (nvram_get_int !"log_wmsmax")));
           Match (webmon_file (Z.testbit clear 0) "--clear_domain" "--domain_load_file" "webmon_recent_domains"
                    "/var/webmon/domain");
           Match (webmon_file (Z.testbit clear 1) "--clear_search" "--search_load_file" "webmon_recent_searches"
                    "/var/webmon/search")] (Jump !"RETURN")]).

Definition ipsec_rules : list line :=
  on (nvram_match !"ipsec_pass" !"1" || nvram_match !"ipsec_pass" !"3")
    (concat (map (fun f =>
       [fwd [In (face_name f); Match !"-p esp"] !"ACCEPT"; fwd [In (face_name f); Match !"-p ah"] !"ACCEPT";
        fwd [In (face_name f); Match !"-p udp --dport 500"] !"ACCEPT";
        fwd [In (face_name f); Match !"-p udp --dport 4500"] !"ACCEPT"]) (faces e))).

(** The bridges, by what the configuration says of them. *)
Definition bridge_name (br : Z) : cstr := bridge_nvram_get br !"ifname" 13.

Definition isolation : list write :=
  concat (map (fun br =>
    on (is_br (bridge_name br))
      (concat (map (fun br2 =>
         on (negb (br =? br2) && negb (access_allowed br br2) && is_br (bridge_name br2))
           (ip46t_write (ipv6 e) [fwd [In (bridge_name br); Out (bridge_name br2)] !"DROP"])) bridges))) bridges).

Definition forward6_rules : list line :=
  let wan6 := wan6face e in
  let some := negb (char_at wan6 0 =? 0) in
  on some [fwd [Out wan6; In wan6] (in_drop (targets e))] ++
  [fwd [Match !"-p ipv6-nonxt -m length --length 40"] !"ACCEPT"] ++
  map (icmp6 "FORWARD") allowed_icmpv6 ++
  on (some && (nvram_match !"ipsec_pass" !"1" || nvram_match !"ipsec_pass" !"2"))
    [fwd [In wan6; Match !"-p esp"] !"ACCEPT"; fwd [In wan6; Match !"-p udp --dport 500"] !"ACCEPT"] ++
  on some [fwd [In wan6] !"wanin"; fwd [Out wan6] !"wanout"].

Definition lan_out : list write :=
  concat (map (fun br => on (is_br (bridge_name br))
    (ip46t_write (ipv6 e) [fwd [In (bridge_name br)] (out_accept (targets e))])) bridges) ++
  on (has "TCONFIG_IPV6" && ipv6 e && negb (char_at (wan6face e) 0 =? 0))
    (ip6t_write (map (fun l => fwd [In (lanface l); Out (wan6face e)] (out_accept (targets e)))
       (first_or has_face (lans e)))).

Definition upnp_filter : list write :=
  on upnp_on
    (ipt_write (Chain !"upnp" user :: map (fun f => fwd [In (face_name f)] !"upnp") (faces e)) ++
     on (has "TCONFIG_IPV6" && ipv6 e)
       (ip6t_write [Chain !"MINIUPNPD" user;
                    fwd [In (wan6face e); Match (!"! -o" +++ wan6face e)] !"MINIUPNPD"])).

Definition dmz_ifname (dst : cstr) : cstr :=
  match lan_ifname_for_ipv4 dst 17 with Some f => f | None => strlcpy 17 (lanface (lan0 e)) end.

Definition dmz_forward : list line :=
  match dmz_dst with
  | Some dst =>
      for_sources (nvram_safe_get !"dmz_sip") ipt_source (fun src =>
        [fwd [Out (dmz_ifname dst); Match src; Match (!"-d" +++ dst)] (in_accept (targets e))])
  | None => []
  end.

(** What is let in from the WAN. *)
Definition wan_in : list write :=
  on multicast_on
    (ipt_write [Append !"wanin" [Match !"-p udp -d 224.0.0.0/4"] (Jump (in_accept (targets e)))]) ++
  ipt_triggered IPT_TABLE_FILTER ++ ipt_forward e IPT_TABLE_FILTER ++
  on (has "TCONFIG_IPV6" && ipv6 e) (ip6t_forward e) ++
  on (has "TCONFIG_DMZ") (ipt_write dmz_forward).

Definition forward_tail (seen : list cstr) (kill : list write) : list write :=
  on (is_anywanup e) (ipt_ndpi_inbound seen) ++
  ipt_webmon ++
  ip46t_write (ipv6 e)
    [Chain !"wanin" user; Chain !"wanout" user; fwd [State !"RELATED,ESTABLISHED"] !"ACCEPT"] ++
  ipt_write (
    on full_cone (map (fun f => fwd [In (face_name f); Match !"-p udp -m conntrack --ctstate DNAT"] !"ACCEPT") (faces e)) ++
    ipsec_rules) ++
  isolation ++
  on (has "TCONFIG_IPV6" && ipv6 e) (ip6t_write forward6_rules) ++
  ipt_write (concat (map (fun f => [fwd [In (face_name f)] !"wanin"; fwd [Out (face_name f)] !"wanout"]) (faces e))) ++
  on (has "TCONFIG_OPENVPN" || has "TCONFIG_WIREGUARD") kill ++
  on (has "TCONFIG_PPTPD") (pptpc_firewall e "FORWARD" []) ++
  lan_out ++
  upnp_filter ++
  on (is_anywanup e) wan_in.

End Chains.

(** ** The table *)

Section Table.
Context {st : Store} {build : Build} {links : Links} {cfg : Config} {resolver : Resolver} {procs : Procs}
  {domains : Domains}.

(** The store, the rules, and the nDPI options seen. *)
Definition filter_forward (s : store) (e : env) (account : list line) (seen : list cstr)
  : store * list write * list cstr :=
  let head := forward_head (nv := view s) e account in
  let '(s, restrictions, seen) :=
    if is_anywanup e then ipt_restrictions s e seen else (s, [], seen) in
  let kill := (kill_switch (nv := view s) (ipv6 e)).1 in
  (s, head ++ restrictions ++ forward_tail (nv := view s) e seen kill, seen).

Definition filter_table (s : store) (e : env) (bw : list write) (account : list line) (seen : list cstr)
  : store * list write * list cstr :=
  let nv := view s in
  let '(s', forward, seen) := filter_forward s e account seen in
  (s',
   ip46t_write (ipv6 e) [Table !"filter"; Chain !"INPUT" !"DROP"; Chain !"OUTPUT" !"ACCEPT"] ++
   ip46t_write (ipv6 e) (filter_log (nv := nv) e) ++
   filter_input (nv := nv) e bw ++
   on (has "TCONFIG_IPV6" && ipv6 e)
     (ip6t_write (filter6_input (nv := nv) e ++
        [Append !"OUTPUT" [Match !"-m rt --rt-type 0"] (Jump (in_drop (targets e)))])) ++
   on (has "TCONFIG_PPTPD") (pptpc_firewall (nv := nv) e "OUTPUT" []) ++
   ip46t_write (ipv6 e) [Chain !"FORWARD" !"DROP"] ++
   forward ++
   ip46t_write (ipv6 e) [Commit], seen).

End Table.

End Filter.
