(* ===== verification/FilterShape.v ===== *)
(** The lines of the filter table, one generator after another.

    All chains that the router adds, other than those through which something is let in
    from a WAN, only drop or return, and no chain is called like an extension
    ([line_ok], [filter_ok]). The lemmas [.._shape] say which lines a generator can
    write, for any property of lines; [each] is the walk over them. *)

From Stdlib Require Import ZArith Lia.
From stdpp Require Import base list strings gmap.
From S2P Require Import Prelude Scan Strings Nvram Inet Wan BuildConfig Defaults SaveVars Restrict Rules RulesSpec Ndpi FwEnv.
From S2P Require Import Forward RestrictRules KillSwitch Bwlimit Pbr Firewall Filter.

Local Open Scope Z_scope.
Local Open Scope rule_scope.

Module FilterShape.
Import Scan Strings Nvram Inet Wan BuildConfig Defaults SaveVars Restrict Rules RulesSpec Ndpi FwEnv.
Import Forward RestrictRules KillSwitch Bwlimit Pbr Firewall Filter.

(** ** Chains that only drop or return *)

Definition inner_names : list cstr := map bytes
  ["shlimit"; "wwwlimit"; "ftplimit"; "logdrop"; "logreject"; "nDPIin"; "monitor"; "restrict"]%string.

Definition inner (c : cstr) : bool :=
  in_list c inner_names || prefix_of_str !"rres" c || prefix_of_str !"rdev" c.

(** How deep the calls from a chain can go. *)
Definition rank (c : cstr) : nat :=
  if in_list c [!"logdrop"; !"logreject"] then 0
  else if prefix_of_str !"rdev" c then 2
  else if strcmp_eq c !"restrict" then 3
  else if in_list c [!"INPUT"; !"FORWARD"] then 4 else 1.

(** A line that opens one of the chains that are closed. *)
Definition opens (c p : cstr) : bool := in_list c [!"INPUT"; !"FORWARD"] && strcmp_eq p !"ACCEPT".

(** No chain is called like an extension, no policy of the closed chains is ACCEPT, and the
    rules of the inner chains do not accept. *)
Definition line_ok (l : line) : Prop :=
  match l with
  | Append c _ tg | Insert c _ _ tg => inner c = true -> tame_target rank inner c tg = true
  | Chain c p => in_list c extensions || opens c p = false
  | NewChain c => in_list c extensions = false
  | _ => True
  end.

Lemma line_ok_tame {pk : Packet} l : line_ok l -> tame_line rank inner l.
Proof. destruct l; simpl; auto. Qed.

Lemma line_ok_plain l : line_ok l -> forall c, c ∈ extensions -> ~ declares c l.
Proof.
  destruct l; simpl; try tauto; try (intros [H _]%orb_false_iff d Hd ->; unfold in_list in H; by apply bool_decide_eq_false in H);
    intros H d Hd ->; unfold in_list in H; by apply bool_decide_eq_false in H.
Qed.

(** Rules of other chains, and rules of inner ones. *)
Lemma outer_append c m tg : inner c = false -> line_ok (Append c m tg).
Proof. simpl. by intros ->. Qed.

Lemma outer_insert c pos m tg : inner c = false -> line_ok (Insert c pos m tg).
Proof. simpl. by intros ->. Qed.

Lemma inner_append c m tg : tame_target rank inner c tg = true -> line_ok (Append c m tg).
Proof. by simpl. Qed.

Lemma reschain_inner n : inner (reschain n) = true /\ rank (reschain n) = 1%nat /\ in_list (reschain n) extensions = false.
Proof.
  unfold reschain, inner, rank. generalize (two_digits n). intros d. split_and!; reflexivity.
Qed.

Lemma devchain_inner n : inner (devchain n) = true /\ rank (devchain n) = 2%nat /\ in_list (devchain n) extensions = false.
Proof.
  unfold devchain, inner, rank. generalize (two_digits n). intros d. split_and!; reflexivity.
Qed.

Lemma no_blank n : Forall (fun c => (c =? 32) = false) (two_digits n).
Proof.
  assert (H : forall w s, Forall (fun c => (c =? 32) = false) s -> Forall (fun c => (c =? 32) = false) (pad_to w s)).
  { intros w s Hs. apply Forall_app_2; [|done]. apply Forall_forall. by intros x ->%list_elem_of_In%repeat_spec. }
  assert (Hu : forall m, Forall (fun c => (c =? 32) = false) (print_u 10 m)).
  { intros m. eapply Forall_impl; [apply print_u_chars; lia|]. unfold is_numeral_char. intros. lia. }
  apply H. unfold print_d. destruct (n <? 0); [constructor|]; auto.
Qed.

Lemma chain_target_name n : target_name (reschain n) = reschain n /\ target_name (devchain n) = devchain n.
Proof.
  assert (Hn := no_blank n). unfold target_name.
  split; (rewrite <- (app_nil_r (_ n)) at 1); (apply take_until_app; [|done]); (apply Forall_app_2; [|done]);
    (apply (bool_decide_unpack _); vm_compute; exact I).
Qed.

Lemma chain_name_cases comp n : chain_name comp n = reschain n \/ chain_name comp n = devchain n.
Proof. unfold chain_name. destruct (negb _); [right|left]; reflexivity. Qed.

(** ** Walking over the lines *)

Lemma Forall_on {A} (P : A -> Prop) b l : (b = true -> Forall P l) -> Forall P (on b l).
Proof. destruct b; simpl; [auto|constructor]. Qed.

Lemma each_on (P : line -> Prop) b (l : list write) : (b = true -> Forall P (lines4 l)) -> Forall P (lines4 (on b l)).
Proof. destruct b; simpl; [auto|constructor]. Qed.

(** Takes the goal apart along the structure of the lines. *)
Ltac each :=
  repeat first
    [ match goal with |- Forall _ _ => assumption end | apply each_app | apply each_ipt | apply each_ip6t | apply each_46
    | apply each_flagged; intros ? | apply each_on; intros ? | apply each_concat; intros ? ?
    | apply Forall_app_2 | apply Forall_on; intros ? | apply each_line_concat; intros ? ?
    | apply each_line_map; intros ? ? | apply Forall_cons_2 | apply Forall_nil_2
    | match goal with
      | |- Forall _ (match ?x with _ => _ end) => destruct x eqn:?
      | |- Forall _ (lines4 (match ?x with _ => _ end)) => destruct x eqn:?
      end ].

(** The targets for what is not let through. *)
Definition dropping : list cstr := map bytes ["DROP"; "logdrop"; "logreject"; "REJECT --reject-with tcp-reset"]%string.

Definition drop_targets (e : env) : Prop :=
  in_drop (targets e) ∈ dropping /\ out_drop (targets e) ∈ dropping /\ out_reject (targets e) ∈ dropping.

Lemma detected_drop {nv : Nvram} e : targets e = chains_log_detection -> drop_targets e.
Proof.
  intros H. unfold drop_targets. rewrite H. unfold chains_log_detection. cbn [in_drop out_drop out_reject].
  unfold dropping. cbn [map].
  split_and!; case_match; rewrite !elem_of_cons; auto 6.
Qed.

Lemma dropping_tame c x : (0 < rank c)%nat -> x ∈ dropping -> tame_target rank inner c (Jump x) = true.
Proof.
  intros Hr Hx. apply Nat.ltb_lt in Hr. unfold dropping in Hx. cbn [map] in Hx. rewrite !elem_of_cons, elem_of_nil in Hx.
  cbn [tame_target]. unfold tame.
  destruct Hx as [->|[->|[->|[->|[]]]]]; try reflexivity; change (rank (target_name _)) with O; rewrite Hr; reflexivity.
Qed.

Lemma drop_tame c e : (0 < rank c)%nat -> drop_targets e ->
  tame_target rank inner c (Jump (in_drop (targets e))) = true /\
  tame_target rank inner c (Jump (out_drop (targets e))) = true /\
  tame_target rank inner c (Jump (out_reject (targets e))) = true.
Proof. intros Hr (H1 & H2 & H3). split_and!; by apply dropping_tame. Qed.

Section Shape.
Context {nv : Nvram} {build : Build} {links : Links} {cfg : Config} {resolver : Resolver} {procs : Procs}.
Context (e : env).

(** Rules for each of a list of sources. *)
Lemma each_sources (P : line -> Prop) l source rules :
  (forall src, Forall P (rules src)) -> Forall P (for_sources l source rules).
Proof.
  intros H. unfold for_sources. apply each_line_concat. intros p _. destruct (source p) as [ok src].
  destruct (ok =? 0); [constructor|apply H].
Qed.

(** *** The generators outside the restrictions *)

Lemma pptp_shape (P : line -> Prop) table opt :
  (table = "INPUT"%string -> forall m, P (Append !"INPUT" m (Jump (in_accept (targets e))))) ->
  (forall m tg, P (Append !"OUTPUT" m tg)) -> (forall m tg, P (Append !"POSTROUTING" m tg)) ->
  (table = "FORWARD"%string -> forall m, P (Append !"FORWARD" m (Jump !"ACCEPT"))) ->
  Forall P (lines4 (pptpc_firewall e table opt)).
Proof.
  intros Hi Ho Hp Hf. unfold pptpc_firewall. cbv zeta.
  destruct (_ || _ || _); [constructor|].
  destruct (bool_decide (table = "INPUT"%string) && _) eqn:E1;
    [apply andb_true_iff in E1 as [E1 _]; apply bool_decide_eq_true in E1; each; auto|].
  destruct (bool_decide (table = "OUTPUT"%string) && _); [each; auto|].
  destruct (bool_decide (table = "FORWARD"%string) && _) eqn:E2;
    [apply andb_true_iff in E2 as [E2 _]; apply bool_decide_eq_true in E2; each; auto|].
  destruct (bool_decide _ && _); each; auto.
Qed.

Lemma triggered_shape (P : line -> Prop) table :
  P (Chain !"triggers" user) -> (forall m tg, P (Append !"wanout" m tg)) -> (forall m tg, P (Append !"wanin" m tg)) ->
  (forall m tg, P (Append !"triggers" m tg)) -> (forall m tg, P (Append chain_wan_prerouting m tg)) ->
  Forall P (lines4 (ipt_triggered table)).
Proof.
  intros H1 H2 H3 H4 H5. unfold ipt_triggered. cbv zeta.
  assert (Hr : Forall P (concat (map (fun x => trigger_rules x.1.1 x.1.2 x.2) triggers))).
  { apply each_line_concat. intros [[ps mports] fports] _. cbn [fst snd]. revert fports.
    induction ps as [|p ps IH]; intros fports; [constructor|]. constructor; [apply H4|apply IH]. }
  destruct (concat _) as [|l ls]; [constructor|]. destruct table; each; auto; by inversion Hr.
Qed.

(** *** No line lets an inner chain accept *)

Context (Ht : drop_targets e).

Ltac leaf :=
  first
    [ apply outer_append; reflexivity | apply outer_insert; reflexivity | reflexivity
    | apply inner_append; first [reflexivity | apply drop_tame; [vm_compute; lia|exact Ht]] ].

Lemma filter_log_ok : Forall line_ok (filter_log e).
Proof. unfold filter_log. cbv zeta. each; leaf. Qed.

Lemma limit_chain_ok chain name hits sec : inner (bytes chain) = true -> rank (bytes chain) = 1%nat ->
  in_list (bytes chain) extensions = false -> Forall line_ok (limit_chain e chain name hits sec).
Proof.
  intros Hi Hr He. unfold limit_chain. each; [exact He|by apply inner_append|].
  apply inner_append, drop_tame; [by rewrite Hr; lia|exact Ht].
Qed.

Lemma limits_ok : Forall line_ok (shlimit_rules e ++ wwwlimit_rules e ++ ftplimit_rules e).
Proof.
  unfold shlimit_rules, wwwlimit_rules, ftplimit_rules, limited, input. cbv zeta.
  each; first [by apply limit_chain_ok|leaf].
Qed.

Lemma services_ok : Forall line_ok (services e ++ ntp_rules e).
Proof.
  unfold services, ntp_rules, tunnel_rules, ping_rules, dhcp_rules, remote_rules, snmp_rules, multicast_rules, open_port, input.
  cbv zeta. each; try leaf; apply each_sources; intros src; each; leaf.
Qed.

Lemma filter_input_ok bw : Forall line_ok (lines4 bw) -> Forall line_ok (lines4 (filter_input e bw)).
Proof.
  intros Hb. assert (Hl := limits_ok). assert (Hs := services_ok).
  unfold filter_input, foreach_wan_input, strict_input, lan_input, input. cbv zeta.
  rewrite !Forall_app in Hl. rewrite Forall_app in Hs. destruct Hl as (H1 & H2 & H3), Hs as [H4 H5].
  each; try assumption; try leaf. apply pptp_shape; intros; leaf.
Qed.

Lemma forward_head_ok account : Forall line_ok account -> Forall line_ok (lines4 (forward_head e account)).
Proof.
  intros Ha. unfold forward_head, offload_rules, lan_to_lan, access_rule, fwd. cbv zeta.
  each; try assumption; leaf.
Qed.

Lemma webmon_ok : Forall line_ok (lines4 (ipt_webmon e)).
Proof.
  unfold ipt_webmon, monitor_source, monitor_exclude, fwd. cbv zeta. each; leaf.
Qed.

Lemma wan_in_ok : Forall line_ok (lines4 (wan_in e)).
Proof.
  unfold wan_in, ipt_forward, forward_rules, nat_rules, filter_rule, ip6t_forward, dmz_forward, fwd. cbv zeta.
  each; try leaf. apply triggered_shape; intros; leaf.
Qed.

Lemma forward_tail_ok seen kill : Forall line_ok (lines4 kill) -> Forall line_ok (lines4 (forward_tail e seen kill)).
Proof.
  intros Hk. assert (Hw := wan_in_ok). assert (Hm := webmon_ok).
  unfold forward_tail, ipt_ndpi_inbound, ipsec_rules, isolation, lan_out, upnp_filter, fwd. cbv zeta.
  each; try assumption; try leaf. apply pptp_shape; intros; leaf.
Qed.

End Shape.

(** *** The limits, the accounting and the kill switch *)

(** Rules that only drop or count. *)
Definition only_drops (l : line) : Prop :=
  match l with
  | Append c _ tg | Insert c None _ tg =>
      in_list c [!"FORWARD"; !"PREROUTING"] = true /\ (tame_target rank inner c tg = true \/ c <> !"INPUT" /\ c <> !"FORWARD")
  | _ => False
  end.

Section Others.
Context {nv : Nvram} {build : Build} {links : Links} {cfg : Config} {resolver : Resolver} {domains : Domains}.

Lemma dropping_chain c : in_list c [!"FORWARD"; !"PREROUTING"] = true -> c = !"FORWARD" \/ c = !"PREROUTING".
Proof. unfold in_list. rewrite bool_decide_eq_true. set_solver. Qed.

Lemma only_drops_ok l : only_drops l -> line_ok l.
Proof.
  destruct l as [| |c m tg|c [] m tg| | |]; simpl; try done; intros [H _] H';
    destruct (dropping_chain c H) as [-> | ->]; discriminate H'.
Qed.

Lemma bwlimit_drops bw : ipt_bwlimit 3 = Some bw -> Forall only_drops (lines4 bw).
Proof.
  unfold ipt_bwlimit. destruct (_ =? 0); [intros [= <-]; constructor|].
  destruct (all_limits _ _ _) as [ls|] eqn:E; [|done]. cbn. intros [= <-]. rewrite lines4_ipt. apply Forall_app_2.
  - unfold bridge_rules. cbn. repeat case_match; repeat constructor.
  - revert ls E. generalize 1 at 1. induction limits as [|l ll IH]; intros n ls E; cbn in E.
    { injection E as <-. constructor. }
    destruct (limit_rules 3 n l) as [x|] eqn:Ex; [|done]. cbn in E.
    destruct (all_limits _ _ ll) as [y|] eqn:Ey; [|done]. cbn in E. injection E as <-.
    apply Forall_app_2; [|by apply (IH (n + 1))]. unfold limit_rules in Ex.
    destruct (address_checker _ _) as [[t ip]|]; [|done]. cbn in Ex. injection Ex as <-.
    unfold conn_limit. destruct (0 <? atoi (tcplimit l)), (0 <? atoi (udplimit l)), arm; cbn; repeat constructor.
Qed.

Lemma account_drops account : ipt_account = Some account -> Forall only_drops account.
Proof.
  unfold ipt_account. destruct (mapM _ _) as [ls|] eqn:E; [|done]. cbn. intros [= <-]. apply mapM_Some_1 in E.
  apply Forall_concat. induction E as [|br l bs ls Hl _ IH]; constructor; [|done].
  unfold account_rule in Hl. destruct (_ =? 0); [by injection Hl as <-|].
  destruct (inet_aton (bridge_nvram_get br !"ipaddr" 32)) as [a|]; [|done].
  destruct (inet_aton (bridge_nvram_get br !"netmask" 32)) as [m|]; [|done].
  injection Hl as <-. repeat constructor.
Qed.

Lemma kill_switch_drops on : Forall only_drops (lines4 (kill_switch on).1).
Proof.
  unfold kill_switch. cbn [fst].
  assert (H : Forall (fun x => Forall only_drops (lines4 x.1)) (concat (map (client_rules on) clients))).
  { apply each_line_concat. intros c _. apply each_line_concat. intros p _. apply Forall_map, Forall_forall.
    intros w _. cbn [fst]. unfold KillSwitch.policy_rules. cbv zeta.
    destruct (p.1 =? 1); [|destruct ((p.1 =? 2) || (p.1 =? 3)); [|constructor]]; cbn [fst].
    - rewrite lines4_ipt. unfold source_rules. apply Forall_forall. intros l Hl. apply list_elem_of_omap in Hl as (br & _ & Hl).
      revert Hl. case_match; [done|]. case_match. repeat (case_match; try done); by intros [= <-]; repeat constructor.
    - unfold destination_rules. destruct (check_string _ _) as [r sip].
      destruct r as [|[]|]; cbn [fst]; each; try (repeat constructor).
      destruct (resolve_fqdn _ _) as [l|]; [|constructor]. cbn [fst]. each; repeat constructor. }
  induction H as [|x l Hx _ IH]; [constructor|]. cbn [map concat]. by apply each_app.
Qed.

End Others.

(** *** The restrictions *)

Section Restrictions.
Context {cfg : Config} {resolver : Resolver} {links : Links} {st : Store}.
Context (e : env) (P : line -> Prop).

(** The lines that the restrictions consist of. *)
Record restriction_lines := {
  rl_restrict : P (Chain !"restrict" user);
  rl_forward m : P (Append !"FORWARD" m (Jump !"restrict"));
  rl_input m : P (Insert !"INPUT" (Some 1) m (Jump !"restrict"));
  rl_chain n : P (Chain (reschain n) user) /\ P (DelChain (reschain n)) /\ P (Chain (devchain n) user);
  rl_rule n m tgt : tgt ∈ [!"RETURN"; out_drop (targets e); out_reject (targets e)] -> P (Append (reschain n) m (Jump tgt));
  rl_device n m tgt : tgt ∈ [Jump !"RETURN"; Jump (out_drop (targets e)); Goto (reschain n)] -> P (Append (devchain n) m tgt) }.

Context (HP : restriction_lines).

Lemma preamble_shape : Forall P (lines4 (preamble e)).
Proof. unfold preamble. destruct HP. each; auto. Qed.

Lemma match_lines_shape chain tgt m a x : (forall ms, P (Append chain ms (Jump tgt))) -> Forall P (match_lines chain tgt m a x).
Proof. intros H. unfold match_lines. repeat case_match; repeat constructor; auto. Qed.

Lemma match_rules_shape s chain tgt allow qs seen :
  (forall ms, P (Append chain ms (Jump tgt))) -> Forall P (lines4 (match_rules s e chain tgt allow qs seen).1.1).
Proof.
  intros H. revert seen. induction qs as [|q qs IH]; intros seen; [constructor|]. cbn [match_rules].
  destruct (parse_match q) as [m|]; [|apply IH]. destruct (read_match s allow m seen) as [[x|] seen']; [|apply IH].
  cbv zeta. specialize (IH seen'). destruct (match_rules _ _ _ _ _ qs seen') as [[ws u] seen'']. cbn [fst] in *.
  each; by apply match_lines_shape.
Qed.

Lemma web_rules_shape s chain tgt rej r :
  (forall ms, P (Append chain ms (Jump tgt))) -> (forall ms, P (Append chain ms (Jump rej))) ->
  (forall ms, P (Append chain ms (Jump !"RETURN"))) -> Forall P (web_rules s chain tgt rej r).
Proof.
  intros H1 H2 H3. unfold web_rules. cbv zeta.
  match goal with |- Forall _ (match ?x with _ => _ end) => assert (Hr : Forall P x); [|destruct x; [constructor|]] end.
  - each; auto.
  - apply Forall_app_2; [done|]. each; auto.
Qed.

Lemma device_rules_shape chain next ex qs :
  (forall ms, P (Append chain ms (Jump !"RETURN"))) -> (forall ms, P (Append chain ms next)) ->
  Forall P (lines4 (device_rules e chain next ex qs).1).
Proof.
  intros H1 H2. revert ex. induction qs as [|q qs IH]; intros ex; [constructor|]. cbn [device_rules].
  destruct (_ =? 0); [apply IH|]. destruct (_ =? chr "!"); [apply IH|]. destruct (device q) as [ok addr].
  specialize (IH ex). destruct (device_rules _ _ _ ex qs) as [ws ex']. cbn [fst] in *.
  each. by destruct ex.
Qed.

Lemma restriction_rules_shape s n r seen : Forall P (lines4 (restriction_rules s e n r seen).1).
Proof.
  assert (Hc : P (Chain (reschain n) user) /\ P (DelChain (reschain n)) /\ P (Chain (devchain n) user)) by apply HP.
  destruct Hc as (Hc1 & Hc2 & Hc3).
  assert (Hret : forall ms, P (Append (reschain n) ms (Jump !"RETURN"))) by (intros; apply HP; set_solver).
  assert (Hdrop : forall ms, P (Append (reschain n) ms (Jump (out_drop (targets e))))) by (intros; apply HP; set_solver).
  assert (Hrej : forall ms, P (Append (reschain n) ms (Jump (out_reject (targets e))))) by (intros; apply HP; set_solver).
  unfold restriction_rules. cbv zeta.
  match goal with |- context [match_rules ?a ?b ?c ?d ?f ?g ?h] =>
    assert (Hm := match_rules_shape a c d f g h); destruct (match_rules a b c d f g h) as [[ms used] seen'] end.
  cbn [fst] in *. specialize (Hm ltac:(by destruct (is_allow r))).
  assert (Hw := web_rules_shape s (reschain n) (if is_allow r then !"RETURN" else out_reject (targets e)) (out_reject (targets e)) r
    ltac:(by destruct (is_allow r)) Hrej Hret).
  assert (Hd : forall next, next ∈ [Jump (out_drop (targets e)); Goto (reschain n)] -> forall qs,
    (forall ms, P (Append (devchain n) ms next)) /\ Forall P (lines4 (device_rules e (devchain n) next false qs).1)).
  { intros next Hn qs. assert (forall ms, P (Append (devchain n) ms next)) by (intros; apply HP; set_solver).
    split; [done|]. apply device_rules_shape; [intros; apply HP; set_solver|done]. }
  unfold web_write. each; try done;
    match goal with H : device_rules _ _ ?next _ ?qs = _ |- _ =>
      destruct (Hd next ltac:(case_match; set_solver) qs) as [Hd1 Hd2]; by rewrite ?H in Hd2 end.
Qed.

Lemma all_restrictions_shape s n k first seen : Forall P (lines4 (all_restrictions s e n k first seen).1).
Proof.
  revert n first seen. induction k as [|k IH]; intros n first seen; [constructor|]. cbn [all_restrictions].
  destruct (restriction_at s n) as [r|]; [|apply IH].
  assert (Hr := restriction_rules_shape s n r seen). destruct (restriction_rules s e n r seen) as [ws seen'].
  specialize (IH (n + 1) false seen'). destruct (all_restrictions s e (n + 1) k false seen') as [rest seen''].
  assert (Hp := preamble_shape). cbn [fst] in *. by each.
Qed.

Lemma restrictions_shape s seen : Forall P (lines4 (ipt_restrictions s e seen).1.2).
Proof.
  unfold ipt_restrictions. cbv zeta.
  match goal with |- context [all_restrictions ?a ?b ?c ?d ?f ?g] =>
    assert (H := all_restrictions_shape a c d f g); by destruct (all_restrictions a b c d f g) end.
Qed.

End Restrictions.

(** ** The whole table *)

Definition builtin : list cstr := map bytes ["INPUT"; "FORWARD"; "OUTPUT"]%string.

(** What [rcheck] adds: jumps to the chains of the rules that are on. *)
Definition link (x : Z * Z) : line := Append !"restrict" [] (Jump (chain_name x.1 x.2)).

Section Table.
Context {st : Store} {build : Build} {links : Links} {cfg : Config} {resolver : Resolver} {procs : Procs}
  {domains : Domains}.
Context (s : store) (e : env) (bw : list write) (account : list line) (seen : list cstr).

(** The lines of the table: up to FORWARD, the three parts of FORWARD. *)
Definition body : list line :=
  let nv := view s in
  let '(_, restrictions, seen') := if is_anywanup e then ipt_restrictions s e seen else (s, [], seen) in
  let s' := if is_anywanup e then (ipt_restrictions s e seen).1.1 else s in
  [Chain !"INPUT" !"DROP"; Chain !"OUTPUT" !"ACCEPT"] ++
  filter_log (nv := nv) e ++ lines4 (filter_input (nv := nv) e bw) ++
  lines4 (on (has "TCONFIG_PPTPD") (pptpc_firewall (nv := nv) e "OUTPUT" [])) ++
  [Chain !"FORWARD" !"DROP"] ++
  lines4 (forward_head (nv := nv) e account) ++ lines4 restrictions ++
  lines4 (forward_tail (nv := view s') e seen' (kill_switch (nv := view s') (ipv6 e)).1).

Lemma filter_table_lines :
  lines4 (filter_table s e bw account seen).1.2 = Table !"filter" :: body ++ [Commit].
Proof.
  unfold filter_table, filter_forward, body. cbv zeta.
  set (r := if is_anywanup e then ipt_restrictions s e seen else (s, [], seen)).
  replace (if is_anywanup e then (ipt_restrictions s e seen).1.1 else s) with r.1.1
    by (unfold r; by destruct (is_anywanup e)).
  destruct r as [[s' restrictions] seen']. cbn [fst snd].
  rewrite !lines4_app, !lines4_46. 
  assert (H6 : forall b ls, lines4 (on b (ip6t_write ls)) = []) by (intros [] ls; [apply lines4_ip6t|done]).
  rewrite H6. cbn [app]. by rewrite <- !app_assoc; cbn [app]; rewrite <- !app_assoc.
Qed.

Context (Ht : drop_targets e).
Context (Hbw : ipt_bwlimit (nv := view s) 3 = Some bw) (Hacc : ipt_account (nv := view s) = Some account).

(** *** All lines are in order *)

Lemma restrictions_ok : restriction_lines e line_ok.
Proof.
  constructor.
  - reflexivity.
  - intros m. by apply outer_append.
  - intros m. by apply outer_insert.
  - intros n. destruct (reschain_inner n) as (_ & _ & H1), (devchain_inner n) as (_ & _ & H2). done.
  - intros n m tgt Htgt. destruct (reschain_inner n) as (_ & H1 & _). apply inner_append.
    rewrite !elem_of_cons, elem_of_nil in Htgt. destruct Htgt as [->|[->|[->|[]]]]; [reflexivity| |];
      (apply (drop_tame _ e); [lia|done]).
  - intros n m tgt Htgt. destruct (devchain_inner n) as (_ & H1 & _), (reschain_inner n) as (H2 & H3 & _). apply inner_append.
    rewrite !elem_of_cons, elem_of_nil in Htgt. destruct Htgt as [->|[->|[->|[]]]]; [reflexivity|apply (drop_tame _ e); [lia|done]|].
    cbn [tame_target]. destruct (chain_target_name n) as [-> _]. by rewrite H1, H2, H3.
Qed.

Lemma link_ok x : line_ok (link x).
Proof.
  unfold link. apply inner_append. cbn [tame_target]. unfold tame.
  destruct (chain_target_name x.2) as [H1 H2].
  destruct (chain_name_cases x.1 x.2) as [-> | ->]; rewrite ?H1, ?H2; unfold reschain, devchain;
    generalize (two_digits x.2); intros d; reflexivity.
Qed.

Lemma filter_ok : Forall line_ok body.
Proof.
  unfold body. cbv zeta.
  assert (Hr : forall P, restriction_lines e P ->
    Forall P (lines4 (if is_anywanup e then ipt_restrictions s e seen else (s, [], seen)).1.2)).
  { intros P HP. destruct (is_anywanup e); [by apply restrictions_shape|constructor]. }
  assert (Hbw' := bwlimit_drops _ Hbw). assert (Hacc' := account_drops _ Hacc).
  specialize (Hr _ restrictions_ok).
  destruct (if is_anywanup e then ipt_restrictions s e seen else (s, [], seen)) as [[s1 restrictions] seen'].
  assert (Hd : forall ls, Forall only_drops ls -> Forall line_ok ls) by (intros ls H; eapply Forall_impl; [exact H|apply only_drops_ok]).
  apply Forall_app_2; [repeat constructor|].
  apply Forall_app_2; [by apply filter_log_ok|].
  apply Forall_app_2; [apply filter_input_ok; auto|].
  apply Forall_app_2; [apply each_on; intros _; apply pptp_shape; intros; by apply outer_append|].
  apply Forall_app_2; [repeat constructor|].
  apply Forall_app_2; [apply forward_head_ok; auto|].
  apply Forall_app_2; [exact Hr|].
  apply forward_tail_ok; try done. apply Hd, kill_switch_drops.
Qed.

(** The policies that the table gives. *)
Lemma filter_policy c : c ∈ [!"INPUT"; !"FORWARD"] -> chain_policy c (lines4 (filter_table s e bw account seen).1.2) = Drop.
Proof.
  intros Hc. rewrite filter_table_lines. apply policy_drop.
  - apply elem_of_cons. right. apply elem_of_app. left. unfold body. cbv zeta.
    destruct (if is_anywanup e then ipt_restrictions s e seen else (s, [], seen)) as [[s1 restrictions] seen'].
    rewrite !elem_of_cons, elem_of_nil in Hc. destruct Hc as [->|[->|[]]]; [apply elem_of_app; left; left|].
    do 4 (apply elem_of_app; right). apply elem_of_app. left. left.
  - apply Forall_cons. split; [done|]. apply Forall_app. split; [|by repeat constructor].
    eapply Forall_impl; [apply filter_ok|]. intros l Hl ->. cbn [line_ok] in Hl. apply orb_false_iff in Hl as [_ Hl].
    unfold opens, in_list in Hl. by rewrite bool_decide_eq_true_2 in Hl.
Qed.

End Table.

End FilterShape.
