(* ===== verification/FilterSpec.v ===== *)
(** What the filter table does with packets.

    The table is the one that iptables-restore builds from the lines of [filter_table]
    (RulesSpec.v), with what [rcheck] links into it later. A packet of a new connection
    from outside reaches the router only by a rule for a service that is open to the
    outside, and a packet from one bridge to another is dropped unless the settings let
    it through. *)

From Stdlib Require Import ZArith Lia.
From stdpp Require Import base list strings gmap.
From S2P Require Import Prelude Scan Strings Nvram Inet Wan BuildConfig Defaults SaveVars Restrict Rules RulesSpec Ndpi FwEnv.
From S2P Require Import Forward RestrictRules KillSwitch Bwlimit Pbr Firewall Filter FilterShape DefaultsSpec.

Local Open Scope Z_scope.
Local Open Scope rule_scope.

Module FilterSpec.
Import Scan Strings Nvram Inet Wan BuildConfig Defaults SaveVars Restrict Rules RulesSpec Ndpi FwEnv.
Import Forward RestrictRules KillSwitch Bwlimit Pbr Firewall Filter FilterShape.

(** ** The rules of one chain *)

Section Packets.
Context {pk : Packet} {laws : PacketLaws}.

(** Whether a packet meets the conditions of a line. *)
Definition reaches (l : line) : bool :=
  match l with Append _ m _ | Insert _ _ m _ => forallb fits m | _ => false end.

(** A line that does not let the packet through the chain. *)
Definition entry (c : cstr) (l : line) : Prop :=
  match l with
  | Append d _ tg | Insert d _ _ tg => d = c -> reaches l = true -> tame_target rank inner c tg = true
  | _ => True
  end.

Lemma entry_other c d m tg : d <> c -> entry c (Append d m tg).
Proof. intros H ?. done. Qed.

Lemma entry_tame c d m tg : tame_target rank inner c tg = true -> entry c (Append d m tg).
Proof. by intros H _ _. Qed.

Lemma entry_missed c d m tg : forallb fits m = false -> entry c (Append d m tg).
Proof. intros H _ H'. simpl in H'. by rewrite H in H'. Qed.

Lemma only_drops_entry c l : c = !"INPUT" \/ c = !"FORWARD" -> only_drops l -> entry c l.
Proof.
  intros Hc. destruct l as [| |d m tg|d [] m tg| | |]; simpl; try done; intros [_ Hd] -> _; naive_solver.
Qed.

(** The rules of a chain all of whose lines are like that. *)
Lemma entries_tame b ls t c :
  load b (empty_table b) ls = Some t -> Forall (entry c) ls ->
  Forall (fun r => fires r = true -> tame_target rank inner c r.2 = true) (default [] (t !! c)).
Proof.
  intros Hl Hf. apply Forall_forall. intros r Hr Hfire. destruct (table_origin b ls t c r Hl Hr) as (l & Hin & Ha).
  rewrite Forall_forall in Hf. specialize (Hf l Hin).
  destruct l; simpl in Ha; try done; destruct Ha as [-> ->]; by apply Hf.
Qed.

Lemma new_state l : ct_state = !"NEW" -> in_list !"NEW" (strsep (chr ",") l) = false -> forall m, forallb fits (State l :: m) = false.
Proof. intros H Hl m. cbn [forallb fits]. by rewrite H, Hl. Qed.

(** ** The table as loaded *)

Context {st : Store} {build : Build} {links : Links} {cfg : Config} {resolver : Resolver} {procs : Procs}
  {domains : Domains}.

(** The lines of the table and the jumps to the rules that are on. *)
Lemma loaded s e bw account seen ns t t' :
  drop_targets e -> ipt_bwlimit (nv := view s) 3 = Some bw -> ipt_account (nv := view s) = Some account ->
  load_table !"filter" builtin (lines4 (filter_table s e bw account seen).1.2) = Some t ->
  load builtin t (map link ns) = Some t' ->
  let ls := body s e bw account seen ++ map link ns in
  load builtin (empty_table builtin) ls = Some t' /\ plain_chains t' /\
  (forall n d, inner d = true -> (rank d <= n)%nat -> calm n t' (default [] (t' !! d))).
Proof.
  intros Ht Hbw Hacc Hl Hl' ls. rewrite filter_table_lines in Hl. apply load_table_body in Hl.
  assert (Hload : load builtin (empty_table builtin) ls = Some t') by (unfold ls; by rewrite load_app, Hl).
  assert (Hok : Forall line_ok ls).
  { apply Forall_app_2; [by apply filter_ok|]. apply Forall_map, Forall_forall. intros x _. apply link_ok. }
  assert (Hp : plain_chains t').
  { intros d Hd. revert d Hd. apply (load_plain builtin ls); [eapply Forall_impl; [exact Hok|apply line_ok_plain]| |done].
    intros c Hc Hb. unfold builtin in Hb. cbn [map] in Hb. rewrite !elem_of_cons, elem_of_nil in Hb.
    assert (He : in_list c extensions = true) by (unfold in_list; by apply bool_decide_eq_true).
    destruct Hb as [->|[->|[->|[]]]]; vm_compute in He; discriminate. }
  split_and!; [done|done|]. intros n d Hd Hn.
  apply (tame_calm rank inner builtin ls); [done|done| |done|done].
  eapply Forall_impl; [exact Hok|apply line_ok_tame].
Qed.

(** ** INPUT *)

(** The services that are open to other than the LAN. *)
Definition open_services (s : store) (e : env) : list line :=
  let nv := view s in
  services (nv := nv) e ++
  lines4 (on (has "TCONFIG_PPTPD") (pptpc_firewall (nv := nv) e "INPUT" [])) ++
  ntp_rules (nv := nv) e.

Ltac missed := intros; exact I || (apply entry_other; vm_compute; discriminate) || (apply entry_tame; reflexivity).

Lemma limits_entry {nv : Nvram} e : Forall (entry !"INPUT") (shlimit_rules e ++ wwwlimit_rules e ++ ftplimit_rules e).
Proof.
  unfold shlimit_rules, wwwlimit_rules, ftplimit_rules, limit_chain, limited, input. cbv zeta. each; missed.
Qed.

Lemma closed_entry c l : reaches l = false -> entry c l.
Proof. destruct l; simpl; try done; intros H _ H'; by rewrite H in H'. Qed.

Lemma filter_input_entry s e bw :
  drop_targets e -> ct_state = !"NEW" -> in_if <> !"lo" ->
  Forall (fun l => if_match (lanface l) in_if = false) (first_or has_face (lans e)) ->
  Forall (fun l => reaches l = false) (open_services s e) -> Forall (entry !"INPUT") (lines4 bw) ->
  Forall (entry !"INPUT") (lines4 (filter_input (nv := view s) e bw)).
Proof.
  intros Ht Hnew Hlo Hlan Hcl Hbw.
  assert (Hl := limits_entry (nv := view s) e). rewrite !Forall_app in Hl. destruct Hl as (H1 & H2 & H3).
  assert (Hc : Forall (entry !"INPUT") (open_services s e)) by (eapply Forall_impl; [exact Hcl|apply closed_entry]).
  unfold open_services in Hc. cbv zeta in Hc. rewrite !Forall_app in Hc. destruct Hc as (H4 & H5 & H6).
  unfold filter_input, foreach_wan_input, strict_input, lan_input, input. cbv zeta. rewrite !lines4_app, !lines4_ipt.
  each; try (by apply entry_tame).
  - apply entry_missed. by rewrite new_state.
  - apply entry_missed. cbn [forallb fits]. apply andb_false_iff. left. apply strcmp_neq. congruence.
  - apply entry_missed. cbn [forallb fits]. rewrite Forall_forall in Hlan. by rewrite Hlan.
Qed.

(** FORWARD has no rules of INPUT. *)
Lemma forward_elsewhere {nv : Nvram} e account seen kill :
  Forall (entry !"INPUT") account -> Forall (entry !"INPUT") (lines4 kill) ->
  Forall (entry !"INPUT") (lines4 (forward_head e account)) /\ Forall (entry !"INPUT") (lines4 (forward_tail e seen kill)).
Proof.
  intros Ha Hk. split.
  - unfold forward_head, offload_rules, lan_to_lan, access_rule, fwd. cbv zeta. each; missed.
  - assert (Ht1 : Forall (entry !"INPUT") (lines4 (ipt_triggered IPT_TABLE_FILTER))) by (apply triggered_shape; missed).
    assert (Hp : Forall (entry !"INPUT") (lines4 (pptpc_firewall e "FORWARD" []))) by (apply pptp_shape; missed).
    unfold forward_tail, ipt_ndpi_inbound, ipsec_rules, isolation, lan_out, upnp_filter, ipt_webmon, monitor_source,
      monitor_exclude, wan_in, ipt_forward, forward_rules, nat_rules, filter_rule, ip6t_forward, dmz_forward, fwd.
    cbv zeta. each; missed.
Qed.

Lemma body_input_entry s e bw account seen :
  drop_targets e -> ipt_bwlimit (nv := view s) 3 = Some bw -> ipt_account (nv := view s) = Some account ->
  ct_state = !"NEW" -> in_if <> !"lo" ->
  Forall (fun l => if_match (lanface l) in_if = false) (first_or has_face (lans e)) ->
  Forall (fun l => reaches l = false) (open_services s e) ->
  Forall (entry !"INPUT") (body s e bw account seen).
Proof.
  intros Ht Hbw Hacc Hnew Hlo Hlan Hcl. unfold body. cbv zeta.
  assert (Hr : restriction_lines e (entry !"INPUT")).
  { constructor; try (intros; (apply entry_other; discriminate) || exact I || done). }
  assert (Hd : forall ls, Forall only_drops ls -> Forall (entry !"INPUT") ls)
    by (intros ls H; eapply Forall_impl; [exact H|intros l; apply only_drops_entry; by left]).
  assert (Hrs : Forall (entry !"INPUT") (lines4 (if is_anywanup e then ipt_restrictions s e seen else (s, [], seen)).1.2))
    by (destruct (is_anywanup e); [by apply restrictions_shape|constructor]).
  destruct (if is_anywanup e then ipt_restrictions s e seen else (s, [], seen)) as [[s1 restrictions] seen'].
  apply Forall_app_2; [repeat constructor|].
  apply Forall_app_2; [unfold filter_log; cbv zeta; each; missed|].
  apply Forall_app_2; [apply filter_input_entry; try done; by apply Hd, (bwlimit_drops (nv := view s))|].
  apply Forall_app_2; [apply each_on; intros _; apply pptp_shape; intros; (apply entry_other; discriminate) || done|].
  apply Forall_app_2; [repeat constructor|].
  apply Forall_app_2; [|apply Forall_app_2; [exact Hrs|]].
  - by apply (forward_elsewhere (nv := view s) e account seen' []); [apply Hd, (account_drops (nv := view s))|constructor].
  - by apply (forward_elsewhere e []); [constructor|apply Hd, kill_switch_drops].
Qed.

(** C4: the firewall denies by default. Whatever is configured, whichever bandwidth
    limits and accounting rules are generated and whichever access restrictions [rcheck]
    links in later: if the IPv4 filter table that the router writes can be loaded, then a
    packet of a new connection that does not come from the loop-back interface or from a
    LAN bridge, and that meets no rule for a service which the settings open to the
    outside (ping, DHCP, remote administration, SNMP, multicast, RIP, NTP, tunnels, the
    network of the PPTP client), is dropped in INPUT; it is not accepted by a chain that
    a rule jumps to either. *)
Theorem input_default_deny s e bw account seen ns t t' :
  targets e = chains_log_detection (nv := view s) ->
  ipt_bwlimit (nv := view s) 3 = Some bw -> ipt_account (nv := view s) = Some account ->
  load_table !"filter" builtin (lines4 (filter_table s e bw account seen).1.2) = Some t ->
  load builtin t (map link ns) = Some t' ->
  ct_state = !"NEW" -> in_if <> !"lo" ->
  Forall (fun l => if_match (lanface l) in_if = false) (first_or has_face (lans e)) ->
  Forall (fun l => reaches l = false) (open_services s e) ->
  traverse 5 t' !"INPUT" (chain_policy !"INPUT" (lines4 (filter_table s e bw account seen).1.2)) = Some Drop.
Proof.
  intros Htg Hbw Hacc Hl Hl' Hnew Hlo Hlan Hcl. assert (Ht := detected_drop (nv := view s) e Htg).
  rewrite filter_policy by (done || by left).
  destruct (loaded s e bw account seen ns t t' Ht Hbw Hacc Hl Hl') as (Hload & Hp & Hin).
  apply calm_drops, (tame_rules rank inner t' !"INPUT"); [done|done| |vm_compute; lia].
  apply (entries_tame builtin _ _ _ Hload), Forall_app_2; [by apply body_input_entry|].
  apply Forall_map, Forall_forall. intros x _. apply entry_other. discriminate.
Qed.

(** ** FORWARD *)

(** A line that does not let the packet through; what it inserts, it inserts at the
    head. *)
Definition harmless (l : line) : Prop := entry !"FORWARD" l /\ at_head !"FORWARD" l.

(** A line behind the one that drops: only insertions matter. *)
Definition behind (l : line) : Prop := match l with Insert _ _ _ _ => harmless l | _ => True end.

Lemma omap_in_rules c l r : (match l with Append d m tg => if strcmp_eq d c then Some (m, tg) else None | _ => None end = Some r \/
  match l with Insert d _ m tg => if strcmp_eq d c then Some (m, tg) else None | _ => None end = Some r) ->
  entry c l -> fires r = true -> tame_target rank inner c r.2 = true.
Proof.
  destruct l as [| |d m tg|d pos m tg| | |]; intros [H|H]; try done; destruct (strcmp_eq d c) eqn:E; try done;
    injection H as <-; apply strcmp_eq_true in E; intros He Hf; by apply He.
Qed.

Lemma forward_content pre r post t :
  load builtin (empty_table builtin) (pre ++ Append !"FORWARD" r.1 r.2 :: post) = Some t ->
  Forall harmless pre -> Forall behind post ->
  exists before after, t !! !"FORWARD" = Some (before ++ r :: after) /\
    Forall (fun r => fires r = true -> tame_target rank inner !"FORWARD" r.2 = true) before.
Proof.
  intros Hl Hpre Hpost. set (ls := pre ++ Append !"FORWARD" r.1 r.2 :: post) in *.
  assert (Hall : Forall (at_head !"FORWARD") ls).
  { apply Forall_app_2; [eapply Forall_impl; [exact Hpre|by intros l [_ H]]|]. constructor; [done|].
    eapply Forall_impl; [exact Hpost|]. intros [] H; try done. by destruct H. }
  assert (Hb : !"FORWARD" ∈ builtin) by (unfold builtin; cbn [map]; set_solver).
  assert (Hc := load_content builtin !"FORWARD" ls _ _ [] Hb (empty_table_builtin builtin _ Hb) Hall Hl).
  exists (List.rev (inserted !"FORWARD" ls) ++ appended !"FORWARD" pre), (appended !"FORWARD" post). split.
  - rewrite Hc. cbn [app]. rewrite <- (app_assoc (List.rev _)). f_equal. f_equal. unfold ls, appended. rewrite omap_app.
    cbn [omap list_omap]. rewrite strcmp_eq_refl. by destruct r.
  - apply Forall_app_2; apply Forall_forall; intros x Hx Hf.
    + apply list_elem_of_In, in_rev, list_elem_of_In, list_elem_of_omap in Hx as (l & Hin & Hx).
      apply (omap_in_rules _ l x); [by right| |done]. unfold ls in Hin.
      rewrite elem_of_app, elem_of_cons in Hin. rewrite Forall_forall in Hpre, Hpost.
      destruct Hin as [Hin|[->|Hin]]; [by apply Hpre|done|].
      specialize (Hpost l Hin). destruct l; try done. by destruct Hpost.
    + apply list_elem_of_omap in Hx as (l & Hin & Hx). apply (omap_in_rules _ l x); [by left| |done].
      rewrite Forall_forall in Hpre. by apply Hpre.
Qed.

(** The rule of an insertion: in front of it are insertions only. *)
Lemma inserted_content ls t k :
  load builtin (empty_table builtin) ls = Some t -> Forall behind ls -> k ∈ ls ->
  match k with
  | Insert c None m tg => c = !"FORWARD" ->
      exists before after, t !! !"FORWARD" = Some (before ++ (m, tg) :: after) /\
        Forall (fun r => fires r = true -> tame_target rank inner !"FORWARD" r.2 = true) before
  | _ => True
  end.
Proof.
  intros Hl Hall Hk. destruct k as [| |c m tg|c [n|] m tg| | |]; try done. intros ->.
  assert (Hat : Forall (at_head !"FORWARD") ls).
  { eapply Forall_impl; [exact Hall|]. intros [] H; try done. by destruct H. }
  assert (Hb : !"FORWARD" ∈ builtin) by (unfold builtin; cbn [map]; set_solver).
  assert (Hc := load_content builtin !"FORWARD" ls _ _ [] Hb (empty_table_builtin builtin _ Hb) Hat Hl).
  assert (Hin : (m, tg) ∈ List.rev (inserted !"FORWARD" ls)).
  { rewrite list_elem_of_In, <- in_rev, <- list_elem_of_In. unfold inserted. rewrite list_elem_of_omap.
    eexists. split; [exact Hk|]. cbn. by rewrite strcmp_eq_refl. }
  apply list_elem_of_split in Hin as (before & after & E).
  exists before, (after ++ appended !"FORWARD" ls). split; [rewrite Hc, E; cbn [app]; by rewrite <- app_assoc|].
  apply Forall_forall. intros x Hx Hf.
  assert (Hx' : x ∈ inserted !"FORWARD" ls).
  { rewrite list_elem_of_In, in_rev, E, <- list_elem_of_In. apply elem_of_app. by left. }
  unfold inserted in Hx'. apply list_elem_of_omap in Hx' as (l & Hin & Hl').
  apply (omap_in_rules _ l x); [by right| |done]. rewrite Forall_forall in Hall. specialize (Hall l Hin).
  destruct l; try done. by destruct Hall.
Qed.

(** The generators: harmless in front of the isolation of the bridges, and behind it. *)
Ltac harmless_leaf :=
  split; [first [exact I | (apply entry_other; vm_compute; discriminate) | (apply entry_tame; reflexivity)]
         | first [exact I | vm_compute; discriminate | done]].

Section Crossing.
Context {nv : Nvram} (e : env) (Hnew : ct_state = !"NEW").

Lemma harmless_other c m tg : c <> !"FORWARD" -> harmless (Append c m tg).
Proof. intros H. split; [by apply entry_other|exact I]. Qed.

Lemma harmless_missed m tg : forallb fits m = false -> harmless (Append !"FORWARD" m tg).
Proof. intros H. split; [by apply entry_missed|exact I]. Qed.

Lemma harmless_tame m tg : tame_target rank inner !"FORWARD" tg = true -> harmless (Append !"FORWARD" m tg).
Proof. intros H. split; [by apply entry_tame|exact I]. Qed.

Lemma only_drops_harmless l : only_drops l -> harmless l.
Proof. intros H. split; [apply only_drops_entry; [by right|done]|]. by destruct l as [| |c m tg|c [] m tg| | |]. Qed.

Lemma restrictions_harmless : restriction_lines e harmless.
Proof.
  constructor.
  - split; exact I.
  - intros m. by apply harmless_tame.
  - intros m. split; [done|]. simpl. discriminate.
  - intros n. split_and!; split; exact I.
  - intros n m tgt _. by apply harmless_other.
  - intros n m tgt _. by apply harmless_other.
Qed.

(** INPUT has no rules of FORWARD. *)
Lemma input_harmless bw : Forall harmless (lines4 bw) -> Forall harmless (lines4 (filter_input e bw)).
Proof.
  intros Hb. assert (Hp : Forall harmless (lines4 (pptpc_firewall e "INPUT" [])))
    by (apply pptp_shape; intros; (apply harmless_other; discriminate) || done).
  unfold filter_input, foreach_wan_input, shlimit_rules, wwwlimit_rules, ftplimit_rules, limit_chain, limited, strict_input,
    lan_input, services, tunnel_rules, ping_rules, dhcp_rules, remote_rules, snmp_rules, multicast_rules, ntp_rules, open_port, input.
  cbv zeta. each; harmless_leaf.
Qed.

Lemma log_harmless : Forall harmless (filter_log e).
Proof. unfold filter_log. cbv zeta. each; harmless_leaf. Qed.

(** A packet from one bridge to another. *)
Context (Hlan : Forall (fun l => if_match (lanface l) in_if && if_match (lanface l) out_if = false) (first_or has_face (lans e))).
Context (Hfaces : Forall (fun f => if_match (face_name f) in_if = false) (faces e)).
Context (Hacc : Forall (fun a => forallb fits [In (!"br" ++ ac_from a); Out (!"br" ++ ac_to a); Match (ac_src a); Match (ac_dst a)] = false)
  accesses).

Lemma head_harmless account : Forall harmless account -> Forall harmless (lines4 (forward_head e account)).
Proof.
  intros Ha. unfold forward_head, offload_rules, lan_to_lan, access_rule, fwd. cbv zeta.
  rewrite Forall_forall in Hlan. rewrite Forall_forall in Hacc.
  each; try harmless_leaf; apply harmless_missed; [|by apply Hacc].
  cbn [forallb fits]. rewrite andb_true_r. by apply Hlan.
Qed.

Definition tail_front (seen : list cstr) : list write :=
  on (is_anywanup e) (ipt_ndpi_inbound e seen) ++ ipt_webmon e ++
  ip46t_write (ipv6 e)
    [Chain !"wanin" user; Chain !"wanout" user; fwd [State !"RELATED,ESTABLISHED"] !"ACCEPT"] ++
  ipt_write (
    on full_cone (map (fun f => fwd [In (face_name f); Match !"-p udp -m conntrack --ctstate DNAT"] !"ACCEPT") (faces e)) ++
    ipsec_rules e).

Definition tail_back (kill : list write) : list write :=
  on (has "TCONFIG_IPV6" && ipv6 e) (ip6t_write (forward6_rules e)) ++
  ipt_write (concat (map (fun f => [fwd [In (face_name f)] !"wanin"; fwd [Out (face_name f)] !"wanout"]) (faces e))) ++
  on (has "TCONFIG_OPENVPN" || has "TCONFIG_WIREGUARD") kill ++
  on (has "TCONFIG_PPTPD") (pptpc_firewall e "FORWARD" []) ++
  lan_out e ++ upnp_filter e ++ on (is_anywanup e) (wan_in e).

Lemma tail_parts seen kill :
  lines4 (forward_tail e seen kill) = lines4 (tail_front seen) ++ lines4 (isolation e) ++ lines4 (tail_back kill).
Proof. unfold forward_tail, tail_front, tail_back. by rewrite !lines4_app, <- !app_assoc. Qed.

Lemma front_harmless seen : Forall harmless (lines4 (tail_front seen)).
Proof.
  unfold tail_front, ipt_ndpi_inbound, ipt_webmon, monitor_source, monitor_exclude, ipsec_rules, fwd. cbv zeta.
  rewrite Forall_forall in Hfaces.
  each; try harmless_leaf; apply harmless_missed; try (by rewrite new_state);
    cbn [forallb fits]; by rewrite Hfaces.
Qed.

Lemma back_behind kill : Forall only_drops (lines4 kill) -> Forall behind (lines4 (tail_back kill)).
Proof.
  intros Hk. assert (Hk' : Forall behind (lines4 kill)).
  { eapply Forall_impl; [exact Hk|]. intros l Hl. apply only_drops_harmless in Hl. by destruct l. }
  assert (Ht1 : Forall behind (lines4 (ipt_triggered IPT_TABLE_FILTER))) by (by apply triggered_shape).
  assert (Hp : Forall behind (lines4 (pptpc_firewall e "FORWARD" []))) by (by apply pptp_shape).
  unfold tail_back, lan_out, upnp_filter, wan_in, ipt_forward, forward_rules, nat_rules, filter_rule, ip6t_forward, dmz_forward, fwd.
  cbv zeta. each; exact I.
Qed.

Lemma isolation_split a b :
  a ∈ bridges -> b ∈ bridges -> a <> b -> is_br (bridge_name a) = true -> is_br (bridge_name b) = true ->
  access_allowed a b = false ->
  exists pre post, lines4 (isolation e) = pre ++ fwd [In (bridge_name a); Out (bridge_name b)] !"DROP" :: post /\
    Forall harmless pre /\ Forall behind post.
Proof.
  intros Ha Hb Hab Ha' Hb' Hacc'.
  assert (Hall : Forall (fun l => harmless l /\ behind l) (lines4 (isolation e))).
  { unfold isolation, fwd. each. split; [by apply harmless_tame|exact I]. }
  assert (Hin : fwd [In (bridge_name a); Out (bridge_name b)] !"DROP" ∈ lines4 (isolation e)).
  { unfold isolation. rewrite lines4_concat, list_elem_of_In, in_concat. exists (lines4 (concat (map (fun br2 =>
      on (negb (a =? br2) && negb (access_allowed a br2) && is_br (bridge_name br2))
        (ip46t_write (ipv6 e) [fwd [In (bridge_name a); Out (bridge_name br2)] !"DROP"])) bridges))).
    split; [apply in_map_iff; exists a; rewrite Ha'; by rewrite <- list_elem_of_In|].
    rewrite lines4_concat, in_concat. exists [fwd [In (bridge_name a); Out (bridge_name b)] !"DROP"].
    split; [|by left]. apply in_map_iff. exists b. rewrite Hacc', Hb', (proj2 (Z.eqb_neq _ _) Hab). cbn [negb andb on].
    rewrite lines4_46. by rewrite <- list_elem_of_In. }
  apply list_elem_of_split in Hin as (pre & post & E). exists pre, post. rewrite E in Hall.
  apply Forall_app in Hall as [H1 H2]. apply Forall_cons in H2 as [_ H2].
  split_and!; [done|eapply Forall_impl; [exact H1|by intros l [? ?]]|eapply Forall_impl; [exact H2|by intros l [? ?]]].
Qed.

End Crossing.

(** *** What the restrictions leave of the settings *)

Context {stl : StoreLaws}.

Lemma restrictions_store s e seen n :
  prefix_of_str !"rrules_" n = false -> get (ipt_restrictions s e seen).1.1 n = get s n.
Proof.
  intros Hn. assert (H : forall m, prefix_of_str !"rrules_" m = true -> n <> m) by (intros m Hm ->; congruence).
  unfold ipt_restrictions. cbv zeta. destruct (all_restrictions _ _ _ _ _ _) as [ws seen']. cbn [fst].
  unfold nvram_set, nvram_unset. by rewrite !get_set_other by (by apply H).
Qed.

Lemma bridge_key_first br suffix size :
  char_at (get_bridge_nvram_key br suffix (S (S size))) 0 = 108.
Proof.
  unfold get_bridge_nvram_key, get_prefix_nvram_key, snprintf, get_bridge_prefix, strlcpy, snprintf. by destruct (br =? 0).
Qed.

(** The lines of the table around the isolation of two bridges. *)
Lemma body_split s e bw account seen a b :
  let s' := if is_anywanup e then (ipt_restrictions s e seen).1.1 else s in
  ipt_bwlimit (nv := view s) 3 = Some bw -> ipt_account (nv := view s) = Some account ->
  a ∈ bridges -> b ∈ bridges -> a <> b ->
  is_br (bridge_name (nv := view s') a) = true -> is_br (bridge_name (nv := view s') b) = true ->
  access_allowed (nv := view s') a b = false -> ct_state = !"NEW" ->
  Forall (fun l => if_match (lanface l) in_if && if_match (lanface l) out_if = false) (first_or has_face (lans e)) ->
  Forall (fun f => if_match (face_name f) in_if = false) (faces e) ->
  Forall (fun r => forallb fits [In (!"br" ++ ac_from r); Out (!"br" ++ ac_to r); Match (ac_src r); Match (ac_dst r)] = false)
    (accesses (nv := view s)) ->
  exists pre post, body s e bw account seen =
      pre ++ fwd [In (bridge_name (nv := view s') a); Out (bridge_name (nv := view s') b)] !"DROP" :: post /\
    Forall harmless pre /\ Forall behind post.
Proof.
  intros s' Hbw Hac Ha Hb Hab Hna Hnb Hcl Hnew Hlan Hwan Hrec.
  destruct (isolation_split (nv := view s') e a b) as (ip & iq & Ei & Hip & Hiq); try done.
  assert (Hd : forall ls, Forall only_drops ls -> Forall harmless ls)
    by (intros ls H; eapply Forall_impl; [exact H|apply only_drops_harmless]).
  assert (Hrs : Forall harmless (lines4 (if is_anywanup e then ipt_restrictions s e seen else (s, [], seen)).1.2)).
  { destruct (is_anywanup e); [apply restrictions_shape, restrictions_harmless|constructor]. }
  unfold body. cbv zeta. fold s'.
  destruct (if is_anywanup e then ipt_restrictions s e seen else (s, [], seen)) as [[s1 restrictions] seen'].
  rewrite tail_parts, Ei.
  exists ([Chain !"INPUT" !"DROP"; Chain !"OUTPUT" !"ACCEPT"] ++
    filter_log (nv := view s) e ++ lines4 (filter_input (nv := view s) e bw) ++
    lines4 (on (has "TCONFIG_PPTPD") (pptpc_firewall (nv := view s) e "OUTPUT" [])) ++
    [Chain !"FORWARD" !"DROP"] ++ lines4 (forward_head (nv := view s) e account) ++ lines4 restrictions ++
    lines4 (tail_front (nv := view s') e seen') ++ ip),
    (iq ++ lines4 (tail_back (nv := view s') e (kill_switch (nv := view s') (ipv6 e)).1)).
  split; [by repeat first [rewrite <- !app_assoc | progress cbn [app]]|]. split.
  - apply Forall_app_2; [repeat constructor|].
    apply Forall_app_2; [apply log_harmless|].
    apply Forall_app_2; [apply input_harmless, Hd; by apply (bwlimit_drops (nv := view s))|].
    apply Forall_app_2; [apply each_on; intros _; apply pptp_shape; intros; by apply harmless_other|].
    apply Forall_app_2; [repeat constructor|].
    apply Forall_app_2; [apply head_harmless; try done; apply Hd; by apply (account_drops (nv := view s))|].
    apply Forall_app_2; [exact Hrs|].
    apply Forall_app_2; [by apply front_harmless|exact Hip].
  - apply Forall_app_2; [done|]. apply back_behind, kill_switch_drops.
Qed.

(** C5: bridges are isolated. Whatever is configured: if the IPv4 filter table can be
    loaded, a packet of a new connection that comes from one LAN bridge and would leave
    by another is dropped in FORWARD when the settings do not let the one reach the other:
    no record of [lan_access] fits the packet, and none opens the way between the two
    bridges as a whole; and when the first bridge is not named like a WAN interface, and
    no entry of the list of LANs stands for both. Packets of established connections pass. No
    access restriction, no monitor and no rule for the protocols of a VPN lets it pass in
    front of the rule that drops it, whatever is linked in later. *)
Theorem bridges_isolated s e bw account seen ns t t' a b :
  targets e = chains_log_detection (nv := view s) ->
  ipt_bwlimit (nv := view s) 3 = Some bw -> ipt_account (nv := view s) = Some account ->
  load_table !"filter" builtin (lines4 (filter_table s e bw account seen).1.2) = Some t ->
  load builtin t (map link ns) = Some t' ->
  a ∈ bridges -> b ∈ bridges -> a <> b ->
  is_br (bridge_name (nv := view s) a) = true -> is_br (bridge_name (nv := view s) b) = true ->
  access_allowed (nv := view s) a b = false ->
  ct_state = !"NEW" ->
  if_match (bridge_name (nv := view s) a) in_if = true -> if_match (bridge_name (nv := view s) b) out_if = true ->
  Forall (fun l => if_match (lanface l) in_if && if_match (lanface l) out_if = false) (first_or has_face (lans e)) ->
  Forall (fun f => if_match (face_name f) in_if = false) (faces e) ->
  Forall (fun r => forallb fits [In (!"br" ++ ac_from r); Out (!"br" ++ ac_to r); Match (ac_src r); Match (ac_dst r)] = false)
    (accesses (nv := view s)) ->
  traverse 5 t' !"FORWARD" (chain_policy !"FORWARD" (lines4 (filter_table s e bw account seen).1.2)) = Some Drop.
Proof.
  intros Htg Hbw Hac Hl Hl' Ha Hb Hab Hna Hnb Hcl Hnew Hia Hob Hlan Hwan Hrec.
  assert (Ht := detected_drop (nv := view s) e Htg). rewrite filter_policy by (done || by right; left).
  destruct (loaded s e bw account seen ns t t' Ht Hbw Hac Hl Hl') as (Hload & Hp & Hin).
  set (s' := if is_anywanup e then (ipt_restrictions s e seen).1.1 else s).
  assert (Hs : forall n, prefix_of_str !"rrules_" n = false -> get s' n = get s n).
  { intros n Hn. unfold s'. destruct (is_anywanup e); [by apply restrictions_store|done]. }
  assert (Hname : forall br, bridge_name (nv := view s') br = bridge_name (nv := view s) br).
  { intros br. unfold bridge_name, bridge_nvram_get, nvram_safe_get. cbn [nvram_get view]. rewrite Hs; [done|].
    assert (H1 := bridge_key_first br !"ifname" 11). destruct (get_bridge_nvram_key _ _ _) as [|c k]; [done|].
    cbn in H1. by subst. }
  assert (Hcl' : access_allowed (nv := view s') a b = false).
  { rewrite <- Hcl. unfold access_allowed, accesses, nvram_safe_get. cbn [nvram_get view]. by rewrite Hs. }
  destruct (body_split s e bw account seen a b) as (pre & post & Eb & Hpre & Hpost); try done; try (by fold s'; rewrite Hname).
  fold s' in Eb. rewrite !Hname in Eb. rewrite Eb, <- app_assoc in Hload. cbn [app] in Hload.
  destruct (forward_content pre ([In (bridge_name (nv := view s) a); Out (bridge_name (nv := view s) b)], Jump !"DROP")
    (post ++ map link ns) t' Hload) as (before & after & Ef & Hbf); [done| |].
  { apply Forall_app_2; [done|]. apply Forall_map, Forall_forall. done. }
  apply (calm_before_drop 4 t' _ before _ after Ef); [|by cbn [fires fst forallb fits]; rewrite Hia, Hob|done].
  apply (tame_rules rank inner t' !"FORWARD"); [done|done|done|vm_compute; lia].
Qed.

(** ** The kill switch *)

(** What the kill switch takes as addresses of a destination. *)
Definition destination {nv : Nvram} (on : bool) (value dst : cstr) : Prop :=
  check_string (snprintf 64 value) 64 = (1, dst) \/
  (check_string (snprintf 64 value) 64).1 = 0 /\
  exists l a, resolve_fqdn on (snprintf 64 value) = Some l /\ (AF_INET, a) ∈ l /\ dst = a ++ !"/32".

Lemma kill_rule {nv : Nvram} on c type value dst wan :
  c ∈ clients -> (type, value) ∈ KillSwitch.policies c -> type = 2 \/ type = 3 -> destination on value dst -> wan ∈ wan_ifs ->
  Insert !"FORWARD" None [Match (!"-d" +++ dst); Out wan] reject4 ∈ lines4 (kill_switch on).1.
Proof.
  intros Hc Hp Ht Hd Hw. unfold kill_switch. cbn [fst].
  assert (H : forall (l : list (list write * option (cstr * bool))) x y,
    x ∈ l -> y ∈ lines4 x.1 -> y ∈ lines4 (concat (map fst l))).
  { intros l x y Hx Hy. rewrite lines4_concat, list_elem_of_In, in_concat. exists (lines4 x.1).
    split; [|by rewrite <- list_elem_of_In]. apply in_map_iff. exists x. by rewrite <- list_elem_of_In. }
  apply (H _ (KillSwitch.policy_rules on type value (vpn_if c) wan)).
  { rewrite list_elem_of_In, in_concat. exists (client_rules on c).
    split; [apply in_map_iff; exists c; by rewrite <- list_elem_of_In|].
    unfold client_rules. rewrite in_concat. exists (map (KillSwitch.policy_rules on type value (vpn_if c)) wan_ifs).
    split; [apply in_map_iff; exists (type, value); by rewrite <- list_elem_of_In|].
    apply in_map_iff. exists wan. by rewrite <- list_elem_of_In. }
  unfold KillSwitch.policy_rules. cbv zeta.
  replace (type =? 1) with false by (symmetry; lia). replace ((type =? 2) || (type =? 3)) with true by (symmetry; lia).
  unfold destination_rules. destruct Hd as [-> | [E (l & a & Hl & Ha & ->)]].
  - cbn [fst]. rewrite lines4_ipt. unfold dest_rules. set_solver.
  - destruct (check_string _ _) as [r sip]. cbn [fst] in E. subst r. rewrite Hl. cbn [fst].
    rewrite lines4_concat, list_elem_of_In, in_concat.
    exists (dest_rules (a ++ !"/32") (vpn_if c) wan reject4). split.
    + apply in_map_iff. exists (AF_INET, a). cbn [fst snd]. rewrite Z.eqb_refl, lines4_ipt. by rewrite <- list_elem_of_In.
    + unfold dest_rules. rewrite <- list_elem_of_In. set_solver.
Qed.

Lemma harmless_behind l : harmless l -> behind l.
Proof. by destruct l. Qed.

(** All that the table inserts in FORWARD are rules that reject. *)
Lemma body_behind s e bw account seen :
  ipt_bwlimit (nv := view s) 3 = Some bw -> ipt_account (nv := view s) = Some account ->
  Forall behind (body s e bw account seen).
Proof.
  intros Hbw Hac.
  assert (Hd : forall ls, Forall only_drops ls -> Forall harmless ls)
    by (intros ls H; eapply Forall_impl; [exact H|apply only_drops_harmless]).
  assert (Hh : forall ls, Forall harmless ls -> Forall behind ls)
    by (intros ls H; eapply Forall_impl; [exact H|apply harmless_behind]).
  assert (Hrs : Forall behind (lines4 (if is_anywanup e then ipt_restrictions s e seen else (s, [], seen)).1.2)).
  { apply Hh. destruct (is_anywanup e); [apply restrictions_shape, restrictions_harmless|constructor]. }
  unfold body. cbv zeta.
  destruct (if is_anywanup e then ipt_restrictions s e seen else (s, [], seen)) as [[s1 restrictions] seen'].
  rewrite tail_parts.
  apply Forall_app_2; [repeat constructor|].
  apply Forall_app_2; [apply Hh, log_harmless|].
  apply Forall_app_2; [apply Hh, input_harmless, Hd; by apply (bwlimit_drops (nv := view s))|].
  apply Forall_app_2; [apply each_on; intros _; by apply pptp_shape|].
  apply Forall_app_2; [repeat constructor|].
  apply Forall_app_2; [|apply Forall_app_2; [exact Hrs|apply Forall_app_2; [|apply Forall_app_2]]].
  - assert (Ha : Forall behind account) by (apply Hh, Hd; by apply (account_drops (nv := view s))).
    unfold forward_head, offload_rules, lan_to_lan, access_rule, fwd. cbv zeta. each; exact I.
  - unfold tail_front, ipt_ndpi_inbound, ipt_webmon, monitor_source, monitor_exclude, ipsec_rules, fwd. cbv zeta. each; exact I.
  - unfold isolation, fwd. each; exact I.
  - apply back_behind, kill_switch_drops.
Qed.

(** C7: the kill switch holds for the destinations that get a rule. While it is on for a
    destination of a VPN client that is one address or one network, or a name that could be
    resolved when the rules were written, no packet for that address leaves by a WAN,
    whatever else is configured: not one of an established connection, not one
    that a port forwarding, an access record or an offloading rule would let pass, since
    the rules that reject it stand in front of all others in FORWARD. (A range of addresses
    is accepted by the routing policies and gets no rule.) *)
Theorem kill_switch_holds s e bw account seen ns t t' c type value dst wan :
  let s' := (filter_table s e bw account seen).1.1 in
  targets e = chains_log_detection (nv := view s) ->
  ipt_bwlimit (nv := view s) 3 = Some bw -> ipt_account (nv := view s) = Some account ->
  load_table !"filter" builtin (lines4 (filter_table s e bw account seen).1.2) = Some t ->
  load builtin t (map link ns) = Some t' ->
  has "TCONFIG_OPENVPN" || has "TCONFIG_WIREGUARD" = true ->
  c ∈ clients (nv := view s') -> (type, value) ∈ KillSwitch.policies c -> type = 2 \/ type = 3 ->
  destination (nv := view s') (ipv6 e) value dst -> wan ∈ wan_ifs (nv := view s') ->
  meets (!"-d" +++ dst) = true -> if_match wan out_if = true ->
  traverse 5 t' !"FORWARD" (chain_policy !"FORWARD" (lines4 (filter_table s e bw account seen).1.2)) = Some Drop.
Proof.
  intros s' Htg Hbw Hac Hl Hl' Hvpn Hc Hp Hty Hdst Hw Hmeets Hout.
  assert (Ht := detected_drop (nv := view s) e Htg). rewrite filter_policy by (done || by right; left).
  destruct (loaded s e bw account seen ns t t' Ht Hbw Hac Hl Hl') as (Hload & Hpl & Hin).
  assert (Hall : Forall behind (body s e bw account seen ++ map link ns)).
  { apply Forall_app_2; [by apply body_behind|]. apply Forall_map, Forall_forall. done. }
  set (k := Insert !"FORWARD" None [Match (!"-d" +++ dst); Out wan] reject4).
  assert (Hk : k ∈ body s e bw account seen).
  { assert (Hs' : s' = if is_anywanup e then (ipt_restrictions s e seen).1.1 else s).
    { unfold s', filter_table, filter_forward. destruct (is_anywanup e); [|done].
      by destruct (ipt_restrictions s e seen) as [[? ?] ?]. }
    pose proof (kill_rule (nv := view s') (ipv6 e) c type value dst wan Hc Hp Hty Hdst Hw) as H.
    unfold body. cbv zeta. rewrite <- Hs'.
    destruct (if is_anywanup e then ipt_restrictions s e seen else (s, [], seen)) as [[s1 restrictions] seen'].
    rewrite tail_parts. unfold tail_back. rewrite Hvpn, !lines4_app. cbn [on].
    do 11 (apply elem_of_app; right). apply elem_of_app. by left. }
  destruct (inserted_content _ t' k Hload Hall ltac:(apply elem_of_app; by left) eq_refl) as (before & after & Ef & Hbf).
  apply (calm_before_drop 4 t' _ before _ after Ef); [|cbn [fires fst forallb fits]; by rewrite Hout, Hmeets|done].
  apply (tame_rules rank inner t' !"FORWARD"); [done|done|done|vm_compute; lia].
Qed.

(** ** From outside to the LAN *)

(** The chains through which something is let in are considered as well. *)
Definition outer_names : list cstr := map bytes ["wanin"; "wanout"; "upnp"; "triggers"]%string.
Definition passage (c : cstr) : bool := inner c || in_list c outer_names.

Lemma tame_passage c tg : tame_target rank inner c tg = true -> tame_target rank passage c tg = true.
Proof.
  destruct tg as [x|x|]; cbn [tame_target]; [unfold tame|..]; [|unfold passage|done].
  - rewrite !orb_true_iff, !andb_true_iff, !orb_true_iff, !andb_true_iff. unfold passage. rewrite orb_true_iff. tauto.
  - rewrite !andb_true_iff, orb_true_iff. tauto.
Qed.

(** A line of FORWARD that does not let the packet through. *)
Definition closed (l : line) : Prop :=
  match l with
  | Append d _ tg | Insert d _ _ tg =>
      reaches l = true ->
      (d = !"FORWARD" -> tame_target rank passage !"FORWARD" tg = true) /\ in_list d outer_names = false
  | _ => True
  end.

Lemma closed_missed l : reaches l = false -> closed l.
Proof. destruct l; simpl; try done; intros H H'; by rewrite H in H'. Qed.

Lemma entry_closed c m tg : in_list c outer_names = false -> entry !"FORWARD" (Append c m tg) -> closed (Append c m tg).
Proof. intros Hc He Hr. split; [|done]. intros ->. apply tame_passage, He; done. Qed.

(** The rules through which something is let in. *)
Definition open_forward {nv : Nvram} (e : env) : list line :=
  lines4 (concat (map (access_rule e) accesses)) ++
  on full_cone (map (fun f => fwd [In (face_name f); Match !"-p udp -m conntrack --ctstate DNAT"] !"ACCEPT") (faces e)) ++
  ipsec_rules e ++
  lines4 (on (has "TCONFIG_PPTPD") (pptpc_firewall e "FORWARD" [])) ++
  lines4 (on (is_anywanup e) (wan_in e)).

Ltac shut := intros;
  first [ exact I | reflexivity
        | (intros _; split; [let E := fresh in intros E; vm_compute in E; discriminate E|reflexivity])
        | (intros _; split; [intros _; reflexivity|reflexivity]) ].

Section FromOutside.
Context {nv : Nvram} (e : env) (Hnew : ct_state = !"NEW").
Context (Hlan : Forall (fun l => if_match (lanface l) in_if = false) (first_or has_face (lans e))).
Context (Hbr : Forall (fun br => if_match (bridge_name br) in_if = false) bridges).
Context (Hopen : Forall (fun l => reaches l = false) (open_forward e)).

Lemma open_closed : Forall closed (open_forward e).
Proof. eapply Forall_impl; [exact Hopen|]. apply closed_missed. Qed.

Lemma front_closed seen : Forall closed (lines4 (tail_front e seen)).
Proof.
  assert (Ho := open_closed). unfold open_forward in Ho. rewrite !Forall_app in Ho. destruct Ho as (_ & H2 & H3 & _).
  unfold tail_front, ipt_ndpi_inbound, ipt_webmon, monitor_source, monitor_exclude. cbv zeta.
  each; try assumption; try shut. apply closed_missed. unfold fwd. cbn [reaches]. by rewrite new_state.
Qed.

Lemma isolation_closed : Forall closed (lines4 (isolation e)).
Proof. unfold isolation. each; shut. Qed.

Lemma back_closed kill : Forall closed (lines4 kill) -> Forall closed (lines4 (tail_back e kill)).
Proof.
  intros Hk. assert (Ho := open_closed). unfold open_forward in Ho. rewrite !Forall_app in Ho. destruct Ho as (_ & _ & _ & H4 & H5).
  unfold tail_back, lan_out, upnp_filter. rewrite Forall_forall in Hbr. each; try assumption; try shut.
  apply closed_missed. unfold fwd. cbn [reaches forallb fits]. by rewrite Hbr.
Qed.

Lemma head_closed account : Forall closed (lines4 (concat (map (access_rule e) accesses))) -> Forall closed account ->
  Forall closed (lines4 (forward_head e account)).
Proof.
  intros H1 Ha.
  unfold forward_head, offload_rules, lan_to_lan. cbv zeta. rewrite Forall_forall in Hlan. each; try assumption; try shut.
  apply closed_missed. unfold fwd. cbn [reaches forallb fits]. by rewrite Hlan.
Qed.

End FromOutside.

Lemma input_closed {nv : Nvram} e bw : Forall closed (lines4 bw) -> Forall closed (lines4 (filter_input e bw)).
Proof.
  intros Hb. assert (Hp : Forall closed (lines4 (pptpc_firewall e "INPUT" []))) by (apply pptp_shape; [shut|shut|shut|discriminate]).
  unfold filter_input, foreach_wan_input, shlimit_rules, wwwlimit_rules, ftplimit_rules, limit_chain, limited, strict_input,
    lan_input, services, tunnel_rules, ping_rules, dhcp_rules, remote_rules, snmp_rules, multicast_rules, ntp_rules, open_port, input.
  cbv zeta. each; shut.
Qed.

Lemma only_drops_closed l : only_drops l -> closed l.
Proof.
  intros H. assert (He := only_drops_entry !"FORWARD" l (or_intror eq_refl) H).
  destruct l as [| |c m tg|c [] m tg| | |]; try done; destruct H as [Hc _]; intros Hr;
    (split; [intros ->; by apply tame_passage, He|]); by destruct (dropping_chain c Hc) as [-> | ->].
Qed.

Lemma closed_tame l : line_ok l -> closed l -> tame_line rank passage l.
Proof.
  destruct l as [| |c m tg|c pos m tg| | |]; simpl; try done; intros Hok Hcl Hq Hf; unfold passage in Hq;
    apply orb_true_iff in Hq as [Hq|Hq]; try (by apply tame_passage, Hok); destruct (Hcl Hf) as [_ Hc]; congruence.
Qed.

Lemma restrictions_closed e : restriction_lines e closed.
Proof.
  assert (Hn : forall n, in_list (reschain n) outer_names = false /\ in_list (devchain n) outer_names = false).
  { intros n. unfold reschain, devchain. generalize (two_digits n). intros d. by split. }
  constructor.
  - exact I.
  - shut.
  - shut.
  - intros n. by split_and!.
  - intros n m tgt _ _. split; [discriminate|apply Hn].
  - intros n m tgt _ _. split; [discriminate|apply Hn].
Qed.

Lemma body_closed s e bw account seen :
  let s' := if is_anywanup e then (ipt_restrictions s e seen).1.1 else s in
  ipt_bwlimit (nv := view s) 3 = Some bw -> ipt_account (nv := view s) = Some account -> ct_state = !"NEW" ->
  Forall (fun l => if_match (lanface l) in_if = false) (first_or has_face (lans e)) ->
  Forall (fun br => if_match (bridge_name (nv := view s') br) in_if = false) bridges ->
  Forall (fun l => reaches l = false) (open_forward (nv := view s') e) ->
  Forall closed (body s e bw account seen).
Proof.
  intros s' Hbw Hac Hnew Hlan Hbr Hopen.
  assert (Hd : forall ls, Forall only_drops ls -> Forall closed ls)
    by (intros ls H; eapply Forall_impl; [exact H|apply only_drops_closed]).
  assert (Hrs : Forall closed (lines4 (if is_anywanup e then ipt_restrictions s e seen else (s, [], seen)).1.2)).
  { destruct (is_anywanup e); [apply restrictions_shape, restrictions_closed|constructor]. }
  assert (Hs : forall n, prefix_of_str !"rrules_" n = false -> get s' n = get s n).
  { intros n Hn. unfold s'. destruct (is_anywanup e); [by apply restrictions_store|done]. }
  assert (Hacc : accesses (nv := view s') = accesses (nv := view s)).
  { unfold accesses, nvram_safe_get. cbn [nvram_get view]. by rewrite Hs. }
  unfold body. cbv zeta. fold s'.
  destruct (if is_anywanup e then ipt_restrictions s e seen else (s, [], seen)) as [[s1 restrictions] seen'].
  assert (Hb := Hd _ (bwlimit_drops (nv := view s) _ Hbw)). assert (Ha := Hd _ (account_drops (nv := view s) _ Hac)).
  rewrite tail_parts.
  apply Forall_app_2; [repeat constructor|].
  apply Forall_app_2; [unfold filter_log; cbv zeta; each; shut|].
  apply Forall_app_2; [by apply input_closed|].
  apply Forall_app_2; [apply each_on; intros _; apply pptp_shape; [discriminate|shut|shut|discriminate]|].
  apply Forall_app_2; [repeat constructor|].
  apply Forall_app_2; [|apply Forall_app_2; [exact Hrs|apply Forall_app_2; [|apply Forall_app_2]]].
  - apply head_closed; [exact Hlan| |exact Ha]. rewrite <- Hacc.
    assert (Ho := open_closed (nv := view s') e Hopen). unfold open_forward in Ho. rewrite !Forall_app in Ho. apply Ho.
  - apply front_closed; assumption.
  - apply isolation_closed.
  - apply back_closed; [assumption..|]. apply Hd, kill_switch_drops.
Qed.

(** C6: nothing comes in from outside unless it is let in. A packet of a new connection
    that does not come from a LAN bridge is dropped in FORWARD when it meets none of the
    rules for what is let in: access records, the mappings of the full-cone NAT, VPN
    pass-through, the network of the PPTP client, multicast, port forwardings and the
    DMZ. (Triggered forwardings always count as met, and the chain of the UPnP daemon is
    empty after loading.) *)
Theorem wan_default_deny s e bw account seen ns t t' :
  let s' := (filter_table s e bw account seen).1.1 in
  targets e = chains_log_detection (nv := view s) ->
  ipt_bwlimit (nv := view s) 3 = Some bw -> ipt_account (nv := view s) = Some account ->
  load_table !"filter" builtin (lines4 (filter_table s e bw account seen).1.2) = Some t ->
  load builtin t (map link ns) = Some t' ->
  ct_state = !"NEW" ->
  Forall (fun l => if_match (lanface l) in_if = false) (first_or has_face (lans e)) ->
  Forall (fun br => if_match (bridge_name (nv := view s') br) in_if = false) bridges ->
  Forall (fun l => reaches l = false) (open_forward (nv := view s') e) ->
  traverse 5 t' !"FORWARD" (chain_policy !"FORWARD" (lines4 (filter_table s e bw account seen).1.2)) = Some Drop.
Proof.
  intros s' Htg Hbw Hac Hl Hl' Hnew Hlan Hbr Hopen. assert (Ht := detected_drop (nv := view s) e Htg).
  rewrite filter_policy by (done || by right; left).
  destruct (loaded s e bw account seen ns t t' Ht Hbw Hac Hl Hl') as (Hload & Hpl & _).
  assert (Hs' : s' = if is_anywanup e then (ipt_restrictions s e seen).1.1 else s).
  { unfold s', filter_table, filter_forward. destruct (is_anywanup e); [|done].
    by destruct (ipt_restrictions s e seen) as [[? ?] ?]. }
  rewrite Hs' in Hbr, Hopen.
  assert (Hok : Forall line_ok (body s e bw account seen ++ map link ns)).
  { apply Forall_app_2; [by apply filter_ok|]. apply Forall_map, Forall_forall. intros x _. apply link_ok. }
  assert (Hcl : Forall closed (body s e bw account seen ++ map link ns)).
  { apply Forall_app_2; [by apply body_closed|]. apply Forall_map, Forall_forall. intros x _ _. by split. }
  assert (Hin : forall n d, passage d = true -> (rank d <= n)%nat -> calm n t' (default [] (t' !! d))).
  { intros n d Hd Hn. apply (tame_calm rank passage builtin (body s e bw account seen ++ map link ns)); [done|done| |done|done].
    apply Forall_forall. intros l Hin. rewrite Forall_forall in Hok, Hcl. specialize (Hok l Hin). specialize (Hcl l Hin).
    by apply closed_tame. }
  apply calm_drops, (tame_rules rank passage t' !"FORWARD"); [done|done| |vm_compute; lia].
  apply Forall_forall. intros r Hr Hfire. destruct (table_origin builtin _ t' _ r Hload Hr) as (l & Hin' & Ha).
  rewrite Forall_forall in Hcl. specialize (Hcl l Hin').
  destruct l; simpl in Ha; try done; destruct Ha as [-> ->]; by apply Hcl.
Qed.

End Packets.

(** ** An example *)

(** Two bridges, one WAN, one access restriction and logging. *)
Definition demo_settings : gmap cstr cstr := list_to_map (map (fun x => (bytes x.1, bytes x.2))
  [("lan_ifname", "br0"); ("lan_ipaddr", "192.168.1.1"); ("lan_netmask", "255.255.255.0");
   ("lan1_ifname", "br1"); ("lan1_ipaddr", "192.168.2.1"); ("lan1_netmask", "255.255.255.0");
   ("lan_access", "1<0<192.168.1.7<1<<printer"); ("log_in", "1"); ("log_out", "1"); ("block_wan", "1");
   ("remote_management", "1"); ("http_wanport", "8080"); ("ne_shlimit", "1,3,60"); ("sshd_port", "22");
   ("log_wm", "1"); ("log_wmtype", "0"); ("cstats_enable", "1"); ("ipsec_pass", "1"); ("bwl_enable", "0");
   ("mwan_num", "1"); ("wan_proto", "dhcp"); ("wan_iface", "vlan2"); ("wan_ifname", "vlan2");
   ("vpnc1_rgw", "2"); ("vpnc1_if", "tun"); ("vpnc1_routing_val", "1<2<203.0.113.5<1>0<2<203.0.113.9<1");
   ("rrule0", "1|-1|-1|127|192.168.1.9>AA:BB:CC:DD:EE:FF|6<d<80<<<0<|facebook|0")]%string).

Definition vpn_build : Config := {|
  defined f := @defined DefaultsSpec.pc_build f || bool_decide (f = "TCONFIG_OPENVPN"%string);
  count := @count DefaultsSpec.pc_build |}.

#[local] Instance demo_build : Build := {| MWAN_MAX := 4 |}.
#[local] Instance demo_links : Links := {| file_contents _ := None; if_flags _ := None; wan_phy_link _ := 0; socket_ok := false |}.
#[local] Instance demo_resolver : Resolver := {| getaddrinfo _ _ := [IPT_V4] |}.
#[local] Instance demo_procs : Procs := {| pptpclient_running := false |}.
#[local] Instance demo_domains : Domains := {| lookup_domain _ := None |}.

Definition demo_env : env :=
  {| ipv6 := false; targets := chains_log_detection (nv := view (st := DefaultsSpec.map_store) demo_settings);
     wans := [(true, [{| face_name := !"vlan2"; face_ip := !"198.51.100.7" |}])];
     lans := [(!"br0", !"192.168.1.1", !"255.255.255.0"); (!"br1", !"192.168.2.1", !"255.255.255.0")];
     wan6face := []; remotemanage := true; web_lanport := 80 |}.

Definition demo_account : list line := default [] (ipt_account (nv := view (st := DefaultsSpec.map_store) demo_settings) (cfg := vpn_build)).

Definition demo_lines : list line :=
  lines4 (filter_table (st := DefaultsSpec.map_store) (cfg := vpn_build) demo_settings demo_env [] demo_account []).1.2.

Definition loading : option chainmap := load_table !"filter" builtin demo_lines.
Definition linking : option chainmap := load builtin (default ∅ loading) (map link [(chr "|", 0)]).

Strategy expand [loading linking demo_lines demo_account].

Lemma default_some {A} (d : A) x : match x with Some _ => true | None => false end = true -> x = Some (default d x).
Proof. by destruct x. Qed.

Lemma account_some : ipt_account (nv := view (st := DefaultsSpec.map_store) demo_settings) (cfg := vpn_build) =
  Some demo_account.
Proof. apply default_some. vm_compute. reflexivity. Qed.

Lemma loading_some :
  load_table !"filter" builtin
    (lines4 (filter_table (st := DefaultsSpec.map_store) (cfg := vpn_build) demo_settings demo_env [] demo_account []).1.2)
  = Some (default ∅ loading).
Proof.
  assert (H : loading = Some (default ∅ loading)) by (apply default_some; vm_compute; reflexivity).
  unfold loading at 1 in H. unfold demo_lines in H. exact H.
Qed.

Lemma linking_some : load builtin (default ∅ loading) (map link [(chr "|", 0)]) = Some (default ∅ linking).
Proof.
  assert (H : linking = Some (default ∅ linking)) by (apply default_some; vm_compute; reflexivity).
  unfold linking at 1 in H. exact H.
Qed.

(** A TCP packet to port 22. *)
Definition demo_packet (i o : cstr) : Packet := {|
  in_if := i; out_if := o; ct_state := !"NEW";
  meets t := in_list t [!"-p tcp"; !"--dport 22"; !"! -i lo"]; decides _ := None |}.

Lemma demo_laws i o : PacketLaws (pk := demo_packet i o).
Proof. by constructor. Qed.

Lemma input_default_deny_witness :
  traverse (pk := demo_packet !"vlan2" []) 5 (default ∅ linking) !"INPUT" (chain_policy !"INPUT" demo_lines) = Some Drop.
Proof.
  apply (input_default_deny (pk := demo_packet !"vlan2" []) (laws := demo_laws _ _) (st := DefaultsSpec.map_store)
    (cfg := vpn_build) demo_settings demo_env [] demo_account [] [(chr "|", 0)] (default ∅ loading));
    [reflexivity|vm_compute; reflexivity|exact account_some|exact loading_some|exact linking_some| | | |].
  - reflexivity.
  - discriminate.
  - repeat constructor.
  - apply (bool_decide_unpack _). vm_compute. exact I.
Defined.

Lemma bridges_isolated_witness :
  traverse (pk := demo_packet !"br1" !"br0") 5 (default ∅ linking) !"FORWARD" (chain_policy !"FORWARD" demo_lines) = Some Drop.
Proof.
  apply (bridges_isolated (pk := demo_packet !"br1" !"br0") (laws := demo_laws _ _) (st := DefaultsSpec.map_store)
    (stl := DefaultsSpec.map_store_laws)
    (cfg := vpn_build) demo_settings demo_env [] demo_account [] [(chr "|", 0)] (default ∅ loading) _ 1 0);
    [reflexivity|vm_compute; reflexivity|exact account_some|exact loading_some|exact linking_some| | | | | | | | | | | |];
    first [discriminate | reflexivity | apply (bool_decide_unpack _); vm_compute; exact I].
Defined.

#[local] Instance final_settings : Nvram := view (st := DefaultsSpec.map_store)
  (filter_table (st := DefaultsSpec.map_store) (cfg := vpn_build) demo_settings demo_env [] demo_account []).1.1.

Definition demo_client : client := {| vpn_if := !"tun11"; KillSwitch.policies := [(2, !"203.0.113.5")] |}.

(** A packet for the protected address, of an established connection. *)
Definition protected_packet : Packet := {|
  in_if := !"br0"; out_if := !"vlan2"; ct_state := !"ESTABLISHED";
  meets t := in_list t [!"-d 203.0.113.5/32"]; decides _ := None |}.

Lemma protected_laws : PacketLaws (pk := protected_packet).
Proof. by constructor. Qed.

Lemma kill_switch_holds_witness :
  traverse (pk := protected_packet) 5 (default ∅ linking) !"FORWARD" (chain_policy !"FORWARD" demo_lines) = Some Drop.
Proof.
  apply (kill_switch_holds (pk := protected_packet) (laws := protected_laws) (st := DefaultsSpec.map_store)
    (stl := DefaultsSpec.map_store_laws)
    (cfg := vpn_build) demo_settings demo_env [] demo_account [] [(chr "|", 0)] (default ∅ loading) _
    demo_client 2 !"203.0.113.5" !"203.0.113.5/32" !"vlan2");
    [reflexivity|vm_compute; reflexivity|exact account_some|exact loading_some|exact linking_some|reflexivity| | |by left| | | |].
  - vm_compute. by left.
  - by left.
  - left. vm_compute. reflexivity.
  - vm_compute. by left.
  - reflexivity.
  - reflexivity.
Defined.

Lemma wan_default_deny_witness :
  traverse (pk := demo_packet !"vlan2" !"br0") 5 (default ∅ linking) !"FORWARD" (chain_policy !"FORWARD" demo_lines) = Some Drop.
Proof.
  apply (wan_default_deny (pk := demo_packet !"vlan2" !"br0") (laws := demo_laws _ _) (st := DefaultsSpec.map_store)
    (stl := DefaultsSpec.map_store_laws) (cfg := vpn_build) demo_settings demo_env [] demo_account []
    [(chr "|", 0)] (default ∅ loading));
    [reflexivity|vm_compute; reflexivity|exact account_some|exact loading_some|exact linking_some|reflexivity| | |];
    apply (bool_decide_unpack _); vm_compute; exact I.
Defined.

End FilterSpec.
