(* ===== verification/QuotaWindow.v ===== *)
(** When a bandwidth quota is in force and when its counters start again
    (src/tomato64/package/rc/rc/quotas.c: [quota_reset_args], [quota_set_kernel_tz],
    [quota_parse_clock], [quota_valid_ranges], [quota_valid_weekdays],
    [quota_active_args]).

    The times of a window are checked here before they are handed to the parser of the
    match (Timerange.v), which trusts its input. The time zone of the kernel is set by
    system calls, which are the class [TzCalls]. *)

From Stdlib Require Import ZArith Lia.
From stdpp Require Import base list strings.
From S2P Require Import Prelude Scan Strings Nvram Inet Timerange Rules.

Local Open Scope Z_scope.
Local Open Scope rule_scope.

Module QuotaWindow.
Import Scan Strings Nvram Inet Rules.

Definition QUOTA_CLOCK_VALID_MIN : Z := 1600000000.
Definition QUOTA_DAY_SECS : Z := 86400.
Definition QUOTA_WEEK_SECS : Z := 7 * QUOTA_DAY_SECS.
Definition QUOTA_RANGE_MAX : nat := 12.

Definition QUOTA_ACTIVE_ONLY : cstr := !"only".
Definition QUOTA_ACTIVE_EXCEPT : cstr := !"except".

(** A value between quotation marks. *)
Definition quoted (s : cstr) : cstr := 34 :: s ++ [34].

(** ** The reset of the counters *)

Definition quota_valid_reset (s : cstr) : bool :=
  strcmp_eq s !"hour" || strcmp_eq s !"day" || strcmp_eq s !"week" || strcmp_eq s !"month".

(** The offset from the start of the interval. *)
Definition reset_offset (reset rday rhour : cstr) : Z :=
  let day := if char_at rday 0 =? 0 then 0 else atoi rday in
  let hour := if char_at rhour 0 =? 0 then 0 else atoi rhour in
  let hour := if (hour <? 0) || (23 <? hour) then 0 else hour in
  if strcmp_eq reset !"week" then
    let day := if (day <? 0) || (6 <? day) then 0 else day in
    day * 86400 + hour * 3600
  else if strcmp_eq reset !"month" then
    let day := if (day <? 1) || (31 <? day) then 1 else day in
    (day - 1) * 86400 + hour * 3600
  else if strcmp_eq reset !"day" then hour * 3600
  else 0.

Definition quota_reset_args (bufsz : nat) (reset rday rhour : cstr) : cstr :=
  snprintf bufsz (!" --reset_interval " ++ reset ++ !" --reset_time " ++ print_d (reset_offset reset rday rhour)).

(** ** Times *)

Definition quota_daynames : list cstr :=
  [!"sun"; !"mon"; !"tue"; !"wed"; !"thu"; !"fri"; !"sat"].

Fixpoint name_index (x : cstr) (l : list cstr) (i : Z) : option Z :=
  match l with
  | [] => None
  | y :: l => if strcmp_eq x y then Some i else name_index x l (i + 1)
  end.

(** The day whose name the text starts with, in any case. *)
Definition quota_day_index (s : cstr) : option Z := name_index (map tolower (take 3 s)) quota_daynames 0.

(** Hours, minutes and seconds: the sum and the rest of the text. *)
Fixpoint clock_parts (mult : list Z) (secs : Z) (s : cstr) : option (Z * cstr) :=
  match mult with
  | [] => Some (secs, s)
  | m :: mult =>
      if negb (isdigit (char_at s 0)) then None
      else
        let d := take_until (fun c => negb (isdigit c)) s in
        if (2 <? length d)%nat then None
        else
          let secs := secs + dec_value 0 d * m in
          let s := drop (length d) s in
          if char_at s 0 =? chr ":" then clock_parts mult secs (drop 1 s) else Some (secs, s)
  end.

Definition quota_parse_clock (s : cstr) (weekly : bool) : option Z :=
  let s := skip_while is_blank s in
  '(secs, s) ← (if weekly
                then match quota_day_index s with
                     | Some day => Some (day * QUOTA_DAY_SECS, skip_while is_blank (drop 3 s))
                     | None => None
                     end
                else Some (0, s));
  '(secs, s) ← clock_parts [3600; 60; 1] secs s;
  match skip_while is_blank s with
  | [] => if secs <=? (if weekly then QUOTA_WEEK_SECS else QUOTA_DAY_SECS) then Some secs else None
  | _ => None
  end.

(** One range of a list: exactly one dash, two different times. *)
Definition range_of (weekly : bool) (p : cstr) : option (Z * Z) :=
  dash ← strchr p (chr "-");
  match strchr (drop (S dash) p) (chr "-") with
  | Some _ => None
  | None =>
      a ← quota_parse_clock (take dash p) weekly;
      b ← quota_parse_clock (drop (S dash) p) weekly;
      if a =? b then None else Some (a, b)
  end.

Definition span (weekly : bool) : Z := if weekly then QUOTA_WEEK_SECS else QUOTA_DAY_SECS.

(** The ranges of a list, all or nothing. *)
Definition ranges_of (weekly : bool) (spec : cstr) : option (list (Z * Z)) :=
  if (320 <=? length spec)%nat then None
  else
    let ps := strsep (chr ",") spec in
    if (QUOTA_RANGE_MAX <? length ps)%nat then None else mapM (range_of weekly) ps.

Definition unwrapped (span : Z) (r : Z * Z) : Z := if r.2 <? r.1 then r.2 + span else r.2.

Definition clash (span : Z) (r1 r2 : Z * Z) : bool := (r1.1 <? unwrapped span r2) && (r2.1 <? unwrapped span r1).

(** Whether two entries of different places overlap. *)
Definition any_clash (span : Z) (l : list (Z * Z)) : bool :=
  existsb (fun i => existsb (fun j => negb (i =? j)%nat && clash span (nth i l (0, 0)) (nth j l (0, 0)))
                      (seq 0 (length l))) (seq 0 (length l)).

Definition covered (span : Z) (l : list (Z * Z)) : Z :=
  fold_right (fun r n => unwrapped span r - r.1 + n) 0 l.

Definition quota_valid_ranges (spec : cstr) (weekly : bool) : bool :=
  match ranges_of weekly spec with
  | Some l => negb (any_clash (span weekly) l) && (covered (span weekly) l <? span weekly)
  | None => false
  end.

Definition quota_valid_weekdays (spec : cstr) : bool :=
  (length spec <? 64)%nat &&
  forallb (fun p =>
    let p := skip_while is_blank p in
    (3 <=? length p)%nat &&
    (match quota_day_index p with Some _ => true | None => false end || strcmp_eq (map tolower (take 3 p)) !"all"))
    (strsep (chr ",") spec).

(** ** The match for the window of a quota *)

Definition quota_active_args (bufsz : nat) (active : cstr) : cstr :=
  if (char_at active 0 =? 0) || (384 <=? length active)%nat then []
  else
    let f k := nth k (strsep (chr "|") active) [] in
    let mode := f 0%nat in
    let hours := f 1%nat in
    let weekdays := f 2%nat in
    let weekly := f 3%nat in
    match (if strcmp_eq mode QUOTA_ACTIVE_EXCEPT then Some !"! "
           else if strcmp_eq mode QUOTA_ACTIVE_ONLY then Some [] else None) with
    | None => []
    | Some neg =>
        if negb (char_at weekly 0 =? 0) then
          if quota_valid_ranges weekly true
          then snprintf bufsz (!" -m timerange " ++ neg ++ !"--weekly_ranges " ++ quoted weekly)
          else []
        else if (char_at hours 0 =? 0) && (char_at weekdays 0 =? 0) then []
        else if negb (char_at hours 0 =? 0) && negb (quota_valid_ranges hours false) then []
        else if negb (char_at weekdays 0 =? 0) && negb (quota_valid_weekdays weekdays) then []
        else
          snprintf bufsz (!" -m timerange " ++ neg ++
            (if char_at hours 0 =? 0 then [] else !"--hours " ++ quoted hours) ++
            (if char_at weekdays 0 =? 0 then []
             else (if char_at hours 0 =? 0 then [] else !" ") ++ !"--weekdays " ++ quoted weekdays))
    end.

(** ** The time zone of the kernel *)

(** A time taken apart. *)
Record tm := { tm_min : Z; tm_hour : Z; tm_yday : Z; tm_year : Z }.

(** [time], [gmtime_r] and [localtime_r]. *)
Class Calendar := { time : Z; gmtime_r : Z -> tm; localtime_r : Z -> tm }.

(** The system calls [gettimeofday(NULL, &tz)], nothing when it fails, and
    [settimeofday(NULL, &tz)], with whether it succeeded. *)
Class TzCalls := {
  kernel : Type;
  gettimeofday : kernel -> option Z;
  settimeofday : Z -> kernel -> bool * kernel }.

Section Zone.
Context {cal : Calendar} {calls : TzCalls}.

Definition quota_clock_valid : bool := QUOTA_CLOCK_VALID_MIN <=? time.

Definition minutes_west (gm loc : tm) : Z :=
  let west := (tm_hour gm * 60 + tm_min gm) - (tm_hour loc * 60 + tm_min loc) in
  if tm_yday gm =? tm_yday loc then west
  else west + (if (tm_year loc <? tm_year gm) || ((tm_year gm =? tm_year loc) && (tm_yday loc <? tm_yday gm))
               then 1440 else - 1440).

Definition quota_set_kernel_tz (k : kernel) : kernel :=
  if negb quota_clock_valid then k
  else
    let west := minutes_west (gmtime_r time) (localtime_r time) in
    if (15 * 60 <? west) || (west <? - (15 * 60)) then k
    else if match gettimeofday k with Some cur => cur =? west | None => false end then k
    else
      let '(ok, k) := settimeofday 0 k in
      if negb ok then k else (settimeofday west k).2.

End Zone.

End QuotaWindow.
