(* ===== verification/Quotas.v ===== *)
(** Bandwidth quotas: src/tomato64/package/rc/rc/quotas.c.

    A quota is a record of [quota_rules]; its counters live in the rules of the
    bandwidth match of the mangle table. [ipt_quotas] writes these rules together with
    two files: the list of the counters ([ids]) and the speeds of the quotas that limit
    instead of blocking ([shaping]), from which [start_quota_shaping] makes a script
    of traffic classes. Around a restart of the firewall the counters are saved and
    restored by a program of its own. When a quota is in force is in QuotaWindow.v.

    The decisions of a quota are bits of the mark of a packet: see [QUOTA_MARK_DEATH]
    and the ones behind it. *)

From Stdlib Require Import ZArith Lia.
From stdpp Require Import base list strings.
From S2P Require Import Prelude Scan Strings Nvram Inet Wan BuildConfig SaveVars Rules Ndpi FwEnv Bwlimit Firewall QuotaWindow.

Local Open Scope Z_scope.
Local Open Scope rule_scope.

Module Quotas.
Import Scan Strings Nvram Inet Wan BuildConfig SaveVars Rules FwEnv Firewall QuotaWindow.

(** ** Constants *)

Definition QUOTA_MARK_DEATH : cstr := !"0x10000000".
Definition QUOTA_MARK_COMBINED : cstr := !"0x20000000".
Definition QUOTA_MARK_EXPLICIT : cstr := !"0x40000000".
Definition QUOTA_MARK_HIT : cstr := !"0x80000000".
Definition QUOTA_MARK_ALL : cstr := !"0xF0000000".
Definition QUOTA_MARK_BAND_MASK : cstr := !"0x0ff00000".
Definition QUOTA_MARK_BAND_SHIFT : Z := 20.
Definition QUOTA_MARK_BAND_MAX : Z := 255.
Definition QUOTA_MARK_ALL_BAND : cstr := !"0xFFF00000".

Definition QUOTA_IP_ALL : cstr := !"ALL".
Definition QUOTA_IP_OTHERS_COMB : cstr := !"ALL_OTHERS_COMBINED".
Definition QUOTA_IP_OTHERS_INDIV : cstr := !"ALL_OTHERS_INDIVIDUAL".
Definition QUOTA_IP_HOSTS_SHARED : cstr := !"SHARED:".

Definition QUOTA_FIELDS : nat := 11.
Definition QUOTA_ACT_THROTTLE : Z := 1.

(** ** Scopes and addresses *)

Inductive scope :=
  | QUOTA_SCOPE_ALL
  | QUOTA_SCOPE_OTHERS_COMB
  | QUOTA_SCOPE_OTHERS_INDIV
  | QUOTA_SCOPE_HOSTS
  | QUOTA_SCOPE_HOSTS_SHARED.

Definition quota_scope_of (ip : cstr) : scope :=
  if (char_at ip 0 =? 0) || strcmp_eq ip QUOTA_IP_ALL then QUOTA_SCOPE_ALL
  else if strcmp_eq ip QUOTA_IP_OTHERS_COMB then QUOTA_SCOPE_OTHERS_COMB
  else if strcmp_eq ip QUOTA_IP_OTHERS_INDIV then QUOTA_SCOPE_OTHERS_INDIV
  else if prefix_of_str QUOTA_IP_HOSTS_SHARED ip then QUOTA_SCOPE_HOSTS_SHARED
  else QUOTA_SCOPE_HOSTS.

Definition quota_hosts_addrs (ip : cstr) : cstr :=
  if prefix_of_str QUOTA_IP_HOSTS_SHARED ip then drop (length QUOTA_IP_HOSTS_SHARED) ip else ip.

Definition quota_scope_has_addrs (s : scope) : bool :=
  match s with QUOTA_SCOPE_HOSTS | QUOTA_SCOPE_HOSTS_SHARED => true | _ => false end.

Definition quota_scope_shared (s : scope) : bool :=
  match s with QUOTA_SCOPE_ALL | QUOTA_SCOPE_OTHERS_COMB | QUOTA_SCOPE_HOSTS_SHARED => true | _ => false end.

(** A range in short notation gets the network of its start. *)
Definition quota_range_expand (bufsz : nat) (addr : cstr) : cstr :=
  match strchr addr (chr "-") with
  | None => strlcpy bufsz addr
  | Some dash =>
      let high := drop (S dash) addr in
      match strchr high (chr "."), strrchr (take dash addr) (chr ".") with
      | None, Some dot => snprintf bufsz (take dash addr ++ chr "-" :: take (S dot) addr ++ high)
      | _, _ => strlcpy bufsz addr
      end
  end.

(** The direction of a test: [src] is the code ['s'], [dst] the code ['d']. *)
Inductive dir := src | dst.

Definition quota_addr_test (bufsz : nat) (addr : cstr) (d : dir) : cstr :=
  match strchr addr (chr "-") with
  | Some _ =>
      snprintf bufsz (!" -m iprange --" ++ match d with src => !"src" | dst => !"dst" end ++ !"-range "
        ++ quota_range_expand 64 addr)
  | None => snprintf bufsz (match d with src => !" -s " | dst => !" -d " end ++ addr)
  end.

(** [strtok] with a comma and a blank: the runs of other characters. *)
Fixpoint words_of (s : cstr) (cur : cstr) : list cstr :=
  match s with
  | [] => match cur with [] => [] | _ => [List.rev cur] end
  | c :: s =>
      if (c =? chr ",") || (c =? 32)
      then match cur with [] => words_of s [] | _ => List.rev cur :: words_of s [] end
      else words_of s (c :: cur)
  end.

Definition quota_split_addrs (l : cstr) (max : nat) : list cstr := take max (words_of l []).

(** ** The network of the LAN *)

Definition octets_of (n : Z) : list Z :=
  map (fun k => Z.land (Z.shiftr n k) 255) [24; 16; 8; 0].

(** The leading ones of a mask. *)
Fixpoint mask_bits (fuel : nat) (mask : Z) : Z :=
  match fuel with
  | O => 0
  | S fuel => if Z.testbit mask 31 then 1 + mask_bits fuel (u32 (Z.shiftl mask 1)) else 0
  end.

Definition quota_mask_bits (mask : Z) : Z := mask_bits 33 mask.

(** The mask is shortened until it keeps only what both networks agree on. *)
Fixpoint widen (fuel : nat) (differ mask : Z) : Z :=
  match fuel with
  | O => mask
  | S fuel => if Z.land differ mask =? 0 then mask else widen fuel differ (u32 (Z.shiftl mask 1))
  end.

Definition address (s : cstr) : Z := big_endian (inet_addr s).

Definition add_network (acc : option (Z * Z)) (net mask : Z) : option (Z * Z) :=
  match acc with
  | None => Some (net, mask)
  | Some (super_net, super_mask) =>
      let mask := widen 33 (Z.lxor super_net net) (Z.land mask super_mask) in
      Some (Z.land super_net mask, mask)
  end.

Section Lan.
Context {nv : Nvram} {cfg : Config}.

Definition lan_variable (i : Z) (suffix : cstr) : cstr :=
  nvram_safe_get (if i =? 0 then !"lan_" ++ suffix else snprintf 24 (!"lan" ++ print_d i ++ !"_" ++ suffix)).

(** The network of a bridge, if it has one. *)
Definition bridge_network (i : Z) : option (Z * Z) :=
  let ipbuf := strlcpy 24 (lan_variable i !"ipaddr") in
  if char_at ipbuf 0 =? 0 then None
  else
    let mask := address (lan_variable i !"netmask") in
    if (mask =? 0) || (mask =? 4294967295) then None else Some (Z.land (address ipbuf) mask, mask).

Definition super_network : option (Z * Z) :=
  fold_left (fun acc i => match bridge_network i with Some (net, mask) => add_network acc net mask | None => acc end)
    bridges None.

Definition quota_lan_subnet (bufsz : nat) : cstr :=
  let '(super_net, super_mask) :=
    match super_network with
    | Some (net, mask) =>
        if quota_mask_bits mask <? 8 then
          let mask := address (nvram_safe_get !"lan_netmask") in
          (Z.land (address (nvram_safe_get !"lan_ipaddr")) mask, mask)
        else (net, mask)
    | None => (0, 0)
    end in
  snprintf bufsz (inet_ntoa (octets_of super_net) ++ chr "/" :: print_d (quota_mask_bits super_mask)).

End Lan.

(** ** The records *)

(** A quota that is generated: its place among them, its identity, whom it is for, and
    its other fields. *)
Record quota := {
  q_idx : Z;
  q_id : cstr;
  q_scope : scope;
  q_addrs : list cstr;
  dlimit : cstr;
  ulimit : cstr;
  climit : cstr;
  reset : cstr;
  rday : cstr;
  rhour : cstr;
  active : cstr;
  q_action : cstr;
  tdl : cstr;
  tul : cstr }.

(** Whether a record counts. *)
Definition accepted (fs : list cstr) : bool :=
  let f k := nth k fs [] in
  (QUOTA_FIELDS <=? length fs)%nat &&
  ((char_at (f 0%nat) 0 =? 0) || (atoi (f 0%nat) =? 1)) &&
  quota_valid_reset (f 5%nat) &&
  negb ((char_at (f 2%nat) 0 =? 0) && (char_at (f 3%nat) 0 =? 0) && (char_at (f 4%nat) 0 =? 0)).

(** The identity: the number of the record, or its place. *)
Definition id_of (ruleid : cstr) (idx : Z) : cstr :=
  if (0 <? length ruleid)%nat && (length ruleid <? 24)%nat && forallb isdigit ruleid
  then strlcpy 24 ruleid else snprintf 24 (print_d idx).

(** An accepted record; nothing when it is for a list of hosts that is empty. *)
Definition quota_of (fs : list cstr) (idx : Z) : option quota :=
  let f k := nth k fs [] in
  let s := quota_scope_of (f 1%nat) in
  let addrs := if quota_scope_has_addrs s
               then quota_split_addrs (strlcpy 512 (quota_hosts_addrs (f 1%nat))) 64 else [] in
  if quota_scope_has_addrs s && bool_decide (addrs = []) then None
  else Some {| q_idx := idx; q_id := id_of (f 13%nat) idx; q_scope := s; q_addrs := addrs;
               dlimit := f 2%nat; ulimit := f 3%nat; climit := f 4%nat;
               reset := f 5%nat; rday := f 6%nat; rhour := f 7%nat; active := f 8%nat;
               q_action := f 9%nat; tdl := f 11%nat; tul := f 12%nat |}.

(** The loop over the records; [idx] is the number of those accepted before. *)
Fixpoint read_quotas (idx : Z) (ps : list cstr) : list quota :=
  match ps with
  | [] => []
  | p :: ps =>
      let fs := vstrsep 14 (chr "<") p in
      if accepted fs then
        match quota_of fs (idx + 1) with
        | Some q => q :: read_quotas (idx + 1) ps
        | None => read_quotas (idx + 1) ps
        end
      else read_quotas idx ps
  end.

(** ** Rules *)

(** A piece of a line with its leading blank. *)
Definition arg (s : cstr) : list cond := match s with [] => [] | _ :: t => [Match t] end.

Definition has_mark (v m : cstr) : cstr := !" -m mark --mark " ++ v ++ !"/" ++ m.
Definition no_mark (m : cstr) : cstr := has_mark !"0x0" m.
Definition set_mark (v m : cstr) : target := Jump (!"MARK --set-mark " ++ v ++ !"/" ++ m).
Definition clear_mark (m : cstr) : target := set_mark !"0x0" m.

(** The bandwidth match, cut to what is left of the buffer behind the window. *)
Definition bandwidth (id typ subnet limit resetargs activeargs : cstr) : cstr :=
  snprintf (1024 - length activeargs)
    (!" -m bandwidth --id " ++ quoted id ++ !" --type " ++ typ ++ subnet ++ !" --greater_than " ++ limit ++ resetargs).

Definition quota_emit (e : env) (chain id typ subnet limit resetargs activeargs skip_test : cstr)
  (addrs : list cstr) (dirs : list dir) (over_mark over_mask : cstr) : list write :=
  let over := set_mark over_mark over_mask in
  let match_ := arg activeargs ++ arg (bandwidth id typ subnet limit resetargs activeargs) in
  match addrs with
  | [] =>
      let l := Append chain (arg skip_test ++ match_) over in
      match subnet with
      | [] => ip46t_write (ipv6 e) [l]
      | _ => ipt_write [l]
      end
  | _ =>
      ipt_write (
        concat (map (fun a => map (fun d => Append chain (arg (quota_addr_test 128 a d))
                                              (set_mark QUOTA_MARK_HIT QUOTA_MARK_HIT)) dirs) addrs) ++
        [Append chain (arg (has_mark QUOTA_MARK_HIT QUOTA_MARK_HIT) ++ arg skip_test ++ match_) over;
         Append chain [] (clear_mark QUOTA_MARK_HIT)])
  end.

Section Generate.
Context {nv : Nvram} {cfg : Config} {build : Build} {links : Links} {cal : Calendar}.
Variable e : env.

Definition dl_free : bool := nvram_get_int !"bwl_enable" =? 0.
Definition ul_free : bool := dl_free && (nvram_get_int !"qos_enable" =? 0).

Definition clearmask : cstr := if dl_free then QUOTA_MARK_ALL_BAND else QUOTA_MARK_ALL.

(** The first interface with a name of every WAN that is up; the first WAN counts as
    up. *)
Definition quota_faces : list cstr :=
  omap (fun p => let '(i, w) := p in
    if (i =? 1) || is_up (snprintf 16 (!"wan" ++ print_d i)) then
      match named w.2 with f :: _ => Some (strlcpy 16 (face_name f)) | [] => None end
    else None) (imap (fun k w => (Z.of_nat k + 1, w)) (wans e)).

Definition face_rules (w : cstr) : list line :=
  let alive := arg (no_mark QUOTA_MARK_DEATH) in
  let comb := set_mark QUOTA_MARK_COMBINED QUOTA_MARK_COMBINED in
  [Append !"quota_fwd" (Out w :: alive) (Jump !"quota_out");
   Append !"quota_fwd" (In w :: alive) (Jump !"quota_in");
   Append !"quota_fwd" (Out w :: alive) comb;
   Append !"quota_fwd" (In w :: alive) comb;
   Append !"INPUT" (In w :: alive) (Jump !"quota_in");
   Append !"INPUT" (In w :: alive) (Jump !"quota_comb");
   Append !"OUTPUT" (Out w :: alive) (Jump !"quota_out");
   Append !"OUTPUT" (Out w :: alive) (Jump !"quota_comb")].

Definition frame (faces : list cstr) : list line :=
  [Chain !"quota_fwd" user; Chain !"quota_in" user; Chain !"quota_out" user; Chain !"quota_comb" user;
   Append !"FORWARD" [] (clear_mark clearmask); Append !"INPUT" [] (clear_mark clearmask);
   Append !"OUTPUT" [] (clear_mark clearmask);
   Append !"FORWARD" [] (Jump !"quota_fwd")] ++
  concat (map face_rules faces) ++
  [Append !"quota_fwd" (arg (has_mark QUOTA_MARK_COMBINED QUOTA_MARK_COMBINED)) (Jump !"quota_comb");
   Append !"quota_fwd" [] (clear_mark QUOTA_MARK_COMBINED)].

(** The first pass: hosts with a quota of their own. *)
Definition explicit_flags (q : quota) : list line :=
  let flag c a d := Append c (arg (quota_addr_test 128 a d)) (set_mark QUOTA_MARK_EXPLICIT QUOTA_MARK_EXPLICIT) in
  if quota_scope_has_addrs (q_scope q)
  then concat (map (fun a =>
         [flag !"quota_out" a src; flag !"quota_comb" a src; flag !"quota_in" a dst; flag !"quota_comb" a dst])
         (q_addrs q))
  else [].

(** What a quota does to a direction that is over its limit: block, or limit to a
    speed. *)
Definition is_throttle (q : quota) : bool := atoi (q_action q) =? QUOTA_ACT_THROTTLE.
Definition over_dl_band (q : quota) : bool :=
  is_throttle q && dl_free && (0 <? atoi (tdl q)) && (q_idx q <=? QUOTA_MARK_BAND_MAX).
Definition over_ul_band (q : quota) : bool :=
  is_throttle q && ul_free && (0 <? atoi (tul q)) && (q_idx q <=? QUOTA_MARK_BAND_MAX).
Definition comb_band (q : quota) : bool := over_dl_band q && over_ul_band q.

Definition band (q : quota) : cstr := snprintf 16 (!"0x" ++ print_u 16 (u32 (Z.shiftl (q_idx q) QUOTA_MARK_BAND_SHIFT))).

Definition over_mark (q : quota) (throttle : bool) : cstr := if throttle then band q else QUOTA_MARK_DEATH.
Definition over_mask (throttle : bool) : cstr := if throttle then QUOTA_MARK_BAND_MASK else QUOTA_MARK_DEATH.

Definition skip_of (q : quota) : cstr :=
  match q_scope q with
  | QUOTA_SCOPE_OTHERS_COMB | QUOTA_SCOPE_OTHERS_INDIV => no_mark QUOTA_MARK_EXPLICIT
  | _ => []
  end.

(** A counter: its name, its limit, the chain that has its rule, the directions it
    counts, whether it limits instead of blocking, and its type and network. *)
Record cap := {
  cap_id : cstr;
  cap_limit : cstr;
  cap_chain : cstr;
  cap_dirs : list dir;
  cap_band : bool;
  cap_type : cstr;
  cap_subnet : cstr }.

Definition idbuf (q : quota) (kind : string) : cstr := snprintf 64 (!"quota_" ++ q_id q ++ !"_" ++ bytes kind).

Definition caps (q : quota) : list cap :=
  let shared := quota_scope_shared (q_scope q) in
  on (negb (char_at (dlimit q) 0 =? 0))
    [{| cap_id := idbuf q "d"; cap_limit := dlimit q; cap_chain := !"quota_in"; cap_dirs := [dst];
        cap_band := over_dl_band q; cap_type := if shared then !"combined" else !"individual_dst"; cap_subnet := [] |}] ++
  on (negb (char_at (ulimit q) 0 =? 0))
    [{| cap_id := idbuf q "u"; cap_limit := ulimit q; cap_chain := !"quota_out"; cap_dirs := [src];
        cap_band := over_ul_band q; cap_type := if shared then !"combined" else !"individual_src"; cap_subnet := [] |}] ++
  on (negb (char_at (climit q) 0 =? 0))
    [{| cap_id := idbuf q "c"; cap_limit := climit q; cap_chain := !"quota_comb"; cap_dirs := [src; dst];
        cap_band := comb_band q; cap_type := if shared then !"combined" else !"individual_local";
        cap_subnet := if shared then [] else snprintf 64 (!" --subnet " ++ quota_lan_subnet 32) |}].

Definition emit_cap (q : quota) (c : cap) : list write :=
  quota_emit e (cap_chain c) (cap_id c) (cap_type c) (cap_subnet c) (cap_limit c)
    (quota_reset_args 128 (reset q) (rday q) (rhour q)) (quota_active_args 512 (active q)) (skip_of q)
    (q_addrs q) (cap_dirs c) (over_mark q (cap_band c)) (over_mask (cap_band c)).

(** The speeds of the traffic classes of a quota. *)
Definition shape_dl (q : quota) : Z :=
  if (negb (char_at (dlimit q) 0 =? 0) && over_dl_band q) || (negb (char_at (climit q) 0 =? 0) && comb_band q)
  then atoi (tdl q) else 0.
Definition shape_ul (q : quota) : Z :=
  if (negb (char_at (ulimit q) 0 =? 0) && over_ul_band q) || (negb (char_at (climit q) 0 =? 0) && comb_band q)
  then atoi (tul q) else 0.

Definition shape_line (q : quota) : cstr :=
  if negb (shape_dl q =? 0) || negb (shape_ul q =? 0)
  then print_d (q_idx q) +++ print_d (shape_dl q) +++ print_d (shape_ul q) ++ [10] else [].

Definition enforcement : list line :=
  map (fun c => Append (bytes c) (arg (has_mark QUOTA_MARK_DEATH QUOTA_MARK_DEATH)) (Jump !"DROP"))
    ["FORWARD"; "INPUT"; "OUTPUT"]%string.

(** What [ipt_quotas] leaves behind: the rules and the two files, if it writes them. *)
Record generated := {
  rules : list write;
  ids_file : option cstr;
  shape_file : option cstr }.

Definition nothing : generated := {| rules := []; ids_file := None; shape_file := None |}.

Definition quota_list : list quota := read_quotas 0 (strsep (chr ">") (nvram_safe_get !"quota_rules")).

Definition build_quotas (faces : list cstr) (qs : list quota) : generated :=
  {| rules :=
       ip46t_write (ipv6 e) (frame faces) ++
       ipt_write (concat (map explicit_flags qs)) ++
       concat (map (fun q => concat (map (emit_cap q) (caps q))) qs) ++
       ip46t_write (ipv6 e) enforcement;
     ids_file := Some (concat (map (fun q => concat (map (fun c => cap_id c ++ [10]) (caps q))) qs));
     shape_file := Some (concat (map shape_line qs)) |}.

Definition ipt_quotas : generated :=
  if negb (has "TCONFIG_QUOTAS") then nothing
  else if nvram_get_int !"quota_enable" =? 0 then nothing
  else if negb quota_clock_valid then nothing
  else if negb (nvram_invmatch !"quota_rules" []) then nothing
  else match quota_faces with
       | [] => nothing
       | faces => build_quotas faces quota_list
       end.

End Generate.

End Quotas.
