(* ===== verification/QuotaRun.v ===== *)
(** The life of the bandwidth quotas around the firewall
    (src/tomato64/package/rc/rc/quotas.c: [quota_read_bands], [start_quota_shaping],
    [stop_quota_shaping], [quotas_pre_restore], [quota_prune_backups], [start_quotas],
    [quota_tick_main], [stop_quotas]).

    The files are the record [disk]: the two that [ipt_quotas] writes, the script of the
    traffic classes, and the names in the directory of the saved counters. What is run is
    a list of [effect]s in order. *)

From Stdlib Require Import ZArith Lia.
From stdpp Require Import base list strings.
From S2P Require Import Prelude Scan Strings Nvram Inet Wan BuildConfig SaveVars Rules Ndpi FwEnv Firewall QuotaWindow Quotas.

Local Open Scope Z_scope.
Local Open Scope rule_scope.

Module QuotaRun.
Import Scan Strings Nvram Inet Wan BuildConfig SaveVars Rules Ndpi FwEnv Firewall QuotaWindow Quotas.

Record disk := {
  ids : option cstr;
  shaping : option cstr;
  script : option (list cstr);
  usage : list cstr }.

Inductive effect := Run (argv : list cstr) | Mkdir (dir : cstr).

(** The files of a configuration: what [ipt_quotas] unlinks and writes. *)
Definition with_generated (g : generated) (d : disk) : disk :=
  {| ids := ids_file g; shaping := shape_file g; script := script d; usage := usage d |}.

(** ** The traffic classes *)

(** A band: its number and its speeds, 0 for a direction that blocks. *)
Record quota_band := { b_idx : Z; b_dl : Z; b_ul : Z }.

(** [fscanf] with ["%d %d %d"] up to a failure; bands out of range are passed over. *)
Fixpoint read_bands (fuel max : nat) (text : cstr) : list quota_band :=
  match fuel, max with
  | S fuel, S more =>
      match scan_d text with
      | Some (i, text) =>
          match scan_d text with
          | Some (dl, text) =>
              match scan_d text with
              | Some (ul, text) =>
                  if (i <? 1) || (QUOTA_MARK_BAND_MAX <? i) then read_bands fuel max text
                  else {| b_idx := i; b_dl := dl; b_ul := ul |} :: read_bands fuel more text
              | None => []
              end
          | None => []
          end
      | None => []
      end
  | _, _ => []
  end.

Definition quota_read_bands (file : option cstr) (max : nat) : list quota_band :=
  match file with Some text => read_bands (S (length text)) max text | None => [] end.

Definition has_dl (bs : list quota_band) : bool := existsb (fun b => 0 <? b_dl b) bs.
Definition has_ul (bs : list quota_band) : bool := existsb (fun b => 0 <? b_ul b) bs.

Definition quota_shaping_script : cstr := !"/etc/quota_shaping".

Section Run.
Context {nv : Nvram} {cfg : Config} {cal : Calendar} {calls : TzCalls}.

Definition quota_leaf_qdisc : cstr := if has "TCONFIG_BCMARM" then !"fq_codel" else !"sfq perturb 10".

(** The bridges that have an address. *)
Definition download_bridges : list cstr :=
  omap (fun i => if char_at (lan_variable i !"ipaddr") 0 =? 0 then None
                 else Some (snprintf 16 (!"br" ++ print_d i))) bridges.

Definition tab (s : cstr) : cstr := 9 :: s.

Definition root_of (dev rate : cstr) : list cstr :=
  [tab (!"tc qdisc del dev " ++ dev ++ !" root 2>/dev/null");
   tab (!"tc qdisc add dev " ++ dev ++ !" root handle 1: htb");
   tab (!"tc class add dev " ++ dev ++ !" parent 1: classid 1:1 htb rate " ++ rate ++ !"kbit")].

(** The filter that finds the packets of a band. *)
Definition band_filter (dev : cstr) (idx : Z) : cstr :=
  tab (!"tc filter add dev " ++ dev ++ !" parent 1:0 prio 1 protocol all handle 0x"
       ++ print_u 16 (u32 (Z.shiftl idx QUOTA_MARK_BAND_SHIFT)) ++ !"/" ++ QUOTA_MARK_BAND_MASK
       ++ !" fw flowid 1:" ++ print_d (idx + 1)).

Definition band_class (dev : cstr) (idx rate : Z) : cstr :=
  tab (!"tc class add dev " ++ dev ++ !" parent 1:1 classid 1:" ++ print_d (idx + 1) ++ !" htb rate "
       ++ print_d rate ++ !"kbit ceil " ++ print_d rate ++ !"kbit").

Definition class_of (dev : cstr) (idx rate : Z) : list cstr :=
  [band_class dev idx rate;
   tab (!"tc qdisc add dev " ++ dev ++ !" parent 1:" ++ print_d (idx + 1) ++ !" handle " ++ print_d (idx + 1) ++ !": "
        ++ quota_leaf_qdisc);
   band_filter dev idx].

Definition link_speed (name : cstr) : cstr :=
  let v := nvram_safe_get name in
  if (char_at v 0 =? 0) || strcmp_eq v !"0" then !"1000000" else v.

(** The lines of the script for the download bridges [brs] and, if [up], for the WAN. *)
Definition shaping_lines (bands : list quota_band) (brs : list cstr) (up : bool) (waniface : cstr) : list cstr :=
  let wan := on (up && negb (char_at waniface 0 =? 0)) [waniface] in
  let wanul := on (ul_free && negb (char_at waniface 0 =? 0)) [waniface] in
  [!"#!/bin/sh"; !"case " ++ quoted !"$1" ++ !" in"; !"start)"] ++
  concat (map (fun br => root_of br (link_speed !"wan_qos_ibw")) brs) ++
  concat (map (fun w => root_of w (link_speed !"wan_qos_obw")) wan) ++
  concat (map (fun b =>
    on (0 <? b_dl b) (concat (map (fun br => class_of br (b_idx b) (b_dl b)) brs)) ++
    on (0 <? b_ul b) (concat (map (fun w => class_of w (b_idx b) (b_ul b)) wanul))) bands) ++
  [tab (!"logger -t quotas " ++ quoted !"speed limits started"); tab !";;"; !"stop)"] ++
  map (fun br => tab (!"tc qdisc del dev " ++ br ++ !" root 2>/dev/null")) brs ++
  map (fun w => tab (!"tc qdisc del dev " ++ w ++ !" root 2>/dev/null")) wan ++
  [tab !";;"; !"esac"].

Definition no_script (d : disk) : disk :=
  {| ids := ids d; shaping := shaping d; script := None; usage := usage d |}.

Definition start_quota_shaping (d : disk) : disk * list effect :=
  let d := no_script d in
  if nvram_get_int !"quota_enable" =? 0 then (d, [])
  else
    let bands := quota_read_bands (shaping d) 256 in
    match bands with
    | [] => (d, [])
    | _ =>
        let brs := on (dl_free && has_dl bands) download_bridges in
        let up := ul_free && has_ul bands in
        if bool_decide (brs = []) && negb up then (d, [])
        else
          ({| ids := ids d; shaping := shaping d;
              script := Some (shaping_lines bands brs up (nvram_safe_get !"wan_iface")); usage := usage d |},
           [Run [quota_shaping_script; !"start"]])
    end.

Definition stop_quota_shaping (d : disk) : list effect :=
  match script d with Some _ => [Run [quota_shaping_script; !"stop"]] | None => [] end.

(** ** Saved counters *)

Definition quota_backup_dir (bufsz : nat) : cstr :=
  let p := nvram_safe_get !"quota_path" in
  snprintf bufsz (if char_at p 0 =? 0 then !"/var/lib/quotas" else p).

Definition backup (what : string) (dir : cstr) : effect := Run [!"/usr/sbin/quota_backup"; bytes what; dir].

(** Save the counters and let go of the names that the rules hold. *)
Definition quotas_pre_restore (ipv6_on : bool) (d : disk) : list effect :=
  match ids d with
  | None => []
  | Some _ =>
      let dir := quota_backup_dir 80 in
      [Mkdir dir; backup "save" dir] ++
      concat (map (fun c =>
        Run [!"iptables"; !"-t"; !"mangle"; !"-F"; bytes c] ::
        on (has "TCONFIG_IPV6" && ipv6_on) [Run [!"ip6tables"; !"-t"; !"mangle"; !"-F"; bytes c]])
        ["quota_in"; "quota_out"; "quota_comb"; "quota_fwd"]%string)
  end.

(** A line of the list of counters, as [quota_id_is_live] reads it. *)
Definition id_line (line : cstr) : cstr :=
  take_until (fun c => (c =? 13) || (c =? 10)) (skip_while is_blank line).

Definition quota_id_is_live (file : option cstr) (name : cstr) : bool :=
  match file with
  | None => false
  | Some text =>
      existsb (fun line =>
        let p := id_line line in
        negb (char_at p 0 =? 0) && negb (char_at p 0 =? chr "#") && strcmp_eq p name) (fgets_all 79 79 [] text)
  end.

(** The names that the quotas create. *)
Definition usage_name (n : cstr) : bool :=
  prefix_of_str !"quota_" n &&
  let rest := drop 6 n in
  let nd := length (take_until (fun c => negb (isdigit c)) rest) in
  negb (nd =? 0)%nat && (length n =? 6 + nd + 2)%nat && (char_at n (6 + nd) =? chr "_") &&
  let k := char_at n (length n - 1) in
  (k =? chr "d") || (k =? chr "u") || (k =? chr "c").

Definition quota_prune_backups (d : disk) : disk :=
  {| ids := ids d; shaping := shaping d; script := script d;
     usage := List.filter (fun n => negb (usage_name n && negb (quota_id_is_live (ids d) n))) (usage d) |}.

Definition cru (args : list cstr) : effect := Run (!"cru" :: args).
Definition no_jobs : list effect := [cru [!"d"; !"quota_backup"]; cru [!"d"; !"quota_tz"]].

Definition quota_stime : Z :=
  let n := nvram_get_int !"quota_stime" in if (n <? 1) || (24 <? n) then 4 else n.

Definition start_quotas (d : disk) : disk * list effect :=
  if negb (has "TCONFIG_QUOTAS") then (d, [])
  else if nvram_get_int !"quota_enable" =? 0 then (d, no_jobs ++ stop_quota_shaping d)
  else
    let '(d, started) := start_quota_shaping d in
    let dir := quota_backup_dir 80 in
    let d := match ids d with Some _ => quota_prune_backups d | None => d end in
    (d, no_jobs ++ started ++
        [Mkdir dir; backup "restore" dir;
         cru [!"a"; !"quota_backup"; snprintf 160 (!"0 */" ++ print_d quota_stime ++ !" * * * /sbin/quota_tick save")];
         cru [!"a"; !"quota_tz"; !"0,1 * * * * /sbin/quota_tick tz"]]).

(** What [ipt_quotas] does to the kernel before it writes rules. *)
Definition ipt_quotas_kernel (k : kernel) : kernel :=
  if negb (has "TCONFIG_QUOTAS") then k
  else if nvram_get_int !"quota_enable" =? 0 then k
  else if negb quota_clock_valid then k
  else quota_set_kernel_tz k.

(** The cron jobs: [what] is the first argument. *)
Definition quota_tick_main (what : option cstr) (k : kernel) : kernel * list effect :=
  if negb (has "TCONFIG_QUOTAS") || (nvram_get_int !"quota_enable" =? 0) then (k, [])
  else
    let k := quota_set_kernel_tz k in
    if match what with Some w => strcmp_eq w !"tz" | None => false end then (k, [])
    else (k, [backup "save" (quota_backup_dir 80)]).

Definition stop_quotas (d : disk) : list effect :=
  if negb (has "TCONFIG_QUOTAS") then []
  else no_jobs ++ stop_quota_shaping d ++
    match ids d with
    | None => []
    | Some _ => let dir := quota_backup_dir 80 in [Mkdir dir; backup "save" dir]
    end.

End Run.

End QuotaRun.
