(* ===== verification/Marks.v ===== *)
(** Packet marks: what becomes of a packet that goes through chains whose rules test and
    set its mark, and which counters it passes on the way.

    This is the documented behaviour of the matches [mark] and [bandwidth] and of the
    target [MARK]. The conditions of a rule are tested from the left to the right up to
    the first one that fails; testing the match [bandwidth] counts the packet. *)

From Stdlib Require Import ZArith Lia.
From stdpp Require Import base list strings gmap.
From S2P Require Import Prelude Scan Nvram Inet Rules RestrictSpec RulesSpec.

Local Open Scope Z_scope.
Local Open Scope rule_scope.

Module Marks.
Import Scan Nvram Inet Rules RulesSpec.

(** ** Texts *)

Definition strip (p s : cstr) : option cstr := if prefix_of_str p s then Some (drop (length p) s) else None.

Definition hex_text (s : cstr) : option Z :=
  match strip !"0x" s with
  | Some (c :: ds) => if forallb isxdigit (c :: ds) then Some (value_in 16 0 (c :: ds)) else None
  | _ => None
  end.

(** [value/mask]. *)
Definition value_mask (s : cstr) : option (Z * Z) :=
  i ← strchr s (chr "/"); v ← hex_text (take i s); k ← hex_text (drop (S i) s); Some (v, k).

Definition mark_test (c : cond) : option (Z * Z) :=
  match c with Match t => s ← strip !"-m mark --mark " t; value_mask s | _ => None end.

Definition mark_set (tg : target) : option (Z * Z) :=
  match tg with Jump x => s ← strip !"MARK --set-mark " x; value_mask s | _ => None end.

(** The counter of a condition. *)
Definition counter (c : cond) : option cstr :=
  match c with
  | Match t => s ← strip (!"-m bandwidth --id " ++ [34]) t; Some (take_until (Z.eqb 34) s)
  | _ => None
  end.

(** ** The walk *)

Section Walk.
Context {pk : Packet}.

Definition holds_at (m : Z) (c : cond) : bool :=
  match mark_test c with Some (v, k) => Z.land m k =? v | None => fits c end.

(** Whether all conditions hold, and the counters passed. *)
Fixpoint conds_at (m : Z) (cs : list cond) : bool * list cstr :=
  match cs with
  | [] => (true, [])
  | c :: cs =>
      let n := match counter c with Some i => [i] | None => [] end in
      if holds_at m c then let '(b, l) := conds_at m cs in (b, n ++ l) else (false, n)
  end.

(** [MARK --set-mark value/mask]: the bits of the mask are cleared, those of the value set. *)
Definition stamp (vk : Z * Z) (m : Z) : Z := Z.lor (Z.ldiff m vk.2) vk.1.

Definition mark_by (tg : target) (m : Z) : Z := match mark_set tg with Some vk => stamp vk m | None => m end.

(** A packet with its mark and the counters it has passed. *)
Definition passed : Type := option verdict * Z * list cstr.

Fixpoint walk (fuel : nat) (t : chainmap) (rs : list rule) (m : Z) (n : list cstr) : option passed :=
  match fuel with
  | O => None
  | S f =>
      (fix go (rs : list rule) (m : Z) (n : list cstr) : option passed :=
         match rs with
         | [] => Some (None, m, n)
         | r :: rs =>
             let '(b, l) := conds_at m r.1 in
             if b then
               match action_of t r.2 with
               | Decide v => Some (Some v, m, n ++ l)
               | Return => Some (None, m, n ++ l)
               | Call c =>
                   match walk f t (default [] (t !! c)) m (n ++ l) with
                   | Some (None, m, n) => go rs m n
                   | x => x
                   end
               | Go c => walk f t (default [] (t !! c)) m (n ++ l)
               | Continue => go rs (mark_by r.2 m) (n ++ l)
               end
             else go rs m (n ++ l)
         end) rs m n
  end.

Lemma walk_cons f t r rs m n :
  walk (S f) t (r :: rs) m n =
    let '(b, l) := conds_at m r.1 in
    if b then
      match action_of t r.2 with
      | Decide v => Some (Some v, m, n ++ l)
      | Return => Some (None, m, n ++ l)
      | Call c =>
          match walk f t (default [] (t !! c)) m (n ++ l) with
          | Some (None, m, n) => walk (S f) t rs m n
          | x => x
          end
      | Go c => walk f t (default [] (t !! c)) m (n ++ l)
      | Continue => walk (S f) t rs (mark_by r.2 m) (n ++ l)
      end
    else walk (S f) t rs m (n ++ l).
Proof. done. Qed.

(** Rules that are passed with this effect, whatever follows. *)
Definition passes (f : nat) (t : chainmap) (rs : list rule) (m : Z) (n : list cstr) (m' : Z) (n' : list cstr) : Prop :=
  forall rest, walk (S f) t (rs ++ rest) m n = walk (S f) t rest m' n'.

Lemma passes_nil f t m n : passes f t [] m n m n.
Proof. done. Qed.

Lemma walk_app f t a b m n m1 n1 m2 n2 :
  passes f t a m n m1 n1 -> passes f t b m1 n1 m2 n2 -> passes f t (a ++ b) m n m2 n2.
Proof. intros Ha Hb rest. by rewrite <- app_assoc, Ha, Hb. Qed.

Lemma passes_cons f t r rs m n m1 n1 m2 n2 :
  passes f t [r] m n m1 n1 -> passes f t rs m1 n1 m2 n2 -> passes f t (r :: rs) m n m2 n2.
Proof. apply (walk_app f t [r] rs). Qed.

Lemma passes_end f t rs m n m' n' : passes f t rs m n m' n' -> walk (S f) t rs m n = Some (None, m', n').
Proof. intros H. specialize (H []). by rewrite app_nil_r in H. Qed.

(** A rule that sets the mark. *)
Lemma passes_mark f t cs tg vk m n :
  mark_set tg = Some vk -> action_of t tg = Continue ->
  passes f t [(cs, tg)] m n (if (conds_at m cs).1 then stamp vk m else m) (n ++ (conds_at m cs).2).
Proof.
  intros Hs Ha rest. cbn [app]. rewrite walk_cons. cbn [fst snd]. destruct (conds_at m cs) as [b l]. cbn [fst snd].
  unfold mark_by. rewrite Hs, Ha. by destruct b.
Qed.

(** A rule that does not fit, and one that calls a chain. *)
Lemma passes_missed f t cs tg m n :
  (conds_at m cs).1 = false -> passes f t [(cs, tg)] m n m (n ++ (conds_at m cs).2).
Proof.
  intros Hc rest. cbn [app]. rewrite walk_cons. cbn [fst snd]. destruct (conds_at m cs) as [b l]. cbn [fst snd] in *. by subst.
Qed.

Lemma passes_call f t cs x c m n m' n' :
  conds_at m cs = (true, []) -> action_of t (Jump x) = Call c ->
  walk f t (default [] (t !! c)) m n = Some (None, m', n') -> passes f t [(cs, Jump x)] m n m' n'.
Proof.
  intros Hc Ha Hw rest. cbn [app]. rewrite walk_cons. cbn [fst snd]. by rewrite Hc, Ha, app_nil_r, Hw.
Qed.

Lemma conds_at_app m a b :
  conds_at m (a ++ b) =
    (if (conds_at m a).1 then ((conds_at m b).1, (conds_at m a).2 ++ (conds_at m b).2) else (false, (conds_at m a).2)).
Proof.
  induction a as [|c a IH]; cbn [app conds_at fst snd]; [by destruct (conds_at m b)|].
  destruct (holds_at m c); [|done]. rewrite IH. destruct (conds_at m a) as [[|] la]; cbn [fst snd]; [|done].
  by rewrite app_assoc.
Qed.

End Walk.

(** ** Printed marks *)

Lemma hex_text_print n : 0 <= n < 2 ^ 32 -> hex_text (!"0x" ++ print_u 16 n) = Some n.
Proof.
  intros Hn. unfold hex_text, strip. change (prefix_of_str !"0x" (!"0x" ++ print_u 16 n)) with true.
  change (drop (length !"0x") (!"0x" ++ print_u 16 n)) with (print_u 16 n).
  assert (Hx := RestrictSpec.hex_chars n ltac:(lia)). assert (Hne := Scan.print_u_nonempty 16 n).
  assert (Hv : value_in 16 0 (print_u 16 n) = n).
  { unfold print_u. rewrite RestrictSpec.hex_value_digits; [done|]. split; [lia|].
    eapply Z.lt_le_trans; [apply Hn|]. vm_compute. discriminate. }
  destruct (print_u 16 n) as [|c ds]; [done|]. rewrite Hv.
  replace (forallb isxdigit (c :: ds)) with true; [done|]. symmetry. apply forallb_forall. intros d Hd.
  rewrite Forall_forall in Hx. apply Hx. by apply list_elem_of_In.
Qed.

(** A mark as it is printed, with its mask. *)
Lemma value_mask_print n mask k : 0 <= n < 2 ^ 32 -> hex_text mask = Some k ->
  value_mask ((!"0x" ++ print_u 16 n) ++ !"/" ++ mask) = Some (n, k).
Proof.
  intros Hn Hk. unfold value_mask. set (h := !"0x" ++ print_u 16 n).
  assert (Hh : strchr (h ++ !"/" ++ mask) (chr "/") = Some (length h)).
  { assert (Hs : Forall (fun c => c <> chr "/") h).
    { apply Forall_app. split; [repeat constructor; discriminate|].
      eapply Forall_impl; [apply RestrictSpec.hex_chars; lia|]. intros x Hx ->. discriminate Hx. }
    clear - Hs. induction Hs as [|x h Hx _ IH]; [reflexivity|]. cbn [app strchr length].
    rewrite (proj2 (Z.eqb_neq _ _) Hx), IH. done. }
  rewrite Hh. cbn [mbind option_bind]. rewrite take_app_length. assert (Ht : hex_text h = Some n) by (by apply hex_text_print). rewrite Ht.
  cbn [mbind option_bind]. replace (S (length h)) with (length h + 1)%nat by lia.
  rewrite <- drop_drop, drop_app_length. change (drop 1 (!"/" ++ mask)) with mask. by rewrite Hk.
Qed.

(** The chains every mangle table has. *)
Definition mangle_chains : list cstr := map bytes ["PREROUTING"; "INPUT"; "FORWARD"; "OUTPUT"; "POSTROUTING"]%string.

End Marks.
