(* ===== verification/QuotaDemo.v ===== *)
(** A router with two quotas, for the examples of the quota theorems. *)

From Stdlib Require Import ZArith Lia.
From stdpp Require Import base list strings gmap.
From S2P Require Import Prelude Scan Strings Nvram Inet Wan BuildConfig Defaults DefaultsSpec SaveVars Rules RulesSpec Ndpi FwEnv Firewall QuotaWindow Quotas QuotaRun.

Local Open Scope Z_scope.
Local Open Scope rule_scope.

Module QuotaDemo.
Import Scan Strings Nvram Inet Wan BuildConfig Defaults SaveVars Rules RulesSpec FwEnv Firewall QuotaWindow Quotas QuotaRun.

(** One host with a quota that blocks, and a quota for all the others that limits. *)
Definition settings : gmap cstr cstr := list_to_map (map (fun x => (bytes x.1, bytes x.2))
  [("lan_ifname", "br0"); ("lan_ipaddr", "192.168.1.1"); ("lan_netmask", "255.255.255.0");
   ("lan1_ifname", "br1"); ("lan1_ipaddr", "192.168.2.1"); ("lan1_netmask", "255.255.255.0");
   ("mwan_num", "1"); ("wan_proto", "dhcp"); ("wan_iface", "vlan2"); ("wan_ifname", "vlan2");
   ("quota_enable", "1");
   ("quota_rules", "1<192.168.1.7<1000000<<<day<<5<only|9-17||<0<<<<1>1<ALL_OTHERS_INDIVIDUAL<500<700<900<month<1<<<1<<2000<1000<2")]%string).

#[export] Instance quota_nvram : Nvram := view (st := DefaultsSpec.map_store) settings.
#[export] Instance quota_build : Config := {|
  defined f := @defined DefaultsSpec.pc_build f || bool_decide (f = "TCONFIG_QUOTAS"%string);
  count := @count DefaultsSpec.pc_build |}.
#[export] Instance four_wans : Build := {| MWAN_MAX := 4 |}.
#[export] Instance no_files : Links := {| file_contents _ := None; if_flags _ := None; wan_phy_link _ := 0; socket_ok := false |}.
#[export] Instance summer : Calendar :=
  let t := {| tm_min := 0; tm_hour := 0; tm_yday := 0; tm_year := 126 |} in
  {| time := 1780000000; gmtime_r _ := t; localtime_r _ := t |}.
#[export] Instance still_kernel : TzCalls := {| kernel := unit; gettimeofday _ := Some 0; settimeofday _ k := (true, k) |}.

Definition one_wan : env :=
  {| ipv6 := false; targets := chains_log_detection;
     wans := [(true, [{| face_name := !"vlan2"; face_ip := !"198.51.100.7" |}])];
     lans := [(!"br0", !"192.168.1.1", !"255.255.255.0"); (!"br1", !"192.168.2.1", !"255.255.255.0")];
     wan6face := []; remotemanage := false; web_lanport := 80 |}.

(** A packet from the second host to the internet. *)
#[export] Instance upload : Packet := {|
  in_if := !"br0"; out_if := !"vlan2"; ct_state := !"NEW";
  meets t := in_list t [!"-s 192.168.1.8"]; decides _ := None |}.

#[export] Instance upload_laws : PacketLaws.
Proof. by constructor. Qed.

Lemma demo_rules : rules (ipt_quotas one_wan) <> [].
Proof. vm_compute. discriminate. Qed.

End QuotaDemo.
