(* ===== verification/QuotasSpec.v ===== *)
(** What the bandwidth quotas do to packets (Quotas.v): who is counted, who is blocked,
    and that the other users of the mark are left alone. *)

From Stdlib Require Import ZArith Lia.
From stdpp Require Import base list strings gmap.
From S2P Require Import Prelude Scan Strings Nvram Inet Wan BuildConfig SaveVars Rules RestrictSpec RulesSpec Ndpi FwEnv Firewall.
From S2P Require Import Marks QuotaWindow Quotas QuotaRun QuotaDemo.

Local Open Scope Z_scope.
Local Open Scope rule_scope.

Module QuotasSpec.
Import Scan Strings Nvram Inet Wan BuildConfig SaveVars Rules RulesSpec FwEnv Firewall Marks QuotaWindow Quotas.

(** ** Bits of a mark *)

Lemma stamp_bit v k m i : Z.testbit (stamp (v, k) m) i = (Z.testbit m i && negb (Z.testbit k i)) || Z.testbit v i.
Proof. unfold stamp. cbn [fst snd]. by rewrite Z.lor_spec, Z.ldiff_spec. Qed.

Lemma test_bit m b : 0 <= b -> (Z.land m (2 ^ b) =? 0) = negb (Z.testbit m b).
Proof.
  intros Hb. rewrite <- (RestrictSpec.land_pow2 m b) by done. by rewrite negb_involutive.
Qed.

Lemma test_bit_set m b : 0 <= b -> (Z.land m (2 ^ b) =? 2 ^ b) = Z.testbit m b.
Proof.
  intros Hb. assert (Hp : 0 < 2 ^ b) by (apply Z.pow_pos_nonneg; lia).
  destruct (Z.testbit m b) eqn:E.
  - apply Z.eqb_eq. apply Z.bits_inj'. intros i Hi. rewrite Z.land_spec.
    destruct (Z.eq_dec b i) as [->|Hne]; [by rewrite E|]. rewrite Z.pow2_bits_false by lia. by rewrite andb_false_r.
  - apply Z.eqb_neq. intros H. assert (Z.testbit (Z.land m (2 ^ b)) b = true) by (rewrite H; by apply Z.pow2_bits_true).
    rewrite Z.land_spec, E in *. done.
Qed.

Definition DEATH : Z := 2 ^ 28.
Definition COMBINED : Z := 2 ^ 29.
Definition EXPLICIT : Z := 2 ^ 30.
Definition HIT : Z := 2 ^ 31.

(** ** Pieces of rules *)

Section Packets.
Context {pk : Packet} {laws : PacketLaws}.

(** Conditions that neither test the mark nor count. *)
Definition inert (cs : list cond) : Prop := Forall (fun c => mark_test c = None /\ counter c = None) cs.

Lemma inert_conds m cs : inert cs -> conds_at m cs = (forallb fits cs, []).
Proof.
  intros H. induction H as [|c cs [Hm Hc] _ IH]; [done|]. cbn [conds_at forallb]. unfold holds_at. rewrite Hm, Hc, IH.
  by destruct (fits c).
Qed.

Lemma addr_test_inert a d : inert (arg (quota_addr_test 128 a d)).
Proof.
  unfold quota_addr_test, snprintf. destruct (strchr a _), d; repeat constructor.
Qed.

Lemma active_inert s : inert (arg (quota_active_args 512 s)).
Proof.
  unfold quota_active_args, snprintf.
  repeat match goal with |- context [if ?b then _ else _] => destruct b | |- context [match ?x with _ => _ end] => destruct x end;
    repeat constructor.
Qed.

Lemma active_length s : (length (quota_active_args 512 s) <= 511)%nat.
Proof.
  unfold quota_active_args, snprintf.
  repeat match goal with |- context [if ?b then _ else _] => destruct b | |- context [match ?x with _ => _ end] => destruct x end;
    rewrite ?length_take; cbn [length]; lia.
Qed.

Definition id_ok (id : cstr) : Prop := (length id <= 63)%nat /\ Forall (fun c => c <> 34) id.

(** The start of the bandwidth match up to the name of the counter, and with it. *)
Definition id_head : cstr := !"-m bandwidth --id " ++ [34].
Definition id_text (id : cstr) : cstr := id_head ++ id ++ [34].

Lemma bandwidth_text id typ subnet limit resetargs activeargs :
  id_ok id -> (length activeargs <= 511)%nat ->
  exists rest, arg (bandwidth id typ subnet limit resetargs activeargs) = [Match (id_text id ++ rest)].
Proof.
  intros [Hl Hq] Ha. unfold bandwidth, snprintf, quoted.
  set (rest := !" --type " ++ typ ++ subnet ++ !" --greater_than " ++ limit ++ resetargs).
  assert (E : !" -m bandwidth --id " ++ (34 :: id ++ [34]) ++ rest = 32 :: id_text id ++ rest)
    by (unfold id_text, id_head; cbn; by rewrite <- !app_assoc).
  rewrite E. destruct (1024 - length activeargs - 1)%nat as [|n] eqn:En; [lia|]. cbn [take arg].
  assert (Hn : (length (id_text id) <= n)%nat).
  { unfold id_text. rewrite !length_app. change (length id_head) with 19%nat. cbn [length]. lia. }
  exists (take (n - length (id_text id)) rest). by rewrite take_app_ge.
Qed.

Lemma counter_text id rest : id_ok id -> counter (Match (id_text id ++ rest)) = Some id.
Proof.
  intros [_ Hq]. unfold counter, strip, id_text. fold id_head. rewrite <- !app_assoc.
  rewrite (proj2 (prefix_of_str_spec id_head _)) by (by eexists). rewrite drop_app_length.
  cbn [mbind option_bind]. f_equal. apply take_until_app; [|done].
  eapply Forall_impl; [exact Hq|]. intros c Hc. apply Z.eqb_neq. by intros <-.
Qed.

(** ** Rules that set a mark for an address *)

Definition test (a : cstr) (d : dir) : bool := forallb fits (arg (quota_addr_test 128 a d)).

Definition meets_addrs (addrs : list cstr) (dirs : list dir) : bool := existsb (fun a => existsb (test a) dirs) addrs.

Definition markings (addrs : list cstr) (dirs : list dir) (v : cstr) : list rule :=
  concat (map (fun a => map (fun d => (arg (quota_addr_test 128 a d), set_mark v v)) dirs) addrs).

Lemma action_mark t v k : t !! !"MARK" = None -> action_of t (set_mark v k) = Continue.
Proof.
  intros Ht. unfold action_of, set_mark. change (target_name _) with (!"MARK"). rewrite Ht.
  rewrite (only_trigger (PacketLaws := laws)); [reflexivity|]. change (target_name _) with (!"MARK"). discriminate.
Qed.

Lemma stamp_twice v m : stamp (v, v) (stamp (v, v) m) = stamp (v, v) m.
Proof.
  apply Z.bits_inj'. intros i Hi. rewrite !stamp_bit. by destruct (Z.testbit m i), (Z.testbit v i).
Qed.

Lemma markings_pass f t addrs dirs v x m n :
  t !! !"MARK" = None -> mark_set (set_mark v v) = Some (x, x) ->
  passes f t (markings addrs dirs v) m n (if meets_addrs addrs dirs then stamp (x, x) m else m) n.
Proof.
  intros Ht Hv.
  assert (H1 : forall a m, passes f t (map (fun d => (arg (quota_addr_test 128 a d), set_mark v v)) dirs) m n
    (if existsb (test a) dirs then stamp (x, x) m else m) n).
  { intros a. induction dirs as [|d ds IH]; intros m0; cbn [map existsb]; [apply passes_nil|].
    eapply passes_cons; [apply (passes_mark f t _ _ (x, x)); [done|by apply action_mark]|].
    rewrite inert_conds by apply addr_test_inert. cbn [fst snd]. rewrite app_nil_r. fold (test a d).
    destruct (test a d); cbn [orb]; [|apply IH].
    specialize (IH (stamp (x, x) m0)). destruct (existsb (test a) ds); [|done]. by rewrite stamp_twice in IH. }
  unfold markings, meets_addrs. revert m. induction addrs as [|a addrs IH]; intros m; cbn [map concat existsb]; [apply passes_nil|].
  eapply walk_app; [apply H1|]. destruct (existsb (test a) dirs); cbn [orb]; [|apply IH].
  specialize (IH (stamp (x, x) m)). destruct (existsb _ addrs); [|done]. by rewrite stamp_twice in IH.
Qed.

(** ** The rules of one counter *)

Section Quotas.
Context {nv : Nvram} {cfg : Config} {build : Build} {links : Links} {cal : Calendar}.
Variable e : env.

(** Whether a counter is for the packet: its addresses, the hosts that have a quota of
    their own, its window; and whether it is over its limit. *)
Definition applies (q : quota) (c : cap) : bool :=
  match q_addrs q with [] => true | addrs => meets_addrs addrs (cap_dirs c) end.

Definition left_over (q : quota) (m : Z) : bool :=
  match q_scope q with QUOTA_SCOPE_OTHERS_COMB | QUOTA_SCOPE_OTHERS_INDIV => negb (Z.testbit m 30) | _ => true end.

Definition in_window (q : quota) : bool := forallb fits (arg (quota_active_args 512 (active q))).

Definition counted (q : quota) (c : cap) (m : Z) : bool := applies q c && left_over q m && in_window q.

Definition bandwidth_of (q : quota) (c : cap) : list cond :=
  arg (bandwidth (cap_id c) (cap_type c) (cap_subnet c) (cap_limit c)
         (quota_reset_args 128 (reset q) (rday q) (rhour q)) (quota_active_args 512 (active q))).

Definition is_over (q : quota) (c : cap) : bool := forallb fits (bandwidth_of q c).

Definition decision (q : quota) (c : cap) : Z * Z :=
  if cap_band c then (Z.shiftl (q_idx q) 20, Z.shiftl 255 20) else (DEATH, DEATH).

Definition after_cap (m : Z) (q : quota) (c : cap) : Z :=
  if counted q c m && is_over q c then stamp (decision q c) m else m.

Definition counts (q : quota) (c : cap) (m : Z) : list cstr := if counted q c m then [cap_id c] else [].

(** The rules of a counter, in its chain. *)
Definition cap_rules (q : quota) (c : cap) : list rule :=
  let over := set_mark (over_mark q (cap_band c)) (over_mask (cap_band c)) in
  let match_ := arg (quota_active_args 512 (active q)) ++ bandwidth_of q c in
  match q_addrs q with
  | [] => [(arg (skip_of q) ++ match_, over)]
  | addrs =>
      markings addrs (cap_dirs c) QUOTA_MARK_HIT ++
      [(arg (has_mark QUOTA_MARK_HIT QUOTA_MARK_HIT) ++ arg (skip_of q) ++ match_, over);
       ([], clear_mark QUOTA_MARK_HIT)]
  end.

Lemma lines4_emit q c :
  lines4 (emit_cap e q c) = map (fun r => Append (cap_chain c) r.1 r.2) (cap_rules q c).
Proof.
  unfold emit_cap, quota_emit, cap_rules, bandwidth_of. destruct (q_addrs q) as [|a addrs].
  - destruct (cap_subnet c); [apply lines4_46|apply lines4_ipt].
  - rewrite lines4_ipt, map_app. f_equal. unfold markings. rewrite concat_map, !map_map. f_equal.
    apply map_ext. intros x. by rewrite map_map.
Qed.

Lemma skip_conds q m :
  conds_at m (arg (skip_of q)) = (left_over q m, []).
Proof.
  assert (H : conds_at m (arg (no_mark QUOTA_MARK_EXPLICIT)) = (negb (Z.testbit m 30), [])).
  { change (arg _) with [Match !"-m mark --mark 0x0/0x40000000"]. cbn [conds_at]. unfold holds_at.
    change (mark_test _) with (Some (0, 2 ^ 30)). change (counter _) with (@None cstr). cbv iota.
    rewrite test_bit by done. by destruct (Z.testbit m 30). }
  unfold skip_of, left_over. destruct (q_scope q); done.
Qed.

Lemma bandwidth_conds q c m : id_ok (cap_id c) -> conds_at m (bandwidth_of q c) = (is_over q c, [cap_id c]).
Proof.
  intros Hid. unfold is_over, bandwidth_of.
  destruct (bandwidth_text (cap_id c) (cap_type c) (cap_subnet c) (cap_limit c)
    (quota_reset_args 128 (reset q) (rday q) (rhour q)) (quota_active_args 512 (active q)) Hid (active_length _)) as [r ->].
  cbn [conds_at forallb]. rewrite counter_text by done. unfold holds_at, id_text, id_head. rewrite <- !app_assoc.
  change (mark_test _) with (@None (Z * Z)). by destruct (fits _).
Qed.

Lemma match_conds q c m : id_ok (cap_id c) ->
  conds_at m (arg (skip_of q) ++ arg (quota_active_args 512 (active q)) ++ bandwidth_of q c) =
    (left_over q m && in_window q && is_over q c, if left_over q m && in_window q then [cap_id c] else []).
Proof.
  intros Hid. rewrite !conds_at_app, skip_conds, bandwidth_conds, (inert_conds m _ (active_inert _)) by done.
  cbn [fst snd]. fold (in_window q). by destruct (left_over q m), (in_window q).
Qed.

(** What [read_quotas] guarantees of a quota and its counters. *)
Definition quota_ok (q : quota) : Prop :=
  1 <= q_idx q /\ (length (q_id q) <= 23)%nat /\ Forall (fun c => c <> 34) (q_id q) /\
  (quota_scope_has_addrs (q_scope q) = true <-> q_addrs q <> []).

Lemma caps_ids_ok q : quota_ok q -> Forall (fun c => id_ok (cap_id c)) (caps q).
Proof.
  intros (_ & Hl & Hq & _).
  assert (H : forall k, (length (bytes k) <= 1)%nat -> Forall (fun c => c <> 34) (bytes k) -> id_ok (idbuf q k)).
  { intros k Hk Hkq. unfold idbuf, snprintf. split; [rewrite length_take; lia|].
    apply Forall_take. rewrite !Forall_app. split_and!; try done; repeat constructor; discriminate. }
  assert (Hone : forall b c k, cap_id c = idbuf q k -> (length (bytes k) <= 1)%nat -> Forall (fun c => c <> 34) (bytes k) ->
    Forall (fun c => id_ok (cap_id c)) (on b [c])).
  { intros b c k E H1 H2. unfold on. destruct b; [|constructor]. apply Forall_singleton. rewrite E. by apply H. }
  unfold caps. cbv zeta. rewrite !Forall_app. split_and!;
    (eapply Hone; [reflexivity|cbn; lia|repeat constructor; discriminate]).
Qed.

Lemma decision_target q c :
  1 <= q_idx q -> (cap_band c = true -> q_idx q <= 255) ->
  mark_set (set_mark (over_mark q (cap_band c)) (over_mask (cap_band c))) = Some (decision q c).
Proof.
  intros Hi Hb. unfold decision. destruct (cap_band c); [|reflexivity]. specialize (Hb eq_refl).
  assert (Hs : 0 <= Z.shiftl (q_idx q) 20 < 2 ^ 32) by (rewrite Z.shiftl_mul_pow2 by lia; lia).
  assert (Hlen : (length (print_u 16 (Z.shiftl (q_idx q) 20)) <= 8)%nat) by (apply print_u_length; [lia|lia|exact Hs]).
  unfold set_mark, mark_set, over_mark, over_mask, band, QUOTA_MARK_BAND_SHIFT. rewrite u32_id by done.
  unfold snprintf. rewrite take_ge by (rewrite length_app; change (length !"0x") with 2%nat; lia).
  unfold strip. rewrite (proj2 (prefix_of_str_spec _ _)) by (by eexists). rewrite drop_app_length. cbn [mbind option_bind].
  by apply value_mask_print.
Qed.

(** One counter: the mark and the counters passed. *)
Lemma cap_passes f t q c m n :
  t !! !"MARK" = None -> quota_ok q -> id_ok (cap_id c) -> (cap_band c = true -> q_idx q <= 255) ->
  Z.testbit m 31 = false ->
  passes f t (cap_rules q c) m n (after_cap m q c) (n ++ counts q c m).
Proof.
  intros Ht (Hi & _) Hid Hb Hhit. assert (Hd := decision_target q c Hi Hb).
  unfold cap_rules, after_cap, counts, counted, applies. destruct (q_addrs q) as [|a addrs].
  - intros rest. rewrite (passes_mark f t _ _ (decision q c) m n Hd (action_mark _ _ _ Ht) rest).
    rewrite match_conds by done. cbn [fst snd andb]. by destruct (left_over q m && in_window q).
  - set (x := meets_addrs (a :: addrs) (cap_dirs c)). set (m1 := if x then stamp (HIT, HIT) m else m).
    eapply walk_app; [by apply (markings_pass f t _ _ _ HIT)|]. fold x m1.
    assert (Hbit : forall i, i <> 31 -> Z.testbit m1 i = Z.testbit m i).
    { intros i Hne. unfold m1. destruct x; [|done]. rewrite stamp_bit. unfold HIT.
      destruct (Z.ltb_spec i 0) as [Hneg|Hpos]; [by rewrite !(Z.testbit_neg_r _ i)|].
      rewrite Z.pow2_bits_false by lia. cbn [negb]. by rewrite andb_true_r, orb_false_r. }
    assert (H31 : Z.testbit m1 31 = x).
    { unfold m1. destruct x; [|done]. rewrite stamp_bit. change (Z.testbit HIT 31) with true. by rewrite orb_true_r. }
    eapply passes_cons; [apply (passes_mark f t _ _ (decision q c)); [exact Hd|by apply action_mark]|].
    rewrite conds_at_app, match_conds by done.
    assert (Hc : conds_at m1 (arg (has_mark QUOTA_MARK_HIT QUOTA_MARK_HIT)) = (x, [])).
    { change (arg _) with [Match !"-m mark --mark 0x80000000/0x80000000"]. cbn [conds_at]. unfold holds_at.
      change (mark_test _) with (Some (2 ^ 31, 2 ^ 31)). change (counter _) with (@None cstr). cbv iota.
      rewrite test_bit_set by done. rewrite H31. by destruct x. }
    assert (Hlo : left_over q m1 = left_over q m) by (unfold left_over; by rewrite (Hbit 30)).
    rewrite Hc, Hlo. cbn [fst snd].
    intros rest. rewrite (passes_mark f t [] (clear_mark QUOTA_MARK_HIT) (0, HIT) _ _ eq_refl (action_mark _ _ _ Ht) rest).
    cbn [conds_at fst snd]. rewrite app_nil_r.
    assert (Hclear : forall vk, Z.testbit vk.1 31 = false ->
      stamp (0, HIT) (stamp vk m1) = stamp vk m).
    { intros [v k] Hv. cbn [fst] in Hv. apply Z.bits_inj'. intros i Hp. rewrite !stamp_bit, Z.bits_0, orb_false_r. unfold HIT.
      destruct (Z.eq_dec i 31) as [->|Hne].
      - rewrite Z.pow2_bits_true by lia. cbn [negb]. by rewrite andb_false_r, Hhit, Hv.
      - rewrite Z.pow2_bits_false by lia. cbn [negb]. by rewrite andb_true_r, Hbit. }
    assert (Hsame : stamp (0, HIT) m1 = m).
    { apply Z.bits_inj'. intros i Hp. rewrite stamp_bit, Z.bits_0, orb_false_r. unfold HIT.
      destruct (Z.eq_dec i 31) as [->|Hne]; [by rewrite Z.pow2_bits_true, andb_false_r, Hhit by lia|].
      rewrite Z.pow2_bits_false by lia. cbn [negb]. by rewrite andb_true_r, Hbit. }
    assert (Hdec : Z.testbit (decision q c).1 31 = false).
    { unfold decision. destruct (cap_band c); [|reflexivity]. specialize (Hb eq_refl). cbn [fst].
      rewrite Z.shiftl_spec by lia. change (31 - 20) with 11. apply Z.bits_above_log2; [lia|].
      apply Z.log2_lt_pow2; lia. }
    destruct x; cbn [andb fst snd]; [|by rewrite Hsame].
    destruct (left_over q m && in_window q); cbn [andb]; [|by rewrite Hsame].
    destruct (is_over q c); [by rewrite Hclear|by rewrite Hsame].
Qed.

(** ** The counters of a chain *)

Definition dirs_of (ch : cstr) : list dir :=
  if strcmp_eq ch !"quota_in" then [dst] else if strcmp_eq ch !"quota_out" then [src] else [src; dst].

(** The bits that only a block can change: all but the throttle band, and that one too
    while the bandwidth limiter has it. *)
Definition kept (i : Z) : Prop := i = 28 \/ i < 20 \/ 28 < i \/ dl_free = false.

Definition band_ok (q : quota) (c : cap) : Prop := cap_band c = true -> q_idx q <= 255 /\ dl_free = true.

Definition cap_ok (q : quota) (c : cap) : Prop :=
  id_ok (cap_id c) /\ band_ok q c /\
  cap_chain c ∈ [!"quota_in"; !"quota_out"; !"quota_comb"] /\ cap_dirs c = dirs_of (cap_chain c).

Lemma caps_ok q : quota_ok q -> Forall (cap_ok q) (caps q).
Proof.
  intros Hq. assert (Hi := caps_ids_ok q Hq).
  assert (Hb : over_dl_band q = true \/ over_ul_band q = true -> q_idx q <= 255 /\ dl_free = true).
  { unfold over_dl_band, over_ul_band, ul_free, QUOTA_MARK_BAND_MAX.
    intros [H|H]; repeat (apply andb_true_iff in H as [H ?]); repeat (match goal with H : _ && _ = true |- _ => apply andb_true_iff in H as [? ?] end);
      by propify. }
  assert (H : Forall (fun c => band_ok q c /\
    cap_chain c ∈ [!"quota_in"; !"quota_out"; !"quota_comb"] /\ cap_dirs c = dirs_of (cap_chain c)) (caps q)).
  { unfold caps. cbv zeta. rewrite !Forall_app. split_and!; (destruct (negb _); [|constructor]); apply Forall_singleton;
      cbn [cap_band cap_chain cap_dirs]; (split_and!; [|rewrite !elem_of_cons; tauto|reflexivity]); intros E; apply Hb; auto.
    unfold comb_band in E. left. by apply andb_true_iff in E as [? ?]. }
  revert Hi H. rewrite !Forall_forall. intros Hi H c Hc. split; [by apply Hi|by apply H].
Qed.

(** The counters of a chain, with their quotas, in order. *)
Definition caps_in (ch : cstr) (qs : list quota) : list (quota * cap) :=
  concat (map (fun q => map (pair q) (List.filter (fun c => strcmp_eq (cap_chain c) ch) (caps q))) qs).

Definition metered (ch : cstr) (qs : list quota) : bool := existsb (fun q => meets_addrs (q_addrs q) (dirs_of ch)) qs.

(** What happens in a chain to a packet with a mark: whether a quota blocks it, the
    counters it passes. *)
Definition blocks (m : Z) (qc : quota * cap) : bool :=
  negb (cap_band qc.2) && counted qc.1 qc.2 m && is_over qc.1 qc.2.
Definition blocked (ch : cstr) (qs : list quota) (m : Z) : bool := existsb (blocks m) (caps_in ch qs).
Definition counters (ch : cstr) (qs : list quota) (m : Z) : list cstr :=
  concat (map (fun qc => counts qc.1 qc.2 m) (caps_in ch qs)).

Lemma counted_same q c m m' : Z.testbit m 30 = Z.testbit m' 30 -> counted q c m = counted q c m'.
Proof. intros H. unfold counted, left_over. by rewrite H. Qed.

Lemma after_cap_bit q c m i :
  1 <= q_idx q -> band_ok q c -> kept i ->
  Z.testbit (after_cap m q c) i = Z.testbit m i || ((i =? 28) && blocks m (q, c)).
Proof.
  intros Hi Hb Hr. unfold after_cap, blocks, decision, band_ok in *. cbn [fst snd].
  destruct (counted q c m && is_over q c) eqn:E.
  - destruct (cap_band c); rewrite stamp_bit.
    + destruct (Hb eq_refl) as [Hb' Hfree]. cbn [negb andb]. rewrite andb_false_r, orb_false_r.
      assert (Ho : Z.testbit (Z.shiftl (q_idx q) 20) i = false /\ Z.testbit (Z.shiftl 255 20) i = false).
      { destruct (Z.ltb_spec i 0) as [Hn|Hp]; [by rewrite !Z.testbit_neg_r|].
        destruct (Z.ltb_spec i 20) as [Hlt|Hge]; [by rewrite !Z.shiftl_spec_low|].
        assert (28 <= i) by (destruct Hr as [->|[?|[?|?]]]; [lia..|congruence]).
        rewrite !Z.shiftl_spec by lia. split; apply Z.bits_above_log2; try lia.
        - apply (Z.lt_le_trans _ 8); [apply Z.log2_lt_pow2; lia|lia].
        - change (Z.log2 255) with 7. lia. }
      destruct Ho as [-> ->]. cbn [negb]. by rewrite andb_true_r, orb_false_r.
    + cbn [negb]. rewrite andb_true_l, E, andb_true_r. unfold DEATH. destruct (Z.eqb_spec i 28) as [->|Hne].
      * rewrite Z.pow2_bits_true by lia. cbn [negb]. by rewrite !orb_true_r.
      * rewrite Z.pow2_bits_false by lia. cbn [negb]. by rewrite andb_true_r, !orb_false_r.
  - rewrite <- andb_assoc, E, !andb_false_r. by rewrite orb_false_r.
Qed.

Definition all_ok (qs : list quota) : Prop := Forall quota_ok qs.

Lemma caps_in_ok ch qs : all_ok qs -> Forall (fun qc => quota_ok qc.1 /\ cap_ok qc.1 qc.2) (caps_in ch qs).
Proof.
  intros H. unfold caps_in. induction H as [|q qs Hq H IH]; [constructor|]. cbn [map concat].
  apply Forall_app_2; [|done]. assert (Hc := caps_ok q Hq). apply Forall_map, Forall_forall. intros c Hin.
  rewrite list_elem_of_In, filter_In, <- list_elem_of_In in Hin. rewrite Forall_forall in Hc. split; [exact Hq|exact (Hc c (proj1 Hin))].
Qed.

(** A list of counters is passed. *)
Lemma caps_pass f t l m n :
  t !! !"MARK" = None -> Forall (fun qc => quota_ok qc.1 /\ cap_ok qc.1 qc.2) l -> Z.testbit m 31 = false ->
  exists m', passes f t (concat (map (fun qc => cap_rules qc.1 qc.2) l)) m n m'
    (n ++ concat (map (fun qc => counts qc.1 qc.2 m) l)) /\
    forall i, kept i -> Z.testbit m' i = Z.testbit m i || ((i =? 28) && existsb (blocks m) l).
Proof.
  intros Ht Hl. revert m n. induction Hl as [|[q c] l [Hq Hc] Hl IH]; intros m n Hm; cbn [map concat existsb].
  { exists m. rewrite app_nil_r. split; [apply passes_nil|]. intros i _. by rewrite andb_false_r, orb_false_r. }
  cbn [fst snd] in *. destruct Hc as (Hid & Hb & _). assert (Hi := proj1 Hq).
  set (m1 := after_cap m q c).
  assert (Hbit : forall i, kept i -> Z.testbit m1 i = Z.testbit m i || ((i =? 28) && blocks m (q, c)))
    by (intros i; by apply after_cap_bit).
  assert (Hsame : forall q c, counted q c m1 = counted q c m).
  { intros q' c'. apply counted_same. rewrite Hbit by (unfold kept; lia). cbn [Z.eqb andb]. by rewrite orb_false_r. }
  destruct (IH m1 (n ++ counts q c m)) as (m' & Hp & Hm').
  { rewrite Hbit by (unfold kept; lia). cbn [andb]. by rewrite Hm. }
  exists m'. split.
  - eapply walk_app; [apply cap_passes; try done; intros E; by destruct (Hb E)|]. fold m1. rewrite app_assoc.
    replace (concat (map (fun qc => counts qc.1 qc.2 m) l)) with (concat (map (fun qc => counts qc.1 qc.2 m1) l)); [exact Hp|].
    f_equal. apply map_ext. intros [q' c']. unfold counts. by rewrite Hsame.
  - intros i Hi'. rewrite Hm', Hbit by done.
    replace (existsb (blocks m1) l) with (existsb (blocks m) l); [by destruct (i =? 28), (Z.testbit m i)|].
    clear - Hsame. induction l as [|[q' c'] l IH]; [done|]. cbn [existsb]. rewrite IH. f_equal.
    unfold blocks. cbn [fst snd]. by rewrite Hsame.
Qed.

(** ** The chains as loaded *)

Lemma appended_app ch a b : appended ch (a ++ b) = appended ch a ++ appended ch b.
Proof. apply omap_app. Qed.

Lemma appended_concat {A} ch (f : A -> list line) l :
  appended ch (concat (map f l)) = concat (map (fun x => appended ch (f x)) l).
Proof. induction l as [|x l IH]; [done|]. cbn [map concat]. by rewrite appended_app, IH. Qed.

Lemma appended_rules ch d rs :
  appended ch (map (fun r => Append d r.1 r.2) rs) = if strcmp_eq d ch then rs else [].
Proof.
  unfold appended. induction rs as [|[m tg] rs IH]; cbn [map]; [by destruct (strcmp_eq d ch)|].
  rewrite omap_cons_eq, IH. cbn [fst snd]. by destruct (strcmp_eq d ch).
Qed.

Variables (faces : list cstr) (qs : list quota).
Hypothesis Hok : all_ok qs.

Definition lines : list line := lines4 (rules (build_quotas e faces qs)).

Definition cap_lines : list line :=
  concat (map (fun q => concat (map (fun c => map (fun r => Append (cap_chain c) r.1 r.2) (cap_rules q c)) (caps q))) qs).

Lemma lines_eq : lines = frame faces ++ concat (map explicit_flags qs) ++ cap_lines ++ enforcement.
Proof.
  unfold lines, build_quotas. cbn [rules]. rewrite !lines4_app, !lines4_46, lines4_ipt. do 2 f_equal.
  rewrite lines4_concat. unfold cap_lines. f_equal. f_equal. apply map_ext. intros q. rewrite lines4_concat. f_equal.
  apply map_ext. intros c. apply lines4_emit.
Qed.

Lemma appended_caps ch : appended ch cap_lines = concat (map (fun qc => cap_rules qc.1 qc.2) (caps_in ch qs)).
Proof.
  unfold cap_lines, caps_in. rewrite appended_concat. induction qs as [|q l IH]; [done|]. cbn [map concat].
  rewrite map_app, concat_app. f_equal; [|by apply IH; inversion Hok].
  rewrite appended_concat. induction (caps q) as [|c cs IHc]; [done|]. cbn [map concat List.filter].
  rewrite appended_rules, IHc. destruct (strcmp_eq (cap_chain c) ch); done.
Qed.

Lemma appended_flags ch : ch ∈ [!"quota_in"; !"quota_out"; !"quota_comb"] ->
  appended ch (concat (map explicit_flags qs)) =
    concat (map (fun q => markings (q_addrs q) (dirs_of ch) QUOTA_MARK_EXPLICIT) qs).
Proof.
  intros Hch. rewrite appended_concat. unfold all_ok in Hok. rewrite Forall_forall in Hok.
  assert (H : forall q, q ∈ qs -> appended ch (explicit_flags q) = markings (q_addrs q) (dirs_of ch) QUOTA_MARK_EXPLICIT).
  { intros q Hq. destruct (Hok q Hq) as (_ & _ & _ & Ha). unfold explicit_flags.
    destruct (quota_scope_has_addrs (q_scope q)).
    - rewrite appended_concat. unfold markings. f_equal. apply map_ext. intros a.
      rewrite !elem_of_cons, elem_of_nil in Hch. by destruct Hch as [->|[->|[->|[]]]].
    - destruct (q_addrs q) as [|a l]; [done|]. assert (false = true) by (by apply Ha). done. }
  f_equal. apply map_ext_in. intros q Hq. apply H. by apply list_elem_of_In.
Qed.

Lemma appended_frame ch : ch ∈ [!"quota_in"; !"quota_out"; !"quota_comb"] ->
  appended ch (frame faces) = [] /\ appended ch enforcement = [].
Proof.
  intros Hch. rewrite !elem_of_cons, elem_of_nil in Hch. unfold frame. rewrite !appended_app, appended_concat.
  assert (H : concat (map (fun w => appended ch (face_rules w)) faces) = []).
  { induction faces as [|w l IH]; [done|]. cbn [map concat]. rewrite IH, app_nil_r.
    by destruct Hch as [->|[->|[->|[]]]]. }
  rewrite H. by destruct Hch as [->|[->|[->|[]]]].
Qed.

(** What a counting chain does. *)
Lemma chain_walk f t ch m n :
  t !! !"MARK" = None -> ch ∈ [!"quota_in"; !"quota_out"; !"quota_comb"] ->
  t !! ch = Some (appended ch lines) -> Z.testbit m 31 = false ->
  let m1 := if metered ch qs then stamp (EXPLICIT, EXPLICIT) m else m in
  exists m', walk (S f) t (default [] (t !! ch)) m n = Some (None, m', n ++ counters ch qs m1) /\
    forall i, kept i -> Z.testbit m' i = Z.testbit m1 i || ((i =? 28) && blocked ch qs m1).
Proof.
  intros Ht Hch Hc Hm m1. rewrite Hc. cbn [default from_option id].
  destruct (appended_frame ch Hch) as [Hf He].
  rewrite lines_eq, !appended_app, Hf, He, appended_flags, appended_caps, app_nil_r by done. cbn [app].
  assert (Hflags : passes f t (concat (map (fun q => markings (q_addrs q) (dirs_of ch) QUOTA_MARK_EXPLICIT) qs)) m n m1 n).
  { unfold m1, metered. clear - Ht laws. revert m. induction qs as [|q l IH]; intros m; cbn [map concat existsb]; [apply passes_nil|].
    eapply walk_app; [by apply (markings_pass f t _ _ _ EXPLICIT)|].
    destruct (meets_addrs (q_addrs q) (dirs_of ch)); cbn [orb]; [|apply IH].
    specialize (IH (stamp (EXPLICIT, EXPLICIT) m)). destruct (existsb _ l); [|done]. by rewrite stamp_twice in IH. }
  assert (H31 : Z.testbit m1 31 = false).
  { unfold m1. destruct (metered ch qs); [|done]. rewrite stamp_bit, Hm. reflexivity. }
  destruct (caps_pass f t (caps_in ch qs) m1 n Ht (caps_in_ok ch qs Hok) H31) as (m' & Hp & Hb).
  exists m'. split; [|exact Hb]. apply passes_end. eapply walk_app; [exact Hflags|exact Hp].
Qed.

Definition own_chains : list cstr := map bytes ["quota_fwd"; "quota_in"; "quota_out"; "quota_comb"]%string.

Ltac listed := apply (bool_decide_unpack _); vm_compute; exact I.

(** The table with its chains declared. *)
Definition declared : chainmap := default ∅ (load mangle_chains (empty_table mangle_chains) (map (fun c => Chain c user) own_chains)).

Lemma declared_load : load mangle_chains (empty_table mangle_chains) (map (fun c => Chain c user) own_chains) = Some declared.
Proof.
  assert (H : match load mangle_chains (empty_table mangle_chains) (map (fun c => Chain c user) own_chains) with
              | Some _ => true | None => false end = true) by (vm_compute; reflexivity).
  unfold declared. by destruct (load _ _ _).
Qed.

Lemma declared_empty c : c ∈ mangle_chains ++ own_chains -> declared !! c = Some [].
Proof.
  unfold mangle_chains, own_chains. cbn [map app]. rewrite !elem_of_cons, elem_of_nil. intros H.
  repeat destruct H as [->|H]; try done; vm_compute; reflexivity.
Qed.

Lemma mark_target_ok t v k : target_ok t (set_mark v k) = true.
Proof. reflexivity. Qed.

Definition addable_here (l : line) : Prop :=
  match l with Append c _ tg => c ∈ mangle_chains ++ own_chains /\ target_ok declared tg = true | _ => False end.

Ltac known := split; [unfold mangle_chains, own_chains; cbn [map app]; rewrite !elem_of_cons; tauto|first [apply mark_target_ok|vm_compute; reflexivity]].

Lemma rest_addable : Forall addable_here (drop 4 (frame faces) ++ concat (map explicit_flags qs) ++ cap_lines ++ enforcement).
Proof.
  unfold frame. cbn [app drop]. repeat (apply Forall_cons; split; [known|]). rewrite !Forall_app. split_and!.
  - induction faces as [|w l IH]; [constructor|]. cbn [map concat face_rules app].
    repeat (apply Forall_cons; split; [known|]). exact IH.
  - repeat (apply Forall_cons; split; [known|]). constructor.
  - clear Hok. induction qs as [|q l IH]; [constructor|]. cbn [map concat]. apply Forall_app_2; [|done].
    unfold explicit_flags. destruct (quota_scope_has_addrs _); [|constructor].
    induction (q_addrs q) as [|a al IHa]; [constructor|]. cbn [map concat app].
    repeat (apply Forall_cons; split; [known|]). exact IHa.
  - unfold cap_lines. induction Hok as [|q l Hq Hl IH]; [constructor|]. cbn [map concat]. apply Forall_app_2; [|by apply IH].
    assert (Hc := caps_ok q Hq). induction Hc as [|c cs (_ & _ & Hch & _) Hcs IHc]; [constructor|]. cbn [map concat].
    apply Forall_app_2; [|done]. apply Forall_map, Forall_forall. intros r Hr.
    split; [unfold mangle_chains, own_chains; cbn [map app]; revert Hch; rewrite !elem_of_cons, !elem_of_nil; tauto|].
    revert Hr. unfold cap_rules. cbv zeta. destruct (q_addrs q) as [|a al].
    + rewrite list_elem_of_singleton. intros ->. apply mark_target_ok.
    + rewrite elem_of_app, !elem_of_cons, elem_of_nil. intros [Hr|[->|[->|[]]]]; try apply mark_target_ok.
      unfold markings in Hr. apply list_elem_of_In, in_concat in Hr as (rs & Hrs & Hr).
      apply in_map_iff in Hrs as (x & <- & _). apply in_map_iff in Hr as (d & <- & _). apply mark_target_ok.
  - unfold enforcement. cbn [map]. repeat (apply Forall_cons; split; [known|]). constructor.
Qed.

(** The file is accepted, and its chains hold the rules in the order of the lines. *)
Lemma lines_load : exists t, load mangle_chains (empty_table mangle_chains) lines = Some t /\ t !! !"MARK" = None /\
  t !! !"DROP" = None /\ forall c, c ∈ mangle_chains ++ own_chains -> t !! c = Some (appended c lines).
Proof.
  rewrite lines_eq.
  assert (E : frame faces = map (fun c => Chain c user) own_chains ++ drop 4 (frame faces)) by done.
  rewrite E, <- app_assoc, load_app, declared_load. cbn [mbind option_bind].
  destruct (load_appends mangle_chains (drop 4 (frame faces) ++ concat (map explicit_flags qs) ++ cap_lines ++ enforcement) declared)
    as (t & Hl & Hc).
  { eapply Forall_impl; [exact rest_addable|]. intros [| |c m tg| | | |]; try done. intros [H1 H2].
    split; [rewrite declared_empty by done; by eexists|done]. }
  exists t. split; [done|]. split; [|split]; [rewrite Hc; vm_compute; reflexivity..|].
  intros c Hin. rewrite Hc, declared_empty by done. cbn [fmap option_fmap option_map app]. reflexivity.
Qed.

(** ** A forwarded packet *)

(** Upload or download: the chain, and the interface that shows it. *)
Inductive way := Up | Down.
Definition chain_of (w : way) : cstr := match w with Up => !"quota_out" | Down => !"quota_in" end.
Definition wan_of (w : way) : cstr := match w with Up => out_if | Down => in_if end.
Definition lan_of (w : way) : cstr := match w with Up => in_if | Down => out_if end.

(** A mark that tells whether the host has a quota of its own. *)
Definition own_quota (b : bool) : Z := if b then EXPLICIT else 0.

Definition direction_blocks (w : way) : bool := blocked (chain_of w) qs (own_quota (metered (chain_of w) qs)).
Definition combined_blocks : bool := blocked !"quota_comb" qs (own_quota (metered !"quota_comb" qs)).
Definition direction_counters (w : way) : list cstr := counters (chain_of w) qs (own_quota (metered (chain_of w) qs)).
Definition combined_counters : list cstr := counters !"quota_comb" qs (own_quota (metered !"quota_comb" qs)).

Lemma blocked_same ch m m' : Z.testbit m 30 = Z.testbit m' 30 -> blocked ch qs m = blocked ch qs m'.
Proof.
  intros H. unfold blocked. induction (caps_in ch qs) as [|[q c] l IH]; [done|]. cbn [existsb]. rewrite IH.
  unfold blocks. cbn [fst snd]. by rewrite (counted_same q c m m').
Qed.

Lemma counters_same ch m m' : Z.testbit m 30 = Z.testbit m' 30 -> counters ch qs m = counters ch qs m'.
Proof.
  intros H. unfold counters. f_equal. apply map_ext. intros [q c]. unfold counts. cbn [fst snd]. by rewrite (counted_same q c m m').
Qed.

Lemma own_quota_bit b : Z.testbit (own_quota b) 30 = b.
Proof. by destruct b. Qed.

Lemma metered_combined w : metered (chain_of w) qs = true -> metered !"quota_comb" qs = true.
Proof.
  unfold metered. rewrite !existsb_exists. intros (q & Hq & H). exists q. split; [done|].
  unfold meets_addrs in *. apply existsb_exists in H as (a & Ha & H). apply existsb_exists. exists a. split; [done|].
  apply existsb_exists in H as (d & Hd & H). apply existsb_exists. exists d. split; [|done].
  destruct w; vm_compute in Hd; destruct Hd as [<-|[]]; vm_compute; auto.
Qed.

(** The rules of the entry chains. *)
Definition alive : list cond := arg (no_mark QUOTA_MARK_DEATH).
Definition flag_combined : target := set_mark QUOTA_MARK_COMBINED QUOTA_MARK_COMBINED.

Definition fwd_rules (w : cstr) : list rule :=
  [(Out w :: alive, Jump !"quota_out"); (In w :: alive, Jump !"quota_in");
   (Out w :: alive, flag_combined); (In w :: alive, flag_combined)].

Lemma appended_none ch : strcmp_eq ch !"quota_in" = false -> strcmp_eq ch !"quota_out" = false -> strcmp_eq ch !"quota_comb" = false ->
  appended ch (concat (map explicit_flags qs)) = [] /\ appended ch cap_lines = [].
Proof.
  intros H1 H2 H3. split.
  - rewrite appended_concat. induction qs as [|q l IH]; [done|]. cbn [map concat]. rewrite IH by by inversion Hok.
    rewrite app_nil_r. unfold explicit_flags. destruct (quota_scope_has_addrs _); [|done].
    rewrite appended_concat. induction (q_addrs q) as [|a al IHa]; [done|]. cbn [map concat]. rewrite IHa, app_nil_r.
    unfold appended. rewrite !omap_cons_eq. rewrite (strcmp_neq _ ch), (strcmp_neq _ ch), (strcmp_neq _ ch); [done|..];
      intros <-; by rewrite strcmp_eq_refl in *.
  - rewrite appended_caps. unfold caps_in. induction Hok as [|q l Hq Hl IH]; [done|]. cbn [map concat].
    rewrite map_app, concat_app, IH by done. rewrite app_nil_r.
    assert (Hc := caps_ok q Hq). induction Hc as [|c cs (_ & _ & Hch & _) Hcs IHc]; [done|]. cbn [List.filter].
    rewrite strcmp_neq; [done|]. intros E. rewrite E in Hch. rewrite !elem_of_cons, elem_of_nil in Hch.
    destruct Hch as [->|[->|[->|[]]]]; by rewrite strcmp_eq_refl in *.
Qed.

Lemma forward_rules :
  appended !"FORWARD" lines =
    [([], clear_mark clearmask); ([], Jump !"quota_fwd");
     (arg (has_mark QUOTA_MARK_DEATH QUOTA_MARK_DEATH), Jump !"DROP")].
Proof.
  rewrite lines_eq, !appended_app. destruct (appended_none !"FORWARD") as [-> ->]; try reflexivity.
  unfold frame. rewrite !appended_app, appended_concat.
  replace (concat (map (fun w => appended !"FORWARD" (face_rules w)) faces)) with (@nil rule); [reflexivity|].
  induction faces as [|w l IH]; [done|]. cbn [map concat]. by rewrite <- IH.
Qed.

Lemma fwd_chain_rules :
  appended !"quota_fwd" lines =
    concat (map fwd_rules faces) ++
    [(arg (has_mark QUOTA_MARK_COMBINED QUOTA_MARK_COMBINED), Jump !"quota_comb"); ([], clear_mark QUOTA_MARK_COMBINED)].
Proof.
  rewrite lines_eq, !appended_app. destruct (appended_none !"quota_fwd") as [-> ->]; try reflexivity.
  unfold frame. rewrite !appended_app, appended_concat. cbn [app]. rewrite app_nil_r.
  change (appended !"quota_fwd" [Chain _ _; _; _; _; _; _; _; _]) with (@nil rule). reflexivity.
Qed.

Lemma alive_conds m : conds_at m alive = (negb (Z.testbit m 28), []).
Proof.
  change alive with [Match !"-m mark --mark 0x0/0x10000000"]. cbn [conds_at]. unfold holds_at.
  change (mark_test _) with (Some (0, 2 ^ 28)). change (counter _) with (@None cstr). cbv iota.
  rewrite test_bit by done. by destruct (Z.testbit m 28).
Qed.

(** A test of one interface in front of others. *)
Lemma side_conds m (c : cond) cs : (exists i, c = In i \/ c = Out i) ->
  conds_at m (c :: cs) = if fits c then conds_at m cs else (false, []).
Proof.
  intros (i & [-> | ->]); cbn [conds_at]; unfold holds_at; cbn [mark_test counter]; destruct (fits _); try done;
    by destruct (conds_at m cs).
Qed.

Lemma face_missed f t w m n : if_match w in_if = false -> if_match w out_if = false -> passes f t (fwd_rules w) m n m n.
Proof.
  intros Hi Ho.
  assert (H : forall c tg, c = In w \/ c = Out w -> passes f t [(c :: alive, tg)] m n m n).
  { intros c tg Hc rest. rewrite (passes_missed f t (c :: alive) tg m n); rewrite side_conds by (exists w; tauto);
      destruct Hc as [-> | ->]; cbn [fits]; rewrite ?Hi, ?Ho; cbn [fst snd]; by rewrite ?app_nil_r. }
  unfold fwd_rules. repeat (eapply passes_cons; [by apply H; tauto|]). apply passes_nil.
Qed.

Lemma action_call t c rs : c ∈ own_chains -> t !! c = Some rs -> action_of t (Jump c) = Call c.
Proof.
  unfold own_chains. cbn [map]. rewrite !elem_of_cons, elem_of_nil. intros H Hc. unfold action_of.
  repeat destruct H as [->|H]; try done; cbv zeta;
    repeat match goal with |- context [target_name ?a] => change (target_name a) with a end;
    repeat match goal with |- context [strcmp_eq ?a ?b] => change (strcmp_eq a b) with false end; cbn [orb]; by rewrite Hc.
Qed.

(** The interface that the packet uses: its chain, and the flag unless it is blocked. *)
Lemma face_hit f t d w m n m' n' :
  t !! !"MARK" = None -> (forall c, c ∈ own_chains -> is_Some (t !! c)) ->
  if_match w (wan_of d) = true -> if_match w (lan_of d) = false -> Z.testbit m 28 = false ->
  walk f t (default [] (t !! chain_of d)) m n = Some (None, m', n') ->
  passes f t (fwd_rules w) m n (if Z.testbit m' 28 then m' else stamp (COMBINED, COMBINED) m') n'.
Proof.
  intros Ht Hown Hw Hl Hm Hwalk.
  assert (Hcall : forall c cs m n m' n', c ∈ own_chains -> conds_at m cs = (true, []) ->
    walk f t (default [] (t !! c)) m n = Some (None, m', n') -> passes f t [(cs, Jump c)] m n m' n').
  { intros c cs m0 n0 m0' n0' Hc Hcs Hwk. destruct (Hown c Hc) as [rs Hrs].
    apply (passes_call f t cs c c); [done|by apply (action_call t c rs)|done]. }
  assert (Hmiss : forall c tg m n, c = In w \/ c = Out w -> fits c = false -> passes f t [(c :: alive, tg)] m n m n).
  { intros c tg m0 n0 Hc Hf rest. rewrite (passes_missed f t (c :: alive) tg m0 n0); rewrite side_conds by (exists w; tauto);
      rewrite Hf; cbn [fst snd]; by rewrite ?app_nil_r. }
  assert (Hflag : forall c n, c = In w \/ c = Out w -> fits c = true ->
    passes f t [(c :: alive, flag_combined)] m' n (if Z.testbit m' 28 then m' else stamp (COMBINED, COMBINED) m') n).
  { intros c n0 Hc Hf rest.
    rewrite (passes_mark f t (c :: alive) flag_combined (COMBINED, COMBINED) m' n0 eq_refl (action_mark _ _ _ Ht) rest).
    rewrite side_conds by (exists w; tauto). rewrite Hf, alive_conds. cbn [fst snd]. rewrite app_nil_r.
    by destruct (Z.testbit m' 28). }
  assert (Hc : forall c, c = In w \/ c = Out w -> fits c = true -> conds_at m (c :: alive) = (true, [])).
  { intros c Hc Hf. rewrite side_conds by (exists w; tauto). by rewrite Hf, alive_conds, Hm. }
  unfold fwd_rules. destruct d; cbn [wan_of lan_of chain_of] in *.
  - eapply passes_cons; [apply (Hcall !"quota_out"); [listed|apply Hc; [tauto|exact Hw]|exact Hwalk]|].
    eapply passes_cons; [by apply Hmiss; [tauto|exact Hl]|].
    eapply passes_cons; [by apply Hflag; [tauto|exact Hw]|].
    apply Hmiss; [tauto|exact Hl].
  - eapply passes_cons; [by apply Hmiss; [tauto|exact Hl]|].
    eapply passes_cons; [apply (Hcall !"quota_in"); [listed|apply Hc; [tauto|exact Hw]|exact Hwalk]|].
    eapply passes_cons; [by apply Hmiss; [tauto|exact Hl]|].
    by apply Hflag; [tauto|exact Hw].
Qed.

Definition clear_bits : Z := if dl_free then 15 * 2 ^ 28 + 255 * 2 ^ 20 else 15 * 2 ^ 28.

Lemma clear_target : mark_set (clear_mark clearmask) = Some (0, clear_bits).
Proof. unfold clearmask, clear_bits. destruct dl_free; reflexivity. Qed.

Lemma cleared m i : Z.testbit (stamp (0, clear_bits) m) i = Z.testbit m i && negb (Z.testbit clear_bits i).
Proof. rewrite stamp_bit, Z.bits_0. by rewrite orb_false_r. Qed.

(** The low bits, which the entry does not clear. *)
Definition foreign (i : Z) : Prop := i < 20 \/ (dl_free = false /\ i < 28).

Lemma clear_bits_foreign i : foreign i -> Z.testbit clear_bits i = false.
Proof.
  intros H. destruct (Z.ltb_spec i 0) as [Hn|Hp]; [by apply Z.testbit_neg_r|].
  unfold clear_bits, foreign in *. destruct dl_free.
  - destruct H as [H|[H _]]; [|done].
    apply negb_true_iff, (forall_below 20 (fun k => negb (Z.testbit (15 * 2 ^ 28 + 255 * 2 ^ 20) k))); [reflexivity|lia].
  - assert (Hi : i < 28) by (destruct H as [H|[_ H]]; lia).
    apply negb_true_iff, (forall_below 28 (fun k => negb (Z.testbit (15 * 2 ^ 28) k))); [reflexivity|lia].
Qed.

Lemma clear_bits_top i : 28 <= i <= 31 -> Z.testbit clear_bits i = true.
Proof.
  intros H. assert (Hi : i = 28 \/ i = 29 \/ i = 30 \/ i = 31) by lia. unfold clear_bits.
  destruct dl_free; by destruct Hi as [->|[->|[->| ->]]].
Qed.

Lemma foreign_kept i : foreign i -> kept i /\ i <> 28 /\ i <> 29 /\ i <> 30 /\ i <> 31.
Proof. unfold foreign, kept. intros [H|[? H]]; split; try lia; tauto. Qed.

Lemma stamp_other b m i : 0 <= b -> i <> b -> Z.testbit (stamp (2 ^ b, 2 ^ b) m) i = Z.testbit m i.
Proof.
  intros Hb Hi. rewrite stamp_bit. destruct (Z.ltb_spec i 0) as [Hn|Hp]; [by rewrite !(Z.testbit_neg_r _ i)|].
  rewrite Z.pow2_bits_false by lia. cbn [negb]. by rewrite andb_true_r, orb_false_r.
Qed.

(** The direction chain, the flag and the combined chain. *)
Lemma forwarding_walk t d pre w post m :
  t !! !"MARK" = None -> (forall c, c ∈ mangle_chains ++ own_chains -> t !! c = Some (appended c lines)) ->
  faces = pre ++ w :: post -> if_match w (wan_of d) = true -> if_match w (lan_of d) = false ->
  Forall (fun x => if_match x in_if = false /\ if_match x out_if = false) (pre ++ post) ->
  (forall i, 28 <= i <= 31 -> Z.testbit m i = false) ->
  exists m', walk 2 t (default [] (t !! !"quota_fwd")) m [] =
      Some (None, m', direction_counters d ++ if direction_blocks d then [] else combined_counters) /\
    Z.testbit m' 28 = direction_blocks d || combined_blocks /\ forall i, foreign i -> Z.testbit m' i = Z.testbit m i.
Proof.
  intros Ht Hc Hf Hw Hl Hother Hm.
  assert (Hch : forall d, chain_of d ∈ [!"quota_in"; !"quota_out"; !"quota_comb"]) by (intros []; listed).
  assert (Hown : forall c, c ∈ own_chains -> t !! c = Some (appended c lines)) by (intros c Hin; apply Hc, elem_of_app; by right).
  assert (Hin : forall ch, ch ∈ [!"quota_in"; !"quota_out"; !"quota_comb"] -> t !! ch = Some (appended ch lines)).
  { intros ch H. apply Hown. unfold own_chains. cbn [map]. revert H. rewrite !elem_of_cons. tauto. }
  destruct (chain_walk 0 t (chain_of d) m [] Ht (Hch d) (Hin _ (Hch d)) (Hm 31 ltac:(lia))) as (m1 & Hwalk & Hm1).
  set (e1 := if metered (chain_of d) qs then stamp (EXPLICIT, EXPLICIT) m else m) in *.
  assert (He1 : Z.testbit e1 30 = metered (chain_of d) qs).
  { unfold e1. destruct (metered _ _); [|by apply Hm]. rewrite stamp_bit. by rewrite orb_true_r. }
  assert (He1' : forall i, i <> 30 -> Z.testbit e1 i = Z.testbit m i).
  { intros i Hi. unfold e1. destruct (metered _ _); [by apply stamp_other|done]. }
  rewrite (counters_same _ e1 (own_quota (metered (chain_of d) qs))) in Hwalk by by rewrite own_quota_bit.
  assert (Hb1 : Z.testbit m1 28 = direction_blocks d).
  { rewrite Hm1 by (unfold kept; lia). rewrite He1', Hm by lia. cbn [orb Z.eqb Pos.eqb andb].
    unfold direction_blocks. apply blocked_same. by rewrite own_quota_bit. }
  assert (Hk1 : forall i, kept i -> i <> 28 -> Z.testbit m1 i = Z.testbit e1 i).
  { intros i Hi Hne. rewrite Hm1 by done. by rewrite (proj2 (Z.eqb_neq _ _) Hne), orb_false_r. }
  set (m2 := if Z.testbit m1 28 then m1 else stamp (COMBINED, COMBINED) m1).
  set (n1 := direction_counters d).
  assert (Hfaces : passes 1 t (concat (map fwd_rules faces)) m [] m2 n1).
  { rewrite Hf, map_app, concat_app. apply Forall_app in Hother as [Hpre Hpost].
    assert (Hskip : forall l m n, Forall (fun x => if_match x in_if = false /\ if_match x out_if = false) l ->
      passes 1 t (concat (map fwd_rules l)) m n m n).
    { intros l m0 n0 Hl'. induction Hl' as [|x l [Hx1 Hx2] Hl' IH]; [apply passes_nil|]. cbn [map concat].
      eapply walk_app; [by apply face_missed|exact IH]. }
    eapply walk_app; [by apply Hskip|]. cbn [map concat]. eapply walk_app; [|by apply Hskip].
    apply face_hit with (d := d); try done; [intros c Hcin; rewrite Hown by done; by eexists|by apply Hm]. }
  assert (Hm2 : forall i, i <> 29 -> Z.testbit m2 i = Z.testbit m1 i).
  { intros i Hi. unfold m2. destruct (Z.testbit m1 28); [done|by apply stamp_other]. }
  assert (H29 : Z.testbit m2 29 = negb (direction_blocks d)).
  { unfold m2. rewrite Hb1. destruct (direction_blocks d).
    - rewrite Hk1 by (unfold kept; lia). rewrite He1', Hm by lia. done.
    - rewrite stamp_bit. by rewrite orb_true_r. }
  assert (Hcomb : exists m3, passes 1 t [(arg (has_mark QUOTA_MARK_COMBINED QUOTA_MARK_COMBINED), Jump !"quota_comb")] m2 n1 m3
      (n1 ++ if direction_blocks d then [] else combined_counters) /\
    Z.testbit m3 28 = direction_blocks d || combined_blocks /\ forall i, foreign i -> Z.testbit m3 i = Z.testbit m2 i).
  { assert (Hcond : conds_at m2 (arg (has_mark QUOTA_MARK_COMBINED QUOTA_MARK_COMBINED)) = (negb (direction_blocks d), [])).
    { change (arg _) with [Match !"-m mark --mark 0x20000000/0x20000000"]. cbn [conds_at]. unfold holds_at.
      change (mark_test _) with (Some (2 ^ 29, 2 ^ 29)). change (counter _) with (@None cstr). cbv iota.
      rewrite test_bit_set by done. rewrite H29. by destruct (direction_blocks d). }
    destruct (direction_blocks d) eqn:Ed; cbn [negb orb] in *.
    - exists m2. split; [|split; [by rewrite Hm2, Hb1|done]]. intros rest.
      rewrite (passes_missed 1 t _ (Jump !"quota_comb") m2 n1); rewrite Hcond; cbn [fst snd]; by rewrite ?app_nil_r.
    - assert (Hq : !"quota_comb" ∈ [!"quota_in"; !"quota_out"; !"quota_comb"]) by (rewrite !elem_of_cons; tauto).
      assert (H31 : Z.testbit m2 31 = false).
      { rewrite Hm2, Hk1 by (unfold kept; lia). rewrite He1', Hm by lia. done. }
      destruct (chain_walk 0 t !"quota_comb" m2 n1 Ht Hq (Hin _ Hq) H31) as (m3 & Hwalk3 & Hm3).
      set (e3 := if metered !"quota_comb" qs then stamp (EXPLICIT, EXPLICIT) m2 else m2) in *.
      assert (He3 : Z.testbit e3 30 = metered !"quota_comb" qs).
      { unfold e3. destruct (metered !"quota_comb" qs) eqn:Em; [rewrite stamp_bit; by rewrite orb_true_r|].
        rewrite Hm2, Hk1, He1 by (unfold kept; lia). destruct (metered (chain_of d) qs) eqn:Emd; [|done].
        by rewrite (metered_combined d Emd) in Em. }
      assert (He3' : forall i, i <> 30 -> Z.testbit e3 i = Z.testbit m2 i).
      { intros i Hi. unfold e3. destruct (metered !"quota_comb" qs); [by apply stamp_other|done]. }
      exists m3. split; [|split].
      + rewrite (counters_same _ e3 (own_quota (metered !"quota_comb" qs))) in Hwalk3 by by rewrite own_quota_bit.
        apply (passes_call 1 t _ !"quota_comb" !"quota_comb"); [by rewrite Hcond| |exact Hwalk3].
        apply (action_call t _ (appended !"quota_comb" lines)); [listed|by apply Hin].
      + rewrite Hm3 by (unfold kept; lia). rewrite He3', Hm2, Hb1 by lia. cbn [orb Z.eqb Pos.eqb andb].
        apply blocked_same. by rewrite own_quota_bit.
      + intros i Hi. destruct (foreign_kept i Hi) as (Hk & ? & ? & ? & ?). rewrite Hm3 by done.
        rewrite (proj2 (Z.eqb_neq i 28)) by done. cbn [andb]. by rewrite orb_false_r, He3'. }
  destruct Hcomb as (m3 & Hp3 & Hb3 & Hf3). exists (stamp (0, COMBINED) m3). split; [|split].
  - rewrite Hown by (listed). cbn [default from_option id]. rewrite fwd_chain_rules.
    apply passes_end. eapply walk_app; [exact Hfaces|]. eapply passes_cons; [exact Hp3|]. intros rest.
    rewrite (passes_mark 1 t [] (clear_mark QUOTA_MARK_COMBINED) (0, COMBINED) _ _ eq_refl (action_mark _ _ _ Ht) rest).
    cbn [conds_at fst snd]. by rewrite app_nil_r.
  - rewrite stamp_bit, Z.bits_0, orb_false_r, Hb3. change (Z.testbit COMBINED 28) with false. by rewrite andb_true_r.
  - intros i Hi. destruct (foreign_kept i Hi) as (Hk & ? & ? & ? & ?).
    rewrite stamp_bit, Z.bits_0, orb_false_r, Hf3, Hm2, Hk1, He1' by done. unfold COMBINED.
    destruct (Z.ltb_spec i 0) as [Hn|Hp]; [by rewrite !(Z.testbit_neg_r _ i)|].
    rewrite Z.pow2_bits_false by lia. by rewrite andb_true_r.
Qed.

(** The whole of FORWARD. *)
Lemma forward_walk t d pre w post m :
  t !! !"MARK" = None -> (forall c, c ∈ mangle_chains ++ own_chains -> t !! c = Some (appended c lines)) ->
  faces = pre ++ w :: post -> if_match w (wan_of d) = true -> if_match w (lan_of d) = false ->
  Forall (fun x => if_match x in_if = false /\ if_match x out_if = false) (pre ++ post) ->
  exists m', walk 3 t (default [] (t !! !"FORWARD")) m [] =
      Some (if direction_blocks d || combined_blocks then Some Drop else None, m',
            direction_counters d ++ if direction_blocks d then [] else combined_counters) /\
    forall i, foreign i -> Z.testbit m' i = Z.testbit m i.
Proof.
  intros Ht Hc Hf Hw Hl Hother.
  assert (Hclear : passes 2 t [([], clear_mark clearmask)] m [] (stamp (0, clear_bits) m) []).
  { intros rest. rewrite (passes_mark 2 t [] _ _ m [] clear_target (action_mark _ _ _ Ht) rest).
    cbn [conds_at fst snd]. by rewrite app_nil_r. }
  destruct (forwarding_walk t d pre w post (stamp (0, clear_bits) m) Ht Hc Hf Hw Hl Hother) as (m' & Hwalk & H28 & Hfor).
  { intros i Hi. rewrite cleared, clear_bits_top by done. apply andb_false_r. }
  exists m'. split.
  - rewrite Hc by (listed). cbn [default from_option id]. rewrite forward_rules.
    etransitivity; [exact (Hclear [_; _])|].
    assert (Hcall : passes 2 t [([], Jump !"quota_fwd")] (stamp (0, clear_bits) m) [] m'
      (direction_counters d ++ if direction_blocks d then [] else combined_counters)).
    { apply (passes_call 2 t [] !"quota_fwd" !"quota_fwd"); [done| |exact Hwalk].
      apply (action_call t _ (appended !"quota_fwd" lines)); [listed|apply Hc; listed]. }
    etransitivity; [exact (Hcall [_])|]. rewrite walk_cons. cbn [fst snd].
    assert (Hcond : conds_at m' (arg (has_mark QUOTA_MARK_DEATH QUOTA_MARK_DEATH)) = (direction_blocks d || combined_blocks, [])).
    { change (arg _) with [Match !"-m mark --mark 0x10000000/0x10000000"]. cbn [conds_at]. unfold holds_at.
      change (mark_test _) with (Some (2 ^ 28, 2 ^ 28)). change (counter _) with (@None cstr). cbv iota.
      rewrite test_bit_set by done. rewrite H28. by destruct (_ || _). }
    rewrite Hcond, app_nil_r. by destruct (_ || _).
  - intros i Hi. rewrite Hfor, cleared by done. by rewrite clear_bits_foreign, andb_true_r.
Qed.

End Quotas.

(** ** What the records give *)

Section Generated.
Context {nv : Nvram} {cfg : Config} {build : Build} {links : Links} {cal : Calendar}.

Lemma print_d_digits n : 0 <= n -> Forall (fun c => c <> 34) (print_d n).
Proof.
  intros Hn. unfold print_d. rewrite (proj2 (Z.ltb_ge n 0)) by lia.
  eapply Forall_impl; [apply print_u_chars; lia|]. unfold is_numeral_char. lia.
Qed.

Lemma quota_of_ok fs idx q : 1 <= idx -> quota_of fs idx = Some q -> quota_ok q.
Proof.
  intros Hi. unfold quota_of. cbv zeta. set (s := quota_scope_of _). set (addrs := if quota_scope_has_addrs s then _ else []).
  destruct (quota_scope_has_addrs s && bool_decide (addrs = [])) eqn:E; [done|]. intros [= <-]. unfold quota_ok. cbn [q_idx q_id q_scope q_addrs].
  split; [done|]. split; [|split].
  - unfold id_of. case_if; unfold strlcpy, snprintf; rewrite length_take; lia.
  - unfold id_of. destruct (_ && forallb isdigit _) eqn:Ed; [|apply Forall_take, print_d_digits; lia].
    apply andb_true_iff in Ed as [_ Ed]. apply Forall_take, Forall_forall. intros c Hc ->.
    rewrite forallb_forall in Ed. assert (H := Ed 34 ltac:(by apply list_elem_of_In)). discriminate.
  - split; intros H.
    + rewrite H in E. cbn [andb] in E. by apply bool_decide_eq_false in E.
    + unfold addrs in H. by destruct (quota_scope_has_addrs s).
Qed.

Lemma read_quotas_ok ps : forall idx, 0 <= idx -> all_ok (read_quotas idx ps).
Proof.
  induction ps as [|p ps IH]; intros idx Hi; cbn [read_quotas]; [constructor|]. cbv zeta.
  destruct (accepted _); [|by apply IH]. destruct (quota_of _ (idx + 1)) as [q|] eqn:E; [|apply IH; lia].
  constructor; [eapply quota_of_ok; [|exact E]; lia|apply IH; lia].
Qed.

(** When [ipt_quotas] writes rules, they are those of [build_quotas]. *)
Lemma quotas_built e : rules (ipt_quotas e) <> [] ->
  ipt_quotas e = build_quotas e (quota_faces e) quota_list.
Proof. unfold ipt_quotas. repeat case_if; try done. by destruct (quota_faces e). Qed.

(** C8: the quotas are enforced, and every packet is counted once. The rules that are
    written load exactly when iptables accepts their matches, as far as the matches are
    the extensions' own business: their options, and that no two counters have the same
    name. (That the options of the bandwidth match are accepted is in BandwidthSpec.v, that
    the names are different in QuotaRunSpec.v.) Once they are loaded, a packet that is
    forwarded through one WAN interface is dropped exactly when a counter for its
    direction, or else a counter for both directions, is over its limit and its quota
    blocks. Counted are the counters of its direction once, then those of both directions
    once if it is not dropped: a counter is passed when its list of addresses has the host,
    or, for those without a quota of their own, when no other list has it, and while the
    quota is in force. The bits of the mark that belong to the quality of service and to
    the policy routing are kept, and those of the bandwidth limiter while it is on. *)
Theorem quotas_enforced {x : Extensions} e d pre w post m :
  rules (ipt_quotas e) <> [] ->
  quota_faces e = pre ++ w :: post -> if_match w (wan_of d) = true -> if_match w (lan_of d) = false ->
  Forall (fun x => if_match x in_if = false /\ if_match x out_if = false) (pre ++ post) ->
  let qs := quota_list in
  let ls := lines4 (rules (ipt_quotas e)) in
  (is_Some (restore mangle_chains ls) <-> accepts (concat (map conds_of ls)) = true) /\
  forall t, restore mangle_chains ls = Some t ->
    exists m',
      walk 3 t (default [] (t !! !"FORWARD")) m [] =
        Some (if direction_blocks qs d || combined_blocks qs then Some Drop else None, m',
              direction_counters qs d ++ if direction_blocks qs d then [] else combined_counters qs) /\
      forall i, i < 20 \/ nvram_get_int !"bwl_enable" <> 0 /\ i < 28 -> Z.testbit m' i = Z.testbit m i.
Proof.
  intros Hr Hf Hw Hl Ho qs ls. unfold ls. rewrite (quotas_built e Hr).
  assert (Hok : all_ok qs) by (apply read_quotas_ok; lia).
  destruct (lines_load e (quota_faces e) qs Hok) as (t & Hload & Hm & _ & Hc).
  unfold restore. fold qs. unfold lines in Hload. rewrite Hload. clear Hload. destruct (accepts _); [|by split; [split; [intros []|]|]].
  split; [by split|]. intros t' [= <-].
  destruct (forward_walk e (quota_faces e) qs Hok t d pre w post m Hm Hc Hf Hw Hl Ho) as (m' & Hwalk & Hbits).
  exists m'. split; [exact Hwalk|]. intros i Hi. apply Hbits. unfold foreign, dl_free.
  destruct Hi as [Hi|[Hb Hi]]; [by left|right]. split; [by apply Z.eqb_neq|done].
Qed.

End Generated.

End Packets.

(** ** An example *)

Import QuotaDemo.

(** An iptables that refuses counters with the same name. *)
#[local] Instance no_doubles : Extensions := {| accepts l := bool_decide (NoDup (omap counter (concat l))) |}.

Lemma quotas_enforced_witness : exists t m',
  restore mangle_chains (lines4 (rules (ipt_quotas one_wan))) = Some t /\
  walk 3 t (default [] (t !! !"FORWARD")) 5 [] =
    Some (if direction_blocks quota_list Up || combined_blocks quota_list then Some Drop else None, m',
          direction_counters quota_list Up ++ if direction_blocks quota_list Up then [] else combined_counters quota_list) /\
  forall i, i < 20 \/ nvram_get_int !"bwl_enable" <> 0 /\ i < 28 -> Z.testbit m' i = Z.testbit 5 i.
Proof.
  destruct (quotas_enforced one_wan Up [] !"vlan2" [] 5 demo_rules) as [[_ Hload] Hw].
  - vm_compute. reflexivity.
  - reflexivity.
  - reflexivity.
  - constructor.
  - destruct Hload as [t Ht]; [vm_compute; reflexivity|]. exists t. destruct (Hw t Ht) as (m' & H1 & H2).
    exists m'. split; [exact Ht|]. split; [exact H1|exact H2].
Defined.

(** The packet of the second host passes the counters of the second quota only. *)
Lemma upload_counters :
  direction_counters quota_list Up ++ combined_counters quota_list = [!"quota_2_u"; !"quota_2_c"].
Proof. vm_compute. reflexivity. Qed.

End QuotasSpec.
