(* ===== verification/QuotaRunSpec.v ===== *)
(** What holds around the rules of the quotas (Quotas.v, QuotaRun.v): every counter has a
    name of its own, the saved counters follow the quotas that exist, and every speed
    limit has its traffic class. *)

From Stdlib Require Import ZArith Lia.
From stdpp Require Import base list strings gmap.
From S2P Require Import Prelude Scan Strings Nvram Inet Wan BuildConfig SaveVars Rules RestrictSpec RulesSpec Ndpi FwEnv Firewall.
From S2P Require Import Marks QuotaWindow Quotas QuotasSpec QuotaRun QuotaDemo.

Local Open Scope Z_scope.
Local Open Scope rule_scope.

Module QuotaRunSpec.
Import Scan Strings Nvram Inet Wan BuildConfig SaveVars Rules RulesSpec Ndpi FwEnv Firewall Marks QuotaWindow Quotas QuotasSpec QuotaRun.

(** ** The counters of a rule file *)

Definition line_counters (l : line) : list cstr :=
  match l with Append _ m _ | Insert _ _ m _ => omap counter m | _ => [] end.

Definition file_counters (ls : list line) : list cstr := concat (map line_counters ls).

Lemma file_counters_app a b : file_counters (a ++ b) = file_counters a ++ file_counters b.
Proof. unfold file_counters. by rewrite map_app, concat_app. Qed.

Lemma file_counters_concat {A} (f : A -> list line) l :
  file_counters (concat (map f l)) = concat (map (fun x => file_counters (f x)) l).
Proof. induction l as [|x l IH]; [done|]. cbn [map concat]. by rewrite file_counters_app, IH. Qed.

Section Generated.
Context {nv : Nvram} {cfg : Config} {build : Build} {links : Links} {cal : Calendar}.

Definition ids_of (qs : list quota) : list cstr := concat (map (fun q => map cap_id (caps q)) qs).

Lemma no_counters (ls : list line) : Forall (fun l => line_counters l = []) ls -> file_counters ls = [].
Proof. induction 1 as [|l ls Hl H IH]; [done|]. unfold file_counters in *. cbn [map concat]. by rewrite Hl, IH. Qed.

Lemma inert_counters cs : inert cs -> omap counter cs = [].
Proof. induction 1 as [|c cs [_ Hc] H IH]; [done|]. rewrite omap_cons_eq, Hc. exact IH. Qed.

Lemma omap_app_eq {A B} (f : A -> option B) a b : omap f (a ++ b) = omap f a ++ omap f b.
Proof. apply omap_app. Qed.

Lemma cap_rules_counters q c : id_ok (cap_id c) ->
  file_counters (map (fun r => Append (cap_chain c) r.1 r.2) (cap_rules q c)) = [cap_id c].
Proof.
  intros Hid.
  assert (Hb : omap counter (arg (skip_of q) ++ arg (quota_active_args 512 (active q)) ++ bandwidth_of q c) = [cap_id c]).
  { rewrite !omap_app_eq, (inert_counters _ (active_inert _)).
    assert (Hs : omap counter (arg (skip_of q)) = []) by (unfold skip_of; destruct (q_scope q); reflexivity). rewrite Hs.
    unfold bandwidth_of. edestruct bandwidth_text as [r ->]; [exact Hid|apply active_length|].
    cbn [app]. rewrite omap_cons_eq, counter_text by done. done. }
  unfold cap_rules. cbv zeta. destruct (q_addrs q) as [|a al].
  - unfold file_counters. cbn [map concat line_counters fst snd]. by rewrite Hb.
  - rewrite map_app, file_counters_app.
    assert (Hm : file_counters (map (fun r => Append (cap_chain c) r.1 r.2) (markings (a :: al) (cap_dirs c) QUOTA_MARK_HIT)) = []).
    { apply no_counters, Forall_map, Forall_forall. intros r Hr. unfold markings in Hr.
      apply list_elem_of_In, in_concat in Hr as (rs & Hrs & Hr). apply in_map_iff in Hrs as (x & <- & _).
      apply in_map_iff in Hr as (d & <- & _). cbn [line_counters fst]. apply inert_counters, addr_test_inert. }
    rewrite Hm. unfold file_counters. cbn [map concat line_counters fst snd app]. rewrite omap_app_eq, Hb. reflexivity.
Qed.

Lemma lines4_counters e faces qs : all_ok qs -> file_counters (lines4 (rules (build_quotas e faces qs))) = ids_of qs.
Proof.
  intros Hok. change (lines4 _) with (lines e faces qs). rewrite lines_eq, !file_counters_app.
  assert (Hf : file_counters (frame faces) = []).
  { unfold frame. rewrite !file_counters_app, file_counters_concat.
    replace (concat (map (fun w => file_counters (face_rules w)) faces)) with (@nil cstr); [reflexivity|].
    induction faces as [|w l IH]; [done|]. cbn [map concat]. by rewrite <- IH. }
  assert (Hx : file_counters (concat (map explicit_flags qs)) = []).
  { rewrite file_counters_concat. clear Hok. induction qs as [|q l IH]; [done|]. cbn [map concat]. rewrite IH, app_nil_r.
    unfold explicit_flags. destruct (quota_scope_has_addrs _); [|done]. rewrite file_counters_concat.
    induction (q_addrs q) as [|a al IHa]; [done|]. cbn [map concat]. rewrite IHa, app_nil_r.
    apply no_counters. repeat (apply Forall_cons; split; [cbn [line_counters]; apply inert_counters, addr_test_inert|]). constructor. }
  rewrite Hf, Hx. change (file_counters enforcement) with (@nil cstr). rewrite app_nil_r. cbn [app].
  unfold cap_lines, ids_of. rewrite file_counters_concat. f_equal. apply map_ext_in. intros q Hq.
  rewrite file_counters_concat. assert (Hc := caps_ok q). unfold all_ok in Hok. rewrite Forall_forall in Hok.
  specialize (Hc (Hok q ltac:(by apply list_elem_of_In))). induction Hc as [|c cs Hc Hcs IH]; [done|]. cbn [map concat].
  rewrite cap_rules_counters by apply Hc. cbn [app]. f_equal. apply IH.
Qed.

(** The names of the counters of one quota, and of two. *)
Lemma idbuf_eq q k : quota_ok q -> length (bytes k) = 1%nat -> idbuf q k = !"quota_" ++ q_id q ++ !"_" ++ bytes k.
Proof.
  intros (_ & Hl & _) Hk. unfold idbuf, snprintf. rewrite take_ge; [done|].
  rewrite !length_app, Hk. change (length !"quota_") with 6%nat. change (length !"_") with 1%nat. lia.
Qed.

Lemma cap_id_form q c : quota_ok q -> c ∈ caps q -> exists k, k ∈ ["d"; "u"; "c"]%string /\ cap_id c = !"quota_" ++ q_id q ++ !"_" ++ bytes k.
Proof.
  intros Hq. unfold caps, on. cbv zeta. rewrite !elem_of_app.
  intros [H|[H|H]]; (destruct (negb _); [|by apply elem_of_nil in H]); apply list_elem_of_singleton in H as ->; cbn [cap_id];
    [exists "d"%string|exists "u"%string|exists "c"%string]; (split; [rewrite !elem_of_cons; tauto|by apply idbuf_eq]).
Qed.

Lemma suffix_inj (a b : cstr) (k l : string) : length (bytes k) = length (bytes l) ->
  !"quota_" ++ a ++ !"_" ++ bytes k = !"quota_" ++ b ++ !"_" ++ bytes l -> a = b.
Proof.
  intros Hk E. apply app_inv_head in E. apply app_inj_2 in E as [? _]; [done|]. cbn [length app]. rewrite !length_app. lia.
Qed.

Lemma caps_nodup q : quota_ok q -> NoDup (map cap_id (caps q)).
Proof.
  intros Hq. unfold caps, on. cbv zeta.
  assert (H : forall k l, k <> l -> length (bytes k) = 1%nat -> length (bytes l) = 1%nat -> bytes k <> bytes l -> idbuf q k <> idbuf q l).
  { intros k l _ Hk Hl Hne E. rewrite !idbuf_eq in E by done. apply app_inv_head, app_inv_head, app_inv_head in E. done. }
  assert (H1 : idbuf q "d" <> idbuf q "u") by (by apply H).
  assert (H2 : idbuf q "d" <> idbuf q "c") by (by apply H).
  assert (H3 : idbuf q "u" <> idbuf q "c") by (by apply H).
  repeat case_match; cbn [map app cap_id]; repeat (apply NoDup_cons; split); try apply NoDup_nil_2;
    rewrite ?elem_of_cons, ?elem_of_nil; intuition.
Qed.

Lemma ids_nodup qs : all_ok qs -> NoDup (map q_id qs) -> NoDup (ids_of qs).
Proof.
  intros Hok. induction Hok as [|q qs Hq Hok IH]; intros Hn; [apply NoDup_nil_2|]. cbn [map] in Hn.
  apply NoDup_cons in Hn as [Hnot Hn]. unfold ids_of. cbn [map concat]. apply NoDup_app. split_and!; [by apply caps_nodup| |by apply IH].
  intros id Hid Hid'. apply Hnot. apply list_elem_of_In, in_map_iff in Hid as (c & <- & Hc). apply list_elem_of_In in Hc.
  apply list_elem_of_In, in_concat in Hid' as (l & Hl & Hin). apply in_map_iff in Hl as (q' & <- & Hq').
  apply in_map_iff in Hin as (c' & E & Hc'). apply list_elem_of_In in Hc', Hq'.
  unfold all_ok in Hok. rewrite Forall_forall in Hok. specialize (Hok q' Hq').
  destruct (cap_id_form q c Hq Hc) as (k & Hk & Ek). destruct (cap_id_form q' c' Hok Hc') as (k' & Hk' & Ek').
  rewrite Ek, Ek' in E. apply suffix_inj in E; [rewrite <- E; by apply list_elem_of_In, in_map, list_elem_of_In|].
  rewrite !elem_of_cons, elem_of_nil in Hk, Hk'. by destruct Hk as [->|[->|[->|[]]]], Hk' as [->|[->|[->|[]]]].
Qed.

Lemma lines6_counters e faces qs : all_ok qs -> file_counters (lines6 (rules (build_quotas e faces qs))) `sublist_of` ids_of qs.
Proof.
  intros Hok. unfold build_quotas. cbn [rules]. rewrite !lines6_app, lines6_ipt, !lines6_46.
  assert (Hf : file_counters (if ipv6 e then frame faces else []) = []).
  { destruct (ipv6 e); [|done]. unfold frame. rewrite !file_counters_app, file_counters_concat.
    replace (concat (map (fun w => file_counters (face_rules w)) faces)) with (@nil cstr); [reflexivity|].
    induction faces as [|w l IH]; [done|]. cbn [map concat]. by rewrite <- IH. }
  assert (He : file_counters (if ipv6 e then enforcement else []) = []) by by destruct (ipv6 e).
  rewrite !file_counters_app, Hf, He. cbn [app]. change (file_counters []) with (@nil cstr). cbn [app]. rewrite app_nil_r.
  rewrite lines6_concat, file_counters_concat. unfold ids_of.
  induction Hok as [|q qs Hq Hok IH]; [apply sublist_nil|]. cbn [map concat]. apply sublist_app; [|exact IH].
  rewrite lines6_concat, file_counters_concat. assert (Hc := caps_ok q Hq).
  induction Hc as [|c cs Hc Hcs IHc]; [apply sublist_nil|]. cbn [map concat]. apply (sublist_app _ [cap_id c]); [|exact IHc].
  assert (H := cap_rules_counters q c (proj1 Hc)). rewrite <- (lines4_emit e) in H.
  assert (Hsub : lines6 (emit_cap e q c) = lines4 (emit_cap e q c) \/ lines6 (emit_cap e q c) = []).
  { unfold emit_cap, quota_emit. destruct (q_addrs q); [destruct (cap_subnet c)|].
    - rewrite lines6_46, lines4_46. destruct (ipv6 e); auto.
    - right. apply lines6_ipt.
    - right. apply lines6_ipt. }
  destruct Hsub as [-> | ->]; [by rewrite H|apply sublist_nil_l].
Qed.

Lemma ids_file_eq e faces qs : ids_file (build_quotas e faces qs) = Some (concat (map (fun i => i ++ [10]) (ids_of qs))).
Proof.
  unfold build_quotas, ids_of. cbn [ids_file]. f_equal. induction qs as [|q l IH]; [done|]. cbn [map concat].
  rewrite IH, map_app, concat_app, map_map. done.
Qed.

(** C14: every counter has one rule. When the quotas have numbers of their own, no two
    rules of the file for IPv4, nor of that for IPv6, count under the same name, which
    the match would refuse together with the whole table; and the list of counters that
    is saved and restored names exactly the counters of the rules, in order. *)
Theorem counters_unique e :
  rules (ipt_quotas e) <> [] -> NoDup (map q_id quota_list) ->
  let g := ipt_quotas e in
  NoDup (file_counters (lines4 (rules g))) /\ NoDup (file_counters (lines6 (rules g))) /\
  ids_file g = Some (concat (map (fun i => i ++ [10]) (file_counters (lines4 (rules g))))).
Proof.
  intros Hr Hn g. unfold g. rewrite (quotas_built e Hr).
  assert (Hok : all_ok quota_list) by (apply read_quotas_ok; lia).
  rewrite (lines4_counters e _ _ Hok). assert (Hids := ids_nodup _ Hok Hn). split_and!; [done| |apply ids_file_eq].
  eapply sublist_NoDup; [exact Hids|by apply lines6_counters].
Qed.

(** ** The saved counters *)

Definition line_safe (i : cstr) : Prop := (length i <= 77)%nat /\ Forall (fun c => c <> 0 /\ c <> 10 /\ c <> 13) i /\
  match i with [] => False | c :: _ => is_blank c = false /\ c <> 35 end.

Lemma fgets_line size i : forall room cur rest,
  (length i + 2 <= room)%nat -> Forall (fun c => c <> 0 /\ c <> 10 /\ c <> 13) i -> Forall (fun c => c <> 0) cur ->
  fgets_all size room cur (i ++ 10 :: rest) = (List.rev cur ++ i ++ [10]) :: fgets_all size size [] rest.
Proof.
  induction i as [|c i IH]; intros room cur rest Hr Hi Hc; cbn [length] in Hr;
    (destruct room as [|[|room]]; [lia|lia|]).
  - cbn [app fgets_all]. change (10 =? 10) with true. cbv iota. cbn [List.rev app]. f_equal. apply until_nul_all.
    apply Forall_app_2; [by apply Forall_rev|by repeat constructor].
  - apply Forall_cons in Hi as [(H0 & H10 & _) Hi]. cbn [app fgets_all]. rewrite (proj2 (Z.eqb_neq _ _) H10).
    rewrite IH; [|lia|done|by constructor]. cbn [List.rev]. by rewrite <- !app_assoc.
Qed.

Lemma id_line_back i : line_safe i -> id_line (i ++ [10]) = i.
Proof.
  intros (_ & Hc & Hf). unfold id_line. destruct i as [|c i]; [done|]. destruct Hf as [Hb _]. cbn [app skip_while]. rewrite Hb.
  apply (take_until_app _ (c :: i)); [|done]. eapply Forall_impl; [exact Hc|]. intros x (_ & H1 & H2). propify.
  apply orb_false_iff. split; by apply Z.eqb_neq.
Qed.

Lemma live_iff ids n : Forall line_safe ids ->
  quota_id_is_live (Some (concat (map (fun i => i ++ [10]) ids))) n = bool_decide (n ∈ ids).
Proof.
  intros Hs. unfold quota_id_is_live. induction Hs as [|i ids (Hl & Hc & Hf) Hs IH].
  { cbn. symmetry. apply bool_decide_eq_false. apply not_elem_of_nil. }
  cbn [map concat]. rewrite <- (app_assoc i). cbn [app]. rewrite fgets_line by (try done; lia). cbn [List.rev app existsb]. rewrite IH.
  rewrite id_line_back by done. destruct i as [|c i]; [done|]. destruct Hf as [_ H35]. apply Forall_cons in Hc as [[H0 _] _].
  cbn [char_at nth]. rewrite (proj2 (Z.eqb_neq _ _) H0). change (chr "#") with 35. rewrite (proj2 (Z.eqb_neq _ _) H35).
  cbn [negb andb]. unfold strcmp_eq. apply Bool.eq_true_iff_eq. rewrite orb_true_iff, !bool_decide_eq_true, elem_of_cons.
  intuition.
Qed.

Definition digits_only (i : cstr) : Prop := Forall (fun c => 48 <= c <= 57) i.

Lemma ids_safe qs : all_ok qs -> Forall (fun q => digits_only (q_id q)) qs -> Forall line_safe (ids_of qs).
Proof.
  intros Hok Hd. apply Forall_forall. intros i Hi. unfold ids_of in Hi.
  apply list_elem_of_In, in_concat in Hi as (l & Hl & Hi). apply in_map_iff in Hl as (q & <- & Hq).
  apply in_map_iff in Hi as (c & <- & Hc). apply list_elem_of_In in Hc, Hq.
  unfold all_ok in Hok. rewrite Forall_forall in Hok, Hd. specialize (Hok q Hq). specialize (Hd q Hq).
  destruct (cap_id_form q c Hok Hc) as (k & Hk & ->). rewrite !elem_of_cons, elem_of_nil in Hk.
  assert (Hkk : (length (bytes k) = 1)%nat /\ Forall (fun c => c <> 0 /\ c <> 10 /\ c <> 13) (bytes k))
    by (destruct Hk as [->|[->|[->|[]]]]; (split; [done|repeat constructor; discriminate])).
  split; [|split].
  - rewrite !length_app, (proj1 Hkk). change (length !"quota_") with 6%nat. change (length !"_") with 1%nat.
    destruct Hok as (_ & Hl & _). lia.
  - rewrite !Forall_app. split_and!; [repeat constructor; discriminate| |repeat constructor; discriminate|apply Hkk].
    eapply Forall_impl; [exact Hd|]. intros x. cbn beta. lia.
  - cbn. split; [done|discriminate].
Qed.

Lemma quota_of_digits fs idx q : 1 <= idx -> quota_of fs idx = Some q -> digits_only (q_id q).
Proof.
  intros Hi. unfold quota_of. cbv zeta. destruct (_ && bool_decide _); [done|]. intros [= <-]. cbn [q_id]. unfold id_of, digits_only.
  assert (Hdig : forall l, Forall (fun c => isdigit c = true) l -> Forall (fun c => 48 <= c <= 57) l).
  { intros l Hl. eapply Forall_impl; [exact Hl|]. intros c. cbn beta. unfold isdigit. intros H. propify. lia. }
  destruct (_ && forallb isdigit _) eqn:E.
  - apply andb_true_iff in E as [_ E]. apply Forall_take, Hdig, Forall_forall. intros c Hc.
    rewrite forallb_forall in E. apply E. by apply list_elem_of_In.
  - apply Forall_take, Hdig. unfold print_d. rewrite (proj2 (Z.ltb_ge idx 0)) by lia. apply print_u_digits.
Qed.

Lemma read_quotas_digits ps : forall idx, 0 <= idx -> Forall (fun q => digits_only (q_id q)) (read_quotas idx ps).
Proof.
  induction ps as [|p ps IH]; intros idx Hi; cbn [read_quotas]; [constructor|]. cbv zeta.
  destruct (accepted _); [|by apply IH]. destruct (quota_of _ (idx + 1)) as [q|] eqn:E; [|apply IH; lia].
  constructor; [eapply quota_of_digits; [|exact E]; lia|apply IH; lia].
Qed.

Lemma shaping_keeps d : let d' := (start_quota_shaping d).1 in ids d' = ids d /\ usage d' = usage d.
Proof.
  unfold start_quota_shaping. case_if; [done|]. destruct (quota_read_bands _ _); [done|]. by case_if.
Qed.

Lemma rules_nothing e : rules (ipt_quotas e) = [] -> ipt_quotas e = nothing.
Proof. unfold ipt_quotas. repeat case_if; try done. by destruct (quota_faces e). Qed.

(** C34: the saved counters follow the quotas. After a restart of the firewall, exactly
    those files of the directory are gone that are named like a counter of a quota but
    are none of the counters for which rules were written; when no rules were written
    (the clock is not set, no WAN is up, the list is empty) nothing is deleted. *)
Theorem usage_follows_quotas {calls : TzCalls} e d n :
  let g := ipt_quotas e in
  let d' := (start_quotas (with_generated g d)).1 in
  n ∈ usage d' <->
    n ∈ usage d /\ (rules g <> [] -> usage_name n = true -> n ∈ file_counters (lines4 (rules g))).
Proof.
  intros g d'. destruct (decide (rules g = [])) as [Hr|Hr].
  - assert (Hd : usage d' = usage d).
    { unfold d', start_quotas. repeat case_if; try done. assert (Hk := shaping_keeps (with_generated g d)).
      destruct (start_quota_shaping _) as [d1 started]. cbn [fst] in *. destruct Hk as [Hi Hu].
      rewrite Hi. unfold g. rewrite (rules_nothing e Hr). cbn. exact Hu. }
    rewrite Hd. split; [intros H; by split|by intros [H _]].
  - assert (Hg := quotas_built e Hr). fold g in Hg.
    assert (Hok : all_ok quota_list) by (apply read_quotas_ok; lia).
    assert (Hd : usage d' = usage (quota_prune_backups (with_generated g d))).
    { unfold d', start_quotas.
      assert (Hon : has "TCONFIG_QUOTAS" = true /\ (nvram_get_int !"quota_enable" =? 0) = false).
      { revert Hr. unfold g, ipt_quotas. destruct (has "TCONFIG_QUOTAS"); [|done]. by destruct (_ =? 0). }
      destruct Hon as [-> ->]. cbn [negb]. assert (Hk := shaping_keeps (with_generated g d)).
      destruct (start_quota_shaping _) as [d1 started]. cbn [fst] in *. destruct Hk as [Hi Hu].
      assert (Hids : exists x, ids (with_generated g d) = Some x) by (rewrite Hg; cbn; eexists; reflexivity).
      destruct Hids as [x Hx]. unfold quota_prune_backups. rewrite Hi, Hx. cbn [usage fst]. by rewrite Hu. }
    rewrite Hd. unfold quota_prune_backups. cbn [usage]. rewrite list_elem_of_In, filter_In, <- list_elem_of_In.
    unfold with_generated. cbn [ids usage]. rewrite Hg, ids_file_eq, lines4_counters by done.
    rewrite live_iff by (apply ids_safe; [done|apply read_quotas_digits; lia]).
    assert (Hne : rules (build_quotas e (quota_faces e) quota_list) <> []) by (rewrite <- Hg; exact Hr).
    destruct (usage_name n); cbn [andb negb].
    + rewrite negb_involutive, bool_decide_eq_true. split; [intros [H1 H2]; by split|]. intros [H1 H2]. split; [done|by apply H2].
    + split; [intros [H1 _]; by split|by intros [H1 _]].
Qed.

(** ** The traffic classes *)

Definition band_of (q : quota) : option quota_band :=
  if negb (shape_dl q =? 0) || negb (shape_ul q =? 0)
  then Some {| b_idx := q_idx q; b_dl := shape_dl q; b_ul := shape_ul q |} else None.

Lemma atoi_int v : atoi v < 2 ^ 31.
Proof. unfold atoi. destruct (scan_numeral v) as [[[neg d] rest]|]; [apply s32_range|done]. Qed.

Lemma bands_bound q : over_dl_band q = true \/ over_ul_band q = true -> q_idx q <= 255.
Proof.
  unfold over_dl_band, over_ul_band, QUOTA_MARK_BAND_MAX. intros [H|H]; repeat (apply andb_true_iff in H as [H ?]); by propify.
Qed.

Lemma shape_range q : 0 <= shape_dl q < 2 ^ 31 /\ 0 <= shape_ul q < 2 ^ 31 /\ (band_of q <> None -> q_idx q <= 255).
Proof.
  assert (Hpos : (over_dl_band q = true -> 0 < atoi (tdl q)) /\ (over_ul_band q = true -> 0 < atoi (tul q))).
  { unfold over_dl_band, over_ul_band. split; intros H; repeat (apply andb_true_iff in H as [H ?]); by propify. }
  assert (Hd := atoi_int (tdl q)). assert (Hu := atoi_int (tul q)). unfold band_of, shape_dl, shape_ul, comb_band.
  assert (Hb := bands_bound q). destruct (over_dl_band q), (over_ul_band q); rewrite ?andb_true_r, ?andb_false_r, ?orb_false_r;
    destruct Hpos as [H1 H2]; try specialize (H1 eq_refl); try specialize (H2 eq_refl);
    repeat case_if; split_and!; try lia; intros Hn; try (apply Hb; auto); done.
Qed.

Lemma band_number_read sp n rest :
  Forall (fun c => isspace c = true) sp -> 0 <= n < 2 ^ 31 -> ends_numeral rest -> scan_d (sp ++ print_d n ++ rest) = Some (n, rest).
Proof.
  intros Hs Hn Hr. unfold print_d. rewrite (proj2 (Z.ltb_ge n 0)) by lia. unfold scan_d. rewrite scan_numeral_print by done.
  rewrite print_u_value by lia. rewrite s32_id by lia. done.
Qed.

Lemma read_bands_text qs : forall fuel max sp,
  Forall (fun q => 1 <= q_idx q) qs -> Forall (fun c => isspace c = true) sp ->
  (length (omap band_of qs) < fuel)%nat -> (length (omap band_of qs) <= max)%nat ->
  read_bands fuel max (sp ++ concat (map shape_line qs)) = omap band_of qs.
Proof.
  induction qs as [|q qs IH]; intros fuel max sp Hq Hsp Hf Hm.
  { cbn [map concat omap list_omap]. rewrite app_nil_r. destruct fuel as [|fuel]; [done|]. destruct max as [|max]; [done|].
    cbn [read_bands]. unfold scan_d, scan_numeral.
    replace (skip_while isspace sp) with (@nil Z); [done|]. rewrite <- (app_nil_r sp), skip_while_all; done. }
  apply Forall_cons in Hq as [Hi Hq]. cbn [map concat]. rewrite omap_cons_eq in *. assert (Hr := shape_range q).
  unfold shape_line, band_of in *. destruct (negb (shape_dl q =? 0) || negb (shape_ul q =? 0)); [|by apply IH].
  cbn [length] in Hf, Hm. destruct fuel as [|fuel]; [lia|]. destruct max as [|max]; [lia|]. destruct Hr as (Hd & Hu & Hx).
  specialize (Hx ltac:(done)).
  assert (Hblank : forall n rest, 0 <= n < 2 ^ 31 -> ends_numeral rest -> scan_d (32 :: print_d n ++ rest) = Some (n, rest))
    by (intros n rest Hn Hrest; apply (band_number_read [32]); [by repeat constructor|done..]).
  cbn [read_bands]. rewrite <- (app_assoc (print_d (q_idx q))). cbn [app]. rewrite band_number_read by (done || lia).
  rewrite <- (app_assoc (print_d (shape_dl q))). cbn [app].
  rewrite Hblank by done.
  rewrite <- (app_assoc (print_d (shape_ul q))). cbn [app].
  rewrite Hblank by done.
  rewrite (proj2 (Z.ltb_ge (q_idx q) 1)), (proj2 (Z.ltb_ge QUOTA_MARK_BAND_MAX (q_idx q))) by (unfold QUOTA_MARK_BAND_MAX; lia).
  cbn [orb]. f_equal. apply (IH fuel max [10]); [done|by repeat constructor|lia..].
Qed.

Lemma read_quotas_idx ps : forall idx, 0 <= idx ->
  Forall (fun q => idx < q_idx q) (read_quotas idx ps) /\ NoDup (map q_idx (read_quotas idx ps)).
Proof.
  induction ps as [|p ps IH]; intros idx Hi; cbn [read_quotas]; [split; [constructor|apply NoDup_nil_2]|]. cbv zeta.
  destruct (accepted _); [|by apply IH]. destruct (IH (idx + 1) ltac:(lia)) as [H1 H2].
  assert (H1' : Forall (fun q => idx < q_idx q) (read_quotas (idx + 1) ps)) by (eapply Forall_impl; [exact H1|]; cbn beta; lia).
  destruct (quota_of _ (idx + 1)) as [q|] eqn:E; [|by split].
  assert (Hq : q_idx q = idx + 1).
  { revert E. unfold quota_of. cbv zeta. destruct (_ && bool_decide _); [done|]. by intros [= <-]. }
  split; [constructor; [lia|done]|]. cbn [map]. apply NoDup_cons. split; [|done]. intros Hin.
  apply list_elem_of_In, in_map_iff in Hin as (q' & E' & Hin). rewrite Forall_forall in H1.
  specialize (H1 q' ltac:(by apply list_elem_of_In)). lia.
Qed.

Lemma bands_few ps : (length (omap band_of (read_quotas 0 ps)) <= 255)%nat.
Proof.
  destruct (read_quotas_idx ps 0 ltac:(lia)) as [Hp Hn]. set (qs := read_quotas 0 ps) in *.
  assert (Hlen : length (omap band_of qs) = length (map (fun b => Z.to_nat (b_idx b)) (omap band_of qs))) by by rewrite length_map.
  rewrite Hlen. change 255%nat with (length (seq 1 255)). apply NoDup_incl_length.
  - clear Hlen. induction qs as [|q l IH]; [constructor|]. cbn [map] in Hn. apply NoDup_cons in Hn as [Hnot Hn].
    apply Forall_cons in Hp as [Hq Hp]. rewrite omap_cons_eq. unfold band_of at 1.
    destruct (negb (shape_dl q =? 0) || negb (shape_ul q =? 0)); [|by apply IH]. cbn [map b_idx]. constructor; [|by apply IH].
    intros Hin. apply in_map_iff in Hin as (b & E & Hb). apply list_elem_of_In, list_elem_of_omap in Hb as (q' & Hq' & Hb).
    unfold band_of in Hb. destruct (_ || _); [|done]. injection Hb as <-. cbn [b_idx] in E. apply Hnot.
    rewrite Forall_forall in Hp. specialize (Hp q' Hq'). assert (q_idx q = q_idx q') as -> by lia.
    by apply list_elem_of_In, in_map, list_elem_of_In.
  - intros k Hk. apply in_map_iff in Hk as (b & <- & Hb). apply list_elem_of_In, list_elem_of_omap in Hb as (q & Hq & Hb).
    destruct (shape_range q) as (_ & _ & Hx). rewrite Hb in Hx. specialize (Hx ltac:(done)).
    unfold band_of in Hb. destruct (_ || _); [|done]. injection Hb as <-. cbn [b_idx]. rewrite Forall_forall in Hp.
    specialize (Hp q Hq). apply in_seq. lia.
Qed.

(** A counter that limits has its speeds in the file. *)
Lemma cap_band_shape q c : c ∈ caps q -> cap_band c = true ->
  (dst ∈ cap_dirs c -> shape_dl q = atoi (tdl q) /\ 0 < shape_dl q /\ dl_free = true) /\
  (src ∈ cap_dirs c -> shape_ul q = atoi (tul q) /\ 0 < shape_ul q /\ ul_free = true).
Proof.
  assert (Hdl : over_dl_band q = true -> 0 < atoi (tdl q) /\ dl_free = true).
  { unfold over_dl_band. intros H. repeat (apply andb_true_iff in H as [H ?]); by propify. }
  assert (Hul : over_ul_band q = true -> 0 < atoi (tul q) /\ ul_free = true).
  { unfold over_ul_band. intros H. repeat (apply andb_true_iff in H as [H ?]); by propify. }
  unfold caps, on, shape_dl, shape_ul, comb_band. cbv zeta. rewrite !elem_of_app.
  intros [H|[H|H]] Hb; (destruct (char_at _ 0 =? 0) eqn:E in H; cbn [negb] in H; [by apply elem_of_nil in H|]);
    apply list_elem_of_singleton in H as ->; cbn [cap_band cap_dirs] in *; rewrite E; cbn [negb andb].
  - destruct (Hdl Hb). rewrite Hb. cbn [andb orb]. split; [done|]. intros Hx. by apply list_elem_of_singleton in Hx.
  - destruct (Hul Hb). rewrite Hb. cbn [andb orb]. split; [|done]. intros Hx. by apply list_elem_of_singleton in Hx.
  - apply andb_true_iff in Hb as [H1 H2]. destruct (Hdl H1), (Hul H2). rewrite H1, H2. cbn [andb]. by rewrite !orb_true_r.
Qed.

Lemma class_in {A} (f : A -> list cstr) l x y : x ∈ l -> y ∈ f x -> y ∈ concat (map f l).
Proof. intros Hx Hy. apply list_elem_of_In, in_concat. exists (f x). split; [by apply in_map, list_elem_of_In|by apply list_elem_of_In]. Qed.

(** What the script has for a band. *)
Lemma script_classes bands brs up w b : b ∈ bands ->
  let ls := shaping_lines bands brs up w in
  (0 < b_dl b -> forall br, br ∈ brs -> forall l, l ∈ class_of br (b_idx b) (b_dl b) -> l ∈ ls) /\
  (0 < b_ul b -> ul_free = true -> w <> [] -> char_at w 0 <> 0 -> forall l, l ∈ class_of w (b_idx b) (b_ul b) -> l ∈ ls).
Proof.
  intros Hb ls. unfold ls, shaping_lines. cbv zeta. split.
  - intros Hd br Hbr l Hl. rewrite !elem_of_app. do 3 right. left. eapply class_in; [exact Hb|].
    rewrite (proj2 (Z.ltb_lt 0 _) Hd). unfold on. rewrite elem_of_app. left. by eapply class_in.
  - intros Hu Hfree Hw Hc l Hl. rewrite !elem_of_app. do 3 right. left. eapply class_in; [exact Hb|].
    rewrite (proj2 (Z.ltb_lt 0 _) Hu), Hfree, (proj2 (Z.eqb_neq _ _) Hc). unfold on. cbn [negb andb]. rewrite elem_of_app. right.
    eapply class_in; [by left|done].
Qed.

(** C15: a speed limit is never a free pass. When a counter of a quota marks what is over
    its limit with the band of the quota instead of blocking it, the script that is run
    after the rules are loaded has a class for this band, with the speed of the quota and
    a filter for exactly this mark: for a download on every bridge that has an address,
    for an upload on the interface of the first WAN. *)
Theorem limits_have_classes {calls : TzCalls} e d q c :
  rules (ipt_quotas e) <> [] -> q ∈ quota_list -> c ∈ caps q -> cap_band c = true ->
  let d' := (start_quotas (with_generated (ipt_quotas e) d)).1 in
  let waniface := nvram_safe_get !"wan_iface" in
  decision q c = (Z.shiftl (q_idx q) 20, Z.shiftl 255 20) /\
  (dst ∈ cap_dirs c -> 0 < atoi (tdl q) /\ forall br, br ∈ download_bridges -> exists ls, script d' = Some ls /\
     band_class br (q_idx q) (atoi (tdl q)) ∈ ls /\ band_filter br (q_idx q) ∈ ls) /\
  (src ∈ cap_dirs c -> 0 < atoi (tul q) /\ (char_at waniface 0 <> 0 -> exists ls, script d' = Some ls /\
     band_class waniface (q_idx q) (atoi (tul q)) ∈ ls /\ band_filter waniface (q_idx q) ∈ ls)).
Proof.
  intros Hr Hq Hc Hb d' w. split; [unfold decision; by rewrite Hb|].
  destruct (cap_band_shape q c Hc Hb) as [Hdl Hul]. assert (Hg := quotas_built e Hr).
  assert (Hon : has "TCONFIG_QUOTAS" = true /\ (nvram_get_int !"quota_enable" =? 0) = false).
  { revert Hr. unfold ipt_quotas. destruct (has "TCONFIG_QUOTAS"); [|done]. by destruct (_ =? 0). }
  set (bands := omap band_of quota_list).
  assert (Hbands : quota_read_bands (shaping (no_script (with_generated (ipt_quotas e) d))) 256 = bands).
  { rewrite Hg. cbn [no_script with_generated shaping shape_file build_quotas quota_read_bands].
    apply (read_bands_text quota_list _ _ []); [|done| |].
    - destruct (read_quotas_idx (strsep (chr ">") (nvram_safe_get !"quota_rules")) 0 ltac:(lia)) as [H _].
      eapply Forall_impl; [exact H|]. cbn beta. lia.
    - assert (H : forall qs, (length (omap band_of qs) <= length (concat (map shape_line qs)))%nat); [|specialize (H quota_list); lia].
      induction qs as [|x l IH]; [done|]. cbn [map concat]. rewrite omap_cons_eq, length_app. unfold band_of at 1, shape_line at 1.
      destruct (negb (shape_dl x =? 0) || negb (shape_ul x =? 0)); [|done]. cbn [length]. rewrite !length_app. cbn [length]. lia.
    - unfold quota_list. assert (H := bands_few (strsep (chr ">") (nvram_safe_get !"quota_rules"))). lia. }
  assert (Hin : shape_dl q <> 0 \/ shape_ul q <> 0 -> {| b_idx := q_idx q; b_dl := shape_dl q; b_ul := shape_ul q |} ∈ bands).
  { intros Hne. apply list_elem_of_omap. exists q. split; [done|]. unfold band_of.
    destruct (Z.eqb_spec (shape_dl q) 0), (Z.eqb_spec (shape_ul q) 0); cbn [negb orb]; try done. lia. }
  set (brs := on (dl_free && has_dl bands) download_bridges). set (up := ul_free && has_ul bands).
  assert (Hscript : bands <> [] -> brs <> [] \/ up = true -> script d' = Some (shaping_lines bands brs up w)).
  { intros Hne Hor. unfold d', start_quotas. destruct Hon as [-> Hen]. rewrite Hen. cbn [negb].
    unfold start_quota_shaping. rewrite Hen, Hbands. fold brs up. destruct bands as [|b0 bs]; [done|].
    assert (E : bool_decide (brs = []) && negb up = false).
    { destruct Hor as [H| ->]; [by rewrite bool_decide_eq_false_2|apply andb_false_r]. }
    rewrite E. cbn [ids]. destruct (ids (no_script _)); done. }
  split.
  - intros Hd. destruct (Hdl Hd) as (E & Hpos & Hfree). rewrite <- E. split; [done|]. intros br Hbr.
    specialize (Hin ltac:(lia)). assert (Hne : bands <> []) by (intros H; rewrite H in Hin; by apply elem_of_nil in Hin).
    assert (Hhas : has_dl bands = true).
    { apply existsb_exists. eexists. split; [by apply list_elem_of_In|]. cbn [b_dl]. by apply Z.ltb_lt. }
    assert (Hbrs : brs = download_bridges) by (unfold brs; by rewrite Hfree, Hhas).
    exists (shaping_lines bands brs up w). split; [apply Hscript; [done|left; rewrite Hbrs; intros H; rewrite H in Hbr; by apply elem_of_nil in Hbr]|].
    destruct (script_classes bands brs up w _ Hin) as [H _]. cbn [b_dl b_idx] in H.
    split; (apply (H Hpos br); [by rewrite Hbrs|unfold class_of; rewrite !elem_of_cons; tauto]).
  - intros Hs. destruct (Hul Hs) as (E & Hpos & Hfree). rewrite <- E. split; [done|]. intros Hw.
    specialize (Hin ltac:(lia)). assert (Hne : bands <> []) by (intros H; rewrite H in Hin; by apply elem_of_nil in Hin).
    assert (Hhas : has_ul bands = true).
    { apply existsb_exists. eexists. split; [by apply list_elem_of_In|]. cbn [b_ul]. by apply Z.ltb_lt. }
    exists (shaping_lines bands brs up w). split; [apply Hscript; [done|right; unfold up; by rewrite Hfree, Hhas]|].
    destruct (script_classes bands brs up w _ Hin) as [_ H]. cbn [b_ul b_idx] in H.
    assert (Hwn : w <> []) by (intros H'; by rewrite H' in Hw).
    split; apply (H Hpos Hfree Hwn Hw); unfold class_of; rewrite !elem_of_cons; tauto.
Qed.

End Generated.

(** ** An example *)

Import QuotaDemo.

Lemma counters_unique_witness :
  NoDup (map q_id quota_list) /\ NoDup (file_counters (lines4 (rules (ipt_quotas one_wan)))).
Proof.
  assert (H : NoDup (map q_id quota_list)) by (apply (bool_decide_unpack _); vm_compute; exact I).
  split; [exact H|]. exact (proj1 (counters_unique one_wan demo_rules H)).
Defined.

(** The quota that limits, and its counter of uploads. *)
Definition limiting : quota := List.last quota_list
  {| q_idx := 0; q_id := []; q_scope := QUOTA_SCOPE_ALL; q_addrs := []; dlimit := []; ulimit := []; climit := [];
     reset := []; rday := []; rhour := []; active := []; q_action := []; tdl := []; tul := [] |}.

Definition upload_cap : cap := nth 1 (caps limiting)
  {| cap_id := []; cap_limit := []; cap_chain := []; cap_dirs := []; cap_band := false; cap_type := []; cap_subnet := [] |}.

Lemma limits_have_classes_witness :
  decision limiting upload_cap = (Z.shiftl 2 20, Z.shiftl 255 20) /\ cap_dirs upload_cap = [src] /\
  exists ls, script (start_quotas (with_generated (ipt_quotas one_wan)
                                     {| ids := None; shaping := None; script := None; usage := [] |})).1 = Some ls /\
    band_class !"vlan2" 2 1000 ∈ ls /\ band_filter !"vlan2" 2 ∈ ls.
Proof.
  destruct (limits_have_classes one_wan {| ids := None; shaping := None; script := None; usage := [] |} limiting upload_cap
              demo_rules) as (Hd & _ & Hu).
  - vm_compute. right. by left.
  - vm_compute. right. by left.
  - vm_compute. reflexivity.
  - split; [exact Hd|]. split; [vm_compute; reflexivity|]. apply Hu; [vm_compute; by left|vm_compute; discriminate].
Defined.

End QuotaRunSpec.
