(* ===== verification/QuotaLanSpec.v ===== *)
(** The network by which the quotas recognise the hosts of the LAN ([quota_lan_subnet] in
    Quotas.v) is the smallest one that has the networks of all bridges. *)

From Stdlib Require Import ZArith Lia.
From stdpp Require Import base list strings.
From S2P Require Import Prelude Scan Nvram Inet BuildConfig SaveVars Rules RestrictSpec FwEnv Firewall QuotaWindow Quotas QuotaDemo.

Local Open Scope Z_scope.
Local Open Scope rule_scope.

Module QuotaLanSpec.
Import Nvram Inet BuildConfig SaveVars Rules FwEnv Firewall Quotas.

(** A mask that leaves [k] bits for the hosts. *)
Definition netmask (k : Z) : Z := 2 ^ 32 - 2 ^ k.

Lemma netmask_bit k i : 0 <= k <= 32 -> 0 <= i -> Z.testbit (netmask k) i = (k <=? i) && (i <? 32).
Proof.
  intros Hk Hi. unfold netmask.
  replace (2 ^ 32 - 2 ^ k) with (Z.shiftl (Z.ones (32 - k)) k).
  2: { rewrite Z.shiftl_mul_pow2, Z.ones_equiv by lia. rewrite <- Z.sub_1_r, Z.mul_sub_distr_r, <- Z.pow_add_r by lia.
       replace (32 - k + k) with 32 by lia. lia. }
  rewrite Z.shiftl_spec by lia. destruct (Z.leb_spec k i) as [Hki|Hki].
  - destruct (Z.ltb_spec i 32) as [H32|H32]; cbn [andb].
    + apply Z.ones_spec_low. lia.
    + apply Z.ones_spec_high. lia.
  - cbn [andb]. apply Z.testbit_neg_r. lia.
Qed.

Lemma netmask_land j k : 0 <= j <= 32 -> 0 <= k <= 32 -> Z.land (netmask j) (netmask k) = netmask (Z.max j k).
Proof.
  intros Hj Hk. apply Z.bits_inj'. intros i Hi. rewrite Z.land_spec, !netmask_bit by lia.
  destruct (Z.leb_spec j i), (Z.leb_spec k i), (Z.leb_spec (Z.max j k) i), (Z.ltb_spec i 32); try done; lia.
Qed.

Lemma netmask_shift k : 0 <= k < 32 -> u32 (Z.shiftl (netmask k) 1) = netmask (k + 1).
Proof.
  intros Hk. unfold u32. rewrite <- Z.land_ones by lia. apply Z.bits_inj'. intros i Hi.
  rewrite Z.land_spec, netmask_bit by lia. destruct (Z.ltb_spec i 1) as [H1|H1].
  - rewrite Z.shiftl_spec_low by lia. rewrite (proj2 (Z.leb_gt (k + 1) i)) by lia. done.
  - rewrite Z.shiftl_spec, netmask_bit by lia. destruct (Z.ltb_spec i 32).
    + rewrite Z.ones_spec_low by lia. rewrite andb_true_r.
      destruct (Z.leb_spec k (i - 1)), (Z.leb_spec (k + 1) i), (Z.ltb_spec (i - 1) 32); try done; lia.
    + rewrite Z.ones_spec_high by lia. by rewrite !andb_false_r.
Qed.

Lemma netmask_32 : netmask 32 = 0.
Proof. reflexivity. Qed.

(** [widen] finds the longest mask on which the networks agree. *)
Lemma widen_spec differ fuel k : 0 <= k <= 32 -> (32 - k < Z.of_nat fuel) ->
  exists k', k <= k' <= 32 /\ widen fuel differ (netmask k) = netmask k' /\ Z.land differ (netmask k') = 0 /\
    forall j, k <= j < k' -> Z.land differ (netmask j) <> 0.
Proof.
  revert k. induction fuel as [|fuel IH]; intros k Hk Hf; [lia|]. cbn [widen].
  destruct (Z.eqb_spec (Z.land differ (netmask k)) 0) as [E|E]; [exists k; split_and!; try done; lia|].
  assert (k <> 32) by (intros ->; by rewrite netmask_32, Z.land_0_r in E).
  rewrite netmask_shift by lia. destruct (IH (k + 1)) as (k' & H1 & H2 & H3 & H4); [lia..|].
  exists k'. split_and!; try done; try lia. intros j Hj. destruct (Z.eq_dec j k) as [->|Hne]; [done|apply H4; lia].
Qed.

Lemma mask_bits_netmask k : 0 <= k <= 32 -> quota_mask_bits (netmask k) = 32 - k.
Proof.
  intros Hk. unfold quota_mask_bits.
  assert (H : forall fuel k, 0 <= k <= 32 -> 32 - k < Z.of_nat fuel -> mask_bits fuel (netmask k) = 32 - k).
  { induction fuel as [|fuel IH]; intros j Hj Hf; [lia|]. cbn [mask_bits]. rewrite netmask_bit by lia.
    destruct (Z.leb_spec j 31); cbn [andb].
    - change (31 <? 32) with true. cbv iota. rewrite netmask_shift, IH by lia. lia.
    - replace j with 32 by lia. done. }
  apply H; lia.
Qed.

(** ** All networks *)

Definition agrees (n m net mask : Z) : Prop := Z.land net m = n /\ Z.land mask m = m.

(** A network, given by the bits for its hosts. *)
Definition network (p : Z * Z) : Prop := exists k, 0 <= k <= 32 /\ p.2 = netmask k /\ Z.land p.1 p.2 = p.1.

(** The result so far: it has all networks, and no smaller one has. *)
Definition covers (acc : option (Z * Z)) (nets : list (Z * Z)) : Prop :=
  match acc with
  | None => nets = []
  | Some (n, m) =>
      nets <> [] /\ exists k, 0 <= k <= 32 /\ m = netmask k /\
        (forall p, p ∈ nets -> agrees n m p.1 p.2) /\
        forall j n', 0 <= j <= 32 -> (forall p, p ∈ nets -> agrees n' (netmask j) p.1 p.2) -> k <= j
  end.

Lemma add_network_covers acc nets p :
  network p -> covers acc nets -> covers (add_network acc p.1 p.2) (nets ++ [p]).
Proof.
  intros (kp & Hkp & Hm & Hn) Hc. unfold add_network. destruct acc as [[n m]|]; cbn [covers] in *.
  - destruct Hc as (Hne & k & Hk & -> & Hall & Hmin). rewrite Hm, netmask_land by done.
    destruct (widen_spec (Z.lxor n p.1) 33 (Z.max kp k)) as (k' & Hk' & -> & Hz & Hlow); [lia..|].
    split; [by destruct nets|]. exists k'. split; [lia|]. split; [done|]. split.
    + assert (Hsub : forall j, 0 <= j <= 32 -> j <= k' -> Z.land (netmask j) (netmask k') = netmask k').
      { intros j Hj Hle. rewrite netmask_land by lia. f_equal. lia. }
      intros q. rewrite elem_of_app, list_elem_of_singleton. intros [Hq| ->]; unfold agrees.
      * destruct (Hall q Hq) as [H1 H2]. rewrite <- (Hsub k) at 1 3 by lia. rewrite !Z.land_assoc, H1, H2. split; [done|by apply Hsub; lia].
      * rewrite Hm. split; [|by apply Hsub; lia]. apply Z.bits_inj'. intros i Hi.
        apply (f_equal (fun x => Z.testbit x i)) in Hz. rewrite !Z.land_spec, Z.lxor_spec, Z.bits_0 in *.
        destruct (Z.testbit n i), (Z.testbit p.1 i), (Z.testbit (netmask k') i); done.
    + intros j n' Hj Hag.
      assert (Hkj : k <= j) by (apply (Hmin j n'); [done|intros q Hq; apply Hag, elem_of_app; by left]).
      assert (Hp : agrees n' (netmask j) p.1 p.2) by (apply Hag, elem_of_app; right; by left).
      assert (Hpj : kp <= j).
      { destruct Hp as [_ H]. rewrite Hm, netmask_land in H by lia. unfold netmask in H.
        assert (E : 2 ^ Z.max kp j = 2 ^ j) by lia. apply Z.pow_inj_r in E; lia. }
      destruct (Z.le_gt_cases k' j) as [?|Hlt]; [done|]. exfalso. apply (Hlow j); [lia|].
      destruct nets as [|q nets]; [done|].
      destruct (Hall q) as [H1 _]; [by left|]. destruct (Hag q) as [H2 _]; [by left|]. destruct Hp as [H3 _].
      assert (H4 : Z.land n (netmask j) = n').
      { rewrite <- H1, <- Z.land_assoc, netmask_land by lia. replace (Z.max k j) with j by lia. done. }
      apply Z.bits_inj'. intros i Hi. rewrite Z.land_spec, Z.lxor_spec, Z.bits_0.
      apply (f_equal (fun x => Z.testbit x i)) in H3, H4. rewrite Z.land_spec in H3, H4.
      destruct (Z.testbit n i), (Z.testbit p.1 i), (Z.testbit (netmask j) i); cbn in *; congruence.
  - subst nets. split; [done|]. exists kp. split; [done|]. split; [done|]. split.
    + intros q Hq. apply list_elem_of_singleton in Hq as ->. unfold agrees. split; [done|]. apply Z.land_diag.
    + intros j n' Hj Hag. destruct (Hag p) as [_ H]; [by left|]. rewrite Hm, netmask_land in H by lia. unfold netmask in H.
      assert (E : 2 ^ Z.max kp j = 2 ^ j) by lia. apply Z.pow_inj_r in E; lia.
Qed.

Section Lan.
Context {nv : Nvram} {cfg : Config}.

Definition networks : list (Z * Z) := omap bridge_network bridges.

Lemma super_network_covers : Forall network networks -> covers super_network networks.
Proof.
  unfold super_network, networks. intros H.
  assert (Hgen : forall l acc nets, Forall network (omap bridge_network l) -> covers acc nets ->
    covers (fold_left (fun acc i => match bridge_network i with Some (net, mask) => add_network acc net mask | None => acc end) l acc)
           (nets ++ omap bridge_network l)).
  { induction l as [|i l IH]; intros acc nets Hf Hc; cbn [fold_left omap list_omap] in *; [by rewrite app_nil_r|].
    destruct (bridge_network i) as [[net mask]|]; [|by apply IH]. apply Forall_cons in Hf as [Hp Hf].
    change ((net, mask) :: omap bridge_network l) with ([(net, mask)] ++ omap bridge_network l). rewrite app_assoc.
    apply IH; [done|]. by apply (add_network_covers acc nets (net, mask)). }
  by apply (Hgen bridges None []).
Qed.

Lemma octets_value n : 0 <= n < 2 ^ 32 -> big_endian (octets_of n) = n.
Proof.
  intros Hn. unfold octets_of, big_endian. cbn [map fold_left]. change 255 with (Z.ones 8). rewrite !Z.land_ones, !Z.shiftr_div_pow2 by lia.
  change (2 ^ 0) with 1. rewrite Z.div_1_r. change (2 ^ 24) with (2 ^ 8 * 2 ^ 16). change (2 ^ 16) with (2 ^ 8 * 2 ^ 8).
  rewrite <- !Z.div_div by lia. assert (Hs : n / 2 ^ 8 / 2 ^ 8 / 2 ^ 8 < 2 ^ 8) by (repeat apply Z.div_lt_upper_bound; lia).
  assert (H0 : 0 <= n / 2 ^ 8 / 2 ^ 8 / 2 ^ 8) by (repeat apply Z.div_pos; lia).
  rewrite (Z.mod_small (n / 2 ^ 8 / 2 ^ 8 / 2 ^ 8)) by lia.
  pose proof (Z.div_mod n (2 ^ 8) ltac:(lia)). pose proof (Z.div_mod (n / 2 ^ 8) (2 ^ 8) ltac:(lia)).
  pose proof (Z.div_mod (n / 2 ^ 8 / 2 ^ 8) (2 ^ 8) ltac:(lia)). lia.
Qed.

(** C35: per-host counters know every host of the LAN, and no more than they must. When
    the masks of the bridges are masks, the network that is written for them has every
    address of every bridge and is the smallest such network; if that would be larger
    than a network of eight bits, it is the network of the first bridge. *)
Theorem lan_subnet_covers :
  networks <> [] -> Forall network networks ->
  exists n k, 0 <= k <= 32 /\
    (forall p h, p ∈ networks -> Z.land h p.2 = p.1 -> Z.land h (netmask k) = n) /\
    (forall j n', 0 <= j <= 32 -> (forall p, p ∈ networks -> agrees n' (netmask j) p.1 p.2) -> k <= j) /\
    quota_lan_subnet 32 =
      (if 32 - k <? 8 then
         let mask := address (nvram_safe_get !"lan_netmask") in
         snprintf 32 (inet_ntoa (octets_of (Z.land (address (nvram_safe_get !"lan_ipaddr")) mask))
                      ++ chr "/" :: print_d (quota_mask_bits mask))
       else snprintf 32 (inet_ntoa (octets_of n) ++ chr "/" :: print_d (32 - k))).
Proof.
  intros Hne Hf. assert (Hc := super_network_covers Hf). unfold quota_lan_subnet.
  destruct super_network as [[n m]|]; [|done]. destruct Hc as (_ & k & Hk & -> & Hall & Hmin).
  exists n, k. split; [done|]. split; [|split].
  - intros p h Hp Hh. destruct (Hall p Hp) as [H1 H2]. by rewrite <- H2, Z.land_assoc, Hh.
  - exact Hmin.
  - rewrite mask_bits_netmask by done. destruct (32 - k <? 8); [done|]. by rewrite mask_bits_netmask.
Qed.

End Lan.

(** ** An example *)

Import QuotaDemo.

Lemma lan_subnet_covers_witness : networks <> [] /\ Forall network networks /\ exists k, 0 <= k <= 32.
Proof.
  assert (Hn : networks <> []) by (vm_compute; discriminate).
  assert (Hf : Forall network networks).
  { repeat constructor; exists 8; vm_compute; split_and!; try reflexivity; discriminate. }
  split; [exact Hn|]. split; [exact Hf|]. destruct (lan_subnet_covers Hn Hf) as (n & k & Hk & _). exists k. exact Hk.
Defined.

(** Two neighbouring networks are written as one. *)
Lemma two_bridges : quota_lan_subnet 32 = !"192.168.0.0/22".
Proof. vm_compute. reflexivity. Qed.

End QuotaLanSpec.
