(* ===== verification/QuotaWindowSpec.v ===== *)
(** The windows of the bandwidth quotas (QuotaWindow.v): what is accepted here is what the
    match (Timerange.v) survives and means, and the clock is not set by setting the time
    zone of the kernel. *)

From Stdlib Require Import ZArith Lia.
From stdpp Require Import base list strings sorting.
From S2P Require Import Prelude Scan Strings Nvram Inet Timerange TimerangeSpec Wan BuildConfig SaveVars HttpAuthSpec Rules Ndpi FwEnv Firewall QuotaWindow Quotas QuotaRun QuotaDemo.

Local Open Scope Z_scope.
Local Open Scope rule_scope.

Module QuotaWindowSpec.
Import Scan Strings Nvram Inet Wan BuildConfig SaveVars Rules Ndpi FwEnv Firewall QuotaWindow.

(** ** Pieces *)

Lemma is_separator_one sep c : Timerange.is_separator [sep] c = (c =? sep).
Proof. unfold Timerange.is_separator. cbn [existsb]. by rewrite orb_false_r. Qed.

Definition piece (sep : Z) (p : cstr) : Prop := p <> [] /\ Forall (fun c => c <> sep) p.

Lemma piece_run sep p rest :
  piece sep p -> match rest with [] => True | c :: _ => c = sep end ->
  take_until (Timerange.is_separator [sep]) (p ++ rest) = p.
Proof.
  intros [_ Hp] Hr. apply take_until_app.
  - eapply Forall_impl; [exact Hp|]. intros c Hc. cbn beta. rewrite is_separator_one. by apply Z.eqb_neq.
  - destruct rest; [done|]. rewrite is_separator_one. subst. apply Z.eqb_refl.
Qed.

Lemma piece_start sep p rest : piece sep p ->
  skip_while (Timerange.is_separator [sep]) (p ++ rest) = p ++ rest.
Proof.
  intros [Hne Hp]. destruct p as [|c p]; [done|]. apply Forall_cons in Hp as [Hc _]. cbn [app skip_while].
  rewrite is_separator_one. by rewrite (proj2 (Z.eqb_neq _ _)).
Qed.

(** A separator behind the last piece is passed over. *)
Lemma split_loop_join sep tail ps : (tail = [] \/ tail = [sep]) -> Forall (piece sep) ps -> ps <> [] -> forall f m,
  (length ps <= f)%nat -> (length ps <= m)%nat ->
  Timerange.split_loop f [sep] m false (join sep ps ++ tail) = ps.
Proof.
  intros Ht Hp. induction Hp as [|p ps Hp Hps IH]; [done|]. intros _ f m Hf Hm. cbn [length] in *.
  destruct f as [|f]; [lia|]. destruct m as [|m]; [lia|]. cbn [Timerange.split_loop].
  assert (Hj : exists rest, join sep (p :: ps) ++ tail = p ++ rest /\
    match rest with [] => True | c :: _ => c = sep end /\
    skip_while (Timerange.is_separator [sep]) rest = match ps with [] => [] | _ => join sep ps ++ tail end).
  { destruct ps as [|q ps].
    - exists tail. cbn [join]. split; [done|]. destruct Ht as [-> | ->]; [done|]. split; [done|].
      cbn [skip_while]. by rewrite is_separator_one, Z.eqb_refl.
    - exists (sep :: join sep (q :: ps) ++ tail). rewrite join_two by done. rewrite <- app_assoc. split; [done|].
      split; [done|]. cbn [skip_while]. rewrite is_separator_one, Z.eqb_refl.
      apply Forall_cons in Hps as [Hq _]. destruct ps as [|r ps]; [apply (piece_start sep q tail Hq)|].
      rewrite join_two, <- app_assoc by done. by apply piece_start. }
  destruct Hj as (rest & -> & Hr & Hs). destruct Hp as [Hne Hpf].
  assert (Hne' : exists x y, p ++ rest = x :: y) by (destruct p; [done|by eexists _, _]).
  destruct Hne' as (x & y & Hxy). rewrite Hxy at 1. rewrite andb_false_r, piece_run by done.
  rewrite drop_app_length, Hs. destruct ps as [|q ps]; [by destruct f, m|]. by rewrite IH by (done || lia).
Qed.

Lemma pieces_length sep ps : Forall (piece sep) ps ->
  (length ps <= length (join sep ps))%nat /\
  (length ps <= S (length (List.filter (Timerange.is_separator [sep]) (join sep ps))))%nat.
Proof.
  induction 1 as [|p ps [Hne Hp] Hps [IH1 IH2]]; [cbn; lia|].
  destruct ps as [|q ps]; [cbn [join]; destruct p; [done|cbn; lia]|]. rewrite join_two by done.
  rewrite List.filter_app, !length_app. cbn [List.filter length] in *. rewrite is_separator_one, Z.eqb_refl. cbn [length].
  destruct p; [done|]. cbn [length]. lia.
Qed.

Lemma split_join sep tail ps max : (tail = [] \/ tail = [sep]) -> Forall (piece sep) ps -> ps <> [] ->
  max < 0 \/ Z.of_nat (length ps) <= max ->
  Timerange.split_on_separators (join sep ps ++ tail) [sep] max false = ps.
Proof.
  intros Ht Hp Hne Hm. unfold Timerange.split_on_separators. destruct (pieces_length sep ps Hp) as [H1 H2].
  assert (Hs : skip_while (Timerange.is_separator [sep]) (join sep ps ++ tail) = join sep ps ++ tail).
  { destruct Hp as [|p ps Hp Hps]; [done|]. destruct ps; [by apply piece_start|].
    rewrite join_two, <- app_assoc by done. by apply piece_start. }
  rewrite Hs. apply split_loop_join; [done..| |].
  - rewrite length_app. lia.
  - destruct (Z.ltb_spec max 0); [|lia]. rewrite List.filter_app, length_app. lia.
Qed.

(** ** Blanks *)

Definition tight (s : cstr) : Prop :=
  match s with [] => False | c :: _ => Timerange.is_whitespace c = false end /\
  match List.rev s with [] => False | c :: _ => Timerange.is_whitespace c = false end.

Definition blanks (s : cstr) : Prop := Forall (fun c => is_blank c = true) s.

Lemma blank_space c : is_blank c = true -> Timerange.is_whitespace c = true.
Proof. unfold is_blank, Timerange.is_whitespace. intros H. destruct (orb_prop _ _ H) as [E|E]; apply Z.eqb_eq in E as ->; reflexivity. Qed.

Lemma trim_tight a s b : blanks a -> blanks b -> tight s -> Timerange.trim_flanking_whitespace (a ++ s ++ b) = s.
Proof.
  intros Ha Hb [H1 H2]. unfold Timerange.trim_flanking_whitespace. rewrite skip_while_all.
  - rewrite rev_app_distr, skip_while_all; [apply rev_involutive| |destruct (List.rev s); [done|exact H2]].
    apply Forall_rev. eapply Forall_impl; [exact Hb|apply blank_space].
  - eapply Forall_impl; [exact Ha|apply blank_space].
  - destruct s; [done|exact H1].
Qed.

Lemma skip_blanks s : exists a, blanks a /\ s = a ++ skip_while is_blank s /\
  match skip_while is_blank s with [] => True | c :: _ => is_blank c = false end.
Proof.
  induction s as [|c s (a & Ha & Hs & Hc)]; [exists []; by repeat constructor|]. cbn [skip_while]. destruct (is_blank c) eqn:E.
  - exists (c :: a). split; [by constructor|]. split; [by cbn; f_equal|done].
  - exists []. split; [constructor|done].
Qed.

(** ** Times *)

(** At most two digits. *)
Definition part (p : cstr) : Prop := p <> [] /\ (length p <= 2)%nat /\ Forall (fun c => isdigit c = true) p.

Fixpoint total (mult : list Z) (ps : list cstr) : Z :=
  match mult, ps with m :: mult, p :: ps => dec_value 0 p * m + total mult ps | _, _ => 0 end.

Lemma take_digits s : Forall (fun c => isdigit c = true) (take_until (fun c => negb (isdigit c)) s) /\
  s = take_until (fun c => negb (isdigit c)) s ++ drop (length (take_until (fun c => negb (isdigit c)) s)) s.
Proof.
  induction s as [|c s [IH1 IH2]]; [done|]. cbn [take_until]. destruct (isdigit c) eqn:E; cbn [negb]; [|by split].
  split; [by constructor|]. cbn [length drop app]. by f_equal.
Qed.

Lemma clock_parts_text mult : mult <> [] -> forall secs s v rest, clock_parts mult secs s = Some (v, rest) ->
  exists ps tail, (tail = [] \/ tail = [58]) /\ ps <> [] /\ (length ps <= length mult)%nat /\ Forall part ps /\
    s = join 58 ps ++ tail ++ rest /\ v = secs + total mult ps.
Proof.
  induction mult as [|m mult IH]; [done|]. intros _ secs s v rest. cbn [clock_parts].
  destruct (isdigit (char_at s 0)) eqn:Ed; cbn [negb]; [|done]. destruct (take_digits s) as [Hd Hs].
  set (d := take_until _ s) in *. destruct (Nat.ltb_spec 2 (length d)) as [|Hl]; [done|].
  assert (Hp : part d).
  { split; [|by split]. destruct s as [|c s]; [done|]. unfold d. cbn [take_until]. unfold char_at in Ed. cbn in Ed. by rewrite Ed. }
  set (s1 := drop (length d) s) in *. destruct (Z.eqb_spec (char_at s1 0) (chr ":")) as [Hc|_].
  - assert (Hs1 : s1 = 58 :: drop 1 s1).
    { destruct s1 as [|c s1]; [done|]. unfold char_at in Hc. cbn in Hc. by rewrite Hc. }
    destruct mult as [|m' mult].
    + intros [= <- <-]. exists [d], [58]. split; [by right|]. split; [done|]. split; [done|]. split; [by constructor|].
      split; [|cbn; lia]. cbn [join app]. by rewrite <- Hs1, <- Hs.
    + intros H. apply IH in H as (ps & tail & Ht & Hne & Hlen & Hps & E & ->); [|done].
      exists (d :: ps), tail. split; [done|]. split; [done|]. split; [cbn [length] in *; lia|]. split; [by constructor|].
      split; [|cbn [total]; lia]. rewrite join_two, <- app_assoc by done. cbn [app]. by rewrite <- E, <- Hs1, <- Hs.
  - intros [= <- <-]. exists [d], []. split; [by left|]. split; [done|]. split; [cbn; lia|]. split; [by constructor|].
    split; [|destruct mult; cbn [total]; lia]. cbn [join app]. by rewrite <- Hs.
Qed.

Lemma part_value p : part p -> 0 <= dec_value 0 p < 100 /\ forall tmp, Timerange.scan_ld p tmp = dec_value 0 p.
Proof.
  intros (Hne & Hl & Hd).
  assert (Hv : 0 <= dec_value 0 p < 100).
  { destruct p as [|a [|b [|c p]]]; [done| | |cbn in Hl; lia]; repeat (apply Forall_cons in Hd as [? Hd]);
      cbn [dec_value]; repeat match goal with H : isdigit _ = true |- _ => rewrite H; unfold isdigit in H; propify end; lia. }
  split; [done|]. intros tmp. unfold Timerange.scan_ld.
  assert (Hn : scan_numeral p = Some (false, p, [])); [|rewrite Hn; rewrite u64_id; lia].
  unfold scan_numeral. destruct p as [|c p]; [done|]. assert (Hc := Hd). apply Forall_cons in Hc as [Hc _].
  assert (Hsp : isspace c = false) by (unfold isdigit, isspace in *; propify; lia).
  cbn [skip_while]. rewrite Hsp.
  assert (Hm : match c :: p with 45 :: s' => (true, s') | 43 :: s' => (false, s') | _ => (false, c :: p) end = (false, c :: p)).
  { unfold isdigit in Hc. propify. destruct (Z.eq_dec c 45), (Z.eq_dec c 43); [lia..|]. repeat case_match; try done; lia. }
  rewrite Hm. assert (Ht : take_until (fun c => negb (isdigit c)) (c :: p) = c :: p).
  { rewrite <- (app_nil_r (c :: p)) at 1. apply take_until_app; [|done]. eapply Forall_impl; [exact Hd|]. by intros x ->. }
  rewrite Ht. by rewrite drop_ge.
Qed.

Lemma sum_parts_total ps tmp sec : Forall part ps -> (length ps <= 3)%nat -> 0 <= sec < 2 ^ 31 ->
  Timerange.sum_parts ps tmp sec (60 * 60) = sec + total [3600; 60; 1] ps /\ 0 <= total [3600; 60; 1] ps < 2 ^ 31.
Proof.
  intros Hp Hl Hs. destruct ps as [|a [|b [|c [|d ps]]]]; [cbn; lia| | | |cbn in Hl; lia];
    repeat (apply Forall_cons in Hp as [?%part_value Hp]); repeat match goal with H : _ /\ _ |- _ => destruct H end;
    cbn [Timerange.sum_parts total]; change (60 * 60 / 60) with 60; change (60 / 60) with 1; change (60 * 60) with 3600;
    repeat match goal with H : forall _, Timerange.scan_ld _ _ = _ |- _ => rewrite H end; repeat match goal with |- context [u64 ?x] => lazymatch x with context [u64 _] => fail | _ => rewrite (u64_id x) by lia end end; lia.
Qed.

Lemma join_ends ps : ps <> [] -> Forall part ps ->
  exists c x y d, join 58 ps = c :: x /\ isdigit c = true /\ join 58 ps = y ++ [d] /\ isdigit d = true.
Proof.
  intros Hne H. induction H as [|p ps (Hp & _ & Hd) Hps IH]; [done|].
  destruct p as [|c p]; [done|]. destruct ps as [|q ps].
  - cbn [join]. destruct (exists_last Hp) as (y & d & E).
    exists c, p, y, d. split; [done|]. split; [by apply Forall_cons in Hd as [? _]|]. split; [done|].
    rewrite E in Hd. apply Forall_app in Hd as [_ Hd]. by apply Forall_cons in Hd as [? _].
  - destruct IH as (_ & _ & y & d & _ & _ & E & Hdd); [done|]. rewrite join_two by done. rewrite E.
    exists c, (p ++ 58 :: y ++ [d]), ((c :: p) ++ 58 :: y), d. split; [done|]. split; [by apply Forall_cons in Hd as [? _]|].
    split; [by rewrite <- app_assoc|done].
Qed.

Lemma name_index_of x l : forall k v, name_index x l (Z.of_nat k) = Some v ->
  exists i, Timerange.index_of x l k = Some i /\ v = Z.of_nat i.
Proof.
  induction l as [|y l IH]; intros k v; cbn [name_index Timerange.index_of]; [done|]. case_if; [intros [= <-]; by exists k|].
  replace (Z.of_nat k + 1) with (Z.of_nat (S k)) by lia. apply IH.
Qed.

Lemma day_names_shape : Forall (fun n => length n = 3%nat /\ match n with [] => False | c :: _ => 97 <= c end) Timerange.day_names.
Proof. repeat constructor; by vm_compute. Qed.

Lemma day_letters d i : Timerange.index_of (map tolower d) Timerange.day_names 0 = Some i ->
  (i < 7)%nat /\ length d = 3%nat /\ match d with [] => False | c :: _ => Timerange.is_whitespace c = false end.
Proof.
  intros H. assert (Hin : exists n, map tolower d = n /\ n ∈ Timerange.day_names).
  { revert H. unfold Timerange.index_of, Timerange.day_names. intros H. eexists. split; [reflexivity|]. unfold strcmp_eq in H.
    repeat (destruct (bool_decide _) eqn:E in H; [apply bool_decide_eq_true in E; rewrite E; rewrite !elem_of_cons; tauto|clear E]).
    done. }
  split; [revert H; unfold Timerange.index_of, Timerange.day_names; repeat case_if; intros [= <-]; lia|].
  destruct Hin as (n & E & Hn). assert (Hs := day_names_shape). rewrite Forall_forall in Hs. destruct (Hs n Hn) as [Hl Hc].
  split; [by rewrite <- Hl, <- E, length_map|]. destruct d as [|c d]; [by subst n|]. subst n. cbn [map] in Hc.
  destruct (Timerange.is_whitespace c) eqn:Ew; [|done]. exfalso. unfold Timerange.is_whitespace in Ew.
  assert (H4 : c = 32 \/ c = 9 \/ c = 10 \/ c = 13) by (propify; lia).
  destruct H4 as [->|[->|[->| ->]]]; by apply Hc.
Qed.

(** A time with blanks around it, which the match reads the same way. *)
Definition reads (s : cstr) (v : Z) : Prop :=
  exists a core b, blanks a /\ blanks b /\ tight core /\ s = a ++ core ++ b /\
    forall tmp0, Timerange.parse_time tmp0 core = v.

Lemma tight_core d ps tail : ps <> [] -> Forall part ps -> tail = [] \/ tail = [58] ->
  match d ++ join 58 ps with [] => False | c :: _ => Timerange.is_whitespace c = false end -> tight (d ++ join 58 ps ++ tail).
Proof.
  intros Hne Hp Ht Hd. destruct (join_ends ps Hne Hp) as (c & x & y & e & E1 & Hc & E2 & He). split.
  - rewrite app_assoc. by destruct (d ++ join 58 ps).
  - destruct Ht as [-> | ->]; [|by rewrite app_assoc, rev_app_distr].
    rewrite app_nil_r, E2, app_assoc, rev_app_distr. cbn. unfold isdigit, Timerange.is_whitespace in *. propify. lia.
Qed.

Lemma split_clock_parts ps tail : ps <> [] -> Forall part ps -> tail = [] \/ tail = [58] ->
  Timerange.split_on_separators (join 58 ps ++ tail) (bytes ":") (-1) false = ps.
Proof.
  intros Hne Hp Ht. apply split_join; [done| |done|by left]. eapply Forall_impl; [exact Hp|]. intros p (Hn & _ & Hd).
  split; [done|]. eapply Forall_impl; [exact Hd|]. intros c Hc ->. done.
Qed.

Lemma blank_not_digit b : blanks b -> Forall (fun c => negb (isdigit c) = true) b.
Proof.
  intros Hb. eapply Forall_impl; [exact Hb|]. unfold is_blank. intros c Hc.
  destruct (orb_prop _ _ Hc) as [E|E]; apply Z.eqb_eq in E as ->; reflexivity.
Qed.

(** A clock without a day, and one behind the name of a day. *)
Lemma daily_reads ps tail tmp0 : ps <> [] -> Forall part ps -> (length ps <= 3)%nat -> tail = [] \/ tail = [58] ->
  Timerange.parse_time tmp0 (join 58 ps ++ tail) = total [3600; 60; 1] ps.
Proof.
  intros Hne Hp Hl Ht. destruct (join_ends ps Hne Hp) as (c & x & _ & _ & E & Hc & _). unfold Timerange.parse_time.
  assert (Hs : skip_while (fun c => (c =? 32) || (c =? 9)) (join 58 ps ++ tail) = join 58 ps ++ tail).
  { rewrite E. cbn [app skip_while]. assert (H := TimerangeSpec.blank_no_digit c Hc). cbn beta in H. by rewrite H. }
  cbv zeta. rewrite !Hs.
  assert (Hd : (if (3 <? length (join 58 ps ++ tail))%nat
      then Timerange.index_of (Timerange.to_lowercase (take 3 (join 58 ps ++ tail))) Timerange.day_names 0 else None) = None).
  { case_if; [|done]. rewrite E. cbn [app take]. by apply TimerangeSpec.index_of_digit. }
  rewrite Hd, split_clock_parts by done. destruct (sum_parts_total ps tmp0 0 Hp Hl ltac:(lia)) as [-> _]. lia.
Qed.

Lemma weekly_reads d b ps tail tmp0 i : ps <> [] -> Forall part ps -> (length ps <= 3)%nat -> tail = [] \/ tail = [58] ->
  blanks b -> Timerange.index_of (map tolower d) Timerange.day_names 0 = Some i ->
  Timerange.parse_time tmp0 (d ++ b ++ join 58 ps ++ tail) = Z.of_nat i * 86400 + total [3600; 60; 1] ps.
Proof.
  intros Hne Hp Hl Ht Hb Hi. destruct (join_ends ps Hne Hp) as (c & x & _ & _ & E & Hc & _).
  destruct (day_letters d i Hi) as (Hi7 & Hd3 & Hd). unfold Timerange.parse_time. set (core := b ++ join 58 ps ++ tail).
  assert (Hs : skip_while (fun c => (c =? 32) || (c =? 9)) (d ++ core) = d ++ core).
  { destruct d as [|c' d]; [done|]. cbn [app skip_while]. destruct ((c' =? 32) || (c' =? 9)) eqn:Ec; [|done].
    unfold Timerange.is_whitespace in Hd. by rewrite Ec in Hd. }
  cbv zeta. rewrite !Hs, take_app_length', drop_app_length' by done.
  assert (Hlen : (3 <? length (d ++ core))%nat = true).
  { apply Nat.ltb_lt. rewrite length_app, Hd3. unfold core. rewrite E, !length_app. cbn. lia. }
  rewrite Hlen. unfold Timerange.to_lowercase. rewrite Hi.
  assert (Hsk : skip_while (fun c => negb (isdigit c)) core = join 58 ps ++ tail).
  { apply skip_while_all; [by apply blank_not_digit|]. rewrite E. cbn [app]. by rewrite Hc. }
  rewrite Hsk, split_clock_parts by done.
  destruct (sum_parts_total ps tmp0 (Z.of_nat i * 60 * 60 * 24) Hp Hl ltac:(lia)) as [-> _]. lia.
Qed.

(** What is accepted as a time is read by the match as this time. *)
Lemma parse_clock_reads s weekly v : quota_parse_clock s weekly = Some v -> reads s v /\ 0 <= v <= span weekly.
Proof.
  unfold quota_parse_clock. destruct (skip_blanks s) as (a & Ha & Es & Hs1). set (s1 := skip_while is_blank s) in *.
  intros H. apply bind_Some in H as ([day s2] & Hday & H). apply bind_Some in H as ([secs s3] & Hparts & H).
  apply clock_parts_text in Hparts as (ps & tail & Ht & Hne & Hl & Hp & E2 & Hv); [|done].
  destruct (skip_blanks s3) as (b & Hb & Es3 & _). destruct (skip_while is_blank s3); [|done]. rewrite app_nil_r in Es3. subst s3.
  destruct (secs <=? _) eqn:Ele; [|done]. injection H as <-. apply Z.leb_le in Ele.
  assert (Htot := proj2 (sum_parts_total ps 0 0 Hp Hl ltac:(lia))). destruct weekly; cbn [span] in *.
  - destruct (quota_day_index s1) as [w|] eqn:Ew; [|done]. injection Hday as <- <-.
    unfold quota_day_index in Ew. apply (name_index_of _ _ 0) in Ew as (i & Hi & ->). change quota_daynames with Timerange.day_names in Hi.
    destruct (day_letters _ i Hi) as (Hi7 & Hd3 & Hd). destruct (skip_blanks (drop 3 s1)) as (b' & Hb' & Es2 & _).
    split; [|unfold QUOTA_DAY_SECS in *; lia]. exists a, (take 3 s1 ++ b' ++ join 58 ps ++ tail), b.
    split; [done|]. split; [done|]. split; [|split].
    + rewrite (app_assoc (take 3 s1)). apply tight_core; [done..|]. by destruct (take 3 s1).
    + rewrite Es at 1. f_equal. rewrite <- (take_drop 3 s1) at 1. rewrite Es2, E2. by rewrite <- !app_assoc.
    + intros tmp0. rewrite (weekly_reads _ _ _ _ _ i) by done. unfold QUOTA_DAY_SECS in *. lia.
  - injection Hday as <- <-. split; [|lia]. exists a, (join 58 ps ++ tail), b. split; [done|]. split; [done|]. split; [|split].
    + apply (tight_core [] ps tail); [done..|]. destruct (join_ends ps Hne Hp) as (c & x & _ & _ & E & Hc & _). cbn [app]. rewrite E.
      unfold isdigit, Timerange.is_whitespace in *. propify. lia.
    + rewrite Es at 1. f_equal. by rewrite E2, <- app_assoc.
    + intros tmp0. rewrite daily_reads by done. lia.
Qed.

(** ** Ranges *)

Definition sound_range (max : Z) (r : Z * Z) : Prop := 0 <= r.1 <= max /\ 0 <= r.2 <= max /\ r.1 <> r.2.

Ltac flat := repeat (rewrite <- !app_assoc; cbn [app]); reflexivity.

Lemma range_piece weekly p r : range_of weekly p = Some r ->
  sound_range (span weekly) r /\ p <> [] /\ forall tmp0, Timerange.parse_piece tmp0 p = Some r.
Proof.
  unfold range_of. intros H. apply bind_Some in H as (i & Hi & H). apply HttpAuthSpec.strchr_split in Hi as [Ep Hn1].
  destruct (strchr (drop (S i) p) (chr "-")) eqn:Hn2; [done|].
  apply bind_Some in H as (a & Ha & H). apply bind_Some in H as (b & Hb & H). destruct (Z.eqb_spec a b) as [|Hab]; [done|].
  injection H as <-. apply parse_clock_reads in Ha as [(a1 & c1 & b1 & Ha1 & Hb1 & Ht1 & E1 & Hp1) Hra].
  apply parse_clock_reads in Hb as [(a2 & c2 & b2 & Ha2 & Hb2 & Ht2 & E2 & Hp2) Hrb].
  split; [done|]. split; [intros ->; by destruct i|]. intros tmp0. unfold Timerange.parse_piece.
  assert (Hdash : ~ 45 ∈ drop (S i) p).
  { intros Hin. apply list_elem_of_split in Hin as (x & y & Exy). clear -Hn2 Exy. revert Hn2. rewrite Exy. clear Exy.
    induction x as [|z x IH]; cbn [app strchr]; [done|]. destruct (z =? _); [done|]. by destruct (strchr _ _). }
  rewrite Ep, E1, E2. replace ((a1 ++ c1 ++ b1) ++ chr "-" :: a2 ++ c2 ++ b2)
    with (a1 ++ (c1 ++ b1 ++ 45 :: a2 ++ c2) ++ b2) by flat.
  rewrite trim_tight; [|done|done|].
  2: { destruct Ht1 as [H1 _], Ht2 as [_ H2]. split; [by destruct c1|].
       replace (c1 ++ b1 ++ 45 :: a2 ++ c2) with ((c1 ++ b1 ++ 45 :: a2) ++ c2) by flat.
       rewrite rev_app_distr. by destruct (List.rev c2). }
  replace (c1 ++ b1 ++ 45 :: a2 ++ c2) with (join 45 [c1 ++ b1; a2 ++ c2] ++ [])
    by (cbn [join]; rewrite app_nil_r; flat).
  change (bytes "-") with [45]. rewrite (split_join 45 [] [c1 ++ b1; a2 ++ c2] 2); [|by left| |done|right; cbn; lia].
  - assert (T1 := trim_tight [] c1 b1 ltac:(constructor) Hb1 Ht1). assert (T2 := trim_tight a2 c2 [] Ha2 ltac:(constructor) Ht2).
    rewrite app_nil_r in T2. cbn [app] in T1. rewrite T1, T2, Hp1, Hp2. unfold span, QUOTA_WEEK_SECS, QUOTA_DAY_SECS in *.
    rewrite !s64_id; [done|..]; destruct weekly; lia.
  - destruct Ht1 as [H1 _], Ht2 as [H2 _]. rewrite E1 in Hn1. rewrite E2 in Hdash. rewrite !elem_of_app in *.
    repeat constructor; [by destruct c1| |by destruct a2, c2|]; apply Forall_forall; intros c Hc ->;
      apply elem_of_app in Hc; tauto.
Qed.

Lemma ranges_parsed weekly spec l tmp0 : ranges_of weekly spec = Some l ->
  l <> [] /\ (length l <= 12)%nat /\ Forall (sound_range (span weekly)) l /\
  Timerange.parse_time_ranges tmp0 spec weekly = Timerange.arrange (span weekly) l.
Proof.
  unfold ranges_of. destruct (320 <=? length spec)%nat; [done|]. destruct (Nat.ltb_spec QUOTA_RANGE_MAX (length (strsep (chr ",") spec))) as [|Hn]; [done|].
  intros H. apply mapM_Some in H. assert (Hlen := Forall2_length _ _ _ H).
  assert (Hne := strsep_nonempty (chr ",") spec). assert (Hsep := strsep_no_sep (chr ",") spec). assert (Hj := join_strsep (chr ",") spec).
  set (ps := strsep (chr ",") spec) in *. split; [by intros ->; destruct ps|]. split; [by rewrite <- Hlen|].
  assert (Hall : Forall (sound_range (span weekly)) l /\ Forall (fun p => p <> []) ps /\
                 Timerange.sequence (map (Timerange.parse_piece tmp0) ps) = Some l).
  { clear -H. induction H as [|p r ps l Hp _ (IH1 & IH2 & IH3)]; [done|]. destruct (range_piece _ _ _ Hp) as (H1 & H2 & H3).
    split; [by constructor|]. split; [by constructor|]. cbn [map Timerange.sequence]. by rewrite H3, IH3. }
  destruct Hall as (Hs & Hps & Hseq). split; [done|]. unfold Timerange.parse_time_ranges.
  assert (Hsplit : Timerange.split_on_separators spec (bytes ",") (-1) false = ps).
  { rewrite <- Hj, <- (app_nil_r (join _ _)). apply split_join; [by left| |done|by left].
    apply Forall_forall. intros p Hp. rewrite Forall_forall in Hsep, Hps. split; [by apply Hps|].
    apply Forall_forall. intros c Hc ->. by apply (Hsep p Hp). }
  rewrite Hsplit, Hseq. by destruct weekly.
Qed.

(** ** The list of the match *)

Lemma no_clash span l : any_clash span l = false -> Timerange.overlap_found span l = false.
Proof.
  intros H. destruct (Timerange.overlap_found span l) eqn:E; [|done].
  assert (Hij : exists i j, (i < j < length l)%nat /\ clash span (nth i l (0, 0)) (nth j l (0, 0)) = true).
  { clear H. induction l as [|r l IH]; [done|]. cbn [Timerange.overlap_found] in E. apply orb_true_iff in E as [E|E].
    - apply existsb_exists in E as (r' & Hin & Hr). apply (In_nth _ _ (0, 0)) in Hin as (j & Hj & <-).
      exists 0%nat, (S j). cbn [nth length]. split; [lia|].
      apply orb_true_iff in Hr as [Hr|Hr]; [exact Hr|]. unfold Timerange.overlaps in Hr. rewrite andb_comm in Hr. exact Hr.
    - destruct (IH E) as (i & j & Hij & Hc). exists (S i), (S j). cbn [nth length]. split; [lia|done]. }
  destruct Hij as (i & j & Hij & Hc). rewrite <- H. symmetry. apply existsb_exists. exists i. split; [apply in_seq; lia|].
  apply existsb_exists. exists j. split; [apply in_seq; lia|]. rewrite Hc, (proj2 (Nat.eqb_neq i j)) by lia. done.
Qed.

Lemma covered_perm span l l' : l ≡ₚ l' -> covered span l = covered span l'.
Proof.
  unfold covered. induction 1 as [|r l l' _ IH|r r' l|l1 l2 l3 _ IH1 _ IH2]; cbn [fold_right]; [done|by rewrite IH|lia|].
  by rewrite IH1.
Qed.

Lemma covered_nonneg max l : Forall (sound_range max) l -> 0 <= covered max l.
Proof.
  induction 1 as [|r l (H1 & H2 & H3) _ IH]; [done|]. unfold covered in *. cbn [fold_right].
  assert (Hr : 0 <= unwrapped max r - r.1) by (unfold unwrapped; destruct (Z.ltb_spec r.2 r.1); lia). lia.
Qed.

(** A merged range that reaches the end is made of ranges without a gap. *)
Lemma merged_covers max l : forall s e, StronglySorted TimerangeSpec.starts_le ((s, e) :: l) ->
  Forall (sound_range max) ((s, e) :: l) ->
  head (Timerange.merge_loop s (e :: Timerange.flatten l)) = Some max -> max - s <= covered max ((s, e) :: l).
Proof.
  induction l as [|[s' e'] l IH]; intros s e Hs Hv; apply Forall_cons in Hv as [(H1 & H2 & H3) Hv]; cbn [fst snd] in *.
  - cbn. intros [= ->]. unfold covered, unwrapped. cbn. rewrite (proj2 (Z.ltb_ge _ _)) by lia. lia.
  - assert (Hn := covered_nonneg _ _ Hv). inversion Hs as [|? ? Hs' Hle]; subst. apply Forall_cons in Hle as [Hle _].
    unfold TimerangeSpec.starts_le in Hle. cbn [fst] in Hle.
    assert (Hc : forall r, covered max (r :: (s', e') :: l) = unwrapped max r - r.1 + covered max ((s', e') :: l)) by done.
    rewrite Hc. unfold unwrapped. cbn [fst snd]. cbn [Timerange.flatten Timerange.merge_loop].
    rewrite (proj2 (Z.eqb_neq e s)) by lia. cbn [negb andb]. destruct (Z.eqb_spec e s') as [->|Hne]; cbn [negb].
    + rewrite Z.eqb_refl. cbn [negb andb]. intros Hh. specialize (IH s' e' Hs' Hv Hh).
      rewrite (proj2 (Z.ltb_ge _ _)) by lia. lia.
    + intros [= ->]. rewrite (proj2 (Z.ltb_ge _ _)) by lia. lia.
Qed.

Lemma merge_loop_length l : forall p, (length (Timerange.merge_loop p l) <= length l)%nat.
Proof.
  induction l as [|x l IH]; intros p; [done|]. cbn [Timerange.merge_loop]. destruct l; [done|].
  case_if; cbn [length] in *; specialize (IH x); cbn [length] in IH; lia.
Qed.

Lemma split_wrapped_length max l : (length (Timerange.split_wrapped max l) <= length l + 2)%nat.
Proof.
  unfold Timerange.split_wrapped. set (l' := match list.last l with Some e => _ | None => _ end).
  assert (Hl : (length l' <= length l + 1)%nat).
  { unfold l'. destruct (list.last l) as [e|] eqn:E; [|lia]. destruct l as [|x l]; [done|]. case_if; [|lia].
    assert (Hne : x :: l <> []) by done. assert (H := f_equal (@length Z) (app_removelast_last 0 Hne)).
    rewrite length_app in H. cbn [length] in *. lia. }
  case_if; [rewrite length_app; cbn; lia|lia].
Qed.

Lemma flatten_length l : length (Timerange.flatten l) = (2 * length l)%nat.
Proof. induction l as [|[a b] l IH]; [done|]. cbn [Timerange.flatten length]. lia. Qed.

(** Ranges that leave a gap are never taken for all the time. *)
Lemma arrange_some max l : 0 < max < 2 ^ 31 - 1 -> l <> [] -> Forall (sound_range max) l ->
  Timerange.overlap_found max l = false -> covered max l < max ->
  exists r, Timerange.arrange max l = Some r /\ (length r <= 2 * length l + 2)%nat.
Proof.
  intros Hmax Hne Hv Ho Hc. unfold Timerange.arrange. rewrite Ho.
  destruct (TimerangeSpec.sort_ranges_spec (length l) l) as [Hp Hs];
    [eapply Forall_impl; [exact Hv|intros r (H1 & _); lia]|done|].
  set (k := Timerange.sort_ranges _ _) in *. rewrite <- Hp in Hv. rewrite <- (covered_perm _ _ _ Hp) in Hc.
  assert (Hlen : length k = length l) by (by apply Permutation_length).
  rewrite TimerangeSpec.until_end_all.
  2: { apply TimerangeSpec.flatten_Forall. eapply Forall_impl; [exact Hv|]. intros r (H1 & H2 & _). lia. }
  destruct k as [|[s e] k]; [by destruct l|]. cbn [Timerange.flatten Timerange.merge_adjacent_time_ranges].
  set (ml := Timerange.merge_loop s (e :: Timerange.flatten k)).
  assert (Hml : (length ml <= 2 * length l - 1)%nat).
  { unfold ml. etransitivity; [apply merge_loop_length|]. cbn [length]. rewrite flatten_length. cbn [length] in Hlen. lia. }
  destruct ((s =? 0) && bool_decide (head ml = Some max)) eqn:E.
  - apply andb_prop in E as [E1 E2]. apply bool_decide_eq_true in E2. apply Z.eqb_eq in E1. subst s.
    assert (H := merged_covers max k 0 e Hs Hv E2). lia.
  - eexists. split; [reflexivity|]. etransitivity; [apply split_wrapped_length|]. cbn [length]. destruct l; [done|]. cbn [length] in *. lia.
Qed.

(** C13: a window that is accepted is survived and understood by the match. The extension
    neither rejects it, nor runs over its array, whatever its stack holds; and when no
    range goes over the end up to the start of another one, the kernel's test succeeds at
    exactly the times of the ranges as they were read here. *)
Theorem windows_survive tmp0 spec weekly :
  quota_valid_ranges spec weekly = true ->
  exists pairs l, ranges_of weekly spec = Some pairs /\
    Timerange.parse_time_ranges tmp0 spec weekly = Some l /\ (length l < Timerange.RANGE_LENGTH)%nat /\
    (Forall (fun r => r.1 < span weekly) pairs -> TimerangeSpec.wrap_clear pairs ->
     forall t, 0 <= t < span weekly -> Timerange.in_ranges t l = true <-> TimerangeSpec.covered t pairs).
Proof.
  unfold quota_valid_ranges. destruct (ranges_of weekly spec) as [pairs|] eqn:E; [|done].
  intros [Hcl Hcov]%andb_prop. apply negb_true_iff in Hcl. apply Z.ltb_lt in Hcov.
  destruct (ranges_parsed _ _ _ tmp0 E) as (Hne & Hlen & Hv & Hp). apply no_clash in Hcl.
  assert (Hmax : 0 < span weekly < 2 ^ 31 - 1) by (unfold span, QUOTA_WEEK_SECS, QUOTA_DAY_SECS; destruct weekly; lia).
  destruct (arrange_some _ _ Hmax Hne Hv Hcl Hcov) as (l & Hl & Hll).
  exists pairs, l. split; [done|]. rewrite Hp. split; [done|]. split; [unfold Timerange.RANGE_LENGTH; lia|].
  intros Hst Hw. assert (Ha := TimerangeSpec.arrange_meaning (span weekly) pairs ltac:(lia) Hne). rewrite Hl in Ha. apply Ha; [|done|done].
  rewrite Forall_forall in *. intros r Hr. destruct (Hv r Hr) as (H1 & H2 & H3). specialize (Hst r Hr). split; [lia|]. by split.
Qed.

Lemma windows_survive_witness : exists pairs l,
  ranges_of true !"Fri 18:00-Sun 23:59, mon 7 - Mon 8:30" = Some pairs /\
  Timerange.parse_time_ranges 7 !"Fri 18:00-Sun 23:59, mon 7 - Mon 8:30" true = Some l /\ (length l < 51)%nat.
Proof.
  destruct (windows_survive 7 !"Fri 18:00-Sun 23:59, mon 7 - Mon 8:30" true) as (pairs & l & H1 & H2 & H3 & _); [reflexivity|].
  exists pairs, l. split; [exact H1|]. split; [exact H2|exact H3].
Defined.

(** A range over midnight that touches an earlier one is accepted, and never in force in
    the evening. *)
Lemma touching_accepted :
  quota_valid_ranges !"22:00-02:00,02:00-03:00" false = true /\
  exists l, Timerange.parse_time_ranges 0 !"22:00-02:00,02:00-03:00" false = Some l /\
    Timerange.in_ranges (23 * 3600) l = false.
Proof. split; [vm_compute; reflexivity|]. eexists. split; vm_compute; reflexivity. Qed.

(** ** The time zone of the kernel *)

(** The documented behaviour of the system calls: the zone that is set is the zone that is
    read; only the first call that succeeds can move the clock, and it does not with a
    zone of 0; a call that fails does nothing. *)
Class TzLaws {calls : TzCalls} := {
  sys_tz : kernel -> Z;
  wall : kernel -> Z;
  warped : kernel -> bool;
  get_tz : forall k z, gettimeofday k = Some z -> z = sys_tz k;
  set_tz : forall z k k', settimeofday z k = (true, k') ->
    sys_tz k' = z /\ warped k' = true /\ (warped k = true \/ z = 0 -> wall k' = wall k);
  set_failed : forall z k k', settimeofday z k = (false, k') -> k' = k }.

Section Zone.
Context {nv : Nvram} {cfg : Config} {links : Links} {cal : Calendar} {calls : TzCalls} {laws : TzLaws}.

Lemma zone_set k : quota_clock_valid = true ->
  let west := minutes_west (gmtime_r time) (localtime_r time) in
  wall (quota_set_kernel_tz k) = wall k /\
  (- 900 <= west <= 900 -> (forall z k, - 900 <= z <= 900 -> (settimeofday z k).1 = true) ->
   sys_tz (quota_set_kernel_tz k) = west).
Proof.
  intros Hv west. unfold quota_set_kernel_tz. rewrite Hv. cbn [negb]. cbv zeta. fold west.
  destruct ((15 * 60 <? west) || (west <? - (15 * 60))) eqn:Er; [split; [done|propify; lia]|].
  destruct (gettimeofday k) as [cur|] eqn:Eg; [destruct (Z.eqb_spec cur west) as [Hc|_]|].
  { split; [done|]. intros _ _. by rewrite <- (get_tz k cur Eg). }
  all: assert (Hgo : forall b k1, settimeofday 0 k = (b, k1) ->
      wall (if negb b then k1 else (settimeofday west k1).2) = wall k /\
      (- 900 <= west <= 900 -> (forall z k, - 900 <= z <= 900 -> (settimeofday z k).1 = true) ->
       sys_tz (if negb b then k1 else (settimeofday west k1).2) = west)).
  1,3: intros [] k1 E1; cbn [negb].
  1,3: destruct (set_tz _ _ _ E1) as (_ & Hw & Hm); specialize (Hm (or_intror eq_refl));
       destruct (settimeofday west k1) as [[] k2] eqn:E2; cbn [snd];
       [destruct (set_tz _ _ _ E2) as (Hz & _ & Hm2); rewrite (Hm2 (or_introl Hw)); by split
       |rewrite (set_failed _ _ _ E2); split; [done|]; intros Hr Hs; specialize (Hs west k1 Hr); by rewrite E2 in Hs].
  1,2: rewrite (set_failed _ _ _ E1); split; [done|]; intros Hr Hs; specialize (Hs 0 k ltac:(lia)); by rewrite E1 in Hs.
  all: destruct (settimeofday 0 k) as [b k1] eqn:E1; by apply Hgo.
Qed.

(** Counters are reset on the local clock. [ipt_quotas] never moves the clock; and
    when it writes rules, the time zone of the kernel is the local one by then, for zones
    the kernel takes. *)
Theorem zone_before_rules e k :
  let west := minutes_west (gmtime_r time) (localtime_r time) in
  wall (QuotaRun.ipt_quotas_kernel k) = wall k /\
  (Quotas.rules (Quotas.ipt_quotas e) <> [] -> - 900 <= west <= 900 ->
   (forall z k, - 900 <= z <= 900 -> (settimeofday z k).1 = true) -> sys_tz (QuotaRun.ipt_quotas_kernel k) = west).
Proof.
  intros west. unfold QuotaRun.ipt_quotas_kernel, Quotas.ipt_quotas.
  destruct (negb (has _)); [done|]. destruct (nvram_get_int _ =? 0); [done|].
  destruct quota_clock_valid eqn:Hv; cbn [negb]; [|done]. destruct (zone_set k Hv) as [H1 H2]. split; [done|]. intros _. exact H2.
Qed.

End Zone.

(** A kernel that has not been told its zone: zone, whether it was told, clock. *)
#[local] Instance fresh_kernel : TzCalls := {|
  kernel := Z * bool * Z;
  gettimeofday k := Some k.1.1;
  settimeofday z k := (true, (z, true, if k.1.2 then k.2 else k.2 + z * 60)) |}.

#[local] Instance fresh_laws : TzLaws.
Proof.
  refine {| sys_tz (k : kernel) := k.1.1; wall (k : kernel) := k.2; warped (k : kernel) := k.1.2 |}.
  - by intros k z [= <-].
  - intros z [[tz w] c] k' [= <-]. cbn [fst snd]. split; [done|]. split; [done|]. intros [-> | ->]; [done|]. destruct w; lia.
  - done.
Defined.

(** One hour east of Greenwich. *)
Definition winter : Calendar := {| time := 1780000000;
  gmtime_r _ := {| tm_min := 30; tm_hour := 23; tm_yday := 364; tm_year := 126 |};
  localtime_r _ := {| tm_min := 30; tm_hour := 0; tm_yday := 0; tm_year := 127 |} |}.

Lemma zone_before_rules_witness :
  QuotaRun.ipt_quotas_kernel (nv := QuotaDemo.quota_nvram) (cfg := QuotaDemo.quota_build) (cal := winter) (calls := fresh_kernel) (0, false, 5) = (-60, true, 5).
Proof.
  destruct (zone_before_rules (nv := QuotaDemo.quota_nvram) (cfg := QuotaDemo.quota_build)
    (links := QuotaDemo.no_files) (cal := winter) (calls := fresh_kernel) (laws := fresh_laws) QuotaDemo.one_wan (0, false, 5)) as [H1 H2].
  assert (Hz := H2 ltac:(vm_compute; discriminate) ltac:(vm_compute; split; discriminate) ltac:(reflexivity)).
  vm_compute in H1, Hz. vm_compute. reflexivity.
Defined.

End QuotaWindowSpec.
