(* ===== verification/Qos.v ===== *)
(** Quality of service: src/tomato64/package/rc/rc/qos.c.

    [ipt_qos] classifies connections by rules of the mangle table: the class of a
    connection, from 1 to 10, is in the lowest four bits of its mark, and a group for
    connections that are classified again after a number of bytes in eight bits further
    up. [start_qos] writes a script with the traffic classes of one WAN and the filters
    that find packets by their marks, and runs it.

    What the code keeps in static variables for the WAN at hand ([prep_qosstr]) is the
    record [qosvars]. [unsigned long] has the width of [Arch]. *)

From Stdlib Require Import ZArith Lia.
From stdpp Require Import base list strings.
From S2P Require Import Prelude Scan Nvram Inet Wan BuildConfig Defaults SaveVars Rules Ndpi FwEnv Firewall.

Local Open Scope Z_scope.
Local Open Scope rule_scope.

Module Qos.
Import Scan Nvram Inet Wan BuildConfig Defaults SaveVars Rules Ndpi FwEnv Firewall.

Definition CLASSES_NUM : Z := 10.

(** ** Without classification *)

Definition disabled_classification_rules : cstr := !"0<<-2<a<<0<<<<0<Default".
Definition rate_part : cstr := !"5-100,0-0,0-0,0-0,0-0,0-0,0-0,0-0,0-0,0-0,".

Definition build_disabled_classification_rates (mwan_count : Z) : cstr :=
  removelast (concat (repeat rate_part (Z.to_nat mwan_count))).

(** ** Numbers *)

Section Numbers.
Context {arch : Arch}.

Definition ULONG_MAX : Z := 2 * LONG_MAX + 1.
Definition ulong (n : Z) : Z := n mod (ULONG_MAX + 1).

(** [strtoul] with base 10: the value and where it stopped. *)
Definition strtoul10 (s : cstr) : Z * cstr :=
  match scan_numeral s with
  | Some (neg, d, rest) =>
      let v := dec_value 0 d in
      ((if ULONG_MAX <? v then ULONG_MAX else if neg : bool then ulong (- v) else v), rest)
  | None => (0, s)
  end.

(** [sscanf(p, "%u-%u")] when both numbers are there. *)
Definition rate_ceil (p : cstr) : option (Z * Z) :=
  '(rate, rest) ← scan_u64 p;
  if char_at rest 0 =? chr "-" then '(ceil, _) ← scan_u64 (drop 1 rest); Some (u32 rate, u32 ceil) else None.

Definition calc (bw pct : Z) : Z :=
  let n := u32 (ulong (bw * pct) / 100) in if n <? 2 then 2 else n.

End Numbers.

(** [strlcat] and [snprintf] behind the text of a buffer. *)
Definition cat (size : nat) (s t : cstr) : cstr := take (size - 1) (s ++ t).

Definition hex (n : Z) : cstr := !"0x" ++ print_u 16 (u32 n).

(** ** The rules of a record *)

Record qos_rule := {
  addr_type : cstr;
  qr_addr : cstr;
  qr_proto : cstr;
  port_type : cstr;
  qr_port : cstr;
  qr_ndpi : cstr;
  bcount : cstr;
  qr_dscp : cstr;
  class_prio : cstr }.

Definition parse_qos (p : cstr) : option qos_rule :=
  match vstrsep 10 (chr "<") p with
  | [t; a; pr; pt; po; n; b; d; c; desc] =>
      Some {| addr_type := t; qr_addr := a; qr_proto := pr; port_type := pt; qr_port := po; qr_ndpi := n; bcount := b;
              qr_dscp := d; class_prio := c |}
  | _ => None
  end.

(** What is carried from record to record. *)
Record qstate := {
  inuse : Z;
  class_flag : Z;
  sizegroup : Z;
  sizechain : bool;
  prev_max : Z }.

Definition connmark (value mask : cstr) : cond := Match (!"-m connmark --mark " ++ value ++ !"/" ++ mask).
Definition no_connmark (value mask : cstr) : cond := Match (!"-m connmark ! --mark " ++ value ++ !"/" ++ mask).
Definition set_connmark (n : Z) : target := Jump (!"CONNMARK --set-mark " ++ hex n ++ !"/0xff00f").

(** Already classified for good. *)
Definition settled : list cond := [connmark !"0" !"0xff000"; no_connmark !"0" !"0xf"].

Definition connbytes (from : cstr) : cond :=
  Match (!"-m connbytes --connbytes-mode bytes --connbytes-dir both --connbytes " ++ from).

Section Rules.
Context {nv : Nvram} {build : Build} {cfg : Config} {links : Links} {resolver : Resolver} {arch : Arch}.
Variable e : env.

(** The families of a rule, its conditions on the address, and whether it is a hardware
    address. *)
Definition address_of (r : qos_rule) : option (Z * cstr * bool) :=
  let ok := if has "TCONFIG_IPV6" && ipv6 e then Z.lor IPT_V4 IPT_V6 else IPT_V4 in
  let t := char_at (addr_type r) 0 in
  if (t =? chr "1") || (t =? chr "2") then
    let '(f, saddr) := ipt_addr 256 (qr_addr r) (if t =? chr "1" then "dst" else "src") ok (ok =? IPT_V4) in
    let ok := Z.land ok f in
    if ok =? 0 then None else Some (ok, saddr, false)
  else if t =? chr "3" then Some (ok, snprintf 256 (!"-m mac --mac-source " ++ qr_addr r), true)
  else Some (ok, [], false).

(** The chain of the size groups is made with the first of them. *)
Definition size_chain : list write :=
  let other := no_connmark !"0" !"0xff000" in
  let kept := [other; no_connmark !"0xff000" !"0xff000"] in
  ip46t_write (ipv6 e)
    [Chain !"QOSSIZE" user; Insert !"QOSO" (Some 2) [other] (Jump !"QOSSIZE");
     Insert !"QOSO" (Some 3) kept (Jump !"RETURN")] ++
  ip46t_write (ipv6 e)
    [Insert !"QOSO2" (Some 2) [other] (Jump !"QOSSIZE"); Insert !"QOSO2" (Some 3) kept (Jump !"RETURN")].

Definition size_rules (ok group max : Z) : list write :=
  let passed := connbytes (print_u 10 (ulong (max * 1024)) ++ !":") in
  ip46t_flagged_write (ipv6 e) ok
    [Append !"QOSSIZE" [connmark (hex (Z.shiftl group 12)) !"0xff000"; passed] (set_connmark 1044480)] ++
  ip46t_flagged_write (ipv6 e) ok
    [Append !"QOSSIZE" [connmark !"0xff000" !"0xff000"; passed] (Jump !"RETURN")].

(** The condition on the number of bytes: the new state with the group of the rule, the
    conditions, whether the chain has to be made, and the number and the size of a new
    group. *)
Definition size_of (s : qstate) (bcount saddr : cstr) : qstate * cstr * bool * option (Z * Z) :=
  let plain := {| inuse := inuse s; class_flag := 0; sizegroup := sizegroup s; sizechain := sizechain s;
                  prev_max := prev_max s |} in
  if char_at bcount 0 =? 0 then (plain, saddr, false, None)
  else
    let '(min, p) := strtoul10 bcount in
    if char_at p 0 =? 0 then (plain, saddr, false, None)
    else
      let saddr := cat 256 saddr !" -m connbytes --connbytes-mode bytes --connbytes-dir both --connbytes " in
      let p := drop 1 p in
      let from := print_u 10 (ulong (min * 1024)) ++ !":" in
      if char_at p 0 =? 0 then (plain, cat 256 saddr from, false, None)
      else
        let max := (strtoul10 p).1 in
        let saddr := cat 256 saddr (from ++ print_u 10 (ulong (ulong (max * 1024) - 1))) in
        if negb (max =? prev_max s) && (sizegroup s <? 255) then
          let group := sizegroup s + 1 in
          ({| inuse := inuse s; class_flag := Z.shiftl group 12; sizegroup := group; sizechain := true; prev_max := max |},
           saddr, negb (sizechain s), Some (group, max))
        else
          ({| inuse := inuse s; class_flag := Z.shiftl (sizegroup s) 12; sizegroup := sizegroup s; sizechain := true;
              prev_max := prev_max s |}, saddr, negb (sizechain s), None).

(** The conditions of the rules, by protocol and ports. *)
Definition port_of (r : qos_rule) : cstr :=
  let t := char_at (port_type r) 0 in
  let side := if t =? chr "s" then !"s" else if t =? chr "d" then !"d" else [] in
  if t =? chr "a" then []
  else if (t =? chr "x") || match strchr (qr_port r) (chr ",") with Some _ => true | None => false end
  then snprintf 192 (!"-m multiport --" ++ side ++ !"ports " ++ qr_port r)
  else snprintf 192 (!"--" ++ side ++ !"port " ++ qr_port r).

Definition heads (r : qos_rule) (saddr : cstr) : list (list cond) :=
  let n := atoi (qr_proto r) in
  if -2 <? n then
    if (n =? 6) || (n =? 17) || (n =? -1) then
      on (negb (n =? 6)) [[Match !"-p udp"; Match (port_of r); Match saddr]] ++
      on (negb (n =? 17)) [[Match !"-p tcp"; Match (port_of r); Match saddr]]
    else [[Match (!"-p " ++ print_d n); Match saddr]]
  else [[Match saddr]].

(** The mark is set and the chain is left, in both chains unless the rule is for a
    hardware address. *)
Definition classify (ok : Z) (mac : bool) (class : Z) (cs : list cond) : list write :=
  concat (map (fun chain =>
    ip46t_flagged_write (ipv6 e) ok [Append chain (cs ++ [Match []]) (set_connmark class)] ++
    ip46t_flagged_write (ipv6 e) ok [Append chain cs (Jump !"RETURN")])
    (!"QOSO" :: on (negb mac) [!"QOSO2"])).

(** What a record asks for: the families, whether for a hardware address, the class from
    1 to 10, the size group in its place in the mark, the conditions of its rules, whether
    the chain of the size groups has to be made, and its new group. *)
Record classed := {
  cl_ok : Z;
  cl_mac : bool;
  cl_class : Z;
  cl_flag : Z;
  cl_conds : list (list cond);
  cl_chain : bool;
  cl_group : option (Z * Z) }.

(** One record: the new state and what it asks for. *)
Definition prepare (s : qstate) (p : cstr) : qstate * option classed :=
  match parse_qos p with
  | None => (s, None)
  | Some r =>
      let class := atoi (class_prio r) in
      if (class <? 0) || (9 <? class) then (s, None)
      else
        let s := {| inuse := Z.lor (inuse s) (Z.shiftl 1 class); class_flag := class_flag s; sizegroup := sizegroup s;
                    sizechain := sizechain s; prev_max := prev_max s |} in
        match address_of r with
        | None => (s, None)
        | Some (ok, saddr, mac) =>
            let '(found, app) := ipt_ndpi (qr_ndpi r) 256 in
            if found =? -1 then (s, None)
            else
              let saddr := match app with [] => saddr | _ => cat 256 saddr app end in
              let saddr := match ipt_dscp (qr_dscp r) 32 with Some d => cat 256 saddr d | None => saddr end in
              let '(s, saddr, chain, new) := size_of s (bcount r) saddr in
              let flag := if (0 <? sizegroup s) && (class_flag s =? 0) then Z.shiftl 255 12 else class_flag s in
              let group := if negb (char_at app 0 =? 0) && (sizegroup s =? 0) then 1 else sizegroup s in
              ({| inuse := inuse s; class_flag := flag; sizegroup := group; sizechain := sizechain s; prev_max := prev_max s |},
               Some {| cl_ok := ok; cl_mac := mac; cl_class := class + 1; cl_flag := flag; cl_conds := heads r saddr;
                       cl_chain := chain; cl_group := new |})
        end
  end.

Definition mark_of (c : classed) : Z := Z.lor (cl_class c) (cl_flag c).

Definition classed_rules (c : classed) : list write :=
  on (cl_chain c) size_chain ++
  match cl_group c with Some (group, max) => size_rules (cl_ok c) group max | None => [] end ++
  concat (map (classify (cl_ok c) (cl_mac c) (mark_of c)) (cl_conds c)).

(** The loop over the records: the last state and what they ask for. *)
Fixpoint rule_loop (s : qstate) (ps : list cstr) : qstate * list classed :=
  match ps with
  | [] => (s, [])
  | p :: ps =>
      let '(s, o) := prepare s p in
      let '(s, cs) := rule_loop s ps in (s, match o with Some c => c :: cs | None => cs end)
  end.

Definition qos_start : qstate := {| inuse := 0; class_flag := 0; sizegroup := 0; sizechain := false; prev_max := 0 |}.

(** Classification is switched off on some machines. *)
Definition unclassified : bool := has "TCONFIG_BCMARM" && (nvram_get_int !"qos_classify" =? 0).

Definition orules : cstr := if unclassified then disabled_classification_rules else nvram_safe_get !"qos_orules".

Definition default_class : Z :=
  let i := nvram_get_int !"qos_default" in if (i <? 0) || (9 <? i) then 3 else i.

(** Whoever no rule is for. *)
Definition default_rules (s : qstate) : list write :=
  let flag := if 0 <? sizegroup s then Z.shiftl 255 12 else class_flag s in
  concat (map (fun chain =>
    ip46t_write (ipv6 e) [Append chain [] (set_connmark (Z.lor (default_class + 1) flag))] ++
    ip46t_write (ipv6 e) [Append chain [] (Jump !"RETURN")]) [!"QOSO"; !"QOSO2"]).

(** ** The hooks *)

(** The WANs that count: the first, and those that are up; with their numbers and their
    first interface. *)
Definition qos_faces : list (Z * cstr) :=
  omap (fun p => let '(i, w) := p in
    if (i =? 1) || is_up (snprintf 32 (!"wan" ++ print_d i))
    then Some (i, default [] (face_name <$> head w.2)) else None)
    (imap (fun k w => (Z.of_nat k + 1, w)) (wans e)).

Definition restore_mark : target := Jump !"CONNMARK --restore-mark --mask 0xf".

Definition hooks : list write :=
  ipt_write (concat (map (fun f =>
    [Append !"FORWARD" [Out f.2] (Jump !"QOSO"); Append !"OUTPUT" [Out f.2] (Jump !"QOSO2");
     Append !"POSTROUTING" [Out f.2] restore_mark]) qos_faces)) ++
  on (has "TCONFIG_IPV6" && ipv6 e && negb (char_at (wan6face e) 0 =? 0))
    (ip6t_write
       [Append !"FORWARD" [Out (wan6face e)] (Jump !"QOSO");
        Append !"OUTPUT" [Out (wan6face e); Match !"-p icmpv6"] (Jump !"RETURN");
        Append !"OUTPUT" [Out (wan6face e)] (Jump !"QOSO2");
        Append !"POSTROUTING" [Out (wan6face e)] restore_mark]).

(** Bits of the classes: those of the rules, the first, and the bit whose number is one
    more than that of the WANs. *)
Definition inuse_of (s : qstate) : Z := Z.lor (inuse s) (Z.lor (Z.shiftl 1 (Z.of_nat (length (wans e)) + 1)) 1).

Definition rates_of (name : cstr) : cstr :=
  if unclassified then build_disabled_classification_rates MWAN_MAX else nvram_safe_get name.

(** Whether a rate is set for a class in use. *)
Definition shaped_at (inuse : Z) (i : nat) (p : cstr) : bool :=
  Z.testbit inuse (Z.of_nat i mod CLASSES_NUM) &&
  match rate_ceil p with Some (rate, _) => 1 <=? rate | None => false end.

Definition ingress (inuse : Z) : bool :=
  existsb id (imap (shaped_at inuse) (take (Z.to_nat (CLASSES_NUM * MWAN_MAX)) (strsep (chr ",") (rates_of !"qos_irates")))).

Definition ingress_rules : list write :=
  let imq := negb (has "TCONFIG_BCMARM") in
  let udp := negb (nvram_get_int !"qos_udp" =? 0) in
  let todev f n := Append !"PREROUTING" ([In f] ++ on udp [Match !"-p tcp"]) (Jump (!"IMQ --todev " ++ print_d n)) in
  ipt_write (
    map (fun f => Append !"PREROUTING" [In f.2] restore_mark) qos_faces ++
    on imq
      (on (has "TCONFIG_PPTPD" && negb (nvram_get_int !"pptpc_enable" =? 0) && negb (nvram_match !"pptpc_iface" []))
         [Append !"PREROUTING" [In (nvram_safe_get !"pptpc_iface")] restore_mark] ++
       map (fun f => todev f.2 (f.1 - 1)) qos_faces)) ++
  on (has "TCONFIG_IPV6" && ipv6 e && negb (char_at (wan6face e) 0 =? 0))
    (ip6t_write (Append !"PREROUTING" [In (wan6face e)] restore_mark :: on imq [todev (wan6face e) 0])).

Definition chain_head : list write :=
  ip46t_write (ipv6 e) [Chain !"QOSO" user; Append !"QOSO" settled (Jump !"RETURN")] ++
  ip46t_write (ipv6 e) [Chain !"QOSO2" user; Append !"QOSO2" settled (Jump !"RETURN")].

(** The rules, the new value of [qos_inuse] and the writes below [/proc/sys/net]. *)
Definition qos_rules : list write * option cstr * list (cstr * cstr) :=
  if nvram_get_int !"qos_enable" =? 0 then ([], None, [])
  else
    let '(s, cs) := rule_loop qos_start (strsep (chr ">") orules) in
    let used := inuse_of s in
    (chain_head ++ concat (map classed_rules cs) ++ default_rules s ++ hooks ++ on (ingress used) ingress_rules,
     Some (snprintf 32 (print_d used)),
     on (has "TCONFIG_BCMARM" && negb (nvram_get_int !"qos_stats" =? 0)) [(!"netfilter/nf_conntrack_acct", !"1")]).

End Rules.

(** [ipt_qos]: the store, the rules and the writes. *)
Definition ipt_qos {st : Store} {build : Build} {cfg : Config} {links : Links} {resolver : Resolver} {arch : Arch} (s : store) (e : env)
  : store * list write * list (cstr * cstr) :=
  let '(ws, used, sysctl) := qos_rules (nv := view s) e in
  (match used with Some u => set s !"qos_inuse" (Some u) | None => s end, ws, sysctl).

End Qos.
