(* ===== verification/QosRun.v ===== *)
(** The traffic classes of the quality of service
    (src/tomato64/package/rc/rc/qos.c: [prep_qosstr], [start_qos], [stop_qos]).

    The script that [start_qos] writes is the list of its lines; the static variables
    that [prep_qosstr] sets are the record [qosvars], which lives on between calls. *)

From Stdlib Require Import ZArith Lia.
From stdpp Require Import base list strings gmap.
From S2P Require Import Prelude Scan Nvram Inet Wan BuildConfig Defaults SaveVars Rules Ndpi FwEnv Firewall QuotaWindow Qos.

Local Open Scope Z_scope.
Local Open Scope rule_scope.

Module QosRun.
Import Scan Nvram Inet Wan BuildConfig SaveVars Rules Ndpi FwEnv Firewall Qos.

Definition quoted (s : cstr) : cstr := QuotaWindow.quoted s.
Definition tab (s : cstr) : cstr := 9 :: s.

(** ** The WAN at hand *)

Record qosvars := {
  qosfn : cstr;
  qosdev : cstr;
  qos_wan_num : Z;
  qos_rate_start_index : Z }.

Definition qosvars0 : qosvars :=
  {| qosfn := !"/etc/wanX_qos"; qosdev := !"iXXX"; qos_wan_num := 0; qos_rate_start_index := 0 |}.

(** A rate of a list, with the number of its class in the list. *)
Record rated := { r_index : Z; r_rate : Z; r_ceil : Z }.

Inductive effect :=
  | Modprobe (args : list cstr)
  | Modprobe_r (name : cstr)
  | Sysctl (name value : cstr)
  | Run (argv : list cstr).

Abbreviation disk := (gmap cstr (list cstr)).

Section Script.
Context {nv : Nvram} {build : Build} {cfg : Config} {links : Links} {arch : Arch}.

Definition prep_qosstr (v : qosvars) (prefix : cstr) : qosvars :=
  fold_left (fun v i =>
    if strcmp_eq prefix (get_wan_prefix i 8) then
      {| qosfn := strlcpy 14 (snprintf 8 (if i =? 1 then !"/etc/wan_qos" else !"/etc/wan" ++ print_d i ++ !"_qos"));
         qosdev := strlcpy 5 (snprintf 8 ((if has "TCONFIG_BCMARM" then !"ifb" else !"imq") ++ print_d (i - 1)));
         qos_wan_num := i;
         qos_rate_start_index := (i - 1) * 10 |}
    else v) (upto 1 MWAN_MAX) v.

(** [r2q] of htb for a speed in kbit. *)
Definition r2q_of (bw mtu : Z) : Z :=
  let bytes := u32 (bw * 1000) in
  if bytes / 80 <? mtu then let r := bytes / u32 (8 * mtu) in if r <? 1 then 1 else r
  else if 60000 <? bytes / 80 then bytes / 480000 + 1
  else 10.

Definition number (prefix : cstr) (name : string) : Z := u32 (strtoul10 (prefix_nvram_get prefix (bytes name) 100)).1.

Definition burst (name : cstr) : cstr :=
  let i := nvram_get_int name in if 0 <? i then snprintf 32 (!"burst " ++ print_d i ++ !"k") else [].

Definition cake : bool := nvram_get_int !"qos_mode" =? 2.

Definition leaf : cstr :=
  if cake then !"cake"
  else
    let x := nvram_get_int !"qos_pfifo" in
    if x =? 1 then !"pfifo limit 256" else if x =? 2 then !"codel" else if x =? 3 then !"fq_codel" else !"sfq perturb 10".

(** The rates of the classes of the WAN that are in use. *)
Definition rates (v : qosvars) (inuse : Z) (l : cstr) : list rated :=
  omap id (imap (fun k p =>
    let i := Z.of_nat k in
    if (i <? qos_rate_start_index v) || negb (Z.testbit inuse (i mod CLASSES_NUM)) then None
    else match rate_ceil p with
         | Some (rate, ceil) => if rate <? 1 then None else Some {| r_index := i; r_rate := rate; r_ceil := ceil |}
         | None => None
         end) (take (Z.to_nat (CLASSES_NUM * qos_wan_num v)) (strsep (chr ",") l))).

Definition arm : bool := has "TCONFIG_BCMARM".

Section Wan.
Variables (v : qosvars) (prefix : cstr).

Definition mtu : Z := number prefix "mtu".
Definition obw : Z := number prefix "qos_obw".
Definition ibw : Z := number prefix "qos_ibw".
Definition overhead : Z := number prefix "qos_overhead".
Definition encap : Z := prefix_nvram_get_int prefix !"qos_encap" 100.
Definition qosDefaultClassId : Z := u32 ((nvram_get_int !"qos_default" + 1) * 10).

(** The overhead of the link, for htb. *)
Definition overhead_of : cstr :=
  if 0 <? overhead then
    !" overhead " ++ print_u 10 overhead ++
    (if encap =? 0 then [] else if arm then !" linklayer atm" else !" atm")
  else [].

(** The root for cake, in one direction. *)
Definition cake_root (device way : string) (bw : Z) : cstr :=
  tab (bytes device ++ !" root handle 1: cake bandwidth " ++ print_u 10 bw ++ !"kbit nat " ++ bytes way ++ !" fwmark 0xf" ++
    (if 0 <? overhead then !" overhead " ++ print_u 10 overhead else []) ++
    (if encap =? 1 then !" atm" else if encap =? 2 then !" ptm" else !" noatm") ++
    (let m := nvram_get_int !"qos_cake_prio_mode" in
     if m =? 1 then !" diffserv8" else if m =? 2 then !" diffserv4" else if m =? 3 then !" diffserv3"
     else if m =? 4 then !" precedence" else !" besteffort") ++
    (if nvram_get_int !"qos_cake_wash" =? 0 then [] else !" wash")).

(** A class for packets to the internet with its queue and its filters. *)
Definition filter_line (device proto : string) (prio handle class : Z) : cstr :=
  tab (bytes device ++ !" parent 1: prio " ++ print_d prio ++ !" protocol " ++ bytes proto ++ !" handle " ++ print_d handle
       ++ !"/0xf fw flowid 1:" ++ print_d class).

Definition egress_class (r : rated) : list cstr :=
  let x := (r_index r + 1) * 10 in
  [tab (!"$TCA parent 1:1 classid 1:" ++ print_d x ++ !" htb rate " ++ print_u 10 (calc obw (r_rate r)) ++ !"kbit "
        ++ (if 0 <? r_ceil r then !"ceil " ++ print_u 10 (calc obw (r_ceil r)) ++ !"kbit" else [])
        +++ burst !"qos_burst1" ++ !" prio " ++ print_d (r_index r + 1) ++ !" quantum " ++ print_u 10 mtu ++ overhead_of);
   tab (!"$TQA parent 1:" ++ print_d x ++ !" handle " ++ print_d x ++ !": $Q");
   filter_line "$TFA" "ip" x (r_index r + 1) x] ++
  on (has "TCONFIG_IPV6") [filter_line "$TFA" "ipv6" (x + 100) (r_index r + 1) x].

Definition tcp_filter (prio bits : string) : list cstr :=
  [[]; tab (!"$TFA parent 1: prio " ++ bytes prio
            ++ !" protocol ip u32 match ip protocol 6 0xff match u8 0x05 0x0f at 0 match u16 0x0000 0xffc0 at 2 match u8 "
            ++ bytes bits ++ !" at 33 flowid 1:10")].

Definition set_on (name : cstr) : bool := negb (nvram_get_int name =? 0).

Definition short_packets : list cstr :=
  on (set_on !"qos_ack" && negb cake) (tcp_filter "14" "0x10 0xff") ++
  on (set_on !"qos_syn" && negb cake) (tcp_filter "15" "0x02 0x02") ++
  on (set_on !"qos_fin" && negb cake) (tcp_filter "17" "0x01 0x01") ++
  on (set_on !"qos_rst" && negb cake) (tcp_filter "19" "0x04 0x04") ++
  on (set_on !"qos_icmp" && negb cake)
    [[]; tab !"$TFA parent 1: prio 13 protocol ip u32 match ip protocol 1 0xff flowid 1:10"].

(** A class for packets from the internet; the first one comes with the root. *)
Definition ingress_class (first : bool) (r : rated) : list cstr :=
  let x := (r_index r + 1) * 10 in
  let rate := print_u 10 (calc ibw (r_rate r)) in
  let ceil := print_u 10 (calc ibw (r_ceil r)) in
  (if first then
     [tab (!"$TQA_QOS handle 1: root htb default " ++ print_u 10 qosDefaultClassId ++ !" r2q " ++ print_u 10 (r2q_of ibw mtu));
      tab (!"$TCA_QOS parent 1: classid 1:1 htb rate " ++ print_u 10 ibw ++ !"kbit ceil " ++ print_u 10 ibw ++ !"kbit"
           ++ overhead_of)]
   else [[]]) ++
  [tab (!"# class id " ++ print_u 10 x ++ !": rate " ++ rate ++ !"kbit ceil " ++ ceil ++ !"kbit");
   tab (!"$TCA_QOS parent 1:1 classid 1:" ++ print_u 10 x ++ !" htb rate " ++ rate ++ !"kbit ceil " ++ ceil ++ !"kbit prio "
        ++ print_u 10 (r_index r + 1) ++ !" quantum " ++ print_u 10 mtu ++
        (if 0 <? overhead then !" overhead " ++ print_u 10 overhead ++ (if arm then !" linklayer atm" else !" atm") else []));
   tab (!"$TQA_QOS parent 1:" ++ print_u 10 x ++ !" handle " ++ print_u 10 x ++ !": $Q");
   filter_line "$TFA_QOS" "ip" x (r_index r + 1) x] ++
  on (has "TCONFIG_IPV6") [filter_line "$TFA_QOS" "ipv6" (x + 100) (r_index r + 1) x].

Definition ingress_classes (rs : list rated) : list cstr :=
  concat (imap (fun k r => ingress_class (k =? 0)%nat r) rs).

(** What is caught of an address family to be shaped. *)
Definition caught (any : string) : cstr := if set_on !"qos_udp" then !"protocol 6 0xff" else bytes any.

Definition redirect (command ip proto prio any action : string) : cstr :=
  tab (bytes command ++ !" parent ffff: protocol " ++ bytes proto ++ !" prio " ++ bytes prio ++ !" u32 match " ++ bytes ip
       +++ caught any ++ !" action " ++ bytes action ++ !" egress redirect dev $QOS_DEV").

Definition assign (name value : string) : cstr := bytes name ++ !"=" ++ quoted (bytes value).

Definition preamble : list cstr :=
  [!"#!/bin/sh"; !"WAN_DEV=" ++ get_wanface prefix; !"QOS_DEV=" ++ qosdev v;
   assign "TQA" "tc qdisc add dev $WAN_DEV"; assign "TCA" "tc class add dev $WAN_DEV"; assign "TFA" "tc filter add dev $WAN_DEV";
   assign "TQA_QOS" "tc qdisc add dev $QOS_DEV"; assign "TCA_QOS" "tc class add dev $QOS_DEV";
   assign "TFA_QOS" "tc filter add dev $QOS_DEV"; !"Q=" ++ quoted leaf; [];
   !"case " ++ quoted !"$1" ++ !" in"; !"start)"; tab !"tc qdisc del dev $WAN_DEV root 2>/dev/null"].

Definition logger (s : cstr) : cstr := tab (!"logger -t qos " ++ quoted (!"QoS (" ++ prefix ++ !") " ++ s)).

Definition custom (what : string) : cstr :=
  tab (!"[ -f /etc/wan_qos.custom ] && /etc/wan_qos.custom " ++ bytes what +++ print_d (qos_wan_num v)).

Definition title (s : cstr) : cstr := !"echo " ++ quoted s.
Definition listing (dev : string) : list cstr :=
  [!"tc -s -d qdisc ls dev " ++ bytes dev; !"echo"; !"tc -s -d class ls dev " ++ bytes dev; !"echo"].

Definition closing : list cstr :=
  [[]; tab !"# set up the IFB device (otherwise this won't work) to limit the incoming data"; tab !"ip link set $QOS_DEV up"; [];
   logger !"custom script (if exists) starting"; custom "start"; logger !"custom script (if exists) started";
   logger !"is started"; tab !";;"; !"stop)"; logger !"custom script (if exists) stopping"; custom "stop";
   logger !"custom script (if exists) stopped"; tab !"ip link set $QOS_DEV down";
   tab !"tc qdisc del dev $WAN_DEV root 2>/dev/null"; tab !"tc qdisc del dev $QOS_DEV root 2>/dev/null"] ++
  on arm
    ([redirect "tc filter del dev $WAN_DEV" "ip" "ip" "10" "dst 0.0.0.0/0" "mirred" ++ !" 2>/dev/null"] ++
     on (has "TCONFIG_IPV6")
       [redirect "tc filter del dev $WAN_DEV" "ip6" "ipv6" "11" "dst ::/0" "mirred" ++ !" 2>/dev/null"]) ++
  [tab !"tc qdisc del dev $WAN_DEV ingress 2>/dev/null"; []; logger !"is stopped"; tab !";;"; !"*)"] ++
  map tab
    (title !"..." :: title !"... OUTGOING QDISCS AND CLASSES FOR $WAN_DEV" :: title !"..." :: listing "$WAN_DEV" ++
     title !"..." :: title !"... INCOMING QDISCS AND CLASSES FOR $WAN_DEV (routed through $QOS_DEV)" :: title !"..." ::
     listing "$QOS_DEV") ++
  [!"esac"].

(** The whole script. *)
Definition script : list cstr :=
  let inuse := nvram_get_int !"qos_inuse" in
  preamble ++
  (if arm && cake then [cake_root "$TQA" "egress" obw]
   else
     [tab (!"$TQA root handle 1: htb default " ++ print_u 10 qosDefaultClassId ++ !" r2q " ++ print_u 10 (r2q_of obw mtu));
      tab (!"$TCA parent 1: classid 1:1 htb rate " ++ print_u 10 obw ++ !"kbit ceil " ++ print_u 10 obw ++ !"kbit"
           +++ burst !"qos_burst0" ++ overhead_of)]) ++
  on (negb cake) (concat (map egress_class (rates v inuse (rates_of !"qos_orates")))) ++
  short_packets ++
  on arm [[]; tab !"tc qdisc del dev $WAN_DEV ingress 2>/dev/null"; tab !"$TQA handle ffff: ingress"] ++
  [[]; tab !"tc qdisc del dev $QOS_DEV 2>/dev/null"] ++
  (if negb cake then ingress_classes (rates v inuse (rates_of !"qos_irates"))
   else on arm [cake_root "$TQA_QOS" "ingress" ibw]) ++
  on arm
    ([[]; redirect "$TFA" "ip" "ip" "10" "dst 0.0.0.0/0" "connmark mirred"] ++
     on (has "TCONFIG_IPV6") [redirect "$TFA" "ip6" "ipv6" "11" "dst ::/0" "connmark mirred"]) ++
  closing.

End Wan.

(** Congestion control is set whether or not the quality of service is on. *)
Definition congestion_control : list effect :=
  let option name var := snprintf 10 (bytes name ++ !"=" ++ print_d (nvram_get_int (bytes var))) in
  if nvram_get_int !"ne_vegas" =? 0 then
    [Modprobe_r !"tcp_vegas"; Sysctl !"ipv4/tcp_congestion_control" (if arm then !"cubic" else !"reno")]
  else
    [Modprobe [!"tcp_vegas"; option "alpha" "ne_valpha"; option "beta" "ne_vbeta"; option "gamma" "ne_vgamma"]%string;
     Sysctl !"ipv4/tcp_congestion_control" !"vegas"].

Definition start_qos (v : qosvars) (d : disk) (prefix : cstr) : qosvars * disk * list effect :=
  if nvram_get_int !"qos_enable" =? 0 then (v, d, congestion_control)
  else
    let v := prep_qosstr v prefix in
    (v, <[qosfn v := script v prefix]> d, congestion_control ++ [Run [qosfn v; !"start"]]).

Definition stop_qos (v : qosvars) (d : disk) (prefix : cstr) : qosvars * list effect :=
  let v := prep_qosstr v prefix in
  (v, match d !! qosfn v with Some _ => [Run [qosfn v; !"stop"]] | None => [] end).

End Script.

End QosRun.
