(* ===== verification/QosSpec.v ===== *)
(** What the quality of service does to connections (Qos.v, QosRun.v): which class a
    connection gets, when it gets another one, and which traffic classes its packets
    meet. *)

From Stdlib Require Import ZArith Lia.
From stdpp Require Import base list strings gmap.
From S2P Require Import Prelude Scan Strings Nvram Inet Wan BuildConfig Defaults SaveVars Rules RestrictSpec RulesSpec Ndpi FwEnv Firewall.
From S2P Require Import DefaultsSpec Marks Qos QosRun QuotaDemo.

Local Open Scope Z_scope.
Local Open Scope rule_scope.

Module QosSpec.
Import Scan Strings Nvram Inet Wan BuildConfig SaveVars Rules RulesSpec Ndpi FwEnv Firewall Marks Qos.

(** ** Connection marks *)

(** The documented behaviour of the match [connmark] and of the target [CONNMARK]. *)




Section Conn.
Context {pk : Packet} {laws : PacketLaws}.




(** ** The parts of the mark *)

Definition class_of (m : Z) : Z := Z.land m 15.
Definition group_of (m : Z) : Z := Z.land m 1044480.
(** The reserved group: connections that are classified again with every packet. *)
Definition ALWAYS : Z := 1044480.










(** ** What the records ask for *)

Section Records.
Context {nv : Nvram} {build : Build} {cfg : Config} {links : Links} {resolver : Resolver} {arch : Arch}.
Variable e : env.








(** *** Texts *)











(** ** The chains as loaded *)



Definition v4 (c : classed) : bool := negb (Z.land (cl_ok c) IPT_V4 =? 0).

Definition passed (max : Z) : cond := connbytes (print_u 10 (ulong (max * 1024)) ++ !":").
































(** ** The walk *)

(** The first record that the packet meets, of those for this chain. *)
Definition chosen (own : bool) (cs : list classed) : option classed :=
  List.find (fun c => v4 c && negb (own && cl_mac c) && existsb (forallb fits) (cl_conds c)) cs.














(** Whether the connection has passed the size of its group. *)
Definition over (cs : list classed) (m : Z) : bool :=
  existsb (fun c => match cl_group c with
    | Some (g, max) => v4 c && (group_of m =? Z.shiftl g 12) && fits (passed max)
    | None => false
    end) cs.



(** Connections that keep their mark: those classified for good, and those of a size
    group that have not passed its size. *)
Definition keeps (s : qstate) (cs : list classed) (m : Z) : bool :=
  ((group_of m =? 0) && negb (class_of m =? 0)) ||
  (sizechain s && negb (group_of m =? 0) && negb (group_of m =? ALWAYS) && negb (over cs m)).



End Records.

End Conn.

(** A router with three records: web traffic, the first kilobytes of name lookups, and a
    range of ports; a packet to a web server. *)
Definition qos_settings : gmap cstr cstr := list_to_map (map (fun x => (bytes x.1, bytes x.2))
  [("qos_enable", "1"); ("qos_classify", "1"); ("qos_default", "3"); ("mwan_num", "1"); ("wan_proto", "dhcp");
   ("wan_iface", "vlan2"); ("wan_ifname", "vlan2");
   ("qos_orules", "0<<6<d<80<<<<1<Web>0<<-1<d<53<<0:10<<0<DNS>0<<17<x<1:5<<<<4<X")]%string).

#[local] Existing Instances QuotaDemo.four_wans QuotaDemo.no_files DefaultsSpec.pc_build.
#[local] Instance qos_nvram : Nvram := Defaults.view (st := DefaultsSpec.map_store) qos_settings.
#[local] Instance resolver4 : Resolver := {| getaddrinfo _ _ := [IPT_V4] |}.
#[local] Instance long64 : Arch := {| LONG_MAX := 2 ^ 63 - 1 |}.
#[local] Instance web_packet : Packet := {|
  in_if := !"br0"; out_if := !"vlan2"; ct_state := !"NEW";
  meets t := in_list t [!"-p tcp"; !"--dport 80"; []]; decides _ := None |}.

#[local] Instance web_laws : PacketLaws.
Proof. by constructor. Qed.

Definition demo_state : qstate := (rule_loop QuotaDemo.one_wan qos_start (strsep (chr ">") orules)).1.
Definition demo_records : list classed := (rule_loop QuotaDemo.one_wan qos_start (strsep (chr ">") orules)).2.



(** The new connection is classified as web traffic, by the first record. *)
Lemma web_class : keeps demo_state demo_records 256 = false /\ cl_class <$> chosen false demo_records = Some 2.
Proof. by split; vm_compute. Qed.

End QosSpec.

