(* ===== verification/QosRunSpec.v ===== *)
(** Which traffic class the packets of a connection meet (QosRun.v), given the class in the
    mark of the connection (QosSpec.v), and what becomes of the scripts of several WANs. *)

From Stdlib Require Import ZArith Lia.
From stdpp Require Import base list strings gmap.
From S2P Require Import Prelude Scan Strings Nvram Inet Wan BuildConfig Defaults DefaultsSpec SaveVars Rules RestrictSpec RulesSpec Ndpi FwEnv Firewall.
From S2P Require Import Marks Qos QosRun QosSpec QuotaDemo.

Local Open Scope Z_scope.
Local Open Scope rule_scope.

Module QosRunSpec.
Import Scan Strings Nvram Inet Wan BuildConfig SaveVars Rules RulesSpec Marks Ndpi FwEnv Firewall Qos QosRun QosSpec.

Section Script.
Context {nv : Nvram} {build : Build} {cfg : Config} {links : Links} {arch : Arch}.
Hypothesis few_wans : MWAN_MAX <= 9999.

Lemma in_upto i a n : i ∈ upto a n <-> a <= i < a + n.
Proof.
  unfold upto. rewrite list_elem_of_fmap. split.
  - intros (k & -> & Hk). apply elem_of_seq in Hk. lia.
  - intros H. exists (Z.to_nat (i - a)). split; [lia|]. apply elem_of_seq. lia.
Qed.

(** The static variables for a WAN: whichever it is, its script has the same name, because
    the buffer for the name takes seven characters. *)
Definition vars_of (i : Z) : qosvars :=
  {| qosfn := !"/etc/wa";
     qosdev := strlcpy 5 (snprintf 8 ((if has "TCONFIG_BCMARM" then !"ifb" else !"imq") ++ print_d (i - 1)));
     qos_wan_num := i; qos_rate_start_index := (i - 1) * 10 |}.

Lemma find_wan (A : Type) (f : Z -> A) i (l : list Z) (v : A) :
  1 <= i <= MWAN_MAX -> Forall (fun j => 1 <= j <= MWAN_MAX) l ->
  fold_left (fun v j => if strcmp_eq (get_wan_prefix i 8) (get_wan_prefix j 8) then f j else v) l v =
    if bool_decide (i ∈ l) then f i else v.
Proof.
  intros Hi Hl. revert v. induction Hl as [|j l Hj _ IH]; intros v; [done|]. cbn [fold_left]. rewrite IH.
  destruct (strcmp_eq _ _) eqn:E.
  - apply strcmp_eq_true, get_wan_prefix_inj in E as <-; try lia. rewrite (bool_decide_true (i ∈ i :: l)) by left.
    by destruct (bool_decide (i ∈ l)).
  - assert (i <> j) as Hne by (intros ->; by rewrite strcmp_eq_refl in E).
    erewrite (bool_decide_ext (i ∈ j :: l) (i ∈ l)); [done|]. rewrite elem_of_cons. naive_solver.
Qed.

Lemma prep_vars v i : 1 <= i <= MWAN_MAX -> prep_qosstr v (get_wan_prefix i 8) = vars_of i.
Proof.
  intros Hi. unfold prep_qosstr. erewrite (find_wan qosvars _ i).
  - rewrite bool_decide_true by (apply in_upto; lia). unfold vars_of. f_equal. by destruct (i =? 1).
  - done.
  - apply Forall_forall. intros j Hj. apply in_upto in Hj. lia.
Qed.

(** The rates of a WAN are those of its own classes. *)
Lemma rates_spec i inuse l r : 1 <= i ->
  r ∈ rates (vars_of i) inuse l <->
    (i - 1) * 10 <= r_index r < i * 10 /\ Z.testbit inuse (r_index r mod 10) = true /\ 1 <= r_rate r /\
    exists p, strsep (chr ",") l !! Z.to_nat (r_index r) = Some p /\ rate_ceil p = Some (r_rate r, r_ceil r).
Proof.
  intros Hi. unfold rates. rewrite list_elem_of_omap. cbn [qos_rate_start_index qos_wan_num vars_of].
  unfold CLASSES_NUM. split.
  - intros (o & Ho & Hr). apply elem_of_lookup_imap in Ho as (k & p & -> & Hp). unfold id in Hr.
    apply lookup_take_Some in Hp as [Hp Hk]. cbv beta zeta in Hr.
    destruct ((_ <? _) || _) eqn:E in Hr; [done|]. apply orb_false_iff in E as [E1 E2].
    destruct (rate_ceil p) as [[a b]|] eqn:Ep; [|done]. destruct (a <? 1) eqn:E3 in Hr; [done|]. propify. injection Hr as <-. cbn [r_index r_rate r_ceil].
    split; [lia|]. split; [by destruct (Z.testbit _ _)|]. split; [done|]. exists p. by rewrite Nat2Z.id.
  - intros (Hx & Hu & Hr & p & Hp & Ep). exists (Some r). split; [|done]. apply elem_of_lookup_imap.
    exists (Z.to_nat (r_index r)), p. split; [|apply lookup_take_Some; split; [done|lia]].
    rewrite Z2Nat.id by lia. rewrite Hu, Ep. rewrite (proj2 (Z.ltb_ge _ _)) by lia. cbn [orb negb].
    rewrite (proj2 (Z.ltb_ge _ _)) by lia. by destruct r.
Qed.

(** ** The filters of a script *)

(** The documented behaviour of the filter [handle h/0xf fw] of tc. *)
Definition fw_meets (h m : Z) : bool := Z.land m 15 =? h.

Definition digits (s : cstr) : cstr := take_until (fun c => negb (isdigit c)) s.

(** A filter for marks, read from a line of a script: the protocol it is for, its handle
    and the class it leads to. *)
Definition fw_filter (command : string) (l : cstr) : option (cstr * Z * Z) :=
  s ← strip (tab (bytes command ++ !" parent 1: prio ")) l;
  s ← strip !" protocol " (drop (length (digits s)) s);
  let proto := take_until (Z.eqb 32) s in
  s ← strip !" handle " (drop (length proto) s);
  let h := digits s in
  s ← strip !"/0xf fw flowid 1:" (drop (length h) s);
  if forallb isdigit s then Some (proto, atoi h, atoi s) else None.

Lemma strip_app p s : strip p (p ++ s) = Some s.
Proof.
  unfold strip. assert (prefix_of_str p (p ++ s) = true) as -> by (apply prefix_of_str_spec; eauto).
  by rewrite drop_app_length.
Qed.

Lemma digits_print n s : match s with [] => True | c :: _ => isdigit c = false end -> digits (print_u 10 n ++ s) = print_u 10 n.
Proof.
  intros Hs. apply take_until_app.
  - eapply Forall_impl; [apply print_u_digits|]. by intros c ->.
  - destruct s as [|c s]; [done|]. by rewrite Hs.
Qed.

Lemma filter_line_read command proto prio h k :
  0 <= prio -> 0 <= h < 2 ^ 31 -> 0 <= k < 2 ^ 31 -> Forall (fun c => (32 =? c) = false) (bytes proto) ->
  fw_filter command (filter_line command proto prio h k) = Some (bytes proto, h, k).
Proof.
  intros Hp Hh Hk Hproto. unfold fw_filter, filter_line. unfold print_d. rewrite !(proj2 (Z.ltb_ge _ 0)) by lia.
  assert (E : forall x, tab (bytes command ++ !" parent 1: prio " ++ x) = tab (bytes command ++ !" parent 1: prio ") ++ x)
    by (intros x; unfold tab; cbn [app]; by rewrite <- app_assoc).
  rewrite E, strip_app. cbn [mbind option_bind]. rewrite digits_print, drop_app_length, strip_app by done. cbn [mbind option_bind].
  assert (Ep : take_until (Z.eqb 32) (bytes proto ++ !" handle " ++ print_u 10 h ++ !"/0xf fw flowid 1:" ++ print_u 10 k) = bytes proto)
    by (by apply take_until_app).
  rewrite Ep, drop_app_length, strip_app. cbn [mbind option_bind]. rewrite digits_print, drop_app_length, strip_app by done.
  cbn [mbind option_bind]. rewrite (proj2 (forallb_forall isdigit _)).
  - by rewrite !atoi_print.
  - intros c Hc. pose proof (print_u_digits k) as Hd. rewrite Forall_forall in Hd. by apply Hd, list_elem_of_In.
Qed.

(** Lines of one direction, those that are no filters for marks, and the two commands. *)
Definition unfiltered (s : cstr) : Prop := fw_filter "$TFA" s = None /\ fw_filter "$TFA_QOS" s = None.

Inductive way := Out_ | In_.
Definition command (w : way) : string := match w with Out_ => "$TFA" | In_ => "$TFA_QOS" end.
Definition class_command (w : way) : string := match w with Out_ => "$TCA" | In_ => "$TCA_QOS" end.
Definition rates_name (w : way) : cstr := match w with Out_ => !"qos_orates" | In_ => !"qos_irates" end.

(** The filters for marks of the lines of a class: one for IPv4, and one for IPv6. *)
Definition class_filter (w : way) (r : rated) (s : cstr) : Prop :=
  forall w' proto h k, fw_filter (command w') s = Some (proto, h, k) -> w' = w /\ h = r_index r + 1 /\ k = (r_index r + 1) * 10.

Lemma unfiltered_any w r s : unfiltered s -> class_filter w r s.
Proof. intros [H1 H2] [] proto h k; cbn [command]; congruence. Qed.

Lemma filter_line_class w r proto prio : 0 <= prio -> 0 <= r_index r < 2 ^ 20 -> Forall (fun c => (32 =? c) = false) (bytes proto) ->
  class_filter w r (filter_line (command w) proto prio (r_index r + 1) ((r_index r + 1) * 10)).
Proof.
  intros Hp Hr Hproto w' proto' h k. destruct w, w'; cbn [command]; try (by intros E; discriminate E);
    rewrite filter_line_read by (done || lia); by intros [= _ <- <-].
Qed.

Ltac plain := repeat apply Forall_cons_2; try apply Forall_nil_2; try (split; reflexivity).

Lemma egress_filters prefix r : 0 <= r_index r < 2 ^ 20 -> Forall (class_filter Out_ r) (egress_class prefix r).
Proof.
  intros Hr. unfold egress_class. cbv zeta. apply Forall_app_2.
  - repeat apply Forall_cons_2; try apply Forall_nil_2; try (apply unfiltered_any; split; reflexivity).
    apply (filter_line_class Out_); [lia|done|by repeat constructor].
  - unfold on. destruct (has _); [|constructor]. apply Forall_singleton.
    apply (filter_line_class Out_); [lia|done|by repeat constructor].
Qed.

Lemma ingress_filters prefix first r : 0 <= r_index r < 2 ^ 20 -> Forall (class_filter In_ r) (ingress_class prefix first r).
Proof.
  intros Hr. unfold ingress_class. cbv zeta. apply Forall_app_2; [destruct first|apply Forall_app_2].
  - repeat apply Forall_cons_2; try apply Forall_nil_2; apply unfiltered_any; split; reflexivity.
  - repeat apply Forall_cons_2; try apply Forall_nil_2; apply unfiltered_any; split; reflexivity.
  - repeat apply Forall_cons_2; try apply Forall_nil_2; try (apply unfiltered_any; split; reflexivity).
    apply (filter_line_class In_); [lia|done|by repeat constructor].
  - unfold on. destruct (has _); [|constructor]. apply Forall_singleton.
    apply (filter_line_class In_); [lia|done|by repeat constructor].
Qed.

(** The other lines of a script. *)
Lemma unfiltered_on b l : (b = true -> Forall unfiltered l) -> Forall unfiltered (on b l).
Proof. destruct b; [by auto|constructor]. Qed.

Lemma preamble_unfiltered v prefix : Forall unfiltered (preamble v prefix).
Proof. unfold preamble. plain. Qed.

Lemma short_unfiltered : Forall unfiltered short_packets.
Proof. unfold short_packets, tcp_filter. repeat apply Forall_app_2; apply unfiltered_on; intros _; plain. Qed.

Lemma closing_unfiltered v prefix : Forall unfiltered (closing v prefix).
Proof.
  unfold closing. apply Forall_app_2; [plain|]. apply Forall_app_2.
  { apply unfiltered_on. intros _. apply Forall_app_2; [plain|apply unfiltered_on; intros _; plain]. }
  apply Forall_app_2; [plain|]. apply Forall_app_2; [|plain]. apply Forall_map. plain.
Qed.

(** A filter for marks in a script is that of a class of the WAN. *)
Lemma script_filters v prefix s w proto h k :
  cake = false -> qos_rate_start_index v = (qos_wan_num v - 1) * 10 -> 1 <= qos_wan_num v <= 9999 ->
  s ∈ script v prefix -> fw_filter (command w) s = Some (proto, h, k) ->
  exists r, r ∈ rates v (nvram_get_int !"qos_inuse") (rates_of (rates_name w)) /\ h = r_index r + 1 /\ k = (r_index r + 1) * 10.
Proof.
  intros Hc Hv Hn Hs Hf.
  assert (Hu : forall l, Forall unfiltered l -> s ∈ l -> False).
  { intros l Hl Hin. rewrite Forall_forall in Hl. destruct (Hl s Hin) as [H1 H2]. destruct w; cbn [command] in Hf; congruence. }
  assert (Hidx : forall inuse l r, r ∈ rates v inuse l -> 0 <= r_index r < 2 ^ 20).
  { intros inuse l r Hr. unfold rates in Hr. apply list_elem_of_omap in Hr as (o & Ho & Hr).
    apply elem_of_lookup_imap in Ho as (n & p & -> & Hp). apply lookup_take_Some in Hp as [_ Hp]. unfold id, CLASSES_NUM in *.
    cbv zeta in Hr. destruct ((_ <? _) || _) in Hr; [done|]. destruct (rate_ceil p) as [[a b]|]; [|done].
    destruct (a <? 1) in Hr; [done|]. injection Hr as <-. cbn [r_index]. lia. }
  unfold script in Hs. cbv zeta in Hs. rewrite Hc in Hs. rewrite andb_false_r in Hs. cbn [negb on] in Hs.
  rewrite !elem_of_app in Hs. destruct Hs as [H|[H|[H|[H|[H|[H|[H|[H|H]]]]]]]].
  - by apply (Hu _ (preamble_unfiltered v prefix)) in H.
  - exfalso. eapply Hu; [|exact H]. plain.
  - apply list_elem_of_In, in_concat in H as (ls & Hls & Hin). apply in_map_iff in Hls as (r & <- & Hr%list_elem_of_In).
    pose proof (egress_filters prefix r (Hidx _ _ _ Hr)) as He. rewrite Forall_forall in He.
    apply list_elem_of_In in Hin. destruct (He s Hin w proto h k Hf) as (-> & -> & ->). by exists r.
  - by apply (Hu _ short_unfiltered) in H.
  - exfalso. eapply Hu; [|exact H]. apply unfiltered_on. intros _. plain.
  - exfalso. eapply Hu; [|exact H]. plain.
  - unfold ingress_classes in H. apply list_elem_of_In, in_concat in H as (ls & Hls & Hin).
    apply list_elem_of_In, elem_of_lookup_imap in Hls as (n & r & -> & Hr%list_elem_of_lookup_2).
    pose proof (ingress_filters prefix (n =? 0)%nat r (Hidx _ _ _ Hr)) as He. rewrite Forall_forall in He.
    apply list_elem_of_In in Hin. destruct (He s Hin w proto h k Hf) as (-> & -> & ->). by exists r.
  - exfalso. eapply Hu; [|exact H]. apply unfiltered_on. intros _. apply Forall_app_2; [plain|].
    apply unfiltered_on. intros _. plain.
  - by apply (Hu _ (closing_unfiltered v prefix)) in H.
Qed.

(** The class and the filter of every rate are in the script. *)
Definition class_start (w : way) (k : Z) : cstr :=
  tab (bytes (class_command w) ++ !" parent 1:1 classid 1:" ++ print_u 10 k ++ !" htb rate ").

Lemma script_class v prefix w r :
  cake = false -> 0 <= r_index r < 2 ^ 20 -> r ∈ rates v (nvram_get_int !"qos_inuse") (rates_of (rates_name w)) ->
  filter_line (command w) "ip" ((r_index r + 1) * 10) (r_index r + 1) ((r_index r + 1) * 10) ∈ script v prefix /\
  exists rest, class_start w ((r_index r + 1) * 10) ++ rest ∈ script v prefix.
Proof.
  intros Hc Hi Hr. unfold script. cbv zeta. rewrite Hc, andb_false_r. cbn [negb on].
  destruct w; cbn [command rates_name] in *.
  - assert (Hin : forall s, s ∈ egress_class prefix r ->
      s ∈ concat (map (egress_class prefix) (rates v (nvram_get_int !"qos_inuse") (rates_of !"qos_orates")))).
    { intros s Hs. apply list_elem_of_In, in_concat. exists (egress_class prefix r). split; [|by apply list_elem_of_In].
      apply in_map. by apply list_elem_of_In. }
    split; [|eexists]; do 2 (apply elem_of_app; right); apply elem_of_app; left; apply Hin; unfold egress_class; cbv zeta; apply elem_of_app; left.
    + right. right. left.
    + assert (E : forall x : cstr, class_start Out_ ((r_index r + 1) * 10) ++ x =
        tab (!"$TCA parent 1:1 classid 1:" ++ print_d ((r_index r + 1) * 10) ++ !" htb rate " ++ x)).
      { intros x. unfold class_start, tab, print_d. rewrite (proj2 (Z.ltb_ge _ 0)) by lia. cbn [class_command app]. by rewrite <- !app_assoc. }
      rewrite E. left.
  - assert (Hin : exists first, forall s, s ∈ ingress_class prefix first r ->
      s ∈ ingress_classes prefix (rates v (nvram_get_int !"qos_inuse") (rates_of !"qos_irates"))).
    { apply list_elem_of_lookup in Hr as (n & Hn). exists (n =? 0)%nat. intros s Hs. unfold ingress_classes.
      apply list_elem_of_In, in_concat. exists (ingress_class prefix (n =? 0)%nat r). split; [|by apply list_elem_of_In].
      apply list_elem_of_In, elem_of_lookup_imap. by exists n, r. }
    destruct Hin as [first Hin].
    split; [|eexists]; do 6 (apply elem_of_app; right); apply elem_of_app; left; apply Hin; unfold ingress_class; cbv zeta; apply elem_of_app; right;
      apply elem_of_app; left.
    + right. right. right. left.
    + assert (E : forall x : cstr, class_start In_ ((r_index r + 1) * 10) ++ x =
        tab (!"$TCA_QOS parent 1:1 classid 1:" ++ print_u 10 ((r_index r + 1) * 10) ++ !" htb rate " ++ x)).
      { intros x. unfold class_start, tab. cbn [class_command app]. by rewrite <- !app_assoc. }
      rewrite E. right. left.
Qed.

(** C12: the filters for marks in the script that is written for the first WAN take the
    packets of a classified connection to its class, those in the script of another WAN
    take none. With the quality of service on, in the mode with classes (not cake), and for
    each direction: a filter for marks in the script of a WAN that takes packets of a
    connection with a class is in the script of the first WAN and leads to the class of
    that number; the script of the first WAN has such a filter, and the class it leads to,
    exactly when the class is in use and has a rate. (The classes of another WAN are
    numbered from eleven, which the four bits of the mark cannot hold. The filters for short
    packets do not look at the mark and are not considered.) *)
Theorem first_wan_shaped v d i m w :
  1 <= i <= MWAN_MAX -> nvram_get_int !"qos_enable" <> 0 -> cake = false -> 1 <= class_of m <= 10 ->
  exists lines, (start_qos v d (get_wan_prefix i 8)).1.2 !! (!"/etc/wa") = Some lines /\
  (forall s proto h k, s ∈ lines -> fw_filter (command w) s = Some (proto, h, k) -> fw_meets h m = true ->
     i = 1 /\ k = class_of m * 10) /\
  (i = 1 ->
     ((exists s h k, s ∈ lines /\ fw_filter (command w) s = Some (!"ip", h, k) /\ fw_meets h m = true) <->
      Z.testbit (nvram_get_int !"qos_inuse") (class_of m - 1) = true /\
      exists p rate ceil, strsep (chr ",") (rates_of (rates_name w)) !! Z.to_nat (class_of m - 1) = Some p /\
        rate_ceil p = Some (rate, ceil) /\ 1 <= rate) /\
     ((exists s h k, s ∈ lines /\ fw_filter (command w) s = Some (!"ip", h, k) /\ fw_meets h m = true) ->
      exists rest, class_start w (class_of m * 10) ++ rest ∈ lines)).
Proof.
  intros Hi He Hk Hc. unfold start_qos. rewrite (proj2 (Z.eqb_neq _ _) He), prep_vars by done. cbv zeta. cbn [fst snd qosfn vars_of].
  rewrite lookup_insert_eq. eexists. split; [done|].
  set (inuse := nvram_get_int !"qos_inuse"). set (l := rates_of (rates_name w)).
  assert (Hread : forall s proto h k, s ∈ script (vars_of i) (get_wan_prefix i 8) -> fw_filter (command w) s = Some (proto, h, k) ->
    exists r, r ∈ rates (vars_of i) inuse l /\ h = r_index r + 1 /\ k = (r_index r + 1) * 10).
  { intros s proto h k Hs Hf. apply (script_filters (vars_of i) (get_wan_prefix i 8) s w proto); try done; cbn [vars_of qos_wan_num]; lia. }
  assert (Hmeet : forall r, r ∈ rates (vars_of i) inuse l -> fw_meets (r_index r + 1) m = true -> i = 1 /\ r_index r = class_of m - 1).
  { intros r Hr Hm. apply rates_spec in Hr as (Hr & _); [|lia]. unfold fw_meets in Hm. fold (class_of m) in Hm. lia. }
  split; [|intros ->; split; [split|]].
  - intros s proto h k Hs Hf Hm. destruct (Hread s proto h k Hs Hf) as (r & Hr & -> & ->).
    destruct (Hmeet r Hr Hm) as [-> Er]. split; [done|lia].
  - intros (s & h & k & Hs & Hf & Hm). destruct (Hread s _ h k Hs Hf) as (r & Hr & -> & ->). destruct (Hmeet r Hr Hm) as [_ <-].
    apply rates_spec in Hr as (Hr & Hu & H1 & p & Hp & Ep); [|lia]. rewrite Z.mod_small in Hu by lia. split; [done|].
    by exists p, (r_rate r), (r_ceil r).
  - intros (Hu & p & a & b & Hp & Ep & Ha). set (r := {| r_index := class_of m - 1; r_rate := a; r_ceil := b |}).
    assert (Hr : r ∈ rates (vars_of 1) inuse l).
    { apply rates_spec; [lia|]. cbn [r_index r_rate r_ceil r]. rewrite Z.mod_small by lia. split; [lia|].
      split; [done|]. split; [done|]. by exists p. }
    destruct (script_class (vars_of 1) (get_wan_prefix 1 8) w r Hk) as [Hin _]; [cbn [r_index r]; lia|exact Hr|].
    eexists _, _, _. split; [exact Hin|]. cbn [r_index r]. split.
    + destruct w; apply filter_line_read; first [lia | by repeat constructor].
    + unfold fw_meets. apply Z.eqb_eq. fold (class_of m). lia.
  - intros (s & h & k & Hs & Hf & Hm). destruct (Hread s _ h k Hs Hf) as (r & Hr & -> & ->). destruct (Hmeet r Hr Hm) as [_ Er].
    destruct (script_class (vars_of 1) (get_wan_prefix 1 8) w r Hk) as [_ [rest Hin]]; [lia|exact Hr|].
    exists rest. by replace (class_of m * 10) with ((r_index r + 1) * 10) by lia.
Qed.

(** Starting two WANs leaves one script, that of the last, and stopping either runs it. *)
Lemma last_script_stays v d i j : 1 <= i <= MWAN_MAX -> 1 <= j <= MWAN_MAX -> nvram_get_int !"qos_enable" <> 0 ->
  let x := start_qos v d (get_wan_prefix i 8) in
  let y := start_qos x.1.1 x.1.2 (get_wan_prefix j 8) in
  y.1.2 = <[!"/etc/wa" := script (vars_of j) (get_wan_prefix j 8)]> d /\
  (stop_qos y.1.1 y.1.2 (get_wan_prefix i 8)).2 = [Run [!"/etc/wa"; !"stop"]].
Proof.
  intros Hi Hj He. unfold start_qos. rewrite (proj2 (Z.eqb_neq _ _) He). cbv zeta. cbn [fst snd].
  rewrite !prep_vars by done. unfold stop_qos. rewrite prep_vars by done. cbn [qosfn vars_of snd].
  rewrite insert_insert_eq, lookup_insert_eq. done.
Qed.

End Script.

#[local] Existing Instances QuotaDemo.four_wans QuotaDemo.no_files DefaultsSpec.pc_build qos_nvram long64.

Lemma first_wan_shaped_witness : exists lines,
  (start_qos qosvars0 ∅ (get_wan_prefix 1 8)).1.2 !! (!"/etc/wa") = Some lines /\
  forall s proto h k, s ∈ lines -> fw_filter (command Out_) s = Some (proto, h, k) -> fw_meets h 258 = true -> k = 20.
Proof.
  assert (Hw : MWAN_MAX <= 9999) by (vm_compute; discriminate).
  destruct (first_wan_shaped Hw qosvars0 ∅ 1 258 Out_) as (lines & H1 & H2 & _).
  - cbn. lia.
  - vm_compute. discriminate.
  - vm_compute. reflexivity.
  - vm_compute. split; discriminate.
  - exists lines. split; [exact H1|]. intros s proto h k Hs Hf Hm. exact (proj2 (H2 s proto h k Hs Hf Hm)).
Defined.

End QosRunSpec.
