(* ===== verification/Bandwidth.v ===== *)
(** The options of the bandwidth match:
    src/tomato64/package/gargoyle-bandwidth/extension/libxt_bandwidth.c.

    The extension turns the options of a rule into the record [info] that the kernel gets,
    and prints such a record as options. [opts] is the table that iptables gives to
    [getopt_long]; the functions of libxtables that read and write addresses are the class
    [Xtables]. What [parse] leaves behind is the record and the flags, whether the argument
    was valid, or that it ended the program. *)

From Stdlib Require Import ZArith Lia.
From stdpp Require Import base list strings.
From S2P Require Import Prelude Scan Inet Rules QuotaWindow.

Local Open Scope Z_scope.
Local Open Scope rule_scope.

Module Bandwidth.
Import Scan Inet.

Definition BANDWIDTH_INITIALIZED : Z := 1.
Definition BANDWIDTH_REQUIRES_SUBNET : Z := 2.
Definition BANDWIDTH_SUBNET : Z := 4.
Definition BANDWIDTH_CMP : Z := 8.
Definition BANDWIDTH_CURRENT : Z := 16.
Definition BANDWIDTH_RESET_INTERVAL : Z := 32.
Definition BANDWIDTH_RESET_TIME : Z := 64.
Definition BANDWIDTH_LAST_BACKUP : Z := 128.

Definition BANDWIDTH_TYPE : Z := 70.
Definition BANDWIDTH_ID : Z := 71.
Definition BANDWIDTH_GT : Z := 72.
Definition BANDWIDTH_LT : Z := 73.
Definition BANDWIDTH_MONITOR : Z := 74.
Definition BANDWIDTH_CHECK : Z := 75.
Definition BANDWIDTH_CHECK_NOSWAP : Z := 76.
Definition BANDWIDTH_CHECK_SWAP : Z := 77.
Definition BANDWIDTH_NUM_INTERVALS : Z := 78.

Definition BANDWIDTH_MINUTE : Z := 80.
Definition BANDWIDTH_HOUR : Z := 81.
Definition BANDWIDTH_DAY : Z := 82.
Definition BANDWIDTH_WEEK : Z := 83.
Definition BANDWIDTH_MONTH : Z := 84.
Definition BANDWIDTH_NEVER : Z := 85.

Definition BANDWIDTH_COMBINED : Z := 90.
Definition BANDWIDTH_INDIVIDUAL_SRC : Z := 91.
Definition BANDWIDTH_INDIVIDUAL_DST : Z := 92.
Definition BANDWIDTH_INDIVIDUAL_LOCAL : Z := 93.
Definition BANDWIDTH_INDIVIDUAL_REMOTE : Z := 94.

Definition BANDWIDTH_MAX_ID_LENGTH : nat := 50.

(** [struct xt_bandwidth_info] without the pointers of the kernel. An address is the
    sixteen octets of its union. *)
Record info := mk_info {
  id : cstr;
  type : Z;
  check_type : Z;
  local_subnet : list Z;
  local_subnet_mask : list Z;
  cmp : Z;
  reset_is_constant_interval : Z;
  reset_interval : Z;
  reset_time : Z;
  bandwidth_cutoff : Z;
  current_bandwidth : Z;
  next_reset : Z;
  last_backup_time : Z;
  num_intervals_to_save : Z }.

Definition set_id x '(mk_info _ t k s m c q r o w b n l v) := mk_info x t k s m c q r o w b n l v.
Definition set_type x '(mk_info i _ k s m c q r o w b n l v) := mk_info i x k s m c q r o w b n l v.
Definition set_subnet x y '(mk_info i t k _ _ c q r o w b n l v) := mk_info i t k x y c q r o w b n l v.
Definition set_cutoff x y '(mk_info i t k s m _ q r o _ b n l v) := mk_info i t k s m x q r o y b n l v.
Definition set_check x '(mk_info i t _ s m _ q r o w b n l v) := mk_info i t x s m BANDWIDTH_CHECK q r o w b n l v.
Definition set_current x '(mk_info i t k s m c q r o w _ n l v) := mk_info i t k s m c q r o w x n l v.
Definition set_interval x y '(mk_info i t k s m c _ _ o w b n l v) := mk_info i t k s m c y x o w b n l v.
Definition set_reset x '(mk_info i t k s m c q r _ w b n l v) := mk_info i t k s m c q r x w b n l v.
Definition set_backup x '(mk_info i t k s m c q r o w b n _ v) := mk_info i t k s m c q r o w b n x v.
Definition set_saved x '(mk_info i t k s m c q r o w b n l _) := mk_info i t k s m c q r o w b n l x.

(** The defaults, at the first option; the field for the cut-off is left as it is. *)
Definition defaults (rand : Z) (i : info) : info :=
  mk_info (print_u 10 rand) BANDWIDTH_COMBINED BANDWIDTH_CHECK_NOSWAP (repeat 0 16) (repeat 0 16) BANDWIDTH_MONITOR
    0 BANDWIDTH_NEVER 0 (bandwidth_cutoff i) 0 0 0 0.

Inductive outcome (A : Type) :=
  | Done (x : A)
  | Exit (message : cstr)
  | Fault.
Arguments Done {A} x.
Arguments Exit {A} message.
Arguments Fault {A}.

(** ** Words *)

(** The pieces between separators, at most [n] of them; with [rest] the last of [n] pieces
    is all that is left. *)
Fixpoint split_loop (n : nat) (sep : Z -> bool) (rest : bool) (s : cstr) : list cstr :=
  match n with
  | O => []
  | S n' =>
      match s with
      | [] => []
      | _ =>
          let piece := take_until sep s in
          (if (0 <? n')%nat || negb rest then piece else s) :: split_loop n' sep rest (skip_while sep (drop (length piece) s))
      end
  end.

Definition split_on_separators (line : option cstr) (seps : list Z) (max_pieces : Z) (rest : bool) : list cstr :=
  match line with
  | None => []
  | Some s =>
      let sep c := existsb (Z.eqb c) seps in
      let n := if max_pieces <? 0 then S (length (List.filter sep s)) else Z.to_nat max_pieces in
      split_loop n sep rest (skip_while sep s)
  end.

Definition white (c : Z) : bool := (c =? 32) || (c =? 9) || (c =? 10) || (c =? 13).

Definition trim_flanking_whitespace (s : cstr) : cstr := rev (skip_while white (rev (skip_while white s))).

(** ** Networks *)

(** Addresses as text in libxtables, four and sixteen octets. *)
Class Xtables := {
  numeric_to_ipaddr : cstr -> option (list Z);
  numeric_to_ip6addr : cstr -> option (list Z);
  ipaddr_to_numeric : list Z -> cstr;
  ip6addr_to_numeric : list Z -> cstr;
  ipmask_to_cidr : list Z -> Z;
  ip6mask_to_cidr : list Z -> Z }.

(** The value of [%lld] and of [%ld] with 64 bits, which saturate. *)
Definition scan_lld (s : cstr) : option Z :=
  '(neg, d, _) ← scan_numeral s;
  let v := dec_value 0 d in
  Some (if neg : bool then Z.max (- v) (- 2 ^ 63) else Z.min v (2 ^ 63 - 1)).

Definition NFPROTO_IPV4 : Z := 2.
Definition NFPROTO_IPV6 : Z := 10.

(** The four octets of a mask, in network order. *)
Definition htonl (w : Z) : list Z := rev (octets 4 w).

Definition and_octets (a m : list Z) : list Z := zip_with Z.land a m.

(** The first octets of a union. *)
Definition put_ip4 (a u : list Z) : list Z := a ++ drop 4 u.

(** A mask of [n] bits for an address of 128 bits; the number is not checked, and far out
    of range the octets written lie outside of the address. *)
Definition mask6 (n : Z) : option (list Z) :=
  if (n <=? -8) || (136 <=? n) then None
  else
    let ones := repeat 255 (Z.to_nat (Z.quot n 8)) ++ repeat 0 (16 - Z.to_nat (Z.quot n 8)) in
    Some (if n <? 128 then <[Z.to_nat (Z.quot n 8) := u8 (Z.shiftl 255 (8 - Z.land n 7))]> ones else ones).

Section Options.
Context {xt : Xtables}.

(** The network and its mask, and whether the argument is valid: an address is stored
    even where its mask is not valid. A missing mask is read through a null pointer, and a
    mask of no bits is a shift by the width of the word. *)
Definition parse_sub (s : cstr) (subnet mask : list Z) (family : Z) : outcome (list Z * list Z * bool) :=
  match split_on_separators (Some s) [chr "/"] 2 true with
  | a :: m :: _ =>
      let a := trim_flanking_whitespace a in
      let m := trim_flanking_whitespace m in
      if family =? NFPROTO_IPV4 then
        match numeric_to_ipaddr a with
        | None => Done (subnet, mask, false)
        | Some a =>
            let finish k := Done (put_ip4 (and_octets a k) subnet, put_ip4 k mask, true) in
            let invalid := Done (put_ip4 a subnet, mask, false) in
            match strchr m (chr ".") with
            | Some _ => match numeric_to_ipaddr m with Some k => finish k | None => invalid end
            | None =>
                match scan_d m with
                | None => invalid
                | Some (n, _) =>
                    if (0 <=? n) && (n <=? 32) then
                      if n =? 0 then Fault else finish (htonl (u32 (Z.shiftl 4294967295 (32 - n))))
                    else invalid
                end
            end
        end
      else
        match numeric_to_ip6addr a with
        | None => Done (subnet, mask, false)
        | Some a =>
            let finish k := Done (and_octets a k, k, true) in
            let invalid := Done (a, mask, false) in
            match strchr m (chr ":") with
            | Some _ => match numeric_to_ip6addr m with Some k => finish k | None => invalid end
            | None =>
                match scan_d m with
                | None => invalid
                | Some (n, _) => match mask6 n with Some k => finish k | None => Fault end
                end
            end
        end
  | _ => Fault
  end.

(** ** Reading options *)

(** The names of the intervals. *)
Definition interval_of (s : cstr) : option Z :=
  if strcmp_eq s !"minute" then Some BANDWIDTH_MINUTE
  else if strcmp_eq s !"hour" then Some BANDWIDTH_HOUR
  else if strcmp_eq s !"day" then Some BANDWIDTH_DAY
  else if strcmp_eq s !"week" then Some BANDWIDTH_WEEK
  else if strcmp_eq s !"month" then Some BANDWIDTH_MONTH
  else None.

(** The types, and whether they need a network. *)
Definition type_of (s : cstr) : option (Z * bool) :=
  if strcmp_eq s !"combined" then Some (BANDWIDTH_COMBINED, false)
  else if strcmp_eq s !"individual_src" then Some (BANDWIDTH_INDIVIDUAL_SRC, false)
  else if strcmp_eq s !"individual_dst" then Some (BANDWIDTH_INDIVIDUAL_DST, false)
  else if strcmp_eq s !"individual_local" then Some (BANDWIDTH_INDIVIDUAL_LOCAL, true)
  else if strcmp_eq s !"individual_remote" then Some (BANDWIDTH_INDIVIDUAL_REMOTE, true)
  else None.

(** The switch: the record, the flags, what is added to them and whether the argument is
    valid. *)
Definition option_case (family c : Z) (optarg : cstr) (flags : Z) (i : info) : outcome (info * Z * Z * bool) :=
  let free := Z.land flags BANDWIDTH_CMP =? 0 in
  if c =? BANDWIDTH_ID then
    Done (if (length optarg <? BANDWIDTH_MAX_ID_LENGTH)%nat then (set_id optarg i, flags, 0, true) else (i, flags, 0, false))
  else if c =? BANDWIDTH_TYPE then
    Done match type_of optarg with
         | Some (t, needs) => (set_type t i, (if needs then u32 (flags + BANDWIDTH_REQUIRES_SUBNET) else flags), 0, true)
         | None => (i, flags, 0, false)
         end
  else if c =? BANDWIDTH_SUBNET then
    match parse_sub optarg (local_subnet i) (local_subnet_mask i) family with
    | Done (a, m, valid) => Done (set_subnet a m i, flags, c, valid)
    | Exit m => Exit m
    | Fault => Fault
    end
  else if (c =? BANDWIDTH_LT) || (c =? BANDWIDTH_GT) then
    Done match scan_lld optarg with
         | Some v => if free then (set_cutoff c (u64 v) i, flags, BANDWIDTH_CMP, true) else (i, flags, BANDWIDTH_CMP, false)
         | None => (i, flags, BANDWIDTH_CMP, false)
         end
  else if (c =? BANDWIDTH_CHECK_NOSWAP) || (c =? BANDWIDTH_CHECK_SWAP) then
    Done (if free then (set_check c i, flags, BANDWIDTH_CMP, true) else (i, flags, BANDWIDTH_CMP, false))
  else if c =? BANDWIDTH_CURRENT then
    Done match scan_lld optarg with Some v => (set_current (u64 v) i, flags, c, true) | None => (i, flags, c, false) end
  else if c =? BANDWIDTH_RESET_INTERVAL then
    Done match interval_of optarg with
         | Some v => (set_interval v 0 i, flags, c, true)
         | None =>
             if strcmp_eq optarg !"never" then (set_interval BANDWIDTH_NEVER (reset_is_constant_interval i) i, flags, c, true)
             else match scan_lld optarg with Some v => (set_interval v 1 i, flags, c, true) | None => (i, flags, c, false) end
         end
  else if c =? BANDWIDTH_NUM_INTERVALS then
    Done match scan_lld optarg with Some v => (set_saved (u32 v) i, flags, 0, true) | None => (i, flags, 0, false) end
  else if c =? BANDWIDTH_RESET_TIME then
    Done match scan_lld optarg with Some v => (set_reset v i, flags, c, true) | None => (i, flags, c, false) end
  else if c =? BANDWIDTH_LAST_BACKUP then
    Done match scan_lld optarg with Some v => (set_backup v i, flags, c, true) | None => (i, flags, c, false) end
  else Done (i, flags, c, false).

Definition flag (flags f : Z) : bool := Z.land flags f =? f.

(** An offset that lies behind the end of its interval. *)
Definition reset_out_of_range (i : info) : bool :=
  (reset_interval i =? BANDWIDTH_NEVER) ||
  ((reset_interval i =? BANDWIDTH_MONTH) && (60 * 60 * 24 * 28 <=? reset_time i)) ||
  ((reset_interval i =? BANDWIDTH_WEEK) && (60 * 60 * 24 * 7 <=? reset_time i)) ||
  ((reset_interval i =? BANDWIDTH_DAY) && (60 * 60 * 24 <=? reset_time i)) ||
  ((reset_interval i =? BANDWIDTH_HOUR) && (60 * 60 <=? reset_time i)) ||
  ((reset_interval i =? BANDWIDTH_MINUTE) && (60 <=? reset_time i)).

Definition parse (rand family c : Z) (optarg : cstr) (flags : Z) (i : info) : outcome (info * Z * bool) :=
  let '(i, flags) := if flags =? 0 then (defaults rand i, BANDWIDTH_INITIALIZED) else (i, flags) in
  match option_case family c optarg flags i with
  | Done (i, flags, c, valid) =>
      let flags := u32 (flags + c) in
      if flag flags BANDWIDTH_RESET_TIME && flag flags BANDWIDTH_RESET_INTERVAL && reset_out_of_range i
      then Exit !"Parameter for '--reset_time' is not in valid range"
      else if negb (type i =? BANDWIDTH_COMBINED) && flag flags BANDWIDTH_CURRENT
      then Exit !"You may only specify current bandwidth for combined type"
      else Done (i, flags, valid)
  | Exit m => Exit m
  | Fault => Fault
  end.

(** The check behind the last option: a message when it ends the program. *)
Definition final_check (flags : Z) : option cstr :=
  if flags =? 0 then Some !"You must specify at least one argument. "
  else if (Z.land flags BANDWIDTH_RESET_INTERVAL =? 0) && negb (Z.land flags BANDWIDTH_RESET_TIME =? 0)
  then Some !"You may not specify '--reset_time' without '--reset_interval' "
  else if flag flags BANDWIDTH_REQUIRES_SUBNET && (Z.land flags BANDWIDTH_SUBNET =? 0)
  then Some !"You must specify a local subnet (--subnet a.b.c.d/mask) to match individual local/remote IPs "
  else None.

(** ** The table of options *)

(** Names, whether they have an argument, and codes. *)
Definition opts : list (cstr * (bool * Z)) :=
  [(!"id", (true, BANDWIDTH_ID)); (!"type", (true, BANDWIDTH_TYPE)); (!"subnet", (true, BANDWIDTH_SUBNET));
   (!"greater_than", (true, BANDWIDTH_GT)); (!"less_than", (true, BANDWIDTH_LT)); (!"current_bandwidth", (true, BANDWIDTH_CURRENT));
   (!"reset_interval", (true, BANDWIDTH_RESET_INTERVAL)); (!"reset_time", (true, BANDWIDTH_RESET_TIME));
   (!"intervals_to_save", (true, BANDWIDTH_NUM_INTERVALS)); (!"last_backup_time", (true, BANDWIDTH_LAST_BACKUP));
   (!"bcheck", (false, BANDWIDTH_CHECK_NOSWAP)); (!"bcheck_with_src_dst_swap", (false, BANDWIDTH_CHECK_SWAP))].

(** The documented behaviour of [getopt_long] for a word [--name]: the option of this
    name, or the only one whose name begins like this. *)
Definition getopt (w : cstr) : option (bool * Z) :=
  match w with
  | 45 :: 45 :: name =>
      match List.find (fun o => strcmp_eq o.1 name) opts with
      | Some o => Some o.2
      | None => match List.filter (fun o => prefix_of_str name o.1) opts with [o] => Some o.2 | _ => None end
      end
  | _ => None
  end.

(** All the options of a rule: the record and the flags, and whether all arguments were
    valid. An unknown option or one without its argument ends the program. *)
Fixpoint parse_all (rand family : Z) (ws : list cstr) (flags : Z) (i : info) (valid : bool) : outcome (info * Z * bool) :=
  let next o ws f :=
    match parse rand family o.2 (default [] (head ws)) flags i with
    | Done (i, flags, v) => f flags i (valid && v)
    | Exit m => Exit m
    | Fault => Fault
    end in
  match ws with
  | [] => match final_check flags with None => Done (i, flags, valid) | Some m => Exit m end
  | w :: ws =>
      match getopt w with
      | None => Exit !"unknown option"
      | Some o =>
          if o.1 then
            match ws with
            | [] => Exit !"option requires an argument"
            | _ :: ws' => next o ws (parse_all rand family ws')
            end
          else next o ws (parse_all rand family ws)
      end
  end.

(** ** Printing options *)

Definition option_text (name : string) (value : cstr) : cstr := !"--" ++ bytes name +++ value ++ !" ".

Definition print_interval (i : info) : cstr :=
  if negb (reset_is_constant_interval i =? 0) then option_text "reset_interval" (print_d (reset_interval i))
  else if reset_interval i =? BANDWIDTH_MINUTE then option_text "reset_interval" !"minute"
  else if reset_interval i =? BANDWIDTH_HOUR then option_text "reset_interval" !"hour"
  else if reset_interval i =? BANDWIDTH_DAY then option_text "reset_interval" !"day"
  else if reset_interval i =? BANDWIDTH_WEEK then option_text "reset_interval" !"week"
  else if reset_interval i =? BANDWIDTH_MONTH then option_text "reset_interval" !"month"
  else [].

Definition print_type (i : info) : cstr :=
  if type i =? BANDWIDTH_COMBINED then option_text "type" !"combined"
  else if type i =? BANDWIDTH_INDIVIDUAL_SRC then option_text "type" !"individual_src"
  else if type i =? BANDWIDTH_INDIVIDUAL_DST then option_text "type" !"individual_dst"
  else if type i =? BANDWIDTH_INDIVIDUAL_LOCAL then option_text "type" !"individual_local"
  else if type i =? BANDWIDTH_INDIVIDUAL_REMOTE then option_text "type" !"individual_remote"
  else [].

Definition print_subnet (family : Z) (i : info) : cstr :=
  if family =? NFPROTO_IPV4 then
    if forallb (Z.eqb 0) (take 4 (local_subnet i)) then []
    else option_text "subnet" (ipaddr_to_numeric (take 4 (local_subnet i)) ++ !"/" ++ print_d (ipmask_to_cidr (take 4 (local_subnet_mask i))))
  else
    if forallb (Z.eqb 0) (local_subnet i) then []
    else option_text "subnet" (ip6addr_to_numeric (local_subnet i) ++ !"/" ++ print_d (ip6mask_to_cidr (local_subnet_mask i))).

(** [now] is the time in seconds shifted to local time. *)
Definition print_bandwidth_args (now : Z) (i : info) (family : Z) : cstr :=
  (if cmp i =? BANDWIDTH_CHECK then
     if check_type i =? BANDWIDTH_CHECK_NOSWAP then !"--bcheck " else !"--bcheck_with_src_dst_swap "
   else []) ++
  option_text "id" (id i) ++
  (if cmp i =? BANDWIDTH_CHECK then []
   else
     print_type i ++ print_subnet family i ++
     (if cmp i =? BANDWIDTH_GT then option_text "greater_than" (print_d (s64 (bandwidth_cutoff i))) else []) ++
     (if cmp i =? BANDWIDTH_LT then option_text "less_than" (print_d (s64 (bandwidth_cutoff i))) else []) ++
     (if type i =? BANDWIDTH_COMBINED then
        option_text "current_bandwidth"
          (if negb (reset_interval i =? BANDWIDTH_NEVER) && negb (next_reset i =? 0) && (next_reset i <? now)
           then !"0" else print_d (s64 (current_bandwidth i)))
      else []) ++
     print_interval i ++
     (if 0 <? reset_time i then option_text "reset_time" (print_d (reset_time i)) else []) ++
     (if 0 <? num_intervals_to_save i then option_text "intervals_to_save" (print_d (s32 (num_intervals_to_save i))) else [])).

(** What [iptables -S] and [iptables-save] print. *)
Definition save (now local : Z) (i : info) (family : Z) : cstr :=
  print_bandwidth_args local i family ++ option_text "last_backup-time" (print_d now).

Definition print_mt (local : Z) (i : info) (family : Z) : cstr := !"bandwidth " ++ print_bandwidth_args local i family.

End Options.

(** ** The time zone *)

(** Day of the month, hour and minute. *)
Record broken := { tm_mday : Z; tm_hour : Z; tm_min : Z }.

Definition get_minutes_west (utc tz : broken) : Z :=
  let utc_day := if tm_mday utc <? tm_mday tz - 1 then tm_mday tz + 1 else tm_mday utc in
  let tz_day := if tm_mday tz <? utc_day - 1 then utc_day + 1 else tm_mday tz in
  (24 * 60 * utc_day + 60 * tm_hour utc + tm_min utc) - (24 * 60 * tz_day + 60 * tm_hour tz + tm_min tz).

(** Sets the time zone of the kernel, with the last check of a rule. *)
Definition set_kernel_timezone {calls : QuotaWindow.TzCalls} (utc tz : broken) (k : QuotaWindow.kernel) : QuotaWindow.kernel :=
  (QuotaWindow.settimeofday (get_minutes_west utc tz) k).2.

End Bandwidth.
