(* ===== verification/BandwidthSpec.v ===== *)
(** What the options of the bandwidth match mean (Bandwidth.v): the options that the quotas
    write (Quotas.v) are accepted and set the counter, the limit and the reset that the
    quota asks for, and what is printed is read back. *)

From Stdlib Require Import ZArith Lia.
From stdpp Require Import base list strings gmap.
From S2P Require Import Prelude Scan Strings Nvram Inet Wan BuildConfig Defaults SaveVars Rules RulesSpec Ndpi FwEnv Firewall.
From S2P Require Import QuotaWindow Quotas QuotaRun QuotasSpec QuotaRunSpec QuotaDemo Bandwidth.

Local Open Scope Z_scope.
Local Open Scope rule_scope.

Module BandwidthSpec.
Import Scan Strings Nvram Inet Wan BuildConfig SaveVars Rules RulesSpec FwEnv Firewall QuotaWindow Quotas QuotaRun QuotasSpec QuotaRunSpec.
Import Bandwidth.

(** ** Words *)

(** The documented behaviour of iptables-restore for the words of a line: blanks separate,
    and quotation marks hold a word together. *)
Fixpoint restore_words (s : cstr) (open : bool) (cur : option cstr) : list cstr :=
  match s with
  | [] => match cur with Some w => [w] | None => [] end
  | c :: s =>
      if c =? 34 then restore_words s (negb open) (Some (default [] cur))
      else if negb open && white c then
        match cur with Some w => w :: restore_words s false None | None => restore_words s false None end
      else restore_words s open (Some (default [] cur ++ [c]))
  end.

Definition words (s : cstr) : list cstr := restore_words s false None.

Definition plain_word (w : cstr) : Prop := w <> [] /\ Forall (fun c => c <> 34 /\ white c = false) w.
Definition ends_word (s : cstr) : Prop := s = [] \/ exists t, s = 32 :: t.

Lemma word_tail w s cur : Forall (fun c => c <> 34 /\ white c = false) w -> ends_word s ->
  restore_words (w ++ s) false (Some cur) = (cur ++ w) :: words s.
Proof.
  intros Hw Hs. revert cur. induction Hw as [|c w [Hc Hb] _ IH]; intros cur; cbn [app].
  - rewrite app_nil_r. destruct Hs as [->|[t ->]]; reflexivity.
  - cbn [restore_words]. rewrite (proj2 (Z.eqb_neq _ _) Hc), Hb. cbn [negb andb default from_option id]. rewrite IH.
    by rewrite <- app_assoc.
Qed.

Lemma word_step w s : plain_word w -> ends_word s -> words (32 :: w ++ s) = w :: words s.
Proof.
  intros [Hne Hw] Hs. destruct w as [|c w]; [done|]. unfold words at 1. cbn [restore_words app].
  apply Forall_cons in Hw as [[Hc Hb] Hw]. change (white 32) with true. change (32 =? 34) with false.
  rewrite (proj2 (Z.eqb_neq _ _) Hc), Hb. cbn [negb andb default from_option id app]. by apply word_tail.
Qed.

Lemma quoted_tail w s cur : Forall (fun c => c <> 34) w -> ends_word s ->
  restore_words (w ++ 34 :: s) true (Some cur) = (cur ++ w) :: words s.
Proof.
  intros Hw Hs. revert cur. induction Hw as [|c w Hc _ IH]; intros cur; cbn [app].
  - rewrite app_nil_r. destruct Hs as [->|[t ->]]; reflexivity.
  - cbn [restore_words]. rewrite (proj2 (Z.eqb_neq _ _) Hc). cbn [negb andb default from_option id]. rewrite IH.
    by rewrite <- app_assoc.
Qed.

Lemma quoted_step w s : Forall (fun c => c <> 34) w -> ends_word s -> words (32 :: quoted w ++ s) = w :: words s.
Proof.
  intros Hw Hs. unfold quoted, words at 1. cbn [restore_words app]. rewrite <- app_assoc. cbn [app].
  by apply quoted_tail.
Qed.

(** ** Numbers *)

Lemma lld_print n : 0 <= n < 2 ^ 63 -> scan_lld (print_u 10 n) = Some n.
Proof.
  intros Hn. assert (H := scan_numeral_print [] n [] ltac:(constructor) I). rewrite app_nil_r in H. cbn [app] in H.
  unfold scan_lld. rewrite H. cbn [mbind option_bind]. rewrite print_u_value by lia. f_equal. lia.
Qed.

Lemma print_plain n : 0 <= n -> plain_word (print_u 10 n).
Proof.
  intros Hn. split; [apply print_u_nonempty|]. eapply Forall_impl; [apply print_u_digits|]. intros c Hc. unfold isdigit in Hc. propify.
  unfold white. split; [lia|]. rewrite !(proj2 (Z.eqb_neq _ _)) by lia. done.
Qed.

Lemma d_print n : 0 <= n < 2 ^ 31 -> scan_d (print_u 10 n) = Some (n, []).
Proof.
  intros Hn. assert (H := scan_numeral_print [] n [] ltac:(constructor) I). rewrite app_nil_r in H. cbn [app] in H.
  unfold scan_d. rewrite H, print_u_value by lia. do 2 f_equal. unfold s32. rewrite Z.mod_small by lia. lia.
Qed.

Lemma print_d_nat n : 0 <= n -> print_d n = print_u 10 n.
Proof. intros Hn. unfold print_d. by rewrite (proj2 (Z.ltb_ge _ _)). Qed.

(** ** Single options *)

Section Options.
Context {xt : Xtables}.
Variable rand : Z.

Lemma parse_all_arg fam w c x ws fl i v : getopt w = Some (true, c) ->
  parse_all rand fam (w :: x :: ws) fl i v =
    match parse rand fam c x fl i with
    | Done (i, fl, v') => parse_all rand fam ws fl i (v && v')
    | Exit m => Exit m
    | Fault => Fault
    end.
Proof. intros H. cbn [parse_all]. by rewrite H. Qed.

(** The record and the flags behind the options of a rule of a quota. *)
Definition quota_info (id : cstr) (t : Z) (net mask : list Z) (n r off : Z) : info :=
  mk_info id t BANDWIDTH_CHECK_NOSWAP net mask BANDWIDTH_GT 0 r off n 0 0 0 0.

Lemma parse_id fam id i0 : (length id < 50)%nat ->
  parse rand fam BANDWIDTH_ID id 0 i0 = Done (set_id id (defaults rand i0), 1, true).
Proof.
  intros H. unfold parse. cbn [Z.eqb]. unfold option_case. change (BANDWIDTH_ID =? BANDWIDTH_ID) with true. cbn iota.
  rewrite (proj2 (Nat.ltb_lt _ _)) by done. reflexivity.
Qed.

Lemma parse_type fam s t needs i0 id : type_of s = Some (t, needs) ->
  parse rand fam BANDWIDTH_TYPE s 1 (set_id id (defaults rand i0)) =
    Done (set_type t (set_id id (defaults rand i0)), (if needs then 3 else 1), true).
Proof. intros H. unfold parse, option_case. cbn [Z.eqb]. rewrite H. destruct needs; cbn; destruct (negb _); reflexivity. Qed.

Lemma set_of_type i0 id t :
  set_type t (set_id id (defaults rand i0)) =
    mk_info id t BANDWIDTH_CHECK_NOSWAP (repeat 0 16) (repeat 0 16) BANDWIDTH_MONITOR 0 BANDWIDTH_NEVER 0 (bandwidth_cutoff i0) 0 0 0 0.
Proof. done. Qed.

Lemma parse_step fam c x fl i i' cc : (fl =? 0) = false -> option_case fam c x fl i = Done (i', fl, cc, true) ->
  flag (u32 (fl + cc)) BANDWIDTH_CURRENT = false ->
  parse rand fam c x fl i =
    (if flag (u32 (fl + cc)) BANDWIDTH_RESET_TIME && flag (u32 (fl + cc)) BANDWIDTH_RESET_INTERVAL && reset_out_of_range i'
     then Exit !"Parameter for '--reset_time' is not in valid range" else Done (i', u32 (fl + cc), true)).
Proof. intros H1 H2 H3. unfold parse. rewrite H1, H2, H3, andb_false_r. by destruct (_ && _). Qed.

Lemma gt_case fam n fl i : 0 <= n < 2 ^ 63 -> Z.land fl BANDWIDTH_CMP = 0 ->
  option_case fam BANDWIDTH_GT (print_u 10 n) fl i = Done (set_cutoff BANDWIDTH_GT n i, fl, BANDWIDTH_CMP, true).
Proof. intros Hn Hf. unfold option_case. rewrite Hf, lld_print by done. unfold u64. by rewrite Z.mod_small by lia. Qed.

Lemma interval_case fam s r fl i : interval_of s = Some r ->
  option_case fam BANDWIDTH_RESET_INTERVAL s fl i = Done (set_interval r 0 i, fl, BANDWIDTH_RESET_INTERVAL, true).
Proof. intros H. unfold option_case. by rewrite H. Qed.

Lemma time_case fam n fl i : 0 <= n < 2 ^ 63 ->
  option_case fam BANDWIDTH_RESET_TIME (print_u 10 n) fl i = Done (set_reset n i, fl, BANDWIDTH_RESET_TIME, true).
Proof. intros H. unfold option_case. by rewrite lld_print. Qed.

(** From the limit on, without or with a network in front. *)
Lemma parse_limit fam id t net mask w n r off reset (fl : Z) :
  0 <= n < 2 ^ 63 -> 0 <= off < 2 ^ 63 -> interval_of reset = Some r -> fl = 1 \/ fl = 7 ->
  parse_all rand fam [!"--greater_than"; print_u 10 n; !"--reset_interval"; reset; !"--reset_time"; print_u 10 off] fl
    (mk_info id t BANDWIDTH_CHECK_NOSWAP net mask BANDWIDTH_MONITOR 0 BANDWIDTH_NEVER 0 w 0 0 0 0) true =
  (let i := quota_info id t net mask n r off in
   if reset_out_of_range i then Exit !"Parameter for '--reset_time' is not in valid range" else Done (i, fl + 104, true)).
Proof.
  intros Hn Ho Hr Hfl. cbv zeta. rewrite (parse_all_arg _ _ BANDWIDTH_GT) by reflexivity.
  erewrite (parse_step _ _ _ fl _ _ BANDWIDTH_CMP);
    [|by destruct Hfl as [-> | ->]|apply gt_case; [done|by destruct Hfl as [-> | ->]]|by destruct Hfl as [-> | ->]].
  assert (E1 : u32 (fl + BANDWIDTH_CMP) = fl + 8) by (by destruct Hfl as [-> | ->]). rewrite E1.
  assert (E2 : flag (fl + 8) BANDWIDTH_RESET_TIME = false) by (by destruct Hfl as [-> | ->]). rewrite E2. cbn [andb].
  rewrite (parse_all_arg _ _ BANDWIDTH_RESET_INTERVAL) by reflexivity.
  erewrite (parse_step _ _ _ _ _ _ BANDWIDTH_RESET_INTERVAL);
    [|by destruct Hfl as [-> | ->]|by apply interval_case|by destruct Hfl as [-> | ->]].
  assert (E3 : u32 (fl + 8 + BANDWIDTH_RESET_INTERVAL) = fl + 40) by (by destruct Hfl as [-> | ->]). rewrite E3.
  assert (E4 : flag (fl + 40) BANDWIDTH_RESET_TIME = false) by (by destruct Hfl as [-> | ->]). rewrite E4. cbn [andb].
  rewrite (parse_all_arg _ _ BANDWIDTH_RESET_TIME) by reflexivity.
  erewrite (parse_step _ _ _ _ _ _ BANDWIDTH_RESET_TIME);
    [|by destruct Hfl as [-> | ->]|by apply time_case|by destruct Hfl as [-> | ->]].
  assert (E5 : u32 (fl + 40 + BANDWIDTH_RESET_TIME) = fl + 104) by (by destruct Hfl as [-> | ->]). rewrite E5.
  assert (E6 : flag (fl + 104) BANDWIDTH_RESET_TIME && flag (fl + 104) BANDWIDTH_RESET_INTERVAL = true) by (by destruct Hfl as [-> | ->]).
  rewrite E6. cbn [andb]. change (set_reset off _) with (quota_info id t net mask n r off).
  destruct (reset_out_of_range _); [done|]. cbn [parse_all].
  assert (E7 : final_check (fl + 104) = None) by (by destruct Hfl as [-> | ->]). by rewrite E7.
Qed.

(** ** The network *)

Class XtablesLaws := {
  ipaddr_read a : is_ipv4 a -> numeric_to_ipaddr (inet_ntoa a) = Some a }.

Definition mask4 (bits : Z) : list Z := htonl (u32 (Z.shiftl 4294967295 (32 - bits))).

Lemma trim_plain s : Forall (fun c => white c = false) s -> trim_flanking_whitespace s = s.
Proof.
  intros H. unfold trim_flanking_whitespace.
  assert (Hs : forall t, Forall (fun c => white c = false) t -> skip_while white t = t).
  { intros t Ht. destruct Ht as [|c t Hc _]; [done|]. cbn [skip_while]. by rewrite Hc. }
  rewrite (Hs s H), Hs by (by apply Forall_rev). apply rev_involutive.
Qed.

Definition address_char (c : Z) : Prop := isdigit c = true \/ c = 46.

Lemma digits_address n : Forall address_char (print_u 10 n).
Proof. eapply Forall_impl; [apply print_u_digits|]. intros c Hc. by left. Qed.

Lemma ntoa_address_chars a : is_ipv4 a -> Forall address_char (inet_ntoa a) /\ inet_ntoa a <> [].
Proof.
  intros [Hl _]. destruct a as [|a0 [|a1 [|a2 [|a3 [|]]]]]; try done. unfold inet_ntoa. split.
  - repeat (apply Forall_app; split; [apply digits_address|]; try (apply Forall_cons; split; [by right|])). apply digits_address.
  - intros E. apply app_eq_nil in E as [E _]. by apply print_u_nonempty in E.
Qed.

Lemma address_plain c : address_char c -> c <> 34 /\ white c = false /\ (c =? 47) = false.
Proof.
  intros H. assert (Hc : 46 <= c <= 57 /\ c <> 47).
  { destruct H as [H | ->]; [|lia]. unfold isdigit in H. propify. lia. }
  unfold white. rewrite !(proj2 (Z.eqb_neq _ _)) by lia. split; [lia|done].
Qed.

Lemma split_slash a b : Forall address_char a -> a <> [] -> Forall address_char b -> b <> [] ->
  split_on_separators (Some (a ++ chr "/" :: b)) [chr "/"] 2 true = [a; b].
Proof.
  intros Ha Hna Hb Hnb. unfold split_on_separators. change (2 <? 0) with false. change (Z.to_nat 2) with 2%nat. cbv zeta.
  set (sep := fun c => existsb (Z.eqb c) [chr "/"]).
  assert (Hsep : forall c, address_char c -> sep c = false).
  { intros c Hc. unfold sep. change (chr "/") with 47. cbn [existsb]. apply address_plain in Hc as (_ & _ & ->). done. }
  assert (Hskip : forall s t, Forall address_char s -> s <> [] -> skip_while sep (s ++ t) = s ++ t).
  { intros s t Hs Hn. destruct Hs as [|c s Hc _]; [done|]. cbn [app skip_while]. by rewrite Hsep. }
  assert (Htake : forall s t, Forall address_char s -> take_until sep (s ++ chr "/" :: t) = s).
  { intros s t Hs. induction Hs as [|c s Hc _ IH]; [done|]. cbn [app take_until]. rewrite Hsep by done. by rewrite IH. }
  rewrite Hskip by done. destruct a as [|c a]; [done|]. cbn [split_loop app]. change (c :: a ++ chr "/" :: b) with ((c :: a) ++ chr "/" :: b).
  rewrite Htake by done. change ((0 <? 1)%nat || negb true) with true. rewrite drop_app_length. cbn iota.
  assert (E : skip_while sep (chr "/" :: b) = b).
  { rewrite <- (app_nil_r b). change (skip_while sep (chr "/" :: (b ++ []))) with (skip_while sep (b ++ [])). by apply Hskip. }
  rewrite E. destruct b as [|d b]; [done|]. done.
Qed.


Context {laws : XtablesLaws}.

Lemma subnet_case net bits fl i : is_ipv4 net -> 1 <= bits <= 32 ->
  option_case NFPROTO_IPV4 BANDWIDTH_SUBNET (inet_ntoa net ++ chr "/" :: print_u 10 bits) fl i =
    Done (set_subnet (put_ip4 (and_octets net (mask4 bits)) (local_subnet i)) (put_ip4 (mask4 bits) (local_subnet_mask i)) i,
          fl, BANDWIDTH_SUBNET, true).
Proof.
  intros Hn Hb. destruct (ntoa_address_chars net Hn) as [Hc Hne]. assert (Hw : forall s, Forall address_char s -> Forall (fun c => white c = false) s).
  { intros s H. eapply Forall_impl; [exact H|]. intros c Hx. apply (address_plain c Hx). }
  assert (Hs : parse_sub (inet_ntoa net ++ chr "/" :: print_u 10 bits) (local_subnet i) (local_subnet_mask i) NFPROTO_IPV4 =
    Done (put_ip4 (and_octets net (mask4 bits)) (local_subnet i), put_ip4 (mask4 bits) (local_subnet_mask i), true)).
  { unfold parse_sub. rewrite split_slash by (done || apply digits_address || apply print_u_nonempty).
    rewrite (trim_plain (inet_ntoa net)), (trim_plain (print_u 10 bits)) by (apply Hw; first [exact Hc | apply digits_address]). cbv zeta. cbn [Z.eqb NFPROTO_IPV4 Pos.eqb].
    rewrite ipaddr_read by done. rewrite strchr_not_in.
    - rewrite d_print by lia. rewrite (proj2 (Z.leb_le 0 bits)), (proj2 (Z.leb_le bits 32)) by lia. cbn [andb].
      by rewrite (proj2 (Z.eqb_neq bits 0)) by lia.
    - intros Hin. assert (Hd := print_u_digits bits). rewrite Forall_forall in Hd. apply Hd in Hin. done. }
  unfold option_case. by rewrite Hs.
Qed.

Lemma network_plain net bits : is_ipv4 net -> 1 <= bits <= 32 -> plain_word (inet_ntoa net ++ chr "/" :: print_u 10 bits).
Proof.
  intros Hn Hb. destruct (ntoa_address_chars net Hn) as [Hc Hne]. split; [by destruct (inet_ntoa net)|].
  assert (Hw : forall s, Forall address_char s -> Forall (fun c => c <> 34 /\ white c = false) s).
  { intros s H. eapply Forall_impl; [exact H|]. intros c Hx. apply address_plain in Hx. tauto. }
  apply Forall_app. split; [by apply Hw|]. apply Forall_cons. split; [done|]. apply Hw, digits_address.
Qed.

Lemma network_octets a u : length a = 4%nat -> take 4 (put_ip4 a u) = a.
Proof. intros Ha. unfold put_ip4. by rewrite <- Ha, take_app_length. Qed.

(** The options of a rule of a quota. *)
Definition quota_options (id typ : cstr) (sub : list cstr) (n : Z) (reset : cstr) (off : Z) : list cstr :=
  [!"--id"; id; !"--type"; typ] ++ sub ++
  [!"--greater_than"; print_u 10 n; !"--reset_interval"; reset; !"--reset_time"; print_u 10 off].

Definition out_of_range : cstr := !"Parameter for '--reset_time' is not in valid range".

Lemma plain_options fam i0 id typ t n reset r off : (length id < 50)%nat -> type_of typ = Some (t, false) ->
  0 <= n < 2 ^ 63 -> 0 <= off < 2 ^ 63 -> interval_of reset = Some r ->
  parse_all rand fam (quota_options id typ [] n reset off) 0 i0 true =
    (let i := quota_info id t (repeat 0 16) (repeat 0 16) n r off in
     if reset_out_of_range i then Exit out_of_range else Done (i, 105, true)).
Proof.
  intros Hid Ht Hn Ho Hr. unfold quota_options. cbn [app]. rewrite (parse_all_arg _ _ BANDWIDTH_ID) by reflexivity.
  rewrite parse_id by done. rewrite (parse_all_arg _ _ BANDWIDTH_TYPE) by reflexivity.
  rewrite (parse_type _ _ _ _ _ _ Ht), set_of_type. cbn [andb]. by apply parse_limit; [| | |left].
Qed.

Lemma subnet_options i0 id typ t net bits n reset r off : (length id < 50)%nat -> type_of typ = Some (t, true) ->
  is_ipv4 net -> 1 <= bits <= 32 -> 0 <= n < 2 ^ 63 -> 0 <= off < 2 ^ 63 -> interval_of reset = Some r ->
  parse_all rand NFPROTO_IPV4 (quota_options id typ [!"--subnet"; inet_ntoa net ++ chr "/" :: print_u 10 bits] n reset off) 0 i0 true =
    (let i := quota_info id t (put_ip4 (and_octets net (mask4 bits)) (repeat 0 16)) (put_ip4 (mask4 bits) (repeat 0 16)) n r off in
     if reset_out_of_range i then Exit out_of_range else Done (i, 111, true)).
Proof.
  intros Hid Ht Hnet Hb Hn Ho Hr. unfold quota_options. cbn [app]. rewrite (parse_all_arg _ _ BANDWIDTH_ID) by reflexivity.
  rewrite parse_id by done. rewrite (parse_all_arg _ _ BANDWIDTH_TYPE) by reflexivity.
  rewrite (parse_type _ _ _ _ _ _ Ht), set_of_type. cbn [andb].
  rewrite (parse_all_arg _ _ BANDWIDTH_SUBNET) by reflexivity.
  erewrite (parse_step _ _ _ 3 _ _ BANDWIDTH_SUBNET); [|done|by apply subnet_case|done].
  change (u32 (3 + BANDWIDTH_SUBNET)) with 7. change (flag 7 BANDWIDTH_RESET_TIME) with false. cbn [andb].
  apply parse_limit; [done..|by right].
Qed.


End Options.

(** ** The rules of the quotas *)

Lemma ends_nil : ends_word [].
Proof. by left. Qed.

Lemma ends_blank s : ends_word (32 :: s).
Proof. right. by eexists. Qed.
#[local] Hint Resolve ends_nil ends_blank : core.

Lemma plain_dec w : bool_decide (w <> []) && forallb (fun c => negb (c =? 34) && negb (white c)) w = true -> plain_word w.
Proof.
  intros H. apply andb_true_iff in H as [H1 H2]. split; [by apply bool_decide_eq_true in H1|].
  rewrite forallb_forall in H2. apply Forall_forall. intros c Hc. apply list_elem_of_In, H2 in Hc. apply andb_true_iff in Hc as [Ha Hb].
  apply negb_true_iff in Ha, Hb. split; [by apply Z.eqb_neq|done].
Qed.

(** The text of the match, if it is not cut. *)
Definition match_text (id typ subnet : cstr) (n : Z) (reset : cstr) (off : Z) : cstr :=
  !" -m bandwidth --id " ++ quoted id ++ !" --type " ++ typ ++ subnet ++ !" --greater_than " ++ print_u 10 n ++
  !" --reset_interval " ++ reset ++ !" --reset_time " ++ print_u 10 off.

Lemma tail_words n reset off : 0 <= n -> 0 <= off -> plain_word reset ->
  words (!" --greater_than " ++ print_u 10 n ++ !" --reset_interval " ++ reset ++ !" --reset_time " ++ print_u 10 off) =
    [!"--greater_than"; print_u 10 n; !"--reset_interval"; reset; !"--reset_time"; print_u 10 off].
Proof.
  intros Hn Ho Hr.
  change (!" --greater_than " ++ ?x) with (32 :: !"--greater_than" ++ 32 :: x).
  change (!" --reset_interval " ++ ?x) with (32 :: !"--reset_interval" ++ 32 :: x).
  change (!" --reset_time " ++ ?x) with (32 :: !"--reset_time" ++ 32 :: x).
  rewrite word_step by (done || by apply plain_dec). rewrite word_step by (done || by apply print_plain).
  rewrite word_step by (done || by apply plain_dec). rewrite word_step by done.
  rewrite word_step by (done || by apply plain_dec). rewrite <- (app_nil_r (print_u 10 off)) at 1.
  by rewrite word_step by (done || by apply print_plain).
Qed.

Lemma match_words id typ subnet sub n reset off : Forall (fun c => c <> 34) id -> plain_word typ -> 0 <= n -> 0 <= off -> plain_word reset ->
  (subnet = [] /\ sub = []) \/ (exists x, plain_word x /\ subnet = !" --subnet " ++ x /\ sub = [!"--subnet"; x]) ->
  words (match_text id typ subnet n reset off) = !"-m" :: !"bandwidth" :: quota_options id typ sub n reset off.
Proof.
  intros Hid Ht Hn Ho Hr Hs. unfold match_text, quota_options. set (tl := !" --greater_than " ++ _).
  assert (Htl : ends_word tl) by (by right; eexists). assert (Hw := tail_words n reset off Hn Ho Hr). fold tl in Hw.
  change (!" -m bandwidth --id " ++ ?x) with (32 :: !"-m" ++ 32 :: !"bandwidth" ++ 32 :: !"--id" ++ 32 :: x).
  change (!" --type " ++ ?x) with (32 :: !"--type" ++ 32 :: x).
  do 3 (rewrite word_step by (done || by apply plain_dec)). rewrite quoted_step by done.
  rewrite word_step by (done || by apply plain_dec). destruct Hs as [[-> ->]|(x & Hx & -> & ->)].
  - cbn [app]. by rewrite word_step, Hw.
  - rewrite word_step by (done || by right; eexists). rewrite <- app_assoc.
    change (!" --subnet " ++ ?x) with (32 :: !"--subnet" ++ 32 :: x).
    rewrite word_step by (done || by apply plain_dec). by rewrite word_step, Hw.
Qed.


Lemma nth_in_lookup {A} k (l : list A) d : (k < length l)%nat -> nth k l d ∈ l.
Proof. intros H. apply list_elem_of_In, nth_In. done. Qed.

Section Composition.
Context {nv : Nvram} {cfg : Config} {build : Build} {links : Links} {cal : Calendar} {xt : Xtables} {laws : XtablesLaws}.

Lemma reset_valid_in ps q : forall idx, q ∈ read_quotas idx ps -> quota_valid_reset (reset q) = true.
Proof.
  induction ps as [|p ps IH]; intros idx; cbn [read_quotas]; [by intros ?%elem_of_nil|]. cbv zeta.
  destruct (accepted _) eqn:Ea; [|apply IH]. destruct (quota_of _ (idx + 1)) as [q'|] eqn:E; [|apply IH].
  intros [->|Hq]%elem_of_cons; [|by eapply IH]. unfold accepted in Ea. rewrite !andb_true_iff in Ea. destruct Ea as [[_ Ea] _].
  unfold quota_of in E. cbv zeta in E. destruct (_ && bool_decide _); [done|]. injection E as <-. exact Ea.
Qed.

Lemma reset_cases s : quota_valid_reset s = true -> s ∈ [!"hour"; !"day"; !"week"; !"month"].
Proof.
  unfold quota_valid_reset. rewrite !orb_true_iff, !strcmp_eq_true, !elem_of_cons. tauto.
Qed.

(** The offset, and when it lies behind the end of its interval. *)
Lemma offset_range s d h : quota_valid_reset s = true ->
  0 <= reset_offset s d h < 2 ^ 31 /\
  exists r, interval_of s = Some r /\ forall id t net mask n,
    reset_out_of_range (quota_info id t net mask n r (reset_offset s d h)) =
      strcmp_eq s !"month" && (28 * 86400 <=? reset_offset s d h).
Proof.
  intros Hs. unfold reset_offset. cbv zeta. set (day := if _ =? 0 then 0 else atoi d).
  set (hour0 := if _ =? 0 then 0 else atoi h). set (hour := if (hour0 <? 0) || (23 <? hour0) then 0 else hour0).
  assert (Hh : 0 <= hour <= 23) by (subst hour; destruct ((hour0 <? 0) || (23 <? hour0)) eqn:E; propify; lia).
  apply reset_cases in Hs. rewrite !elem_of_cons, elem_of_nil in Hs. destruct Hs as [->|[->|[->|[->|[]]]]].
  - change (strcmp_eq !"hour" !"week") with false. change (strcmp_eq !"hour" !"month") with false.
    change (strcmp_eq !"hour" !"day") with false. cbn iota. split; [lia|]. eexists. split; [reflexivity|]. intros. reflexivity.
  - change (strcmp_eq !"day" !"week") with false. change (strcmp_eq !"day" !"month") with false. change (strcmp_eq !"day" !"day") with true.
    cbn iota. split; [lia|]. eexists. split; [reflexivity|]. intros. unfold reset_out_of_range, quota_info. cbn [reset_interval reset_time].
    rewrite (proj2 (Z.leb_gt (60 * 60 * 24) _)) by lia. reflexivity.
  - change (strcmp_eq !"week" !"week") with true. change (strcmp_eq !"week" !"month") with false. cbn iota.
    set (wd := if (day <? 0) || (6 <? day) then 0 else day). assert (Hd : 0 <= wd <= 6) by (subst wd; destruct ((day <? 0) || (6 <? day)) eqn:E; propify; lia).
    split; [lia|]. eexists. split; [reflexivity|]. intros. unfold reset_out_of_range, quota_info. cbn [reset_interval reset_time].
    rewrite (proj2 (Z.leb_gt (60 * 60 * 24 * 7) _)) by lia. reflexivity.
  - change (strcmp_eq !"month" !"week") with false. change (strcmp_eq !"month" !"month") with true. cbn iota.
    set (md := if (day <? 1) || (31 <? day) then 1 else day). assert (Hd : 1 <= md <= 31) by (subst md; destruct ((day <? 1) || (31 <? day)) eqn:E; propify; lia).
    split; [lia|]. eexists. split; [reflexivity|]. intros. unfold reset_out_of_range, quota_info. cbn [reset_interval reset_time].
    change (BANDWIDTH_MONTH =? BANDWIDTH_MONTH) with true. cbn [andb]. change (60 * 60 * 24 * 28) with (28 * 86400).
    by destruct (28 * 86400 <=? _).
Qed.

(** The text of the match in a rule of a quota. *)
Definition cap_text (q : quota) (c : cap) : cstr :=
  bandwidth (cap_id c) (cap_type c) (cap_subnet c) (cap_limit c) (quota_reset_args 128 (reset q) (rday q) (rhour q))
    (quota_active_args 512 (active q)).

Lemma reset_text s d h : quota_valid_reset s = true ->
  quota_reset_args 128 s d h = !" --reset_interval " ++ s ++ !" --reset_time " ++ print_u 10 (reset_offset s d h).
Proof.
  intros Hs. destruct (offset_range s d h Hs) as [Ho _]. unfold quota_reset_args. rewrite print_d_nat by lia.
  unfold snprintf. rewrite take_ge; [done|]. rewrite !length_app.
  assert (Hl := print_u_length 10 (reset_offset s d h) 10 ltac:(lia) ltac:(lia) ltac:(lia)).
  assert (length s <= 5)%nat.
  { apply reset_cases in Hs. rewrite !elem_of_cons, elem_of_nil in Hs. by destruct Hs as [->|[->|[->|[->|[]]]]]; vm_compute; lia. }
  change (length !" --reset_interval ") with 18%nat. change (length !" --reset_time ") with 14%nat. lia.
Qed.

(** The shapes of the counters. *)
Lemma cap_kinds q c : c ∈ caps q ->
  (exists t, type_of (cap_type c) = Some (t, false) /\ cap_subnet c = []) \/
  (exists t, type_of (cap_type c) = Some (t, true) /\ cap_subnet c = snprintf 64 (!" --subnet " ++ quota_lan_subnet 32)).
Proof.
  unfold caps, on. cbv zeta. rewrite !elem_of_app.
  intros [H|[H|H]]; (destruct (negb _); [|by apply elem_of_nil in H]); apply list_elem_of_singleton in H as ->; cbn [cap_type cap_subnet];
    destruct (quota_scope_shared _);
    try (left; eexists; split; reflexivity); right; eexists; split; reflexivity.
Qed.

Lemma type_plain s t b : type_of s = Some (t, b) -> plain_word s /\ (length s <= 17)%nat.
Proof.
  unfold type_of. intros H.
  repeat (match type of H with (if strcmp_eq s ?x then _ else _) = _ => destruct (strcmp_eq s x) eqn:?E end;
    [match goal with E : strcmp_eq s _ = true |- _ => apply strcmp_eq_true in E as -> end; split; [by apply plain_dec|vm_compute; lia]|]).
  done.
Qed.

Lemma cap_text_eq q c n sub : quota_valid_reset (reset q) = true -> id_ok (cap_id c) -> cap_limit c = print_u 10 n -> 0 <= n < 2 ^ 63 ->
  (length (cap_type c) <= 17)%nat -> cap_subnet c = sub -> (length sub <= 63)%nat ->
  cap_text q c = match_text (cap_id c) (cap_type c) sub n (reset q) (reset_offset (reset q) (rday q) (rhour q)).
Proof.
  intros Hr [Hi _] Hl Hn Ht Hs Hsl. unfold cap_text, bandwidth. rewrite Hl, Hs, reset_text by done. unfold snprintf.
  apply take_ge. assert (Ha := active_length (active q)). unfold quoted.
  assert (Hn' := print_u_length 10 n 19 ltac:(lia) ltac:(lia) ltac:(lia)).
  destruct (offset_range _ (rday q) (rhour q) Hr) as [Ho _].
  assert (Ho' := print_u_length 10 (reset_offset (reset q) (rday q) (rhour q)) 10 ltac:(lia) ltac:(lia) ltac:(lia)).
  assert (Hrl : (length (reset q) <= 5)%nat).
  { apply reset_cases in Hr. rewrite !elem_of_cons, elem_of_nil in Hr. destruct Hr as [->|[->|[->|[->|[]]]]]; vm_compute; lia. }
  unfold match_text, quoted. rewrite !length_app. cbn [length]. rewrite !length_app.
  change (length !" -m bandwidth --id ") with 19%nat. change (length !" --type ") with 8%nat. change (length !" --greater_than ") with 16%nat.
  change (length !" --reset_interval ") with 18%nat. change (length !" --reset_time ") with 14%nat. cbn [length]. lia.
Qed.


(** C10: the kernel counts what a quota says. For every counter of every quota that is read
    from the settings, with a limit that is a plain decimal number below 2^63, and when the
    network of the hosts is a dotted address with a prefix of 1 to 32 bits (the extension
    reads a prefix of 0 as no network), for IPv4: iptables-restore splits the match into its options, the extension
    accepts them all, and the record for the kernel has the name of the counter, its limit,
    the interval and the offset of its reset, its type and the network of the hosts. A
    monthly quota that starts on the 29th or later is the exception: the extension refuses
    it, so that the rules do not load. *)
Theorem quota_options_accepted rand i0 q c n net bits :
  q ∈ quota_list -> c ∈ caps q -> cap_limit c = print_u 10 n -> 0 <= n < 2 ^ 63 ->
  quota_lan_subnet 32 = inet_ntoa net ++ chr "/" :: print_u 10 bits -> is_ipv4 net -> 1 <= bits <= 32 ->
  exists opts, words (cap_text q c) = !"-m" :: !"bandwidth" :: opts /\
    let off := reset_offset (reset q) (rday q) (rhour q) in
    if strcmp_eq (reset q) !"month" && (28 * 86400 <=? off)
    then parse_all rand NFPROTO_IPV4 opts 0 i0 true = Exit out_of_range
    else exists i flags,
      parse_all rand NFPROTO_IPV4 opts 0 i0 true = Done (i, flags, true) /\
      Bandwidth.id i = cap_id c /\ cmp i = BANDWIDTH_GT /\ bandwidth_cutoff i = n /\
      interval_of (reset q) = Some (reset_interval i) /\ reset_is_constant_interval i = 0 /\ reset_time i = off /\
      fst <$> type_of (cap_type c) = Some (type i) /\
      (cap_subnet c = [] \/ take 4 (local_subnet i) = and_octets net (mask4 bits) /\ take 4 (local_subnet_mask i) = mask4 bits).
Proof.
  intros Hq Hc Hl Hn Hsub Hnet Hb. assert (Hok := read_quotas_ok (strsep (chr ">") (nvram_safe_get !"quota_rules")) 0 ltac:(lia)).
  fold quota_list in Hok. unfold all_ok in Hok. rewrite Forall_forall in Hok. specialize (Hok q Hq).
  assert (Hr := reset_valid_in _ _ _ Hq). destruct (offset_range _ (rday q) (rhour q) Hr) as (Ho & r & Hi & Hrange).
  assert (Hidok : id_ok (cap_id c)) by (assert (H := caps_ids_ok q Hok); rewrite Forall_forall in H; by apply H).
  assert (Hid : (length (cap_id c) < 50)%nat).
  { destruct (cap_id_form q c Hok Hc) as (k & Hk & ->). destruct Hok as (_ & Hlen & _). rewrite !length_app.
    change (length !"quota_") with 6%nat. change (length !"_") with 1%nat.
    assert (length (bytes k) = 1%nat) as ->; [|lia]. rewrite !elem_of_cons, elem_of_nil in Hk. by destruct Hk as [->|[->|[->|[]]]]. }
  assert (Hrp : plain_word (reset q)).
  { apply reset_cases in Hr. rewrite !elem_of_cons, elem_of_nil in Hr. by destruct Hr as [->|[->|[->|[->|[]]]]]; apply plain_dec. }
  destruct (cap_kinds q c Hc) as [(t & Ht & Hs)|(t & Ht & Hs)]; destruct (type_plain _ _ _ Ht) as [Htp Htl].
  - exists (quota_options (cap_id c) (cap_type c) [] n (reset q) (reset_offset (reset q) (rday q) (rhour q))). split.
    { rewrite (cap_text_eq q c n []) by (done || (cbn; lia)). apply match_words; [apply Hidok|done|lia|lia|done|by left]. }
    cbv zeta. rewrite (plain_options rand NFPROTO_IPV4 i0 _ _ t n _ r) by (done || lia). cbv zeta. rewrite Hrange.
    destruct (_ && _); [done|]. rewrite Ht. eexists _, _. split_and!; first [reflexivity | exact Hi | by left].
  - assert (Hx : cap_subnet c = !" --subnet " ++ inet_ntoa net ++ chr "/" :: print_u 10 bits).
    { rewrite Hs, Hsub. apply take_ge. rewrite length_app. change (length !" --subnet ") with 10%nat. rewrite <- Hsub.
      unfold quota_lan_subnet. destruct (match super_network with Some _ => _ | None => _ end). unfold snprintf. rewrite length_take. lia. }
    exists (quota_options (cap_id c) (cap_type c) [!"--subnet"; inet_ntoa net ++ chr "/" :: print_u 10 bits] n (reset q)
              (reset_offset (reset q) (rday q) (rhour q))). split.
    { rewrite (cap_text_eq q c n _ Hr Hidok Hl Hn Htl Hx).
      - apply match_words; [apply Hidok|done|lia|lia|done|]. right. eexists. split; [|done]. by apply network_plain.
      - rewrite <- Hx, Hs. unfold snprintf. rewrite length_take. lia. }
    cbv zeta. rewrite (subnet_options rand i0 _ _ t net bits n _ r) by (done || lia). cbv zeta. rewrite Hrange.
    destruct (_ && _); [done|]. rewrite Ht. eexists _, _. split_and!; first [reflexivity | exact Hi | right].
    destruct Hnet as [Hlen _]. assert (Hm : length (mask4 bits) = 4%nat) by reflexivity.
    cbn [local_subnet local_subnet_mask quota_info]. rewrite !network_octets; [done|done|].
    unfold and_octets. rewrite length_zip_with. lia.
Qed.


End Composition.


(** ** The time zone *)

(** Days that follow each other, also over the end of a month. *)
Definition next_day (a b : Z) : Prop := b = a + 1 \/ 28 <= a /\ b = 1.

(** The difference between two clocks that are less than a day apart. *)
Lemma minutes_west_exact utc tz : 1 <= Bandwidth.tm_mday utc <= 31 -> 1 <= Bandwidth.tm_mday tz <= 31 ->
  let m c := 60 * Bandwidth.tm_hour c + Bandwidth.tm_min c in
  (Bandwidth.tm_mday utc = Bandwidth.tm_mday tz -> get_minutes_west utc tz = m utc - m tz) /\
  (next_day (Bandwidth.tm_mday tz) (Bandwidth.tm_mday utc) -> get_minutes_west utc tz = m utc + 1440 - m tz) /\
  (next_day (Bandwidth.tm_mday utc) (Bandwidth.tm_mday tz) -> get_minutes_west utc tz = m utc - (m tz + 1440)).
Proof.
  intros Hu Ht m. unfold get_minutes_west, next_day. subst m. cbv zeta beta.
  destruct (Bandwidth.tm_mday utc <? Bandwidth.tm_mday tz - 1) eqn:E1; propify.
  - destruct (Bandwidth.tm_mday tz <? Bandwidth.tm_mday tz + 1 - 1) eqn:E2; propify; lia.
  - destruct (Bandwidth.tm_mday tz <? Bandwidth.tm_mday utc - 1) eqn:E2; propify; lia.
Qed.

(** ** An example *)

#[export] Instance demo_xtables : Xtables := {|
  numeric_to_ipaddr := inet_pton; numeric_to_ip6addr _ := None; ipaddr_to_numeric := inet_ntoa; ip6addr_to_numeric _ := [];
  ipmask_to_cidr m := Z.of_nat (length (List.filter (fun b : bool => b) (concat (map (fun o => map (Z.testbit o) (upto 0 8)) m)))); ip6mask_to_cidr _ := 0 |}.

#[export] Instance demo_laws : XtablesLaws.
Proof. constructor. intros a Ha. by apply inet_read_print. Qed.

#[local] Existing Instances QuotaDemo.quota_nvram QuotaDemo.quota_build QuotaDemo.four_wans QuotaDemo.no_files QuotaDemo.summer.

Definition blank : info := mk_info [] 0 0 [] [] 0 0 0 0 0 0 0 0 0.
Definition no_quota : quota := Build_quota 0 [] QUOTA_SCOPE_ALL [] [] [] [] [] [] [] [] [] [] [].
Definition no_cap : cap := Build_cap [] [] [] [] false [] [].
Definition other_quota : quota := nth 1 quota_list no_quota.
Definition shared_cap : cap := nth 2 (caps other_quota) no_cap.

Lemma quota_options_accepted_witness : exists opts, words (cap_text other_quota shared_cap) = !"-m" :: !"bandwidth" :: opts /\
  let off := reset_offset (reset other_quota) (rday other_quota) (rhour other_quota) in
  if strcmp_eq (reset other_quota) !"month" && (28 * 86400 <=? off)
  then parse_all 7 NFPROTO_IPV4 opts 0 blank true = Exit out_of_range
  else exists i flags,
    parse_all 7 NFPROTO_IPV4 opts 0 blank true = Done (i, flags, true) /\
    Bandwidth.id i = cap_id shared_cap /\ cmp i = BANDWIDTH_GT /\ bandwidth_cutoff i = 900 /\
    interval_of (reset other_quota) = Some (reset_interval i) /\ reset_is_constant_interval i = 0 /\ reset_time i = off /\
    fst <$> type_of (cap_type shared_cap) = Some (type i) /\
    (cap_subnet shared_cap = [] \/
     take 4 (local_subnet i) = and_octets [192; 168; 0; 0] (mask4 22) /\ take 4 (local_subnet_mask i) = mask4 22).
Proof.
  apply quota_options_accepted.
  - apply nth_in_lookup; vm_compute; lia.
  - apply nth_in_lookup; vm_compute; lia.
  - vm_compute. reflexivity.
  - lia.
  - vm_compute. reflexivity.
  - split; [reflexivity|]. repeat constructor; lia.
  - lia.
Defined.

(** A monthly quota from the 29th on is refused: 28 days and more. *)
Lemma late_quota_refused : reset_offset !"month" !"29" [] = 28 * 86400 /\
  parse_all 7 NFPROTO_IPV4 (quota_options !"quota_1_d" !"combined" [] 1000 !"month" (reset_offset !"month" !"29" [])) 0 blank true =
    Exit out_of_range.
Proof. split; vm_compute; reflexivity. Qed.

(** What the extension prints for iptables-save has an option that it does not know. *)
Lemma saved_rules_refused :
  parse_all 7 NFPROTO_IPV4
    (words (save 1780000000 1780000000 (quota_info !"quota_1_d" BANDWIDTH_COMBINED (repeat 0 16) (repeat 0 16) 1000 BANDWIDTH_DAY 0) NFPROTO_IPV4))
    0 blank true = Exit !"unknown option".
Proof. vm_compute. reflexivity. Qed.


End BandwidthSpec.
