(* ===== verification/BwCtl.v ===== *)
(** The library that reads and sets the counters of the bandwidth match:
    src/tomato64/package/gargoyle-quotas/tools/ipt_bwctl.c.

    Counters are exchanged with the kernel in messages of [BANDWIDTH_QUERY_LENGTH] bytes,
    little endian, through getsockopt and setsockopt; the kernel is the class [Counters].
    A semaphore keeps other readers and writers away. Usage is kept in text files, the
    history in binary ones. Memory that the code reads without having written it is the
    class [Stack]; the addresses of IPv6 as text are the class [Addr6]. *)

From Stdlib Require Import ZArith Lia.
From stdpp Require Import base list strings gmap.
From S2P Require Import Prelude Scan Inet Rules Bandwidth.

Local Open Scope Z_scope.
Local Open Scope rule_scope.

Module BwCtl.
Import Scan Inet Bandwidth.

Definition BANDWIDTH_QUERY_LENGTH : Z := 16384.
Definition AF_INET : Z := 2.
Definition AF_INET6 : Z := 10.

(** An address is four words, as they lie in memory. *)
Record ip_bw := mk_bw {
  family : Z;
  ip : list Z;
  bw : Z }.

Record ip_bw_history := mk_history {
  h_family : Z;
  h_ip : list Z;
  num_nodes : Z;
  h_reset_interval : Z;
  h_reset_time : Z;
  is_constant_interval : Z;
  first_start : Z;
  first_end : Z;
  last_end : Z;
  history_bws : list Z }.

(** ** The semaphore *)

(** The outcome of one attempt to lock: a value above zero, and the operation went well. *)
Definition lock_sem (semval : Z) (semop : bool) : bool := (0 <? semval) && semop.

(** The attempts of [lock]: one, and another as long as there is time left; [tries] tells
    which of them succeed. Every attempt takes 25 milliseconds, so the number of
    milliseconds is enough fuel. *)
Fixpoint lock_loop (fuel : nat) (tries : nat -> bool) (k : nat) (wait : Z) : bool :=
  match fuel with
  | O => false
  | S f =>
      if tries k then true
      else
        let wait := if 25 <? wait then wait - 25 else 0 in
        if 0 <? wait then lock_loop f tries (S k) wait else false
  end.

(** [opened] tells whether the semaphore could be found or made. *)
Definition lock (opened : bool) (tries : nat -> bool) (wait : Z) : bool :=
  if opened then lock_loop (S (Z.to_nat wait)) tries 0 wait else false.

(** Unlocking a semaphore that is free changes nothing. *)
Definition unlock_sem (semval : Z) : Z := if semval =? 0 then 1 else semval.

(** Processes that use the counters: the value of the semaphore, those that hold it and
    those that were killed. *)
Record procs := {
  sem : Z;
  holding : list nat;
  killed : list nat }.

Definition procs0 : procs := {| sem := 1; holding := []; killed := [] |}.

(** A process locks, the one that holds the lock unlocks, and a process gets the signal
    for which [unlock_bandwidth_semaphore_on_exit] has installed its handler. *)
Inductive event := Lock (p : nat) | Unlock (p : nat) | Signal (p : nat).

Definition drop_proc (p : nat) (l : list nat) : list nat := List.filter (fun q => negb (q =? p)%nat) l.

Inductive sem_step : procs -> event -> procs -> Prop :=
  | step_lock s p : p ∉ killed s -> p ∉ holding s -> lock_sem (sem s) true = true ->
      sem_step s (Lock p) {| sem := sem s - 1; holding := p :: holding s; killed := killed s |}
  | step_unlock s p : p ∈ holding s -> p ∉ killed s ->
      sem_step s (Unlock p) {| sem := unlock_sem (sem s); holding := drop_proc p (holding s); killed := killed s |}
  | step_signal s p : p ∉ killed s ->
      sem_step s (Signal p) {| sem := unlock_sem (sem s); holding := drop_proc p (holding s); killed := p :: killed s |}.

(** ** Intervals *)

(** Seconds, minutes, hours, day and month, the day of the week, and whether daylight
    saving is in force, negative if unknown. *)
Record tm := mk_tm {
  tm_sec : Z;
  tm_min : Z;
  tm_hour : Z;
  tm_mday : Z;
  tm_mon : Z;
  tm_year : Z;
  tm_wday : Z;
  tm_isdst : Z }.

Class Clock := {
  localtime : Z -> tm;
  mktime : tm -> Z }.

Section Intervals.
Context {clock : Clock}.

(** The search for the first Sunday, a week at most. *)
Fixpoint next_sunday (fuel : nat) (t : Z) : Z :=
  match fuel with
  | O => t
  | S f =>
      let c := localtime t in
      if tm_wday c =? 0 then t
      else next_sunday f (mktime (mk_tm (tm_sec c) (tm_min c) (tm_hour c) (tm_mday c + 1) (tm_mon c) (tm_year c) (tm_wday c) (tm_isdst c)))
  end.

(** The start of the next interval. *)
Definition advance (t interval : Z) : Z :=
  let c := localtime t in
  let next :=
    if interval =? BANDWIDTH_MINUTE then mktime (mk_tm 0 (tm_min c + 1) (tm_hour c) (tm_mday c) (tm_mon c) (tm_year c) (tm_wday c) (-1))
    else if interval =? BANDWIDTH_HOUR then mktime (mk_tm 0 0 (tm_hour c + 1) (tm_mday c) (tm_mon c) (tm_year c) (tm_wday c) (-1))
    else if interval =? BANDWIDTH_DAY then mktime (mk_tm 0 0 0 (tm_mday c + 1) (tm_mon c) (tm_year c) (tm_wday c) (-1))
    else if interval =? BANDWIDTH_WEEK then
      let t := next_sunday 8 (mktime (mk_tm 0 0 0 (tm_mday c + 1) (tm_mon c) (tm_year c) (tm_wday c) (-1))) in mktime (localtime t)
    else if interval =? BANDWIDTH_MONTH then mktime (mk_tm 0 0 0 1 (tm_mon c + 1) (tm_year c) (tm_wday c) (-1))
    else t in
  if next <=? t then
    if interval =? BANDWIDTH_MINUTE then t + 60
    else if interval =? BANDWIDTH_HOUR then t + 3600
    else if (interval =? BANDWIDTH_DAY) || (interval =? BANDWIDTH_WEEK) || (interval =? BANDWIDTH_MONTH) then t + 86400
    else next
  else next.

Fixpoint next_loop (fuel : nat) (next current interval time : Z) : option Z :=
  match fuel with
  | O => None
  | S f => if next + time <=? current then next_loop f (advance next interval) current interval time else Some (next + time)
  end.

Definition get_next_node_start_time (fuel : nat) (current interval time constant : Z) : option Z :=
  if negb (constant =? 0) then Some (current + interval) else next_loop fuel current current interval time.

(** The starts of the [n] intervals of a history. *)
Fixpoint interval_starts (n fuel : nat) (start end_ interval time constant : Z) : option (list Z) :=
  match n with
  | O => Some []
  | S n' =>
      e ← get_next_node_start_time fuel end_ interval time constant;
      (fun l => start :: l) <$> interval_starts n' fuel end_ e interval time constant
  end.

Definition get_interval_starts_for_history (fuel : nat) (h : ip_bw_history) : option (list Z) :=
  if 0 <? num_nodes h then
    e ← get_next_node_start_time fuel (first_start h) (h_reset_interval h) (h_reset_time h) (is_constant_interval h);
    interval_starts (Z.to_nat (num_nodes h)) fuel (first_start h) e (h_reset_interval h) (h_reset_time h) (is_constant_interval h)
  else Some [].

End Intervals.

(** ** Messages *)

(** A number of [n] bytes, and the number at an offset. *)
Definition le (n : nat) (v : Z) : list Z := octets n v.
Definition at_ (n : nat) (off : nat) (buf : list Z) : Z := s_addr (take n (drop off buf)).

Definition padded (n : nat) (s : list Z) : list Z := s ++ repeat 0 (n - length s).

(** The name in a message, which holds 49 characters. *)
Definition id_field (id : cstr) : list Z := padded BANDWIDTH_MAX_ID_LENGTH (take (BANDWIDTH_MAX_ID_LENGTH - 1) id).

(** A message that sets counters. *)
Record message := {
  total_ips : Z;
  next_ip_index : Z;
  num_ips_in_buffer : Z;
  history_included : Z;
  zero_unset_ips : Z;
  last_backup : Z;
  set_id : cstr;
  blocks : list (list Z) }.

Definition message_header (m : message) : list Z :=
  le 4 (total_ips m) ++ le 4 (next_ip_index m) ++ le 4 (num_ips_in_buffer m) ++ [history_included m; zero_unset_ips m] ++
  le 8 (last_backup m) ++ id_field (set_id m).

Definition message_bytes (m : message) : list Z :=
  padded (Z.to_nat BANDWIDTH_QUERY_LENGTH) (message_header m ++ concat (blocks m)).

(** The block of an entry. *)
Definition usage_block (e : ip_bw) : list Z := le 4 (family e) ++ concat (map (le 4) (ip e)) ++ le 8 (bw e).

(** The times of a history are shifted by the difference of the time zones, in minutes. *)
Definition history_block (west : Z -> Z) (now : Z) (h : ip_bw_history) : list Z :=
  let shift t := u64 (t + (west t - west now)) in
  le 4 (h_family h) ++ concat (map (le 4) (h_ip h)) ++ le 4 (num_nodes h) ++
  le 8 (shift (first_start h)) ++ le 8 (shift (first_end h)) ++ le 8 (shift (last_end h)) ++ concat (map (le 8) (history_bws h)).

(** As many blocks as fit from an offset on, and the blocks that are left. *)
Fixpoint fill (buf_index : Z) (bs : list (list Z)) : list (list Z) * list (list Z) :=
  match bs with
  | [] => ([], [])
  | b :: bs' =>
      let n := Z.of_nat (length b) in
      if BANDWIDTH_QUERY_LENGTH <? buf_index + n then ([], bs)
      else let '(now, later) := fill (buf_index + n) bs' in (b :: now, later)
  end.

Definition header_length : Z := 3 * 4 + 2 * 1 + 8 + 50.

(** The messages of one call; none if the fuel does not suffice. *)
Fixpoint send_loop (fuel : nat) (mk : Z -> list (list Z) -> message) (index : Z) (bs : list (list Z)) : option (list message) :=
  match fuel with
  | O => None
  | S f =>
      let '(now, later) := fill header_length bs in
      let m := mk index now in
      match later with
      | [] => Some [m]
      | _ => (fun ms => m :: ms) <$> send_loop f mk (index + Z.of_nat (length now)) later
      end
  end.

Definition set_messages (fuel : nat) (id : cstr) (zero_unset history backup : Z) (bs : list (list Z)) : option (list message) :=
  send_loop fuel (fun index now =>
    {| total_ips := Z.of_nat (length bs); next_ip_index := index; num_ips_in_buffer := Z.of_nat (length now);
       history_included := history; zero_unset_ips := zero_unset; last_backup := u64 backup; set_id := id; blocks := now |}) 0 bs.

(** The kernel: what it answers to a request, which is the request where the call fails,
    and what a message makes of it. *)
Class Counters := {
  counters : Type;
  bw_get : counters -> list Z -> list Z;
  bw_set : counters -> list Z -> counters }.

(** IPv6 addresses as text, sixteen octets, and memory that was never written. *)
Class Addr6 := {
  inet_ntop6 : list Z -> cstr;
  inet_pton6 : cstr -> option (list Z) }.
Class Stack := {
  stack_words : list Z;
  stack_text : cstr }.

Definition word_octets (ws : list Z) : list Z := concat (map (octets 4) ws).
Definition words_of (os : list Z) : list Z := [s_addr (take 4 os); s_addr (take 4 (drop 4 os)); s_addr (take 4 (drop 8 os)); s_addr (take 4 (drop 12 os))].

(** What became of a query: the number of entries and the table, an error, or an access
    outside of the buffer or of the table. *)
Inductive answer (A : Type) :=
  | Got (num_ips : Z) (data : list A)
  | Failed
  | Crashed.
Arguments Got {A} num_ips data.
Arguments Failed {A}.
Arguments Crashed {A}.

Section Library.
Context {kernel : Counters} {addr : Addr6} {stack : Stack}.

(** ** Reading counters *)

(** The request for an address, or for all of them from an index on. *)
Definition request (id : cstr) (history : Z) (address : option cstr) (index : Z) : list Z :=
  let '(fam, ws) :=
    match address with
    | None => (AF_INET, [0; 0; 0; 0])
    | Some a =>
        match inet_pton a with
        | Some os => (AF_INET, [s_addr os; 0; 0; 0])
        | None => (AF_INET6, match inet_pton6 a with Some os => words_of os | None => stack_words end)
        end
    end in
  padded (Z.to_nat BANDWIDTH_QUERY_LENGTH) (le 4 fam ++ concat (map (le 4) ws) ++ le 4 index ++ [history] ++ id).

(** The first request of a single address of zeros asks for the sum. *)
Definition first_index (address : option cstr) : Z :=
  match address with
  | None => 0
  | Some a =>
      let ws := match inet_pton a with
                | Some os => [s_addr os; 0; 0; 0]
                | None => match inet_pton6 a with Some os => words_of os | None => stack_words end
                end in
      if forallb (Z.eqb 0) ws then 4294967295 else 0
  end.

Definition entry_at (buf : list Z) (off : nat) : ip_bw :=
  {| family := at_ 4 off buf; ip := [at_ 4 (off + 4) buf; at_ 4 (off + 8) buf; at_ 4 (off + 12) buf; at_ 4 (off + 16) buf];
     bw := at_ 8 (off + 20) buf |}.

(** An entry and where the next one starts; the times of a history are shifted by the
    difference of the time zones, in seconds. *)
Definition usage_at (buf : list Z) (off : nat) : ip_bw * nat := (entry_at buf off, (off + 28)%nat).

Definition history_at (west : Z -> Z) (now : Z) (buf : list Z) (off : nat) : ip_bw_history * nat :=
  let n := at_ 4 (off + 20) buf in
  let shifted o := let t := s64 (at_ 8 o buf) in t + 60 * (west t - west now) in
  ({| h_family := at_ 4 off buf;
      h_ip := [at_ 4 (off + 4) buf; at_ 4 (off + 8) buf; at_ 4 (off + 12) buf; at_ 4 (off + 16) buf];
      num_nodes := n; h_reset_interval := s64 (at_ 8 13 buf); h_reset_time := s64 (at_ 8 21 buf); is_constant_interval := at_ 1 29 buf;
      first_start := shifted (off + 24)%nat; first_end := shifted (off + 32)%nat; last_end := shifted (off + 40)%nat;
      history_bws := map (fun j => at_ 8 (off + 48 + 8 * j) buf) (seq 0 (Z.to_nat n)) |},
   (off + 48 + 8 * Z.to_nat n)%nat).

Section Query.
Context {A : Type}.
Variables (none : A) (read : list Z -> nat -> A * nat) (history : Z).

(** Entries of a response, stored from an index of the table on. *)
Fixpoint store (n : nat) (buf : list Z) (off : nat) (data : list A) (i : nat) : option (list A) :=
  match n with
  | O => Some data
  | S n' =>
      let '(e, off) := read buf off in
      if (Z.to_nat BANDWIDTH_QUERY_LENGTH <? off)%nat || (length data <=? i)%nat then None
      else store n' buf off (<[i := e]> data) (S i)
  end.

Fixpoint get_loop (fuel : nat) (k : counters) (id : cstr) (address : option cstr) (buf : list Z)
  (data : option (Z * list A)) (next : Z) : option (answer A) :=
  match fuel with
  | O => None
  | S f =>
      let r := bw_get k buf in
      if negb (at_ 1 0 r =? 0) then Some Failed
      else
        let total := at_ 4 1 r in
        let n := at_ 4 9 r in
        let '(num, table) := match data with Some d => d | None => (total, repeat none (S (Z.to_nat total))) end in
        match store (Z.to_nat n) r 30 table (Z.to_nat next) with
        | None => Some Crashed
        | Some table =>
            let next := u32 (next + n) in
            if next <? total then get_loop f k id address (request id history address next) (Some (num, table)) next
            else Some (Got num table)
        end
  end.

(** [locked] and [socket] tell whether the lock was got and the socket opened. Without a
    socket nothing is asked, and the call succeeds with no data. *)
Definition get_bandwidth_data (fuel : nat) (locked socket : bool) (k : counters) (id : cstr) (address : option cstr) : option (answer A) :=
  if negb locked then Some Failed
  else if negb socket then Some (Got 0 [])
  else get_loop fuel k id address (request id history address (first_index address)) None 0.

End Query.

Definition no_entry : ip_bw := mk_bw 0 [0; 0; 0; 0] 0.
Definition no_history : ip_bw_history := mk_history 0 [0; 0; 0; 0] 0 0 0 0 0 0 0 [].

Definition get_all_bandwidth_usage_for_rule_id (fuel : nat) (locked socket : bool) (k : counters) (id : cstr) : option (answer ip_bw) :=
  get_bandwidth_data no_entry usage_at 0 fuel locked socket k id None.

Definition get_ip_bandwidth_usage_for_rule_id (fuel : nat) (locked socket : bool) (k : counters) (id a : cstr) : option (answer ip_bw) :=
  get_bandwidth_data no_entry usage_at 0 fuel locked socket k id (if strcmp_eq a !"ALL" then None else Some a).

Definition get_all_bandwidth_history_for_rule_id (west : Z -> Z) (now : Z) (fuel : nat) (locked socket : bool) (k : counters) (id : cstr)
  : option (answer ip_bw_history) :=
  get_bandwidth_data no_history (history_at west now) 1 fuel locked socket k id None.

(** ** Setting counters *)

(** The kernel afterwards and whether the call reports success. *)
Definition set_bandwidth_data (fuel : nat) (locked socket : bool) (k : counters) (id : cstr) (zero_unset history backup : Z)
  (bs : list (list Z)) : option (counters * bool) :=
  if negb locked then Some (k, false)
  else if negb socket then Some (k, true)
  else (fun ms => (fold_left bw_set (map message_bytes ms) k, true)) <$> set_messages fuel id zero_unset history backup bs.

Definition set_bandwidth_usage_for_rule_id (fuel : nat) (locked socket : bool) (k : counters) (id : cstr) (zero_unset backup : Z)
  (data : list ip_bw) : option (counters * bool) :=
  set_bandwidth_data fuel locked socket k id zero_unset 0 backup (map usage_block data).

Definition set_bandwidth_history_for_rule_id (west : Z -> Z) (now : Z) (fuel : nat) (locked socket : bool) (k : counters) (id : cstr)
  (zero_unset : Z) (data : list ip_bw_history) : option (counters * bool) :=
  set_bandwidth_data fuel locked socket k id zero_unset 1 0 (map (history_block west now) data).

(** ** Usage as text *)

(** [%-15s]. *)
Definition left15 (s : cstr) : cstr := s ++ repeat 32 (15 - length s).

Definition ip_text (e : ip_bw) : cstr :=
  if family e =? AF_INET then inet_ntoa (octets 4 (nth 0 (ip e) 0))
  else if family e =? AF_INET6 then inet_ntop6 (word_octets (ip e))
  else stack_text.

Definition usage_line (e : ip_bw) : cstr :=
  print_u 10 (family e) ++ [9] ++ left15 (ip_text e) ++ [9] ++ print_d (s64 (bw e)) ++ [10].

Definition save_usage_to_file (now : Z) (data : list ip_bw) : cstr :=
  left15 (print_d now) ++ [10] ++ concat (map usage_line data).

(** The records behind the time: three words each, two where the address is not valid.
    [inet_pton] reports a family it does not know with a value that is not zero. *)
Fixpoint load_records (ps : list cstr) : list ip_bw :=
  match ps with
  | fam :: a :: ps' =>
      let fam := match scan_u64 fam with Some (v, _) => u32 v | None => 0 end in
      let found :=
        if fam =? AF_INET then (fun os => [s_addr os; 0; 0; 0]) <$> inet_pton a
        else if fam =? AF_INET6 then words_of <$> inet_pton6 a
        else Some stack_words in
      match found with
      | Some ws =>
          match ps' with
          | b :: ps'' =>
              match scan_lld b with
              | Some v => mk_bw fam ws (u64 v) :: load_records ps''
              | None => load_records ps''
              end
          | [] => []
          end
      | None => load_records ps'
      end
  | _ => []
  end.

Definition blanks : list Z := [10; 13; 9; 32].

(** The time of the file and its records; [text] up to the first zero byte. *)
Definition load_usage_from_file (file : list Z) : Z * list ip_bw :=
  match split_on_separators (Some (until_nul file)) blanks (-1) false with
  | [] => (0, [])
  | t :: ps => (default 0 (scan_lld t), load_records ps)
  end.

(** What the tools print. *)
Definition print_usage (data : list ip_bw) : cstr :=
  concat (map (fun e =>
    let name := if forallb (Z.eqb 0) (ip e) then !"COMBINED" else ip_text e in
    name ++ repeat 32 (39 - length name) ++ [9] ++ print_d (s64 (bw e)) ++ [10]) data) ++ [10].

(** ** History as binary data *)

Definition INT32_MAX : Z := 2147483647.

Definition save_node (bits v : Z) : list Z := if bits =? 32 then le 4 (u32 v) else le 8 v.

Definition save_one_history (h : ip_bw_history) : list Z :=
  let bits := if forallb (fun v => v <? INT32_MAX) (history_bws h) then 32 else 64 in
  le 4 (h_family h) ++ concat (map (le 4) (h_ip h)) ++ le 4 (num_nodes h) ++
  (if num_nodes h =? 0 then le 8 0 ++ le 8 0 ++ le 8 0 ++ [32]
   else le 8 (u64 (first_start h)) ++ le 8 (u64 (first_end h)) ++ le 8 (u64 (last_end h)) ++ [bits] ++
        concat (map (save_node bits) (history_bws h))).

Definition save_history_to_file (hs : list ip_bw_history) : list Z :=
  le 4 (Z.of_nat (length hs)) ++
  match hs with
  | [] => []
  | h :: _ => le 8 (u64 (h_reset_interval h)) ++ le 8 (u64 (h_reset_time h)) ++ [is_constant_interval h]
  end ++
  concat (map save_one_history hs).

(** A number of [n] bytes and what is left; nothing at the end of the file, where the
    values would be undefined. *)
Definition fread (n : nat) (f : list Z) : option (Z * list Z) :=
  if (length f <? n)%nat then None else Some (s_addr (take n f), drop n f).

Fixpoint load_nodes (n : nat) (bits : Z) (f : list Z) : option (list Z * list Z) :=
  match n with
  | O => Some ([], f)
  | S n' =>
      '(v, f) ← fread (if bits =? 32 then 4 else 8) f;
      '(vs, f) ← load_nodes n' bits f;
      Some (v :: vs, f)
  end.

Fixpoint load_histories (n : nat) (interval time constant : Z) (f : list Z) : option (list ip_bw_history) :=
  match n with
  | O => Some []
  | S n' =>
      '(fam, f) ← fread 4 f;
      '(a, f) ← fread 4 f; '(b, f) ← fread 4 f; '(c, f) ← fread 4 f; '(d, f) ← fread 4 f;
      '(nodes, f) ← fread 4 f;
      '(fs, f) ← fread 8 f; '(fe, f) ← fread 8 f; '(la, f) ← fread 8 f;
      '(bits, f) ← fread 1 f;
      '(vs, f) ← load_nodes (Z.to_nat nodes) bits f;
      hs ← load_histories n' interval time constant f;
      Some (mk_history fam [a; b; c; d] nodes interval time constant (s64 fs) (s64 fe) (s64 la) vs :: hs)
  end.

Definition load_history_from_file (f : list Z) : option (list ip_bw_history) :=
  '(n, f) ← fread 4 f;
  if n =? 0 then Some []
  else
    '(interval, f) ← fread 8 f;
    '(time, f) ← fread 8 f;
    '(constant, f) ← fread 1 f;
    load_histories (Z.to_nat n) (s64 interval) (s64 time) constant f.

End Library.

End BwCtl.
