(* ===== verification/BwCtlSpec.v ===== *)
(** What the library of the bandwidth counters guarantees (BwCtl.v): every entry reaches the
    kernel and comes back from it, files are read back as they were written, locking ends
    and excludes others. *)

From Stdlib Require Import ZArith Lia.
From stdpp Require Import base list strings gmap.
From S2P Require Import Prelude Scan Inet Rules Bandwidth BwCtl.

Local Open Scope Z_scope.
Local Open Scope rule_scope.

Module BwCtlSpec.
Import Scan Inet Bandwidth BwCtl.

(** ** Numbers in buffers *)

Lemma length_octets n v : length (octets n v) = n.
Proof. revert v. induction n as [|n IH]; intros v; [done|]. cbn [octets length]. by rewrite IH. Qed.

Lemma at_value a n v b : 0 <= v < 256 ^ Z.of_nat n -> at_ n (length a) (a ++ octets n v ++ b) = v.
Proof.
  intros Hv. unfold at_. rewrite drop_app_length. rewrite <- (length_octets n v) at 1. rewrite take_app_length. by apply s_addr_octets.
Qed.

Lemma at_value' off buf a n v b : buf = a ++ octets n v ++ b -> length a = off -> 0 <= v < 256 ^ Z.of_nat n -> at_ n off buf = v.
Proof. intros -> <-. apply at_value. Qed.

(** An entry as the kernel knows it. *)
Definition word (v : Z) : Prop := 0 <= v < 2 ^ 32.
Definition entry_ok (e : ip_bw) : Prop :=
  word (family e) /\ length (ip e) = 4%nat /\ Forall word (ip e) /\ 0 <= bw e < 2 ^ 64.

Lemma usage_block_length e : length (ip e) = 4%nat -> length (usage_block e) = 28%nat.
Proof.
  intros Hl. by destruct e as [f [|a [|b [|c [|d [|]]]]] v].
Qed.

Lemma entry_at_block a e b : entry_ok e -> entry_at (a ++ usage_block e ++ b) (length a) = e.
Proof.
  intros (Hf & Hl & Hw & Hb). destruct e as [f [|w0 [|w1 [|w2 [|w3 [|]]]]] v]; try done. cbn [family ip bw] in *.
  rewrite !Forall_cons in Hw. destruct Hw as (H0 & H1 & H2 & H3 & _). unfold word in *.
  unfold entry_at, usage_block, le. cbn [family ip bw map concat]. rewrite app_nil_r.
  set (buf := a ++ _).
  assert (E0 : at_ 4 (length a) buf = f).
  { eapply (at_value' _ _ a); [subst buf; by rewrite <- !app_assoc|done|lia]. }
  assert (E1 : at_ 4 (length a + 4) buf = w0).
  { eapply (at_value' _ _ (a ++ octets 4 f)); [subst buf; by rewrite <- !app_assoc|by rewrite length_app, length_octets|lia]. }
  assert (E2 : at_ 4 (length a + 8) buf = w1).
  { eapply (at_value' _ _ (a ++ octets 4 f ++ octets 4 w0)); [subst buf; by rewrite <- !app_assoc|by rewrite !length_app, !length_octets|lia]. }
  assert (E3 : at_ 4 (length a + 12) buf = w2).
  { eapply (at_value' _ _ (a ++ octets 4 f ++ octets 4 w0 ++ octets 4 w1));
      [subst buf; by rewrite <- !app_assoc|by rewrite !length_app, !length_octets|lia]. }
  assert (E4 : at_ 4 (length a + 16) buf = w3).
  { eapply (at_value' _ _ (a ++ octets 4 f ++ octets 4 w0 ++ octets 4 w1 ++ octets 4 w2));
      [subst buf; by rewrite <- !app_assoc|by rewrite !length_app, !length_octets|lia]. }
  assert (E5 : at_ 8 (length a + 20) buf = v).
  { eapply (at_value' _ _ (a ++ octets 4 f ++ octets 4 w0 ++ octets 4 w1 ++ octets 4 w2 ++ octets 4 w3));
      [subst buf; by rewrite <- !app_assoc|by rewrite !length_app, !length_octets|lia]. }
  by rewrite E0, E1, E2, E3, E4, E5.
Qed.

(** ** Sending *)

Definition room : Z := BANDWIDTH_QUERY_LENGTH - header_length.

Lemma fill_spec bs : forall i now later, fill i bs = (now, later) -> i <= BANDWIDTH_QUERY_LENGTH ->
  bs = now ++ later /\ i + Z.of_nat (length (concat now)) <= BANDWIDTH_QUERY_LENGTH /\
  match later with
  | [] => True
  | b :: _ => BANDWIDTH_QUERY_LENGTH < i + Z.of_nat (length (concat now)) + Z.of_nat (length b)
  end.
Proof.
  induction bs as [|b bs IH]; intros i now later; cbn [fill].
  - intros [= <- <-] Hi. cbn [concat length]. split; [done|]. split; [lia|done].
  - destruct (BANDWIDTH_QUERY_LENGTH <? i + Z.of_nat (length b)) eqn:E; propify.
    + intros [= <- <-] Hi. cbn [concat length]. split; [done|]. lia.
    + destruct (fill _ bs) as [n l] eqn:Ef. intros [= <- <-] Hi. apply IH in Ef as (-> & H1 & H2); [|lia].
      cbn [concat]. rewrite length_app. split; [done|]. split; [lia|]. destruct l; [done|]. lia.
Qed.

(** Messages in a row: the numbers of the entries in front of them. *)
Fixpoint indexed (i : Z) (ms : list message) : Prop :=
  match ms with
  | [] => True
  | m :: ms => next_ip_index m = i /\ num_ips_in_buffer m = Z.of_nat (length (blocks m)) /\ indexed (i + Z.of_nat (length (blocks m))) ms
  end.

Definition fits (m : message) : Prop := Z.of_nat (length (concat (blocks m))) <= room.

Lemma send_all mk : (forall i now, blocks (mk i now) = now /\ next_ip_index (mk i now) = i /\ num_ips_in_buffer (mk i now) = Z.of_nat (length now)) ->
  forall fuel bs i, Forall (fun b => Z.of_nat (length b) <= room) bs -> (length bs < fuel)%nat ->
  exists ms, send_loop fuel mk i bs = Some ms /\ concat (map blocks ms) = bs /\ indexed i ms /\ Forall fits ms /\
    Forall (fun m => exists j now, m = mk j now) ms.
Proof.
  intros Hmk. induction fuel as [|f IH]; intros bs i Hb Hf; [lia|]. cbn [send_loop].
  destruct (fill header_length bs) as [now later] eqn:E. apply fill_spec in E as (-> & H1 & H2); [|done].
  destruct (Hmk i now) as (M1 & M2 & M3).
  assert (Hfit : fits (mk i now)) by (unfold fits, room; rewrite M1; lia). destruct later as [|b later].
  - exists [mk i now]. cbn [map concat indexed]. rewrite M1, M2, M3, app_nil_r. split; [done|]. split; [done|].
    split; [done|]. split; repeat constructor; [done|]. by eexists _, _.
  - assert (Hne : now <> []).
    { intros ->. cbn [concat length app] in H2, Hb. apply Forall_cons in Hb as [Hb _]. unfold room in Hb. lia. }
    apply Forall_app in Hb as [_ Hb]. rewrite length_app in Hf. assert (0 < length now)%nat by (destruct now; [done|cbn; lia]).
    destruct (IH (b :: later) (i + Z.of_nat (length now)) Hb) as (ms & Hs & Hc & Hi & Hfs & Hm); [lia|]. exists (mk i now :: ms).
    rewrite Hs. cbn [map concat indexed fmap option_fmap option_map]. rewrite M1, M2, M3, Hc. split; [done|]. split; [done|].
    split; [done|]. split; constructor; [done..| |done]. by eexists _, _.
Qed.

(** Entries in a row. *)
Lemma entries_run es : forall a b, Forall entry_ok es ->
  map (fun j => entry_at (a ++ concat (map usage_block es) ++ b) (length a + 28 * j)) (seq 0 (length es)) = es.
Proof.
  induction es as [|e es IH]; intros a b Hes; [done|]. apply Forall_cons in Hes as [He Hes]. cbn [length seq map concat].
  rewrite <- seq_shift, map_map. f_equal.
  - rewrite Nat.mul_0_r, Nat.add_0_r, <- app_assoc. by apply entry_at_block.
  - rewrite <- (IH (a ++ usage_block e) b Hes) at 2. apply map_ext. intros j. rewrite <- !app_assoc, length_app.
    rewrite usage_block_length by apply He. f_equal. lia.
Qed.

(** The entries of a message, as the kernel reads them. *)
Definition entries_of (buf : list Z) : list ip_bw :=
  map (fun j => entry_at buf (72 + 28 * j)) (seq 0 (Z.to_nat (at_ 4 8 buf))).

Lemma id_field_length id : length (id_field id) = 50%nat.
Proof.
  unfold id_field, padded. rewrite length_app, repeat_length. assert (H := length_take id 49).
  change (BANDWIDTH_MAX_ID_LENGTH - 1)%nat with 49%nat. change BANDWIDTH_MAX_ID_LENGTH with 50%nat. lia.
Qed.

Lemma header_bytes m : length (message_header m) = 72%nat.
Proof. unfold message_header, le. rewrite !length_app, !length_octets, id_field_length. reflexivity. Qed.

Lemma message_length m : fits m -> length (message_bytes m) = Z.to_nat BANDWIDTH_QUERY_LENGTH.
Proof.
  unfold fits, room, message_bytes, padded. intros H. rewrite length_app, repeat_length, length_app, header_bytes.
  change header_length with 72 in H. lia.
Qed.

Lemma message_entries m es : blocks m = map usage_block es -> num_ips_in_buffer m = Z.of_nat (length es) -> Forall entry_ok es ->
  Z.of_nat (length es) < 2 ^ 32 -> entries_of (message_bytes m) = es.
Proof.
  intros Hb Hn Hes Hl. unfold entries_of.
  assert (E : at_ 4 8 (message_bytes m) = Z.of_nat (length es)).
  { eapply (at_value' _ _ (octets 4 (total_ips m) ++ octets 4 (next_ip_index m))); [|by rewrite length_app, !length_octets|lia].
    unfold message_bytes, padded, message_header, le. rewrite Hn. by rewrite <- !app_assoc. }
  rewrite E, Nat2Z.id. unfold message_bytes, padded. rewrite Hb, <- app_assoc.
  rewrite <- (header_bytes m). by apply entries_run.
Qed.

(** The blocks of each message are those of consecutive entries. *)
Lemma split_entries ms es : concat (map blocks ms) = map usage_block es ->
  exists ess, concat ess = es /\ Forall2 (fun m e => blocks m = map usage_block e) ms ess.
Proof.
  revert es. induction ms as [|m ms IH]; intros es; cbn [map concat].
  - intros E. exists []. symmetry in E. apply map_eq_nil in E as ->. by split.
  - intros E. symmetry in E. apply map_eq_app in E as (e1 & e2 & -> & E1 & E2). destruct (IH e2) as (ess & <- & H); [done|].
    exists (e1 :: ess). split; [done|]. by constructor.
Qed.

Lemma indexed_num ms : forall i, indexed i ms -> Forall (fun m => num_ips_in_buffer m = Z.of_nat (length (blocks m))) ms.
Proof. induction ms as [|m ms IH]; intros i; [constructor|]. intros (_ & H & Hi). constructor; [done|by eapply IH]. Qed.

(** All the entries are sent, each once and in order, in messages that fit. *)
Lemma usage_sent fuel id zero backup data :
  Forall entry_ok data -> Z.of_nat (length data) < 2 ^ 32 -> (length data < fuel)%nat ->
  exists ms, set_messages fuel id zero 0 backup (map usage_block data) = Some ms /\
    concat (map (fun m => entries_of (message_bytes m)) ms) = data /\ indexed 0 ms /\
    Forall (fun m => total_ips m = Z.of_nat (length data) /\ history_included m = 0 /\ zero_unset_ips m = zero /\
                     last_backup m = u64 backup /\ set_id m = id /\ length (message_bytes m) = Z.to_nat BANDWIDTH_QUERY_LENGTH) ms.
Proof.
  intros Hd Hl Hf. unfold set_messages. set (mk := fun _ _ => _).
  destruct (send_all mk ltac:(done) fuel (map usage_block data) 0) as (ms & Hs & Hc & Hi & Hfit & Hm).
  { apply Forall_map. eapply Forall_impl; [exact Hd|]. intros e He. cbn beta. rewrite usage_block_length by apply He. vm_compute. discriminate. }
  { by rewrite length_map. }
  exists ms. split; [done|]. split; [|split; [done|]].
  - destruct (split_entries ms data Hc) as (ess & <- & H2). f_equal. assert (Hn := indexed_num ms 0 Hi).
    clear Hs Hc Hi Hfit Hm Hf mk. induction H2 as [|m e ms ess Hb H2 IH]; [done|]. cbn [concat] in Hd, Hl.
    rewrite length_app in Hl. apply Forall_app in Hd as [Hd1 Hd2]. apply Forall_cons in Hn as [Hn1 Hn2]. cbn [map]. f_equal; [|apply IH; [lia|done|done]].
    apply message_entries; [done| |done|lia]. by rewrite Hn1, Hb, length_map.
  - rewrite Forall_forall in Hm, Hfit |- *. intros m Hin. assert (Hl' := message_length m (Hfit m Hin)).
    destruct (Hm m Hin) as (j & now & ->). subst mk. cbn [total_ips history_included zero_unset_ips last_backup set_id].
    rewrite length_map. by split_and!.
Qed.

(** A block that does not fit into an empty message is tried for ever. *)
Lemma large_block_never_sent mk b bs fuel : room < Z.of_nat (length b) -> forall i, send_loop fuel mk i (b :: bs) = None.
Proof.
  intros Hb. induction fuel as [|f IH]; intros i; [done|]. cbn [send_loop fill].
  rewrite (proj2 (Z.ltb_lt _ _)) by (unfold room in Hb; lia). by rewrite IH.
Qed.

(** ** Receiving *)

Section Receive.
Context {kernel : Counters} {addr : Addr6} {stack : Stack}.

(** A response as the header of the library describes it; behind the entries the buffer
    may hold anything. *)
Definition response (total index interval time constant : Z) (es : list ip_bw) (tail : list Z) : list Z :=
  [0] ++ le 4 total ++ le 4 index ++ le 4 (Z.of_nat (length es)) ++ le 8 interval ++ le 8 time ++ [constant] ++ concat (map usage_block es) ++ tail.

(** A kernel that has the entries [l] for a counter: asked from an index on it answers with
    some of the entries from there on, at least one if there is one. *)
Definition serves (k : counters) (id : cstr) (l : list ip_bw) : Prop :=
  Forall entry_ok l /\ Z.of_nat (length l) < 2 ^ 32 /\
  forall i, (i <= length l)%nat -> exists n interval time constant tail, (n <= 584)%nat /\ (i < length l -> 0 < n)%nat /\
    0 <= constant < 256 /\
    bw_get k (request id 0 None (Z.of_nat i)) = response (Z.of_nat (length l)) (Z.of_nat i) interval time constant (take n (drop i l)) tail.

Lemma store_run es : forall a b table i, Forall entry_ok es -> (i + length es <= length table)%nat ->
  (length a + 28 * length es <= Z.to_nat BANDWIDTH_QUERY_LENGTH)%nat ->
  store usage_at (length es) (a ++ concat (map usage_block es) ++ b) (length a) table i =
    Some (take i table ++ es ++ drop (i + length es) table).
Proof.
  induction es as [|e es IH]; intros a b table i Hes Hi Hl.
  - cbn [store length app]. by rewrite Nat.add_0_r, take_drop.
  - apply Forall_cons in Hes as [He Hes]. cbn [store length map concat] in *. unfold usage_at at 1. rewrite <- app_assoc, entry_at_block by done.
    rewrite (proj2 (Nat.ltb_ge _ _)), (proj2 (Nat.leb_gt _ _)) by lia. cbn [orb].
    assert (Hlen : length (a ++ usage_block e) = (length a + 28)%nat) by (rewrite length_app, usage_block_length; [done|apply He]).
    rewrite <- Hlen. rewrite (app_assoc a). rewrite IH; [|done|rewrite length_insert; lia|rewrite Hlen; lia].
    f_equal. rewrite (take_S_r _ i e) by (by rewrite list_lookup_insert_eq; [|lia]).
    rewrite take_insert_ge by lia. rewrite <- app_assoc. cbn [app]. do 3 f_equal. rewrite drop_insert_lt by lia. f_equal. lia.
Qed.

Lemma response_fields total index interval time constant es tail : 0 <= total < 2 ^ 32 -> (length es <= 584)%nat ->
  let r := response total index interval time constant es tail in
  at_ 1 0 r = 0 /\ at_ 4 1 r = total /\ at_ 4 9 r = Z.of_nat (length es) /\
  exists a b, length a = 30%nat /\ r = a ++ concat (map usage_block es) ++ b.
Proof.
  intros Ht Hn r. assert (Hr : exists b, r = [0] ++ octets 4 total ++ octets 4 index ++ octets 4 (Z.of_nat (length es)) ++ octets 8 interval ++
    octets 8 time ++ [constant] ++ concat (map usage_block es) ++ b).
  { exists tail. by subst r. }
  destruct Hr as [b Hr]. split; [|split; [|split]].
  - by rewrite Hr.
  - eapply (at_value' _ _ [0]); [exact Hr|done|lia].
  - eapply (at_value' _ _ ([0] ++ octets 4 total ++ octets 4 index)); [by rewrite Hr, <- !app_assoc|done|lia].
  - exists ([0] ++ octets 4 total ++ octets 4 index ++ octets 4 (Z.of_nat (length es)) ++ octets 8 interval ++ octets 8 time ++ [constant]), b.
    split; [done|]. by rewrite Hr, <- !app_assoc.
Qed.

Lemma get_from k id l : serves k id l -> forall fuel i table, (i <= length l)%nat -> (length l - i < fuel)%nat ->
  length table = S (length l) -> take i table = take i l -> drop (length l) table = [no_entry] ->
  get_loop no_entry usage_at 0 fuel k id None (request id 0 None (Z.of_nat i)) (Some (Z.of_nat (length l), table)) (Z.of_nat i) =
    Some (Got (Z.of_nat (length l)) (l ++ [no_entry])).
Proof.
  intros (Hok & Hlen & Hserv). induction fuel as [|f IH]; intros i table Hi Hf Ht Hpre Hend; [lia|]. cbn [get_loop].
  destruct (Hserv i Hi) as (n & interval & time & constant & tail & Hn & Hpos & Hc & ->).
  set (es := take n (drop i l)). assert (Hes : (length es <= 584)%nat) by (subst es; rewrite length_take; lia).
  assert (Hel : (i + length es <= length l)%nat) by (subst es; rewrite length_take, length_drop; lia).
  assert (Heok : Forall entry_ok es) by (by apply Forall_take, Forall_drop).
  destruct (response_fields (Z.of_nat (length l)) (Z.of_nat i) interval time constant es tail ltac:(lia) Hes) as (E0 & E1 & E2 & a & b & Ha & Hr).
  cbv zeta in *. rewrite E0, E1, E2. change (negb (0 =? 0)) with false. cbn iota. rewrite Hr, <- Ha, !Nat2Z.id.
  rewrite store_run by (done || lia || (rewrite Ha; change (Z.to_nat BANDWIDTH_QUERY_LENGTH) with (Z.to_nat 16384); lia)).
  rewrite Hpre. assert (Hu : u32 (Z.of_nat i + Z.of_nat (length es)) = Z.of_nat (i + length es)) by (unfold u32; rewrite Z.mod_small; lia).
  assert (Htake : take i l ++ es = take (i + length es) l).
  { assert (He : es = take (length es) (drop i l)); [|by rewrite He at 1; rewrite take_take_drop].
    subst es. rewrite length_take. destruct (Nat.le_ge_cases n (length (drop i l))); [by rewrite Nat.min_l|].
    by rewrite Nat.min_r, !take_ge by done. }
  rewrite Hu, app_assoc, Htake. destruct (Z.of_nat (i + length es) <? Z.of_nat (length l)) eqn:E; propify.
  - assert (0 < length es)%nat by (subst es; rewrite length_take, length_drop; lia).
    apply IH; [lia|lia| | |].
    + rewrite length_app, length_take, length_drop, Ht. lia.
    + rewrite take_app_le by (rewrite length_take; lia). rewrite take_take. f_equal. lia.
    + rewrite drop_app_ge by (rewrite length_take; lia). rewrite length_take, drop_drop.
      rewrite <- Hend. f_equal. lia.
  - assert (Heq : (i + length es = length l)%nat) by lia. rewrite Heq, Hend, take_ge by done. done.
Qed.

(** All the entries come back, and a free place behind them. *)
Lemma usage_received k id l fuel : serves k id l -> (length l < fuel)%nat ->
  get_all_bandwidth_usage_for_rule_id fuel true true k id = Some (Got (Z.of_nat (length l)) (l ++ [no_entry])).
Proof.
  intros Hs Hf. unfold get_all_bandwidth_usage_for_rule_id, get_bandwidth_data. cbn [negb first_index].
  assert (Hg := get_from k id l Hs fuel 0 (repeat no_entry (S (length l))) ltac:(lia) ltac:(lia) ltac:(by rewrite repeat_length) eq_refl).
  change (Z.of_nat 0) with 0 in Hg. rewrite <- Hg.
  - destruct fuel as [|f]; [lia|]. cbn [get_loop]. destruct Hs as (Hok & Hlen & Hserv).
    destruct (Hserv 0%nat ltac:(lia)) as (n & interval & time & constant & tail & Hn & Hpos & Hc & E). change (Z.of_nat 0) with 0 in E. rewrite E.
    assert (Hes : (length (take n (drop 0 l)) <= 584)%nat) by (rewrite length_take; lia).
    destruct (response_fields (Z.of_nat (length l)) 0 interval time constant (take n (drop 0 l)) tail ltac:(lia) Hes) as (E0 & E1 & _).
    cbv zeta in *. rewrite E0, E1. change (negb (0 =? 0)) with false. cbn iota. by rewrite Nat2Z.id.
  - rewrite <- (repeat_length no_entry (length l)) at 1. cbn [repeat]. rewrite repeat_cons. apply drop_app_length.
Qed.

End Receive.

(** ** Text *)

Lemma skip_run (P : Z -> bool) a s : Forall (fun c => P c = true) a ->
  match s with [] => True | c :: _ => P c = false end -> skip_while P (a ++ s) = s.
Proof. intros Ha Hs. apply skip_while_all; [done|]. by destruct s. Qed.

Section Tokens.
Variable sep : Z -> bool.

Definition token (w : cstr) : Prop := w <> [] /\ Forall (fun c => sep c = false) w.
Definition gap (g : cstr) : Prop := g <> [] /\ Forall (fun c => sep c = true) g.

(** Words with what separates them. *)
Definition spaced (l : list (cstr * cstr)) : cstr := concat (map (fun p => p.1 ++ p.2) l).

Lemma take_token w g s : token w -> gap g -> take_until sep (w ++ g ++ s) = w.
Proof.
  intros [_ Hw] [Hg Hs]. destruct g as [|c g]; [done|]. apply Forall_cons in Hs as [Hc _]. cbn [app].
  induction Hw as [|d w Hd _ IH]; cbn [app take_until]; [by rewrite Hc|]. by rewrite Hd, IH.
Qed.

Lemma split_spaced n l : Forall (fun p => token p.1 /\ gap p.2) l -> (length l <= n)%nat ->
  split_loop n sep false (spaced l) = map fst l.
Proof.
  intros Hl. revert n. induction Hl as [|[w g] l [Hw Hg] Hl IH]; intros n Hn; [by destruct n|].
  destruct n as [|n]; [cbn in Hn; lia|]. unfold spaced. cbn [map concat fst snd]. fold (spaced l). rewrite <- app_assoc. cbn [fst snd] in Hw, Hg.
  destruct w as [|c w]; [by destruct Hw|]. cbn [split_loop app]. change (c :: w ++ g ++ spaced l) with ((c :: w) ++ g ++ spaced l).
  rewrite take_token by done. rewrite orb_true_r, drop_app_length. f_equal.
  rewrite skip_run; [apply IH; cbn in Hn; lia|apply Hg|].
  destruct Hl as [|[w' g'] l' [Hw' _] _]; [done|]. unfold spaced. cbn [map concat fst snd]. destruct Hw' as [Hn' Hf].
  destruct w' as [|c' w']; [done|]. by apply Forall_cons in Hf as [? _].
Qed.

Lemma seps_enough l : Forall (fun p => token p.1 /\ gap p.2) l -> (length l <= length (List.filter sep (spaced l)))%nat.
Proof.
  induction 1 as [|[w g] l [_ Hg] _ IH]; [done|]. unfold spaced. cbn [map concat fst snd length]. fold (spaced l).
  rewrite !List.filter_app, !length_app. destruct Hg as [Hn Hg]. destruct g as [|c g]; [done|]. apply Forall_cons in Hg as [Hc _].
  cbn [List.filter]. rewrite Hc. cbn [length]. lia.
Qed.

End Tokens.

Lemma split_words seps l : let sep c := existsb (Z.eqb c) seps in
  Forall (fun p => token sep p.1 /\ gap sep p.2) l ->
  split_on_separators (Some (spaced l)) seps (-1) false = map fst l.
Proof.
  intros sep Hl. unfold split_on_separators. change (-1 <? 0) with true. cbv zeta iota. fold sep.
  assert (Hs : skip_while sep (spaced l) = spaced l).
  { destruct Hl as [|[w g] l [[Hn Hw] _] _]; [done|]. unfold spaced. cbn [map concat fst snd] in *. destruct w as [|c w]; [done|].
    apply Forall_cons in Hw as [Hc _]. cbn [app skip_while]. by rewrite Hc. }
  rewrite Hs. apply split_spaced; [done|]. assert (H := seps_enough sep l Hl). lia.
Qed.

(** ** Usage files *)

Lemma lld_read n : - 2 ^ 63 <= n < 2 ^ 63 -> scan_lld (print_d n) = Some n.
Proof.
  intros Hn. unfold print_d. destruct (n <? 0) eqn:E; propify.
  - assert (H : scan_numeral (45 :: print_u 10 (- n)) = Some (true, print_u 10 (- n), [])).
    { unfold scan_numeral. cbn [skip_while]. change (isspace 45) with false. cbn iota.
      rewrite <- (app_nil_r (print_u 10 (- n))). rewrite take_until_app; [|eapply Forall_impl; [apply print_u_digits|by intros c ->]|done].
      rewrite app_nil_r, drop_all. assert (Hne := print_u_nonempty 10 (- n)). by destruct (print_u 10 (- n)). }
    unfold scan_lld. rewrite H. cbn [mbind option_bind]. rewrite print_u_value by lia. f_equal. lia.
  - assert (H := scan_numeral_print [] n [] ltac:(constructor) I). rewrite app_nil_r in H. cbn [app] in H.
    unfold scan_lld. rewrite H. cbn [mbind option_bind]. rewrite print_u_value by lia. f_equal. lia.
Qed.

Lemma wrap_back v : 0 <= v < 2 ^ 64 -> - 2 ^ 63 <= s64 v < 2 ^ 63 /\ u64 (s64 v) = v.
Proof.
  intros Hv. unfold s64, u64. assert (H := Z.mod_pos_bound (v + 2 ^ 63) (2 ^ 64) ltac:(lia)). split; [lia|].
  rewrite Zminus_mod_idemp_l. replace (v + 2 ^ 63 - 2 ^ 63) with v by lia. by apply Z.mod_small.
Qed.

Section Files.
Context {addr : Addr6} {stack : Stack}.

(** What the code relies on of the functions for IPv6: text without blanks, that is read
    back. *)
Class Addr6Laws := {
  ntop6_read os : length os = 16%nat -> Forall is_byte os -> inet_pton6 (inet_ntop6 os) = Some os;
  ntop6_text os : length os = 16%nat -> Forall is_byte os ->
    inet_ntop6 os <> [] /\ Forall (fun c => c <> 0 /\ isspace c = false) (inet_ntop6 os) }.

(** The entries that occur. *)
Definition usage_ok (e : ip_bw) : Prop :=
  (family e = AF_INET /\ (exists w, word w /\ ip e = [w; 0; 0; 0]) \/
   family e = AF_INET6 /\ length (ip e) = 4%nat /\ Forall word (ip e)) /\ 0 <= bw e < 2 ^ 64.

Lemma usage_entry e : usage_ok e -> entry_ok e.
Proof.
  intros [[[Hf (w & Hw & Hi)]|(Hf & Hl & Hi)] Hb]; unfold entry_ok; rewrite Hf.
  - rewrite Hi. split; [done|]. split; [done|]. split; [|done]. repeat constructor; try done; apply Hw.
  - split; [done|]. split; [done|]. by split.
Qed.

Context {laws : Addr6Laws}.

Definition is_sep (c : Z) : bool := existsb (Z.eqb c) blanks.

Lemma sep_space c : is_sep c = true -> isspace c = true.
Proof.
  unfold is_sep, blanks. cbn [existsb]. rewrite !orb_true_iff, !Z.eqb_eq. intros H.
  assert (c = 10 \/ c = 13 \/ c = 9 \/ c = 32) as [-> | [-> | [-> | ->]]] by (intuition done); done.
Qed.

Lemma text_token w : w <> [] -> Forall (fun c => c <> 0 /\ isspace c = false) w -> token is_sep w.
Proof.
  intros Hn Hw. split; [done|]. eapply Forall_impl; [exact Hw|]. intros c [_ Hc]. destruct (is_sep c) eqn:E; [|done].
  apply sep_space in E. congruence.
Qed.

Definition dense (w : cstr) : Prop := w <> [] /\ Forall (fun c => c <> 0 /\ isspace c = false) w.

Lemma digits_dense n : dense (print_u 10 n).
Proof.
  split; [apply print_u_nonempty|]. eapply Forall_impl; [apply print_u_digits|]. intros c Hc. unfold isdigit, isspace in *. zify_all.
Qed.

Lemma print_d_dense n : dense (print_d n).
Proof.
  unfold print_d. destruct (n <? 0); [|apply digits_dense]. split; [done|]. apply Forall_cons. split; [done|]. apply digits_dense.
Qed.

Lemma word_octets_ok ws : Forall word ws -> Forall is_byte (word_octets ws) /\ length (word_octets ws) = (4 * length ws)%nat.
Proof.
  induction 1 as [|w ws Hw _ [IH1 IH2]]; [done|]. unfold word_octets. cbn [map concat]. fold (word_octets ws). split.
  - apply Forall_app. split; [|done]. repeat (apply Forall_cons; split; [apply Z.mod_pos_bound; lia|]). constructor.
  - rewrite length_app, IH2. cbn [length]. change (length (octets 4 w)) with 4%nat. lia.
Qed.

Lemma words_back ws : length ws = 4%nat -> Forall word ws -> words_of (word_octets ws) = ws.
Proof.
  intros Hl Hw. destruct ws as [|a [|b [|c [|d [|]]]]]; try done. rewrite !Forall_cons in Hw. destruct Hw as (Ha & Hb & Hc & Hd & _).
  unfold words_of, word_octets. cbn [map concat]. unfold word in *.
  change (take 4 (octets 4 a ++ ?x)) with (octets 4 a). change (drop 4 (octets 4 a ++ ?x)) with x.
  change (take 4 (octets 4 b ++ ?x)) with (octets 4 b). change (drop 8 (octets 4 a ++ octets 4 b ++ ?x)) with x.
  change (take 4 (octets 4 c ++ ?x)) with (octets 4 c). change (drop 12 (octets 4 a ++ octets 4 b ++ octets 4 c ++ ?x)) with x.
  change (take 4 (octets 4 d ++ ?x)) with (octets 4 d). by rewrite !s_addr_octets by lia.
Qed.

Lemma octets_ipv4 w : word w -> is_ipv4 (octets 4 w).
Proof.
  intros Hw. split; [done|]. repeat (apply Forall_cons; split; [apply Z.mod_pos_bound; lia|]). constructor.
Qed.

Lemma ip_text_dense e : usage_ok e -> dense (ip_text e).
Proof.
  intros [[[Hf (w & Hw & Hi)]|(Hf & Hl & Hi)] _]; unfold ip_text; rewrite Hf.
  - rewrite Hi. change (AF_INET =? AF_INET) with true. cbn iota. cbn [nth]. destruct (octets_ipv4 w Hw) as [Hl _].
    destruct (octets 4 w) as [|a [|b [|c [|d [|]]]]]; try done. unfold inet_ntoa.
    assert (Ha := digits_dense a). destruct Ha as [Hn Ha]. split; [by destruct (print_u 10 a)|].
    repeat (apply Forall_app; split; [apply digits_dense|]; try (apply Forall_cons; split; [done|])). apply digits_dense.
  - change (AF_INET6 =? AF_INET) with false. change (AF_INET6 =? AF_INET6) with true. cbn iota.
    destruct (word_octets_ok (ip e) Hi) as [Hb Hl']. rewrite Hl in Hl'. by apply ntop6_text.
Qed.

(** The words of a file with what separates them. *)
Definition record_words (e : ip_bw) : list (cstr * cstr) :=
  [(print_u 10 (family e), [9]); (ip_text e, repeat 32 (15 - length (ip_text e)) ++ [9]); (print_d (s64 (bw e)), [10])].

Definition file_words (now : Z) (data : list ip_bw) : list (cstr * cstr) :=
  (print_d now, repeat 32 (15 - length (print_d now)) ++ [10]) :: concat (map record_words data).

Lemma spaced_app a b : spaced (a ++ b) = spaced a ++ spaced b.
Proof. unfold spaced. by rewrite map_app, concat_app. Qed.

Lemma save_spaced now data : save_usage_to_file now data = spaced (file_words now data).
Proof.
  unfold save_usage_to_file, file_words, left15. change (spaced (?x :: ?l)) with ((x.1 ++ x.2) ++ spaced l). cbn [fst snd].
  rewrite <- !app_assoc. do 3 f_equal. induction data as [|e data IH]; [done|]. cbn [map concat]. rewrite spaced_app, IH. f_equal.
  unfold usage_line, record_words, spaced, left15. cbn [map concat fst snd]. by rewrite app_nil_r, <- !app_assoc.
Qed.

Lemma blank_gap n c : is_sep c = true -> gap is_sep (repeat 32 n ++ [c]).
Proof.
  intros Hc. split; [by destruct n|]. apply Forall_app. split; [|by constructor].
  induction n; cbn [repeat]; constructor; done.
Qed.

Lemma dense_token w : dense w -> token is_sep w.
Proof. intros [Hn Hw]. by apply text_token. Qed.

Lemma file_words_ok now data : Forall usage_ok data -> Forall (fun p => token is_sep p.1 /\ gap is_sep p.2) (file_words now data).
Proof.
  intros Hd. unfold file_words. apply Forall_cons. cbn [fst snd]. split; [split; [apply dense_token, print_d_dense|by apply blank_gap]|].
  induction Hd as [|e data He _ IH]; [constructor|]. cbn [map concat]. apply Forall_app. split; [|done]. unfold record_words.
  rewrite !Forall_cons, Forall_nil. cbn [fst snd]. split_and!; try done;
    [apply dense_token, digits_dense|apply (blank_gap 0 9); done|apply dense_token; by apply ip_text_dense|by apply blank_gap
    |apply dense_token, print_d_dense|apply (blank_gap 0 10); done].
Qed.

Lemma spaced_plain l : Forall (fun p => Forall (fun c => c <> 0) p.1 /\ Forall (fun c => c <> 0) p.2) l -> Forall (fun c => c <> 0) (spaced l).
Proof. induction 1 as [|p l [H1 H2] _ IH]; [constructor|]. unfold spaced. cbn [map concat]. by rewrite !Forall_app. Qed.

Lemma no_nul now data : Forall usage_ok data -> until_nul (spaced (file_words now data)) = spaced (file_words now data).
Proof.
  intros Hd. apply until_nul_all, spaced_plain.
  assert (Hdense : forall w, dense w -> Forall (fun c => c <> 0) w) by (intros w [_ H]; eapply Forall_impl; [exact H|by intros c [? _]]).
  assert (Hgap : forall n c, c <> 0 -> Forall (fun c => c <> 0) (repeat 32 n ++ [c])).
  { intros n c Hc. apply Forall_app. split; [|by constructor]. induction n; cbn [repeat]; constructor; done. }
  unfold file_words. apply Forall_cons. cbn [fst snd]. split; [split; [apply Hdense, print_d_dense|by apply Hgap]|].
  induction Hd as [|e data He _ IH]; [constructor|]. cbn [map concat]. apply Forall_app. split; [|done]. unfold record_words.
  rewrite !Forall_cons, Forall_nil. cbn [fst snd].
  split_and!; try done; first [apply Hdense, digits_dense | apply (Hgap 0%nat); done | apply Hdense, ip_text_dense, He | by apply Hgap | apply Hdense, print_d_dense].
Qed.

Lemma u32_word v : word v -> u32 v = v.
Proof. intros H. apply Z.mod_small. exact H. Qed.

Lemma record_loaded e ps : usage_ok e -> load_records (map fst (record_words e) ++ ps) = e :: load_records ps.
Proof.
  intros He. assert (Hb := wrap_back (bw e) (proj2 He)). assert (Hent := usage_entry e He). destruct Hent as (Hf & _).
  cbn [record_words map fst app load_records].
  assert (Hs := scan_u64_print [] (family e) [] ltac:(constructor) ltac:(unfold word in Hf; lia) I). rewrite app_nil_r in Hs. cbn [app] in Hs.
  rewrite Hs, u32_word by done. destruct He as [Hcase Hbw].
  assert (Hfound : (if family e =? AF_INET then (fun os => [s_addr os; 0; 0; 0]) <$> inet_pton (ip_text e)
    else if family e =? AF_INET6 then words_of <$> inet_pton6 (ip_text e) else Some stack_words) = Some (ip e)).
  { unfold ip_text. destruct Hcase as [[Hfam (w & Hw & Hi)]|(Hfam & Hl & Hi)]; rewrite Hfam.
    - change (AF_INET =? AF_INET) with true. cbn iota. rewrite Hi. cbn [nth].
      destruct (inet_read_print _ (octets_ipv4 w Hw)) as [-> _]. cbn [fmap option_fmap option_map]. by rewrite s_addr_octets.
    - change (AF_INET6 =? AF_INET) with false. change (AF_INET6 =? AF_INET6) with true. cbn iota.
      destruct (word_octets_ok (ip e) Hi) as [Hby Hl']. rewrite Hl in Hl'. rewrite ntop6_read by done.
      cbn [fmap option_fmap option_map]. by rewrite words_back. }
  cbv zeta. rewrite Hfound, lld_read by apply Hb. destruct Hb as [_ Hu]. rewrite Hu. by destruct e.
Qed.

(** A file with usage is read back as it was written. *)
Lemma usage_file_read now data : - 2 ^ 63 <= now < 2 ^ 63 -> Forall usage_ok data ->
  load_usage_from_file (save_usage_to_file now data) = (now, data).
Proof.
  intros Hn Hd. unfold load_usage_from_file. rewrite save_spaced, no_nul by done.
  rewrite split_words by (by apply file_words_ok). cbn [file_words map fst]. rewrite lld_read by done. cbn [default from_option].
  f_equal. induction Hd as [|e data He _ IH]; [done|]. cbn [map concat]. rewrite map_app, record_loaded by done. by rewrite IH.
Qed.

(** However damaged a file is, no more records are read than there is room for. *)
Lemma load_in_bounds file : let ps := split_on_separators (Some (until_nul file)) blanks (-1) false in
  (length (load_usage_from_file file).2 <= length ps / 3)%nat.
Proof.
  cbv zeta. unfold load_usage_from_file. destruct (split_on_separators _ _ _ _) as [|t ps]; [cbn; lia|]. cbn [snd].
  transitivity (length ps / 3)%nat; [|apply Nat.Div0.div_le_mono; cbn; lia]. apply Nat.div_le_lower_bound; [lia|].
  induction ps as [ps IH] using (well_founded_induction (well_founded_ltof _ (@length cstr))). unfold ltof in IH.
  destruct ps as [|f [|a ps]]; try (cbn; lia). cbn [load_records]. cbv zeta. destruct (if _ =? AF_INET then _ else _) as [ws|].
  - destruct ps as [|b ps]; [cbn; lia|]. assert (H := IH ps ltac:(cbn; lia)). destruct (scan_lld b); cbn [length]; lia.
  - assert (H := IH ps ltac:(cbn; lia)). cbn [length]. lia.
Qed.

End Files.

(** ** History files *)

Lemma fread_octets n v f : 0 <= v < 256 ^ Z.of_nat n -> fread n (octets n v ++ f) = Some (v, f).
Proof.
  intros Hv. unfold fread. rewrite length_app, length_octets, (proj2 (Nat.ltb_ge _ _)) by lia.
  rewrite <- (length_octets n v) at 1 3. rewrite take_app_length, drop_app_length. by rewrite s_addr_octets.
Qed.

Lemma fread_byte v f : 0 <= v < 256 -> fread 1 (v :: f) = Some (v, f).
Proof. intros Hv. unfold fread. cbn. by rewrite Z.add_0_r. Qed.

Definition history_ok (h : ip_bw_history) : Prop :=
  word (h_family h) /\ length (h_ip h) = 4%nat /\ Forall word (h_ip h) /\ num_nodes h = Z.of_nat (length (history_bws h)) /\
  word (num_nodes h) /\ Forall (fun v => 0 <= v < 2 ^ 64) (history_bws h) /\
  Forall (fun t => - 2 ^ 63 <= t < 2 ^ 63) [first_start h; first_end h; last_end h] /\
  (num_nodes h = 0 -> first_start h = 0 /\ first_end h = 0 /\ last_end h = 0).

Lemma time_back t : - 2 ^ 63 <= t < 2 ^ 63 -> 0 <= u64 t < 2 ^ 64 /\ s64 (u64 t) = t.
Proof.
  intros Ht. unfold s64, u64. split; [apply Z.mod_pos_bound; lia|]. rewrite Zplus_mod_idemp_l, Z.mod_small by lia. lia.
Qed.

Lemma nodes_read bits vs f : Forall (fun v => 0 <= v < (if bits =? 32 then 2 ^ 32 else 2 ^ 64)) vs ->
  load_nodes (length vs) bits (concat (map (save_node bits) vs) ++ f) = Some (vs, f).
Proof.
  intros Hv. induction Hv as [|v vs Hv _ IH]; [done|]. cbn [length load_nodes map concat]. rewrite <- app_assoc. unfold save_node at 1, le.
  destruct (bits =? 32).
  - rewrite u32_word by exact Hv. rewrite fread_octets by lia. cbn [mbind option_bind]. by rewrite IH.
  - rewrite fread_octets by lia. cbn [mbind option_bind]. by rewrite IH.
Qed.

Lemma history_read h hs f n : history_ok h -> load_histories n (h_reset_interval h) (h_reset_time h) (is_constant_interval h) f = Some hs ->
  load_histories (S n) (h_reset_interval h) (h_reset_time h) (is_constant_interval h) (save_one_history h ++ f) = Some (h :: hs).
Proof.
  intros (Hf & Hl & Hi & Hn & Hnw & Hv & Ht & Hz) IH. destruct h as [fam ws nodes interval time constant fs fe la vs].
  cbn [h_family h_ip num_nodes h_reset_interval h_reset_time is_constant_interval first_start first_end last_end history_bws] in *.
  destruct ws as [|w0 [|w1 [|w2 [|w3 [|]]]]]; try done. rewrite !Forall_cons in Hi. destruct Hi as (H0 & H1 & H2 & H3 & _).
  rewrite !Forall_cons in Ht. destruct Ht as (Ht1 & Ht2 & Ht3 & _). unfold word in *.
  unfold save_one_history, le. cbn [h_family h_ip num_nodes first_start first_end last_end history_bws map concat].
  rewrite app_nil_r, <- !app_assoc. cbn [load_histories]. do 6 (rewrite fread_octets by lia; cbn [mbind option_bind]).
  destruct (Z.eqb_spec nodes 0) as [E|E].
  - destruct (Hz E) as (-> & -> & ->). rewrite E in Hn. assert (Hvs : vs = []) by (destruct vs; [done|cbn in Hn; lia]). subst vs nodes.
    rewrite <- !app_assoc. do 3 (rewrite fread_octets by lia; cbn [mbind option_bind]). cbn [app]. rewrite fread_byte by lia.
    cbn [mbind option_bind]. change (Z.to_nat 0) with 0%nat. cbn [load_nodes mbind option_bind]. by rewrite IH.
  - destruct (time_back fs Ht1) as [B1 C1], (time_back fe Ht2) as [B2 C2], (time_back la Ht3) as [B3 C3].
    rewrite <- !app_assoc. do 3 (rewrite fread_octets by lia; cbn [mbind option_bind]). set (bits := if forallb _ _ then 32 else 64). cbn [app].
    rewrite fread_byte by (subst bits; destruct (forallb _ _); lia). cbn [mbind option_bind]. rewrite Hn, Nat2Z.id, nodes_read.
    + cbn [mbind option_bind]. rewrite IH, C1, C2, C3. done.
    + subst bits. destruct (forallb _ vs) eqn:Ef; [|exact Hv]. rewrite forallb_forall in Ef. rewrite Forall_forall in Hv |- *.
      intros v Hin. assert (Hx := Hv v Hin). apply list_elem_of_In, Ef in Hin. propify. unfold INT32_MAX in Hin. cbn [Z.eqb Pos.eqb]. lia.
Qed.

(** A file with histories is read back as it was written, when all of them are of one
    counter. *)
Lemma history_file_read hs : Forall history_ok hs -> Z.of_nat (length hs) < 2 ^ 32 ->
  (forall h, head hs = Some h -> - 2 ^ 63 <= h_reset_interval h < 2 ^ 63 /\ - 2 ^ 63 <= h_reset_time h < 2 ^ 63 /\ 0 <= is_constant_interval h < 256 /\
     Forall (fun x => h_reset_interval x = h_reset_interval h /\ h_reset_time x = h_reset_time h /\ is_constant_interval x = is_constant_interval h) hs) ->
  load_history_from_file (save_history_to_file hs) = Some hs.
Proof.
  intros Hok Hlen Hsame. unfold load_history_from_file, save_history_to_file, le. rewrite fread_octets by lia. cbn [mbind option_bind].
  destruct hs as [|h hs]; [done|]. rewrite (proj2 (Z.eqb_neq _ _)) by (cbn [length]; lia).
  destruct (Hsame h eq_refl) as (Hi & Ht & Hc & Hall). clear Hsame.
  destruct (time_back _ Hi) as [B1 C1], (time_back _ Ht) as [B2 C2]. rewrite <- !app_assoc.
  do 2 (rewrite fread_octets by lia; cbn [mbind option_bind]). cbn [app]. rewrite fread_byte by done. cbn [mbind option_bind].
  rewrite C1, C2, Nat2Z.id. clear C1 C2 B1 B2.
  assert (Hrun : forall l, Forall history_ok l -> Forall (fun x => h_reset_interval x = h_reset_interval h /\ h_reset_time x = h_reset_time h /\
    is_constant_interval x = is_constant_interval h) l ->
    load_histories (length l) (h_reset_interval h) (h_reset_time h) (is_constant_interval h) (concat (map save_one_history l)) = Some l).
  { intros l Hl. induction Hl as [|x l Hx _ IH]; intros Hs; [done|]. apply Forall_cons in Hs as [(E1 & E2 & E3) Hs].
    cbn [length map concat]. rewrite <- E1, <- E2, <- E3. apply history_read; [done|]. rewrite E1, E2, E3. by apply IH. }
  by apply Hrun.
Qed.

(** ** Locking *)

Definition attempts (wait : Z) : nat := Z.to_nat (Z.max 1 ((wait + 24) / 25)).

Lemma attempts_step wait : 25 < wait -> attempts wait = S (attempts (wait - 25)).
Proof.
  intros Hw. unfold attempts. replace (wait + 24) with (wait - 25 + 24 + 1 * 25) by lia. rewrite Z.div_add by lia.
  assert (1 <= (wait - 25 + 24) / 25) by (apply Z.div_le_lower_bound; lia). lia.
Qed.

Lemma lock_loop_tries tries fuel : forall k wait, 0 <= wait < Z.of_nat fuel ->
  lock_loop fuel tries k wait = existsb tries (seq k (attempts wait)).
Proof.
  induction fuel as [|f IH]; intros k wait Hw; [lia|]. cbn [lock_loop]. destruct (25 <? wait) eqn:E; propify.
  - rewrite attempts_step by done. cbn [seq existsb]. destruct (tries k); [done|]. cbn [orb]. rewrite (proj2 (Z.ltb_lt _ _)) by lia. apply IH. lia.
  - assert (Ha : attempts wait = 1%nat).
    { unfold attempts. assert ((wait + 24) / 25 < 2) by (apply Z.div_lt_upper_bound; lia). lia. }
    rewrite Ha. cbn [seq existsb]. change (0 <? 0) with false. by destruct (tries k).
Qed.

(** Locking ends: it tries once every 25 milliseconds, and succeeds exactly if one of
    these attempts does. *)
Lemma lock_ends opened tries wait : 0 <= wait -> lock opened tries wait = opened && existsb tries (seq 0 (attempts wait)).
Proof. intros Hw. unfold lock. destruct opened; [|done]. apply lock_loop_tries. lia. Qed.

Definition exclusive (s : procs) : Prop := sem s = 1 /\ holding s = [] \/ sem s = 0 /\ exists p, holding s = [p].

(** A run in which only the process that holds the lock is killed, or any while it is
    free. *)
Inductive fair_run : procs -> Prop :=
  | fair_start : fair_run procs0
  | fair_step s e s' : fair_run s -> sem_step s e s' -> (forall p, e = Signal p -> p ∈ holding s \/ holding s = []) -> fair_run s'.

Lemma drop_single p q : drop_proc p [q] = if (q =? p)%nat then [] else [q].
Proof. unfold drop_proc. cbn [List.filter]. by destruct (q =? p)%nat. Qed.

(** The lock excludes: in such a run no two processes hold it at a time. *)
Lemma fair_exclusive s : fair_run s -> exclusive s.
Proof.
  induction 1 as [|s e s' _ IH Hs Hf]; [by left|]. unfold exclusive. destruct Hs as [s p Hk Hh Hl|s p Hh Hk|s p Hk]; cbn [sem holding].
  - unfold lock_sem in Hl. destruct IH as [[Hm Ho]|[Hm _]]; [|rewrite Hm in Hl; done].
    right. rewrite Hm, Ho. split; [done|]. by exists p.
  - left. destruct IH as [[_ Ho]|[Hm [q Ho]]]; [rewrite Ho in Hh; by apply elem_of_nil in Hh|].
    rewrite Ho in Hh. apply list_elem_of_singleton in Hh as ->. rewrite Hm, Ho, drop_single, Nat.eqb_refl. done.
  - left. destruct (Hf p eq_refl) as [Hh|Hh]; destruct IH as [[Hm Ho]|[Hm [q Ho]]].
    + rewrite Ho in Hh. by apply elem_of_nil in Hh.
    + rewrite Ho in Hh. apply list_elem_of_singleton in Hh as ->. by rewrite Hm, Ho, drop_single, Nat.eqb_refl.
    + by rewrite Hm, Ho.
    + rewrite Ho in Hh. done.
Qed.

(** The handler unlocks whoever holds the lock: a process killed while it waits lets two
    others in. *)
Lemma signal_lets_two_in : exists s1 s2 s3, sem_step procs0 (Lock 1) s1 /\ sem_step s1 (Signal 2) s2 /\ sem_step s2 (Lock 3) s3 /\
  holding s3 = [3; 1]%nat.
Proof.
  eexists _, _, _. split; [constructor; [apply not_elem_of_nil|apply not_elem_of_nil|done]|].
  split; [constructor; apply not_elem_of_nil|].
  split; [constructor; cbn; [set_solver|set_solver|done]|done].
Qed.

(** ** Intervals *)

Section Intervals.
Context {clock : Clock}.

Lemma advance_progress t interval : interval ∈ [BANDWIDTH_MINUTE; BANDWIDTH_HOUR; BANDWIDTH_DAY; BANDWIDTH_WEEK; BANDWIDTH_MONTH] ->
  t < advance t interval.
Proof.
  intros H. unfold advance. set (next := if interval =? BANDWIDTH_MINUTE then _ else _). cbv zeta.
  destruct (next <=? t) eqn:E; propify; [|done]. rewrite !elem_of_cons, elem_of_nil in H.
  destruct H as [->|[->|[->|[->|[->|[]]]]]]; cbn [Z.eqb Pos.eqb BANDWIDTH_MINUTE BANDWIDTH_HOUR BANDWIDTH_DAY BANDWIDTH_WEEK BANDWIDTH_MONTH orb]; lia.
Qed.

(** The search for the start of the next interval ends. *)
Lemma next_start_found fuel current interval time constant :
  interval ∈ [BANDWIDTH_MINUTE; BANDWIDTH_HOUR; BANDWIDTH_DAY; BANDWIDTH_WEEK; BANDWIDTH_MONTH] -> 0 <= time -> (2 <= fuel)%nat ->
  exists t, get_next_node_start_time fuel current interval time constant = Some t.
Proof.
  intros Hi Ht Hf. unfold get_next_node_start_time. destruct (negb _); [by eexists|]. destruct fuel as [|[|f]]; try lia. cbn [next_loop].
  assert (Hp := advance_progress current interval Hi). destruct (current + time <=? current); [|by eexists].
  rewrite (proj2 (Z.leb_gt _ _)) by lia. by eexists.
Qed.

(** With an offset of the reset the intervals of a history seem as long as the offset. *)
Lemma offset_taken_for_interval fuel current interval time : 0 < time -> (1 <= fuel)%nat ->
  get_next_node_start_time fuel current interval time 0 = Some (current + time).
Proof.
  intros Ht Hf. destruct fuel as [|f]; [lia|]. unfold get_next_node_start_time. cbn [next_loop]. change (negb (0 =? 0)) with false. cbn iota.
  by rewrite (proj2 (Z.leb_gt _ _)) by lia.
Qed.

(** Without a reset the search does not end. *)
Lemma never_found fuel current constant : constant = 0 -> get_next_node_start_time fuel current BANDWIDTH_NEVER 0 constant = None.
Proof.
  intros ->. unfold get_next_node_start_time. change (negb (0 =? 0)) with false. cbn iota.
  assert (Ha : advance current BANDWIDTH_NEVER = current).
  { unfold advance. change (BANDWIDTH_NEVER =? BANDWIDTH_MINUTE) with false. change (BANDWIDTH_NEVER =? BANDWIDTH_HOUR) with false.
    change (BANDWIDTH_NEVER =? BANDWIDTH_DAY) with false. change (BANDWIDTH_NEVER =? BANDWIDTH_WEEK) with false.
    change (BANDWIDTH_NEVER =? BANDWIDTH_MONTH) with false. cbn [orb]. by destruct (_ <=? _). }
  induction fuel as [|f IH]; [done|]. cbn [next_loop]. rewrite (proj2 (Z.leb_le _ _)) by lia. by rewrite Ha, IH.
Qed.

End Intervals.

End BwCtlSpec.
