(* ===== verification/QuotaBackup.v ===== *)
(** Saving, restoring and showing the counters of the quotas:
    src/tomato64/package/gargoyle-quotas/tools/quota_backup.c and
    src/tomato64/package/httpd/httpd/quotas.c.

    The files with the counters are a map from paths to contents. Whether the lock is got
    for a counter and the socket opens, the clock and which paths can be written are
    variables; a program that does not end or that breaks has no result. *)

From Stdlib Require Import ZArith Lia.
From stdpp Require Import base list strings gmap.
From S2P Require Import Prelude Scan Inet Nvram Rules Ndpi QuotaWindow QuotaRun Bandwidth BwCtl.

Local Open Scope Z_scope.
Local Open Scope rule_scope.

Module QuotaBackup.
Import Scan Inet Nvram Ndpi BwCtl.

Definition QUOTA_IDFILE_DEFAULT : cstr := !"/var/lib/quotas/ids".
Definition QUOTA_MAX_WAIT_MS : Z := 5000.
Definition QUOTA_CLOCK_VALID_MIN : Z := 1600000000.
Definition QUOTA_MAX_IDS : nat := 128.

Abbreviation disk := (gmap cstr (list Z)).

Definition quota_path_for (dir id : cstr) : cstr :=
  snprintf 512 (dir ++ !"/" ++ map (fun c => if c =? chr "/" then chr "_" else c) (take Bandwidth.BANDWIDTH_MAX_ID_LENGTH id)).

(** The names in the file of counters; its lines are read with a buffer of 58 bytes. *)
Definition listed (p : cstr) : bool := negb (char_at p 0 =? 0) && negb (char_at p 0 =? chr "#").

Definition ids_in (text : cstr) : list cstr := List.filter listed (map QuotaRun.id_line (fgets_all 57 57 [] text)).

Section Backup.
Context {kernel : Counters} {addr : Addr6} {stack : Stack}.
Variables (fuel : nat) (locked : cstr -> bool) (socket : bool).

(** ** quota_backup *)

Section Program.
Variables (now : Z) (writable : cstr -> bool).

Definition quota_save_one (k : counters) (dir : cstr) (d : disk) (id : cstr) : option disk :=
  a ← get_all_bandwidth_usage_for_rule_id fuel (locked id) socket k id;
  match a with
  | Got num data =>
      let path := quota_path_for dir id in
      Some (if writable path then <[path := save_usage_to_file now (take (Z.to_nat num) data)]> d else d)
  | Failed => Some d
  | Crashed => None
  end.

Definition quota_restore_one (d : disk) (dir : cstr) (k : counters) (id : cstr) : option counters :=
  match d !! quota_path_for dir id with
  | None => Some k
  | Some file =>
      let '(backup, data) := load_usage_from_file file in
      fst <$> set_bandwidth_usage_for_rule_id fuel (locked id) socket k id 0 backup data
  end.

(** One step after the other, as long as they have results. *)
Definition steps {A B} (f : A -> B -> option A) (l : list B) (x : A) : option A :=
  fold_left (fun x y => x ≫= fun x => f x y) l (Some x).

(** [save] and [restore], with the file of the counters if there is one. *)
Definition quota_save (ids : option cstr) (k : counters) (dir : cstr) (d : disk) : option disk :=
  if now <? QUOTA_CLOCK_VALID_MIN then Some d
  else match ids with None => Some d | Some text => steps (quota_save_one k dir) (ids_in text) d end.

Definition quota_restore (ids : option cstr) (d : disk) (dir : cstr) (k : counters) : option counters :=
  match ids with None => Some k | Some text => steps (quota_restore_one d dir) (ids_in text) k end.

(** The files, the kernel and the exit status. *)
Definition quota_backup_main (argv : list cstr) (text : cstr -> option cstr) (d : disk) (k : counters) : option (disk * counters * Z) :=
  match argv with
  | _ :: mode :: dir :: rest =>
      let ids := text (default QUOTA_IDFILE_DEFAULT (head rest)) in
      if strcmp_eq mode !"save" then (fun d => (d, k, 0)) <$> quota_save ids k dir d
      else if strcmp_eq mode !"restore" then (fun k => (d, k, 0)) <$> quota_restore ids d dir k
      else Some (d, k, 1)
  | _ => Some (d, k, 1)
  end.

End Program.

(** ** The page with the usage *)

Definition quota_load_ids (text : option cstr) : list cstr :=
  match text with None => [] | Some t => map (take Bandwidth.BANDWIDTH_MAX_ID_LENGTH) (take QUOTA_MAX_IDS (ids_in t)) end.

Definition quota_reset_id (k : counters) (id : cstr) : option counters :=
  a ← get_all_bandwidth_usage_for_rule_id fuel (locked id) socket k id;
  match a with
  | Got num data =>
      fst <$> set_bandwidth_usage_for_rule_id fuel (locked id) socket k id 1 0
                (map (fun e => mk_bw (family e) (ip e) 0) (take (Z.to_nat num) data))
  | Failed => Some k
  | Crashed => None
  end.

Definition quota_ip_str (e : ip_bw) : cstr :=
  if family e =? AF_INET6 then inet_ntop6 (word_octets (ip e)) else inet_ntoa (octets 4 (nth 0 (ip e) 0)).

Definition usage_item (id : cstr) (e : ip_bw) : cstr :=
  !"['" ++ id ++ !"','" ++ quota_ip_str e ++ !"'," ++ print_u 10 (u64 (bw e)) ++ !"]".

(** The items of all the counters. *)
Definition usage_items (k : counters) (ids : list cstr) : option (list cstr) :=
  steps (fun items id =>
    a ← get_all_bandwidth_usage_for_rule_id fuel (locked id) socket k id;
    match a with
    | Got num data => Some (items ++ map (usage_item id) (take (Z.to_nat num) data))
    | Failed => Some items
    | Crashed => None
    end) ids [].

(** Every item is preceded by a comma, the first by a blank. *)
Definition joined (items : list cstr) : cstr := concat (imap (fun j s => (if (j =? 0)%nat then 32 else 44) :: s) items).

Definition asp_quotas (argv : list cstr) (text : option cstr) (k : counters) : option (counters * cstr) :=
  let ids := quota_load_ids text in
  let reset :=
    match argv with
    | cmd :: which :: _ =>
        if strcmp_eq cmd !"reset"
        then List.filter (fun id => strcmp_eq which !"*" || strcmp_eq id which) ids else []
    | _ => []
    end in
  k ← steps quota_reset_id reset k;
  items ← usage_items k ids;
  Some (k, [10; 10] ++ !"quota_usage=[" ++ joined items ++ !"];" ++ [10]).

End Backup.

End QuotaBackup.
