(* ===== verification/QuotaBackupSpec.v ===== *)
(** The counters of the quotas over a restart (QuotaBackup.v): what is saved for the
    counters that have rules is what the kernel gets when they are restored. *)

From Stdlib Require Import ZArith Lia.
From stdpp Require Import base list strings gmap.
From S2P Require Import Prelude Scan Strings Inet Nvram Wan BuildConfig Defaults SaveVars Rules RulesSpec Ndpi FwEnv Firewall.
From S2P Require Import QuotaWindow Quotas QuotaRun Marks QuotaDemo QuotasSpec QuotaRunSpec Bandwidth BwCtl BwCtlSpec QuotaBackup.

Local Open Scope Z_scope.
Local Open Scope rule_scope.

Module QuotaBackupSpec.
Import Scan Strings Inet Nvram Wan BuildConfig SaveVars Rules RulesSpec Ndpi FwEnv Firewall QuotaWindow Quotas QuotaRun QuotasSpec QuotaRunSpec.
Import BwCtl BwCtlSpec QuotaBackup.

(** ** The names of the counters *)

(** Names that fit the buffers and hold no separator of paths. *)
Definition name_ok (i : cstr) : Prop := line_safe i /\ (length i <= 49)%nat /\ ~ chr "/" ∈ i.

Lemma ids_in_file ids : Forall name_ok ids -> ids_in (concat (map (fun i => i ++ [10]) ids)) = ids.
Proof.
  intros Hs. unfold ids_in. induction Hs as [|i ids (Hsafe & Hl & _) Hs IH]; [done|].
  cbn [map concat]. rewrite <- (app_assoc i). cbn [app]. destruct Hsafe as (Hl' & Hc & Hf). rewrite fgets_line by (try done; lia).
  cbn [List.rev app map List.filter]. rewrite id_line_back by done. destruct i as [|c i]; [done|]. destruct Hf as [_ H35].
  apply Forall_cons in Hc as [[H0 _] _]. unfold listed at 1. cbn [char_at nth]. rewrite (proj2 (Z.eqb_neq _ _) H0). change (chr "#") with 35.
  rewrite (proj2 (Z.eqb_neq _ _) H35). cbn [negb andb]. by rewrite IH.
Qed.

Lemma path_of dir i : name_ok i -> (length dir <= 400)%nat -> quota_path_for dir i = dir ++ !"/" ++ i.
Proof.
  intros (_ & Hl & Hs) Hd. unfold quota_path_for, Bandwidth.BANDWIDTH_MAX_ID_LENGTH. rewrite (take_ge i) by lia.
  assert (Hm : map (fun c => if c =? chr "/" then chr "_" else c) i = i).
  { clear Hl. induction i as [|c i IH]; [done|]. cbn [map]. apply not_elem_of_cons in Hs as [Hc Hs].
    rewrite (proj2 (Z.eqb_neq c (chr "/"))) by (intros ->; done). by rewrite IH. }
  rewrite Hm. unfold snprintf. apply take_ge. rewrite !length_app. cbn [length bytes]. change (length !"/") with 1%nat. lia.
Qed.

Lemma path_inj dir i j : name_ok i -> name_ok j -> (length dir <= 400)%nat -> quota_path_for dir i = quota_path_for dir j -> i = j.
Proof. intros Hi Hj Hd. rewrite !path_of by done. intros E. by apply app_inv_head, app_inv_head in E. Qed.

(** ** Saving and restoring *)

Lemma steps_app {A B} (f : A -> B -> option A) l m x y : steps f l x = Some y -> steps f (l ++ m) x = steps f m y.
Proof. unfold steps. intros H. by rewrite fold_left_app, H. Qed.

Lemma steps_cons {A B} (f : A -> B -> option A) b l x y : f x b = Some y -> steps f (b :: l) x = steps f l y.
Proof. intros H. unfold steps. cbn [fold_left mbind option_bind]. by rewrite H. Qed.

Section Restart.
Context {kernel : Counters} {addr : Addr6} {stack : Stack} {laws : Addr6Laws}.
Variables (fuel : nat) (now : Z) (dir : cstr) (usage_of : cstr -> list ip_bw).
Hypothesis time_ok : QUOTA_CLOCK_VALID_MIN <= now < 2 ^ 63.
Hypothesis dir_ok : (length dir <= 400)%nat.

Definition any (_ : cstr) : bool := true.

(** A kernel that has the usage of a counter. *)
Definition counted (k : counters) (i : cstr) : Prop :=
  serves k i (usage_of i) /\ Forall usage_ok (usage_of i) /\ (length (usage_of i) < fuel)%nat.

(** The files of the counters. *)
Definition saved (d : disk) (i : cstr) : Prop := d !! quota_path_for dir i = Some (save_usage_to_file now (usage_of i)).

Lemma save_one k d i : counted k i ->
  quota_save_one fuel any true now any k dir d i = Some (<[quota_path_for dir i := save_usage_to_file now (usage_of i)]> d).
Proof.
  intros (Hs & _ & Hf). unfold quota_save_one, any. rewrite (usage_received k i _ fuel Hs Hf). cbn [mbind option_bind].
  by rewrite Nat2Z.id, take_app_length.
Qed.

Lemma save_all k ids : NoDup ids -> Forall name_ok ids -> Forall (counted k) ids ->
  forall d, exists d', steps (quota_save_one fuel any true now any k dir) ids d = Some d' /\ Forall (saved d') ids /\
    forall p, p ∉ map (quota_path_for dir) ids -> d' !! p = d !! p.
Proof.
  intros Hnd Hok Hk. induction ids as [|i ids IH]; intros d; [by exists d|].
  apply NoDup_cons in Hnd as [Hni Hnd]. apply Forall_cons in Hok as [Hi Hok]. apply Forall_cons in Hk as [Hki Hk].
  destruct (IH Hnd Hok Hk (<[quota_path_for dir i := save_usage_to_file now (usage_of i)]> d)) as (d' & Hd' & Hsaved & Hrest).
  exists d'. split; [by rewrite (steps_cons _ _ _ _ _ (save_one k d i Hki))|]. split.
  - apply Forall_cons. split; [|done]. unfold saved. rewrite Hrest; [apply lookup_insert_eq|].
    intros Hin. apply list_elem_of_In, in_map_iff in Hin as (j & Hp & Hj). apply list_elem_of_In in Hj.
    rewrite Forall_forall in Hok. by rewrite (path_inj dir j i (Hok j Hj) Hi dir_ok Hp) in Hj.
  - intros p Hp. cbn [map] in Hp. apply not_elem_of_cons in Hp as [Hne Hp]. rewrite Hrest by done. by rewrite lookup_insert_ne.
Qed.

(** Messages that carry the usage of a counter with the time of the save. *)
Definition carries (ms : list message) (i : cstr) : Prop :=
  concat (map (fun m => entries_of (message_bytes m)) ms) = usage_of i /\ indexed 0 ms /\
  Forall (fun m => set_id m = i /\ last_backup m = now /\ total_ips m = Z.of_nat (length (usage_of i)) /\ zero_unset_ips m = 0) ms.

Lemma restore_one d i k0 : saved d i -> counted k0 i -> exists ms, carries ms i /\
  forall k, quota_restore_one fuel any true d dir k i = Some (fold_left bw_set (map message_bytes ms) k).
Proof.
  intros Hs (Hserv & Hok & Hf). destruct Hserv as (Hent & Hlen & _).
  destruct (usage_sent fuel i 0 now (usage_of i) Hent Hlen Hf) as (ms & Hms & Hc & Hi & Hall). exists ms. split.
  - split; [done|]. split; [done|]. eapply Forall_impl; [exact Hall|]. intros m (Ht & _ & Hz & Hb & Hid & _).
    split; [done|]. split; [|done]. rewrite Hb. apply Z.mod_small. unfold QUOTA_CLOCK_VALID_MIN in time_ok. lia.
  - intros k. unfold quota_restore_one. rewrite Hs, usage_file_read by (done || (unfold QUOTA_CLOCK_VALID_MIN in time_ok; lia)).
    unfold set_bandwidth_usage_for_rule_id, set_bandwidth_data, any. cbn [negb]. by rewrite Hms.
Qed.

Lemma restore_all d k0 ids : Forall (saved d) ids -> Forall (counted k0) ids -> exists mss, Forall2 carries mss ids /\
  forall k, steps (quota_restore_one fuel any true d dir) ids k = Some (fold_left bw_set (map message_bytes (concat mss)) k).
Proof.
  intros Hs Hk. induction Hs as [|i ids Hi _ IH]; [by exists []|]. apply Forall_cons in Hk as [Hki Hk].
  destruct (IH Hk) as (mss & Hc & Hrun), (restore_one d i k0 Hi Hki) as (ms & Hci & Hone). exists (ms :: mss). split; [by constructor|].
  intros k. rewrite (steps_cons _ _ _ _ _ (Hone k)), Hrun. cbn [concat]. by rewrite map_app, fold_left_app.
Qed.

(** The page resets a counter by sending its entries back with no usage. *)
Lemma reset_sends_zeros k i : counted k i -> exists ms,
  quota_reset_id fuel any true k i = Some (fold_left bw_set (map message_bytes ms) k) /\
  concat (map (fun m => entries_of (message_bytes m)) ms) = map (fun e => mk_bw (family e) (ip e) 0) (usage_of i) /\
  Forall (fun m => set_id m = i /\ zero_unset_ips m = 1 /\ last_backup m = 0) ms.
Proof.
  intros (Hserv & Hok & Hf). unfold quota_reset_id, any. rewrite (usage_received k i _ fuel Hserv Hf). cbn [mbind option_bind].
  rewrite Nat2Z.id, take_app_length. destruct Hserv as (Hent & Hlen & _). set (data := map _ (usage_of i)).
  assert (Hz : Forall entry_ok data).
  { apply Forall_map. eapply Forall_impl; [exact Hent|]. intros e (H1 & H2 & H3 & _). split; [done|]. split; [done|]. split; [done|]. cbn. lia. }
  assert (Hl : length data = length (usage_of i)) by apply length_map.
  destruct (usage_sent fuel i 1 0 data Hz ltac:(by rewrite Hl) ltac:(by rewrite Hl)) as (ms & Hms & Hc & _ & Hall). exists ms.
  unfold set_bandwidth_usage_for_rule_id, set_bandwidth_data. cbn [negb]. rewrite Hms. split; [done|]. split; [done|].
  eapply Forall_impl; [exact Hall|]. intros m (_ & _ & H1 & H2 & H3 & _). by rewrite H2.
Qed.

(** Nothing is reset that is not in the file of counters. *)
Lemma only_listed_reset k which text out : which <> !"*" -> which ∉ quota_load_ids text ->
  forall k', asp_quotas fuel any true [!"reset"; which] text k = Some (k', out) -> k' = k.
Proof.
  intros Hs Hn k'. unfold asp_quotas. change (strcmp_eq !"reset" !"reset") with true. cbn iota.
  assert (Hf : List.filter (fun id => strcmp_eq which !"*" || strcmp_eq id which) (quota_load_ids text) = []).
  { destruct (strcmp_eq which !"*") eqn:E; [apply strcmp_eq_true in E; done|]. cbn [orb].
    induction (quota_load_ids text) as [|j l IH]; [done|]. apply not_elem_of_cons in Hn as [Hj Hn]. cbn [List.filter].
    destruct (strcmp_eq j which) eqn:Ej; [apply strcmp_eq_true in Ej as ->; done|]. by apply IH. }
  rewrite Hf. cbn [steps fold_left mbind option_bind]. destruct (usage_items _ _ _ _ _); cbn [mbind option_bind]; [|done]. by intros [= <- _].
Qed.

End Restart.

(** ** The counters that have rules *)

Section Composition.
Context {nv : Nvram} {cfg : Config} {build : Build} {links : Links} {cal : Calendar}.
Context {kernel : Counters} {addr : Addr6} {stack : Stack} {laws : Addr6Laws}.

Lemma quota_names : Forall name_ok (ids_of quota_list).
Proof.
  assert (Hok : all_ok quota_list) by (apply read_quotas_ok; lia).
  assert (Hd : Forall (fun q => digits_only (q_id q)) quota_list) by (apply read_quotas_digits; lia).
  assert (Hs := ids_safe _ Hok Hd). apply Forall_forall. intros i Hi. rewrite Forall_forall in Hs. split; [by apply Hs|].
  unfold ids_of in Hi. apply list_elem_of_In, in_concat in Hi as (l & Hl & Hi). apply in_map_iff in Hl as (q & <- & Hq).
  apply in_map_iff in Hi as (c & <- & Hc). apply list_elem_of_In in Hc, Hq. unfold all_ok in Hok. rewrite Forall_forall in Hok, Hd.
  destruct (cap_id_form q c (Hok q Hq) Hc) as (k & Hk & ->). rewrite !elem_of_cons, elem_of_nil in Hk.
  destruct (Hok q Hq) as (_ & Hlen & _). rewrite !length_app. change (length !"quota_") with 6%nat. change (length !"_") with 1%nat.
  assert (Hkk : length (bytes k) = 1%nat /\ chr "/" ∉ bytes k).
  { destruct Hk as [->|[->|[->|[]]]]; (split; [done|]); apply (bool_decide_unpack _); vm_compute; exact I. }
  split; [lia|]. rewrite !elem_of_app. intros [H|[H|[H|H]]]; [|specialize (Hd q Hq); unfold digits_only in Hd; rewrite Forall_forall in Hd; apply Hd in H; cbn beta in H; change (chr "/") with 47 in H; lia| |by apply Hkk].
  - revert H. apply (bool_decide_unpack _). vm_compute. exact I.
  - revert H. apply (bool_decide_unpack _). vm_compute. exact I.
Qed.

(** C11: usage survives a restart. When the quotas have rules, the counters in their rules
    are those in the file of counters; if the kernel has usage for each of them, saving it
    and restoring it after a restart gives the new kernel messages with exactly this usage,
    counter by counter, under the name of the counter and with the time of the save. *)
Theorem usage_survives_restart fuel now dir usage_of e k d :
  QUOTA_CLOCK_VALID_MIN <= now < 2 ^ 63 -> (length dir <= 400)%nat ->
  rules (ipt_quotas e) <> [] -> NoDup (map q_id quota_list) ->
  let ids := file_counters (lines4 (rules (ipt_quotas e))) in
  Forall (counted fuel usage_of k) ids ->
  exists d' mss, quota_save fuel any true now any (ids_file (ipt_quotas e)) k dir d = Some d' /\
    Forall2 (carries now usage_of) mss ids /\
    forall k', quota_restore fuel any true (ids_file (ipt_quotas e)) d' dir k' = Some (fold_left bw_set (map message_bytes (concat mss)) k').
Proof.
  intros Hnow Hdir Hr Hnd ids Hk. subst ids. rewrite (quotas_built e Hr) in *. assert (Hok : all_ok quota_list) by (apply read_quotas_ok; lia).
  rewrite (lines4_counters e _ _ Hok) in *. rewrite ids_file_eq. assert (Hids := ids_nodup _ Hok Hnd). assert (Hn := quota_names).
  destruct (save_all fuel now dir usage_of Hdir k _ Hids Hn Hk d) as (d' & Hsave & Hsaved & _).
  destruct (restore_all fuel now dir usage_of Hnow Hdir d' k _ Hsaved Hk) as (mss & Hc & Hrun). exists d', mss.
  unfold quota_save, quota_restore. rewrite (proj2 (Z.ltb_ge _ _)) by lia. rewrite ids_in_file by done. by split_and!.
Qed.

End Composition.

(** ** An example *)

Definition hex_pair (o : Z) : cstr := [digit_char (o / 16); digit_char (o mod 16)].
Fixpoint pairs (s : cstr) : list Z :=
  match s with a :: b :: s => hex_val a * 16 + hex_val b :: pairs s | _ => [] end.

#[local] Instance plain6 : Addr6 := {| inet_ntop6 os := concat (map hex_pair os); inet_pton6 s := Some (pairs s) |}.
#[local] Instance zero_stack : Stack := {| stack_words := [0; 0; 0; 0]; stack_text := [] |}.

Lemma hex_pair_ok o : is_byte o -> pairs (hex_pair o) = [o] /\ Forall (fun c => c <> 0 /\ isspace c = false) (hex_pair o).
Proof.
  intros Ho. assert (H : forallb (fun o => bool_decide (pairs (hex_pair o) = [o]) && forallb (fun c => negb (c =? 0) && negb (isspace c)) (hex_pair o)) (upto 0 256) = true) by (vm_compute; reflexivity).
  rewrite forallb_forall in H. assert (Hin : List.In o (upto 0 256)).
  { unfold upto. apply in_map_iff. exists (Z.to_nat o). split; [unfold is_byte in Ho; lia|]. apply in_seq. unfold is_byte in Ho. lia. }
  apply H, andb_true_iff in Hin as [H1 H2]. apply bool_decide_eq_true in H1. split; [done|]. rewrite forallb_forall in H2.
  apply Forall_forall. intros c Hc. apply list_elem_of_In, H2, andb_true_iff in Hc as [Ha Hb]. apply negb_true_iff in Ha, Hb. by apply Z.eqb_neq in Ha.
Qed.

#[local] Instance plain6_laws : Addr6Laws.
Proof.
  constructor.
  - intros os _ Hos. cbn [inet_pton6 inet_ntop6 plain6]. f_equal. induction Hos as [|o os Ho _ IH]; [done|]. cbn [map concat].
    destruct (hex_pair_ok o Ho) as [Hp _]. unfold hex_pair in *. cbn [app pairs] in *. injection Hp as Hp. by rewrite Hp, IH.
  - intros os Hl Hos. cbn [inet_ntop6 plain6]. split; [by destruct os|]. clear Hl. induction Hos as [|o os Ho _ IH]; [constructor|].
    cbn [map concat]. apply Forall_app. split; [by apply hex_pair_ok|done].
Qed.

(** A kernel that has one host with the same usage for every counter. *)
Definition one_host : list ip_bw := [mk_bw AF_INET [117549248; 0; 0; 0] 123456].

#[local] Instance demo_kernel : Counters := {|
  counters := list (list Z);
  bw_get _ buf := let i := at_ 4 20 buf in response 1 i 0 0 0 (drop (Z.to_nat i) one_host) [];
  bw_set k m := m :: k |}.

Lemma request_index id i : 0 <= i < 2 ^ 32 -> at_ 4 20 (request id 0 None i) = i.
Proof.
  intros Hi. eapply (at_value' _ _ (octets 4 AF_INET ++ concat (map (octets 4) [0; 0; 0; 0]))); [|done|lia].
  unfold request, padded, le. by rewrite <- !app_assoc.
Qed.

Lemma demo_counted i : counted 10 (fun _ => one_host) [] i.
Proof.
  assert (Hu : usage_ok (mk_bw AF_INET [117549248; 0; 0; 0] 123456)).
  { split; [|cbn; lia]. left. split; [done|]. exists 117549248. split; [|done]. unfold word. lia. }
  split; [|split; [by apply Forall_singleton|cbn; lia]]. split; [by apply Forall_singleton, usage_entry|]. split; [done|].
  intros n Hn. exists 1%nat, 0, 0, 0, []. split; [lia|]. split; [lia|]. split; [lia|].
  cbn [bw_get demo_kernel]. rewrite request_index by (cbn [length one_host] in Hn; lia). rewrite Nat2Z.id.
  rewrite (take_ge _ 1) by (rewrite length_drop; cbn; lia). done.
Qed.

#[local] Existing Instances QuotaDemo.quota_nvram QuotaDemo.quota_build QuotaDemo.four_wans QuotaDemo.no_files QuotaDemo.summer.

Lemma usage_survives_restart_witness :
  let ids := file_counters (lines4 (rules (ipt_quotas QuotaDemo.one_wan))) in
  exists d' mss, quota_save 10 any true 1780000000 any (ids_file (ipt_quotas QuotaDemo.one_wan)) [] !"/jffs/quotas" ∅ = Some d' /\
    Forall2 (carries 1780000000 (fun _ => one_host)) mss ids /\
    forall k', quota_restore 10 any true (ids_file (ipt_quotas QuotaDemo.one_wan)) d' !"/jffs/quotas" k' =
      Some (fold_left bw_set (map message_bytes (concat mss)) k').
Proof.
  apply usage_survives_restart.
  - unfold QUOTA_CLOCK_VALID_MIN. lia.
  - cbn. lia.
  - exact QuotaDemo.demo_rules.
  - apply (bool_decide_unpack _). vm_compute. exact I.
  - apply Forall_forall. intros i _. apply demo_counted.
Defined.

End QuotaBackupSpec.
